(* ===== verification/_CoqProject ===== *)
-Q . S2P
Prelude.v
Results.v
Permissions.v
PermissionCalc.v
Models.v
ApiTypes.v
Records.v
ModelOps.v
DbPermissions.v
PermissionSpec.v
RolePrecedence.v
BulkPermissions.v
ReferenceDb.v
RefInvariant.v
Collections.v
World.v
Users.v
Relationships.v
PrivateChannels.v
Servers.v
Channels.v
Members.v
Ratelimiter.v
Beacon.v
Redis.v
Json.v
Broker.v
BeaconAuth.v
Presence.v
Voice.v
Routes.v
Moderation.v
ServerRoutes.v
ChannelRoutes.v
Devices.v
Analytics.v
VoiceIngress.v
Parser.v
Lru.v
Idempotency.v
Coalesced.v
Bridge.v
BridgeMessages.v
Messages.v
Tasks.v
MessageRoutes.v
Github.v
Bots.v
UserRoutes.v
BonfireState.v
BonfireEvents.v
Bonfire.v
