(* ===== verification/Prelude.v ===== *)
(** * Company Backend: a verification development

    ** The program

    The repository is the backend of a chat platform.  Clients talk to a REST
    API ([crates/delta]) and receive events from a WebSocket server
    ([crates/bonfire]); small services serve files, proxies and GIFs, daemons
    deliver push notifications, and [company-beacon-signal] introduces peers to
    each other.  What they share is in [crates/core]: the error type
    ([result]), permissions ([permissions]), the database layer with the data
    model and its operations ([database]), the rate limiter ([ratelimits]).  A
    request is handled by fetching objects from the database, calculating the
    caller's permissions over them, calling a method of a model ([Server],
    [Channel], [Member], [User], ...) that writes to the database and publishes
    events, and returning a value or an error.  The database is a trait with two
    drivers: MongoDB and an in-memory one, the reference driver.

    ** The files, in the order they build on each other

    - [Prelude]: this file.  Outcomes, the state and error monad, table
      combinators, iteration order of hash maps, 64-bit bit operations, stable
      sorting, shared tactics and hints.
    - [Results]: [core/result]: the enumeration of errors, its HTTP statuses in
      the two web frameworks.
    - [Permissions]: [core/permissions/src/models]: permission bits, overrides,
      the accumulator [PermissionValue] and its guards.
    - [PermissionCalc]: [core/permissions/src/impl.rs], [trait.rs]: the
      calculators of user, server and channel permissions against the trait
      [PermissionQuery], a class.
    - [Models], [ModelOps]: [core/database/src/models/*/model.rs]: every field
      of the stored structures, and the methods that only read or change the
      object.
    - [DbPermissions]: [core/database/src/util/permissions.rs]: the query
      object of the API, an instance of [PermissionQuery] over the class
      [PermissionDatabase].
    - [PermissionSpec]: an abstract specification of permissions and the
      refinement theorem; [RolePrecedence]: how the roles of a member combine.
    - [BulkPermissions]: [core/database/src/util/bulk_permissions.rs]: the
      second implementation, over many members.
    - [ApiTypes]: [core/models/src/v0]: the API form of the stored objects;
      [Records]: the model structures of messages, webhooks, unreads, reports
      and the further collections.
    - [ReferenceDb], [RefInvariant]: [core/database/src/drivers/reference.rs]
      and the [ops/reference.rs] of ten collections; what they guarantee.
      [Collections]: the [ops/reference.rs] of eleven further collections.
    - [World]: the class [Database] (the database traits the models call), its
      reference instance, and the effects of a model method.
    - [PrivateChannels]: permissions outside of servers and the effect of a
      block on them; it joins [Relationships] and the calculators.
    - [Relationships], [Servers], [Channels], [Members]: the methods of
      [users/model.rs], [servers/model.rs] (with the check of the route
      [roles_edit_positions.rs]), [channels/model.rs],
      [server_members/model.rs], [server_bans/model.rs] and
      [channel_invites/model.rs] that write and publish.
    - [Ratelimiter]: [core/ratelimits/src/ratelimiter.rs] and the buckets of
      [delta/src/util/ratelimits.rs].
    - [Beacon]: [company-beacon-signal/src]: the peer registry, the session
      store and the message loop; [BeaconAuth]: the HMAC of clients, the
      admission of connections, the message limiter and token validation.
    - [Users]: the rest of [users/model.rs]: names and discriminators, limits,
      badges, tokens, suspension and deletion.
    - [Redis]: the commands the code sends to Redis, a class with the laws of
      the documented commands, and the text encodings of values; [Presence]:
      [core/presence/src]: sessions, the online set, regions.
    - [Voice]: [core/database/src/voice]: the voice state in Redis and the
      LiveKit client.
    - [Routes]: what the routes of the REST API share: references to objects
      ([util/reference.rs]), files, validation, ranks and permissions of the
      caller; [Moderation]: the routes that edit, kick and ban members and
      delete servers; [ServerRoutes]: roles, permissions, settings, channels
      and invites of a server; [ChannelRoutes]: channels, groups and calls.
    - [Json]: untyped JSON values; [Broker]: [core/database/src/broker/mod.rs]:
      the devices of a user, the queues of messages and of what devices send
      each other, the limits on senders and the epochs of channels, in Redis;
      [Devices]: [delta/src/routes/devices], the delivery to a device that
      connects ([bonfire/src/websocket.rs]) and the purge of a channel
      ([message_purge_before.rs], [util/epoch_bump.rs]).
    - [Analytics]: [core/database/src/analytics.rs]: stream sessions and viewer
      snapshots; [VoiceIngress]: [daemons/voice-ingress/src]: the webhooks of
      the voice server, over [Voice] and [Analytics].
    - [Parser]: [core/parser/src/lib.rs]: mentions, escapes and code blocks.
    - [Lru]: the interface of the bounded caches the code uses, with an
      instance; [Idempotency]: [core/database/src/util/idempotency.rs].
    - [Coalesced]: [core/coalesced/src]: concurrent calls that share the run of
      one action, as tasks that interleave at their await points.
    - [Bridge], [BridgeMessages]: [core/database/src/util/bridge/v0.rs]: the
      conversions between the stored and the API form.
    - [Messages]: [messages/model.rs], [channel_webhooks/model.rs] and
      [emojis/model.rs]: creating, sending, editing and deleting messages,
      reactions, push notifications, webhooks and custom emoji.
    - [Tasks]: [core/database/src/tasks]: the delayed tasks, the queue of
      mentions and acknowledgements with its five workers, and the worker that
      records the last message of a channel.
    - [MessageRoutes]: [delta/src/routes/channels/message_*.rs],
      [channel_ack.rs], [webhook_create.rs], [webhook_fetch_all.rs] and
      [delta/src/routes/webhooks]: the routes on messages and webhooks.
    - [Github]: [webhook_execute_github.rs]: the events of GitHub, the embed of
      each and the message that is sent.
    - [Bots]: [bots/model.rs], [bot_commands/model.rs] and
      [delta/src/routes/bots]: bots, their commands, invitations and licences.
    - [UserRoutes]: [delta/src/routes/users], [customisation], [sync], [safety],
      [onboard], [policy] and the reading routes of [servers]: users, emoji,
      settings, unreads, reports.
    - [BonfireState], [BonfireEvents], [Bonfire]: [bonfire/src]: the
      subscriptions of a connection, its cache and what it does with every
      event, the Ready packet, one turn of the listener and of the worker.

    ** How code becomes definitions

    - A fallible function returns an [outcome]: [Ok], [Err] with the source's
      error, or [Panicked] for [unwrap], [expect], [todo!], [panic!] and
      indexing out of range.  A function that changes shared state is in the
      monad [M] over that state; an error keeps what was written before it.
    - A method on [&mut self] returns the object as it left it, so the copy in
      the handler and the row in the database are two values that can differ.
    - Strings are strings, [HashMap] is [gmap], [Vec] is [list]; integers are
      [Z] with the width of the source where it matters: permission values are
      64-bit words, the subtraction of the rate limiter wraps at 32 bits.
    - The iteration order of a [HashMap] is unspecified: the class [HashOrder]
      gives some permutation of the entries, and the theorems hold for each,
      or name the cases where the result depends on it.
    - What the code reads from outside is an argument: drawn identifiers, the
      configured limits, clock readings (one per permission calculation, all of
      them in the rate limiter), hashes, the order of a [HashSet].
    - The [Partial] structures are generated by the crate
      [revolt_optional_struct], which is not in the repository: [apply_options]
      is a parameter with the laws it documents ([OptionalStruct] and the
      classes of laws in [Models]); the module [SomePriority] shows that the
      laws can hold, and the witnesses run with it.
    - Published events, jobs for the push daemon and system messages are logs
      in a [World]; the routes work on [Services]: a [World], a Redis and the
      log of the calls to LiveKit.
    - Redis and LiveKit are parameters.  The class [RedisLaws] states what the
      documentation of the commands says of the keys they read and write (an
      empty set is no key; a command on a key of the wrong type fails);
      [RedisWitness] is a store that satisfies it.  The commands of the broker
      (hashes, lists, counters, expiry) are [BrokerRedis]: a server that does to
      its keys what they do to a store with the time each key has left; the
      operations of the broker inherit the simulation.
    - Interfaces: the permission calculators see [PermissionQuery]; the query
      object sees [PermissionDatabase]; the relationship operations see
      [RelationshipStore] and the group operations [GroupStore], with the laws
      their proofs need; the reference database is an instance wherever its
      methods satisfy the laws, and where they do not ([remove_user_from_group])
      a theorem shows the difference.

    - The lexer of the parser is generated by the library [logos] and is an
      argument; the rest of the parser consumes its tokens.
    - A call of the crate [coalesced] is a task with a program counter, one
      value per await point; every schedule of the tasks, and every place at
      which a caller may drop its call, is a step of a relation.

    No definition takes fuel: recursion is structural, except for
    [Parser.collect], which is well-founded on the tokens that are left, and
    every computation of the model returns.

    ** What the theorems show

    - Permissions.  The stateful calculation over the database computes a
      closed specification on server channels
      ([PermissionSpec.calculate_channel_permissions_refines]) and on saved
      messages, direct messages and groups
      ([PrivateChannels.private_channel_permissions_refines]); a channel that
      cannot be viewed gives no permission at all; a timed out member keeps at
      most the permissions of the time out; nobody can grant or lift an
      override beyond their own permissions ([Permissions.override_no_escalation]);
      a member's highest role that mentions a permission decides it, within what
      voice restrictions and a time out leave, for all but privileged users and
      owners ([RolePrecedence.role_rank_precedence]); with distinct ranks the order of
      the hash map is irrelevant, with tied ranks it is not; the bulk query
      agrees with the single one on visibility; overrides survive their two
      encodings.
    - Relationships.  The four operations implement the transition table of a
      pair of users; every reachable pair is consistent; two interleaved
      requests can break it.  Blocking stops direct messages on both sides,
      except of a privileged user and of the owner of a bot to the bot
      ([PrivateChannels.block_stops_messages]).
    - Servers, channels, members.  Reordering is a round trip with
      [ordered_roles] and safe behind the route's check; groups stay well
      formed under every operation; leaving and creating a group, joining,
      leaving, banning and joining again do what they promise, with the events
      they publish; the copy and the stored channel agree after an update.
    - The reference database.  Keys agree with the identifiers of the stored
      objects in every reachable state; insert and fetch are inverse; the
      methods that do not do what their trait says are named one by one.
    - Rate limiter.  A window accepts exactly its limit, the counter stays in
      bounds, and buckets that share a counter share a limit.
    - Beacon.  In every reachable state a resolved hash leads to a registered
      peer that offers it; a session admits once, while it is fresh, and only
      who had a valid HMAC ([BeaconAuth.sessions_admit_once]); the limiter passes
      ten messages and ten more per second; but the token that names a peer is
      checked with the key it carries ([BeaconAuth.any_key_claims_any_peer]).
    - Errors.  The two HTTP translations agree on every error.
    - Users.  Names with discriminators stay unique, the search for a free
      discriminator is complete.
    - Presence and voice.  The sets that describe who is online and who is in
      which call agree in every state that requests handled one after the other
      reach; sessions, voice states and their updates are read back as written;
      clearing a region terminates and leaves nobody online.  The webhooks of
      the voice server keep those sets in agreement, for participants with user
      ids ([VoiceIngress.webhooks_keep_voice_views]), announce a move once and remove
      who publishes a forbidden track; the peaks of a stream bound its counts.
    - Routes.  Editing and banning members, editing roles, role permissions
      and default permissions, and removing recipients of a group succeed only
      for callers with the permission and the rank, give no permission away
      that the caller lacks, and write what was asked
      ([Moderation.member_edit_authorised],
      [ServerRoutes.role_permissions_no_escalation], ...); a call without a
      voice server can be joined and left.  Further theorems pin down requests
      the checks do not cover ([ServerRoutes.anyone_opens_a_server],
      [Moderation.mute_lifted_without_permission],
      [ChannelRoutes.channel_override_wrong_baseline]) and panics
      ([ChannelRoutes.p2p_call_blocks_deletion],
      [ServerRoutes.group_invite_delete_panics]).
    - Messages.  A created message mentions only users who can see it
      ([Messages.created_mentions_reach_the_channel]), respects the limits of
      its author, is stored and published once, and a nonce admits one message;
      reactions implement a relation between emojis and users
      ([Collections.reactions_refine_relation]) and can be taken back.  Parsing
      terminates and finds the mentions outside of escapes and code blocks.
    - Message routes.  Whoever changes a message of somebody else manages
      messages in its channel ([MessageRoutes.messages_protected]); a sent
      message was allowed in every part; a reader of the history gets messages
      of the channel only; pinning in a direct message channel and editing a
      webhook check less than they should ([MessageRoutes.stranger_pins],
      [MessageRoutes.webhook_gets_any_permission]).
    - Bots.  Who does not own a bot leaves it as it is ([Bots.bots_protected]);
      an owner never has too many bots nor two AI companions, and an invitation
      leaves a companion in one server ([Bots.companion_in_one_server]).
    - The broker.  A device gets what was queued for it, once and in order, less
      what was purged ([Broker.drain_delivers]), if Redis acknowledged the epoch
      of the purge ([Devices.purge_erases], over a Redis that may fail at any
      command); queues and what they hold stay within their limits when calls do
      not overlap, and exceed the depth at most by the pushes under way at once
      when they do ([Broker.queues_bounded]), a
      sender queues thirty messages for a recipient at most in a window
      ([Broker.pair_budget]), and a user keeps eight devices, or nine
      ([Broker.device_cap]); what a device pushes to another of the same user
      arrives ([Devices.sync_roundtrip]); only who manages the messages of a
      channel purges it ([Devices.purge_authorised]).  A counter whose first
      message is refused locks the sender out for ever
      ([Broker.counter_sticks]).
    - Users and emoji.  Who edits a profile owns it, owns the bot or is
      privileged ([UserRoutes.user_edit_authorised]); servers keep their limit
      of emoji; two edits delete a file of somebody else
      ([UserRoutes.any_file_deleted]).
    - GitHub.  A request with the token of the webhook sends one valid embed, any
      other changes nothing ([Github.github_sends_one_embed]); texts are cut at
      the limit or the request panics ([Github.shorten_text_spec]); the
      permissions of the webhook are ignored
      ([Github.github_ignores_permissions]).
    - Background tasks.  No interleaving of the queue and its workers loses a
      message or handles it twice ([Tasks.messages_conserved]), except those of
      a worker that panics; no task waits for long; a mass mention outside of a
      server panics the worker ([Tasks.group_mention_stops_worker]).
    - Conversions.  Objects survive the API form; the permissions calculated
      from them are the same on both sides; the conversions of a user show
      presence and status to those who see the profile, by the rule of each
      conversion ([Bridge.profile_visibility]).
    - Event server.  The Redis connection has the topics in the state of the
      client, and beyond those only topics that were added and removed within one
      queue ([Bonfire.event_server_topics_agree]); after a recalculation the
      cached channels of the server are visible ones, those cached before and
      those the database returned ([Bonfire.recalculated_server_visible]); a user update
      is forwarded once.  [Bonfire.relationship_event_reveals_channels] and the
      lemmas around it show events that the cache takes wrongly.
    - Concurrency.  The callers of [coalesced] get values of their type that
      were computed for their id, and never wait for a result that nobody will
      send; a replayed idempotency key is refused.

    ** What is not modelled

    The MongoDB driver and the collections only it implements (decorations,
    assets, beacons), migrations, RabbitMQ and S3 (external servers); JSON and
    BSON encodings; routing, parsing and rendering of HTTP requests, and the
    routes on push subscriptions, decorations, assets, beacons and external
    services; the file, proxy and GIF services and the push and clean-up daemons,
    which call external libraries and servers; the handshake, the encodings and
    the Redis connection of the WebSocket server; the optional cache of
    [coalesced].  Cryptography (HMAC, Ed25519, RSA), floating point and regular
    expressions are parameters.  Requests are steps that do not overlap, except
    where a theorem splits an operation into its reads and writes (the pushes of
    [Broker] between commands of any calls) and in [Coalesced].  Redis answers,
    except in [Devices.purge_erases].

    ** Plan

    What would be next: the file service behind an interface of its storage, and
    the push daemon. *)

From stdpp Require Export base decidable gmap strings list sorting.
From Stdlib Require Export ZArith Lia.
#[global] Open Scope Z_scope.

(** ** Outcomes and the state monad

    A Rust computation of type [Result<T>] either returns [Ok], returns [Err]
    with a value of [company_result::ErrorType], or panics ([unwrap], [expect],
    [todo!], [unreachable!]).  A computation that mutates a shared object of
    type [S] is a function of that object; an error does not roll back what was
    written before it. *)

Inductive outcome (E A : Type) : Type :=
| Ok (a : A)
| Err (e : E)
| Panicked.
Arguments Ok {E A} a.
Arguments Err {E A} e.
Arguments Panicked {E A}.

Definition ok_or {E A} (e : E) (o : option A) : outcome E A :=
  match o with Some a => Ok a | None => Err e end.

Definition is_ok {E A} (o : outcome E A) : bool :=
  match o with Ok _ => true | _ => false end.

#[export] Instance outcome_ret {E} : MRet (outcome E) := fun A a => Ok a.
#[export] Instance outcome_bind {E} : MBind (outcome E) :=
  fun A B f o => match o with Ok a => f a | Err e => Err e | Panicked => Panicked end.

Definition M (E S A : Type) : Type := S -> outcome E A * S.

#[export] Instance M_ret {E S} : MRet (M E S) := fun A a s => (Ok a, s).
#[export] Instance M_bind {E S} : MBind (M E S) :=
  fun A B f m s =>
    match m s with
    | (Ok a, s') => f a s'
    | (Err e, s') => (Err e, s')
    | (Panicked, s') => (Panicked, s')
    end.

Definition get {E S} : M E S S := fun s => (Ok s, s).
Definition put {E S} (s : S) : M E S unit := fun _ => (Ok tt, s).
Definition modify {E S} (f : S -> S) : M E S unit := fun s => (Ok tt, f s).
Definition throw {E S A} (e : E) : M E S A := fun s => (Err e, s).
Definition panic {E S A} : M E S A := fun s => (Panicked, s).
Definition lift_outcome {E S A} (o : outcome E A) : M E S A := fun s => (o, s).
Definition reads {E S A} (f : S -> A) : M E S A := fun s => (Ok (f s), s).

(** [let _ = r;], [r.ok();]: the effect is kept, the error is dropped. *)
Definition ignore_err {E S A} (m : M E S A) : M E S unit :=
  fun s => match m s with
           | (Panicked, s') => (Panicked, s')
           | (_, s') => (Ok tt, s')
           end.

Lemma M_bind_ok {E S A B} (m : M E S A) (f : A -> M E S B) s a s' :
  m s = (Ok a, s') -> mbind f m s = f a s'.
Proof. intros H. unfold mbind, M_bind. by rewrite H. Qed.

Lemma M_bind_err {E S A B} (m : M E S A) (f : A -> M E S B) s e s' :
  m s = (Err e, s') -> mbind f m s = (Err e, s').
Proof. intros H. unfold mbind, M_bind. by rewrite H. Qed.

Lemma outcome_bind_Ok {E A B} (m : outcome E A) (f : A -> outcome E B) b :
  m ≫= f = Ok b -> exists a, m = Ok a /\ f a = Ok b.
Proof. destruct m; [|done|done]. by eexists. Qed.

Lemma M_bind_Ok_inv {E S A B} (m : M E S A) (f : A -> M E S B) s b s' :
  mbind f m s = (Ok b, s') -> exists a s1, m s = (Ok a, s1) /\ f a s1 = (Ok b, s').
Proof.
  unfold mbind, M_bind. destruct (m s) as [[a|e|] s1]; [|done|done]. intros H. by exists a, s1.
Qed.

(** ** Machine integers *)

Definition u64_max : Z := 2 ^ 64 - 1.
Definition is_u64 (v : Z) : Prop := 0 <= v < 2 ^ 64.

(** [v as u64] of an [i64], [v as i64] of a [u64], and [!v] on [u64]. *)
Definition as_u64 (v : Z) : Z := v mod 2 ^ 64.
Definition as_i64 (v : Z) : Z :=
  let m := v mod 2 ^ 64 in if m <? 2 ^ 63 then m else m - 2 ^ 64.
Definition u64_not (v : Z) : Z := Z.ldiff u64_max v.
Definition i64_max : Z := 2 ^ 63 - 1.
Definition i64_min : Z := - 2 ^ 63.
Definition is_i64 (v : Z) : Prop := i64_min <= v <= i64_max.

Lemma is_u64_bits v : is_u64 v <-> 0 <= v /\ forall b, 64 <= b -> Z.testbit v b = false.
Proof.
  unfold is_u64. split.
  - intros [H0 H1]. split; [done|]. intros b Hb.
    destruct (decide (v = 0)) as [->|Hne]; [apply Z.bits_0|].
    apply Z.bits_above_log2; [done|].
    assert (Z.log2 v < 64) by (apply Z.log2_lt_pow2; lia). lia.
  - intros [H0 H]. split; [done|].
    destruct (decide (v = 0)) as [->|Hne]; [lia|].
    apply Z.log2_lt_pow2; [lia|].
    destruct (decide (Z.log2 v < 64)) as [|Hge]; [done|exfalso].
    specialize (H (Z.log2 v)). rewrite Z.bit_log2 in H by lia.
    discriminate H; lia.
Qed.

Lemma u64_max_bits b : 0 <= b -> Z.testbit u64_max b = (b <? 64).
Proof.
  intros Hb. change u64_max with (Z.ones 64).
  rewrite Z.testbit_ones_nonneg by lia. done.
Qed.

Lemma u64_not_bits v b : 0 <= b -> Z.testbit (u64_not v) b = (b <? 64) && negb (Z.testbit v b).
Proof. intros Hb. unfold u64_not. by rewrite Z.ldiff_spec, u64_max_bits. Qed.

Lemma is_u64_lor a b : is_u64 a -> is_u64 b -> is_u64 (Z.lor a b).
Proof.
  rewrite !is_u64_bits. intros [Ha Ha'] [Hb Hb']. split; [by apply Z.lor_nonneg|].
  intros c Hc. by rewrite Z.lor_spec, Ha', Hb'.
Qed.

Lemma is_u64_land_l a b : is_u64 a -> is_u64 (Z.land a b).
Proof.
  rewrite !is_u64_bits. intros [Ha Ha']. split; [apply Z.land_nonneg; by left|].
  intros c Hc. by rewrite Z.land_spec, Ha'.
Qed.

Lemma is_u64_land_r a b : is_u64 b -> is_u64 (Z.land a b).
Proof. rewrite Z.land_comm. apply is_u64_land_l. Qed.

Lemma is_u64_not v : is_u64 (u64_not v).
Proof.
  apply is_u64_bits. unfold u64_not. split.
  - apply Z.ldiff_nonneg. left. unfold u64_max. lia.
  - intros b Hb. rewrite Z.ldiff_spec, u64_max_bits by lia.
    destruct (Z.ltb_spec b 64); [lia|done].
Qed.

Lemma is_u64_as v : is_u64 (as_u64 v).
Proof. apply Z.mod_pos_bound. lia. Qed.

Lemma as_u64_id v : is_u64 v -> as_u64 v = v.
Proof. apply Z.mod_small. Qed.

Lemma is_i64_as v : is_i64 (as_i64 v).
Proof.
  unfold is_i64, i64_min, i64_max, as_i64.
  pose proof (Z.mod_pos_bound v (2 ^ 64)). destruct (Z.ltb_spec (v mod 2 ^ 64) (2 ^ 63)); lia.
Qed.

Lemma as_u64_as_i64 v : is_u64 v -> as_u64 (as_i64 v) = v.
Proof.
  intros Hv. unfold as_u64, as_i64. rewrite (Z.mod_small v) by exact Hv.
  unfold is_u64 in Hv. destruct (Z.ltb_spec v (2 ^ 63)).
  - by apply Z.mod_small.
  - replace (v - 2 ^ 64) with (v + -1 * 2 ^ 64) by lia.
    rewrite Z.mod_add by lia. by apply Z.mod_small.
Qed.

Lemma as_i64_as_u64 v : is_i64 v -> as_i64 (as_u64 v) = v.
Proof.
  unfold is_i64, i64_min, i64_max, as_u64, as_i64. intros Hv.
  rewrite Z.mod_mod by lia.
  destruct (decide (0 <= v)).
  - rewrite Z.mod_small by lia. destruct (Z.ltb_spec v (2 ^ 63)); lia.
  - replace (v mod 2 ^ 64) with (v + 2 ^ 64).
    + destruct (Z.ltb_spec (v + 2 ^ 64) (2 ^ 63)); lia.
    + symmetry. rewrite <- (Z.mod_add v 1 (2 ^ 64)) by lia.
      rewrite Z.mul_1_l. apply Z.mod_small. lia.
Qed.

(** Equality of two 64-bit values, bit by bit below 64. *)
Lemma u64_bits_eq a b :
  is_u64 a -> is_u64 b -> (forall i, 0 <= i < 64 -> Z.testbit a i = Z.testbit b i) -> a = b.
Proof.
  rewrite !is_u64_bits. intros [_ Ha] [_ Hb] H. apply Z.bits_inj'. intros i Hi.
  destruct (decide (i < 64)); [apply H; lia|]. by rewrite Ha, Hb by lia.
Qed.

Create HintDb u64.
#[export] Hint Resolve is_u64_lor is_u64_land_l is_u64_land_r is_u64_not is_u64_as : u64.

(** ** HashMap iteration

    The iteration order of a [std::collections::HashMap] is unspecified.  Code
    that iterates one is translated against this class: the entries of the map
    in some order.  What is proved of such code holds for every order; the
    instance [hash_order_canonical] shows that the class is inhabited. *)

Class HashOrder := {
  hm_iter : forall {K : Type} {eqK : EqDecision K} {cK : Countable K} {V : Type},
    gmap K V -> list (K * V);
  hm_iter_perm : forall {K : Type} {eqK : EqDecision K} {cK : Countable K} {V : Type}
    (m : gmap K V), hm_iter m ≡ₚ map_to_list m }.

Definition hash_order_canonical : HashOrder :=
  {| hm_iter := fun K eqK cK V (m : gmap K V) => map_to_list m;
     hm_iter_perm := fun K eqK cK V m => reflexivity (map_to_list m) |}.

(** The order of [hash_order_canonical], reversed: a second inhabitant. *)
Definition hash_order_reversed : HashOrder :=
  {| hm_iter := fun K eqK cK V (m : gmap K V) => rev (map_to_list m);
     hm_iter_perm := fun K eqK cK V m => Permutation_sym (Permutation_rev (map_to_list m)) |}.

Definition hm_values `{HashOrder} {K} `{Countable K} {V} (m : gmap K V) : list V :=
  (hm_iter m).*2.

Section HashOrderLemmas.
Context `{HO : HashOrder} {K : Type} `{Countable K} {V : Type}.

Lemma elem_of_hm_iter (m : gmap K V) k v : (k, v) ∈ hm_iter m <-> m !! k = Some v.
Proof. by rewrite hm_iter_perm, elem_of_map_to_list. Qed.

Lemma NoDup_hm_iter (m : gmap K V) : NoDup (hm_iter m).
Proof. rewrite hm_iter_perm. apply NoDup_map_to_list. Qed.

Lemma NoDup_fst_hm_iter (m : gmap K V) : NoDup (hm_iter m).*1.
Proof. rewrite hm_iter_perm. apply NoDup_fst_map_to_list. Qed.

Lemma elem_of_hm_values (m : gmap K V) v : v ∈ hm_values m <-> exists k, m !! k = Some v.
Proof.
  unfold hm_values. rewrite list_elem_of_fmap. split.
  - intros [[k v'] [-> Hk]]. exists k. by apply elem_of_hm_iter.
  - intros [k Hk]. exists (k, v). split; [done|]. by apply elem_of_hm_iter.
Qed.
End HashOrderLemmas.

(** ** [slice::sort_by]: a stable sort *)

Fixpoint insert_by {A} (cmp : A -> A -> comparison) (x : A) (l : list A) : list A :=
  match l with
  | [] => [x]
  | y :: ys => match cmp x y with Gt => y :: insert_by cmp x ys | _ => x :: y :: ys end
  end.

Definition sort_by {A} (cmp : A -> A -> comparison) (l : list A) : list A :=
  foldr (insert_by cmp) [] l.

Lemma insert_by_perm {A} (cmp : A -> A -> comparison) x l : insert_by cmp x l ≡ₚ x :: l.
Proof.
  induction l as [|y l IH]; [done|]. simpl. destruct (cmp x y); try done.
  rewrite IH. apply Permutation_swap.
Qed.

Lemma sort_by_perm {A} (cmp : A -> A -> comparison) l : sort_by cmp l ≡ₚ l.
Proof. induction l as [|x l IH]; [done|]. simpl. by rewrite insert_by_perm, IH. Qed.

(** Sorting on an integer key, in the descending order of the role lists
    ([sort_by(|a, b| b.0.cmp(&a.0))]) or the ascending one. *)
Definition cmp_desc {A} (key : A -> Z) (a b : A) : comparison := (key b ?= key a)%Z.
Definition cmp_asc {A} (key : A -> Z) (a b : A) : comparison := (key a ?= key b)%Z.
Definition key_ge {A} (key : A -> Z) (a b : A) : Prop := key b <= key a.
Definition key_le {A} (key : A -> Z) (a b : A) : Prop := key a <= key b.

Section SortOrder.
Context {A : Type} (cmp : A -> A -> comparison) (R : relation A) `{!Transitive R}.
Hypothesis cmp_gt : forall a b, cmp a b = Gt -> R b a.
Hypothesis cmp_le : forall a b, cmp a b <> Gt -> R a b.

Lemma insert_by_sorted x l :
  StronglySorted R l -> StronglySorted R (insert_by cmp x l).
Proof using All.
  induction 1 as [|y l Hl IH Hy]; [by repeat constructor|]. simpl.
  destruct (cmp x y) eqn:E.
  1, 2: assert (R x y) by (apply cmp_le; congruence);
    constructor; [by constructor|]; constructor; [done|];
    eapply Forall_impl; [exact Hy|]; intros z ?; by transitivity y.
  constructor; [done|]. rewrite insert_by_perm. constructor; [by apply cmp_gt|done].
Qed.

Lemma sort_by_sorted l : StronglySorted R (sort_by cmp l).
Proof using All. induction l; [constructor|]. by apply insert_by_sorted. Qed.
End SortOrder.

Lemma sort_by_desc_sorted {A} (key : A -> Z) l :
  StronglySorted (key_ge key) (sort_by (cmp_desc key) l).
Proof.
  apply sort_by_sorted; unfold key_ge, cmp_desc.
  - intros x y z ??. lia.
  - intros a b. rewrite Z.compare_gt_iff. lia.
  - intros a b. rewrite Z.compare_le_iff. lia.
Qed.

Lemma sort_by_asc_sorted {A} (key : A -> Z) l :
  StronglySorted (key_le key) (sort_by (cmp_asc key) l).
Proof.
  apply sort_by_sorted; unfold key_le, cmp_asc.
  - intros x y z ??. lia.
  - intros a b. rewrite Z.compare_gt_iff. lia.
  - intros a b. rewrite Z.compare_le_iff. lia.
Qed.

(** Two sorted arrangements of entries with pairwise distinct keys are equal. *)
Lemma sorted_desc_unique {A} (key : A -> Z) l1 l2 :
  NoDup (key <$> l1) -> StronglySorted (key_ge key) l1 -> StronglySorted (key_ge key) l2 ->
  l1 ≡ₚ l2 -> l1 = l2.
Proof.
  intros Hnd H1. revert l2 Hnd.
  induction H1 as [|x l1 Hs IH Hx]; intros l2 Hnd H2 Hp.
  { by apply Permutation_nil_l in Hp as <-. }
  destruct H2 as [|y l2 Hs2 Hy]; [by symmetry in Hp; apply Permutation_nil_cons in Hp|].
  rewrite Forall_forall in Hx, Hy. unfold key_ge in *.
  apply NoDup_cons in Hnd as [Hnx Hnd].
  assert (x = y) as ->.
  { assert (y ∈ x :: l1) as Hyin by (rewrite Hp; left).
    assert (x ∈ y :: l2) as Hxin by (rewrite <- Hp; left).
    apply elem_of_cons in Hyin as [->|Hyin]; [done|].
    apply elem_of_cons in Hxin as [->|Hxin]; [done|].
    destruct Hnx. apply list_elem_of_fmap. exists y. split; [|done].
    pose proof (Hx _ Hyin). pose proof (Hy _ Hxin). lia. }
  apply Permutation_cons_inv in Hp. by rewrite (IH l2).
Qed.

Lemma StronglySorted_weaken {A} (R1 R2 : relation A) l :
  (forall a b, R1 a b -> R2 a b) -> StronglySorted R1 l -> StronglySorted R2 l.
Proof.
  intros HR. induction 1 as [|x l Hs IH Hx]; constructor; [done|].
  eapply Forall_impl; [exact Hx|]. apply HR.
Qed.

Lemma sorted_asc_unique {A} (key : A -> Z) l1 l2 :
  NoDup (key <$> l1) -> StronglySorted (key_le key) l1 -> StronglySorted (key_le key) l2 ->
  l1 ≡ₚ l2 -> l1 = l2.
Proof.
  intros Hnd H1 H2 Hp. apply (sorted_desc_unique (fun a => - key a)); [| | |done].
  - rewrite (list_fmap_compose key Z.opp). by apply NoDup_fmap_2; [intros ???; lia|].
  - eapply StronglySorted_weaken; [|exact H1]. unfold key_le, key_ge. lia.
  - eapply StronglySorted_weaken; [|exact H2]. unfold key_le, key_ge. lia.
Qed.

Lemma sort_by_desc_unique {A} (key : A -> Z) l1 l2 :
  NoDup (key <$> l1) -> l1 ≡ₚ l2 -> sort_by (cmp_desc key) l1 = sort_by (cmp_desc key) l2.
Proof.
  intros Hnd Hp. apply (sorted_desc_unique key).
  - by rewrite sort_by_perm.
  - apply sort_by_desc_sorted.
  - apply sort_by_desc_sorted.
  - by rewrite !sort_by_perm.
Qed.

Lemma perm_omap {A B} (f : A -> option B) l1 l2 : l1 ≡ₚ l2 -> omap f l1 ≡ₚ omap f l2.
Proof.
  induction 1 as [|x l1 l2 _ IH|x y l|l1 l2 l3 _ IH1 _ IH2]; simpl.
  - done.
  - destruct (f x); [by constructor|done].
  - destruct (f x), (f y); try done. apply Permutation_swap.
  - by rewrite IH1.
Qed.

Lemma filter_ext_in {A} (P Q : A -> Prop) `{!forall x, Decision (P x)} `{!forall x, Decision (Q x)} (l : list A) :
  (forall x, x ∈ l -> P x <-> Q x) -> filter P l = filter Q l.
Proof.
  induction l as [|x l IH]; intros Hx; [done|]. rewrite !filter_cons.
  rewrite IH by (intros; apply Hx; by right).
  pose proof (Hx x ltac:(by left)). by repeat case_decide; try tauto.
Qed.

(** Entries that [f] drops may be filtered or not. *)
Lemma omap_filter_ext {A B} (f : A -> option B) (P Q : A -> Prop)
    `{!forall x, Decision (P x)} `{!forall x, Decision (Q x)} (l : list A) :
  (forall x, f x <> None -> P x <-> Q x) -> omap f (filter P l) = omap f (filter Q l).
Proof.
  intros Hx. induction l as [|x l IH]; [done|]. rewrite !filter_cons.
  destruct (f x) as [y|] eqn:E.
  - pose proof (Hx x ltac:(congruence)). repeat case_decide; try tauto. simpl. rewrite E. f_equal. exact IH.
  - repeat case_decide; simpl; rewrite ?E; done.
Qed.

(** ** Sets of strings as the code reads them *)

(** [list.contains(&x)] *)
Definition contains (x : string) (l : list string) : bool := bool_decide (x ∈ l).

Lemma contains_spec x l : contains x l = true <-> x ∈ l.
Proof. unfold contains. apply bool_decide_eq_true. Qed.

(** ** Automation *)

(** Split the matches and conditionals of the goal, with their equations. *)
Ltac split_matches :=
  repeat (case_match; simplify_eq/=; try done).

(** Run a monadic computation: expose the bind of [M] and reduce. *)
Ltac run_M :=
  unfold mbind, M_bind, mret, M_ret, get, put, modify, throw, panic, lift_outcome, reads in *;
  simpl in *.
