(* ===== verification/Results.v ===== *)
(** * Errors and HTTP statuses ([crates/core/result])

    The error type every fallible operation of the backend returns, and the two
    translations of an error into an HTTP status: the one of the REST API
    ([rocket.rs]) and the one of the axum micro-services ([axum.rs]).  The field
    [location] of [Error], a source position, is not modelled. *)

From S2P Require Import Prelude.

Module ErrorType.
(** [ErrorType]; [usize] and [u32] payloads are integers. *)
Inductive ErrorType : Type :=
| LabelMe
| AlreadyOnboarded
| UsernameTaken
| InvalidUsername
| DiscriminatorChangeRatelimited
| UnknownUser
| AlreadyFriends
| AlreadySentRequest
| Blocked
| BlockedByOther
| NotFriends
| TooManyPendingFriendRequests (max : Z)
| UnknownChannel
| UnknownAttachment
| UnknownMessage
| CannotEditMessage
| CannotJoinCall
| TooManyAttachments (max : Z)
| TooManyEmbeds (max : Z)
| TooManyReplies (max : Z)
| TooManyChannels (max : Z)
| EmptyMessage
| PayloadTooLarge
| CannotRemoveYourself
| GroupTooLarge (max : Z)
| AlreadyInGroup
| NotInGroup
| AlreadyPinned
| NotPinned
| UnknownServer
| InvalidRole
| Banned
| TooManyServers (max : Z) (message : string)
| TooManyEmoji (max : Z)
| TooManyRoles (max : Z)
| AlreadyInServer
| CannotTimeoutYourself
| ReachedMaximumBots
| IsBot
| IsNotBot
| BotIsPrivate
| TooManyBotCommands
| DuplicateCommandName
| UnknownInteraction
| AICompanionBotExists
| AICompanionServerLimit (message : string)
| LicenseVerificationFailed (message : string)
| BotMissingEncryptionKey
| InvalidPublicKey (message : string)
| EncryptionKeyNotFound
| InvitationExpired
| EncryptionError (message : string)
| CannotReportYourself
| MissingPermission (permission : string)
| MissingUserPermission (permission : string)
| NotElevated
| NotPrivileged
| CannotGiveMissingPermissions
| NotOwner
| IsElevated
| DatabaseError (operation : string) (collection : string)
| InternalError
| InvalidOperation
| InvalidCredentials
| InvalidProperty
| InvalidSession
| InvalidFlagValue
| NotAuthenticated
| DuplicateNonce
| NotFound
| NoEffect
| FailedValidation (error : string)
| LiveKitUnavailable
| NotAVoiceChannel
| AlreadyConnected
| NotConnected
| UnknownNode
| ProxyError
| FileTooSmall
| FileTooLarge (max : Z)
| FileTypeNotAllowed
| ImageProcessingFailed
| NoEmbedData
| VosoUnavailable
| FeatureDisabled (feature : string)
| InsufficientTier (required : string) (message : string)
| ServerMemberLimitReached (max : Z) (message : string)
| ViewerLimitReached (max : Z) (message : string)
| ClipDailyLimitReached (max : Z) (message : string)
| ClipStorageLimitReached (max : Z) (message : string)
| ClipDurationNotAllowed
| ClippingNotEnabled
| BitrateExceedsTier (max : Z) (message : string)
| StripeError (message : string)
| AlreadySubscribed
| NoActiveSubscription.
End ErrorType.
Abbreviation ErrorType := ErrorType.ErrorType.

#[export] Instance ErrorType_eq_dec : EqDecision ErrorType.
Proof. solve_decision. Defined.

(** [company_result::Result<T>] *)
Abbreviation Result := (outcome ErrorType).

(** [create_database_error!] *)
Definition create_database_error (operation collection : string) : ErrorType :=
  ErrorType.DatabaseError operation collection.

(** HTTP statuses by their code. *)
Module Status.
Definition Ok_ : Z := 200.
Definition BadRequest : Z := 400.
Definition Unauthorized : Z := 401.
Definition Forbidden : Z := 403.
Definition NotFound : Z := 404.
Definition Conflict : Z := 409.
Definition Gone : Z := 410.
Definition UnprocessableEntity : Z := 422.
Definition TooManyRequests : Z := 429.
Definition InternalServerError : Z := 500.
Definition BadGateway : Z := 502.
End Status.

(** [Responder for Error] of [rocket.rs]: the status of the response. *)
Definition respond_to (e : ErrorType) : Z :=
  match e with
  | ErrorType.LabelMe => Status.InternalServerError
  | ErrorType.AlreadyOnboarded => Status.Forbidden
  | ErrorType.UnknownUser => Status.NotFound
  | ErrorType.InvalidUsername => Status.BadRequest
  | ErrorType.UsernameTaken => Status.Conflict
  | ErrorType.DiscriminatorChangeRatelimited => Status.TooManyRequests
  | ErrorType.AlreadyFriends => Status.Conflict
  | ErrorType.AlreadySentRequest => Status.Conflict
  | ErrorType.Blocked => Status.Conflict
  | ErrorType.BlockedByOther => Status.Forbidden
  | ErrorType.NotFriends => Status.Forbidden
  | ErrorType.TooManyPendingFriendRequests _ => Status.BadRequest
  | ErrorType.UnknownChannel => Status.NotFound
  | ErrorType.UnknownMessage => Status.NotFound
  | ErrorType.UnknownAttachment => Status.BadRequest
  | ErrorType.CannotEditMessage => Status.Forbidden
  | ErrorType.CannotJoinCall => Status.BadRequest
  | ErrorType.TooManyAttachments _ => Status.BadRequest
  | ErrorType.TooManyReplies _ => Status.BadRequest
  | ErrorType.EmptyMessage => Status.UnprocessableEntity
  | ErrorType.PayloadTooLarge => Status.UnprocessableEntity
  | ErrorType.CannotRemoveYourself => Status.BadRequest
  | ErrorType.GroupTooLarge _ => Status.Forbidden
  | ErrorType.AlreadyInGroup => Status.Conflict
  | ErrorType.NotInGroup => Status.NotFound
  | ErrorType.AlreadyPinned => Status.BadRequest
  | ErrorType.NotPinned => Status.BadRequest
  | ErrorType.InvalidFlagValue => Status.BadRequest
  | ErrorType.UnknownServer => Status.NotFound
  | ErrorType.InvalidRole => Status.NotFound
  | ErrorType.Banned => Status.Forbidden
  | ErrorType.AlreadyInServer => Status.Conflict
  | ErrorType.CannotTimeoutYourself => Status.BadRequest
  | ErrorType.TooManyServers _ _ => Status.BadRequest
  | ErrorType.TooManyEmbeds _ => Status.BadRequest
  | ErrorType.TooManyEmoji _ => Status.BadRequest
  | ErrorType.TooManyChannels _ => Status.BadRequest
  | ErrorType.TooManyRoles _ => Status.BadRequest
  | ErrorType.ReachedMaximumBots => Status.BadRequest
  | ErrorType.IsBot => Status.BadRequest
  | ErrorType.IsNotBot => Status.BadRequest
  | ErrorType.BotIsPrivate => Status.Forbidden
  | ErrorType.TooManyBotCommands => Status.BadRequest
  | ErrorType.DuplicateCommandName => Status.Conflict
  | ErrorType.UnknownInteraction => Status.NotFound
  | ErrorType.AICompanionBotExists => Status.Conflict
  | ErrorType.AICompanionServerLimit _ => Status.Forbidden
  | ErrorType.LicenseVerificationFailed _ => Status.Forbidden
  | ErrorType.BotMissingEncryptionKey => Status.BadRequest
  | ErrorType.InvalidPublicKey _ => Status.BadRequest
  | ErrorType.EncryptionKeyNotFound => Status.NotFound
  | ErrorType.InvitationExpired => Status.Gone
  | ErrorType.EncryptionError _ => Status.InternalServerError
  | ErrorType.CannotReportYourself => Status.BadRequest
  | ErrorType.MissingPermission _ => Status.Forbidden
  | ErrorType.MissingUserPermission _ => Status.Forbidden
  | ErrorType.NotElevated => Status.Forbidden
  | ErrorType.NotPrivileged => Status.Forbidden
  | ErrorType.CannotGiveMissingPermissions => Status.Forbidden
  | ErrorType.NotOwner => Status.Forbidden
  | ErrorType.IsElevated => Status.Forbidden
  | ErrorType.DatabaseError _ _ => Status.InternalServerError
  | ErrorType.InternalError => Status.InternalServerError
  | ErrorType.InvalidOperation => Status.BadRequest
  | ErrorType.InvalidCredentials => Status.Unauthorized
  | ErrorType.InvalidProperty => Status.BadRequest
  | ErrorType.InvalidSession => Status.Unauthorized
  | ErrorType.NotAuthenticated => Status.Unauthorized
  | ErrorType.DuplicateNonce => Status.Conflict
  | ErrorType.NotFound => Status.NotFound
  | ErrorType.NoEffect => Status.Ok_
  | ErrorType.FailedValidation _ => Status.BadRequest
  | ErrorType.LiveKitUnavailable => Status.BadRequest
  | ErrorType.NotAVoiceChannel => Status.BadRequest
  | ErrorType.AlreadyConnected => Status.BadRequest
  | ErrorType.NotConnected => Status.BadRequest
  | ErrorType.UnknownNode => Status.BadRequest
  | ErrorType.FeatureDisabled _ => Status.BadRequest
  | ErrorType.ProxyError => Status.BadRequest
  | ErrorType.FileTooSmall => Status.UnprocessableEntity
  | ErrorType.FileTooLarge _ => Status.UnprocessableEntity
  | ErrorType.FileTypeNotAllowed => Status.BadRequest
  | ErrorType.ImageProcessingFailed => Status.InternalServerError
  | ErrorType.NoEmbedData => Status.BadRequest
  | ErrorType.VosoUnavailable => Status.BadRequest
  | ErrorType.InsufficientTier _ _ => Status.Forbidden
  | ErrorType.ServerMemberLimitReached _ _ => Status.Forbidden
  | ErrorType.ViewerLimitReached _ _ => Status.Forbidden
  | ErrorType.ClipDailyLimitReached _ _ => Status.Forbidden
  | ErrorType.ClipStorageLimitReached _ _ => Status.Forbidden
  | ErrorType.ClipDurationNotAllowed => Status.Forbidden
  | ErrorType.ClippingNotEnabled => Status.Forbidden
  | ErrorType.BitrateExceedsTier _ _ => Status.Forbidden
  | ErrorType.StripeError _ => Status.BadGateway
  | ErrorType.AlreadySubscribed => Status.Conflict
  | ErrorType.NoActiveSubscription => Status.NotFound
  end.

(** [IntoResponse for Error] of [axum.rs]. *)
Definition into_response (e : ErrorType) : Z :=
  match e with
  | ErrorType.LabelMe => Status.InternalServerError
  | ErrorType.AlreadyOnboarded => Status.Forbidden
  | ErrorType.UnknownUser => Status.NotFound
  | ErrorType.InvalidUsername => Status.BadRequest
  | ErrorType.UsernameTaken => Status.Conflict
  | ErrorType.DiscriminatorChangeRatelimited => Status.TooManyRequests
  | ErrorType.AlreadyFriends => Status.Conflict
  | ErrorType.AlreadySentRequest => Status.Conflict
  | ErrorType.Blocked => Status.Conflict
  | ErrorType.BlockedByOther => Status.Forbidden
  | ErrorType.NotFriends => Status.Forbidden
  | ErrorType.TooManyPendingFriendRequests _ => Status.BadRequest
  | ErrorType.UnknownChannel => Status.NotFound
  | ErrorType.UnknownMessage => Status.NotFound
  | ErrorType.UnknownAttachment => Status.BadRequest
  | ErrorType.CannotEditMessage => Status.Forbidden
  | ErrorType.CannotJoinCall => Status.BadRequest
  | ErrorType.TooManyAttachments _ => Status.BadRequest
  | ErrorType.TooManyReplies _ => Status.BadRequest
  | ErrorType.EmptyMessage => Status.UnprocessableEntity
  | ErrorType.PayloadTooLarge => Status.UnprocessableEntity
  | ErrorType.CannotRemoveYourself => Status.BadRequest
  | ErrorType.GroupTooLarge _ => Status.Forbidden
  | ErrorType.AlreadyInGroup => Status.Conflict
  | ErrorType.NotInGroup => Status.NotFound
  | ErrorType.AlreadyPinned => Status.BadRequest
  | ErrorType.NotPinned => Status.BadRequest
  | ErrorType.UnknownServer => Status.NotFound
  | ErrorType.InvalidRole => Status.NotFound
  | ErrorType.Banned => Status.Forbidden
  | ErrorType.AlreadyInServer => Status.Conflict
  | ErrorType.CannotTimeoutYourself => Status.BadRequest
  | ErrorType.TooManyServers _ _ => Status.BadRequest
  | ErrorType.TooManyEmbeds _ => Status.BadRequest
  | ErrorType.TooManyEmoji _ => Status.BadRequest
  | ErrorType.TooManyChannels _ => Status.BadRequest
  | ErrorType.TooManyRoles _ => Status.BadRequest
  | ErrorType.ReachedMaximumBots => Status.BadRequest
  | ErrorType.IsBot => Status.BadRequest
  | ErrorType.IsNotBot => Status.BadRequest
  | ErrorType.BotIsPrivate => Status.Forbidden
  | ErrorType.TooManyBotCommands => Status.BadRequest
  | ErrorType.DuplicateCommandName => Status.Conflict
  | ErrorType.UnknownInteraction => Status.NotFound
  | ErrorType.CannotReportYourself => Status.BadRequest
  | ErrorType.MissingPermission _ => Status.Forbidden
  | ErrorType.MissingUserPermission _ => Status.Forbidden
  | ErrorType.NotElevated => Status.Forbidden
  | ErrorType.NotPrivileged => Status.Forbidden
  | ErrorType.CannotGiveMissingPermissions => Status.Forbidden
  | ErrorType.NotOwner => Status.Forbidden
  | ErrorType.IsElevated => Status.Forbidden
  | ErrorType.DatabaseError _ _ => Status.InternalServerError
  | ErrorType.InternalError => Status.InternalServerError
  | ErrorType.InvalidOperation => Status.BadRequest
  | ErrorType.InvalidCredentials => Status.Unauthorized
  | ErrorType.InvalidProperty => Status.BadRequest
  | ErrorType.InvalidSession => Status.Unauthorized
  | ErrorType.NotAuthenticated => Status.Unauthorized
  | ErrorType.DuplicateNonce => Status.Conflict
  | ErrorType.VosoUnavailable => Status.BadRequest
  | ErrorType.NotFound => Status.NotFound
  | ErrorType.NoEffect => Status.Ok_
  | ErrorType.FailedValidation _ => Status.BadRequest
  | ErrorType.LiveKitUnavailable => Status.BadRequest
  | ErrorType.NotConnected => Status.BadRequest
  | ErrorType.NotAVoiceChannel => Status.BadRequest
  | ErrorType.AlreadyConnected => Status.BadRequest
  | ErrorType.UnknownNode => Status.BadRequest
  | ErrorType.InvalidFlagValue => Status.BadRequest
  | ErrorType.FeatureDisabled _ => Status.BadRequest
  | ErrorType.ProxyError => Status.BadRequest
  | ErrorType.FileTooSmall => Status.UnprocessableEntity
  | ErrorType.FileTooLarge _ => Status.UnprocessableEntity
  | ErrorType.FileTypeNotAllowed => Status.BadRequest
  | ErrorType.ImageProcessingFailed => Status.InternalServerError
  | ErrorType.NoEmbedData => Status.BadRequest
  | ErrorType.InsufficientTier _ _ => Status.Forbidden
  | ErrorType.ServerMemberLimitReached _ _ => Status.Forbidden
  | ErrorType.ViewerLimitReached _ _ => Status.Forbidden
  | ErrorType.ClipDailyLimitReached _ _ => Status.Forbidden
  | ErrorType.ClipStorageLimitReached _ _ => Status.Forbidden
  | ErrorType.ClipDurationNotAllowed => Status.Forbidden
  | ErrorType.ClippingNotEnabled => Status.Forbidden
  | ErrorType.BitrateExceedsTier _ _ => Status.Forbidden
  | ErrorType.StripeError _ => Status.BadGateway
  | ErrorType.AlreadySubscribed => Status.Conflict
  | ErrorType.NoActiveSubscription => Status.NotFound
  | ErrorType.AICompanionBotExists => Status.Conflict
  | ErrorType.AICompanionServerLimit _ => Status.Forbidden
  | ErrorType.LicenseVerificationFailed _ => Status.Forbidden
  | ErrorType.BotMissingEncryptionKey => Status.BadRequest
  | ErrorType.InvalidPublicKey _ => Status.BadRequest
  | ErrorType.EncryptionKeyNotFound => Status.NotFound
  | ErrorType.InvitationExpired => Status.Gone
  | ErrorType.EncryptionError _ => Status.InternalServerError
  end.

(** the REST API and the axum services answer every error with the same
    HTTP status, and it is a success status for [NoEffect] alone: every other
    error is a client (4xx) or server (5xx) error. *)
Theorem error_statuses_agree (e : ErrorType) :
  respond_to e = into_response e /\
  (respond_to e = Status.Ok_ <-> e = ErrorType.NoEffect) /\
  (respond_to e = Status.Ok_ \/ 400 <= respond_to e < 600).
Proof.
  split; [by destruct e|]. split; [split; [|by intros ->]|].
  - destruct e; done.
  - destruct e; (by left) || (right; vm_compute; split; congruence).
Qed.
