(* ===== verification/Permissions.v ===== *)
(** * Permission values ([crates/core/permissions/src/models])

    The permission bit sets of the backend: the enumerations of channel and user
    permissions with their bit values, the default sets, allow/deny overrides in
    their API and database forms, and [PermissionValue], the 64-bit accumulator
    permissions are computed in. *)

From S2P Require Import Prelude Results.

(** ** Data *)

Module ChannelType.
Inductive ChannelType : Type :=
| SavedMessages | DirectMessage | Group | ServerChannel | Unknown.
End ChannelType.
Abbreviation ChannelType := ChannelType.ChannelType.

Module ChannelPermission.
Inductive ChannelPermission : Type :=
| ManageChannel | ManageServer | ManagePermissions | ManageRole | ManageCustomisation
| KickMembers | BanMembers | TimeoutMembers | AssignRoles | ChangeNickname
| ManageNicknames | ChangeAvatar | RemoveAvatars
| ViewChannel | ReadMessageHistory | SendMessage | ManageMessages | ManageWebhooks
| InviteOthers | SendEmbeds | UploadFiles | Masquerade | React
| Connect | Speak | Video | MuteMembers | DeafenMembers | MoveMembers | Listen
| MentionEveryone | MentionRoles
| GrantAllSafe | GrantAll.
End ChannelPermission.
Abbreviation ChannelPermission := ChannelPermission.ChannelPermission.

(** [permission as u64]: the discriminants of the enum. *)
Definition channel_permission_value (p : ChannelPermission) : Z :=
  match p with
  | ChannelPermission.ManageChannel => Z.shiftl 1 0
  | ChannelPermission.ManageServer => Z.shiftl 1 1
  | ChannelPermission.ManagePermissions => Z.shiftl 1 2
  | ChannelPermission.ManageRole => Z.shiftl 1 3
  | ChannelPermission.ManageCustomisation => Z.shiftl 1 4
  | ChannelPermission.KickMembers => Z.shiftl 1 6
  | ChannelPermission.BanMembers => Z.shiftl 1 7
  | ChannelPermission.TimeoutMembers => Z.shiftl 1 8
  | ChannelPermission.AssignRoles => Z.shiftl 1 9
  | ChannelPermission.ChangeNickname => Z.shiftl 1 10
  | ChannelPermission.ManageNicknames => Z.shiftl 1 11
  | ChannelPermission.ChangeAvatar => Z.shiftl 1 12
  | ChannelPermission.RemoveAvatars => Z.shiftl 1 13
  | ChannelPermission.ViewChannel => Z.shiftl 1 20
  | ChannelPermission.ReadMessageHistory => Z.shiftl 1 21
  | ChannelPermission.SendMessage => Z.shiftl 1 22
  | ChannelPermission.ManageMessages => Z.shiftl 1 23
  | ChannelPermission.ManageWebhooks => Z.shiftl 1 24
  | ChannelPermission.InviteOthers => Z.shiftl 1 25
  | ChannelPermission.SendEmbeds => Z.shiftl 1 26
  | ChannelPermission.UploadFiles => Z.shiftl 1 27
  | ChannelPermission.Masquerade => Z.shiftl 1 28
  | ChannelPermission.React => Z.shiftl 1 29
  | ChannelPermission.Connect => Z.shiftl 1 30
  | ChannelPermission.Speak => Z.shiftl 1 31
  | ChannelPermission.Video => Z.shiftl 1 32
  | ChannelPermission.MuteMembers => Z.shiftl 1 33
  | ChannelPermission.DeafenMembers => Z.shiftl 1 34
  | ChannelPermission.MoveMembers => Z.shiftl 1 35
  | ChannelPermission.Listen => Z.shiftl 1 36
  | ChannelPermission.MentionEveryone => Z.shiftl 1 37
  | ChannelPermission.MentionRoles => Z.shiftl 1 38
  | ChannelPermission.GrantAllSafe => 0x000FFFFFFFFFFFFF
  | ChannelPermission.GrantAll => u64_max
  end.
Coercion channel_permission_value : ChannelPermission.ChannelPermission >-> Z.

(** [Display for ChannelPermission]: the [Debug] name. *)
Definition channel_permission_name (p : ChannelPermission) : string :=
  match p with
  | ChannelPermission.ManageChannel => "ManageChannel"
  | ChannelPermission.ManageServer => "ManageServer"
  | ChannelPermission.ManagePermissions => "ManagePermissions"
  | ChannelPermission.ManageRole => "ManageRole"
  | ChannelPermission.ManageCustomisation => "ManageCustomisation"
  | ChannelPermission.KickMembers => "KickMembers"
  | ChannelPermission.BanMembers => "BanMembers"
  | ChannelPermission.TimeoutMembers => "TimeoutMembers"
  | ChannelPermission.AssignRoles => "AssignRoles"
  | ChannelPermission.ChangeNickname => "ChangeNickname"
  | ChannelPermission.ManageNicknames => "ManageNicknames"
  | ChannelPermission.ChangeAvatar => "ChangeAvatar"
  | ChannelPermission.RemoveAvatars => "RemoveAvatars"
  | ChannelPermission.ViewChannel => "ViewChannel"
  | ChannelPermission.ReadMessageHistory => "ReadMessageHistory"
  | ChannelPermission.SendMessage => "SendMessage"
  | ChannelPermission.ManageMessages => "ManageMessages"
  | ChannelPermission.ManageWebhooks => "ManageWebhooks"
  | ChannelPermission.InviteOthers => "InviteOthers"
  | ChannelPermission.SendEmbeds => "SendEmbeds"
  | ChannelPermission.UploadFiles => "UploadFiles"
  | ChannelPermission.Masquerade => "Masquerade"
  | ChannelPermission.React => "React"
  | ChannelPermission.Connect => "Connect"
  | ChannelPermission.Speak => "Speak"
  | ChannelPermission.Video => "Video"
  | ChannelPermission.MuteMembers => "MuteMembers"
  | ChannelPermission.DeafenMembers => "DeafenMembers"
  | ChannelPermission.MoveMembers => "MoveMembers"
  | ChannelPermission.Listen => "Listen"
  | ChannelPermission.MentionEveryone => "MentionEveryone"
  | ChannelPermission.MentionRoles => "MentionRoles"
  | ChannelPermission.GrantAllSafe => "GrantAllSafe"
  | ChannelPermission.GrantAll => "GrantAll"
  end.

Module UserPermission.
Inductive UserPermission : Type := Access | ViewProfile | SendMessage | Invite.
End UserPermission.
Abbreviation UserPermission := UserPermission.UserPermission.

Definition user_permission_value (p : UserPermission) : Z :=
  match p with
  | UserPermission.Access => Z.shiftl 1 0
  | UserPermission.ViewProfile => Z.shiftl 1 1
  | UserPermission.SendMessage => Z.shiftl 1 2
  | UserPermission.Invite => Z.shiftl 1 3
  end.
Coercion user_permission_value : UserPermission.UserPermission >-> Z.

Definition user_permission_name (p : UserPermission) : string :=
  match p with
  | UserPermission.Access => "Access"
  | UserPermission.ViewProfile => "ViewProfile"
  | UserPermission.SendMessage => "SendMessage"
  | UserPermission.Invite => "Invite"
  end.

(** [impl_op_ex!(+ ...)]: [+] on two channel permissions, or on a [u64] and a
    channel permission, is bitwise or. *)
Definition perm_add (a b : Z) : Z := Z.lor a b.
Notation "a +p b" := (perm_add a b) (at level 50, left associativity).

Definition ALLOW_IN_TIMEOUT : Z :=
  ChannelPermission.ViewChannel +p ChannelPermission.ReadMessageHistory.

Definition DEFAULT_PERMISSION_VIEW_ONLY : Z :=
  ChannelPermission.ViewChannel +p ChannelPermission.ReadMessageHistory.

(** [DEFAULT_PERMISSION_VIEW_ONLY.add(..)] is [u64::add]: an addition. *)
Definition DEFAULT_PERMISSION : Z :=
  DEFAULT_PERMISSION_VIEW_ONLY +
    (ChannelPermission.SendMessage +p ChannelPermission.InviteOthers
      +p ChannelPermission.SendEmbeds +p ChannelPermission.UploadFiles
      +p ChannelPermission.Connect +p ChannelPermission.Speak
      +p ChannelPermission.Listen +p ChannelPermission.Video).

Definition DEFAULT_PERMISSION_SAVED_MESSAGES : Z := ChannelPermission.GrantAllSafe.

Definition DEFAULT_PERMISSION_DIRECT_MESSAGE : Z :=
  DEFAULT_PERMISSION + (ChannelPermission.ManageChannel +p ChannelPermission.React).

Definition DEFAULT_PERMISSION_SERVER : Z :=
  DEFAULT_PERMISSION +
    (ChannelPermission.React +p ChannelPermission.ChangeNickname
      +p ChannelPermission.ChangeAvatar).

Definition DEFAULT_WEBHOOK_PERMISSIONS : Z :=
  ChannelPermission.SendMessage +p ChannelPermission.SendEmbeds
    +p ChannelPermission.Masquerade +p ChannelPermission.React.

(** [Override], with [u64] fields, and [OverrideField], its [i64] database form. *)
Record Override := { allow : Z; deny : Z }.
Record OverrideField := { of_a : Z; of_d : Z }.

#[export] Instance Override_eq_dec : EqDecision Override.
Proof. solve_decision. Defined.
#[export] Instance OverrideField_eq_dec : EqDecision OverrideField.
Proof. solve_decision. Defined.

Definition Override_default : Override := {| allow := 0; deny := 0 |}.
Definition OverrideField_default : OverrideField := {| of_a := 0; of_d := 0 |}.
Definition allows (o : Override) : Z := allow o.
Definition denies (o : Override) : Z := deny o.

(** [From<Override> for OverrideField] and back. *)
Definition OverrideField_from (v : Override) : OverrideField :=
  {| of_a := as_i64 (allow v); of_d := as_i64 (deny v) |}.
Definition Override_from (v : OverrideField) : Override :=
  {| allow := as_u64 (of_a v); deny := as_u64 (of_d v) |}.

(** ** [PermissionValue] *)

Record PermissionValue := PV { into_raw : Z }.

Definition from_raw (value : Z) : PermissionValue := PV value.
Definition PermissionValue_from_i64 (v : Z) : PermissionValue := PV (as_u64 v).

Definition pv_allow (p : PermissionValue) (v : Z) : PermissionValue := PV (Z.lor (into_raw p) v).
Definition pv_revoke (p : PermissionValue) (v : Z) : PermissionValue :=
  PV (Z.land (into_raw p) (u64_not v)).
Definition pv_apply (p : PermissionValue) (v : Override) : PermissionValue :=
  pv_revoke (pv_allow p (allow v)) (deny v).
Definition pv_revoke_all (p : PermissionValue) : PermissionValue := PV 0.
Definition pv_restrict (p : PermissionValue) (v : Z) : PermissionValue :=
  PV (Z.land (into_raw p) v).
Definition pv_has (p : PermissionValue) (v : Z) : bool := Z.land (into_raw p) v =? v.
Definition has_user_permission (p : PermissionValue) (permission : UserPermission) : bool :=
  pv_has p permission.
Definition has_channel_permission (p : PermissionValue) (permission : ChannelPermission) : bool :=
  pv_has p permission.

Definition throw_if_lacking_user_permission (p : PermissionValue) (permission : UserPermission)
    : Result unit :=
  if has_user_permission p permission then Ok tt
  else Err (ErrorType.MissingPermission (user_permission_name permission)).

Definition throw_if_lacking_channel_permission (p : PermissionValue)
    (permission : ChannelPermission) : Result unit :=
  if has_channel_permission p permission then Ok tt
  else Err (ErrorType.MissingPermission (channel_permission_name permission)).

Definition throw_permission_override (p : PermissionValue) (current_value : option Override)
    (next_value : Override) : Result unit :=
  match current_value with
  | Some current_value =>
      if negb (pv_has p (Z.land (u64_not (allows current_value)) (allows next_value)))
         || negb (pv_has p (Z.land (denies current_value) (u64_not (denies next_value))))
      then Err ErrorType.CannotGiveMissingPermissions
      else Ok tt
  | None =>
      if negb (pv_has p (allows next_value))
      then Err ErrorType.CannotGiveMissingPermissions
      else Ok tt
  end.

(** [for role_override in overrides { permissions.apply(role_override) }] *)
Definition apply_overrides (p : PermissionValue) (overrides : list Override) : PermissionValue :=
  foldl pv_apply p overrides.

(** ** Well-formedness and bit semantics *)

Definition pv_wf (p : PermissionValue) : Prop := is_u64 (into_raw p).
Definition override_wf (o : Override) : Prop := is_u64 (allow o) /\ is_u64 (deny o).
Definition override_field_wf (o : OverrideField) : Prop := is_i64 (of_a o) /\ is_i64 (of_d o).

(** Bit [b] of a permission value, and whether an override mentions it. *)
Definition pbit (p : PermissionValue) (b : Z) : bool := Z.testbit (into_raw p) b.
Definition mentions (b : Z) (o : Override) : Prop :=
  Z.testbit (allow o) b = true \/ Z.testbit (deny o) b = true.
#[export] Instance mentions_dec b o : Decision (mentions b o).
Proof. unfold mentions. apply _. Defined.

Lemma pv_ext p q : pv_wf p -> pv_wf q -> (forall b, 0 <= b < 64 -> pbit p b = pbit q b) -> p = q.
Proof.
  destruct p as [x], q as [y]. unfold pv_wf, pbit. simpl. intros Hx Hy H.
  f_equal. by apply u64_bits_eq.
Qed.

Lemma pv_apply_bit p o b :
  0 <= b < 64 -> pbit (pv_apply p o) b = (pbit p b || Z.testbit (allow o) b) && negb (Z.testbit (deny o) b).
Proof.
  intros Hb. unfold pbit, pv_apply, pv_revoke, pv_allow. simpl.
  rewrite Z.land_spec, Z.lor_spec, u64_not_bits by lia.
  by replace (b <? 64) with true by (symmetry; apply Z.ltb_lt; lia).
Qed.

Lemma pv_revoke_bit p v b :
  0 <= b < 64 -> pbit (pv_revoke p v) b = pbit p b && negb (Z.testbit v b).
Proof.
  intros Hb. unfold pbit, pv_revoke. simpl. rewrite Z.land_spec, u64_not_bits by lia.
  by replace (b <? 64) with true by (symmetry; apply Z.ltb_lt; lia).
Qed.

Lemma pv_restrict_bit p v b : pbit (pv_restrict p v) b = pbit p b && Z.testbit v b.
Proof. unfold pbit, pv_restrict. simpl. by rewrite Z.land_spec. Qed.

Lemma pv_allow_wf p v : pv_wf p -> is_u64 v -> pv_wf (pv_allow p v).
Proof. apply is_u64_lor. Qed.
Lemma pv_revoke_wf p v : pv_wf p -> pv_wf (pv_revoke p v).
Proof. apply is_u64_land_l. Qed.
Lemma pv_restrict_wf p v : pv_wf p -> pv_wf (pv_restrict p v).
Proof. apply is_u64_land_l. Qed.
Lemma pv_apply_wf p o : pv_wf p -> pv_wf (pv_apply p o).
Proof. intros Hp. apply is_u64_land_r, is_u64_not. Qed.
Lemma apply_overrides_wf p os : pv_wf p -> pv_wf (apply_overrides p os).
Proof.
  revert p. induction os as [|o os IH]; intros p Hp; [done|]. apply IH, pv_apply_wf, Hp.
Qed.
#[export] Hint Resolve pv_allow_wf pv_revoke_wf pv_restrict_wf pv_apply_wf apply_overrides_wf : u64.

(** A check on a non-negative mask is a check on each of its bits. *)
Lemma pv_has_spec p v :
  0 <= v -> pv_has p v = true <-> (forall b, 0 <= b -> Z.testbit v b = true -> pbit p b = true).
Proof.
  intros Hv. unfold pv_has, pbit. rewrite Z.eqb_eq. split.
  - intros H b Hb Hvb. assert (Z.testbit (Z.land (into_raw p) v) b = true) as E by (by rewrite H).
    rewrite Z.land_spec in E. by apply andb_true_iff in E as [? _].
  - intros H. apply Z.bits_inj'. intros b Hb. rewrite Z.land_spec.
    destruct (Z.testbit v b) eqn:E; [|by rewrite andb_false_r]. by rewrite H.
Qed.

(** A permission that is a single bit. *)
Lemma pv_has_bit p b : 0 <= b -> pv_has p (Z.shiftl 1 b) = pbit p b.
Proof.
  intros Hb. apply eq_true_iff_eq. rewrite pv_has_spec by (apply Z.shiftl_nonneg; lia).
  rewrite Z.shiftl_1_l. split.
  - intros H. apply H; [done|]. by apply Z.pow2_bits_true.
  - intros H c Hc. rewrite Z.pow2_bits_eqb by lia. intros ->%Z.eqb_eq. done.
Qed.

Lemma view_channel_bit p : has_channel_permission p ChannelPermission.ViewChannel = pbit p 20.
Proof. apply (pv_has_bit p 20). lia. Qed.

Lemma apply_overrides_bits p os b :
  0 <= b < 64 ->
  pbit (apply_overrides p os) b =
    match last (filter (mentions b) os) with
    | Some o => negb (Z.testbit (deny o) b)
    | None => pbit p b
    end.
Proof.
  intros Hb. induction os as [|o os IH] using rev_ind; [done|].
  unfold apply_overrides in *. rewrite foldl_app, filter_app. simpl.
  rewrite pv_apply_bit, IH by done. rewrite filter_cons, filter_nil.
  unfold mentions at 2. destruct (decide _) as [H|H].
  - rewrite last_snoc. destruct (Z.testbit (deny o) b) eqn:E; [by rewrite andb_false_r|].
    destruct H as [->|?]; [|congruence]. by rewrite orb_true_r.
  - rewrite app_nil_r. apply Decidable.not_or in H as [Ha Hd].
    apply not_true_is_false in Ha, Hd. by rewrite Ha, Hd, orb_false_r, andb_true_r.
Qed.

(** ** Theorems *)

(** applying a list of overrides from the lowest to the highest: each bit is
    decided by the last override that mentions it, where a denial beats an
    allowance of the same override; a bit no override mentions keeps its value. *)
Theorem apply_overrides_bit (p : PermissionValue) (os : list Override) (b : Z) (Hb : 0 <= b < 64) :
  pbit (apply_overrides p os) b =
    match last (filter (mentions b) os) with
    | Some o => negb (Z.testbit (deny o) b)
    | None => pbit p b
    end.
Proof. by apply apply_overrides_bits. Qed.

Lemma apply_overrides_bit_witness :
  pbit (apply_overrides (PV 0) [{| allow := 5; deny := 0 |}; {| allow := 4; deny := 1 |}]) 2 = true.
Proof. rewrite apply_overrides_bit by lia. reflexivity. Defined.

Definition apply_opt (p : PermissionValue) (o : option Override) : PermissionValue :=
  match o with Some o => pv_apply p o | None => p end.

Lemma land_not_bits x y b :
  0 <= b < 64 -> Z.testbit (Z.land (u64_not x) y) b = negb (Z.testbit x b) && Z.testbit y b.
Proof.
  intros Hb. rewrite Z.land_spec, u64_not_bits by lia.
  by replace (b <? 64) with true by (symmetry; apply Z.ltb_lt; lia).
Qed.

Lemma land_not_self v : is_u64 v -> Z.land (u64_not v) v = 0.
Proof.
  intros Hv. apply Z.bits_inj'. intros b Hb. rewrite Z.bits_0. destruct (decide (b < 64)).
  - rewrite land_not_bits by lia. by destruct (Z.testbit v b).
  - rewrite is_u64_bits in Hv. rewrite Z.land_spec, (proj2 Hv b) by lia. apply andb_false_r.
Qed.

(** An override that changes nothing is accepted from everybody. *)
Lemma override_unchanged_accepted p o : override_wf o -> throw_permission_override p (Some o) o = Ok tt.
Proof.
  intros [Ha Hd]. unfold throw_permission_override, allows, denies.
  rewrite land_not_self, Z.land_comm, land_not_self by done. unfold pv_has. by rewrite !Z.land_0_r.
Qed.

(** What an accepted override adds is held by the caller. *)
Lemma override_gain_held (p base : PermissionValue) (current : option Override)
    (next : Override) (b : Z)
    (Hcur : match current with Some c => override_wf c | None => True end)
    (Hnext : override_wf next) (Hb : 0 <= b < 64)
    (Hok : throw_permission_override p current next = Ok tt)
    (Hgain : pbit (pv_apply base next) b = true)
    (Hnot : pbit (apply_opt base current) b = false) :
  pbit p b = true.
Proof.
  destruct Hnext as [Hna Hnd]. rewrite pv_apply_bit in Hgain by done.
  apply andb_true_iff in Hgain as [Hg Hd]. apply negb_true_iff in Hd.
  destruct current as [c|]; simpl in *.
  - destruct Hcur as [Hca Hcd]. rewrite pv_apply_bit in Hnot by done.
    destruct (pv_has p (Z.land (u64_not _) _)) eqn:E1; [|done].
    destruct (pv_has p (Z.land (denies _) _)) eqn:E2; [|done].
    assert (0 <= Z.land (u64_not (allows c)) (allows next)) as P1 by apply is_u64_land_r, Hna.
    assert (0 <= Z.land (denies c) (u64_not (denies next))) as P2 by apply is_u64_land_l, Hcd.
    rewrite pv_has_spec in E1, E2 by done.
    specialize (E1 b ltac:(lia)). specialize (E2 b ltac:(lia)).
    rewrite land_not_bits in E1 by done. rewrite Z.land_comm, land_not_bits in E2 by done.
    unfold allows, denies in *. rewrite Hd in E2. simpl in E2.
    destruct (Z.testbit (deny c) b); [by apply E2|].
    rewrite andb_true_r in Hnot. apply orb_false_iff in Hnot as [Hbase Hac].
    rewrite Hbase in Hg. simpl in Hg. rewrite Hac, Hg in E1. by apply E1.
  - rewrite Hnot in Hg. simpl in Hg. destruct (pv_has p _) eqn:E; [|done].
    rewrite pv_has_spec in E by apply Hna. apply E; [lia|done].
Qed.

(** C2: no privilege escalation through overrides: if [throw_permission_override]
    lets a user with permissions [p] replace the override [current] by [next],
    then whatever the permissions it is applied to, every permission that is
    granted with [next] and was not granted with [current] is one the user
    has. *)
Theorem override_no_escalation (p base : PermissionValue) (current : option Override)
    (next : Override) (b : Z)
    (Hcur : match current with Some c => override_wf c | None => True end)
    (Hnext : override_wf next) (Hb : 0 <= b < 64)
    (Hok : throw_permission_override p current next = Ok tt)
    (Hgain : pbit (pv_apply base next) b = true)
    (Hnot : pbit (apply_opt base current) b = false) :
  pbit p b = true.
Proof. by eapply override_gain_held. Qed.

Lemma override_no_escalation_witness :
  pbit (PV 4) 2 = true.
Proof.
  apply (override_no_escalation (PV 4) (PV 0) None {| allow := 4; deny := 1 |} 2);
    try reflexivity; unfold override_wf, is_u64; simpl; lia.
Defined.

Lemma override_roundtrip o : override_wf o -> Override_from (OverrideField_from o) = o.
Proof.
  destruct o as [a d]. intros [Ha Hd]. unfold Override_from, OverrideField_from. simpl in *.
  by rewrite !as_u64_as_i64.
Qed.

Lemma Override_from_wf f : override_wf (Override_from f).
Proof. split; apply is_u64_as. Qed.

(** the [i64] database form of an override loses nothing of the [u64] API
    form, in both directions. *)
Theorem override_field_roundtrip (o : Override) (f : OverrideField)
    (Ho : override_wf o) (Hf : override_field_wf f) :
  Override_from (OverrideField_from o) = o /\ override_field_wf (OverrideField_from o) /\
  OverrideField_from (Override_from f) = f /\ override_wf (Override_from f).
Proof.
  destruct o as [oa od], f as [fa fd], Ho as [Ha Hd], Hf as [Hfa Hfd].
  unfold Override_from, OverrideField_from, override_field_wf, override_wf. simpl in *.
  rewrite !as_u64_as_i64, !as_i64_as_u64 by done.
  repeat split; (apply is_i64_as || apply is_u64_as).
Qed.

Lemma override_field_roundtrip_witness :
  Override_from (OverrideField_from {| allow := u64_max; deny := 1 |}) = {| allow := u64_max; deny := 1 |}.
Proof.
  apply (override_field_roundtrip {| allow := u64_max; deny := 1 |} OverrideField_default);
    unfold override_wf, override_field_wf, is_u64, is_i64, i64_min, i64_max, u64_max; simpl; lia.
Defined.

Definition all_channel_permissions : list ChannelPermission :=
  [ChannelPermission.ManageChannel; ChannelPermission.ManageServer;
   ChannelPermission.ManagePermissions; ChannelPermission.ManageRole;
   ChannelPermission.ManageCustomisation; ChannelPermission.KickMembers;
   ChannelPermission.BanMembers; ChannelPermission.TimeoutMembers;
   ChannelPermission.AssignRoles; ChannelPermission.ChangeNickname;
   ChannelPermission.ManageNicknames; ChannelPermission.ChangeAvatar;
   ChannelPermission.RemoveAvatars; ChannelPermission.ViewChannel;
   ChannelPermission.ReadMessageHistory; ChannelPermission.SendMessage;
   ChannelPermission.ManageMessages; ChannelPermission.ManageWebhooks;
   ChannelPermission.InviteOthers; ChannelPermission.SendEmbeds;
   ChannelPermission.UploadFiles; ChannelPermission.Masquerade; ChannelPermission.React;
   ChannelPermission.Connect; ChannelPermission.Speak; ChannelPermission.Video;
   ChannelPermission.MuteMembers; ChannelPermission.DeafenMembers;
   ChannelPermission.MoveMembers; ChannelPermission.Listen;
   ChannelPermission.MentionEveryone; ChannelPermission.MentionRoles].

(** Every permission but the two grant-all masks is listed. *)
Lemma all_channel_permissions_complete (p : ChannelPermission) :
  p <> ChannelPermission.GrantAllSafe -> p <> ChannelPermission.GrantAll ->
  p ∈ all_channel_permissions.
Proof. intros H1 H2. destruct p; try done; set_solver. Qed.

(** The permissions are distinct single bits below bit 39, all inside the
    52-bit safe mask, and the default sets, computed with [u64::add], are the
    unions they are meant to be. *)
Lemma channel_permissions_disjoint :
  NoDup (channel_permission_value <$> all_channel_permissions) /\
  Forall (fun p : ChannelPermission => exists b, 0 <= b <= 38 /\ (p : Z) = Z.shiftl 1 b)
    all_channel_permissions.
Proof.
  split; [apply (bool_decide_unpack _); vm_compute; exact I|].
  repeat (apply Forall_cons_2; [eexists; split; [|simpl; reflexivity]; lia|]). apply Forall_nil_2.
Qed.

Lemma default_sets_are_unions :
  DEFAULT_PERMISSION =
    Z.lor DEFAULT_PERMISSION_VIEW_ONLY (DEFAULT_PERMISSION - DEFAULT_PERMISSION_VIEW_ONLY) /\
  DEFAULT_PERMISSION_DIRECT_MESSAGE =
    DEFAULT_PERMISSION +p ChannelPermission.ManageChannel +p ChannelPermission.React /\
  DEFAULT_PERMISSION_SERVER =
    DEFAULT_PERMISSION +p ChannelPermission.React +p ChannelPermission.ChangeNickname
      +p ChannelPermission.ChangeAvatar.
Proof. by vm_compute. Qed.
