(* ===== verification/PermissionCalc.v ===== *)
(** * Permission calculation ([crates/core/permissions/src/impl.rs], [trait.rs])

    The three calculators are written against the trait [PermissionQuery]: a
    stateful source of facts about the perspective user and the selected user,
    server and channel.  The trait is a class over the type [Q] of the query
    object; a method takes the object and returns it, since implementations
    cache what they fetch. *)

From S2P Require Import Prelude Results Permissions.

Module PermRelationshipStatus.
(** [company_permissions::RelationshipStatus] *)
Inductive RelationshipStatus : Type :=
| None | User | Friend | Outgoing | Incoming | Blocked | BlockedOther.
End PermRelationshipStatus.

Class PermissionQuery (Q : Type) := {
  are_we_privileged : M ErrorType Q bool;
  are_we_a_bot : M ErrorType Q bool;
  are_the_users_same : M ErrorType Q bool;
  user_relationship : M ErrorType Q PermRelationshipStatus.RelationshipStatus;
  user_is_bot : M ErrorType Q bool;
  have_mutual_connection : M ErrorType Q bool;
  are_we_server_owner : M ErrorType Q bool;
  are_we_a_member : M ErrorType Q bool;
  get_default_server_permissions : M ErrorType Q Z;
  get_our_server_role_overrides : M ErrorType Q (list Override);
  are_we_timed_out : M ErrorType Q bool;
  do_we_have_publish_overwrites : M ErrorType Q bool;
  do_we_have_receive_overwrites : M ErrorType Q bool;
  get_channel_type : M ErrorType Q ChannelType;
  get_default_channel_permissions : M ErrorType Q Override;
  get_our_channel_role_overrides : M ErrorType Q (list Override);
  do_we_own_the_channel : M ErrorType Q bool;
  are_we_a_group_moderator : M ErrorType Q bool;
  are_we_part_of_the_channel : M ErrorType Q bool;
  set_recipient_as_user : M ErrorType Q unit;
  set_server_from_channel : M ErrorType Q unit }.

Section Calculators.
Context {Q : Type} `{PermissionQuery Q}.

Definition calculate_user_permissions : M ErrorType Q PermissionValue :=
  privileged ← are_we_privileged;
  if (privileged : bool) then mret (PV u64_max) else
  same ← are_the_users_same;
  if (same : bool) then mret (PV u64_max) else
  relationship ← user_relationship;
  let mutual (permissions : Z) : M ErrorType Q PermissionValue :=
    connected ← have_mutual_connection;
    if (connected : bool) then
      let permissions := (UserPermission.Access : Z) + (UserPermission.ViewProfile : Z) in
      is_bot ← user_is_bot;
      bots ← (if (is_bot : bool) then mret true else are_we_a_bot);
      if (bots : bool)
      then mret (PV (permissions + UserPermission.SendMessage))
      else mret (PV permissions)
    else mret (PV permissions) in
  match relationship with
  | PermRelationshipStatus.Friend => mret (PV u64_max)
  | PermRelationshipStatus.Blocked | PermRelationshipStatus.BlockedOther =>
      mret (PV UserPermission.Access)
  | PermRelationshipStatus.Incoming | PermRelationshipStatus.Outgoing =>
      mutual UserPermission.Access
  | _ => mutual 0
  end.

Definition calculate_server_permissions : M ErrorType Q PermissionValue :=
  privileged ← are_we_privileged;
  owner ← (if (privileged : bool) then mret true else are_we_server_owner);
  if (owner : bool) then mret (PV ChannelPermission.GrantAllSafe) else
  member ← are_we_a_member;
  if negb member then mret (PV 0) else
  default_permissions ← get_default_server_permissions;
  overrides ← get_our_server_role_overrides;
  let permissions := apply_overrides (PV default_permissions) overrides in
  publish ← do_we_have_publish_overwrites;
  let permissions :=
    if negb publish
    then pv_revoke (pv_revoke permissions ChannelPermission.Speak) ChannelPermission.Video
    else permissions in
  receive ← do_we_have_receive_overwrites;
  let permissions :=
    if negb receive then pv_revoke permissions ChannelPermission.Listen else permissions in
  timed_out ← are_we_timed_out;
  if (timed_out : bool) then mret (pv_restrict permissions ALLOW_IN_TIMEOUT)
  else mret permissions.

Definition calculate_channel_permissions : M ErrorType Q PermissionValue :=
  privileged ← are_we_privileged;
  if (privileged : bool) then mret (PV ChannelPermission.GrantAllSafe) else
  channel_type ← get_channel_type;
  match channel_type with
  | ChannelType.SavedMessages =>
      own ← do_we_own_the_channel;
      if (own : bool) then mret (PV DEFAULT_PERMISSION_SAVED_MESSAGES) else mret (PV 0)
  | ChannelType.DirectMessage =>
      part ← are_we_part_of_the_channel;
      if (part : bool) then
        set_recipient_as_user;;
        permissions ← calculate_user_permissions;
        if has_user_permission permissions UserPermission.SendMessage
        then mret (PV DEFAULT_PERMISSION_DIRECT_MESSAGE)
        else mret (PV DEFAULT_PERMISSION_VIEW_ONLY)
      else mret (PV 0)
  | ChannelType.Group =>
      own ← do_we_own_the_channel;
      if (own : bool) then mret (PV ChannelPermission.GrantAllSafe) else
      moderator ← are_we_a_group_moderator;
      if (moderator : bool) then mret (PV ChannelPermission.GrantAllSafe) else
      part ← are_we_part_of_the_channel;
      if (part : bool) then
        defaults ← get_default_channel_permissions;
        mret (PV (Z.lor DEFAULT_PERMISSION_VIEW_ONLY (allow defaults)))
      else mret (PV 0)
  | ChannelType.ServerChannel =>
      set_server_from_channel;;
      owner ← are_we_server_owner;
      if (owner : bool) then mret (PV ChannelPermission.GrantAllSafe) else
      member ← are_we_a_member;
      if (member : bool) then
        permissions ← calculate_server_permissions;
        defaults ← get_default_channel_permissions;
        let permissions := pv_apply permissions defaults in
        overrides ← get_our_channel_role_overrides;
        let permissions := apply_overrides permissions overrides in
        timed_out ← are_we_timed_out;
        let permissions :=
          if (timed_out : bool) then pv_restrict permissions ALLOW_IN_TIMEOUT else permissions in
        if negb (has_channel_permission permissions ChannelPermission.ViewChannel)
        then mret (pv_revoke_all permissions)
        else mret permissions
      else mret (PV 0)
  | ChannelType.Unknown => mret (PV 0)
  end.
End Calculators.
