(* ===== verification/Models.v ===== *)
(** * Data model ([crates/core/database/src/models])

    Users, servers, roles, members, bans, channels, bots, emoji and invites as
    the database stores them, with one field per field of the source.  Identifiers are strings,
    timestamps integers (milliseconds), a [HashMap] is a [gmap], a [Vec] a
    [list].  The [Partial*] structures and the method [apply_options] of the
    structures declared with [auto_derived_partial!] are generated by the crate
    [revolt_optional_struct]; [apply_options] is a parameter (class
    [OptionalStruct]), and what its option [opt_some_priority] documents, that
    a present field overwrites and an absent one keeps, is the class of laws of
    each structure. *)

From S2P Require Import Prelude Results Permissions.

Abbreviation Timestamp := Z.

Module Metadata.
(** [Metadata] of a file *)
Inductive Metadata : Type := File | Text | Image (width height : Z) | Video (width height : Z) | Audio.
End Metadata.
Abbreviation Metadata := Metadata.Metadata.
#[export] Instance Metadata_eq_dec : EqDecision Metadata.
Proof. solve_decision. Defined.

Module FileUsedForType.
Inductive FileUsedForType : Type :=
| Message | ServerBanner | Emoji | UserAvatar | WebhookAvatar | UserProfileBackground
| LegacyGroupIcon | ChannelIcon | ServerIcon.
End FileUsedForType.
Abbreviation FileUsedForType := FileUsedForType.FileUsedForType.
#[export] Instance FileUsedForType_eq_dec : EqDecision FileUsedForType.
Proof. solve_decision. Defined.

(** Information about what a file was used for *)
Record FileUsedFor := {
  fuf_object_type : FileUsedForType;
  fuf_id : string }.
#[export] Instance FileUsedFor_eq_dec : EqDecision FileUsedFor.
Proof. solve_decision. Defined.

(** An uploaded file *)
Record File := {
  f_id : string;
  f_tag : string;
  f_filename : string;
  f_hash : option string;
  f_uploaded_at : option Timestamp;
  f_uploader_id : option string;
  f_used_for : option FileUsedFor;
  f_deleted : option bool;
  f_reported : option bool;
  f_metadata : Metadata;
  f_content_type : string;
  f_size : Z;
  f_message_id : option string;
  f_user_id : option string;
  f_server_id : option string;
  f_object_id : option string }.
#[export] Instance File_eq_dec : EqDecision File.
Proof. solve_decision. Defined.

Definition f_set_uploader_id (x : option string) (f : File) : File :=
  {| f_id := f_id f;
     f_tag := f_tag f;
     f_filename := f_filename f;
     f_hash := f_hash f;
     f_uploaded_at := f_uploaded_at f;
     f_uploader_id := x;
     f_used_for := f_used_for f;
     f_deleted := f_deleted f;
     f_reported := f_reported f;
     f_metadata := f_metadata f;
     f_content_type := f_content_type f;
     f_size := f_size f;
     f_message_id := f_message_id f;
     f_user_id := f_user_id f;
     f_server_id := f_server_id f;
     f_object_id := f_object_id f |}.
Definition f_set_used_for (x : option FileUsedFor) (f : File) : File :=
  {| f_id := f_id f;
     f_tag := f_tag f;
     f_filename := f_filename f;
     f_hash := f_hash f;
     f_uploaded_at := f_uploaded_at f;
     f_uploader_id := f_uploader_id f;
     f_used_for := x;
     f_deleted := f_deleted f;
     f_reported := f_reported f;
     f_metadata := f_metadata f;
     f_content_type := f_content_type f;
     f_size := f_size f;
     f_message_id := f_message_id f;
     f_user_id := f_user_id f;
     f_server_id := f_server_id f;
     f_object_id := f_object_id f |}.
Definition f_set_deleted (x : option bool) (f : File) : File :=
  {| f_id := f_id f;
     f_tag := f_tag f;
     f_filename := f_filename f;
     f_hash := f_hash f;
     f_uploaded_at := f_uploaded_at f;
     f_uploader_id := f_uploader_id f;
     f_used_for := f_used_for f;
     f_deleted := x;
     f_reported := f_reported f;
     f_metadata := f_metadata f;
     f_content_type := f_content_type f;
     f_size := f_size f;
     f_message_id := f_message_id f;
     f_user_id := f_user_id f;
     f_server_id := f_server_id f;
     f_object_id := f_object_id f |}.
Definition f_set_reported (x : option bool) (f : File) : File :=
  {| f_id := f_id f;
     f_tag := f_tag f;
     f_filename := f_filename f;
     f_hash := f_hash f;
     f_uploaded_at := f_uploaded_at f;
     f_uploader_id := f_uploader_id f;
     f_used_for := f_used_for f;
     f_deleted := f_deleted f;
     f_reported := x;
     f_metadata := f_metadata f;
     f_content_type := f_content_type f;
     f_size := f_size f;
     f_message_id := f_message_id f;
     f_user_id := f_user_id f;
     f_server_id := f_server_id f;
     f_object_id := f_object_id f |}.

(** ** Servers *)

(** [Role]; [rank] is an [i64], lower is higher in the hierarchy *)
Record Role := {
  r_id : string;
  r_name : string;
  r_permissions : OverrideField;
  r_colour : option string;
  r_hoist : bool;
  r_rank : Z }.
#[export] Instance Role_eq_dec : EqDecision Role.
Proof. solve_decision. Defined.

(** Channel category *)
Record Category := {
  cat_id : string;
  cat_title : string;
  cat_channels : list string }.
#[export] Instance Category_eq_dec : EqDecision Category.
Proof. solve_decision. Defined.

(** System message channel assignments *)
Record SystemMessageChannels := {
  smc_user_joined : option string;
  smc_user_left : option string;
  smc_user_kicked : option string;
  smc_user_banned : option string }.
#[export] Instance SystemMessageChannels_eq_dec : EqDecision SystemMessageChannels.
Proof. solve_decision. Defined.

(** [Server]; [default_permissions] is an [i64] *)
Record Server := {
  s_id : string;
  s_owner : string;
  s_name : string;
  s_description : option string;
  s_channels : list string;
  s_categories : option (list Category);
  s_system_messages : option SystemMessageChannels;
  s_roles : gmap string Role;
  s_default_permissions : Z;
  s_icon : option File;
  s_banner : option File;
  s_flags : option Z;
  s_nsfw : bool;
  s_analytics : bool;
  s_discoverable : bool }.
#[export] Instance Server_eq_dec : EqDecision Server.
Proof. solve_decision. Defined.

(** [PartialRole] *)
Record PartialRole := {
  pr_id : option string;
  pr_name : option string;
  pr_permissions : option OverrideField;
  pr_colour : option string;
  pr_hoist : option bool;
  pr_rank : option Z }.
Definition PartialRole_default : PartialRole :=
  {| pr_id := None; pr_name := None; pr_permissions := None; pr_colour := None; pr_hoist := None; pr_rank := None |}.

(** [PartialServer] *)
Record PartialServer := {
  ps_id : option string;
  ps_owner : option string;
  ps_name : option string;
  ps_description : option string;
  ps_channels : option (list string);
  ps_categories : option (list Category);
  ps_system_messages : option SystemMessageChannels;
  ps_roles : option (gmap string Role);
  ps_default_permissions : option Z;
  ps_icon : option File;
  ps_banner : option File;
  ps_flags : option Z;
  ps_nsfw : option bool;
  ps_analytics : option bool;
  ps_discoverable : option bool }.
Definition PartialServer_default : PartialServer :=
  {| ps_id := None; ps_owner := None; ps_name := None; ps_description := None; ps_channels := None; ps_categories := None; ps_system_messages := None; ps_roles := None; ps_default_permissions := None; ps_icon := None; ps_banner := None; ps_flags := None; ps_nsfw := None; ps_analytics := None; ps_discoverable := None |}.

Module FieldsServer.
Inductive FieldsServer : Type := Description | Categories | SystemMessages | Icon | Banner.
End FieldsServer.
Abbreviation FieldsServer := FieldsServer.FieldsServer.

Module FieldsRole.
Inductive FieldsRole : Type := Colour.
End FieldsRole.
Abbreviation FieldsRole := FieldsRole.FieldsRole.

Definition s_set_description (x : option string) (s : Server) : Server :=
  {| s_id := s_id s;
     s_owner := s_owner s;
     s_name := s_name s;
     s_description := x;
     s_channels := s_channels s;
     s_categories := s_categories s;
     s_system_messages := s_system_messages s;
     s_roles := s_roles s;
     s_default_permissions := s_default_permissions s;
     s_icon := s_icon s;
     s_banner := s_banner s;
     s_flags := s_flags s;
     s_nsfw := s_nsfw s;
     s_analytics := s_analytics s;
     s_discoverable := s_discoverable s |}.
Definition s_set_categories (x : option (list Category)) (s : Server) : Server :=
  {| s_id := s_id s;
     s_owner := s_owner s;
     s_name := s_name s;
     s_description := s_description s;
     s_channels := s_channels s;
     s_categories := x;
     s_system_messages := s_system_messages s;
     s_roles := s_roles s;
     s_default_permissions := s_default_permissions s;
     s_icon := s_icon s;
     s_banner := s_banner s;
     s_flags := s_flags s;
     s_nsfw := s_nsfw s;
     s_analytics := s_analytics s;
     s_discoverable := s_discoverable s |}.
Definition s_set_system_messages (x : option SystemMessageChannels) (s : Server) : Server :=
  {| s_id := s_id s;
     s_owner := s_owner s;
     s_name := s_name s;
     s_description := s_description s;
     s_channels := s_channels s;
     s_categories := s_categories s;
     s_system_messages := x;
     s_roles := s_roles s;
     s_default_permissions := s_default_permissions s;
     s_icon := s_icon s;
     s_banner := s_banner s;
     s_flags := s_flags s;
     s_nsfw := s_nsfw s;
     s_analytics := s_analytics s;
     s_discoverable := s_discoverable s |}.
Definition s_set_icon (x : option File) (s : Server) : Server :=
  {| s_id := s_id s;
     s_owner := s_owner s;
     s_name := s_name s;
     s_description := s_description s;
     s_channels := s_channels s;
     s_categories := s_categories s;
     s_system_messages := s_system_messages s;
     s_roles := s_roles s;
     s_default_permissions := s_default_permissions s;
     s_icon := x;
     s_banner := s_banner s;
     s_flags := s_flags s;
     s_nsfw := s_nsfw s;
     s_analytics := s_analytics s;
     s_discoverable := s_discoverable s |}.
Definition s_set_banner (x : option File) (s : Server) : Server :=
  {| s_id := s_id s;
     s_owner := s_owner s;
     s_name := s_name s;
     s_description := s_description s;
     s_channels := s_channels s;
     s_categories := s_categories s;
     s_system_messages := s_system_messages s;
     s_roles := s_roles s;
     s_default_permissions := s_default_permissions s;
     s_icon := s_icon s;
     s_banner := x;
     s_flags := s_flags s;
     s_nsfw := s_nsfw s;
     s_analytics := s_analytics s;
     s_discoverable := s_discoverable s |}.
Definition s_set_roles (x : gmap string Role) (s : Server) : Server :=
  {| s_id := s_id s;
     s_owner := s_owner s;
     s_name := s_name s;
     s_description := s_description s;
     s_channels := s_channels s;
     s_categories := s_categories s;
     s_system_messages := s_system_messages s;
     s_roles := x;
     s_default_permissions := s_default_permissions s;
     s_icon := s_icon s;
     s_banner := s_banner s;
     s_flags := s_flags s;
     s_nsfw := s_nsfw s;
     s_analytics := s_analytics s;
     s_discoverable := s_discoverable s |}.
Definition s_set_channels (x : list string) (s : Server) : Server :=
  {| s_id := s_id s;
     s_owner := s_owner s;
     s_name := s_name s;
     s_description := s_description s;
     s_channels := x;
     s_categories := s_categories s;
     s_system_messages := s_system_messages s;
     s_roles := s_roles s;
     s_default_permissions := s_default_permissions s;
     s_icon := s_icon s;
     s_banner := s_banner s;
     s_flags := s_flags s;
     s_nsfw := s_nsfw s;
     s_analytics := s_analytics s;
     s_discoverable := s_discoverable s |}.
Definition r_set_colour (x : option string) (r : Role) : Role :=
  {| r_id := r_id r;
     r_name := r_name r;
     r_permissions := r_permissions r;
     r_colour := x;
     r_hoist := r_hoist r;
     r_rank := r_rank r |}.
Definition r_set_rank (x : Z) (r : Role) : Role :=
  {| r_id := r_id r;
     r_name := r_name r;
     r_permissions := r_permissions r;
     r_colour := r_colour r;
     r_hoist := r_hoist r;
     r_rank := x |}.

(** ** Members and bans *)

(** Composite primary key consisting of server and user id *)
Record MemberCompositeKey := {
  mk_server : string;
  mk_user : string }.
#[export] Instance MemberCompositeKey_eq_dec : EqDecision MemberCompositeKey.
Proof. solve_decision. Defined.

#[export] Program Instance MemberCompositeKey_countable : Countable MemberCompositeKey :=
  inj_countable' (fun k => (mk_server k, mk_user k)) (fun '(s, u) => {| mk_server := s; mk_user := u |}) _.
Next Obligation. by intros []. Qed.

(** [Member] *)
Record Member := {
  m_id : MemberCompositeKey;
  m_joined_at : Timestamp;
  m_nickname : option string;
  m_avatar : option File;
  m_roles : list string;
  m_timeout : option Timestamp;
  m_can_publish : bool;
  m_can_receive : bool }.
#[export] Instance Member_eq_dec : EqDecision Member.
Proof. solve_decision. Defined.

(** [PartialMember] *)
Record PartialMember := {
  pm_id : option MemberCompositeKey;
  pm_joined_at : option Timestamp;
  pm_nickname : option string;
  pm_avatar : option File;
  pm_roles : option (list string);
  pm_timeout : option Timestamp;
  pm_can_publish : option bool;
  pm_can_receive : option bool }.
Definition PartialMember_default : PartialMember :=
  {| pm_id := None; pm_joined_at := None; pm_nickname := None; pm_avatar := None; pm_roles := None; pm_timeout := None; pm_can_publish := None; pm_can_receive := None |}.

Module FieldsMember.
Inductive FieldsMember : Type :=
| Nickname | Avatar | Roles | Timeout | CanReceive | CanPublish | JoinedAt | VoiceChannel.
End FieldsMember.
Abbreviation FieldsMember := FieldsMember.FieldsMember.

Module RemovalIntention.
Inductive RemovalIntention : Type := Leave | Kick | Ban.
End RemovalIntention.
Abbreviation RemovalIntention := RemovalIntention.RemovalIntention.

Definition m_set_nickname (x : option string) (m : Member) : Member :=
  {| m_id := m_id m;
     m_joined_at := m_joined_at m;
     m_nickname := x;
     m_avatar := m_avatar m;
     m_roles := m_roles m;
     m_timeout := m_timeout m;
     m_can_publish := m_can_publish m;
     m_can_receive := m_can_receive m |}.
Definition m_set_avatar (x : option File) (m : Member) : Member :=
  {| m_id := m_id m;
     m_joined_at := m_joined_at m;
     m_nickname := m_nickname m;
     m_avatar := x;
     m_roles := m_roles m;
     m_timeout := m_timeout m;
     m_can_publish := m_can_publish m;
     m_can_receive := m_can_receive m |}.
Definition m_set_roles (x : list string) (m : Member) : Member :=
  {| m_id := m_id m;
     m_joined_at := m_joined_at m;
     m_nickname := m_nickname m;
     m_avatar := m_avatar m;
     m_roles := x;
     m_timeout := m_timeout m;
     m_can_publish := m_can_publish m;
     m_can_receive := m_can_receive m |}.
Definition m_set_timeout (x : option Timestamp) (m : Member) : Member :=
  {| m_id := m_id m;
     m_joined_at := m_joined_at m;
     m_nickname := m_nickname m;
     m_avatar := m_avatar m;
     m_roles := m_roles m;
     m_timeout := x;
     m_can_publish := m_can_publish m;
     m_can_receive := m_can_receive m |}.
Definition m_set_can_publish (x : bool) (m : Member) : Member :=
  {| m_id := m_id m;
     m_joined_at := m_joined_at m;
     m_nickname := m_nickname m;
     m_avatar := m_avatar m;
     m_roles := m_roles m;
     m_timeout := m_timeout m;
     m_can_publish := x;
     m_can_receive := m_can_receive m |}.
Definition m_set_can_receive (x : bool) (m : Member) : Member :=
  {| m_id := m_id m;
     m_joined_at := m_joined_at m;
     m_nickname := m_nickname m;
     m_avatar := m_avatar m;
     m_roles := m_roles m;
     m_timeout := m_timeout m;
     m_can_publish := m_can_publish m;
     m_can_receive := x |}.

(** [ServerBan] *)
Record ServerBan := {
  ban_id : MemberCompositeKey;
  ban_reason : option string }.
#[export] Instance ServerBan_eq_dec : EqDecision ServerBan.
Proof. solve_decision. Defined.

(** ** Users *)

Module SubscriptionTier.
Inductive SubscriptionTier : Type := Free | Basic | Pro | Ultra.
End SubscriptionTier.
Abbreviation SubscriptionTier := SubscriptionTier.SubscriptionTier.
#[export] Instance SubscriptionTier_eq_dec : EqDecision SubscriptionTier.
Proof. solve_decision. Defined.

(** [UserSubscription]; [expires_at] is in seconds *)
Record UserSubscription := {
  sub_tier : SubscriptionTier;
  sub_expires_at : option Z;
  sub_stripe_customer_id : option string;
  sub_stripe_subscription_id : option string }.
#[export] Instance UserSubscription_eq_dec : EqDecision UserSubscription.
Proof. solve_decision. Defined.

Module RelationshipStatus.
(** [company_database::RelationshipStatus] *)
Inductive RelationshipStatus : Type :=
| None | User | Friend | Outgoing | Incoming | Blocked | BlockedOther.
End RelationshipStatus.
Abbreviation RelationshipStatus := RelationshipStatus.RelationshipStatus.
#[export] Instance RelationshipStatus_eq_dec : EqDecision RelationshipStatus.
Proof. solve_decision. Defined.

Module Presence.
Inductive Presence : Type := Online | Idle | Focus | Busy | Invisible.
End Presence.
Abbreviation Presence := Presence.Presence.
#[export] Instance Presence_eq_dec : EqDecision Presence.
Proof. solve_decision. Defined.

Module DecorationCategory.
Inductive DecorationCategory : Type :=
| AvatarFrame | Banner | Badge | Nameplate | ChatBubble | CardSmall | CardLarge | UserPopout
| UserPopoutMobile | ChatBackground | ChatBackgroundMobile | ProfileModal.
End DecorationCategory.
Abbreviation DecorationCategory := DecorationCategory.DecorationCategory.
#[export] Instance DecorationCategory_eq_dec : EqDecision DecorationCategory.
Proof. solve_decision. Defined.

(** A decoration equipped in a specific slot *)
Record DecorationEquip := {
  de_decoration_id : string;
  de_slot : DecorationCategory }.
#[export] Instance DecorationEquip_eq_dec : EqDecision DecorationEquip.
Proof. solve_decision. Defined.

(** Relationship entry *)
Record Relationship := {
  rel_id : string;
  rel_status : RelationshipStatus }.
#[export] Instance Relationship_eq_dec : EqDecision Relationship.
Proof. solve_decision. Defined.

(** [UserStatus] *)
Record UserStatus := {
  us_text : option string;
  us_presence : option Presence }.
#[export] Instance UserStatus_eq_dec : EqDecision UserStatus.
Proof. solve_decision. Defined.

(** [UserProfile] *)
Record UserProfile := {
  up_content : option string;
  up_background : option File }.
#[export] Instance UserProfile_eq_dec : EqDecision UserProfile.
Proof. solve_decision. Defined.

(** [BotInformation] *)
Record BotInformation := {
  bi_owner : string }.
#[export] Instance BotInformation_eq_dec : EqDecision BotInformation.
Proof. solve_decision. Defined.

(** [User] *)
Record User := {
  u_id : string;
  u_username : string;
  u_discriminator : string;
  u_display_name : option string;
  u_avatar : option File;
  u_relations : option (list Relationship);
  u_badges : option Z;
  u_status : option UserStatus;
  u_profile : option UserProfile;
  u_flags : option Z;
  u_privileged : bool;
  u_bot : option BotInformation;
  u_suspended_until : option Timestamp;
  u_last_acknowledged_policy_change : Timestamp;
  u_subscription : option UserSubscription;
  u_active_decorations : option (list DecorationEquip);
  u_presence_style : option string }.
#[export] Instance User_eq_dec : EqDecision User.
Proof. solve_decision. Defined.

(** [PartialUser] *)
Record PartialUser := {
  pu_id : option string;
  pu_username : option string;
  pu_discriminator : option string;
  pu_display_name : option string;
  pu_avatar : option File;
  pu_relations : option (list Relationship);
  pu_badges : option Z;
  pu_status : option UserStatus;
  pu_profile : option UserProfile;
  pu_flags : option Z;
  pu_privileged : option bool;
  pu_bot : option BotInformation;
  pu_suspended_until : option Timestamp;
  pu_last_acknowledged_policy_change : option Timestamp;
  pu_subscription : option UserSubscription;
  pu_active_decorations : option (list DecorationEquip);
  pu_presence_style : option string }.
Definition PartialUser_default : PartialUser :=
  {| pu_id := None; pu_username := None; pu_discriminator := None; pu_display_name := None; pu_avatar := None; pu_relations := None; pu_badges := None; pu_status := None; pu_profile := None; pu_flags := None; pu_privileged := None; pu_bot := None; pu_suspended_until := None; pu_last_acknowledged_policy_change := None; pu_subscription := None; pu_active_decorations := None; pu_presence_style := None |}.

Module FieldsUser.
Inductive FieldsUser : Type :=
| Avatar | StatusText | StatusPresence | ProfileContent | ProfileBackground | DisplayName
| Suspension | None.
End FieldsUser.
Abbreviation FieldsUser := FieldsUser.FieldsUser.

Definition u_set_avatar (x : option File) (u : User) : User :=
  {| u_id := u_id u;
     u_username := u_username u;
     u_discriminator := u_discriminator u;
     u_display_name := u_display_name u;
     u_avatar := x;
     u_relations := u_relations u;
     u_badges := u_badges u;
     u_status := u_status u;
     u_profile := u_profile u;
     u_flags := u_flags u;
     u_privileged := u_privileged u;
     u_bot := u_bot u;
     u_suspended_until := u_suspended_until u;
     u_last_acknowledged_policy_change := u_last_acknowledged_policy_change u;
     u_subscription := u_subscription u;
     u_active_decorations := u_active_decorations u;
     u_presence_style := u_presence_style u |}.
Definition u_set_status (x : option UserStatus) (u : User) : User :=
  {| u_id := u_id u;
     u_username := u_username u;
     u_discriminator := u_discriminator u;
     u_display_name := u_display_name u;
     u_avatar := u_avatar u;
     u_relations := u_relations u;
     u_badges := u_badges u;
     u_status := x;
     u_profile := u_profile u;
     u_flags := u_flags u;
     u_privileged := u_privileged u;
     u_bot := u_bot u;
     u_suspended_until := u_suspended_until u;
     u_last_acknowledged_policy_change := u_last_acknowledged_policy_change u;
     u_subscription := u_subscription u;
     u_active_decorations := u_active_decorations u;
     u_presence_style := u_presence_style u |}.
Definition u_set_profile (x : option UserProfile) (u : User) : User :=
  {| u_id := u_id u;
     u_username := u_username u;
     u_discriminator := u_discriminator u;
     u_display_name := u_display_name u;
     u_avatar := u_avatar u;
     u_relations := u_relations u;
     u_badges := u_badges u;
     u_status := u_status u;
     u_profile := x;
     u_flags := u_flags u;
     u_privileged := u_privileged u;
     u_bot := u_bot u;
     u_suspended_until := u_suspended_until u;
     u_last_acknowledged_policy_change := u_last_acknowledged_policy_change u;
     u_subscription := u_subscription u;
     u_active_decorations := u_active_decorations u;
     u_presence_style := u_presence_style u |}.
Definition u_set_display_name (x : option string) (u : User) : User :=
  {| u_id := u_id u;
     u_username := u_username u;
     u_discriminator := u_discriminator u;
     u_display_name := x;
     u_avatar := u_avatar u;
     u_relations := u_relations u;
     u_badges := u_badges u;
     u_status := u_status u;
     u_profile := u_profile u;
     u_flags := u_flags u;
     u_privileged := u_privileged u;
     u_bot := u_bot u;
     u_suspended_until := u_suspended_until u;
     u_last_acknowledged_policy_change := u_last_acknowledged_policy_change u;
     u_subscription := u_subscription u;
     u_active_decorations := u_active_decorations u;
     u_presence_style := u_presence_style u |}.
Definition u_set_suspended_until (x : option Timestamp) (u : User) : User :=
  {| u_id := u_id u;
     u_username := u_username u;
     u_discriminator := u_discriminator u;
     u_display_name := u_display_name u;
     u_avatar := u_avatar u;
     u_relations := u_relations u;
     u_badges := u_badges u;
     u_status := u_status u;
     u_profile := u_profile u;
     u_flags := u_flags u;
     u_privileged := u_privileged u;
     u_bot := u_bot u;
     u_suspended_until := x;
     u_last_acknowledged_policy_change := u_last_acknowledged_policy_change u;
     u_subscription := u_subscription u;
     u_active_decorations := u_active_decorations u;
     u_presence_style := u_presence_style u |}.
Definition u_set_relations (x : option (list Relationship)) (u : User) : User :=
  {| u_id := u_id u;
     u_username := u_username u;
     u_discriminator := u_discriminator u;
     u_display_name := u_display_name u;
     u_avatar := u_avatar u;
     u_relations := x;
     u_badges := u_badges u;
     u_status := u_status u;
     u_profile := u_profile u;
     u_flags := u_flags u;
     u_privileged := u_privileged u;
     u_bot := u_bot u;
     u_suspended_until := u_suspended_until u;
     u_last_acknowledged_policy_change := u_last_acknowledged_policy_change u;
     u_subscription := u_subscription u;
     u_active_decorations := u_active_decorations u;
     u_presence_style := u_presence_style u |}.
Definition u_set_last_acknowledged_policy_change (x : Timestamp) (u : User) : User :=
  {| u_id := u_id u;
     u_username := u_username u;
     u_discriminator := u_discriminator u;
     u_display_name := u_display_name u;
     u_avatar := u_avatar u;
     u_relations := u_relations u;
     u_badges := u_badges u;
     u_status := u_status u;
     u_profile := u_profile u;
     u_flags := u_flags u;
     u_privileged := u_privileged u;
     u_bot := u_bot u;
     u_suspended_until := u_suspended_until u;
     u_last_acknowledged_policy_change := x;
     u_subscription := u_subscription u;
     u_active_decorations := u_active_decorations u;
     u_presence_style := u_presence_style u |}.
Definition us_set_text (x : option string) (s : UserStatus) : UserStatus :=
  {| us_text := x;
     us_presence := us_presence s |}.
Definition us_set_presence (x : option Presence) (s : UserStatus) : UserStatus :=
  {| us_text := us_text s;
     us_presence := x |}.
Definition up_set_content (x : option string) (p : UserProfile) : UserProfile :=
  {| up_content := x;
     up_background := up_background p |}.
Definition up_set_background (x : option File) (p : UserProfile) : UserProfile :=
  {| up_content := up_content p;
     up_background := x |}.

(** ** Channels *)

Module ViewerListVisibility.
Inductive ViewerListVisibility : Type := Nobody | ParticipantsOnly | ModeratorsOnly | Everyone.
End ViewerListVisibility.
Abbreviation ViewerListVisibility := ViewerListVisibility.ViewerListVisibility.
#[export] Instance ViewerListVisibility_eq_dec : EqDecision ViewerListVisibility.
Proof. solve_decision. Defined.

(** [VoiceInformation] *)
Record VoiceInformation := {
  vi_max_users : option Z;
  vi_bitrate : option Z;
  vi_is_stream_public : bool;
  vi_show_viewer_list_to : ViewerListVisibility }.
#[export] Instance VoiceInformation_eq_dec : EqDecision VoiceInformation.
Proof. solve_decision. Defined.

Definition VoiceInformation_default : VoiceInformation :=
  {| vi_max_users := None; vi_bitrate := None; vi_is_stream_public := false;
     vi_show_viewer_list_to := ViewerListVisibility.Nobody |}.

(** [Channel::SavedMessages] *)
Record SavedMessagesChannel := {
  sm_id : string;
  sm_user : string }.
#[export] Instance SavedMessagesChannel_eq_dec : EqDecision SavedMessagesChannel.
Proof. solve_decision. Defined.

(** [Channel::DirectMessage] *)
Record DirectMessageChannel := {
  dm_id : string;
  dm_active : bool;
  dm_recipients : list string;
  dm_last_message_id : option string }.
#[export] Instance DirectMessageChannel_eq_dec : EqDecision DirectMessageChannel.
Proof. solve_decision. Defined.

(** [Channel::Group]; [permissions] is an [i64] *)
Record GroupChannel := {
  g_id : string;
  g_name : string;
  g_owner : string;
  g_description : option string;
  g_recipients : list string;
  g_icon : option File;
  g_last_message_id : option string;
  g_permissions : option Z;
  g_moderators : list string;
  g_nsfw : bool;
  g_encrypted : bool }.
#[export] Instance GroupChannel_eq_dec : EqDecision GroupChannel.
Proof. solve_decision. Defined.

(** [Channel::TextChannel] *)
Record TextChannel := {
  t_id : string;
  t_server : string;
  t_name : string;
  t_description : option string;
  t_icon : option File;
  t_last_message_id : option string;
  t_default_permissions : option OverrideField;
  t_role_permissions : gmap string OverrideField;
  t_nsfw : bool;
  t_voice : option VoiceInformation;
  t_encrypted : bool }.
#[export] Instance TextChannel_eq_dec : EqDecision TextChannel.
Proof. solve_decision. Defined.

Module Channel.
Inductive Channel : Type :=
| SavedMessages (c : SavedMessagesChannel)
| DirectMessage (c : DirectMessageChannel)
| Group (c : GroupChannel)
| TextChannel (c : TextChannel).
End Channel.
Abbreviation Channel := Channel.Channel.
#[export] Instance Channel_eq_dec : EqDecision Channel.
Proof. solve_decision. Defined.

(** [PartialChannel] *)
Record PartialChannel := {
  pc_name : option string;
  pc_owner : option string;
  pc_description : option string;
  pc_icon : option File;
  pc_nsfw : option bool;
  pc_active : option bool;
  pc_permissions : option Z;
  pc_moderators : option (list string);
  pc_role_permissions : option (gmap string OverrideField);
  pc_default_permissions : option OverrideField;
  pc_last_message_id : option string;
  pc_voice : option VoiceInformation;
  pc_encrypted : option bool }.

Definition PartialChannel_default : PartialChannel :=
  {| pc_name := None; pc_owner := None; pc_description := None; pc_icon := None; pc_nsfw := None; pc_active := None; pc_permissions := None; pc_moderators := None; pc_role_permissions := None; pc_default_permissions := None; pc_last_message_id := None; pc_voice := None; pc_encrypted := None |}.

Module FieldsChannel.
Inductive FieldsChannel : Type := Description | Icon | DefaultPermissions | Voice.
End FieldsChannel.
Abbreviation FieldsChannel := FieldsChannel.FieldsChannel.

Definition dm_set_active (x : bool) (c : DirectMessageChannel) : DirectMessageChannel :=
  {| dm_id := dm_id c;
     dm_active := x;
     dm_recipients := dm_recipients c;
     dm_last_message_id := dm_last_message_id c |}.
Definition g_set_description (x : option string) (g : GroupChannel) : GroupChannel :=
  {| g_id := g_id g;
     g_name := g_name g;
     g_owner := g_owner g;
     g_description := x;
     g_recipients := g_recipients g;
     g_icon := g_icon g;
     g_last_message_id := g_last_message_id g;
     g_permissions := g_permissions g;
     g_moderators := g_moderators g;
     g_nsfw := g_nsfw g;
     g_encrypted := g_encrypted g |}.
Definition g_set_icon (x : option File) (g : GroupChannel) : GroupChannel :=
  {| g_id := g_id g;
     g_name := g_name g;
     g_owner := g_owner g;
     g_description := g_description g;
     g_recipients := g_recipients g;
     g_icon := x;
     g_last_message_id := g_last_message_id g;
     g_permissions := g_permissions g;
     g_moderators := g_moderators g;
     g_nsfw := g_nsfw g;
     g_encrypted := g_encrypted g |}.
Definition g_set_recipients (x : list string) (g : GroupChannel) : GroupChannel :=
  {| g_id := g_id g;
     g_name := g_name g;
     g_owner := g_owner g;
     g_description := g_description g;
     g_recipients := x;
     g_icon := g_icon g;
     g_last_message_id := g_last_message_id g;
     g_permissions := g_permissions g;
     g_moderators := g_moderators g;
     g_nsfw := g_nsfw g;
     g_encrypted := g_encrypted g |}.
Definition t_set_description (x : option string) (t : TextChannel) : TextChannel :=
  {| t_id := t_id t;
     t_server := t_server t;
     t_name := t_name t;
     t_description := x;
     t_icon := t_icon t;
     t_last_message_id := t_last_message_id t;
     t_default_permissions := t_default_permissions t;
     t_role_permissions := t_role_permissions t;
     t_nsfw := t_nsfw t;
     t_voice := t_voice t;
     t_encrypted := t_encrypted t |}.
Definition t_set_icon (x : option File) (t : TextChannel) : TextChannel :=
  {| t_id := t_id t;
     t_server := t_server t;
     t_name := t_name t;
     t_description := t_description t;
     t_icon := x;
     t_last_message_id := t_last_message_id t;
     t_default_permissions := t_default_permissions t;
     t_role_permissions := t_role_permissions t;
     t_nsfw := t_nsfw t;
     t_voice := t_voice t;
     t_encrypted := t_encrypted t |}.
Definition t_set_default_permissions (x : option OverrideField) (t : TextChannel) : TextChannel :=
  {| t_id := t_id t;
     t_server := t_server t;
     t_name := t_name t;
     t_description := t_description t;
     t_icon := t_icon t;
     t_last_message_id := t_last_message_id t;
     t_default_permissions := x;
     t_role_permissions := t_role_permissions t;
     t_nsfw := t_nsfw t;
     t_voice := t_voice t;
     t_encrypted := t_encrypted t |}.
Definition t_set_voice (x : option VoiceInformation) (t : TextChannel) : TextChannel :=
  {| t_id := t_id t;
     t_server := t_server t;
     t_name := t_name t;
     t_description := t_description t;
     t_icon := t_icon t;
     t_last_message_id := t_last_message_id t;
     t_default_permissions := t_default_permissions t;
     t_role_permissions := t_role_permissions t;
     t_nsfw := t_nsfw t;
     t_voice := x;
     t_encrypted := t_encrypted t |}.
Definition t_set_role_permissions (x : gmap string OverrideField) (t : TextChannel) : TextChannel :=
  {| t_id := t_id t;
     t_server := t_server t;
     t_name := t_name t;
     t_description := t_description t;
     t_icon := t_icon t;
     t_last_message_id := t_last_message_id t;
     t_default_permissions := t_default_permissions t;
     t_role_permissions := x;
     t_nsfw := t_nsfw t;
     t_voice := t_voice t;
     t_encrypted := t_encrypted t |}.

(** ** Bots, emoji and invites *)

Module BotType.
Inductive BotType : Type := Regular | AiCompanion.
End BotType.
Abbreviation BotType := BotType.BotType.
#[export] Instance BotType_eq_dec : EqDecision BotType.
Proof. solve_decision. Defined.

(** [Bot] *)
Record Bot := {
  b_id : string;
  b_owner : string;
  b_token : string;
  b_public : bool;
  b_analytics : bool;
  b_discoverable : bool;
  b_interactions_url : string;
  b_terms_of_service_url : string;
  b_privacy_policy_url : string;
  b_flags : option Z;
  b_bot_type : BotType;
  b_license_type : option string;
  b_license_verified_at : option Timestamp;
  b_joined_server_id : option string;
  b_public_key_pem : option string;
  b_public_key_registered_at : option Timestamp }.
#[export] Instance Bot_eq_dec : EqDecision Bot.
Proof. solve_decision. Defined.

(** [PartialBot] *)
Record PartialBot := {
  pb_id : option string;
  pb_owner : option string;
  pb_token : option string;
  pb_public : option bool;
  pb_analytics : option bool;
  pb_discoverable : option bool;
  pb_interactions_url : option string;
  pb_terms_of_service_url : option string;
  pb_privacy_policy_url : option string;
  pb_flags : option Z;
  pb_bot_type : option BotType;
  pb_license_type : option string;
  pb_license_verified_at : option Timestamp;
  pb_joined_server_id : option string;
  pb_public_key_pem : option string;
  pb_public_key_registered_at : option Timestamp }.
Definition PartialBot_default : PartialBot :=
  {| pb_id := None; pb_owner := None; pb_token := None; pb_public := None; pb_analytics := None; pb_discoverable := None; pb_interactions_url := None; pb_terms_of_service_url := None; pb_privacy_policy_url := None; pb_flags := None; pb_bot_type := None; pb_license_type := None; pb_license_verified_at := None; pb_joined_server_id := None; pb_public_key_pem := None; pb_public_key_registered_at := None |}.

Module FieldsBot.
Inductive FieldsBot : Type := Token | InteractionsURL.
End FieldsBot.
Abbreviation FieldsBot := FieldsBot.FieldsBot.
#[export] Instance FieldsBot_eq_dec : EqDecision FieldsBot.
Proof. solve_decision. Defined.

Definition b_set_token (x : string) (b : Bot) : Bot :=
  {| b_id := b_id b;
     b_owner := b_owner b;
     b_token := x;
     b_public := b_public b;
     b_analytics := b_analytics b;
     b_discoverable := b_discoverable b;
     b_interactions_url := b_interactions_url b;
     b_terms_of_service_url := b_terms_of_service_url b;
     b_privacy_policy_url := b_privacy_policy_url b;
     b_flags := b_flags b;
     b_bot_type := b_bot_type b;
     b_license_type := b_license_type b;
     b_license_verified_at := b_license_verified_at b;
     b_joined_server_id := b_joined_server_id b;
     b_public_key_pem := b_public_key_pem b;
     b_public_key_registered_at := b_public_key_registered_at b |}.
Definition b_set_interactions_url (x : string) (b : Bot) : Bot :=
  {| b_id := b_id b;
     b_owner := b_owner b;
     b_token := b_token b;
     b_public := b_public b;
     b_analytics := b_analytics b;
     b_discoverable := b_discoverable b;
     b_interactions_url := x;
     b_terms_of_service_url := b_terms_of_service_url b;
     b_privacy_policy_url := b_privacy_policy_url b;
     b_flags := b_flags b;
     b_bot_type := b_bot_type b;
     b_license_type := b_license_type b;
     b_license_verified_at := b_license_verified_at b;
     b_joined_server_id := b_joined_server_id b;
     b_public_key_pem := b_public_key_pem b;
     b_public_key_registered_at := b_public_key_registered_at b |}.
Definition b_set_joined_server_id (x : option string) (b : Bot) : Bot :=
  {| b_id := b_id b;
     b_owner := b_owner b;
     b_token := b_token b;
     b_public := b_public b;
     b_analytics := b_analytics b;
     b_discoverable := b_discoverable b;
     b_interactions_url := b_interactions_url b;
     b_terms_of_service_url := b_terms_of_service_url b;
     b_privacy_policy_url := b_privacy_policy_url b;
     b_flags := b_flags b;
     b_bot_type := b_bot_type b;
     b_license_type := b_license_type b;
     b_license_verified_at := b_license_verified_at b;
     b_joined_server_id := x;
     b_public_key_pem := b_public_key_pem b;
     b_public_key_registered_at := b_public_key_registered_at b |}.
Definition b_set_public_key_pem (x : option string) (b : Bot) : Bot :=
  {| b_id := b_id b;
     b_owner := b_owner b;
     b_token := b_token b;
     b_public := b_public b;
     b_analytics := b_analytics b;
     b_discoverable := b_discoverable b;
     b_interactions_url := b_interactions_url b;
     b_terms_of_service_url := b_terms_of_service_url b;
     b_privacy_policy_url := b_privacy_policy_url b;
     b_flags := b_flags b;
     b_bot_type := b_bot_type b;
     b_license_type := b_license_type b;
     b_license_verified_at := b_license_verified_at b;
     b_joined_server_id := b_joined_server_id b;
     b_public_key_pem := x;
     b_public_key_registered_at := b_public_key_registered_at b |}.
Definition b_set_public_key_registered_at (x : option Timestamp) (b : Bot) : Bot :=
  {| b_id := b_id b;
     b_owner := b_owner b;
     b_token := b_token b;
     b_public := b_public b;
     b_analytics := b_analytics b;
     b_discoverable := b_discoverable b;
     b_interactions_url := b_interactions_url b;
     b_terms_of_service_url := b_terms_of_service_url b;
     b_privacy_policy_url := b_privacy_policy_url b;
     b_flags := b_flags b;
     b_bot_type := b_bot_type b;
     b_license_type := b_license_type b;
     b_license_verified_at := b_license_verified_at b;
     b_joined_server_id := b_joined_server_id b;
     b_public_key_pem := b_public_key_pem b;
     b_public_key_registered_at := x |}.

Module EmojiParent.
Inductive EmojiParent : Type := Server (id : string) | Detached.
End EmojiParent.
Abbreviation EmojiParent := EmojiParent.EmojiParent.
#[export] Instance EmojiParent_eq_dec : EqDecision EmojiParent.
Proof. solve_decision. Defined.

(** [Emoji] *)
Record Emoji := {
  e_id : string;
  e_parent : EmojiParent;
  e_creator_id : string;
  e_name : string;
  e_animated : bool;
  e_nsfw : bool }.
#[export] Instance Emoji_eq_dec : EqDecision Emoji.
Proof. solve_decision. Defined.

Definition e_set_parent (x : EmojiParent) (e : Emoji) : Emoji :=
  {| e_id := e_id e;
     e_parent := x;
     e_creator_id := e_creator_id e;
     e_name := e_name e;
     e_animated := e_animated e;
     e_nsfw := e_nsfw e |}.

Module Invite.
Inductive Invite : Type :=
| Server (code server creator channel : string)
| Group (code creator channel : string).
End Invite.
Abbreviation Invite := Invite.Invite.
#[export] Instance Invite_eq_dec : EqDecision Invite.
Proof. solve_decision. Defined.

Module RatelimitEventType.
Inductive RatelimitEventType : Type := DiscriminatorChange.
End RatelimitEventType.
Abbreviation RatelimitEventType := RatelimitEventType.RatelimitEventType.
#[export] Instance RatelimitEventType_eq_dec : EqDecision RatelimitEventType.
Proof. solve_decision. Defined.

(** [RatelimitEvent] *)
Record RatelimitEvent := {
  re_id : string;
  re_target_id : string;
  re_event_type : RatelimitEventType }.
#[export] Instance RatelimitEvent_eq_dec : EqDecision RatelimitEvent.
Proof. solve_decision. Defined.


(** ** [apply_options] of the generated structures *)

Class OptionalStruct (T P : Type) := apply_options : T -> P -> T.

Definition role_some_priority (x : Role) (p : PartialRole) : Role :=
  {| r_id := match pr_id p with Some v => v | None => r_id x end;
     r_name := match pr_name p with Some v => v | None => r_name x end;
     r_permissions := match pr_permissions p with Some v => v | None => r_permissions x end;
     r_colour := match pr_colour p with Some v => Some v | None => r_colour x end;
     r_hoist := match pr_hoist p with Some v => v | None => r_hoist x end;
     r_rank := match pr_rank p with Some v => v | None => r_rank x end |}.
Class RoleOptionalLaws `{OptionalStruct Role PartialRole} : Prop := {
  r_id_applied : forall x p, r_id (apply_options x p) =
    match pr_id p with Some v => v | None => r_id x end;
  r_name_applied : forall x p, r_name (apply_options x p) =
    match pr_name p with Some v => v | None => r_name x end;
  r_permissions_applied : forall x p, r_permissions (apply_options x p) =
    match pr_permissions p with Some v => v | None => r_permissions x end;
  r_colour_applied : forall x p, r_colour (apply_options x p) =
    match pr_colour p with Some v => Some v | None => r_colour x end;
  r_hoist_applied : forall x p, r_hoist (apply_options x p) =
    match pr_hoist p with Some v => v | None => r_hoist x end;
  r_rank_applied : forall x p, r_rank (apply_options x p) =
    match pr_rank p with Some v => v | None => r_rank x end }.
Section role_some_priority_inst.
#[local] Instance role_some_priority_struct : OptionalStruct Role PartialRole := role_some_priority.
Lemma role_some_priority_laws : RoleOptionalLaws.
Proof. by constructor. Qed.
End role_some_priority_inst.

Definition server_some_priority (x : Server) (p : PartialServer) : Server :=
  {| s_id := match ps_id p with Some v => v | None => s_id x end;
     s_owner := match ps_owner p with Some v => v | None => s_owner x end;
     s_name := match ps_name p with Some v => v | None => s_name x end;
     s_description := match ps_description p with Some v => Some v | None => s_description x end;
     s_channels := match ps_channels p with Some v => v | None => s_channels x end;
     s_categories := match ps_categories p with Some v => Some v | None => s_categories x end;
     s_system_messages := match ps_system_messages p with Some v => Some v | None => s_system_messages x end;
     s_roles := match ps_roles p with Some v => v | None => s_roles x end;
     s_default_permissions := match ps_default_permissions p with Some v => v | None => s_default_permissions x end;
     s_icon := match ps_icon p with Some v => Some v | None => s_icon x end;
     s_banner := match ps_banner p with Some v => Some v | None => s_banner x end;
     s_flags := match ps_flags p with Some v => Some v | None => s_flags x end;
     s_nsfw := match ps_nsfw p with Some v => v | None => s_nsfw x end;
     s_analytics := match ps_analytics p with Some v => v | None => s_analytics x end;
     s_discoverable := match ps_discoverable p with Some v => v | None => s_discoverable x end |}.
Class ServerOptionalLaws `{OptionalStruct Server PartialServer} : Prop := {
  s_id_applied : forall x p, s_id (apply_options x p) =
    match ps_id p with Some v => v | None => s_id x end;
  s_owner_applied : forall x p, s_owner (apply_options x p) =
    match ps_owner p with Some v => v | None => s_owner x end;
  s_name_applied : forall x p, s_name (apply_options x p) =
    match ps_name p with Some v => v | None => s_name x end;
  s_description_applied : forall x p, s_description (apply_options x p) =
    match ps_description p with Some v => Some v | None => s_description x end;
  s_channels_applied : forall x p, s_channels (apply_options x p) =
    match ps_channels p with Some v => v | None => s_channels x end;
  s_categories_applied : forall x p, s_categories (apply_options x p) =
    match ps_categories p with Some v => Some v | None => s_categories x end;
  s_system_messages_applied : forall x p, s_system_messages (apply_options x p) =
    match ps_system_messages p with Some v => Some v | None => s_system_messages x end;
  s_roles_applied : forall x p, s_roles (apply_options x p) =
    match ps_roles p with Some v => v | None => s_roles x end;
  s_default_permissions_applied : forall x p, s_default_permissions (apply_options x p) =
    match ps_default_permissions p with Some v => v | None => s_default_permissions x end;
  s_icon_applied : forall x p, s_icon (apply_options x p) =
    match ps_icon p with Some v => Some v | None => s_icon x end;
  s_banner_applied : forall x p, s_banner (apply_options x p) =
    match ps_banner p with Some v => Some v | None => s_banner x end;
  s_flags_applied : forall x p, s_flags (apply_options x p) =
    match ps_flags p with Some v => Some v | None => s_flags x end;
  s_nsfw_applied : forall x p, s_nsfw (apply_options x p) =
    match ps_nsfw p with Some v => v | None => s_nsfw x end;
  s_analytics_applied : forall x p, s_analytics (apply_options x p) =
    match ps_analytics p with Some v => v | None => s_analytics x end;
  s_discoverable_applied : forall x p, s_discoverable (apply_options x p) =
    match ps_discoverable p with Some v => v | None => s_discoverable x end }.
Section server_some_priority_inst.
#[local] Instance server_some_priority_struct : OptionalStruct Server PartialServer := server_some_priority.
Lemma server_some_priority_laws : ServerOptionalLaws.
Proof. by constructor. Qed.
End server_some_priority_inst.

Definition member_some_priority (x : Member) (p : PartialMember) : Member :=
  {| m_id := match pm_id p with Some v => v | None => m_id x end;
     m_joined_at := match pm_joined_at p with Some v => v | None => m_joined_at x end;
     m_nickname := match pm_nickname p with Some v => Some v | None => m_nickname x end;
     m_avatar := match pm_avatar p with Some v => Some v | None => m_avatar x end;
     m_roles := match pm_roles p with Some v => v | None => m_roles x end;
     m_timeout := match pm_timeout p with Some v => Some v | None => m_timeout x end;
     m_can_publish := match pm_can_publish p with Some v => v | None => m_can_publish x end;
     m_can_receive := match pm_can_receive p with Some v => v | None => m_can_receive x end |}.
Class MemberOptionalLaws `{OptionalStruct Member PartialMember} : Prop := {
  m_id_applied : forall x p, m_id (apply_options x p) =
    match pm_id p with Some v => v | None => m_id x end;
  m_joined_at_applied : forall x p, m_joined_at (apply_options x p) =
    match pm_joined_at p with Some v => v | None => m_joined_at x end;
  m_nickname_applied : forall x p, m_nickname (apply_options x p) =
    match pm_nickname p with Some v => Some v | None => m_nickname x end;
  m_avatar_applied : forall x p, m_avatar (apply_options x p) =
    match pm_avatar p with Some v => Some v | None => m_avatar x end;
  m_roles_applied : forall x p, m_roles (apply_options x p) =
    match pm_roles p with Some v => v | None => m_roles x end;
  m_timeout_applied : forall x p, m_timeout (apply_options x p) =
    match pm_timeout p with Some v => Some v | None => m_timeout x end;
  m_can_publish_applied : forall x p, m_can_publish (apply_options x p) =
    match pm_can_publish p with Some v => v | None => m_can_publish x end;
  m_can_receive_applied : forall x p, m_can_receive (apply_options x p) =
    match pm_can_receive p with Some v => v | None => m_can_receive x end }.
Section member_some_priority_inst.
#[local] Instance member_some_priority_struct : OptionalStruct Member PartialMember := member_some_priority.
Lemma member_some_priority_laws : MemberOptionalLaws.
Proof. by constructor. Qed.
End member_some_priority_inst.

Definition user_some_priority (x : User) (p : PartialUser) : User :=
  {| u_id := match pu_id p with Some v => v | None => u_id x end;
     u_username := match pu_username p with Some v => v | None => u_username x end;
     u_discriminator := match pu_discriminator p with Some v => v | None => u_discriminator x end;
     u_display_name := match pu_display_name p with Some v => Some v | None => u_display_name x end;
     u_avatar := match pu_avatar p with Some v => Some v | None => u_avatar x end;
     u_relations := match pu_relations p with Some v => Some v | None => u_relations x end;
     u_badges := match pu_badges p with Some v => Some v | None => u_badges x end;
     u_status := match pu_status p with Some v => Some v | None => u_status x end;
     u_profile := match pu_profile p with Some v => Some v | None => u_profile x end;
     u_flags := match pu_flags p with Some v => Some v | None => u_flags x end;
     u_privileged := match pu_privileged p with Some v => v | None => u_privileged x end;
     u_bot := match pu_bot p with Some v => Some v | None => u_bot x end;
     u_suspended_until := match pu_suspended_until p with Some v => Some v | None => u_suspended_until x end;
     u_last_acknowledged_policy_change := match pu_last_acknowledged_policy_change p with Some v => v | None => u_last_acknowledged_policy_change x end;
     u_subscription := match pu_subscription p with Some v => Some v | None => u_subscription x end;
     u_active_decorations := match pu_active_decorations p with Some v => Some v | None => u_active_decorations x end;
     u_presence_style := match pu_presence_style p with Some v => Some v | None => u_presence_style x end |}.
Class UserOptionalLaws `{OptionalStruct User PartialUser} : Prop := {
  u_id_applied : forall x p, u_id (apply_options x p) =
    match pu_id p with Some v => v | None => u_id x end;
  u_username_applied : forall x p, u_username (apply_options x p) =
    match pu_username p with Some v => v | None => u_username x end;
  u_discriminator_applied : forall x p, u_discriminator (apply_options x p) =
    match pu_discriminator p with Some v => v | None => u_discriminator x end;
  u_display_name_applied : forall x p, u_display_name (apply_options x p) =
    match pu_display_name p with Some v => Some v | None => u_display_name x end;
  u_avatar_applied : forall x p, u_avatar (apply_options x p) =
    match pu_avatar p with Some v => Some v | None => u_avatar x end;
  u_relations_applied : forall x p, u_relations (apply_options x p) =
    match pu_relations p with Some v => Some v | None => u_relations x end;
  u_badges_applied : forall x p, u_badges (apply_options x p) =
    match pu_badges p with Some v => Some v | None => u_badges x end;
  u_status_applied : forall x p, u_status (apply_options x p) =
    match pu_status p with Some v => Some v | None => u_status x end;
  u_profile_applied : forall x p, u_profile (apply_options x p) =
    match pu_profile p with Some v => Some v | None => u_profile x end;
  u_flags_applied : forall x p, u_flags (apply_options x p) =
    match pu_flags p with Some v => Some v | None => u_flags x end;
  u_privileged_applied : forall x p, u_privileged (apply_options x p) =
    match pu_privileged p with Some v => v | None => u_privileged x end;
  u_bot_applied : forall x p, u_bot (apply_options x p) =
    match pu_bot p with Some v => Some v | None => u_bot x end;
  u_suspended_until_applied : forall x p, u_suspended_until (apply_options x p) =
    match pu_suspended_until p with Some v => Some v | None => u_suspended_until x end;
  u_last_acknowledged_policy_change_applied : forall x p, u_last_acknowledged_policy_change (apply_options x p) =
    match pu_last_acknowledged_policy_change p with Some v => v | None => u_last_acknowledged_policy_change x end;
  u_subscription_applied : forall x p, u_subscription (apply_options x p) =
    match pu_subscription p with Some v => Some v | None => u_subscription x end;
  u_active_decorations_applied : forall x p, u_active_decorations (apply_options x p) =
    match pu_active_decorations p with Some v => Some v | None => u_active_decorations x end;
  u_presence_style_applied : forall x p, u_presence_style (apply_options x p) =
    match pu_presence_style p with Some v => Some v | None => u_presence_style x end }.
Section user_some_priority_inst.
#[local] Instance user_some_priority_struct : OptionalStruct User PartialUser := user_some_priority.
Lemma user_some_priority_laws : UserOptionalLaws.
Proof. by constructor. Qed.
End user_some_priority_inst.

Definition bot_some_priority (x : Bot) (p : PartialBot) : Bot :=
  {| b_id := match pb_id p with Some v => v | None => b_id x end;
     b_owner := match pb_owner p with Some v => v | None => b_owner x end;
     b_token := match pb_token p with Some v => v | None => b_token x end;
     b_public := match pb_public p with Some v => v | None => b_public x end;
     b_analytics := match pb_analytics p with Some v => v | None => b_analytics x end;
     b_discoverable := match pb_discoverable p with Some v => v | None => b_discoverable x end;
     b_interactions_url := match pb_interactions_url p with Some v => v | None => b_interactions_url x end;
     b_terms_of_service_url := match pb_terms_of_service_url p with Some v => v | None => b_terms_of_service_url x end;
     b_privacy_policy_url := match pb_privacy_policy_url p with Some v => v | None => b_privacy_policy_url x end;
     b_flags := match pb_flags p with Some v => Some v | None => b_flags x end;
     b_bot_type := match pb_bot_type p with Some v => v | None => b_bot_type x end;
     b_license_type := match pb_license_type p with Some v => Some v | None => b_license_type x end;
     b_license_verified_at := match pb_license_verified_at p with Some v => Some v | None => b_license_verified_at x end;
     b_joined_server_id := match pb_joined_server_id p with Some v => Some v | None => b_joined_server_id x end;
     b_public_key_pem := match pb_public_key_pem p with Some v => Some v | None => b_public_key_pem x end;
     b_public_key_registered_at := match pb_public_key_registered_at p with Some v => Some v | None => b_public_key_registered_at x end |}.
Class BotOptionalLaws `{OptionalStruct Bot PartialBot} : Prop := {
  b_id_applied : forall x p, b_id (apply_options x p) =
    match pb_id p with Some v => v | None => b_id x end;
  b_owner_applied : forall x p, b_owner (apply_options x p) =
    match pb_owner p with Some v => v | None => b_owner x end;
  b_token_applied : forall x p, b_token (apply_options x p) =
    match pb_token p with Some v => v | None => b_token x end;
  b_public_applied : forall x p, b_public (apply_options x p) =
    match pb_public p with Some v => v | None => b_public x end;
  b_analytics_applied : forall x p, b_analytics (apply_options x p) =
    match pb_analytics p with Some v => v | None => b_analytics x end;
  b_discoverable_applied : forall x p, b_discoverable (apply_options x p) =
    match pb_discoverable p with Some v => v | None => b_discoverable x end;
  b_interactions_url_applied : forall x p, b_interactions_url (apply_options x p) =
    match pb_interactions_url p with Some v => v | None => b_interactions_url x end;
  b_terms_of_service_url_applied : forall x p, b_terms_of_service_url (apply_options x p) =
    match pb_terms_of_service_url p with Some v => v | None => b_terms_of_service_url x end;
  b_privacy_policy_url_applied : forall x p, b_privacy_policy_url (apply_options x p) =
    match pb_privacy_policy_url p with Some v => v | None => b_privacy_policy_url x end;
  b_flags_applied : forall x p, b_flags (apply_options x p) =
    match pb_flags p with Some v => Some v | None => b_flags x end;
  b_bot_type_applied : forall x p, b_bot_type (apply_options x p) =
    match pb_bot_type p with Some v => v | None => b_bot_type x end;
  b_license_type_applied : forall x p, b_license_type (apply_options x p) =
    match pb_license_type p with Some v => Some v | None => b_license_type x end;
  b_license_verified_at_applied : forall x p, b_license_verified_at (apply_options x p) =
    match pb_license_verified_at p with Some v => Some v | None => b_license_verified_at x end;
  b_joined_server_id_applied : forall x p, b_joined_server_id (apply_options x p) =
    match pb_joined_server_id p with Some v => Some v | None => b_joined_server_id x end;
  b_public_key_pem_applied : forall x p, b_public_key_pem (apply_options x p) =
    match pb_public_key_pem p with Some v => Some v | None => b_public_key_pem x end;
  b_public_key_registered_at_applied : forall x p, b_public_key_registered_at (apply_options x p) =
    match pb_public_key_registered_at p with Some v => Some v | None => b_public_key_registered_at x end }.
Section bot_some_priority_inst.
#[local] Instance bot_some_priority_struct : OptionalStruct Bot PartialBot := bot_some_priority.
Lemma bot_some_priority_laws : BotOptionalLaws.
Proof. by constructor. Qed.
End bot_some_priority_inst.

