(* ===== verification/ApiTypes.v ===== *)
(** * The types of the API ([crates/core/models/src/v0])

    The structures that clients see, in the module [v0]: one record per
    structure and one enumeration per enumeration of the source, with the field
    names of the stored structures ([Models]) where the source uses the same
    names.  The partial structures are the ones [auto_derived_partial!]
    generates. *)

From S2P Require Import Prelude Permissions Models.

Module v0.
Module RelationshipStatus.
Inductive RelationshipStatus : Type :=
  | None | User | Friend | Outgoing | Incoming | Blocked | BlockedOther.
End RelationshipStatus.
Abbreviation RelationshipStatus := RelationshipStatus.RelationshipStatus.
#[global] Instance RelationshipStatus_eq_dec : EqDecision RelationshipStatus.
Proof. solve_decision. Defined.

Module Presence.
Inductive Presence : Type :=
  | Online | Idle | Focus | Busy | Invisible.
End Presence.
Abbreviation Presence := Presence.Presence.
#[global] Instance Presence_eq_dec : EqDecision Presence.
Proof. solve_decision. Defined.

Module ViewerListVisibility.
Inductive ViewerListVisibility : Type :=
  | Nobody | ParticipantsOnly | ModeratorsOnly | Everyone.
End ViewerListVisibility.
Abbreviation ViewerListVisibility := ViewerListVisibility.ViewerListVisibility.
#[global] Instance ViewerListVisibility_eq_dec : EqDecision ViewerListVisibility.
Proof. solve_decision. Defined.

Module SubscriptionTier.
Inductive SubscriptionTier : Type :=
  | Free | Basic | Pro | Ultra.
End SubscriptionTier.
Abbreviation SubscriptionTier := SubscriptionTier.SubscriptionTier.
#[global] Instance SubscriptionTier_eq_dec : EqDecision SubscriptionTier.
Proof. solve_decision. Defined.

Module DecorationCategory.
Inductive DecorationCategory : Type :=
  | AvatarFrame | Banner | Badge | Nameplate | ChatBubble | CardSmall | CardLarge | UserPopout
  | UserPopoutMobile | ChatBackground | ChatBackgroundMobile | ProfileModal.
End DecorationCategory.
Abbreviation DecorationCategory := DecorationCategory.DecorationCategory.
#[global] Instance DecorationCategory_eq_dec : EqDecision DecorationCategory.
Proof. solve_decision. Defined.

Module FieldsServer.
Inductive FieldsServer : Type :=
  | Description | Categories | SystemMessages | Icon | Banner.
End FieldsServer.
Abbreviation FieldsServer := FieldsServer.FieldsServer.
#[global] Instance FieldsServer_eq_dec : EqDecision FieldsServer.
Proof. solve_decision. Defined.

Module FieldsRole.
Inductive FieldsRole : Type :=
  | Colour.
End FieldsRole.
Abbreviation FieldsRole := FieldsRole.FieldsRole.
#[global] Instance FieldsRole_eq_dec : EqDecision FieldsRole.
Proof. solve_decision. Defined.

Module FieldsMember.
Inductive FieldsMember : Type :=
  | Nickname | Avatar | Roles | Timeout | CanReceive | CanPublish | JoinedAt | VoiceChannel.
End FieldsMember.
Abbreviation FieldsMember := FieldsMember.FieldsMember.
#[global] Instance FieldsMember_eq_dec : EqDecision FieldsMember.
Proof. solve_decision. Defined.

Module RemovalIntention.
Inductive RemovalIntention : Type :=
  | Leave | Kick | Ban.
End RemovalIntention.
Abbreviation RemovalIntention := RemovalIntention.RemovalIntention.
#[global] Instance RemovalIntention_eq_dec : EqDecision RemovalIntention.
Proof. solve_decision. Defined.

Module FieldsChannel.
Inductive FieldsChannel : Type :=
  | Description | Icon | DefaultPermissions | Voice.
End FieldsChannel.
Abbreviation FieldsChannel := FieldsChannel.FieldsChannel.
#[global] Instance FieldsChannel_eq_dec : EqDecision FieldsChannel.
Proof. solve_decision. Defined.

Module BotType.
Inductive BotType : Type :=
  | Regular | AiCompanion.
End BotType.
Abbreviation BotType := BotType.BotType.
#[global] Instance BotType_eq_dec : EqDecision BotType.
Proof. solve_decision. Defined.

Module FieldsBot.
Inductive FieldsBot : Type :=
  | Token | InteractionsURL.
End FieldsBot.
Abbreviation FieldsBot := FieldsBot.FieldsBot.
#[global] Instance FieldsBot_eq_dec : EqDecision FieldsBot.
Proof. solve_decision. Defined.

Module FieldsUser.
Inductive FieldsUser : Type :=
  | Avatar | StatusText | StatusPresence | ProfileContent | ProfileBackground | DisplayName | Internal.
End FieldsUser.
Abbreviation FieldsUser := FieldsUser.FieldsUser.

Module Metadata.
Inductive Metadata : Type := File | Text | Image (width height : Z) | Video (width height : Z) | Audio.
End Metadata.
Abbreviation Metadata := Metadata.Metadata.

Module EmojiParent.
Inductive EmojiParent : Type := Server (id : string) | Detached.
End EmojiParent.
Abbreviation EmojiParent := EmojiParent.EmojiParent.

Module Invite.
Inductive Invite : Type :=
| Server (code server creator channel : string)
| Group (code creator channel : string).
End Invite.
Abbreviation Invite := Invite.Invite.

Record File := {
  f_id : string;
  f_tag : string;
  f_filename : string;
  f_metadata : Metadata;
  f_content_type : string;
  f_size : Z;
  f_deleted : option bool;
  f_reported : option bool;
  f_message_id : option string;
  f_user_id : option string;
  f_server_id : option string;
  f_object_id : option string }.

Record VoiceInformation := {
  vi_max_users : option Z;
  vi_bitrate : option Z;
  vi_is_stream_public : bool;
  vi_show_viewer_list_to : ViewerListVisibility }.

Record SavedMessagesChannel := {
  sm_id : string;
  sm_user : string }.

Record DirectMessageChannel := {
  dm_id : string;
  dm_active : bool;
  dm_recipients : list string;
  dm_last_message_id : option string }.

Record GroupChannel := {
  g_id : string;
  g_name : string;
  g_owner : string;
  g_description : option string;
  g_recipients : list string;
  g_icon : option File;
  g_last_message_id : option string;
  g_permissions : option Z;
  g_moderators : list string;
  g_nsfw : bool;
  g_encrypted : bool }.

Record TextChannel := {
  t_id : string;
  t_server : string;
  t_name : string;
  t_description : option string;
  t_icon : option File;
  t_last_message_id : option string;
  t_default_permissions : option OverrideField;
  t_role_permissions : gmap string OverrideField;
  t_nsfw : bool;
  t_voice : option VoiceInformation;
  t_encrypted : bool }.

Module Channel.
Inductive Channel : Type :=
| SavedMessages (c : SavedMessagesChannel)
| DirectMessage (c : DirectMessageChannel)
| Group (g : GroupChannel)
| TextChannel (t : TextChannel).
End Channel.
Abbreviation Channel := Channel.Channel.

Record PartialChannel := {
  pc_name : option string;
  pc_owner : option string;
  pc_description : option string;
  pc_icon : option File;
  pc_nsfw : option bool;
  pc_active : option bool;
  pc_permissions : option Z;
  pc_moderators : option (list string);
  pc_role_permissions : option (gmap string OverrideField);
  pc_default_permissions : option OverrideField;
  pc_last_message_id : option string;
  pc_voice : option VoiceInformation;
  pc_encrypted : option bool }.

Record Category := {
  cat_id : string;
  cat_title : string;
  cat_channels : list string }.

Record SystemMessageChannels := {
  smc_user_joined : option string;
  smc_user_left : option string;
  smc_user_kicked : option string;
  smc_user_banned : option string }.

Record Role := {
  r_id : string;
  r_name : string;
  r_permissions : OverrideField;
  r_colour : option string;
  r_hoist : bool;
  r_rank : Z }.

Record PartialRole := {
  pr_id : option string;
  pr_name : option string;
  pr_permissions : option OverrideField;
  pr_colour : option string;
  pr_hoist : option bool;
  pr_rank : option Z }.

Record Server := {
  s_id : string;
  s_owner : string;
  s_name : string;
  s_description : option string;
  s_channels : list string;
  s_categories : option (list Category);
  s_system_messages : option SystemMessageChannels;
  s_roles : gmap string Role;
  s_default_permissions : Z;
  s_icon : option File;
  s_banner : option File;
  s_flags : Z;
  s_nsfw : bool;
  s_analytics : bool;
  s_discoverable : bool }.

Record PartialServer := {
  ps_id : option string;
  ps_owner : option string;
  ps_name : option string;
  ps_description : option string;
  ps_channels : option (list string);
  ps_categories : option (list Category);
  ps_system_messages : option SystemMessageChannels;
  ps_roles : option (gmap string Role);
  ps_default_permissions : option Z;
  ps_icon : option File;
  ps_banner : option File;
  ps_flags : option Z;
  ps_nsfw : option bool;
  ps_analytics : option bool;
  ps_discoverable : option bool }.

Record MemberCompositeKey := {
  mk_server : string;
  mk_user : string }.

Record Member := {
  m_id : MemberCompositeKey;
  m_joined_at : Timestamp;
  m_nickname : option string;
  m_avatar : option File;
  m_roles : list string;
  m_timeout : option Timestamp;
  m_can_publish : bool;
  m_can_receive : bool }.

Record PartialMember := {
  pm_id : option MemberCompositeKey;
  pm_joined_at : option Timestamp;
  pm_nickname : option string;
  pm_avatar : option File;
  pm_roles : option (list string);
  pm_timeout : option Timestamp;
  pm_can_publish : option bool;
  pm_can_receive : option bool }.

Record ServerBan := {
  ban_id : MemberCompositeKey;
  ban_reason : option string }.

Record Relationship := {
  rel_user_id : string;
  rel_status : RelationshipStatus }.

Record UserStatus := {
  us_text : option string;
  us_presence : option Presence }.

Record UserProfile := {
  up_content : option string;
  up_background : option File }.

Record BotInformation := {
  bi_owner_id : string }.

Record UserSubscription := {
  sub_tier : SubscriptionTier;
  sub_expires_at : option Z;
  sub_stripe_customer_id : option string;
  sub_stripe_subscription_id : option string }.

Record DecorationEquip := {
  de_decoration_id : string;
  de_slot : DecorationCategory }.

Record User := {
  u_id : string;
  u_username : string;
  u_discriminator : string;
  u_display_name : option string;
  u_avatar : option File;
  u_relations : list Relationship;
  u_badges : Z;
  u_status : option UserStatus;
  u_flags : Z;
  u_privileged : bool;
  u_bot : option BotInformation;
  u_relationship : RelationshipStatus;
  u_online : bool;
  u_subscription : option UserSubscription;
  u_active_decorations : option (list DecorationEquip);
  u_presence_style : option string }.

Record PartialUser := {
  pu_id : option string;
  pu_username : option string;
  pu_discriminator : option string;
  pu_display_name : option string;
  pu_avatar : option File;
  pu_relations : option (list Relationship);
  pu_badges : option Z;
  pu_status : option UserStatus;
  pu_flags : option Z;
  pu_privileged : option bool;
  pu_bot : option BotInformation;
  pu_relationship : option RelationshipStatus;
  pu_online : option bool;
  pu_subscription : option UserSubscription;
  pu_active_decorations : option (list DecorationEquip);
  pu_presence_style : option string }.

Record Emoji := {
  e_id : string;
  e_parent : EmojiParent;
  e_creator_id : string;
  e_name : string;
  e_animated : bool;
  e_nsfw : bool }.

Record Bot := {
  b_id : string;
  b_owner_id : string;
  b_token : string;
  b_public : bool;
  b_analytics : bool;
  b_discoverable : bool;
  b_interactions_url : string;
  b_terms_of_service_url : string;
  b_privacy_policy_url : string;
  b_flags : Z;
  b_bot_type : BotType;
  b_license_type : option string;
  b_joined_server_id : option string;
  b_public_key_registered : bool }.

Record PublicBot := {
  pb_id : string;
  pb_username : string;
  pb_avatar : string;
  pb_description : string }.

(** Embeds ([embeds.rs]) *)
Module ImageSize.
Inductive ImageSize : Type :=
  | Large | Preview.
End ImageSize.
Abbreviation ImageSize := ImageSize.ImageSize.
#[global] Instance ImageSize_eq_dec : EqDecision ImageSize.
Proof. solve_decision. Defined.

Module TwitchType.
Inductive TwitchType : Type :=
  | Channel | Video | Clip.
End TwitchType.
Abbreviation TwitchType := TwitchType.TwitchType.
#[global] Instance TwitchType_eq_dec : EqDecision TwitchType.
Proof. solve_decision. Defined.

Module LightspeedType.
Inductive LightspeedType : Type :=
  | Channel.
End LightspeedType.
Abbreviation LightspeedType := LightspeedType.LightspeedType.
#[global] Instance LightspeedType_eq_dec : EqDecision LightspeedType.
Proof. solve_decision. Defined.

Module BandcampType.
Inductive BandcampType : Type :=
  | Album | Track.
End BandcampType.
Abbreviation BandcampType := BandcampType.BandcampType.
#[global] Instance BandcampType_eq_dec : EqDecision BandcampType.
Proof. solve_decision. Defined.

Record Image := {
  im_url : string;
  im_width : Z;
  im_height : Z;
  im_size : ImageSize }.

Record Video := {
  vi_url : string;
  vi_width : Z;
  vi_height : Z }.

Module Special.
Inductive Special : Type :=
| None
| GIF
| YouTube (id : string) (timestamp : option string)
| Lightspeed (content_type : LightspeedType) (id : string)
| Twitch (content_type : TwitchType) (id : string)
| Spotify (content_type id : string)
| Soundcloud
| Bandcamp (content_type : BandcampType) (id : string)
| AppleMusic (album_id : string) (track_id : option string)
| Streamable (id : string).
End Special.
Abbreviation Special := Special.Special.

Record WebsiteMetadata := {
  wm_url : option string;
  wm_original_url : option string;
  wm_special : option Special;
  wm_title : option string;
  wm_description : option string;
  wm_image : option Image;
  wm_video : option Video;
  wm_site_name : option string;
  wm_icon_url : option string;
  wm_colour : option string }.

Record Text := {
  te_icon_url : option string;
  te_url : option string;
  te_title : option string;
  te_description : option string;
  te_media : option File;
  te_colour : option string }.

Module Embed.
Inductive Embed : Type :=
| Website (metadata : WebsiteMetadata)
| Image (image : Image)
| Video (video : Video)
| Text (text : Text)
| None.
End Embed.
Abbreviation Embed := Embed.Embed.

(** Webhooks ([channel_webhooks.rs]) *)
Record Webhook := {
  wh_id : string;
  wh_name : string;
  wh_avatar : option File;
  wh_creator_id : string;
  wh_channel_id : string;
  wh_permissions : Z;
  wh_token : option string }.

Record PartialWebhook := {
  pwh_id : option string;
  pwh_name : option string;
  pwh_avatar : option File;
  pwh_creator_id : option string;
  pwh_channel_id : option string;
  pwh_permissions : option Z;
  pwh_token : option string }.

Module FieldsWebhook.
Inductive FieldsWebhook : Type :=
  | Avatar.
End FieldsWebhook.
Abbreviation FieldsWebhook := FieldsWebhook.FieldsWebhook.
#[global] Instance FieldsWebhook_eq_dec : EqDecision FieldsWebhook.
Proof. solve_decision. Defined.

Record MessageWebhook := {
  mw_name : string;
  mw_avatar : option string }.

(** [impl From<Webhook> for MessageWebhook] *)
Definition MessageWebhook_from (value : Webhook) : MessageWebhook :=
  {| mw_name := wh_name value; mw_avatar := f_id <$> wh_avatar value |}.

Record DataEditWebhook := {
  dew_name : option string;
  dew_avatar : option string;
  dew_permissions : option Z;
  dew_remove : list FieldsWebhook }.

Record ResponseWebhook := {
  rwh_id : string;
  rwh_name : string;
  rwh_avatar : option string;
  rwh_channel_id : string;
  rwh_permissions : Z }.

(** [impl From<Webhook> for ResponseWebhook] *)
Definition ResponseWebhook_from (value : Webhook) : ResponseWebhook :=
  {| rwh_id := wh_id value; rwh_name := wh_name value; rwh_avatar := f_id <$> wh_avatar value;
     rwh_channel_id := wh_channel_id value; rwh_permissions := wh_permissions value |}.

Record CreateWebhookBody := {
  cwb_name : string;
  cwb_avatar : option string }.

(** Messages ([messages.rs]).  An [IndexSet] is the list of its elements and an
    [IndexMap] that of its entries, in order. *)
Module SystemMessage.
Inductive SystemMessage : Type :=
| Text (content : string)
| UserAdded (id by_ : string)
| UserRemove (id by_ : string)
| UserJoined (id : string)
| UserLeft (id : string)
| UserKicked (id : string)
| UserBanned (id : string)
| ChannelRenamed (name by_ : string)
| ChannelDescriptionChanged (by_ : string)
| ChannelIconChanged (by_ : string)
| ChannelOwnershipChanged (from to : string)
| MessagePinned (id by_ : string)
| MessageUnpinned (id by_ : string)
| CallStarted (by_ : string) (finished_at : option Timestamp).
End SystemMessage.
Abbreviation SystemMessage := SystemMessage.SystemMessage.

Record Masquerade := {
  mq_name : option string;
  mq_avatar : option string;
  mq_colour : option string }.

Record Interactions := {
  ia_reactions : option (list string);
  ia_restrict_reactions : bool }.

Record Message := {
  msg_id : string;
  msg_nonce : option string;
  msg_channel : string;
  msg_author : string;
  msg_user : option User;
  msg_member : option Member;
  msg_webhook : option MessageWebhook;
  msg_content : option string;
  msg_system : option SystemMessage;
  msg_attachments : option (list File);
  msg_edited : option Timestamp;
  msg_embeds : option (list Embed);
  msg_mentions : option (list string);
  msg_role_mentions : option (list string);
  msg_replies : option (list string);
  msg_reactions : list (string * list string);
  msg_interactions : Interactions;
  msg_masquerade : option Masquerade;
  msg_pinned : option bool;
  msg_flags : Z }.

Record PartialMessage := {
  pmsg_id : option string;
  pmsg_nonce : option string;
  pmsg_channel : option string;
  pmsg_author : option string;
  pmsg_user : option User;
  pmsg_member : option Member;
  pmsg_webhook : option MessageWebhook;
  pmsg_content : option string;
  pmsg_system : option SystemMessage;
  pmsg_attachments : option (list File);
  pmsg_edited : option Timestamp;
  pmsg_embeds : option (list Embed);
  pmsg_mentions : option (list string);
  pmsg_role_mentions : option (list string);
  pmsg_replies : option (list string);
  pmsg_reactions : option (list (string * list string));
  pmsg_interactions : option Interactions;
  pmsg_masquerade : option Masquerade;
  pmsg_pinned : option bool;
  pmsg_flags : option Z }.

Record AppendMessage := { am_embeds : option (list Embed) }.

(** What a request for many messages answers. *)
Module BulkMessageResponse.
Inductive BulkMessageResponse : Type :=
| JustMessages (messages : list Message)
| MessagesAndUsers (messages : list Message) (users : list User) (members : option (list Member)).
End BulkMessageResponse.
Abbreviation BulkMessageResponse := BulkMessageResponse.BulkMessageResponse.

Module MessageSort.
Inductive MessageSort : Type :=
  | Relevance | Latest | Oldest.
End MessageSort.
Abbreviation MessageSort := MessageSort.MessageSort.
#[global] Instance MessageSort_eq_dec : EqDecision MessageSort.
Proof. solve_decision. Defined.

Module FieldsMessage.
Inductive FieldsMessage : Type :=
  | Pinned.
End FieldsMessage.
Abbreviation FieldsMessage := FieldsMessage.FieldsMessage.
#[global] Instance FieldsMessage_eq_dec : EqDecision FieldsMessage.
Proof. solve_decision. Defined.

Record SendableEmbed := {
  se_icon_url : option string;
  se_url : option string;
  se_title : option string;
  se_description : option string;
  se_media : option string;
  se_colour : option string }.

Record ReplyIntent := {
  ri_id : string;
  ri_mention : bool;
  ri_fail_if_not_exists : option bool }.

Record DataMessageSend := {
  ms_nonce : option string;
  ms_content : option string;
  ms_attachments : option (list string);
  ms_replies : option (list ReplyIntent);
  ms_embeds : option (list SendableEmbed);
  ms_masquerade : option Masquerade;
  ms_interactions : option Interactions;
  ms_flags : option Z }.

Record DataEditMessage := {
  em_content : option string;
  em_embeds : option (list SendableEmbed) }.

Record OptionsQueryMessages := {
  oq_limit : option Z;
  oq_before : option string;
  oq_after : option string;
  oq_sort : option MessageSort;
  oq_nearby : option string;
  oq_include_users : option bool }.
Record DataMessageSearch := {
  ds_query : option string;
  ds_pinned : option bool;
  ds_limit : option Z;
  ds_before : option string;
  ds_after : option string;
  ds_sort : MessageSort;
  ds_include_users : option bool }.
Record OptionsBulkDelete := { ob_ids : list string }.
Record OptionsUnreact := {
  ou_user_id : option string;
  ou_remove_all : option bool }.

(** The discriminants of [MessageFlags] *)
Module MessageFlags.
Inductive MessageFlags : Type := SuppressNotifications | MentionsEveryone | MentionsOnline.
Definition as_u32 (f : MessageFlags) : Z :=
  match f with SuppressNotifications => 1 | MentionsEveryone => 2 | MentionsOnline => 3 end.
End MessageFlags.
Abbreviation MessageFlags := MessageFlags.MessageFlags.

Module MessageAuthor.
Inductive MessageAuthor : Type :=
| User (user : User)
| Webhook (webhook : Webhook)
| System (username : string) (avatar : option string).
Definition id (a : MessageAuthor) : string :=
  match a with
  | User user => u_id user
  | Webhook webhook => wh_id webhook
  | System _ _ => "00000000000000000000000000"
  end.
Definition avatar (a : MessageAuthor) : option string :=
  match a with
  | User user => f_id <$> u_avatar user
  | Webhook webhook => f_id <$> wh_avatar webhook
  | System _ avatar => avatar
  end.
Definition username (a : MessageAuthor) : string :=
  match a with
  | User user => u_username user
  | Webhook webhook => wh_name webhook
  | System username _ => username
  end.
End MessageAuthor.
Abbreviation MessageAuthor := MessageAuthor.MessageAuthor.

(** Reports ([safety_reports.rs]) *)
Module ContentReportReason.
Inductive ContentReportReason : Type :=
  | NoneSpecified | Illegal | IllegalGoods | IllegalExtortion | IllegalPornography | IllegalHacking | ExtremeViolence | PromotesHarm | UnsolicitedSpam | Raid | SpamAbuse | ScamsFraud | Malware | Harassment.
End ContentReportReason.
Abbreviation ContentReportReason := ContentReportReason.ContentReportReason.
#[global] Instance ContentReportReason_eq_dec : EqDecision ContentReportReason.
Proof. solve_decision. Defined.

Module UserReportReason.
Inductive UserReportReason : Type :=
  | NoneSpecified | UnsolicitedSpam | SpamAbuse | InappropriateProfile | Impersonation | BanEvasion | Underage.
End UserReportReason.
Abbreviation UserReportReason := UserReportReason.UserReportReason.
#[global] Instance UserReportReason_eq_dec : EqDecision UserReportReason.
Proof. solve_decision. Defined.

Module ReportedContent.
Inductive ReportedContent : Type :=
| Message (id : string) (report_reason : ContentReportReason)
| Server (id : string) (report_reason : ContentReportReason)
| User (id : string) (report_reason : UserReportReason) (message_id : option string).
End ReportedContent.
Abbreviation ReportedContent := ReportedContent.ReportedContent.

Module ReportStatus.
Inductive ReportStatus : Type :=
| Created
| Rejected (rejection_reason : string) (closed_at : option Timestamp)
| Resolved (closed_at : option Timestamp).
End ReportStatus.
Abbreviation ReportStatus := ReportStatus.ReportStatus.

Record Report := {
  rp_id : string;
  rp_author_id : string;
  rp_content : ReportedContent;
  rp_additional_context : string;
  rp_status : ReportStatus;
  rp_notes : string }.

(** [channel_unreads.rs], [policy_changes.rs], [user_settings.rs] and the voice
    state of a channel ([channels.rs]) *)
Record ChannelCompositeKey := { ck_channel : string; ck_user : string }.
Record ChannelUnread := {
  cu_id : ChannelCompositeKey;
  cu_last_id : option string;
  cu_mentions : list string }.
Record PolicyChange := {
  pol_created_time : Timestamp;
  pol_effective_time : Timestamp;
  pol_description : string;
  pol_url : string }.
Abbreviation UserSettings := (gmap string (Z * string)).

(** Bot commands ([bot_commands.rs]) *)
Module CommandOptionType.
Inductive CommandOptionType : Type := String | Integer | Boolean | User | Channel | Role | Number.
End CommandOptionType.
Abbreviation CommandOptionType := CommandOptionType.CommandOptionType.
Record CommandChoice := { cc_name : string; cc_value : string }.
Record CommandOption := {
  co_name : string;
  co_description : string;
  co_option_type : CommandOptionType;
  co_required : bool;
  co_choices : option (list CommandChoice);
  co_autocomplete : bool }.
Record BotCommand := {
  bc_id : string;
  bc_bot_id : string;
  bc_name : string;
  bc_description : string;
  bc_options : list CommandOption }.
End v0.
