(* ===== verification/Records.v ===== *)
(** * Messages and the smaller collections ([crates/core/database/src/models])

    The stored structures of the collections that [Models] does not have:
    messages, webhooks, unreads, settings, policy changes, bot commands, file
    hashes, reports, snapshots, the audit log and invitations to encrypted
    channels.  Embeds and reports are the API's own types, as in the source. *)

From S2P Require Import Prelude Permissions Models ApiTypes.

(** ** [indexmap]: sets and maps in order of insertion *)

(** [IndexSet::insert] *)
Definition is_insert (x : string) (l : list string) : list string :=
  if bool_decide (x ∈ l) then l else l ++ [x].

(** [IndexSet::remove] and [IndexMap::remove]: the last entry takes the place of
    the one that is removed. *)
Fixpoint swap_remove_by {A} (eqb : A -> bool) (l : list A) : list A :=
  match l with
  | [] => []
  | y :: l =>
      if eqb y then match last l with Some z => z :: removelast l | None => [] end
      else y :: swap_remove_by eqb l
  end.
Definition is_remove (x : string) : list string -> list string :=
  swap_remove_by (fun y => bool_decide (y = x)).

(** [IndexMap::get] and [insert] *)
Fixpoint im_get {V} (k : string) (m : list (string * V)) : option V :=
  match m with
  | [] => None
  | (k', v) :: m => if bool_decide (k' = k) then Some v else im_get k m
  end.
Fixpoint im_insert {V} (k : string) (v : V) (m : list (string * V)) : list (string * V) :=
  match m with
  | [] => [(k, v)]
  | (k', v') :: m => if bool_decide (k' = k) then (k, v) :: m else (k', v') :: im_insert k v m
  end.
Definition im_remove {V} (k : string) : list (string * V) -> list (string * V) :=
  swap_remove_by (fun e => bool_decide (e.1 = k)).

(** ** Messages ([messages/model.rs]) *)

Module SystemMessage.
Inductive SystemMessage : Type :=
| Text (content : string)
| UserAdded (id by_ : string)
| UserRemove (id by_ : string)
| UserJoined (id : string)
| UserLeft (id : string)
| UserKicked (id : string)
| UserBanned (id : string)
| ChannelRenamed (name by_ : string)
| ChannelDescriptionChanged (by_ : string)
| ChannelIconChanged (by_ : string)
| ChannelOwnershipChanged (from to : string)
| MessagePinned (id by_ : string)
| MessageUnpinned (id by_ : string)
| CallStarted (by_ : string) (finished_at : option Timestamp).
End SystemMessage.
Abbreviation SystemMessage := SystemMessage.SystemMessage.

Record Masquerade := {
  mq_name : option string;
  mq_avatar : option string;
  mq_colour : option string }.

Record Interactions := {
  ia_reactions : option (list string);
  ia_restrict_reactions : bool }.
Definition Interactions_default : Interactions :=
  {| ia_reactions := None; ia_restrict_reactions := false |}.

Record Message := {
  msg_id : string;
  msg_nonce : option string;
  msg_channel : string;
  msg_author : string;
  msg_webhook : option v0.MessageWebhook;
  msg_content : option string;
  msg_system : option SystemMessage;
  msg_attachments : option (list File);
  msg_edited : option Timestamp;
  msg_embeds : option (list v0.Embed);
  msg_mentions : option (list string);
  msg_role_mentions : option (list string);
  msg_replies : option (list string);
  msg_reactions : list (string * list string);
  msg_interactions : Interactions;
  msg_masquerade : option Masquerade;
  msg_pinned : option bool;
  msg_flags : option Z }.

Definition Message_default : Message := {|
  msg_id := ""; msg_nonce := None; msg_channel := ""; msg_author := ""; msg_webhook := None;
  msg_content := None; msg_system := None; msg_attachments := None; msg_edited := None;
  msg_embeds := None; msg_mentions := None; msg_role_mentions := None; msg_replies := None;
  msg_reactions := []; msg_interactions := Interactions_default; msg_masquerade := None;
  msg_pinned := None; msg_flags := None |}.

Record PartialMessage := {
  pmsg_id : option string;
  pmsg_nonce : option string;
  pmsg_channel : option string;
  pmsg_author : option string;
  pmsg_webhook : option v0.MessageWebhook;
  pmsg_content : option string;
  pmsg_system : option SystemMessage;
  pmsg_attachments : option (list File);
  pmsg_edited : option Timestamp;
  pmsg_embeds : option (list v0.Embed);
  pmsg_mentions : option (list string);
  pmsg_role_mentions : option (list string);
  pmsg_replies : option (list string);
  pmsg_reactions : option (list (string * list string));
  pmsg_interactions : option Interactions;
  pmsg_masquerade : option Masquerade;
  pmsg_pinned : option bool;
  pmsg_flags : option Z }.

Definition PartialMessage_default : PartialMessage := {|
  pmsg_id := None; pmsg_nonce := None; pmsg_channel := None; pmsg_author := None;
  pmsg_webhook := None; pmsg_content := None; pmsg_system := None; pmsg_attachments := None;
  pmsg_edited := None; pmsg_embeds := None; pmsg_mentions := None; pmsg_role_mentions := None;
  pmsg_replies := None; pmsg_reactions := None; pmsg_interactions := None;
  pmsg_masquerade := None; pmsg_pinned := None; pmsg_flags := None |}.

(** A message with one of its fields changed. *)
Definition msg_with (m : Message) (embeds : option (list v0.Embed))
    (reactions : list (string * list string)) (pinned : option bool) : Message := {|
  msg_id := msg_id m; msg_nonce := msg_nonce m; msg_channel := msg_channel m;
  msg_author := msg_author m; msg_webhook := msg_webhook m; msg_content := msg_content m;
  msg_system := msg_system m; msg_attachments := msg_attachments m; msg_edited := msg_edited m;
  msg_embeds := embeds; msg_mentions := msg_mentions m; msg_role_mentions := msg_role_mentions m;
  msg_replies := msg_replies m; msg_reactions := reactions; msg_interactions := msg_interactions m;
  msg_masquerade := msg_masquerade m; msg_pinned := pinned; msg_flags := msg_flags m |}.
Definition msg_set_embeds e m := msg_with m e (msg_reactions m) (msg_pinned m).
Definition msg_set_reactions r m := msg_with m (msg_embeds m) r (msg_pinned m).
Definition msg_set_pinned p m := msg_with m (msg_embeds m) (msg_reactions m) p.

Record AppendMessage := { am_embeds : option (list v0.Embed) }.

Module FieldsMessage.
Inductive FieldsMessage : Type := Pinned.
End FieldsMessage.
Abbreviation FieldsMessage := FieldsMessage.FieldsMessage.

(** [Message::remove_field] *)
Definition message_remove_field (self : Message) (field : FieldsMessage) : Message :=
  match field with FieldsMessage.Pinned => msg_set_pinned None self end.

Module MessageTimePeriod.
Inductive MessageTimePeriod : Type :=
| Relative (nearby : string)
| Absolute (before after : option string) (sort : option v0.MessageSort).
End MessageTimePeriod.
Abbreviation MessageTimePeriod := MessageTimePeriod.MessageTimePeriod.

Record MessageFilter := {
  mf_channel : option string;
  mf_author : option string;
  mf_query : option string;
  mf_pinned : option bool }.
Definition MessageFilter_default : MessageFilter :=
  {| mf_channel := None; mf_author := None; mf_query := None; mf_pinned := None |}.

Record MessageQuery := {
  qm_limit : option Z;
  qm_filter : MessageFilter;
  qm_time_period : MessageTimePeriod }.

(** ** Webhooks ([channel_webhooks/model.rs]) *)

Record Webhook := {
  wh_id : string;
  wh_name : string;
  wh_avatar : option File;
  wh_creator_id : string;
  wh_channel_id : string;
  wh_permissions : Z;
  wh_token : option string }.

Record PartialWebhook := {
  pwh_id : option string;
  pwh_name : option string;
  pwh_avatar : option File;
  pwh_creator_id : option string;
  pwh_channel_id : option string;
  pwh_permissions : option Z;
  pwh_token : option string }.

Module FieldsWebhook.
Inductive FieldsWebhook : Type := Avatar.
End FieldsWebhook.
Abbreviation FieldsWebhook := FieldsWebhook.FieldsWebhook.

Definition wh_set (avatar : option File) (token : option string) (w : Webhook) : Webhook := {|
  wh_id := wh_id w; wh_name := wh_name w; wh_avatar := avatar; wh_creator_id := wh_creator_id w;
  wh_channel_id := wh_channel_id w; wh_permissions := wh_permissions w; wh_token := token |}.
Definition pwh_set_token (token : option string) (w : PartialWebhook) : PartialWebhook := {|
  pwh_id := pwh_id w; pwh_name := pwh_name w; pwh_avatar := pwh_avatar w;
  pwh_creator_id := pwh_creator_id w; pwh_channel_id := pwh_channel_id w;
  pwh_permissions := pwh_permissions w; pwh_token := token |}.

(** [Webhook::remove_field] *)
Definition webhook_remove_field (self : Webhook) (field : FieldsWebhook) : Webhook :=
  match field with FieldsWebhook.Avatar => wh_set None (wh_token self) self end.

(** ** Unreads, settings and policy changes *)

Record ChannelCompositeKey := { ck_channel : string; ck_user : string }.
#[export] Instance ChannelCompositeKey_eq_dec : EqDecision ChannelCompositeKey.
Proof. solve_decision. Defined.
#[export] Instance ChannelCompositeKey_countable : Countable ChannelCompositeKey.
Proof.
  refine (inj_countable' (fun k => (ck_channel k, ck_user k))
            (fun '(c, u) => {| ck_channel := c; ck_user := u |}) _).
  by intros [].
Defined.

Record ChannelUnread := {
  cu_id : ChannelCompositeKey;
  cu_last_id : option string;
  cu_mentions : option (list string) }.

Abbreviation UserSettings := (gmap string (Z * string)).

Record PolicyChange := {
  pol_id : string;
  pol_created_time : Timestamp;
  pol_effective_time : Timestamp;
  pol_description : string;
  pol_url : string }.

(** ** Bot commands ([bot_commands/model.rs]) *)

Module CommandOptionType.
Inductive CommandOptionType : Type := String | Integer | Boolean | User | Channel | Role | Number.
End CommandOptionType.
Abbreviation CommandOptionType := CommandOptionType.CommandOptionType.

Record CommandChoice := { cc_name : string; cc_value : string }.
Record CommandOption := {
  co_name : string;
  co_description : string;
  co_option_type : CommandOptionType;
  co_required : bool;
  co_choices : option (list CommandChoice);
  co_autocomplete : bool }.
Record BotCommand := {
  bc_id : string;
  bc_bot_id : string;
  bc_name : string;
  bc_description : string;
  bc_options : list CommandOption }.

(** ** File hashes ([file_hashes/model.rs]) *)

Record FileHash := {
  fh_id : string;
  fh_processed_hash : string;
  fh_created_at : Timestamp;
  fh_bucket_id : string;
  fh_path : string;
  fh_iv : string;
  fh_metadata : Metadata;
  fh_content_type : string;
  fh_size : Z }.
Definition fh_set_iv (iv : string) (h : FileHash) : FileHash := {|
  fh_id := fh_id h; fh_processed_hash := fh_processed_hash h; fh_created_at := fh_created_at h;
  fh_bucket_id := fh_bucket_id h; fh_path := fh_path h; fh_iv := iv; fh_metadata := fh_metadata h;
  fh_content_type := fh_content_type h; fh_size := fh_size h |}.

(** ** Reports, snapshots and the audit log *)

Record Report := {
  rp_id : string;
  rp_author_id : string;
  rp_content : v0.ReportedContent;
  rp_additional_context : string;
  rp_status : v0.ReportStatus;
  rp_notes : string }.
Definition rp_set_status (status : v0.ReportStatus) (r : Report) : Report := {|
  rp_id := rp_id r; rp_author_id := rp_author_id r; rp_content := rp_content r;
  rp_additional_context := rp_additional_context r; rp_status := status; rp_notes := rp_notes r |}.

Module SnapshotContent.
Inductive SnapshotContent : Type :=
| Message (prior_context leading_context : list Message) (message : Message)
| Server (server : Server)
| User (user : User).
End SnapshotContent.
Abbreviation SnapshotContent := SnapshotContent.SnapshotContent.

Record Snapshot := {
  sn_id : string;
  sn_report_id : string;
  sn_content : SnapshotContent }.

Module AuditAction.
Inductive AuditAction : Type :=
| BanUser | UnsuspendUser | ResolveReport | RejectReport | GrantPremium | RevokePremium.
End AuditAction.
Abbreviation AuditAction := AuditAction.AuditAction.

Record AuditLogEntry := {
  al_id : string;
  al_actor_id : string;
  al_action : AuditAction;
  al_target_id : string;
  al_timestamp : Z;
  al_reason : option string }.

Record EncryptedChannelInvitation := {
  ei_id : string;
  ei_channel_id : string;
  ei_bot_id : string;
  ei_inviter_id : string;
  ei_encrypted_channel_key : string;
  ei_created_at : Timestamp;
  ei_expires_at : Timestamp }.

(** ** What [apply_options] does ([OptionalStruct] of [Models]) *)

Definition message_some_priority (x : Message) (p : PartialMessage) : Message :=
  {| msg_id := match pmsg_id p with Some v => v | None => msg_id x end;
     msg_nonce := match pmsg_nonce p with Some v => Some v | None => msg_nonce x end;
     msg_channel := match pmsg_channel p with Some v => v | None => msg_channel x end;
     msg_author := match pmsg_author p with Some v => v | None => msg_author x end;
     msg_webhook := match pmsg_webhook p with Some v => Some v | None => msg_webhook x end;
     msg_content := match pmsg_content p with Some v => Some v | None => msg_content x end;
     msg_system := match pmsg_system p with Some v => Some v | None => msg_system x end;
     msg_attachments := match pmsg_attachments p with Some v => Some v | None => msg_attachments x end;
     msg_edited := match pmsg_edited p with Some v => Some v | None => msg_edited x end;
     msg_embeds := match pmsg_embeds p with Some v => Some v | None => msg_embeds x end;
     msg_mentions := match pmsg_mentions p with Some v => Some v | None => msg_mentions x end;
     msg_role_mentions := match pmsg_role_mentions p with Some v => Some v | None => msg_role_mentions x end;
     msg_replies := match pmsg_replies p with Some v => Some v | None => msg_replies x end;
     msg_reactions := match pmsg_reactions p with Some v => v | None => msg_reactions x end;
     msg_interactions := match pmsg_interactions p with Some v => v | None => msg_interactions x end;
     msg_masquerade := match pmsg_masquerade p with Some v => Some v | None => msg_masquerade x end;
     msg_pinned := match pmsg_pinned p with Some v => Some v | None => msg_pinned x end;
     msg_flags := match pmsg_flags p with Some v => Some v | None => msg_flags x end |}.
Class MessageOptionalLaws `{OptionalStruct Message PartialMessage} : Prop := {
  msg_id_applied : forall x p, msg_id (apply_options x p) =
    match pmsg_id p with Some v => v | None => msg_id x end;
  msg_nonce_applied : forall x p, msg_nonce (apply_options x p) =
    match pmsg_nonce p with Some v => Some v | None => msg_nonce x end;
  msg_channel_applied : forall x p, msg_channel (apply_options x p) =
    match pmsg_channel p with Some v => v | None => msg_channel x end;
  msg_author_applied : forall x p, msg_author (apply_options x p) =
    match pmsg_author p with Some v => v | None => msg_author x end;
  msg_webhook_applied : forall x p, msg_webhook (apply_options x p) =
    match pmsg_webhook p with Some v => Some v | None => msg_webhook x end;
  msg_content_applied : forall x p, msg_content (apply_options x p) =
    match pmsg_content p with Some v => Some v | None => msg_content x end;
  msg_system_applied : forall x p, msg_system (apply_options x p) =
    match pmsg_system p with Some v => Some v | None => msg_system x end;
  msg_attachments_applied : forall x p, msg_attachments (apply_options x p) =
    match pmsg_attachments p with Some v => Some v | None => msg_attachments x end;
  msg_edited_applied : forall x p, msg_edited (apply_options x p) =
    match pmsg_edited p with Some v => Some v | None => msg_edited x end;
  msg_embeds_applied : forall x p, msg_embeds (apply_options x p) =
    match pmsg_embeds p with Some v => Some v | None => msg_embeds x end;
  msg_mentions_applied : forall x p, msg_mentions (apply_options x p) =
    match pmsg_mentions p with Some v => Some v | None => msg_mentions x end;
  msg_role_mentions_applied : forall x p, msg_role_mentions (apply_options x p) =
    match pmsg_role_mentions p with Some v => Some v | None => msg_role_mentions x end;
  msg_replies_applied : forall x p, msg_replies (apply_options x p) =
    match pmsg_replies p with Some v => Some v | None => msg_replies x end;
  msg_reactions_applied : forall x p, msg_reactions (apply_options x p) =
    match pmsg_reactions p with Some v => v | None => msg_reactions x end;
  msg_interactions_applied : forall x p, msg_interactions (apply_options x p) =
    match pmsg_interactions p with Some v => v | None => msg_interactions x end;
  msg_masquerade_applied : forall x p, msg_masquerade (apply_options x p) =
    match pmsg_masquerade p with Some v => Some v | None => msg_masquerade x end;
  msg_pinned_applied : forall x p, msg_pinned (apply_options x p) =
    match pmsg_pinned p with Some v => Some v | None => msg_pinned x end;
  msg_flags_applied : forall x p, msg_flags (apply_options x p) =
    match pmsg_flags p with Some v => Some v | None => msg_flags x end }.
Section message_some_priority_inst.
#[local] Instance message_some_priority_struct : OptionalStruct Message PartialMessage := message_some_priority.
Lemma message_some_priority_laws : MessageOptionalLaws.
Proof. by constructor. Qed.
End message_some_priority_inst.

Definition webhook_some_priority (x : Webhook) (p : PartialWebhook) : Webhook :=
  {| wh_id := match pwh_id p with Some v => v | None => wh_id x end;
     wh_name := match pwh_name p with Some v => v | None => wh_name x end;
     wh_avatar := match pwh_avatar p with Some v => Some v | None => wh_avatar x end;
     wh_creator_id := match pwh_creator_id p with Some v => v | None => wh_creator_id x end;
     wh_channel_id := match pwh_channel_id p with Some v => v | None => wh_channel_id x end;
     wh_permissions := match pwh_permissions p with Some v => v | None => wh_permissions x end;
     wh_token := match pwh_token p with Some v => Some v | None => wh_token x end |}.
Class WebhookOptionalLaws `{OptionalStruct Webhook PartialWebhook} : Prop := {
  wh_id_applied : forall x p, wh_id (apply_options x p) =
    match pwh_id p with Some v => v | None => wh_id x end;
  wh_name_applied : forall x p, wh_name (apply_options x p) =
    match pwh_name p with Some v => v | None => wh_name x end;
  wh_avatar_applied : forall x p, wh_avatar (apply_options x p) =
    match pwh_avatar p with Some v => Some v | None => wh_avatar x end;
  wh_creator_id_applied : forall x p, wh_creator_id (apply_options x p) =
    match pwh_creator_id p with Some v => v | None => wh_creator_id x end;
  wh_channel_id_applied : forall x p, wh_channel_id (apply_options x p) =
    match pwh_channel_id p with Some v => v | None => wh_channel_id x end;
  wh_permissions_applied : forall x p, wh_permissions (apply_options x p) =
    match pwh_permissions p with Some v => v | None => wh_permissions x end;
  wh_token_applied : forall x p, wh_token (apply_options x p) =
    match pwh_token p with Some v => Some v | None => wh_token x end }.
Section webhook_some_priority_inst.
#[local] Instance webhook_some_priority_struct : OptionalStruct Webhook PartialWebhook := webhook_some_priority.
Lemma webhook_some_priority_laws : WebhookOptionalLaws.
Proof. by constructor. Qed.
End webhook_some_priority_inst.

(** ** Lemmas on ordered sets and maps *)

Lemma elem_of_is_insert x y l : y ∈ is_insert x l <-> y = x \/ y ∈ l.
Proof. unfold is_insert. case_bool_decide; set_solver. Qed.

Lemma NoDup_is_insert x l : NoDup l -> NoDup (is_insert x l).
Proof. unfold is_insert. case_bool_decide; [done|]. intros Hn.
  apply NoDup_app. split_and!; [done|set_solver|apply NoDup_singleton]. Qed.

Lemma swap_remove_perm {A} (eqb : A -> bool) l x :
  NoDup l -> eqb x = true -> (forall y, y ∈ l -> eqb y = true -> y = x) -> x ∈ l ->
  x :: swap_remove_by eqb l ≡ₚ l.
Proof.
  induction l as [|y l IH]; intros Hn Hx Hu Hin; [by apply elem_of_nil in Hin|].
  simpl. apply NoDup_cons in Hn as [Hy Hn]. destruct (eqb y) eqn:E.
  - assert (y = x) as -> by (apply Hu; [apply elem_of_cons; by left|done]). f_equiv.
    destruct (last l) as [z|] eqn:El.
    + apply last_Some in El as [l' ->]. rewrite removelast_last. by rewrite Permutation_cons_append.
    + by apply last_None in El as ->.
  - rewrite Permutation_swap. f_equiv. apply IH; [done..|intros z Hz; apply Hu; apply elem_of_cons; by right|].
    apply elem_of_cons in Hin as [->|]; [congruence|done].
Qed.

Lemma swap_remove_none {A} (eqb : A -> bool) l :
  (forall y, y ∈ l -> eqb y = false) -> swap_remove_by eqb l = l.
Proof.
  induction l as [|y l IH]; intros Hn; [done|]. simpl. rewrite Hn by set_solver.
  f_equal. apply IH. set_solver.
Qed.

Lemma is_remove_perm x l : NoDup l -> x ∈ l -> x :: is_remove x l ≡ₚ l.
Proof.
  intros Hn Hx. apply swap_remove_perm; [done|by apply bool_decide_eq_true|..|done].
  intros y _. apply bool_decide_eq_true.
Qed.

Lemma elem_of_is_remove x y l : NoDup l -> y ∈ is_remove x l <-> y ∈ l /\ y <> x.
Proof.
  intros Hn. destruct (decide (x ∈ l)) as [Hx|Hx].
  - pose proof (is_remove_perm x l Hn Hx) as Hp. rewrite <- Hp in Hn.
    apply NoDup_cons in Hn as [Hn _].
    assert (y ∈ l <-> y ∈ x :: is_remove x l) as -> by by rewrite Hp. set_solver.
  - unfold is_remove. rewrite swap_remove_none; [set_solver|].
    intros z Hz. apply bool_decide_eq_false. set_solver.
Qed.

Lemma im_get_insert {V} k (v : V) m k' :
  im_get k' (im_insert k v m) = if bool_decide (k = k') then Some v else im_get k' m.
Proof.
  induction m as [|[k0 v0] m IH]; simpl; [done|].
  destruct (decide (k0 = k)) as [->|Hne]; [rewrite bool_decide_true by done|rewrite bool_decide_false by done]; simpl.
  - by case_bool_decide.
  - destruct (decide (k0 = k')) as [->|]; [rewrite bool_decide_true by done|rewrite bool_decide_false by done].
    + by rewrite bool_decide_false.
    + apply IH.
Qed.

Lemma im_get_elem {V} k (v : V) m : NoDup m.*1 -> im_get k m = Some v <-> (k, v) ∈ m.
Proof.
  induction m as [|[k0 v0] m IH]; simpl; intros Hn; [set_solver|].
  apply NoDup_cons in Hn as [Hk Hn]. case_bool_decide as E.
  - subst k0. split; [intros [= ->]; set_solver|].
    intros [[= ->]|Hin]%elem_of_cons; [done|].
    destruct Hk. apply list_elem_of_fmap. by exists (k, v).
  - rewrite IH by done. set_solver.
Qed.

Lemma elem_of_im_insert_keys {V} k (v : V) m x : x ∈ (im_insert k v m).*1 -> x = k \/ x ∈ m.*1.
Proof. induction m as [|[k0 v0] m IH]; simpl; [set_solver|]. case_bool_decide; set_solver. Qed.

Lemma im_insert_keys {V} k (v : V) m : NoDup m.*1 -> NoDup (im_insert k v m).*1.
Proof.
  induction m as [|[k0 v0] m IH]; simpl; intros Hn; [apply NoDup_singleton|].
  apply NoDup_cons in Hn as [H0 Hn]. case_bool_decide as E; simpl.
  - subst. by constructor.
  - constructor; [intros [?|?]%elem_of_im_insert_keys; done|by apply IH].
Qed.

Lemma im_get_remove {V} k (m : list (string * V)) k' :
  NoDup m.*1 -> im_get k' (im_remove k m) = if bool_decide (k = k') then None else im_get k' m.
Proof.
  intros Hn. destruct (im_get k m) as [v|] eqn:E.
  - apply im_get_elem in E; [|done]. assert ((k, v) :: im_remove k m ≡ₚ m) as Hp.
    { apply swap_remove_perm; [by eapply NoDup_fmap_1|by apply bool_decide_eq_true| |done].
      intros [k0 v0] Hin Hk%bool_decide_eq_true. simpl in Hk. subst k0. f_equal.
      apply im_get_elem in Hin, E; [|done..]. congruence. }
    assert (NoDup ((k, v) :: im_remove k m).*1) as Hn' by by rewrite Hp.
    simpl in Hn'. apply NoDup_cons in Hn' as [Hk Hn'].
    apply option_eq. intros v'. rewrite im_get_elem by done. case_bool_decide as Ek.
    + subst k'. split; [|done]. intros Hin. destruct Hk. apply list_elem_of_fmap. by exists (k, v').
    + rewrite im_get_elem by done.
      assert ((k', v') ∈ m <-> (k', v') ∈ (k, v) :: im_remove k m) as -> by by rewrite Hp.
      rewrite elem_of_cons. split; [by right|]. intros [[= -> ->]|]; done.
  - unfold im_remove. rewrite swap_remove_none.
    + case_bool_decide; by subst.
    + intros [k0 v0] Hin. apply bool_decide_eq_false. simpl. intros ->.
      apply im_get_elem in Hin; [congruence|done].
Qed.

Lemma swap_remove_sub {A} (eqb : A -> bool) l : swap_remove_by eqb l ⊆+ l.
Proof.
  induction l as [|y l IH]; simpl; [done|]. destruct (eqb y); [|by constructor].
  destruct (last l) as [z|] eqn:El; [|apply submseteq_nil_l].
  apply last_Some in El as [l' ->]. rewrite removelast_last, <- Permutation_cons_append.
  by apply submseteq_cons.
Qed.

Lemma NoDup_submseteq {A} (l k : list A) : l ⊆+ k -> NoDup k -> NoDup l.
Proof. intros [k' Hk]%submseteq_Permutation Hn. rewrite Hk in Hn. by apply NoDup_app in Hn as [? _]. Qed.

Lemma NoDup_is_remove x l : NoDup l -> NoDup (is_remove x l).
Proof. apply NoDup_submseteq, swap_remove_sub. Qed.

Lemma im_remove_keys {V} k (m : list (string * V)) : NoDup m.*1 -> NoDup (im_remove k m).*1.
Proof. apply NoDup_submseteq. by apply fmap_submseteq, swap_remove_sub. Qed.
