(* ===== verification/ModelOps.v ===== *)
(** * Methods of the data model that touch nothing but the object

    The methods of [Server], [Role], [Member], [User] and [Channel]
    ([crates/core/database/src/models/*/model.rs]) that neither call the
    database nor publish an event: reading accessors, clearing fields, applying
    a partial update, the relationship list and the subscription tiers.  A
    method on [&mut self] returns the new object. *)

From S2P Require Import Prelude Results Permissions Models.

(** [Vec::retain] *)
Definition retain {A} (P : A -> bool) (l : list A) : list A := filter (fun x => P x = true) l.

(** ** Servers and members *)

Definition server_remove_field (self : Server) (field : FieldsServer) : Server :=
  match field with
  | FieldsServer.Description => s_set_description None self
  | FieldsServer.Categories => s_set_categories None self
  | FieldsServer.SystemMessages => s_set_system_messages None self
  | FieldsServer.Icon => s_set_icon None self
  | FieldsServer.Banner => s_set_banner None self
  end.

Definition role_remove_field (self : Role) (field : FieldsRole) : Role :=
  match field with FieldsRole.Colour => r_set_colour None self end.

Definition role_into_optional (self : Role) : PartialRole :=
  {| pr_id := Some (r_id self); pr_name := Some (r_name self);
     pr_permissions := Some (r_permissions self); pr_colour := r_colour self;
     pr_hoist := Some (r_hoist self); pr_rank := Some (r_rank self) |}.

Definition into_channel_ids (self : SystemMessageChannels) : gset string :=
  let insert_opt (o : option string) (ids : gset string) :=
    match o with Some id => {[ id ]} ∪ ids | None => ids end in
  insert_opt (smc_user_banned self) (insert_opt (smc_user_kicked self)
    (insert_opt (smc_user_left self) (insert_opt (smc_user_joined self) ∅))).

Definition member_remove_field (self : Member) (field : FieldsMember) : Member :=
  match field with
  | FieldsMember.JoinedAt => self
  | FieldsMember.Avatar => m_set_avatar None self
  | FieldsMember.Nickname => m_set_nickname None self
  | FieldsMember.Roles => m_set_roles [] self
  | FieldsMember.Timeout => m_set_timeout None self
  | FieldsMember.CanReceive => m_set_can_receive true self
  | FieldsMember.CanPublish => m_set_can_publish true self
  | FieldsMember.VoiceChannel => self
  end.

(** [Server::ordered_roles] *)
Definition ordered_roles `{HashOrder} (self : Server) : list (string * Role) :=
  sort_by (cmp_asc (fun e : string * Role => r_rank e.2)) (hm_iter (s_roles self)).

(** ** Users *)

Definition user_remove_field (self : User) (field : FieldsUser) : User :=
  match field with
  | FieldsUser.Avatar => u_set_avatar None self
  | FieldsUser.StatusText =>
      match u_status self with
      | Some x => u_set_status (Some (us_set_text None x)) self
      | None => self
      end
  | FieldsUser.StatusPresence =>
      match u_status self with
      | Some x => u_set_status (Some (us_set_presence None x)) self
      | None => self
      end
  | FieldsUser.ProfileContent =>
      match u_profile self with
      | Some x => u_set_profile (Some (up_set_content None x)) self
      | None => self
      end
  | FieldsUser.ProfileBackground =>
      match u_profile self with
      | Some x => u_set_profile (Some (up_set_background None x)) self
      | None => self
      end
  | FieldsUser.DisplayName => u_set_display_name None self
  | FieldsUser.Suspension => u_set_suspended_until None self
  | FieldsUser.None => self
  end.

Definition relationship_with (self : User) (user_b : string) : RelationshipStatus :=
  if bool_decide (u_id self = user_b) then RelationshipStatus.User else
  match u_relations self with
  | Some relations =>
      match List.find (fun x => bool_decide (rel_id x = user_b)) relations with
      | Some relationship => rel_status relationship
      | None => RelationshipStatus.None
      end
  | None => RelationshipStatus.None
  end.

Definition is_friends_with (self : User) (user_b : string) : bool :=
  match relationship_with self user_b with
  | RelationshipStatus.Friend | RelationshipStatus.User => true
  | _ => false
  end.

(** The two updates of a relationship list, which [User::set_relationship] and
    the reference database apply alike. *)
Definition drop_relation (target_id : string) (self : User) : User :=
  match u_relations self with
  | Some relations =>
      u_set_relations (Some (retain (fun r => negb (bool_decide (rel_id r = target_id))) relations)) self
  | None => self
  end.

Definition push_relation (target_id : string) (status : RelationshipStatus) (self : User) : User :=
  let relation := {| rel_id := target_id; rel_status := status |} in
  match u_relations self with
  | Some relations =>
      u_set_relations
        (Some (retain (fun r => negb (bool_decide (rel_id r = target_id))) relations ++ [relation])) self
  | None => u_set_relations (Some [relation]) self
  end.

Definition is_none_or_user (status : RelationshipStatus) : bool :=
  match status with RelationshipStatus.None | RelationshipStatus.User => true | _ => false end.

Definition update_relation (target_id : string) (status : RelationshipStatus) (self : User) : User :=
  if is_none_or_user status then drop_relation target_id self
  else push_relation target_id status self.

(** [UserStatus], [UserProfile] and the other optional parts aside, the
    subscription: [now] is the wall clock in seconds. *)
Definition active_subscription_tier (now : Z) (self : User) : SubscriptionTier :=
  match u_subscription self with
  | Some subscription =>
      match sub_tier subscription with
      | SubscriptionTier.Free => SubscriptionTier.Free
      | tier =>
          match sub_expires_at subscription with
          | Some expires_at => if expires_at <=? now then SubscriptionTier.Free else tier
          | None => tier
          end
      end
  | None => SubscriptionTier.Free
  end.

Definition subscription_tier (now : Z) (self : User) : SubscriptionTier :=
  active_subscription_tier now self.

Definition is_premium (now : Z) (self : User) : bool :=
  match active_subscription_tier now self with SubscriptionTier.Free => false | _ => true end.

Module Tier.
Import SubscriptionTier.
Definition tier_rank (self : SubscriptionTier) : Z :=
  match self with Free => 0 | Basic => 1 | Pro => 2 | Ultra => 3 end.
Definition can_enable_clipping (self : SubscriptionTier) : bool :=
  match self with Free => false | _ => true end.
Definition clip_durations_seconds (self : SubscriptionTier) : list Z :=
  match self with
  | Free => [60]
  | Basic => [60; 300]
  | Pro => [60; 300; 600; 900]
  | Ultra => [60; 300; 600; 900; 3600]
  end.
Definition clips_per_day (self : SubscriptionTier) : option Z :=
  match self with Free => Some 3 | Basic => Some 10 | Pro => Some 30 | Ultra => None end.
Definition max_clips_stored (self : SubscriptionTier) : option Z :=
  match self with Free => Some 5 | Basic => Some 50 | Pro => Some 200 | Ultra => None end.
Definition max_clip_storage_gb (self : SubscriptionTier) : option Z :=
  match self with Free => Some 1 | Basic => Some 2 | Pro => Some 10 | Ultra => Some 50 end.
Definition clip_retention_days (self : SubscriptionTier) : option Z :=
  match self with Free => Some 30 | Basic => Some 90 | Pro => Some 365 | Ultra => None end.
Definition can_download_clips (self : SubscriptionTier) : bool :=
  match self with Pro | Ultra => true | _ => false end.
Definition vod_recording_enabled (self : SubscriptionTier) : bool :=
  match self with Pro | Ultra => true | _ => false end.
Definition vod_buffer_minutes (self : SubscriptionTier) : option Z :=
  match self with Free | Basic => None | Pro => Some 120 | Ultra => None end.
Definition vod_permanent_storage (self : SubscriptionTier) : bool :=
  match self with Ultra => true | _ => false end.
Definition max_emoji_slots (self : SubscriptionTier) : Z :=
  match self with Free => 10 | Basic => 25 | Pro => 50 | Ultra => 100 end.
(** 0 stands for no limit *)
Definition stream_viewer_limit (self : SubscriptionTier) : Z :=
  match self with Free => 10 | Basic => 50 | Pro => 200 | Ultra => 0 end.
Definition uses_livekit_for_public_streams (self : SubscriptionTier) : bool :=
  match self with Free => false | _ => true end.
Definition stream_recording_enabled (self : SubscriptionTier) : bool :=
  match self with Pro | Ultra => true | _ => false end.
Definition priority_stream_routing (self : SubscriptionTier) : bool :=
  match self with Ultra => true | _ => false end.
End Tier.

Definition has_tier_or_higher (now : Z) (self : User) (required : SubscriptionTier) : bool :=
  Tier.tier_rank required <=? Tier.tier_rank (active_subscription_tier now self).

(** ** Channels *)

Definition channel_id (self : Channel) : string :=
  match self with
  | Channel.DirectMessage c => dm_id c
  | Channel.Group c => g_id c
  | Channel.SavedMessages c => sm_id c
  | Channel.TextChannel c => t_id c
  end.

Definition channel_server (self : Channel) : option string :=
  match self with Channel.TextChannel c => Some (t_server c) | _ => None end.

Definition contains_user (self : Channel) (user_id : string) : bool :=
  match self with Channel.Group c => contains user_id (g_recipients c) | _ => false end.

Definition channel_users (self : Channel) : Result (list string) :=
  match self with Channel.Group c => Ok (g_recipients c) | _ => Err ErrorType.NotFound end.

Definition is_encrypted (self : Channel) : bool :=
  match self with
  | Channel.TextChannel c => t_encrypted c
  | Channel.Group c => g_encrypted c
  | _ => false
  end.

Definition channel_voice (self : Channel) : option VoiceInformation :=
  match self with
  | Channel.DirectMessage _ | Channel.Group _ => Some VoiceInformation_default
  | Channel.TextChannel c => t_voice c
  | _ => None
  end.

Definition channel_remove_field (self : Channel) (field : FieldsChannel) : Channel :=
  match field with
  | FieldsChannel.Description =>
      match self with
      | Channel.Group c => Channel.Group (g_set_description None c)
      | Channel.TextChannel c => Channel.TextChannel (t_set_description None c)
      | _ => self
      end
  | FieldsChannel.Icon =>
      match self with
      | Channel.Group c => Channel.Group (g_set_icon None c)
      | Channel.TextChannel c => Channel.TextChannel (t_set_icon None c)
      | _ => self
      end
  | FieldsChannel.DefaultPermissions =>
      match self with
      | Channel.TextChannel c => Channel.TextChannel (t_set_default_permissions None c)
      | _ => self
      end
  | FieldsChannel.Voice =>
      match self with
      | Channel.TextChannel c => Channel.TextChannel (t_set_voice None c)
      | _ => self
      end
  end.

Definition channel_remove_fields (self : Channel) (fields : list FieldsChannel) : Channel :=
  foldl channel_remove_field self fields.

(** [if let Some(v) = partial.f { *f = v }] and [f.replace(v)] *)
Local Abbreviation over o x := (match o with Some v => v | None => x end).
Local Abbreviation replace o x := (match o with Some v => Some v | None => x end).

Definition group_apply_options (c : GroupChannel) (partial : PartialChannel) : GroupChannel :=
  {| g_id := g_id c;
     g_name := over (pc_name partial) (g_name c);
     g_owner := over (pc_owner partial) (g_owner c);
     g_description := replace (pc_description partial) (g_description c);
     g_recipients := g_recipients c;
     g_icon := replace (pc_icon partial) (g_icon c);
     g_last_message_id := g_last_message_id c;
     g_permissions := replace (pc_permissions partial) (g_permissions c);
     g_moderators := over (pc_moderators partial) (g_moderators c);
     g_nsfw := over (pc_nsfw partial) (g_nsfw c);
     g_encrypted := over (pc_encrypted partial) (g_encrypted c) |}.

Definition text_apply_options (c : TextChannel) (partial : PartialChannel) : TextChannel :=
  {| t_id := t_id c;
     t_server := t_server c;
     t_name := over (pc_name partial) (t_name c);
     t_description := replace (pc_description partial) (t_description c);
     t_icon := replace (pc_icon partial) (t_icon c);
     t_last_message_id := t_last_message_id c;
     t_default_permissions := replace (pc_default_permissions partial) (t_default_permissions c);
     t_role_permissions := over (pc_role_permissions partial) (t_role_permissions c);
     t_nsfw := over (pc_nsfw partial) (t_nsfw c);
     t_voice := replace (pc_voice partial) (t_voice c);
     t_encrypted := over (pc_encrypted partial) (t_encrypted c) |}.

Definition channel_apply_options (self : Channel) (partial : PartialChannel) : Channel :=
  match self with
  | Channel.SavedMessages c => Channel.SavedMessages c
  | Channel.DirectMessage c =>
      Channel.DirectMessage (dm_set_active (over (pc_active partial) (dm_active c)) c)
  | Channel.Group c => Channel.Group (group_apply_options c partial)
  | Channel.TextChannel c => Channel.TextChannel (text_apply_options c partial)
  end.

(** ** Bots, emoji and invites *)

(** [nanoid] is the fresh token the code draws. *)
Definition bot_remove_field (nanoid : string) (self : Bot) (field : FieldsBot) : Bot :=
  match field with
  | FieldsBot.Token => b_set_token nanoid self
  | FieldsBot.InteractionsURL => b_set_interactions_url "" self
  end.

Definition emoji_parent (self : Emoji) : string :=
  match e_parent self with EmojiParent.Server id => id | EmojiParent.Detached => "" end.

Definition invite_code (self : Invite) : string :=
  match self with Invite.Server code _ _ _ => code | Invite.Group code _ _ => code end.

Definition invite_creator (self : Invite) : string :=
  match self with Invite.Server _ _ creator _ => creator | Invite.Group _ creator _ => creator end.

(** ** Lemmas *)

(** The identity of a channel survives every edit. *)
Lemma channel_id_apply_options c p : channel_id (channel_apply_options c p) = channel_id c.
Proof. by destruct c. Qed.

Lemma channel_id_remove_field c f : channel_id (channel_remove_field c f) = channel_id c.
Proof. by destruct f, c. Qed.

Lemma channel_id_remove_fields fs c : channel_id (channel_remove_fields c fs) = channel_id c.
Proof.
  revert c. induction fs as [|f fs IH]; intros c; [done|]. simpl.
  unfold channel_remove_fields in *. simpl. by rewrite IH, channel_id_remove_field.
Qed.

(** Looking a relation up in the retained list. *)
Lemma find_retain_ne a b (l : list Relationship) :
  a <> b ->
  List.find (fun x => bool_decide (rel_id x = b))
    (retain (fun r => negb (bool_decide (rel_id r = a))) l)
  = List.find (fun x => bool_decide (rel_id x = b)) l.
Proof.
  intros Hab. unfold retain. induction l as [|r l IH]; [done|].
  rewrite filter_cons. case_decide as Hd; simpl.
  - by rewrite IH.
  - rewrite IH. apply not_true_is_false, negb_false_iff, bool_decide_eq_true in Hd.
    rewrite bool_decide_eq_false_2; [done|congruence].
Qed.

Lemma find_retain_eq a (l : list Relationship) :
  List.find (fun x => bool_decide (rel_id x = a))
    (retain (fun r => negb (bool_decide (rel_id r = a))) l) = None.
Proof.
  unfold retain. induction l as [|r l IH]; [done|].
  rewrite filter_cons. case_decide as Hd; simpl; [|done].
  apply negb_true_iff in Hd. by rewrite Hd.
Qed.

Lemma find_app {A} (P : A -> bool) l1 l2 :
  List.find P (l1 ++ l2) = match List.find P l1 with Some x => Some x | None => List.find P l2 end.
Proof. induction l1 as [|x l1 IH]; [done|]. simpl. by destruct (P x). Qed.

Lemma u_id_update_relation t st u : u_id (update_relation t st u) = u_id u.
Proof.
  unfold update_relation, drop_relation, push_relation.
  by destruct (is_none_or_user st), (u_relations u).
Qed.

(** What [update_relation] does to the relationship with the target, and that
    it leaves the relationship with anyone else as it was. *)
Lemma relationship_with_update t st u :
  u_id u <> t -> st <> RelationshipStatus.User ->
  relationship_with (update_relation t st u) t = st.
Proof.
  intros Hid Hst. unfold relationship_with. rewrite u_id_update_relation.
  rewrite bool_decide_eq_false_2 by done.
  unfold update_relation, drop_relation, push_relation, is_none_or_user.
  destruct st, (u_relations u) as [l|] eqn:E; simpl;
    rewrite ?find_app, ?find_retain_eq; simpl; rewrite ?E; simpl;
    rewrite ?bool_decide_eq_true_2 by done; done.
Qed.

Lemma relationship_with_update_ne t t' st u :
  t <> t' -> relationship_with (update_relation t st u) t' = relationship_with u t'.
Proof.
  intros Hne. unfold relationship_with. rewrite u_id_update_relation.
  case_bool_decide; [done|].
  unfold update_relation, drop_relation, push_relation.
  destruct (is_none_or_user st), (u_relations u) as [l|] eqn:E; simpl;
    rewrite ?E, ?find_app, ?find_retain_ne by done; try done; simpl.
  - rewrite bool_decide_eq_false_2 by done. by destruct (List.find _ _).
  - by rewrite bool_decide_eq_false_2.
Qed.

(** The ordered role list is a permutation of the roles, ranks ascending. *)
Lemma ordered_roles_perm `{HashOrder} s : ordered_roles s ≡ₚ map_to_list (s_roles s).
Proof. unfold ordered_roles. by rewrite sort_by_perm, hm_iter_perm. Qed.

Lemma ordered_roles_sorted `{HashOrder} s :
  StronglySorted (key_le (fun e : string * Role => r_rank e.2)) (ordered_roles s).
Proof. apply sort_by_asc_sorted. Qed.

(** The documented behaviour of [apply_options], as instances to evaluate with. *)
Module SomePriority.
#[export] Instance server_struct : OptionalStruct Server PartialServer := server_some_priority.
#[export] Instance role_struct : OptionalStruct Role PartialRole := role_some_priority.
#[export] Instance member_struct : OptionalStruct Member PartialMember := member_some_priority.
#[export] Instance user_struct : OptionalStruct User PartialUser := user_some_priority.
#[export] Instance server_laws : ServerOptionalLaws := server_some_priority_laws.
#[export] Instance role_laws : RoleOptionalLaws := role_some_priority_laws.
#[export] Instance member_laws : MemberOptionalLaws := member_some_priority_laws.
#[export] Instance user_laws : UserOptionalLaws := user_some_priority_laws.
#[export] Instance bot_struct : OptionalStruct Bot PartialBot := bot_some_priority.
#[export] Instance bot_laws : BotOptionalLaws := bot_some_priority_laws.
#[export] Existing Instance hash_order_canonical.
End SomePriority.
