(* ===== verification/DbPermissions.v ===== *)
(** * Permission queries against the database
    ([crates/core/database/src/util/permissions.rs])

    [DatabasePermissionQuery] is the implementation of the trait
    [PermissionQuery] the API uses: it answers from the user, server, member
    and channel it was given and fetches and caches what is missing.  The
    database is the class [PermissionDatabase], the part of the [Database]
    trait object the query calls; the clock is read once per calculation. *)

From S2P Require Import Prelude Results Permissions PermissionCalc Models.

(** The database operations a permission query uses. *)
Class PermissionDatabase (D : Type) := {
  fetch_user : D -> string -> Result User;
  fetch_users : D -> list string -> Result (list User);
  fetch_server : D -> string -> Result Server;
  fetch_channel : D -> string -> Result Channel;
  fetch_member : D -> string -> string -> Result Member;
  fetch_members : D -> string -> list string -> Result (list Member);
  fetch_mutual_server_ids : D -> string -> string -> Result (list string);
  fetch_mutual_channel_ids : D -> string -> string -> Result (list string) }.

(** [Member::in_timeout], [now] the time of the call. *)
Definition in_timeout (now : Timestamp) (m : Member) : bool :=
  match m_timeout m with Some timeout => now <? timeout | None => false end.

(** [Member::get_ranking] *)
Definition get_ranking (m : Member) (server : Server) : Z :=
  foldl (fun value role =>
    match s_roles server !! role with
    | Some role => if r_rank role <? value then r_rank role else value
    | None => value
    end) i64_max (m_roles m).

(** The overrides of the member's roles in a server, lowest ranking first. *)
Definition server_role_overrides `{HashOrder} (server : Server) (member_roles : list string)
    : list Override :=
  let roles :=
    (fun '(_, role) => (r_rank role, Override_from (r_permissions role)))
      <$> filter (fun '(id, _) => contains id member_roles = true) (hm_iter (s_roles server)) in
  (sort_by (cmp_desc fst) roles).*2.

(** The overrides a channel gives the member's roles, lowest ranking first. *)
Definition channel_role_overrides `{HashOrder} (role_permissions : gmap string OverrideField)
    (server : Server) (member_roles : list string) : list Override :=
  let roles :=
    omap (fun '(id, permission) =>
            (fun role => (r_rank role, Override_from permission)) <$> s_roles server !! id)
      (filter (fun '(id, _) => contains id member_roles = true) (hm_iter role_permissions)) in
  (sort_by (cmp_desc fst) roles).*2.

(** [User::has_mutual_connection] *)
Definition has_mutual_connection {D} `{PermissionDatabase D} (self : User) (db : D)
    (user_b : string) : Result bool :=
  servers ← fetch_mutual_server_ids db (u_id self) user_b;
  if negb (bool_decide (servers = [])) then Ok true else
  channels ← fetch_mutual_channel_ids db (u_id self) user_b;
  Ok (negb (bool_decide (channels = []))).

Definition to_perm_status (s : RelationshipStatus) : PermRelationshipStatus.RelationshipStatus :=
  match s with
  | RelationshipStatus.None => PermRelationshipStatus.None
  | RelationshipStatus.User => PermRelationshipStatus.User
  | RelationshipStatus.Friend => PermRelationshipStatus.Friend
  | RelationshipStatus.Outgoing => PermRelationshipStatus.Outgoing
  | RelationshipStatus.Incoming => PermRelationshipStatus.Incoming
  | RelationshipStatus.Blocked => PermRelationshipStatus.Blocked
  | RelationshipStatus.BlockedOther => PermRelationshipStatus.BlockedOther
  end.

Record DatabasePermissionQuery (D : Type) := {
  q_database : D;
  q_perspective : User;
  q_user : option User;
  q_channel : option Channel;
  q_server : option Server;
  q_member : option Member;
  q_cached_user_permission : option PermissionValue;
  q_cached_mutual_connection : option bool;
  q_cached_permission : option Z }.
Arguments q_database {D}.
Arguments q_perspective {D}.
Arguments q_user {D}.
Arguments q_channel {D}.
Arguments q_server {D}.
Arguments q_member {D}.
Arguments q_cached_user_permission {D}.
Arguments q_cached_mutual_connection {D}.
Arguments q_cached_permission {D}.

(** The query with one of its fields replaced. *)
Definition q_with {D} (q : DatabasePermissionQuery D) (user : option User)
    (channel : option Channel) (server : option Server) (member : option Member)
    (mutual : option bool) : DatabasePermissionQuery D :=
  {| q_database := q_database q; q_perspective := q_perspective q; q_user := user;
     q_channel := channel; q_server := server; q_member := member;
     q_cached_user_permission := q_cached_user_permission q;
     q_cached_mutual_connection := mutual; q_cached_permission := q_cached_permission q |}.
Definition q_set_user {D} u (q : DatabasePermissionQuery D) :=
  q_with q u (q_channel q) (q_server q) (q_member q) (q_cached_mutual_connection q).
Definition q_set_channel {D} c (q : DatabasePermissionQuery D) :=
  q_with q (q_user q) c (q_server q) (q_member q) (q_cached_mutual_connection q).
Definition q_set_server {D} s (q : DatabasePermissionQuery D) :=
  q_with q (q_user q) (q_channel q) s (q_member q) (q_cached_mutual_connection q).
Definition q_set_member {D} m (q : DatabasePermissionQuery D) :=
  q_with q (q_user q) (q_channel q) (q_server q) m (q_cached_mutual_connection q).
Definition q_set_mutual {D} b (q : DatabasePermissionQuery D) :=
  q_with q (q_user q) (q_channel q) (q_server q) (q_member q) b.

(** [DatabasePermissionQuery::new] and the builder methods. *)
Definition DatabasePermissionQuery_new {D} (database : D) (perspective : User)
    : DatabasePermissionQuery D :=
  {| q_database := database; q_perspective := perspective; q_user := None; q_channel := None;
     q_server := None; q_member := None; q_cached_user_permission := None;
     q_cached_mutual_connection := None; q_cached_permission := None |}.
Definition query_user {D} (q : DatabasePermissionQuery D) (user : User) := q_set_user (Some user) q.
Definition query_channel {D} (q : DatabasePermissionQuery D) (channel : Channel) :=
  q_set_channel (Some channel) q.
Definition query_server {D} (q : DatabasePermissionQuery D) (server : Server) :=
  q_set_server (Some server) q.
Definition query_member {D} (q : DatabasePermissionQuery D) (member : Member) :=
  q_set_member (Some member) q.

Section Query.
Context {D : Type} `{PermissionDatabase D} `{HashOrder} (now : Timestamp).
Local Abbreviation Qm := (M ErrorType (DatabasePermissionQuery D)).

Definition db_are_we_privileged : Qm bool := reads (fun q => u_privileged (q_perspective q)).
Definition db_are_we_a_bot : Qm bool := reads (fun q => bool_decide (is_Some (u_bot (q_perspective q)))).

Definition db_are_the_users_same : Qm bool :=
  reads (fun q => match q_user q with
                  | Some other_user => bool_decide (u_id (q_perspective q) = u_id other_user)
                  | None => false
                  end).

Definition db_user_relationship : Qm PermRelationshipStatus.RelationshipStatus :=
  reads (fun q =>
    match q_user q with
    | Some other_user =>
        if bool_decide (u_id (q_perspective q) = u_id other_user)
        then PermRelationshipStatus.User
        else if match u_bot other_user with
                | Some bot => bool_decide (u_id (q_perspective q) = bi_owner bot)
                | None => false
                end
        then PermRelationshipStatus.User
        else match u_relations (q_perspective q) with
             | Some relations =>
                 match list_find (fun entry => rel_id entry = u_id other_user) relations with
                 | Some (_, entry) => to_perm_status (rel_status entry)
                 | None => PermRelationshipStatus.None
                 end
             | None => PermRelationshipStatus.None
             end
    | None => PermRelationshipStatus.None
    end).

Definition db_user_is_bot : Qm bool :=
  reads (fun q => match q_user q with
                  | Some other_user => bool_decide (is_Some (u_bot other_user))
                  | None => false
                  end).

Definition db_have_mutual_connection : Qm bool := fun q =>
  match q_cached_mutual_connection q with
  | Some value => (Ok value, q)
  | None =>
      match q_user q with
      | Some user =>
          match has_mutual_connection (q_perspective q) (q_database q) (u_id user) with
          | Ok value => (Ok value, q_set_mutual (Some value) q)
          | Err _ => (Ok false, q_set_mutual (Some false) q)
          | Panicked => (Panicked, q)
          end
      | None => (Ok false, q)
      end
  end.

Definition db_are_we_server_owner : Qm bool :=
  reads (fun q => match q_server q with
                  | Some server => bool_decide (s_owner server = u_id (q_perspective q))
                  | None => false
                  end).

Definition db_are_we_a_member : Qm bool := fun q =>
  match q_server q with
  | Some server =>
      match q_member q with
      | Some _ => (Ok true, q)
      | None =>
          match fetch_member (q_database q) (s_id server) (u_id (q_perspective q)) with
          | Ok member => (Ok true, q_set_member (Some member) q)
          | Err _ => (Ok false, q)
          | Panicked => (Panicked, q)
          end
      end
  | None => (Ok false, q)
  end.

Definition db_get_default_server_permissions : Qm Z :=
  reads (fun q => match q_server q with
                  | Some server => as_u64 (s_default_permissions server)
                  | None => 0
                  end).

Definition db_get_our_server_role_overrides : Qm (list Override) :=
  reads (fun q => match q_server q with
                  | Some server =>
                      server_role_overrides server
                        (match q_member q with Some member => m_roles member | None => [] end)
                  | None => []
                  end).

Definition db_are_we_timed_out : Qm bool :=
  reads (fun q => match q_member q with Some member => in_timeout now member | None => false end).
Definition db_do_we_have_publish_overwrites : Qm bool :=
  reads (fun q => match q_member q with Some member => m_can_publish member | None => true end).
Definition db_do_we_have_receive_overwrites : Qm bool :=
  reads (fun q => match q_member q with Some member => m_can_receive member | None => true end).

Definition db_get_channel_type : Qm ChannelType :=
  reads (fun q => match q_channel q with
                  | Some (Channel.DirectMessage _) => ChannelType.DirectMessage
                  | Some (Channel.Group _) => ChannelType.Group
                  | Some (Channel.SavedMessages _) => ChannelType.SavedMessages
                  | Some (Channel.TextChannel _) => ChannelType.ServerChannel
                  | None => ChannelType.Unknown
                  end).

Definition channel_default_override (channel : option Channel) : Override :=
  match channel with
  | Some (Channel.Group g) =>
      {| allow := as_u64 (default (as_i64 DEFAULT_PERMISSION_DIRECT_MESSAGE) (g_permissions g));
         deny := 0 |}
  | Some (Channel.TextChannel t) =>
      Override_from (default OverrideField_default (t_default_permissions t))
  | _ => Override_default
  end.
Definition db_get_default_channel_permissions : Qm Override :=
  reads (fun q => channel_default_override (q_channel q)).

Definition db_get_our_channel_role_overrides : Qm (list Override) :=
  reads (fun q => match q_channel q with
                  | Some (Channel.TextChannel t) =>
                      match q_server q with
                      | Some server =>
                          channel_role_overrides (t_role_permissions t) server
                            (match q_member q with Some member => m_roles member | None => [] end)
                      | None => []
                      end
                  | _ => []
                  end).

Definition db_do_we_own_the_channel : Qm bool :=
  reads (fun q => match q_channel q with
                  | Some (Channel.Group g) => bool_decide (g_owner g = u_id (q_perspective q))
                  | Some (Channel.SavedMessages c) => bool_decide (sm_user c = u_id (q_perspective q))
                  | _ => false
                  end).

Definition db_are_we_a_group_moderator : Qm bool :=
  reads (fun q => match q_channel q with
                  | Some (Channel.Group g) => contains (u_id (q_perspective q)) (g_moderators g)
                  | _ => false
                  end).

Definition db_are_we_part_of_the_channel : Qm bool :=
  reads (fun q => match q_channel q with
                  | Some (Channel.DirectMessage c) => contains (u_id (q_perspective q)) (dm_recipients c)
                  | Some (Channel.Group g) => contains (u_id (q_perspective q)) (g_recipients g)
                  | _ => false
                  end).

(** [expect] and [unimplemented!] panic. *)
Definition db_set_recipient_as_user : Qm unit := fun q =>
  match q_channel q with
  | Some (Channel.DirectMessage c) =>
      match list_find (fun recipient => recipient <> u_id (q_perspective q)) (dm_recipients c) with
      | Some (_, recipient_id) =>
          match fetch_user (q_database q) recipient_id with
          | Ok user => (Ok tt, q_set_user (Some user) q)
          | Err _ => (Ok tt, q)
          | Panicked => (Panicked, q)
          end
      | None => (Panicked, q)
      end
  | Some _ => (Panicked, q)
  | None => (Ok tt, q)
  end.

Definition db_set_server_from_channel : Qm unit := fun q =>
  match q_channel q with
  | Some (Channel.TextChannel t) =>
      if match q_server q with
         | Some known_server => bool_decide (t_server t = s_id known_server)
         | None => false
         end
      then (Ok tt, q)
      else match fetch_server (q_database q) (t_server t) with
           | Ok server => (Ok tt, q_set_server (Some server) q)
           | Err _ => (Ok tt, q)
           | Panicked => (Panicked, q)
           end
  | Some _ => (Panicked, q)
  | None => (Ok tt, q)
  end.

#[local] Instance database_permission_query : PermissionQuery (DatabasePermissionQuery D) := {
  are_we_privileged := db_are_we_privileged;
  are_we_a_bot := db_are_we_a_bot;
  are_the_users_same := db_are_the_users_same;
  user_relationship := db_user_relationship;
  user_is_bot := db_user_is_bot;
  have_mutual_connection := db_have_mutual_connection;
  are_we_server_owner := db_are_we_server_owner;
  are_we_a_member := db_are_we_a_member;
  get_default_server_permissions := db_get_default_server_permissions;
  get_our_server_role_overrides := db_get_our_server_role_overrides;
  are_we_timed_out := db_are_we_timed_out;
  do_we_have_publish_overwrites := db_do_we_have_publish_overwrites;
  do_we_have_receive_overwrites := db_do_we_have_receive_overwrites;
  get_channel_type := db_get_channel_type;
  get_default_channel_permissions := db_get_default_channel_permissions;
  get_our_channel_role_overrides := db_get_our_channel_role_overrides;
  do_we_own_the_channel := db_do_we_own_the_channel;
  are_we_a_group_moderator := db_are_we_a_group_moderator;
  are_we_part_of_the_channel := db_are_we_part_of_the_channel;
  set_recipient_as_user := db_set_recipient_as_user;
  set_server_from_channel := db_set_server_from_channel }.

(** The calculators of [impl.rs] run on a database query. *)
Definition db_calculate_user_permissions : Qm PermissionValue := calculate_user_permissions.
Definition db_calculate_server_permissions : Qm PermissionValue := calculate_server_permissions.
Definition db_calculate_channel_permissions : Qm PermissionValue := calculate_channel_permissions.

(** [DatabasePermissionQuery::calc_user] *)
Definition calc_user : Qm unit := fun q =>
  match q_cached_user_permission q with
  | Some _ => (Ok tt, q)
  | None =>
      match q_user q with
      | None => (Panicked, q)
      | Some _ =>
          match calculate_user_permissions q with
          | (Ok p, q') =>
              (Ok tt, {| q_database := q_database q'; q_perspective := q_perspective q';
                         q_user := q_user q'; q_channel := q_channel q'; q_server := q_server q';
                         q_member := q_member q'; q_cached_user_permission := Some p;
                         q_cached_mutual_connection := q_cached_mutual_connection q';
                         q_cached_permission := q_cached_permission q' |})
          | (Err e, q') => (Err e, q')
          | (Panicked, q') => (Panicked, q')
          end
      end
  end.

(** [DatabasePermissionQuery::get_member_rank]; [unwrap] of a missing server panics. *)
Definition get_member_rank (q : DatabasePermissionQuery D) : Result (option Z) :=
  match q_member q with
  | None => Ok None
  | Some member =>
      match q_server q with
      | Some server => Ok (Some (get_ranking member server))
      | None => Panicked
      end
  end.
End Query.
