(* ===== verification/PermissionSpec.v ===== *)
(** * What the permission calculation computes

    A direct description of the permissions of a member of a server, and the
    refinement theorem that the stateful calculation against the database
    implements it; the safety properties and the rank-precedence of roles
    follow from the description. *)

From S2P Require Import Prelude Results Permissions PermissionCalc Models DbPermissions.

(** ** Specification *)

Section Spec.
Context `{HashOrder} (now : Timestamp).

(** Server permissions of the member [m] of [s], neither owner nor privileged. *)
Definition member_server_permissions (s : Server) (m : Member) : PermissionValue :=
  let p := apply_overrides (PV (as_u64 (s_default_permissions s)))
             (server_role_overrides s (m_roles m)) in
  let p := if m_can_publish m then p
           else pv_revoke (pv_revoke p ChannelPermission.Speak) ChannelPermission.Video in
  let p := if m_can_receive m then p else pv_revoke p ChannelPermission.Listen in
  if in_timeout now m then pv_restrict p ALLOW_IN_TIMEOUT else p.

(** The same, after the overrides of the text channel [t]. *)
Definition member_channel_permissions (s : Server) (m : Member) (t : TextChannel)
    : PermissionValue :=
  let p := pv_apply (member_server_permissions s m)
             (Override_from (default OverrideField_default (t_default_permissions t))) in
  let p := apply_overrides p (channel_role_overrides (t_role_permissions t) s (m_roles m)) in
  let p := if in_timeout now m then pv_restrict p ALLOW_IN_TIMEOUT else p in
  if has_channel_permission p ChannelPermission.ViewChannel then p else PV 0.

(** Permissions of the user [u] in [t], a channel of server [s]. *)
Definition text_channel_permissions (u : User) (s : Server) (m : option Member) (t : TextChannel)
    : PermissionValue :=
  if u_privileged u then PV ChannelPermission.GrantAllSafe
  else if bool_decide (s_owner s = u_id u) then PV ChannelPermission.GrantAllSafe
  else match m with
       | Some m => member_channel_permissions s m t
       | None => PV 0
       end.
End Spec.

(** ** Refinement *)

Section Refinement.
Context {D : Type} `{PermissionDatabase D} `{HashOrder} (now : Timestamp).
Implicit Types (q : DatabasePermissionQuery D).

(** The query holds the text channel [t] and knows, or the database returns,
    its server [s] and the membership [m] of the perspective user. *)
Definition serves q (t : TextChannel) (s : Server) (m : option Member) : Prop :=
  q_channel q = Some (Channel.TextChannel t) /\
  t_server t = s_id s /\
  (q_server q = Some s \/
   (match q_server q with Some k => s_id k <> t_server t | None => True end /\
    fetch_server (q_database q) (t_server t) = Ok s)) /\
  (q_member q = m /\ is_Some m \/
   q_member q = None /\
   match m with
   | Some m => fetch_member (q_database q) (s_id s) (u_id (q_perspective q)) = Ok m
   | None => exists e, fetch_member (q_database q) (s_id s) (u_id (q_perspective q)) = Err e
   end).

Lemma set_server_from_channel_serves q t s m :
  serves q t s m ->
  exists q', db_set_server_from_channel q = (Ok tt, q') /\ q_server q' = Some s /\
    q_channel q' = q_channel q /\ q_member q' = q_member q /\
    q_database q' = q_database q /\ q_perspective q' = q_perspective q.
Proof.
  intros (Hc & Hid & Hs & _). unfold db_set_server_from_channel. rewrite Hc.
  destruct Hs as [Hs|[Hs Hf]].
  - rewrite Hs, Hid, bool_decide_eq_true_2 by done. by eauto 10.
  - replace (match q_server q with Some _ => _ | None => _ end) with false.
    + rewrite Hf. by eexists.
    + destruct (q_server q); [|done]. symmetry. apply bool_decide_eq_false. congruence.
Qed.

Lemma are_we_a_member_serves q s m :
  q_server q = Some s ->
  (q_member q = m /\ is_Some m \/
   q_member q = None /\
   match m with
   | Some m => fetch_member (q_database q) (s_id s) (u_id (q_perspective q)) = Ok m
   | None => exists e, fetch_member (q_database q) (s_id s) (u_id (q_perspective q)) = Err e
   end) ->
  exists q', db_are_we_a_member q = (Ok (bool_decide (is_Some m)), q') /\
    q_member q' = m /\ q_server q' = Some s /\ q_channel q' = q_channel q /\
    q_perspective q' = q_perspective q.
Proof.
  intros Hs Hm. unfold db_are_we_a_member. rewrite Hs.
  destruct Hm as [[Hm [x ->]]|[Hn Hm]].
  - rewrite Hm. by eexists.
  - rewrite Hn. destruct m as [m|].
    + rewrite Hm. by eexists.
    + destruct Hm as [e ->]. by eexists.
Qed.

Lemma calculate_server_permissions_member q s m :
  u_privileged (q_perspective q) = false -> q_server q = Some s ->
  bool_decide (s_owner s = u_id (q_perspective q)) = false -> q_member q = Some m ->
  db_calculate_server_permissions now q = (Ok (member_server_permissions now s m), q).
Proof.
  intros Hp Hs Ho Hm.
  unfold db_calculate_server_permissions, calculate_server_permissions, member_server_permissions.
  run_M. unfold db_are_we_privileged, db_are_we_server_owner, db_are_we_a_member,
    db_get_default_server_permissions, db_get_our_server_role_overrides,
    db_do_we_have_publish_overwrites, db_do_we_have_receive_overwrites, db_are_we_timed_out.
  run_M. repeat progress (rewrite ?Hp, ?Hs, ?Ho, ?Hm; simpl).
  destruct (m_can_publish m), (m_can_receive m), (in_timeout now m); done.
Qed.

Lemma calculate_server_permissions_all q s :
  q_server q = Some s ->
  u_privileged (q_perspective q) = true \/
    bool_decide (s_owner s = u_id (q_perspective q)) = true ->
  db_calculate_server_permissions now q = (Ok (PV ChannelPermission.GrantAllSafe), q).
Proof.
  intros Hs Hu. unfold db_calculate_server_permissions, calculate_server_permissions.
  run_M. unfold db_are_we_privileged, db_are_we_server_owner.
  run_M. destruct (u_privileged (q_perspective q)); [done|].
  destruct Hu as [?|Hu]; [done|]. repeat progress (rewrite ?Hs, ?Hu; simpl). done.
Qed.

Lemma calculate_channel_permissions_spec q t s m :
  serves q t s m ->
  fst (db_calculate_channel_permissions now q)
  = Ok (text_channel_permissions now (q_perspective q) s m t).
Proof.
  intros Hq. pose proof Hq as (Hc & _ & _ & Hm).
  unfold db_calculate_channel_permissions, calculate_channel_permissions, text_channel_permissions.
  rewrite (M_bind_ok _ _ q (u_privileged (q_perspective q)) q) by done.
  destruct (u_privileged (q_perspective q)) eqn:Hp; [done|].
  rewrite (M_bind_ok _ _ q ChannelType.ServerChannel q)
    by (simpl; unfold db_get_channel_type, reads; by rewrite Hc).
  destruct (set_server_from_channel_serves q t s m Hq) as (q1 & E1 & Hs1 & Hc1 & Hm1 & Hd1 & Hp1).
  rewrite (M_bind_ok _ _ _ _ _ E1).
  rewrite (M_bind_ok _ _ q1 (bool_decide (s_owner s = u_id (q_perspective q))) q1)
    by (simpl; unfold db_are_we_server_owner, reads; by rewrite Hs1, Hp1).
  destruct (bool_decide (s_owner s = _)) eqn:Ho; [done|].
  rewrite <- Hm1, <- Hd1, <- Hp1 in Hm.
  destruct (are_we_a_member_serves q1 s m Hs1 Hm) as (q2 & E2 & Hm2 & Hs2 & Hc2 & Hp2).
  rewrite (M_bind_ok _ _ _ _ _ E2). destruct m as [m|]; [simpl|done].
  assert (q_perspective q2 = q_perspective q) as Hq2 by congruence.
  rewrite <- Hq2 in Hp, Ho.
  pose proof (calculate_server_permissions_member q2 s m Hp Hs2 Ho Hm2) as E3.
  rewrite (M_bind_ok _ _ _ _ _ E3).
  run_M. unfold db_get_default_channel_permissions, db_get_our_channel_role_overrides,
    db_are_we_timed_out. run_M.
  rewrite Hc2, Hc1, Hc, Hs2, Hm2. simpl. unfold member_channel_permissions, pv_revoke_all.
  destruct (in_timeout now m); destruct (has_channel_permission _ _); done.
Qed.

(** C1: refinement: the stateful calculation against the database, with its
    fetching and caching, computes [text_channel_permissions] for the text
    channel the query holds, for every order of HashMap iteration. *)
Theorem calculate_channel_permissions_refines (q : DatabasePermissionQuery D) (t : TextChannel)
    (s : Server) (m : option Member) (Hq : serves q t s m) :
  fst (db_calculate_channel_permissions now q)
  = Ok (text_channel_permissions now (q_perspective q) s m t).
Proof. by apply calculate_channel_permissions_spec. Qed.
End Refinement.

(** A database with no documents, and a small server to evaluate on. *)
Module Example.
Definition empty_db : PermissionDatabase unit := {|
  fetch_user := fun _ _ => Err ErrorType.NotFound;
  fetch_users := fun _ _ => Err ErrorType.NotFound;
  fetch_server := fun _ _ => Err ErrorType.NotFound;
  fetch_channel := fun _ _ => Err ErrorType.NotFound;
  fetch_member := fun _ _ _ => Err ErrorType.NotFound;
  fetch_members := fun _ _ _ => Err ErrorType.NotFound;
  fetch_mutual_server_ids := fun _ _ _ => Ok [];
  fetch_mutual_channel_ids := fun _ _ _ => Ok [] |}.

Definition user (id : string) : User := {|
  u_id := id; u_username := id; u_discriminator := "0001"; u_display_name := None;
  u_avatar := None; u_relations := None; u_badges := None; u_status := None; u_profile := None;
  u_flags := None; u_privileged := false; u_bot := None; u_suspended_until := None;
  u_last_acknowledged_policy_change := 0; u_subscription := None; u_active_decorations := None;
  u_presence_style := None |}.

Definition role (id : string) (rank allow deny : Z) : Role := {|
  r_id := id; r_name := id; r_permissions := {| of_a := allow; of_d := deny |};
  r_colour := None; r_hoist := false; r_rank := rank |}.

Definition server (roles : gmap string Role) : Server := {|
  s_id := "server"; s_owner := "owner"; s_name := "Server"; s_description := None;
  s_channels := ["channel"]; s_categories := None; s_system_messages := None; s_roles := roles;
  s_default_permissions := DEFAULT_PERMISSION_SERVER; s_icon := None; s_banner := None;
  s_flags := None; s_nsfw := false; s_analytics := false; s_discoverable := false |}.

Definition member (roles : list string) (timeout : option Timestamp) : Member := {|
  m_id := {| mk_server := "server"; mk_user := "member" |}; m_joined_at := 0;
  m_nickname := None; m_avatar := None; m_roles := roles; m_timeout := timeout;
  m_can_publish := true; m_can_receive := true |}.

Definition channel : TextChannel := {|
  t_id := "channel"; t_server := "server"; t_name := "General"; t_description := None;
  t_icon := None; t_last_message_id := None; t_default_permissions := None;
  t_role_permissions := ∅; t_nsfw := false; t_voice := None; t_encrypted := false |}.

Definition query (roles : gmap string Role) (m : option Member) : DatabasePermissionQuery unit :=
  q_set_member m (query_server (query_channel (DatabasePermissionQuery_new tt (user "member"))
    (Channel.TextChannel channel)) (server roles)).

(** A moderator role that denies sending above a member role that allows
    banning; ranks 0 and 1. *)
Definition two_roles : gmap string Role :=
  {[ "mod" := role "mod" 0 0 (ChannelPermission.SendMessage);
     "member" := role "member" 1 (ChannelPermission.BanMembers +p ChannelPermission.SendMessage) 0 ]}.
End Example.

(** The refinement theorem at a member with two roles. *)
Lemma calculate_channel_permissions_refines_witness :
  fst (db_calculate_channel_permissions (H := Example.empty_db) (H0 := hash_order_canonical) 0
         (Example.query Example.two_roles (Some (Example.member ["mod"; "member"] None))))
  = Ok (text_channel_permissions (H := hash_order_canonical) 0 (Example.user "member")
          (Example.server Example.two_roles) (Some (Example.member ["mod"; "member"] None))
          Example.channel).
Proof.
  apply (calculate_channel_permissions_refines (H := Example.empty_db) (H0 := hash_order_canonical)
           0 (Example.query Example.two_roles (Some (Example.member ["mod"; "member"] None)))).
  repeat split; try (by left); left; by eauto.
Defined.

(** ** Safety *)

Section Safety.
Context {D : Type} `{PermissionDatabase D} `{HashOrder} (now : Timestamp).

(** a timed out member who is neither privileged nor the owner has at most
    the permissions of [ALLOW_IN_TIMEOUT] in every channel of the server,
    whatever the roles, the channel overrides and the voice flags are. *)
Theorem timed_out_member_restricted (q : DatabasePermissionQuery D) (t : TextChannel)
    (s : Server) (m : Member) (b : Z)
    (Hq : serves q t s (Some m)) (Hp : u_privileged (q_perspective q) = false)
    (Ho : s_owner s <> u_id (q_perspective q)) (Ht : in_timeout now m = true) :
  exists p, fst (db_calculate_channel_permissions now q) = Ok p /\
    (pbit p b = true -> Z.testbit ALLOW_IN_TIMEOUT b = true).
Proof.
  eexists. split; [by apply calculate_channel_permissions_spec|].
  unfold text_channel_permissions. rewrite Hp, bool_decide_eq_false_2 by done.
  unfold member_channel_permissions. rewrite Ht.
  destruct (has_channel_permission _ _).
  - rewrite pv_restrict_bit. by intros [_ ?]%andb_true_iff.
  - unfold pbit. simpl. by rewrite Z.bits_0.
Qed.

(** a user without [ViewChannel] in a server channel has no permission there
    at all, and a user who is not a member, not the owner and not privileged has
    none. *)
Theorem channel_visibility_gate (q : DatabasePermissionQuery D) (t : TextChannel)
    (s : Server) (m : option Member) (Hq : serves q t s m) :
  exists p, fst (db_calculate_channel_permissions now q) = Ok p /\
    (has_channel_permission p ChannelPermission.ViewChannel = false -> p = PV 0) /\
    (m = None -> u_privileged (q_perspective q) = false -> s_owner s <> u_id (q_perspective q) ->
     p = PV 0).
Proof.
  eexists. split; [by apply calculate_channel_permissions_spec|].
  unfold text_channel_permissions. destruct (u_privileged _) eqn:Hp; [by split|].
  case_bool_decide; [by split|]. destruct m as [m|]; [|by split].
  unfold member_channel_permissions.
  match goal with
  | |- context [if has_channel_permission ?x _ then _ else PV 0] =>
      destruct (has_channel_permission x ChannelPermission.ViewChannel) eqn:E; split; try done
  end.
  by rewrite E.
Qed.
End Safety.

Lemma timed_out_member_restricted_witness :
  exists p, fst (db_calculate_channel_permissions (H := Example.empty_db)
                   (H0 := hash_order_canonical) 0
                   (Example.query Example.two_roles (Some (Example.member ["member"] (Some 60)))))
            = Ok p /\ (pbit p 7 = true -> Z.testbit ALLOW_IN_TIMEOUT 7 = true).
Proof.
  apply (timed_out_member_restricted (H := Example.empty_db) (H0 := hash_order_canonical) 0
    (Example.query Example.two_roles (Some (Example.member ["member"] (Some 60))))
    Example.channel (Example.server Example.two_roles) (Example.member ["member"] (Some 60)) 7);
    [repeat split; try (by left); left; by eauto | reflexivity | discriminate | reflexivity].
Defined.

Lemma channel_visibility_gate_witness :
  exists p, fst (db_calculate_channel_permissions (H := Example.empty_db)
                   (H0 := hash_order_canonical) 0 (Example.query Example.two_roles None)) = Ok p /\
    (has_channel_permission p ChannelPermission.ViewChannel = false -> p = PV 0) /\
    (None = @None Member -> false = false -> "owner"%string <> "member"%string -> p = PV 0).
Proof.
  apply (channel_visibility_gate (H := Example.empty_db) (H0 := hash_order_canonical) 0
    (Example.query Example.two_roles None) Example.channel (Example.server Example.two_roles) None).
  repeat split; [by left|]. right. split; [done|]. by exists ErrorType.NotFound.
Defined.
