(* ===== verification/RolePrecedence.v ===== *)
(** * Role precedence

    How the roles of a member combine: the highest role (lowest rank) that
    mentions a permission decides it, within what a timeout and the voice
    restrictions of the member leave; the result does not depend on the
    iteration order of the role map when the member's roles have distinct ranks,
    and does depend on it when two ranks are equal. *)

From S2P Require Import Prelude Results Permissions PermissionCalc Models DbPermissions PermissionSpec.

(** ** The override lists *)

Section Entries.
Context `{HO : HashOrder}.

(** [(rank, override)] of the member's roles, in iteration order. *)
Definition server_entries (s : Server) (member_roles : list string) : list (Z * Override) :=
  (fun '(_, role) => (r_rank role, Override_from (r_permissions role)))
    <$> filter (fun '(id, _) => contains id member_roles = true) (hm_iter (s_roles s)).

Definition channel_entries (role_permissions : gmap string OverrideField) (s : Server)
    (member_roles : list string) : list (Z * Override) :=
  omap (fun '(id, permission) =>
          (fun role => (r_rank role, Override_from permission)) <$> s_roles s !! id)
    (filter (fun '(id, _) => contains id member_roles = true) (hm_iter role_permissions)).

Lemma elem_of_server_entries s member_roles e :
  e ∈ server_entries s member_roles <->
  exists id role, s_roles s !! id = Some role /\ id ∈ member_roles /\
    e = (r_rank role, Override_from (r_permissions role)).
Proof.
  unfold server_entries. rewrite list_elem_of_fmap. split.
  - intros ([id role] & -> & [Hc Hin]%list_elem_of_filter).
    apply elem_of_hm_iter in Hin. apply contains_spec in Hc. by eauto.
  - intros (id & role & Hr & Hid & ->). exists (id, role). split; [done|].
    apply list_elem_of_filter. split; [by apply contains_spec|by apply elem_of_hm_iter].
Qed.
End Entries.

Lemma last_sorted_min (l : list (Z * Override)) y z :
  StronglySorted (key_ge fst) l -> last l = Some y -> z ∈ l -> y.1 <= z.1.
Proof.
  induction 1 as [|x l Hs IH Hx]; [done|]. rewrite last_cons, elem_of_cons.
  destruct (last l) as [w|] eqn:E; intros [= ->] [->|Hz].
  - apply last_Some in E as [l' ->]. rewrite Forall_app in Hx.
    destruct Hx as [_ Hx]. by apply Forall_inv in Hx.
  - by apply IH.
  - done.
  - apply last_None in E as ->. by apply elem_of_nil in Hz.
Qed.

Lemma filter_snd (P : Override -> Prop) `{forall o, Decision (P o)} (l : list (Z * Override)) :
  filter P l.*2 = (filter (fun e => P e.2) l).*2.
Proof.
  induction l as [|[k o] l IH]; [done|]. rewrite fmap_cons, !filter_cons, IH. simpl.
  by case_decide.
Qed.

Lemma sorted_filter (P : Z * Override -> Prop) `{forall e, Decision (P e)} l :
  StronglySorted (key_ge fst) l -> StronglySorted (key_ge fst) (filter P l).
Proof.
  induction 1 as [|x l Hs IH Hx]; [constructor|]. rewrite filter_cons.
  case_decide; [|done]. constructor; [done|]. rewrite Forall_forall in Hx |- *.
  intros y [_ Hy]%list_elem_of_filter. by apply Hx.
Qed.

(** In a list sorted from the lowest to the highest role, the last override
    with property [P] has the least rank of them: an override [x] of [P] that
    each other one of [P] either has a higher rank than or agrees with under
    [f] is as good as the last one. *)
Lemma last_filter_min (P : Override -> Prop) `{forall o, Decision (P o)} (f : Override -> bool) l x :
  StronglySorted (key_ge fst) l -> x ∈ l -> P x.2 ->
  (forall y, y ∈ l -> P y.2 -> f y.2 = f x.2 \/ x.1 < y.1) ->
  f <$> last (filter P l.*2) = Some (f x.2).
Proof.
  intros Hs Hx HPx Hmin. rewrite filter_snd, fmap_last.
  assert (x ∈ filter (fun e => P e.2) l) as Hxf by (by apply list_elem_of_filter).
  destruct (last (filter _ l)) as [y|] eqn:E.
  - simpl. f_equal. pose proof (last_sorted_min _ y x (sorted_filter _ l Hs) E Hxf) as Hle.
    apply last_Some in E as [l' E].
    assert (y ∈ filter (fun e => P e.2) l) as [HPy Hy]%list_elem_of_filter
      by (rewrite E; set_solver).
    destruct (Hmin y Hy HPy) as [->|Hlt]; [done|lia].
  - apply last_None in E. rewrite E in Hxf. by apply elem_of_nil in Hxf.
Qed.

(** ** The verdict of the roles *)

(** What the roles of member [m] of server [s] say of the permission of bit
    [b]: a role of least rank among the member's roles that mention it, with
    which the others of that rank agree, or else the default of the server. *)
Definition role_verdict (s : Server) (m : Member) (b : Z) (v : bool) : Prop :=
  (exists id r, s_roles s !! id = Some r /\ id ∈ m_roles m /\
     mentions b (Override_from (r_permissions r)) /\
     v = negb (Z.testbit (deny (Override_from (r_permissions r))) b) /\
     forall id' r', s_roles s !! id' = Some r' -> id' ∈ m_roles m ->
       mentions b (Override_from (r_permissions r')) ->
       v = negb (Z.testbit (deny (Override_from (r_permissions r'))) b) \/ r_rank r < r_rank r') \/
  ((forall id r, s_roles s !! id = Some r -> id ∈ m_roles m ->
      ~ mentions b (Override_from (r_permissions r))) /\
   v = Z.testbit (as_u64 (s_default_permissions s)) b).

(** What is left of it whatever the roles say: a member who may not publish
    does not speak or show video, one who may not receive does not listen, and
    one in timeout keeps only the permissions of [ALLOW_IN_TIMEOUT]. *)
Definition member_may (now : Timestamp) (m : Member) (b : Z) : bool :=
  (m_can_publish m || negb (Z.testbit ChannelPermission.Speak b || Z.testbit ChannelPermission.Video b)) &&
  (m_can_receive m || negb (Z.testbit ChannelPermission.Listen b)) &&
  (negb (in_timeout now m) || Z.testbit ALLOW_IN_TIMEOUT b).

Section Precedence.
Context {D : Type} `{PermissionDatabase D} `{HO : HashOrder} (now : Timestamp).

Lemma server_overrides_verdict (s : Server) (m : Member) (b : Z) (v : bool) :
  0 <= b < 64 -> role_verdict s m b v ->
  pbit (apply_overrides (PV (as_u64 (s_default_permissions s)))
          (server_role_overrides s (m_roles m))) b = v.
Proof.
  intros Hb Hv. rewrite apply_overrides_bits by done.
  unfold server_role_overrides. fold (server_entries s (m_roles m)).
  set (l := sort_by (cmp_desc fst) (server_entries s (m_roles m))).
  assert (forall e, e ∈ l <-> e ∈ server_entries s (m_roles m)) as El.
  { intros e. subst l. by rewrite sort_by_perm. }
  destruct Hv as [(id & r & Hr & Hid & Hment & -> & Hleast)|[Hnone ->]].
  - assert ((fun o => negb (Z.testbit (deny o) b)) <$> last (filter (mentions b) l.*2)
      = Some (negb (Z.testbit (deny (Override_from (r_permissions r))) b))) as Hl.
    { apply (last_filter_min (mentions b) (fun o => negb (Z.testbit (deny o) b)) l
        (r_rank r, Override_from (r_permissions r))); [..|done|].
      - apply sort_by_desc_sorted.
      - apply El, elem_of_server_entries. by eauto.
      - intros y (id' & r' & Hr' & Hid' & ->)%El%elem_of_server_entries Hy.
        destruct (Hleast id' r' Hr' Hid' Hy) as [E|Hlt]; [by left|by right]. }
    destruct (last _) as [o|]; [by injection Hl|done].
  - destruct (last (filter (mentions b) l.*2)) as [o|] eqn:E; [|done].
    apply last_Some in E as [l' E].
    assert (o ∈ filter (mentions b) l.*2) as [Ho (e & -> & He)%list_elem_of_fmap]%list_elem_of_filter
      by (rewrite E; set_solver).
    apply El, elem_of_server_entries in He as (id & r & Hr & Hid & ->).
    by destruct (Hnone id r Hr Hid).
Qed.

Lemma member_server_bit (s : Server) (m : Member) (b : Z) (v : bool) :
  0 <= b < 64 -> role_verdict s m b v ->
  pbit (member_server_permissions now s m) b = v && member_may now m b.
Proof.
  intros Hb Hv. rewrite <- (server_overrides_verdict s m b v Hb Hv).
  unfold member_server_permissions, member_may.
  destruct (m_can_publish m), (m_can_receive m), (in_timeout now m); cbn [orb negb];
    rewrite ?pv_restrict_bit, ?pv_revoke_bit by done;
    rewrite ?negb_orb, ?andb_true_r, ?andb_true_l, ?andb_assoc; done.
Qed.

(** C4: role precedence: in the permissions calculated for a member of a server,
    a role of least rank among the member's roles that mention a permission
    decides it, a denial beating an allowance of the same role, and the default
    permissions of the server decide one that no role of theirs mentions. The
    other roles of that same rank must agree with it, as the answer otherwise
    depends on the iteration order of the role map. The verdict is then cut for
    everyone but privileged users and the owner of the server, who always have
    [GrantAllSafe] instead: speaking and video go without [can_publish],
    listening without [can_receive], and in timeout all but
    [ALLOW_IN_TIMEOUT]. *)
Theorem role_rank_precedence (q : DatabasePermissionQuery D) (s : Server) (m : Member)
    (b : Z) (v : bool) (Hs : q_server q = Some s) (Hm : q_member q = Some m) (Hb : 0 <= b < 64)
    (Hv : role_verdict s m b v) :
  exists p, fst (db_calculate_server_permissions now q) = Ok p /\
    pbit p b =
      if u_privileged (q_perspective q) || bool_decide (s_owner s = u_id (q_perspective q))
      then Z.testbit ChannelPermission.GrantAllSafe b
      else v && member_may now m b.
Proof.
  destruct (u_privileged (q_perspective q)) eqn:Hp;
    [|destruct (bool_decide (s_owner s = u_id (q_perspective q))) eqn:Ho]; cbn [orb].
  - rewrite (calculate_server_permissions_all now q s) by auto. by eexists.
  - rewrite (calculate_server_permissions_all now q s) by auto. by eexists.
  - rewrite (calculate_server_permissions_member now q s m) by done.
    eexists. split; [done|]. by apply member_server_bit.
Qed.
End Precedence.

(** The role [mod] takes [SendMessage] (bit 22) from a member whom the role
    [member], of a lower standing, gives it. *)
Lemma role_rank_precedence_witness :
  exists p, fst (db_calculate_server_permissions (H := Example.empty_db)
      (H0 := hash_order_canonical) 0
      (Example.query Example.two_roles (Some (Example.member ["member"; "mod"] None)))) = Ok p /\
    pbit p 22 = false.
Proof.
  apply (role_rank_precedence (H := Example.empty_db) (HO := hash_order_canonical) 0
    (Example.query Example.two_roles (Some (Example.member ["member"; "mod"] None)))
    (Example.server Example.two_roles) (Example.member ["member"; "mod"] None) 22 false);
    try reflexivity; try lia.
  left. exists "mod", (Example.role "mod" 0 0 ChannelPermission.SendMessage).
  split; [reflexivity|]. split; [set_solver|]. split; [by right|]. split; [reflexivity|].
  intros id' r' Hr' Hid' _. simpl in Hid'. apply elem_of_cons in Hid' as [->|Hid'].
  - right. vm_compute in Hr'. by simplify_eq.
  - apply list_elem_of_singleton in Hid' as ->. left. vm_compute in Hr'. by simplify_eq.
Defined.

(** ** Iteration order *)

Lemma fmap_omap_fst {A} (f : A -> option (Z * Override)) (l : list A) :
  fst <$> omap f l = omap (fun x => fst <$> f x) l.
Proof.
  induction l as [|x l IH]; [done|]. simpl. destruct (f x); simpl; [|exact IH].
  f_equal. exact IH.
Qed.

Lemma NoDup_omap_inj {A B} (f : A -> option B) (l : list A) :
  (forall x y z, x ∈ l -> y ∈ l -> f x = Some z -> f y = Some z -> x = y) ->
  NoDup l -> NoDup (omap f l).
Proof.
  induction l as [|x l IH]; intros Hinj Hnd; [constructor|].
  apply NoDup_cons in Hnd as [Hx Hnd]. simpl.
  assert (NoDup (omap f l)) as Hl.
  { apply IH; [|done]. intros ??? ??. apply Hinj; by right. }
  destruct (f x) as [z|] eqn:E; [|done]. apply NoDup_cons. split; [|done].
  intros (y & Hy & Hfy)%list_elem_of_omap. destruct Hx.
  by rewrite (Hinj x y z (list_elem_of_here _ _) (list_elem_of_further _ _ _ Hy) E Hfy).
Qed.

(** The member's roles have pairwise distinct ranks in the server. *)
Definition distinct_ranks (s : Server) (member_roles : list string) : Prop :=
  forall id1 id2 r1 r2, id1 ∈ member_roles -> id2 ∈ member_roles ->
    s_roles s !! id1 = Some r1 -> s_roles s !! id2 = Some r2 -> r_rank r1 = r_rank r2 -> id1 = id2.

Section OrderIndependence.
Context (HO1 HO2 : HashOrder).

Lemma hm_iter_orders {K} `{Countable K} {V} (m : gmap K V) :
  hm_iter (HashOrder := HO1) m ≡ₚ hm_iter (HashOrder := HO2) m.
Proof. by rewrite (@hm_iter_perm HO1), (@hm_iter_perm HO2). Qed.

Lemma server_role_overrides_orders s member_roles :
  distinct_ranks s member_roles ->
  server_role_overrides (H := HO1) s member_roles = server_role_overrides (H := HO2) s member_roles.
Proof.
  intros Hd. unfold server_role_overrides. f_equal. apply sort_by_desc_unique.
  - rewrite <- list_fmap_compose. apply NoDup_fmap_2_strong.
    + intros [id1 r1] [id2 r2] [Hc1 H1]%list_elem_of_filter [Hc2 H2]%list_elem_of_filter Heq.
      apply elem_of_hm_iter in H1, H2. apply contains_spec in Hc1, Hc2. simpl in Heq.
      assert (id1 = id2) as -> by (by eapply Hd). by simplify_eq.
    + apply NoDup_filter, NoDup_hm_iter.
  - by rewrite hm_iter_orders.
Qed.

Lemma channel_role_overrides_orders rp s member_roles :
  distinct_ranks s member_roles ->
  channel_role_overrides (H := HO1) rp s member_roles = channel_role_overrides (H := HO2) rp s member_roles.
Proof.
  intros Hd. unfold channel_role_overrides. f_equal. apply sort_by_desc_unique.
  - rewrite fmap_omap_fst. apply NoDup_omap_inj.
    + intros [id1 p1] [id2 p2] z [Hc1 H1]%list_elem_of_filter [Hc2 H2]%list_elem_of_filter E1 E2.
      apply elem_of_hm_iter in H1, H2. apply contains_spec in Hc1, Hc2.
      destruct (s_roles s !! id1) as [r1|] eqn:R1; simplify_eq/=.
      destruct (s_roles s !! id2) as [r2|] eqn:R2; simplify_eq/=.
      assert (id1 = id2) as -> by (by eapply Hd). by simplify_eq.
    + apply NoDup_filter, NoDup_hm_iter.
  - apply perm_omap. by rewrite hm_iter_orders.
Qed.

Lemma text_channel_permissions_orders now u s m t :
  (forall m', m = Some m' -> distinct_ranks s (m_roles m')) ->
  text_channel_permissions (H := HO1) now u s m t = text_channel_permissions (H := HO2) now u s m t.
Proof.
  intros Hd. unfold text_channel_permissions. destruct (u_privileged u); [done|].
  case_bool_decide; [done|]. destruct m as [m|]; [|done].
  unfold member_channel_permissions, member_server_permissions.
  rewrite server_role_overrides_orders, channel_role_overrides_orders; auto.
Qed.

(** determinism: when a member's roles have distinct ranks, the permissions
    calculated for a channel do not depend on the iteration order of the role
    maps. *)
Theorem channel_permissions_order_independent {D} `{PermissionDatabase D} (now : Timestamp)
    (q : DatabasePermissionQuery D) (t : TextChannel) (s : Server) (m : option Member)
    (Hq : serves q t s m)
    (Hd : forall m', m = Some m' -> distinct_ranks s (m_roles m')) :
  fst (db_calculate_channel_permissions (H0 := HO1) now q) =
  fst (db_calculate_channel_permissions (H0 := HO2) now q).
Proof.
  rewrite (calculate_channel_permissions_spec (H0 := HO1) now q t s m Hq),
    (calculate_channel_permissions_spec (H0 := HO2) now q t s m Hq).
  by rewrite text_channel_permissions_orders.
Qed.
End OrderIndependence.

Lemma channel_permissions_order_independent_witness :
  fst (db_calculate_channel_permissions (H := Example.empty_db) (H0 := hash_order_canonical) 0
         (Example.query Example.two_roles (Some (Example.member ["mod"; "member"] None)))) =
  fst (db_calculate_channel_permissions (H := Example.empty_db) (H0 := hash_order_reversed) 0
         (Example.query Example.two_roles (Some (Example.member ["mod"; "member"] None)))).
Proof.
  apply (channel_permissions_order_independent hash_order_canonical hash_order_reversed
    (H := Example.empty_db) 0
    (Example.query Example.two_roles (Some (Example.member ["mod"; "member"] None)))
    Example.channel (Example.server Example.two_roles) (Some (Example.member ["mod"; "member"] None))).
  - repeat split; try (by left); left; by eauto.
  - intros m' [= <-] id1 id2 r1 r2 H1 H2 R1 R2 Hr.
    repeat (apply elem_of_cons in H1 as [->|H1] || apply elem_of_nil in H1 as []);
      repeat (apply elem_of_cons in H2 as [->|H2] || apply elem_of_nil in H2 as []); try done;
      vm_compute in R1, R2; simplify_eq; discriminate.
Defined.

(** Two roles of equal rank that contradict each other on [SendMessage]. *)
Definition tied_roles : gmap string Role :=
  {[ "a" := Example.role "a" 2 ChannelPermission.SendMessage 0;
     "b" := Example.role "b" 2 0 ChannelPermission.SendMessage ]}.

(** with two roles of equal rank the calculation is not determined by the
    data: two iteration orders of the same role map give different answers to
    whether the member may send messages. *)
Theorem tied_ranks_order_dependent :
  exists p1 p2,
    fst (db_calculate_channel_permissions (H := Example.empty_db) (H0 := hash_order_canonical) 0
           (Example.query tied_roles (Some (Example.member ["a"; "b"] None)))) = Ok p1 /\
    fst (db_calculate_channel_permissions (H := Example.empty_db) (H0 := hash_order_reversed) 0
           (Example.query tied_roles (Some (Example.member ["a"; "b"] None)))) = Ok p2 /\
    has_channel_permission p1 ChannelPermission.SendMessage
    <> has_channel_permission p2 ChannelPermission.SendMessage.
Proof.
  eexists _, _. split; [vm_compute; reflexivity|]. split; [vm_compute; reflexivity|].
  vm_compute. discriminate.
Qed.
