(* ===== verification/BulkPermissions.v ===== *)
(** * Bulk permission queries
    ([crates/core/database/src/util/bulk_permissions.rs])

    The calculation the notification daemon uses to find which members can see
    a channel: a second, independent implementation of the channel permissions,
    over a whole list of users.  It agrees with the per-user calculation on the
    visibility of the channel. *)

From S2P Require Import Prelude Results Permissions PermissionCalc Models DbPermissions PermissionSpec RolePrecedence.

Record BulkDatabasePermissionQuery (D : Type) := {
  bq_database : D;
  bq_server : Server;
  bq_channel : option Channel;
  bq_users : option (list User);
  bq_members : option (list Member);
  bq_cached_users : option (list User);
  bq_cached_members : option (list Member);
  bq_cached_member_perms : option (gmap string PermissionValue) }.
Arguments bq_database {D}.
Arguments bq_server {D}.
Arguments bq_channel {D}.
Arguments bq_users {D}.
Arguments bq_members {D}.
Arguments bq_cached_users {D}.
Arguments bq_cached_members {D}.
Arguments bq_cached_member_perms {D}.

(** [new], [channel], [members] and [users]. *)
Definition Bulk_new {D} (database : D) (server : Server) : BulkDatabasePermissionQuery D :=
  {| bq_database := database; bq_server := server; bq_channel := None; bq_users := None;
     bq_members := None; bq_cached_users := None; bq_cached_members := None;
     bq_cached_member_perms := None |}.
Definition bulk_channel {D} (q : BulkDatabasePermissionQuery D) (channel : Channel) :=
  {| bq_database := bq_database q; bq_server := bq_server q; bq_channel := Some channel;
     bq_users := bq_users q; bq_members := bq_members q; bq_cached_users := bq_cached_users q;
     bq_cached_members := bq_cached_members q;
     bq_cached_member_perms := bq_cached_member_perms q |}.
Definition bulk_members {D} (q : BulkDatabasePermissionQuery D) (members : list Member) :=
  {| bq_database := bq_database q; bq_server := bq_server q; bq_channel := bq_channel q;
     bq_users := None; bq_members := Some members; bq_cached_users := None;
     bq_cached_members := None; bq_cached_member_perms := None |}.
Definition bulk_users {D} (q : BulkDatabasePermissionQuery D) (users : list User) :=
  {| bq_database := bq_database q; bq_server := bq_server q; bq_channel := bq_channel q;
     bq_users := Some users; bq_members := None; bq_cached_users := None;
     bq_cached_members := None; bq_cached_member_perms := None |}.
Definition bulk_set_users {D} (us : list User) (q : BulkDatabasePermissionQuery D) :=
  {| bq_database := bq_database q; bq_server := bq_server q; bq_channel := bq_channel q;
     bq_users := Some us; bq_members := bq_members q; bq_cached_users := Some us;
     bq_cached_members := bq_cached_members q;
     bq_cached_member_perms := bq_cached_member_perms q |}.
Definition bulk_set_members {D} (ms : list Member) (q : BulkDatabasePermissionQuery D) :=
  {| bq_database := bq_database q; bq_server := bq_server q; bq_channel := bq_channel q;
     bq_users := bq_users q; bq_members := Some ms; bq_cached_users := bq_cached_users q;
     bq_cached_members := Some ms; bq_cached_member_perms := bq_cached_member_perms q |}.

(** [expect]: a missing value, or an error, panics. *)
Definition expect_some {S A} (o : option A) : M ErrorType S A :=
  match o with Some x => mret x | None => panic end.
Definition expect_ok {S A} (o : Result A) : M ErrorType S A :=
  match o with Ok x => mret x | _ => panic end.

(** [from_server_id] and [from_channel_id] fetch and panic on an error. *)
Definition from_server_id {D} `{PermissionDatabase D} (db : D) (server : string)
    : Result (BulkDatabasePermissionQuery D) :=
  match fetch_server db server with Ok s => Ok (Bulk_new db s) | _ => Panicked end.
Definition from_channel_id {D} `{PermissionDatabase D} (q : BulkDatabasePermissionQuery D)
    (channel_id : string) : Result (BulkDatabasePermissionQuery D) :=
  match fetch_channel (bq_database q) channel_id with
  | Ok channel => Ok (bulk_channel q channel)
  | _ => Panicked
  end.

Section Bulk.
Context {D : Type} `{PermissionDatabase D} `{HO : HashOrder} (now : Timestamp).
Local Abbreviation Bm := (M ErrorType (BulkDatabasePermissionQuery D)).

(** [calculate_server_permissions] of this file. *)
Definition bulk_calculate_server_permissions (server : Server) (user : User) (member : Member)
    : PermissionValue :=
  if u_privileged user || bool_decide (s_owner server = u_id user)
  then PV ChannelPermission.GrantAllSafe
  else
    let permissions := apply_overrides (PermissionValue_from_i64 (s_default_permissions server))
                         (server_role_overrides server (m_roles member)) in
    if in_timeout now member then pv_restrict permissions ALLOW_IN_TIMEOUT else permissions.

(** One iteration of the loop over the users. *)
Definition bulk_user_permissions (server : Server) (role_permissions : gmap string OverrideField)
    (default_permissions : option OverrideField) (members : gmap string Member) (user : User)
    : PermissionValue :=
  match members !! u_id user with
  | None => PV 0
  | Some member =>
      if u_privileged user then PV ChannelPermission.GrantAllSafe
      else if bool_decide (u_id user = s_owner server) then PV ChannelPermission.GrantAllSafe
      else
        let permission := bulk_calculate_server_permissions server user member in
        let permission :=
          match default_permissions with
          | Some defaults => pv_apply permission (Override_from defaults)
          | None => permission
          end in
        apply_overrides permission
          (channel_role_overrides role_permissions server (m_roles member))
  end.

(** [HashMap::from_iter]: a later entry replaces an earlier one. *)
Definition members_by_user (ms : list Member) : gmap string Member :=
  foldl (fun acc m => <[mk_user (m_id m) := m]> acc) ∅ ms.

Definition calculate_members_permissions : Bm (gmap string PermissionValue) :=
  q ← get;
  channel ← expect_some (bq_channel q);
  match channel with
  | Channel.TextChannel t =>
      (if bool_decide (bq_users q = None) then
         members ← expect_some (bq_members q);
         users ← expect_ok (fetch_users (bq_database q) ((fun m => mk_user (m_id m)) <$> members));
         modify (bulk_set_users users)
       else mret tt);;
      q ← get;
      users ← expect_some (bq_users q);
      (if bool_decide (bq_members q = None) then
         members ← expect_ok (fetch_members (bq_database q) (s_id (bq_server q)) (u_id <$> users));
         modify (bulk_set_members members)
       else mret tt);;
      q ← get;
      member_list ← expect_some (bq_members q);
      let members := members_by_user member_list in
      mret (foldl (fun resp user =>
        <[u_id user := bulk_user_permissions (bq_server q) (t_role_permissions t)
                         (t_default_permissions t) members user]> resp) ∅ users)
  | _ => panic
  end.

Definition members_can_see_channel : Bm (gmap string bool) :=
  q ← get;
  perms ← (match bq_cached_member_perms q with
           | Some perms => mret perms
           | None => calculate_members_permissions
           end);
  mret ((fun p => has_channel_permission p ChannelPermission.ViewChannel) <$> perms).
End Bulk.

(** ** Agreement with the per-user calculation *)

Lemma foldl_insert_lookup {A V} (key : A -> string) (f : A -> V) (l : list A) (acc : gmap string V) x :
  x ∈ l -> (forall y, y ∈ l -> key y = key x -> y = x) ->
  foldl (fun resp y => <[key y := f y]> resp) acc l !! key x = Some (f x).
Proof.
  induction l as [|y l IH] using rev_ind; intros Hx Huniq; [by apply elem_of_nil in Hx|].
  rewrite foldl_app. simpl. destruct (decide (key y = key x)) as [E|E].
  - rewrite (Huniq y) by (done || apply elem_of_app; right; left). apply lookup_insert_eq.
  - rewrite lookup_insert_ne by done. apply elem_of_app in Hx as [Hx|Hx].
    + apply IH; [done|]. intros z Hz. apply Huniq, elem_of_app. by left.
    + apply list_elem_of_singleton in Hx as ->. done.
Qed.

(** The bits the two calculations treat differently. *)
Lemma view_bit_of_revokes p : 
  pbit (pv_revoke (pv_revoke p ChannelPermission.Speak) ChannelPermission.Video) 20 = pbit p 20 /\
  pbit (pv_revoke p ChannelPermission.Listen) 20 = pbit p 20 /\
  pbit (pv_restrict p ALLOW_IN_TIMEOUT) 20 = pbit p 20.
Proof.
  rewrite !pv_revoke_bit, pv_restrict_bit by lia.
  change (Z.testbit ChannelPermission.Speak 20) with false.
  change (Z.testbit ChannelPermission.Video 20) with false.
  change (Z.testbit ChannelPermission.Listen 20) with false.
  change (Z.testbit ALLOW_IN_TIMEOUT 20) with true. by rewrite !andb_true_r.
Qed.

Lemma apply_overrides_bit_cong p p' os b :
  0 <= b < 64 -> pbit p b = pbit p' b -> pbit (apply_overrides p os) b = pbit (apply_overrides p' os) b.
Proof. intros Hb E. rewrite !apply_overrides_bits by done. by rewrite E. Qed.

Lemma pv_apply_default_bit p b : 0 <= b < 64 -> pbit (pv_apply p (Override_from OverrideField_default)) b = pbit p b.
Proof.
  intros Hb. rewrite pv_apply_bit by done. simpl. rewrite Z.bits_0. by rewrite orb_false_r, andb_true_r.
Qed.

Section Agreement.
Context (HO1 HO2 : HashOrder) (now : Timestamp).

Lemma server_permissions_view_bit s u m :
  distinct_ranks s (m_roles m) -> u_privileged u = false -> s_owner s <> u_id u ->
  pbit (bulk_calculate_server_permissions (HO := HO1) now s u m) 20 =
  pbit (member_server_permissions (H := HO2) now s m) 20.
Proof.
  intros Hd Hp Ho. unfold bulk_calculate_server_permissions, member_server_permissions.
  rewrite Hp, bool_decide_eq_false_2 by done. cbn [orb].
  rewrite (server_role_overrides_orders HO1 HO2) by done.
  unfold PermissionValue_from_i64.
  generalize (apply_overrides (PV (as_u64 (s_default_permissions s)))
                (server_role_overrides (H := HO2) s (m_roles m))) as p. intros p.
  pose proof (view_bit_of_revokes p) as (H1 & H2 & H3).
  pose proof (view_bit_of_revokes
    (pv_revoke (pv_revoke p ChannelPermission.Speak) ChannelPermission.Video)) as (_ & H4 & H5).
  pose proof (view_bit_of_revokes (pv_revoke p ChannelPermission.Listen)) as (_ & _ & H6).
  pose proof (view_bit_of_revokes (pv_revoke (pv_revoke (pv_revoke p ChannelPermission.Speak)
    ChannelPermission.Video) ChannelPermission.Listen)) as (_ & _ & H7).
  destruct (m_can_publish m), (m_can_receive m), (in_timeout now m); congruence.
Qed.

Lemma user_permissions_view_bit s u m t ms :
  ms !! u_id u = Some m -> distinct_ranks s (m_roles m) ->
  has_channel_permission
    (bulk_user_permissions (HO := HO1) now s (t_role_permissions t) (t_default_permissions t) ms u)
    ChannelPermission.ViewChannel =
  has_channel_permission (text_channel_permissions (H := HO2) now u s (Some m) t)
    ChannelPermission.ViewChannel.
Proof.
  intros Hm Hd. unfold bulk_user_permissions, text_channel_permissions. rewrite Hm.
  destruct (u_privileged u) eqn:Hp; [done|].
  destruct (decide (s_owner s = u_id u)) as [E|E].
  { by rewrite !bool_decide_eq_true_2 by done. }
  rewrite !bool_decide_eq_false_2 by congruence.
  unfold member_channel_permissions. cbv zeta.
  rewrite (channel_role_overrides_orders HO1 HO2) by done.
  set (p2 := apply_overrides (pv_apply (member_server_permissions (H := HO2) now s m) _) _).
  assert (pbit (if in_timeout now m then pv_restrict p2 ALLOW_IN_TIMEOUT else p2) 20 = pbit p2 20) as E2.
  { destruct (in_timeout now m); [|done]. apply view_bit_of_revokes. }
  rewrite !view_channel_bit. rewrite E2.
  transitivity (pbit p2 20).
  - subst p2. apply apply_overrides_bit_cong; [lia|].
    pose proof (server_permissions_view_bit s u m Hd Hp E) as E3.
    destruct (t_default_permissions t).
    + rewrite !pv_apply_bit by lia. by rewrite E3.
    + rewrite E3. symmetry. apply pv_apply_default_bit. lia.
  - destruct (pbit p2 20); [by rewrite E2|done].
Qed.
End Agreement.

(** The lists of users and members the bulk query holds or fetches. *)
Definition bulk_loaded {D} `{PermissionDatabase D} (q : BulkDatabasePermissionQuery D)
    (us : list User) (ms : list Member) : Prop :=
  (bq_users q = Some us \/
   bq_users q = None /\ bq_members q = Some ms /\
   fetch_users (bq_database q) ((fun m => mk_user (m_id m)) <$> ms) = Ok us) /\
  (bq_members q = Some ms \/
   bq_members q = None /\ bq_users q = Some us /\
   fetch_members (bq_database q) (s_id (bq_server q)) (u_id <$> us) = Ok ms).

Lemma calculate_members_permissions_spec {D} `{PermissionDatabase D} `{HO : HashOrder} now
    (q : BulkDatabasePermissionQuery D) t us ms :
  bq_channel q = Some (Channel.TextChannel t) -> bulk_loaded q us ms ->
  fst (calculate_members_permissions now q) =
  Ok (foldl (fun resp user =>
        <[u_id user := bulk_user_permissions now (bq_server q) (t_role_permissions t)
                         (t_default_permissions t) (members_by_user ms) user]> resp) ∅ us).
Proof.
  intros Hc [Hu Hm]. unfold calculate_members_permissions, expect_some, expect_ok.
  run_M. rewrite Hc. simpl.
  destruct Hu as [Hu|(Hu & Hm' & Hf)].
  - rewrite Hu. simpl. rewrite Hu. simpl. destruct Hm as [Hm|(Hm & _ & Hf)].
    + rewrite Hm. simpl. rewrite Hm. reflexivity.
    + rewrite Hm. simpl. rewrite Hf. reflexivity.
  - rewrite Hu, Hm'. simpl. rewrite Hf. simpl. rewrite Hm'. simpl. rewrite Hm'. reflexivity.
Qed.

(** C29: the bulk query and the per-user query agree on who can see a server
    channel: for a listed user who is a member whose roles have distinct ranks,
    [members_can_see_channel] reports exactly whether the permissions
    calculated for that user alone contain [ViewChannel]; the two may iterate
    the role maps in different orders. *)
Theorem bulk_visibility_agrees (HO1 HO2 : HashOrder) {D} `{PermissionDatabase D} (now : Timestamp)
    (bq : BulkDatabasePermissionQuery D) (q : DatabasePermissionQuery D) (t : TextChannel)
    (us : list User) (ms : list Member) (m : Member)
    (Hc : bq_channel bq = Some (Channel.TextChannel t)) (Hl : bulk_loaded bq us ms)
    (Hnc : bq_cached_member_perms bq = None)
    (Hin : q_perspective q ∈ us)
    (Huniq : forall v, v ∈ us -> u_id v = u_id (q_perspective q) -> v = q_perspective q)
    (Hm : members_by_user ms !! u_id (q_perspective q) = Some m)
    (Hd : distinct_ranks (bq_server bq) (m_roles m))
    (Hq : serves q t (bq_server bq) (Some m)) :
  exists visible p,
    fst (members_can_see_channel (HO := HO1) now bq) = Ok visible /\
    fst (db_calculate_channel_permissions (H0 := HO2) now q) = Ok p /\
    visible !! u_id (q_perspective q) =
      Some (has_channel_permission p ChannelPermission.ViewChannel).
Proof.
  pose proof (calculate_members_permissions_spec (HO := HO1) now bq t us ms Hc Hl) as E.
  destruct (calculate_members_permissions now bq) as [o bq'] eqn:Eo. simpl in E. subst o.
  eexists _, _. split.
  - unfold members_can_see_channel. rewrite (M_bind_ok _ _ bq bq bq) by done. rewrite Hnc.
    rewrite (M_bind_ok _ _ _ _ _ Eo). reflexivity.
  - split; [by apply calculate_channel_permissions_spec|].
    rewrite lookup_fmap, foldl_insert_lookup by done. simpl. f_equal.
    by apply user_permissions_view_bit.
Qed.

Lemma bulk_visibility_agrees_witness :
  exists visible p,
    fst (members_can_see_channel (H := Example.empty_db) (HO := hash_order_canonical) 0
      {| bq_database := tt; bq_server := Example.server Example.two_roles;
         bq_channel := Some (Channel.TextChannel Example.channel);
         bq_users := Some [Example.user "member"];
         bq_members := Some [Example.member ["mod"] None];
         bq_cached_users := None; bq_cached_members := None; bq_cached_member_perms := None |})
    = Ok visible /\
    fst (db_calculate_channel_permissions (H := Example.empty_db) (H0 := hash_order_reversed) 0
      (Example.query Example.two_roles (Some (Example.member ["mod"] None)))) = Ok p /\
    visible !! "member"%string = Some (has_channel_permission p ChannelPermission.ViewChannel).
Proof.
  apply (bulk_visibility_agrees hash_order_canonical hash_order_reversed (H := Example.empty_db) 0
    {| bq_database := tt; bq_server := Example.server Example.two_roles;
       bq_channel := Some (Channel.TextChannel Example.channel);
       bq_users := Some [Example.user "member"];
       bq_members := Some [Example.member ["mod"] None];
       bq_cached_users := None; bq_cached_members := None; bq_cached_member_perms := None |}
    (Example.query Example.two_roles (Some (Example.member ["mod"] None))) Example.channel
    [Example.user "member"] [Example.member ["mod"] None] (Example.member ["mod"] None));
    try reflexivity.
  - split; by left.
  - by left.
  - by intros v ->%list_elem_of_singleton.
  - intros id1 id2 r1 r2 ->%list_elem_of_singleton ->%list_elem_of_singleton. done.
  - repeat split; try (by left); left; by eauto.
Defined.
