(* ===== verification/ReferenceDb.v ===== *)
(** * The reference database
    ([crates/core/database/src/drivers/reference.rs] and the
    [ops/reference.rs] of users, servers, server members, bans, channels, bots,
    emoji, invites, attachments and rate limit events)

    The in-memory implementation of the database traits: one [HashMap] per
    collection behind a mutex.  Every method takes the lock of its collection
    for its whole body, so a method is one atomic function of the database.
    [todo!()] and [panic!] are [Panicked]; [apply_options] of the generated
    structures is the parameter [OptionalStruct]; [now] is the clock reading of
    [Member::in_timeout]. *)

From S2P Require Import Prelude Results Permissions Models ModelOps DbPermissions ApiTypes Records.

(** The collections of the database the modelled methods use. *)
Record ReferenceDb := {
  db_bot_commands : gmap string BotCommand;
  db_bots : gmap string Bot;
  db_channels : gmap string Channel;
  db_channel_invites : gmap string Invite;
  db_channel_unreads : gmap ChannelCompositeKey ChannelUnread;
  db_channel_webhooks : gmap string Webhook;
  db_emojis : gmap string Emoji;
  db_file_hashes : gmap string FileHash;
  db_files : gmap string File;
  db_messages : gmap string Message;
  db_policy_changes : gmap string PolicyChange;
  db_ratelimit_events : gmap string RatelimitEvent;
  db_user_settings : gmap string UserSettings;
  db_users : gmap string User;
  db_server_bans : gmap MemberCompositeKey ServerBan;
  db_server_members : gmap MemberCompositeKey Member;
  db_servers : gmap string Server;
  db_safety_reports : gmap string Report;
  db_safety_snapshots : gmap string Snapshot;
  db_audit_log : gmap string AuditLogEntry;
  db_encrypted_channel_invitations : gmap string EncryptedChannelInvitation;
  db_channel_encryption_keys : gmap string string }.

Definition ReferenceDb_default : ReferenceDb :=
  {| db_bot_commands := ∅;
     db_bots := ∅;
     db_channels := ∅;
     db_channel_invites := ∅;
     db_channel_unreads := ∅;
     db_channel_webhooks := ∅;
     db_emojis := ∅;
     db_file_hashes := ∅;
     db_files := ∅;
     db_messages := ∅;
     db_policy_changes := ∅;
     db_ratelimit_events := ∅;
     db_user_settings := ∅;
     db_users := ∅;
     db_server_bans := ∅;
     db_server_members := ∅;
     db_servers := ∅;
     db_safety_reports := ∅;
     db_safety_snapshots := ∅;
     db_audit_log := ∅;
     db_encrypted_channel_invitations := ∅;
     db_channel_encryption_keys := ∅ |}.

(** The database with one of its collections replaced. *)
Definition set_bot_commands (x : gmap string BotCommand) (d : ReferenceDb) : ReferenceDb :=
  {| db_bot_commands := x; db_bots := db_bots d; db_channels := db_channels d;
     db_channel_invites := db_channel_invites d; db_channel_unreads := db_channel_unreads d;
     db_channel_webhooks := db_channel_webhooks d; db_emojis := db_emojis d;
     db_file_hashes := db_file_hashes d; db_files := db_files d; db_messages := db_messages d;
     db_policy_changes := db_policy_changes d; db_ratelimit_events := db_ratelimit_events d;
     db_user_settings := db_user_settings d; db_users := db_users d;
     db_server_bans := db_server_bans d; db_server_members := db_server_members d;
     db_servers := db_servers d; db_safety_reports := db_safety_reports d;
     db_safety_snapshots := db_safety_snapshots d; db_audit_log := db_audit_log d;
     db_encrypted_channel_invitations := db_encrypted_channel_invitations d;
     db_channel_encryption_keys := db_channel_encryption_keys d |}.
Definition set_bots (x : gmap string Bot) (d : ReferenceDb) : ReferenceDb :=
  {| db_bot_commands := db_bot_commands d; db_bots := x; db_channels := db_channels d;
     db_channel_invites := db_channel_invites d; db_channel_unreads := db_channel_unreads d;
     db_channel_webhooks := db_channel_webhooks d; db_emojis := db_emojis d;
     db_file_hashes := db_file_hashes d; db_files := db_files d; db_messages := db_messages d;
     db_policy_changes := db_policy_changes d; db_ratelimit_events := db_ratelimit_events d;
     db_user_settings := db_user_settings d; db_users := db_users d;
     db_server_bans := db_server_bans d; db_server_members := db_server_members d;
     db_servers := db_servers d; db_safety_reports := db_safety_reports d;
     db_safety_snapshots := db_safety_snapshots d; db_audit_log := db_audit_log d;
     db_encrypted_channel_invitations := db_encrypted_channel_invitations d;
     db_channel_encryption_keys := db_channel_encryption_keys d |}.
Definition set_channels (x : gmap string Channel) (d : ReferenceDb) : ReferenceDb :=
  {| db_bot_commands := db_bot_commands d; db_bots := db_bots d; db_channels := x;
     db_channel_invites := db_channel_invites d; db_channel_unreads := db_channel_unreads d;
     db_channel_webhooks := db_channel_webhooks d; db_emojis := db_emojis d;
     db_file_hashes := db_file_hashes d; db_files := db_files d; db_messages := db_messages d;
     db_policy_changes := db_policy_changes d; db_ratelimit_events := db_ratelimit_events d;
     db_user_settings := db_user_settings d; db_users := db_users d;
     db_server_bans := db_server_bans d; db_server_members := db_server_members d;
     db_servers := db_servers d; db_safety_reports := db_safety_reports d;
     db_safety_snapshots := db_safety_snapshots d; db_audit_log := db_audit_log d;
     db_encrypted_channel_invitations := db_encrypted_channel_invitations d;
     db_channel_encryption_keys := db_channel_encryption_keys d |}.
Definition set_channel_invites (x : gmap string Invite) (d : ReferenceDb) : ReferenceDb :=
  {| db_bot_commands := db_bot_commands d; db_bots := db_bots d; db_channels := db_channels d;
     db_channel_invites := x; db_channel_unreads := db_channel_unreads d;
     db_channel_webhooks := db_channel_webhooks d; db_emojis := db_emojis d;
     db_file_hashes := db_file_hashes d; db_files := db_files d; db_messages := db_messages d;
     db_policy_changes := db_policy_changes d; db_ratelimit_events := db_ratelimit_events d;
     db_user_settings := db_user_settings d; db_users := db_users d;
     db_server_bans := db_server_bans d; db_server_members := db_server_members d;
     db_servers := db_servers d; db_safety_reports := db_safety_reports d;
     db_safety_snapshots := db_safety_snapshots d; db_audit_log := db_audit_log d;
     db_encrypted_channel_invitations := db_encrypted_channel_invitations d;
     db_channel_encryption_keys := db_channel_encryption_keys d |}.
Definition set_channel_unreads (x : gmap ChannelCompositeKey ChannelUnread) (d : ReferenceDb) : ReferenceDb :=
  {| db_bot_commands := db_bot_commands d; db_bots := db_bots d; db_channels := db_channels d;
     db_channel_invites := db_channel_invites d; db_channel_unreads := x;
     db_channel_webhooks := db_channel_webhooks d; db_emojis := db_emojis d;
     db_file_hashes := db_file_hashes d; db_files := db_files d; db_messages := db_messages d;
     db_policy_changes := db_policy_changes d; db_ratelimit_events := db_ratelimit_events d;
     db_user_settings := db_user_settings d; db_users := db_users d;
     db_server_bans := db_server_bans d; db_server_members := db_server_members d;
     db_servers := db_servers d; db_safety_reports := db_safety_reports d;
     db_safety_snapshots := db_safety_snapshots d; db_audit_log := db_audit_log d;
     db_encrypted_channel_invitations := db_encrypted_channel_invitations d;
     db_channel_encryption_keys := db_channel_encryption_keys d |}.
Definition set_channel_webhooks (x : gmap string Webhook) (d : ReferenceDb) : ReferenceDb :=
  {| db_bot_commands := db_bot_commands d; db_bots := db_bots d; db_channels := db_channels d;
     db_channel_invites := db_channel_invites d; db_channel_unreads := db_channel_unreads d;
     db_channel_webhooks := x; db_emojis := db_emojis d; db_file_hashes := db_file_hashes d;
     db_files := db_files d; db_messages := db_messages d; db_policy_changes := db_policy_changes d;
     db_ratelimit_events := db_ratelimit_events d; db_user_settings := db_user_settings d;
     db_users := db_users d; db_server_bans := db_server_bans d;
     db_server_members := db_server_members d; db_servers := db_servers d;
     db_safety_reports := db_safety_reports d; db_safety_snapshots := db_safety_snapshots d;
     db_audit_log := db_audit_log d;
     db_encrypted_channel_invitations := db_encrypted_channel_invitations d;
     db_channel_encryption_keys := db_channel_encryption_keys d |}.
Definition set_emojis (x : gmap string Emoji) (d : ReferenceDb) : ReferenceDb :=
  {| db_bot_commands := db_bot_commands d; db_bots := db_bots d; db_channels := db_channels d;
     db_channel_invites := db_channel_invites d; db_channel_unreads := db_channel_unreads d;
     db_channel_webhooks := db_channel_webhooks d; db_emojis := x; db_file_hashes := db_file_hashes d;
     db_files := db_files d; db_messages := db_messages d; db_policy_changes := db_policy_changes d;
     db_ratelimit_events := db_ratelimit_events d; db_user_settings := db_user_settings d;
     db_users := db_users d; db_server_bans := db_server_bans d;
     db_server_members := db_server_members d; db_servers := db_servers d;
     db_safety_reports := db_safety_reports d; db_safety_snapshots := db_safety_snapshots d;
     db_audit_log := db_audit_log d;
     db_encrypted_channel_invitations := db_encrypted_channel_invitations d;
     db_channel_encryption_keys := db_channel_encryption_keys d |}.
Definition set_file_hashes (x : gmap string FileHash) (d : ReferenceDb) : ReferenceDb :=
  {| db_bot_commands := db_bot_commands d; db_bots := db_bots d; db_channels := db_channels d;
     db_channel_invites := db_channel_invites d; db_channel_unreads := db_channel_unreads d;
     db_channel_webhooks := db_channel_webhooks d; db_emojis := db_emojis d; db_file_hashes := x;
     db_files := db_files d; db_messages := db_messages d; db_policy_changes := db_policy_changes d;
     db_ratelimit_events := db_ratelimit_events d; db_user_settings := db_user_settings d;
     db_users := db_users d; db_server_bans := db_server_bans d;
     db_server_members := db_server_members d; db_servers := db_servers d;
     db_safety_reports := db_safety_reports d; db_safety_snapshots := db_safety_snapshots d;
     db_audit_log := db_audit_log d;
     db_encrypted_channel_invitations := db_encrypted_channel_invitations d;
     db_channel_encryption_keys := db_channel_encryption_keys d |}.
Definition set_files (x : gmap string File) (d : ReferenceDb) : ReferenceDb :=
  {| db_bot_commands := db_bot_commands d; db_bots := db_bots d; db_channels := db_channels d;
     db_channel_invites := db_channel_invites d; db_channel_unreads := db_channel_unreads d;
     db_channel_webhooks := db_channel_webhooks d; db_emojis := db_emojis d;
     db_file_hashes := db_file_hashes d; db_files := x; db_messages := db_messages d;
     db_policy_changes := db_policy_changes d; db_ratelimit_events := db_ratelimit_events d;
     db_user_settings := db_user_settings d; db_users := db_users d;
     db_server_bans := db_server_bans d; db_server_members := db_server_members d;
     db_servers := db_servers d; db_safety_reports := db_safety_reports d;
     db_safety_snapshots := db_safety_snapshots d; db_audit_log := db_audit_log d;
     db_encrypted_channel_invitations := db_encrypted_channel_invitations d;
     db_channel_encryption_keys := db_channel_encryption_keys d |}.
Definition set_messages (x : gmap string Message) (d : ReferenceDb) : ReferenceDb :=
  {| db_bot_commands := db_bot_commands d; db_bots := db_bots d; db_channels := db_channels d;
     db_channel_invites := db_channel_invites d; db_channel_unreads := db_channel_unreads d;
     db_channel_webhooks := db_channel_webhooks d; db_emojis := db_emojis d;
     db_file_hashes := db_file_hashes d; db_files := db_files d; db_messages := x;
     db_policy_changes := db_policy_changes d; db_ratelimit_events := db_ratelimit_events d;
     db_user_settings := db_user_settings d; db_users := db_users d;
     db_server_bans := db_server_bans d; db_server_members := db_server_members d;
     db_servers := db_servers d; db_safety_reports := db_safety_reports d;
     db_safety_snapshots := db_safety_snapshots d; db_audit_log := db_audit_log d;
     db_encrypted_channel_invitations := db_encrypted_channel_invitations d;
     db_channel_encryption_keys := db_channel_encryption_keys d |}.
Definition set_policy_changes (x : gmap string PolicyChange) (d : ReferenceDb) : ReferenceDb :=
  {| db_bot_commands := db_bot_commands d; db_bots := db_bots d; db_channels := db_channels d;
     db_channel_invites := db_channel_invites d; db_channel_unreads := db_channel_unreads d;
     db_channel_webhooks := db_channel_webhooks d; db_emojis := db_emojis d;
     db_file_hashes := db_file_hashes d; db_files := db_files d; db_messages := db_messages d;
     db_policy_changes := x; db_ratelimit_events := db_ratelimit_events d;
     db_user_settings := db_user_settings d; db_users := db_users d;
     db_server_bans := db_server_bans d; db_server_members := db_server_members d;
     db_servers := db_servers d; db_safety_reports := db_safety_reports d;
     db_safety_snapshots := db_safety_snapshots d; db_audit_log := db_audit_log d;
     db_encrypted_channel_invitations := db_encrypted_channel_invitations d;
     db_channel_encryption_keys := db_channel_encryption_keys d |}.
Definition set_ratelimit_events (x : gmap string RatelimitEvent) (d : ReferenceDb) : ReferenceDb :=
  {| db_bot_commands := db_bot_commands d; db_bots := db_bots d; db_channels := db_channels d;
     db_channel_invites := db_channel_invites d; db_channel_unreads := db_channel_unreads d;
     db_channel_webhooks := db_channel_webhooks d; db_emojis := db_emojis d;
     db_file_hashes := db_file_hashes d; db_files := db_files d; db_messages := db_messages d;
     db_policy_changes := db_policy_changes d; db_ratelimit_events := x;
     db_user_settings := db_user_settings d; db_users := db_users d;
     db_server_bans := db_server_bans d; db_server_members := db_server_members d;
     db_servers := db_servers d; db_safety_reports := db_safety_reports d;
     db_safety_snapshots := db_safety_snapshots d; db_audit_log := db_audit_log d;
     db_encrypted_channel_invitations := db_encrypted_channel_invitations d;
     db_channel_encryption_keys := db_channel_encryption_keys d |}.
Definition set_user_settings (x : gmap string UserSettings) (d : ReferenceDb) : ReferenceDb :=
  {| db_bot_commands := db_bot_commands d; db_bots := db_bots d; db_channels := db_channels d;
     db_channel_invites := db_channel_invites d; db_channel_unreads := db_channel_unreads d;
     db_channel_webhooks := db_channel_webhooks d; db_emojis := db_emojis d;
     db_file_hashes := db_file_hashes d; db_files := db_files d; db_messages := db_messages d;
     db_policy_changes := db_policy_changes d; db_ratelimit_events := db_ratelimit_events d;
     db_user_settings := x; db_users := db_users d; db_server_bans := db_server_bans d;
     db_server_members := db_server_members d; db_servers := db_servers d;
     db_safety_reports := db_safety_reports d; db_safety_snapshots := db_safety_snapshots d;
     db_audit_log := db_audit_log d;
     db_encrypted_channel_invitations := db_encrypted_channel_invitations d;
     db_channel_encryption_keys := db_channel_encryption_keys d |}.
Definition set_users (x : gmap string User) (d : ReferenceDb) : ReferenceDb :=
  {| db_bot_commands := db_bot_commands d; db_bots := db_bots d; db_channels := db_channels d;
     db_channel_invites := db_channel_invites d; db_channel_unreads := db_channel_unreads d;
     db_channel_webhooks := db_channel_webhooks d; db_emojis := db_emojis d;
     db_file_hashes := db_file_hashes d; db_files := db_files d; db_messages := db_messages d;
     db_policy_changes := db_policy_changes d; db_ratelimit_events := db_ratelimit_events d;
     db_user_settings := db_user_settings d; db_users := x; db_server_bans := db_server_bans d;
     db_server_members := db_server_members d; db_servers := db_servers d;
     db_safety_reports := db_safety_reports d; db_safety_snapshots := db_safety_snapshots d;
     db_audit_log := db_audit_log d;
     db_encrypted_channel_invitations := db_encrypted_channel_invitations d;
     db_channel_encryption_keys := db_channel_encryption_keys d |}.
Definition set_server_bans (x : gmap MemberCompositeKey ServerBan) (d : ReferenceDb) : ReferenceDb :=
  {| db_bot_commands := db_bot_commands d; db_bots := db_bots d; db_channels := db_channels d;
     db_channel_invites := db_channel_invites d; db_channel_unreads := db_channel_unreads d;
     db_channel_webhooks := db_channel_webhooks d; db_emojis := db_emojis d;
     db_file_hashes := db_file_hashes d; db_files := db_files d; db_messages := db_messages d;
     db_policy_changes := db_policy_changes d; db_ratelimit_events := db_ratelimit_events d;
     db_user_settings := db_user_settings d; db_users := db_users d; db_server_bans := x;
     db_server_members := db_server_members d; db_servers := db_servers d;
     db_safety_reports := db_safety_reports d; db_safety_snapshots := db_safety_snapshots d;
     db_audit_log := db_audit_log d;
     db_encrypted_channel_invitations := db_encrypted_channel_invitations d;
     db_channel_encryption_keys := db_channel_encryption_keys d |}.
Definition set_server_members (x : gmap MemberCompositeKey Member) (d : ReferenceDb) : ReferenceDb :=
  {| db_bot_commands := db_bot_commands d; db_bots := db_bots d; db_channels := db_channels d;
     db_channel_invites := db_channel_invites d; db_channel_unreads := db_channel_unreads d;
     db_channel_webhooks := db_channel_webhooks d; db_emojis := db_emojis d;
     db_file_hashes := db_file_hashes d; db_files := db_files d; db_messages := db_messages d;
     db_policy_changes := db_policy_changes d; db_ratelimit_events := db_ratelimit_events d;
     db_user_settings := db_user_settings d; db_users := db_users d;
     db_server_bans := db_server_bans d; db_server_members := x; db_servers := db_servers d;
     db_safety_reports := db_safety_reports d; db_safety_snapshots := db_safety_snapshots d;
     db_audit_log := db_audit_log d;
     db_encrypted_channel_invitations := db_encrypted_channel_invitations d;
     db_channel_encryption_keys := db_channel_encryption_keys d |}.
Definition set_servers (x : gmap string Server) (d : ReferenceDb) : ReferenceDb :=
  {| db_bot_commands := db_bot_commands d; db_bots := db_bots d; db_channels := db_channels d;
     db_channel_invites := db_channel_invites d; db_channel_unreads := db_channel_unreads d;
     db_channel_webhooks := db_channel_webhooks d; db_emojis := db_emojis d;
     db_file_hashes := db_file_hashes d; db_files := db_files d; db_messages := db_messages d;
     db_policy_changes := db_policy_changes d; db_ratelimit_events := db_ratelimit_events d;
     db_user_settings := db_user_settings d; db_users := db_users d;
     db_server_bans := db_server_bans d; db_server_members := db_server_members d; db_servers := x;
     db_safety_reports := db_safety_reports d; db_safety_snapshots := db_safety_snapshots d;
     db_audit_log := db_audit_log d;
     db_encrypted_channel_invitations := db_encrypted_channel_invitations d;
     db_channel_encryption_keys := db_channel_encryption_keys d |}.
Definition set_safety_reports (x : gmap string Report) (d : ReferenceDb) : ReferenceDb :=
  {| db_bot_commands := db_bot_commands d; db_bots := db_bots d; db_channels := db_channels d;
     db_channel_invites := db_channel_invites d; db_channel_unreads := db_channel_unreads d;
     db_channel_webhooks := db_channel_webhooks d; db_emojis := db_emojis d;
     db_file_hashes := db_file_hashes d; db_files := db_files d; db_messages := db_messages d;
     db_policy_changes := db_policy_changes d; db_ratelimit_events := db_ratelimit_events d;
     db_user_settings := db_user_settings d; db_users := db_users d;
     db_server_bans := db_server_bans d; db_server_members := db_server_members d;
     db_servers := db_servers d; db_safety_reports := x; db_safety_snapshots := db_safety_snapshots d;
     db_audit_log := db_audit_log d;
     db_encrypted_channel_invitations := db_encrypted_channel_invitations d;
     db_channel_encryption_keys := db_channel_encryption_keys d |}.
Definition set_safety_snapshots (x : gmap string Snapshot) (d : ReferenceDb) : ReferenceDb :=
  {| db_bot_commands := db_bot_commands d; db_bots := db_bots d; db_channels := db_channels d;
     db_channel_invites := db_channel_invites d; db_channel_unreads := db_channel_unreads d;
     db_channel_webhooks := db_channel_webhooks d; db_emojis := db_emojis d;
     db_file_hashes := db_file_hashes d; db_files := db_files d; db_messages := db_messages d;
     db_policy_changes := db_policy_changes d; db_ratelimit_events := db_ratelimit_events d;
     db_user_settings := db_user_settings d; db_users := db_users d;
     db_server_bans := db_server_bans d; db_server_members := db_server_members d;
     db_servers := db_servers d; db_safety_reports := db_safety_reports d; db_safety_snapshots := x;
     db_audit_log := db_audit_log d;
     db_encrypted_channel_invitations := db_encrypted_channel_invitations d;
     db_channel_encryption_keys := db_channel_encryption_keys d |}.
Definition set_audit_log (x : gmap string AuditLogEntry) (d : ReferenceDb) : ReferenceDb :=
  {| db_bot_commands := db_bot_commands d; db_bots := db_bots d; db_channels := db_channels d;
     db_channel_invites := db_channel_invites d; db_channel_unreads := db_channel_unreads d;
     db_channel_webhooks := db_channel_webhooks d; db_emojis := db_emojis d;
     db_file_hashes := db_file_hashes d; db_files := db_files d; db_messages := db_messages d;
     db_policy_changes := db_policy_changes d; db_ratelimit_events := db_ratelimit_events d;
     db_user_settings := db_user_settings d; db_users := db_users d;
     db_server_bans := db_server_bans d; db_server_members := db_server_members d;
     db_servers := db_servers d; db_safety_reports := db_safety_reports d;
     db_safety_snapshots := db_safety_snapshots d; db_audit_log := x;
     db_encrypted_channel_invitations := db_encrypted_channel_invitations d;
     db_channel_encryption_keys := db_channel_encryption_keys d |}.
Definition set_encrypted_channel_invitations (x : gmap string EncryptedChannelInvitation) (d : ReferenceDb) : ReferenceDb :=
  {| db_bot_commands := db_bot_commands d; db_bots := db_bots d; db_channels := db_channels d;
     db_channel_invites := db_channel_invites d; db_channel_unreads := db_channel_unreads d;
     db_channel_webhooks := db_channel_webhooks d; db_emojis := db_emojis d;
     db_file_hashes := db_file_hashes d; db_files := db_files d; db_messages := db_messages d;
     db_policy_changes := db_policy_changes d; db_ratelimit_events := db_ratelimit_events d;
     db_user_settings := db_user_settings d; db_users := db_users d;
     db_server_bans := db_server_bans d; db_server_members := db_server_members d;
     db_servers := db_servers d; db_safety_reports := db_safety_reports d;
     db_safety_snapshots := db_safety_snapshots d; db_audit_log := db_audit_log d;
     db_encrypted_channel_invitations := x;
     db_channel_encryption_keys := db_channel_encryption_keys d |}.
Definition set_channel_encryption_keys (x : gmap string string) (d : ReferenceDb) : ReferenceDb :=
  {| db_bot_commands := db_bot_commands d; db_bots := db_bots d; db_channels := db_channels d;
     db_channel_invites := db_channel_invites d; db_channel_unreads := db_channel_unreads d;
     db_channel_webhooks := db_channel_webhooks d; db_emojis := db_emojis d;
     db_file_hashes := db_file_hashes d; db_files := db_files d; db_messages := db_messages d;
     db_policy_changes := db_policy_changes d; db_ratelimit_events := db_ratelimit_events d;
     db_user_settings := db_user_settings d; db_users := db_users d;
     db_server_bans := db_server_bans d; db_server_members := db_server_members d;
     db_servers := db_servers d; db_safety_reports := db_safety_reports d;
     db_safety_snapshots := db_safety_snapshots d; db_audit_log := db_audit_log d;
     db_encrypted_channel_invitations := db_encrypted_channel_invitations d;
     db_channel_encryption_keys := x |}.

Definition member_key (server user : string) : MemberCompositeKey :=
  {| mk_server := server; mk_user := user |}.

(** ** The patterns the methods share, over a collection given by its
    projection and its update. *)
Section Tables.
Context {K V : Type} `{Countable K}.
Variable tab : ReferenceDb -> gmap K V.
Variable set_tab : gmap K V -> ReferenceDb -> ReferenceDb.

(** [if map.contains_key(k) { Err(..) } else { map.insert(k, v); Ok(()) }] *)
Definition insert_new (e : ErrorType) (k : K) (v : V) : M ErrorType ReferenceDb unit := fun d =>
  match tab d !! k with
  | Some _ => (Err e, d)
  | None => (Ok tt, set_tab (<[k := v]> (tab d)) d)
  end.

(** [map.get(k).cloned().ok_or_else(..)] *)
Definition get_or (e : ErrorType) (k : K) (d : ReferenceDb) : Result V := ok_or e (tab d !! k).

(** [ids.iter().map(|id| map.get(id).cloned().ok_or(NotFound)).collect()] *)
Fixpoint get_all (e : ErrorType) (ks : list K) (d : ReferenceDb) : Result (list V) :=
  match ks with
  | [] => Ok []
  | k :: ks => v ← get_or e k d; vs ← get_all e ks d; Ok (v :: vs)
  end.

(** [if let Some(x) = map.get_mut(k) { body(x) } else { Err(e) }], the body
    leaving the entry as it is when it fails *)
Definition with_mut (e : ErrorType) (k : K) (body : V -> Result V) : M ErrorType ReferenceDb unit :=
  fun d =>
  match tab d !! k with
  | Some v =>
      match body v with
      | Ok v' => (Ok tt, set_tab (<[k := v']> (tab d)) d)
      | Err e' => (Err e', d)
      | Panicked => (Panicked, d)
      end
  | None => (Err e, d)
  end.

(** [if map.remove(k).is_some() { Ok(()) } else { Err(e) }] *)
Definition remove_or (e : ErrorType) (k : K) : M ErrorType ReferenceDb unit := fun d =>
  match tab d !! k with
  | Some _ => (Ok tt, set_tab (delete k (tab d)) d)
  | None => (Err e, d)
  end.
End Tables.

Module Ref.
Section Methods.
Context `{HashOrder} `{OptionalStruct Server PartialServer} `{OptionalStruct Role PartialRole}.
Context `{OptionalStruct Member PartialMember} `{OptionalStruct User PartialUser}.
Context `{OptionalStruct Bot PartialBot}.
Local Abbreviation Db := (M ErrorType ReferenceDb).

(** *** [AbstractServers] *)

Definition insert_server (server : Server) : Db unit :=
  insert_new db_servers set_servers (create_database_error "insert" "server") (s_id server) server.

Definition fetch_server (d : ReferenceDb) (id : string) : Result Server :=
  get_or db_servers ErrorType.NotFound id d.

Definition fetch_servers (d : ReferenceDb) (ids : list string) : Result (list Server) :=
  get_all db_servers ErrorType.NotFound ids d.

Definition update_server (id : string) (partial : PartialServer) (remove : list FieldsServer)
    : Db unit :=
  with_mut db_servers set_servers ErrorType.NotFound id (fun server =>
    Ok (apply_options (foldl server_remove_field server remove) partial)).

Definition delete_server (id : string) : Db unit :=
  remove_or db_servers set_servers ErrorType.NotFound id.

Definition insert_role (server_id : string) (role : Role) : Db unit :=
  with_mut db_servers set_servers ErrorType.NotFound server_id (fun server =>
    Ok (s_set_roles (<[r_id role := role]> (s_roles server)) server)).

Definition update_role (server_id role_id : string) (partial : PartialRole)
    (remove : list FieldsRole) : Db unit :=
  with_mut db_servers set_servers ErrorType.NotFound server_id (fun server =>
    match s_roles server !! role_id with
    | Some role =>
        Ok (s_set_roles
              (<[role_id := apply_options (foldl role_remove_field role remove) partial]>
                 (s_roles server)) server)
    | None => Err ErrorType.NotFound
    end).

Definition delete_role (server_id role_id : string) : Db unit :=
  with_mut db_servers set_servers ErrorType.NotFound server_id (fun server =>
    match s_roles server !! role_id with
    | Some _ => Ok (s_set_roles (delete role_id (s_roles server)) server)
    | None => Err ErrorType.NotFound
    end).

Definition count_servers (d : ReferenceDb) : Result Z := Ok (Z.of_nat (size (db_servers d))).

Definition fetch_owned_server_count (d : ReferenceDb) (user_id : string) : Result Z :=
  Ok (Z.of_nat (length (filter (fun s => s_owner s = user_id) (hm_values (db_servers d))))).

Definition fetch_discoverable_servers (d : ReferenceDb) (_limit _offset : Z) : Result (list Server) :=
  Ok (filter (fun s => s_discoverable s = true) (hm_values (db_servers d))).

Definition fetch_featured_server_ids (d : ReferenceDb) : Result (list string) := Ok [].

Definition set_server_featured (_server_id : string) (_featured : bool) : Db unit := mret tt.

(** *** [AbstractServerMembers] *)

Definition insert_or_merge_member (member : Member) : Db (option Member) :=
  insert_new db_server_members set_server_members (create_database_error "insert" "member")
    (m_id member) member;;
  mret None.

Definition fetch_member (d : ReferenceDb) (server_id user_id : string) : Result Member :=
  get_or db_server_members ErrorType.NotFound (member_key server_id user_id) d.

Definition fetch_all_members (d : ReferenceDb) (server_id : string) : Result (list Member) :=
  Ok (filter (fun m => mk_server (m_id m) = server_id) (hm_values (db_server_members d))).

(** The members with one of the given roles, in a server. *)
Definition fetch_all_members_with_roles (d : ReferenceDb) (server_id : string)
    (roles : list string) : Result (list Member) :=
  Ok (filter (fun m => mk_server (m_id m) = server_id
                       /\ filter (fun p => contains p roles = true) (m_roles m) <> [])
        (hm_values (db_server_members d))).

Definition fetch_all_memberships (d : ReferenceDb) (user_id : string) : Result (list Member) :=
  Ok (filter (fun m => mk_user (m_id m) = user_id) (hm_values (db_server_members d))).

Definition fetch_members (d : ReferenceDb) (server_id : string) (ids : list string)
    : Result (list Member) :=
  Ok (omap (fun id => db_server_members d !! member_key server_id id) ids).

Definition fetch_member_count (d : ReferenceDb) (server_id : string) : Result Z :=
  Ok (Z.of_nat (length (filter (fun m => mk_server (m_id m) = server_id)
                          (hm_values (db_server_members d))))).

Definition fetch_server_count (d : ReferenceDb) (user_id : string) : Result Z :=
  Ok (Z.of_nat (length (filter (fun m => mk_user (m_id m) = user_id)
                          (hm_values (db_server_members d))))).

Definition update_member (id : MemberCompositeKey) (partial : PartialMember)
    (remove : list FieldsMember) : Db unit :=
  with_mut db_server_members set_server_members ErrorType.NotFound id (fun member =>
    Ok (apply_options (foldl member_remove_field member remove) partial)).

Definition soft_delete_member (now : Timestamp) (id : MemberCompositeKey) : Db unit := fun d =>
  match db_server_members d !! id with
  | Some member =>
      if in_timeout now member then (Panicked, d)
      else remove_or db_server_members set_server_members ErrorType.NotFound id d
  | None => (Err ErrorType.NotFound, d)
  end.

Definition force_delete_member (id : MemberCompositeKey) : Db unit :=
  remove_or db_server_members set_server_members ErrorType.NotFound id.

Definition remove_dangling_members : Db unit := panic.

(** *** [AbstractServerBans] *)

Definition insert_ban (ban : ServerBan) : Db unit :=
  insert_new db_server_bans set_server_bans (create_database_error "insert" "ban") (ban_id ban) ban.

Definition fetch_ban (d : ReferenceDb) (server_id user_id : string) : Result ServerBan :=
  get_or db_server_bans ErrorType.NotFound (member_key server_id user_id) d.

Definition fetch_bans (d : ReferenceDb) (server_id : string) : Result (list ServerBan) :=
  Ok (filter (fun b => mk_server (ban_id b) = server_id) (hm_values (db_server_bans d))).

Definition delete_ban (id : MemberCompositeKey) : Db unit :=
  remove_or db_server_bans set_server_bans ErrorType.NotFound id.

(** *** [AbstractUsers]; [to_lowercase] is a parameter of the two lookups by
    name (the Unicode tables of the standard library) *)

Definition insert_user (user : User) : Db unit :=
  insert_new db_users set_users (create_database_error "insert" "user") (u_id user) user.

Definition fetch_user (d : ReferenceDb) (id : string) : Result User :=
  get_or db_users ErrorType.NotFound id d.

Definition fetch_user_by_username (to_lowercase : string -> string) (d : ReferenceDb)
    (username discriminator : string) : Result User :=
  let lowercase := to_lowercase username in
  ok_or ErrorType.NotFound
    (List.find (fun user => bool_decide (to_lowercase (u_username user) = lowercase)
                            && bool_decide (u_discriminator user = discriminator))
       (hm_values (db_users d))).

Definition fetch_users (d : ReferenceDb) (ids : list string) : Result (list User) :=
  get_all db_users ErrorType.NotFound ids d.

Definition fetch_discriminators_in_use (to_lowercase : string -> string) (d : ReferenceDb)
    (username : string) : Result (list string) :=
  let lowercase := to_lowercase username in
  Ok (u_discriminator <$> filter (fun user => to_lowercase (u_username user) = lowercase)
                            (hm_values (db_users d))).

Definition fetch_mutual_user_ids (d : ReferenceDb) (_user_a _user_b : string)
    : Result (list string) := Panicked.
Definition fetch_mutual_channel_ids (d : ReferenceDb) (_user_a _user_b : string)
    : Result (list string) := Panicked.
Definition fetch_mutual_server_ids (d : ReferenceDb) (_user_a _user_b : string)
    : Result (list string) := Panicked.

Definition update_user (id : string) (partial : PartialUser) (remove : list FieldsUser) : Db unit :=
  with_mut db_users set_users ErrorType.NotFound id (fun user =>
    Ok (apply_options (foldl user_remove_field user remove) partial)).

Definition pull_relationship (user_id target_id : string) : Db unit :=
  with_mut db_users set_users ErrorType.NotFound user_id (fun user =>
    Ok (drop_relation target_id user)).

Definition set_relationship (user_id target_id : string) (relationship : RelationshipStatus)
    : Db unit :=
  match relationship with
  | RelationshipStatus.User | RelationshipStatus.None => pull_relationship user_id target_id
  | _ =>
      with_mut db_users set_users ErrorType.NotFound user_id (fun user =>
        Ok (push_relation target_id relationship user))
  end.

Definition delete_user (id : string) : Db unit :=
  remove_or db_users set_users ErrorType.NotFound id.

Definition count_users (d : ReferenceDb) : Result Z := Ok (Z.of_nat (size (db_users d))).

(** *** [AbstractChannels] *)

Definition insert_channel (channel : Channel) : Db unit :=
  insert_new db_channels set_channels (create_database_error "insert" "channel")
    (channel_id channel) channel.

Definition fetch_channel (d : ReferenceDb) (channel_id : string) : Result Channel :=
  get_or db_channels ErrorType.NotFound channel_id d.

Definition fetch_channels (d : ReferenceDb) (ids : list string) : Result (list Channel) :=
  get_all db_channels ErrorType.NotFound ids d.

Definition find_direct_messages (d : ReferenceDb) (user_id : string) : Result (list Channel) :=
  Ok (filter (fun c => contains_user c user_id = true) (hm_values (db_channels d))).

Definition find_saved_messages_channel (d : ReferenceDb) (user_id : string) : Result Channel :=
  get_or db_channels (create_database_error "fetch" "channel") user_id d.

Definition find_direct_message_channel (d : ReferenceDb) (user_a user_b : string) : Result Channel :=
  ok_or ErrorType.NotFound
    (List.find (fun data => contains_user data user_a && contains_user data user_b)
       (hm_values (db_channels d))).

Definition add_user_to_group (channel_id user_id : string) : Db unit :=
  with_mut db_channels set_channels ErrorType.InvalidOperation channel_id (fun channel =>
    match channel with
    | Channel.Group c => Ok (Channel.Group (g_set_recipients (g_recipients c ++ [user_id]) c))
    | _ => Err ErrorType.InvalidOperation
    end).

Definition set_channel_role_permission (channel_id role_id : string) (permissions : OverrideField)
    : Db unit :=
  with_mut db_channels set_channels ErrorType.NotFound channel_id (fun channel =>
    match channel with
    | Channel.TextChannel c =>
        match t_role_permissions c !! role_id with
        | Some _ =>
            Ok (Channel.TextChannel (t_set_role_permissions
                  (<[role_id := permissions]> (delete role_id (t_role_permissions c))) c))
        | None => Err ErrorType.NotFound
        end
    | _ => Err ErrorType.NotFound
    end).

Definition update_channel (id : string) (channel : PartialChannel) (remove : list FieldsChannel)
    : Db unit :=
  with_mut db_channels set_channels ErrorType.NotFound id (fun channel_data =>
    Ok (channel_remove_fields (channel_apply_options channel_data channel) remove)).

(** [users()] returns a copy of the recipients: [retain] on the copy leaves the
    stored channel as it is. *)
Definition remove_user_from_group (channel user : string) : Db unit :=
  with_mut db_channels set_channels ErrorType.NotFound channel (fun channel_data =>
    users ← channel_users channel_data;
    if contains user users then
      users' ← channel_users channel_data;
      let _ := retain (fun x => negb (bool_decide (x = user))) users' in
      Ok channel_data
    else Err ErrorType.NotFound).

Definition delete_channel (channel : Channel) : Db unit :=
  remove_or db_channels set_channels ErrorType.NotFound (channel_id channel).

Definition set_channel_encryption_key (channel_id key_b64 : string) : Db unit :=
  modify (fun d =>
    set_channel_encryption_keys (<[channel_id := key_b64]> (db_channel_encryption_keys d)) d).

Definition get_channel_encryption_key (d : ReferenceDb) (channel_id : string) : Result string :=
  get_or db_channel_encryption_keys ErrorType.EncryptionKeyNotFound channel_id d.

(** *** [AbstractBots]; [nanoid] is the token drawn when the field is reset *)

Definition insert_bot (bot : Bot) : Db unit :=
  insert_new db_bots set_bots (create_database_error "insert" "bot") (b_id bot) bot.

Definition fetch_bot (d : ReferenceDb) (id : string) : Result Bot :=
  get_or db_bots ErrorType.NotFound id d.

Definition fetch_bot_by_token (d : ReferenceDb) (token : string) : Result Bot :=
  ok_or ErrorType.NotFound
    (List.find (fun bot => bool_decide (b_token bot = token)) (hm_values (db_bots d))).

Definition fetch_bots_by_user (d : ReferenceDb) (user_id : string) : Result (list Bot) :=
  Ok (filter (fun bot => b_owner bot = user_id) (hm_values (db_bots d))).

Definition get_number_of_bots_by_user (d : ReferenceDb) (user_id : string) : Result Z :=
  Ok (Z.of_nat (length (filter (fun bot => b_owner bot = user_id) (hm_values (db_bots d))))).

Definition update_bot (nanoid : string) (id : string) (partial : PartialBot)
    (remove : list FieldsBot) : Db unit :=
  with_mut db_bots set_bots ErrorType.NotFound id (fun bot =>
    Ok (apply_options (foldl (bot_remove_field nanoid) bot remove) partial)).

Definition delete_bot (id : string) : Db unit :=
  remove_or db_bots set_bots ErrorType.NotFound id.

Definition find_ai_companion_bot_by_owner (d : ReferenceDb) (owner_id : string)
    : Result (option Bot) :=
  Ok (List.find (fun bot => bool_decide (b_owner bot = owner_id)
                            && bool_decide (b_bot_type bot = BotType.AiCompanion))
        (hm_values (db_bots d))).

Definition update_bot_joined_server (bot_id : string) (server_id : option string) : Db unit :=
  with_mut db_bots set_bots ErrorType.NotFound bot_id (fun bot =>
    Ok (b_set_joined_server_id server_id bot)).

Definition update_bot_public_key (bot_id public_key_pem : string) (registered_at : Timestamp)
    : Db unit :=
  with_mut db_bots set_bots ErrorType.NotFound bot_id (fun bot =>
    Ok (b_set_public_key_registered_at (Some registered_at)
          (b_set_public_key_pem (Some public_key_pem) bot))).

(** *** [AbstractEmojis] *)

Definition insert_emoji (emoji : Emoji) : Db unit :=
  insert_new db_emojis set_emojis (create_database_error "insert" "emoji") (e_id emoji) emoji.

Definition fetch_emoji (d : ReferenceDb) (id : string) : Result Emoji :=
  get_or db_emojis ErrorType.NotFound id d.

Definition fetch_emoji_by_parent_id (d : ReferenceDb) (parent_id : string) : Result (list Emoji) :=
  Ok (retain (fun emoji => match e_parent emoji with
                           | EmojiParent.Server id => bool_decide (id = parent_id)
                           | EmojiParent.Detached => false
                           end) (hm_values (db_emojis d))).

Definition fetch_emoji_by_parent_ids (d : ReferenceDb) (parent_ids : list string)
    : Result (list Emoji) :=
  Ok (retain (fun emoji => match e_parent emoji with
                           | EmojiParent.Server id => contains id parent_ids
                           | EmojiParent.Detached => false
                           end) (hm_values (db_emojis d))).

Definition detach_emoji (emoji : Emoji) : Db unit :=
  with_mut db_emojis set_emojis ErrorType.NotFound (e_id emoji) (fun e =>
    Ok (e_set_parent EmojiParent.Detached e)).

(** *** [AbstractChannelInvites] *)

Definition insert_invite (invite : Invite) : Db unit :=
  insert_new db_channel_invites set_channel_invites (create_database_error "insert" "invite")
    (invite_code invite) invite.

Definition fetch_invite (d : ReferenceDb) (code : string) : Result Invite :=
  get_or db_channel_invites ErrorType.NotFound code d.

Definition fetch_invites_for_server (d : ReferenceDb) (server_id : string) : Result (list Invite) :=
  Ok (retain (fun invite => match invite with
                            | Invite.Server _ server _ _ => bool_decide (server = server_id)
                            | Invite.Group _ _ _ => false
                            end) (hm_values (db_channel_invites d))).

Definition delete_invite (code : string) : Db unit :=
  remove_or db_channel_invites set_channel_invites ErrorType.NotFound code.

(** *** [AbstractAttachments] *)

Definition is_some_and (o : option bool) : bool := match o with Some v => v | None => false end.

Definition insert_attachment (attachment : File) : Db unit :=
  insert_new db_files set_files (create_database_error "insert" "attachment")
    (f_id attachment) attachment.

Definition fetch_attachment (d : ReferenceDb) (tag file_id : string) : Result File :=
  file ← get_or db_files ErrorType.NotFound file_id d;
  if bool_decide (f_tag file = tag) then Ok file else Err ErrorType.NotFound.

Definition fetch_deleted_attachments (d : ReferenceDb) : Result (list File) :=
  Ok (retain (fun file => is_some_and (f_deleted file) && negb (is_some_and (f_reported file)))
        (hm_values (db_files d))).

Definition fetch_dangling_files (d : ReferenceDb) : Result (list File) :=
  Ok (retain (fun file => bool_decide (f_used_for file = None) && negb (is_some_and (f_deleted file)))
        (hm_values (db_files d))).

Definition count_file_hash_references (d : ReferenceDb) (hash : string) : Result Z :=
  Ok (Z.of_nat (length (retain (fun file => bool_decide (f_hash file = Some hash))
                          (hm_values (db_files d))))).

Definition find_and_use_attachment (id tag : string) (used_for : FileUsedFor)
    (uploader_id : string) : Db File := fun d =>
  match db_files d !! id with
  | Some file =>
      if bool_decide (f_tag file = tag) then
        let file := f_set_used_for (Some used_for) (f_set_uploader_id (Some uploader_id) file) in
        (Ok file, set_files (<[id := file]> (db_files d)) d)
      else (Err ErrorType.NotFound, d)
  | None => (Err ErrorType.NotFound, d)
  end.

Definition mark_attachment_as_reported (id : string) : Db unit :=
  with_mut db_files set_files ErrorType.NotFound id (fun file => Ok (f_set_reported (Some true) file)).

Definition mark_attachment_as_deleted (id : string) : Db unit :=
  with_mut db_files set_files ErrorType.NotFound id (fun file => Ok (f_set_deleted (Some true) file)).

(** The second loop of the source sets [reported]. *)
Definition mark_attachments_as_deleted (ids : list string) : Db unit := fun d =>
  if forallb (fun id => bool_decide (is_Some (db_files d !! id))) ids then
    (Ok tt, set_files (foldl (fun files id =>
                         match files !! id with
                         | Some file => <[id := f_set_reported (Some true) file]> files
                         | None => files
                         end) (db_files d) ids) d)
  else (Err ErrorType.NotFound, d).

Definition delete_attachment (id : string) : Db unit :=
  remove_or db_files set_files ErrorType.NotFound id.

(** *** [AbstractRatelimitEvents]; [gte_cmp_id] is the ULID of the start of the
    period, identifiers are compared as strings *)

Definition insert_ratelimit_event (event : RatelimitEvent) : Db unit :=
  insert_new db_ratelimit_events set_ratelimit_events (create_database_error "insert" "message")
    (re_id event) event.

Definition has_ratelimited (gte_cmp_id : string) (d : ReferenceDb) (target_id : string)
    (event_type : RatelimitEventType) (count : Z) : Result bool :=
  let events :=
    retain (fun '(id, event) =>
              match String.compare id gte_cmp_id with Gt => true | _ => false end
              && bool_decide (re_target_id event = target_id)
              && bool_decide (re_event_type event = event_type))
      (hm_iter (db_ratelimit_events d)) in
  Ok (count <=? Z.of_nat (length events)).
End Methods.
End Ref.

(** The reference database answers the permission queries. *)
#[export] Instance reference_permission_database `{HashOrder} : PermissionDatabase ReferenceDb := {|
  fetch_user := Ref.fetch_user;
  fetch_users := Ref.fetch_users;
  fetch_server := Ref.fetch_server;
  fetch_channel := Ref.fetch_channel;
  fetch_member := Ref.fetch_member;
  fetch_members := Ref.fetch_members;
  fetch_mutual_server_ids := Ref.fetch_mutual_server_ids;
  fetch_mutual_channel_ids := Ref.fetch_mutual_channel_ids |}.
