(* ===== verification/RefInvariant.v ===== *)
(** * What the reference database guarantees

    Every collection is keyed by the identifier of what it stores, in every
    state that the mutating methods of the traits can reach; inserting and
    fetching are inverse; an entry is only changed by a method that names it.
    The last section holds the places where a method does not do what the
    trait promises. *)

From S2P Require Import Prelude Results Permissions PermissionCalc Models ModelOps DbPermissions PermissionSpec ReferenceDb.

(** ** Keys *)

Definition roles_keyed (s : Server) : Prop := map_Forall (fun k r => r_id r = k) (s_roles s).

Definition server_keyed (k : string) (s : Server) : Prop := s_id s = k /\ roles_keyed s.

Definition well_keyed (d : ReferenceDb) : Prop :=
  map_Forall (fun k u => u_id u = k) (db_users d)
  /\ map_Forall server_keyed (db_servers d)
  /\ map_Forall (fun k m => m_id m = k) (db_server_members d)
  /\ map_Forall (fun k b => ban_id b = k) (db_server_bans d)
  /\ map_Forall (fun k c => channel_id c = k) (db_channels d)
  /\ map_Forall (fun k b => b_id b = k) (db_bots d)
  /\ map_Forall (fun k e => e_id e = k) (db_emojis d)
  /\ map_Forall (fun k i => invite_code i = k) (db_channel_invites d)
  /\ map_Forall (fun k f => f_id f = k) (db_files d)
  /\ map_Forall (fun k e => re_id e = k) (db_ratelimit_events d).

(** A partial update that does not rename the object, as the API builds them. *)
Definition keeps_server (p : PartialServer) : Prop :=
  ps_id p = None
  /\ forall roles, ps_roles p = Some roles -> map_Forall (fun k r => r_id r = k) roles.

Section Steps.
Context `{HO : HashOrder}.
Context `{OS : OptionalStruct Server PartialServer} `{!ServerOptionalLaws}.
Context `{OR : OptionalStruct Role PartialRole} `{!RoleOptionalLaws}.
Context `{OM : OptionalStruct Member PartialMember} `{!MemberOptionalLaws}.
Context `{OU : OptionalStruct User PartialUser} `{!UserOptionalLaws}.
Context `{OB : OptionalStruct Bot PartialBot} `{!BotOptionalLaws}.

(** One call of a mutating method, whatever it returns. *)
Inductive db_step (d : ReferenceDb) : ReferenceDb -> Prop :=
| step_insert_server s : roles_keyed s -> db_step d (Ref.insert_server s d).2
| step_update_server id p rm : keeps_server p -> db_step d (Ref.update_server id p rm d).2
| step_delete_server id : db_step d (Ref.delete_server id d).2
| step_insert_role id r : db_step d (Ref.insert_role id r d).2
| step_update_role id rid p rm : pr_id p = None -> db_step d (Ref.update_role id rid p rm d).2
| step_delete_role id rid : db_step d (Ref.delete_role id rid d).2
| step_insert_member m : db_step d (Ref.insert_or_merge_member m d).2
| step_update_member k p rm : pm_id p = None -> db_step d (Ref.update_member k p rm d).2
| step_soft_delete_member now k : db_step d (Ref.soft_delete_member now k d).2
| step_force_delete_member k : db_step d (Ref.force_delete_member k d).2
| step_insert_ban b : db_step d (Ref.insert_ban b d).2
| step_delete_ban k : db_step d (Ref.delete_ban k d).2
| step_insert_user u : db_step d (Ref.insert_user u d).2
| step_update_user id p rm : pu_id p = None -> db_step d (Ref.update_user id p rm d).2
| step_set_relationship id t st : db_step d (Ref.set_relationship id t st d).2
| step_pull_relationship id t : db_step d (Ref.pull_relationship id t d).2
| step_delete_user id : db_step d (Ref.delete_user id d).2
| step_insert_channel c : db_step d (Ref.insert_channel c d).2
| step_add_user_to_group id u : db_step d (Ref.add_user_to_group id u d).2
| step_set_channel_role_permission id r o :
    db_step d (Ref.set_channel_role_permission id r o d).2
| step_update_channel id p rm : db_step d (Ref.update_channel id p rm d).2
| step_remove_user_from_group id u : db_step d (Ref.remove_user_from_group id u d).2
| step_delete_channel c : db_step d (Ref.delete_channel c d).2
| step_set_channel_encryption_key id k : db_step d (Ref.set_channel_encryption_key id k d).2
| step_insert_bot b : db_step d (Ref.insert_bot b d).2
| step_update_bot nanoid id p rm : pb_id p = None -> db_step d (Ref.update_bot nanoid id p rm d).2
| step_delete_bot id : db_step d (Ref.delete_bot id d).2
| step_update_bot_joined_server id s : db_step d (Ref.update_bot_joined_server id s d).2
| step_update_bot_public_key id k at_ : db_step d (Ref.update_bot_public_key id k at_ d).2
| step_insert_emoji e : db_step d (Ref.insert_emoji e d).2
| step_detach_emoji e : db_step d (Ref.detach_emoji e d).2
| step_insert_invite i : db_step d (Ref.insert_invite i d).2
| step_delete_invite c : db_step d (Ref.delete_invite c d).2
| step_insert_attachment f : db_step d (Ref.insert_attachment f d).2
| step_find_and_use_attachment id tag used by_ :
    db_step d (Ref.find_and_use_attachment id tag used by_ d).2
| step_mark_attachment_as_reported id : db_step d (Ref.mark_attachment_as_reported id d).2
| step_mark_attachment_as_deleted id : db_step d (Ref.mark_attachment_as_deleted id d).2
| step_mark_attachments_as_deleted ids : db_step d (Ref.mark_attachments_as_deleted ids d).2
| step_delete_attachment id : db_step d (Ref.delete_attachment id d).2
| step_insert_ratelimit_event e : db_step d (Ref.insert_ratelimit_event e d).2.

(** Clearing fields keeps the identity of an object. *)
Lemma s_id_remove_fields rm s : s_id (foldl server_remove_field s rm) = s_id s.
Proof. revert s. induction rm as [|f rm IH]; intros s; [done|]. simpl. rewrite IH. by destruct f. Qed.
Lemma s_roles_remove_fields rm s : s_roles (foldl server_remove_field s rm) = s_roles s.
Proof. revert s. induction rm as [|f rm IH]; intros s; [done|]. simpl. rewrite IH. by destruct f. Qed.
Lemma r_id_remove_fields rm r : r_id (foldl role_remove_field r rm) = r_id r.
Proof. revert r. induction rm as [|f rm IH]; intros r; [done|]. simpl. rewrite IH. by destruct f. Qed.
Lemma m_id_remove_fields rm m : m_id (foldl member_remove_field m rm) = m_id m.
Proof. revert m. induction rm as [|f rm IH]; intros m; [done|]. simpl. rewrite IH. by destruct f. Qed.
Lemma u_id_remove_fields rm u : u_id (foldl user_remove_field u rm) = u_id u.
Proof.
  revert u. induction rm as [|f rm IH]; intros u; [done|]. simpl. rewrite IH.
  destruct f; simpl; try done; by case_match.
Qed.
Lemma b_id_remove_fields nanoid rm b : b_id (foldl (bot_remove_field nanoid) b rm) = b_id b.
Proof. revert b. induction rm as [|f rm IH]; intros b; [done|]. simpl. rewrite IH. by destruct f. Qed.

(** The bodies of the updating methods keep the key of the entry. *)
Lemma update_server_keyed k s p rm :
  keeps_server p -> server_keyed k s ->
  server_keyed k (apply_options (foldl server_remove_field s rm) p).
Proof using All.
  intros [Hid Hr] [Hk Hroles]. split.
  - by rewrite s_id_applied, Hid, s_id_remove_fields.
  - unfold roles_keyed. rewrite s_roles_applied. case_match; [by apply Hr|].
    by rewrite s_roles_remove_fields.
Qed.

Lemma set_roles_keyed k s roles :
  server_keyed k s -> map_Forall (fun k r => r_id r = k) roles -> server_keyed k (s_set_roles roles s).
Proof. intros [Hk _] Hr. by split. Qed.

Lemma update_role_keyed k s rid r p rm :
  pr_id p = None -> server_keyed k s -> s_roles s !! rid = Some r ->
  server_keyed k
    (s_set_roles (<[rid := apply_options (foldl role_remove_field r rm) p]> (s_roles s)) s).
Proof using All.
  intros Hp Hs Hr. apply set_roles_keyed; [done|]. destruct Hs as [_ Hs].
  apply map_Forall_insert_2; [|done].
  rewrite r_id_applied, Hp, r_id_remove_fields. by apply (Hs rid).
Qed.

Lemma mark_files_keyed ids (m : gmap string File) :
  map_Forall (fun k f => f_id f = k) m ->
  map_Forall (fun k f => f_id f = k)
    (foldl (fun files id => match files !! id with
                            | Some file => <[id := f_set_reported (Some true) file]> files
                            | None => files
                            end) m ids).
Proof.
  revert m. induction ids as [|id ids IH]; intros m Hm; [done|]. simpl. apply IH.
  destruct (m !! id) as [f|] eqn:E; [|done].
  apply map_Forall_insert_2; [|done]. by apply (Hm _ _ E).
Qed.

Lemma mark_files_lookup ids (m : gmap string File) id f :
  m !! id = Some f ->
  exists f', foldl (fun files id => match files !! id with
                            | Some file => <[id := f_set_reported (Some true) file]> files
                            | None => files
                            end) m ids !! id = Some f'
    /\ f_deleted f' = f_deleted f
    /\ (id ∈ ids \/ f_reported f = Some true -> f_reported f' = Some true).
Proof.
  revert m f. induction ids as [|i ids IH]; intros m f Hf; simpl.
  { exists f. split_and!; [done|done|]. by intros [?%elem_of_nil|?]. }
  destruct (decide (i = id)) as [->|Hne].
  - rewrite Hf. destruct (IH (<[id := f_set_reported (Some true) f]> m) (f_set_reported (Some true) f) (lookup_insert_eq _ _ _))
      as (f' & Hf' & Hd & Hr).
    exists f'. split_and!; [done|done|]. intros _. apply Hr. by right.
  - destruct (IH (match m !! i with Some file => <[i := f_set_reported (Some true) file]> m
                               | None => m end) f) as (f' & Hf' & Hd & Hr).
    { destruct (m !! i); [by rewrite lookup_insert_ne|done]. }
    exists f'. split_and!; [done|done|]. intros [Hc|Hc]; apply Hr; [|by right].
    left. apply elem_of_cons in Hc as [->|?]; done.
Qed.

(** Generic preservation, for one collection with the key property [P]. *)
Section Generic.
Context {K V : Type} `{Countable K} (tab : ReferenceDb -> gmap K V).
Context (set_tab : gmap K V -> ReferenceDb -> ReferenceDb) (P : K -> V -> Prop).
Context (Inv : ReferenceDb -> Prop).
Hypothesis inv_tab : forall d, Inv d -> map_Forall P (tab d).
Hypothesis inv_set : forall d m, Inv d -> map_Forall P m -> Inv (set_tab m d).

Lemma insert_new_inv e k v d : P k v -> Inv d -> Inv (insert_new tab set_tab e k v d).2.
Proof using All.
  intros Hv Hd. unfold insert_new. case_match; [done|]. simpl.
  apply inv_set; [done|]. apply map_Forall_insert_2; auto.
Qed.

Lemma with_mut_inv e k body d :
  (forall v v', body v = Ok v' -> P k v -> P k v') -> Inv d -> Inv (with_mut tab set_tab e k body d).2.
Proof using All.
  intros Hb Hd. unfold with_mut. destruct (tab d !! k) as [v|] eqn:E; [|done].
  destruct (body v) eqn:Eb; [|done|done]. simpl.
  apply inv_set; [done|]. apply map_Forall_insert_2; [|by apply inv_tab].
  eapply Hb; [exact Eb|]. by apply (inv_tab d Hd k v).
Qed.

Lemma remove_or_inv e k d : Inv d -> Inv (remove_or tab set_tab e k d).2.
Proof using All.
  intros Hd. unfold remove_or. case_match; [|done]. simpl.
  apply inv_set; [done|]. apply map_Forall_delete. auto.
Qed.
End Generic.

Lemma wk_servers d m : well_keyed d -> map_Forall server_keyed m -> well_keyed (set_servers m d).
Proof. intros (?&?&?&?&?&?&?&?&?&?) ?. by split_and!. Qed.
Lemma wk_users d m :
  well_keyed d -> map_Forall (fun k u => u_id u = k) m -> well_keyed (set_users m d).
Proof. intros (?&?&?&?&?&?&?&?&?&?) ?. by split_and!. Qed.
Lemma wk_members d m :
  well_keyed d -> map_Forall (fun k u => m_id u = k) m -> well_keyed (set_server_members m d).
Proof. intros (?&?&?&?&?&?&?&?&?&?) ?. by split_and!. Qed.
Lemma wk_bans d m :
  well_keyed d -> map_Forall (fun k u => ban_id u = k) m -> well_keyed (set_server_bans m d).
Proof. intros (?&?&?&?&?&?&?&?&?&?) ?. by split_and!. Qed.
Lemma wk_channels d m :
  well_keyed d -> map_Forall (fun k u => channel_id u = k) m -> well_keyed (set_channels m d).
Proof. intros (?&?&?&?&?&?&?&?&?&?) ?. by split_and!. Qed.
Lemma wk_bots d m :
  well_keyed d -> map_Forall (fun k u => b_id u = k) m -> well_keyed (set_bots m d).
Proof. intros (?&?&?&?&?&?&?&?&?&?) ?. by split_and!. Qed.
Lemma wk_emojis d m :
  well_keyed d -> map_Forall (fun k u => e_id u = k) m -> well_keyed (set_emojis m d).
Proof. intros (?&?&?&?&?&?&?&?&?&?) ?. by split_and!. Qed.
Lemma wk_invites d m :
  well_keyed d -> map_Forall (fun k u => invite_code u = k) m -> well_keyed (set_channel_invites m d).
Proof. intros (?&?&?&?&?&?&?&?&?&?) ?. by split_and!. Qed.
Lemma wk_files d m :
  well_keyed d -> map_Forall (fun k u => f_id u = k) m -> well_keyed (set_files m d).
Proof. intros (?&?&?&?&?&?&?&?&?&?) ?. by split_and!. Qed.
Lemma wk_ratelimit_events d m :
  well_keyed d -> map_Forall (fun k u => re_id u = k) m -> well_keyed (set_ratelimit_events m d).
Proof. intros (?&?&?&?&?&?&?&?&?&?) ?. by split_and!. Qed.

Local Ltac wk_table :=
  first [apply wk_users|apply wk_members|apply wk_bans|apply wk_channels|apply wk_bots
        |apply wk_emojis|apply wk_invites|apply wk_files|apply wk_ratelimit_events].
Local Ltac wk :=
  unfold Ref.insert_server, Ref.update_server, Ref.delete_server, Ref.insert_role, Ref.update_role,
    Ref.delete_role, Ref.update_member, Ref.force_delete_member, Ref.insert_ban, Ref.delete_ban,
    Ref.insert_user, Ref.update_user, Ref.pull_relationship, Ref.delete_user, Ref.insert_channel,
    Ref.add_user_to_group, Ref.set_channel_role_permission, Ref.update_channel,
    Ref.remove_user_from_group, Ref.delete_channel, Ref.insert_bot, Ref.update_bot, Ref.delete_bot,
    Ref.update_bot_joined_server, Ref.update_bot_public_key, Ref.insert_emoji, Ref.detach_emoji,
    Ref.insert_invite, Ref.delete_invite, Ref.insert_attachment, Ref.mark_attachment_as_reported,
    Ref.mark_attachment_as_deleted, Ref.delete_attachment, Ref.insert_ratelimit_event;
  match goal with
  | |- well_keyed (insert_new db_servers _ _ _ _ _).2 =>
      apply (insert_new_inv _ _ server_keyed); [by intros ? (?&?&?&?&?&?&?&?&?&?)|apply wk_servers| |]
  | |- well_keyed (with_mut db_servers _ _ _ _ _).2 =>
      apply (with_mut_inv _ _ server_keyed); [by intros ? (?&?&?&?&?&?&?&?&?&?)|apply wk_servers| |]
  | |- well_keyed (remove_or db_servers _ _ _ _).2 =>
      apply (remove_or_inv _ _ server_keyed); [by intros ? (?&?&?&?&?&?&?&?&?&?)|apply wk_servers|]
  | |- well_keyed (insert_new _ _ _ _ _ _).2 =>
      eapply insert_new_inv; [|wk_table| |];
      [by intros ? (?&?&?&?&?&?&?&?&?&?)| |]
  | |- well_keyed (with_mut _ _ _ _ _ _).2 =>
      eapply with_mut_inv; [|wk_table| |];
      [by intros ? (?&?&?&?&?&?&?&?&?&?)| |]
  | |- well_keyed (remove_or _ _ _ _ _).2 =>
      eapply remove_or_inv; [|wk_table|];
      [by intros ? (?&?&?&?&?&?&?&?&?&?)|]
  end; try done.

Lemma db_step_keyed d d' : well_keyed d -> db_step d d' -> well_keyed d'.
Proof using All.
  intros Hd Hs. destruct Hs.
  - (* insert_server *) by wk.
  - (* update_server *) wk. intros v v' [= <-] Hv. by apply update_server_keyed.
  - (* delete_server *) by wk.
  - (* insert_role *) wk. intros v v' [= <-] Hv. apply set_roles_keyed; [done|].
    by apply map_Forall_insert_2; [|apply Hv].
  - (* update_role *) wk. intros v v' Hv' Hv. case_match; simplify_eq. by eapply update_role_keyed.
  - (* delete_role *) wk. intros v v' Hv' Hv. case_match; simplify_eq.
    apply set_roles_keyed; [done|]. by apply map_Forall_delete, Hv.
  - (* insert_or_merge_member *) unfold Ref.insert_or_merge_member, mbind, M_bind.
    assert (well_keyed (insert_new db_server_members set_server_members
      (create_database_error "insert" "member") (m_id m) m d).2) as Hw by by wk.
    destruct (insert_new _ _ _ _ _ d) as [[] d']; by simpl in *.
  - (* update_member *) wk. intros v v' [= <-] Hv. rewrite m_id_applied. by match goal with Hp : pm_id _ = None |- _ => rewrite Hp, m_id_remove_fields end.
  - (* soft_delete_member *) unfold Ref.soft_delete_member.
    destruct (db_server_members d !! k) as [m|]; [|done]. destruct (in_timeout now m); [done|]. by wk.
  - (* force_delete_member *) by wk.
  - by wk.
  - by wk.
  - by wk.
  - (* update_user *) wk. intros v v' [= <-] Hv. rewrite u_id_applied. by match goal with Hp : pu_id _ = None |- _ => rewrite Hp, u_id_remove_fields end.
  - (* set_relationship *)
    assert (exists f, (forall u, u_id (f u) = u_id u) /\ Ref.set_relationship id t st
      = with_mut db_users set_users ErrorType.NotFound id (fun u => Ok (f u))) as (f & Hf & ->).
    { exists (update_relation t st). split; [intros; apply u_id_update_relation|]. by destruct st. }
    wk. intros v v' [= <-] <-. apply Hf.
  - (* pull_relationship *) wk. intros v v' [= <-] <-.
    apply (u_id_update_relation t RelationshipStatus.None).
  - by wk.
  - by wk.
  - (* add_user_to_group *) wk. intros v v' Hv' <-. by destruct v; simplify_eq.
  - (* set_channel_role_permission *) wk. intros v v' Hv' <-.
    destruct v; simplify_eq; case_match; by simplify_eq.
  - (* update_channel *) wk. intros v v' [= <-] <-.
    by rewrite channel_id_remove_fields, channel_id_apply_options.
  - (* remove_user_from_group *) wk. intros v v' Hv' <-.
    destruct v; simpl in Hv'; try discriminate. unfold mbind, outcome_bind in Hv'. simpl in Hv'.
    case_match; by simplify_eq.
  - by wk.
  - by destruct Hd as (?&?&?&?&?&?&?&?&?&?).
  - by wk.
  - (* update_bot *) wk. intros v v' [= <-] Hv. rewrite b_id_applied.
    by match goal with Hp : pb_id _ = None |- _ => rewrite Hp, b_id_remove_fields end.
  - by wk.
  - (* update_bot_joined_server *) wk. by intros v v' [= <-] Hv.
  - (* update_bot_public_key *) wk. by intros v v' [= <-] Hv.
  - by wk.
  - (* detach_emoji *) wk. by intros v v' [= <-] Hv.
  - by wk.
  - by wk.
  - by wk.
  - (* find_and_use_attachment *) unfold Ref.find_and_use_attachment.
    destruct (db_files d !! id) as [f|] eqn:E; [|done]. case_bool_decide; [|done]. simpl.
    destruct Hd as (?&?&?&?&?&?&?&?&Hf&?). apply wk_files; [by split_and!|].
    apply map_Forall_insert_2; [|done]. by apply (Hf _ _ E).
  - (* mark_attachment_as_reported *) wk. by intros v v' [= <-] Hv.
  - (* mark_attachment_as_deleted *) wk. by intros v v' [= <-] Hv.
  - (* mark_attachments_as_deleted *) unfold Ref.mark_attachments_as_deleted.
    destruct (forallb _ _); [|done]. simpl. apply wk_files; [done|].
    by apply mark_files_keyed; destruct Hd as (?&?&?&?&?&?&?&?&?&?).
  - by wk.
  - by wk.
Qed.
End Steps.

(** ** Inserting and fetching *)

Section InsertFetch.
Context {K V A : Type} `{Countable K} (tab : ReferenceDb -> gmap K V) (key : V -> K).
Context (insert : V -> M ErrorType ReferenceDb A) (r : A) (e : ErrorType).

(** What an insertion method promises: the first insertion under a key
    succeeds, is what is read back and changes no other key; the second fails
    and changes nothing. *)
Definition inserts_once (d : ReferenceDb) (v : V) : Prop :=
  match tab d !! key v with
  | None =>
      let d' := (insert v d).2 in
      (insert v d).1 = Ok r
      /\ get_or tab ErrorType.NotFound (key v) d' = Ok v
      /\ (forall k', k' <> key v ->
            get_or tab ErrorType.NotFound k' d' = get_or tab ErrorType.NotFound k' d)
      /\ (forall v', key v' = key v -> insert v' d' = (Err e, d'))
  | Some _ => insert v d = (Err e, d)
  end.

Lemma insert_new_once (set_tab : gmap K V -> ReferenceDb -> ReferenceDb) d v :
  (forall m d, tab (set_tab m d) = m) ->
  (forall v d, insert v d = (insert_new tab set_tab e (key v) v;; mret r) d) ->
  inserts_once d v.
Proof.
  intros tab_set Hins. unfold inserts_once, get_or. rewrite !Hins.
  unfold insert_new, mbind, M_bind.
  destruct (tab d !! key v) eqn:E; simpl; [done|].
  rewrite !tab_set, lookup_insert_eq. split_and!; try done.
  - intros k' Hk. by rewrite lookup_insert_ne.
  - intros v' Hv'. rewrite Hins. unfold insert_new, mbind, M_bind.
    by rewrite tab_set, Hv', lookup_insert_eq.
Qed.
End InsertFetch.

(** ** A deleted role *)

(** [delete_role] leaves the role in the members' role lists and in the
    channels' overrides; both are then ignored. *)
Lemma deleted_role_no_server_override `{HashOrder} (s : Server) rid ms :
  s_roles s !! rid = None ->
  server_role_overrides s (retain (fun x => negb (bool_decide (x = rid))) ms) = server_role_overrides s ms.
Proof.
  intros Hrid. unfold server_role_overrides. do 3 f_equal.
  apply filter_ext_in. intros [k r] Hin%elem_of_hm_iter.
  rewrite !contains_spec. unfold retain.
  rewrite list_elem_of_filter, negb_true_iff, bool_decide_eq_false.
  split; [tauto|]. intros. split; [|done]. congruence.
Qed.

Lemma deleted_role_no_channel_override `{HashOrder} rp (s : Server) rid ms :
  s_roles s !! rid = None ->
  channel_role_overrides rp s (retain (fun x => negb (bool_decide (x = rid))) ms)
  = channel_role_overrides rp s ms.
Proof.
  intros Hrid. unfold channel_role_overrides. do 2 f_equal.
  apply omap_filter_ext. intros [k r] Hf.
  rewrite !contains_spec. unfold retain.
  rewrite list_elem_of_filter, negb_true_iff, bool_decide_eq_false.
  split; [tauto|]. intros. split; [|done]. intros ->. by rewrite Hrid in Hf.
Qed.

(** ** Clearing and setting fields of a channel *)

(** The fields a partial update sets, of those that can be cleared. *)
Definition sets_field (p : PartialChannel) (f : FieldsChannel) : Prop :=
  match f with
  | FieldsChannel.Description => is_Some (pc_description p)
  | FieldsChannel.Icon => is_Some (pc_icon p)
  | FieldsChannel.DefaultPermissions => is_Some (pc_default_permissions p)
  | FieldsChannel.Voice => is_Some (pc_voice p)
  end.

Lemma remove_apply_comm c p f :
  ~ sets_field p f ->
  channel_remove_field (channel_apply_options c p) f = channel_apply_options (channel_remove_field c f) p.
Proof.
  intros Hf. destruct f; simpl in Hf; apply eq_None_not_Some in Hf;
    destruct c; simpl; unfold group_apply_options, text_apply_options; simpl; by rewrite ?Hf.
Qed.

Lemma remove_fields_apply_comm c p fs :
  (forall f, f ∈ fs -> ~ sets_field p f) ->
  channel_remove_fields (channel_apply_options c p) fs = channel_apply_options (channel_remove_fields c fs) p.
Proof.
  unfold channel_remove_fields. revert c. induction fs as [|f fs IH]; intros c Hfs; [done|]. simpl.
  rewrite remove_apply_comm by (apply Hfs; left). apply IH. intros g Hg. apply Hfs. by right.
Qed.

(** ** Properties *)

Section Properties.
Context `{HO : HashOrder}.
Context `{OS : OptionalStruct Server PartialServer} `{!ServerOptionalLaws}.
Context `{OR : OptionalStruct Role PartialRole} `{!RoleOptionalLaws}.
Context `{OM : OptionalStruct Member PartialMember} `{!MemberOptionalLaws}.
Context `{OU : OptionalStruct User PartialUser} `{!UserOptionalLaws}.
Context `{OB : OptionalStruct Bot PartialBot} `{!BotOptionalLaws}.

(** In every state the reference database reaches from the empty one by
    calls of its mutating methods, in any order and whatever they return, a
    fetch returns the object that carries the requested identifier, and the
    role table of every server is keyed by the roles' identifiers. *)
Theorem fetched_objects_have_their_id d :
  rtc db_step ReferenceDb_default d ->
  (forall id u, Ref.fetch_user d id = Ok u -> u_id u = id)
  /\ (forall id s, Ref.fetch_server d id = Ok s -> s_id s = id /\ roles_keyed s)
  /\ (forall sid uid m, Ref.fetch_member d sid uid = Ok m -> m_id m = member_key sid uid)
  /\ (forall sid uid b, Ref.fetch_ban d sid uid = Ok b -> ban_id b = member_key sid uid)
  /\ (forall id c, Ref.fetch_channel d id = Ok c -> channel_id c = id)
  /\ (forall id b, Ref.fetch_bot d id = Ok b -> b_id b = id)
  /\ (forall id e, Ref.fetch_emoji d id = Ok e -> e_id e = id)
  /\ (forall code i, Ref.fetch_invite d code = Ok i -> invite_code i = code)
  /\ (forall tag id f, Ref.fetch_attachment d tag id = Ok f -> f_id f = id /\ f_tag f = tag).
Proof using All.
  intros Hr. assert (well_keyed d) as (Hu & Hs & Hm & Hb & Hc & Hbot & He & Hi & Hf & _).
  { assert (well_keyed ReferenceDb_default) as Hwk by by split_and!; apply map_Forall_empty.
    revert Hwk. induction Hr as [|d1 d2 d3 Hs _ IH]; [done|]. intros Hwk.
    by eapply IH, db_step_keyed. }
  unfold Ref.fetch_user, Ref.fetch_server, Ref.fetch_member, Ref.fetch_ban, Ref.fetch_channel,
    Ref.fetch_bot, Ref.fetch_emoji, Ref.fetch_invite, Ref.fetch_attachment, get_or.
  split_and!; intros *; (destruct (_ !! _) eqn:E; try done).
  - intros [= <-]. by apply (Hu _ _ E).
  - intros [= <-]. by apply (Hs _ _ E).
  - intros [= <-]. by apply (Hm _ _ E).
  - intros [= <-]. by apply (Hb _ _ E).
  - intros [= <-]. by apply (Hc _ _ E).
  - intros [= <-]. by apply (Hbot _ _ E).
  - intros [= <-]. by apply (He _ _ E).
  - intros [= <-]. by apply (Hi _ _ E).
  - unfold mbind, outcome_bind. simpl. case_bool_decide; [|done]. intros [= <-].
    split; [by apply (Hf _ _ E)|done].
Qed.

(** Insertion into a collection of the reference database: a new key is
    stored, read back and changes no other key; a key in use fails with the
    database error of the collection and changes nothing. *)
Theorem reference_insert_fetch d :
  (forall x, inserts_once db_users u_id Ref.insert_user tt
         (create_database_error "insert" "user") d x)
  /\ (forall x, inserts_once db_servers s_id Ref.insert_server tt
         (create_database_error "insert" "server") d x)
  /\ (forall x, inserts_once db_server_members m_id Ref.insert_or_merge_member None
         (create_database_error "insert" "member") d x)
  /\ (forall x, inserts_once db_server_bans ban_id Ref.insert_ban tt
         (create_database_error "insert" "ban") d x)
  /\ (forall x, inserts_once db_channels channel_id Ref.insert_channel tt
         (create_database_error "insert" "channel") d x)
  /\ (forall x, inserts_once db_bots b_id Ref.insert_bot tt
         (create_database_error "insert" "bot") d x)
  /\ (forall x, inserts_once db_emojis e_id Ref.insert_emoji tt
         (create_database_error "insert" "emoji") d x)
  /\ (forall x, inserts_once db_channel_invites invite_code Ref.insert_invite tt
         (create_database_error "insert" "invite") d x).
Proof.
  split_and!; intros x.
  - apply (insert_new_once _ _ _ _ _ set_users); [done|]. intros v d'.
    unfold Ref.insert_user, insert_new, mbind, M_bind. by case_match.
  - apply (insert_new_once _ _ _ _ _ set_servers); [done|]. intros v d'.
    unfold Ref.insert_server, insert_new, mbind, M_bind. by case_match.
  - apply (insert_new_once _ _ _ _ _ set_server_members); [done|]. intros v d'.
    unfold Ref.insert_or_merge_member, insert_new, mbind, M_bind. by case_match.
  - apply (insert_new_once _ _ _ _ _ set_server_bans); [done|]. intros v d'.
    unfold Ref.insert_ban, insert_new, mbind, M_bind. by case_match.
  - apply (insert_new_once _ _ _ _ _ set_channels); [done|]. intros v d'.
    unfold Ref.insert_channel, insert_new, mbind, M_bind. by case_match.
  - apply (insert_new_once _ _ _ _ _ set_bots); [done|]. intros v d'.
    unfold Ref.insert_bot, insert_new, mbind, M_bind. by case_match.
  - apply (insert_new_once _ _ _ _ _ set_emojis); [done|]. intros v d'.
    unfold Ref.insert_emoji, insert_new, mbind, M_bind. by case_match.
  - apply (insert_new_once _ _ _ _ _ set_channel_invites); [done|]. intros v d'.
    unfold Ref.insert_invite, insert_new, mbind, M_bind. by case_match.
Qed.

(** After [delete_role] succeeds, the role gives no permission any more
    although members and channels still name it: the server and channel
    overrides of a member are those of the member without the role. *)
Theorem deleted_role_harmless d d' sid rid s' rp ms :
  Ref.delete_role sid rid d = (Ok tt, d') ->
  Ref.fetch_server d' sid = Ok s' ->
  let without := retain (fun x => negb (bool_decide (x = rid))) ms in
  server_role_overrides s' ms = server_role_overrides s' without
  /\ channel_role_overrides rp s' ms = channel_role_overrides rp s' without.
Proof using HO.
  intros Hd Hf without.
  assert (s_roles s' !! rid = None) as Hrid.
  { revert Hd Hf. unfold Ref.delete_role, with_mut, Ref.fetch_server, get_or.
    destruct (db_servers d !! sid) as [s|]; [|done].
    destruct (s_roles s !! rid); [|done]. intros [= <-]. simpl. rewrite lookup_insert_eq.
    intros [= <-]. apply lookup_delete_eq. }
  unfold without. by rewrite deleted_role_no_server_override, deleted_role_no_channel_override.
Qed.
End Properties.

(** ** Departures from what the traits promise *)

(** The reference [remove_user_from_group] reports success and leaves the
    user in the group: it filters a copy of the recipients.  The trait and the
    caller, [Channel::remove_user_from_group], expect the user to be gone. *)
Theorem reference_remove_keeps_user d d' channel user :
  Ref.remove_user_from_group channel user d = (Ok tt, d') ->
  exists g, Ref.fetch_channel d' channel = Ok (Channel.Group g) /\ user ∈ g_recipients g.
Proof.
  unfold Ref.remove_user_from_group, with_mut, Ref.fetch_channel, get_or.
  destruct (db_channels d !! channel) as [[| |g|]|] eqn:E; try done.
  unfold mbind, outcome_bind. simpl. destruct (contains user (g_recipients g)) eqn:Eu; [|done].
  intros [= <-]. exists g. simpl. rewrite lookup_insert_eq. split; [done|]. by apply contains_spec.
Qed.

(** The reference lookups of direct messages ([find_direct_message_channel],
    [find_direct_messages]) only ever return groups, never a channel of type
    [DirectMessage] or [SavedMessages]. *)
Theorem reference_dm_lookups_return_groups `{HashOrder} d a b :
  match Ref.find_direct_message_channel d a b with
  | Ok c => exists g, c = Channel.Group g /\ a ∈ g_recipients g /\ b ∈ g_recipients g
  | Err e => e = ErrorType.NotFound
  | Panicked => False
  end
  /\ match Ref.find_direct_messages d a with
     | Ok cs => forall c, c ∈ cs -> exists g, c = Channel.Group g /\ a ∈ g_recipients g
     | _ => False
     end.
Proof.
  split.
  - unfold Ref.find_direct_message_channel.
    destruct (List.find _ _) as [c|] eqn:E; [|done]. simpl.
    apply List.find_some in E as [_ E]. apply andb_true_iff in E as [Ha Hb].
    destruct c as [| |g|]; try done. exists g. by rewrite <- !contains_spec.
  - simpl. intros c [Hc _]%list_elem_of_filter. destruct c as [| |g|]; try done.
    exists g. by rewrite <- contains_spec.
Qed.

(** [mark_attachments_as_deleted] of the reference database marks the
    attachments as reported, not as deleted: their [deleted] flag stays what it
    was, and a reported file is never listed by [fetch_deleted_attachments]. *)
Theorem reference_bulk_delete_only_reports d d' ids id :
  Ref.mark_attachments_as_deleted ids d = (Ok tt, d') -> id ∈ ids ->
  exists f f', db_files d !! id = Some f /\ db_files d' !! id = Some f'
    /\ f_deleted f' = f_deleted f /\ f_reported f' = Some true.
Proof.
  unfold Ref.mark_attachments_as_deleted. destruct (forallb _ _) eqn:Hall; [|done].
  intros [= <-] Hid. simpl. rewrite forallb_forall in Hall.
  assert (is_Some (db_files d !! id)) as [f Hf].
  { eapply bool_decide_eq_true, Hall, list_elem_of_In, Hid. }
  destruct (mark_files_lookup ids (db_files d) id f Hf) as (f' & Hf' & Hd & Hr).
  exists f, f'. split_and!; [done|done|done|]. apply Hr. by left.
Qed.

(** ** Witnesses *)

Module RefWitness.
Import SomePriority.

Definition group (recipients : list string) : GroupChannel := {|
  g_id := "group"; g_name := "Group"; g_owner := "alice"; g_description := None;
  g_recipients := recipients; g_icon := None; g_last_message_id := None; g_permissions := None;
  g_moderators := []; g_nsfw := false; g_encrypted := false |}.

Definition db0 : ReferenceDb := (Ref.insert_user (Example.user "alice") ReferenceDb_default).2.
Definition db1 : ReferenceDb :=
  (Ref.set_relationship "alice" "bob" RelationshipStatus.Blocked db0).2.
Definition db2 : ReferenceDb := (Ref.insert_server (Example.server Example.two_roles) db1).2.
Definition db3 : ReferenceDb :=
  (Ref.insert_channel (Channel.Group (group ["alice"; "bob"])) db2).2.

Lemma db3_reachable : rtc db_step ReferenceDb_default db3.
Proof.
  eapply rtc_l; [apply step_insert_user|]. eapply rtc_l; [apply step_set_relationship|].
  eapply rtc_l; [apply (step_insert_server _ (Example.server Example.two_roles))|].
  { unfold roles_keyed. simpl. unfold Example.two_roles. apply map_Forall_insert_2; [done|]. apply map_Forall_insert_2; [done|]. apply map_Forall_empty. }
  eapply rtc_l; [apply step_insert_channel|]. apply rtc_refl.
Qed.

Lemma fetched_objects_have_their_id_witness :
  exists u c, Ref.fetch_user db3 "alice" = Ok u /\ u_id u = "alice"
              /\ Ref.fetch_channel db3 "group" = Ok c /\ channel_id c = "group".
Proof.
  destruct (fetched_objects_have_their_id db3 db3_reachable) as (Hu & _ & _ & _ & Hc & _).
  eexists _, _. split; [reflexivity|]. split; [by apply Hu|]. split; [reflexivity|]. by apply Hc.
Defined.

Definition db4 : ReferenceDb := (Ref.delete_role "server" "mod" db3).2.
Definition server4 : Server :=
  s_set_roles (delete "mod" Example.two_roles) (Example.server Example.two_roles).

Lemma deleted_role_harmless_witness :
  Ref.delete_role "server" "mod" db3 = (Ok tt, db4)
  /\ Ref.fetch_server db4 "server" = Ok server4
  /\ server_role_overrides server4 ["mod"; "member"] = server_role_overrides server4 ["member"].
Proof.
  assert (Ref.delete_role "server" "mod" db3 = (Ok tt, db4)) as H1 by reflexivity.
  assert (Ref.fetch_server db4 "server" = Ok server4) as H2 by reflexivity.
  split; [exact H1|]. split; [exact H2|].
  exact (proj1 (deleted_role_harmless db3 db4 "server" "mod" server4 ∅ ["mod"; "member"] H1 H2)).
Defined.

Lemma reference_remove_keeps_user_witness :
  exists d' g, Ref.remove_user_from_group "group" "bob" db3 = (Ok tt, d')
    /\ Ref.fetch_channel d' "group" = Ok (Channel.Group g) /\ "bob" ∈ g_recipients g.
Proof.
  exists (Ref.remove_user_from_group "group" "bob" db3).2.
  assert (Ref.remove_user_from_group "group" "bob" db3
          = (Ok tt, (Ref.remove_user_from_group "group" "bob" db3).2)) as H1 by reflexivity.
  destruct (reference_remove_keeps_user db3 _ "group" "bob" H1) as [g Hg]. by exists g.
Defined.

Definition file : File := {|
  f_id := "file"; f_tag := "attachments"; f_filename := "a.png"; f_hash := None;
  f_uploaded_at := None; f_uploader_id := None; f_used_for := None; f_deleted := None;
  f_reported := None; f_metadata := Metadata.File; f_content_type := "image/png"; f_size := 1;
  f_message_id := None; f_user_id := None; f_server_id := None; f_object_id := None |}.
Definition db5 : ReferenceDb := (Ref.insert_attachment file db3).2.

Lemma reference_bulk_delete_only_reports_witness :
  exists d' f f', Ref.mark_attachments_as_deleted ["file"] db5 = (Ok tt, d')
    /\ db_files db5 !! "file" = Some f /\ db_files d' !! "file" = Some f'
    /\ f_deleted f' = f_deleted f /\ f_reported f' = Some true.
Proof.
  exists (Ref.mark_attachments_as_deleted ["file"] db5).2.
  assert (Ref.mark_attachments_as_deleted ["file"] db5
          = (Ok tt, (Ref.mark_attachments_as_deleted ["file"] db5).2)) as H1 by reflexivity.
  destruct (reference_bulk_delete_only_reports db5 _ ["file"] "file" H1 (list_elem_of_here _ _))
    as (f & f' & Hf). by exists f, f'.
Defined.
End RefWitness.
