(* ===== verification/Collections.v ===== *)
(** * The remaining collections of the reference database
    ([ops/reference.rs] of messages, webhooks, unreads, settings, policy changes,
    bot commands, file hashes, reports, snapshots, the audit log and encrypted
    channel invitations)

    As in [ReferenceDb], a method is one function of the database.  Fresh ULIDs
    and [to_lowercase] are arguments.

    The theorems: the reactions of stored messages stay well formed; what
    [delete_messages], the pinned filter and [set_user_settings] do, none of which
    is what their trait says. *)

From S2P Require Import Prelude Results Permissions Models ApiTypes Records ModelOps DbPermissions ReferenceDb.

(** [haystack.contains(needle)] *)
Definition str_contains (needle haystack : string) : bool :=
  match String.index 0 needle haystack with Some _ => true | None => false end.

Module Col.
Section Methods.
Context `{HashOrder} `{OptionalStruct Message PartialMessage} `{OptionalStruct Webhook PartialWebhook}.
Local Abbreviation Db := (M ErrorType ReferenceDb).

(** *** [AbstractMessages] *)

Definition insert_message (message : Message) : Db unit :=
  insert_new db_messages set_messages (create_database_error "insert" "message") (msg_id message) message.

Definition fetch_message (d : ReferenceDb) (id : string) : Result Message :=
  get_or db_messages ErrorType.NotFound id d.

(** The filter of [fetch_messages]; a message whose pinned state is the one asked
    for is left out. *)
Definition message_matches (to_lowercase : string -> string) (f : MessageFilter) (message : Message) : bool :=
  match mf_channel f with Some channel => bool_decide (msg_channel message = channel) | None => true end
  && match mf_author f with Some author => bool_decide (msg_author message = author) | None => true end
  && match mf_query f with
     | Some query => match msg_content message with
                     | Some content => str_contains query (to_lowercase content)
                     | None => false
                     end
     | None => true
     end
  && match mf_pinned f with
     | Some pinned => negb (Bool.eqb (default false (msg_pinned message)) pinned)
     | None => true
     end.

Definition fetch_messages (to_lowercase : string -> string) (d : ReferenceDb) (query : MessageQuery)
    : Result (list Message) :=
  Ok (retain (message_matches to_lowercase (qm_filter query)) (hm_values (db_messages d))).

Definition fetch_messages_by_id (d : ReferenceDb) (ids : list string) : Result (list Message) :=
  get_all db_messages ErrorType.NotFound ids d.

Definition update_message (id : string) (message : PartialMessage) (remove : list FieldsMessage) : Db unit :=
  with_mut db_messages set_messages ErrorType.NotFound id (fun message_data =>
    Ok (foldl message_remove_field (apply_options message_data message) remove)).

Definition append_message (id : string) (append : AppendMessage) : Db unit :=
  with_mut db_messages set_messages ErrorType.NotFound id (fun message_data =>
    Ok (match am_embeds append with
        | Some (_ :: _ as embeds) =>
            msg_set_embeds (Some match msg_embeds message_data with
                                 | Some embeds_data => embeds_data ++ embeds
                                 | None => embeds
                                 end) message_data
        | _ => message_data
        end)).

Definition add_reaction (id emoji user : string) : Db unit :=
  with_mut db_messages set_messages ErrorType.NotFound id (fun message =>
    Ok (msg_set_reactions
          (im_insert emoji match im_get emoji (msg_reactions message) with
                           | Some users => is_insert user users
                           | None => [user]
                           end (msg_reactions message)) message)).

Definition remove_reaction (id emoji user : string) : Db unit :=
  with_mut db_messages set_messages ErrorType.NotFound id (fun message =>
    Ok (match im_get emoji (msg_reactions message) with
        | Some users =>
            msg_set_reactions (im_insert emoji (is_remove user users) (msg_reactions message)) message
        | None => message
        end)).

Definition clear_reaction (id emoji : string) : Db unit :=
  with_mut db_messages set_messages ErrorType.NotFound id (fun message =>
    Ok (msg_set_reactions (im_remove emoji (msg_reactions message)) message)).

Definition delete_message (id : string) : Db unit :=
  remove_or db_messages set_messages ErrorType.NotFound id.

(** [retain(|id, message| message.channel != channel && !ids.contains(id))] *)
Definition delete_messages (channel : string) (ids : list string) : Db unit := fun d =>
  (Ok tt, set_messages (filter (fun '(id, message) =>
      negb (bool_decide (msg_channel message = channel)) && negb (contains id ids) = true) (db_messages d)) d).

(** *** [AbstractWebhooks] *)

Definition insert_webhook (webhook : Webhook) : Db unit :=
  insert_new db_channel_webhooks set_channel_webhooks (create_database_error "insert" "webhook")
    (wh_id webhook) webhook.
Definition fetch_webhook (d : ReferenceDb) (webhook_id : string) : Result Webhook :=
  get_or db_channel_webhooks ErrorType.NotFound webhook_id d.
Definition fetch_webhooks_for_channel (d : ReferenceDb) (channel_id : string) : Result (list Webhook) :=
  Ok (retain (fun webhook => bool_decide (wh_channel_id webhook = channel_id))
        (hm_values (db_channel_webhooks d))).
Definition update_webhook (webhook_id : string) (partial : PartialWebhook) (remove : list FieldsWebhook)
    : Db unit :=
  with_mut db_channel_webhooks set_channel_webhooks ErrorType.NotFound webhook_id (fun webhook =>
    Ok (apply_options (foldl webhook_remove_field webhook remove) partial)).
Definition delete_webhook (webhook_id : string) : Db unit :=
  remove_or db_channel_webhooks set_channel_webhooks ErrorType.NotFound webhook_id.

(** *** [AbstractChannelUnreads] *)

Definition unread_key (channel user : string) : ChannelCompositeKey :=
  {| ck_channel := channel; ck_user := user |}.

Definition acknowledge_message (channel_id user_id message_id : string) : Db (option ChannelUnread) :=
  fun d =>
  let key := unread_key channel_id user_id in
  let unread := match db_channel_unreads d !! key with
                | Some unread => {| cu_id := cu_id unread; cu_last_id := Some message_id; cu_mentions := None |}
                | None => {| cu_id := key; cu_last_id := Some message_id; cu_mentions := None |}
                end in
  (Ok (Some unread), set_channel_unreads (<[key := unread]> (db_channel_unreads d)) d).

Fixpoint acknowledge_channels (current_time user_id : string) (channel_ids : list string) : Db unit :=
  match channel_ids with
  | [] => mret tt
  | channel_id :: channel_ids =>
      acknowledge_message channel_id user_id current_time;;
      acknowledge_channels current_time user_id channel_ids
  end.

(** The mentions of the entry are replaced. *)
Definition mention (channel_id : string) (message_ids : list string)
    (unreads : gmap ChannelCompositeKey ChannelUnread) (user_id : string) :=
  let key := unread_key channel_id user_id in
  <[key := match unreads !! key with
           | Some unread =>
               {| cu_id := cu_id unread; cu_last_id := cu_last_id unread; cu_mentions := Some message_ids |}
           | None => {| cu_id := key; cu_last_id := None; cu_mentions := Some message_ids |}
           end]> unreads.
Definition add_mention_to_unread (channel_id user_id : string) (message_ids : list string) : Db unit :=
  modify (fun d => set_channel_unreads (mention channel_id message_ids (db_channel_unreads d) user_id) d).
Definition add_mention_to_many_unreads (channel_id : string) (user_ids message_ids : list string) : Db unit :=
  modify (fun d => set_channel_unreads (foldl (mention channel_id message_ids) (db_channel_unreads d) user_ids) d).

Definition fetch_unread_mentions (d : ReferenceDb) (user_id : string) : Result (list ChannelUnread) :=
  Ok (retain (fun unread => bool_decide (ck_user (cu_id unread) = user_id)
                            && bool_decide (is_Some (cu_mentions unread))) (hm_values (db_channel_unreads d))).
Definition fetch_unreads (d : ReferenceDb) (user_id : string) : Result (list ChannelUnread) :=
  Ok (retain (fun unread => bool_decide (ck_user (cu_id unread) = user_id))
        (hm_values (db_channel_unreads d))).
Definition fetch_unread (d : ReferenceDb) (user_id channel_id : string) : Result (option ChannelUnread) :=
  Ok (db_channel_unreads d !! unread_key channel_id user_id).

(** *** [AbstractUserSettings] *)

Definition fetch_user_settings (d : ReferenceDb) (id : string) (keys : list string) : Result UserSettings :=
  settings ← ok_or ErrorType.NotFound (db_user_settings d !! id);
  Ok (filter (fun '(key, _) => contains key keys = true) settings).

(** The name [settings] is shadowed: stored settings are extended by themselves. *)
Definition set_user_settings (id : string) (settings : UserSettings) : Db unit :=
  modify (fun d =>
    match db_user_settings d !! id with
    | Some settings => set_user_settings (<[id := settings ∪ settings]> (db_user_settings d)) d
    | None => set_user_settings (<[id := settings]> (db_user_settings d)) d
    end).
Definition delete_user_settings (id : string) : Db unit :=
  remove_or db_user_settings ReferenceDb.set_user_settings ErrorType.NotFound id.

(** *** [AbstractPolicyChange] *)

Definition fetch_policy_changes (d : ReferenceDb) : Result (list PolicyChange) :=
  Ok (hm_values (db_policy_changes d)).
Definition max_created (l : list PolicyChange) : option Timestamp :=
  foldl (fun m p => Some (match m with Some m => Z.max m (pol_created_time p) | None => pol_created_time p end))
    None l.
Definition acknowledge_policy_changes (user_id : string) : Db unit := fun d =>
  match db_users d !! user_id with
  | Some user =>
      let time := default 0 (max_created (hm_values (db_policy_changes d))) in
      (Ok tt, set_users (<[user_id := u_set_last_acknowledged_policy_change time user]> (db_users d)) d)
  | None => (Panicked, d)
  end.

(** *** [AbstractBotCommands] *)

Definition insert_bot_command (command : BotCommand) : Db unit :=
  insert_new db_bot_commands set_bot_commands (create_database_error "insert" "bot_commands")
    (bc_id command) command.
Definition fetch_bot_command (d : ReferenceDb) (id : string) : Result BotCommand :=
  get_or db_bot_commands ErrorType.NotFound id d.
Definition fetch_bot_commands_by_bot (d : ReferenceDb) (bot_id : string) : Result (list BotCommand) :=
  Ok (retain (fun cmd => bool_decide (bc_bot_id cmd = bot_id)) (hm_values (db_bot_commands d))).
Definition fetch_bot_commands_by_bots (d : ReferenceDb) (bot_ids : list string) : Result (list BotCommand) :=
  Ok (retain (fun cmd => contains (bc_bot_id cmd) bot_ids) (hm_values (db_bot_commands d))).
Definition delete_bot_command (id : string) : Db unit :=
  remove_or db_bot_commands set_bot_commands ErrorType.NotFound id.
Definition delete_bot_commands_by_bot (bot_id : string) : Db unit :=
  modify (fun d => set_bot_commands
    (filter (fun '(_, cmd) => bc_bot_id cmd <> bot_id) (db_bot_commands d)) d).

(** *** [AbstractAttachmentHashes] *)

Definition insert_attachment_hash (hash : FileHash) : Db unit :=
  insert_new db_file_hashes set_file_hashes (create_database_error "insert" "attachment") (fh_id hash) hash.
Definition fetch_attachment_hash (d : ReferenceDb) (hash_value : string) : Result FileHash :=
  ok_or ErrorType.NotFound
    (head (retain (fun hash => bool_decide (fh_id hash = hash_value)
                               || bool_decide (fh_processed_hash hash = hash_value))
             (hm_values (db_file_hashes d)))).
Definition set_attachment_hash_nonce (hash nonce : string) : Db unit :=
  with_mut db_file_hashes set_file_hashes ErrorType.NotFound hash (fun file => Ok (fh_set_iv nonce file)).
Definition delete_attachment_hash (id : string) : Db unit :=
  remove_or db_file_hashes set_file_hashes ErrorType.NotFound id.

(** *** [AbstractReport], [AbstractSnapshot], [AbstractAuditLog] *)

Definition insert_report (report : Report) : Db unit :=
  insert_new db_safety_reports set_safety_reports (create_database_error "insert" "report")
    (rp_id report) report.
Definition status_named (status : v0.ReportStatus) (name : string) : bool :=
  match status with
  | v0.ReportStatus.Created => String.eqb name "Created"
  | v0.ReportStatus.Rejected _ _ => String.eqb name "Rejected"
  | v0.ReportStatus.Resolved _ => String.eqb name "Resolved"
  end.
Definition fetch_reports (d : ReferenceDb) (status : option string) : Result (list Report) :=
  Ok (retain (fun r => match status with Some status => status_named (rp_status r) status | None => true end)
        (hm_values (db_safety_reports d))).
Definition fetch_report (d : ReferenceDb) (id : string) : Result Report :=
  get_or db_safety_reports ErrorType.NotFound id d.
Definition update_report_status (id : string) (status : v0.ReportStatus) : Db unit :=
  with_mut db_safety_reports set_safety_reports ErrorType.NotFound id (fun report =>
    Ok (rp_set_status status report)).
Definition count_pending_reports (d : ReferenceDb) : Result Z :=
  Ok (Z.of_nat (length (retain (fun r => match rp_status r with v0.ReportStatus.Created => true | _ => false end)
                          (hm_values (db_safety_reports d))))).

Definition insert_snapshot (snapshot : Snapshot) : Db unit :=
  insert_new db_safety_snapshots set_safety_snapshots (create_database_error "insert" "snapshot")
    (sn_id snapshot) snapshot.

Definition insert_audit_log (entry : AuditLogEntry) : Db unit :=
  modify (fun d => set_audit_log (<[al_id entry := entry]> (db_audit_log d)) d).
(** A negative limit is a very large [usize]: nothing is cut off. *)
Definition fetch_audit_log (d : ReferenceDb) (limit : Z) : Result (list AuditLogEntry) :=
  let entries := sort_by (cmp_desc al_timestamp) (hm_values (db_audit_log d)) in
  Ok (if limit <? 0 then entries else take (Z.to_nat limit) entries).

(** *** [AbstractEncryptedChannelInvitations] *)

Definition insert_encrypted_invitation (invitation : EncryptedChannelInvitation) : Db unit :=
  insert_new db_encrypted_channel_invitations set_encrypted_channel_invitations
    (create_database_error "insert" "encrypted_channel_invitations") (ei_id invitation) invitation.
Definition fetch_encrypted_invitation (d : ReferenceDb) (channel_id bot_id : string)
    : Result (option EncryptedChannelInvitation) :=
  Ok (head (retain (fun inv => bool_decide (ei_channel_id inv = channel_id)
                               && bool_decide (ei_bot_id inv = bot_id))
              (hm_values (db_encrypted_channel_invitations d)))).
Definition delete_encrypted_invitation (id : string) : Db unit :=
  remove_or db_encrypted_channel_invitations set_encrypted_channel_invitations ErrorType.NotFound id.
End Methods.
End Col.

(** ** Reactions *)

(** [user] reacted to the message with [emoji]. *)
Definition reacted (m : Message) (emoji user : string) : Prop :=
  exists users, im_get emoji (msg_reactions m) = Some users /\ user ∈ users.

(** The emojis are distinct, and so are the users of each. *)
Definition message_ok (m : Message) : Prop :=
  NoDup (msg_reactions m).*1
  /\ forall emoji users, im_get emoji (msg_reactions m) = Some users -> NoDup users.

Definition messages_ok (d : ReferenceDb) : Prop :=
  forall id m, db_messages d !! id = Some m -> msg_id m = id /\ message_ok m.

Lemma reactions_insert_ok m emoji users :
  NoDup users -> message_ok m -> message_ok (msg_set_reactions (im_insert emoji users (msg_reactions m)) m).
Proof.
  intros Hu [Hk Hn]. split; simpl; [by apply im_insert_keys|].
  intros e us. rewrite im_get_insert. case_bool_decide; [by intros [= <-]|apply Hn].
Qed.

Lemma reactions_remove_ok m emoji :
  message_ok m -> message_ok (msg_set_reactions (im_remove emoji (msg_reactions m)) m).
Proof.
  intros [Hk Hn]. split; simpl; [by apply im_remove_keys|].
  intros e us. rewrite im_get_remove by done. case_bool_decide; [done|apply Hn].
Qed.

Lemma message_ok_same (m m' : Message) : msg_reactions m' = msg_reactions m -> message_ok m -> message_ok m'.
Proof. unfold message_ok. by intros ->. Qed.

Section Reactions.
Context `{HO : HashOrder} `{OM : OptionalStruct Message PartialMessage} `{ML : !MessageOptionalLaws}.
Context `{OW : OptionalStruct Webhook PartialWebhook}.

(** The methods that write messages.  An inserted message and the reactions of an
    update have to be well formed; an update does not change the identifier. *)
Inductive message_step (d d' : ReferenceDb) : Prop :=
| step_insert m : message_ok m -> Col.insert_message m d = (Ok tt, d') -> message_step d d'
| step_update id p remove :
    pmsg_id p = None ->
    (forall r, pmsg_reactions p = Some r -> message_ok (msg_set_reactions r Message_default)) ->
    Col.update_message id p remove d = (Ok tt, d') -> message_step d d'
| step_append id a : Col.append_message id a d = (Ok tt, d') -> message_step d d'
| step_react id e u : Col.add_reaction id e u d = (Ok tt, d') -> message_step d d'
| step_unreact id e u : Col.remove_reaction id e u d = (Ok tt, d') -> message_step d d'
| step_clear id e : Col.clear_reaction id e d = (Ok tt, d') -> message_step d d'
| step_delete id : Col.delete_message id d = (Ok tt, d') -> message_step d d'
| step_deletes c ids : Col.delete_messages c ids d = (Ok tt, d') -> message_step d d'.

Lemma with_mut_messages id body d d' :
  with_mut db_messages set_messages ErrorType.NotFound id (fun m => Ok (body m)) d = (Ok tt, d') ->
  exists m, db_messages d !! id = Some m /\ db_messages d' = <[id := body m]> (db_messages d).
Proof. unfold with_mut. destruct (db_messages d !! id) eqn:E; [|done]. intros [= <-]. by eexists. Qed.

Lemma messages_ok_write id body d d' :
  (forall m, msg_id m = id -> message_ok m -> msg_id (body m) = id /\ message_ok (body m)) ->
  with_mut db_messages set_messages ErrorType.NotFound id (fun m => Ok (body m)) d = (Ok tt, d') ->
  messages_ok d -> messages_ok d'.
Proof.
  intros Hb (m & Hm & E)%with_mut_messages Hd id' m'. rewrite E.
  intros [[<- <-]|[_ Hl]]%lookup_insert_Some; [|by apply Hd].
  apply Hd in Hm as [Hi Hm]. by apply Hb.
Qed.

Lemma removed_fields_same fs m :
  msg_id (foldl message_remove_field m fs) = msg_id m
  /\ msg_reactions (foldl message_remove_field m fs) = msg_reactions m.
Proof.
  revert m. induction fs as [|[] fs IH]; intros m; [done|]. simpl. by destruct (IH (msg_set_pinned None m)) as [-> ->].
Qed.

Lemma message_step_ok d d' : message_step d d' -> messages_ok d -> messages_ok d'.
Proof using HO ML.
  destruct 1 as [m Hm E|id p remove Hp Hr E|id a E|id e u E|id e u E|id e E|id E|c ids E].
  - unfold Col.insert_message, insert_new in E. destruct (db_messages d !! _); [done|].
    injection E as <-. intros Hd id m'. simpl.
    intros [[<- <-]|[_ Hl]]%lookup_insert_Some; [done|by apply Hd].
  - eapply messages_ok_write; [|exact E]. intros m Hi Hm.
    destruct (removed_fields_same remove (apply_options m p)) as [E1 E2].
    rewrite E1, msg_id_applied, Hp. split; [done|].
    apply (message_ok_same (apply_options m p)); [done|]. unfold message_ok.
    rewrite msg_reactions_applied. destruct (pmsg_reactions p) as [r|]; [by apply (Hr r)|done].
  - eapply messages_ok_write; [|exact E]. intros m Hi Hm.
    destruct (am_embeds a) as [[]|]; [done| |done]. by split.
  - eapply messages_ok_write; [|exact E]. intros m Hi Hm. split; [done|].
    apply reactions_insert_ok; [|done]. destruct (im_get e (msg_reactions m)) as [users|] eqn:Eg.
    + by eapply NoDup_is_insert, Hm.
    + apply NoDup_singleton.
  - eapply messages_ok_write; [|exact E]. intros m Hi Hm.
    simpl. destruct (im_get e (msg_reactions m)) as [users|] eqn:Eg; [|done].
    split; [done|]. apply reactions_insert_ok; [|done]. by eapply NoDup_is_remove, Hm.
  - eapply messages_ok_write; [|exact E]. intros m Hi Hm. split; [done|]. by apply reactions_remove_ok.
  - unfold Col.delete_message, remove_or in E. destruct (db_messages d !! id); [|done].
    injection E as <-. intros Hd id' m'. simpl. intros [_ Hl]%lookup_delete_Some. by apply Hd.
  - injection E as <-. intros Hd id' m'. simpl. intros [Hl _]%map_lookup_filter_Some. by apply Hd.
Qed.

Lemma messages_reachable d : rtc message_step ReferenceDb_default d -> messages_ok d.
Proof using HO ML.
  assert (messages_ok ReferenceDb_default) as H0 by (intros id m; simpl; by rewrite lookup_empty).
  intros Hr. revert H0. induction Hr; eauto using message_step_ok.
Qed.

Lemma with_message_run id body d m :
  db_messages d !! id = Some m ->
  exists d1, with_mut db_messages set_messages ErrorType.NotFound id (fun m => Ok (body m)) d = (Ok tt, d1)
    /\ db_messages d1 !! id = Some (body m).
Proof. intros E. unfold with_mut. rewrite E. eexists. split; [done|]. apply lookup_insert_eq. Qed.

Lemma reacted_insert m emoji users e u :
  reacted (msg_set_reactions (im_insert emoji users (msg_reactions m)) m) e u
  <-> if bool_decide (emoji = e) then u ∈ users else reacted m e u.
Proof.
  unfold reacted. simpl. rewrite im_get_insert. case_bool_decide; [|done].
  split; [by intros (? & [= <-] & ?)|by eexists].
Qed.

Lemma reacted_none m e u : im_get e (msg_reactions m) = None -> ~ reacted m e u.
Proof. intros E (us & E' & _). congruence. Qed.

Lemma reacted_some m e u users : im_get e (msg_reactions m) = Some users -> reacted m e u <-> u ∈ users.
Proof. intros E. unfold reacted. rewrite E. split; [by intros (? & [= <-] & ?)|by eexists]. Qed.

(** What the methods do to the relation. *)
Lemma reaction_methods d id m emoji user :
  db_messages d !! id = Some m -> message_ok m ->
  (exists d1 m1, Col.add_reaction id emoji user d = (Ok tt, d1) /\ db_messages d1 !! id = Some m1
      /\ forall e u, reacted m1 e u <-> reacted m e u \/ (e = emoji /\ u = user))
  /\ (exists d1 m1, Col.remove_reaction id emoji user d = (Ok tt, d1) /\ db_messages d1 !! id = Some m1
      /\ forall e u, reacted m1 e u <-> reacted m e u /\ ~ (e = emoji /\ u = user))
  /\ (exists d1 m1, Col.clear_reaction id emoji d = (Ok tt, d1) /\ db_messages d1 !! id = Some m1
      /\ forall e u, reacted m1 e u <-> reacted m e u /\ e <> emoji).
Proof.
  intros Hm Hok. split_and!.
  - edestruct with_message_run as (d1 & E1 & E2); [exact Hm|]. eexists d1, _. split_and!; [exact E1|exact E2|].
    intros e u. simpl. rewrite reacted_insert. case_bool_decide as Ee; [subst e|set_solver].
    destruct (im_get emoji (msg_reactions m)) as [users|] eqn:Eg.
    + rewrite elem_of_is_insert, (reacted_some _ _ _ _ Eg). set_solver.
    + pose proof (reacted_none _ _ u Eg). set_solver.
  - edestruct with_message_run as (d1 & E1 & E2); [exact Hm|]. eexists d1, _. split_and!; [exact E1|exact E2|].
    intros e u. simpl. destruct (im_get emoji (msg_reactions m)) as [users|] eqn:Eg.
    + rewrite reacted_insert. case_bool_decide as Ee; [subst e|set_solver].
      rewrite elem_of_is_remove by by eapply Hok. rewrite (reacted_some _ _ _ _ Eg). set_solver.
    + pose proof (reacted_none _ _ user Eg). split; [|by intros []]. intros Hre. split; [done|].
      by intros [-> ->].
  - edestruct with_message_run as (d1 & E1 & E2); [exact Hm|]. eexists d1, _. split_and!; [exact E1|exact E2|].
    intros e u. unfold reacted. simpl. rewrite im_get_remove by apply Hok. case_bool_decide; naive_solver.
Qed.

(** C30: The reactions of stored messages are a relation between messages, emojis
    and users.  In every state that the message methods reach from an empty
    database, adding a reaction puts exactly one pair in, removing one takes
    exactly that pair out, clearing takes out those of one emoji, and no user is
    listed twice under an emoji. *)
Theorem reactions_refine_relation d id m emoji user :
  rtc message_step ReferenceDb_default d -> db_messages d !! id = Some m ->
  message_ok m
  /\ (exists d1 m1, Col.add_reaction id emoji user d = (Ok tt, d1) /\ db_messages d1 !! id = Some m1
      /\ forall e u, reacted m1 e u <-> reacted m e u \/ (e = emoji /\ u = user))
  /\ (exists d1 m1, Col.remove_reaction id emoji user d = (Ok tt, d1) /\ db_messages d1 !! id = Some m1
      /\ forall e u, reacted m1 e u <-> reacted m e u /\ ~ (e = emoji /\ u = user))
  /\ (exists d1 m1, Col.clear_reaction id emoji d = (Ok tt, d1) /\ db_messages d1 !! id = Some m1
      /\ forall e u, reacted m1 e u <-> reacted m e u /\ e <> emoji).
Proof using HO ML.
  intros Hr Hm. destruct (messages_reachable d Hr id m Hm) as [_ Hok].
  split; [done|]. by apply reaction_methods.
Qed.

(** ** Methods that do not do what the trait says *)

(** [delete_messages] says it deletes messages from a channel by their ids: it
    deletes every message of the channel, and messages of other channels whose
    ids are listed. *)
Lemma delete_messages_deletes_all channel ids d :
  exists d', Col.delete_messages channel ids d = (Ok tt, d')
    /\ forall id m, db_messages d' !! id = Some m <->
         db_messages d !! id = Some m /\ msg_channel m <> channel /\ id ∉ ids.
Proof.
  eexists. split; [done|]. intros id m. simpl. rewrite map_lookup_filter_Some.
  rewrite andb_true_iff, !negb_true_iff, bool_decide_eq_false. unfold contains. by rewrite bool_decide_eq_false.
Qed.

(** A query for pinned messages finds those that are not. *)
Lemma pinned_filter_inverted to_lowercase d limit period l m :
  Col.fetch_messages to_lowercase d {| qm_limit := limit; qm_time_period := period;
    qm_filter := {| mf_channel := None; mf_author := None; mf_query := None; mf_pinned := Some true |} |} = Ok l ->
  m ∈ l -> msg_pinned m <> Some true.
Proof using HO.
  intros [= <-]. unfold retain. rewrite list_elem_of_filter. unfold Col.message_matches. simpl.
  intros [E _] Hp. rewrite Hp in E. done.
Qed.

(** Settings that a user already has are not changed by new ones. *)
Lemma settings_not_updated id old new d :
  db_user_settings d !! id = Some old ->
  exists d', Col.set_user_settings id new d = (Ok tt, d') /\ db_user_settings d' = db_user_settings d.
Proof.
  intros E. unfold Col.set_user_settings, modify. rewrite E. eexists. split; [done|].
  assert (old ∪ old = old) as -> by (apply map_eq; intros k; rewrite lookup_union; by destruct (old !! k)).
  simpl. by apply insert_id.
Qed.

(** A mention replaces the mentions that were not read yet. *)
Lemma mention_replaces channel user first second d :
  exists d1 d2, Col.add_mention_to_unread channel user first d = (Ok tt, d1)
    /\ Col.add_mention_to_unread channel user second d1 = (Ok tt, d2)
    /\ exists unread, Col.fetch_unread d2 user channel = Ok (Some unread) /\ cu_mentions unread = Some second.
Proof.
  eexists _, _. split; [done|]. split; [done|]. unfold Col.fetch_unread. simpl. unfold Col.mention at 1.
  rewrite lookup_insert_eq. eexists. split; [done|]. by case_match.
Qed.

(** Reading a channel forgets its mentions; the entry is then found. *)
Lemma acknowledged_unread channel user message d :
  exists d' unread, Col.acknowledge_message channel user message d = (Ok (Some unread), d')
    /\ Col.fetch_unread d' user channel = Ok (Some unread)
    /\ cu_last_id unread = Some message /\ cu_mentions unread = None.
Proof.
  eexists _, _. split; [done|]. unfold Col.fetch_unread. simpl. rewrite lookup_insert_eq.
  split; [done|]. by case_match.
Qed.
End Reactions.

Module CollectionsWitness.
#[export] Instance message_struct : OptionalStruct Message PartialMessage := message_some_priority.
#[export] Instance message_laws : MessageOptionalLaws := message_some_priority_laws.
#[export] Instance webhook_struct : OptionalStruct Webhook PartialWebhook := webhook_some_priority.
#[export] Instance webhook_laws : WebhookOptionalLaws := webhook_some_priority_laws.

Definition hello : Message := msg_set_reactions [("cat", ["alice"])]
  {| msg_id := "m"; msg_nonce := None; msg_channel := "c"; msg_author := "alice"; msg_webhook := None;
     msg_content := Some "hello"; msg_system := None; msg_attachments := None; msg_edited := None;
     msg_embeds := None; msg_mentions := None; msg_role_mentions := None; msg_replies := None;
     msg_reactions := []; msg_interactions := Interactions_default; msg_masquerade := None;
     msg_pinned := None; msg_flags := None |}.
Definition one_message : ReferenceDb := (Col.insert_message hello ReferenceDb_default).2.

Lemma hello_ok : message_ok hello.
Proof.
  split; [apply NoDup_singleton|]. intros e us. unfold hello. simpl. case_bool_decide; [|done].
  intros [= <-]. apply NoDup_singleton.
Qed.

Lemma reactions_refine_relation_witness :
  exists d1 m1, Col.add_reaction "m" "cat" "bob" one_message = (Ok tt, d1)
    /\ db_messages d1 !! "m" = Some m1 /\ (reacted m1 "cat" "bob" /\ reacted m1 "cat" "alice").
Proof.
  destruct (reactions_refine_relation (HO := hash_order_canonical) one_message "m" hello "cat" "bob")
    as (_ & (d1 & m1 & E1 & E2 & Hr) & _).
  - apply rtc_once. apply (step_insert _ _ hello hello_ok). reflexivity.
  - reflexivity.
  - exists d1, m1. split; [exact E1|]. split; [exact E2|]. split; apply Hr; [by right|].
    left. exists ["alice"]. split; [reflexivity|by constructor].
Defined.
End CollectionsWitness.
