(* ===== verification/World.v ===== *)
(** * The database interface and the side effects of the model methods

    The methods of the models ([User::add_friend], [Server::update],
    [Channel::remove_user_from_group], ...) take a [&Database] and publish
    events.  [Database] is the part of the database traits they call, as a
    class; the reference database is its instance.  A [World] is the database
    with what was published so far: events by topic ([EventV1::p] and its
    wrappers, [crates/core/database/src/events/client.rs]), messages to the
    push daemon ([AMQP]) and requests to send a system message.  Publishing
    does not fail; the payload of an event is the stored object before its
    conversion to the API model.  Sending a system message ([Message::send])
    is recorded as a request: its callers discard the result with [.ok()]. *)

From S2P Require Import Prelude Results Permissions Models ModelOps DbPermissions ApiTypes Records ReferenceDb.

Module Database.
Class Database (D : Type) := {
  (* AbstractUsers *)
  insert_user : User -> M ErrorType D unit;
  fetch_user : string -> M ErrorType D User;
  fetch_users : list string -> M ErrorType D (list User);
  update_user : string -> PartialUser -> list FieldsUser -> M ErrorType D unit;
  set_relationship : string -> string -> RelationshipStatus -> M ErrorType D unit;
  (* AbstractServers *)
  insert_server : Server -> M ErrorType D unit;
  fetch_server : string -> M ErrorType D Server;
  update_server : string -> PartialServer -> list FieldsServer -> M ErrorType D unit;
  delete_server : string -> M ErrorType D unit;
  insert_role : string -> Role -> M ErrorType D unit;
  update_role : string -> string -> PartialRole -> list FieldsRole -> M ErrorType D unit;
  delete_role : string -> string -> M ErrorType D unit;
  fetch_owned_server_count : string -> M ErrorType D Z;
  (* AbstractServerMembers, AbstractServerBans *)
  insert_or_merge_member : Member -> M ErrorType D (option Member);
  fetch_member : string -> string -> M ErrorType D Member;
  fetch_all_memberships : string -> M ErrorType D (list Member);
  fetch_member_count : string -> M ErrorType D Z;
  update_member : MemberCompositeKey -> PartialMember -> list FieldsMember -> M ErrorType D unit;
  soft_delete_member : Timestamp -> MemberCompositeKey -> M ErrorType D unit;
  insert_ban : ServerBan -> M ErrorType D unit;
  fetch_ban : string -> string -> M ErrorType D ServerBan;
  fetch_bans : string -> M ErrorType D (list ServerBan);
  delete_ban : MemberCompositeKey -> M ErrorType D unit;
  (* AbstractChannels *)
  insert_channel : Channel -> M ErrorType D unit;
  fetch_channel : string -> M ErrorType D Channel;
  fetch_channels : list string -> M ErrorType D (list Channel);
  find_direct_message_channel : string -> string -> M ErrorType D Channel;
  add_user_to_group : string -> string -> M ErrorType D unit;
  set_channel_role_permission : string -> string -> OverrideField -> M ErrorType D unit;
  update_channel : string -> PartialChannel -> list FieldsChannel -> M ErrorType D unit;
  remove_user_from_group : string -> string -> M ErrorType D unit;
  delete_channel : Channel -> M ErrorType D unit;
  (* AbstractBots, AbstractEmojis, AbstractChannelInvites, AbstractAttachments *)
  fetch_bot : string -> M ErrorType D Bot;
  update_bot_joined_server : string -> option string -> M ErrorType D unit;
  fetch_emoji_by_parent_id : string -> M ErrorType D (list Emoji);
  insert_invite : Invite -> M ErrorType D unit;
  fetch_invite : string -> M ErrorType D Invite;
  fetch_invites_for_server : string -> M ErrorType D (list Invite);
  delete_invite : string -> M ErrorType D unit;
  mark_attachment_as_deleted : string -> M ErrorType D unit;
  find_and_use_attachment : string -> string -> FileUsedFor -> string -> M ErrorType D File }.
End Database.
Abbreviation Database := Database.Database.

(** A method that only reads. *)
Definition query {D A} (f : D -> Result A) : M ErrorType D A := fun d => (f d, d).

#[export] Instance reference_database `{HashOrder}
    `{OptionalStruct Server PartialServer} `{OptionalStruct Role PartialRole}
    `{OptionalStruct Member PartialMember} `{OptionalStruct User PartialUser}
    : Database ReferenceDb := {|
  Database.insert_user := Ref.insert_user;
  Database.fetch_user id := query (fun d => Ref.fetch_user d id);
  Database.fetch_users ids := query (fun d => Ref.fetch_users d ids);
  Database.update_user := Ref.update_user;
  Database.set_relationship := Ref.set_relationship;
  Database.insert_server := Ref.insert_server;
  Database.fetch_server id := query (fun d => Ref.fetch_server d id);
  Database.update_server := Ref.update_server;
  Database.delete_server := Ref.delete_server;
  Database.insert_role := Ref.insert_role;
  Database.update_role := Ref.update_role;
  Database.delete_role := Ref.delete_role;
  Database.fetch_owned_server_count id := query (fun d => Ref.fetch_owned_server_count d id);
  Database.insert_or_merge_member := Ref.insert_or_merge_member;
  Database.fetch_member s u := query (fun d => Ref.fetch_member d s u);
  Database.fetch_all_memberships u := query (fun d => Ref.fetch_all_memberships d u);
  Database.fetch_member_count id := query (fun d => Ref.fetch_member_count d id);
  Database.update_member := Ref.update_member;
  Database.soft_delete_member := Ref.soft_delete_member;
  Database.insert_ban := Ref.insert_ban;
  Database.fetch_ban s u := query (fun d => Ref.fetch_ban d s u);
  Database.fetch_bans id := query (fun d => Ref.fetch_bans d id);
  Database.delete_ban := Ref.delete_ban;
  Database.insert_channel := Ref.insert_channel;
  Database.fetch_channel id := query (fun d => Ref.fetch_channel d id);
  Database.fetch_channels ids := query (fun d => Ref.fetch_channels d ids);
  Database.find_direct_message_channel a b := query (fun d => Ref.find_direct_message_channel d a b);
  Database.add_user_to_group := Ref.add_user_to_group;
  Database.set_channel_role_permission := Ref.set_channel_role_permission;
  Database.update_channel := Ref.update_channel;
  Database.remove_user_from_group := Ref.remove_user_from_group;
  Database.delete_channel := Ref.delete_channel;
  Database.fetch_bot id := query (fun d => Ref.fetch_bot d id);
  Database.update_bot_joined_server := Ref.update_bot_joined_server;
  Database.fetch_emoji_by_parent_id id := query (fun d => Ref.fetch_emoji_by_parent_id d id);
  Database.insert_invite := Ref.insert_invite;
  Database.fetch_invite c := query (fun d => Ref.fetch_invite d c);
  Database.fetch_invites_for_server id := query (fun d => Ref.fetch_invites_for_server d id);
  Database.delete_invite := Ref.delete_invite;
  Database.mark_attachment_as_deleted := Ref.mark_attachment_as_deleted;
  Database.find_and_use_attachment := Ref.find_and_use_attachment |}.

(** ** Events *)

(** [UserVoiceState] and its partial form
    ([crates/core/models/src/v0/users.rs]) *)
Record UserVoiceState := {
  vs_id : string;
  vs_joined_at : Timestamp;
  vs_is_receiving : bool;
  vs_is_publishing : bool;
  vs_screensharing : bool;
  vs_camera : bool }.
Record PartialUserVoiceState := {
  pvs_id : option string;
  pvs_joined_at : option Timestamp;
  pvs_is_receiving : option bool;
  pvs_is_publishing : option bool;
  pvs_screensharing : option bool;
  pvs_camera : option bool }.
#[export] Instance PartialUserVoiceState_eq_dec : EqDecision PartialUserVoiceState.
Proof. solve_decision. Defined.

Module EventV1.
(** The events the modelled methods publish.  The voice states of
    [ServerCreate] come from Redis and are left out. *)
Inductive EventV1 : Type :=
| Message (message : v0.Message)
| MessageUpdate (id channel : string) (data : PartialMessage) (clear : list FieldsMessage)
| MessageAppend (id channel : string) (append : AppendMessage)
| MessageDelete (id channel : string)
| MessageReact (id channel_id user_id emoji_id : string)
| MessageUnreact (id channel_id user_id emoji_id : string)
| MessageRemoveReaction (id channel_id emoji_id : string)
| BulkMessageDelete (channel : string) (ids : list string)
| WebhookCreate (webhook : Webhook)
| WebhookUpdate (id : string) (data : PartialWebhook) (remove : list FieldsWebhook)
| WebhookDelete (id : string)
| EmojiCreate (emoji : Emoji)
| EmojiDelete (id : string)
| UserSettingsUpdate (id : string) (update : UserSettings)
| ServerCreate (id : string) (server : Server) (channels : list Channel) (emojis : list Emoji)
| ServerUpdate (id : string) (data : PartialServer) (clear : list FieldsServer)
| ServerDelete (id : string)
| ServerMemberUpdate (id : MemberCompositeKey) (data : PartialMember) (clear : list FieldsMember)
| ServerMemberJoin (id user : string) (member : Member)
| ServerMemberLeave (id user : string) (reason : RemovalIntention)
| ServerRoleUpdate (id role_id : string) (data : PartialRole) (clear : list FieldsRole)
| ServerRoleDelete (id role_id : string)
| ServerRoleRanksUpdate (id : string) (ranks : list string)
| UserUpdate (id : string) (data : PartialUser) (clear : list FieldsUser) (event_id : option string)
| UserRelationship (id : string) (user : User)
| ChannelCreate (channel : Channel)
| ChannelUpdate (id : string) (data : PartialChannel) (clear : list FieldsChannel)
| ChannelDelete (id : string)
| ChannelGroupJoin (id user : string)
| ChannelGroupLeave (id user : string)
| ChannelAck (id user message_id : string)
| VoiceChannelJoin (id : string) (state : UserVoiceState)
| VoiceChannelLeave (id user : string)
| UserVoiceStateUpdate (id channel_id : string) (data : PartialUserVoiceState)
| VoiceChannelMove (user from to : string) (state : UserVoiceState)
| UserMoveVoiceChannel (node from to token : string)
| Logout
| ReportCreate (report : v0.Report)
| ViewerCountUpdate (id : string) (count : Z)
| StreamMetricsUpdate (channel : string) (current_viewers peak_viewers duration_seconds : Z).
End EventV1.
Abbreviation EventV1 := EventV1.EventV1.

(** Messages to the push daemon. *)
Module Amqp.
Inductive Amqp : Type :=
| FRAccepted (accepted_user : User) (user : string)
| FRReceived (from_user : User) (user : string)
| DmCallUpdated (initiator_id channel_id : string) (started_at : option string) (ended : bool)
    (recipients : option (list string)).
End Amqp.
Abbreviation Amqp := Amqp.Amqp.

Record World (D : Type) := {
  w_db : D;
  w_events : list (string * EventV1);
  w_amqp : list Amqp;
  w_sent : list (string * SystemMessage) }.
Arguments w_db {D}.
Arguments w_events {D}.
Arguments w_amqp {D}.
Arguments w_sent {D}.

Definition world {D} (d : D) : World D :=
  {| w_db := d; w_events := []; w_amqp := []; w_sent := [] |}.

Definition w_set_db {D} (d : D) (w : World D) : World D :=
  {| w_db := d; w_events := w_events w; w_amqp := w_amqp w; w_sent := w_sent w |}.

Section Effects.
Context {D : Type} `{Database D}.
Local Abbreviation W := (M ErrorType (World D)).

(** [db.method(..).await] *)
Definition call {A} (m : M ErrorType D A) : W A := fun w =>
  let '(r, d) := m (w_db w) in (r, w_set_db d w).

Definition p (event : EventV1) (channel : string) : W unit :=
  modify (fun w => {| w_db := w_db w; w_events := w_events w ++ [(channel, event)];
                      w_amqp := w_amqp w; w_sent := w_sent w |}).

Definition private (event : EventV1) (id : string) : W unit := p event (id +:+ "!").

Definition server_topic (event : EventV1) (id : string) : W unit := p event (id +:+ "u").

Definition global (event : EventV1) : W unit := p event "global".

Fixpoint publish_to (event : EventV1) (topics : list string) : W unit :=
  match topics with
  | [] => mret tt
  | t :: ts => p event t;; publish_to event ts
  end.

(** [p_user]: the user's own topic, then every server the user is in. *)
Definition p_user (event : EventV1) (id : string) : W unit := fun w =>
  let '(r, w') := (p event id;; call (Database.fetch_all_memberships id)) w in
  match r with
  | Ok members =>
      publish_to event ((fun m => mk_server (m_id m) +:+ "u") <$> members) w'
  | Err _ => (Ok tt, w')
  | Panicked => (Panicked, w')
  end.

Definition notify (n : Amqp) : W unit :=
  modify (fun w => {| w_db := w_db w; w_events := w_events w; w_amqp := w_amqp w ++ [n];
                      w_sent := w_sent w |}).

Definition friend_request_accepted (accepted_request_user sent_request_user : User) : W unit :=
  notify (Amqp.FRAccepted accepted_request_user (u_id sent_request_user)).

Definition friend_request_received (received_request_user sent_request_user : User) : W unit :=
  notify (Amqp.FRReceived sent_request_user (u_id received_request_user)).

(** [SystemMessage::..into_message(channel).send(..).await.ok()] *)
Definition send_system (channel : string) (msg : SystemMessage) : W unit :=
  modify (fun w => {| w_db := w_db w; w_events := w_events w; w_amqp := w_amqp w;
                      w_sent := w_sent w ++ [(channel, msg)] |}).

(** Calls change the database only, publishing never does. *)
Lemma call_run {A} (m : M ErrorType D A) w : call m w = ((m (w_db w)).1, w_set_db (m (w_db w)).2 w).
Proof. unfold call. by destruct (m (w_db w)). Qed.

Lemma publish_to_run e ts w :
  exists w', publish_to e ts w = (Ok tt, w') /\ w_db w' = w_db w
    /\ w_events w' = w_events w ++ ((fun t => (t, e)) <$> ts).
Proof.
  revert w. induction ts as [|t ts IH]; intros w; simpl.
  - exists w. by rewrite app_nil_r.
  - edestruct IH as (w' & Hw & Hd & He). exists w'. split; [exact Hw|]. split; [done|].
    rewrite He. simpl. by rewrite <- app_assoc.
Qed.
End Effects.
