(* ===== verification/Users.v ===== *)
(** * User accounts
    ([crates/core/database/src/models/users/model.rs],
    [ratelimit_events/model.rs], [util/funcs.rs], the limits of
    [crates/core/config/src/lib.rs])

    Creating, renaming, editing, suspending, banning and deleting users, their
    limits and badges.  Unicode lower casing ([str::to_lowercase]), the
    homoglyph filter ([decancer]) and the time stamp of a ULID are parameters;
    the random choice of a discriminator is an index into the free ones.
    [UserDirectory] is what the naming operations need of the database beside
    [Database]; its laws are in [NameStore].  The account service ([authifier])
    is the class [Authifier].

    The theorems: a found discriminator is free and the search fails only when
    none is left; no two users ever share a name and discriminator; limits and
    badges. *)

From stdpp Require Import pretty.
From S2P Require Import Prelude Results Permissions PermissionCalc Models ModelOps DbPermissions PermissionSpec ReferenceDb World.

(** ** Limits ([FeaturesLimits], [FeaturesLimitsCollection]) *)

Record GlobalLimits := {
  gl_group_size : Z;
  gl_message_embeds : Z;
  gl_message_replies : Z;
  gl_message_reactions : Z;
  gl_server_emoji : Z;
  gl_server_roles : Z;
  gl_server_channels : Z;
  gl_new_user_hours : Z;
  gl_body_limit_size : Z }.

(** The pair of [f32] of the video aspect ratio is kept as read from the
    configuration file, a pair of decimal literals. *)
Record FeaturesLimits := {
  fl_outgoing_friend_requests : Z;
  fl_bots : Z;
  fl_message_length : Z;
  fl_message_attachments : Z;
  fl_servers : Z;
  fl_voice_quality : Z;
  fl_max_voice_bitrate : Z;
  fl_video : bool;
  fl_video_resolution : Z * Z;
  fl_video_aspect_ratio : string * string;
  fl_file_upload_size_limit : gmap string Z;
  fl_max_stream_viewers : Z;
  fl_max_server_members : Z }.

Record FeaturesLimitsCollection := {
  lc_global : GlobalLimits;
  lc_new_user : FeaturesLimits;
  lc_default : FeaturesLimits;
  lc_roles : gmap string FeaturesLimits }.

(** The default of a field that the configuration leaves out. *)
Definition default_max_voice_bitrate : Z := 128000.
Definition default_max_stream_viewers : Z := 10.
Definition default_max_server_members : Z := 100.

(** What the user code takes from outside of the repository and from Rust's
    Unicode tables. *)
Class TextServices := {
  to_lowercase : string -> string;
  cure : string -> string;                 (* decancer::cure(..).into_str() *)
  ulid_timestamp_ms : string -> option Z   (* Ulid::from_str(..).timestamp_ms() *) }.

(** [str::contains] *)
Definition str_contains (s substr : string) : bool := bool_decide (is_Some (String.index 0 substr s)).

Section Pure.
Context `{TextServices}.

Definition tier_role_key (tier : SubscriptionTier) : option string :=
  match tier with
  | SubscriptionTier.Basic => Some "basic"
  | SubscriptionTier.Pro => Some "pro"
  | SubscriptionTier.Ultra => Some "ultra"
  | SubscriptionTier.Free => None
  end.

(** [User::limits]; [now_secs] and [now_ns] are the two clock readings, in
    seconds and nanoseconds since the epoch.  [expect] panics. *)
Definition limits (limits : FeaturesLimitsCollection) (now_secs now_ns : Z) (self : User)
    : Result FeaturesLimits :=
  let by_role :=
    match tier_role_key (active_subscription_tier now_secs self) with
    | Some key =>
        match lc_roles limits !! key with
        | Some tier_limits => Some tier_limits
        | None => lc_roles limits !! "premium"
        end
    | None => None
    end in
  match by_role with
  | Some l => Ok l
  | None =>
      match ulid_timestamp_ms (u_id self) with
      | None => Panicked
      | Some created =>
          let elapsed := now_ns - created * 10 ^ 6 in
          if elapsed <? 0 then Panicked
          else if elapsed <=? 3600 * gl_new_user_hours (lc_global limits) * 10 ^ 9
          then Ok (lc_new_user limits) else Ok (lc_default limits)
      end
  end.

Definition max_voice_bitrate c now_secs now_ns (self : User) : Result Z :=
  l ← limits c now_secs now_ns self; Ok (fl_max_voice_bitrate l).
Definition max_stream_viewers c now_secs now_ns (self : User) : Result Z :=
  l ← limits c now_secs now_ns self; Ok (fl_max_stream_viewers l).
Definition max_server_members c now_secs now_ns (self : User) : Result Z :=
  l ← limits c now_secs now_ns self; Ok (fl_max_server_members l).

Definition BLOCKED_USERNAMES : list string := ["admin"; "revolt"].
Definition BLOCKED_SUBSTRINGS : list string :=
  ["```"; "discord.gg"; "company.earthservers.net"; "guilded.gg"; "https://"; "http://"].

(** [User::validate_username] *)
Definition validate_username (username : string) : Result string :=
  let username_lowercase := to_lowercase username in
  if negb (bool_decide (cure username_lowercase = username_lowercase))
  then Err ErrorType.InvalidUsername
  else if contains username_lowercase BLOCKED_USERNAMES then Err ErrorType.InvalidUsername
  else if existsb (str_contains username_lowercase) BLOCKED_SUBSTRINGS
  then Err ErrorType.InvalidUsername
  else Ok username.

(** [{:0>4}] *)
Definition pad4 (v : Z) : string :=
  let s := pretty v in
  match String.length s with
  | 0%nat => "0000" | 1%nat => "000" +:+ s | 2%nat => "00" +:+ s | 3%nat => "0" +:+ s
  | _ => s
  end.

(** [DISCRIMINATOR_SEARCH_SPACE] *)
Definition RESERVED_DISCRIMINATORS : list Z :=
  [123; 1234; 1111; 2222; 3333; 4444; 5555; 6666; 7777; 8888; 9999; 1488].
Definition DISCRIMINATOR_SEARCH_SPACE : list string :=
  pad4 <$> filter (fun v => v ∉ RESERVED_DISCRIMINATORS) (seqZ 2 9997).

(** [User::get_badges]; [cutoff] is [early_adopter_cutoff], the sum is at 32 bits. *)
Definition EarlyAdopter : Z := 256.
Definition get_badges (cutoff : option Z) (self : User) : Result Z :=
  let badges := default 0 (u_badges self) mod 2 ^ 32 in
  match cutoff with
  | Some cutoff =>
      match ulid_timestamp_ms (u_id self) with
      | None => Panicked
      | Some created =>
          if created <? cutoff then Ok ((badges + EarlyAdopter) mod 2 ^ 32) else Ok badges
      end
  | None => Ok badges
  end.
End Pure.

(** ** Operations *)

Class UserDirectory (D : Type) := {
  fetch_discriminators_in_use : string -> M ErrorType D (list string);
  (** target, type, start of the period, count *)
  has_ratelimited : string -> RatelimitEventType -> string -> Z -> M ErrorType D bool;
  insert_ratelimit_event : RatelimitEvent -> M ErrorType D unit;
  fetch_bot_by_token : string -> M ErrorType D Bot;
  (** the identifiers of the user and of the session *)
  fetch_session_by_token : string -> M ErrorType D (string * string) }.

Module UserHint.
Inductive UserHint : Type := Any | Bot | User.
End UserHint.
Abbreviation UserHint := UserHint.UserHint.

Module UserFlags.
Inductive UserFlags : Type := SuspendedUntil | Deleted | Banned | Spam.
Definition value (f : UserFlags) : Z :=
  match f with SuspendedUntil => 1 | Deleted => 2 | Banned => 4 | Spam => 8 end.
End UserFlags.

(** [map_err(|_| e)] *)
Definition map_err {S A} (e : ErrorType) (m : M ErrorType S A) : M ErrorType S A := fun s =>
  match m s with (Err _, s') => (Err e, s') | r => r end.

Section Operations.
Context {D : Type} `{Database D} `{UserDirectory D} `{TextServices}.
Context `{OptionalStruct User PartialUser}.
Local Abbreviation W := (M ErrorType (World D)).

(** [RatelimitEvent::create] *)
Definition create_ratelimit_event (id target_id : string) (event_type : RatelimitEventType) : W unit :=
  call (insert_ratelimit_event
          {| re_id := id; re_target_id := target_id; re_event_type := event_type |}).

(** [User::find_discriminator]: [since] is the ULID of 24 hours ago, [event_id]
    the identifier drawn for the event, [r] the random number. *)
Definition find_discriminator (since event_id : string) (r : nat) (username : string)
    (preferred : option (string * string)) : W string :=
  used ← call (fetch_discriminators_in_use username);
  let available := filter (fun x => x ∉ (used : list string)) DISCRIMINATOR_SEARCH_SPACE in
  let choose : W string :=
    match available !! (r mod length available)%nat with
    | Some x => mret x
    | None => panic
    end in
  if bool_decide (available = []) then throw ErrorType.UsernameTaken else
  match preferred with
  | Some (preferred, target_id) =>
      if contains preferred available then mret preferred
      else
        limited ← call (has_ratelimited target_id RatelimitEventType.DiscriminatorChange since 1);
        if (limited : bool) then throw ErrorType.DiscriminatorChangeRatelimited
        else
          create_ratelimit_event event_id target_id RatelimitEventType.DiscriminatorChange;;
          choose
  | None => choose
  end.

Definition User_default : User := {|
  u_id := ""; u_username := ""; u_discriminator := ""; u_display_name := None; u_avatar := None;
  u_relations := None; u_badges := None; u_status := None; u_profile := None; u_flags := None;
  u_privileged := false; u_bot := None; u_suspended_until := None;
  u_last_acknowledged_policy_change := 0; u_subscription := None; u_active_decorations := None;
  u_presence_style := None |}.

(** A new account; [now] is the time of the last acknowledged policy change. *)
Definition new_user (id username discriminator : string) (now : Timestamp) : User := {|
  u_id := id; u_username := username; u_discriminator := discriminator; u_display_name := None;
  u_avatar := None; u_relations := None; u_badges := None; u_status := None; u_profile := None;
  u_flags := None; u_privileged := false; u_bot := None; u_suspended_until := None;
  u_last_acknowledged_policy_change := now; u_subscription := None;
  u_active_decorations := None; u_presence_style := None |}.

(** [User::create]: [id] is the account id or a drawn ULID. *)
Definition user_create (since event_id : string) (r : nat) (now : Timestamp) (username id : string)
    (data : option PartialUser) : W User :=
  username ← lift_outcome (validate_username username);
  discriminator ← find_discriminator since event_id r username None;
  let user := new_user id username discriminator now in
  let user := match data with Some data => apply_options user data | None => user end in
  call (Database.insert_user user);;
  mret user.

(** [User::update]: [event_id] is the drawn id of the event. *)
Definition user_update (event_id : string) (self : User) (partial : PartialUser)
    (remove : list FieldsUser) : W User :=
  let self := apply_options (foldl user_remove_field self remove) partial in
  call (Database.update_user (u_id self) partial remove);;
  p_user (EventV1.UserUpdate (u_id self) partial remove (Some event_id)) (u_id self);;
  mret self.

(** [PartialUser] with a name, and with a name and a discriminator. *)
Definition PartialUser_name (username : string) (discriminator : option string) : PartialUser := {|
  pu_id := None; pu_username := Some username; pu_discriminator := discriminator;
  pu_display_name := None; pu_avatar := None; pu_relations := None; pu_badges := None;
  pu_status := None; pu_profile := None; pu_flags := None; pu_privileged := None; pu_bot := None;
  pu_suspended_until := None; pu_last_acknowledged_policy_change := None;
  pu_subscription := None; pu_active_decorations := None; pu_presence_style := None |}.

(** [User::update_username] *)
Definition update_username (since rl_id event_id : string) (r : nat) (self : User)
    (username : string) : W User :=
  username ← lift_outcome (validate_username username);
  if bool_decide (to_lowercase (u_username self) = to_lowercase username)
  then user_update event_id self (PartialUser_name username None) []
  else
    discriminator ← find_discriminator since rl_id r username (Some (u_discriminator self, u_id self));
    user_update event_id self (PartialUser_name username (Some discriminator)) [].

(** [PartialUser] with flags. *)
Definition PartialUser_flags (username : option string) (flags : Z) (suspended_until : option Timestamp)
    : PartialUser := {|
  pu_id := None; pu_username := username; pu_discriminator := None;
  pu_display_name := None; pu_avatar := None; pu_relations := None; pu_badges := None;
  pu_status := None; pu_profile := None; pu_flags := Some flags; pu_privileged := None;
  pu_bot := None; pu_suspended_until := suspended_until;
  pu_last_acknowledged_policy_change := None;
  pu_subscription := None; pu_active_decorations := None; pu_presence_style := None |}.

(** [User::mark_deleted] *)
Definition mark_deleted (event_id : string) (self : User) : W User :=
  user_update event_id self
    (PartialUser_flags (Some ("Deleted User " +:+ u_id self)) 2 None)
    [FieldsUser.Avatar; FieldsUser.StatusText; FieldsUser.StatusPresence;
     FieldsUser.ProfileContent; FieldsUser.ProfileBackground; FieldsUser.Suspension].

(** [User::can_acquire_server] *)
Definition can_acquire_server (own_limits : Result FeaturesLimits) (self : User) : W unit :=
  l ← lift_outcome own_limits;
  count ← call (Database.fetch_owned_server_count (u_id self));
  if count <? fl_servers l then mret tt
  else throw (ErrorType.TooManyServers (fl_servers l)
                ("You've reached your server limit of " +:+ pretty (fl_servers l)
                 +:+ ". Upgrade your subscription to create more servers.")).

(** [User::from_token]: [UserHint::Any] tries a user session, then a bot. *)
Definition from_token_bot (token : string) : W (User * string) :=
  bot ← map_err ErrorType.InvalidSession (call (fetch_bot_by_token token));
  user ← call (Database.fetch_user (b_id bot));
  mret (user, "").
Definition from_token_user (token : string) : W (User * string) :=
  session ← call (fetch_session_by_token token);
  user ← call (Database.fetch_user session.1);
  mret (user, session.2).
Definition from_token (token : string) (hint : UserHint) : W (User * string) :=
  match hint with
  | UserHint.Bot => from_token_bot token
  | UserHint.User => from_token_user token
  | UserHint.Any => fun w =>
      match from_token_user token w with
      | (Err _, w') => from_token_bot token w'
      | r => r
      end
  end.

(** [format_display_name] *)
Definition format_display_name (user_id : string) (server_id : option string) : W string :=
  let by_user : W string :=
    user ← call (Database.fetch_user user_id);
    match u_display_name user with
    | Some display => mret display
    | None => mret (u_username user +:+ "#" +:+ u_discriminator user)
    end in
  match server_id with
  | Some server_id =>
      member ← call (Database.fetch_member server_id user_id);
      match m_nickname member with Some nick => mret nick | None => by_user end
  | None => by_user
  end.
End Operations.

(** ** Suspension and bans, through the account service *)

Record Account := { ac_id : string; ac_email : string; ac_disabled : bool }.

(** The calls of the [authifier] crate; [smtp] is [None] when e-mail is not
    configured, an e-mail is an address, a title and its text. *)
Class Authifier (D : Type) := {
  find_account : string -> M ErrorType D Account;
  disable : Account -> M ErrorType D Account;
  delete_all_sessions : Account -> M ErrorType D unit;
  save_account : Account -> M ErrorType D unit;
  smtp : option (string -> string -> string -> Result unit) }.

Section Suspension.
Context {D : Type} `{Database D} `{Authifier D} `{OptionalStruct User PartialUser}.
Local Abbreviation W := (M ErrorType (World D)).
Local Abbreviation internal := (map_err ErrorType.InternalError).

(** Disable the account and end its sessions. *)
Definition close_account (self : User) : W Account :=
  account ← internal (call (find_account (u_id self)));
  account ← internal (call (disable account));
  internal (call (delete_all_sessions account));;
  mret account.

Definition send_email (account : Account) (title text : string) : W unit :=
  match smtp with
  | Some send => internal (lift_outcome (send (ac_email account) title text))
  | None => mret tt
  end.

(** [User::suspend]: [until] is the end of the suspension, the present plus the
    duration in days. *)
Definition suspend (event_id : string) (self : User) (until : option Timestamp)
    (reason : option string) : W User :=
  account ← close_account self;
  self ← user_update event_id self
           (PartialUser_flags None (UserFlags.value UserFlags.SuspendedUntil) until) [];
  match reason with
  | Some reason => send_email account "Account Suspension" reason;; mret self
  | None => mret self
  end.

(** [User::unsuspend] *)
Definition unsuspend (event_id : string) (self : User) : W User :=
  account ← internal (call (find_account (u_id self)));
  internal (call (save_account {| ac_id := ac_id account; ac_email := ac_email account;
                                  ac_disabled := false |}));;
  user_update event_id self (PartialUser_flags None 0 None) [FieldsUser.Suspension].

(** [User::ban] *)
Definition user_ban (event_id : string) (self : User) (reason : option string) : W User :=
  account ← close_account self;
  self ← user_update event_id self
           (PartialUser_flags None (UserFlags.value UserFlags.Banned) None) [FieldsUser.Suspension];
  match reason with
  | Some reason => send_email account "Account Banned" reason;; mret self
  | None => mret self
  end.
End Suspension.

(** ** What naming needs of the database *)

Class NameStore (D : Type) `{Database D} `{UserDirectory D} `{TextServices}
    `{OptionalStruct User PartialUser} := {
  users : D -> gmap string User;
  (** the discriminators in use are those of the users of that name *)
  in_use_run : forall name d,
    exists l, fetch_discriminators_in_use name d = (Ok l, d)
      /\ forall x, x ∈ l <-> exists id u, users d !! id = Some u
           /\ to_lowercase (u_username u) = to_lowercase name /\ u_discriminator u = x;
  insert_user_run : forall u d,
    match Database.insert_user u d with
    | (Ok _, d') => users d !! u_id u = None /\ users d' = <[u_id u := u]> (users d)
    | (_, d') => users d' = users d
    end;
  update_user_run : forall id partial remove d,
    match Database.update_user id partial remove d with
    | (Ok _, d') => exists u, users d !! id = Some u
        /\ users d' = <[id := apply_options (foldl user_remove_field u remove) partial]> (users d)
    | (_, d') => users d' = users d
    end;
  (** calls about other collections leave the users alone *)
  has_ratelimited_users : forall t e s c d, users (has_ratelimited t e s c d).2 = users d;
  insert_event_users : forall e d, users (insert_ratelimit_event e d).2 = users d;
  memberships_users : forall u d, users (Database.fetch_all_memberships u d).2 = users d }.

(** The reference database; it does not implement sessions. *)
#[export] Instance reference_user_directory `{HashOrder} `{TextServices} : UserDirectory ReferenceDb := {|
  fetch_discriminators_in_use name := query (fun d => Ref.fetch_discriminators_in_use to_lowercase d name);
  has_ratelimited t e since c := query (fun d => Ref.has_ratelimited since d t e c);
  insert_ratelimit_event := Ref.insert_ratelimit_event;
  fetch_bot_by_token t := query (fun d => Ref.fetch_bot_by_token d t);
  fetch_session_by_token _ := panic |}.

#[export] Program Instance reference_name_store `{HashOrder} `{TextServices}
    `{OptionalStruct Server PartialServer} `{OptionalStruct Role PartialRole}
    `{OptionalStruct Member PartialMember} `{OptionalStruct User PartialUser}
    : NameStore ReferenceDb := {| users := db_users |}.
Next Obligation.
  intros HO TS OS OR OM OU name d. eexists. split; [reflexivity|].
  intros x. rewrite list_elem_of_fmap. split.
  - intros (u & -> & [Hu Hv]%list_elem_of_filter). apply elem_of_hm_values in Hv as [k Hk].
    by exists k, u.
  - intros (id & u & Hu & Hn & <-). exists u. split; [done|].
    apply list_elem_of_filter. split; [done|]. apply elem_of_hm_values. by exists id.
Qed.
Next Obligation.
  intros HO TS OS OR OM OU u d. simpl. unfold Ref.insert_user, insert_new.
  by destruct (db_users d !! u_id u) eqn:E.
Qed.
Next Obligation.
  intros HO TS OS OR OM OU id partial remove d. simpl. unfold Ref.update_user, with_mut.
  destruct (db_users d !! id) as [u|] eqn:E; [|done]. by exists u.
Qed.
Next Obligation. done. Qed.
Next Obligation.
  intros HO TS OS OR OM OU e d. simpl. unfold Ref.insert_ratelimit_event, insert_new.
  by destruct (db_ratelimit_events d !! re_id e).
Qed.
Next Obligation. done. Qed.

(** ** Discriminators *)

Section Naming.
Context {D : Type} `{NameStore D}.

(** No stored user has the name, up to case, and the discriminator. *)
Definition tag_free (d : D) (name discriminator : string) : Prop :=
  forall id u, users d !! id = Some u ->
    to_lowercase (u_username u) = to_lowercase name -> u_discriminator u <> discriminator.

(** Everything the search for a discriminator can do. *)
Lemma find_discriminator_run since event_id r name preferred w :
  match find_discriminator since event_id r name preferred w with
  | (Ok x, w') => users (w_db w') = users (w_db w) /\ tag_free (w_db w) name x
                  /\ x ∈ DISCRIMINATOR_SEARCH_SPACE
  | (_, w') => users (w_db w') = users (w_db w)
  end.
Proof.
  unfold find_discriminator. destruct (in_use_run name (w_db w)) as (used & E & Hused).
  erewrite M_bind_ok by (rewrite call_run, E; reflexivity). simpl.
  set (available := filter _ DISCRIMINATOR_SEARCH_SPACE).
  assert (forall x, x ∈ available -> tag_free (w_db w) name x /\ x ∈ DISCRIMINATOR_SEARCH_SPACE) as Hfree.
  { intros x [Hx Hs]%list_elem_of_filter. split; [|done]. intros id u Hu Hn Hd.
    apply Hx, Hused. by exists id, u. }
  assert (forall x, available !! (r mod length available)%nat = Some x ->
    tag_free (w_db w) name x /\ x ∈ DISCRIMINATOR_SEARCH_SPACE) as Hchoose
    by (intros x Hx; by eapply Hfree, list_elem_of_lookup_2).
  case_bool_decide as Hne; [done|]. destruct preferred as [[pref target]|].
  - destruct (contains pref available) eqn:Hc.
    { split; [done|]. by apply Hfree, contains_spec. }
    unfold mbind, M_bind. rewrite call_run. simpl.
    pose proof (has_ratelimited_users target RatelimitEventType.DiscriminatorChange since 1 (w_db w)) as Hl.
    destruct (has_ratelimited _ _ _ _ _) as [[[]|e|] d1]; simpl in *; try done.
    unfold create_ratelimit_event. rewrite call_run. simpl.
    pose proof (insert_event_users {| re_id := event_id; re_target_id := target;
      re_event_type := RatelimitEventType.DiscriminatorChange |} d1) as Hi.
    destruct (insert_ratelimit_event _ _) as [[[]|e|] d2]; simpl in *; try congruence.
    destruct (available !! _) as [x|] eqn:Ex; simpl; [|congruence].
    split; [congruence|]. by apply Hchoose.
  - destruct (available !! _) as [x|] eqn:Ex; simpl; [|done]. split; [done|]. by apply Hchoose.
Qed.

(** The search for a discriminator of a new name is complete: it returns one
    of the permitted discriminators that no user of that name has, and it fails,
    with [UsernameTaken] and no effect, exactly when there is none left; it
    never panics. *)
Theorem discriminator_search_complete since event_id r name w :
  match find_discriminator since event_id r name None w with
  | (Ok x, w') => w' = w /\ x ∈ DISCRIMINATOR_SEARCH_SPACE /\ tag_free (w_db w) name x
  | (Err e, w') => w' = w /\ e = ErrorType.UsernameTaken
                   /\ forall x, x ∈ DISCRIMINATOR_SEARCH_SPACE -> ~ tag_free (w_db w) name x
  | (Panicked, _) => False
  end.
Proof.
  pose proof (find_discriminator_run since event_id r name None w) as Hrun.
  unfold find_discriminator in *. destruct (in_use_run name (w_db w)) as (used & E & Hused).
  erewrite !M_bind_ok in * by (rewrite call_run, E; reflexivity). simpl in *.
  assert (w_set_db (w_db w) w = w) as Hw by by destruct w. rewrite Hw in *.
  set (available := filter _ DISCRIMINATOR_SEARCH_SPACE) in *.
  case_bool_decide as Hav.
  - split; [done|]. split; [done|]. intros x Hx Hfree.
    assert (x ∈ available) as Hin; [|rewrite Hav in Hin; by apply not_elem_of_nil in Hin].
    apply list_elem_of_filter. split; [|done]. intros (id & u & Hu & Hn & Hd)%Hused.
    by eapply Hfree.
  - destruct (available !! (r mod length available)%nat) as [x|] eqn:Ex; simpl in *; [tauto|].
    apply lookup_ge_None in Ex. destruct available as [|a l]; [done|].
    pose proof (Nat.mod_upper_bound r (length (a :: l))). simpl in *. lia.
Qed.

(** ** Names are unique *)

(** Users are stored under their identifier, and no two of them have the same
    name, up to case, and discriminator. *)
Definition names_ok (d : D) : Prop :=
  (forall i u, users d !! i = Some u -> u_id u = i)
  /\ forall i j u v, users d !! i = Some u -> users d !! j = Some v ->
       to_lowercase (u_username u) = to_lowercase (u_username v) ->
       u_discriminator u = u_discriminator v -> i = j.

(** A partial user that sets neither identifier, name nor discriminator. *)
Definition nameless (partial : PartialUser) : Prop :=
  pu_id partial = None /\ pu_username partial = None /\ pu_discriminator partial = None.

(** The operations on accounts, with any parameters; [self] is the copy the
    handler fetched. *)
Inductive name_step (w : World D) : World D -> Prop :=
| step_create since event_id r now username id data :
    (forall partial, data = Some partial -> nameless partial) ->
    name_step w (user_create since event_id r now username id data w).2
| step_rename since rl_id event_id r self username :
    users (w_db w) !! u_id self = Some self ->
    name_step w (update_username since rl_id event_id r self username w).2
| step_update event_id self partial remove :
    users (w_db w) !! u_id self = Some self -> nameless partial ->
    name_step w (user_update event_id self partial remove w).2.

Lemma names_ok_ext d d' : users d' = users d -> names_ok d -> names_ok d'.
Proof. unfold names_ok. by intros ->. Qed.

(** Writing a user whose name and discriminator nobody else has. *)
Lemma names_ok_insert d d' id u :
  names_ok d -> u_id u = id -> users d' = <[id := u]> (users d) ->
  (forall j v, users d !! j = Some v -> j <> id ->
     to_lowercase (u_username v) = to_lowercase (u_username u) ->
     u_discriminator v <> u_discriminator u) ->
  names_ok d'.
Proof.
  intros [Hid Huniq] Hu Hd Hfree. unfold names_ok. rewrite Hd. split.
  - intros i v [[<- <-]|[_ Hv]]%lookup_insert_Some; [done|by apply Hid].
  - intros i j v v' [[<- <-]|[Hi Hv]]%lookup_insert_Some [[<- <-]|[Hj Hv']]%lookup_insert_Some Hn Hdisc.
    + done.
    + exfalso. eapply Hfree; eauto.
    + exfalso. eapply Hfree; eauto.
    + by eapply Huniq.
Qed.

Lemma removed_fields_name u remove :
  let u' := foldl user_remove_field u remove in
  u_id u' = u_id u /\ u_username u' = u_username u /\ u_discriminator u' = u_discriminator u.
Proof.
  revert u. induction remove as [|f l IH]; intros u; [done|]. simpl.
  destruct (IH (user_remove_field u f)) as (-> & -> & ->).
  destruct f; simpl; try done; by destruct (u_status u), (u_profile u).
Qed.

Lemma p_user_users event id w : users (w_db (p_user event id w).2) = users (w_db w).
Proof.
  unfold p_user, p, mbind, M_bind, modify. simpl. rewrite call_run. simpl.
  pose proof (memberships_users id (w_db w)) as Hm.
  destruct (Database.fetch_all_memberships id (w_db w)) as [[l|e|] d']; simpl in *; try done.
  match goal with
  | |- context [publish_to ?e ?ts ?w0] => destruct (publish_to_run e ts w0) as (w' & -> & Hw & _)
  end. simpl. by rewrite Hw.
Qed.

(** What an update leaves in the table of users. *)
Lemma user_update_users event_id self partial remove w :
  let self' := apply_options (foldl user_remove_field self remove) partial in
  let w' := (user_update event_id self partial remove w).2 in
  users (w_db w') = users (w_db w)
  \/ exists u, users (w_db w) !! u_id self' = Some u
     /\ users (w_db w')
        = <[u_id self' := apply_options (foldl user_remove_field u remove) partial]> (users (w_db w)).
Proof.
  simpl. unfold user_update, mbind, M_bind. set (self' := apply_options _ _). rewrite call_run.
  pose proof (update_user_run (u_id self') partial remove (w_db w)) as Hrun.
  destruct (Database.update_user _ _ _ _) as [[[]|e|] d'] eqn:E; simpl; [right|by left|by left].
  destruct Hrun as (u & Hu & Hd'). exists u. split; [done|]. rewrite <- Hd'.
  pose proof (p_user_users (EventV1.UserUpdate (u_id self') partial remove (Some event_id))
    (u_id self') (w_set_db d' w)) as Hp.
  destruct (p_user _ _ _) as [[[]|e|] w2]; exact Hp.
Qed.
End Naming.

Section Uniqueness.
Context {D : Type} `{NameStore D} {UL : UserOptionalLaws}.

Lemma create_names since event_id r now username id data (w : World D) :
  (forall partial, data = Some partial -> nameless partial) -> names_ok (w_db w) ->
  names_ok (w_db (user_create since event_id r now username id data w).2).
Proof using UL.
  intros Hdata Hok. unfold user_create.
  destruct (validate_username username) as [name|e|]; [|done|done].
  rewrite (M_bind_ok _ _ w name w) by done. unfold mbind at 1, M_bind at 1.
  pose proof (find_discriminator_run since event_id r name None w) as Hf.
  destruct (find_discriminator _ _ _ _ _ _) as [[x|e|] w1]; simpl;
    [|by eapply names_ok_ext|by eapply names_ok_ext].
  destruct Hf as (Hu1 & Hfree & _). unfold mbind, M_bind. rewrite call_run.
  set (user := match data with Some _ => _ | None => _ end).
  assert (u_id user = id /\ u_username user = name /\ u_discriminator user = x) as (Hi & Hn & Hx).
  { unfold user. destruct data as [partial|]; [|done].
    destruct (Hdata partial eq_refl) as (E1 & E2 & E3).
    by rewrite u_id_applied, u_username_applied, u_discriminator_applied, E1, E2, E3. }
  pose proof (insert_user_run user (w_db w1)) as Hins.
  destruct (Database.insert_user user (w_db w1)) as [[[]|e|] d']; simpl in *;
    [|by eapply names_ok_ext; [rewrite Hins|]; eauto..].
  destruct Hins as [_ Hd'].
  eapply (names_ok_insert (w_db w1)); [by eapply names_ok_ext|exact Hi|by rewrite <- Hi|].
  intros j v Hv _. rewrite Hu1 in Hv. rewrite Hn, Hx. by apply (Hfree j).
Qed.

Lemma update_names event_id self partial remove (w : World D) :
  users (w_db w) !! u_id self = Some self -> pu_id partial = None -> names_ok (w_db w) ->
  (forall name x, name = default (u_username self) (pu_username partial) ->
     x = default (u_discriminator self) (pu_discriminator partial) ->
     forall j v, users (w_db w) !! j = Some v -> j <> u_id self ->
       to_lowercase (u_username v) = to_lowercase name -> u_discriminator v <> x) ->
  names_ok (w_db (user_update event_id self partial remove w).2).
Proof using UL.
  intros Hself Hid Hok Hfree.
  destruct (removed_fields_name self remove) as (Ei & En & Ed).
  assert (u_id (apply_options (foldl user_remove_field self remove) partial) = u_id self) as Eid
    by by rewrite u_id_applied, Hid.
  destruct (user_update_users event_id self partial remove w) as [Hsame|(u & Hu & Hw)];
    [by eapply names_ok_ext|].
  rewrite Eid in Hu, Hw. rewrite Hself in Hu. injection Hu as <-.
  eapply names_ok_insert; [exact Hok|exact Eid|exact Hw|].
  intros j v Hv Hj Hn. rewrite u_username_applied, En in Hn. rewrite u_discriminator_applied, Ed.
  eapply (Hfree _ _ eq_refl eq_refl j); [done|done|]. by destruct (pu_username partial).
Qed.

Lemma rename_names since rl_id event_id r self username (w : World D) :
  users (w_db w) !! u_id self = Some self -> names_ok (w_db w) ->
  names_ok (w_db (update_username since rl_id event_id r self username w).2).
Proof using UL.
  intros Hself Hok. unfold update_username.
  destruct (validate_username username) as [name|e|]; [|done|done].
  rewrite (M_bind_ok _ _ w name w) by done. case_bool_decide as Hcase.
  - apply update_names; [done|done|done|]. simpl. intros ? ? -> -> j v Hv Hj Hn Hd.
    destruct Hok as [_ Huniq]. apply Hj. eapply Huniq; [done|done| |done]. congruence.
  - unfold mbind at 1, M_bind at 1.
    pose proof (find_discriminator_run since rl_id r name (Some (u_discriminator self, u_id self)) w) as Hf.
    destruct (find_discriminator _ _ _ _ _ _) as [[x|e|] w1]; simpl;
      [|by eapply names_ok_ext|by eapply names_ok_ext].
    destruct Hf as (Hu & Hfree & _).
    apply update_names; [by rewrite Hu|done|by eapply names_ok_ext|]. simpl.
    intros ? ? -> -> j v Hv _. rewrite Hu in Hv. by apply (Hfree j).
Qed.

(** C33: No two users ever share a name and discriminator: every sequence of
    account creations, renamings and profile edits, failing or not, keeps the
    pairs of lower-cased name and discriminator unique. *)
Theorem names_stay_unique w w' :
  names_ok (w_db w) -> rtc name_step w w' -> names_ok (w_db w').
Proof using UL.
  intros Hok Hr. induction Hr as [|w1 w2 w3 Hs _ IH]; [done|]. apply IH. clear IH w3.
  destruct Hs as [? ? ? ? ? ? ? Hdata|? ? ? ? self ? Hself|? self partial remove Hself Hpart].
  - by apply create_names.
  - by apply rename_names.
  - destruct Hpart as (E1 & E2 & E3). apply update_names; [done|done|done|].
    rewrite E2, E3. simpl. intros ? ? -> -> j v Hv Hj Hn Hd. destruct Hok as [_ Huniq].
    by apply Hj, (Huniq j (u_id self) v self).
Qed.
End Uniqueness.

(** ** Badges *)

(** The badges of an early adopter are the stored ones with the early adopter
    bit added exactly when the bit is not stored already; when it is, the sum
    turns it into the next badge. *)
Theorem early_adopter_badge `{TextServices} (u : User) b created cutoff :
  u_badges u = Some b -> 0 <= b < 2 ^ 31 -> ulid_timestamp_ms (u_id u) = Some created ->
  created < cutoff ->
  get_badges (Some cutoff) u = Ok (Z.lor b EarlyAdopter) <-> Z.testbit b 8 = false.
Proof.
  intros Hb Hr Hc Hlt. unfold get_badges. rewrite Hb, Hc. cbn [default from_option id].
  rewrite (proj2 (Z.ltb_lt _ _)) by done. rewrite (Z.mod_small b) by lia.
  rewrite (Z.mod_small (b + EarlyAdopter)) by (unfold EarlyAdopter; lia).
  pose proof (Z.add_lor_land b EarlyAdopter) as Hsum.
  assert (Z.land b EarlyAdopter = if Z.testbit b 8 then EarlyAdopter else 0) as Hland.
  { change EarlyAdopter with (2 ^ 8). apply Z.bits_inj'. intros n Hn.
    rewrite Z.land_spec, Z.pow2_bits_eqb by lia. destruct (Z.eqb_spec 8 n) as [<-|Hne].
    - by destruct (Z.testbit b 8).
    - rewrite andb_false_r. destruct (Z.testbit b 8); [|by rewrite Z.bits_0].
      rewrite Z.pow2_bits_eqb by lia. by rewrite (proj2 (Z.eqb_neq _ _)). }
  unfold EarlyAdopter in *. destruct (Z.testbit b 8); split; intros E; try done.
  - exfalso. injection E as E. rewrite <- E in Hsum. lia.
  - f_equal. rewrite Hland in Hsum. lia.
Qed.

(** ** Witnesses *)

Module UserWitness.
Import SomePriority.

(** Lower casing of ASCII letters; no homoglyphs; every identifier is a ULID of
    the epoch. *)
Definition lower_ascii (c : Ascii.ascii) : Ascii.ascii :=
  let n := Ascii.nat_of_ascii c in
  if (Nat.leb 65 n && Nat.leb n 90)%nat then Ascii.ascii_of_nat (n + 32) else c.
Fixpoint lower (s : string) : string :=
  match s with EmptyString => EmptyString | String c s => String (lower_ascii c) (lower s) end.
#[export] Instance ascii_services : TextServices :=
  {| to_lowercase := lower; cure s := s; ulid_timestamp_ms _ := Some 0 |}.

Definition alice : User := new_user "a" "Alice" "0002" 0.
Definition w0 : World ReferenceDb := world (set_users {[ "a" := alice ]} ReferenceDb_default).

Lemma w0_names_ok : names_ok (w_db w0).
Proof.
  assert (forall i u, users (w_db w0) !! i = Some u -> i = "a" /\ u = alice) as Hu
    by (intros i u Hi; change (({[ "a" := alice ]} : gmap string User) !! i = Some u) in Hi;
        by apply lookup_singleton_Some in Hi as [<- <-]).
  split.
  - by intros i u [-> ->]%Hu.
  - by intros i j u v [-> ->]%Hu [-> ->]%Hu.
Qed.

(** A second alice registers, and the first renames herself. *)
Definition w1 : World ReferenceDb := (user_create "0" "e" 0 0 "alice" "b" None w0).2.
Definition w2 : World ReferenceDb := (update_username "0" "e" "f" 0 alice "Bob" w1).2.

Lemma names_stay_unique_witness :
  names_ok (w_db w0) /\ rtc name_step w0 w2 /\ names_ok (w_db w2).
Proof.
  assert (rtc name_step w0 w2) as Hr.
  { eapply rtc_l; [apply (step_create w0 "0" "e" 0 0 "alice" "b" None); done|].
    apply rtc_once. unfold w2. apply step_rename. vm_compute. reflexivity. }
  split; [exact w0_names_ok|]. split; [exact Hr|].
  exact (names_stay_unique w0 w2 w0_names_ok Hr).
Defined.

(** The second alice got another discriminator. *)
Example second_alice :
  u_discriminator <$> db_users (w_db w1) !! "b" = Some "0003"
  /\ u_username <$> db_users (w_db w2) !! "a" = Some "Bob".
Proof. vm_compute. split; reflexivity. Qed.

Definition adopter : User := apply_options alice
  {| pu_id := None; pu_username := None; pu_discriminator := None; pu_display_name := None;
     pu_avatar := None; pu_relations := None; pu_badges := Some 256; pu_status := None;
     pu_profile := None; pu_flags := None; pu_privileged := None; pu_bot := None;
     pu_suspended_until := None; pu_last_acknowledged_policy_change := None;
     pu_subscription := None; pu_active_decorations := None; pu_presence_style := None |}.

Lemma early_adopter_badge_witness :
  get_badges (Some 1) adopter = Ok (Z.lor 256 EarlyAdopter) <-> Z.testbit 256 8 = false.
Proof.
  exact (early_adopter_badge adopter 256 0 1 eq_refl ltac:(lia) eq_refl ltac:(lia)).
Defined.

(** The early adopter is shown the next badge, without the one stored. *)
Example early_adopter_shifted : get_badges (Some 1) adopter = Ok 512.
Proof. reflexivity. Qed.
End UserWitness.
