(* ===== verification/Relationships.v ===== *)
(** * Relationships between users
    ([crates/core/database/src/models/users/model.rs])

    [set_relationship], [apply_relationship] and the four operations a user can
    call: [add_friend], [remove_friend], [block_user], [unblock_user].  The
    objects [self] and [target] are the copies the request handler fetched; a
    method returns them as it left them.  [RelationshipStore] is what the
    operations need of the database; the theorems are proved against it and the
    reference database is an instance.

    The theorems: the operations implement the transition table of a pair of
    users, every reachable pair is consistent, other pairs are left alone, and
    what happens when two requests are interleaved. *)

From S2P Require Import Prelude Results Permissions PermissionCalc Models ModelOps DbPermissions PermissionSpec ReferenceDb World.

Section Operations.
Context {D : Type} `{Database D}.
Local Abbreviation W := (M ErrorType (World D)).

(** [User::set_relationship] *)
Definition set_relationship (self user_b : User) (status : RelationshipStatus) : W User :=
  call (Database.set_relationship (u_id self) (u_id user_b) status);;
  mret (update_relation (u_id user_b) status self).

(** [User::apply_relationship]: the remote side is written first. *)
Definition apply_relationship (self target : User) (local remote : RelationshipStatus)
    : W (User * User) :=
  target ← set_relationship target self remote;
  self ← set_relationship self target local;
  private (EventV1.UserRelationship (u_id target) self) (u_id target);;
  private (EventV1.UserRelationship (u_id self) target) (u_id self);;
  mret (self, target).

Definition is_outgoing (r : Relationship) : bool :=
  match rel_status r with RelationshipStatus.Outgoing => true | _ => false end.

Definition outgoing_count (self : User) : Z :=
  match u_relations self with
  | Some relations => Z.of_nat (length (retain is_outgoing relations))
  | None => 0
  end.

(** [limits] is [self.limits()]: the number of outgoing friend requests the
    user's tier allows, or a panic. *)
Definition add_friend (outgoing_friend_requests : Result Z) (self target : User) : W (User * User) :=
  match relationship_with self (u_id target) with
  | RelationshipStatus.User => throw ErrorType.NoEffect
  | RelationshipStatus.Friend => throw ErrorType.AlreadyFriends
  | RelationshipStatus.Outgoing => throw ErrorType.AlreadySentRequest
  | RelationshipStatus.Blocked => throw ErrorType.Blocked
  | RelationshipStatus.BlockedOther => throw ErrorType.BlockedByOther
  | RelationshipStatus.Incoming =>
      friend_request_accepted self target;;
      apply_relationship self target RelationshipStatus.Friend RelationshipStatus.Friend
  | RelationshipStatus.None =>
      max ← lift_outcome outgoing_friend_requests;
      if max <=? outgoing_count self then throw (ErrorType.TooManyPendingFriendRequests max)
      else
        friend_request_received target self;;
        apply_relationship self target RelationshipStatus.Outgoing RelationshipStatus.Incoming
  end.

Definition remove_friend (self target : User) : W (User * User) :=
  match relationship_with self (u_id target) with
  | RelationshipStatus.Friend | RelationshipStatus.Outgoing | RelationshipStatus.Incoming =>
      apply_relationship self target RelationshipStatus.None RelationshipStatus.None
  | _ => throw ErrorType.NoEffect
  end.

Definition block_user (self target : User) : W (User * User) :=
  match relationship_with self (u_id target) with
  | RelationshipStatus.User | RelationshipStatus.Blocked => throw ErrorType.NoEffect
  | RelationshipStatus.BlockedOther =>
      apply_relationship self target RelationshipStatus.Blocked RelationshipStatus.Blocked
  | RelationshipStatus.None | RelationshipStatus.Friend | RelationshipStatus.Incoming
  | RelationshipStatus.Outgoing =>
      apply_relationship self target RelationshipStatus.Blocked RelationshipStatus.BlockedOther
  end.

Definition unblock_user (self target : User) : W (User * User) :=
  match relationship_with self (u_id target) with
  | RelationshipStatus.Blocked =>
      match relationship_with target (u_id self) with
      | RelationshipStatus.Blocked =>
          apply_relationship self target RelationshipStatus.BlockedOther RelationshipStatus.Blocked
      | RelationshipStatus.BlockedOther =>
          apply_relationship self target RelationshipStatus.None RelationshipStatus.None
      | _ => throw ErrorType.InternalError
      end
  | _ => throw ErrorType.NoEffect
  end.
End Operations.

(** ** The specification: a table on the two sides of a pair *)

Module Action.
Inductive Action : Type := AddFriend | RemoveFriend | BlockUser | UnblockUser.
End Action.
Abbreviation Action := Action.Action.

Section Table.
Import RelationshipStatus Action.
Local Abbreviation none := RelationshipStatus.None.

(** What an action of the left user does to (left's view, right's view);
    [room]: the left user may send another friend request. *)
Definition transition (max : Z) (room : bool) (a : Action) (l r : RelationshipStatus)
    : Result (RelationshipStatus * RelationshipStatus) :=
  match a, l with
  | AddFriend, User => Err ErrorType.NoEffect
  | AddFriend, Friend => Err ErrorType.AlreadyFriends
  | AddFriend, Outgoing => Err ErrorType.AlreadySentRequest
  | AddFriend, Blocked => Err ErrorType.Blocked
  | AddFriend, BlockedOther => Err ErrorType.BlockedByOther
  | AddFriend, Incoming => Ok (Friend, Friend)
  | AddFriend, RelationshipStatus.None =>
      if room then Ok (Outgoing, Incoming) else Err (ErrorType.TooManyPendingFriendRequests max)
  | RemoveFriend, (Friend | Outgoing | Incoming) => Ok (none, none)
  | RemoveFriend, _ => Err ErrorType.NoEffect
  | BlockUser, (User | Blocked) => Err ErrorType.NoEffect
  | BlockUser, BlockedOther => Ok (Blocked, Blocked)
  | BlockUser, _ => Ok (Blocked, BlockedOther)
  | UnblockUser, Blocked =>
      match r with
      | Blocked => Ok (BlockedOther, Blocked)
      | BlockedOther => Ok (none, none)
      | _ => Err ErrorType.InternalError
      end
  | UnblockUser, _ => Err ErrorType.NoEffect
  end.

(** The consistent pairs: what one user sees is the mirror of what the other sees. *)
Definition consistent (l r : RelationshipStatus) : bool :=
  match l, r with
  | RelationshipStatus.None, RelationshipStatus.None => true
  | Friend, Friend => true
  | Outgoing, Incoming | Incoming, Outgoing => true
  | Blocked, BlockedOther | BlockedOther, Blocked | Blocked, Blocked => true
  | _, _ => false
  end.

Lemma transition_consistent max room a l r l' r' :
  consistent l r = true -> transition max room a l r = Ok (l', r') -> consistent l' r' = true.
Proof. destruct a, l, r; simpl; try done; try destruct room; intros _ [= <- <-]; done. Qed.

Lemma consistent_sym l r : consistent l r = consistent r l.
Proof. by destruct l, r. Qed.

Lemma transition_not_user max room a l r l' r' :
  transition max room a l r = Ok (l', r') -> l' <> User /\ r' <> User.
Proof. destruct a, l, r; simpl; try done; try destruct room; intros [= <- <-]; done. Qed.
End Table.

(** The operation of the code for each action. *)
Definition run_action {D} `{Database D} (max : Z) (a : Action) (self target : User)
    : M ErrorType (World D) (User * User) :=
  match a with
  | Action.AddFriend => add_friend (Ok max) self target
  | Action.RemoveFriend => remove_friend self target
  | Action.BlockUser => block_user self target
  | Action.UnblockUser => unblock_user self target
  end.

(** ** What the operations need of the database *)

Class RelationshipStore (D : Type) `{Database D} := {
  stored : D -> string -> option User;
  (** a write that returns [Ok] updates the named user and no one else *)
  set_relationship_ok : forall a t st d d',
    Database.set_relationship a t st d = (Ok tt, d') ->
    exists u, stored d a = Some u /\ stored d' a = Some (update_relation t st u)
      /\ forall x, x <> a -> stored d' x = stored d x;
  (** a write to a stored user is not refused *)
  set_relationship_total : forall a t st d u,
    stored d a = Some u -> (Database.set_relationship a t st d).1 = Ok tt }.

#[export] Program Instance reference_relationship_store `{HashOrder}
    `{OptionalStruct Server PartialServer} `{OptionalStruct Role PartialRole}
    `{OptionalStruct Member PartialMember} `{OptionalStruct User PartialUser}
    : RelationshipStore ReferenceDb := {| stored := fun d id => db_users d !! id |}.
Next Obligation.
  intros HO OS OR OM OU a t st d d' Hs.
  change (Ref.set_relationship a t st d = (Ok tt, d')) in Hs.
  assert (Ref.set_relationship a t st
    = with_mut db_users set_users ErrorType.NotFound a (fun u => Ok (update_relation t st u))) as E
    by by destruct st.
  rewrite E in Hs. unfold with_mut in Hs.
  destruct (db_users d !! a) as [u|] eqn:Eu; [|done]. injection Hs as <-.
  exists u. simpl. rewrite lookup_insert_eq. split_and!; [done|done|].
  intros x Hx. by rewrite lookup_insert_ne.
Qed.
Next Obligation.
  intros HO OS OR OM OU a t st d u Hu. cbn in Hu |- *.
  unfold Ref.set_relationship, Ref.pull_relationship, with_mut. destruct st; by rewrite Hu.
Qed.

(** ** The operations implement the table *)

Section Refinement.
Context {D : Type} `{RelationshipStore D}.

(** The copy the handler works on is what is stored. *)
Definition current (d : D) (u : User) : Prop := stored d (u_id u) = Some u.

Lemma set_relationship_run self user_b st w :
  current (w_db w) self ->
  exists d', set_relationship self user_b st w
             = (Ok (update_relation (u_id user_b) st self), w_set_db d' w)
    /\ stored d' (u_id self) = Some (update_relation (u_id user_b) st self)
    /\ forall x, x <> u_id self -> stored d' x = stored (w_db w) x.
Proof.
  intros Hc. unfold current in Hc. unfold set_relationship, mbind, M_bind. rewrite call_run.
  pose proof (set_relationship_total (u_id self) (u_id user_b) st _ _ Hc) as Ht.
  destruct (Database.set_relationship _ _ _ (w_db w)) as [r d'] eqn:E. simpl in *. subst r.
  destruct (set_relationship_ok _ _ _ _ _ E) as (u & Hu & Hu' & Hx).
  rewrite Hc in Hu. injection Hu as <-. by exists d'.
Qed.

(** Both sides are written, both users are told, nobody else is touched. *)
Lemma apply_relationship_run self target l r w :
  u_id self <> u_id target -> current (w_db w) self -> current (w_db w) target ->
  let self' := update_relation (u_id target) l self in
  let target' := update_relation (u_id self) r target in
  exists w', apply_relationship self target l r w = (Ok (self', target'), w')
    /\ current (w_db w') self' /\ current (w_db w') target'
    /\ (forall x, x <> u_id self -> x <> u_id target -> stored (w_db w') x = stored (w_db w) x)
    /\ w_events w' = w_events w ++
         [(u_id target +:+ "!", EventV1.UserRelationship (u_id target) self');
          (u_id self +:+ "!", EventV1.UserRelationship (u_id self) target')].
Proof.
  intros Hne Hs Ht self' target'. unfold apply_relationship.
  destruct (set_relationship_run target self r w Ht) as (d1 & E1 & Ht1 & Hx1).
  erewrite M_bind_ok by exact E1. fold target'.
  assert (u_id target' = u_id target) as Eid by apply u_id_update_relation.
  destruct (set_relationship_run self target' l (w_set_db d1 w)) as (d2 & E2 & Hs2 & Hx2).
  { unfold current. simpl. rewrite Hx1 by done. exact Hs. }
  erewrite M_bind_ok by exact E2. rewrite Eid. fold self'.
  eexists. split; [reflexivity|]. simpl. rewrite Eid in *. fold self' in Hs2.
  assert (u_id self' = u_id self) as Es by apply u_id_update_relation.
  split_and!.
  - unfold current. simpl. by rewrite Es.
  - unfold current. simpl. rewrite Eid, Hx2 by done. exact Ht1.
  - intros x H1 H2. simpl in Hx2. by rewrite Hx2, Hx1 by done.
  - by rewrite Es, <- app_assoc.
Qed.

(** The state after a successful operation on the pair. *)
Definition pair_updated (d d' : D) (self target self' target' : User)
    (l' r' : RelationshipStatus) : Prop :=
  u_id self' = u_id self /\ u_id target' = u_id target
  /\ current d' self' /\ current d' target'
  /\ relationship_with self' (u_id target) = l' /\ relationship_with target' (u_id self) = r'
  /\ (forall z, z <> u_id self -> z <> u_id target ->
        relationship_with self' z = relationship_with self z
        /\ relationship_with target' z = relationship_with target z
        /\ stored d' z = stored d z).

Lemma apply_relationship_pair self target l r w :
  u_id self <> u_id target -> current (w_db w) self -> current (w_db w) target ->
  l <> RelationshipStatus.User -> r <> RelationshipStatus.User ->
  exists w' self' target', apply_relationship self target l r w = (Ok (self', target'), w')
    /\ pair_updated (w_db w) (w_db w') self target self' target' l r.
Proof.
  intros Hne Hs Ht Hl Hr.
  destruct (apply_relationship_run self target l r w Hne Hs Ht) as (w' & E & Hs' & Ht' & Hx & _).
  eexists w', _, _. split; [exact E|]. unfold pair_updated. split_and!.
  - apply u_id_update_relation.
  - apply u_id_update_relation.
  - done.
  - done.
  - by apply relationship_with_update.
  - by apply relationship_with_update.
  - intros z Hz1 Hz2. by rewrite !relationship_with_update_ne, Hx by done.
Qed.

(** Notifications come before the writes and leave the database alone. *)
Local Ltac pair_step :=
  match goal with
  | |- context [apply_relationship ?s ?t ?l ?r ?w] => by apply (apply_relationship_pair s t l r w)
  end.

(** One entry of the table, for every action. *)
Lemma run_action_table max a self target w :
  current (w_db w) self -> current (w_db w) target ->
  match transition max (outgoing_count self <? max) a
          (relationship_with self (u_id target)) (relationship_with target (u_id self)) with
  | Ok (l', r') =>
      exists w' self' target', run_action max a self target w = (Ok (self', target'), w')
        /\ pair_updated (w_db w) (w_db w') self target self' target' l' r'
  | Err e => run_action max a self target w = (Err e, w)
  | Panicked => False
  end.
Proof.
  intros Hs Ht.
  destruct (decide (u_id self = u_id target)) as [Heq|Hne].
  { assert (relationship_with self (u_id target) = RelationshipStatus.User) as E.
    { unfold relationship_with. by rewrite bool_decide_eq_true_2. }
    rewrite E. destruct a; simpl; unfold add_friend, remove_friend, block_user, unblock_user;
      by rewrite E. }
  destruct a; simpl; unfold add_friend, remove_friend, block_user, unblock_user.
  - destruct (relationship_with self (u_id target)); try done.
    + erewrite M_bind_ok by reflexivity. rewrite Z.ltb_antisym.
      destruct (max <=? outgoing_count self); [done|]. simpl negb. cbn match.
      erewrite M_bind_ok by reflexivity. pair_step.
    + erewrite M_bind_ok by reflexivity. pair_step.
  - destruct (relationship_with self (u_id target)); try done;
      pair_step.
  - destruct (relationship_with self (u_id target)); try done;
      pair_step.
  - destruct (relationship_with self (u_id target)); try done.
    destruct (relationship_with target (u_id self)); try done;
      pair_step.
Qed.

(** C13: The relationship operations implement their table.  For two stored
    users whose copies are current, [add_friend], [remove_friend], [block_user]
    and [unblock_user] either perform the transition of the pair the table
    gives, in the database and in the copies, leaving the relationships with
    and among all other users as they were, or fail with the error of the
    table and change, publish and notify nothing. *)
Theorem relationship_operations_refine_table max a self target w :
  current (w_db w) self -> current (w_db w) target ->
  match transition max (outgoing_count self <? max) a
          (relationship_with self (u_id target)) (relationship_with target (u_id self)) with
  | Ok (l', r') =>
      exists w' self' target', run_action max a self target w = (Ok (self', target'), w')
        /\ pair_updated (w_db w) (w_db w') self target self' target' l' r'
  | Err e => run_action max a self target w = (Err e, w)
  | Panicked => False
  end.
Proof. apply run_action_table. Qed.
End Refinement.

(** ** Consistency of all pairs *)

Section Invariant.
Context {D : Type} `{RelationshipStore D}.

(** Users are stored under their identifier, and every two users see each
    other in mirrored states. *)
Definition relations_ok (d : D) : Prop :=
  (forall a u, stored d a = Some u -> u_id u = a)
  /\ forall ua ub, current d ua -> current d ub -> u_id ua <> u_id ub ->
       consistent (relationship_with ua (u_id ub)) (relationship_with ub (u_id ua)) = true.

(** One request: an action on current copies of two stored users, with the
    friend request limit [max] of the acting user. *)
Inductive rel_step (w : World D) : World D -> Prop :=
| rel_action max a self target :
    current (w_db w) self -> current (w_db w) target ->
    rel_step w (run_action max a self target w).2.

Lemma pair_updated_ok d d' self target self' target' l' r' :
  u_id self <> u_id target ->
  relations_ok d -> consistent l' r' = true ->
  pair_updated d d' self target self' target' l' r' -> current d self -> current d target ->
  relations_ok d'.
Proof.
  intros Hne [Hid Hc] Hlr (Es & Et & Hs' & Ht' & Hl & Hr & Hz) Hs Ht.
  assert (forall x u, stored d' x = Some u ->
    (x = u_id self /\ u = self') \/ (x = u_id target /\ u = target')
    \/ (x <> u_id self /\ x <> u_id target /\ stored d x = Some u)) as Hcases.
  { intros x u Hu. unfold current in *.
    destruct (decide (x = u_id self)) as [->|H1]; [left|right].
    { rewrite <- Es in Hu at 1. split; [done|]. congruence. }
    destruct (decide (x = u_id target)) as [->|H2]; [left|right].
    { rewrite <- Et in Hu at 1. split; [done|]. congruence. }
    destruct (Hz x H1 H2) as (_ & _ & <-). done. }
  split.
  { intros x u Hu. destruct (Hcases x u Hu) as [[-> ->]|[[-> ->]|(_ & _ & Hu')]]; [done|done|].
    by apply Hid. }
  intros ua ub Ha Hb Hab.
  destruct (Hcases _ _ Ha) as [[Ea ->]|[[Ea ->]|(Ha1 & Ha2 & Ha')]];
    destruct (Hcases _ _ Hb) as [[Eb ->]|[[Eb ->]|(Hb1 & Hb2 & Hb')]]; rewrite ?Es, ?Et in *;
    try done.
  - by rewrite Hl, Hr.
  - destruct (Hz _ Hb1 Hb2) as (-> & _). by apply Hc.
  - by rewrite Hl, Hr, consistent_sym.
  - destruct (Hz _ Hb1 Hb2) as (_ & -> & _). by apply Hc.
  - destruct (Hz _ Ha1 Ha2) as (-> & _). by apply Hc.
  - destruct (Hz _ Ha1 Ha2) as (_ & -> & _). by apply Hc.
  - by apply Hc.
Qed.

Lemma rel_step_ok w w' : relations_ok (w_db w) -> rel_step w w' -> relations_ok (w_db w').
Proof.
  intros Hok Hstep. destruct Hstep as [max a self target Hs Ht].
  pose proof (run_action_table max a self target w Hs Ht) as Hrun.
  destruct (transition _ _ _ _ _) as [[l' r']|e|] eqn:Et; [|by rewrite Hrun|done].
  destruct Hrun as (w' & self' & target' & -> & Hp). simpl.
  assert (u_id self <> u_id target) as Hne.
  { intros Heq. assert (relationship_with self (u_id target) = RelationshipStatus.User) as E.
    { unfold relationship_with. by rewrite bool_decide_eq_true_2. }
    rewrite E in Et. by destruct a. }
  eapply pair_updated_ok; [exact Hne|exact Hok| |exact Hp|done|done].
  eapply transition_consistent; [|exact Et]. by apply Hok.
Qed.

(** C3: Requests handled one after the other keep every pair of users
    consistent: friends are mutual, an outgoing request is the other's incoming
    one, and a block is seen as such by the blocked user. *)
Theorem relationships_stay_consistent w w' :
  relations_ok (w_db w) -> rtc rel_step w w' -> relations_ok (w_db w').
Proof.
  intros Hok Hr. induction Hr as [|w1 w2 w3 Hs _ IH]; [done|]. by eapply IH, rel_step_ok.
Qed.
End Invariant.

(** ** Interleaved requests *)

(** The two database writes of [apply_relationship], in its order. *)
Definition relationship_writes (self target : User) (local remote : RelationshipStatus)
    : list (string * string * RelationshipStatus) :=
  [(u_id target, u_id self, remote); (u_id self, u_id target, local)].

Definition run_writes {D} `{Database D} (ws : list (string * string * RelationshipStatus)) (d : D) : D :=
  foldl (fun d '(a, t, st) => (Database.set_relationship a t st d).2) d ws.

(** Two sequences of atomic steps, interleaved. *)
Inductive interleaved {A} : list A -> list A -> list A -> Prop :=
| il_nil : interleaved [] [] []
| il_left x l1 l2 l : interleaved l1 l2 l -> interleaved (x :: l1) l2 (x :: l)
| il_right x l1 l2 l : interleaved l1 l2 l -> interleaved l1 (x :: l2) (x :: l).

Section Interleaving.
Context {D : Type} `{RelationshipStore D}.

Lemma apply_relationship_writes self target l r w :
  current (w_db w) self -> current (w_db w) target -> u_id self <> u_id target ->
  w_db (apply_relationship self target l r w).2
  = run_writes (relationship_writes self target l r) (w_db w).
Proof.
  intros Hs Ht Hne. unfold apply_relationship, set_relationship, mbind, M_bind. simpl.
  rewrite call_run.
  pose proof (set_relationship_total (u_id target) (u_id self) r _ _ Ht) as E1.
  destruct (Database.set_relationship (u_id target) (u_id self) r (w_db w)) as [r1 d1] eqn:Ed1.
  simpl in *. subst r1. simpl. rewrite call_run. simpl. rewrite u_id_update_relation.
  destruct (set_relationship_ok _ _ _ _ _ Ed1) as (u & _ & _ & Hx).
  assert (stored d1 (u_id self) = Some self) as Hs1 by (rewrite Hx by done; exact Hs).
  pose proof (set_relationship_total (u_id self) (u_id target) l _ _ Hs1) as E2.
  destruct (Database.set_relationship (u_id self) (u_id target) l d1) as [r2 d2].
  simpl in *. by subst r2.
Qed.

(** What one write does to the stored view of a user. *)
Lemma write_view a t st d u :
  stored d a = Some u ->
  stored (Database.set_relationship a t st d).2 a = Some (update_relation t st u)
  /\ forall x, x <> a -> stored (Database.set_relationship a t st d).2 x = stored d x.
Proof.
  intros Hu. pose proof (set_relationship_total a t st _ _ Hu) as E.
  destruct (Database.set_relationship a t st d) as [r d'] eqn:Ed. simpl in E. subst r.
  destruct (set_relationship_ok _ _ _ _ _ Ed) as (u' & Hu' & Hn & Hx).
  rewrite Hu in Hu'. by injection Hu' as <-.
Qed.

(** Friend requests that two strangers send each other at the same time
    can be interleaved so that both end up with an outgoing request and nobody
    with an incoming one: [apply_relationship] writes its two sides without a
    transaction. *)
Theorem crossed_requests_can_clash d ua ub :
  current d ua -> current d ub -> u_id ua <> u_id ub ->
  exists ws ua' ub',
    interleaved (relationship_writes ua ub RelationshipStatus.Outgoing RelationshipStatus.Incoming)
                (relationship_writes ub ua RelationshipStatus.Outgoing RelationshipStatus.Incoming) ws
    /\ stored (run_writes ws d) (u_id ua) = Some ua' /\ stored (run_writes ws d) (u_id ub) = Some ub'
    /\ relationship_with ua' (u_id ub) = RelationshipStatus.Outgoing
    /\ relationship_with ub' (u_id ua) = RelationshipStatus.Outgoing.
Proof.
  intros Ha Hb Hne. unfold current in *.
  exists [(u_id ub, u_id ua, RelationshipStatus.Incoming); (u_id ua, u_id ub, RelationshipStatus.Incoming);
     (u_id ua, u_id ub, RelationshipStatus.Outgoing); (u_id ub, u_id ua, RelationshipStatus.Outgoing)].
  simpl.
  destruct (write_view (u_id ub) (u_id ua) RelationshipStatus.Incoming d ub Hb) as [Hb1 Hx1].
  set (d1 := (Database.set_relationship _ _ _ d).2) in *.
  rewrite <- (Hx1 (u_id ua)) in Ha by done.
  destruct (write_view (u_id ua) (u_id ub) RelationshipStatus.Incoming d1 ua Ha) as [Ha2 Hx2].
  set (d2 := (Database.set_relationship _ _ _ d1).2) in *.
  destruct (write_view (u_id ua) (u_id ub) RelationshipStatus.Outgoing d2 _ Ha2) as [Ha3 Hx3].
  set (d3 := (Database.set_relationship _ _ _ d2).2) in *.
  rewrite <- (Hx2 (u_id ub)), <- (Hx3 (u_id ub)) in Hb1 by done.
  destruct (write_view (u_id ub) (u_id ua) RelationshipStatus.Outgoing d3 _ Hb1) as [Hb4 Hx4].
  eexists _, _. split.
  { by repeat (apply il_nil || apply il_left || apply il_right). }
  split; [rewrite Hx4 by done; exact Ha3|]. split; [exact Hb4|].
  split; apply relationship_with_update; by rewrite ?u_id_update_relation.
Qed.
End Interleaving.

(** ** Witnesses *)

Module RelWitness.
Import SomePriority.

Definition alice : User := Example.user "alice".
Definition bob : User := Example.user "bob".
Definition db : ReferenceDb := set_users {[ "alice" := alice; "bob" := bob ]} ReferenceDb_default.
Definition w0 : World ReferenceDb := world db.

Lemma alice_current : current db alice.
Proof. reflexivity. Qed.
Lemma bob_current : current db bob.
Proof. reflexivity. Qed.

Lemma relationship_operations_refine_table_witness :
  exists w' self' target', run_action 5 Action.AddFriend alice bob w0 = (Ok (self', target'), w')
    /\ pair_updated db (w_db w') alice bob self' target'
         RelationshipStatus.Outgoing RelationshipStatus.Incoming.
Proof.
  exact (relationship_operations_refine_table 5 Action.AddFriend alice bob w0
           alice_current bob_current).
Defined.

Lemma db_relations_ok : relations_ok db.
Proof.
  assert (forall x u, stored db x = Some u -> (x = "alice" /\ u = alice) \/ (x = "bob" /\ u = bob)) as Hc.
  { intros x u Hu. simpl in Hu.
    apply lookup_insert_Some in Hu as [[<- <-]|[Hx Hu]]; [by left|right].
    by apply lookup_singleton_Some in Hu as [<- <-]. }
  split.
  - by intros x u [[-> ->]|[-> ->]]%Hc.
  - intros ua ub [[E ->]|[E ->]]%Hc [[E' ->]|[E' ->]]%Hc Hne; done.
Qed.

(** Alice requests, Bob accepts, Alice blocks Bob. *)
Definition w1 : World ReferenceDb := (run_action 5 Action.AddFriend alice bob w0).2.
Definition alice1 : User := update_relation "bob" RelationshipStatus.Outgoing alice.
Definition bob1 : User := update_relation "alice" RelationshipStatus.Incoming bob.
Definition w2 : World ReferenceDb := (run_action 5 Action.AddFriend bob1 alice1 w1).2.
Definition alice2 : User := update_relation "bob" RelationshipStatus.Friend alice1.
Definition bob2 : User := update_relation "alice" RelationshipStatus.Friend bob1.
Definition w3 : World ReferenceDb := (run_action 5 Action.BlockUser alice2 bob2 w2).2.

Lemma relationships_stay_consistent_witness :
  relations_ok db /\ rtc rel_step w0 w3 /\ relations_ok (w_db w3).
Proof.
  assert (rtc rel_step w0 w3) as Hr.
  { eapply rtc_l; [exact (rel_action w0 5 Action.AddFriend alice bob eq_refl eq_refl)|].
    eapply rtc_l; [exact (rel_action w1 5 Action.AddFriend bob1 alice1 eq_refl eq_refl)|].
    eapply rtc_l; [exact (rel_action w2 5 Action.BlockUser alice2 bob2 eq_refl eq_refl)|].
    apply rtc_refl. }
  split; [exact db_relations_ok|]. split; [exact Hr|].
  exact (relationships_stay_consistent w0 w3 db_relations_ok Hr).
Defined.

Lemma crossed_requests_can_clash_witness :
  exists ws ua' ub',
    interleaved (relationship_writes alice bob RelationshipStatus.Outgoing RelationshipStatus.Incoming)
                (relationship_writes bob alice RelationshipStatus.Outgoing RelationshipStatus.Incoming) ws
    /\ stored (run_writes ws db) "alice" = Some ua' /\ stored (run_writes ws db) "bob" = Some ub'
    /\ relationship_with ua' "bob" = RelationshipStatus.Outgoing
    /\ relationship_with ub' "alice" = RelationshipStatus.Outgoing.
Proof.
  apply (crossed_requests_can_clash db alice bob alice_current bob_current). discriminate.
Defined.
End RelWitness.
