(* ===== verification/PrivateChannels.v ===== *)
(** * Permissions in private channels

    What the calculation of [crates/core/permissions/src/impl.rs] gives in
    saved messages, direct messages and groups: a direct description, the
    refinement of the stateful calculation to it, and what it means for
    blocking: once [User::block_user] has returned, neither side can write to
    the direct message channel of the pair, whatever they share, unless it is
    privileged or owns the other as a bot. *)

From S2P Require Import Prelude Results Permissions PermissionCalc Models ModelOps DbPermissions PermissionSpec ReferenceDb World Relationships.

(** ** Specification *)

(** [bot] is a bot that [u] owns. *)
Definition owns_bot (u bot : User) : bool :=
  match u_bot bot with Some b => bool_decide (u_id u = bi_owner b) | None => false end.

Definition is_bot (u : User) : bool := bool_decide (is_Some (u_bot u)).

(** How [u] stands to [other]: the owner of a bot counts as the user. *)
Definition relation_to (u other : User) : RelationshipStatus :=
  if owns_bot u other then RelationshipStatus.User else relationship_with u (u_id other).

(** The relations under which shared servers and groups do not matter. *)
Definition decisive (relation : RelationshipStatus) : bool :=
  match relation with
  | RelationshipStatus.Friend | RelationshipStatus.Blocked | RelationshipStatus.BlockedOther => true
  | _ => false
  end.

(** Permissions of [u] over [other]; [mutual]: they share a server or a group. *)
Definition user_permissions (u other : User) (mutual : bool) : PermissionValue :=
  let connected := (UserPermission.Access : Z) + (UserPermission.ViewProfile : Z) in
  let connected := if is_bot other || is_bot u then connected + UserPermission.SendMessage
                   else connected in
  if u_privileged u || bool_decide (u_id u = u_id other) then PV u64_max else
  match relation_to u other with
  | RelationshipStatus.Friend => PV u64_max
  | RelationshipStatus.Blocked | RelationshipStatus.BlockedOther => PV UserPermission.Access
  | RelationshipStatus.Incoming | RelationshipStatus.Outgoing =>
      if mutual then PV connected else PV UserPermission.Access
  | RelationshipStatus.None | RelationshipStatus.User => if mutual then PV connected else PV 0
  end.

(** May [u] write to [other] directly? *)
Definition may_message (u other : User) (mutual : bool) : bool :=
  has_user_permission (user_permissions u other mutual) UserPermission.SendMessage.

(** Permissions of [u], not privileged, in a channel outside of servers;
    [other] is the other recipient of a direct message channel. *)
Definition private_channel_permissions (u : User) (c : Channel) (other : option User)
    (mutual : bool) : PermissionValue :=
  match c with
  | Channel.SavedMessages c =>
      if bool_decide (sm_user c = u_id u) then PV DEFAULT_PERMISSION_SAVED_MESSAGES else PV 0
  | Channel.DirectMessage c =>
      if contains (u_id u) (dm_recipients c) then
        if match other with Some other => may_message u other mutual | None => false end
        then PV DEFAULT_PERMISSION_DIRECT_MESSAGE else PV DEFAULT_PERMISSION_VIEW_ONLY
      else PV 0
  | Channel.Group g =>
      if bool_decide (g_owner g = u_id u) || contains (u_id u) (g_moderators g)
      then PV ChannelPermission.GrantAllSafe
      else if contains (u_id u) (g_recipients g)
      then PV (Z.lor DEFAULT_PERMISSION_VIEW_ONLY
                 (as_u64 (default (as_i64 DEFAULT_PERMISSION_DIRECT_MESSAGE) (g_permissions g))))
      else PV 0
  | Channel.TextChannel _ => PV 0
  end.

(** ** Refinement *)

Section Refinement.
Context {D : Type} `{PermissionDatabase D} `{HashOrder} (now : Timestamp).
Implicit Types (q : DatabasePermissionQuery D).

(** The database answers whether [u] and [other] share a server or a group,
    or their relation makes the question superfluous. *)
Definition mutual_known (u : User) (d : D) (other : User) (mutual : bool) : Prop :=
  match has_mutual_connection u d (u_id other) with
  | Ok b => mutual = b
  | Err _ => mutual = false
  | Panicked => decisive (relation_to u other) = true
  end.

(** What the query finds out about the other recipient. *)
Definition knows_recipient q (recipients : list string) (other : option User) (mutual : bool) : Prop :=
  q_cached_mutual_connection q = None /\
  exists i id, list_find (fun recipient => recipient <> u_id (q_perspective q)) recipients = Some (i, id)
    /\ match other with
       | Some other => fetch_user (q_database q) id = Ok other
                       /\ mutual_known (q_perspective q) (q_database q) other mutual
       | None => (exists e, fetch_user (q_database q) id = Err e) /\ q_user q = None
       end.

Definition serves_private q (c : Channel) (other : option User) (mutual : bool) : Prop :=
  q_channel q = Some c /\
  match c with
  | Channel.DirectMessage c =>
      u_id (q_perspective q) ∈ dm_recipients c -> knows_recipient q (dm_recipients c) other mutual
  | Channel.TextChannel _ => False
  | _ => True
  end.

Lemma list_find_relation id (l : list Relationship) :
  snd <$> list_find (fun entry => rel_id entry = id) l
  = List.find (fun x => bool_decide (rel_id x = id)) l.
Proof.
  induction l as [|x l IH]; [done|]. simpl. destruct (decide (rel_id x = id)).
  - by rewrite bool_decide_eq_true_2.
  - rewrite bool_decide_eq_false_2 by done. rewrite <- IH. by destruct (list_find _ l) as [[]|].
Qed.

(** The relationship the query reports. *)
Lemma user_relationship_spec q other :
  q_user q = Some other -> u_id (q_perspective q) <> u_id other ->
  db_user_relationship q = (Ok (to_perm_status (relation_to (q_perspective q) other)), q).
Proof.
  intros Hu Hne. unfold db_user_relationship, reads, relation_to, owns_bot, relationship_with.
  rewrite Hu. rewrite !bool_decide_eq_false_2 by done.
  destruct (u_bot other) as [b|]; [destruct (bool_decide (_ = bi_owner b)); [done|]|];
    (destruct (u_relations (q_perspective q)) as [l|]; [|done]);
    rewrite <- list_find_relation; by destruct (list_find _ l) as [[]|].
Qed.

(** The answer about a mutual connection, where it is asked for. *)
Lemma have_mutual_connection_spec q other mutual :
  q_user q = Some other -> q_cached_mutual_connection q = None ->
  mutual_known (q_perspective q) (q_database q) other mutual ->
  decisive (relation_to (q_perspective q) other) = false ->
  exists q', db_have_mutual_connection q = (Ok mutual, q') /\ q_user q' = Some other
    /\ q_perspective q' = q_perspective q.
Proof.
  intros Hu Hc Hm Hd. unfold db_have_mutual_connection, mutual_known in *. rewrite Hc, Hu.
  destruct (has_mutual_connection _ _ _); subst; [by eexists|by eexists|congruence].
Qed.

(** The permissions two connected users have, [base] those they have otherwise. *)
Lemma connected_permissions q other mutual (base : Z) :
  q_user q = Some other -> q_cached_mutual_connection q = None ->
  mutual_known (q_perspective q) (q_database q) other mutual ->
  decisive (relation_to (q_perspective q) other) = false ->
  let connected : Z := (UserPermission.Access : Z) + (UserPermission.ViewProfile : Z) in
  fst ((answer ← db_have_mutual_connection;
        if (answer : bool) then
          bot ← db_user_is_bot;
          bots ← (if (bot : bool) then mret true else db_are_we_a_bot);
          if (bots : bool) then mret (PV (connected + UserPermission.SendMessage))
          else mret (PV connected)
        else mret (PV base)) q)
  = Ok (if mutual
        then PV (if is_bot other || is_bot (q_perspective q)
                 then connected + UserPermission.SendMessage else connected)
        else PV base).
Proof.
  intros Hu Hc Hm Hd connected.
  destruct (have_mutual_connection_spec q other mutual Hu Hc Hm Hd) as (q' & E & Hu' & Hp').
  rewrite (M_bind_ok _ _ _ _ _ E). destruct mutual; [|done].
  unfold db_user_is_bot, db_are_we_a_bot. run_M. rewrite Hu', <- Hp'. unfold is_bot.
  by repeat (destruct (bool_decide _); simpl).
Qed.

Lemma calculate_user_permissions_spec q other mutual :
  q_user q = Some other -> q_cached_mutual_connection q = None ->
  mutual_known (q_perspective q) (q_database q) other mutual ->
  fst (db_calculate_user_permissions now q)
  = Ok (user_permissions (q_perspective q) other mutual).
Proof.
  intros Hu Hc Hm. unfold db_calculate_user_permissions, calculate_user_permissions, user_permissions.
  rewrite (M_bind_ok _ _ q (u_privileged (q_perspective q)) q) by done.
  destruct (u_privileged (q_perspective q)); [done|].
  rewrite (M_bind_ok _ _ q (bool_decide (u_id (q_perspective q) = u_id other)) q)
    by (simpl; unfold db_are_the_users_same, reads; by rewrite Hu).
  case_bool_decide as Hid; [done|].
  rewrite (M_bind_ok _ _ q _ q (user_relationship_spec q other Hu Hid)). simpl orb. cbn match.
  destruct (decisive (relation_to (q_perspective q) other)) eqn:Hd.
  { by destruct (relation_to _ _). }
  pose proof (fun base => connected_permissions q other mutual base Hu Hc Hm Hd) as Hmut.
  destruct (relation_to _ _); try done; apply Hmut.
Qed.

(** Nothing is known about the other recipient. *)
Lemma calculate_user_permissions_nobody q :
  q_user q = None -> q_cached_mutual_connection q = None -> u_privileged (q_perspective q) = false ->
  fst (db_calculate_user_permissions now q) = Ok (PV 0).
Proof.
  intros Hu Hc Hp. unfold db_calculate_user_permissions, calculate_user_permissions. run_M.
  unfold db_are_we_privileged, db_are_the_users_same, db_user_relationship, db_have_mutual_connection.
  run_M. rewrite Hp. simpl. rewrite Hu. simpl. rewrite Hu. simpl. rewrite Hc, Hu. done.
Qed.

(** The branch of a direct message channel. *)
Lemma direct_message_spec q c other mutual :
  q_channel q = Some (Channel.DirectMessage c) -> u_privileged (q_perspective q) = false ->
  knows_recipient q (dm_recipients c) other mutual ->
  fst ((db_set_recipient_as_user;;
        permissions ← db_calculate_user_permissions now;
        if has_user_permission permissions UserPermission.SendMessage
        then mret (PV DEFAULT_PERMISSION_DIRECT_MESSAGE)
        else mret (PV DEFAULT_PERMISSION_VIEW_ONLY)) q)
  = Ok (if match other with Some other => may_message (q_perspective q) other mutual | None => false end
        then PV DEFAULT_PERMISSION_DIRECT_MESSAGE else PV DEFAULT_PERMISSION_VIEW_ONLY).
Proof.
  intros Hc Hp (Hcache & i & id & Hfind & Hk).
  assert (exists q', db_set_recipient_as_user q = (Ok tt, q') /\ fst (db_calculate_user_permissions now q')
     = Ok (match other with Some other => user_permissions (q_perspective q) other mutual | None => PV 0 end))
    as (q' & E & Hu).
  { unfold db_set_recipient_as_user. rewrite Hc, Hfind. destruct other as [other|].
    - destruct Hk as [-> Hm]. eexists. split; [done|].
      by apply (calculate_user_permissions_spec (q_set_user (Some other) q) other mutual).
    - destruct Hk as [[e ->] Hn]. eexists. split; [done|]. by apply calculate_user_permissions_nobody. }
  rewrite (M_bind_ok _ _ _ _ _ E). unfold mbind, M_bind.
  destruct (db_calculate_user_permissions now q') as [r q2]. simpl in Hu. subst r.
  destruct other as [other|]; [|done]. unfold may_message. by destruct (has_user_permission _ _).
Qed.

Lemma private_channel_permissions_spec q c other mutual :
  serves_private q c other mutual ->
  fst (db_calculate_channel_permissions now q)
  = Ok (if u_privileged (q_perspective q) then PV ChannelPermission.GrantAllSafe
        else private_channel_permissions (q_perspective q) c other mutual).
Proof.
  intros [Hc Hk]. unfold db_calculate_channel_permissions, calculate_channel_permissions.
  rewrite (M_bind_ok _ _ q (u_privileged (q_perspective q)) q) by done.
  destruct (u_privileged (q_perspective q)) eqn:Hp; [done|].
  destruct c as [c|c|g|t]; [| | |done]; unfold private_channel_permissions.
  - run_M. unfold db_get_channel_type, db_do_we_own_the_channel. run_M. rewrite Hc. simpl. rewrite Hc.
    by destruct (bool_decide _).
  - rewrite (M_bind_ok _ _ q ChannelType.DirectMessage q)
      by (simpl; unfold db_get_channel_type, reads; by rewrite Hc).
    rewrite (M_bind_ok _ _ q (contains (u_id (q_perspective q)) (dm_recipients c)) q)
      by (simpl; unfold db_are_we_part_of_the_channel, reads; by rewrite Hc).
    destruct (contains _ _) eqn:Hin; [|done]. apply contains_spec in Hin.
    exact (direct_message_spec q c other mutual Hc Hp (Hk Hin)).
  - run_M. unfold db_get_channel_type, db_do_we_own_the_channel, db_are_we_a_group_moderator,
      db_are_we_part_of_the_channel, db_get_default_channel_permissions. run_M.
    rewrite Hc. simpl. rewrite Hc. destruct (bool_decide _); [done|]. simpl. rewrite Hc.
    destruct (contains _ (g_moderators g)); [done|]. simpl. rewrite Hc.
    destruct (contains _ (g_recipients g)); [|done]. simpl. by rewrite Hc.
Qed.

(** refinement outside of servers: in saved messages, direct messages and
    groups the stateful calculation, with its fetch of the other recipient and
    its question about shared servers and groups, computes
    [private_channel_permissions]. *)
Theorem private_channel_permissions_refines q c other mutual (Hq : serves_private q c other mutual) :
  fst (db_calculate_channel_permissions now q)
  = Ok (if u_privileged (q_perspective q) then PV ChannelPermission.GrantAllSafe
        else private_channel_permissions (q_perspective q) c other mutual).
Proof. by apply private_channel_permissions_spec. Qed.
End Refinement.

(** ** Blocking *)

(** A store whose users the permission query fetches. *)
Class UserStore (D : Type) `{RelationshipStore D} `{PermissionDatabase D} := {
  fetch_stored : forall (d : D) id u, stored d id = Some u -> fetch_user d id = Ok u }.

#[export] Program Instance reference_user_store `{HashOrder}
    `{OptionalStruct Server PartialServer} `{OptionalStruct Role PartialRole}
    `{OptionalStruct Member PartialMember} `{OptionalStruct User PartialUser}
    : UserStore ReferenceDb.
Next Obligation.
  intros HO OS OR OM OU d id u Hu. simpl in *. unfold Ref.fetch_user, get_or. by rewrite Hu.
Qed.

(** The direct message channel of two users. *)
Definition dm_between (c : DirectMessageChannel) (a b : string) : Prop :=
  dm_recipients c = [a; b] \/ dm_recipients c = [b; a].

Lemma dm_between_sym c a b : dm_between c a b -> dm_between c b a.
Proof. unfold dm_between. tauto. Qed.

Lemma dm_between_find c a b :
  dm_between c a b -> a <> b ->
  exists i, list_find (fun recipient => recipient <> a) (dm_recipients c) = Some (i, b).
Proof.
  intros [-> | ->] Hne; simpl.
  - rewrite decide_False by tauto. rewrite decide_True by done. by eexists.
  - rewrite decide_True by done. by eexists.
Qed.

Section Blocking.
Context {D : Type} `{UserStore D} `{HashOrder} (now : Timestamp).

(** The permissions of [u] in the channel [c], as a handler asks for them. *)
Definition dm_permissions (d : D) (u : User) (c : DirectMessageChannel) : Result PermissionValue :=
  fst (db_calculate_channel_permissions now
         (query_channel (DatabasePermissionQuery_new d u) (Channel.DirectMessage c))).

(** The permissions of one side of a direct message channel. *)
Lemma dm_permissions_spec d u other c mutual :
  current d other -> u_id u <> u_id other -> u_privileged u = false ->
  dm_between c (u_id u) (u_id other) -> mutual_known u d other mutual ->
  dm_permissions d u c = Ok (PV (if may_message u other mutual then DEFAULT_PERMISSION_DIRECT_MESSAGE
                                 else DEFAULT_PERMISSION_VIEW_ONLY)).
Proof.
  intros Ho Hne Hp Hc Hm. destruct (dm_between_find c _ _ Hc Hne) as [i Hfind].
  unfold dm_permissions. rewrite (private_channel_permissions_spec now _ (Channel.DirectMessage c) (Some other) mutual).
  - simpl. rewrite Hp. unfold contains.
    rewrite bool_decide_eq_true_2 by (destruct Hc as [-> | ->]; clear; by repeat constructor).
    by destruct (may_message u other mutual).
  - split; [done|]. intros _. split; [done|]. exists i, (u_id other). split; [done|].
    split; [by apply fetch_stored|done].
Qed.

Lemma dm_permissions_privileged d u c :
  u_privileged u = true -> dm_permissions d u c = Ok (PV ChannelPermission.GrantAllSafe).
Proof.
  intros Hp. unfold dm_permissions, db_calculate_channel_permissions, calculate_channel_permissions.
  rewrite (M_bind_ok _ _ _ (u_privileged u) (query_channel (DatabasePermissionQuery_new d u) (Channel.DirectMessage c)))
    by done. by rewrite Hp.
Qed.

(** A user whose relation to the other is decisive needs no shared server. *)
Lemma dm_permissions_decisive d u other c :
  current d other -> u_id u <> u_id other -> u_privileged u = false ->
  dm_between c (u_id u) (u_id other) ->
  relation_to u other = RelationshipStatus.Blocked
  \/ relation_to u other = RelationshipStatus.BlockedOther ->
  dm_permissions d u c = Ok (PV DEFAULT_PERMISSION_VIEW_ONLY).
Proof.
  intros Ho Hne Hp Hc Hrel.
  pose (mutual := match has_mutual_connection u d (u_id other) with Ok b => b | _ => false end).
  rewrite (dm_permissions_spec d u other c mutual); [|done..|].
  - unfold may_message, user_permissions. rewrite Hp, bool_decide_eq_false_2 by done.
    by destruct Hrel as [-> | ->].
  - unfold mutual_known, mutual.
    destruct (has_mutual_connection _ _ _); [done|done|]. by destruct Hrel as [E|E]; rewrite E.
Qed.

(** The owner of a bot is never in a relation with it that stops messages. *)
Lemma dm_permissions_owner d u other c shared :
  current d other -> u_id u <> u_id other -> u_privileged u = false ->
  dm_between c (u_id u) (u_id other) -> owns_bot u other = true ->
  has_mutual_connection u d (u_id other) = Ok shared ->
  dm_permissions d u c = Ok (PV (if shared then DEFAULT_PERMISSION_DIRECT_MESSAGE
                                 else DEFAULT_PERMISSION_VIEW_ONLY)).
Proof.
  intros Ho Hne Hp Hc Hown Hm. rewrite (dm_permissions_spec d u other c shared); [|done..|].
  - unfold may_message, user_permissions, relation_to. rewrite Hp, Hown, bool_decide_eq_false_2 by done.
    unfold owns_bot in Hown. unfold is_bot. destruct (u_bot other); [|done]. by destruct shared.
  - unfold mutual_known. by rewrite Hm.
Qed.

(** Reading is allowed, writing is refused. *)
Definition read_only (r : Result PermissionValue) : Prop :=
  exists p, r = Ok p
    /\ throw_if_lacking_channel_permission p ChannelPermission.ViewChannel = Ok tt
    /\ throw_if_lacking_channel_permission p ChannelPermission.SendMessage
       = Err (ErrorType.MissingPermission "SendMessage").

Lemma view_only_read_only : read_only (Ok (PV DEFAULT_PERMISSION_VIEW_ONLY)).
Proof. by eexists. Qed.

(** What [u] may do in the direct message channel [c] with [other] when one of them
    has blocked the other: read, and not write. The exceptions are a privileged
    user, who may do everything, and the owner of a bot, who may write to the bot
    when the two share a server or a group. *)
Definition stopped (d : D) (u other : User) (c : DirectMessageChannel) : Prop :=
  if u_privileged u then dm_permissions d u c = Ok (PV ChannelPermission.GrantAllSafe)
  else if owns_bot u other
  then forall shared, has_mutual_connection u d (u_id other) = Ok shared ->
         dm_permissions d u c = Ok (PV (if shared then DEFAULT_PERMISSION_DIRECT_MESSAGE
                                        else DEFAULT_PERMISSION_VIEW_ONLY))
  else read_only (dm_permissions d u c).

(** One side of a pair in which someone is blocked. *)
Lemma blocked_side_stopped d u other st st' c :
  let u' := update_relation (u_id other) st u in
  let other' := update_relation (u_id u) st' other in
  current d other' -> u_id u <> u_id other -> dm_between c (u_id u) (u_id other) ->
  st = RelationshipStatus.Blocked \/ st = RelationshipStatus.BlockedOther ->
  stopped d u' other' c.
Proof.
  intros u' other' Ho Hne Hc Hst.
  assert (u_id u' <> u_id other') as Hne' by (unfold u', other'; by rewrite !u_id_update_relation).
  assert (dm_between c (u_id u') (u_id other')) as Hc' by (unfold u', other'; by rewrite !u_id_update_relation).
  unfold stopped. destruct (u_privileged u') eqn:Hp; [by apply dm_permissions_privileged|].
  destruct (owns_bot u' other') eqn:Hb.
  { intros shared Hm. by apply (dm_permissions_owner d u' other'). }
  rewrite (dm_permissions_decisive d u' other' c); [apply view_only_read_only|done..|].
  unfold relation_to. rewrite Hb. unfold u', other'. rewrite u_id_update_relation.
  rewrite relationship_with_update; [by destruct Hst; [left|right]|done|].
  by destruct Hst as [-> | ->].
Qed.

(** C15: blocking works from end to end: after a successful [block_user] each of the
    two users, if they are neither privileged nor the owner of the other as a bot, can
    read their direct message channel and cannot write to it, whatever servers and
    groups they share and whatever they were before. A privileged user keeps every
    permission, and the owner of a bot may write to it exactly when the database
    answers that the two share a server or a group, whoever blocked whom. *)
Theorem block_stops_messages self target w w' self' target' c :
  current (w_db w) self -> current (w_db w) target ->
  dm_between c (u_id self) (u_id target) ->
  block_user self target w = (Ok (self', target'), w') ->
  stopped (w_db w') self' target' c /\ stopped (w_db w') target' self' c.
Proof.
  intros Hs Ht Hc Hrun.
  destruct (decide (u_id self = u_id target)) as [Heq|Hne].
  { unfold block_user, relationship_with in Hrun. by rewrite bool_decide_eq_true_2 in Hrun. }
  assert (exists r, apply_relationship self target RelationshipStatus.Blocked r w
            = (Ok (self', target'), w')
          /\ (r = RelationshipStatus.Blocked \/ r = RelationshipStatus.BlockedOther)) as (r & E & Hr).
  { unfold block_user in Hrun. destruct (relationship_with _ _); try done; eauto. }
  destruct (apply_relationship_run self target RelationshipStatus.Blocked r w Hne Hs Ht)
    as (w2 & E2 & Hs' & Ht' & _). rewrite E in E2. injection E2 as -> -> ->.
  split.
  - eapply blocked_side_stopped; eauto.
  - eapply blocked_side_stopped; eauto using dm_between_sym.
Qed.
End Blocking.

(** ** Witnesses *)

Module PrivateWitness.
Import SomePriority RelWitness.

Definition dm : DirectMessageChannel := {|
  dm_id := "dm"; dm_active := true; dm_recipients := ["alice"; "bob"];
  dm_last_message_id := None |}.

(** Alice writes to a friend. *)
Definition q : DatabasePermissionQuery ReferenceDb :=
  query_channel (DatabasePermissionQuery_new (w_db w2) alice2) (Channel.DirectMessage dm).

Lemma private_channel_permissions_refines_witness :
  fst (db_calculate_channel_permissions 0 q) = Ok (PV DEFAULT_PERMISSION_DIRECT_MESSAGE).
Proof.
  apply (private_channel_permissions_refines 0 q (Channel.DirectMessage dm) (Some bob2) false).
  split; [reflexivity|]. intros _. split; [reflexivity|]. exists 1%nat, "bob".
  split; [reflexivity|]. split; reflexivity.
Defined.

Definition alice3 : User := update_relation "bob" RelationshipStatus.Blocked alice2.
Definition bob3 : User := update_relation "alice" RelationshipStatus.BlockedOther bob2.

Lemma block_run : block_user alice2 bob2 w2 = (Ok (alice3, bob3), w3).
Proof. vm_compute. reflexivity. Qed.

Lemma block_stops_messages_witness :
  block_user alice2 bob2 w2 = (Ok (alice3, bob3), w3)
  /\ read_only (dm_permissions 0 (w_db w3) alice3 dm)
  /\ read_only (dm_permissions 0 (w_db w3) bob3 dm).
Proof.
  split; [exact block_run|].
  exact (block_stops_messages 0 alice2 bob2 w2 w3 alice3 bob3 dm eq_refl eq_refl
           (or_introl eq_refl) block_run).
Defined.
End PrivateWitness.
