(* ===== verification/Servers.v ===== *)
(** * Servers and roles
    ([crates/core/database/src/models/servers/model.rs], and the role routes
    [crates/delta/src/routes/servers/roles_edit_positions.rs])

    Editing and deleting a server, creating, editing, deleting and reordering
    its roles.  A method on [&mut self] returns the object as it left it; the
    identifier a method draws ([Ulid::new]) is an argument.  The theorems: the
    copy the method leaves is what the database stores, reordering gives every
    role a rank of its own and is what [ordered_roles] reads back, the check of
    the reordering route excludes the panic of [set_role_ordering], and where a
    new role's rank can coincide with an old one's. *)

From S2P Require Import Prelude Results Permissions PermissionCalc Models ModelOps DbPermissions PermissionSpec RolePrecedence ReferenceDb RefInvariant World.

Section Operations.
Context {D : Type} `{Database D}.
Context `{OptionalStruct Server PartialServer} `{OptionalStruct Role PartialRole}.
Local Abbreviation W := (M ErrorType (World D)).

(** [Server::update] *)
Definition server_update (self : Server) (partial : PartialServer) (remove : list FieldsServer)
    : W Server :=
  let self := apply_options (foldl server_remove_field self remove) partial in
  call (Database.update_server (s_id self) partial remove);;
  p (EventV1.ServerUpdate (s_id self) partial remove) (s_id self);;
  mret self.

(** [Server::delete] *)
Definition server_delete (self : Server) : W unit :=
  p (EventV1.ServerDelete (s_id self)) (s_id self);;
  call (Database.delete_server (s_id self)).

(** [Role::update] *)
Definition role_update (self : Role) (server_id : string) (partial : PartialRole)
    (remove : list FieldsRole) : W Role :=
  let self := apply_options (foldl role_remove_field self remove) partial in
  call (Database.update_role server_id (r_id self) partial remove);;
  p (EventV1.ServerRoleUpdate server_id (r_id self) partial remove) server_id;;
  mret self.

Definition PartialRole_permissions (permissions : OverrideField) : PartialRole :=
  {| pr_id := None; pr_name := None; pr_permissions := Some permissions; pr_colour := None;
     pr_hoist := None; pr_rank := None |}.

(** [Server::set_role_permission] *)
Definition server_set_role_permission (self : Server) (role_id : string)
    (permissions : OverrideField) : W Server :=
  match s_roles self !! role_id with
  | Some role =>
      role ← role_update role (s_id self) (PartialRole_permissions permissions) [];
      mret (s_set_roles (<[role_id := role]> (s_roles self)) self)
  | None => throw ErrorType.NotFound
  end.

(** [for (rank, id) in new_order.iter().enumerate() { roles.get_mut(id).unwrap().rank = rank }] *)
Fixpoint assign_ranks (rank : Z) (new_order : list string) (roles : gmap string Role)
    : option (gmap string Role) :=
  match new_order with
  | [] => Some roles
  | id :: ids =>
      match roles !! id with
      | Some role => assign_ranks (rank + 1) ids (<[id := r_set_rank rank role]> roles)
      | None => None
      end
  end.

Definition PartialServer_roles (roles : gmap string Role) : PartialServer :=
  {| ps_id := None; ps_owner := None; ps_name := None; ps_description := None;
     ps_channels := None; ps_categories := None; ps_system_messages := None;
     ps_roles := Some roles; ps_default_permissions := None; ps_icon := None; ps_banner := None;
     ps_flags := None; ps_nsfw := None; ps_analytics := None; ps_discoverable := None |}.

(** [Server::set_role_ordering]; the [debug_assert_eq!] of the source is not
    part of a release build. *)
Definition set_role_ordering (self : Server) (new_order : list string) : W Server :=
  match assign_ranks 0 new_order (s_roles self) with
  | Some roles =>
      call (Database.update_server (s_id self) (PartialServer_roles roles) []);;
      p (EventV1.ServerRoleRanksUpdate (s_id self) new_order) (s_id self);;
      mret (s_set_roles roles self)
  | None => panic
  end.

Definition OverrideField_default : OverrideField := {| of_a := 0; of_d := 0 |}.

(** [Role::create], [ulid] the identifier drawn *)
Definition role_create (ulid : string) (server : Server) (name : string) : W Role :=
  let role := {| r_id := ulid; r_name := name; r_permissions := OverrideField_default;
                 r_colour := None; r_hoist := false;
                 r_rank := Z.of_nat (size (s_roles server)) |} in
  call (Database.insert_role (s_id server) role);;
  p (EventV1.ServerRoleUpdate (s_id server) (r_id role) (role_into_optional role) []) (s_id server);;
  mret role.

(** [Role::delete] *)
Definition role_delete (self : Role) (server_id : string) : W unit :=
  p (EventV1.ServerRoleDelete server_id (r_id self)) server_id;;
  call (Database.delete_role server_id (r_id self)).
End Operations.

(** ** The reordering route *)

(** [iter().position(|x| x == id)] *)
Fixpoint position (id : string) (l : list string) : option nat :=
  match l with
  | [] => None
  | x :: l => if bool_decide (x = id) then Some O else S <$> position id l
  end.

(** The checks of [edit_role_ranks] before the ranks are set: [Err] is what
    the route answers.  [member_top_rank] is [query.get_member_rank()]. *)
Definition edit_role_ranks_check `{HashOrder} (server : Server) (user_id : string)
    (member_top_rank : option Z) (ranks : list string) : Result unit :=
  let existing_order := (ordered_roles server).*1 in
  if negb (bool_decide (length ranks = size (s_roles server)))
     || negb (forallb (fun '(id, _) => contains id ranks) (hm_iter (s_roles server)))
  then Err ErrorType.InvalidOperation
  else if bool_decide (s_owner server = user_id) then Ok tt
  else
    let above :=
      retain (fun e : string * Role => match member_top_rank with
                       | Some top_rank => r_rank e.2 <=? top_rank
                       | None => true
                       end) (hm_iter (s_roles server)) in
    if existsb (fun '(id, _) =>
         negb (bool_decide (position id existing_order = position id ranks))) above
    then Err ErrorType.NotElevated
    else Ok tt.

(** ** Ranks *)

Lemma assign_ranks_dom rank ids roles roles' :
  assign_ranks rank ids roles = Some roles' -> dom roles' = dom roles.
Proof.
  revert rank roles. induction ids as [|id ids IH]; intros rank roles; simpl; [by intros [= ->]|].
  destruct (roles !! id) as [r|] eqn:E; [|done]. intros ->%IH.
  apply dom_insert_lookup_L. by rewrite E.
Qed.

(** A role not named keeps its entry. *)
Lemma assign_ranks_other rank ids roles roles' x :
  assign_ranks rank ids roles = Some roles' -> x ∉ ids -> roles' !! x = roles !! x.
Proof.
  revert rank roles. induction ids as [|id ids IH]; intros rank roles; simpl; [by intros [= ->]|].
  destruct (roles !! id) as [r|] eqn:E; [|done]. intros Ha Hx.
  apply not_elem_of_cons in Hx as [Hne Hx].
  by rewrite (IH _ _ Ha Hx), lookup_insert_ne.
Qed.

(** The role at position [i] of the new order gets rank [i]. *)
Lemma assign_ranks_at rank ids roles roles' i id :
  NoDup ids -> assign_ranks rank ids roles = Some roles' -> ids !! i = Some id ->
  exists r, roles !! id = Some r /\ roles' !! id = Some (r_set_rank (rank + Z.of_nat i) r).
Proof.
  revert rank roles i. induction ids as [|x ids IH]; intros rank roles i Hnd; simpl; [done|].
  apply NoDup_cons in Hnd as [Hx Hnd].
  destruct (roles !! x) as [rx|] eqn:E; [|done]. intros Ha Hi. destruct i as [|i]; simpl in Hi.
  - injection Hi as ->. exists rx. split; [done|].
    rewrite (assign_ranks_other _ _ _ _ _ Ha Hx), lookup_insert_eq. by rewrite Z.add_0_r.
  - destruct (IH _ _ i Hnd Ha Hi) as (r & Hr & Hr').
    assert (x <> id) as Hne. { intros ->. apply Hx. by eapply list_elem_of_lookup_2. }
    rewrite lookup_insert_ne in Hr by done. exists r. split; [done|].
    rewrite Hr'. do 2 f_equal. lia.
Qed.

(** When every id names a role there is no panic. *)
Lemma assign_ranks_total rank ids roles :
  (forall id, id ∈ ids -> is_Some (roles !! id)) -> is_Some (assign_ranks rank ids roles).
Proof.
  revert rank roles. induction ids as [|x ids IH]; intros rank roles Hids; simpl; [by eexists|].
  destruct (Hids x ltac:(left)) as [r ->]. apply IH. intros id Hid.
  destruct (decide (x = id)) as [->|Hne]; [rewrite lookup_insert_eq; by eexists|].
  rewrite lookup_insert_ne by done. apply Hids. by right.
Qed.

(** ** An order that names every role once *)

Definition is_ordering (roles : gmap string Role) (new_order : list string) : Prop :=
  NoDup new_order /\ forall id, id ∈ new_order <-> is_Some (roles !! id).

(** Two lists that agree as sets, the first without repetition and at least as
    long: the second has no repetition either. *)
Lemma NoDup_by_length {A} `{EqDecision A} (l k : list A) :
  NoDup l -> (forall x, x ∈ l -> x ∈ k) -> (length k <= length l)%nat ->
  NoDup k /\ forall x, x ∈ k -> x ∈ l.
Proof.
  intros Hl Hsub Hlen. assert (l ≡ₚ k) as Hp.
  { apply submseteq_length_Permutation; [|done]. by apply NoDup_submseteq. }
  split; [by rewrite <- Hp|]. intros x. by rewrite Hp.
Qed.

Lemma checked_order_is_ordering `{HashOrder} server user_id top ranks :
  edit_role_ranks_check server user_id top ranks = Ok tt -> is_ordering (s_roles server) ranks.
Proof.
  unfold edit_role_ranks_check. case_bool_decide as Hlen; simpl; [|done].
  destruct (forallb _ _) eqn:Hall; simpl; [|done]. intros _.
  rewrite forallb_forall in Hall.
  destruct (NoDup_by_length (hm_iter (s_roles server)).*1 ranks) as [Hnd Hsub].
  - apply NoDup_fst_hm_iter.
  - intros x [[k r] [-> Hk]]%list_elem_of_fmap. simpl.
    apply contains_spec, (Hall (k, r)). by apply list_elem_of_In.
  - rewrite Hlen, length_fmap, hm_iter_perm. by rewrite length_map_to_list.
  - split; [done|]. intros id. split.
    + intros [[k r] [-> Hk]]%Hsub%list_elem_of_fmap. simpl. apply elem_of_hm_iter in Hk. by eexists.
    + intros [r Hr]. apply contains_spec, (Hall (id, r)), list_elem_of_In. by apply elem_of_hm_iter.
Qed.

(** ** Reading the order back *)

Definition entries (roles : gmap string Role) (ids : list string) : list (string * Role) :=
  omap (fun id => pair id <$> roles !! id) ids.

Definition entry_rank (e : string * Role) : Z := r_rank e.2.

Lemma entries_cons roles id r ids :
  roles !! id = Some r -> entries roles (id :: ids) = (id, r) :: entries roles ids.
Proof. intros Hr. unfold entries. simpl. by rewrite Hr. Qed.

Lemma entries_fst roles ids :
  (forall id, id ∈ ids -> is_Some (roles !! id)) -> (entries roles ids).*1 = ids.
Proof.
  induction ids as [|id ids IH]; intros Hids; [done|].
  destruct (Hids id ltac:(left)) as [r Hr]. rewrite (entries_cons _ _ r) by done. simpl.
  f_equal. apply IH. intros x Hx. apply Hids. by right.
Qed.

Lemma elem_of_entries roles ids k r :
  (k, r) ∈ entries roles ids <-> k ∈ ids /\ roles !! k = Some r.
Proof.
  unfold entries. rewrite list_elem_of_omap. split.
  - intros (x & Hx & E). destruct (roles !! x) eqn:Er; simplify_eq/=. done.
  - intros [Hk Hr]. exists k. split; [done|]. by rewrite Hr.
Qed.

Lemma entries_perm roles ids :
  is_ordering roles ids -> entries roles ids ≡ₚ map_to_list roles.
Proof.
  intros [Hnd Hids]. apply NoDup_Permutation.
  - apply (NoDup_fmap_1 fst). rewrite entries_fst; [done|]. intros id. apply Hids.
  - apply NoDup_map_to_list.
  - intros [k r]. rewrite elem_of_entries, elem_of_map_to_list, Hids. split; [by intros []|].
    intros Hr. split; [by eexists|done].
Qed.

Lemma assign_ranks_sorted rank ids roles roles' :
  NoDup ids -> assign_ranks rank ids roles = Some roles' ->
  StronglySorted (key_le entry_rank) (entries roles' ids) /\ NoDup (entry_rank <$> entries roles' ids)
  /\ Forall (fun e => rank <= entry_rank e) (entries roles' ids).
Proof.
  revert rank roles. induction ids as [|id ids IH]; intros rank roles Hnd Ha; [by repeat constructor|].
  pose proof (assign_ranks_at rank _ _ _ O id Hnd Ha eq_refl) as (r & _ & Hr).
  rewrite Z.add_0_r in Hr.
  apply NoDup_cons in Hnd as [Hid Hnd]. simpl in Ha.
  destruct (roles !! id) as [r0|]; [|done].
  destruct (IH _ _ Hnd Ha) as (H2 & H3 & H4).
  rewrite (entries_cons _ _ _ _ Hr).
  assert (Forall (fun e => rank < entry_rank e) (entries roles' ids)) as Hlt.
  { eapply Forall_impl; [exact H4|]. simpl. lia. }
  split_and!.
  - constructor; [done|]. eapply Forall_impl; [exact Hlt|]. unfold key_le, entry_rank. simpl. lia.
  - rewrite fmap_cons. apply NoDup_cons. split; [|done]. intros (e & He & Hin)%list_elem_of_fmap.
    rewrite Forall_forall in Hlt. pose proof (Hlt e Hin) as Hl.
    unfold entry_rank in He, Hl. simpl in He. lia.
  - constructor; [unfold entry_rank; simpl; lia|].
    eapply Forall_impl; [exact Hlt|]. simpl. lia.
Qed.

Lemma is_ordering_dom (roles roles' : gmap string Role) ids :
  dom roles' = dom roles -> is_ordering roles ids -> is_ordering roles' ids.
Proof.
  intros Hd [Hnd Hids]. split; [done|]. intros id.
  by rewrite Hids, <- !elem_of_dom, Hd.
Qed.

(** After the assignment, the ordered role list is the new order. *)
Lemma assign_ranks_ordered `{HashOrder} s new_order roles' :
  is_ordering (s_roles s) new_order -> assign_ranks 0 new_order (s_roles s) = Some roles' ->
  ordered_roles (s_set_roles roles' s) = entries roles' new_order.
Proof.
  intros Ho Ha.
  assert (is_ordering roles' new_order) as Ho'.
  { eapply is_ordering_dom; [|exact Ho]. by eapply assign_ranks_dom. }
  destruct (assign_ranks_sorted _ _ _ _ (proj1 Ho) Ha) as (Hs & Hnd & _).
  symmetry. apply (sorted_asc_unique entry_rank); [done|done| |].
  - apply ordered_roles_sorted.
  - rewrite ordered_roles_perm. simpl. by apply entries_perm.
Qed.

(** ** Properties, on the reference database *)

Section Properties.
Context `{HO : HashOrder}.
Context `{OS : OptionalStruct Server PartialServer} {SL : ServerOptionalLaws}.
Context `{OR : OptionalStruct Role PartialRole}.
Context `{OM : OptionalStruct Member PartialMember} `{OU : OptionalStruct User PartialUser}.

Lemma apply_roles_eq s roles : apply_options s (PartialServer_roles roles) = s_set_roles roles s.
Proof using HO OS SL.
  pose proof (s_id_applied s (PartialServer_roles roles)).
  pose proof (s_owner_applied s (PartialServer_roles roles)).
  pose proof (s_name_applied s (PartialServer_roles roles)).
  pose proof (s_description_applied s (PartialServer_roles roles)).
  pose proof (s_channels_applied s (PartialServer_roles roles)).
  pose proof (s_categories_applied s (PartialServer_roles roles)).
  pose proof (s_system_messages_applied s (PartialServer_roles roles)).
  pose proof (s_roles_applied s (PartialServer_roles roles)).
  pose proof (s_default_permissions_applied s (PartialServer_roles roles)).
  pose proof (s_icon_applied s (PartialServer_roles roles)).
  pose proof (s_banner_applied s (PartialServer_roles roles)).
  pose proof (s_flags_applied s (PartialServer_roles roles)).
  pose proof (s_nsfw_applied s (PartialServer_roles roles)).
  pose proof (s_analytics_applied s (PartialServer_roles roles)).
  pose proof (s_discoverable_applied s (PartialServer_roles roles)).
  destruct (apply_options s (PartialServer_roles roles)), s. simpl in *. by subst.
Qed.

(** What a stored server becomes when a method updates it. *)
Lemma ref_with_server_ok d id s f :
  Ref.fetch_server d id = Ok s ->
  with_mut db_servers set_servers ErrorType.NotFound id (fun x => Ok (f x)) d
  = (Ok tt, set_servers (<[id := f s]> (db_servers d)) d).
Proof.
  unfold Ref.fetch_server, get_or, with_mut. by destruct (db_servers d !! id); intros [= ->].
Qed.

Lemma ref_fetch_set_servers d id s m :
  m !! id = Some s -> Ref.fetch_server (set_servers m d) id = Ok s.
Proof. unfold Ref.fetch_server, get_or. simpl. by intros ->. Qed.

Lemma set_role_ordering_spec self new_order w :
  is_ordering (s_roles self) new_order ->
  Ref.fetch_server (w_db w) (s_id self) = Ok self ->
  exists w' roles', set_role_ordering self new_order w = (Ok (s_set_roles roles' self), w')
    /\ assign_ranks 0 new_order (s_roles self) = Some roles'
    /\ Ref.fetch_server (w_db w') (s_id self) = Ok (s_set_roles roles' self)
    /\ w_events w' = w_events w ++ [(s_id self, EventV1.ServerRoleRanksUpdate (s_id self) new_order)].
Proof using HO OS SL OR OM OU.
  intros [Hnd Hids] Hf. unfold set_role_ordering.
  destruct (assign_ranks_total 0 new_order (s_roles self)) as [roles' Ha].
  { intros id. apply Hids. }
  rewrite Ha.
  assert (Ref.update_server (s_id self) (PartialServer_roles roles') [] (w_db w)
    = (Ok tt, set_servers (<[s_id self := s_set_roles roles' self]> (db_servers (w_db w))) (w_db w))) as Eu.
  { unfold Ref.update_server. simpl. rewrite (ref_with_server_ok _ _ self) by done.
    by rewrite apply_roles_eq. }
  eexists _, roles'. split.
  { erewrite M_bind_ok; [|rewrite call_run; cbn [Database.update_server reference_database];
      rewrite Eu; reflexivity]. reflexivity. }
  split; [done|]. split; [|done]. simpl.
  apply ref_fetch_set_servers, lookup_insert_eq.
Qed.

(** Reordering the roles of a stored server with an order that names every
    role once succeeds; the order read back from the copy and from the
    database, whatever the iteration order of the role map, is the one given,
    and every member's roles have pairwise distinct ranks afterwards, so that
    permissions are determined by the data. *)
Theorem role_reordering_roundtrip self new_order w :
  is_ordering (s_roles self) new_order ->
  Ref.fetch_server (w_db w) (s_id self) = Ok self ->
  exists w' self', set_role_ordering self new_order w = (Ok self', w')
    /\ Ref.fetch_server (w_db w') (s_id self) = Ok self'
    /\ (ordered_roles self').*1 = new_order
    /\ forall member_roles, distinct_ranks self' member_roles.
Proof using HO OS SL OR OM OU.
  intros Ho Hf. destruct (set_role_ordering_spec self new_order w Ho Hf) as (w' & roles' & E & Ha & Hf' & _).
  exists w', (s_set_roles roles' self). split; [done|]. split; [done|].
  assert (is_ordering roles' new_order) as Ho'.
  { eapply is_ordering_dom; [|exact Ho]. by eapply assign_ranks_dom. }
  split.
  - rewrite (assign_ranks_ordered _ _ _ Ho Ha). apply entries_fst. intros id. apply Ho'.
  - intros ms id1 id2 r1 r2 _ _ H1 H2 Hr. simpl in *.
    assert (forall id r, roles' !! id = Some r -> exists i, new_order !! i = Some id /\ r_rank r = Z.of_nat i)
      as Hpos.
    { intros id r Hid. assert (id ∈ new_order) as [i Hi]%list_elem_of_lookup.
      { apply Ho'. by eexists. }
      destruct (assign_ranks_at _ _ _ _ i id (proj1 Ho) Ha Hi) as (r0 & _ & Hr0).
      exists i. split; [done|]. rewrite Hid in Hr0. injection Hr0 as ->. done. }
    destruct (Hpos _ _ H1) as (i & Hi & Ei), (Hpos _ _ H2) as (j & Hj & Ej).
    assert (i = j) as -> by lia. congruence.
Qed.

(** An order that passes the checks of the reordering route names every
    role of the server exactly once, so the [unwrap] of [set_role_ordering]
    cannot panic on it; and a member who is not the owner leaves every role
    ranked at or above their own at its position. *)
Theorem checked_reordering_safe server user_id top ranks w :
  edit_role_ranks_check server user_id top ranks = Ok tt ->
  Ref.fetch_server (w_db w) (s_id server) = Ok server ->
  is_ok (set_role_ordering server ranks w).1 = true
  /\ (s_owner server <> user_id ->
      forall id r, s_roles server !! id = Some r ->
        match top with Some t => r_rank r <= t | None => True end ->
        position id ranks = position id (ordered_roles server).*1).
Proof using HO OS SL OR OM OU.
  intros Hc Hf. split.
  { destruct (set_role_ordering_spec server ranks w) as (w' & roles' & -> & _); [|done|done].
    by eapply checked_order_is_ordering. }
  intros Hown id r Hr Htop. revert Hc. unfold edit_role_ranks_check.
  case_bool_decide; simpl; [|done]. destruct (forallb _ _); simpl; [|done].
  rewrite (bool_decide_eq_false_2 (s_owner server = user_id)) by done.
  destruct (existsb _ _) eqn:Ee; [done|]. intros _.
  destruct (decide (position id (ordered_roles server).*1 = position id ranks)) as [->|Hne]; [done|].
  apply not_true_iff_false in Ee. destruct Ee. apply existsb_exists. exists (id, r). split.
  - apply list_elem_of_In. unfold retain. apply list_elem_of_filter. split.
    + simpl. destruct top; [by apply Z.leb_le|done].
    + by apply elem_of_hm_iter.
  - by rewrite bool_decide_eq_false_2.
Qed.

(** [Role::create] takes the number of roles as the rank of the new role.
    When all ranks are below that number, as after a reordering, the new role
    is strictly below every other one. *)
Theorem new_role_is_lowest ulid server name w :
  Ref.fetch_server (w_db w) (s_id server) = Ok server ->
  (forall id r, s_roles server !! id = Some r -> r_rank r < Z.of_nat (size (s_roles server))) ->
  exists role w', role_create ulid server name w = (Ok role, w')
    /\ Ref.fetch_server (w_db w') (s_id server)
       = Ok (s_set_roles (<[ulid := role]> (s_roles server)) server)
    /\ forall id r, s_roles server !! id = Some r -> r_rank r < r_rank role.
Proof using HO OS OR OM OU.
  intros Hf Hranks. unfold role_create.
  eexists _, _. split.
  { erewrite M_bind_ok; [reflexivity|]. rewrite call_run. cbn [Database.insert_role reference_database].
    unfold Ref.insert_role. rewrite (ref_with_server_ok _ _ server) by done. reflexivity. }
  split; [|exact Hranks]. simpl. by apply ref_fetch_set_servers, lookup_insert_eq.
Qed.

(** After a role other than the lowest one is deleted, the next role
    created gets the rank of the lowest one: with ranks [0 .. n-1], deletion
    leaves [n-1] roles and a role of rank [n-1]. *)
Theorem new_role_can_tie ulid server name rid r lid l w :
  Ref.fetch_server (w_db w) (s_id server) = Ok server ->
  s_roles server !! rid = Some r -> r_id r = rid -> s_roles server !! lid = Some l -> rid <> lid ->
  r_rank l = Z.of_nat (size (s_roles server)) - 1 ->
  exists w1 server1 role w2,
    role_delete r (s_id server) w = (Ok tt, w1)
    /\ Ref.fetch_server (w_db w1) (s_id server) = Ok server1
    /\ s_roles server1 !! lid = Some l
    /\ role_create ulid server1 name w1 = (Ok role, w2)
    /\ r_rank role = r_rank l.
Proof using HO OS OR OM OU.
  intros Hf Hr Hid Hl Hne Hrank.
  set (server1 := s_set_roles (delete rid (s_roles server)) server).
  set (d1 := set_servers (<[s_id server := server1]> (db_servers (w_db w))) (w_db w)).
  assert (Ref.delete_role (s_id server) (r_id r) (w_db w) = (Ok tt, d1)) as Ed.
  { unfold Ref.delete_role, with_mut. unfold Ref.fetch_server, get_or in Hf.
    destruct (db_servers (w_db w) !! s_id server); simplify_eq/=. by rewrite Hr. }
  assert (Ref.fetch_server d1 (s_id server) = Ok server1) as Hf1.
  { apply ref_fetch_set_servers, lookup_insert_eq. }
  eexists _, server1, _, _. split.
  { unfold role_delete. erewrite M_bind_ok by reflexivity. rewrite call_run.
    cbn [Database.delete_role reference_database w_db]. rewrite Ed. reflexivity. }
  split; [exact Hf1|]. split; [simpl; by rewrite lookup_delete_ne|]. split.
  { unfold role_create. erewrite M_bind_ok; [reflexivity|]. rewrite call_run.
    cbn [Database.insert_role reference_database w_db w_set_db].
    unfold Ref.insert_role. rewrite (ref_with_server_ok _ _ server1) by exact Hf1. reflexivity. }
  simpl. rewrite Hrank, map_size_delete, Hr.
  pose proof (map_size_ne_0_lookup_2 (s_roles server) rid ltac:(by eexists)). lia.
Qed.
End Properties.

(** ** Witnesses *)

Module ServerWitness.
Import SomePriority.

Definition server : Server := Example.server Example.two_roles.
Definition w0 : World ReferenceDb :=
  world (set_servers {[ "server" := server ]} ReferenceDb_default).

Lemma server_stored : Ref.fetch_server (w_db w0) (s_id server) = Ok server.
Proof. reflexivity. Qed.

Lemma swap_is_ordering : is_ordering (s_roles server) ["member"; "mod"].
Proof.
  apply (checked_order_is_ordering server "owner" None). vm_compute. reflexivity.
Qed.

Lemma role_reordering_roundtrip_witness :
  exists w' self', set_role_ordering server ["member"; "mod"] w0 = (Ok self', w')
    /\ Ref.fetch_server (w_db w') (s_id server) = Ok self'
    /\ (ordered_roles self').*1 = ["member"; "mod"]
    /\ forall member_roles, distinct_ranks self' member_roles.
Proof.
  exact (role_reordering_roundtrip server ["member"; "mod"] w0 swap_is_ordering server_stored).
Defined.

(** The moderator role stays first when its holder reorders. *)
Lemma checked_reordering_safe_witness :
  edit_role_ranks_check server "moderator" (Some 0) ["mod"; "member"] = Ok tt
  /\ is_ok (set_role_ordering server ["mod"; "member"] w0).1 = true.
Proof.
  assert (edit_role_ranks_check server "moderator" (Some 0) ["mod"; "member"] = Ok tt) as Hc
    by (vm_compute; reflexivity).
  split; [exact Hc|].
  exact (proj1 (checked_reordering_safe server "moderator" (Some 0) ["mod"; "member"] w0
                  Hc server_stored)).
Defined.

Lemma new_role_is_lowest_witness :
  exists role w', role_create "new" server "New" w0 = (Ok role, w')
    /\ Ref.fetch_server (w_db w') (s_id server)
       = Ok (s_set_roles (<["new" := role]> (s_roles server)) server)
    /\ forall id r, s_roles server !! id = Some r -> r_rank r < r_rank role.
Proof.
  apply (new_role_is_lowest "new" server "New" w0 server_stored). intros id r Hr.
  change (Z.of_nat (size (s_roles server))) with 2. simpl in Hr. unfold Example.two_roles in Hr.
  apply lookup_insert_Some in Hr as [[_ <-]|[_ Hr]]; [by vm_compute|].
  apply lookup_singleton_Some in Hr as [_ <-]. by vm_compute.
Defined.

Lemma new_role_can_tie_witness :
  exists w1 server1 role w2 l,
    role_delete (Example.role "mod" 0 0 ChannelPermission.SendMessage) "server" w0 = (Ok tt, w1)
    /\ Ref.fetch_server (w_db w1) "server" = Ok server1
    /\ s_roles server1 !! "member" = Some l
    /\ role_create "new" server1 "New" w1 = (Ok role, w2)
    /\ r_rank role = r_rank l.
Proof.
  destruct (new_role_can_tie "new" server "New" "mod"
              (Example.role "mod" 0 0 ChannelPermission.SendMessage) "member"
              (Example.role "member" 1 (ChannelPermission.BanMembers +p ChannelPermission.SendMessage) 0)
              w0) as (w1 & server1 & role & w2 & H1 & H2 & H3 & H4 & H5);
    [reflexivity|reflexivity|reflexivity|reflexivity|discriminate|reflexivity|].
  exists w1, server1, role, w2. eexists. by split_and!.
Defined.
End ServerWitness.
