(* ===== verification/Channels.v ===== *)
(** * Channels and groups
    ([crates/core/database/src/models/channels/model.rs])

    Creating, editing and deleting channels, and the membership of groups.  The
    limits the code reads from the configuration, the identifiers it draws and
    the order in which it walks a [HashSet] are arguments.  [GroupStore] is
    what the group operations need of the database, as the MongoDB driver
    documents it ([$push], [$pull], [$set]); against it the theorems show that
    a group keeps its shape: bounded, without duplicates, with an owner who is
    a member and moderators who are members. *)

From S2P Require Import Prelude Results Permissions PermissionCalc Models ModelOps DbPermissions PermissionSpec Records ReferenceDb RefInvariant World Servers.

Module LegacyServerChannelType.
Inductive LegacyServerChannelType : Type := Text | Voice.
End LegacyServerChannelType.
Abbreviation LegacyServerChannelType := LegacyServerChannelType.LegacyServerChannelType.

(** [v0::DataCreateServerChannel] *)
Record DataCreateServerChannel := {
  dc_channel_type : LegacyServerChannelType;
  dc_name : string;
  dc_description : option string;
  dc_nsfw : option bool;
  dc_voice : option VoiceInformation }.

(** [v0::DataCreateGroup] *)
Record DataCreateGroup := {
  dg_name : string;
  dg_description : option string;
  dg_icon : option string;
  dg_users : gset string;
  dg_nsfw : option bool }.

Definition unwrap_or {A} (o : option A) (x : A) : A := match o with Some v => v | None => x end.

Definition PartialServer_channels (channels : list string) : PartialServer :=
  {| ps_id := None; ps_owner := None; ps_name := None; ps_description := None;
     ps_channels := Some channels; ps_categories := None; ps_system_messages := None;
     ps_roles := None; ps_default_permissions := None; ps_icon := None; ps_banner := None;
     ps_flags := None; ps_nsfw := None; ps_analytics := None; ps_discoverable := None |}.

Definition PartialChannel_owner (owner : string) : PartialChannel :=
  {| pc_name := None; pc_owner := Some owner; pc_description := None; pc_icon := None;
     pc_nsfw := None; pc_active := None; pc_permissions := None; pc_moderators := None;
     pc_role_permissions := None; pc_default_permissions := None; pc_last_message_id := None;
     pc_voice := None; pc_encrypted := None |}.
Definition PartialChannel_moderators (moderators : list string) : PartialChannel :=
  {| pc_name := None; pc_owner := None; pc_description := None; pc_icon := None;
     pc_nsfw := None; pc_active := None; pc_permissions := None; pc_moderators := Some moderators;
     pc_role_permissions := None; pc_default_permissions := None; pc_last_message_id := None;
     pc_voice := None; pc_encrypted := None |}.
Definition PartialChannel_role_permissions (rp : gmap string OverrideField) : PartialChannel :=
  {| pc_name := None; pc_owner := None; pc_description := None; pc_icon := None;
     pc_nsfw := None; pc_active := None; pc_permissions := None; pc_moderators := None;
     pc_role_permissions := Some rp; pc_default_permissions := None; pc_last_message_id := None;
     pc_voice := None; pc_encrypted := None |}.

Section Operations.
Context {D : Type} `{Database D} `{OptionalStruct Server PartialServer}.
Local Abbreviation W := (M ErrorType (World D)).

(** The channel [create_server_channel] builds. *)
Definition new_server_channel (id : string) (server : Server) (data : DataCreateServerChannel)
    : Channel :=
  Channel.TextChannel {|
    t_id := id; t_server := s_id server; t_name := dc_name data;
    t_description := dc_description data; t_icon := None; t_last_message_id := None;
    t_default_permissions := None; t_role_permissions := ∅;
    t_nsfw := unwrap_or (dc_nsfw data) false;
    t_voice := match dc_channel_type data with
               | LegacyServerChannelType.Text => dc_voice data
               | LegacyServerChannelType.Voice =>
                   Some (unwrap_or (dc_voice data) VoiceInformation_default)
               end;
    t_encrypted := false |}.

(** [Channel::create_server_channel]; returns the server as it was left *)
Definition create_server_channel (server_channels : Z) (ulid : string) (server : Server)
    (data : DataCreateServerChannel) (update_server : bool) : W (Channel * Server) :=
  if server_channels <? Z.of_nat (length (s_channels server))
  then throw (ErrorType.TooManyChannels server_channels)
  else
    let channel := new_server_channel ulid server data in
    call (Database.insert_channel channel);;
    if update_server then
      server ← server_update server (PartialServer_channels (s_channels server ++ [ulid])) [];
      p (EventV1.ChannelCreate channel) (s_id server);;
      mret (channel, server)
    else mret (channel, server).

(** [File::use_channel_icon] *)
Definition use_channel_icon (id parent uploader_id : string) : W File :=
  call (Database.find_and_use_attachment id "icons"
          {| fuf_object_type := FileUsedForType.ChannelIcon; fuf_id := parent |} uploader_id).

(** The elements of a [HashSet], in the order it is walked. *)
Definition set_iter `{HashOrder} (s : gset string) : list string := (hm_iter (gset_to_gmap tt s)).*1.

(** [Channel::create_group] *)
Definition create_group `{HashOrder} (group_size : Z) (ulid : string) (data : DataCreateGroup)
    (owner_id : string) : W Channel :=
  let users := {[ owner_id ]} ∪ dg_users data in
  if group_size <? Z.of_nat (size users) then throw (ErrorType.GroupTooLarge group_size)
  else
    icon ← match dg_icon data with
           | Some icon_id => file ← use_channel_icon icon_id ulid owner_id; mret (Some file)
           | None => mret None
           end;
    let recipients := set_iter users in
    let channel := Channel.Group {|
      g_id := ulid; g_name := dg_name data; g_owner := owner_id;
      g_description := dg_description data; g_recipients := recipients; g_icon := icon;
      g_last_message_id := None; g_permissions := None; g_moderators := [];
      g_nsfw := unwrap_or (dg_nsfw data) false; g_encrypted := false |} in
    call (Database.insert_channel channel);;
    publish_to (EventV1.ChannelCreate channel) ((fun r => r +:+ "!") <$> recipients);;
    mret channel.

(** [Channel::create_dm] *)
Definition create_dm (ulid : string) (user_a user_b : User) : W Channel := fun w =>
  match call (Database.find_direct_message_channel (u_id user_a) (u_id user_b)) w with
  | (Ok channel, w) => (Ok channel, w)
  | (Panicked, w) => (Panicked, w)
  | (Err _, w) =>
      (let channel :=
         if bool_decide (u_id user_a = u_id user_b)
         then Channel.SavedMessages {| sm_id := ulid; sm_user := u_id user_a |}
         else Channel.DirectMessage {|
                dm_id := ulid; dm_active := true; dm_recipients := [u_id user_a; u_id user_b];
                dm_last_message_id := None |} in
       call (Database.insert_channel channel);;
       match channel with
       | Channel.DirectMessage _ =>
           private (EventV1.ChannelCreate channel) (u_id user_a);;
           private (EventV1.ChannelCreate channel) (u_id user_b)
       | _ => mret tt
       end;;
       mret channel) w
  end.

(** [Channel::add_user_to_group] *)
Definition add_user_to_group (group_size : Z) (self : Channel) (user : User) (by_id : string)
    : W Channel :=
  match self with
  | Channel.Group g =>
      if contains (u_id user) (g_recipients g) then throw ErrorType.AlreadyInGroup
      else if group_size <=? Z.of_nat (length (g_recipients g))
      then throw (ErrorType.GroupTooLarge group_size)
      else
        let self := Channel.Group (g_set_recipients (g_recipients g ++ [u_id user]) g) in
        call (Database.add_user_to_group (g_id g) (u_id user));;
        p (EventV1.ChannelGroupJoin (g_id g) (u_id user)) (g_id g);;
        send_system (g_id g) (SystemMessage.UserAdded (u_id user) by_id);;
        private (EventV1.ChannelCreate self) (u_id user);;
        mret self
  | _ => throw ErrorType.InvalidOperation
  end.

(** [Channel::set_role_permission] *)
Definition channel_set_role_permission (self : Channel) (role_id : string)
    (permissions : OverrideField) : W Channel :=
  match self with
  | Channel.TextChannel c =>
      call (Database.set_channel_role_permission (t_id c) role_id permissions);;
      let rp := <[role_id := permissions]> (t_role_permissions c) in
      p (EventV1.ChannelUpdate (t_id c) (PartialChannel_role_permissions rp) []) (t_server c);;
      mret (Channel.TextChannel (t_set_role_permissions rp c))
  | _ => throw ErrorType.InvalidOperation
  end.

(** [Channel::update] *)
Definition channel_update (self : Channel) (partial : PartialChannel) (remove : list FieldsChannel)
    : W Channel :=
  let self := channel_apply_options (foldl channel_remove_field self remove) partial in
  let id := channel_id self in
  call (Database.update_channel id partial remove);;
  p (EventV1.ChannelUpdate id partial remove)
    (match self with Channel.TextChannel c => t_server c | _ => id end);;
  mret self.

(** [Channel::delete] *)
Definition channel_delete (self : Channel) : W unit :=
  p (EventV1.ChannelDelete (channel_id self)) (channel_id self);;
  call (Database.delete_channel self).

(** [remove_user_from_group], the removal from the moderators *)
Definition drop_moderator (g : GroupChannel) (user : User) : W unit :=
  if contains (u_id user) (g_moderators g) then
    call (Database.update_channel (g_id g)
            (PartialChannel_moderators (filter (fun m => m <> u_id user) (g_moderators g))) [])
  else mret tt.

(** [remove_user_from_group], from the moderators to the end *)
Definition leave_group (g : GroupChannel) (user : User) (by_id : option string) (silent : bool)
    : W unit :=
  drop_moderator g user;;
  call (Database.remove_user_from_group (g_id g) (u_id user));;
  p (EventV1.ChannelGroupLeave (g_id g) (u_id user)) (g_id g);;
  if silent then mret tt
  else send_system (g_id g)
         (match by_id with
          | Some by_ => SystemMessage.UserRemove (u_id user) by_
          | None => SystemMessage.UserLeft (u_id user)
          end).

(** [Channel::remove_user_from_group] *)
Definition remove_user_from_group (self : Channel) (user : User) (by_id : option string)
    (silent : bool) : W unit :=
  match self with
  | Channel.Group g =>
      if bool_decide (u_id user = g_owner g) then
        match List.find (fun x => negb (bool_decide (x = u_id user))) (g_recipients g) with
        | Some new_owner =>
            call (Database.update_channel (g_id g) (PartialChannel_owner new_owner) []);;
            send_system (g_id g) (SystemMessage.ChannelOwnershipChanged (g_owner g) new_owner);;
            leave_group g user by_id silent
        | None => channel_delete self
        end
      else leave_group g user by_id silent
  | _ => throw ErrorType.InvalidOperation
  end.
End Operations.

(** ** What the group operations need of the database *)

(** A method under which the group [id] becomes [after], the others staying. *)
Definition group_becomes {D} (view : D -> string -> option GroupChannel) (m : M ErrorType D unit)
    (d : D) (id : string) (after : option GroupChannel) : Prop :=
  exists d', m d = (Ok tt, d') /\ view d' id = after /\ forall x, x <> id -> view d' x = view d x.

(** A store with the updates of MongoDB: [$push], [$pull], which takes out every
    occurrence, and [$set]. *)
Class GroupStore (D : Type) `{Database D} := {
  group : D -> string -> option GroupChannel;
  group_add : forall d id g u, group d id = Some g ->
    group_becomes group (Database.add_user_to_group id u) d id
      (Some (g_set_recipients (g_recipients g ++ [u]) g));
  group_remove : forall d id g u, group d id = Some g ->
    group_becomes group (Database.remove_user_from_group id u) d id
      (Some (g_set_recipients (filter (fun x => x <> u) (g_recipients g)) g));
  group_update : forall d id g p, group d id = Some g ->
    group_becomes group (Database.update_channel id p []) d id (Some (group_apply_options g p));
  group_delete : forall d g, group d (g_id g) = Some g ->
    group_becomes group (Database.delete_channel (Channel.Group g)) d (g_id g) None }.

(** The shape of a group, for the configured [group_size]. *)
Definition group_ok (group_size : Z) (g : GroupChannel) : Prop :=
  NoDup (g_recipients g) /\ g_owner g ∈ g_recipients g
  /\ (forall m, m ∈ g_moderators g -> m ∈ g_recipients g)
  /\ Z.of_nat (length (g_recipients g)) <= group_size.

Section Groups.
Context {D : Type} `{GroupStore D} (group_size : Z).

Lemma call_group_becomes m (w : World D) id after :
  group_becomes group m (w_db w) id after ->
  exists d', call m w = (Ok tt, w_set_db d' w) /\ group d' id = after
    /\ forall x, x <> id -> group d' x = group (w_db w) x.
Proof. intros (d' & E & Hid & Hx). exists d'. rewrite call_run, E. done. Qed.

(** Adding: refused with nothing changed, or done. *)
Lemma add_user_to_group_run g user by_id w :
  group (w_db w) (g_id g) = Some g ->
  let g' := g_set_recipients (g_recipients g ++ [u_id user]) g in
  if contains (u_id user) (g_recipients g) then
    add_user_to_group group_size (Channel.Group g) user by_id w = (Err ErrorType.AlreadyInGroup, w)
  else if group_size <=? Z.of_nat (length (g_recipients g)) then
    add_user_to_group group_size (Channel.Group g) user by_id w
    = (Err (ErrorType.GroupTooLarge group_size), w)
  else exists w', add_user_to_group group_size (Channel.Group g) user by_id w
                  = (Ok (Channel.Group g'), w')
    /\ group (w_db w') (g_id g) = Some g'
    /\ forall x, x <> g_id g -> group (w_db w') x = group (w_db w) x.
Proof.
  intros Hg g'. unfold add_user_to_group.
  destruct (contains _ _); [done|]. destruct (group_size <=? _); [done|].
  destruct (call_group_becomes _ w _ _ (group_add _ _ _ (u_id user) Hg)) as (d' & E & Hid & Hx).
  eexists. split; [erewrite M_bind_ok by exact E; reflexivity|]. by split.
Qed.

Lemma add_keeps_ok g u :
  group_ok group_size g -> u ∉ g_recipients g -> Z.of_nat (length (g_recipients g)) < group_size ->
  group_ok group_size (g_set_recipients (g_recipients g ++ [u]) g).
Proof.
  intros (Hnd & Ho & Hm & Hl) Hu Hlen. unfold group_ok. simpl. split_and!.
  - apply NoDup_app. split; [done|]. split; [|apply NoDup_singleton].
    intros x Hx ->%list_elem_of_singleton. done.
  - rewrite elem_of_app. by left.
  - intros m Hin. rewrite elem_of_app. left. auto.
  - rewrite length_app. simpl. lia.
Qed.

(** The group once [u] has left and [owner] owns it. *)
Definition group_without (g : GroupChannel) (u owner : string) : GroupChannel :=
  {| g_id := g_id g; g_name := g_name g; g_owner := owner; g_description := g_description g;
     g_recipients := filter (fun x => x <> u) (g_recipients g); g_icon := g_icon g;
     g_last_message_id := g_last_message_id g; g_permissions := g_permissions g;
     g_moderators := filter (fun x => x <> u) (g_moderators g); g_nsfw := g_nsfw g;
     g_encrypted := g_encrypted g |}.

Lemma group_without_ok g u owner :
  group_ok group_size g -> owner ∈ g_recipients g -> owner <> u ->
  group_ok group_size (group_without g u owner).
Proof.
  intros (Hnd & Ho & Hm & Hl) Hown Hne. unfold group_ok. simpl. split_and!.
  - by apply NoDup_filter.
  - by apply list_elem_of_filter.
  - intros m [Hmu Hin]%list_elem_of_filter. apply list_elem_of_filter. auto.
  - pose proof (length_filter (fun x => x <> u) (g_recipients g)). lia.
Qed.

Lemma filter_ne_id (u : string) (l : list string) : u ∉ l -> filter (fun x => x <> u) l = l.
Proof.
  intros Hu. induction l as [|x l IH]; [done|]. apply not_elem_of_cons in Hu as [Hx Hu].
  rewrite filter_cons_True by done. by rewrite IH.
Qed.

(** Who owns the group after the user left: [None] when the group is deleted. *)
Definition owner_after (g : GroupChannel) (u : string) : option string :=
  if bool_decide (u = g_owner g) then
    List.find (fun x => negb (bool_decide (x = u))) (g_recipients g)
  else Some (g_owner g).

Lemma owner_after_spec g u :
  g_owner g ∈ g_recipients g ->
  match owner_after g u with
  | Some o => o ∈ g_recipients g /\ o <> u
  | None => u = g_owner g /\ forall x, x ∈ g_recipients g -> x = u
  end.
Proof.
  intros Ho. unfold owner_after. case_bool_decide as Hu; [|done].
  destruct (List.find _ _) as [o|] eqn:E.
  - apply List.find_some in E as [Hin Hne]. apply list_elem_of_In in Hin.
    apply negb_true_iff, bool_decide_eq_false in Hne. done.
  - split; [done|]. intros x Hx%list_elem_of_In.
    apply (List.find_none _ _ E), negb_false_iff, bool_decide_eq_true in Hx. done.
Qed.

(** Leaving, once the owner is settled: [g] is what is stored for the handler's
    copy [g0]. *)
Lemma drop_moderator_run g0 g user w :
  group (w_db w) (g_id g0) = Some g -> g_moderators g = g_moderators g0 ->
  exists w1 g1, drop_moderator g0 user w = (Ok tt, w1)
    /\ group (w_db w1) (g_id g0) = Some g1
    /\ g_set_recipients (filter (fun x => x <> u_id user) (g_recipients g1)) g1
       = group_without g (u_id user) (g_owner g)
    /\ forall x, x <> g_id g0 -> group (w_db w1) x = group (w_db w) x.
Proof.
  intros Hg Hmods. unfold drop_moderator. destruct (contains _ _) eqn:Ec.
  - destruct (call_group_becomes _ w _ _ (group_update _ _ _
      (PartialChannel_moderators (filter (fun m => m <> u_id user) (g_moderators g0))) Hg))
      as (d' & E & Hid & Hx).
    eexists _, _. split; [exact E|]. split; [exact Hid|]. split; [by rewrite <- Hmods|exact Hx].
  - exists w, g. split; [done|]. split; [done|]. split; [|done].
    assert (filter (fun x => x <> u_id user) (g_moderators g) = g_moderators g) as Hf.
    { apply filter_ne_id. rewrite Hmods, <- contains_spec. by rewrite Ec. }
    unfold group_without. by rewrite Hf.
Qed.

Lemma leave_run g0 g user by_id silent w :
  group (w_db w) (g_id g0) = Some g -> g_moderators g = g_moderators g0 ->
  exists w', leave_group g0 user by_id silent w = (Ok tt, w')
    /\ group (w_db w') (g_id g0) = Some (group_without g (u_id user) (g_owner g))
    /\ forall x, x <> g_id g0 -> group (w_db w') x = group (w_db w) x.
Proof.
  intros Hg Hmods. unfold leave_group.
  destruct (drop_moderator_run g0 g user w Hg Hmods) as (w1 & g1 & E1 & Hg1 & Eg1 & Hx1).
  erewrite M_bind_ok by exact E1.
  destruct (call_group_becomes _ w1 _ _ (group_remove _ _ _ (u_id user) Hg1)) as (d2 & E2 & Hid2 & Hx2).
  erewrite M_bind_ok by exact E2. erewrite M_bind_ok by reflexivity.
  destruct silent; (eexists; split; [reflexivity|]; split; simpl;
    [by rewrite Hid2, Eg1|intros x Hne; by rewrite Hx2, Hx1]).
Qed.

(** [remove_user_from_group] on a stored group, in all its cases. *)
Lemma remove_user_from_group_run g user by_id silent w :
  group (w_db w) (g_id g) = Some g ->
  exists w', remove_user_from_group (Channel.Group g) user by_id silent w = (Ok tt, w')
    /\ group (w_db w') (g_id g) = (group_without g (u_id user)) <$> owner_after g (u_id user)
    /\ forall x, x <> g_id g -> group (w_db w') x = group (w_db w) x.
Proof.
  intros Hg. unfold remove_user_from_group, owner_after. case_bool_decide as Ho.
  - destruct (List.find _ _) as [o|] eqn:Ef.
    + destruct (call_group_becomes _ w _ _ (group_update _ _ _ (PartialChannel_owner o) Hg))
        as (d1 & E1 & Hg1 & Hx1).
      erewrite M_bind_ok by exact E1. erewrite M_bind_ok by reflexivity.
      destruct (leave_run g (group_apply_options g (PartialChannel_owner o)) user by_id silent
        {| w_db := d1; w_events := w_events w; w_amqp := w_amqp w;
           w_sent := w_sent w ++ [(g_id g, SystemMessage.ChannelOwnershipChanged (g_owner g) o)] |})
        as (w' & E' & Hg' & Hx'); [exact Hg1|done|].
      exists w'. split; [exact E'|]. split; [exact Hg'|].
      intros x Hne. by rewrite Hx', <- Hx1.
    + destruct (call_group_becomes (Database.delete_channel (Channel.Group g))
        {| w_db := w_db w; w_events := w_events w ++ [(g_id g, EventV1.ChannelDelete (g_id g))];
           w_amqp := w_amqp w; w_sent := w_sent w |} _ _ (group_delete _ _ Hg)) as (d1 & E1 & Hg1 & Hx1).
      eexists. split.
      { unfold channel_delete. erewrite M_bind_ok by reflexivity. exact E1. }
      by split.
  - by apply leave_run.
Qed.
End Groups.

(** ** Properties of groups *)

Section GroupProperties.
Context {D : Type} `{GroupStore D} (group_size : Z).

Definition groups_ok (d : D) : Prop :=
  forall id g, group d id = Some g -> g_id g = id /\ group_ok group_size g.

(** One membership operation, on the handler's copy of a stored group. *)
Inductive group_step (w : World D) : World D -> Prop :=
| step_add g user by_id :
    group (w_db w) (g_id g) = Some g ->
    group_step w (add_user_to_group group_size (Channel.Group g) user by_id w).2
| step_remove g user by_id silent :
    group (w_db w) (g_id g) = Some g ->
    group_step w (remove_user_from_group (Channel.Group g) user by_id silent w).2.

Lemma groups_ok_update d d' id after :
  groups_ok d -> group d' id = after -> (forall x, x <> id -> group d' x = group d x) ->
  (forall g, after = Some g -> g_id g = id /\ group_ok group_size g) -> groups_ok d'.
Proof.
  intros Hok Hid Hx Ha x g Hg. destruct (decide (x = id)) as [->|Hne].
  - apply Ha. congruence.
  - apply Hok. by rewrite <- Hx.
Qed.

Lemma group_step_ok w w' : groups_ok (w_db w) -> group_step w w' -> groups_ok (w_db w').
Proof.
  intros Hok Hs. destruct Hs as [g user by_id Hg|g user by_id silent Hg].
  - pose proof (add_user_to_group_run group_size g user by_id w Hg) as Hr.
    destruct (contains _ _) eqn:Ec; [by rewrite Hr|].
    destruct (group_size <=? _) eqn:El; [by rewrite Hr|].
    destruct Hr as (w' & -> & Hg' & Hx). simpl.
    eapply groups_ok_update; [exact Hok|exact Hg'|exact Hx|]. intros g0 [= <-]. split; [done|].
    apply add_keeps_ok; [by apply (Hok (g_id g))| |lia]. rewrite <- contains_spec. by rewrite Ec.
  - destruct (remove_user_from_group_run g user by_id silent w Hg) as (w' & -> & Hg' & Hx). simpl.
    eapply groups_ok_update; [exact Hok|exact Hg'|exact Hx|]. intros g0 Hg0.
    destruct (Hok _ _ Hg) as [_ Hgok].
    pose proof (owner_after_spec g (u_id user) (proj1 (proj2 Hgok))) as Ho.
    destruct (owner_after g (u_id user)) as [o|]; [|done]. injection Hg0 as <-. split; [done|].
    destruct Ho as [Ho1 Ho2]. by apply group_without_ok.
Qed.

(** C14: Groups keep their shape under any sequence of additions and removals:
    no member twice, an owner who is a member, moderators who are members, and
    never more members than the configured size. *)
Theorem groups_stay_well_formed w w' :
  groups_ok (w_db w) -> rtc group_step w w' -> groups_ok (w_db w').
Proof.
  intros Hok Hr. induction Hr as [|w1 w2 w3 Hs _ IH]; [done|]. by eapply IH, group_step_ok.
Qed.

(** When a member leaves or is removed, the stored group is the group
    without them, as recipient and as moderator; an owner who leaves is
    succeeded by the first other recipient, and the group of a lone owner is
    deleted.  No other group changes. *)
Theorem leaving_a_group g user by_id silent w :
  group (w_db w) (g_id g) = Some g -> g_owner g ∈ g_recipients g ->
  exists w', remove_user_from_group (Channel.Group g) user by_id silent w = (Ok tt, w')
    /\ (forall x, x <> g_id g -> group (w_db w') x = group (w_db w) x)
    /\ match group (w_db w') (g_id g) with
       | Some g' =>
           (u_id user ∉ g_recipients g') /\ (u_id user ∉ g_moderators g')
           /\ (forall x, x <> u_id user -> (x ∈ g_recipients g' <-> x ∈ g_recipients g))
           /\ g_owner g' ∈ g_recipients g'
           /\ (u_id user <> g_owner g -> g_owner g' = g_owner g)
       | None => u_id user = g_owner g /\ forall x, x ∈ g_recipients g -> x = u_id user
       end.
Proof.
  intros Hg Hown.
  destruct (remove_user_from_group_run g user by_id silent w Hg) as (w' & E & Hg' & Hx).
  exists w'. split; [exact E|]. split; [exact Hx|]. rewrite Hg'.
  pose proof (owner_after_spec g (u_id user) Hown) as Ho.
  destruct (owner_after g (u_id user)) as [o|] eqn:Eo; [|done]. simpl. destruct Ho as [Ho1 Ho2].
  rewrite !list_elem_of_filter. split_and!; [naive_solver|naive_solver| |done|done|].
  - intros x Hne. rewrite list_elem_of_filter. naive_solver.
  - intros Hne. revert Eo. unfold owner_after. rewrite bool_decide_eq_false_2 by done.
    by intros [= <-].
Qed.
End GroupProperties.

(** A group that [create_group] returns has the right shape and exactly the
    requested users and the owner as recipients, for any database. *)
Theorem created_group_well_formed {D} `{Database D} `{HashOrder} group_size ulid data owner_id
    (w w' : World D) c :
  create_group group_size ulid data owner_id w = (Ok c, w') ->
  exists g, c = Channel.Group g /\ group_ok group_size g /\ g_owner g = owner_id
    /\ forall x, x ∈ g_recipients g <-> x = owner_id \/ x ∈ dg_users data.
Proof.
  unfold create_group. destruct (Z.ltb_spec group_size (Z.of_nat (size ({[owner_id]} ∪ dg_users data))));
    [done|].
  set (recipients := set_iter ({[owner_id]} ∪ dg_users data)).
  assert (forall x, x ∈ recipients <-> x = owner_id \/ x ∈ dg_users data) as Hin.
  { intros x. unfold recipients, set_iter. rewrite list_elem_of_fmap.
    assert ((exists y : string * (), x = y.1 /\ y ∈ hm_iter (gset_to_gmap tt ({[owner_id]} ∪ dg_users data)))
            <-> gset_to_gmap tt ({[owner_id]} ∪ dg_users data) !! x = Some tt) as ->.
    { split.
      - intros ([k []] & -> & Hk). by apply elem_of_hm_iter in Hk.
      - intros Hk. exists (x, tt). split; [done|]. by apply elem_of_hm_iter. }
    rewrite lookup_gset_to_gmap_Some. set_solver. }
  assert (NoDup recipients /\ length recipients = size ({[owner_id]} ∪ dg_users data)) as [Hnd Hlen].
  { split; [apply NoDup_fst_hm_iter|]. unfold recipients, set_iter.
    by rewrite length_fmap, hm_iter_perm, length_map_to_list, <- size_dom, dom_gset_to_gmap. }
  assert (forall icon, group_ok group_size {|
      g_id := ulid; g_name := dg_name data; g_owner := owner_id;
      g_description := dg_description data; g_recipients := recipients; g_icon := icon;
      g_last_message_id := None; g_permissions := None; g_moderators := [];
      g_nsfw := unwrap_or (dg_nsfw data) false; g_encrypted := false |}) as Hok.
  { intros icon. unfold group_ok. simpl. split_and!; [done| |by intros ? ?%elem_of_nil|lia].
    apply Hin. by left. }
  intros (icon & w1 & _ & E)%M_bind_Ok_inv. apply M_bind_Ok_inv in E as (? & w2 & _ & E).
  apply M_bind_Ok_inv in E as (? & w3 & _ & E). injection E as <- <-.
  eexists. split; [reflexivity|]. split; [apply Hok|]. done.
Qed.

(** ** Properties on the reference database *)

Section Reference.
Context `{HO : HashOrder}.
Context `{OS : OptionalStruct Server PartialServer} {SL : ServerOptionalLaws}.
Context `{OR : OptionalStruct Role PartialRole}.
Context `{OM : OptionalStruct Member PartialMember} `{OU : OptionalStruct User PartialUser}.

(** [Channel::update] leaves in the copy what the database stores, when no
    field is both set and cleared: the copy clears before it sets, the
    reference database sets before it clears. *)
Theorem channel_update_copy_agrees c partial remove w :
  Ref.fetch_channel (w_db w) (channel_id c) = Ok c ->
  (forall f, f ∈ remove -> ~ sets_field partial f) ->
  exists c' w', channel_update c partial remove w = (Ok c', w')
    /\ channel_id c' = channel_id c
    /\ Ref.fetch_channel (w_db w') (channel_id c) = Ok c'.
Proof using HO OS OR OM OU.
  intros Hf Hr. unfold channel_update. rewrite channel_id_apply_options.
  change (foldl channel_remove_field c remove) with (channel_remove_fields c remove).
  rewrite channel_id_remove_fields.
  unfold Ref.fetch_channel, get_or in Hf.
  destruct (db_channels (w_db w) !! channel_id c) as [c0|] eqn:E; simplify_eq/=.
  eexists _, _. split.
  { erewrite M_bind_ok; [reflexivity|]. rewrite call_run.
    cbn [Database.update_channel reference_database]. unfold Ref.update_channel, with_mut.
    rewrite E. reflexivity. }
  split; [by rewrite channel_id_apply_options, channel_id_remove_fields|].
  simpl. unfold Ref.fetch_channel, get_or. simpl. rewrite lookup_insert_eq. simpl. f_equal.
  by apply remove_fields_apply_comm.
Qed.

Lemma find_dm_insert d id a b dm :
  Ref.find_direct_message_channel d a b = Err ErrorType.NotFound ->
  Ref.find_direct_message_channel (set_channels (<[id := Channel.DirectMessage dm]> (db_channels d)) d) a b
  = Err ErrorType.NotFound.
Proof using HO.
  unfold Ref.find_direct_message_channel.
  destruct (List.find _ (hm_values (db_channels d))) eqn:E; [done|]. intros _.
  destruct (List.find _ (hm_values (db_channels (set_channels _ d)))) as [c|] eqn:E'; [exfalso|done].
  apply List.find_some in E' as [Hin Hc]. apply list_elem_of_In, elem_of_hm_values in Hin as [k Hk].
  simpl in Hk. apply lookup_insert_Some in Hk as [[_ <-]|[_ Hk]]; [done|].
  assert (c ∈ hm_values (db_channels d)) as Hv by (apply elem_of_hm_values; by exists k).
  apply list_elem_of_In in Hv. apply (List.find_none _ _ E) in Hv. congruence.
Qed.

(** On the reference database [create_dm] does not find the direct message
    channel it created: two calls for the same two users make two channels. *)
Theorem reference_create_dm_duplicates id1 id2 ua ub w :
  u_id ua <> u_id ub -> id1 <> id2 ->
  db_channels (w_db w) !! id1 = None -> db_channels (w_db w) !! id2 = None ->
  Ref.find_direct_message_channel (w_db w) (u_id ua) (u_id ub) = Err ErrorType.NotFound ->
  exists c1 w1 c2 w2,
    create_dm id1 ua ub w = (Ok c1, w1) /\ create_dm id2 ua ub w1 = (Ok c2, w2)
    /\ channel_id c1 = id1 /\ channel_id c2 = id2
    /\ Ref.fetch_channel (w_db w2) id1 = Ok c1 /\ Ref.fetch_channel (w_db w2) id2 = Ok c2.
Proof using HO OS OR OM OU.
  intros Hne Hids H1 H2 Hfind.
  set (dm := fun id => Channel.DirectMessage {| dm_id := id; dm_active := true;
    dm_recipients := [u_id ua; u_id ub]; dm_last_message_id := None |}).
  assert (forall id w, db_channels (w_db w) !! id = None ->
    Ref.find_direct_message_channel (w_db w) (u_id ua) (u_id ub) = Err ErrorType.NotFound ->
    exists w', create_dm id ua ub w = (Ok (dm id), w')
      /\ w_db w' = set_channels (<[id := dm id]> (db_channels (w_db w))) (w_db w)) as Hcreate.
  { intros id w0 Hid Hf. unfold create_dm. rewrite call_run.
    cbn [Database.find_direct_message_channel reference_database]. unfold query. rewrite Hf. simpl.
    rewrite bool_decide_eq_false_2 by done. eexists. split.
    { erewrite M_bind_ok; [reflexivity|]. rewrite call_run.
      cbn [Database.insert_channel reference_database]. unfold Ref.insert_channel, insert_new. simpl.
      rewrite Hid. reflexivity. }
    done. }
  destruct (Hcreate id1 w H1 Hfind) as (w1 & E1 & Hw1).
  destruct (Hcreate id2 w1) as (w2 & E2 & Hw2).
  { rewrite Hw1. simpl. by rewrite lookup_insert_ne. }
  { rewrite Hw1. by apply find_dm_insert. }
  exists (dm id1), w1, (dm id2), w2. split_and!; [done|done|done|done| |].
  - rewrite Hw2, Hw1. unfold Ref.fetch_channel, get_or. simpl.
    by rewrite lookup_insert_ne, lookup_insert_eq.
  - rewrite Hw2. unfold Ref.fetch_channel, get_or. simpl. by rewrite lookup_insert_eq.
Qed.

Lemma apply_channels_eq s channels :
  s_channels (apply_options s (PartialServer_channels channels)) = channels
  /\ s_id (apply_options s (PartialServer_channels channels)) = s_id s.
Proof using HO OS SL. by rewrite s_channels_applied, s_id_applied. Qed.

(** [create_server_channel] compares with [>]: a server that already has
    as many channels as the limit allows is given one more. *)
Theorem channel_limit_exceeded server_channels ulid server data w :
  Z.of_nat (length (s_channels server)) = server_channels ->
  Ref.fetch_server (w_db w) (s_id server) = Ok server ->
  db_channels (w_db w) !! ulid = None ->
  exists c server' w', create_server_channel server_channels ulid server data true w
                       = (Ok (c, server'), w')
    /\ Ref.fetch_server (w_db w') (s_id server) = Ok server'
    /\ Z.of_nat (length (s_channels server')) = server_channels + 1.
Proof using HO OS SL OR OM OU.
  intros Hlen Hf Hid. unfold create_server_channel.
  rewrite (proj2 (Z.ltb_ge _ _)) by lia.
  destruct (apply_channels_eq server (s_channels server ++ [ulid])) as [Ec Ei].
  set (server' := apply_options server (PartialServer_channels (s_channels server ++ [ulid]))) in *.
  assert (forall w1, Ref.fetch_server (w_db w1) (s_id server) = Ok server ->
    exists w2, server_update server (PartialServer_channels (s_channels server ++ [ulid])) [] w1
               = (Ok server', w2) /\ Ref.fetch_server (w_db w2) (s_id server) = Ok server') as Hup.
  { intros w1 Hf1. unfold server_update. simpl. fold server'. rewrite Ei. eexists. split.
    { erewrite M_bind_ok; [reflexivity|]. rewrite call_run.
      cbn [Database.update_server reference_database]. unfold Ref.update_server.
      rewrite (ref_with_server_ok _ _ server) by done. reflexivity. }
    simpl. apply ref_fetch_set_servers, lookup_insert_eq. }
  set (d1 := set_channels (<[ulid := new_server_channel ulid server data]> (db_channels (w_db w))) (w_db w)).
  assert (call (Database.insert_channel (new_server_channel ulid server data)) w
          = (Ok tt, w_set_db d1 w)) as E1.
  { rewrite call_run. cbn [Database.insert_channel reference_database].
    unfold Ref.insert_channel, insert_new. simpl. by rewrite Hid. }
  destruct (Hup (w_set_db d1 w) Hf) as (w2 & E2 & Hf2).
  eexists _, server', _. split.
  { erewrite M_bind_ok by exact E1. erewrite M_bind_ok by exact E2. reflexivity. }
  split; [exact Hf2|]. rewrite Ec, length_app. simpl. lia.
Qed.
End Reference.

(** ** A database whose removals remove

    The reference database with its [remove_user_from_group] replaced by what
    the MongoDB driver does: an instance of [GroupStore]. *)

Definition pull_user (channel user : string) : M ErrorType ReferenceDb unit :=
  with_mut db_channels set_channels ErrorType.NotFound channel (fun c =>
    match c with
    | Channel.Group g =>
        Ok (Channel.Group (g_set_recipients (filter (fun x => x <> user) (g_recipients g)) g))
    | _ => Ok c
    end).

Definition with_removal {D} (DB : Database D) (f : string -> string -> M ErrorType D unit)
    : Database D := {|
  Database.insert_user := Database.insert_user;
  Database.fetch_user := Database.fetch_user;
  Database.fetch_users := Database.fetch_users;
  Database.update_user := Database.update_user;
  Database.set_relationship := Database.set_relationship;
  Database.insert_server := Database.insert_server;
  Database.fetch_server := Database.fetch_server;
  Database.update_server := Database.update_server;
  Database.delete_server := Database.delete_server;
  Database.insert_role := Database.insert_role;
  Database.update_role := Database.update_role;
  Database.delete_role := Database.delete_role;
  Database.fetch_owned_server_count := Database.fetch_owned_server_count;
  Database.insert_or_merge_member := Database.insert_or_merge_member;
  Database.fetch_member := Database.fetch_member;
  Database.fetch_all_memberships := Database.fetch_all_memberships;
  Database.fetch_member_count := Database.fetch_member_count;
  Database.update_member := Database.update_member;
  Database.soft_delete_member := Database.soft_delete_member;
  Database.insert_ban := Database.insert_ban;
  Database.fetch_ban := Database.fetch_ban;
  Database.fetch_bans := Database.fetch_bans;
  Database.delete_ban := Database.delete_ban;
  Database.insert_channel := Database.insert_channel;
  Database.fetch_channel := Database.fetch_channel;
  Database.fetch_channels := Database.fetch_channels;
  Database.find_direct_message_channel := Database.find_direct_message_channel;
  Database.add_user_to_group := Database.add_user_to_group;
  Database.set_channel_role_permission := Database.set_channel_role_permission;
  Database.update_channel := Database.update_channel;
  Database.remove_user_from_group := f;
  Database.delete_channel := Database.delete_channel;
  Database.fetch_bot := Database.fetch_bot;
  Database.update_bot_joined_server := Database.update_bot_joined_server;
  Database.fetch_emoji_by_parent_id := Database.fetch_emoji_by_parent_id;
  Database.insert_invite := Database.insert_invite;
  Database.fetch_invite := Database.fetch_invite;
  Database.mark_attachment_as_deleted := Database.mark_attachment_as_deleted;
  Database.fetch_invites_for_server := Database.fetch_invites_for_server;
  Database.delete_invite := Database.delete_invite;
  Database.find_and_use_attachment := Database.find_and_use_attachment |}.

Module GroupWitness.
Import SomePriority.

#[export] Instance pulling_database : Database ReferenceDb :=
  with_removal reference_database pull_user.

Definition group_view (d : ReferenceDb) (id : string) : option GroupChannel :=
  match db_channels d !! id with Some (Channel.Group g) => Some g | _ => None end.

Lemma group_with_mut d id g g' f :
  group_view d id = Some g -> f (Channel.Group g) = Ok (Channel.Group g') ->
  group_becomes group_view (with_mut db_channels set_channels ErrorType.NotFound id f) d id (Some g')
  /\ group_becomes group_view (with_mut db_channels set_channels ErrorType.InvalidOperation id f) d id (Some g').
Proof.
  intros Hg Hf. unfold group_view in Hg.
  destruct (db_channels d !! id) as [[| |g0|]|] eqn:E; simplify_eq.
  split; unfold group_becomes, with_mut; rewrite E, Hf; (eexists; split; [reflexivity|]);
    unfold group_view; simpl; rewrite lookup_insert_eq; (split; [done|]);
    intros x Hx; by rewrite lookup_insert_ne.
Qed.

#[export] Program Instance pulling_group_store : GroupStore ReferenceDb := {| group := group_view |}.
Next Obligation.
  intros d id g u Hg. by eapply (group_with_mut d id g).
Qed.
Next Obligation.
  intros d id g u Hg. by eapply (group_with_mut d id g).
Qed.
Next Obligation.
  intros d id g p Hg. by eapply (group_with_mut d id g).
Qed.
Next Obligation.
  intros d g Hg. unfold group_view in Hg.
  destruct (db_channels d !! g_id g) as [[| |g0|]|] eqn:E; simplify_eq.
  unfold group_becomes. cbn [Database.delete_channel pulling_database with_removal reference_database].
  unfold Ref.delete_channel, remove_or. simpl. rewrite E. eexists. split; [reflexivity|].
  unfold group_view. simpl. rewrite lookup_delete_eq. split; [done|].
  intros x Hx. by rewrite lookup_delete_ne.
Qed.

Definition alice : User := Example.user "alice".
Definition bob : User := Example.user "bob".
Definition g0 : GroupChannel := RefWitness.group ["alice"; "bob"].
Definition w0 : World ReferenceDb :=
  world (set_channels {[ "group" := Channel.Group g0 ]} ReferenceDb_default).

Lemma g0_stored : group (w_db w0) (g_id g0) = Some g0.
Proof. reflexivity. Qed.

Lemma w0_groups_ok : groups_ok 100 (w_db w0).
Proof.
  intros id g. simpl. unfold group_view. simpl. destruct (decide (id = "group")) as [->|Hne].
  - rewrite lookup_singleton_eq. intros [= <-]. split; [done|]. unfold group_ok. simpl.
    split_and!; [|by left|by intros ? ?%elem_of_nil|lia].
    apply (bool_decide_unpack _). vm_compute. exact I.
  - by rewrite lookup_singleton_ne.
Qed.

(** Alice, the owner, leaves: Bob inherits; then Alice is added again. *)
Definition w1 : World ReferenceDb :=
  (remove_user_from_group (Channel.Group g0) alice None false w0).2.
Definition g1 : GroupChannel := group_without g0 "alice" "bob".
Definition w2 : World ReferenceDb := (add_user_to_group 100 (Channel.Group g1) alice "bob" w1).2.

Lemma groups_stay_well_formed_witness : rtc (group_step 100) w0 w2 /\ groups_ok 100 (w_db w2).
Proof.
  assert (rtc (group_step 100) w0 w2) as Hr.
  { eapply rtc_l; [exact (step_remove 100 w0 g0 alice None false g0_stored)|].
    eapply rtc_l; [exact (step_add 100 w1 g1 alice "bob" eq_refl)|]. apply rtc_refl. }
  split; [exact Hr|]. exact (groups_stay_well_formed 100 w0 w2 w0_groups_ok Hr).
Defined.

Lemma leaving_a_group_witness :
  exists w', remove_user_from_group (Channel.Group g0) alice None false w0 = (Ok tt, w')
    /\ exists g', group (w_db w') "group" = Some g' /\ g_owner g' ∈ g_recipients g'.
Proof.
  destruct (leaving_a_group g0 alice None false w0 g0_stored (list_elem_of_here _ _))
    as (w' & E & _ & Hm).
  assert (group (w_db (remove_user_from_group (Channel.Group g0) alice None false w0).2) "group"
          = Some g1) as Hg by reflexivity.
  rewrite E in Hg. simpl in Hg, Hm. rewrite Hg in Hm.
  exists w'. split; [exact E|]. exists g1. split; [exact Hg|]. exact (proj1 (proj2 (proj2 (proj2 Hm)))).
Defined.

Definition data : DataCreateGroup :=
  {| dg_name := "Friends"; dg_description := None; dg_icon := None; dg_users := {[ "bob" ]};
     dg_nsfw := None |}.

Lemma created_group_well_formed_witness :
  exists c w', create_group 100 "new" data "alice" w0 = (Ok c, w')
    /\ exists g, c = Channel.Group g /\ group_ok 100 g /\ g_owner g = "alice".
Proof.
  destruct (create_group 100 "new" data "alice" w0) as [[c|e|] w'] eqn:E;
    [|vm_compute in E; discriminate|vm_compute in E; discriminate].
  exists c, w'. split; [reflexivity|].
  destruct (created_group_well_formed 100 "new" data "alice" w0 w' c E) as (g & Hc & Hg & Ho & _).
  exists g. split; [exact Hc|]. split; [exact Hg|exact Ho].
Defined.
End GroupWitness.

Module ChannelWitness.
Import SomePriority.

Definition c0 : Channel := Channel.TextChannel Example.channel.
Definition w0 : World ReferenceDb :=
  world (set_servers {[ "server" := Example.server Example.two_roles ]}
           (set_channels {[ "channel" := c0 ]} ReferenceDb_default)).
Definition rename : PartialChannel :=
  {| pc_name := Some "Lobby"; pc_owner := None; pc_description := None; pc_icon := None;
     pc_nsfw := None; pc_active := None; pc_permissions := None; pc_moderators := None;
     pc_role_permissions := None; pc_default_permissions := None; pc_last_message_id := None;
     pc_voice := None; pc_encrypted := None |}.

Lemma channel_update_copy_agrees_witness :
  exists c' w', channel_update c0 rename [FieldsChannel.Description] w0 = (Ok c', w')
    /\ channel_id c' = "channel" /\ Ref.fetch_channel (w_db w') "channel" = Ok c'.
Proof.
  apply (channel_update_copy_agrees c0 rename [FieldsChannel.Description] w0); [reflexivity|].
  intros f ->%list_elem_of_singleton. simpl. by intros [? ?].
Defined.

Lemma reference_create_dm_duplicates_witness :
  exists c1 w1 c2 w2,
    create_dm "dm1" (Example.user "alice") (Example.user "bob") w0 = (Ok c1, w1)
    /\ create_dm "dm2" (Example.user "alice") (Example.user "bob") w1 = (Ok c2, w2)
    /\ channel_id c1 = "dm1" /\ channel_id c2 = "dm2"
    /\ Ref.fetch_channel (w_db w2) "dm1" = Ok c1 /\ Ref.fetch_channel (w_db w2) "dm2" = Ok c2.
Proof.
  apply (reference_create_dm_duplicates "dm1" "dm2" (Example.user "alice") (Example.user "bob") w0);
    [discriminate|discriminate|reflexivity|reflexivity|vm_compute; reflexivity].
Defined.

Definition new_channel : DataCreateServerChannel :=
  {| dc_channel_type := LegacyServerChannelType.Text; dc_name := "General"; dc_description := None;
     dc_nsfw := None; dc_voice := None |}.

(** The server has one channel and the limit is one. *)
Lemma channel_limit_exceeded_witness :
  exists c server' w',
    create_server_channel 1 "second" (Example.server Example.two_roles) new_channel true w0
    = (Ok (c, server'), w')
    /\ Ref.fetch_server (w_db w') "server" = Ok server'
    /\ Z.of_nat (length (s_channels server')) = 2.
Proof.
  apply (channel_limit_exceeded 1 "second" (Example.server Example.two_roles) new_channel w0);
    reflexivity.
Defined.

(** Setting and clearing the same field: the copy keeps the new value, the
    reference database clears it. *)
Example channel_update_set_and_clear :
  let describe := {| pc_name := None; pc_owner := None; pc_description := Some "text";
     pc_icon := None; pc_nsfw := None; pc_active := None; pc_permissions := None;
     pc_moderators := None; pc_role_permissions := None; pc_default_permissions := None;
     pc_last_message_id := None; pc_voice := None; pc_encrypted := None |} in
  match channel_update c0 describe [FieldsChannel.Description] w0 with
  | (Ok (Channel.TextChannel t), w') =>
      t_description t = Some "text"
      /\ match Ref.fetch_channel (w_db w') "channel" with
         | Ok (Channel.TextChannel t') => t_description t' = None
         | _ => False
         end
  | _ => False
  end.
Proof. vm_compute. done. Qed.
End ChannelWitness.
