(* ===== verification/Members.v ===== *)
(** * Server creation, members, bans and invites
    ([crates/core/database/src/models/servers/model.rs],
    [server_members/model.rs], [server_bans/model.rs], [channel_invites/model.rs])

    Creating a server with its default channel, joining, editing and removing
    members, banning, and resolving invites.  [now] is the clock reading of the
    request.  The voice states that [Member::create] adds to its event come
    from Redis and are left out. *)

From S2P Require Import Prelude Results Permissions PermissionCalc Models ModelOps DbPermissions PermissionSpec Records ReferenceDb RefInvariant World Servers Channels.

(** [v0::DataCreateServer] *)
Record DataCreateServer := {
  ds_name : string;
  ds_description : option string;
  ds_nsfw : option bool }.

(** [m.is_ok()] *)
Definition succeeds {E S A} (m : M E S A) : M E S bool := fun s =>
  match m s with
  | (Ok _, s') => (Ok true, s')
  | (Err _, s') => (Ok false, s')
  | (Panicked, s') => (Panicked, s')
  end.

Section Operations.
Context {D : Type} `{Database D} `{PermissionDatabase D} `{HashOrder}.
Context `{OptionalStruct Server PartialServer} `{OptionalStruct Member PartialMember}.
Context (now : Timestamp).
Local Abbreviation W := (M ErrorType (World D)).

Definition s_new (ulid : string) (data : DataCreateServer) (owner : User) : Server :=
  {| s_id := ulid; s_owner := u_id owner; s_name := ds_name data;
     s_description := ds_description data; s_channels := []; s_categories := None;
     s_system_messages := None; s_roles := ∅;
     s_default_permissions := as_i64 DEFAULT_PERMISSION_SERVER; s_icon := None; s_banner := None;
     s_flags := None; s_nsfw := unwrap_or (ds_nsfw data) false; s_analytics := false;
     s_discoverable := false |}.

Definition general_channel : DataCreateServerChannel :=
  {| dc_channel_type := LegacyServerChannelType.Text; dc_name := "General"; dc_description := None;
     dc_nsfw := None; dc_voice := None |}.

(** [Server::create]; [server_channels] is the configured limit, the two
    identifiers are those of the server and of its channel *)
Definition server_create (server_channels : Z) (server_ulid channel_ulid : string)
    (data : DataCreateServer) (owner : User) (create_default_channels : bool)
    : W (Server * list Channel) :=
  let server := s_new server_ulid data owner in
  '(server, channels) ←
    (if create_default_channels then
       '(channel, server) ← create_server_channel server_channels channel_ulid server general_channel false;
       mret (server, [channel])
     else mret (server, []));
  let server := s_set_channels (channel_id <$> channels) server in
  call (Database.insert_server server);;
  mret (server, channels).

(** [Member::default] with the given key *)
Definition m_new (server user : string) : Member :=
  {| m_id := member_key server user; m_joined_at := now; m_nickname := None; m_avatar := None;
     m_roles := []; m_timeout := None; m_can_publish := true; m_can_receive := true |}.

(** The channels the joining user may see, in order. *)
Fixpoint visible_channels (query : DatabasePermissionQuery D) (channels : list Channel)
    : Result (list Channel) :=
  match channels with
  | [] => Ok []
  | c :: cs =>
      permissions ← (db_calculate_channel_permissions now (query_channel query c)).1;
      rest ← visible_channels query cs;
      Ok (if has_channel_permission permissions ChannelPermission.ViewChannel then c :: rest else rest)
  end.

(** [Member::create] *)
Definition member_create (server : Server) (user : User) (channels : option (list Channel))
    : W (Member * list Channel) :=
  banned ← succeeds (call (Database.fetch_ban (s_id server) (u_id user)));
  if (banned : bool) then throw ErrorType.Banned else
  present ← succeeds (call (Database.fetch_member (s_id server) (u_id user)));
  if (present : bool) then throw ErrorType.AlreadyInServer else
  let member := m_new (s_id server) (u_id user) in
  updated ← call (Database.insert_or_merge_member member);
  let member := unwrap_or updated member in
  channels ←
    match channels with
    | Some channels => mret channels
    | None =>
        existing_channels ← call (Database.fetch_channels (s_channels server));
        w ← get;
        lift_outcome (visible_channels
          (query_server (DatabasePermissionQuery_new (w_db w) user) server) existing_channels)
    end;
  emojis ← call (Database.fetch_emoji_by_parent_id (s_id server));
  p (EventV1.ServerMemberJoin (s_id server) (u_id user) member) (s_id server);;
  private (EventV1.ServerCreate (s_id server) server channels emojis) (u_id user);;
  match (system_messages ← s_system_messages server; smc_user_joined system_messages) with
  | Some id => send_system id (SystemMessage.UserJoined (u_id user))
  | None => mret tt
  end;;
  mret (member, channels).

(** [Member::update] *)
Definition member_update (self : Member) (partial : PartialMember) (remove : list FieldsMember)
    : W Member :=
  let self := apply_options (foldl member_remove_field self remove) partial in
  call (Database.update_member (m_id self) partial remove);;
  p (EventV1.ServerMemberUpdate (m_id self) partial remove) (mk_server (m_id self));;
  mret self.

(** The channel and the text of the system message of a removal. *)
Definition removal_channel (intention : RemovalIntention) (x : SystemMessageChannels) : option string :=
  match intention with
  | RemovalIntention.Leave => smc_user_left x
  | RemovalIntention.Kick => smc_user_kicked x
  | RemovalIntention.Ban => smc_user_banned x
  end.
Definition removal_message (intention : RemovalIntention) (user : string) : SystemMessage :=
  match intention with
  | RemovalIntention.Leave => SystemMessage.UserLeft user
  | RemovalIntention.Kick => SystemMessage.UserKicked user
  | RemovalIntention.Ban => SystemMessage.UserBanned user
  end.

(** [Member::remove], the part on an AI companion: its joined server is cleared *)
Definition release_companion (self : Member) : W unit := fun w =>
  match call (Database.fetch_bot (mk_user (m_id self))) w with
  | (Ok bot, w') =>
      if bool_decide (b_bot_type bot = BotType.AiCompanion)
         && bool_decide (b_joined_server_id bot = Some (mk_server (m_id self)))
      then ignore_err (call (Database.update_bot_joined_server (b_id bot) None)) w'
      else (Ok tt, w')
  | (Err _, w') => (Ok tt, w')
  | (Panicked, w') => (Panicked, w')
  end.

(** [Member::remove] *)
Definition member_remove (self : Member) (server : Server) (intention : RemovalIntention)
    (silent : bool) : W unit :=
  call (Database.soft_delete_member now (m_id self));;
  release_companion self;;
  p (EventV1.ServerMemberLeave (mk_server (m_id self)) (mk_user (m_id self)) intention)
    (mk_server (m_id self));;
  if silent then mret tt else
  match (system_messages ← s_system_messages server; removal_channel intention system_messages) with
  | Some id => send_system id (removal_message intention (mk_user (m_id self)))
  | None => mret tt
  end.

(** [ServerBan::create] *)
Definition ban_create (server : Server) (user_id : string) (reason : option string) : W ServerBan :=
  let ban := {| ban_id := member_key (s_id server) user_id; ban_reason := reason |} in
  call (Database.insert_ban ban);;
  mret ban.

(** [Invite::create_channel_invite], [code] the code drawn *)
Definition create_channel_invite (code : string) (creator : User) (channel : Channel) : W Invite :=
  invite ← match channel with
           | Channel.Group g => mret (Invite.Group code (u_id creator) (g_id g))
           | Channel.TextChannel t => mret (Invite.Server code (t_server t) (u_id creator) (t_id t))
           | _ => throw ErrorType.InvalidOperation
           end;
  call (Database.insert_invite invite);;
  mret invite.

(** [Invite::find]: an invite, or the first channel of a discoverable server *)
Definition invite_find (code : string) : W Invite := fun w =>
  match call (Database.fetch_invite code) w with
  | (Ok invite, w) => (Ok invite, w)
  | (Panicked, w) => (Panicked, w)
  | (Err _, w) =>
      match call (Database.fetch_server code) w with
      | (Ok server, w) =>
          match s_discoverable server, s_channels server with
          | true, channel :: _ => (Ok (Invite.Server code (s_id server) (s_owner server) channel), w)
          | _, _ => (Err ErrorType.NotFound, w)
          end
      | (Err _, w) => (Err ErrorType.NotFound, w)
      | (Panicked, w) => (Panicked, w)
      end
  end.
End Operations.

(** ** Properties on the reference database *)

Section Properties.
Context `{HO : HashOrder}.
Context `{OS : OptionalStruct Server PartialServer} `{OR : OptionalStruct Role PartialRole}.
Context `{OM : OptionalStruct Member PartialMember} `{OU : OptionalStruct User PartialUser}.
Context (now : Timestamp).

Lemma succeeds_fetch_ban (w : World ReferenceDb) sid uid :
  succeeds (call (Database.fetch_ban sid uid)) w
  = (Ok (bool_decide (is_Some (db_server_bans (w_db w) !! member_key sid uid))), w).
Proof.
  unfold succeeds. rewrite call_run. simpl. unfold Ref.fetch_ban, get_or.
  destruct w as [d ev am se]. simpl. by destruct (db_server_bans d !! _).
Qed.

Lemma succeeds_fetch_member (w : World ReferenceDb) sid uid :
  succeeds (call (Database.fetch_member sid uid)) w
  = (Ok (bool_decide (is_Some (db_server_members (w_db w) !! member_key sid uid))), w).
Proof.
  unfold succeeds. rewrite call_run. simpl. unfold Ref.fetch_member, get_or.
  destruct w as [d ev am se]. simpl. by destruct (db_server_members d !! _).
Qed.

(** The outcome of joining with the channels given. *)
Lemma member_create_run server user channels (w : World ReferenceDb) :
  let key := member_key (s_id server) (u_id user) in
  let member := m_new now (s_id server) (u_id user) in
  if bool_decide (is_Some (db_server_bans (w_db w) !! key)) then
    member_create now server user (Some channels) w = (Err ErrorType.Banned, w)
  else if bool_decide (is_Some (db_server_members (w_db w) !! key)) then
    member_create now server user (Some channels) w = (Err ErrorType.AlreadyInServer, w)
  else exists w', member_create now server user (Some channels) w = (Ok (member, channels), w')
    /\ w_db w' = set_server_members (<[key := member]> (db_server_members (w_db w))) (w_db w)
    /\ exists emojis, w_events w' = w_events w ++
         [(s_id server, EventV1.ServerMemberJoin (s_id server) (u_id user) member);
          (u_id user +:+ "!", EventV1.ServerCreate (s_id server) server channels emojis)].
Proof.
  intros key member. unfold member_create.
  erewrite M_bind_ok by apply succeeds_fetch_ban. fold key.
  destruct (bool_decide _); [done|].
  erewrite M_bind_ok by apply succeeds_fetch_member. fold key.
  case_bool_decide as Hm; [done|]. apply eq_None_not_Some in Hm.
  set (d1 := set_server_members (<[key := member]> (db_server_members (w_db w))) (w_db w)).
  assert (call (Database.insert_or_merge_member member) w = (Ok None, w_set_db d1 w)) as E1.
  { rewrite call_run. simpl. unfold Ref.insert_or_merge_member, insert_new, mbind, M_bind. simpl.
    fold key. by rewrite Hm. }
  erewrite M_bind_ok by exact E1. simpl unwrap_or.
  erewrite M_bind_ok by reflexivity. erewrite M_bind_ok; [|rewrite call_run; reflexivity].
  erewrite M_bind_ok by reflexivity. erewrite M_bind_ok by reflexivity.
  destruct (mbind _ (s_system_messages server)) as [id|];
    (eexists; split; [reflexivity|]; split; [done|]; simpl; rewrite <- app_assoc; by eexists).
Qed.

(** Joining a server has exactly three outcomes on the reference database:
    [Banned] for a banned user and [AlreadyInServer] for a member, both with
    nothing written or published, or a new member without roles, nickname or
    timeout, stored under its key, announced to the server first and then to
    the user. *)
Theorem joining_a_server server user channels (w : World ReferenceDb) :
  let key := member_key (s_id server) (u_id user) in
  let member := m_new now (s_id server) (u_id user) in
  if bool_decide (is_Some (db_server_bans (w_db w) !! key)) then
    member_create now server user (Some channels) w = (Err ErrorType.Banned, w)
  else if bool_decide (is_Some (db_server_members (w_db w) !! key)) then
    member_create now server user (Some channels) w = (Err ErrorType.AlreadyInServer, w)
  else exists w', member_create now server user (Some channels) w = (Ok (member, channels), w')
    /\ w_db w' = set_server_members (<[key := member]> (db_server_members (w_db w))) (w_db w)
    /\ exists emojis, w_events w' = w_events w ++
         [(s_id server, EventV1.ServerMemberJoin (s_id server) (u_id user) member);
          (u_id user +:+ "!", EventV1.ServerCreate (s_id server) server channels emojis)].
Proof using HO OS OR OM OU. apply member_create_run. Qed.

Lemma release_companion_members self (w w' : World ReferenceDb) r :
  release_companion self w = (r, w') ->
  r = Ok tt /\ db_server_members (w_db w') = db_server_members (w_db w)
  /\ db_server_bans (w_db w') = db_server_bans (w_db w).
Proof.
  unfold release_companion. rewrite call_run. simpl. unfold query, Ref.fetch_bot, get_or. simpl.
  destruct (db_bots (w_db w) !! mk_user (m_id self)) as [bot|] eqn:E; simpl.
  - destruct (_ && _).
    + unfold ignore_err. rewrite call_run. simpl. unfold Ref.update_bot_joined_server, with_mut.
      destruct (db_bots (w_db w) !! b_id bot); simpl; by intros [= <- <-].
    + by intros [= <- <-].
  - by intros [= <- <-].
Qed.

(** Removing a member whose stored entry is not timed out. *)
Lemma member_remove_run self server intention silent (w : World ReferenceDb) m :
  db_server_members (w_db w) !! m_id self = Some m -> in_timeout now m = false ->
  exists w', member_remove now self server intention silent w = (Ok tt, w')
    /\ db_server_members (w_db w') = delete (m_id self) (db_server_members (w_db w))
    /\ db_server_bans (w_db w') = db_server_bans (w_db w).
Proof using HO OS OR OM OU.
  intros Hself Ht.
  set (d1 := set_server_members (delete (m_id self) (db_server_members (w_db w))) (w_db w)).
  assert (call (Database.soft_delete_member now (m_id self)) w = (Ok tt, w_set_db d1 w)) as E1.
  { rewrite call_run. simpl. unfold Ref.soft_delete_member, remove_or. by rewrite Hself, Ht. }
  destruct (release_companion self (w_set_db d1 w)) as [r w'] eqn:Er.
  destruct (release_companion_members _ _ _ _ Er) as (-> & Hm & Hb).
  unfold member_remove. erewrite M_bind_ok by exact E1. erewrite M_bind_ok by exact Er.
  erewrite M_bind_ok by reflexivity. destruct silent; [by eexists|].
  destruct (mbind _ (s_system_messages server)); by eexists.
Qed.

(** Removing a member who is not timed out succeeds and deletes exactly
    their entry, whatever the intention; if they are not banned they can join
    again, and start without the roles they had. *)
Theorem removed_member_rejoins self server user intention silent channels (w : World ReferenceDb) :
  m_id self = member_key (s_id server) (u_id user) ->
  db_server_members (w_db w) !! m_id self = Some self -> in_timeout now self = false ->
  db_server_bans (w_db w) !! m_id self = None ->
  exists w1 w2, member_remove now self server intention silent w = (Ok tt, w1)
    /\ db_server_members (w_db w1) = delete (m_id self) (db_server_members (w_db w))
    /\ member_create now server user (Some channels) w1
       = (Ok (m_new now (s_id server) (u_id user), channels), w2)
    /\ Ref.fetch_member (w_db w2) (s_id server) (u_id user)
       = Ok (m_new now (s_id server) (u_id user)).
Proof using HO OS OR OM OU.
  intros Hid Hself Ht Hban.
  destruct (member_remove_run self server intention silent w self Hself Ht) as (w1 & Er1 & Hm & Hb).
  pose proof (member_create_run server user channels w1) as Hc. cbv zeta in Hc.
  rewrite Hm, Hb, <- Hid in Hc. rewrite Hban, lookup_delete_eq in Hc.
  rewrite !bool_decide_eq_false_2 in Hc by (by intros []).
  destruct Hc as (w2 & Ec & Hw2 & _). exists w1, w2. split_and!; [done|done|exact Ec|].
  rewrite Hw2. unfold Ref.fetch_member, get_or. simpl. by rewrite Hid, lookup_insert_eq.
Qed.

Lemma ban_create_stored server user_id reason ban (w w1 : World ReferenceDb) :
  ban_create server user_id reason w = (Ok ban, w1) ->
  db_server_bans (w_db w1) !! member_key (s_id server) user_id = Some ban
  /\ db_server_members (w_db w1) = db_server_members (w_db w).
Proof using HO OS OR OM OU.
  intros Hb. unfold ban_create in Hb. apply M_bind_Ok_inv in Hb as ([] & w2 & Hc & [= <- <-]).
  rewrite call_run in Hc. simpl in Hc. unfold Ref.insert_ban, insert_new in Hc. simpl in Hc.
  destruct (db_server_bans (w_db w) !! _) eqn:E in Hc; [done|]. injection Hc as <-. simpl.
  by rewrite lookup_insert_eq.
Qed.

Lemma banned_refused server user channels (w : World ReferenceDb) :
  is_Some (db_server_bans (w_db w) !! member_key (s_id server) (u_id user)) ->
  member_create now server user channels w = (Err ErrorType.Banned, w).
Proof using HO OS OR OM OU.
  intros Hb. unfold member_create. erewrite M_bind_ok by apply succeeds_fetch_ban.
  by rewrite bool_decide_eq_true_2.
Qed.

(** A ban keeps the user out: after [ServerBan::create] every attempt to
    join fails with [Banned] and changes nothing, until the ban is deleted. *)
Theorem ban_keeps_out server user reason channels ban (w w1 : World ReferenceDb) :
  ban_create server (u_id user) reason w = (Ok ban, w1) ->
  member_create now server user channels w1 = (Err ErrorType.Banned, w1).
Proof using HO OS OR OM OU. intros [Hb _]%ban_create_stored. apply banned_refused. by exists ban. Qed.
End Properties.

(** ** Witnesses *)

Module MemberWitness.
Import SomePriority.

Definition server : Server := Example.server Example.two_roles.
Definition user : User := Example.user "member".
Definition member : Member := Example.member ["mod"] None.
Definition w0 : World ReferenceDb :=
  world (set_server_members {[ m_id member := member ]} ReferenceDb_default).

Lemma removed_member_rejoins_witness :
  exists w1 w2, member_remove 0 member server RemovalIntention.Kick false w0 = (Ok tt, w1)
    /\ db_server_members (w_db w1) = delete (m_id member) (db_server_members (w_db w0))
    /\ member_create 0 server user (Some []) w1 = (Ok (m_new 0 "server" "member", []), w2)
    /\ Ref.fetch_member (w_db w2) "server" "member" = Ok (m_new 0 "server" "member").
Proof.
  apply (removed_member_rejoins 0 member server user RemovalIntention.Kick false [] w0); reflexivity.
Defined.

Lemma ban_keeps_out_witness :
  exists ban w1, ban_create server "member" None w0 = (Ok ban, w1)
    /\ member_create 0 server user None w1 = (Err ErrorType.Banned, w1).
Proof.
  exists {| ban_id := member_key "server" "member"; ban_reason := None |}.
  exists (ban_create server "member" None w0).2.
  assert (ban_create server "member" None w0
          = (Ok {| ban_id := member_key "server" "member"; ban_reason := None |},
             (ban_create server "member" None w0).2)) as E by reflexivity.
  split; [exact E|]. exact (ban_keeps_out 0 server user None None _ w0 _ E).
Defined.
End MemberWitness.
