(* ===== verification/Ratelimiter.v ===== *)
(** * Rate limiting
    ([crates/core/ratelimits/src/ratelimiter.rs],
    [crates/delta/src/util/ratelimits.rs])

    A bucket counts the requests of one identifier to one group of routes in
    windows of ten seconds.  [SystemTime::now] is read several times per
    request; every reading is an argument, in milliseconds.  The hash of the
    key is a parameter.  The [DashMap] is read and written separately: a
    request is one step here, as when requests of one key do not overlap.

    The theorems: within a window exactly the allowed number of requests is
    accepted; the unsigned subtraction of [get_remaining] does not wrap when
    the clock does not step back during a request; refused requests change
    nothing; two routes of one client share a counter only when they share the
    limit. *)

From S2P Require Import Prelude Results.

Definition as_u32 (v : Z) : Z := v mod 2 ^ 32.
Definition is_u32 (v : Z) : Prop := 0 <= v < 2 ^ 32.

(** [Entry] *)
Record Entry := {
  en_used : Z;
  en_reset : Z }.

(** The clock readings of one request, in the order they are taken. *)
Record Clock := {
  at_from : Z;          (* Entry::from, for a new bucket *)
  at_remaining : Z;     (* get_remaining *)
  at_left : Z;          (* left_until_reset *)
  at_deduct : Z;        (* deduct, the test *)
  at_deduct_reset : Z;  (* deduct, the new reset *)
  at_left_again : Z }.  (* left_until_reset after the deduction *)

Definition window : Z := 10000.

(** [Entry::from] *)
Definition entry_from (now : Z) (map : gmap Z Entry) (key : Z) : Entry :=
  match map !! key with
  | Some x => x
  | None => {| en_used := 0; en_reset := now + window |}
  end.

(** [Entry::deduct] *)
Definition deduct (now now' : Z) (self : Entry) : Entry :=
  if en_reset self <? now then {| en_used := 1; en_reset := now' + window |}
  else {| en_used := as_u32 (en_used self + 1); en_reset := en_reset self |}.

(** [Entry::save] *)
Definition save (self : Entry) (map : gmap Z Entry) (key : Z) : gmap Z Entry := <[key := self]> map.

(** [Entry::get_remaining], a [u32] subtraction *)
Definition get_remaining (now : Z) (self : Entry) (limit : Z) : Z :=
  if en_reset self <? now then limit else as_u32 (limit - en_used self).

(** [Entry::left_until_reset] *)
Definition left_until_reset (now : Z) (self : Entry) : Z := Z.max 0 (en_reset self - now).

(** [Ratelimiter] *)
Record Ratelimiter := {
  rl_key : Z;
  rl_limit : Z;
  rl_remaining : Z;
  rl_reset : Z }.

(** The bytes hashed for a key, in the order they are written. *)
Definition hash_input (identifier : string) (bucket : string * option string) : string :=
  identifier +:+ bucket.1 +:+ match bucket.2 with Some id => id | None => "" end.

(** [Ratelimiter::from]: [inl] is [Ok], [inr] is [Err] *)
Definition ratelimiter_from (hash : string -> Z) (c : Clock) (map : gmap Z Entry)
    (identifier : string) (limit : Z) (bucket : string * option string)
    : (Ratelimiter + Ratelimiter) * gmap Z Entry :=
  let key := hash (hash_input identifier bucket) in
  let entry := entry_from (at_from c) map key in
  let remaining := get_remaining (at_remaining c) entry limit in
  let reset := left_until_reset (at_left c) entry in
  if remaining =? 0 then
    (inr {| rl_key := key; rl_limit := limit; rl_remaining := remaining; rl_reset := reset |}, map)
  else
    let entry := deduct (at_deduct c) (at_deduct_reset c) entry in
    (inl {| rl_key := key; rl_limit := limit; rl_remaining := remaining - 1;
            rl_reset := left_until_reset (at_left_again c) entry |},
     save entry map key).

Definition accepted (r : Ratelimiter + Ratelimiter) : bool :=
  match r with inl _ => true | inr _ => false end.

(** ** Buckets of the API *)

Module Method.
Inductive Method : Type := Get | Put | Post | Delete | Patch | Other.
End Method.
Abbreviation Method := Method.Method.
#[export] Instance Method_eq_dec : EqDecision Method.
Proof. solve_decision. Defined.

Record Request := {
  rq_method : Method;
  rq_routed_segment : nat -> option string }.

(** [DeltaRatelimits::resolve_bucket] on the segments after the version prefix *)
Definition bucket_of (segment resource extra : option string) (method : Method)
    : string * option string :=
  match segment with
  | None => ("any", None)
  | Some segment =>
      if bool_decide (segment = "users") then
        if bool_decide (method = Method.Patch) then ("user_edit", resource)
        else if bool_decide (extra = Some "default_avatar") then ("default_avatar", None)
        else ("users", None)
      else if bool_decide (segment = "bots") then ("bots", None)
      else if bool_decide (segment = "channels") && bool_decide (is_Some resource) then
        if bool_decide (method = Method.Post) && bool_decide (extra = Some "messages")
        then ("messaging", resource)
        else if bool_decide (method = Method.Post) && bool_decide (extra = Some "interactions")
        then ("interactions", resource)
        else ("channels", resource)
      else if bool_decide (segment = "servers") && bool_decide (is_Some resource)
      then ("servers", resource)
      else if bool_decide (segment = "auth") then
        if bool_decide (method = Method.Delete) then ("auth_delete", None) else ("auth", None)
      else if bool_decide (segment = "oauth") && bool_decide (resource = Some "link-minecraft")
      then ("oauth_link", None)
      else if bool_decide (segment = "swagger") then ("swagger", None)
      else if bool_decide (segment = "safety") && bool_decide (resource = Some "report")
      then ("safety_report", Some "report")
      else if bool_decide (segment = "safety") then ("safety", None)
      else ("any", None)
  end.

Definition resolve_bucket (request : Request) : string * option string :=
  let seg := rq_routed_segment request in
  if bool_decide (seg 0%nat = Some "0.8")
  then bucket_of (seg 1%nat) (seg 2%nat) (seg 3%nat) (rq_method request)
  else bucket_of (seg 0%nat) (seg 1%nat) (seg 2%nat) (rq_method request).

(** [DeltaRatelimits::resolve_bucket_limit] *)
Definition bucket_limits : list (string * Z) :=
  [("user_edit", 2); ("users", 20); ("bots", 10); ("messaging", 10); ("interactions", 5);
   ("channels", 15); ("servers", 5); ("auth", 15); ("auth_delete", 255); ("oauth_link", 5);
   ("default_avatar", 255); ("swagger", 100); ("safety", 15); ("safety_report", 3)].

Definition resolve_bucket_limit (bucket : string) : Z :=
  match List.find (fun e => bool_decide (e.1 = bucket)) bucket_limits with
  | Some (_, limit) => limit
  | None => 20
  end.

(** ** Lemmas *)

(** A clock that does not step back between the readings that matter. *)
Definition forward (c : Clock) : Prop := at_remaining c <= at_deduct c.

Section Bucket.
Context (hash : string -> Z) (identifier : string) (limit : Z) (bucket : string * option string).
Hypothesis limit_u32 : is_u32 limit.
Local Abbreviation key := (hash (hash_input identifier bucket)).
Local Abbreviation request c map := (ratelimiter_from hash c map identifier limit bucket).

(** The counter of the bucket stays within the limit. *)
Definition within (map : gmap Z Entry) : Prop :=
  forall e, map !! key = Some e -> 0 <= en_used e <= limit.

Lemma remaining_exact now e :
  0 <= en_used e <= limit ->
  get_remaining now e limit = if en_reset e <? now then limit else limit - en_used e.
Proof using limit_u32.
  intros He. unfold get_remaining, as_u32. destruct (en_reset e <? now); [done|].
  apply Z.mod_small. unfold is_u32 in limit_u32. lia.
Qed.

Lemma entry_from_within now map :
  within map -> 0 <= limit -> 0 <= en_used (entry_from now map key) <= limit.
Proof.
  intros Hw Hl. unfold entry_from. destruct (map !! key) eqn:E; [by apply Hw|]. simpl. lia.
Qed.

Lemma request_within c map : forward c -> within map -> within (request c map).2.
Proof using limit_u32.
  intros Hf Hw. unfold ratelimiter_from. unfold is_u32 in limit_u32.
  pose proof (entry_from_within (at_from c) map Hw ltac:(lia)) as He.
  rewrite remaining_exact by done.
  destruct (_ =? 0) eqn:E0; [done|]. simpl. intros e.
  unfold save. rewrite lookup_insert_eq. intros [= <-]. unfold deduct.
  unfold forward in Hf.
  destruct (Z.ltb_spec (en_reset (entry_from (at_from c) map key)) (at_remaining c));
    destruct (Z.ltb_spec (en_reset (entry_from (at_from c) map key)) (at_deduct c)); simpl in *;
    apply Z.eqb_neq in E0; try lia; unfold as_u32; rewrite Z.mod_small; lia.
Qed.

(** A request while the window of the stored entry runs. *)
Definition in_window (e : Entry) (c : Clock) : Prop :=
  at_remaining c <= en_reset e /\ at_deduct c <= en_reset e.

Lemma request_in_window c map e :
  map !! key = Some e -> 0 <= en_used e <= limit -> in_window e c ->
  if en_used e <? limit then
    accepted (request c map).1 = true
    /\ (request c map).2 = <[key := {| en_used := en_used e + 1; en_reset := en_reset e |}]> map
  else accepted (request c map).1 = false /\ (request c map).2 = map.
Proof using limit_u32.
  intros He Hu [Hr Hd]. unfold ratelimiter_from, entry_from. rewrite He.
  rewrite remaining_exact by done. rewrite (proj2 (Z.ltb_ge _ _) Hr).
  destruct (Z.ltb_spec (en_used e) limit).
  - rewrite (proj2 (Z.eqb_neq _ _)) by lia. simpl. split; [done|].
    unfold save, deduct. rewrite (proj2 (Z.ltb_ge _ _) Hd). do 2 f_equal.
    unfold as_u32. apply Z.mod_small. unfold is_u32 in limit_u32. lia.
  - rewrite (proj2 (Z.eqb_eq _ _)) by lia. done.
Qed.

(** A sequence of requests to the bucket, and how many are accepted. *)
Fixpoint run (cs : list Clock) (map : gmap Z Entry) : Z * gmap Z Entry :=
  match cs with
  | [] => (0, map)
  | c :: cs =>
      let '(r, map) := request c map in
      let '(n, map) := run cs map in
      ((if accepted r then 1 else 0) + n, map)
  end.

Lemma run_in_window cs map e :
  map !! key = Some e -> 0 <= en_used e <= limit -> Forall (in_window e) cs ->
  (run cs map).1 = Z.min (Z.of_nat (length cs)) (limit - en_used e).
Proof using limit_u32.
  revert map e. induction cs as [|c cs IH]; intros map e He Hu Hc; simpl; [lia|].
  apply Forall_cons in Hc as [Hc Hcs].
  pose proof (request_in_window c map e He Hu Hc) as Hreq.
  destruct (request c map) as [r map'] eqn:Er. simpl in Hreq.
  destruct (Z.ltb_spec (en_used e) limit) as [Hlt|Hge]; destruct Hreq as [-> ->].
  - specialize (IH (<[key := {| en_used := en_used e + 1; en_reset := en_reset e |}]> map)
      {| en_used := en_used e + 1; en_reset := en_reset e |}).
    rewrite lookup_insert_eq in IH. specialize (IH eq_refl).
    destruct (run cs _) as [n m']. simpl in *. rewrite IH; [lia|lia|].
    eapply Forall_impl; [exact Hcs|]. by intros c' [? ?].
  - specialize (IH map e He Hu Hcs). destruct (run cs map) as [n m']. simpl in *. lia.
Qed.

(** The request [c] opens a window that ends at [reset]: the bucket has no
    entry, or the window of its entry is over. *)
Definition opens (c : Clock) (map : gmap Z Entry) (reset : Z) : Prop :=
  match map !! key with
  | None => reset = at_from c + window /\ at_remaining c <= reset /\ at_deduct c <= reset
  | Some e => en_reset e < at_remaining c /\ en_reset e < at_deduct c
              /\ reset = at_deduct_reset c + window
  end.

Lemma request_opens c map reset :
  0 < limit -> opens c map reset ->
  accepted (request c map).1 = true
  /\ (request c map).2 = <[key := {| en_used := 1; en_reset := reset |}]> map.
Proof using limit_u32.
  unfold opens, ratelimiter_from, entry_from, get_remaining, deduct, save. intros Hpos Hopen.
  destruct (map !! key) as [e|] eqn:E.
  - destruct Hopen as (H1 & H2 & ->). rewrite !(proj2 (Z.ltb_lt _ _)) by done.
    by rewrite (proj2 (Z.eqb_neq _ _)) by lia.
  - destruct Hopen as (-> & H1 & H2). simpl. rewrite !(proj2 (Z.ltb_ge _ _)) by done.
    rewrite Z.sub_0_r. unfold as_u32. rewrite Z.mod_small by done.
    by rewrite (proj2 (Z.eqb_neq _ _)) by lia.
Qed.
End Bucket.

(** ** Properties *)

(** C35: A request to a bucket that has no entry, or whose window is over, opens
    a window of ten seconds, and of it and all requests that are handled before
    the window ends exactly as many as the limit allows are accepted. *)
Theorem window_accepts_exactly_limit hash identifier limit bucket c cs map reset :
  is_u32 limit -> 0 < limit ->
  opens hash identifier bucket c map reset ->
  Forall (in_window {| en_used := 1; en_reset := reset |}) cs ->
  (run hash identifier limit bucket (c :: cs) map).1 = Z.min (Z.of_nat (length (c :: cs))) limit.
Proof.
  intros Hu Hpos Hopen Hcs. cbn [run].
  destruct (request_opens hash identifier limit bucket Hu c map reset Hpos Hopen) as [Ha Hm].
  destruct (ratelimiter_from _ _ _ _ _ _) as [r m']. simpl in Ha, Hm. rewrite Ha.
  assert (m' !! hash (hash_input identifier bucket) = Some {| en_used := 1; en_reset := reset |}) as He
    by (subst; apply lookup_insert_eq).
  pose proof (run_in_window hash identifier limit bucket Hu cs m' _ He ltac:(simpl; lia) Hcs) as Hrun.
  destruct (run hash identifier limit bucket cs m') as [n m'']. simpl in *. lia.
Qed.

(** A request keeps the counter of its bucket within the limit and reports
    a remaining number between zero and the limit, so the unsigned subtraction
    never wraps, provided the clock does not step back between its two tests;
    it leaves every other bucket alone, and when refused it changes nothing. *)
Theorem request_keeps_bounds hash identifier limit bucket c map :
  is_u32 limit -> forward c -> within hash identifier limit bucket map ->
  let '(r, map') := ratelimiter_from hash c map identifier limit bucket in
  within hash identifier limit bucket map'
  /\ match r with
     | inl ok => 0 <= rl_remaining ok < limit
     | inr refused => rl_remaining refused = 0 /\ map' = map
     end
  /\ forall k, k <> hash (hash_input identifier bucket) -> map' !! k = map !! k.
Proof.
  intros Hu Hf Hw. pose proof (request_within hash identifier limit bucket Hu c map Hf Hw) as Hw'.
  unfold is_u32 in Hu.
  pose proof (entry_from_within hash identifier limit bucket (at_from c) map Hw ltac:(lia)) as He.
  unfold ratelimiter_from in *.
  rewrite remaining_exact in * by done.
  destruct (_ =? 0) eqn:E0; simpl in *.
  - apply Z.eqb_eq in E0. done.
  - apply Z.eqb_neq in E0. split; [done|]. split.
    + destruct (_ <? at_remaining c); lia.
    + intros k Hk. unfold save. by rewrite lookup_insert_ne.
Qed.

Local Ltac in_list :=
  solve [repeat first [apply list_elem_of_here|apply list_elem_of_further]].

(** The buckets of the API, without and with a resource. *)
Definition plain_buckets : list string :=
  ["any"; "user_edit"; "users"; "default_avatar"; "bots"; "auth_delete"; "auth"; "oauth_link";
   "swagger"; "safety"].
Definition resource_buckets : list string :=
  ["user_edit"; "messaging"; "interactions"; "channels"; "servers"; "safety_report"].

Lemma bucket_of_cases segment resource extra method :
  (exists n, bucket_of segment resource extra method = (n, None) /\ n ∈ plain_buckets)
  \/ (exists n id, bucket_of segment resource extra method = (n, Some id) /\ n ∈ resource_buckets).
Proof.
  unfold bucket_of, plain_buckets, resource_buckets. destruct segment as [s|]; [|left; eexists; split; [done|in_list]].
  repeat (case_bool_decide; simpl); destruct resource as [id|];
    first [left; eexists; split; [reflexivity|in_list]
          |right; eexists _, _; split; [reflexivity|in_list]
          |exfalso; by match goal with H : is_Some None |- _ => destruct H end].
Qed.

Lemma resolve_bucket_cases r :
  (exists n, resolve_bucket r = (n, None) /\ n ∈ plain_buckets)
  \/ (exists n id, resolve_bucket r = (n, Some id) /\ n ∈ resource_buckets).
Proof. unfold resolve_bucket. case_bool_decide; apply bucket_of_cases. Qed.

Lemma append_inj (s t t' : string) : s +:+ t = s +:+ t' -> t = t'.
Proof. by induction s as [|a s IH]; [|intros [= ?]; auto]. Qed.

(** Two requests of one client write the same bytes into the hash of their
    keys only if they fall into the same bucket, and so under the same limit:
    the unseparated concatenation of bucket and resource is unambiguous for
    the buckets of the API. *)
Theorem shared_counter_same_limit identifier r1 r2 :
  hash_input identifier (resolve_bucket r1) = hash_input identifier (resolve_bucket r2) ->
  (resolve_bucket r1).1 = (resolve_bucket r2).1
  /\ resolve_bucket_limit (resolve_bucket r1).1 = resolve_bucket_limit (resolve_bucket r2).1.
Proof.
  intros Heq. assert ((resolve_bucket r1).1 = (resolve_bucket r2).1) as H; [|by rewrite H].
  unfold hash_input in Heq. apply append_inj in Heq. revert Heq.
  destruct (resolve_bucket_cases r1) as [(n1 & -> & H1)|(n1 & i1 & -> & H1)],
    (resolve_bucket_cases r2) as [(n2 & -> & H2)|(n2 & i2 & -> & H2)];
    unfold plain_buckets, resource_buckets in H1, H2;
    repeat (apply elem_of_cons in H1 as [->|H1]); try by apply elem_of_nil in H1.
  all: repeat (apply elem_of_cons in H2 as [->|H2]); try by apply elem_of_nil in H2.
  all: simpl; intros Heq; try done; discriminate Heq.
Qed.

(** A clock that steps back by one millisecond between the two tests lets the
    counter pass the limit, and the next subtraction wraps. *)
Example stepping_back_wraps :
  let e := {| en_used := 2; en_reset := 100 |} in
  let c := {| at_from := 0; at_remaining := 101; at_left := 101; at_deduct := 100;
              at_deduct_reset := 100; at_left_again := 100 |} in
  let c' := {| at_from := 0; at_remaining := 100; at_left := 100; at_deduct := 100;
               at_deduct_reset := 100; at_left_again := 100 |} in
  let map := (ratelimiter_from (fun _ => 0) c {[ 0 := e ]} "ip" 2 ("user_edit", None)).2 in
  match (ratelimiter_from (fun _ => 0) c' map "ip" 2 ("user_edit", None)).1 with
  | inl ok => rl_remaining ok = 2 ^ 32 - 2
  | inr _ => False
  end.
Proof. vm_compute. reflexivity. Qed.

(** ** Witnesses *)

Module RatelimitWitness.
Definition hash (s : string) : Z := Z.of_nat (String.length s).
Definition at_ (t : Z) : Clock :=
  {| at_from := t; at_remaining := t; at_left := t; at_deduct := t; at_deduct_reset := t;
     at_left_again := t |}.
Definition edit : Request :=
  {| rq_method := Method.Patch; rq_routed_segment := nth_error ["users"; "@me"] |}.
Definition send : Request :=
  {| rq_method := Method.Post; rq_routed_segment := nth_error ["0.8"; "channels"; "c"; "messages"] |}.

(** Four edits in a window of limit 2, the first of which finds an old entry:
    two are accepted. *)
Definition old : gmap Z Entry :=
  {[ hash (hash_input "ip" (resolve_bucket edit)) := {| en_used := 2; en_reset := 7 |} ]}.

Lemma window_accepts_exactly_limit_witness :
  (run hash "ip" 2 (resolve_bucket edit) [at_ 8; at_ 9; at_ 10; at_ 10008] old).1 = 2.
Proof.
  apply (window_accepts_exactly_limit hash "ip" 2 (resolve_bucket edit) (at_ 8)
           [at_ 9; at_ 10; at_ 10008] old 10008);
    [unfold is_u32; lia|lia|..].
  - vm_compute. repeat split.
  - repeat constructor; simpl; lia.
Defined.

Lemma request_keeps_bounds_witness :
  let '(r, map') := ratelimiter_from hash (at_ 0) ∅ "ip" 10 (resolve_bucket send) in
  within hash "ip" 10 (resolve_bucket send) map'
  /\ match r with
     | inl ok => 0 <= rl_remaining ok < 10
     | inr refused => rl_remaining refused = 0 /\ map' = ∅
     end
  /\ forall k, k <> hash (hash_input "ip" (resolve_bucket send)) -> map' !! k = (∅ : gmap Z Entry) !! k.
Proof.
  apply (request_keeps_bounds hash "ip" 10 (resolve_bucket send) (at_ 0) ∅).
  - unfold is_u32. lia.
  - unfold forward. simpl. lia.
  - intros e. by rewrite lookup_empty.
Defined.

Lemma shared_counter_same_limit_witness :
  (resolve_bucket send).1 = (resolve_bucket send).1
  /\ resolve_bucket_limit (resolve_bucket send).1 = resolve_bucket_limit (resolve_bucket send).1.
Proof. exact (shared_counter_same_limit "ip" send send eq_refl). Defined.
End RatelimitWitness.
