(* ===== verification/Beacon.v ===== *)
(** * The beacon signalling server
    ([company-beacon-signal/src/state.rs], [handlers.rs], [messages.rs])

    Peers register the hashes of the files they offer, resolve a hash to a peer
    and exchange signals through the server; a session token, handed out once,
    admits a WebSocket connection.  The registry and the session store are
    behind locks, so each message is one step.  A connection is a number; the
    messages sent to a connection's channel are a log.  [now] is a monotonic
    clock in nanoseconds; the results of token validation, JSON parsing and the
    message limiter are inputs of the step, which [BeaconAuth] computes.

    The theorems: the hash index always points at registered peers that offer
    the hash and the number of peers is bounded; a session token admits once
    and only while it is fresh; and a connection that ends removes whatever is
    registered under its peer id, even when a newer connection registered it. *)

From S2P Require Import Prelude.

Definition MAX_PEERS : Z := 10000.
Definition MAX_SESSIONS : Z := 1000.
Definition SESSION_TTL_SECS : Z := 60.

(** ** The registry *)

(** [PeerEntry]; [tx] is the connection the entry sends to *)
Record PeerEntry := {
  pe_peer_id : string;
  pe_file_hashes : list string;
  pe_multiaddr : option string;
  pe_tx : nat }.

Record SignalingState := {
  ss_peers : gmap string PeerEntry;
  ss_hash_index : gmap string string }.

Definition SignalingState_new : SignalingState := {| ss_peers := ∅; ss_hash_index := ∅ |}.

(** [SignalingState::remove_hashes]: the index without the hashes of the peer *)
Definition remove_hashes (self : SignalingState) (peer_id : string) : SignalingState :=
  {| ss_peers := ss_peers self;
     ss_hash_index := filter (fun e => e.2 <> peer_id) (ss_hash_index self) |}.

(** The hashes [remove_hashes] and [remove] report, in the order of the walk *)
Definition removed_hashes `{HashOrder} (self : SignalingState) (peer_id : string) : list string :=
  (filter (fun e => e.2 = peer_id) (hm_iter (ss_hash_index self))).*1.

(** [hash_index.entry(hash).or_insert_with(|| peer_id)] for each hash *)
Definition index_hashes (peer_id : string) (hashes : list string) (index : gmap string string)
    : gmap string string :=
  foldl (fun index hash =>
           match index !! hash with Some _ => index | None => <[hash := peer_id]> index end)
    index hashes.

(** [SignalingState::register] *)
Definition register (self : SignalingState) (entry : PeerEntry) : option SignalingState :=
  let is_existing := bool_decide (is_Some (ss_peers self !! pe_peer_id entry)) in
  if negb is_existing && (MAX_PEERS <=? Z.of_nat (size (ss_peers self))) then None
  else
    let self := if is_existing then remove_hashes self (pe_peer_id entry) else self in
    Some {| ss_peers := <[pe_peer_id entry := entry]> (ss_peers self);
            ss_hash_index :=
              index_hashes (pe_peer_id entry) (pe_file_hashes entry) (ss_hash_index self) |}.

(** [SignalingState::remove] *)
Definition remove (self : SignalingState) (peer_id : string) : SignalingState :=
  let self := remove_hashes self peer_id in
  {| ss_peers := delete peer_id (ss_peers self); ss_hash_index := ss_hash_index self |}.

(** [SignalingState::resolve] and [get_peer] *)
Definition resolve (self : SignalingState) (hash : string) : option PeerEntry :=
  peer_id ← ss_hash_index self !! hash; ss_peers self !! peer_id.
Definition get_peer (self : SignalingState) (peer_id : string) : option PeerEntry :=
  ss_peers self !! peer_id.

(** ** The session store *)

Record SessionEntry := {
  se_peer_id : string;
  se_created_at : Z;
  se_used : bool }.

Definition SessionStore : Type := gmap string SessionEntry.

(** [created_at.elapsed().as_secs()], the instants in nanoseconds *)
Definition elapsed_secs (now : Z) (e : SessionEntry) : Z :=
  Z.max 0 (now - se_created_at e) / 10 ^ 9.

(** [SessionStore::evict_expired] *)
Definition evict_expired (now : Z) (self : SessionStore) : SessionStore :=
  filter (fun e => elapsed_secs now e.2 < SESSION_TTL_SECS) self.

(** [SessionStore::insert] *)
Definition session_insert (now : Z) (self : SessionStore) (token peer_id : string)
    : bool * SessionStore :=
  let self := evict_expired now self in
  if MAX_SESSIONS <=? Z.of_nat (size self) then (false, self)
  else (true, <[token := {| se_peer_id := peer_id; se_created_at := now; se_used := false |}]> self).

(** [SessionStore::consume] *)
Definition consume (now : Z) (self : SessionStore) (token : string) : option string * SessionStore :=
  match self !! token with
  | None => (None, self)
  | Some entry =>
      if se_used entry then (None, self)
      else if SESSION_TTL_SECS <=? elapsed_secs now entry then (None, self)
      else (Some (se_peer_id entry),
            <[token := {| se_peer_id := se_peer_id entry; se_created_at := se_created_at entry;
                          se_used := true |}]> self)
  end.

(** ** The connection handler *)

Module OutboundMessage.
Inductive OutboundMessage : Type :=
| Registered (peer_id : string)
| Resolved (hash peer_id : string) (multiaddr : option string)
| NotFound (hash : string)
| Signal (from_peer_id payload : string)
| Error (code : string)
| PeerLeft (peer_id : string).
End OutboundMessage.
Abbreviation OutboundMessage := OutboundMessage.OutboundMessage.

Module InboundMessage.
(** The token of a message is replaced by the result of [validate_token] on it:
    the [sub] claim, or [None] for [AUTH_FAILED]. *)
Inductive InboundMessage : Type :=
| Register (sub : option string) (file_hashes : list string) (multiaddr : option string)
| Resolve (hash : string) (sub : option string)
| Signal (to_peer_id payload : string) (sub : option string)
| Leave.
End InboundMessage.
Abbreviation InboundMessage := InboundMessage.InboundMessage.

(** What arrives on a socket: [limited] if the limiter refuses the message,
    [parsed] is [None] when the JSON is malformed. *)
Module Frame.
Inductive Frame : Type :=
| Text (limited : bool) (parsed : option InboundMessage)
| Close
| OtherFrame.
End Frame.
Abbreviation Frame := Frame.Frame.

(** The shared registry, the messages sent so far by connection, and the local
    variable [peer_id] of each handler that is running. *)
Record Signalling := {
  sg_state : SignalingState;
  sg_sent : list (nat * OutboundMessage);
  sg_peer_id : gmap nat (option string) }.

Definition send (tx : nat) (m : OutboundMessage) (w : Signalling) : Signalling :=
  {| sg_state := sg_state w; sg_sent := sg_sent w ++ [(tx, m)]; sg_peer_id := sg_peer_id w |}.

(** The cleanup at the end of [handle_socket] *)
Definition disconnect `{HashOrder} (conn : nat) (w : Signalling) : Signalling :=
  match sg_peer_id w !! conn with
  | Some (Some pid) =>
      let s := remove (sg_state w) pid in
      {| sg_state := s;
         sg_sent := sg_sent w ++
           ((fun entry => (pe_tx entry, OutboundMessage.PeerLeft pid)) <$> hm_values (ss_peers s));
         sg_peer_id := delete conn (sg_peer_id w) |}
  | _ => {| sg_state := sg_state w; sg_sent := sg_sent w; sg_peer_id := delete conn (sg_peer_id w) |}
  end.

(** One turn of the loop of [handle_socket] *)
Definition on_message `{HashOrder} (conn : nat) (inbound : InboundMessage) (w : Signalling) : Signalling :=
  match inbound with
  | InboundMessage.Register None _ _ => send conn (OutboundMessage.Error "AUTH_FAILED") w
  | InboundMessage.Register (Some sub) file_hashes multiaddr =>
      let entry := {| pe_peer_id := sub; pe_file_hashes := file_hashes; pe_multiaddr := multiaddr;
                      pe_tx := conn |} in
      match register (sg_state w) entry with
      | None => send conn (OutboundMessage.Error "CAPACITY_EXCEEDED") w
      | Some s =>
          send conn (OutboundMessage.Registered sub)
            {| sg_state := s; sg_sent := sg_sent w;
               sg_peer_id := <[conn := Some sub]> (sg_peer_id w) |}
      end
  | InboundMessage.Resolve _ None => send conn (OutboundMessage.Error "AUTH_FAILED") w
  | InboundMessage.Resolve hash (Some _) =>
      match resolve (sg_state w) hash with
      | Some entry =>
          send conn (OutboundMessage.Resolved hash (pe_peer_id entry) (pe_multiaddr entry)) w
      | None => send conn (OutboundMessage.NotFound hash) w
      end
  | InboundMessage.Signal _ _ None => send conn (OutboundMessage.Error "AUTH_FAILED") w
  | InboundMessage.Signal to_peer_id payload (Some from_peer_id) =>
      match get_peer (sg_state w) to_peer_id with
      | Some target => send (pe_tx target) (OutboundMessage.Signal from_peer_id payload) w
      | None => send conn (OutboundMessage.Error "PEER_NOT_FOUND") w
      end
  | InboundMessage.Leave => disconnect conn w
  end.

Definition on_frame `{HashOrder} (conn : nat) (frame : Frame) (w : Signalling) : Signalling :=
  match frame with
  | Frame.OtherFrame => w
  | Frame.Close => disconnect conn w
  | Frame.Text true _ => send conn (OutboundMessage.Error "RATE_LIMITED") w
  | Frame.Text false None => send conn (OutboundMessage.Error "MALFORMED") w
  | Frame.Text false (Some inbound) => on_message conn inbound w
  end.

(** The server: a connection opens, a frame arrives on an open connection, or
    its stream ends. *)
Inductive signal_step `{HashOrder} (w : Signalling) : Signalling -> Prop :=
| sig_open conn :
    sg_peer_id w !! conn = None ->
    signal_step w {| sg_state := sg_state w; sg_sent := sg_sent w;
                     sg_peer_id := <[conn := None]> (sg_peer_id w) |}
| sig_frame conn frame :
    is_Some (sg_peer_id w !! conn) -> signal_step w (on_frame conn frame w)
| sig_end conn :
    is_Some (sg_peer_id w !! conn) -> signal_step w (disconnect conn w).

Definition signalling_start : Signalling :=
  {| sg_state := SignalingState_new; sg_sent := []; sg_peer_id := ∅ |}.

(** ** The registry is sound *)

Definition registry_ok (s : SignalingState) : Prop :=
  (forall k e, ss_peers s !! k = Some e -> pe_peer_id e = k)
  /\ (forall h p, ss_hash_index s !! h = Some p ->
        exists e, ss_peers s !! p = Some e /\ h ∈ pe_file_hashes e)
  /\ Z.of_nat (size (ss_peers s)) <= MAX_PEERS.

(** Indexing keeps what is there and adds only the listed hashes. *)
Lemma index_hashes_lookup pid hashes index h p :
  index_hashes pid hashes index !! h = Some p ->
  index !! h = Some p \/ (p = pid /\ h ∈ hashes).
Proof.
  unfold index_hashes. revert index. induction hashes as [|x hashes IH]; intros index; simpl; [auto|].
  intros [H1|[-> H1]]%IH; [|right; split; [done|by right]].
  destruct (index !! x) eqn:E; [by left|].
  apply lookup_insert_Some in H1 as [[<- <-]|[_ H1]]; [right|by left]. split; [done|left].
Qed.

Lemma register_registry_ok s e s' : registry_ok s -> register s e = Some s' -> registry_ok s'.
Proof.
  intros (Hk & Hi & Hn) Hr. unfold register in Hr.
  set (existing := bool_decide (is_Some (ss_peers s !! pe_peer_id e))) in *.
  destruct (negb existing && _) eqn:Ecap; [done|]. injection Hr as <-.
  assert (ss_peers (if existing then remove_hashes s (pe_peer_id e) else s) = ss_peers s) as Ep
    by by destruct existing.
  unfold registry_ok. simpl. rewrite Ep. split_and!.
  - intros k e' [[<- <-]|[_ H1]]%lookup_insert_Some; auto.
  - intros h p [H1|[-> Hh]]%index_hashes_lookup.
    + assert (p <> pe_peer_id e /\ ss_hash_index s !! h = Some p) as [Hne Hh].
      { destruct existing eqn:Ee; simpl in H1.
        - apply map_lookup_filter_Some in H1 as [H1 H2]. done.
        - split; [|done]. intros ->. destruct (Hi _ _ H1) as (e0 & He0 & _).
          apply bool_decide_eq_false in Ee. destruct Ee. by eexists. }
      destruct (Hi _ _ Hh) as (e0 & He0 & Hin). exists e0. by rewrite lookup_insert_ne.
    + exists e. by rewrite lookup_insert_eq.
  - rewrite map_size_insert. unfold existing in Ecap.
    destruct (ss_peers s !! pe_peer_id e); simpl; [done|].
    rewrite bool_decide_eq_false_2 in Ecap by (by intros []). simpl in Ecap.
    apply Z.leb_gt in Ecap. lia.
Qed.

Lemma remove_registry_ok s pid : registry_ok s -> registry_ok (remove s pid).
Proof.
  intros (Hk & Hi & Hn). unfold registry_ok, remove. simpl. split_and!.
  - intros k e [_ H1]%lookup_delete_Some. auto.
  - intros h p [H1 H2]%map_lookup_filter_Some. simpl in H2.
    destruct (Hi _ _ H1) as (e & He & Hin). exists e. by rewrite lookup_delete_ne.
  - rewrite map_size_delete. destruct (ss_peers s !! pid); simpl; lia.
Qed.

Lemma disconnect_registry_ok `{HashOrder} conn w :
  registry_ok (sg_state w) -> registry_ok (sg_state (disconnect conn w)).
Proof.
  intros Hok. unfold disconnect. destruct (sg_peer_id w !! conn) as [[pid|]|]; simpl; [|done|done].
  by apply remove_registry_ok.
Qed.

Lemma signal_step_ok `{HashOrder} w w' :
  registry_ok (sg_state w) -> signal_step w w' -> registry_ok (sg_state w').
Proof.
  intros Hok Hs. destruct Hs as [conn|conn frame|conn]; [done| |by apply disconnect_registry_ok].
  destruct frame as [[] [m|]| |]; simpl; try done; [|by apply disconnect_registry_ok].
  destruct m as [[sub|] hs ma|h [sub|]|to pl [from|]|]; simpl; try done.
  - destruct (register _ _) eqn:E; simpl; [|done]. by eapply register_registry_ok.
  - by destruct (resolve _ _).
  - by destruct (get_peer _ _).
  - by apply disconnect_registry_ok.
Qed.

(** ** Properties *)

(** In every state the signalling server reaches, a hash resolves only to
    a registered peer that offers this hash, under the identifier it is
    registered with, and at most [MAX_PEERS] peers are registered. *)
Theorem resolve_is_sound `{HashOrder} w :
  rtc signal_step signalling_start w ->
  (forall h e, resolve (sg_state w) h = Some e ->
     h ∈ pe_file_hashes e /\ get_peer (sg_state w) (pe_peer_id e) = Some e)
  /\ (forall h p, ss_hash_index (sg_state w) !! h = Some p -> is_Some (resolve (sg_state w) h))
  /\ Z.of_nat (size (ss_peers (sg_state w))) <= MAX_PEERS.
Proof.
  intros Hr. assert (registry_ok (sg_state w)) as (Hk & Hi & Hn).
  { assert (registry_ok (sg_state signalling_start)) as H0.
    { unfold registry_ok. simpl. split_and!; try by intros ??; rewrite lookup_empty.
      rewrite map_size_empty. unfold MAX_PEERS. lia. }
    revert H0. induction Hr as [|w1 w2 w3 Hs _ IH]; [done|]. intros H1. by eapply IH, signal_step_ok. }
  split_and!; [| |done]; unfold resolve, get_peer.
  - intros h e He. destruct (ss_hash_index (sg_state w) !! h) as [p|] eqn:E; simpl in He; [|done].
    destruct (Hi _ _ E) as (e' & He' & Hin). rewrite He in He'. injection He' as <-.
    split; [done|]. by rewrite (Hk _ _ He).
  - intros h p E. rewrite E. simpl. destruct (Hi _ _ E) as (e & He & _). by eexists.
Qed.

(** A session token admits at most once: a token that was consumed is
    refused at any later time; it was fresh when it was consumed; and a store
    that accepted a token holds at most [MAX_SESSIONS]. *)
Theorem session_single_use now now' store token peer_id store' :
  consume now store token = (Some peer_id, store') ->
  (consume now' store' token) = (None, store')
  /\ (exists e, store !! token = Some e /\ se_peer_id e = peer_id /\ se_used e = false
        /\ elapsed_secs now e < SESSION_TTL_SECS)
  /\ forall t p s, session_insert now' store' t p = (true, s) ->
       Z.of_nat (size s) <= MAX_SESSIONS.
Proof.
  unfold consume, SessionStore in *. destruct (store !! token) as [e|] eqn:E; [|done].
  destruct (se_used e) eqn:Eu; [done|].
  destruct (Z.leb_spec SESSION_TTL_SECS (elapsed_secs now e)) as [|Hfresh]; [done|].
  intros [= <- <-]. split; [by rewrite lookup_insert_eq|]. split; [by exists e|].
  intros t p s. unfold session_insert, evict_expired, SessionStore. destruct (Z.leb_spec MAX_SESSIONS
    (Z.of_nat (size (filter (fun e0 : string * SessionEntry => elapsed_secs now' e0.2 < SESSION_TTL_SECS)
       (<[token := {| se_peer_id := se_peer_id e;
       se_created_at := se_created_at e; se_used := true |}]> store))))); [done|].
  intros [= <-]. rewrite map_size_insert. case_match; simpl; lia.
Qed.

(** When a peer registers again over a new connection and the old
    connection ends afterwards, its cleanup removes the new registration: a
    reachable state has a handler that registered a peer, is still running,
    and whose peer the registry does not know. *)
Theorem old_connection_evicts_new_one :
  exists w, rtc (signal_step (H := hash_order_canonical)) signalling_start w
    /\ sg_peer_id w !! 2%nat = Some (Some "peer")
    /\ get_peer (sg_state w) "peer" = None.
Proof.
  eexists. split; [|split].
  - eapply rtc_l; [apply (sig_open _ 1%nat); reflexivity|].
    eapply rtc_l; [apply (sig_frame _ 1%nat
      (Frame.Text false (Some (InboundMessage.Register (Some "peer") ["hash"] None)))); by eexists|].
    eapply rtc_l; [apply (sig_open _ 2%nat); reflexivity|].
    eapply rtc_l; [apply (sig_frame _ 2%nat
      (Frame.Text false (Some (InboundMessage.Register (Some "peer") ["hash"] None)))); by eexists|].
    eapply rtc_l; [apply (sig_end _ 1%nat); by eexists|]. apply rtc_refl.
  - vm_compute. reflexivity.
  - vm_compute. reflexivity.
Qed.

(** ** Witnesses *)

Module BeaconWitness.
#[export] Existing Instance hash_order_canonical.

Definition w1 : Signalling :=
  {| sg_state := SignalingState_new; sg_sent := []; sg_peer_id := {[ 1%nat := None ]} |}.
Definition register_hash : Frame :=
  Frame.Text false (Some (InboundMessage.Register (Some "peer") ["hash"] None)).
Definition w2 : Signalling := on_frame 1%nat register_hash w1.

Lemma resolve_is_sound_witness :
  rtc signal_step signalling_start w2
  /\ exists e, resolve (sg_state w2) "hash" = Some e /\ "hash" ∈ pe_file_hashes e.
Proof.
  assert (rtc signal_step signalling_start w2) as Hr.
  { eapply rtc_l; [exact (sig_open signalling_start 1%nat eq_refl)|].
    eapply rtc_l; [exact (sig_frame w1 1%nat register_hash (mk_is_Some _ _ eq_refl))|]. apply rtc_refl. }
  split; [exact Hr|].
  destruct (resolve_is_sound w2 Hr) as (Hres & _ & _).
  eexists. split; [reflexivity|]. eapply Hres. reflexivity.
Defined.

Definition store : SessionStore := (session_insert 0 ∅ "token" "peer").2.

Lemma session_single_use_witness :
  (consume 1 store "token").1 = Some "peer"
  /\ (consume 2 (consume 1 store "token").2 "token").1 = None.
Proof.
  assert (consume 1 store "token" = (Some "peer", (consume 1 store "token").2)) as E by reflexivity.
  split; [reflexivity|].
  destruct (session_single_use 1 2 store "token" "peer" _ E) as (H1 & _). by rewrite H1.
Defined.
End BeaconWitness.
