(* ===== verification/Redis.v ===== *)
(** * Redis, as the repository uses it

    Redis is a server outside of the repository: [Redis] is the class of the
    commands the sources send through the [redis_kiss] and [redis] crates, over
    an abstract state, and [RedisLaws] what the Redis documentation says of
    them.  A key holds a string or a set, a set that becomes empty is deleted,
    and a set command on a string fails.  [RedisWitness] shows that the laws can
    hold.  Also here: the text of numbers and the splitting of strings. *)

From Stdlib Require Import Ascii DecimalString DecimalN DecimalPos DecimalZ.
From S2P Require Import Prelude Results.

(** ** Text *)

(** [u32::to_string] and [str::parse::<u32>] *)
Definition u32_to_string (n : Z) : string := NilEmpty.string_of_uint (N.to_uint (Z.to_N n)).

Definition strip_plus (s : string) : string :=
  match s with
  | String c s' => if Ascii.eqb c "+"%char then s' else s
  | EmptyString => s
  end.
Definition parse_u32 (s : string) : option Z :=
  match strip_plus s with
  | EmptyString => None
  | s' =>
      u ← NilEmpty.uint_of_string s';
      let n := Z.of_N (N.of_uint u) in
      if n <? 2 ^ 32 then Some n else None
  end.

(** [i64] and [bool] as arguments and replies of Redis commands; a reply that
    does not parse is an error of the command. *)
Definition i64_to_string (n : Z) : string := NilEmpty.string_of_int (Z.to_int n).
Definition parse_i64 (s : string) : option Z :=
  if bool_decide (s = "" \/ s = "-") then None else
  i ← NilEmpty.int_of_string s;
  let n := Z.of_int i in
  if (i64_min <=? n) && (n <=? i64_max) then Some n else None.
Definition bool_to_string (b : bool) : string := if b then "1" else "0".
Definition parse_bool (s : string) : option bool :=
  if bool_decide (s = "1") then Some true else if bool_decide (s = "0") then Some false else None.

(** [str::split(c)] *)
Fixpoint split_on (c : Ascii.ascii) (s : string) : list string :=
  match s with
  | EmptyString => [""]
  | String x s' =>
      if Ascii.eqb x c then "" :: split_on c s'
      else match split_on c s' with
           | p :: ps => String x p :: ps
           | [] => [String x ""]
           end
  end.

(** The string has no character [c]. *)
Fixpoint lacks (c : Ascii.ascii) (s : string) : bool :=
  match s with
  | EmptyString => true
  | String x s' => negb (Ascii.eqb x c) && lacks c s'
  end.

Lemma split_on_lacks c s : lacks c s = true -> split_on c s = [s].
Proof.
  induction s as [|x s IH]; [done|]. simpl. intros [Hx Hs]%andb_true_iff.
  rewrite IH by done. by destruct (Ascii.eqb x c).
Qed.

Lemma split_on_sep c s t : lacks c s = true -> split_on c (s +:+ String c t) = s :: split_on c t.
Proof.
  induction s as [|x s IH]; simpl; [by rewrite Ascii.eqb_refl|].
  intros [Hx Hs]%andb_true_iff. rewrite IH by done. by destruct (Ascii.eqb x c).
Qed.

Lemma lacks_digits u : lacks ":"%char (NilEmpty.string_of_uint u) = true.
Proof. by induction u. Qed.

Lemma strip_plus_digits u : strip_plus (NilEmpty.string_of_uint u) = NilEmpty.string_of_uint u.
Proof. by destruct u. Qed.

(** Printing and parsing a number. *)
Lemma parse_u32_to_string n : 0 <= n < 2 ^ 32 -> parse_u32 (u32_to_string n) = Some n.
Proof.
  intros Hn. unfold parse_u32, u32_to_string. rewrite strip_plus_digits.
  destruct (NilEmpty.string_of_uint (N.to_uint (Z.to_N n))) as [|c s] eqn:E.
  { exfalso. destruct (Z.to_N n) as [|p] eqn:En; [done|]. simpl in E.
    pose proof (DecimalPos.Unsigned.to_uint_nonnil p). by destruct (Pos.to_uint p). }
  rewrite <- E, NilEmpty.usu. simpl. rewrite DecimalN.Unsigned.of_to, Z2N.id by lia.
  by rewrite (proj2 (Z.ltb_lt _ _)) by lia.
Qed.

Lemma parse_i64_to_string n : is_i64 n -> parse_i64 (i64_to_string n) = Some n.
Proof.
  intros Hn. unfold parse_i64, i64_to_string.
  assert (NilEmpty.string_of_int (Z.to_int n) <> "" /\ NilEmpty.string_of_int (Z.to_int n) <> "-") as [H1 H2].
  { destruct n as [|p|p]; [done|..]; simpl; pose proof (DecimalPos.Unsigned.to_uint_nonnil p);
      by destruct (Pos.to_uint p). }
  rewrite bool_decide_eq_false_2 by tauto. rewrite NilEmpty.isi. simpl. rewrite DecimalZ.of_to.
  unfold is_i64 in Hn. by rewrite !(proj2 (Z.leb_le _ _)) by lia.
Qed.

Lemma parse_bool_to_string b : parse_bool (bool_to_string b) = Some b.
Proof. by destruct b. Qed.

Lemma u32_to_string_inj m n :
  0 <= m < 2 ^ 32 -> 0 <= n < 2 ^ 32 -> u32_to_string m = u32_to_string n -> m = n.
Proof.
  intros Hm Hn E. apply (f_equal parse_u32) in E. rewrite !parse_u32_to_string in E by done. congruence.
Qed.

Create HintDb redis.

(** ** Commands *)

Class Redis (R : Type) := {
  r_connect : M ErrorType R unit;
  r_get : string -> M ErrorType R (option string);
  r_mget : list string -> M ErrorType R (list (option string));
  r_get_del : string -> M ErrorType R (option string);
  r_set : string -> string -> M ErrorType R unit;
  r_set_ex : string -> string -> Z -> M ErrorType R unit;
  r_del : list string -> M ErrorType R unit;
  r_exists : string -> M ErrorType R bool;
  r_sadd : string -> string -> M ErrorType R unit;
  r_srem : string -> string -> M ErrorType R unit;
  r_smembers : string -> M ErrorType R (list string);
  r_sismember : string -> string -> M ErrorType R bool;
  r_scard : string -> M ErrorType R Z;
  r_smove : string -> string -> string -> M ErrorType R unit }.

Inductive RedisValue : Type :=
| RStr (s : string)
| RSet (s : gset string).

(** The set under a key, and the keys with another set there. *)
Definition set_at (m : gmap string RedisValue) (k : string) : gset string :=
  match m !! k with Some (RSet s) => s | _ => ∅ end.
Definition put_set (k : string) (s : gset string) (m : gmap string RedisValue) : gmap string RedisValue :=
  if decide (s = ∅) then delete k m else <[k := RSet s]> m.
(** The keys after SADD and SREM. *)
Definition add_to (k v : string) (m : gmap string RedisValue) : gmap string RedisValue :=
  put_set k ({[ v ]} ∪ set_at m k) m.
Definition remove_from (k v : string) (m : gmap string RedisValue) : gmap string RedisValue :=
  put_set k (set_at m k ∖ {[ v ]}) m.
Definition str_at (m : gmap string RedisValue) (k : string) : option string :=
  match m !! k with Some (RStr s) => Some s | _ => None end.
Definition is_string (m : gmap string RedisValue) (k : string) : Prop := exists s, m !! k = Some (RStr s).

(** A key that is absent or holds a set. *)
Definition set_key (m : gmap string RedisValue) (k : string) : Prop := ~ is_string m k.

(** Redis within reach, as documented. *)
Class RedisLaws (R : Type) `{Redis R} := {
  keys : R -> gmap string RedisValue;
  connect_run : forall r, r_connect r = (Ok tt, r);
  get_run : forall k r, (forall s, keys r !! k <> Some (RSet s)) -> r_get k r = (Ok (str_at (keys r) k), r);
  mget_run : forall ks r, r_mget ks r = (Ok (str_at (keys r) <$> ks), r);
  set_run : forall k v r, exists r', r_set k v r = (Ok tt, r') /\ keys r' = <[k := RStr v]> (keys r);
  del_run : forall ks r, exists r', r_del ks r = (Ok tt, r') /\ keys r' = foldr delete (keys r) ks;
  exists_run : forall k r,
    r_exists k r = (Ok (bool_decide (is_Some (str_at (keys r) k))
                        || bool_decide (set_at (keys r) k <> ∅)), r);
  sadd_run : forall k v r, set_key (keys r) k ->
    exists r', r_sadd k v r = (Ok tt, r') /\ keys r' = add_to k v (keys r);
  srem_run : forall k v r, set_key (keys r) k ->
    exists r', r_srem k v r = (Ok tt, r') /\ keys r' = remove_from k v (keys r);
  smembers_run : forall k r, set_key (keys r) k ->
    exists l, r_smembers k r = (Ok l, r) /\ l ≡ₚ elements (set_at (keys r) k);
  sismember_run : forall k v r, set_key (keys r) k ->
    r_sismember k v r = (Ok (bool_decide (v ∈ set_at (keys r) k)), r);
  scard_run : forall k r, set_key (keys r) k ->
    r_scard k r = (Ok (Z.of_nat (size (set_at (keys r) k))), r) }.

Lemma set_at_put m k s k' : set_at (put_set k s m) k' = if decide (k' = k) then s else set_at m k'.
Proof.
  unfold set_at, put_set. destruct (decide (s = ∅)) as [->|]; destruct (decide (k' = k)) as [->|].
  - by rewrite lookup_delete_eq.
  - by rewrite lookup_delete_ne.
  - by rewrite lookup_insert_eq.
  - by rewrite lookup_insert_ne.
Qed.

Lemma set_key_put m k s k' : set_key m k' -> set_key (put_set k s m) k'.
Proof.
  unfold set_key, is_string, put_set. intros Hk [v Hv]. apply Hk. exists v.
  destruct (decide (s = ∅)).
  - by apply lookup_delete_Some in Hv as [_ ?].
  - by apply lookup_insert_Some in Hv as [[_ ?]|[_ ?]].
Qed.

Lemma size_at_zero m k : (Z.of_nat (size (set_at m k)) =? 0) = bool_decide (set_at m k = ∅).
Proof.
  destruct (decide (set_at m k = ∅)) as [E|E].
  - rewrite bool_decide_eq_true_2 by done. rewrite E. by rewrite size_empty.
  - rewrite bool_decide_eq_false_2 by done. apply Z.eqb_neq.
    assert (size (set_at m k) <> 0%nat); [|lia]. intros Hs. apply E, leibniz_equiv, size_empty_iff, Hs.
Qed.

Lemma set_at_add m k v k' :
  set_at (add_to k v m) k' = if decide (k' = k) then {[ v ]} ∪ set_at m k else set_at m k'.
Proof. apply set_at_put. Qed.

Lemma set_at_remove m k v k' :
  set_at (remove_from k v m) k' = if decide (k' = k) then set_at m k ∖ {[ v ]} else set_at m k'.
Proof. apply set_at_put. Qed.

Lemma set_key_add m k v k' : set_key m k' -> set_key (add_to k v m) k'.
Proof. apply set_key_put. Qed.

Lemma set_key_remove m k v k' : set_key m k' -> set_key (remove_from k v m) k'.
Proof. apply set_key_put. Qed.

Lemma set_at_delete m k k' : set_at (delete k m) k' = if decide (k' = k) then ∅ else set_at m k'.
Proof.
  unfold set_at. destruct (decide (k' = k)) as [->|]; [by rewrite lookup_delete_eq|by rewrite lookup_delete_ne].
Qed.

Lemma set_key_delete m k k' : set_key m k' -> set_key (delete k m) k'.
Proof. intros Hk [s Hs]. apply Hk. exists s. by apply lookup_delete_Some in Hs as [_ ?]. Qed.

Lemma set_key_str_at m k : set_key m k -> str_at m k = None.
Proof.
  intros Hk. unfold str_at. destruct (m !! k) as [[s|s]|] eqn:E; [|done|done]. destruct Hk. by exists s.
Qed.

#[export] Hint Resolve set_key_add set_key_remove set_key_delete : redis.

(** [Pipeline::new()]: every command is sent, the first failure is reported. *)
Fixpoint pipeline {S} (commands : list (M ErrorType S unit)) : M ErrorType S unit :=
  match commands with
  | [] => mret tt
  | c :: cs => fun s =>
      match c s with
      | (Ok _, s') => pipeline cs s'
      | (Err e, s') =>
          match pipeline cs s' with
          | (Panicked, s'') => (Panicked, s'')
          | (_, s'') => (Err e, s'')
          end
      | (Panicked, s') => (Panicked, s')
      end
  end.

Lemma pipeline_ok {S} (c : M ErrorType S unit) cs s s' :
  c s = (Ok tt, s') -> pipeline (c :: cs) s = pipeline cs s'.
Proof. intros E. simpl. by rewrite E. Qed.

(** [.expect(..)] *)
Definition expect {S A} (m : M ErrorType S A) : M ErrorType S A := fun s =>
  match m s with (Err _, s') => (Panicked, s') | r => r end.

(** ** A Redis in memory *)

Module RedisWitness.
Abbreviation Store := (gmap string RedisValue).
Definition on_set {A} (k : string) (f : gset string -> A * gset string) : M ErrorType Store A := fun m =>
  match m !! k with
  | Some (RStr _) => (Err ErrorType.InternalError, m)
  | _ => let '(a, s) := f (set_at m k) in (Ok a, put_set k s m)
  end.
Definition read_set {A} (k : string) (f : gset string -> A) : M ErrorType Store A := fun m =>
  match m !! k with
  | Some (RStr _) => (Err ErrorType.InternalError, m)
  | _ => (Ok (f (set_at m k)), m)
  end.
Definition read_str (k : string) (after : Store -> Store) : M ErrorType Store (option string) := fun m =>
  match m !! k with
  | Some (RSet _) => (Err ErrorType.InternalError, m)
  | _ => (Ok (str_at m k), after m)
  end.

#[export] Instance store_redis : Redis Store := {|
  r_connect := mret tt;
  r_get k := read_str k id;
  r_mget ks := reads (fun m => str_at m <$> ks);
  r_get_del k := read_str k (delete k);
  r_set k v := modify (<[k := RStr v]>);
  r_set_ex k v _ := modify (<[k := RStr v]>);
  r_del ks := modify (fun m => foldr delete m ks);
  r_exists k := reads (fun m => bool_decide (is_Some (str_at m k)) || bool_decide (set_at m k <> ∅));
  r_sadd k v := on_set k (fun s => (tt, {[ v ]} ∪ s));
  r_srem k v := on_set k (fun s => (tt, s ∖ {[ v ]}));
  r_smembers k := read_set k elements;
  r_sismember k v := read_set k (fun s => bool_decide (v ∈ s));
  r_scard k := read_set k (fun s => Z.of_nat (size s));
  r_smove a b v := fun m =>
    if decide (v ∈ set_at m a) then
      (on_set a (fun s => (tt, s ∖ {[ v ]}));; on_set b (fun s => (tt, {[ v ]} ∪ s))) m
    else (Ok tt, m) |}.

Lemma on_set_run {A} k (f : gset string -> A * gset string) m :
  set_key m k -> on_set k f m = (Ok (f (set_at m k)).1, put_set k (f (set_at m k)).2 m).
Proof.
  intros Hk. unfold on_set. destruct (f (set_at m k)) as [a s2] eqn:Ef. simpl.
  destruct (m !! k) as [[s|s]|] eqn:E; [|done..].
  exfalso. apply Hk. by exists s.
Qed.

Lemma read_set_run {A} k (f : gset string -> A) m : set_key m k -> read_set k f m = (Ok (f (set_at m k)), m).
Proof.
  intros Hk. unfold read_set. destruct (m !! k) as [[s|s]|] eqn:E; [|done..].
  exfalso. apply Hk. by exists s.
Qed.

#[export] Program Instance store_laws : RedisLaws Store := {| keys := id |}.
Next Obligation. done. Qed.
Next Obligation. intros k r Hk. simpl. unfold read_str. destruct (r !! k) as [[s|s]|] eqn:E; [done| |done]. by destruct (Hk s). Qed.
Next Obligation. done. Qed.
Next Obligation. intros k v r. by eexists. Qed.
Next Obligation. intros ks r. by eexists. Qed.
Next Obligation. done. Qed.
Next Obligation. intros k v r Hk. eexists. split; [exact (on_set_run k _ r Hk)|done]. Qed.
Next Obligation. intros k v r Hk. eexists. split; [exact (on_set_run k _ r Hk)|done]. Qed.
Next Obligation. intros k r Hk. eexists. split; [exact (read_set_run k _ r Hk)|done]. Qed.
Next Obligation. intros k v r Hk. exact (read_set_run k _ r Hk). Qed.
Next Obligation. intros k r Hk. exact (read_set_run k _ r Hk). Qed.
End RedisWitness.
