(* ===== verification/Json.v ===== *)
(** * JSON values, as [serde_json::Value] documents them

    The crate [serde_json] is outside of the repository: reading and printing
    text are parameters of the files that do it.  This file holds the type of
    untyped values and the accessors the sources use on them; an object is the
    list of its entries, a number an integer or, by its text, something else. *)

From S2P Require Import Prelude.

Module JsonNumber.
Inductive JsonNumber : Type :=
| Integer (n : Z)
| Float (text : string).
End JsonNumber.
Abbreviation JsonNumber := JsonNumber.JsonNumber.

Module Value.
Inductive Value : Type :=
| Null
| Bool (b : bool)
| Number (n : JsonNumber)
| String (s : string)
| Array (values : list Value)
| Object (entries : list (string * Value)).
End Value.
Abbreviation Value := Value.Value.

(** [as_object], [as_str], [as_i64], and [get] on a map and on a value *)
Definition value_as_object (v : Value) : option (list (string * Value)) :=
  match v with Value.Object entries => Some entries | _ => None end.
Definition value_as_str (v : Value) : option string :=
  match v with Value.String s => Some s | _ => None end.
Definition value_as_i64 (v : Value) : option Z :=
  match v with
  | Value.Number (JsonNumber.Integer n) => if (i64_min <=? n) && (n <=? i64_max) then Some n else None
  | _ => None
  end.
Definition map_get (entries : list (string * Value)) (key : string) : option Value :=
  snd <$> find (fun e => String.eqb e.1 key) entries.
Definition value_get (v : Value) (key : string) : option Value :=
  entries ← value_as_object v; map_get entries key.
