(* ===== verification/Broker.v ===== *)
(** * The broker of direct messages ([crates/core/database/src/broker/mod.rs])

    The broker keeps, in Redis, the devices of every user, a queue of messages
    per device that is not connected, counters that limit senders, a queue per
    device for what other devices of the user send it, and the epoch of every
    channel, which drops what was sent before a purge.

    Redis is outside of the repository: [BrokerRedis] is the class of the
    commands the file sends, over an abstract state.  What the documentation of
    Redis says of them is [Store], a map from keys to values with the seconds
    they have left, and [BrokerRedisLaws]: the commands do to the keys what they
    do to the store.  The simulation carries over to every operation of the file
    ([sim]), so that what is proved for the store holds for any such server.
    The time that passes between two commands is a step of its own ([b_elapse]).
    [BrokerRedisLaws] is a server that answers; [BrokerRedisFallible] is one that
    may fail at any command, for what the callers do then.

    [serde_json] is the class [BrokerJson].  The clock is read once per
    operation and is an argument ([now], in seconds).  Logging is left out.

    The theorems: queues and what they hold stay within the limits, up to the
    pushes that overlap ([race_step], [queues_bounded]); a device gets what was queued for it, once and in order,
    less what was purged ([drain_delivers]); what a sender queues in a window is
    limited ([pair_budget]); a user keeps eight devices, or nine if they connect
    within a second ([device_cap]); what goes wrong: a counter whose first
    message is refused never expires, and the sender is refused for ever
    ([counter_sticks]); a message that arrives while a queue is drained is lost
    ([drain_race_loses]). *)

From S2P Require Import Prelude Results Models ApiTypes Records World Redis Json.

(** ** Constants *)

Definition HEARTBEAT_TIMEOUT_SECONDS : Z := 300.
Definition DEVICE_TTL_SECONDS : Z := 604800.
Definition OFFLINE_QUEUE_TTL_SECONDS : Z := 21600.
Definition OFFLINE_QUEUE_MAX_DEPTH : Z := 100.
Definition OFFLINE_QUEUE_MAX_MESSAGE_BYTES : Z := 4096.
Definition RATE_LIMIT_WINDOW_SECONDS : Z := 60.
Definition RATE_LIMIT_MAX_PER_WINDOW : Z := 30.
Definition RATE_LIMIT_GLOBAL_MAX_PER_WINDOW : Z := 120.
Definition MAX_DEVICES_PER_USER : nat := 8.
Definition SYNC_QUEUE_TTL_SECONDS : Z := 3600.
Definition SYNC_MAX_ENVELOPE_BYTES : Z := 65536.
Definition SYNC_MAX_ENVELOPES_PER_QUEUE : Z := 100.
Definition SYNC_RATE_LIMIT_PER_HOUR : Z := 10.
Definition SYNC_RATE_LIMIT_WINDOW_SECONDS : Z := 3600.

(** ** Data *)

Record DeviceEntry := {
  de_node_id : string;
  de_connected_at : string;
  de_last_seen_unix : Z }.

Record DeviceInfo := {
  di_session_id : string;
  di_node_id : string;
  di_connected_at : string;
  di_last_seen_unix : Z;
  di_is_online : bool }.

(** [serde_json::to_string] and [from_str] at the types of the file *)
Class BrokerJson := {
  entry_to_json : DeviceEntry -> option string;
  entry_from_json : string -> option DeviceEntry;
  event_to_json : EventV1 -> option string;
  event_from_json : string -> option EventV1;
  value_from_json : string -> option Value }.

(** An entry that is written can be read. *)
Class BrokerJsonLaws `{BrokerJson} :=
  entry_roundtrip : forall e, exists s, entry_to_json e = Some s /\ entry_from_json s = Some e.

(** ** Keys *)

Definition channel_epoch_key (channel_id : string) : string := "broker:channel_epoch:" +:+ channel_id.
Definition devices_key (user_id : string) : string := "broker:devices:messaging:" +:+ user_id.
Definition queue_key (user_id session_id : string) : string :=
  "broker:queue:messaging:" +:+ user_id +:+ ":" +:+ session_id.
Definition global_rate_key (sender_id : string) : string := "broker:rate:global:" +:+ sender_id.
Definition rate_key (sender_id recipient_id : string) : string :=
  "broker:rate:" +:+ sender_id +:+ ":" +:+ recipient_id.
Definition sync_queue_key (user_id dest_session_id : string) : string :=
  "broker:sync:messaging:" +:+ user_id +:+ ":" +:+ dest_session_id.
Definition sync_rate_key (user_id source_session_id : string) : string :=
  "broker:sync:rate:" +:+ user_id +:+ ":" +:+ source_session_id.

(** ** Redis *)

(** The commands; one that fails gives [InternalError], which is what
    [to_internal_error] and the [map_err] of [get_connection] make of it. *)
Class BrokerRedis (R : Type) := {
  b_connect : M ErrorType R unit;
  b_get : string -> M ErrorType R (option Z);
  b_set : string -> Z -> M ErrorType R unit;
  b_incr : string -> M ErrorType R Z;
  b_del : string -> M ErrorType R unit;
  b_expire : string -> Z -> M ErrorType R unit;
  b_hset : string -> string -> string -> M ErrorType R unit;
  b_hget : string -> string -> M ErrorType R (option string);
  b_hdel : string -> string -> M ErrorType R unit;
  b_hgetall : string -> M ErrorType R (gmap string string);
  b_llen : string -> M ErrorType R Z;
  b_lrange : string -> M ErrorType R (list string);
  b_rpush : string -> string -> M ErrorType R unit;
  b_elapse : Z -> M ErrorType R unit }.

(** [Pipeline]: both commands run, the first failure is reported. *)
Definition also {S A B} (m : M ErrorType S A) (m' : M ErrorType S B) : M ErrorType S (A * B) := fun s =>
  let '(a, s) := m s in
  let '(b, s) := m' s in
  (a ← a; b ← b; Ok (a, b), s).

(** [.unwrap_or(d)] *)
Definition unwrap_or {S A} (d : A) (m : M ErrorType S A) : M ErrorType S A := fun s =>
  match m s with (Err _, s') => (Ok d, s') | res => res end.

(** ** Operations *)

Section Broker.
Context {R : Type} `{BrokerRedis R} `{HashOrder} `{BrokerJson}.
Local Abbreviation Rm := (M ErrorType R).

(** *** Epochs *)

Definition get_channel_epoch_cached (channel_id : string) : Rm Z :=
  b_connect;;
  val ← b_get (channel_epoch_key channel_id);
  mret (default 0 val).
Definition set_channel_epoch_cached (channel_id : string) (epoch : Z) : Rm unit :=
  b_connect;; b_set (channel_epoch_key channel_id) epoch.

(** The channel and the content of an event that carries a message. *)
Definition event_content (obj : list (string * Value)) : option (string * string) :=
  event_type ← (map_get obj "type" ≫= value_as_str);
  if String.eqb event_type "Message" then
    channel ← (map_get obj "channel" ≫= value_as_str);
    content ← (map_get obj "content" ≫= value_as_str);
    Some (channel, content)
  else if String.eqb event_type "MessageUpdate" then
    channel ← (map_get obj "channel" ≫= value_as_str);
    data ← (map_get obj "data" ≫= value_as_object);
    content ← (map_get data "content" ≫= value_as_str);
    Some (channel, content)
  else None.

(** The start of an envelope, [{"_e2e":1,] *)
Definition quote : string := String (Ascii.ascii_of_nat 34) "".
Definition envelope_start : string := "{" +:+ quote +:+ "_e2e" +:+ quote +:+ ":1,".

Definition extract_envelope_epoch (event_json : string) : option (string * Z) :=
  value ← value_from_json event_json;
  obj ← value_as_object value;
  '(channel, content) ← event_content obj;
  if negb (String.prefix envelope_start content) then None else
  env ← value_from_json content;
  Some (channel, default 0 (value_get env "e" ≫= value_as_i64)).

(** *** Devices *)

(** One step of the loop that evicts the oldest devices. *)
Definition drop_device (user_id sid : string) : Rm unit :=
  ignore_err (b_hdel (devices_key user_id) sid);;
  ignore_err (b_del (queue_key user_id sid)).
Fixpoint evict (user_id session_id : string) (sids : list string) : Rm unit :=
  match sids with
  | [] => mret tt
  | sid :: sids =>
      (if String.eqb sid session_id then mret tt else drop_device user_id sid);;
      evict user_id session_id sids
  end.
Definition last_seen (json : string) : Z :=
  match entry_from_json json with Some e => de_last_seen_unix e | None => i64_min end.

(** The devices from the one that was not seen for the longest time. *)
Definition by_last_seen (raw : gmap string string) : list (string * Z) :=
  sort_by (cmp_asc snd) (map (fun e => (e.1, last_seen e.2)) (hm_iter raw)).

Definition register_user (now : Z) (timestamp user_id node_id session_id : string) : Rm unit :=
  value ← lift_outcome (ok_or ErrorType.InternalError (entry_to_json
            {| de_node_id := node_id; de_connected_at := timestamp; de_last_seen_unix := now |}));
  b_connect;;
  b_hset (devices_key user_id) session_id value;;
  b_expire (devices_key user_id) DEVICE_TTL_SECONDS;;
  raw ← b_hgetall (devices_key user_id);
  if Nat.ltb MAX_DEVICES_PER_USER (size raw) then
    evict user_id session_id (take (size raw - MAX_DEVICES_PER_USER) (by_last_seen raw)).*1
  else mret tt.

Definition unregister_user (user_id session_id : string) : Rm unit :=
  b_connect;;
  b_hdel (devices_key user_id) session_id;;
  b_del (queue_key user_id session_id).

Definition refresh_user_ttl (now : Z) (user_id session_id : string) : Rm unit :=
  b_connect;;
  raw ← b_hget (devices_key user_id) session_id;
  match raw ≫= entry_from_json with
  | Some entry =>
      match entry_to_json {| de_node_id := de_node_id entry; de_connected_at := de_connected_at entry;
                             de_last_seen_unix := now |} with
      | Some updated => b_hset (devices_key user_id) session_id updated
      | None => mret tt
      end
  | None => mret tt
  end;;
  b_expire (devices_key user_id) DEVICE_TTL_SECONDS.

(** The sessions that are kept, and those to prune. *)
Fixpoint sift (now : Z) (raw : list (string * string)) : list (string * DeviceEntry) * list string :=
  match raw with
  | [] => ([], [])
  | (sid, json) :: raw =>
      let '(alive, to_prune) := sift now raw in
      match entry_from_json json with
      | Some entry =>
          if DEVICE_TTL_SECONDS <? now - de_last_seen_unix entry then (alive, sid :: to_prune)
          else ((sid, entry) :: alive, to_prune)
      | None => (alive, sid :: to_prune)
      end
  end.
Fixpoint prune (user_id : string) (sids : list string) : Rm unit :=
  match sids with
  | [] => mret tt
  | sid :: sids => drop_device user_id sid;; prune user_id sids
  end.
Definition list_known_sessions (now : Z) (user_id : string) : Rm (list (string * DeviceEntry)) :=
  b_connect;;
  raw ← b_hgetall (devices_key user_id);
  let '(alive, to_prune) := sift now (hm_iter raw) in
  prune user_id to_prune;;
  mret alive.

Definition is_online (now : Z) (entry : DeviceEntry) : bool :=
  now - de_last_seen_unix entry <=? HEARTBEAT_TIMEOUT_SECONDS.
Definition is_user_online (now : Z) (user_id : string) : Rm bool :=
  unwrap_or false (sessions ← list_known_sessions now user_id;
                   mret (existsb (fun e => is_online now e.2) sessions)).

(** *** The queue of messages *)

(** The counters and the depth, in one pipeline; then what the limits say. *)
Definition queue_read (sender_id recipient_id session_id : string) : Rm (Z * Z * Z) :=
  also (also (b_incr (global_rate_key sender_id)) (b_incr (rate_key sender_id recipient_id)))
       (b_llen (queue_key recipient_id session_id)).
Definition queue_check (global_count pair_count depth : Z) : Result unit :=
  if RATE_LIMIT_GLOBAL_MAX_PER_WINDOW <? global_count then Err (ErrorType.FailedValidation "Rate limited")
  else if RATE_LIMIT_MAX_PER_WINDOW <? pair_count then Err (ErrorType.FailedValidation "Rate limited")
  else if OFFLINE_QUEUE_MAX_DEPTH <=? depth then
    Err (ErrorType.FailedValidation "Recipient's offline message queue is full. Try again later.")
  else Ok tt.
Definition queue_write (sender_id recipient_id session_id message_event : string)
    (global_count pair_count depth : Z) : Rm unit :=
  pipeline ((if global_count =? 1 then [b_expire (global_rate_key sender_id) RATE_LIMIT_WINDOW_SECONDS] else [])
         ++ (if pair_count =? 1 then [b_expire (rate_key sender_id recipient_id) RATE_LIMIT_WINDOW_SECONDS] else [])
         ++ [b_rpush (queue_key recipient_id session_id) message_event]
         ++ (if depth =? 0 then [b_expire (queue_key recipient_id session_id) OFFLINE_QUEUE_TTL_SECONDS] else [])).
Definition queue_offline_message (sender_id recipient_id session_id message_event : string) : Rm unit :=
  if OFFLINE_QUEUE_MAX_MESSAGE_BYTES <? Z.of_nat (String.length message_event) then
    throw (ErrorType.FailedValidation "Message exceeds maximum size for offline delivery.")
  else
    b_connect;;
    '(global_count, pair_count, depth) ← queue_read sender_id recipient_id session_id;
    lift_outcome (queue_check global_count pair_count depth);;
    queue_write sender_id recipient_id session_id message_event global_count pair_count depth.

(** The messages of a list, and the list gone, in two commands. *)
Definition drain_read (key : string) : Rm (list string) := b_connect;; b_lrange key.
Definition drain_delete (key : string) (messages : list string) : Rm unit :=
  match messages with [] => mret tt | _ => b_del key end.

(** What was sent before the last purge is dropped; each channel is looked up once. *)
Fixpoint filter_purged (epoch_cache : gmap string Z) (messages : list string) : Rm (list string) :=
  match messages with
  | [] => mret []
  | event_json :: messages =>
      match extract_envelope_epoch event_json with
      | Some (channel_id, env_epoch) =>
          '(current, epoch_cache) ←
            match epoch_cache !! channel_id with
            | Some c => mret (c, epoch_cache)
            | None => c ← unwrap_or 0 (get_channel_epoch_cached channel_id);
                      mret (c, <[channel_id := c]> epoch_cache)
            end;
          rest ← filter_purged epoch_cache messages;
          mret (if env_epoch <? current then rest else event_json :: rest)
      | None => rest ← filter_purged epoch_cache messages; mret (event_json :: rest)
      end
  end.
Definition drain_offline_queue (user_id session_id : string) : Rm (list string) :=
  messages ← drain_read (queue_key user_id session_id);
  drain_delete (queue_key user_id session_id) messages;;
  filter_purged ∅ messages.
Definition get_queue_depth (user_id session_id : string) : Rm Z :=
  b_connect;; b_llen (queue_key user_id session_id).

(** *** Relaying *)

(** Queues the event for the sessions that are not connected, counts the others. *)
Fixpoint relay_sessions (now : Z) (sender_id recipient_id event_json : string)
    (sessions : list (string * DeviceEntry)) : Rm Z :=
  match sessions with
  | [] => mret 0
  | (sid, entry) :: sessions =>
      here ← (if is_online now entry then mret 1
              else ignore_err (queue_offline_message sender_id recipient_id sid event_json);; mret 0);
      rest ← relay_sessions now sender_id recipient_id event_json sessions;
      mret (here + rest)
  end.
Fixpoint relay_recipients (now : Z) (sender_id event_json : string) (recipients : list string) : Rm Z :=
  match recipients with
  | [] => mret 0
  | recipient_id :: recipients =>
      here ← (if String.eqb recipient_id sender_id then mret 0
              else sessions ← unwrap_or [] (list_known_sessions now recipient_id);
                   relay_sessions now sender_id recipient_id event_json sessions);
      rest ← relay_recipients now sender_id event_json recipients;
      mret (here + rest)
  end.

(** *** The queue between the devices of a user *)

Definition sync_check (rate_count depth : Z) : Result unit :=
  if SYNC_RATE_LIMIT_PER_HOUR <? rate_count then
    Err (ErrorType.FailedValidation "Sync rate limit exceeded. Try again later.")
  else if SYNC_MAX_ENVELOPES_PER_QUEUE <=? depth then
    Err (ErrorType.FailedValidation "Destination sync queue is full.")
  else Ok tt.
Definition sync_read (user_id source_session_id dest_session_id : string) : Rm (Z * Z) :=
  also (b_incr (sync_rate_key user_id source_session_id)) (b_llen (sync_queue_key user_id dest_session_id)).
Definition sync_write (user_id source_session_id dest_session_id envelope : string)
    (rate_count depth : Z) : Rm unit :=
  pipeline ((if rate_count =? 1
             then [b_expire (sync_rate_key user_id source_session_id) SYNC_RATE_LIMIT_WINDOW_SECONDS] else [])
         ++ [b_rpush (sync_queue_key user_id dest_session_id) envelope]
         ++ (if depth =? 0
             then [b_expire (sync_queue_key user_id dest_session_id) SYNC_QUEUE_TTL_SECONDS] else [])).
Definition push_sync_envelope (user_id source_session_id dest_session_id envelope : string) : Rm unit :=
  if SYNC_MAX_ENVELOPE_BYTES <? Z.of_nat (String.length envelope) then
    throw (ErrorType.FailedValidation "Sync envelope exceeds maximum size.")
  else
    b_connect;;
    '(rate_count, depth) ← sync_read user_id source_session_id dest_session_id;
    lift_outcome (sync_check rate_count depth);;
    sync_write user_id source_session_id dest_session_id envelope rate_count depth.
Definition drain_sync_envelopes (user_id dest_session_id : string) : Rm (list string) :=
  envelopes ← drain_read (sync_queue_key user_id dest_session_id);
  drain_delete (sync_queue_key user_id dest_session_id) envelopes;;
  mret envelopes.
Definition get_sync_queue_depth (user_id dest_session_id : string) : Rm Z :=
  b_connect;; b_llen (sync_queue_key user_id dest_session_id).

(** *** The list of devices *)

Definition list_user_devices (now : Z) (user_id : string) : Rm (list DeviceInfo) :=
  sessions ← list_known_sessions now user_id;
  mret (sort_by (cmp_desc di_last_seen_unix) (map (fun '(sid, entry) =>
    {| di_session_id := sid; di_node_id := de_node_id entry; di_connected_at := de_connected_at entry;
       di_last_seen_unix := de_last_seen_unix entry; di_is_online := is_online now entry |}) sessions)).
Definition forget_device (user_id session_id : string) : Rm unit :=
  b_connect;;
  b_hdel (devices_key user_id) session_id;;
  b_del (queue_key user_id session_id);;
  b_del (sync_queue_key user_id session_id).
End Broker.

(** [relay_dm_message], with the events that are published *)
Record Relay (R : Type) := {
  rl_redis : R;
  rl_events : list (string * EventV1) }.
Arguments rl_redis {R}.
Arguments rl_events {R}.
Arguments Build_Relay {R}.

Definition relay_dm_message {R} `{BrokerRedis R} `{HashOrder} `{BrokerJson} (now : Z)
    (channel_id sender_id : string) (recipients : list string) (message_event : EventV1)
    : M ErrorType (Relay R) Z := fun s =>
  match event_to_json message_event with
  | None => (Err ErrorType.InternalError, s)
  | Some event_json =>
      let '(count, r) := relay_recipients now sender_id event_json recipients (rl_redis s) in
      match count with
      | Ok online_count =>
          (Ok online_count, {| rl_redis := r; rl_events := rl_events s ++ [(channel_id, message_event)] |})
      | Err e => (Err e, {| rl_redis := r; rl_events := rl_events s |})
      | Panicked => (Panicked, {| rl_redis := r; rl_events := rl_events s |})
      end
  end.

(** ** What Redis does *)

Module BrokerValue.
Inductive BrokerValue : Type :=
| Int (n : Z)
| Hash (h : gmap string string)
| List (l : list string).
End BrokerValue.
Abbreviation BrokerValue := BrokerValue.BrokerValue.

(** A value, and the seconds it has left if it expires. *)
Record KeyState := {
  ks_value : BrokerValue;
  ks_ttl : option Z }.
Abbreviation Store := (gmap string KeyState).

Definition int_at (m : Store) (k : string) : Z :=
  match m !! k with Some {| ks_value := BrokerValue.Int n |} => n | _ => 0 end.
Definition hash_at (m : Store) (k : string) : gmap string string :=
  match m !! k with Some {| ks_value := BrokerValue.Hash h |} => h | _ => ∅ end.
Definition list_at (m : Store) (k : string) : list string :=
  match m !! k with Some {| ks_value := BrokerValue.List l |} => l | _ => [] end.

(** A value in place of another leaves the seconds as they are. *)
Definition put_value (k : string) (v : BrokerValue) (m : Store) : Store :=
  <[k := {| ks_value := v; ks_ttl := m !! k ≫= ks_ttl |}]> m.

(** A command on a key of another type fails. *)
Definition on_int {A} (k : string) (f : option Z -> Result (A * option Z)) : M ErrorType Store A := fun m =>
  match (match m !! k with
         | None => f None
         | Some {| ks_value := BrokerValue.Int n |} => f (Some n)
         | _ => Err ErrorType.InternalError
         end) with
  | Ok (a, Some n) => (Ok a, put_value k (BrokerValue.Int n) m)
  | Ok (a, None) => (Ok a, m)
  | Err e => (Err e, m)
  | Panicked => (Panicked, m)
  end.
Definition on_hash {A} (k : string) (f : gmap string string -> A * option (gmap string string))
    : M ErrorType Store A := fun m =>
  match m !! k with
  | None | Some {| ks_value := BrokerValue.Hash _ |} =>
      match f (hash_at m k) with
      | (a, Some h) => (Ok a, if decide (h = ∅) then delete k m else put_value k (BrokerValue.Hash h) m)
      | (a, None) => (Ok a, m)
      end
  | _ => (Err ErrorType.InternalError, m)
  end.
Definition on_list {A} (k : string) (f : list string -> A * option (list string)) : M ErrorType Store A := fun m =>
  match m !! k with
  | None | Some {| ks_value := BrokerValue.List _ |} =>
      match f (list_at m k) with
      | (a, Some l) => (Ok a, put_value k (BrokerValue.List l) m)
      | (a, None) => (Ok a, m)
      end
  | _ => (Err ErrorType.InternalError, m)
  end.
Definition aged (d : Z) (s : KeyState) : option KeyState :=
  match ks_ttl s with
  | None => Some s
  | Some t => if d <? t then Some {| ks_value := ks_value s; ks_ttl := Some (t - d) |} else None
  end.

#[export] Instance store_broker : BrokerRedis Store := {|
  b_connect := mret tt;
  b_get k := on_int k (fun n => Ok (n, None));
  b_set k n := modify (<[k := {| ks_value := BrokerValue.Int n; ks_ttl := None |}]>);
  b_incr k := on_int k (fun n => let n := default 0 n + 1 in
                                 if i64_max <? n then Err ErrorType.InternalError else Ok (n, Some n));
  b_del k := modify (delete k);
  b_expire k t := modify (alter (fun s => {| ks_value := ks_value s; ks_ttl := Some t |}) k);
  b_hset k f v := on_hash k (fun h => (tt, Some (<[f := v]> h)));
  b_hget k f := on_hash k (fun h => (h !! f, None));
  b_hdel k f := on_hash k (fun h => (tt, Some (delete f h)));
  b_hgetall k := on_hash k (fun h => (h, None));
  b_llen k := on_list k (fun l => (Z.of_nat (length l), None));
  b_lrange k := on_list k (fun l => (l, None));
  b_rpush k v := on_list k (fun l => (tt, Some (l ++ [v])));
  b_elapse d := modify (omap (aged d)) |}.

(** *** Simulation *)

(** A computation does to the server what another does to its keys. *)
Definition sim {R A} (keys : R -> Store) (m : M ErrorType R A) (m' : M ErrorType Store A) : Prop :=
  forall r, (m r).1 = (m' (keys r)).1 /\ keys (m r).2 = (m' (keys r)).2.

(** Redis within reach, as documented. *)
Class BrokerRedisLaws (R : Type) `{BrokerRedis R} := {
  keys : R -> Store;
  connect_sim : sim keys b_connect b_connect;
  get_sim : forall k, sim keys (b_get k) (b_get k);
  set_sim : forall k n, sim keys (b_set k n) (b_set k n);
  incr_sim : forall k, sim keys (b_incr k) (b_incr k);
  del_sim : forall k, sim keys (b_del k) (b_del k);
  expire_sim : forall k t, sim keys (b_expire k t) (b_expire k t);
  hset_sim : forall k f v, sim keys (b_hset k f v) (b_hset k f v);
  hget_sim : forall k f, sim keys (b_hget k f) (b_hget k f);
  hdel_sim : forall k f, sim keys (b_hdel k f) (b_hdel k f);
  hgetall_sim : forall k, sim keys (b_hgetall k) (b_hgetall k);
  llen_sim : forall k, sim keys (b_llen k) (b_llen k);
  lrange_sim : forall k, sim keys (b_lrange k) (b_lrange k);
  rpush_sim : forall k v, sim keys (b_rpush k v) (b_rpush k v);
  elapse_sim : forall d, sim keys (b_elapse d) (b_elapse d) }.

(** A command of a server that may be out of reach: it answers what it does on the
    keys, or fails, carried out or not. *)
Definition may_fail {R A} (keys : R -> Store) (m : M ErrorType R A) (m' : M ErrorType Store A) : Prop :=
  forall r, (m r).1 = (m' (keys r)).1 /\ keys (m r).2 = (m' (keys r)).2
         \/ exists e, (m r).1 = Err e /\ (keys (m r).2 = keys r \/ keys (m r).2 = (m' (keys r)).2).

(** Redis that may be out of reach at any command. *)
Class BrokerRedisFallible (R : Type) `{BrokerRedis R} := {
  keys_held : R -> Store;
  connect_may : may_fail keys_held b_connect b_connect;
  get_may : forall k, may_fail keys_held (b_get k) (b_get k);
  set_may : forall k n, may_fail keys_held (b_set k n) (b_set k n);
  incr_may : forall k, may_fail keys_held (b_incr k) (b_incr k);
  del_may : forall k, may_fail keys_held (b_del k) (b_del k);
  expire_may : forall k t, may_fail keys_held (b_expire k t) (b_expire k t);
  hset_may : forall k f v, may_fail keys_held (b_hset k f v) (b_hset k f v);
  hget_may : forall k f, may_fail keys_held (b_hget k f) (b_hget k f);
  hdel_may : forall k f, may_fail keys_held (b_hdel k f) (b_hdel k f);
  hgetall_may : forall k, may_fail keys_held (b_hgetall k) (b_hgetall k);
  llen_may : forall k, may_fail keys_held (b_llen k) (b_llen k);
  lrange_may : forall k, may_fail keys_held (b_lrange k) (b_lrange k);
  rpush_may : forall k v, may_fail keys_held (b_rpush k v) (b_rpush k v) }.

Create HintDb sim.
#[export] Hint Resolve connect_sim get_sim set_sim incr_sim del_sim expire_sim hset_sim hget_sim hdel_sim
  hgetall_sim llen_sim lrange_sim rpush_sim elapse_sim : sim.

Section Simulation.
Context {R : Type} (keys : R -> Store).

Lemma sim_ret {A} (a : A) : sim keys (mret a) (mret a).
Proof. done. Qed.
Lemma sim_throw {A} e : sim keys (throw e : M ErrorType R A) (throw e).
Proof. done. Qed.
Lemma sim_lift {A} (o : Result A) : sim keys (lift_outcome o) (lift_outcome o).
Proof. done. Qed.
Lemma sim_bind {A B} (m : M ErrorType R A) m' (f : A -> M ErrorType R B) f' :
  sim keys m m' -> (forall a, sim keys (f a) (f' a)) -> sim keys (mbind f m) (mbind f' m').
Proof.
  intros Hm Hf r. unfold mbind, M_bind. specialize (Hm r).
  destruct (m r) as [[a|e|] r1], (m' (keys r)) as [[a'|e'|] m1]; simpl in Hm; destruct Hm; simplify_eq; try done.
  apply Hf.
Qed.
Lemma sim_ignore {A} (m : M ErrorType R A) m' : sim keys m m' -> sim keys (ignore_err m) (ignore_err m').
Proof.
  intros Hm r. unfold ignore_err. specialize (Hm r).
  destruct (m r) as [[a|e|] r1], (m' (keys r)) as [[a'|e'|] m1]; simpl in Hm; by destruct Hm.
Qed.
Lemma sim_unwrap_or {A} (d : A) (m : M ErrorType R A) m' : sim keys m m' -> sim keys (unwrap_or d m) (unwrap_or d m').
Proof.
  intros Hm r. unfold unwrap_or. specialize (Hm r).
  destruct (m r) as [[a|e|] r1], (m' (keys r)) as [[a'|e'|] m1]; simpl in Hm; by destruct Hm.
Qed.
Lemma sim_also {A B} (m : M ErrorType R A) m' (n : M ErrorType R B) n' :
  sim keys m m' -> sim keys n n' -> sim keys (also m n) (also m' n').
Proof.
  intros Hm Hn r. unfold also. specialize (Hm r).
  destruct (m r) as [a r1], (m' (keys r)) as [a' m1]; simpl in Hm; destruct Hm as [<- <-].
  specialize (Hn r1). destruct (n r1) as [b r2], (n' (keys r1)) as [b' m2]; simpl in Hn. by destruct Hn as [<- <-].
Qed.
Lemma sim_pipeline (cs : list (M ErrorType R unit)) cs' :
  Forall2 (sim keys) cs cs' -> sim keys (pipeline cs) (pipeline cs').
Proof.
  induction 1 as [|c c' cs cs' Hc _ IH]; [done|]. intros r. simpl. specialize (Hc r).
  destruct (c r) as [[[]|e|] r1], (c' (keys r)) as [[[]|e'|] m1]; simpl in Hc; destruct Hc; simplify_eq; try done.
  specialize (IH r1). destruct (pipeline cs r1) as [[?|?|] r2], (pipeline cs' (keys r1)) as [[?|?|] m2];
      simpl in IH; destruct IH; by simplify_eq.
Qed.
End Simulation.

#[export] Hint Resolve sim_ret sim_throw sim_lift sim_ignore sim_unwrap_or sim_also : sim.

Ltac sims :=
  repeat (match goal with
          | |- sim _ (mbind _ _) _ => apply sim_bind; [|intros ?]
          | |- sim _ (ignore_err _) _ => apply sim_ignore
          | |- sim _ (unwrap_or _ _) _ => apply sim_unwrap_or
          | |- sim _ (also _ _) _ => apply sim_also
          | |- sim _ (pipeline _) _ => apply sim_pipeline
          | |- sim _ (match ?x with _ => _ end) _ => destruct x
          | |- Forall2 _ ((if ?b then _ else _) ++ _) _ => apply Forall2_app; [destruct b|]
          | |- Forall2 _ (_ ++ _) _ => apply Forall2_app
          | |- Forall2 _ (if ?b then _ else _) _ => destruct b
          | |- Forall2 _ [] _ => constructor
          | |- Forall2 _ (_ :: _) _ => constructor
          end; auto with sim); auto with sim.

(** ** Calls *)

(** One call of the broker, or the time that passes. *)
Module BrokerCall.
Inductive BrokerCall : Type :=
| Register (now : Z) (timestamp user_id node_id session_id : string)
| Unregister (user_id session_id : string)
| Refresh (now : Z) (user_id session_id : string)
| ListDevices (now : Z) (user_id : string)
| Queue (sender_id recipient_id session_id message_event : string)
| Drain (user_id session_id : string)
| PushSync (user_id source_session_id dest_session_id envelope : string)
| DrainSync (user_id session_id : string)
| Forget (user_id session_id : string)
| SetEpoch (channel_id : string) (epoch : Z)
| Elapse (seconds : Z).
End BrokerCall.
Abbreviation BrokerCall := BrokerCall.BrokerCall.

Section Calls.
Context {R : Type} `{BrokerRedis R} `{HashOrder} `{BrokerJson}.

Definition perform (c : BrokerCall) : M ErrorType R unit :=
  match c with
  | BrokerCall.Register now timestamp user_id node_id session_id =>
      register_user now timestamp user_id node_id session_id
  | BrokerCall.Unregister user_id session_id => unregister_user user_id session_id
  | BrokerCall.Refresh now user_id session_id => refresh_user_ttl now user_id session_id
  | BrokerCall.ListDevices now user_id => _ ← list_user_devices now user_id; mret tt
  | BrokerCall.Queue sender_id recipient_id session_id message_event =>
      queue_offline_message sender_id recipient_id session_id message_event
  | BrokerCall.Drain user_id session_id => _ ← drain_offline_queue user_id session_id; mret tt
  | BrokerCall.PushSync user_id source_session_id dest_session_id envelope =>
      push_sync_envelope user_id source_session_id dest_session_id envelope
  | BrokerCall.DrainSync user_id session_id => _ ← drain_sync_envelopes user_id session_id; mret tt
  | BrokerCall.Forget user_id session_id => forget_device user_id session_id
  | BrokerCall.SetEpoch channel_id epoch => set_channel_epoch_cached channel_id epoch
  | BrokerCall.Elapse seconds => b_elapse seconds
  end.

(** The state after some calls, whatever they answered. *)
Definition performed (cs : list BrokerCall) (r : R) : R := foldl (fun r c => (perform c r).2) r cs.
End Calls.

Section Simulated.
Context {R : Type} `{RL : BrokerRedisLaws R} `{HO : HashOrder} `{BJ : BrokerJson}.

Lemma drop_device_sim user sid : sim keys (drop_device user sid) (drop_device user sid).
Proof. unfold drop_device. sims. Qed.
Hint Resolve drop_device_sim : sim.
Lemma evict_sim user session sids : sim keys (evict user session sids) (evict user session sids).
Proof. induction sids; simpl; sims. Qed.
Lemma prune_sim user sids : sim keys (prune user sids) (prune user sids).
Proof. induction sids; simpl; sims. Qed.
Hint Resolve evict_sim prune_sim : sim.
Lemma filter_purged_sim cache messages : sim keys (filter_purged cache messages) (filter_purged cache messages).
Proof.
  revert cache. induction messages as [|msg messages IH]; intros cache; simpl; [sims|].
  destruct (extract_envelope_epoch msg) as [[channel epoch]|]; unfold get_channel_epoch_cached; sims.
Qed.
Hint Resolve filter_purged_sim : sim.
Lemma list_known_sessions_sim now user : sim keys (list_known_sessions now user) (list_known_sessions now user).
Proof. unfold list_known_sessions. sims. Qed.
Hint Resolve list_known_sessions_sim : sim.
Lemma queue_sim sender recipient sid msg :
  sim keys (queue_offline_message sender recipient sid msg) (queue_offline_message sender recipient sid msg).
Proof. unfold queue_offline_message, queue_read, queue_write. sims. Qed.
Lemma drain_sim user sid : sim keys (drain_offline_queue user sid) (drain_offline_queue user sid).
Proof. unfold drain_offline_queue, drain_read, drain_delete. sims. Qed.
Lemma register_sim now ts user node sid :
  sim keys (register_user now ts user node sid) (register_user now ts user node sid).
Proof. unfold register_user. sims. Qed.
Lemma push_sync_sim user source dest envelope :
  sim keys (push_sync_envelope user source dest envelope) (push_sync_envelope user source dest envelope).
Proof. unfold push_sync_envelope, sync_read, sync_write. sims. Qed.
Lemma drain_sync_sim user sid : sim keys (drain_sync_envelopes user sid) (drain_sync_envelopes user sid).
Proof. unfold drain_sync_envelopes, drain_read, drain_delete. sims. Qed.
Lemma set_epoch_sim channel epoch :
  sim keys (set_channel_epoch_cached channel epoch) (set_channel_epoch_cached channel epoch).
Proof. unfold set_channel_epoch_cached. sims. Qed.
Hint Resolve queue_sim drain_sim register_sim push_sync_sim drain_sync_sim set_epoch_sim : sim.

(** Every call does to the server what it does to the keys. *)
Lemma perform_sim c : sim keys (perform c) (perform c).
Proof.
  destruct c; simpl; auto with sim; unfold unregister_user, refresh_user_ttl, list_user_devices,
    forget_device; sims.
Qed.

Lemma performed_keys cs r : keys (performed cs r) = performed cs (keys r).
Proof.
  revert r. induction cs as [|c cs IH]; intros r; [done|].
  change (keys (performed cs (perform c r).2) = performed cs (perform c (keys r)).2).
  rewrite IH. by destruct (perform_sim c r) as [_ ->].
Qed.
End Simulated.

(** ** Properties of the store *)

(** *** What commands keep *)

Definition preserves {S A} (P : S -> Prop) (m : M ErrorType S A) : Prop := forall s, P s -> P (m s).2.

Create HintDb preserves.

Section Keeps.
Context {S : Type} (P : S -> Prop).

Lemma preserves_ret {A} (a : A) : preserves P (mret a).
Proof. by intros s. Qed.
Lemma preserves_throw {A} e : preserves P (throw e : M ErrorType S A).
Proof. by intros s. Qed.
Lemma preserves_lift {A} (o : Result A) : preserves P (lift_outcome o).
Proof. by intros s. Qed.
Lemma preserves_bind {A B} (m : M ErrorType S A) (f : A -> M ErrorType S B) :
  preserves P m -> (forall a, preserves P (f a)) -> preserves P (mbind f m).
Proof.
  intros Hm Hf s Hs. unfold mbind, M_bind. specialize (Hm s Hs).
  destruct (m s) as [[a|e|] s1]; simpl in *; [by apply Hf|done..].
Qed.
Lemma preserves_ignore {A} (m : M ErrorType S A) : preserves P m -> preserves P (ignore_err m).
Proof. intros Hm s Hs. unfold ignore_err. specialize (Hm s Hs). by destruct (m s) as [[a|e|] s1]. Qed.
Lemma preserves_unwrap_or {A} (d : A) (m : M ErrorType S A) : preserves P m -> preserves P (unwrap_or d m).
Proof. intros Hm s Hs. unfold unwrap_or. specialize (Hm s Hs). by destruct (m s) as [[a|e|] s1]. Qed.
Lemma preserves_also {A B} (m : M ErrorType S A) (n : M ErrorType S B) : preserves P m -> preserves P n -> preserves P (also m n).
Proof.
  intros Hm Hn s Hs. unfold also. specialize (Hm s Hs). destruct (m s) as [a s1]. simpl in Hm.
  specialize (Hn s1 Hm). by destruct (n s1) as [b s2].
Qed.
Lemma preserves_pipeline (cs : list (M ErrorType S unit)) : Forall (preserves P) cs -> preserves P (pipeline cs).
Proof.
  induction 1 as [|c cs Hc _ IH]; [apply preserves_ret|]. intros s Hs. simpl. specialize (Hc s Hs).
  destruct (c s) as [[[]|e|] s1]; simpl in Hc; [by apply IH| |done].
  specialize (IH s1 Hc). by destruct (pipeline cs s1) as [[?|?|] s2].
Qed.
End Keeps.
#[export] Hint Resolve preserves_ret preserves_throw preserves_lift preserves_bind preserves_ignore preserves_unwrap_or preserves_also
  preserves_pipeline : preserves.

Ltac preserve_all :=
  repeat (match goal with
          | |- preserves _ (mbind _ _) => apply preserves_bind; [|intros ?]
          | |- preserves _ (ignore_err _) => apply preserves_ignore
          | |- preserves _ (unwrap_or _ _) => apply preserves_unwrap_or
          | |- preserves _ (also _ _) => apply preserves_also
          | |- preserves _ (pipeline _) => apply preserves_pipeline
          | |- preserves _ (match ?x with _ => _ end) => destruct x
          | |- Forall _ (_ ++ _) => apply Forall_app_2
          | |- Forall _ (if ?b then _ else _) => destruct b
          | |- Forall _ [] => constructor
          | |- Forall _ (_ :: _) => constructor
          end; auto with preserves); auto with preserves.

(** A command works on one key. *)
Definition only_at {A} (k : string) (m : M ErrorType Store A) : Prop :=
  forall s k', k' <> k -> (m s).2 !! k' = s !! k'.

Lemma on_int_at {A} k (f : option Z -> Result (A * option Z)) : only_at k (on_int k f).
Proof.
  intros s k' Hk. unfold on_int. destruct (match s !! k with None => f None | _ => _ end) as [[a [n|]]|e|]; simpl;
    [by apply lookup_insert_ne|done..].
Qed.
Lemma on_hash_at {A} k (f : gmap string string -> A * option (gmap string string)) : only_at k (on_hash k f).
Proof.
  intros s k' Hk. unfold on_hash. destruct (s !! k) as [[[n|h|l] ttl]|]; try done;
    destruct (f _) as [a [h'|]]; try done; case_decide; simpl;
    [by apply lookup_delete_ne|by apply lookup_insert_ne|by apply lookup_delete_ne|by apply lookup_insert_ne].
Qed.
Lemma on_list_at {A} k (f : list string -> A * option (list string)) : only_at k (on_list k f).
Proof.
  intros s k' Hk. unfold on_list. destruct (s !! k) as [[[n|h|l] ttl]|]; try done;
    destruct (f _) as [a [h'|]]; try done; by apply lookup_insert_ne.
Qed.

Section At.
Context (k0 : string) (v : option KeyState).
Local Abbreviation still := (fun s : Store => s !! k0 = v).

Lemma preserves_at {A} k (m : M ErrorType Store A) : only_at k m -> k <> k0 -> preserves still m.
Proof. intros Hm Hk s Hs. rewrite Hm by done. done. Qed.
Lemma at_connect : preserves still b_connect.
Proof. by intros s. Qed.
Lemma at_get k : preserves still (b_get k).
Proof.
  intros s Hs. simpl. unfold on_int. destruct (s !! k) as [[[n|h|l] ttl]|]; done.
Qed.
Lemma at_set k n : k <> k0 -> preserves still (b_set k n).
Proof. intros Hk s Hs. simpl. by rewrite lookup_insert_ne. Qed.
Lemma at_incr k : k <> k0 -> preserves still (b_incr k).
Proof. apply preserves_at, on_int_at. Qed.
Lemma at_del k : k <> k0 -> preserves still (b_del k).
Proof. intros Hk s Hs. simpl. by rewrite lookup_delete_ne. Qed.
Lemma at_expire k t : k <> k0 -> preserves still (b_expire k t).
Proof. intros Hk s Hs. simpl. by rewrite lookup_alter_ne. Qed.
Lemma at_hset k f x : k <> k0 -> preserves still (b_hset k f x).
Proof. apply preserves_at, on_hash_at. Qed.
Lemma at_hget k f : k <> k0 -> preserves still (b_hget k f).
Proof. apply preserves_at, on_hash_at. Qed.
Lemma at_hdel k f : k <> k0 -> preserves still (b_hdel k f).
Proof. apply preserves_at, on_hash_at. Qed.
Lemma at_hgetall k : k <> k0 -> preserves still (b_hgetall k).
Proof. apply preserves_at, on_hash_at. Qed.
Lemma at_llen k : k <> k0 -> preserves still (b_llen k).
Proof. apply preserves_at, on_list_at. Qed.
Lemma at_lrange k : k <> k0 -> preserves still (b_lrange k).
Proof. apply preserves_at, on_list_at. Qed.
Lemma at_rpush k x : k <> k0 -> preserves still (b_rpush k x).
Proof. apply preserves_at, on_list_at. Qed.
End At.
#[export] Hint Resolve at_connect at_get at_set at_incr at_del at_expire at_hset at_hget at_hdel at_hgetall
  at_llen at_lrange at_rpush : preserves.

(** Keys of different kinds differ. *)
Ltac keys_differ := solve [intros [=]].
#[export] Hint Extern 1 (_ <> rate_key _ _) => keys_differ : preserves.
#[export] Hint Extern 1 (_ <> devices_key _) => keys_differ : preserves.

#[export] Hint Extern 1 (_ <> channel_epoch_key _) => keys_differ : preserves.

(** Calls leave alone what is neither a queue, a device nor a counter of envelopes. *)
Section Untouched.
Context `{HO : HashOrder} `{BJ : BrokerJson} (k0 : string).
Context (Hdevices : forall user, devices_key user <> k0) (Hqueue : forall user sid, queue_key user sid <> k0)
        (Hsync : forall user sid, sync_queue_key user sid <> k0)
        (Hrate : forall user sid, sync_rate_key user sid <> k0).
Local Abbreviation still v := (fun m : Store => m !! k0 = v).
Hint Resolve Hdevices Hqueue Hsync Hrate : preserves.

Lemma at_drop v user sid : preserves (still v) (drop_device user sid).
Proof. unfold drop_device. preserve_all. Qed.
Hint Resolve at_drop : preserves.
Lemma at_evict v user session sids : preserves (still v) (evict user session sids).
Proof. induction sids; simpl; preserve_all. Qed.
Lemma at_prune v user sids : preserves (still v) (prune user sids).
Proof. induction sids; simpl; preserve_all. Qed.
Lemma at_filter_purged v cache messages : preserves (still v) (filter_purged cache messages).
Proof.
  revert cache. induction messages as [|msg messages IH]; intros cache; simpl; [preserve_all|].
  destruct (extract_envelope_epoch msg) as [[channel epoch]|]; unfold get_channel_epoch_cached; preserve_all.
Qed.
Hint Resolve at_evict at_prune at_filter_purged : preserves.

Lemma at_untouched v c :
  match c with BrokerCall.Queue _ _ _ _ | BrokerCall.SetEpoch _ _ | BrokerCall.Elapse _ => False | _ => True end ->
  preserves (still v) (perform c).
Proof.
  destruct c; intros Hc; try done; simpl; unfold register_user, unregister_user, refresh_user_ttl,
    list_user_devices, list_known_sessions, drain_offline_queue, drain_sync_envelopes, drain_read, drain_delete,
    push_sync_envelope, sync_read, sync_write, forget_device; preserve_all.
Qed.
End Untouched.

Section Rates.
Context `{HO : HashOrder} `{BJ : BrokerJson} (s t : string).

(** Calls that are neither messages nor time leave the counters alone. *)
Lemma at_perform v c :
  match c with BrokerCall.Queue _ _ _ _ | BrokerCall.Elapse _ => False | _ => True end ->
  preserves (fun m : Store => m !! rate_key s t = v) (perform c).
Proof.
  destruct c; intros Hc; try done; try (apply at_untouched; [intros; keys_differ..|done]).
  simpl. unfold set_channel_epoch_cached. preserve_all.
Qed.
End Rates.

(** The cached epoch of a channel stays until it is set again. *)
Definition caches_epoch (channel_id : string) (n : Z) (m : Store) : Prop :=
  m !! channel_epoch_key channel_id = Some {| ks_value := BrokerValue.Int n; ks_ttl := None |}.
Lemma perform_caches_epoch `{HO : HashOrder} `{BJ : BrokerJson} channel_id n c :
  (forall epoch, c <> BrokerCall.SetEpoch channel_id epoch) -> preserves (caches_epoch channel_id n) (perform c).
Proof.
  unfold caches_epoch. intros Hc.
  destruct c; try (apply at_untouched; [intros; keys_differ..|done]); simpl.
  - unfold queue_offline_message, queue_read, queue_write. preserve_all.
  - unfold set_channel_epoch_cached. apply preserves_bind; [apply at_connect|]. intros [].
    apply at_set. intros Hk. unfold channel_epoch_key in Hk. 
    assert (channel_id0 = channel_id) as -> by (by injection Hk). by apply (Hc epoch).
  - intros m Hm. simpl. by rewrite lookup_omap, Hm.
Qed.
Lemma performed_caches_epoch `{HO : HashOrder} `{BJ : BrokerJson} channel_id n cs (m : Store) :
  (forall epoch, BrokerCall.SetEpoch channel_id epoch ∉ cs) -> caches_epoch channel_id n m ->
  caches_epoch channel_id n (performed cs m).
Proof.
  revert m. induction cs as [|c cs IH]; intros m Hc Hm; [done|]. simpl. apply IH.
  - intros epoch Hin. apply (Hc epoch). by right.
  - apply perform_caches_epoch; [|done]. intros epoch ->. apply (Hc epoch). by left.
Qed.

(** *** Counters *)

Section Counters.
Context `{HO : HashOrder} `{BJ : BrokerJson}.

Lemma incr_at k : only_at k (b_incr k : M ErrorType Store Z).
Proof. apply on_int_at. Qed.
Lemma rpush_at k x : only_at k (b_rpush k x : M ErrorType Store unit).
Proof. apply on_list_at. Qed.

(** A counter that is read after it was incremented, or an error that changes nothing. *)
Lemma incr_run k (m : Store) :
  (exists n, b_incr k m = (Ok n, put_value k (BrokerValue.Int n) m) /\ n = int_at m k + 1
             /\ match m !! k with None => True | Some st => exists n', ks_value st = BrokerValue.Int n' end)
  \/ b_incr k m = (Err ErrorType.InternalError, m).
Proof.
  unfold int_at. simpl. unfold on_int. destruct (m !! k) as [[[n|h|l] ttl]|] eqn:E; simpl; [|by right..|].
  - destruct (i64_max <? n + 1); [by right|]. left. exists (n + 1). split_and!; [done..|by exists n].
  - left. by exists 1.
Qed.

Lemma int_at_put m k n k' :
  int_at (put_value k (BrokerValue.Int n) m) k' = if decide (k' = k) then n else int_at m k'.
Proof.
  unfold int_at, put_value. destruct (decide (k' = k)) as [->|];
    [by rewrite lookup_insert_eq|by rewrite lookup_insert_ne].
Qed.

(** A pipeline that starts with an expiry, and one that pushes. *)
Lemma pipeline_expire (b : bool) k t cs (m : Store) :
  pipeline ((if b then [b_expire k t] else []) ++ cs) m = pipeline cs (if b then (b_expire k t m).2 else m).
Proof. by destruct b. Qed.
Lemma pipeline_push (b : bool) k x k' t (m : Store) :
  pipeline ([b_rpush k x] ++ (if b then [b_expire k' t] else [])) m
  = ((b_rpush k x m).1, if b then (b_expire k' t (b_rpush k x m).2).2 else (b_rpush k x m).2).
Proof.
  simpl. unfold on_list. destruct (m !! k) as [[[n|h|l] ttl]|], b; done.
Qed.
Lemma llen_run k (m : Store) depth m' :
  b_llen k m = (depth, m') -> m' = m /\ (depth = Ok (Z.of_nat (length (list_at m k))) \/ exists e, depth = Err e).
Proof.
  simpl. unfold on_list. destruct (m !! k) as [[[n|h|l] ttl]|] eqn:E; simpl; intros [= <- <-]; eauto.
Qed.

(** What queueing a message does: it is too long; or the counters go up and it is
    refused; or the counters go up, some may get their expiry, and it is pushed. *)
Lemma queue_inv s t sid msg (m m' : Store) r :
  queue_offline_message s t sid msg m = (r, m') ->
  let m1 := (b_incr (global_rate_key s) m).2 in
  let m2 := (b_incr (rate_key s t) m1).2 in
  let qk := queue_key t sid in
  (m' = m /\ exists e, r = Err e)
  \/ (m' = m2 /\ exists e, r = Err e)
  \/ exists gc pc, (b_incr (global_rate_key s) m).1 = Ok gc /\ (b_incr (rate_key s t) m1).1 = Ok pc
       /\ queue_check gc pc (Z.of_nat (length (list_at m2 qk))) = Ok tt
       /\ Z.of_nat (String.length msg) <= OFFLINE_QUEUE_MAX_MESSAGE_BYTES
       /\ let m3 := if gc =? 1 then (b_expire (global_rate_key s) RATE_LIMIT_WINDOW_SECONDS m2).2 else m2 in
          let m4 := if pc =? 1 then (b_expire (rate_key s t) RATE_LIMIT_WINDOW_SECONDS m3).2 else m3 in
          let m5 := (b_rpush qk msg m4).2 in
          r = (b_rpush qk msg m4).1
          /\ m' = if Z.of_nat (length (list_at m2 qk)) =? 0 then (b_expire qk OFFLINE_QUEUE_TTL_SECONDS m5).2 else m5.
Proof.
  intros E m1 m2 qk.
  unfold queue_offline_message in E.
  destruct (Z.ltb_spec OFFLINE_QUEUE_MAX_MESSAGE_BYTES (Z.of_nat (String.length msg))) as [Hl|Hl].
  { injection E as <- <-. left. split; [done|by eexists]. }
  right. erewrite M_bind_ok in E by reflexivity.
  unfold queue_read, also in E. unfold mbind at 1, M_bind at 1 in E. subst m2 m1 qk.
  destruct (b_incr (global_rate_key s) m) as [gr m1] eqn:E1. cbn [fst snd] in E |- *.
  destruct (b_incr (rate_key s t) m1) as [pr m2] eqn:E2. cbn [fst snd] in E |- *.
  destruct (b_llen (queue_key t sid) m2) as [dr m3] eqn:E3. apply llen_run in E3 as [-> Hd].
  assert (forall k q n n', b_incr k q = (n, n') -> n <> Panicked) as Hp.
  { intros k q n n' Ei. destruct (incr_run k q) as [(x & Ex & _)|Ex]; rewrite Ex in Ei; by injection Ei as <- <-. }
  pose proof (Hp _ _ _ _ E1) as Hp1. pose proof (Hp _ _ _ _ E2) as Hp2.
  destruct gr as [gc|e|]; [|injection E as <- <-; left; split; [done|by eexists]|done].
  destruct pr as [pc|e|]; [|injection E as <- <-; left; split; [done|by eexists]|done].
  destruct Hd as [->|[e ->]]; [|injection E as <- <-; left; split; [done|by eexists]].
  cbn [mbind outcome_bind mret] in E. unfold lift_outcome in E.
  destruct (queue_check gc pc (Z.of_nat (length (list_at m2 (queue_key t sid))))) as [[]|e|] eqn:Ec.
  - right. exists gc, pc. split_and!; [done..|exact Hl| |].
    + erewrite M_bind_ok in E by reflexivity. unfold queue_write in E.
      rewrite !pipeline_expire, pipeline_push in E. by injection E as <- _.
    + erewrite M_bind_ok in E by reflexivity. unfold queue_write in E.
      rewrite !pipeline_expire, pipeline_push in E. by injection E as _ <-.
  - left. injection E as <- <-. split; [done|by eexists].
  - unfold queue_check in Ec. repeat case_match; done.
Qed.

(** The same for an envelope between devices. *)
Lemma push_sync_inv user source dest envelope (m m' : Store) r :
  push_sync_envelope user source dest envelope m = (r, m') ->
  let m1 := (b_incr (sync_rate_key user source) m).2 in
  let qk := sync_queue_key user dest in
  (m' = m /\ exists e, r = Err e)
  \/ (m' = m1 /\ exists e, r = Err e)
  \/ exists rc, Z.of_nat (String.length envelope) <= SYNC_MAX_ENVELOPE_BYTES
       /\ Z.of_nat (length (list_at m1 qk)) < SYNC_MAX_ENVELOPES_PER_QUEUE
       /\ let m2 := if rc =? 1
                    then (b_expire (sync_rate_key user source) SYNC_RATE_LIMIT_WINDOW_SECONDS m1).2 else m1 in
          let m3 := (b_rpush qk envelope m2).2 in
          r = (b_rpush qk envelope m2).1
          /\ m' = if Z.of_nat (length (list_at m1 qk)) =? 0 then (b_expire qk SYNC_QUEUE_TTL_SECONDS m3).2 else m3.
Proof.
  intros E m1 qk. unfold push_sync_envelope in E.
  destruct (Z.ltb_spec SYNC_MAX_ENVELOPE_BYTES (Z.of_nat (String.length envelope))) as [Hl|Hl].
  { injection E as <- <-. left. split; [done|by eexists]. }
  right. erewrite M_bind_ok in E by reflexivity. unfold sync_read, also in E. unfold mbind at 1, M_bind at 1 in E. subst m1 qk.
  pose proof (incr_run (sync_rate_key user source) m) as Hi.
  destruct (b_incr (sync_rate_key user source) m) as [rr m1]. cbn [fst snd] in E |- *.
  destruct (b_llen (sync_queue_key user dest) m1) as [dr m2] eqn:E3. apply llen_run in E3 as [-> Hd].
  destruct rr as [rc|e|]; [|injection E as <- <-; left; split; [done|by eexists]|].
  2: { by destruct Hi as [(? & [=] & _)|[=]]. }
  destruct Hd as [->|[e ->]]; [|injection E as <- <-; left; split; [done|by eexists]].
  cbn [mbind outcome_bind mret] in E. unfold lift_outcome, sync_check in E.
  destruct (SYNC_RATE_LIMIT_PER_HOUR <? rc); [injection E as <- <-; left; split; [done|by eexists]|].
  destruct (Z.leb_spec SYNC_MAX_ENVELOPES_PER_QUEUE (Z.of_nat (length (list_at m1 (sync_queue_key user dest)))));
    [injection E as <- <-; left; split; [done|by eexists]|].
  right. exists rc. erewrite M_bind_ok in E by reflexivity. unfold sync_write in E.
  rewrite pipeline_expire, pipeline_push in E. injection E as <- <-. done.
Qed.

Lemma incr_grows k k' (m : Store) : int_at m k' <= int_at (b_incr k m).2 k'.
Proof.
  destruct (incr_run k m) as [(n & -> & Hn & _)|E]; [|by rewrite E].
  cbn [snd]. rewrite int_at_put. case_decide; subst; lia.
Qed.
Lemma expire_int (b : bool) k t (m : Store) k' : int_at (if b then (b_expire k t m).2 else m) k' = int_at m k'.
Proof.
  destruct b; [|done]. unfold int_at. simpl. destruct (decide (k' = k)) as [->|];
    [rewrite lookup_alter_eq|by rewrite lookup_alter_ne]. by destruct (m !! k) as [[[]]|].
Qed.
Lemma only_at_int {A} k (c : M ErrorType Store A) (m : Store) k' :
  only_at k c -> k' <> k -> int_at (c m).2 k' = int_at m k'.
Proof. intros Hc Hk. unfold int_at. by rewrite Hc. Qed.

Lemma queue_check_inv gc pc depth :
  queue_check gc pc depth = Ok tt ->
  gc <= RATE_LIMIT_GLOBAL_MAX_PER_WINDOW /\ pc <= RATE_LIMIT_MAX_PER_WINDOW /\ depth < OFFLINE_QUEUE_MAX_DEPTH.
Proof.
  unfold queue_check. repeat case_match; try done. rewrite Z.ltb_ge, Z.leb_gt in *. done.
Qed.

(** A counter never goes down, goes up with an accepted message and is then
    within the limit. *)
Lemma queue_counts s t s' t' sid msg (m : Store) :
  let k := rate_key s t in
  let res := queue_offline_message s' t' sid msg m in
  int_at m k <= int_at res.2 k
  /\ (res.1 = Ok tt -> s' = s -> t' = t -> int_at m k < int_at res.2 k <= RATE_LIMIT_MAX_PER_WINDOW).
Proof.
  intros k res. subst res. destruct (queue_offline_message s' t' sid msg m) as [r m'] eqn:E. cbn [fst snd].
  pose proof (incr_grows (global_rate_key s') k m) as G1.
  pose proof (incr_grows (rate_key s' t') k (b_incr (global_rate_key s') m).2) as G2.
  apply queue_inv in E as [[-> [e ->]]|[[-> [e ->]]|(gc & pc & E1 & E2 & Ec & _ & Er & ->)]];
    [split; [lia|done]|split; [lia|done]|].
  rewrite expire_int, (only_at_int (queue_key t' sid)); [|apply rpush_at|by intros [=]].
  rewrite !expire_int. split; [lia|]. intros _ -> ->.
  destruct (incr_run (rate_key s t) (b_incr (global_rate_key s) m).2) as [(n & En & Hn & _)|En];
    rewrite En in E2; [|done].
  injection E2 as ->. rewrite En. cbn [snd]. rewrite int_at_put, decide_True by done.
  apply queue_check_inv in Ec as (_ & ? & _). subst k. lia.
Qed.

(** *** A counter that never expires *)

Definition stuck (s t : string) (m : Store) : Prop :=
  exists n, m !! rate_key s t = Some {| ks_value := BrokerValue.Int n; ks_ttl := None |}
            /\ RATE_LIMIT_MAX_PER_WINDOW <= n.

(** Incremented, it stays stuck, and who reads it is over the limit. *)
Lemma incr_stuck s t k (m : Store) :
  stuck s t m -> stuck s t (b_incr k m).2
                 /\ (k = rate_key s t -> forall n, (b_incr k m).1 = Ok n -> RATE_LIMIT_MAX_PER_WINDOW < n).
Proof.
  intros (n & Hn & Hl). destruct (incr_run k m) as [(n' & -> & Hn' & _)| ->].
  2: { split; [by exists n|done]. }
  cbn [fst snd]. split.
  - destruct (decide (k = rate_key s t)) as [->|Hk]; unfold put_value.
    + exists n'. rewrite lookup_insert_eq, Hn. split; [done|]. unfold int_at in Hn'. rewrite Hn in Hn'. simpl in Hn'. lia.
    + exists n. by rewrite lookup_insert_ne.
  - intros -> n0 [= <-]. unfold int_at in Hn'. rewrite Hn in Hn'. simpl in Hn'. lia.
Qed.
Lemma expire_stuck (b : bool) s t k d (m : Store) :
  stuck s t m -> (b = true -> k <> rate_key s t) -> stuck s t (if b then (b_expire k d m).2 else m).
Proof.
  intros (n & Hn & Hl) Hk. destruct b; [|by exists n]. exists n. simpl. rewrite lookup_alter_ne by auto. done.
Qed.
Lemma elapse_stuck s t d (m : Store) : stuck s t m -> stuck s t (b_elapse d m).2.
Proof. intros (n & Hn & Hl). exists n. simpl. by rewrite lookup_omap, Hn. Qed.

Lemma queue_stuck s t s' t' sid msg (m : Store) :
  stuck s t m -> stuck s t (queue_offline_message s' t' sid msg m).2
                 /\ (s' = s -> t' = t -> exists e, (queue_offline_message s' t' sid msg m).1 = Err e).
Proof.
  intros Hs. destruct (queue_offline_message s' t' sid msg m) as [r m'] eqn:E. cbn [fst snd].
  destruct (incr_stuck s t (global_rate_key s') m Hs) as [Hs1 Hg].
  destruct (incr_stuck s t (rate_key s' t') _ Hs1) as [Hs2 Hp].
  apply queue_inv in E as [[-> [e ->]]|[[-> [e ->]]|(gc & pc & E1 & E2 & Ec & _ & Er & ->)]];
    [split; [done|by exists e]|split; [done|by exists e]|].
  apply queue_check_inv in Ec as (_ & Hpc & _). split.
  - apply expire_stuck; [|by intros _ [=]].
    assert (forall m : Store, stuck s t m -> stuck s t (b_rpush (queue_key t' sid) msg m).2) as Hr.
    { intros q (n & Hn & Hl). exists n. split; [|done]. by rewrite rpush_at by intros [=]. }
    apply Hr, expire_stuck; [apply expire_stuck; [done|]|].
    + intros Hb Hk. specialize (Hg Hk _ E1). unfold RATE_LIMIT_MAX_PER_WINDOW in Hg. lia.
    + intros Hb Hk. specialize (Hp Hk _ E2). unfold RATE_LIMIT_MAX_PER_WINDOW in Hp. lia.
  - intros -> ->. specialize (Hp eq_refl _ E2). lia.
Qed.

Lemma perform_stuck s t c (m : Store) : stuck s t m -> stuck s t (perform c m).2.
Proof.
  intros Hs. destruct c; try (destruct Hs as (n & Hn & Hl); exists n; split; [|done]; by apply at_perform).
  - by apply queue_stuck.
  - by apply elapse_stuck.
Qed.
Lemma performed_stuck s t cs (m : Store) : stuck s t m -> stuck s t (performed cs m).
Proof. revert m. induction cs as [|c cs IH]; intros m Hs; [done|]. simpl. by apply IH, perform_stuck. Qed.
End Counters.

(** *** Limits of the queues *)

Definition size_limit (k : string) : Z :=
  if String.prefix "broker:queue:" k then OFFLINE_QUEUE_MAX_MESSAGE_BYTES else SYNC_MAX_ENVELOPE_BYTES.
Definition within_limits (k : string) (l : list string) : Prop :=
  Z.of_nat (length l) <= OFFLINE_QUEUE_MAX_DEPTH
  /\ Forall (fun x => Z.of_nat (String.length x) <= size_limit k) l.
Definition bounded (m : Store) : Prop := forall k, within_limits k (list_at m k).

Lemma within_limits_nil k : within_limits k [].
Proof. split; [unfold OFFLINE_QUEUE_MAX_DEPTH; simpl; lia|constructor]. Qed.
#[local] Hint Resolve within_limits_nil : core.

Lemma list_at_put m k v k' :
  list_at (put_value k v m) k' =
  if decide (k' = k) then match v with BrokerValue.List l => l | _ => [] end else list_at m k'.
Proof.
  unfold list_at, put_value. destruct (decide (k' = k)) as [->|];
    [rewrite lookup_insert_eq; by destruct v|by rewrite lookup_insert_ne].
Qed.
Lemma list_at_delete (m : Store) k k' : list_at (delete k m) k' = if decide (k' = k) then [] else list_at m k'.
Proof.
  unfold list_at. destruct (decide (k' = k)) as [->|]; [by rewrite lookup_delete_eq|by rewrite lookup_delete_ne].
Qed.

Lemma list_at_expire (m : Store) k t k' : list_at (b_expire k t m).2 k' = list_at m k'.
Proof.
  unfold list_at. simpl. destruct (decide (k' = k)) as [->|];
    [rewrite lookup_alter_eq|by rewrite lookup_alter_ne]. by destruct (m !! k) as [[[]]|].
Qed.
Lemma if_expire_list (b : bool) k t (m : Store) k' :
  list_at (if b then (b_expire k t m).2 else m) k' = list_at m k'.
Proof. destruct b; [apply list_at_expire|done]. Qed.

(** *** Pushes that overlap *)

(** A message or an envelope that was checked, with the counts that were read, and
    is not written yet. *)
Module Checked.
Inductive Checked : Type :=
| Message (sender_id recipient_id session_id message_event : string) (global_count pair_count depth : Z)
| Envelope (user_id source_session_id dest_session_id envelope : string) (rate_count depth : Z).
End Checked.
Abbreviation Checked := Checked.Checked.

Definition checked_key (p : Checked) : string :=
  match p with
  | Checked.Message _ recipient_id session_id _ _ _ _ => queue_key recipient_id session_id
  | Checked.Envelope user_id _ dest_session_id _ _ _ => sync_queue_key user_id dest_session_id
  end.
Definition checked_text (p : Checked) : string :=
  match p with
  | Checked.Message _ _ _ message_event _ _ _ => message_event
  | Checked.Envelope _ _ _ envelope _ _ => envelope
  end.

(** How many of them are for the list under a key. *)
Definition waiting (k : string) (ps : list Checked) : Z :=
  Z.of_nat (length (filter (fun p => checked_key p = k) ps)).

Section Races.
Context {R : Type} `{BrokerRedis R} `{HO : HashOrder} `{BJ : BrokerJson}.

Definition write_checked (p : Checked) : M ErrorType R unit :=
  match p with
  | Checked.Message sender_id recipient_id session_id message_event global_count pair_count depth =>
      queue_write sender_id recipient_id session_id message_event global_count pair_count depth
  | Checked.Envelope user_id source_session_id dest_session_id envelope rate_count depth =>
      sync_write user_id source_session_id dest_session_id envelope rate_count depth
  end.

(** One command of Redis other than a push, or the time that passes. *)
Inductive command_step (r : R) : R -> Prop :=
| command_connect : command_step r (b_connect r).2
| command_get k : command_step r (b_get k r).2
| command_set k n : command_step r (b_set k n r).2
| command_incr k : command_step r (b_incr k r).2
| command_del k : command_step r (b_del k r).2
| command_expire k t : command_step r (b_expire k t r).2
| command_hset k f v : command_step r (b_hset k f v r).2
| command_hget k f : command_step r (b_hget k f r).2
| command_hdel k f : command_step r (b_hdel k f r).2
| command_hgetall k : command_step r (b_hgetall k r).2
| command_llen k : command_step r (b_llen k r).2
| command_lrange k : command_step r (b_lrange k r).2
| command_elapse d : command_step r (b_elapse d r).2.

(** The broker under concurrent calls: single commands of any calls come between
    the two round trips of a push, and at most [n] pushes to the same list are
    between their check and their write. *)
Inductive race_step (n : Z) : R * list Checked -> R * list Checked -> Prop :=
| race_command r r' ps : command_step r r' -> race_step n (r, ps) (r', ps)
| race_message r r' ps sender recipient sid msg gc pc depth :
    waiting (queue_key recipient sid) ps < n ->
    (OFFLINE_QUEUE_MAX_MESSAGE_BYTES <? Z.of_nat (String.length msg)) = false ->
    queue_read sender recipient sid r = (Ok (gc, pc, depth), r') -> queue_check gc pc depth = Ok tt ->
    race_step n (r, ps) (r', Checked.Message sender recipient sid msg gc pc depth :: ps)
| race_envelope r r' ps user source dest envelope rc depth :
    waiting (sync_queue_key user dest) ps < n ->
    (SYNC_MAX_ENVELOPE_BYTES <? Z.of_nat (String.length envelope)) = false ->
    sync_read user source dest r = (Ok (rc, depth), r') -> sync_check rc depth = Ok tt ->
    race_step n (r, ps) (r', Checked.Envelope user source dest envelope rc depth :: ps)
| race_write r ps1 p ps2 :
    race_step n (r, ps1 ++ p :: ps2) ((write_checked p r).2, ps1 ++ ps2).

(** Every call is such a sequence of steps, with one push under way if it is one. *)
Section Calls.
Context (n : Z) (ps : list Checked) (c0 : R * list Checked).
Local Abbreviation reached := (fun r => rtc (race_step n) c0 (r, ps)).

Lemma races_command {A} (m : M ErrorType R A) : (forall r, command_step r (m r).2) -> preserves reached m.
Proof. intros Hm r Hr. eapply rtc_r; [exact Hr|]. by apply race_command. Qed.
Hint Extern 1 (preserves _ _) => apply races_command; intros ?; constructor : preserves.

Lemma races_drop user sid : preserves reached (drop_device user sid).
Proof. unfold drop_device. preserve_all. Qed.
Hint Resolve races_drop : preserves.
Lemma races_evict user session sids : preserves reached (evict user session sids).
Proof. induction sids; simpl; preserve_all. Qed.
Lemma races_prune user sids : preserves reached (prune user sids).
Proof. induction sids; simpl; preserve_all. Qed.
Lemma races_filter cache messages : preserves reached (filter_purged cache messages).
Proof.
  revert cache. induction messages as [|msg messages IH]; intros cache; simpl; [preserve_all|].
  destruct (extract_envelope_epoch msg) as [[channel epoch]|]; unfold get_channel_epoch_cached; preserve_all.
Qed.
Lemma races_queue_read sender recipient sid : preserves reached (queue_read sender recipient sid).
Proof. unfold queue_read. preserve_all. Qed.
Lemma races_sync_read user source dest : preserves reached (sync_read user source dest).
Proof. unfold sync_read. preserve_all. Qed.
Hint Resolve races_evict races_prune races_filter races_queue_read races_sync_read : preserves.

Lemma races_written r p : rtc (race_step n) c0 (r, p :: ps) -> rtc (race_step n) c0 ((write_checked p r).2, ps).
Proof. intros Hr. eapply rtc_r; [exact Hr|]. apply (race_write n r [] p ps). Qed.

Lemma races_queue sender recipient sid msg :
  waiting (queue_key recipient sid) ps < n -> preserves reached (queue_offline_message sender recipient sid msg).
Proof.
  intros Hw. unfold queue_offline_message. destruct (_ <? _) eqn:El; [preserve_all|].
  apply preserves_bind; [preserve_all|]. intros [] r Hr. unfold mbind at 1, M_bind at 1.
  pose proof (races_queue_read sender recipient sid r Hr) as Hr'.
  destruct (queue_read sender recipient sid r) as [[[[gc pc] depth]|e|] r'] eqn:E; [|done..]. cbn [snd] in Hr'.
  destruct (queue_check gc pc depth) as [[]|e|] eqn:Ec; unfold lift_outcome, mbind, M_bind; rewrite ?Ec; [|done..].
  apply (races_written r' (Checked.Message sender recipient sid msg gc pc depth)).
  eapply rtc_r; [exact Hr|]. by apply race_message.
Qed.

Lemma races_push_sync user source dest envelope :
  waiting (sync_queue_key user dest) ps < n -> preserves reached (push_sync_envelope user source dest envelope).
Proof.
  intros Hw. unfold push_sync_envelope. destruct (_ <? _) eqn:El; [preserve_all|].
  apply preserves_bind; [preserve_all|]. intros [] r Hr. unfold mbind at 1, M_bind at 1.
  pose proof (races_sync_read user source dest r Hr) as Hr'.
  destruct (sync_read user source dest r) as [[[rc depth]|e|] r'] eqn:E; [|done..]. cbn [snd] in Hr'.
  destruct (sync_check rc depth) as [[]|e|] eqn:Ec; unfold lift_outcome, mbind, M_bind; rewrite ?Ec; [|done..].
  apply (races_written r' (Checked.Envelope user source dest envelope rc depth)).
  eapply rtc_r; [exact Hr|]. by apply race_envelope.
Qed.

Lemma perform_races c :
  (forall k, waiting k ps < n) -> preserves reached (perform c).
Proof.
  intros Hw. destruct c; cbn [perform]; [..|by apply races_queue| |by apply races_push_sync| | | |];
    unfold register_user, unregister_user, refresh_user_ttl, list_user_devices, list_known_sessions,
      drain_offline_queue, drain_sync_envelopes, drain_read, drain_delete, forget_device,
      set_channel_epoch_cached; preserve_all.
Qed.
End Calls.

Lemma performed_races n cs r : 0 < n -> rtc (race_step n) (r, []) (performed cs r, []).
Proof.
  intros Hn. assert (forall r', rtc (race_step n) (r, []) (r', []) ->
    rtc (race_step n) (r, []) (performed cs r', [])) as Hgo; [|by apply Hgo].
  induction cs as [|c cs IH]; intros r' Hr; [done|]. simpl. apply IH.
  apply (perform_races n [] (r, []) c); [|done]. by intros k.
Qed.
End Races.

(** What a push and the other commands do to the lists. *)
Definition shrinks (m m' : Store) : Prop := forall k, list_at m' k = list_at m k \/ list_at m' k = [].
#[export] Instance shrinks_preorder : PreOrder shrinks.
Proof.
  split; [by left|]. intros m1 m2 m3 H12 H23 k. destruct (H23 k) as [->|?]; [apply H12|by right].
Qed.

Lemma shrinks_at {A} k (c : M ErrorType Store A) (m : Store) :
  only_at k c -> list_at (c m).2 k = list_at m k \/ list_at (c m).2 k = [] -> shrinks m (c m).2.
Proof.
  intros Hc Hk k'. destruct (decide (k' = k)) as [->|Hne]; [done|]. left. unfold list_at. by rewrite Hc.
Qed.
Lemma on_int_shrinks {A} k (f : option Z -> Result (A * option Z)) (m : Store) : shrinks m (on_int k f m).2.
Proof.
  apply (shrinks_at k); [apply on_int_at|]. unfold on_int.
  destruct (match m !! k with None => f None | _ => _ end) as [[a [n|]]|e|]; [right|by left..].
  simpl. by rewrite list_at_put, decide_True.
Qed.
Lemma on_hash_shrinks {A} k (f : gmap string string -> A * option (gmap string string)) (m : Store) :
  shrinks m (on_hash k f m).2.
Proof.
  apply (shrinks_at k); [apply on_hash_at|]. unfold on_hash.
  destruct (m !! k) as [[[z|h|l] ttl]|]; try (by left); destruct (f _) as [a [h'|]]; try (by left);
    case_decide; right; simpl; by rewrite ?list_at_put, ?list_at_delete, ?decide_True.
Qed.
Lemma on_list_read {A} k (f : list string -> A) (m : Store) : (on_list k (fun l => (f l, None)) m).2 = m.
Proof. unfold on_list. by destruct (m !! k) as [[[z|h|l] ttl]|]. Qed.

Lemma command_shrinks (m m' : Store) : command_step m m' -> shrinks m m'.
Proof.
  destruct 1; try apply on_int_shrinks; try apply on_hash_shrinks; try (simpl; by rewrite on_list_read).
  - done.
  - apply (shrinks_at k); [intros s k' Hk; by apply lookup_insert_ne|]. right.
    unfold list_at. simpl. by rewrite lookup_insert_eq.
  - intros k'. simpl. rewrite list_at_delete. case_decide; auto.
  - intros k'. left. apply list_at_expire.
  - intros k. unfold list_at. simpl. rewrite lookup_omap. destruct (m !! k) as [[v ttl]|]; [|by left].
    simpl. unfold aged. simpl. destruct ttl as [t|]; [|by left]. destruct (d <? t); [by left|by right].
Qed.

Lemma push_lists k x (m : Store) k' :
  list_at (b_rpush k x m).2 k' = list_at m k' \/ k' = k /\ list_at (b_rpush k x m).2 k' = list_at m k' ++ [x].
Proof.
  simpl. unfold on_list. destruct (m !! k) as [[[z|h|l] ttl]|] eqn:E; try (by left);
    cbn [snd]; rewrite list_at_put; case_decide; subst; auto.
Qed.

Lemma write_lists p (m : Store) k :
  list_at (write_checked p m).2 k = list_at m k
  \/ k = checked_key p /\ list_at (write_checked p m).2 k = list_at m k ++ [checked_text p].
Proof.
  destruct p; simpl; unfold queue_write, sync_write; rewrite !pipeline_expire, pipeline_push; cbn [snd];
    rewrite if_expire_list;
    match goal with |- list_at (b_rpush _ _ ?m0).2 _ = _ \/ _ =>
      replace (list_at m k) with (list_at m0 k) by (by rewrite !if_expire_list); apply push_lists
    end.
Qed.

(** The depth that is read is that of the list. *)
Lemma also_llen {A} (c : M ErrorType Store A) k (m m' : Store) a depth :
  also c (b_llen k) m = (Ok (a, depth), m') ->
  m' = (c m).2 /\ depth = Z.of_nat (length (list_at m' k)).
Proof.
  unfold also. destruct (c m) as [x m1]. destruct (b_llen k m1) as [d m2] eqn:E. apply llen_run in E as [-> Hd].
  destruct x as [x|e|], Hd as [->|[e' ->]]; simpl; intros E'; try done. injection E' as _ <- <-. done.
Qed.

Lemma also_shrinks {A B} (c : M ErrorType Store A) (d : M ErrorType Store B) :
  (forall m, shrinks m (c m).2) -> (forall m, shrinks m (d m).2) -> forall m, shrinks m (also c d m).2.
Proof.
  intros Hc Hd m. unfold also. specialize (Hc m). destruct (c m) as [x m1]. specialize (Hd m1).
  destruct (d m1) as [y m2]. by etrans.
Qed.

(** What is in a list and on its way to it. *)
Definition raced (n : Z) (c : Store * list Checked) : Prop :=
  forall k, Z.of_nat (length (list_at c.1 k)) + waiting k c.2 <= OFFLINE_QUEUE_MAX_DEPTH - 1 + n
    /\ Forall (fun x => Z.of_nat (String.length x) <= size_limit k) (list_at c.1 k)
    /\ Forall (fun p => checked_key p = k -> Z.of_nat (String.length (checked_text p)) <= size_limit k) c.2.

Lemma waiting_cons k p ps : waiting k (p :: ps) = waiting k ps + if decide (checked_key p = k) then 1 else 0.
Proof. unfold waiting. rewrite filter_cons. case_decide; simpl; lia. Qed.
Lemma waiting_app k ps1 p ps2 :
  waiting k (ps1 ++ p :: ps2) = waiting k (ps1 ++ ps2) + if decide (checked_key p = k) then 1 else 0.
Proof. unfold waiting. rewrite !filter_app, filter_cons, !length_app. case_decide; simpl; lia. Qed.
Lemma waiting_pos k ps : 0 <= waiting k ps.
Proof. unfold waiting. lia. Qed.

Lemma raced_shrinks n m m' ps : shrinks m m' -> raced n (m, ps) -> raced n (m', ps).
Proof.
  intros Hs Hr k. destruct (Hr k) as (Hl & Hf & Hp). simpl in *.
  destruct (Hs k) as [-> | ->]; [done|]. split_and!; [simpl; lia|constructor|done].
Qed.

Lemma raced_checked n (m : Store) p ps :
  raced n (m, ps) -> waiting (checked_key p) ps < n ->
  Z.of_nat (length (list_at m (checked_key p))) < OFFLINE_QUEUE_MAX_DEPTH ->
  Z.of_nat (String.length (checked_text p)) <= size_limit (checked_key p) -> raced n (m, p :: ps).
Proof.
  intros Hr Hw Hd Hx k. destruct (Hr k) as (Hl & Hf & Hp). cbn [fst snd] in *. rewrite waiting_cons.
  split_and!; [|done|constructor; [by intros <-|done]]. case_decide; subst; lia.
Qed.

Lemma sync_check_inv rc depth : sync_check rc depth = Ok tt -> depth < SYNC_MAX_ENVELOPES_PER_QUEUE.
Proof. unfold sync_check. repeat case_match; try done. by rewrite Z.leb_gt in *. Qed.

Lemma race_step_raced n (c c' : Store * list Checked) : race_step n c c' -> raced n c -> raced n c'.
Proof.
  destruct 1 as [m m' ps Hc|m m' ps s t sid msg gc pc depth Hw Hl E Ec|m m' ps u src dst env rc depth Hw Hl E Ec
                |m ps1 p ps2]; intros Hr.
  - eapply raced_shrinks; [by apply command_shrinks|done].
  - apply queue_check_inv in Ec as (_ & _ & Hd). apply Z.ltb_ge in Hl.
    assert (shrinks m m') as Hs.
    { change m' with (Ok (E := ErrorType) (gc, pc, depth), m').2. rewrite <- E. unfold queue_read.
      repeat apply also_shrinks; intros m0; try apply on_int_shrinks. simpl. by rewrite on_list_read. }
    unfold queue_read in E. apply also_llen in E as [_ ->].
    apply raced_checked; [by eapply raced_shrinks|done..].
  - apply sync_check_inv in Ec. apply Z.ltb_ge in Hl.
    assert (shrinks m m') as Hs.
    { change m' with (Ok (E := ErrorType) (rc, depth), m').2. rewrite <- E. unfold sync_read.
      repeat apply also_shrinks; intros m0; try apply on_int_shrinks. simpl. by rewrite on_list_read. }
    unfold sync_read in E. apply also_llen in E as [_ ->].
    apply raced_checked; [by eapply raced_shrinks|done..].
  - intros k. destruct (Hr k) as (Hl & Hf & Hp). cbn [fst snd] in *. rewrite waiting_app in Hl.
    apply Forall_app in Hp as [Hp1 [Hp Hp2]%Forall_cons].
    split_and!; [| |by apply Forall_app].
    + destruct (write_lists p m k) as [->|[-> ->]]; [destruct (decide (checked_key p = k)); lia|].
      rewrite decide_True in Hl by done. rewrite length_app. simpl. lia.
    + destruct (write_lists p m k) as [->|[-> ->]]; [done|]. apply Forall_app. split; [done|].
      constructor; [by apply Hp|constructor].
Qed.

Lemma bounded_raced n (m : Store) : 1 <= n -> bounded m -> raced n (m, []).
Proof. intros Hn Hm k. destruct (Hm k) as [Hl Hf]. split_and!; [|done|constructor].
  cbn [fst snd waiting filter list_filter length]. unfold waiting. simpl. lia. Qed.

(** *** Draining *)

Section Draining.
Context `{HO : HashOrder} `{BJ : BrokerJson}.

(** The epoch of a channel as the cache has it. *)
Definition epoch_at (m : Store) (channel_id : string) : Z := int_at m (channel_epoch_key channel_id).

(** Nothing says that the message was sent before the last purge of its channel. *)
Definition fresh (m : Store) (event_json : string) : bool :=
  match extract_envelope_epoch event_json with
  | Some (channel_id, env_epoch) => epoch_at m channel_id <=? env_epoch
  | None => true
  end.

Lemma epoch_run channel_id (m : Store) :
  unwrap_or 0 (get_channel_epoch_cached channel_id) m = (Ok (epoch_at m channel_id), m).
Proof.
  unfold unwrap_or, get_channel_epoch_cached, epoch_at, int_at, mbind, M_bind. simpl. unfold on_int.
  by destruct (m !! channel_epoch_key channel_id) as [[[n|h|l] ttl]|].
Qed.

(** The filter with its cache is the filter that looks every channel up. *)
Lemma filter_purged_run cache messages (m : Store) :
  (forall c e, cache !! c = Some e -> e = epoch_at m c) ->
  filter_purged cache messages m = (Ok (List.filter (fresh m) messages), m).
Proof.
  revert cache. induction messages as [|msg messages IH]; intros cache Hc; [done|].
  cbn [filter_purged List.filter]. unfold fresh at 1.
  destruct (extract_envelope_epoch msg) as [[channel epoch]|].
  - assert (exists cache', (forall c e, cache' !! c = Some e -> e = epoch_at m c) /\
              match cache !! channel with
              | Some c => mret (c, cache)
              | None => c ← unwrap_or 0 (get_channel_epoch_cached channel); mret (c, <[channel := c]> cache)
              end m = (Ok (epoch_at m channel, cache'), m)) as (cache' & Hc' & E).
    { destruct (cache !! channel) as [c|] eqn:Ec.
      - exists cache. split; [done|]. by rewrite (Hc _ _ Ec).
      - exists (<[channel := epoch_at m channel]> cache). split.
        + intros c e [[<- <-]|[_ He]]%lookup_insert_Some; [done|by apply Hc].
        + by erewrite M_bind_ok by apply epoch_run. }
    erewrite M_bind_ok by exact E. cbv beta iota. erewrite M_bind_ok by (by apply IH).
    rewrite Z.ltb_antisym. by destruct (epoch_at m channel <=? epoch).
  - by erewrite M_bind_ok by (by apply IH).
Qed.

(** A key that is absent or holds a list. *)
Definition list_key (m : Store) (k : string) : Prop :=
  forall st, m !! k = Some st -> exists l, ks_value st = BrokerValue.List l.

Lemma lrange_run k (m : Store) : list_key m k -> b_lrange k m = (Ok (list_at m k), m).
Proof.
  intros Hk. simpl. unfold on_list, list_at. destruct (m !! k) as [[v ttl]|] eqn:E; [|done].
  destruct (Hk _ E) as [l Hl]. simpl in Hl. by subst.
Qed.

Lemma rpush_run k x (m m' : Store) :
  b_rpush k x m = (Ok tt, m') -> list_key m' k /\ list_at m' k = list_at m k ++ [x].
Proof.
  simpl. unfold on_list. intros E.
  assert (m' = put_value k (BrokerValue.List (list_at m k ++ [x])) m) as ->
    by (revert E; destruct (m !! k) as [[[n|h|l] ttl]|]; by intros [= <-]).
  split; [|by rewrite list_at_put, decide_True]. intros st. unfold put_value. rewrite lookup_insert_eq.
  intros [= <-]. eexists. reflexivity.
Qed.

Lemma if_expire_key (b : bool) k t (m : Store) k' :
  list_key m k' -> list_key (if b then (b_expire k t m).2 else m) k'.
Proof.
  intros Hk. destruct b; [|done]. intros st. simpl. destruct (decide (k' = k)) as [->|Hne].
  - rewrite lookup_alter_eq. destruct (m !! k) as [st'|] eqn:E; [|done]. intros [= <-]. exact (Hk st' E).
  - rewrite lookup_alter_ne by done. apply Hk.
Qed.

(** What draining leaves of the keys. *)
Definition drained (k : string) (m : Store) : Store := match list_at m k with [] => m | _ => delete k m end.

Lemma drained_other k k' m : k' <> k -> drained k m !! k' = m !! k'.
Proof. intros Hk. unfold drained. destruct (list_at m k); [done|by apply lookup_delete_ne]. Qed.
Lemma drained_empty k m : list_at (drained k m) k = [].
Proof. unfold drained. destruct (list_at m k) eqn:E; [done|]. by rewrite list_at_delete, decide_True. Qed.

Lemma drain_sync_run user sid (m : Store) :
  list_key m (sync_queue_key user sid) ->
  drain_sync_envelopes user sid m
  = (Ok (list_at m (sync_queue_key user sid)), drained (sync_queue_key user sid) m).
Proof.
  intros Hk. unfold drain_sync_envelopes, drain_read.
  rewrite (M_bind_ok _ _ _ (list_at m (sync_queue_key user sid)) m).
  2: { erewrite M_bind_ok by reflexivity. by apply lrange_run. }
  unfold drained, drain_delete. by destruct (list_at m (sync_queue_key user sid)).
Qed.

Lemma drain_run user sid (m : Store) :
  list_key m (queue_key user sid) ->
  drain_offline_queue user sid m
  = (Ok (List.filter (fresh m) (list_at m (queue_key user sid))), drained (queue_key user sid) m).
Proof.
  intros Hk. unfold drain_offline_queue, drain_read.
  rewrite (M_bind_ok _ _ _ (list_at m (queue_key user sid)) m).
  2: { erewrite M_bind_ok by reflexivity. by apply lrange_run. }
  rewrite (M_bind_ok _ _ _ tt (drained (queue_key user sid) m)).
  2: { unfold drained, drain_delete. by destruct (list_at m (queue_key user sid)). }
  rewrite filter_purged_run by done. f_equal. f_equal.
  apply List.filter_ext. intros x. unfold fresh, epoch_at, int_at.
  destruct (extract_envelope_epoch x) as [[channel epoch]|]; [|done].
  by rewrite drained_other by (intros [=]).
Qed.
End Draining.

(** *** Devices *)

Section Devices.
Context `{HO : HashOrder} `{BJ : BrokerJson}.

(** A key that is absent or holds a hash. *)
Definition hash_key (m : Store) (k : string) : Prop :=
  forall st, m !! k = Some st -> exists h, ks_value st = BrokerValue.Hash h.

Lemma on_hash_run {A} k (f : gmap string string -> A * option (gmap string string)) (m : Store) :
  hash_key m k ->
  exists m', on_hash k f m = (Ok (f (hash_at m k)).1, m')
    /\ hash_key m' k /\ hash_at m' k = match (f (hash_at m k)).2 with Some h => h | None => hash_at m k end.
Proof.
  intros Hk.
  assert (on_hash k f m = match f (hash_at m k) with
          | (a, Some h) => (Ok a, if decide (h = ∅) then delete k m else put_value k (BrokerValue.Hash h) m)
          | (a, None) => (Ok a, m)
          end) as ->.
  { unfold on_hash. destruct (m !! k) as [[v ttl]|] eqn:E; [|done].
    destruct (Hk _ E) as [h Hh]. simpl in Hh. by subst. }
  destruct (f (hash_at m k)) as [a [h|]]; simpl; [|by exists m].
  eexists. split; [done|]. unfold hash_key, hash_at, put_value. case_decide; subst.
  - rewrite lookup_delete_eq. done.
  - rewrite lookup_insert_eq. split; [|done]. intros st [= <-]. by exists h.
Qed.

Lemma drop_device_run user sid (m : Store) :
  hash_key m (devices_key user) ->
  exists m', drop_device user sid m = (Ok tt, m') /\ hash_key m' (devices_key user)
    /\ hash_at m' (devices_key user) = delete sid (hash_at m (devices_key user)).
Proof.
  intros Hk. unfold drop_device.
  destruct (on_hash_run (devices_key user) (fun h => (tt, Some (delete sid h))) m Hk) as (m1 & E & Hk1 & Hh).
  rewrite (M_bind_ok _ _ _ tt m1).
  2: { unfold ignore_err. change (b_hdel (devices_key user) sid m)
         with (on_hash (devices_key user) (fun h => (tt, Some (delete sid h))) m). by rewrite E. }
  eexists. split; [reflexivity|]. unfold hash_key, hash_at in *. simpl in *.
  rewrite lookup_delete_ne by (intros [=]). by split.
Qed.

(** Evicted devices lose their entries, but for the one that registers. *)
Definition without (session : string) (h : gmap string string) (sids : list string) : gmap string string :=
  foldl (fun h sid => if String.eqb sid session then h else delete sid h) h sids.

Lemma evict_run user session sids (m : Store) :
  hash_key m (devices_key user) ->
  exists m', evict user session sids m = (Ok tt, m') /\ hash_at m' (devices_key user)
    = without session (hash_at m (devices_key user)) sids.
Proof.
  revert m. induction sids as [|sid sids IH]; intros m Hk; simpl; [by exists m|].
  destruct (String.eqb sid session).
  - erewrite M_bind_ok by reflexivity. by apply IH.
  - destruct (drop_device_run user sid m Hk) as (m1 & E & Hk1 & Hh).
    erewrite M_bind_ok by exact E. rewrite <- Hh. by apply IH.
Qed.

Lemma without_own session h sids : without session h sids !! session = h !! session.
Proof.
  revert h. induction sids as [|sid sids IH]; intros h; simpl; [done|]. rewrite IH.
  destruct (String.eqb_spec sid session); [done|by apply lookup_delete_ne].
Qed.

Lemma size_deleted (h : gmap string string) sid v : h !! sid = Some v -> size h = S (size (delete sid h)).
Proof. intros Hv. rewrite <- (insert_delete_id h sid v Hv) at 1. apply map_size_insert_None, lookup_delete_eq. Qed.

Lemma still_there (h : gmap string string) sid sids :
  sid ∉ sids -> (forall x, x ∈ sid :: sids -> is_Some (h !! x)) -> forall x, x ∈ sids -> is_Some (delete sid h !! x).
Proof. intros Hn Hin x Hx. rewrite lookup_delete_ne by congruence. apply Hin. by right. Qed.

Lemma without_size session (h : gmap string string) sids :
  NoDup sids -> (forall sid, sid ∈ sids -> is_Some (h !! sid)) -> session ∉ sids ->
  (size (without session h sids) + length sids = size h)%nat.
Proof.
  revert h. induction sids as [|sid sids IH]; intros h; simpl; [lia|].
  intros [Hn Hd]%NoDup_cons Hin [Hne Hs]%not_elem_of_cons.
  destruct (String.eqb_spec sid session) as [->|_]; [done|]. destruct (Hin sid) as [v Hv]; [by left|].
  rewrite (size_deleted h sid v Hv), <- (IH (delete sid h)); [lia|done|by eapply still_there|done].
Qed.

Lemma without_size_le session (h : gmap string string) sids :
  NoDup sids -> (forall sid, sid ∈ sids -> is_Some (h !! sid)) ->
  (size (without session h sids) + length sids <= size h + 1)%nat.
Proof.
  revert h. induction sids as [|sid sids IH]; intros h; simpl; [lia|].
  intros [Hn Hd]%NoDup_cons Hin. destruct (String.eqb_spec sid session) as [->|Hne].
  - rewrite <- (without_size session h sids); [lia|done| |done]. intros. apply Hin. by right.
  - destruct (Hin sid) as [v Hv]; [by left|].
    assert (size (without session (delete sid h) sids) + length sids <= size (delete sid h) + 1)%nat as Hl
      by (apply IH; [done|by eapply still_there]).
    rewrite (size_deleted h sid v Hv). lia.
Qed.

(** The devices that are evicted are known, and every other one is more recent. *)
Lemma by_last_seen_elem raw sid n :
  (sid, n) ∈ by_last_seen raw <-> exists json, raw !! sid = Some json /\ n = last_seen json.
Proof.
  unfold by_last_seen. rewrite sort_by_perm, list_elem_of_fmap. split.
  - intros ([sid' json] & [= -> ->] & Hj%elem_of_hm_iter). by exists json.
  - intros (json & Hj & ->). exists (sid, json). split; [done|by apply elem_of_hm_iter].
Qed.
Lemma by_last_seen_fst raw : (by_last_seen raw).*1 ≡ₚ (hm_iter raw).*1.
Proof.
  unfold by_last_seen. rewrite sort_by_perm. change (map ?f ?l) with (f <$> l). by rewrite <- list_fmap_compose.
Qed.
Lemma by_last_seen_length raw : length (by_last_seen raw) = size raw.
Proof.
  rewrite <- (length_fmap fst), (Permutation_length (by_last_seen_fst raw)), length_fmap.
  by rewrite (Permutation_length (hm_iter_perm raw)), length_map_to_list.
Qed.

(** The device that is seen last is not among the first. *)
Lemma latest_not_taken raw session json n :
  raw !! session = Some json -> (n < size raw)%nat ->
  (forall sid json', raw !! sid = Some json' -> sid <> session -> last_seen json' < last_seen json) ->
  session ∉ (take n (by_last_seen raw)).*1.
Proof.
  intros Hs Hn Hl ([sid t] & E & Ht)%list_elem_of_fmap. simpl in E. subst sid.
  set (L := by_last_seen raw) in *. assert (length L = size raw) as HL by apply by_last_seen_length.
  destruct (drop n L) as [|[sid' t'] rest] eqn:Ed.
  { apply (f_equal length) in Ed. rewrite length_drop in Ed. simpl in Ed. lia. }
  assert ((sid', t') ∈ drop n L) as Hx by (rewrite Ed; by left).
  assert (StronglySorted (key_le snd) (take n L ++ drop n L)) as Hsort
    by (rewrite take_drop; apply sort_by_asc_sorted).
  pose proof (StronglySorted_app_1_elem_of _ _ _ _ _ Hsort Ht Hx) as Hle. unfold key_le in Hle. simpl in Hle.
  assert (sid' <> session) as Hne.
  { intros ->. assert (NoDup L.*1) as Hd by (unfold L; rewrite by_last_seen_fst; apply NoDup_fst_hm_iter).
    rewrite <- (take_drop n L), fmap_app in Hd. apply NoDup_app in Hd as (_ & Hd & _).
    apply (Hd session); apply list_elem_of_fmap; [by exists (session, t)|by exists (session, t')]. }
  assert ((session, t) ∈ L) as Ht1 by (rewrite <- (take_drop n L), elem_of_app; by left).
  assert ((sid', t') ∈ L) as Hx1 by (rewrite <- (take_drop n L), elem_of_app; by right).
  apply by_last_seen_elem in Ht1 as (j1 & Hj1 & ->). apply by_last_seen_elem in Hx1 as (j2 & Hj2 & ->).
  simplify_eq. specialize (Hl _ _ Hj2 Hne). lia.
Qed.
End Devices.

Section Registered.
Context `{HO : HashOrder} `{BJ : BrokerJson} `{JL : !BrokerJsonLaws}.

Lemma register_run now ts user node session (m : Store) :
  hash_key m (devices_key user) ->
  exists m' value, register_user now ts user node session m = (Ok tt, m')
    /\ entry_from_json value = Some {| de_node_id := node; de_connected_at := ts; de_last_seen_unix := now |}
    /\ let raw := <[session := value]> (hash_at m (devices_key user)) in
       hash_at m' (devices_key user) =
       if Nat.ltb MAX_DEVICES_PER_USER (size raw)
       then without session raw (take (size raw - MAX_DEVICES_PER_USER) (by_last_seen raw)).*1 else raw.
Proof.
  intros Hk. unfold register_user.
  destruct (entry_roundtrip {| de_node_id := node; de_connected_at := ts; de_last_seen_unix := now |})
    as (value & Et & Ef). rewrite Et. erewrite M_bind_ok by reflexivity. erewrite M_bind_ok by reflexivity.
  destruct (on_hash_run (devices_key user) (fun h => (tt, Some (<[session := value]> h))) m Hk)
    as (m1 & E1 & Hk1 & Hh1). cbn [fst snd] in *.
  erewrite M_bind_ok by exact E1. erewrite M_bind_ok by reflexivity.
  set (m2 := alter _ _ m1).
  assert (hash_key m2 (devices_key user)
          /\ hash_at m2 (devices_key user) = <[session := value]> (hash_at m (devices_key user))) as [Hk2 Hh2].
  { rewrite <- Hh1. unfold hash_key, hash_at in *. subst m2. rewrite lookup_alter_eq.
    destruct (m1 !! devices_key user) as [[v ttl]|] eqn:E; simpl; [|done]. split; [|done].
    intros st [= <-]. exact (Hk1 _ eq_refl). }
  destruct (on_hash_run (devices_key user) (fun h => (h, None)) m2 Hk2) as (m3 & E3 & Hk3 & Hh3).
  cbn [fst snd] in *. erewrite M_bind_ok by exact E3. rewrite Hh2 in *.
  set (raw := <[session := value]> (hash_at m (devices_key user))) in *.
  destruct (Nat.ltb MAX_DEVICES_PER_USER (size raw)) eqn:El.
  - destruct (evict_run user session (take (size raw - MAX_DEVICES_PER_USER) (by_last_seen raw)).*1 m3 Hk3)
      as (m4 & E4 & Hh4). exists m4, value. split; [exact E4|]. split; [exact Ef|]. cbv zeta. fold raw. by rewrite El, Hh4, Hh3.
  - exists m3, value. split; [done|]. split; [exact Ef|]. cbv zeta. fold raw. by rewrite El.
Qed.

(** The evicted devices, without their positions. *)
Lemma taken_ok raw n :
  NoDup (take n (by_last_seen raw)).*1 /\ forall sid, sid ∈ (take n (by_last_seen raw)).*1 -> is_Some (raw !! sid).
Proof.
  split.
  - assert (NoDup (by_last_seen raw).*1) as Hd by (rewrite by_last_seen_fst; apply NoDup_fst_hm_iter).
    rewrite <- (take_drop n (by_last_seen raw)), fmap_app in Hd. by apply NoDup_app in Hd as [? _].
  - intros sid ([sid' t] & -> & Ht)%list_elem_of_fmap. simpl.
    assert ((sid', t) ∈ by_last_seen raw) as (json & -> & _)%by_last_seen_elem; [|done].
    rewrite <- (take_drop n (by_last_seen raw)), elem_of_app. by left.
Qed.

Lemma registered_count raw session (n := (size raw - MAX_DEVICES_PER_USER)%nat) :
  (MAX_DEVICES_PER_USER < size raw)%nat ->
  let left := without session raw (take n (by_last_seen raw)).*1 in
  (size left <= MAX_DEVICES_PER_USER + 1)%nat
  /\ (session ∉ (take n (by_last_seen raw)).*1 -> size left = MAX_DEVICES_PER_USER).
Proof.
  intros Hl. destruct (taken_ok raw n) as [Hd Hin].
  assert (length (take n (by_last_seen raw)).*1 = n) as Hlen
    by (rewrite length_fmap, length_take, by_last_seen_length; unfold n; lia).
  split.
  - pose proof (without_size_le session raw _ Hd Hin) as H. rewrite Hlen in H. unfold n in *. lia.
  - intros Hs. pose proof (without_size session raw _ Hd Hin Hs) as H. rewrite Hlen in H. unfold n in *. lia.
Qed.
End Registered.

(** ** What the broker promises *)

Section Promises.
Context {R : Type} `{RL : BrokerRedisLaws R} `{HO : HashOrder} `{BJ : BrokerJson} `{JL : !BrokerJsonLaws}.

Lemma command_step_keys (r r' : R) : command_step r r' -> command_step (keys r) (keys r').
Proof.
  destruct 1;
    rewrite ?(proj2 (connect_sim r)), ?(proj2 (get_sim _ r)), ?(proj2 (set_sim _ _ r)), ?(proj2 (incr_sim _ r)),
      ?(proj2 (del_sim _ r)), ?(proj2 (expire_sim _ _ r)), ?(proj2 (hset_sim _ _ _ r)), ?(proj2 (hget_sim _ _ r)),
      ?(proj2 (hdel_sim _ _ r)), ?(proj2 (hgetall_sim _ r)), ?(proj2 (llen_sim _ r)), ?(proj2 (lrange_sim _ r)),
      ?(proj2 (elapse_sim _ r)); by constructor.
Qed.

(** The server under concurrent calls does what its keys do. *)
Lemma race_step_keys n (r r' : R) ps ps' :
  race_step n (r, ps) (r', ps') -> race_step n (keys r, ps) (keys r', ps').
Proof.
  inversion 1 as [? ? ? Hc|? ? ? s t sid msg gc pc depth Hw Hl E Ec|? ? ? u src dst env rc depth Hw Hl E Ec
                 |? ps1 p ps2]; subst.
  - by apply race_command, command_step_keys.
  - assert (sim keys (queue_read s t sid) (queue_read s t sid)) as Hs by (unfold queue_read; sims).
    destruct (Hs r) as [E1 E2]. rewrite E in E1, E2. cbn [fst snd] in E1, E2.
    apply race_message; [done..| |done]. by rewrite E1, E2, <- surjective_pairing.
  - assert (sim keys (sync_read u src dst) (sync_read u src dst)) as Hs by (unfold sync_read; sims).
    destruct (Hs r) as [E1 E2]. rewrite E in E1, E2. cbn [fst snd] in E1, E2.
    apply race_envelope; [done..| |done]. by rewrite E1, E2, <- surjective_pairing.
  - assert (sim keys (write_checked p) (write_checked p)) as Hs
      by (destruct p; simpl; unfold queue_write, sync_write; sims).
    destruct (Hs r) as [_ ->]. by apply race_write.
Qed.

(** C22: queues are bounded.  From queues within the limits, when calls do not overlap
    no queue ever holds more than a hundred messages, whatever the broker is asked to
    do and however much time passes.  When they overlap, with single commands of any
    calls between the check and the write of a push, a queue holds at most 99 and as
    many more as there were pushes to it between check and write at once.  In both
    cases no message is larger than the limit of its kind of queue.  Redis answers;
    each of the two pipelines of a push is taken as one step.  ([queue_race_exceeds]
    shows that two pushes at once do reach 101.) *)
Theorem queues_bounded (r : R) :
  bounded (keys r) ->
  (forall cs, bounded (keys (performed cs r)))
  /\ forall n r' ps k, 1 <= n -> rtc (race_step n) (r, []) (r', ps) ->
     Z.of_nat (length (list_at (keys r') k)) <= OFFLINE_QUEUE_MAX_DEPTH - 1 + n
     /\ Forall (fun x => Z.of_nat (String.length x) <= size_limit k) (list_at (keys r') k).
Proof.
  intros Hr.
  assert (forall n r' ps, 1 <= n -> rtc (race_step n) (r, []) (r', ps) -> raced n (keys r', ps)) as Hraced.
  { intros n r' ps Hn Hs.
    apply (rtc_ind_r (fun c => raced n (keys c.1, c.2)) (r, [])) in Hs; [done|by apply bounded_raced|].
    intros [r1 ps1] [r2 ps2] _ Hs1%race_step_keys. by apply race_step_raced. }
  split.
  - intros cs k. destruct (Hraced 1 (performed cs r) []  ltac:(lia) (performed_races 1 cs r ltac:(lia)) k)
      as (Hl & Hf & _). split; [|done]. revert Hl. unfold waiting. simpl. lia.
  - intros n r' ps k Hn Hs. destruct (Hraced n r' ps Hn Hs k) as (Hl & Hf & _). split; [|done].
    pose proof (waiting_pos k ps). simpl in *. lia.
Qed.

(** C20: a device gets what was queued for it.  Draining answers with the messages
    of the queue in their order, less those that carry an epoch below the one of
    their channel; the queue is empty then and all other keys are as they were. *)
Theorem drain_delivers user sid (r : R) :
  list_key (keys r) (queue_key user sid) ->
  (drain_offline_queue user sid r).1 = Ok (List.filter (fresh (keys r)) (list_at (keys r) (queue_key user sid)))
  /\ list_at (keys (drain_offline_queue user sid r).2) (queue_key user sid) = []
  /\ forall k, k <> queue_key user sid -> keys (drain_offline_queue user sid r).2 !! k = keys r !! k.
Proof.
  intros Hk. destruct (drain_sim user sid r) as [-> ->]. rewrite drain_run by done. cbn [fst snd].
  split_and!; [done|apply drained_empty|]. intros k Hne. by apply drained_other.
Qed.

(** The messages of a sender for a recipient that some calls accept. *)
Definition is_accepted (s t : string) (c : BrokerCall) (res : Result unit) : nat :=
  match c, res with
  | BrokerCall.Queue s' t' _ _, Ok _ => if String.eqb s' s && String.eqb t' t then 1%nat else 0%nat
  | _, _ => 0%nat
  end.
Fixpoint accepted_in {S} `{BrokerRedis S} (s t : string) (cs : list BrokerCall) (r : S) : nat :=
  match cs with
  | [] => 0
  | c :: cs => is_accepted s t c (perform c r).1 + accepted_in s t cs (perform c r).2
  end.

Lemma accepted_keys s t cs (r : R) : accepted_in s t cs r = accepted_in s t cs (keys r).
Proof.
  revert r. induction cs as [|c cs IH]; intros r; [done|]. cbn [accepted_in].
  rewrite IH. by destruct (perform_sim c r) as [-> ->].
Qed.

Lemma perform_counts s t c (m : Store) :
  (forall d, c <> BrokerCall.Elapse d) ->
  let n := int_at m (rate_key s t) in
  let n' := int_at (perform c m).2 (rate_key s t) in
  n <= n' /\ (is_accepted s t c (perform c m).1 <> 0%nat ->
              is_accepted s t c (perform c m).1 = 1%nat /\ n < n' <= RATE_LIMIT_MAX_PER_WINDOW).
Proof.
  intros Hc. assert (forall c, match c with BrokerCall.Queue _ _ _ _ | BrokerCall.Elapse _ => False | _ => True end ->
    int_at (perform c m).2 (rate_key s t) = int_at m (rate_key s t)) as Hf.
  { intros c' Hc'. unfold int_at. by rewrite (at_perform s t (m !! rate_key s t) c' Hc' m eq_refl). }
  destruct c; try (cbn zeta; rewrite Hf by done; split; [lia|done]); [|by destruct (Hc seconds)].
  destruct (queue_counts s t sender_id recipient_id session_id message_event m) as [Hg Hl].
  split; [exact Hg|]. cbn [perform] in *.
  destruct (queue_offline_message sender_id recipient_id session_id message_event m) as [[[]|e|] m'];
    cbn [is_accepted fst snd] in *; [|done..].
  destruct (String.eqb_spec sender_id s), (String.eqb_spec recipient_id t); simpl; try done. auto.
Qed.

(** what a sender may queue.  As long as no time passes, whatever else the
    broker does in between, no more than thirty messages of a sender are queued
    for a recipient, over all devices of the recipient; those that were counted
    before are included. *)
Theorem pair_budget s t cs (r : R) :
  (forall c d, c ∈ cs -> c <> BrokerCall.Elapse d) ->
  0 <= int_at (keys r) (rate_key s t) ->
  Z.of_nat (accepted_in s t cs r)
  <= Z.max 0 (RATE_LIMIT_MAX_PER_WINDOW - int_at (keys r) (rate_key s t)).
Proof.
  rewrite accepted_keys. generalize (keys r) as m. induction cs as [|c cs IH]; intros m Hc H0; [simpl; lia|].
  destruct (perform_counts s t c m) as [Hg Ha]; [intros d; apply Hc; by left|].
  cbn [accepted_in]. specialize (IH (perform c m).2).
  assert (Z.of_nat (accepted_in s t cs (perform c m).2)
          <= Z.max 0 (RATE_LIMIT_MAX_PER_WINDOW - int_at (perform c m).2 (rate_key s t))) as IH'
    by (apply IH; [intros c' d Hin; apply Hc; by right|lia]).
  destruct (decide (is_accepted s t c (perform c m).1 = 0%nat)) as [->|Hne]; [lia|].
  destruct (Ha Hne) as [-> ?]. lia.
Qed.

(** how many devices a user has.  Registering succeeds, the device is known
    then with the time of the call, and at most nine devices are; at most eight
    if every other one was seen before the second of the call. *)
Theorem device_cap now ts user node session (r : R) :
  hash_key (keys r) (devices_key user) ->
  let res := register_user now ts user node session r in
  let devices := hash_at (keys res.2) (devices_key user) in
  res.1 = Ok tt
  /\ (size devices <= MAX_DEVICES_PER_USER + 1)%nat
  /\ (exists json, devices !! session = Some json /\ entry_from_json json
        = Some {| de_node_id := node; de_connected_at := ts; de_last_seen_unix := now |})
  /\ ((forall sid json, hash_at (keys r) (devices_key user) !! sid = Some json -> sid <> session ->
         last_seen json < now) -> (size devices <= MAX_DEVICES_PER_USER)%nat).
Proof.
  intros Hk. cbv zeta. destruct (register_sim now ts user node session r) as [-> ->].
  destruct (register_run now ts user node session (keys r) Hk) as (m' & value & -> & Hv & Hh). cbn [fst snd].
  cbv zeta in Hh. set (raw := <[session := value]> (hash_at (keys r) (devices_key user))) in *.
  assert (raw !! session = Some value) as Hs by apply lookup_insert_eq.
  rewrite Hh. destruct (Nat.ltb_spec MAX_DEVICES_PER_USER (size raw)) as [Hl|Hl].
  - destruct (registered_count raw session Hl) as [Hle Heq]. split_and!; [done|exact Hle| |].
    + exists value. by rewrite without_own.
    + intros Hold. rewrite Heq; [done|]. eapply latest_not_taken; [exact Hs|unfold MAX_DEVICES_PER_USER in *; lia|].
      intros sid json Hj Hne. unfold raw in Hj. rewrite lookup_insert_ne in Hj by done.
      unfold last_seen at 2. rewrite Hv. by apply (Hold sid).
  - split_and!; [done|lia|by exists value|done].
Qed.

(** C39: a counter that never expires.  When the counter of a sender for a
    recipient has come to thirty without an expiry, every further message of the
    sender for a device of that recipient is refused, whatever the broker is
    asked to do and however much time passes. *)
Theorem counter_sticks s t cs (r : R) sid msg :
  stuck s t (keys r) -> exists e, (queue_offline_message s t sid msg (performed cs r)).1 = Err e.
Proof.
  intros Hs. destruct (queue_sim s t sid msg (performed cs r)) as [-> _]. rewrite performed_keys.
  apply (performed_stuck s t cs), (queue_stuck s t s t sid msg) in Hs as [_ He]. by apply He.
Qed.
End Promises.

(** A message that is queued between the two commands of a drain is deleted
    unread. *)
Lemma drain_race_loses user sid msg (m m' : Store) :
  list_key m (queue_key user sid) -> list_at m (queue_key user sid) <> [] ->
  b_rpush (queue_key user sid) msg m = (Ok tt, m') ->
  exists messages m'', drain_read (queue_key user sid) m = (Ok messages, m)
    /\ drain_delete (queue_key user sid) messages m' = (Ok tt, m'')
    /\ list_at m' (queue_key user sid) = messages ++ [msg] /\ list_at m'' (queue_key user sid) = [].
Proof.
  intros Hk Hl Hp. exists (list_at m (queue_key user sid)), (delete (queue_key user sid) m'). split_and!.
  - unfold drain_read. erewrite M_bind_ok by reflexivity. by apply lrange_run.
  - unfold drain_delete. by destruct (list_at m (queue_key user sid)).
  - by apply rpush_run in Hp as [_ ?].
  - by rewrite list_at_delete, decide_True.
Qed.

Lemma queue_write_list s t sid msg gc pc depth (m m' : Store) :
  queue_write s t sid msg gc pc depth m = (Ok tt, m') ->
  list_at m' (queue_key t sid) = list_at m (queue_key t sid) ++ [msg].
Proof.
  unfold queue_write. rewrite !pipeline_expire, pipeline_push. intros E.
  pose proof (f_equal fst E) as Hr. apply (f_equal snd) in E. cbn [fst snd] in Hr, E. subst m'.
  rewrite if_expire_list. set (m4 := if pc =? 1 then _ else _) in *.
  destruct (rpush_run (queue_key t sid) msg m4 (b_rpush (queue_key t sid) msg m4).2) as [_ ->].
  - by rewrite <- Hr, <- surjective_pairing.
  - subst m4. by rewrite !if_expire_list.
Qed.

(** Two messages that are checked before either is written exceed the depth. *)
Lemma queue_race_exceeds s s' t sid msg1 msg2 (m m1 m2 : Store) gc pc gc' pc' :
  Z.of_nat (length (list_at m (queue_key t sid))) = 99 ->
  queue_check gc pc 99 = Ok tt -> queue_check gc' pc' 99 = Ok tt ->
  queue_write s t sid msg1 gc pc 99 m = (Ok tt, m1) -> queue_write s' t sid msg2 gc' pc' 99 m1 = (Ok tt, m2) ->
  Z.of_nat (length (list_at m2 (queue_key t sid))) = OFFLINE_QUEUE_MAX_DEPTH + 1.
Proof.
  intros Hl _ _ E1%queue_write_list E2%queue_write_list. rewrite E2, E1, !length_app. cbn [length].
  unfold OFFLINE_QUEUE_MAX_DEPTH. lia.
Qed.

(** ** Witnesses *)

Module BrokerWitness.
#[local] Existing Instance hash_order_canonical.

#[export] Instance store_broker_laws : BrokerRedisLaws Store.
Proof. refine {| keys := id |}; by intros. Defined.

(** A server that does not answer the commands marked in [fl_outages]. *)
Record Flaky := { fl_keys : Store; fl_outages : list bool }.
Definition flaky {A} (m : M ErrorType Store A) : M ErrorType Flaky A := fun f =>
  match fl_outages f with
  | true :: outages => (Err ErrorType.InternalError, {| fl_keys := fl_keys f; fl_outages := outages |})
  | outages => let '(a, keys) := m (fl_keys f) in (a, {| fl_keys := keys; fl_outages := tail outages |})
  end.
#[export] Instance flaky_broker : BrokerRedis Flaky := {|
  b_connect := flaky b_connect; b_get k := flaky (b_get k); b_set k n := flaky (b_set k n);
  b_incr k := flaky (b_incr k); b_del k := flaky (b_del k); b_expire k t := flaky (b_expire k t);
  b_hset k f v := flaky (b_hset k f v); b_hget k f := flaky (b_hget k f); b_hdel k f := flaky (b_hdel k f);
  b_hgetall k := flaky (b_hgetall k); b_llen k := flaky (b_llen k); b_lrange k := flaky (b_lrange k);
  b_rpush k v := flaky (b_rpush k v); b_elapse d := flaky (b_elapse d) |}.
Lemma flaky_may {A} (m : M ErrorType Store A) : may_fail fl_keys (flaky m) m.
Proof.
  intros f. unfold flaky. destruct (fl_outages f) as [|[] outages].
  2: { right. by eexists; split; [|left]. }
  all: left; by destruct (m (fl_keys f)).
Qed.
#[export] Instance flaky_fallible : BrokerRedisFallible Flaky.
Proof. refine {| keys_held := fl_keys |}; intros; apply flaky_may. Defined.

(** Entries as bits, and two texts that are JSON. *)
Fixpoint bits (p : positive) : string :=
  match p with xH => "" | xO p => "0" +:+ bits p | xI p => "1" +:+ bits p end.
Fixpoint unbits (s : string) : positive :=
  match s with
  | EmptyString => xH
  | String c s => if String.eqb (String c "") "0" then xO (unbits s) else xI (unbits s)
  end.
Lemma device_bits_inverse p : unbits (bits p) = p.
Proof.
  induction p as [p IH|p IH|]; [| |done].
  - change (xI (unbits (bits p)) = xI p). by rewrite IH.
  - change (xO (unbits (bits p)) = xO p). by rewrite IH.
Qed.

Definition envelope : string := envelope_start +:+ "}".
#[local] Instance json : BrokerJson := {|
  entry_to_json e := Some (bits (encode (de_node_id e, de_connected_at e, de_last_seen_unix e)));
  entry_from_json s :=
    '(node, at_, seen) ← decode (unbits s);
    Some {| de_node_id := node; de_connected_at := at_; de_last_seen_unix := seen |};
  event_to_json _ := None;
  event_from_json _ := None;
  value_from_json s :=
    if String.eqb s "old" then
      Some (Value.Object [("type", Value.String "Message"); ("channel", Value.String "c");
                          ("content", Value.String envelope)])
    else if String.eqb s envelope then Some (Value.Object [("e", Value.Number (JsonNumber.Integer 1))])
    else None |}.
#[local] Instance json_laws : BrokerJsonLaws.
Proof.
  intros [node ts seen]. eexists. split; [reflexivity|]. cbn [entry_from_json json].
  rewrite device_bits_inverse, decode_encode. reflexivity.
Qed.

Definition queue_of (l : list string) : Store :=
  {[ queue_key "bob" "phone" := {| ks_value := BrokerValue.List l; ks_ttl := None |} ]}.

Definition nearly_full : Store := queue_of (repeat "x" 99).
Definition checked_once : Store := (queue_read "alice" "bob" "phone" nearly_full).2.
Definition checked_twice : Store := (queue_read "carol" "bob" "phone" checked_once).2.

(** A call after another, and two pushes to a list that holds 99 messages of which
    both are checked before one is written. *)
Lemma queues_bounded_witness :
  list_at (performed [BrokerCall.Queue "alice" "bob" "phone" "hi"; BrokerCall.Elapse 5] (∅ : Store))
    (queue_key "bob" "phone") = ["hi"]
  /\ bounded (performed [BrokerCall.Queue "alice" "bob" "phone" "hi"; BrokerCall.Elapse 5] (∅ : Store))
  /\ exists r', rtc (race_step 2) (nearly_full, []) (r', [])
     /\ Z.of_nat (length (list_at r' (queue_key "bob" "phone"))) = 101
     /\ Z.of_nat (length (list_at r' (queue_key "bob" "phone"))) <= OFFLINE_QUEUE_MAX_DEPTH - 1 + 2.
Proof.
  split; [vm_compute; reflexivity|]. split.
  { refine (proj1 (queues_bounded (∅ : Store) _) [BrokerCall.Queue "alice" "bob" "phone" "hi"; BrokerCall.Elapse 5]).
    intros k. exact (within_limits_nil k). }
  assert (bounded nearly_full) as Hb.
  { intros k. unfold list_at, nearly_full, queue_of. destruct (decide (k = queue_key "bob" "phone")) as [->|Hk].
    - rewrite lookup_singleton_eq. split; [vm_compute; discriminate|]. apply Forall_forall. intros x Hx.
      apply list_elem_of_In, repeat_spec in Hx as ->. vm_compute. discriminate.
    - rewrite lookup_singleton_ne by done. exact (within_limits_nil k). }
  assert (exists r', rtc (race_step 2) (nearly_full, []) (r', [])
    /\ Z.of_nat (length (list_at r' (queue_key "bob" "phone"))) = 101) as (r' & Hr & Hl).
  { eexists. split.
    - eapply rtc_l; [apply (race_message 2 nearly_full checked_once [] "alice" "bob" "phone" "y" 1 1 99); vm_compute; reflexivity|].
      eapply rtc_l; [apply (race_message 2 checked_once checked_twice _ "carol" "bob" "phone" "z" 1 1 99); vm_compute; reflexivity|].
      eapply rtc_l; [apply (race_write 2 _ [])|]. eapply rtc_l; [apply (race_write 2 _ [])|]. apply rtc_refl.
    - vm_compute. reflexivity. }
  exists r'. split; [exact Hr|]. split; [exact Hl|].
  exact (proj1 (proj2 (queues_bounded nearly_full Hb) 2 r' [] (queue_key "bob" "phone") ltac:(lia) Hr)).
Defined.

(** A message from before the second purge of its channel is dropped. *)
Definition purged : Store :=
  performed [BrokerCall.SetEpoch "c" 2] (queue_of ["old"; "x"]).
Lemma drain_delivers_witness :
  (drain_offline_queue "bob" "phone" purged).1 = Ok ["x"]
  /\ list_at (drain_offline_queue "bob" "phone" purged).2 (queue_key "bob" "phone") = [].
Proof.
  destruct (drain_delivers "bob" "phone" purged) as (E & Hl & _).
  - intros st. vm_compute. intros [= <-]. eexists. reflexivity.
  - split; [rewrite E; vm_compute; reflexivity|exact Hl].
Defined.

Definition many : list BrokerCall := repeat (BrokerCall.Queue "alice" "bob" "phone" "hi") 40.
Lemma pair_budget_witness :
  accepted_in "alice" "bob" many (∅ : Store) = 30%nat
  /\ Z.of_nat (accepted_in "alice" "bob" many (∅ : Store)) <= 30.
Proof.
  split; [vm_compute; reflexivity|].
  eapply Z.le_trans; [apply (pair_budget "alice" "bob" many (∅ : Store))|].
  - intros c d Hc ->. apply list_elem_of_In, repeat_spec in Hc. discriminate.
  - vm_compute. discriminate.
  - vm_compute. discriminate.
Defined.

(** Nine devices that connect within a second are all kept. *)
Definition connected : Store :=
  performed (map (fun sid => BrokerCall.Register 7 "now" "bob" "n" sid)
               ["a"; "b"; "c"; "d"; "e"; "f"; "g"; "h"]) ∅.
Lemma device_cap_witness :
  let res := register_user 7 "now" "bob" "n" "i" connected in
  size (hash_at connected (devices_key "bob")) = 8%nat
  /\ res.1 = Ok tt /\ (size (hash_at (keys res.2) (devices_key "bob")) <= MAX_DEVICES_PER_USER + 1)%nat.
Proof.
  cbv zeta. split; [vm_compute; reflexivity|].
  destruct (device_cap 7 "now" "bob" "n" "i" connected) as (Hr & Hs & _).
  - intros st. vm_compute. intros [= <-]. eexists. reflexivity.
  - split; [exact Hr|exact Hs].
Defined.

(** Thirty messages for a full queue; then the queue is drained and days pass. *)
Definition refused : Store :=
  performed (repeat (BrokerCall.Queue "alice" "bob" "phone" "hi") 30) (queue_of (repeat "x" 100)).
Lemma counter_sticks_witness :
  list_at (performed [BrokerCall.Drain "bob" "phone"; BrokerCall.Elapse 1000000] refused)
    (queue_key "bob" "phone") = []
  /\ exists e, (queue_offline_message "alice" "bob" "phone" "hi"
        (performed [BrokerCall.Drain "bob" "phone"; BrokerCall.Elapse 1000000] refused)).1 = Err e.
Proof.
  split; [vm_compute; reflexivity|].
  apply (counter_sticks "alice" "bob" [BrokerCall.Drain "bob" "phone"; BrokerCall.Elapse 1000000] refused).
  exists 30. split; [vm_compute; reflexivity|reflexivity].
Defined.
End BrokerWitness.
