(* ===== verification/BeaconAuth.v ===== *)
(** * Who may talk to the beacon server
    ([company-beacon-signal/src/handlers.rs], [main.rs], [messages.rs])

    Three checks stand before the registry of [Beacon].  The upgrade to a
    WebSocket needs, when the server has a secret, an HMAC over the peer id and
    the time, or a session token that the endpoint [auth] handed out for such an
    HMAC.  Every message passes a token bucket.  Every message carries a JWT that
    is signed with the key in its own header.  HMAC, Base64, JSON and Ed25519 are
    libraries: arguments and the class [Tokens], with the laws [TokenLaws].  The
    clocks are arguments: seconds since 1970, and a monotonic clock in
    nanoseconds.  The [f64] arithmetic of the bucket is taken exactly, in units
    of a billionth of a token.

    The theorems: who is admitted with a session token shows it for the first
    time, and it was handed out for a valid HMAC ([sessions_admit_once]); within
    any span of time a connection passes at most ten messages, and ten more for
    each second ([limiter_bound]); a token that is accepted was signed by the key
    it carries and has not expired ([accepted_token_signed]); and every key pair
    makes an acceptable token for every peer ([any_key_claims_any_peer]). *)

From Stdlib Require Import Ascii DecimalString DecimalN.
From S2P Require Import Prelude Beacon Redis.

(** ** The HMAC of the client *)

(** [str::parse::<u64>] *)
Definition parse_u64 (s : string) : option Z :=
  match strip_plus s with
  | EmptyString => None
  | s' =>
      u ← NilEmpty.uint_of_string s';
      let n := Z.of_N (N.of_uint u) in
      if n <? 2 ^ 64 then Some n else None
  end.

Record AuthRequest := {
  ar_peer_id : string;
  ar_timestamp : string;
  ar_hmac : string }.

(** The status and the body: [AuthResponse] or [AuthError]. *)
Module AuthReply.
Inductive AuthReply : Type :=
| Unauthorized (code : string)
| ServiceUnavailable (code : string)
| SessionToken (session_token : string).
End AuthReply.
Abbreviation AuthReply := AuthReply.AuthReply.

(** The headers of the upgrade request, and the query parameter [session]. *)
Record Upgrade := {
  up_hmac : option string;
  up_timestamp : option string;
  up_peer_id : option string;
  up_session : option string }.

(** How the upgrade is admitted, or the reason of the 401. *)
Module Admission.
Inductive Admission : Type :=
| OpenServer
| ByHmac (peer_id : string)
| BySession (token : string)
| Refused (reason : string).
End Admission.
Abbreviation Admission := Admission.Admission.

Section Handshake.
(** [URL_SAFE_NO_PAD.encode(Hmac::<Sha256>(secret, message))] *)
Context (mac : string -> string -> string).

Definition verify_client_hmac (now_secs : Z) (peer_id timestamp_str hmac_header secret : string) : bool :=
  match parse_u64 timestamp_str with
  | Some timestamp =>
      if 30 <? Z.abs (now_secs - timestamp) then false
      else bool_decide (hmac_header = mac secret (peer_id +:+ ":" +:+ timestamp_str))
  | None => false
  end.

(** [token] is the fresh UUID. *)
Definition auth_handler (signal_secret : option string) (now_secs now : Z) (token : string) (body : AuthRequest)
    (sessions : SessionStore) : AuthReply * SessionStore :=
  let refused :=
    match signal_secret with
    | Some secret => negb (verify_client_hmac now_secs (ar_peer_id body) (ar_timestamp body) (ar_hmac body) secret)
    | None => false
    end in
  if refused then (AuthReply.Unauthorized "AUTH_FAILED", sessions)
  else
    match session_insert now sessions token (ar_peer_id body) with
    | (true, sessions) => (AuthReply.SessionToken token, sessions)
    | (false, sessions) => (AuthReply.ServiceUnavailable "CAPACITY", sessions)
    end.

Definition ws_handler (signal_secret : option string) (now_secs now : Z) (u : Upgrade) (sessions : SessionStore)
    : Admission * SessionStore :=
  match signal_secret with
  | None => (Admission.OpenServer, sessions)
  | Some secret =>
      match up_hmac u, up_timestamp u, up_peer_id u with
      | Some hmac_val, Some ts, Some pid =>
          if verify_client_hmac now_secs pid ts hmac_val secret then (Admission.ByHmac pid, sessions)
          else (Admission.Refused "invalid hmac", sessions)
      | _, _, _ =>
          match up_session u with
          | None => (Admission.Refused "missing auth", sessions)
          | Some session_token =>
              match consume now sessions session_token with
              | (Some _, sessions) => (Admission.BySession session_token, sessions)
              | (None, sessions) => (Admission.Refused "invalid session", sessions)
              end
          end
      end
  end.

(** [std::env::var("SIGNAL_SECRET").ok().filter(|s| !s.is_empty())] *)
Definition configured_secret (SIGNAL_SECRET : option string) : option string :=
  match SIGNAL_SECRET with Some "" => None | s => s end.
End Handshake.

(** ** The token bucket *)

Record RateLimiter := {
  rl_tokens : Z;
  rl_last_refill : Z }.

Definition one_token : Z := 10 ^ 9.
Definition max_tokens : Z := 10 * one_token.
Definition refill_rate : Z := 10.

Definition RateLimiter_new (now : Z) : RateLimiter := {| rl_tokens := max_tokens; rl_last_refill := now |}.

(** [elapsed] in nanoseconds times tokens per second is in billionths of a
    token; [duration_since] saturates. *)
Definition allow (now : Z) (self : RateLimiter) : bool * RateLimiter :=
  let elapsed := Z.max 0 (now - rl_last_refill self) in
  let tokens := Z.min (rl_tokens self + elapsed * refill_rate) max_tokens in
  if one_token <=? tokens then (true, {| rl_tokens := tokens - one_token; rl_last_refill := now |})
  else (false, {| rl_tokens := tokens; rl_last_refill := now |}).

(** ** The token of a message *)

Record JwtHeader := {
  jh_alg : string;
  jh_pubkey : string }.
Record JwtClaims := {
  jc_sub : option string;
  jc_exp : option Z }.

(** [base64], [serde_json] and [ed25519_dalek]; bytes are strings. *)
Class Tokens := {
  VerifyingKey : Type;
  b64_decode : string -> option string;
  header_from_json : string -> option JwtHeader;
  claims_from_json : string -> option JwtClaims;
  key_from_bytes : string -> option VerifyingKey;
  verify : VerifyingKey -> string -> string -> bool }.

(** [<[u8; n]>::try_from] *)
Definition sized (n : nat) (s : string) : option string :=
  if bool_decide (String.length s = n) then Some s else None.

(** The [sub] claim; [None] is [Err("AUTH_FAILED")]. *)
Definition validate_token `{Tokens} (now_secs : Z) (token : string) : option string :=
  match split_on "." token with
  | [part0; part1; part2] =>
      header_bytes ← b64_decode part0;
      header ← header_from_json header_bytes;
      if bool_decide (jh_alg header <> "EdDSA") then None else
      pubkey_bytes ← b64_decode (jh_pubkey header);
      pubkey_array ← sized 32 pubkey_bytes;
      verifying_key ← key_from_bytes pubkey_array;
      sig_bytes ← b64_decode part2;
      signature ← sized 64 sig_bytes;
      if negb (verify verifying_key (part0 +:+ "." +:+ part1) signature) then None else
      claims_bytes ← b64_decode part1;
      claims ← claims_from_json claims_bytes;
      match jc_exp claims with
      | Some exp => if exp <? now_secs then None else jc_sub claims
      | None => jc_sub claims
      end
  | _ => None
  end.

(** ** One text message *)

(** The message as JSON gives it, with its token. *)
Module RawMessage.
Inductive RawMessage : Type :=
| Register (peer_id : string) (file_hashes : list string) (multiaddr : option string) (token : string)
| Resolve (hash token : string)
| Signal (to_peer_id payload token : string)
| Leave.
End RawMessage.
Abbreviation RawMessage := RawMessage.RawMessage.

Definition checked `{Tokens} (now_secs : Z) (raw : RawMessage) : InboundMessage :=
  match raw with
  | RawMessage.Register _ file_hashes multiaddr token =>
      InboundMessage.Register (validate_token now_secs token) file_hashes multiaddr
  | RawMessage.Resolve hash token => InboundMessage.Resolve hash (validate_token now_secs token)
  | RawMessage.Signal to_peer_id payload token =>
      InboundMessage.Signal to_peer_id payload (validate_token now_secs token)
  | RawMessage.Leave => InboundMessage.Leave
  end.

(** The limiter is asked first; [from_json] is [serde_json::from_str]. *)
Definition on_text `{Tokens} `{HashOrder} (from_json : string -> option RawMessage) (now_secs now : Z) (conn : nat)
    (text : string) (limiter : RateLimiter) (w : Signalling) : RateLimiter * Signalling :=
  let '(allowed, limiter) := allow now limiter in
  (limiter, on_frame conn (Frame.Text (negb allowed) (checked now_secs <$> from_json text)) w).

(** ** Admission *)

Section Admissions.
Context (mac : string -> string -> string) (secret : string).

(** The sessions, the tokens that were handed out with the request and the time
    of the clock, and the tokens that admitted a connection. *)
Record Gate := {
  ga_sessions : SessionStore;
  ga_issued : list (string * AuthRequest * Z);
  ga_admitted : list string }.
Definition gate_start : Gate := {| ga_sessions := ∅; ga_issued := []; ga_admitted := [] |}.

Definition auth_request (now_secs now : Z) (token : string) (body : AuthRequest) (g : Gate) : Gate :=
  match auth_handler mac (Some secret) now_secs now token body (ga_sessions g) with
  | (AuthReply.SessionToken token, sessions) =>
      {| ga_sessions := sessions; ga_issued := (token, body, now_secs) :: ga_issued g; ga_admitted := ga_admitted g |}
  | (_, sessions) => {| ga_sessions := sessions; ga_issued := ga_issued g; ga_admitted := ga_admitted g |}
  end.
Definition upgrade_request (now_secs now : Z) (u : Upgrade) (g : Gate) : Gate :=
  match ws_handler mac (Some secret) now_secs now u (ga_sessions g) with
  | (Admission.BySession token, sessions) =>
      {| ga_sessions := sessions; ga_issued := ga_issued g; ga_admitted := token :: ga_admitted g |}
  | (_, sessions) => {| ga_sessions := sessions; ga_issued := ga_issued g; ga_admitted := ga_admitted g |}
  end.

(** Requests in any order, at any time; a drawn UUID is new. *)
Inductive gate_step (g : Gate) : Gate -> Prop :=
| gate_auth now_secs now token body :
    token ∉ map (fun i => i.1.1) (ga_issued g) -> gate_step g (auth_request now_secs now token body g)
| gate_upgrade now_secs now u : gate_step g (upgrade_request now_secs now u g).

Definition gate_ok (g : Gate) : Prop :=
  Forall (fun '(_, body, when) =>
    verify_client_hmac mac when (ar_peer_id body) (ar_timestamp body) (ar_hmac body) secret = true) (ga_issued g)
  /\ (forall t e, ga_sessions g !! t = Some e -> t ∈ map (fun i => i.1.1) (ga_issued g)
       /\ (t ∈ ga_admitted g -> se_used e = true))
  /\ (forall t, t ∈ ga_admitted g -> t ∈ map (fun i => i.1.1) (ga_issued g))
  /\ NoDup (ga_admitted g).

Lemma evict_lookup now (s : SessionStore) t e : evict_expired now s !! t = Some e -> s !! t = Some e.
Proof. unfold evict_expired. by intros [? _]%map_lookup_filter_Some. Qed.

Lemma auth_ok now_secs now token body g :
  token ∉ map (fun i => i.1.1) (ga_issued g) -> gate_ok g -> gate_ok (auth_request now_secs now token body g).
Proof.
  intros Hnew (Hi & Hs & Ha & Hd). unfold auth_request, auth_handler.
  destruct (verify_client_hmac mac now_secs _ _ _ secret) eqn:Ev; simpl; [|by split_and!].
  unfold session_insert. destruct (MAX_SESSIONS <=? _).
  - split_and!; [done| |done|done]. intros t e He%evict_lookup. by eapply Hs.
  - split_and!; simpl; [by constructor| | |done].
    + intros t e [[<- <-]|[Hne He%evict_lookup]]%lookup_insert_Some.
      * split; [by left|]. intros Hin%Ha. by destruct Hnew.
      * destruct (Hs t e He) as [H1 H2]. split; [by right|done].
    + intros t Hin%Ha. by right.
Qed.

Lemma consumed_ok now g t p s :
  gate_ok g -> consume now (ga_sessions g) t = (Some p, s) ->
  gate_ok {| ga_sessions := s; ga_issued := ga_issued g; ga_admitted := t :: ga_admitted g |}.
Proof.
  intros (Hi & Hs & Ha & Hd) E. unfold consume in E.
  destruct (ga_sessions g !! t) as [e|] eqn:Et; [|done]. destruct (se_used e) eqn:Eu; [done|].
  destruct (_ <=? _); [done|]. injection E as _ <-. destruct (Hs t e Et) as [Hiss Hadm].
  split_and!; simpl; [done| | |].
  - intros t' e' [[<- <-]|[Hne He]]%lookup_insert_Some; [by split|].
    destruct (Hs t' e' He) as [H1 H2]. split; [done|]. intros [->|Hin]%elem_of_cons; [done|by apply H2].
  - intros t' [->|Hin]%elem_of_cons; [done|by apply Ha].
  - constructor; [|done]. intros Hin%Hadm. congruence.
Qed.

Lemma gate_step_ok g g' : gate_step g g' -> gate_ok g -> gate_ok g'.
Proof.
  intros [now_secs now token body Hnew|now_secs now u] Hg; [by apply auth_ok|].
  unfold upgrade_request, ws_handler. destruct Hg as (Hi & Hs & Ha & Hd).
  assert (gate_ok g) as Hg by by split_and!.
  assert (forall t, (fun '(a, sessions) => gate_ok (match a with
      | Admission.BySession token =>
          {| ga_sessions := sessions; ga_issued := ga_issued g; ga_admitted := token :: ga_admitted g |}
      | _ => {| ga_sessions := sessions; ga_issued := ga_issued g; ga_admitted := ga_admitted g |}
      end)) (match consume now (ga_sessions g) t with
             | (Some _, sessions) => (Admission.BySession t, sessions)
             | (None, sessions) => (Admission.Refused "invalid session", sessions)
             end)) as Hc.
  { intros t. destruct (consume now (ga_sessions g) t) as [[p|] s] eqn:E; [by eapply consumed_ok|].
    assert (s = ga_sessions g) as ->; [|by split_and!]. unfold consume in E.
    destruct (ga_sessions g !! t) as [e|]; [|congruence]. destruct (se_used e); [congruence|].
    destruct (_ <=? _); congruence. }
  destruct (up_session u) as [t|]; [specialize (Hc t); destruct (consume _ _ t) as [[]]|];
    destruct (up_hmac u), (up_timestamp u), (up_peer_id u); try exact Hc; try (by split_and!);
    destruct (verify_client_hmac _ _ _ _ _ _); by split_and!.
Qed.

(** C27: A server with a secret admits with a session token at most once per
    token, and only with tokens that it handed out for a request whose HMAC was
    made with the secret and whose time was within thirty seconds: whatever
    requests come in, in any order and at any time. *)
Theorem sessions_admit_once g :
  rtc gate_step gate_start g ->
  NoDup (ga_admitted g)
  /\ forall t, t ∈ ga_admitted g -> exists body when timestamp,
       (t, body, when) ∈ ga_issued g /\ parse_u64 (ar_timestamp body) = Some timestamp
       /\ Z.abs (when - timestamp) <= 30
       /\ ar_hmac body = mac secret (ar_peer_id body +:+ ":" +:+ ar_timestamp body).
Proof.
  intros Hr. assert (gate_ok g) as (Hi & Hs & Ha & Hd).
  { assert (gate_ok gate_start) as H0 by (split_and!; simpl; [constructor|done|done|constructor]).
    revert H0. induction Hr as [|g1 g2 g3 Hstep _ IH]; [done|]. intros H1. by eapply IH, gate_step_ok. }
  split; [done|]. intros t ([[t' body] when] & -> & Hin)%Ha%list_elem_of_fmap.
  rewrite Forall_forall in Hi. specialize (Hi _ Hin). simpl in Hi. unfold verify_client_hmac in Hi.
  destruct (parse_u64 (ar_timestamp body)) as [ts|] eqn:Ep; [|done].
  destruct (Z.ltb_spec 30 (Z.abs (when - ts))); [done|]. apply bool_decide_eq_true in Hi.
  exists body, when, ts. by split_and!.
Qed.
End Admissions.

(** ** The limit on messages *)

(** The messages that pass, when messages arrive at the given times. *)
Fixpoint passed (times : list Z) (l : RateLimiter) : Z * RateLimiter :=
  match times with
  | [] => (0, l)
  | now :: times =>
      let '(ok, l) := allow now l in
      let '(n, l) := passed times l in
      ((if ok then 1 else 0) + n, l)
  end.

(** Times that do not go back, up to [last]. *)
Fixpoint rising (from : Z) (times : list Z) (last : Z) : Prop :=
  match times with
  | [] => from <= last
  | now :: times => from <= now /\ rising now times last
  end.

Lemma rising_le from times last : rising from times last -> from <= last.
Proof. revert from. induction times as [|t times IH]; intros from; [done|]. simpl. intros [H1 H2%IH]. lia. Qed.

Lemma passed_bound times l last :
  rising (rl_last_refill l) times last -> rl_tokens l <= max_tokens ->
  let '(n, l') := passed times l in
  n * one_token + rl_tokens l' <= rl_tokens l + (last - rl_last_refill l) * refill_rate
  /\ (0 <= rl_tokens l -> 0 <= rl_tokens l').
Proof.
  revert l. induction times as [|now times IH]; intros l Hr Hm; cbn [passed rising] in *.
  { unfold refill_rate. split; [|done]. lia. }
  destruct Hr as [Hnow Hr]. unfold allow. set (tokens := Z.min _ _).
  assert (tokens <= max_tokens /\ tokens <= rl_tokens l + (now - rl_last_refill l) * refill_rate
          /\ (0 <= rl_tokens l -> 0 <= tokens)) as (H1 & H2 & H3).
  { unfold tokens, refill_rate, max_tokens, one_token. lia. }
  destruct (Z.leb_spec one_token tokens) as [Hle|Hlt].
  - specialize (IH {| rl_tokens := tokens - one_token; rl_last_refill := now |}). simpl in IH.
    destruct (passed times _) as [n l']. destruct IH as [H4 H5]; [done|unfold one_token in *; lia|].
    unfold refill_rate, one_token in *. lia.
  - specialize (IH {| rl_tokens := tokens; rl_last_refill := now |}). simpl in IH.
    destruct (passed times _) as [n l']. destruct IH as [H4 H5]; [done|done|].
    unfold refill_rate, one_token in *. lia.
Qed.

(** However fast messages arrive, a connection passes at most ten of them,
    and ten more for each second since it opened. *)
Theorem limiter_bound opened times last :
  rising opened times last ->
  let n := fst (passed times (RateLimiter_new opened)) in
  n * 10 ^ 9 <= 10 * 10 ^ 9 + 10 * (last - opened).
Proof.
  intros Hr. pose proof (passed_bound times (RateLimiter_new opened) last Hr) as Hb.
  destruct (passed times (RateLimiter_new opened)) as [n l']. simpl in *.
  destruct Hb as [H1 H2]; [done|]. unfold max_tokens, one_token, refill_rate in *. lia.
Qed.

(** A token is back after a tenth of a second. *)
Lemma limiter_refills now l :
  0 <= rl_tokens l -> rl_last_refill l + 10 ^ 8 <= now -> (allow now l).1 = true.
Proof.
  intros H0 H1. unfold allow. destruct (Z.leb_spec one_token
    (Z.min (rl_tokens l + Z.max 0 (now - rl_last_refill l) * refill_rate) max_tokens)) as [|Hlt]; [done|].
  unfold max_tokens, one_token, refill_rate in *. lia.
Qed.

(** ** Tokens *)

Section Signatures.
Context `{Tokens}.

(** A token that is accepted has three parts, and names in its header a key
    that verifies its signature over the first two; its claims are in the second
    part, and it has not expired. *)
Theorem accepted_token_signed now_secs tok sub :
  validate_token now_secs tok = Some sub ->
  exists part0 part1 part2 header pubkey key signature claims,
    split_on "." tok = [part0; part1; part2]
    /\ (b64_decode part0 ≫= header_from_json) = Some header /\ jh_alg header = "EdDSA"
    /\ b64_decode (jh_pubkey header) = Some pubkey /\ key_from_bytes pubkey = Some key
    /\ b64_decode part2 = Some signature /\ verify key (part0 +:+ "." +:+ part1) signature = true
    /\ (b64_decode part1 ≫= claims_from_json) = Some claims /\ jc_sub claims = Some sub
    /\ (forall exp, jc_exp claims = Some exp -> now_secs <= exp).
Proof.
  unfold validate_token. destruct (split_on "." tok) as [|p0 [|p1 [|p2 [|]]]] eqn:Es; try done.
  destruct (b64_decode p0) as [hb|] eqn:E0; simpl; [|done].
  destruct (header_from_json hb) as [header|] eqn:Eh; simpl; [|done].
  destruct (bool_decide (jh_alg header <> "EdDSA")) eqn:Ea; [done|]. apply bool_decide_eq_false in Ea.
  destruct (b64_decode (jh_pubkey header)) as [pk|] eqn:Ep; simpl; [|done].
  unfold sized. destruct (bool_decide (String.length pk = 32%nat)); simpl; [|done].
  destruct (key_from_bytes pk) as [key|] eqn:Ek; simpl; [|done].
  destruct (b64_decode p2) as [sg|] eqn:E2; simpl; [|done].
  destruct (bool_decide (String.length sg = 64%nat)); simpl; [|done].
  destruct (verify key (p0 +:+ "." +:+ p1) sg) eqn:Ev; simpl; [|done].
  destruct (b64_decode p1) as [cb|] eqn:E1; simpl; [|done].
  destruct (claims_from_json cb) as [claims|] eqn:Ec; simpl; [|done].
  intros Hsub. exists p0, p1, p2, header, pk, key, sg, claims.
  assert (jh_alg header = "EdDSA") by (by destruct (decide (jh_alg header = "EdDSA"))).
  assert (jc_sub claims = Some sub /\ forall exp, jc_exp claims = Some exp -> now_secs <= exp) as [Hs He].
  { destruct (jc_exp claims) as [exp|]; [|done]. destruct (Z.ltb_spec exp now_secs); [done|].
    split; [done|]. by intros ? [= <-]. }
  rewrite E0, E1. by split_and!.
Qed.

(** What the libraries promise to who makes a token: encodings are read back,
    Base64 has no full stop, and a signature of a key verifies. *)
Class TokenLaws := {
  SigningKey : Type;
  b64_encode : string -> string;
  header_to_json : JwtHeader -> string;
  claims_to_json : JwtClaims -> string;
  public_bytes : SigningKey -> string;
  sign : SigningKey -> string -> string;
  b64_reads : forall s, b64_decode (b64_encode s) = Some s;
  b64_no_stop : forall s, lacks "." (b64_encode s) = true;
  header_reads : forall h, header_from_json (header_to_json h) = Some h;
  claims_reads : forall c, claims_from_json (claims_to_json c) = Some c;
  public_sized : forall sk, String.length (public_bytes sk) = 32%nat;
  sign_sized : forall sk m, String.length (sign sk m) = 64%nat;
  sign_verifies : forall sk m, exists key, key_from_bytes (public_bytes sk) = Some key
    /\ verify key m (sign sk m) = true }.

(** The token that a client makes, as the tests do. *)
Definition make_token `{TokenLaws} (sk : SigningKey) (claims : JwtClaims) : string :=
  let header_b64 := b64_encode (header_to_json {| jh_alg := "EdDSA"; jh_pubkey := b64_encode (public_bytes sk) |}) in
  let claims_b64 := b64_encode (claims_to_json claims) in
  let signed_content := header_b64 +:+ "." +:+ claims_b64 in
  signed_content +:+ "." +:+ b64_encode (sign sk signed_content).

Lemma split_three a b c :
  lacks "." a = true -> lacks "." b = true -> lacks "." c = true ->
  split_on "." ((a +:+ "." +:+ b) +:+ "." +:+ c) = [a; b; c].
Proof.
  intros Ha Hb Hc. replace ((a +:+ "." +:+ b) +:+ "." +:+ c) with (a +:+ String "." (b +:+ String "." c)).
  - by rewrite !split_on_sep, split_on_lacks.
  - clear. induction a as [|x a IH]; [done|]. exact (f_equal (String x) IH).
Qed.

(** C38: Every key pair makes a token that is accepted for every peer id: nothing
    ties a peer to a key, so that whoever knows the id of a peer registers and
    signals in its name. *)
Theorem any_key_claims_any_peer `{TokenLaws} now_secs sk peer :
  validate_token now_secs (make_token sk {| jc_sub := Some peer; jc_exp := None |}) = Some peer.
Proof.
  unfold validate_token, make_token. cbv zeta. rewrite split_three by apply b64_no_stop.
  set (header := {| jh_alg := "EdDSA"; jh_pubkey := b64_encode (public_bytes sk) |}).
  set (claims := {| jc_sub := Some peer; jc_exp := None |}).
  set (content := b64_encode (header_to_json header) +:+ "." +:+ b64_encode (claims_to_json claims)).
  destruct (sign_verifies sk content) as (key & Hkey & Hv).
  rewrite (b64_reads (header_to_json header)). cbn [mbind option_bind]. rewrite header_reads. cbn [mbind option_bind].
  change (jh_pubkey header) with (b64_encode (public_bytes sk)). rewrite (b64_reads (public_bytes sk)).
  cbn [mbind option_bind]. unfold sized. rewrite (bool_decide_eq_true_2 _ (public_sized sk)). cbn [mbind option_bind].
  rewrite Hkey. cbn [mbind option_bind]. rewrite (b64_reads (sign sk content)). cbn [mbind option_bind].
  rewrite (bool_decide_eq_true_2 _ (sign_sized sk content)). cbn [mbind option_bind]. rewrite Hv. cbn [negb].
  rewrite (b64_reads (claims_to_json claims)). cbn [mbind option_bind]. by rewrite claims_reads.
Qed.
End Signatures.

(** ** Witnesses *)

Module BeaconAuthWitness.

(** Each bit as a character. *)
Definition bit (b : bool) : Ascii.ascii := if b then "1"%char else "0"%char.
Definition is_one (c : Ascii.ascii) : bool := Ascii.eqb c "1".
Fixpoint bits (s : string) : string :=
  match s with
  | EmptyString => EmptyString
  | String (Ascii b0 b1 b2 b3 b4 b5 b6 b7) s =>
      String (bit b0) (String (bit b1) (String (bit b2) (String (bit b3)
        (String (bit b4) (String (bit b5) (String (bit b6) (String (bit b7) (bits s))))))))
  end.
Fixpoint unbits (s : string) : option string :=
  match s with
  | EmptyString => Some EmptyString
  | String c0 (String c1 (String c2 (String c3 (String c4 (String c5 (String c6 (String c7 s))))))) =>
      s ← unbits s;
      Some (String (Ascii (is_one c0) (is_one c1) (is_one c2) (is_one c3)
                          (is_one c4) (is_one c5) (is_one c6) (is_one c7)) s)
  | _ => None
  end.

Lemma unbits_bits s : unbits (bits s) = Some s.
Proof.
  induction s as [|[b0 b1 b2 b3 b4 b5 b6 b7] s IH]; [done|]. cbn [bits unbits]. rewrite IH.
  by destruct b0, b1, b2, b3, b4, b5, b6, b7.
Qed.

Lemma bits_lack c s : c <> "0"%char -> c <> "1"%char -> lacks c (bits s) = true.
Proof.
  intros H0 H1. assert (forall b, negb (Ascii.eqb (bit b) c) = true) as Hb.
  { intros []; cbn [bit]; apply negb_true_iff, Ascii.eqb_neq; congruence. }
  induction s as [|[b0 b1 b2 b3 b4 b5 b6 b7] s IH]; [done|]. cbn [bits lacks]. by rewrite !Hb, IH.
Qed.

Definition header_text (h : JwtHeader) : string := bits (jh_alg h) +:+ String ":" (bits (jh_pubkey h)).
Definition read_header (s : string) : option JwtHeader :=
  match split_on ":" s with
  | [a; b] => alg ← unbits a; pubkey ← unbits b; Some {| jh_alg := alg; jh_pubkey := pubkey |}
  | _ => None
  end.

(** An absent claim is the word with the letter [n]. *)
Definition claim_text {A} (show : A -> string) (o : option A) : string :=
  match o with Some a => show a | None => "n" end.
Definition read_claim {A} (read : string -> option A) (s : string) : option (option A) :=
  if bool_decide (s = "n") then Some None else a ← read s; Some (Some a).
Definition int_text (n : Z) : string := NilEmpty.string_of_int (Z.to_int n).
Definition read_int (s : string) : option Z := i ← NilEmpty.int_of_string s; Some (Z.of_int i).
Definition claims_text (c : JwtClaims) : string :=
  claim_text bits (jc_sub c) +:+ String ":" (claim_text int_text (jc_exp c)).
Definition read_claims (s : string) : option JwtClaims :=
  match split_on ":" s with
  | [a; b] => sub ← read_claim unbits a; exp ← read_claim read_int b; Some {| jc_sub := sub; jc_exp := exp |}
  | _ => None
  end.

#[export] Instance toy_tokens : Tokens := {|
  VerifyingKey := string;
  b64_decode := unbits;
  header_from_json := read_header;
  claims_from_json := read_claims;
  key_from_bytes s := Some s;
  verify _ _ _ := true |}.

Lemma int_text_lacks n : lacks ":" (int_text n) = true.
Proof. unfold int_text. destruct n as [|p|p]; [done|..]; cbn [Z.to_int NilEmpty.string_of_int]; [|cbn [lacks]]; apply lacks_digits. Qed.

Lemma bits_not_n s : bits s <> "n".
Proof. destruct s as [|[b0 b1 b2 b3 b4 b5 b6 b7] s]; [done|]. cbn [bits]. intros [=]. Qed.

Lemma int_text_not_n n : int_text n <> "n".
Proof.
  intros E. assert (read_int (int_text n) = read_int "n") as E' by by rewrite E.
  unfold read_int, int_text in E'. rewrite NilEmpty.isi in E'. discriminate E'.
Qed.

#[export] Program Instance toy_laws : TokenLaws := {|
  SigningKey := unit;
  b64_encode := bits;
  header_to_json := header_text;
  claims_to_json := claims_text;
  public_bytes _ := "kkkkkkkkkkkkkkkkkkkkkkkkkkkkkkkk";
  sign _ _ := "ssssssssssssssssssssssssssssssssssssssssssssssssssssssssssssssss" |}.
Next Obligation. exact unbits_bits. Qed.
Next Obligation. intros s. by apply bits_lack. Qed.
Next Obligation.
  intros [alg pubkey]. unfold header_from_json, toy_tokens, read_header, header_text. cbn [jh_alg jh_pubkey].
  rewrite split_on_sep, split_on_lacks by (by apply bits_lack). cbn [mbind option_bind]. by rewrite !unbits_bits.
Qed.
Next Obligation.
  intros [sub exp]. unfold claims_from_json, toy_tokens, read_claims, claims_text. cbn [jc_sub jc_exp].
  assert (lacks ":" (claim_text bits sub) = true) as H1 by (destruct sub; [by apply bits_lack|done]).
  assert (lacks ":" (claim_text int_text exp) = true) as H2 by (destruct exp; [by apply int_text_lacks|done]).
  rewrite split_on_sep, split_on_lacks by done.
  assert (read_claim unbits (claim_text bits sub) = Some sub) as ->.
  { unfold read_claim, claim_text. destruct sub as [s|]; [|done].
    rewrite bool_decide_eq_false_2 by apply bits_not_n. by rewrite unbits_bits. }
  assert (read_claim read_int (claim_text int_text exp) = Some exp) as ->; [|done].
  unfold read_claim, claim_text. destruct exp as [n|]; [|done].
  rewrite bool_decide_eq_false_2 by apply int_text_not_n.
  unfold read_int, int_text. rewrite NilEmpty.isi. simpl. by rewrite DecimalZ.of_to.
Qed.
Next Obligation. done. Qed.
Next Obligation. done. Qed.
Next Obligation. intros sk m. by eexists. Qed.

Definition tok : string := make_token tt {| jc_sub := Some "peer"; jc_exp := Some 100 |}.

Lemma any_key_claims_any_peer_witness :
  validate_token 50 (make_token tt {| jc_sub := Some "victim"; jc_exp := None |}) = Some "victim".
Proof. exact (any_key_claims_any_peer 50 tt "victim"). Defined.

Lemma accepted_token_signed_witness :
  validate_token 101 tok = None
  /\ exists claims, jc_sub claims = Some "peer" /\ forall exp, jc_exp claims = Some exp -> 50 <= exp.
Proof.
  split; [vm_compute; reflexivity|].
  destruct (accepted_token_signed 50 tok "peer") as (p0 & p1 & p2 & h & pk & k & sg & claims & E).
  - vm_compute. reflexivity.
  - exists claims. split; apply E.
Defined.

Lemma limiter_bound_witness :
  fst (passed (replicate 20 5) (RateLimiter_new 0)) * 10 ^ 9 <= 10 * 10 ^ 9 + 10 * (5 - 0)
  /\ fst (passed (replicate 20 5) (RateLimiter_new 0)) = 10.
Proof.
  split; [|vm_compute; reflexivity].
  apply (limiter_bound 0 (replicate 20 5) 5). simpl. lia.
Defined.

Definition demo_mac (secret message : string) : string := secret +:+ message.
Definition good : AuthRequest := {| ar_peer_id := "peer"; ar_timestamp := "1000"; ar_hmac := "secretpeer:1000" |}.
Definition with_session : Upgrade :=
  {| up_hmac := None; up_timestamp := None; up_peer_id := None; up_session := Some "uuid" |}.
Definition g1 : Gate := auth_request demo_mac "secret" 1001 0 "uuid" good gate_start.
Definition g2 : Gate := upgrade_request demo_mac "secret" 1002 (10 ^ 9) with_session g1.
Definition g3 : Gate := upgrade_request demo_mac "secret" 1003 (2 * 10 ^ 9) with_session g2.

Lemma sessions_admit_once_witness :
  ga_admitted g3 = ["uuid"] /\ NoDup (ga_admitted g3)
  /\ exists body when timestamp, ("uuid", body, when) ∈ ga_issued g3
       /\ parse_u64 (ar_timestamp body) = Some timestamp /\ Z.abs (when - timestamp) <= 30.
Proof.
  assert (ga_admitted g3 = ["uuid"]) as E by (vm_compute; reflexivity).
  destruct (sessions_admit_once demo_mac "secret" g3) as [Hn Ht].
  - apply rtc_l with g1; [apply gate_auth; simpl; apply not_elem_of_nil|].
    apply rtc_l with g2; [apply gate_upgrade|]. apply rtc_once, gate_upgrade.
  - split; [exact E|]. split; [exact Hn|].
    destruct (Ht "uuid") as (body & when & ts & H1 & H2 & H3 & _); [rewrite E; by left|].
    by exists body, when, ts.
Defined.
End BeaconAuthWitness.
