(* ===== verification/Presence.v ===== *)
(** * Presence ([crates/core/presence/src/lib.rs], [operations.rs])

    Which users are online: a set of session numbers per user, the set of online
    users, and per region the set of its sessions, all in Redis.  The random
    number of a session is an argument.  Without a connection the operations
    fall through; a failed SADD or SREM is dropped, a failed SCARD, SMEMBERS or
    DEL panics.

    The theorems: while requests do not overlap the set of online users is
    exactly the set of users with a session, the operations report the first and
    the last session, clearing the region leaves nobody online; and how two
    overlapping requests lose a user. *)

From Stdlib Require Import Ascii.
From S2P Require Import Prelude Results ModelOps Redis.

Definition ONLINE_SET : string := "online".
Definition FLAG_BITS : Z := 1.
Definition u32_not (v : Z) : Z := Z.ldiff (2 ^ 32 - 1) v.

Section Operations.
Context {R : Type} `{Redis R} (REGION_KEY : string).
Local Abbreviation Rm := (M ErrorType R).

Definition __add_to_set_string (key value : string) : Rm unit := ignore_err (r_sadd key value).
Definition __add_to_set_u32 (key : string) (value : Z) : Rm unit :=
  ignore_err (r_sadd key (u32_to_string value)).
Definition __remove_from_set_string (key value : string) : Rm unit := ignore_err (r_srem key value).
Definition __remove_from_set_u32 (key : string) (value : Z) : Rm unit :=
  ignore_err (r_srem key (u32_to_string value)).
Definition __get_set_members_as_string (key : string) : Rm (list string) := expect (r_smembers key).
Definition __get_set_size (id : string) : Rm Z := expect (r_scard id).
Definition __delete_key (id : string) : Rm unit := expect (r_del [id]).

(** [if let Ok(mut conn) = get_connection().await { body } else { otherwise }] *)
Definition if_connected {A} (body : Rm A) (otherwise : A) : Rm A := fun r =>
  match r_connect r with
  | (Ok _, r1) => body r1
  | (Err _, r1) => (Ok otherwise, r1)
  | (Panicked, r1) => (Panicked, r1)
  end.

Definition session_key (user_id : string) (session_id : Z) : string :=
  user_id +:+ ":" +:+ u32_to_string session_id.

(** The number of a session: [rng] with the flags in the low bits. *)
Definition new_session_id (rng flags : Z) : Z :=
  Z.lor (Z.land rng (u32_not FLAG_BITS)) (Z.land flags FLAG_BITS).

Definition create_session (rng : Z) (user_id : string) (flags : Z) : Rm (bool * Z) :=
  if_connected (
    size ← __get_set_size user_id;
    let session_id := new_session_id rng flags in
    __add_to_set_u32 user_id session_id;;
    __add_to_set_string ONLINE_SET user_id;;
    __add_to_set_string REGION_KEY (session_key user_id session_id);;
    mret (size =? 0, session_id)) (false, 0).

(** [delete_session_internal] up to the reading of the size, and the rest. *)
Definition delete_session_removes (user_id : string) (session_id : Z) (skip_region : bool) : Rm bool :=
  __remove_from_set_u32 user_id session_id;;
  (if skip_region then mret tt
   else __remove_from_set_string REGION_KEY (session_key user_id session_id));;
  size ← __get_set_size user_id;
  mret (size =? 0).
Definition delete_session_goes_offline (user_id : string) (is_empty : bool) : Rm bool :=
  (if is_empty then __remove_from_set_string ONLINE_SET user_id else mret tt);;
  mret is_empty.

Definition delete_session_internal (user_id : string) (session_id : Z) (skip_region : bool) : Rm bool :=
  if_connected (
    is_empty ← delete_session_removes user_id session_id skip_region;
    delete_session_goes_offline user_id is_empty) false.

Definition delete_session (user_id : string) (session_id : Z) : Rm bool :=
  delete_session_internal user_id session_id false.

Definition is_online (user_id : string) : Rm bool :=
  if_connected (fun r =>
    match r_exists user_id r with
    | (Err _, r') => (Ok false, r')
    | res => res
    end) false.

Definition filter_online (user_ids : list string) : Rm (gset string) :=
  if bool_decide (user_ids = []) then mret ∅ else
  if_connected (fun r =>
    match r_smembers ONLINE_SET r with
    | (Ok members, r') => (Ok (list_to_set members ∩ list_to_set user_ids), r')
    | (Err _, r') => (Ok ∅, r')
    | (Panicked, r') => (Panicked, r')
    end) ∅.

(** One iteration of the loop of [clear_region]. *)
Definition clear_one (session : string) : Rm unit :=
  match split_on ":"%char session with
  | user_id :: session_id :: _ =>
      match parse_u32 session_id with
      | Some session_id => delete_session_internal user_id session_id true;; mret tt
      | None => mret tt
      end
  | _ => mret tt
  end.

Fixpoint clear_all (sessions : list string) : Rm unit :=
  match sessions with
  | [] => mret tt
  | session :: rest => clear_one session;; clear_all rest
  end.

Definition clear_region (region_id : option string) : Rm unit :=
  let region_id := default REGION_KEY region_id in
  expect r_connect;;
  sessions ← __get_set_members_as_string region_id;
  if bool_decide (sessions = []) then mret tt
  else clear_all sessions;; __delete_key region_id.
End Operations.

(** ** Consistency *)

Definition is_session (n : Z) : Prop := 0 <= n < 2 ^ 32.

Lemma new_session_id_range rng flags :
  is_session rng -> 0 <= flags -> is_session (new_session_id rng flags).
Proof.
  unfold is_session, new_session_id, u32_not, FLAG_BITS. intros Hr Hf.
  set (mask := Z.ldiff (2 ^ 32 - 1) 1). assert (0 <= mask) as Hm by (vm_compute; done).
  pose proof (Z.land_nonneg rng mask) as Ha. pose proof (Z.land_nonneg flags 1) as Hb.
  set (v := Z.lor _ _). assert (0 <= v) as Hv by (apply Z.lor_nonneg; lia).
  destruct (decide (v = 0)) as [->|Hne]; [lia|]. split; [done|]. apply Z.log2_lt_pow2; [lia|].
  unfold v. rewrite Z.log2_lor by lia.
  pose proof (Z.log2_land rng mask ltac:(lia) Hm). pose proof (Z.log2_land flags 1 Hf ltac:(lia)).
  change (Z.log2 1) with 0 in *.
  assert (Z.log2 rng < 32) as Hlog.
  { destruct (decide (rng = 0)) as [->|]; [done|]. apply Z.log2_lt_pow2; lia. }
  lia.
Qed.

Section Consistency.
Context {R : Type} `{RedisLaws R} (REGION_KEY : string).
Context (region_not_online : REGION_KEY <> ONLINE_SET).

(** A user id is neither of the two other keys and holds no colon. *)
Definition valid_user (u : string) : Prop :=
  lacks ":"%char u = true /\ u <> ONLINE_SET /\ u <> REGION_KEY.

Lemma session_key_split u n :
  valid_user u -> split_on ":"%char (session_key u n) = [u; u32_to_string n].
Proof.
  intros [Hu _]. unfold session_key.
  change (":" +:+ u32_to_string n) with (String ":"%char (u32_to_string n)).
  rewrite split_on_sep by done.
  by rewrite split_on_lacks by apply lacks_digits.
Qed.

Lemma session_key_inj u v m n :
  valid_user u -> valid_user v -> is_session m -> is_session n ->
  session_key u m = session_key v n -> u = v /\ m = n.
Proof.
  intros Hu Hv Hm Hn E. apply (f_equal (split_on ":"%char)) in E.
  rewrite !session_key_split in E by done. injection E as -> E. split; [done|].
  by apply u32_to_string_inj.
Qed.

(** The users with a session are the ones in the online set, and the region
    holds exactly their sessions. *)
Record presence_ok (m : gmap string RedisValue) : Prop := {
  po_online_key : set_key m ONLINE_SET;
  po_region_key : set_key m REGION_KEY;
  po_user_key : forall u, valid_user u -> set_key m u;
  po_online : forall u, valid_user u -> u ∈ set_at m ONLINE_SET <-> set_at m u <> ∅;
  po_sessions : forall u s, valid_user u -> s ∈ set_at m u ->
    exists n, is_session n /\ s = u32_to_string n;
  po_region : forall e, e ∈ set_at m REGION_KEY <->
    exists u n, valid_user u /\ is_session n /\ e = session_key u n
      /\ u32_to_string n ∈ set_at m u }.
#[local] Hint Resolve po_online_key po_region_key po_user_key : redis.

Lemma sadd_quiet k v r :
  set_key (keys r) k ->
  exists r', ignore_err (r_sadd k v) r = (Ok tt, r') /\ keys r' = add_to k v (keys r).
Proof. intros Hk. destruct (sadd_run k v r Hk) as (r' & E & Hr). exists r'. unfold ignore_err. by rewrite E. Qed.

Lemma srem_quiet k v r :
  set_key (keys r) k ->
  exists r', ignore_err (r_srem k v) r = (Ok tt, r') /\ keys r' = remove_from k v (keys r).
Proof. intros Hk. destruct (srem_run k v r Hk) as (r' & E & Hr). exists r'. unfold ignore_err. by rewrite E. Qed.

Lemma if_connected_run {A} (body : M ErrorType R A) other r : if_connected body other r = body r.
Proof. unfold if_connected. by rewrite connect_run. Qed.

Lemma size_run u r :
  set_key (keys r) u -> __get_set_size u r = (Ok (Z.of_nat (size (set_at (keys r) u))), r).
Proof. intros Hk. unfold __get_set_size, expect. by rewrite scard_run. Qed.

(** The keys after a session is created. *)
Definition created (u : string) (n : Z) (m : gmap string RedisValue) : gmap string RedisValue :=
  add_to REGION_KEY (session_key u n) (add_to ONLINE_SET u (add_to u (u32_to_string n) m)).

Lemma create_session_run rng u flags r :
  set_key (keys r) ONLINE_SET -> set_key (keys r) REGION_KEY -> set_key (keys r) u ->
  exists r', create_session REGION_KEY rng u flags r
             = (Ok (bool_decide (set_at (keys r) u = ∅), new_session_id rng flags), r')
    /\ keys r' = created u (new_session_id rng flags) (keys r).
Proof.
  intros Ho Hr Hu. unfold create_session. rewrite if_connected_run.
  erewrite M_bind_ok by (apply size_run; eauto with redis). rewrite size_at_zero. cbv zeta.
  set (n := new_session_id rng flags).
  destruct (sadd_quiet u (u32_to_string n) r) as (r1 & E1 & H1); [eauto with redis|].
  erewrite M_bind_ok by exact E1.
  destruct (sadd_quiet ONLINE_SET u r1) as (r2 & E2 & H2); [rewrite H1; eauto with redis|].
  erewrite M_bind_ok by exact E2.
  destruct (sadd_quiet REGION_KEY (session_key u n) r2) as (r3 & E3 & H3);
    [rewrite H2, H1; eauto with redis|].
  erewrite M_bind_ok by exact E3. exists r3. split; [done|]. by rewrite H3, H2, H1.
Qed.

(** The keys after a session is deleted. *)
Definition deleted (u : string) (n : Z) (skip : bool) (m : gmap string RedisValue)
    : gmap string RedisValue :=
  let m := remove_from u (u32_to_string n) m in
  let m := if skip then m else remove_from REGION_KEY (session_key u n) m in
  if bool_decide (set_at m u = ∅) then remove_from ONLINE_SET u m else m.

Lemma delete_session_run u n skip r :
  set_key (keys r) ONLINE_SET -> set_key (keys r) REGION_KEY -> set_key (keys r) u ->
  valid_user u ->
  exists r', delete_session_internal REGION_KEY u n skip r
             = (Ok (bool_decide (set_at (keys r) u ∖ {[ u32_to_string n ]} = ∅)), r')
    /\ keys r' = deleted u n skip (keys r).
Proof.
  intros Ho Hr Hu (_ & _ & Hreg). unfold delete_session_internal, delete_session_removes. rewrite if_connected_run.
  destruct (srem_quiet u (u32_to_string n) r Hu) as (r1 & E1 & H1).
  assert (exists r2, (if skip then mret tt
     else __remove_from_set_string REGION_KEY (session_key u n)) r1 = (Ok tt, r2)
     /\ keys r2 = if skip then keys r1 else remove_from REGION_KEY (session_key u n) (keys r1))
    as (r2 & E2 & H2).
  { destruct skip; [by exists r1|]. apply srem_quiet. rewrite H1. eauto with redis. }
  assert (set_key (keys r2) u /\ set_key (keys r2) ONLINE_SET) as [Hu2 Ho2]
    by (rewrite H2, H1; destruct skip; split; eauto with redis).
  erewrite M_bind_ok; [|erewrite M_bind_ok by exact E1; erewrite M_bind_ok by exact E2;
    erewrite M_bind_ok by (by apply size_run); reflexivity].
  rewrite size_at_zero.
  assert (set_at (keys r2) u = set_at (keys r) u ∖ {[ u32_to_string n ]}) as Hat.
  { rewrite H2, H1. destruct skip; rewrite ?set_at_remove; repeat case_decide; done. }
  unfold deleted. rewrite <- H1, <- H2, <- Hat. unfold delete_session_goes_offline.
  destruct (bool_decide (set_at (keys r2) u = ∅)).
  - destruct (srem_quiet ONLINE_SET u r2 Ho2) as (r3 & E3 & H3).
    erewrite M_bind_ok by exact E3. by exists r3.
  - by exists r2.
Qed.

Ltac key_cases :=
  rewrite ?set_at_add, ?set_at_remove; repeat case_decide; try congruence; try done.

Lemma set_at_created u n m :
  valid_user u ->
  set_at (created u n m) REGION_KEY = {[ session_key u n ]} ∪ set_at m REGION_KEY
  /\ set_at (created u n m) ONLINE_SET = {[ u ]} ∪ set_at m ONLINE_SET
  /\ forall v, valid_user v ->
       set_at (created u n m) v
       = if decide (v = u) then {[ u32_to_string n ]} ∪ set_at m u else set_at m v.
Proof using region_not_online.
  intros (_ & Hu1 & Hu2). unfold created. split_and!; [key_cases|key_cases|].
  intros v (_ & Hv1 & Hv2). key_cases.
Qed.

Lemma created_ok u n m :
  presence_ok m -> valid_user u -> is_session n -> presence_ok (created u n m).
Proof using region_not_online.
  intros [Ko Kr Ku Hon Hse Hre] Hu Hn.
  destruct (set_at_created u n m Hu) as (Er & Eo & Ev).
  constructor.
  - unfold created. eauto with redis.
  - unfold created. eauto with redis.
  - intros v Hv. unfold created. eauto with redis.
  - intros v Hv. rewrite Eo, (Ev v Hv), elem_of_union, elem_of_singleton.
    destruct (decide (v = u)) as [->|Hne]; [set_solver|]. rewrite <- Hon by done. tauto.
  - intros v s Hv. rewrite (Ev v Hv). destruct (decide (v = u)) as [->|]; [|by apply Hse].
    rewrite elem_of_union, elem_of_singleton. intros [->|Hs]; [by exists n|by apply (Hse u)].
  - intros e. rewrite Er, elem_of_union, elem_of_singleton, Hre. split.
    + intros [->|(v & k & Hv & Hk & -> & Hin)].
      * exists u, n. rewrite (Ev u Hu), decide_True by done. set_solver.
      * exists v, k. rewrite (Ev v Hv). destruct (decide (v = u)) as [->|]; set_solver.
    + intros (v & k & Hv & Hk & -> & Hin). rewrite (Ev v Hv) in Hin.
      destruct (decide (v = u)) as [->|]; [|right; eauto 10].
      apply elem_of_union in Hin as [Hin|Hin]; [|right; eauto 10].
      apply elem_of_singleton, u32_to_string_inj in Hin as ->; [by left|done|done].
Qed.

Lemma set_at_deleted u n m skip :
  valid_user u ->
  set_at (deleted u n skip m) REGION_KEY
    = (if skip then set_at m REGION_KEY else set_at m REGION_KEY ∖ {[ session_key u n ]})
  /\ set_at (deleted u n skip m) ONLINE_SET
     = (if bool_decide (set_at m u ∖ {[ u32_to_string n ]} = ∅)
        then set_at m ONLINE_SET ∖ {[ u ]} else set_at m ONLINE_SET)
  /\ forall v, valid_user v ->
       set_at (deleted u n skip m) v
       = if decide (v = u) then set_at m u ∖ {[ u32_to_string n ]} else set_at m v.
Proof using region_not_online.
  intros (_ & Hu1 & Hu2). unfold deleted.
  set (m1 := if skip then _ else _).
  assert (forall k, set_at m1 k = if decide (k = u) then set_at m u ∖ {[ u32_to_string n ]}
    else if decide (k = REGION_KEY) then
      (if skip then set_at m REGION_KEY else set_at m REGION_KEY ∖ {[ session_key u n ]})
    else set_at m k) as Hm1.
  { intros k. unfold m1. destruct skip; key_cases; subst; key_cases. }
  rewrite (Hm1 u), decide_True by done.
  split_and!.
  - destruct (bool_decide _); rewrite ?set_at_remove, ?Hm1; repeat case_decide; congruence.
  - destruct (bool_decide _); rewrite ?set_at_remove, ?Hm1; repeat case_decide; congruence.
  - intros v (_ & Hv1 & Hv2).
    destruct (bool_decide _); rewrite ?set_at_remove, ?Hm1; repeat case_decide; congruence.
Qed.

Lemma deleted_keys u n skip m k : set_key m k -> set_key (deleted u n skip m) k.
Proof. intros Hk. unfold deleted. destruct (bool_decide _), skip; eauto with redis. Qed.

Lemma deleted_ok u n m :
  presence_ok m -> valid_user u -> is_session n -> presence_ok (deleted u n false m).
Proof using region_not_online.
  intros [Ko Kr Ku Hon Hse Hre] Hu Hn.
  destruct (set_at_deleted u n m false Hu) as (Er & Eo & Ev).
  constructor; [by apply deleted_keys|by apply deleted_keys|..].
  - intros v Hv. by apply deleted_keys, Ku.
  - intros v Hv. rewrite Eo, (Ev v Hv). destruct (decide (v = u)) as [->|Hne].
    + case_bool_decide as Hem; [set_solver|]. rewrite Hon by done. set_solver.
    + case_bool_decide; [|by apply Hon]. rewrite elem_of_difference, elem_of_singleton, Hon by done.
      tauto.
  - intros v s Hv. rewrite (Ev v Hv). destruct (decide (v = u)) as [->|]; [|by apply Hse].
    intros [Hs _]%elem_of_difference. by apply (Hse u).
  - intros e. rewrite Er, elem_of_difference, elem_of_singleton, Hre. split.
    + intros [(v & k & Hv & Hk & -> & Hin) Hne]. exists v, k. rewrite (Ev v Hv).
      split_and!; try done. destruct (decide (v = u)) as [->|]; [|done].
      apply elem_of_difference. split; [done|]. rewrite elem_of_singleton. intros E.
      apply Hne. f_equal. by apply u32_to_string_inj.
    + intros (v & k & Hv & Hk & -> & Hin). rewrite (Ev v Hv) in Hin.
      destruct (decide (v = u)) as [->|Hvu].
      * apply elem_of_difference in Hin as [Hin Hnk]. split; [by exists u, k|].
        intros [_ ->]%session_key_inj; [|done..]. set_solver.
      * split; [by exists v, k|]. by intros [-> _]%session_key_inj.
Qed.

(** Requests that do not overlap. *)
Inductive presence_step (r : R) : R -> Prop :=
| presence_create rng u flags : valid_user u -> is_session rng -> 0 <= flags < 256 ->
    presence_step r (create_session REGION_KEY rng u flags r).2
| presence_delete u n : valid_user u -> is_session n ->
    presence_step r (delete_session REGION_KEY u n r).2.

Lemma presence_step_ok r r' : presence_ok (keys r) -> presence_step r r' -> presence_ok (keys r').
Proof using region_not_online.
  intros Hok [rng u flags Hu Hr Hf|u n Hu Hn].
  - destruct (create_session_run rng u flags r) as (r1 & -> & Hk); [eauto with redis..|]. simpl. rewrite Hk.
    apply created_ok; [done|done|]. apply new_session_id_range; [done|lia].
  - unfold delete_session.
    destruct (delete_session_run u n false r) as (r1 & -> & Hk); [eauto with redis..|done|].
    simpl. rewrite Hk. by apply deleted_ok.
Qed.

(** C34: While requests do not overlap the two questions about presence agree with
    the sessions: [filter_online] returns exactly the given users that have a
    session, and [is_online] is true of exactly those. *)
Theorem presence_consistent r r' ids :
  presence_ok (keys r) -> rtc presence_step r r' -> Forall valid_user ids ->
  exists online, filter_online ids r' = (Ok online, r')
    /\ forall u, u ∈ ids -> (u ∈ online <-> set_at (keys r') u <> ∅)
         /\ is_online u r' = (Ok (bool_decide (u ∈ online)), r').
Proof using region_not_online.
  intros Hok Hr Hids.
  assert (presence_ok (keys r')) as Hok'.
  { clear Hids. induction Hr as [|r1 r2 r3 Hs _ IH]; [done|]. by eapply IH, presence_step_ok. }
  clear r Hok Hr. destruct Hok' as [Ko Kr Ku Hon _ _].
  assert (exists online, filter_online ids r' = (Ok online, r')
    /\ forall u, u ∈ ids -> (u ∈ online <-> u ∈ set_at (keys r') ONLINE_SET)) as (online & E & Hin).
  { unfold filter_online. case_bool_decide as Hnil.
    - exists ∅. split; [done|]. intros u. rewrite Hnil. by intros ?%not_elem_of_nil.
    - rewrite if_connected_run. destruct (smembers_run ONLINE_SET r' Ko) as (l & -> & Hl).
      eexists. split; [done|]. intros u Hu. rewrite elem_of_intersection, !elem_of_list_to_set.
      rewrite Hl, elem_of_elements. tauto. }
  exists online. split; [done|]. intros u Hu.
  assert (valid_user u) as Hv by (by eapply (proj1 (Forall_forall _ _))).
  split; [by rewrite Hin, Hon by done|]. unfold is_online. rewrite if_connected_run, exists_run.
  rewrite (set_key_str_at _ _ (Ku u Hv)). simpl. do 2 f_equal.
  apply bool_decide_ext. by rewrite Hin, Hon.
Qed.

(** Clearing one session after the other: what is left is what the rest of the
    list names. *)
Lemma clear_all_run sessions r :
  (forall e, e ∈ sessions -> exists u n, valid_user u /\ is_session n /\ e = session_key u n) ->
  set_key (keys r) ONLINE_SET -> set_key (keys r) REGION_KEY ->
  (forall u, valid_user u -> set_key (keys r) u) ->
  (forall u, valid_user u -> u ∈ set_at (keys r) ONLINE_SET <-> set_at (keys r) u <> ∅) ->
  (forall u s, valid_user u -> s ∈ set_at (keys r) u ->
     exists n, is_session n /\ s = u32_to_string n /\ session_key u n ∈ sessions) ->
  exists r', clear_all REGION_KEY sessions r = (Ok tt, r')
    /\ set_key (keys r') ONLINE_SET /\ set_key (keys r') REGION_KEY
    /\ (forall u, valid_user u -> set_key (keys r') u)
    /\ forall u, valid_user u -> set_at (keys r') u = ∅ /\ u ∉ set_at (keys r') ONLINE_SET.
Proof using region_not_online.
  revert r. induction sessions as [|e l IH]; intros r Hl Ko Kr Ku Hon Hrest; simpl.
  - exists r. split_and!; [done..|]. intros u Hu.
    assert (set_at (keys r) u = ∅) as E.
    { apply leibniz_equiv, elem_of_equiv_empty. intros s Hs.
      destruct (Hrest u s Hu Hs) as (n & _ & _ & Hn). by apply not_elem_of_nil in Hn. }
    split; [done|]. rewrite Hon by done. tauto.
  - destruct (Hl e ltac:(by left)) as (u & n & Hu & Hn & ->).
    unfold clear_one. rewrite session_key_split, parse_u32_to_string by done.
    destruct (delete_session_run u n true r Ko Kr (Ku u Hu) Hu) as (r1 & E & Hk).
    destruct (set_at_deleted u n (keys r) true Hu) as (Er & Eo & Ev). rewrite <- Hk in *.
    erewrite M_bind_ok by (erewrite M_bind_ok by exact E; reflexivity). apply IH.
    + intros e He. apply Hl. by right.
    + rewrite Hk. by apply deleted_keys.
    + rewrite Hk. by apply deleted_keys.
    + intros v Hv. rewrite Hk. by apply deleted_keys, Ku.
    + intros v Hv. rewrite Eo, (Ev v Hv). destruct (decide (v = u)) as [->|Hne].
      * case_bool_decide as Hem; [rewrite Hem; set_solver|]. rewrite Hon by done. set_solver.
      * case_bool_decide; [|by apply Hon]. rewrite elem_of_difference, elem_of_singleton, Hon by done.
        tauto.
    + intros v s Hv Hs. rewrite (Ev v Hv) in Hs.
      assert (s ∈ set_at (keys r) v) as Hs' by (destruct (decide (v = u)) as [->|]; set_solver).
      destruct (Hrest v s Hv Hs') as (k & Hk' & -> & Hin). exists k. split; [done|]. split; [done|].
      apply elem_of_cons in Hin as [[-> ->]%session_key_inj|Hin]; [|done..].
      rewrite decide_True in Hs by done. set_solver.
Qed.

(** C37: After [clear_region] nobody is online: from every consistent state it
    returns, every session of every user is gone, no user is in the online set
    and the region is empty. *)
Theorem clear_region_clears r :
  presence_ok (keys r) ->
  exists r', clear_region REGION_KEY None r = (Ok tt, r')
    /\ set_at (keys r') REGION_KEY = ∅
    /\ forall u, valid_user u -> set_at (keys r') u = ∅ /\ u ∉ set_at (keys r') ONLINE_SET.
Proof using region_not_online.
  intros [Ko Kr Ku Hon Hse Hre]. unfold clear_region. simpl.
  erewrite M_bind_ok by (unfold expect; by rewrite connect_run).
  destruct (smembers_run REGION_KEY r Kr) as (l & E & Hl).
  erewrite M_bind_ok by (unfold __get_set_members_as_string, expect; by rewrite E).
  assert (forall e, e ∈ l <-> e ∈ set_at (keys r) REGION_KEY) as Hin
    by (intros e; by rewrite Hl, elem_of_elements).
  destruct (clear_all_run l r) as (r1 & E1 & Ko1 & Kr1 & Ku1 & Hclear).
  { intros e [u [n (? & ? & -> & _)]]%Hin%Hre. by exists u, n. }
  1-4: done.
  { intros u s Hu Hs. destruct (Hse u s Hu Hs) as (n & Hn & ->). exists n. split; [done|].
    split; [done|]. apply Hin, Hre. by exists u, n. }
  case_bool_decide as Hnil.
  - subst l. exists r. injection E1 as <-. split_and!; [done| |done].
    apply leibniz_equiv, elem_of_equiv_empty. intros e He%Hin. by apply not_elem_of_nil in He.
  - erewrite M_bind_ok by exact E1. unfold __delete_key, expect.
    destruct (del_run [REGION_KEY] r1) as (r2 & -> & Hr2). exists r2. simpl in Hr2.
    rewrite Hr2. split_and!; [done|by rewrite set_at_delete, decide_True|].
    intros u Hu. pose proof Hu as (_ & Hu1 & Hu2). rewrite !set_at_delete, !decide_False by congruence.
    by apply Hclear.
Qed.

(** ** Overlapping requests *)

(** A user who connects while their last session is being closed is lost:
    when [create_session] runs between the reading of the size and the rest of
    [delete_session], the user has a session, [is_online] says so, and the online
    set does not hold them. *)
Theorem overlapping_session_lost r u n rng flags :
  presence_ok (keys r) -> valid_user u -> is_session n ->
  set_at (keys r) u = {[ u32_to_string n ]} ->
  exists r1 r2 r3,
    delete_session_removes REGION_KEY u n false r = (Ok true, r1)
    /\ create_session REGION_KEY rng u flags r1 = (Ok (true, new_session_id rng flags), r2)
    /\ delete_session_goes_offline u true r2 = (Ok true, r3)
    /\ set_at (keys r3) u <> ∅ /\ u ∉ set_at (keys r3) ONLINE_SET.
Proof using region_not_online.
  intros [Ko Kr Ku Hon Hse Hre] Hu Hn Hset. pose proof Hu as (_ & Hu1 & Hu2).
  unfold delete_session_removes.
  destruct (srem_quiet u (u32_to_string n) r (Ku u Hu)) as (r0 & E0 & H0').
  destruct (srem_quiet REGION_KEY (session_key u n) r0) as (r1 & E1 & H1); [rewrite H0'; eauto with redis|].
  assert (set_at (keys r1) u = ∅) as Hemp
    by (rewrite H1, H0', !set_at_remove; repeat case_decide; try congruence; set_solver).
  assert (set_key (keys r1) ONLINE_SET /\ set_key (keys r1) REGION_KEY /\ set_key (keys r1) u)
    as (Ko1 & Kr1 & Ku1) by (rewrite H1, H0'; split_and!; eauto with redis).
  destruct (create_session_run rng u flags r1 Ko1 Kr1 Ku1) as (r2 & E2 & H2).
  rewrite Hemp, bool_decide_eq_true_2 in E2 by done.
  destruct (srem_quiet ONLINE_SET u r2) as (r3 & E3 & H3); [rewrite H2; unfold created; eauto with redis|].
  exists r1, r2, r3. split_and!.
  - erewrite M_bind_ok by exact E0. erewrite M_bind_ok by exact E1.
    erewrite M_bind_ok by (by apply size_run). by rewrite size_at_zero, Hemp, bool_decide_eq_true_2.
  - done.
  - unfold delete_session_goes_offline. by erewrite M_bind_ok by exact E3.
  - destruct (set_at_created u (new_session_id rng flags) (keys r1) Hu) as (_ & _ & Ev).
    rewrite H3, set_at_remove, decide_False, H2, (Ev u Hu), decide_True by done. set_solver.
  - rewrite H3, set_at_remove, decide_True by done. set_solver.
Qed.
End Consistency.

(** ** Witnesses *)

Module PresenceWitness.
Import RedisWitness.
Definition region : string := "region0".

Lemma region_not_online : region <> ONLINE_SET.
Proof. done. Qed.

Lemma empty_presence_ok : presence_ok region (∅ : Store).
Proof.
  assert (forall k, set_at (∅ : Store) k = ∅) as E by done.
  constructor; try (intros; intros [s Hs]; by rewrite lookup_empty in Hs).
  - intros u _. rewrite !E. set_solver.
  - intros u s _. rewrite E. set_solver.
  - intros e. rewrite E. split; [set_solver|]. intros (u & n & _ & _ & _ & Hin).
    rewrite E in Hin. set_solver.
Qed.

Definition alice_valid : valid_user region "alice".
Proof. by split_and!. Qed.
Definition bob_valid : valid_user region "bob".
Proof. by split_and!. Qed.

Definition r1 : Store := (create_session region 4 "alice" 1 ∅).2.

Lemma r1_reachable : rtc (presence_step region) (∅ : Store) r1.
Proof.
  apply rtc_once, presence_create; [exact alice_valid|unfold is_session; lia|lia].
Qed.

Lemma r1_ok : presence_ok region (keys r1).
Proof.
  eapply (presence_step_ok region region_not_online); [exact empty_presence_ok|].
  apply presence_create; [exact alice_valid|unfold is_session; lia|lia].
Qed.

Lemma presence_consistent_witness :
  exists online, filter_online ["alice"; "bob"] r1 = (Ok online, r1)
    /\ forall u, u ∈ ["alice"; "bob"] -> (u ∈ online <-> set_at (keys r1) u <> ∅)
         /\ is_online u r1 = (Ok (bool_decide (u ∈ online)), r1).
Proof.
  exact (presence_consistent region region_not_online ∅ r1 ["alice"; "bob"] empty_presence_ok
           r1_reachable (Forall_cons_2 _ _ _ alice_valid (Forall_cons_2 _ _ _ bob_valid (Forall_nil_2 _)))).
Defined.

Lemma clear_region_clears_witness :
  set_at (keys r1) "alice" = {[ "5" ]}
  /\ exists r', clear_region region None r1 = (Ok tt, r')
    /\ set_at (keys r') region = ∅
    /\ forall u, valid_user region u -> set_at (keys r') u = ∅ /\ u ∉ set_at (keys r') ONLINE_SET.
Proof.
  split; [vm_compute; reflexivity|].
  exact (clear_region_clears region region_not_online r1 r1_ok).
Defined.

Lemma overlapping_session_lost_witness :
  exists r2 r3 r4,
    delete_session_removes region "alice" 5 false r1 = (Ok true, r2)
    /\ create_session region 8 "alice" 0 r2 = (Ok (true, 8), r3)
    /\ delete_session_goes_offline "alice" true r3 = (Ok true, r4)
    /\ set_at (keys r4) "alice" <> ∅ /\ "alice" ∉ set_at (keys r4) ONLINE_SET.
Proof.
  apply (overlapping_session_lost region region_not_online r1 "alice" 5 8 0 r1_ok alice_valid).
  - unfold is_session. lia.
  - vm_compute. reflexivity.
Defined.
End PresenceWitness.
