(* ===== verification/Voice.v ===== *)
(** * Voice state ([crates/core/database/src/voice/mod.rs], [voice_client.rs])

    Who is in which voice channel, in Redis: per channel the set of its members
    and viewers, per user the set of channels, the set of active channels, and
    the flags of a voice state under the user and the server (or channel).  The
    state of a handler is [Services]: the [World], Redis and the calls made to
    the voice servers.  LiveKit is outside of the repository: [LiveKit] gives
    the result of a call.  The configured nodes, the limits of a user and the
    range of time stamps are arguments.

    The theorems: the state of a user who joins is read back, and gone when they
    leave; members and channels mirror each other and the active channels are
    the ones with members; a bot is refused in a second channel. *)

From Stdlib Require Import Ascii.
From S2P Require Import Prelude Results Permissions PermissionCalc Models ModelOps DbPermissions PermissionSpec ReferenceDb World Users Redis.

(** ** The voice servers *)

Record ParticipantPermission := {
  pp_can_subscribe : bool;
  pp_can_publish : bool;
  pp_can_publish_data : bool }.

Module LiveKitCall.
Inductive LiveKitCall : Type :=
| CreateRoom (node channel : string)
| UpdateParticipant (node channel user : string) (permission : ParticipantPermission)
| RemoveParticipant (node channel user : string)
| DeleteRoom (node channel : string).
End LiveKitCall.
Abbreviation LiveKitCall := LiveKitCall.LiveKitCall.

(** The grants of a token ([VideoGrants]). *)
Record VideoGrants := {
  vg_room : string;
  vg_can_publish : bool;
  vg_can_publish_data : bool;
  vg_can_publish_sources : list string;
  vg_can_subscribe : bool;
  vg_hidden : bool }.

(** [num_participants] is a field of the room a call to create it returns. *)
Class LiveKit := {
  livekit_result : LiveKitCall -> Result unit;
  num_participants : string -> string -> Z;
  to_jwt : string -> User -> VideoGrants -> Result string }.

Record Services (D R : Type) := {
  sv_world : World D;
  sv_redis : R;
  sv_livekit : list LiveKitCall }.
Arguments sv_world {D R}.
Arguments sv_redis {D R}.
Arguments sv_livekit {D R}.

Definition sv_set_world {D R} (w : World D) (s : Services D R) : Services D R :=
  {| sv_world := w; sv_redis := sv_redis s; sv_livekit := sv_livekit s |}.
Definition sv_set_redis {D R} (r : R) (s : Services D R) : Services D R :=
  {| sv_world := sv_world s; sv_redis := r; sv_livekit := sv_livekit s |}.

Section Effects.
Context {D R : Type}.
Local Abbreviation Vm := (M ErrorType (Services D R)).

Definition on_world {A} (m : M ErrorType (World D) A) : Vm A := fun s =>
  let '(a, w) := m (sv_world s) in (a, sv_set_world w s).

(** A computation on Redis, with its own errors. *)
Definition on_redis {A} (m : M ErrorType R A) : Vm A := fun s =>
  let '(a, r) := m (sv_redis s) in (a, sv_set_redis r s).

Definition to_internal_error {S A} (m : M ErrorType S A) : M ErrorType S A :=
  map_err ErrorType.InternalError m.

Lemma on_world_run {A} (m : M ErrorType (World D) A) (s : Services D R) :
  on_world m s = ((m (sv_world s)).1, sv_set_world (m (sv_world s)).2 s).
Proof. unfold on_world. by destruct (m (sv_world s)). Qed.

Lemma on_redis_run {A} (m : M ErrorType R A) (s : Services D R) :
  on_redis m s = ((m (sv_redis s)).1, sv_set_redis (m (sv_redis s)).2 s).
Proof. unfold on_redis. by destruct (m (sv_redis s)). Qed.

Context `{LiveKit} (nodes : gset string).

(** [VoiceClient]: the configured nodes. *)
Definition is_enabled : bool := negb (bool_decide (nodes = ∅)).
Definition get_node (name : string) : Vm unit :=
  if bool_decide (name ∈ nodes) then mret tt else throw ErrorType.UnknownNode.

(** A call to a node, kept in the log whatever its result. *)
Definition livekit_call (c : LiveKitCall) : Vm unit := fun s =>
  (match livekit_result c with
   | Ok _ => Ok tt
   | Err _ => Err ErrorType.InternalError
   | Panicked => Panicked
   end,
   {| sv_world := sv_world s; sv_redis := sv_redis s; sv_livekit := sv_livekit s ++ [c] |}).
Definition livekit (node : string) (c : LiveKitCall) : Vm unit := get_node node;; livekit_call c.

Definition create_room (node : string) (channel : Channel) : Vm unit :=
  livekit node (LiveKitCall.CreateRoom node (channel_id channel)).
Definition update_permissions (node : string) (user : User) (channel_id : string)
    (new_permissions : ParticipantPermission) : Vm unit :=
  livekit node (LiveKitCall.UpdateParticipant node channel_id (u_id user) new_permissions).
Definition remove_user (node user_id channel_id : string) : Vm unit :=
  livekit node (LiveKitCall.RemoveParticipant node channel_id user_id).
Definition delete_room (node channel_id : string) : Vm unit :=
  livekit node (LiveKitCall.DeleteRoom node channel_id).

(** [get_allowed_sources]; [video] is the limit of the user. *)
Definition get_allowed_sources (video : bool) (permissions : PermissionValue) : list string :=
  (if pv_has permissions ChannelPermission.Speak then ["microphone"] else [])
  ++ (if pv_has permissions ChannelPermission.Video && video
      then ["camera"; "screen_share"; "screen_share_audio"] else []).

Definition create_token (user_limits : User -> Result FeaturesLimits) (node : string) (user : User)
    (permissions : PermissionValue) (channel : Channel) : Vm string :=
  get_node node;;
  l ← lift_outcome (user_limits user);
  to_internal_error (lift_outcome (to_jwt node user {|
    vg_room := channel_id channel; vg_can_publish := true; vg_can_publish_data := false;
    vg_can_publish_sources := get_allowed_sources (fl_video l) permissions;
    vg_can_subscribe := has_channel_permission permissions ChannelPermission.Listen;
    vg_hidden := false |})).

Definition create_viewer_token (node : string) (user : User) (channel : Channel) : Vm string :=
  get_node node;;
  to_internal_error (lift_outcome (to_jwt node user {|
    vg_room := channel_id channel; vg_can_publish := false; vg_can_publish_data := false;
    vg_can_publish_sources := []; vg_can_subscribe := true; vg_hidden := true |})).
End Effects.

(** ** Redis state *)

Definition vc_members (channel_id : string) : string := "vc_members:" +:+ channel_id.
Definition vc (user_id : string) : string := "vc:" +:+ user_id.
Definition vc_viewers (channel_id : string) : string := "vc_viewers:" +:+ channel_id.
Definition node_key (channel : string) : string := "node:" +:+ channel.
Definition active_voice_channels : string := "active_voice_channels".
Definition unique_key (user_id parent_id : string) : string := user_id +:+ ":" +:+ parent_id.
Definition connection_type_key (user_id channel_id : string) : string :=
  "vc_connection_type:" +:+ user_id +:+ ":" +:+ channel_id.

Section State.
Context {R : Type} `{Redis R} (timestamp_ok : Z -> bool).
Local Abbreviation Rm := (M ErrorType R).

(** [get_connection().await?.command(..).await.to_internal_error()] *)
Definition redis {A} (m : Rm A) : Rm A := to_internal_error (r_connect;; m).

Definition get_active_voice_channel_ids : Rm (list string) :=
  l ← redis (r_smembers active_voice_channels);
  mret (filter (fun s => s <> "") l).

Definition raise_if_in_voice (user : User) (channel_id : string) : Rm unit :=
  to_internal_error r_connect;;
  connected ← (if bool_decide (is_Some (u_bot user))
               then to_internal_error (r_sismember (vc (u_id user)) channel_id)
               else mret false);
  if (connected : bool) then throw ErrorType.AlreadyConnected else
  count ← to_internal_error (r_scard (vc (u_id user)));
  if 0 <? count then throw ErrorType.AlreadyConnected else mret tt.

Definition set_channel_node (channel node : string) : Rm unit := redis (r_set (node_key channel) node).
Definition get_channel_node (channel : string) : Rm (option string) := redis (r_get (node_key channel)).
Definition get_user_voice_channels (user_id : string) : Rm (list string) := redis (r_smembers (vc user_id)).

Definition moved_from_key (user_id channel : string) : string := "moved_from:" +:+ user_id +:+ ":" +:+ channel.
Definition moved_to_key (user_id channel : string) : string := "moved_to:" +:+ user_id +:+ ":" +:+ channel.
Definition set_user_moved_from_voice (old_channel new_channel user_id : string) : Rm unit :=
  redis (r_set_ex (moved_from_key user_id old_channel) new_channel 10).
Definition get_user_moved_from_voice (channel_id user_id : string) : Rm (option string) :=
  redis (r_get_del (moved_from_key user_id channel_id)).
Definition set_user_moved_to_voice (new_channel old_channel user_id : string) : Rm unit :=
  redis (r_set_ex (moved_to_key user_id new_channel) old_channel 10).
Definition get_user_moved_to_voice (channel_id user_id : string) : Rm (option string) :=
  redis (r_get_del (moved_to_key user_id channel_id)).

Definition is_in_voice_channel (user_id channel_id : string) : Rm bool :=
  redis (r_sismember (vc user_id) channel_id).
Definition get_user_voice_channel_in_server (user_id server_id : string) : Rm (option string) :=
  redis (r_get (unique_key user_id server_id)).

(** The keys of the flags of a voice state. *)
Definition flag_keys (key : string) : list string :=
  ["joined_at:" +:+ key; "is_publishing:" +:+ key; "is_receiving:" +:+ key;
   "screensharing:" +:+ key; "camera:" +:+ key].

Definition create_voice_state (channel_id : string) (server_id : option string) (user_id : string)
    (joined_at : Timestamp) : Rm UserVoiceState :=
  let key := unique_key user_id (default channel_id server_id) in
  let state := {| vs_joined_at := joined_at; vs_id := user_id; vs_is_receiving := true;
                  vs_is_publishing := false; vs_screensharing := false; vs_camera := false |} in
  redis (pipeline [
    r_sadd (vc_members channel_id) user_id;
    r_sadd (vc user_id) channel_id;
    r_set key channel_id;
    r_set ("joined_at:" +:+ key) (i64_to_string (as_i64 joined_at));
    r_set ("is_publishing:" +:+ key) (bool_to_string (vs_is_publishing state));
    r_set ("is_receiving:" +:+ key) (bool_to_string (vs_is_receiving state));
    r_set ("screensharing:" +:+ key) (bool_to_string (vs_screensharing state));
    r_set ("camera:" +:+ key) (bool_to_string (vs_camera state))]);;
  to_internal_error r_connect;;
  ignore_err (r_sadd active_voice_channels channel_id);;
  mret state.

(** [scard(..).await.unwrap_or(0)] *)
Definition scard_or_zero (key : string) : Rm Z := fun r =>
  match r_scard key r with (Err _, r') => (Ok 0, r') | res => res end.

Definition delete_voice_state (channel_id : string) (server_id : option string) (user_id : string)
    : Rm unit :=
  let key := unique_key user_id (default channel_id server_id) in
  redis (pipeline [
    r_srem (vc_members channel_id) user_id;
    r_srem (vc user_id) channel_id;
    r_del (flag_keys key ++ [key])]);;
  to_internal_error r_connect;;
  remaining ← scard_or_zero (vc_members channel_id);
  if remaining =? 0 then
    to_internal_error r_connect;;
    ignore_err (r_srem active_voice_channels channel_id)
  else mret tt.

Definition delete_channel_voice_state (channel_id : string) (server_id : option string)
    (user_ids : list string) : Rm unit :=
  let parent_id := default channel_id server_id in
  redis (pipeline (r_del [vc_members channel_id] ::
    flat_map (fun user_id =>
      [r_srem (vc user_id) channel_id;
       r_del (flag_keys (unique_key user_id parent_id) ++ [unique_key user_id parent_id])]) user_ids));;
  to_internal_error r_connect;;
  ignore_err (r_srem active_voice_channels channel_id).

Definition PartialUserVoiceState_default : PartialUserVoiceState := {|
  pvs_id := None; pvs_joined_at := None; pvs_is_receiving := None; pvs_is_publishing := None;
  pvs_screensharing := None; pvs_camera := None |}.

Definition set_flag (key : string) (value : option bool) : list (Rm unit) :=
  match value with Some b => [r_set key (bool_to_string b)] | None => [] end.

Definition update_voice_state (channel_id : string) (server_id : option string) (user_id : string)
    (partial : PartialUserVoiceState) : Rm unit :=
  let key := unique_key user_id (default channel_id server_id) in
  redis (pipeline (
    set_flag ("camera:" +:+ key) (pvs_camera partial)
    ++ set_flag ("is_publishing:" +:+ key) (pvs_is_publishing partial)
    ++ set_flag ("is_receiving:" +:+ key) (pvs_is_receiving partial)
    ++ set_flag ("screensharing:" +:+ key) (pvs_screensharing partial))).

(** [TrackSource]: 1 camera, 2 microphone, 3 and 4 screen share; [unreachable!] *)
Definition track_update (added : bool) (track : Z) : Result PartialUserVoiceState :=
  let base camera publishing screen := {|
    pvs_id := None; pvs_joined_at := None; pvs_is_receiving := None;
    pvs_is_publishing := publishing; pvs_screensharing := screen; pvs_camera := camera |} in
  if track =? 0 then Ok (base None None None)
  else if track =? 1 then Ok (base (Some added) None None)
  else if track =? 2 then Ok (base None (Some added) None)
  else if (track =? 3) || (track =? 4) then Ok (base None None (Some added))
  else Panicked.
Definition update_voice_state_tracks (channel_id : string) (server_id : option string)
    (user_id : string) (added : bool) (track : Z) : Rm PartialUserVoiceState :=
  partial ← lift_outcome (track_update added track);
  update_voice_state channel_id server_id user_id partial;;
  mret partial.

Definition get_voice_channel_members (channel_id : string) : Rm (option (list string)) :=
  l ← redis (r_smembers (vc_members channel_id));
  mret (if bool_decide (l = []) then None else Some l).

(** A reply that is there has to parse. *)
Definition typed {A} (parse : string -> option A) (reply : option string) : Result (option A) :=
  match reply with
  | None => Ok None
  | Some s => match parse s with Some a => Ok (Some a) | None => Err ErrorType.InternalError end
  end.

Definition get_voice_state (channel_id : string) (server_id : option string) (user_id : string)
    : Rm (option UserVoiceState) :=
  let key := unique_key user_id (default channel_id server_id) in
  replies ← redis (r_mget (flag_keys key));
  match replies with
  | [joined_at; is_publishing; is_receiving; screensharing; camera] =>
      joined_at ← lift_outcome (typed parse_i64 joined_at);
      is_publishing ← lift_outcome (typed parse_bool is_publishing);
      is_receiving ← lift_outcome (typed parse_bool is_receiving);
      screensharing ← lift_outcome (typed parse_bool screensharing);
      camera ← lift_outcome (typed parse_bool camera);
      match joined_at, is_publishing, is_receiving, screensharing, camera with
      | Some joined_at, Some is_publishing, Some is_receiving, Some screensharing, Some camera =>
          if timestamp_ok joined_at then
            mret (Some {| vs_joined_at := joined_at; vs_id := user_id; vs_is_receiving := is_receiving;
                          vs_is_publishing := is_publishing; vs_screensharing := screensharing;
                          vs_camera := camera |})
          else panic
      | _, _, _, _, _ => mret None
      end
  | _ => throw ErrorType.InternalError
  end.

Fixpoint participants (channel_id : string) (server : option string) (members : list string)
    : Rm (list UserVoiceState) :=
  match members with
  | [] => mret []
  | user_id :: rest =>
      state ← get_voice_state channel_id server user_id;
      match state with
      | Some state => others ← participants channel_id server rest; mret (state :: others)
      | None => delete_voice_state channel_id server user_id;; participants channel_id server rest
      end
  end.

(** [get_channel_voice_state]: the channel id and the participants. *)
Definition get_channel_voice_state (channel : Channel) : Rm (option (string * list UserVoiceState)) :=
  members ← get_voice_channel_members (channel_id channel);
  match members with
  | Some members =>
      l ← participants (channel_id channel) (channel_server channel) members;
      mret (Some (channel_id channel, l))
  | None => mret None
  end.

(** The keys of [move_user] are not those of the other operations. *)
Definition move_user (user from to : string) : Rm unit :=
  redis (r_smove ("vc-members-" +:+ from) ("vc-members-" +:+ to) user).

Definition set_voice_connection_type (channel_id user_id conn_type : string) : Rm unit :=
  redis (r_set (connection_type_key user_id channel_id) conn_type).
Definition get_voice_connection_type (channel_id user_id : string) : Rm (option string) :=
  redis (r_get (connection_type_key user_id channel_id)).
Definition delete_voice_connection_type (channel_id user_id : string) : Rm unit :=
  redis (r_del [connection_type_key user_id channel_id]).
Definition create_viewer_state (channel_id user_id : string) : Rm unit :=
  redis (r_sadd (vc_viewers channel_id) user_id).
Definition delete_viewer_state (channel_id user_id : string) : Rm unit :=
  redis (r_srem (vc_viewers channel_id) user_id).
Definition get_viewer_count (channel_id : string) : Rm Z := redis (r_scard (vc_viewers channel_id)).
Definition get_viewer_list (channel_id : string) : Rm (list string) := redis (r_smembers (vc_viewers channel_id)).
Definition delete_channel_viewer_state (channel_id : string) : Rm unit := redis (r_del [vc_viewers channel_id]).

(** The encoding of the recipients as one string ([serde_json]) is an argument. *)
Definition call_recipients_key (channel_id user_id : string) : string :=
  "call_notification_recipients:" +:+ channel_id +:+ "-" +:+ user_id.
Definition set_call_notification_recipients (to_json : list string -> Result string)
    (channel_id user_id : string) (recipients : list string) : Rm unit :=
  encoded ← to_internal_error (lift_outcome (to_json recipients));
  redis (r_set_ex (call_recipients_key channel_id user_id) encoded 10).
Definition get_call_notification_recipients (from_json : string -> Result (list string))
    (channel_id user_id : string) : Rm (option (list string)) :=
  raw ← redis (r_get_del (call_recipients_key channel_id user_id));
  match raw with
  | Some s => l ← to_internal_error (lift_outcome (from_json s)); mret (Some l)
  | None => mret None
  end.

Definition call_started_key (channel_id : string) : string := "call_started_message:" +:+ channel_id.
Definition set_channel_call_started_system_message (channel_id message_id : string) : Rm unit :=
  redis (r_set (call_started_key channel_id) message_id).
Definition take_channel_call_started_system_message (channel_id : string) : Rm (option string) :=
  redis (r_get_del (call_started_key channel_id)).
End State.

(** ** Operations on all of the state *)

Section Handlers.
Context {D R : Type} `{Database D} `{PermissionDatabase D} `{Redis R} `{LiveKit} `{HashOrder}.
Context (timestamp_ok : Z -> bool) (nodes : gset string) (now : Timestamp).
Context (user_limits : User -> Result FeaturesLimits).
Local Abbreviation Vm := (M ErrorType (Services D R)).

Definition db {A} (m : M ErrorType D A) : Vm A := on_world (call m).

(** The database as a permission query sees it. *)
Definition database : Vm D := reads (fun s => w_db (sv_world s)).

(** [sync_user_voice_permissions], from the role check on *)
Definition sync_permissions (node : string) (user : User) (channel : Channel) (server : option Server)
    (member : option Member) : Vm unit :=
  let server_id := s_id <$> server in
  state ← on_redis (get_voice_state timestamp_ok (channel_id channel) server_id (u_id user));
  match state with
  | None => mret tt
  | Some voice_state =>
      d ← database;
      let query := query_user (query_channel (DatabasePermissionQuery_new d user) channel) user in
      let query := match server, member with
                   | Some server, Some member => query_server (query_member query member) server
                   | _, _ => query
                   end in
      permissions ← lift_outcome (fst (db_calculate_channel_permissions now query));
      l ← lift_outcome (user_limits user);
      let can_video := fl_video l && has_channel_permission permissions ChannelPermission.Video in
      let can_speak := has_channel_permission permissions ChannelPermission.Speak in
      let can_listen := has_channel_permission permissions ChannelPermission.Listen in
      let before := {| pvs_id := Some (u_id user); pvs_joined_at := None; pvs_is_receiving := None;
                       pvs_is_publishing := None; pvs_screensharing := None; pvs_camera := None |} in
      let update_event := {|
        pvs_id := Some (u_id user); pvs_joined_at := None; pvs_is_receiving := None;
        pvs_is_publishing := if vs_is_publishing voice_state then Some can_speak else None;
        pvs_screensharing := if vs_screensharing voice_state then Some can_video else None;
        pvs_camera := if vs_camera voice_state then Some can_video else None |} in
      on_redis (update_voice_state (channel_id channel) server_id (u_id user) update_event);;
      update_permissions nodes node user (channel_id channel)
        {| pp_can_subscribe := can_listen; pp_can_publish := can_speak;
           pp_can_publish_data := can_speak |};;
      if bool_decide (update_event = before) then mret tt
      else on_world (p (EventV1.UserVoiceStateUpdate (u_id user) (channel_id channel) update_event)
                       (channel_id channel))
  end.

Definition sync_user_voice_permissions (node : string) (user : User) (channel : Channel)
    (server : option Server) (role_id : option string) : Vm unit :=
  member ← match server with
           | Some server => m ← db (Database.fetch_member (s_id server) (u_id user)); mret (Some m)
           | None => mret None
           end;
  let concerned :=
    match role_id with
    | None => true
    | Some role_id => match (member : option Member) with
                      | None => true
                      | Some member => contains role_id (m_roles member)
                      end
    end in
  if concerned then sync_permissions node user channel server member else mret tt.

Fixpoint sync_users (node : string) (users : list string) (channel : Channel) (server : option Server)
    (role_id : option string) : Vm unit :=
  match users with
  | [] => mret tt
  | user_id :: rest =>
      user ← db (Database.fetch_user user_id);
      sync_user_voice_permissions node user channel server role_id;;
      sync_users node rest channel server role_id
  end.

Definition sync_voice_permissions (channel : Channel) (server : option Server) (role_id : option string)
    : Vm unit :=
  node ← on_redis (get_channel_node (channel_id channel));
  match node with
  | None => mret tt
  | Some node =>
      members ← on_redis (get_voice_channel_members (channel_id channel));
      sync_users node (default [] members) channel server role_id
  end.

Definition remove_user_from_voice_channel (channel_id user_id : string) : Vm unit :=
  node ← on_redis (get_channel_node channel_id);
  match node with
  | Some node => ignore_err (remove_user nodes node user_id channel_id)
  | None => mret tt
  end;;
  channel ← db (Database.fetch_channel channel_id);
  on_redis (delete_voice_state channel_id (channel_server channel) user_id).

Fixpoint remove_from_channels (user_id : string) (channels : list string) : Vm unit :=
  match channels with
  | [] => mret tt
  | channel_id :: rest =>
      remove_user_from_voice_channel channel_id user_id;;
      remove_from_channels user_id rest
  end.
Definition remove_user_from_voice_channels (user_id : string) : Vm unit :=
  channels ← on_redis (get_user_voice_channels user_id);
  remove_from_channels user_id channels.

(** [match .. { Ok(c) => c.server(), Err(_) => None }] *)
Definition server_of_channel (channel_id : string) : Vm (option string) := fun s =>
  match db (Database.fetch_channel channel_id) s with
  | (Ok channel, s') => (Ok (channel_server channel), s')
  | (Err _, s') => (Ok None, s')
  | (Panicked, s') => (Panicked, s')
  end.

Fixpoint cleanup_channels (user_id : string) (channels : list string) : Vm unit :=
  match channels with
  | [] => mret tt
  | channel_id :: rest =>
      server_id ← server_of_channel channel_id;
      ignore_err (on_redis (delete_voice_state channel_id server_id user_id));;
      ignore_err (on_redis (delete_voice_connection_type channel_id user_id));;
      on_world (p (EventV1.VoiceChannelLeave channel_id user_id) channel_id);;
      cleanup_channels user_id rest
  end.
Definition cleanup_user_voice_on_disconnect (user_id : string) : Vm unit :=
  channels ← on_redis (get_user_voice_channels user_id);
  cleanup_channels user_id channels.

(** The [unwrap] of a missing node panics. *)
Definition delete_voice_channel (channel_id : string) (server_id : option string) : Vm unit :=
  users ← on_redis (get_voice_channel_members channel_id);
  match users with
  | Some users =>
      node ← on_redis (get_channel_node channel_id);
      match node with
      | Some node => delete_room nodes node channel_id
      | None => panic
      end;;
      on_redis (delete_channel_voice_state channel_id server_id users)
  | None => mret tt
  end;;
  on_redis (delete_channel_viewer_state channel_id).
End Handlers.

(** ** The keys of the voice state *)

(** Identifiers are ULIDs: they start with an upper case letter or a digit. *)
Definition valid_id (s : string) : Prop :=
  match s with
  | EmptyString => False
  | String c _ => (Ascii.nat_of_ascii c < 97)%nat
  end.

Definition voice_key (k : string) : Prop :=
  k = active_voice_channels \/ (exists c, k = vc_members c) \/ (exists u, k = vc u).

Lemma unique_key_apart u x k : valid_id u -> voice_key k -> unique_key u x <> k.
Proof.
  destruct u as [|c u]; [done|]. unfold valid_id, unique_key. intros Hc Hk E.
  assert (c = "v"%char \/ c = "a"%char) as Hcase.
  { destruct Hk as [->|[[x' ->]|[x' ->]]]; injection E as -> _; tauto. }
  assert (Ascii.nat_of_ascii "v"%char = 118%nat /\ Ascii.nat_of_ascii "a"%char = 97%nat) as [H1 H2] by done.
  destruct Hcase as [-> | ->]; lia.
Qed.

Local Ltac in_list := unfold flag_keys; simpl app;
  repeat first [by apply list_elem_of_here|apply list_elem_of_further].

Lemma flag_key_apart key k f : voice_key k -> f ∈ flag_keys key -> f <> k.
Proof.
  intros Hk Hf ->. unfold flag_keys in Hf.
  repeat (apply elem_of_cons in Hf as [Hf|Hf]);
    [destruct Hk as [Hk|[[x Hk]|[x Hk]]]; rewrite Hk in Hf; discriminate Hf..|].
  by apply not_elem_of_nil in Hf.
Qed.

(** Two key spaces that hold the same voice sets. *)
Definition same_voice (m m' : gmap string RedisValue) : Prop := forall k, voice_key k -> m !! k = m' !! k.

#[export] Instance same_voice_equiv : Equivalence same_voice.
Proof.
  split; [by intros m k|by intros m m' Hm k Hk; symmetry; apply Hm|].
  intros m1 m2 m3 H1 H2 k Hk. by rewrite H1, H2.
Qed.

Lemma same_voice_insert m k v : ~ voice_key k -> same_voice (<[k := v]> m) m.
Proof. intros Hk k' Hk'. apply lookup_insert_ne. by intros ->. Qed.

Lemma same_voice_delete m k : ~ voice_key k -> same_voice (delete k m) m.
Proof. intros Hk k' Hk'. apply lookup_delete_ne. by intros ->. Qed.

Lemma same_voice_put m m' k s : same_voice m m' -> same_voice (put_set k s m) (put_set k s m').
Proof.
  intros Hm k' Hk'. unfold put_set. destruct (decide (s = ∅)), (decide (k' = k)) as [->|].
  - by rewrite !lookup_delete_eq.
  - rewrite !lookup_delete_ne by done. by apply Hm.
  - by rewrite !lookup_insert_eq.
  - rewrite !lookup_insert_ne by done. by apply Hm.
Qed.

Lemma same_voice_set_at m m' k : same_voice m m' -> voice_key k -> set_at m k = set_at m' k.
Proof. intros Hm Hk. unfold set_at. by rewrite Hm. Qed.

Lemma same_voice_set_key m m' k : same_voice m m' -> voice_key k -> set_key m k -> set_key m' k.
Proof. intros Hm Hk Hs [s E]. apply Hs. exists s. by rewrite Hm. Qed.

Lemma same_voice_add m m' k v :
  voice_key k -> same_voice m m' -> same_voice (add_to k v m) (add_to k v m').
Proof. intros Hk Hm. unfold add_to. rewrite (same_voice_set_at m m') by done. by apply same_voice_put. Qed.

Lemma same_voice_remove m m' k v :
  voice_key k -> same_voice m m' -> same_voice (remove_from k v m) (remove_from k v m').
Proof. intros Hk Hm. unfold remove_from. rewrite (same_voice_set_at m m') by done. by apply same_voice_put. Qed.

Lemma voice_key_members c : voice_key (vc_members c).
Proof. right. left. by exists c. Qed.
Lemma voice_key_user u : voice_key (vc u).
Proof. right. right. by exists u. Qed.
Lemma voice_key_active : voice_key active_voice_channels.
Proof. by left. Qed.
#[export] Hint Resolve voice_key_members voice_key_user voice_key_active : redis.

(** Members and channels mirror each other, and the active channels are the ones
    with members.  The flags of the participants, under keys of a user and a server,
    are not part of it. *)
Record voice_ok (m : gmap string RedisValue) : Prop := {
  vo_keys : forall k, voice_key k -> set_key m k;
  vo_ids : forall c u, u ∈ set_at m (vc_members c) -> valid_id u;
  vo_mirror : forall c u, u ∈ set_at m (vc_members c) <-> c ∈ set_at m (vc u);
  vo_active : forall c, c ∈ set_at m active_voice_channels <-> set_at m (vc_members c) <> ∅ }.
#[export] Hint Resolve vo_keys : redis.

#[export] Instance voice_ok_proper : Proper (same_voice ==> iff) voice_ok.
Proof.
  assert (forall m m', same_voice m m' -> voice_ok m -> voice_ok m') as Himp.
  { intros m m' Hm [Hk Hid Hmi Hac]. constructor.
    - intros k Hvk. eapply same_voice_set_key; eauto.
    - intros c u. rewrite <- (same_voice_set_at m m') by eauto with redis. apply Hid.
    - intros c u. rewrite <- !(same_voice_set_at m m') by eauto with redis. apply Hmi.
    - intros c. rewrite <- !(same_voice_set_at m m') by eauto with redis. apply Hac. }
  intros m m' Hm. split; [by apply Himp|]. apply Himp. by symmetry.
Qed.

Lemma vc_members_inj a b : vc_members a = vc_members b -> a = b.
Proof. intros E. by injection E. Qed.
Lemma vc_inj a b : vc a = vc b -> a = b.
Proof. intros E. by injection E. Qed.

(** A user joins a channel, leaves a channel. *)
Definition joined (c u : string) (m : gmap string RedisValue) : gmap string RedisValue :=
  add_to active_voice_channels c (add_to (vc u) c (add_to (vc_members c) u m)).
Definition left_channel (c u : string) (m : gmap string RedisValue) : gmap string RedisValue :=
  let m := remove_from (vc u) c (remove_from (vc_members c) u m) in
  if bool_decide (set_at m (vc_members c) = ∅) then remove_from active_voice_channels c m else m.

Lemma set_at_joined c u m :
  (forall c', set_at (joined c u m) (vc_members c')
    = if decide (c' = c) then {[ u ]} ∪ set_at m (vc_members c) else set_at m (vc_members c'))
  /\ (forall u', set_at (joined c u m) (vc u')
    = if decide (u' = u) then {[ c ]} ∪ set_at m (vc u) else set_at m (vc u'))
  /\ set_at (joined c u m) active_voice_channels = {[ c ]} ∪ set_at m active_voice_channels.
Proof.
  unfold joined. split_and!.
  - intros c'. rewrite !set_at_add. destruct (decide (c' = c)) as [->|];
      repeat case_decide; try congruence; try done; exfalso; naive_solver (by eauto using vc_members_inj).
  - intros u'. rewrite !set_at_add. destruct (decide (u' = u)) as [->|];
      repeat case_decide; try congruence; try done; exfalso; naive_solver (by eauto using vc_inj).
  - rewrite !set_at_add. by repeat case_decide.
Qed.

Lemma joined_ok c u m : valid_id u -> voice_ok m -> voice_ok (joined c u m).
Proof.
  intros Hu [Hk Hid Hmi Hac]. destruct (set_at_joined c u m) as (Ec & Eu & Ea). constructor.
  - intros k Hvk. unfold joined. eauto with redis.
  - intros c' u'. rewrite Ec. destruct (decide (c' = c)) as [->|]; [|apply Hid].
    rewrite elem_of_union, elem_of_singleton. intros [->|?]; [done|by eapply Hid].
  - intros c' u'. rewrite Ec, Eu. destruct (decide (c' = c)) as [->|], (decide (u' = u)) as [->|];
      rewrite ?elem_of_union, ?elem_of_singleton, ?Hmi; tauto.
  - intros c'. rewrite Ea, Ec, elem_of_union, elem_of_singleton, Hac.
    destruct (decide (c' = c)) as [->|]; [|tauto]. split; [set_solver|by left].
Qed.

Lemma set_at_left c u m :
  (forall c', set_at (left_channel c u m) (vc_members c')
    = if decide (c' = c) then set_at m (vc_members c) ∖ {[ u ]} else set_at m (vc_members c'))
  /\ (forall u', set_at (left_channel c u m) (vc u')
    = if decide (u' = u) then set_at m (vc u) ∖ {[ c ]} else set_at m (vc u'))
  /\ set_at (left_channel c u m) active_voice_channels
     = if bool_decide (set_at m (vc_members c) ∖ {[ u ]} = ∅)
       then set_at m active_voice_channels ∖ {[ c ]} else set_at m active_voice_channels.
Proof.
  unfold left_channel. rewrite !set_at_remove, decide_False, decide_True by done.
  split_and!.
  - intros c'. destruct (bool_decide _); rewrite !set_at_remove;
      destruct (decide (c' = c)) as [->|]; repeat case_decide; try congruence; try done;
      exfalso; naive_solver (by eauto using vc_members_inj).
  - intros u'. destruct (bool_decide _); rewrite !set_at_remove;
      destruct (decide (u' = u)) as [->|]; repeat case_decide; try congruence; try done;
      exfalso; naive_solver (by eauto using vc_inj).
  - destruct (bool_decide _); rewrite !set_at_remove; by repeat case_decide.
Qed.

Lemma left_keys c u m k : set_key m k -> set_key (left_channel c u m) k.
Proof. intros Hk. unfold left_channel. destruct (bool_decide _); eauto with redis. Qed.

Lemma left_ok c u m : voice_ok m -> voice_ok (left_channel c u m).
Proof.
  intros [Hk Hid Hmi Hac]. destruct (set_at_left c u m) as (Ec & Eu & Ea). constructor.
  - intros k Hvk. by apply left_keys, Hk.
  - intros c' u'. rewrite Ec. destruct (decide (c' = c)) as [->|]; [|apply Hid].
    intros [? _]%elem_of_difference. by eapply Hid.
  - intros c' u'. rewrite Ec, Eu. destruct (decide (c' = c)) as [->|], (decide (u' = u)) as [->|];
      rewrite ?elem_of_difference, ?elem_of_singleton, ?Hmi; tauto.
  - intros c'. rewrite Ea, Ec. destruct (decide (c' = c)) as [->|].
    + case_bool_decide as E; [rewrite E; set_solver|]. rewrite Hac. set_solver.
    + case_bool_decide; [|by rewrite Hac]. rewrite elem_of_difference, elem_of_singleton, Hac. tauto.
Qed.

(** A channel is closed: each of its members leaves. *)
Definition closed_channel (c : string) (us : list string) (m : gmap string RedisValue) : gmap string RedisValue :=
  remove_from active_voice_channels c
    (fold_left (fun m u => remove_from (vc u) c m) us (delete (vc_members c) m)).

Lemma set_at_leaving c us m k :
  set_at (fold_left (fun m u => remove_from (vc u) c m) us m) k
  = if bool_decide (k ∈ vc <$> us) then set_at m k ∖ {[ c ]} else set_at m k.
Proof.
  revert m. induction us as [|u us IH]; intros m; simpl; [done|].
  rewrite IH, set_at_remove. repeat case_bool_decide; destruct (decide (k = vc u)) as [->|]; set_solver.
Qed.

Lemma set_key_leaving c us m k :
  set_key m k -> set_key (fold_left (fun m u => remove_from (vc u) c m) us m) k.
Proof. revert m. induction us as [|u us IH]; intros m Hk; simpl; [done|]. apply IH. eauto with redis. Qed.

Lemma closed_ok c us m :
  voice_ok m -> us ≡ₚ elements (set_at m (vc_members c)) -> voice_ok (closed_channel c us m).
Proof.
  intros [Hk Hid Hmi Hac] Hus.
  assert (forall c', set_at (closed_channel c us m) (vc_members c')
    = if decide (c' = c) then ∅ else set_at m (vc_members c')) as Ec.
  { intros c'. unfold closed_channel. rewrite set_at_remove, decide_False by done.
    rewrite set_at_leaving, bool_decide_eq_false_2, set_at_delete.
    - repeat case_decide; try congruence; exfalso; naive_solver (by eauto using vc_members_inj).
    - by intros (u & ? & _)%list_elem_of_fmap. }
  assert (forall u, set_at (closed_channel c us m) (vc u) = set_at m (vc u) ∖ {[ c ]}) as Eu.
  { intros u. unfold closed_channel. rewrite set_at_remove, decide_False by done.
    rewrite set_at_leaving, set_at_delete, decide_False by done. case_bool_decide as Hin; [done|].
    assert (u ∉ set_at m (vc_members c)) as Hu; [|rewrite Hmi in Hu; set_solver].
    intros Hu. apply Hin, list_elem_of_fmap. exists u. split; [done|]. by rewrite Hus, elem_of_elements. }
  assert (set_at (closed_channel c us m) active_voice_channels
    = set_at m active_voice_channels ∖ {[ c ]}) as Ea.
  { unfold closed_channel. rewrite set_at_remove, decide_True by done.
    rewrite set_at_leaving, bool_decide_eq_false_2, set_at_delete, decide_False; [done|done|].
    by intros (u & ? & _)%list_elem_of_fmap. }
  constructor.
  - intros k Hvk. unfold closed_channel. apply set_key_remove, set_key_leaving, set_key_delete, Hk, Hvk.
  - intros c' u. rewrite Ec. destruct (decide (c' = c)); [set_solver|apply Hid].
  - intros c' u. rewrite Ec, Eu, elem_of_difference, elem_of_singleton, <- Hmi.
    destruct (decide (c' = c)); set_solver.
  - intros c'. rewrite Ec, Ea, elem_of_difference, elem_of_singleton, Hac.
    destruct (decide (c' = c)); set_solver.
Qed.

(** ** Running the operations *)

Section Runs.
Context {R : Type} `{RedisLaws R} (timestamp_ok : Z -> bool).

(** The command succeeds and leaves the keys [m]. *)
Definition does {A} (c : M ErrorType R A) (r : R) (a : A) (m : gmap string RedisValue) : Prop :=
  exists r', c r = (Ok a, r') /\ keys r' = m.

Lemma does_bind {A B} (c : M ErrorType R A) (f : A -> M ErrorType R B) r a b m m' :
  does c r a m -> (forall r', keys r' = m -> does (f a) r' b m') -> does (c ≫= f) r b m'.
Proof.
  intros (r1 & E & Hm) Hf. destruct (Hf r1 Hm) as (r2 & E2 & Hm2). exists r2.
  by erewrite M_bind_ok by exact E.
Qed.

Lemma does_cons (c : M ErrorType R unit) cs r m m' :
  does c r tt m -> (forall r', keys r' = m -> does (pipeline cs) r' tt m') -> does (pipeline (c :: cs)) r tt m'.
Proof.
  intros (r1 & E & Hm) Hf. destruct (Hf r1 Hm) as (r2 & E2 & Hm2). exists r2.
  by erewrite pipeline_ok by exact E.
Qed.

Lemma does_end r m : keys r = m -> does (pipeline []) r tt m.
Proof. by exists r. Qed.

Lemma does_set k v r : does (r_set k v) r tt (<[k := RStr v]> (keys r)).
Proof. apply set_run. Qed.

Lemma does_del ks r : does (r_del ks) r tt (foldr delete (keys r) ks).
Proof. apply del_run. Qed.

Lemma does_sadd k v r : set_key (keys r) k -> does (r_sadd k v) r tt (add_to k v (keys r)).
Proof. apply sadd_run. Qed.

Lemma does_srem k v r : set_key (keys r) k -> does (r_srem k v) r tt (remove_from k v (keys r)).
Proof. apply srem_run. Qed.

Lemma does_connect r : does (to_internal_error r_connect) r tt (keys r).
Proof. exists r. unfold to_internal_error, map_err. by rewrite connect_run. Qed.

Lemma does_redis {A} (c : M ErrorType R A) r a m : does c r a m -> does (redis c) r a m.
Proof.
  intros (r1 & E & Hm). exists r1. unfold redis, to_internal_error, map_err.
  erewrite M_bind_ok by apply connect_run. by rewrite E.
Qed.

Lemma does_ignore {A} (c : M ErrorType R A) r a m : does c r a m -> does (ignore_err c) r tt m.
Proof. intros (r1 & E & Hm). exists r1. unfold ignore_err. by rewrite E. Qed.

(** What the operations leave, key by key. *)
Definition voice_created (c key u : string) (t : Timestamp) (m : gmap string RedisValue) : gmap string RedisValue :=
  add_to active_voice_channels c
    (<["camera:" +:+ key := RStr "0"]> (<["screensharing:" +:+ key := RStr "0"]>
    (<["is_receiving:" +:+ key := RStr "1"]> (<["is_publishing:" +:+ key := RStr "0"]>
    (<["joined_at:" +:+ key := RStr (i64_to_string (as_i64 t))]> (<[key := RStr c]>
    (add_to (vc u) c (add_to (vc_members c) u m)))))))).

Definition voice_deleted (c key u : string) (m : gmap string RedisValue) : gmap string RedisValue :=
  let m := foldr delete (remove_from (vc u) c (remove_from (vc_members c) u m)) (flag_keys key ++ [key]) in
  if bool_decide (set_at m (vc_members c) = ∅) then remove_from active_voice_channels c m else m.

Definition fresh_state (u : string) (t : Timestamp) : UserVoiceState := {|
  vs_joined_at := t; vs_id := u; vs_is_receiving := true;
  vs_is_publishing := false; vs_screensharing := false; vs_camera := false |}.

Lemma not_voice_key_string key u x k :
  valid_id u -> key = unique_key u x -> k ∈ flag_keys key ++ [key] -> ~ voice_key k.
Proof.
  intros Hu -> Hk Hv. apply elem_of_app in Hk as [Hk|Hk%list_elem_of_singleton].
  - by eapply flag_key_apart.
  - subst k. by eapply unique_key_apart.
Qed.

Lemma foldr_delete_same (ks : list string) m :
  (forall k, k ∈ ks -> ~ voice_key k) -> same_voice (foldr delete m ks) m.
Proof.
  induction ks as [|k ks IH]; intros Hks; simpl; [reflexivity|].
  etrans; [apply same_voice_delete, Hks; by left|]. apply IH. intros k' Hk'. apply Hks. by right.
Qed.

Lemma voice_created_joined c key u x t m :
  valid_id u -> key = unique_key u x -> same_voice (voice_created c key u t m) (joined c u m).
Proof.
  intros Hu Hkey. assert (Hno := fun k => not_voice_key_string key u x k Hu Hkey).
  unfold voice_created, joined. apply same_voice_add; [eauto with redis|].
  repeat (etrans; [apply same_voice_insert, Hno; in_list|]). reflexivity.
Qed.

Lemma voice_deleted_left c key u x m :
  valid_id u -> key = unique_key u x -> same_voice (voice_deleted c key u m) (left_channel c u m).
Proof.
  intros Hu Hkey. unfold voice_deleted, left_channel.
  pose proof (foldr_delete_same (flag_keys key ++ [key])
    (remove_from (vc u) c (remove_from (vc_members c) u m))
    (fun k => not_voice_key_string key u x k Hu Hkey)) as Hs.
  rewrite (same_voice_set_at _ _ (vc_members c) Hs) by eauto with redis.
  destruct (bool_decide _); [|done]. apply same_voice_remove; [eauto with redis|done].
Qed.

Lemma set_key_insert_ne (m : gmap string RedisValue) k v k' :
  k' <> k -> set_key m k' -> set_key (<[k := v]> m) k'.
Proof. intros Hne Hk [s Hs]. apply Hk. exists s. by rewrite lookup_insert_ne in Hs by done. Qed.

Lemma create_voice_state_run c s u t r :
  valid_id u -> voice_ok (keys r) ->
  does (create_voice_state c s u t) r (fresh_state u t)
    (voice_created c (unique_key u (default c s)) u t (keys r)).
Proof.
  intros Hu Hok. unfold create_voice_state. cbv zeta. set (key := unique_key u (default c s)).
  assert (key <> active_voice_channels) as Hkey by (eapply unique_key_apart; eauto with redis).
  assert (forall k, voice_key k -> set_key (keys r) k) as Hset by apply Hok.
  eapply does_bind.
  { apply does_redis.
    eapply does_cons; [apply does_sadd; eauto with redis|intros r1 H1].
    eapply does_cons; [apply does_sadd; rewrite H1; eauto with redis|intros r2 H2; rewrite H1 in H2].
    do 6 (eapply does_cons; [apply does_set|intros ? Hr; rewrite H2 in Hr; clear H2; rename Hr into H2]).
    apply does_end, H2. }
  intros r2 H2. eapply does_bind; [apply does_connect|]. intros r3 H3. rewrite H2 in H3.
  eapply does_bind.
  { eapply does_ignore, does_sadd. rewrite H3. repeat (apply set_key_insert_ne; [done|]).
    apply set_key_add, set_key_add, Hset. eauto with redis. }
  intros r4 H4. exists r4. split; [done|]. rewrite H4, H3. reflexivity.
Qed.

Lemma delete_voice_state_run c s u r :
  valid_id u -> voice_ok (keys r) ->
  does (delete_voice_state c s u) r tt (voice_deleted c (unique_key u (default c s)) u (keys r)).
Proof.
  intros Hu Hok. unfold delete_voice_state. cbv zeta. set (key := unique_key u (default c s)).
  assert (forall k, voice_key k -> set_key (keys r) k) as Hset by apply Hok.
  pose proof (foldr_delete_same (flag_keys key ++ [key])
    (remove_from (vc u) c (remove_from (vc_members c) u (keys r)))
    (fun k => not_voice_key_string key u (default c s) k Hu eq_refl)) as Hs.
  set (m := foldr delete _ _) in Hs.
  assert (forall k, voice_key k -> set_key m k) as Hm.
  { intros k Hk. eapply same_voice_set_key; [symmetry; exact Hs|done|eauto with redis]. }
  eapply does_bind.
  { apply does_redis.
    eapply does_cons; [apply does_srem; eauto with redis|intros r1 H1].
    eapply does_cons; [apply does_srem; rewrite H1; eauto with redis|intros r2 H2; rewrite H1 in H2].
    eapply does_cons; [apply does_del|intros r3 H3; rewrite H2 in H3]. apply does_end, H3. }
  intros r3 H3. change (keys r3 = m) in H3.
  eapply does_bind; [apply does_connect|]. intros r4 H4. rewrite H3 in H4.
  eapply (does_bind _ _ _ _ _ m).
  { exists r4. split; [|done]. unfold scard_or_zero. rewrite scard_run, H4; [done|].
    rewrite H4. eauto with redis. }
  intros r5 H5. rewrite size_at_zero. unfold voice_deleted. fold m. case_bool_decide; [|by exists r5].
  eapply does_bind; [apply does_connect|]. intros r6 H6. rewrite H5 in H6.
  eapply does_ignore. rewrite <- H6. apply does_srem. rewrite H6. eauto with redis.
Qed.

(** The keys after one user, and all of them, lose a channel that is deleted. *)
Definition forgotten (c parent : string) (m : gmap string RedisValue) (u : string) : gmap string RedisValue :=
  foldr delete (remove_from (vc u) c m) (flag_keys (unique_key u parent) ++ [unique_key u parent]).
Definition voice_closed (c parent : string) (us : list string) (m : gmap string RedisValue)
    : gmap string RedisValue :=
  remove_from active_voice_channels c (fold_left (forgotten c parent) us (delete (vc_members c) m)).

Lemma set_key_foldr_delete (l : list string) (m : gmap string RedisValue) k :
  set_key m k -> set_key (foldr delete m l) k.
Proof. intros Hk. induction l; simpl; eauto with redis. Qed.

Lemma forgotten_same c parent us m m' :
  Forall valid_id us -> same_voice m m' ->
  same_voice (fold_left (forgotten c parent) us m) (fold_left (fun m u => remove_from (vc u) c m) us m').
Proof.
  intros Hus. revert m m'. induction Hus as [|u us Hu _ IH]; intros m m' Hm; [done|].
  apply IH. etrans; [apply foldr_delete_same; intros k; by eapply not_voice_key_string|].
  apply same_voice_remove; [eauto with redis|done].
Qed.

Lemma voice_closed_same c parent us m :
  Forall valid_id us -> same_voice (voice_closed c parent us m) (closed_channel c us m).
Proof. intros Hus. apply same_voice_remove; [eauto with redis|]. by apply forgotten_same. Qed.

Lemma forgotten_keys c parent us m :
  (forall k, voice_key k -> set_key m k) ->
  forall k, voice_key k -> set_key (fold_left (forgotten c parent) us m) k.
Proof.
  revert m. induction us as [|u us IH]; intros m Hk; [done|]. apply IH.
  intros k Hvk. apply set_key_foldr_delete. eauto with redis.
Qed.

Lemma forgotten_run c parent us r m :
  (forall k, voice_key k -> set_key m k) -> keys r = m ->
  does (pipeline (flat_map (fun u => [r_srem (vc u) c;
          r_del (flag_keys (unique_key u parent) ++ [unique_key u parent])]) us)) r tt
    (fold_left (forgotten c parent) us m).
Proof.
  revert r m. induction us as [|u us IH]; intros r m Hk Hr; [by apply does_end|].
  cbn [flat_map app fold_left].
  eapply does_cons; [apply does_srem; rewrite Hr; eauto with redis|intros r1 H1].
  eapply does_cons; [apply does_del|intros r2 H2; rewrite H1, Hr in H2].
  apply IH; [|done]. by apply (forgotten_keys c parent [u]).
Qed.

Lemma delete_channel_voice_state_run c s us r :
  voice_ok (keys r) ->
  does (delete_channel_voice_state c s us) r tt (voice_closed c (default c s) us (keys r)).
Proof.
  intros Hok. unfold delete_channel_voice_state. cbv zeta.
  assert (forall k, voice_key k -> set_key (delete (vc_members c) (keys r)) k) as Hset
    by (intros k Hk; apply set_key_delete; by apply Hok).
  eapply does_bind.
  { apply does_redis. eapply does_cons; [apply does_del|intros r1 H1]. by apply forgotten_run. }
  intros r2 H2. eapply does_bind; [apply does_connect|]. intros r3 H3. rewrite H2 in H3.
  eapply does_ignore. unfold voice_closed. rewrite <- H3. apply does_srem. rewrite H3.
  apply forgotten_keys; [done|eauto with redis].
Qed.

Lemma members_run c r :
  voice_ok (keys r) ->
  exists ms, get_voice_channel_members c r = (Ok ms, r)
    /\ default [] ms ≡ₚ elements (set_at (keys r) (vc_members c))
    /\ (is_Some ms <-> set_at (keys r) (vc_members c) <> ∅).
Proof.
  intros Hok. destruct (smembers_run (vc_members c) r) as (l & E & Hl); [eauto with redis|].
  exists (if bool_decide (l = []) then None else Some l). split_and!.
  - unfold get_voice_channel_members, redis, to_internal_error, map_err.
    erewrite M_bind_ok by (erewrite M_bind_ok by apply connect_run; by rewrite E). done.
  - case_bool_decide; [by subst|done].
  - case_bool_decide as El; split; [by intros []| |intros _ Eq|done].
    + intros Hne. destruct Hne. apply leibniz_equiv, elements_empty_iff, Permutation_nil. by rewrite <- Hl, El.
    + rewrite Eq, elements_empty in Hl. by apply El, Permutation_nil; symmetry.
Qed.

(** The requests that change who is in voice. *)
Inductive voice_step (r : R) : R -> Prop :=
| voice_create c s u t : valid_id u -> voice_step r (create_voice_state c s u t r).2
| voice_delete c s u : valid_id u -> voice_step r (delete_voice_state c s u r).2
| voice_close c s us : get_voice_channel_members c r = (Ok (Some us), r) ->
    voice_step r (delete_channel_voice_state c s us r).2.

Lemma voice_step_ok r r' : voice_ok (keys r) -> voice_step r r' -> voice_ok (keys r').
Proof.
  intros Hok [c s u t Hu|c s u Hu|c s us Hus].
  - destruct (create_voice_state_run c s u t r Hu Hok) as (r1 & -> & Hk). simpl.
    rewrite Hk, voice_created_joined by done. by apply joined_ok.
  - destruct (delete_voice_state_run c s u r Hu Hok) as (r1 & -> & Hk). simpl.
    rewrite Hk, voice_deleted_left by done. by apply left_ok.
  - destruct (members_run c r Hok) as (ms & E & Hms & _). rewrite E in Hus. injection Hus as ->.
    simpl in Hms. destruct (delete_channel_voice_state_run c s us r Hok) as (r1 & -> & Hk). simpl.
    rewrite Hk, voice_closed_same; [by apply closed_ok|]. apply Forall_forall. intros u Hu.
    apply (vo_ids _ Hok c). by rewrite <- elem_of_elements, <- Hms.
Qed.

Lemma redis_ok {A} (c : M ErrorType R A) r a r' : c r = (Ok a, r') -> redis c r = (Ok a, r').
Proof.
  intros E. unfold redis, to_internal_error, map_err. erewrite M_bind_ok by apply connect_run. by rewrite E.
Qed.

(** C8: However users join, leave and channels are deleted, the three views of
    who is in voice agree: a user is in the list of a channel's members exactly
    when the channel is among the user's channels, and a channel is in the list of
    active channels exactly when it has a member. *)
Theorem voice_views_agree r r' c u :
  voice_ok (keys r) -> rtc voice_step r r' -> c <> "" ->
  exists members active,
    get_voice_channel_members c r' = (Ok members, r')
    /\ get_active_voice_channel_ids r' = (Ok active, r')
    /\ is_in_voice_channel u c r' = (Ok (bool_decide (u ∈ default [] members)), r')
    /\ (c ∈ active <-> is_Some members).
Proof.
  intros Hok Hr Hc.
  assert (voice_ok (keys r')) as Hok'
    by (clear Hc; induction Hr as [|r1 r2 r3 Hs _ IH]; [done|by eapply IH, voice_step_ok]).
  clear r Hok Hr. destruct (members_run c r' Hok') as (ms & E & Hms & Hsome).
  destruct (smembers_run active_voice_channels r') as (l & El & Hl); [eauto with redis|].
  exists ms, (filter (fun s => s <> "") l). split_and!; [done|..].
  - unfold get_active_voice_channel_ids. by erewrite M_bind_ok by (by apply redis_ok).
  - apply redis_ok. rewrite sismember_run by eauto with redis. do 2 f_equal. apply bool_decide_ext.
    by rewrite Hms, elem_of_elements, (vo_mirror _ Hok').
  - rewrite list_elem_of_filter, Hl, elem_of_elements, (vo_active _ Hok'), Hsome. tauto.
Qed.

(** *** Reading a voice state back *)

Definition apply_voice_update (p : PartialUserVoiceState) (st : UserVoiceState) : UserVoiceState := {|
  vs_joined_at := vs_joined_at st; vs_id := vs_id st;
  vs_is_receiving := default (vs_is_receiving st) (pvs_is_receiving p);
  vs_is_publishing := default (vs_is_publishing st) (pvs_is_publishing p);
  vs_screensharing := default (vs_screensharing st) (pvs_screensharing p);
  vs_camera := default (vs_camera st) (pvs_camera p) |}.

(** The five strings of a voice state. *)
Record stored (m : gmap string RedisValue) (key u : string) (st : UserVoiceState) : Prop := {
  st_id : vs_id st = u;
  st_joined : exists s, str_at m ("joined_at:" +:+ key) = Some s /\ parse_i64 s = Some (vs_joined_at st);
  st_time : timestamp_ok (vs_joined_at st) = true;
  st_publishing : str_at m ("is_publishing:" +:+ key) = Some (bool_to_string (vs_is_publishing st));
  st_receiving : str_at m ("is_receiving:" +:+ key) = Some (bool_to_string (vs_is_receiving st));
  st_screen : str_at m ("screensharing:" +:+ key) = Some (bool_to_string (vs_screensharing st));
  st_camera : str_at m ("camera:" +:+ key) = Some (bool_to_string (vs_camera st)) }.

Lemma get_stored c s u st r :
  stored (keys r) (unique_key u (default c s)) u st ->
  get_voice_state timestamp_ok c s u r = (Ok (Some st), r).
Proof.
  intros [Hid (j & Ej & Hj) Ht Ep Er Es Ec]. unfold get_voice_state. cbv zeta.
  erewrite M_bind_ok by (apply redis_ok, mget_run). unfold flag_keys. cbn [fmap list_fmap].
  rewrite Ej, Ep, Er, Es, Ec. unfold typed. rewrite Hj, !parse_bool_to_string.
  do 5 (erewrite M_bind_ok by reflexivity). rewrite Ht.
  by destruct st; simpl in *; subst.
Qed.

Lemma get_gone c s u r :
  (forall k, k ∈ flag_keys (unique_key u (default c s)) -> str_at (keys r) k = None) ->
  get_voice_state timestamp_ok c s u r = (Ok None, r).
Proof.
  intros Hk. unfold get_voice_state. cbv zeta.
  erewrite M_bind_ok by (apply redis_ok, mget_run). unfold flag_keys in *. cbn [fmap list_fmap].
  rewrite !Hk by in_list. done.
Qed.

Lemma str_at_insert (m : gmap string RedisValue) k v k' :
  str_at (<[k := RStr v]> m) k' = if decide (k' = k) then Some v else str_at m k'.
Proof.
  unfold str_at. destruct (decide (k' = k)) as [->|]; [by rewrite lookup_insert_eq|by rewrite lookup_insert_ne].
Qed.

Lemma str_at_put m k s k' : k' <> k -> str_at (put_set k s m) k' = str_at m k'.
Proof.
  intros Hne. unfold str_at, put_set. case_decide; [by rewrite lookup_delete_ne|by rewrite lookup_insert_ne].
Qed.

(** A key that starts in upper case is none of the flags. *)
Lemma unique_key_not_flag u x f : valid_id u -> f ∈ flag_keys (unique_key u x) -> unique_key u x <> f.
Proof.
  intros Hu Hf E. destruct u as [|ch u]; [done|]. cbn in Hu. rewrite <- E in Hf. unfold flag_keys in Hf.
  assert (ch ∈ ["j"; "i"; "s"; "c"]%char) as Hc.
  { repeat (apply elem_of_cons in Hf as [Hf|Hf]; [injection Hf as -> _; set_solver|]).
    by apply not_elem_of_nil in Hf. }
  repeat (apply elem_of_cons in Hc as [->|Hc]; [vm_compute in Hu; lia|]). by apply not_elem_of_nil in Hc.
Qed.

Lemma stored_created c s u t m :
  valid_id u -> is_i64 t -> timestamp_ok t = true ->
  stored (voice_created c (unique_key u (default c s)) u t m) (unique_key u (default c s)) u (fresh_state u t)
  /\ str_at (voice_created c (unique_key u (default c s)) u t m) (unique_key u (default c s)) = Some c.
Proof.
  intros Hu Ht Hok. set (key := unique_key u (default c s)).
  assert (key <> active_voice_channels) as Hk1 by (eapply unique_key_apart; eauto with redis).
  assert (forall f, f ∈ flag_keys key -> key <> f) as Hk2 by (intros f; by apply unique_key_not_flag).
  assert (as_i64 t = t) as Et.
  { rewrite <- (as_i64_as_u64 t Ht) at 2. unfold as_i64, as_u64. by rewrite Zmod_mod. }
  assert (forall k, k <> active_voice_channels -> str_at (voice_created c key u t m) k
    = if decide (k = "camera:" +:+ key) then Some "0" else
      if decide (k = "screensharing:" +:+ key) then Some "0" else
      if decide (k = "is_receiving:" +:+ key) then Some "1" else
      if decide (k = "is_publishing:" +:+ key) then Some "0" else
      if decide (k = "joined_at:" +:+ key) then Some (i64_to_string t) else
      if decide (k = key) then Some c else str_at (add_to (vc u) c (add_to (vc_members c) u m)) k) as E.
  { intros k Hk. unfold voice_created, add_to at 1. by rewrite str_at_put, !str_at_insert, Et by done. }
  clearbody key. split; [constructor|]; rewrite ?E by done.
  - done.
  - exists (i64_to_string t). split; [|by apply parse_i64_to_string]. by repeat case_decide.
  - done.
  - by repeat case_decide.
  - by repeat case_decide.
  - by repeat case_decide.
  - by repeat case_decide.
  - rewrite !decide_False by (apply Hk2; in_list). by rewrite decide_True.
Qed.

Lemma lookup_foldr_delete (l : list string) (m : gmap string RedisValue) k :
  k ∈ l -> foldr delete m l !! k = None.
Proof.
  induction l as [|a l IH]; intros Hk; [by apply not_elem_of_nil in Hk|]. simpl.
  apply lookup_delete_None. apply elem_of_cons in Hk as [->|Hk]; [by left|right; by apply IH].
Qed.

(** Nothing of the state is left. *)
Lemma voice_deleted_gone c key u x m k :
  valid_id u -> key = unique_key u x -> k ∈ flag_keys key ++ [key] -> voice_deleted c key u m !! k = None.
Proof.
  intros Hu Hkey Hk. unfold voice_deleted.
  assert (k <> active_voice_channels) as Hne
    by (intros ->; eapply not_voice_key_string; [exact Hu|exact Hkey|exact Hk|eauto with redis]).
  case_bool_decide; [|by apply lookup_foldr_delete]. unfold remove_from at 1, put_set.
  case_decide; [rewrite lookup_delete_ne by done|rewrite lookup_insert_ne by done]; by apply lookup_foldr_delete.
Qed.

(** The state [create_voice_state] returns is the state [get_voice_state] reads,
    the user is then found in that channel of the server, and once
    [delete_voice_state] has run both are gone. *)
Theorem voice_state_roundtrip r c s u t :
  voice_ok (keys r) -> valid_id u -> is_i64 t -> timestamp_ok t = true ->
  exists state r1 r2,
    create_voice_state c s u t r = (Ok state, r1)
    /\ vs_joined_at state = t /\ vs_id state = u
    /\ get_voice_state timestamp_ok c s u r1 = (Ok (Some state), r1)
    /\ get_user_voice_channel_in_server u (default c s) r1 = (Ok (Some c), r1)
    /\ delete_voice_state c s u r1 = (Ok tt, r2)
    /\ get_voice_state timestamp_ok c s u r2 = (Ok None, r2)
    /\ get_user_voice_channel_in_server u (default c s) r2 = (Ok None, r2).
Proof.
  intros Hok Hu Ht Hto. destruct (create_voice_state_run c s u t r Hu Hok) as (r1 & E1 & H1).
  assert (voice_ok (keys r1)) as Hok1.
  { rewrite H1, voice_created_joined by done. by apply joined_ok. }
  destruct (delete_voice_state_run c s u r1 Hu Hok1) as (r2 & E2 & H2).
  destruct (stored_created c s u t (keys r) Hu Ht Hto) as [Hst Hkey].
  rewrite <- H1 in Hst, Hkey. set (key := unique_key u (default c s)) in *.
  assert (forall k, k ∈ flag_keys key ++ [key] -> keys r2 !! k = None) as Hgone.
  { intros k Hk. rewrite H2. by eapply voice_deleted_gone. }
  assert (forall k, k ∈ flag_keys key ++ [key] -> str_at (keys r2) k = None) as Hstr
    by (intros k Hk; unfold str_at; by rewrite Hgone).
  exists (fresh_state u t), r1, r2. split_and!; [done..|by apply get_stored| |done| |].
  - apply redis_ok. fold key. rewrite get_run, Hkey; [done|]. intros z Ez. unfold str_at in Hkey. by rewrite Ez in Hkey.
  - apply get_gone. intros k Hk. apply Hstr, elem_of_app. by left.
  - apply redis_ok. fold key. assert (key ∈ flag_keys key ++ [key]) as Hin by (apply elem_of_app; right; by left).
    rewrite get_run, Hstr; [done|done|]. intros z. by rewrite Hgone.
Qed.

Lemma does_flag k v cs r m' :
  (forall r', keys r' = match v with Some b => <[k := RStr (bool_to_string b)]> (keys r) | None => keys r end ->
     does (pipeline cs) r' tt m') ->
  does (pipeline (set_flag k v ++ cs)) r tt m'.
Proof.
  destruct v as [b|]; simpl; intros Hf; [|by apply Hf].
  eapply does_cons; [apply does_set|done].
Qed.

Lemma str_at_flag_ne (m : gmap string RedisValue) k v k' :
  k' <> k -> str_at (match v with Some b => <[k := RStr (bool_to_string b)]> m | None => m end) k' = str_at m k'.
Proof. destruct v; [|done]. intros Hne. by rewrite str_at_insert, decide_False. Qed.

Lemma str_at_flag_eq (m : gmap string RedisValue) k v d :
  str_at m k = Some (bool_to_string d) ->
  str_at (match v with Some b => <[k := RStr (bool_to_string b)]> m | None => m end) k
  = Some (bool_to_string (default d v)).
Proof. destruct v; [|done]. intros _. by rewrite str_at_insert, decide_True. Qed.

Lemma parse_bool_inv s b : parse_bool s = Some b -> s = bool_to_string b.
Proof.
  unfold parse_bool. case_bool_decide; [intros [= <-]; done|]. case_bool_decide; [by intros [= <-]|done].
Qed.

(** A flag that is there and parses. *)
Lemma typed_inv {A} (parse : string -> option A) o a :
  typed parse o = Ok (Some a) -> exists s, o = Some s /\ parse s = Some a.
Proof.
  unfold typed. destruct o as [s|]; [|done]. destruct (parse s) eqn:E; [|done]. intros [= ->]. by exists s.
Qed.

Lemma lift_Ok_inv {E S A} (o : outcome E A) (s : S) a s' :
  lift_outcome o s = (Ok a, s') -> o = Ok a /\ s' = s.
Proof. by intros [= -> ->]. Qed.

Lemma get_stored_inv c s u st r r' :
  get_voice_state timestamp_ok c s u r = (Ok (Some st), r') ->
  stored (keys r) (unique_key u (default c s)) u st.
Proof.
  unfold get_voice_state. cbv zeta. erewrite M_bind_ok by (apply redis_ok, mget_run).
  unfold flag_keys. cbn [fmap list_fmap]. intros E.
  do 5 (apply M_bind_Ok_inv in E as (? & ? & [? ->]%lift_Ok_inv & E)).
  repeat match goal with
  | E : match ?o with Some _ => _ | None => mret None end _ = (Ok (Some _), _) |- _ =>
      destruct o; [|by inversion E]
  end.
  repeat match goal with Ht : typed _ _ = Ok (Some _) |- _ => apply typed_inv in Ht as (? & ? & ?) end.
  destruct (timestamp_ok _) eqn:Ht; [|done]. injection E as <- _.
  constructor; simpl; try done; [by eexists|..];
    match goal with Hp : str_at _ ?k = Some _ |- str_at _ ?k = _ => rewrite Hp end; f_equal; by apply parse_bool_inv.
Qed.

(** An update of a voice state is read back: the fields it sets have the new
    value, the others the old one. *)
Theorem voice_update_read_back r c s u st p :
  get_voice_state timestamp_ok c s u r = (Ok (Some st), r) ->
  exists r', update_voice_state c s u p r = (Ok tt, r')
    /\ get_voice_state timestamp_ok c s u r' = (Ok (Some (apply_voice_update p st)), r').
Proof.
  intros Hget%get_stored_inv. unfold update_voice_state. cbv zeta.
  set (key := unique_key u (default c s)) in *.
  set (set1 k v (m : gmap string RedisValue) := match v with Some b => <[k := RStr (bool_to_string b)]> m | None => m end).
  assert (does (pipeline (set_flag ("camera:" +:+ key) (pvs_camera p)
    ++ set_flag ("is_publishing:" +:+ key) (pvs_is_publishing p)
    ++ set_flag ("is_receiving:" +:+ key) (pvs_is_receiving p)
    ++ set_flag ("screensharing:" +:+ key) (pvs_screensharing p))) r tt
    (set1 ("screensharing:" +:+ key) (pvs_screensharing p) (set1 ("is_receiving:" +:+ key) (pvs_is_receiving p)
      (set1 ("is_publishing:" +:+ key) (pvs_is_publishing p) (set1 ("camera:" +:+ key) (pvs_camera p) (keys r))))))
    as Hdoes.
  { apply does_flag. intros r1 H1. apply does_flag. intros r2 H2. rewrite H1 in H2.
    apply does_flag. intros r3 H3. rewrite H2 in H3.
    rewrite <- (app_nil_r (set_flag _ _)). apply does_flag. intros r4 H4. rewrite H3 in H4. by apply does_end. }
  apply does_redis in Hdoes as (r' & E & Hk). exists r'. split; [done|]. apply get_stored. fold key.
  destruct Hget as [Hid (j & Hj & Hpj) Ht Hp Hr Hs Hc]. rewrite Hk. unfold set1. clearbody key.
  constructor; simpl; try done; [exists j; split; [|done]|..];
    repeat first [rewrite str_at_flag_ne by done|apply str_at_flag_eq]; done.
Qed.

Lemma raise_if_in_voice_run r user channel_id :
  voice_ok (keys r) ->
  raise_if_in_voice user channel_id r
  = (if bool_decide (set_at (keys r) (vc (u_id user)) = ∅) then Ok tt else Err ErrorType.AlreadyConnected, r).
Proof.
  intros Hok. unfold raise_if_in_voice, to_internal_error, map_err.
  erewrite M_bind_ok by (by rewrite connect_run).
  assert (set_key (keys r) (vc (u_id user))) as Hk by eauto with redis.
  assert (forall n, (0 <? Z.of_nat (size (set_at (keys r) n))) = negb (bool_decide (set_at (keys r) n = ∅))) as Hsz.
  { intros n. rewrite <- size_at_zero. destruct (size (set_at (keys r) n)); done. }
  assert (exists b, (if bool_decide (is_Some (u_bot user))
     then to_internal_error (r_sismember (vc (u_id user)) channel_id) else mret false) r = (Ok b, r)
     /\ (b = true -> set_at (keys r) (vc (u_id user)) <> ∅)) as (b & Eb & Hb).
  { case_bool_decide; [|by exists false]. eexists. unfold to_internal_error, map_err.
    rewrite sismember_run by done. split; [done|]. intros Hin%bool_decide_eq_true. set_solver. }
  erewrite M_bind_ok by exact Eb. destruct b; [rewrite bool_decide_eq_false_2; [done|by apply Hb]|].
  erewrite M_bind_ok by (by rewrite scard_run). rewrite Hsz.
  destruct (decide (set_at (keys r) (vc (u_id user)) = ∅));
    [by rewrite !bool_decide_eq_true_2|by rewrite !bool_decide_eq_false_2].
Qed.

(** The check before joining refuses every user who is in a voice channel,
    whether or not it is the one they join and whether or not they are a bot. *)
Theorem raise_if_in_voice_any_channel r user channel_id :
  voice_ok (keys r) ->
  raise_if_in_voice user channel_id r
  = (if bool_decide (set_at (keys r) (vc (u_id user)) = ∅) then Ok tt else Err ErrorType.AlreadyConnected, r).
Proof. apply raise_if_in_voice_run. Qed.
End Runs.

(** ** Witnesses *)

Module VoiceWitness.
Import RedisWitness.

Lemma empty_voice_ok : voice_ok (keys (∅ : Store)).
Proof.
  assert (forall k, set_at (∅ : Store) k = ∅) as E by done. simpl.
  constructor; [intros k _ [s Hs]; by rewrite lookup_empty in Hs|..]; intros; rewrite ?E in *; set_solver.
Qed.

Lemma user_valid s : valid_id (String "U" s).
Proof. apply Nat.ltb_lt. reflexivity. Qed.

Definition r1 : Store := (create_voice_state "C1" (Some "S1") "U1" 1000 ∅).2.
Definition r2 : Store := (create_voice_state "C2" None "U1" 1001 r1).2.
Definition after_1970 (t : Z) : bool := 0 <=? t.

Lemma r2_reachable : rtc voice_step (∅ : Store) r2.
Proof.
  eapply rtc_l; [apply (voice_create ∅ "C1" (Some "S1") "U1" 1000); apply user_valid|].
  apply rtc_once, voice_create, user_valid.
Qed.

Lemma voice_r1_ok : voice_ok (keys r1).
Proof.
  eapply voice_step_ok; [exact empty_voice_ok|]. apply voice_create, user_valid.
Qed.

(** Someone who joins a second channel of a server and then leaves the first is a
    member of the second without a state: the flags of a user are kept per server. *)
Definition both : Store := (create_voice_state "C2" (Some "S1") "U1" 1001 r1).2.
Definition moved_on : Store := (delete_voice_state "C1" (Some "S1") "U1" both).2.
Lemma leaving_drops_other_state :
  (get_voice_channel_members "C2" moved_on).1 = Ok (Some ["U1"])
  /\ (get_voice_state after_1970 "C2" (Some "S1") "U1" both).1
     = Ok (Some {| vs_joined_at := 1001; vs_id := "U1"; vs_is_receiving := true; vs_is_publishing := false;
                   vs_screensharing := false; vs_camera := false |})
  /\ (get_voice_state after_1970 "C2" (Some "S1") "U1" moved_on).1 = Ok None.
Proof. split_and!; vm_compute; reflexivity. Qed.

Lemma voice_views_agree_witness :
  exists members active,
    get_voice_channel_members "C1" r2 = (Ok members, r2)
    /\ get_active_voice_channel_ids r2 = (Ok active, r2)
    /\ is_in_voice_channel "U1" "C1" r2 = (Ok (bool_decide ("U1" ∈ default [] members)), r2)
    /\ ("C1" ∈ active <-> is_Some members).
Proof. apply (voice_views_agree ∅ r2 "C1" "U1" empty_voice_ok r2_reachable). discriminate. Defined.

Lemma voice_state_roundtrip_witness :
  exists state r3 r4,
    create_voice_state "C3" None "U2" 5 r1 = (Ok state, r3)
    /\ vs_joined_at state = 5 /\ vs_id state = "U2"
    /\ get_voice_state after_1970 "C3" None "U2" r3 = (Ok (Some state), r3)
    /\ get_user_voice_channel_in_server "U2" "C3" r3 = (Ok (Some "C3"), r3)
    /\ delete_voice_state "C3" None "U2" r3 = (Ok tt, r4)
    /\ get_voice_state after_1970 "C3" None "U2" r4 = (Ok None, r4)
    /\ get_user_voice_channel_in_server "U2" "C3" r4 = (Ok None, r4).
Proof.
  apply (voice_state_roundtrip after_1970 r1 "C3" None "U2" 5 voice_r1_ok).
  - apply user_valid.
  - unfold is_i64, i64_min, i64_max. lia.
  - reflexivity.
Defined.

Definition camera_on : PartialUserVoiceState := {|
  pvs_id := None; pvs_joined_at := None; pvs_is_receiving := None; pvs_is_publishing := None;
  pvs_screensharing := None; pvs_camera := Some true |}.

Lemma voice_update_read_back_witness :
  exists r3, update_voice_state "C1" (Some "S1") "U1" camera_on r1 = (Ok tt, r3)
    /\ get_voice_state after_1970 "C1" (Some "S1") "U1" r3
       = (Ok (Some (apply_voice_update camera_on (fresh_state "U1" 1000))), r3).
Proof.
  apply (voice_update_read_back after_1970 r1 "C1" (Some "S1") "U1" (fresh_state "U1" 1000) camera_on).
  vm_cast_no_check (@eq_refl (Result (option UserVoiceState) * Store) (Ok (Some (fresh_state "U1" 1000)), r1)).
Defined.

Definition bot : User := {|
  u_id := "U1"; u_username := "bot"; u_discriminator := "0001"; u_display_name := None;
  u_avatar := None; u_relations := None; u_badges := None; u_status := None; u_profile := None;
  u_flags := None; u_privileged := false; u_bot := Some {| bi_owner := "U9" |};
  u_suspended_until := None; u_last_acknowledged_policy_change := 0; u_subscription := None;
  u_active_decorations := None; u_presence_style := None |}.

Lemma raise_if_in_voice_any_channel_witness :
  u_bot bot <> None /\ ("C2" ∉ set_at (keys r1) (vc (u_id bot)))
  /\ raise_if_in_voice bot "C2" r1
     = (if bool_decide (set_at (keys r1) (vc (u_id bot)) = ∅) then Ok tt else Err ErrorType.AlreadyConnected, r1).
Proof.
  split; [discriminate|]. split; [vm_compute; discriminate|].
  exact (raise_if_in_voice_any_channel r1 bot "C2" voice_r1_ok).
Defined.
End VoiceWitness.
