(* ===== verification/Routes.v ===== *)
(** * What the routes of the REST API share
    ([crates/core/database/src/util/reference.rs], [models/files/model.rs],
    [crates/delta/src/routes])

    A route is a computation over [Services]: it fetches the objects its path
    names ([Reference]), calculates the permissions of the caller over them and
    calls the methods of the models.  The caller ([User], a request guard) is an
    argument.  Request bodies are validated with the crate [validator]:
    [validate] lists the length rules of the derive attributes, with the text of
    a failure from the class [Validator].

    The permission calculation of a route and the rank it compares have a
    closed form ([server_permissions_of], [rank_of]), which the theorems on the
    routes use. *)

From Stdlib Require Import Ascii.
From S2P Require Import Prelude Results Permissions PermissionCalc Models ModelOps DbPermissions PermissionSpec ReferenceDb World Servers Channels Members Users Redis Voice.

(** ** Validation *)

(** [str::chars().count()]: the bytes that do not continue a character. *)
Fixpoint chars (s : string) : Z :=
  match s with
  | EmptyString => 0
  | String c s => (if Z.of_nat (Ascii.nat_of_ascii c) / 64 =? 2 then 0 else 1) + chars s
  end.

(** [validate(length(min, max))], on an optional field *)
Definition length_within (min max : Z) (s : string) : bool := (min <=? chars s) && (chars s <=? max).
Definition when_some {A} (check : A -> bool) (o : option A) : bool :=
  match o with Some a => check a | None => true end.

Class Validator := {
  error_text : list string -> string;
  is_colour : string -> bool }.

(** [data.validate().map_err(..)]: the rules by field name *)
Definition validate `{Validator} (rules : list (string * bool)) : Result unit :=
  match filter (fun rule : string * bool => rule.2 = false) rules with
  | [] => Ok tt
  | failed => Err (ErrorType.FailedValidation (error_text failed.*1))
  end.

Lemma validate_total `{Validator} rules :
  validate rules = Ok tt \/ exists text, validate rules = Err (ErrorType.FailedValidation text).
Proof. unfold validate. destruct (filter _ rules); [by left|]. right. by eexists. Qed.

Section Shared.
Context {D R : Type} `{Database D} `{PermissionDatabase D} `{HashOrder} (now : Timestamp).
Local Abbreviation Vm := (M ErrorType (Services D R)).

(** ** References *)

Definition as_ban (id server : string) : Vm ServerBan := db (Database.fetch_ban server id).
Definition as_bot (id : string) : Vm Bot := db (Database.fetch_bot id).
Definition as_channel (id : string) : Vm Channel := db (Database.fetch_channel id).
Definition as_member (id server : string) : Vm Member := db (Database.fetch_member server id).
Definition as_server (id : string) : Vm Server := db (Database.fetch_server id).
Definition as_user (id : string) : Vm User := db (Database.fetch_user id).

(** [Reference::as_invite]; [is_ulid] is [ulid::Ulid::from_str(..).is_ok()] *)
Definition as_invite (is_ulid : string -> bool) (id : string) : Vm Invite :=
  if is_ulid id then
    server ← as_server id;
    if negb (s_discoverable server) then throw ErrorType.NotFound else
    channel ← lift_outcome (ok_or ErrorType.NotFound (head (s_channels server)));
    mret (Invite.Server id (s_id server) (s_owner server) channel)
  else db (Database.fetch_invite id).

(** ** Files *)

Definition use_file (tag : string) (object_type : FileUsedForType) (id parent uploader_id : string) : Vm File :=
  db (Database.find_and_use_attachment id tag
        {| fuf_object_type := object_type; fuf_id := parent |} uploader_id).
Definition use_user_avatar : string -> string -> string -> Vm File := use_file "avatars" FileUsedForType.UserAvatar.
Definition use_server_icon : string -> string -> string -> Vm File := use_file "icons" FileUsedForType.ServerIcon.
Definition use_server_banner : string -> string -> string -> Vm File := use_file "banners" FileUsedForType.ServerBanner.

(** ** The caller's permissions in a server *)

(** [DatabasePermissionQuery::new(db, &user).server(&server)], calculated: the
    permissions and the query as the calculation leaves it *)
Definition server_permissions (user : User) (server : Server)
    : Vm (PermissionValue * DatabasePermissionQuery D) :=
  d ← database;
  let '(permissions, q) :=
    db_calculate_server_permissions now (query_server (DatabasePermissionQuery_new d user) server) in
  permissions ← lift_outcome permissions;
  mret (permissions, q).

(** [query.get_member_rank().unwrap_or(i64::MIN)] *)
Definition member_rank (q : DatabasePermissionQuery D) : Result Z :=
  rank ← get_member_rank q;
  Ok (unwrap_or rank i64_min).

(** [query.server_ref().as_ref().unwrap()] *)
Definition server_ref (q : DatabasePermissionQuery D) : Result Server :=
  match q_server q with Some server => Ok server | None => Panicked end.

(** *** In closed form *)

(** The owner and privileged users are above every role. *)
Definition is_above_roles (user : User) (server : Server) : bool :=
  u_privileged user || bool_decide (s_owner server = u_id user).

Definition server_permissions_of (user : User) (server : Server) (m : option Member) : PermissionValue :=
  if is_above_roles user server then PV ChannelPermission.GrantAllSafe else
  match m with
  | Some m => member_server_permissions now server m
  | None => PV 0
  end.

Definition rank_of (user : User) (server : Server) (m : option Member) : Z :=
  if is_above_roles user server then i64_min else
  match m with
  | Some m => get_ranking m server
  | None => i64_min
  end.

(** The membership of a user, as the permission query finds it. *)
Definition membership (d : D) (server : Server) (user : User) (m : option Member) : Prop :=
  match m with
  | Some m => fetch_member d (s_id server) (u_id user) = Ok m
  | None => exists e, fetch_member d (s_id server) (u_id user) = Err e
  end.

(** A caller who is above no role: the calculation asks for the membership and
    goes on with what it found. *)
Lemma calculation_asks_membership :
  exists K : M ErrorType (DatabasePermissionQuery D) PermissionValue, forall server (q q' : DatabasePermissionQuery D) b,
  q_server q = Some server -> is_above_roles (q_perspective q) server = false ->
  db_are_we_a_member q = (Ok b, q') ->
  db_calculate_server_permissions now q = (if negb b then mret (PV 0) else K) q'.
Proof.
  eexists. intros server q q' b Hs [Hp Ho]%orb_false_iff E.
  unfold db_calculate_server_permissions, calculate_server_permissions.
  erewrite M_bind_ok by reflexivity. rewrite Hp.
  erewrite (M_bind_ok are_we_server_owner _ q) by (simpl; unfold db_are_we_server_owner, reads; by rewrite Hs, Ho).
  cbv beta iota. erewrite M_bind_ok by exact E. reflexivity.
Qed.

Lemma server_permissions_run user server m (s : Services D R) :
  membership (w_db (sv_world s)) server user m ->
  exists q, server_permissions user server s = (Ok (server_permissions_of user server m, q), s)
    /\ member_rank q = Ok (rank_of user server m) /\ q_server q = Some server
    /\ (is_above_roles user server = false -> get_member_rank q = Ok ((fun m => get_ranking m server) <$> m)).
Proof.
  intros Hm. unfold server_permissions. erewrite M_bind_ok by reflexivity.
  set (q0 := query_server _ _). set (d := w_db (sv_world s)) in *.
  assert (q_server q0 = Some server /\ q_member q0 = None /\ q_perspective q0 = user /\ q_database q0 = d)
    as (Hs0 & Hm0 & Hp0 & Hd0) by done. clearbody q0.
  unfold server_permissions_of, rank_of. destruct (is_above_roles user server) eqn:Ha.
  - exists q0. unfold is_above_roles in Ha. apply orb_true_iff in Ha.
    assert (db_calculate_server_permissions now q0 = (Ok (PV ChannelPermission.GrantAllSafe), q0)) as ->.
    { unfold db_calculate_server_permissions, calculate_server_permissions.
      erewrite M_bind_ok by reflexivity. rewrite Hp0. destruct (u_privileged user); [done|].
      destruct Ha as [Ha|Ha]; [done|].
      erewrite M_bind_ok by (simpl; unfold db_are_we_server_owner, reads; by rewrite Hs0, Hp0, Ha). done. }
    split_and!; [done| |done|done]. unfold member_rank, get_member_rank. by rewrite Hm0.
  - destruct (are_we_a_member_serves q0 server m Hs0) as (q1 & E1 & Hm1 & Hs1 & _ & Hp1).
    { right. split; [done|]. by rewrite Hd0, Hp0. }
    assert (db_calculate_server_permissions now q0
      = (Ok match m with Some m => member_server_permissions now server m | None => PV 0 end, q1)) as ->.
    { destruct calculation_asks_membership as [K HK]. rewrite <- Hp0 in Ha.
      rewrite (HK server q0 q1 _ Hs0 Ha E1). rewrite <- Hp1 in Ha. destruct m as [m|]; [|done].
      pose proof Ha as [Hpr Ho]%orb_false_iff.
      rewrite <- (calculate_server_permissions_member now q1 server m); [|done..].
      symmetry. apply (HK server q1 q1 true Hs1 Ha). unfold db_are_we_a_member. by rewrite Hs1, Hm1. }
    exists q1. split_and!; [done| |done|].
    + unfold member_rank, get_member_rank. rewrite Hm1, Hs1. by destruct m.
    + intros _. unfold get_member_rank. rewrite Hm1, Hs1. by destruct m.
Qed.
End Shared.

(** ** What leaves the database alone *)

Create HintDb keeps_db.

Section Keeps.
Context {D R : Type}.
Local Abbreviation Vm := (M ErrorType (Services D R)).

Definition keeps_db {A} (m : Vm A) : Prop := forall s, w_db (sv_world (m s).2) = w_db (sv_world s).

Lemma keeps_ret {A} (a : A) : keeps_db (mret a).
Proof. done. Qed.

Lemma keeps_bind {A B} (m : Vm A) (f : A -> Vm B) :
  keeps_db m -> (forall a, keeps_db (f a)) -> keeps_db (m ≫= f).
Proof.
  intros Hm Hf s. unfold mbind, M_bind. specialize (Hm s).
  destruct (m s) as [[a|e|] s1]; simpl in *; [|done|done]. by rewrite Hf.
Qed.

Lemma keeps_lift {A} (o : Result A) : keeps_db (lift_outcome o).
Proof. done. Qed.

Lemma keeps_throw {A} e : keeps_db (throw e : Vm A).
Proof. done. Qed.

Lemma keeps_panic {A} : keeps_db (panic : Vm A).
Proof. done. Qed.

Lemma keeps_redis {A} (m : M ErrorType R A) : keeps_db (on_redis m).
Proof. intros s. by rewrite on_redis_run. Qed.

Lemma keeps_publish (e : EventV1) c : keeps_db (on_world (p e c)).
Proof. done. Qed.

Lemma keeps_database : keeps_db database.
Proof. done. Qed.

Lemma keeps_ignore {A} (m : Vm A) : keeps_db m -> keeps_db (ignore_err m).
Proof. intros Hm s. unfold ignore_err. specialize (Hm s). by destruct (m s) as [[a|e|] s1]. Qed.

Lemma keeps_map_err {A} e (m : Vm A) : keeps_db m -> keeps_db (map_err e m).
Proof. intros Hm s. unfold map_err. specialize (Hm s). by destruct (m s) as [[a|e'|] s1]. Qed.

Lemma keeps_get_node nodes node : keeps_db (get_node nodes node).
Proof. intros s. unfold get_node. by destruct (bool_decide _). Qed.

Lemma keeps_livekit_call `{LiveKit} c : keeps_db (livekit_call c).
Proof. done. Qed.

Lemma keeps_query {A} (f : D -> Result A) : keeps_db (db (query f)).
Proof. intros s. unfold db. by rewrite on_world_run, call_run. Qed.
End Keeps.

#[export] Hint Resolve keeps_ret keeps_bind keeps_lift keeps_throw keeps_panic keeps_redis keeps_publish
  keeps_database keeps_ignore keeps_map_err keeps_get_node keeps_livekit_call keeps_query : keeps_db.
#[export] Hint Extern 1 (keeps_db (db _)) => apply keeps_query : keeps_db.

(** The goal is a composition of such steps. *)
Ltac keeps :=
  repeat first
    [ progress intros
    | progress cbv zeta
    | apply keeps_bind
    | apply keeps_ignore
    | apply keeps_map_err
    | match goal with |- keeps_db (match ?x with _ => _ end) => destruct x end
    | solve [auto with keeps_db] ].

Section KeepsReference.
Context {R : Type} `{Redis R} `{LiveKit} `{HashOrder}.
Context `{OptionalStruct Server PartialServer} `{OptionalStruct Role PartialRole}
  `{OptionalStruct Member PartialMember} `{OptionalStruct User PartialUser}.
Context (timestamp_ok : Z -> bool) (nodes : gset string) (now : Timestamp) (user_limits : User -> Result FeaturesLimits).

Lemma keeps_as_channel id : keeps_db (D := ReferenceDb) (R := R) (as_channel id).
Proof. apply keeps_query. Qed.

Lemma keeps_sync_user node user channel server role_id :
  keeps_db (D := ReferenceDb) (R := R)
    (sync_user_voice_permissions timestamp_ok nodes now user_limits node user channel server role_id).
Proof. unfold sync_user_voice_permissions, sync_permissions, update_permissions. keeps. Qed.

Lemma keeps_sync_users node users channel server role_id :
  keeps_db (D := ReferenceDb) (R := R)
    (sync_users timestamp_ok nodes now user_limits node users channel server role_id).
Proof.
  induction users as [|u users IH]; simpl; keeps.
Qed.

Lemma keeps_sync_voice channel server role_id :
  keeps_db (D := ReferenceDb) (R := R)
    (sync_voice_permissions timestamp_ok nodes now user_limits channel server role_id).
Proof. unfold sync_voice_permissions. keeps. apply keeps_sync_users. Qed.

Lemma keeps_remove_from_voice channel_id user_id :
  keeps_db (D := ReferenceDb) (R := R) (remove_user_from_voice_channel nodes channel_id user_id).
Proof. unfold remove_user_from_voice_channel, remove_user. keeps. Qed.

Lemma keeps_create_token node user permissions channel :
  keeps_db (D := ReferenceDb) (R := R) (create_token nodes user_limits node user permissions channel).
Proof. unfold create_token, to_internal_error. keeps. Qed.
End KeepsReference.
#[export] Hint Resolve keeps_as_channel keeps_sync_user keeps_sync_users keeps_sync_voice keeps_remove_from_voice
  keeps_create_token : keeps_db.
