(* ===== verification/Moderation.v ===== *)
(** * Moderation of members ([crates/delta/src/routes/servers])

    The routes [member_edit.rs], [member_remove.rs] (kick), [ban_create.rs],
    [ban_remove.rs], [ban_list.rs], [member_fetch.rs] and [server_delete.rs]
    (leave or delete), with their checks, the writes of the models and the
    effects on voice.

    The theorems: who edits, kicks or bans another member is above them in rank
    and has the permission for each field they change; no role at or above the
    caller's rank is granted; a kick and a ban take effect.  Where the checks
    have a gap the theorem says what gets through it. *)

From S2P Require Import Prelude Results Permissions PermissionCalc Models ModelOps DbPermissions PermissionSpec ReferenceDb World Servers Channels Members Users Redis Voice Routes.

#[export] Instance FieldsMember_eq_dec : EqDecision FieldsMember.
Proof. solve_decision. Defined.

(** [v0::DataMemberEdit] *)
Record DataMemberEdit := {
  de_nickname : option string;
  de_avatar : option string;
  de_roles : option (list string);
  de_timeout : option Timestamp;
  de_can_publish : option bool;
  de_can_receive : option bool;
  de_voice_channel : option string;
  de_remove : list FieldsMember }.

Definition removes (field : FieldsMember) (data : DataMemberEdit) : bool :=
  bool_decide (field ∈ de_remove data).
Definition given {A} (o : option A) : bool := bool_decide (is_Some o).

Section Routes.
Context {D R : Type} `{Database D} `{PermissionDatabase D} `{Redis R} `{LiveKit} `{HashOrder} `{Validator}.
Context `{OptionalStruct Member PartialMember}.
Context (timestamp_ok : Z -> bool) (nodes : gset string) (now : Timestamp).
Context (user_limits : User -> Result FeaturesLimits).
Local Abbreviation Vm := (M ErrorType (Services D R)).

(** ** Edit Member *)

(** The permission checks on the fields of the request. *)
Definition check_nickname (permissions : PermissionValue) (user : User) (member : Member)
    (data : DataMemberEdit) : Result unit :=
  if given (de_nickname data) || removes FieldsMember.Nickname data then
    throw_if_lacking_channel_permission permissions
      (if bool_decide (u_id user = mk_user (m_id member))
       then ChannelPermission.ChangeNickname else ChannelPermission.ManageNicknames)
  else Ok tt.
Definition check_avatar (permissions : PermissionValue) (user : User) (member : Member)
    (data : DataMemberEdit) : Result unit :=
  if given (de_avatar data) || removes FieldsMember.Avatar data then
    if bool_decide (u_id user = mk_user (m_id member))
    then throw_if_lacking_channel_permission permissions ChannelPermission.ChangeAvatar
    else Err ErrorType.InvalidOperation
  else Ok tt.
Definition check_roles (permissions : PermissionValue) (data : DataMemberEdit) : Result unit :=
  if given (de_roles data) || removes FieldsMember.Roles data
  then throw_if_lacking_channel_permission permissions ChannelPermission.AssignRoles
  else Ok tt.
Definition check_timeout (permissions target_permissions : PermissionValue) (user : User)
    (member : Member) (data : DataMemberEdit) : Result unit :=
  if given (de_timeout data) || removes FieldsMember.Timeout data then
    (if given (de_timeout data) then
       if bool_decide (mk_user (m_id member) = u_id user) then Err ErrorType.CannotTimeoutYourself
       else if has_channel_permission target_permissions ChannelPermission.TimeoutMembers
       then Err ErrorType.IsElevated
       else Ok tt
     else Ok tt);;
    throw_if_lacking_channel_permission permissions ChannelPermission.TimeoutMembers
  else Ok tt.
Definition check_voice (permissions : PermissionValue) (user : User) (member : Member)
    (data : DataMemberEdit) : Result unit :=
  (if given (de_can_publish data)
   then throw_if_lacking_channel_permission permissions ChannelPermission.MuteMembers else Ok tt);;
  (if given (de_can_receive data)
   then throw_if_lacking_channel_permission permissions ChannelPermission.DeafenMembers else Ok tt);;
  (if given (de_voice_channel data) && removes FieldsMember.VoiceChannel data
   then Err ErrorType.InvalidOperation else Ok tt);;
  (if given (de_voice_channel data) || removes FieldsMember.VoiceChannel data then
     if negb (is_enabled nodes) then Err ErrorType.LiveKitUnavailable
     else if bool_decide (mk_user (m_id member) <> u_id user)
     then throw_if_lacking_channel_permission permissions ChannelPermission.MoveMembers
     else Ok tt
   else Ok tt).
Definition check_fields (permissions target_permissions : PermissionValue) (user : User)
    (member : Member) (data : DataMemberEdit) : Result unit :=
  check_nickname permissions user member data;;
  check_avatar permissions user member data;;
  check_roles permissions data;;
  check_timeout permissions target_permissions user member data;;
  check_voice permissions user member data.

(** The voice channel to move the member to. *)
Definition check_new_voice_channel (query : DatabasePermissionQuery D) (target_user : User)
    (server : Server) (member : Member) (new_channel : string) : Vm Channel :=
  channel ← map_err ErrorType.UnknownChannel (as_channel new_channel);
  if bool_decide (channel_server channel <> Some (mk_server (m_id member)))
  then throw ErrorType.UnknownChannel else
  permissions ← lift_outcome (db_calculate_channel_permissions now (query_channel query channel)).1;
  lift_outcome (throw_if_lacking_channel_permission permissions ChannelPermission.Connect);;
  current ← on_redis (get_user_voice_channel_in_server (u_id target_user) (s_id server));
  if bool_decide (is_Some current) then mret channel else throw ErrorType.NotConnected.
Definition find_new_voice_channel (query : DatabasePermissionQuery D) (target_user : User)
    (server : Server) (member : Member) (data : DataMemberEdit) : Vm (option Channel) :=
  match de_voice_channel data with
  | Some new_channel =>
      channel ← check_new_voice_channel query target_user server member new_channel;
      mret (Some channel)
  | None => mret None
  end.

Definition check_elevated (our_ranking : Z) (user : User) (member : Member) (server : Server) : Result unit :=
  if bool_decide (mk_user (m_id member) <> u_id user) && (get_ranking member server <=? our_ranking)
  then Err ErrorType.NotElevated else Ok tt.

(** [new_roles.difference(&current_roles)], in the order of the hash set *)
Definition added_roles (roles current_roles : list string) : list string :=
  (hm_iter (gset_to_gmap tt ((list_to_set roles : gset string) ∖ list_to_set current_roles))).*1.

(** The roles that are given must be in the server and below the caller; each is
    taken out of the server object. *)
Fixpoint check_added (our_ranking : Z) (server : Server) (added : list string) : Result Server :=
  match added with
  | [] => Ok server
  | role_id :: rest =>
      match s_roles server !! role_id with
      | Some role =>
          if r_rank role <=? our_ranking then Err ErrorType.NotElevated
          else check_added our_ranking (s_set_roles (delete role_id (s_roles server)) server) rest
      | None => Err ErrorType.InvalidRole
      end
  end.
Definition check_role_diff (our_ranking : Z) (server : Server) (member : Member) (data : DataMemberEdit)
    : Result Server :=
  match de_roles data with
  | Some roles => check_added our_ranking server (added_roles roles (m_roles member))
  | None => Ok server
  end.

(** [.unwrap()] *)
Definition unwrap {E S A} (o : option A) : M E S A := match o with Some a => mret a | None => panic end.

Definition move_member (target_user : User) (server : Server) (new_voice_channel : Channel) : Vm unit :=
  channel ← on_redis (get_user_voice_channel_in_server (u_id target_user) (s_id server));
  match channel with
  | None => mret tt
  | Some channel =>
      old_node ← on_redis (get_channel_node channel);
      old_node ← unwrap old_node;
      node ← on_redis (get_channel_node (channel_id new_voice_channel));
      new_node ← match node with
                 | Some node => mret node
                 | None => on_redis (set_channel_node (channel_id new_voice_channel) old_node);; mret old_node
                 end;
      on_redis (set_user_moved_from_voice channel (channel_id new_voice_channel) (u_id target_user));;
      on_redis (set_user_moved_to_voice (channel_id new_voice_channel) channel (u_id target_user));;
      d ← database;
      permissions ← lift_outcome (db_calculate_channel_permissions now
        (query_channel (DatabasePermissionQuery_new d target_user) new_voice_channel)).1;
      create_room nodes new_node new_voice_channel;;
      token ← create_token nodes user_limits new_node target_user permissions new_voice_channel;
      remove_user nodes old_node (u_id target_user) channel;;
      on_world (private (EventV1.UserMoveVoiceChannel new_node channel (channel_id new_voice_channel) token)
                  (u_id target_user))
  end.

(** As in the source the permissions that are synchronised, and the user who is
    removed, are those of the caller. *)
Definition sync_member (user target_user : User) (server : Server) : Vm unit :=
  channel ← on_redis (get_user_voice_channel_in_server (u_id target_user) (s_id server));
  match channel with
  | None => mret tt
  | Some channel =>
      node ← on_redis (get_channel_node channel);
      node ← unwrap node;
      channel ← as_channel channel;
      sync_user_voice_permissions timestamp_ok nodes now user_limits node user channel (Some server) None
  end.
Definition disconnect_member (user target_user : User) (server : Server) : Vm unit :=
  channel ← on_redis (get_user_voice_channel_in_server (u_id target_user) (s_id server));
  match channel with
  | None => mret tt
  | Some channel =>
      node ← on_redis (get_channel_node channel);
      node ← unwrap node;
      remove_user nodes node (u_id user) channel
  end.

Definition member_edit_validate (data : DataMemberEdit) : Result unit :=
  validate [("nickname", when_some (length_within 1 32) (de_nickname data))].

(** What the route has established when it starts to write. *)
Record EditCheck := {
  ec_server : Server;
  ec_target_user : User;
  ec_member : Member;
  ec_new_voice_channel : option Channel }.

Definition member_edit_checks (user : User) (server_id member_id : string) (data : DataMemberEdit)
    : Vm EditCheck :=
  lift_outcome (member_edit_validate data);;
  server ← as_server server_id;
  target_user ← as_user member_id;
  member ← as_member member_id (s_id server);
  '(permissions, query) ← server_permissions now user server;
  d ← database;
  target_permissions ← lift_outcome (db_calculate_server_permissions now
    (query_member (query_server (DatabasePermissionQuery_new d target_user) server) member)).1;
  lift_outcome (check_fields permissions target_permissions user member data);;
  new_voice_channel ← find_new_voice_channel query target_user server member data;
  our_ranking ← lift_outcome (member_rank query);
  ranked ← lift_outcome (server_ref query);
  lift_outcome (check_elevated our_ranking user member ranked);;
  server ← lift_outcome (check_role_diff our_ranking server member data);
  mret {| ec_server := server; ec_target_user := target_user; ec_member := member;
          ec_new_voice_channel := new_voice_channel |}.

(** The avatar: the old one is dropped, the new one is claimed. *)
Definition edit_avatar (user : User) (member : Member) (data : DataMemberEdit) : Vm (option File) :=
  match m_avatar member with
  | Some avatar => if removes FieldsMember.Avatar data
                   then db (Database.mark_attachment_as_deleted (f_id avatar)) else mret tt
  | None => mret tt
  end;;
  match de_avatar data with
  | Some avatar => file ← use_user_avatar avatar (u_id user) (u_id user); mret (Some file)
  | None => mret None
  end.

Definition edit_partial (data : DataMemberEdit) (avatar : option File) : PartialMember := {|
  pm_id := None; pm_joined_at := None; pm_nickname := de_nickname data; pm_avatar := avatar;
  pm_roles := de_roles data; pm_timeout := de_timeout data; pm_can_publish := de_can_publish data;
  pm_can_receive := de_can_receive data |}.

Definition edit_voice (user : User) (c : EditCheck) (data : DataMemberEdit) : Vm unit :=
  match ec_new_voice_channel c with
  | Some channel => move_member (ec_target_user c) (ec_server c) channel
  | None =>
      if given (de_can_publish data) || given (de_can_receive data)
         || removes FieldsMember.CanPublish data || removes FieldsMember.CanReceive data
      then sync_member user (ec_target_user c) (ec_server c) else mret tt
  end;;
  if removes FieldsMember.VoiceChannel data
  then disconnect_member user (ec_target_user c) (ec_server c) else mret tt.

Definition member_edit (user : User) (server_id member_id : string) (data : DataMemberEdit) : Vm Member :=
  c ← member_edit_checks user server_id member_id data;
  avatar ← edit_avatar user (ec_member c) data;
  member ← on_world (member_update (ec_member c) (edit_partial data avatar) (de_remove data));
  edit_voice user c data;;
  mret member.

(** ** Kick Member *)

(** The voice channel is looked up under the name the route has for the server. *)
Definition kick (user : User) (target member_id : string) : Vm unit :=
  server ← as_server target;
  if bool_decide (member_id = u_id user) then throw ErrorType.CannotRemoveYourself else
  if bool_decide (member_id = s_owner server) then throw ErrorType.InvalidOperation else
  '(permissions, query) ← server_permissions now user server;
  lift_outcome (throw_if_lacking_channel_permission permissions ChannelPermission.KickMembers);;
  member ← as_member member_id (s_id server);
  ranked ← lift_outcome (server_ref query);
  our_ranking ← lift_outcome (member_rank query);
  if get_ranking member ranked <=? our_ranking then throw ErrorType.NotElevated else
  on_world (member_remove now member server RemovalIntention.Kick false);;
  channel ← on_redis (get_user_voice_channel_in_server target (s_id server));
  match channel with
  | Some channel_id => remove_user_from_voice_channel nodes channel_id target
  | None => mret tt
  end.

(** ** Bans *)

Definition DataBanCreate := option string.
Definition ban_validate (reason : DataBanCreate) : Result unit :=
  validate [("reason", when_some (length_within 0 1024) reason)].

(** [if let Ok(member) = target.as_member(..)] *)
Definition member_if_present (target server : string) : Vm (option Member) := fun s =>
  match as_member target server s with
  | (Ok member, s') => (Ok (Some member), s')
  | (Err _, s') => (Ok None, s')
  | (Panicked, s') => (Panicked, s')
  end.

Definition ban_removes (query : DatabasePermissionQuery D) (target : string) (server : Server)
    (member : Member) : Vm unit :=
  ranked ← lift_outcome (server_ref query);
  our_ranking ← lift_outcome (member_rank query);
  if get_ranking member ranked <=? our_ranking then throw ErrorType.NotElevated else
  on_world (member_remove now member server RemovalIntention.Ban false);;
  channel ← on_redis (get_user_voice_channel_in_server target (s_id server));
  match channel with
  | Some channel_id => remove_user_from_voice_channel nodes channel_id target
  | None => mret tt
  end.

Definition ban (user : User) (server_id target : string) (reason : DataBanCreate) : Vm ServerBan :=
  lift_outcome (ban_validate reason);;
  server ← as_server server_id;
  if bool_decide (target = u_id user) then throw ErrorType.CannotRemoveYourself else
  if bool_decide (target = s_owner server) then throw ErrorType.InvalidOperation else
  '(permissions, query) ← server_permissions now user server;
  lift_outcome (throw_if_lacking_channel_permission permissions ChannelPermission.BanMembers);;
  member ← member_if_present target (s_id server);
  match member with
  | Some member => ban_removes query target server member
  | None => mret tt
  end;;
  on_world (ban_create server target reason).

Definition unban (user : User) (server_id target : string) : Vm unit :=
  server ← as_server server_id;
  '(permissions, _) ← server_permissions now user server;
  lift_outcome (throw_if_lacking_channel_permission permissions ChannelPermission.BanMembers);;
  ban ← as_ban target (s_id server);
  db (Database.delete_ban (ban_id ban)).

(** ** Leave or delete *)

Fixpoint delete_voice_channels (server_id : string) (channels : list string) : Vm unit :=
  match channels with
  | [] => mret tt
  | channel_id :: rest =>
      delete_voice_channel nodes channel_id (Some server_id);;
      delete_voice_channels server_id rest
  end.

Definition leave_or_delete_server (user : User) (target : string) (leave_silently : option bool) : Vm unit :=
  server ← as_server target;
  member ← db (Database.fetch_member target (u_id user));
  if bool_decide (s_owner server = u_id user) then
    delete_voice_channels (s_id server) (s_channels server);;
    on_world (server_delete server)
  else
    channel ← on_redis (get_user_voice_channel_in_server (u_id user) (s_id server));
    match channel with
    | Some channel_id => remove_user_from_voice_channel nodes channel_id (u_id user)
    | None => mret tt
    end;;
    on_world (member_remove now member server RemovalIntention.Leave (unwrap_or leave_silently false)).
End Routes.

(** ** Authority *)

Section Authority.
Context {R : Type} `{Redis R} `{LiveKit} `{HO : HashOrder} `{Validator}.
Context `{OS : OptionalStruct Server PartialServer} `{OR : OptionalStruct Role PartialRole}
  `{OM : OptionalStruct Member PartialMember} {ML : MemberOptionalLaws} `{OU : OptionalStruct User PartialUser}.
Context (timestamp_ok : Z -> bool) (nodes : gset string) (now : Timestamp).
Context (user_limits : User -> Result FeaturesLimits).
Implicit Types s : Services ReferenceDb R.

Definition stored_db s : ReferenceDb := w_db (sv_world s).

(** The caller's membership, permissions and rank in a server. *)
Definition membership_of (d : ReferenceDb) (server : Server) (user : User) : option Member :=
  db_server_members d !! member_key (s_id server) (u_id user).
Definition caller_permissions (d : ReferenceDb) (server : Server) (user : User) : PermissionValue :=
  server_permissions_of now user server (membership_of d server user).
Definition caller_rank (d : ReferenceDb) (server : Server) (user : User) : Z :=
  rank_of user server (membership_of d server user).

Lemma membership_of_ok d server user : membership d server user (membership_of d server user).
Proof.
  unfold membership, membership_of. simpl. unfold Ref.fetch_member, get_or.
  destruct (db_server_members d !! _); [done|]. by eexists.
Qed.

Lemma reads_run {A} (f : ReferenceDb -> Result A) s : db (query f) s = (f (stored_db s), s).
Proof. unfold db. rewrite on_world_run, call_run. by destruct s as [[] ? ?]. Qed.

Lemma as_server_run id s : as_server id s = (Ref.fetch_server (stored_db s) id, s).
Proof. exact (reads_run (fun d => Ref.fetch_server d id) s). Qed.
Lemma as_user_run id s : as_user id s = (Ref.fetch_user (stored_db s) id, s).
Proof. exact (reads_run (fun d => Ref.fetch_user d id) s). Qed.
Lemma as_member_run id server s : as_member id server s = (Ref.fetch_member (stored_db s) server id, s).
Proof. exact (reads_run (fun d => Ref.fetch_member d server id) s). Qed.

Lemma caller_run user server s :
  exists q, server_permissions now user server s = (Ok (caller_permissions (stored_db s) server user, q), s)
    /\ member_rank q = Ok (caller_rank (stored_db s) server user) /\ server_ref q = Ok server.
Proof.
  destruct (server_permissions_run now user server _ s (membership_of_ok (stored_db s) server user))
    as (q & E & Hr & Hs & _).
  exists q. split_and!; [done|done|]. unfold server_ref. by rewrite Hs.
Qed.

Lemma lacking_Ok p perm :
  throw_if_lacking_channel_permission p perm = Ok tt -> has_channel_permission p perm = true.
Proof. unfold throw_if_lacking_channel_permission. by destruct (has_channel_permission p perm). Qed.

(** What the fields of a request need. *)
Record fields_allowed (p : PermissionValue) (user : User) (member : Member) (data : DataMemberEdit) : Prop := {
  fa_nickname : given (de_nickname data) || removes FieldsMember.Nickname data = true ->
    has_channel_permission p (if bool_decide (u_id user = mk_user (m_id member))
      then ChannelPermission.ChangeNickname else ChannelPermission.ManageNicknames) = true;
  fa_avatar : given (de_avatar data) || removes FieldsMember.Avatar data = true ->
    u_id user = mk_user (m_id member) /\ has_channel_permission p ChannelPermission.ChangeAvatar = true;
  fa_roles : given (de_roles data) || removes FieldsMember.Roles data = true ->
    has_channel_permission p ChannelPermission.AssignRoles = true;
  fa_timeout : given (de_timeout data) || removes FieldsMember.Timeout data = true ->
    has_channel_permission p ChannelPermission.TimeoutMembers = true;
  fa_timeout_other : given (de_timeout data) = true -> mk_user (m_id member) <> u_id user;
  fa_publish : given (de_can_publish data) = true ->
    has_channel_permission p ChannelPermission.MuteMembers = true;
  fa_receive : given (de_can_receive data) = true ->
    has_channel_permission p ChannelPermission.DeafenMembers = true;
  fa_move : given (de_voice_channel data) || removes FieldsMember.VoiceChannel data = true ->
    mk_user (m_id member) <> u_id user -> has_channel_permission p ChannelPermission.MoveMembers = true }.

Lemma check_fields_Ok p tp user member data :
  check_fields nodes p tp user member data = Ok tt -> fields_allowed p user member data.
Proof.
  unfold check_fields. intros E.
  apply outcome_bind_Ok in E as ([] & Hn & E). apply outcome_bind_Ok in E as ([] & Ha & E).
  apply outcome_bind_Ok in E as ([] & Hr & E). apply outcome_bind_Ok in E as ([] & Ht & Hv).
  unfold check_voice in Hv.
  apply outcome_bind_Ok in Hv as ([] & Hp & Hv). apply outcome_bind_Ok in Hv as ([] & Hre & Hv).
  apply outcome_bind_Ok in Hv as ([] & _ & Hm).
  assert (given (de_timeout data) || removes FieldsMember.Timeout data = true ->
    has_channel_permission p ChannelPermission.TimeoutMembers = true
    /\ (given (de_timeout data) = true -> mk_user (m_id member) <> u_id user)) as Hto.
  { unfold check_timeout in Ht. intros Eg. rewrite Eg in Ht. apply outcome_bind_Ok in Ht as ([] & Hself & Hperm).
    split; [by apply lacking_Ok|]. intros Eg'. rewrite Eg' in Hself. cbv iota in Hself.
    by destruct (bool_decide_reflect (mk_user (m_id member) = u_id user)). }
  constructor.
  - unfold check_nickname in Hn. intros Eg. rewrite Eg in Hn. by apply lacking_Ok.
  - unfold check_avatar in Ha. intros Eg. rewrite Eg in Ha.
    destruct (bool_decide_reflect (u_id user = mk_user (m_id member))); [|done].
    split; [done|by apply lacking_Ok].
  - unfold check_roles in Hr. intros Eg. rewrite Eg in Hr. by apply lacking_Ok.
  - intros Eg. by apply Hto.
  - intros Eg. apply Hto; [by rewrite Eg|done].
  - intros Eg. rewrite Eg in Hp. by apply lacking_Ok.
  - intros Eg. rewrite Eg in Hre. by apply lacking_Ok.
  - intros Eg Hne. rewrite Eg in Hm. destruct (negb _); [done|].
    rewrite bool_decide_eq_true_2 in Hm by done. by apply lacking_Ok.
Qed.

Lemma elem_of_added roles current id : id ∈ added_roles roles current <-> id ∈ roles /\ id ∉ current.
Proof.
  unfold added_roles. rewrite list_elem_of_fmap. split.
  - intros ([k []] & -> & Hk). apply elem_of_hm_iter in Hk. apply lookup_gset_to_gmap_Some in Hk as [Hk _].
    apply elem_of_difference in Hk. by rewrite !elem_of_list_to_set in Hk.
  - intros [Hr Hc]. exists (id, tt). split; [done|]. apply elem_of_hm_iter, lookup_gset_to_gmap_Some.
    split; [|done]. apply elem_of_difference. by rewrite !elem_of_list_to_set.
Qed.

Lemma check_added_Ok rank server added server' id :
  check_added rank server added = Ok server' -> id ∈ added ->
  exists r, s_roles server !! id = Some r /\ rank < r_rank r.
Proof.
  revert server. induction added as [|x added IH]; intros server; simpl; [by intros _ ?%not_elem_of_nil|].
  destruct (s_roles server !! x) as [r|] eqn:Er; [|done]. destruct (Z.leb_spec (r_rank r) rank); [done|].
  intros E [->|Hin]%elem_of_cons; [by exists r|].
  destruct (IH _ E Hin) as (r' & Hr' & Hlt). exists r'. split; [|done].
  simpl in Hr'. by apply lookup_delete_Some in Hr' as [_ ?].
Qed.

Lemma keeps_run {A} (m : M ErrorType (Services ReferenceDb R) A) s r s' :
  keeps_db m -> m s = (r, s') -> stored_db s' = stored_db s.
Proof. intros Hm E. specialize (Hm s). by rewrite E in Hm. Qed.

Lemma keeps_find_voice query target_user server member data :
  keeps_db (find_new_voice_channel now query target_user server member data
            : M ErrorType (Services ReferenceDb R) _).
Proof. unfold find_new_voice_channel, check_new_voice_channel, as_channel. keeps. Qed.

(** The checks of [member_edit], passed. *)
Lemma member_edit_checks_Ok user sid mid data s c s' :
  member_edit_checks nodes now user sid mid data s = (Ok c, s') ->
  exists server, Ref.fetch_server (stored_db s) sid = Ok server
    /\ Ref.fetch_member (stored_db s) (s_id server) mid = Ok (ec_member c)
    /\ stored_db s' = stored_db s
    /\ fields_allowed (caller_permissions (stored_db s) server user) user (ec_member c) data
    /\ (mk_user (m_id (ec_member c)) <> u_id user ->
        caller_rank (stored_db s) server user < get_ranking (ec_member c) server)
    /\ forall roles id, de_roles data = Some roles -> id ∈ roles -> id ∉ m_roles (ec_member c) ->
         exists r, s_roles server !! id = Some r /\ caller_rank (stored_db s) server user < r_rank r.
Proof.
  unfold member_edit_checks. intros E.
  apply M_bind_Ok_inv in E as ([] & ? & [_ ->]%lift_Ok_inv & E).
  apply M_bind_Ok_inv in E as (server & ? & Es & E). rewrite as_server_run in Es. injection Es as Es <-.
  apply M_bind_Ok_inv in E as (target & ? & Et & E). rewrite as_user_run in Et. injection Et as Et <-.
  apply M_bind_Ok_inv in E as (member & ? & Em & E). rewrite as_member_run in Em. injection Em as Em <-.
  destruct (caller_run user server s) as (q & Eq & Hrank & Href).
  erewrite M_bind_ok in E by exact Eq. cbv beta iota in E. rewrite Hrank, Href in E.
  erewrite M_bind_ok in E by reflexivity.
  apply M_bind_Ok_inv in E as (tp & ? & [_ ->]%lift_Ok_inv & E).
  apply M_bind_Ok_inv in E as ([] & ? & [Hf%check_fields_Ok ->]%lift_Ok_inv & E).
  apply M_bind_Ok_inv in E as (vc & s1 & Ev & E).
  apply M_bind_Ok_inv in E as (? & ? & [[= <-] ->]%lift_Ok_inv & E).
  apply M_bind_Ok_inv in E as (? & ? & [[= <-] ->]%lift_Ok_inv & E).
  apply M_bind_Ok_inv in E as ([] & ? & [He ->]%lift_Ok_inv & E).
  apply M_bind_Ok_inv in E as (server' & ? & [Hd ->]%lift_Ok_inv & E). injection E as <- <-.
  exists server. simpl. split_and!; [done|done| |done| |].
  - eapply keeps_run; [apply keeps_find_voice|exact Ev].
  - intros Hne. unfold check_elevated in He. rewrite bool_decide_eq_true_2 in He by done. simpl in He.
    destruct (Z.leb_spec (get_ranking member server) (caller_rank (stored_db s) server user)); [done|lia].
  - intros roles id Hr Hin Hnot. unfold check_role_diff in Hd. rewrite Hr in Hd.
    eapply check_added_Ok; [exact Hd|]. by apply elem_of_added.
Qed.

Lemma keeps_edit_voice user c data :
  keeps_db (edit_voice timestamp_ok nodes now user_limits user c data
            : M ErrorType (Services ReferenceDb R) _).
Proof.
  unfold edit_voice, move_member, sync_member, disconnect_member, unwrap, as_channel, remove_user, create_room, private.
  keeps.
Qed.

(** A step that changes no member and no server. *)
Definition keeps_members {A} (m : M ErrorType (Services ReferenceDb R) A) : Prop := forall s,
  db_server_members (stored_db (m s).2) = db_server_members (stored_db s)
  /\ db_servers (stored_db (m s).2) = db_servers (stored_db s).

Lemma keeps_members_bind {A B} (m : M ErrorType (Services ReferenceDb R) A) (f : A -> M _ _ B) :
  keeps_members m -> (forall a, keeps_members (f a)) -> keeps_members (m ≫= f).
Proof.
  intros Hm Hf s. unfold mbind, M_bind. specialize (Hm s). destruct (m s) as [[a|e|] s1]; simpl in *; [|done|done].
  destruct (Hf a s1) as [H1' H2']. by rewrite H1', H2'.
Qed.

Lemma keeps_members_call {A} (m : M ErrorType ReferenceDb A) :
  (forall d, db_server_members (m d).2 = db_server_members d /\ db_servers (m d).2 = db_servers d) ->
  keeps_members (db m).
Proof. intros Hm s. unfold db. rewrite on_world_run, call_run. apply Hm. Qed.

Lemma keeps_edit_avatar user member data : keeps_members (edit_avatar user member data).
Proof.
  unfold edit_avatar. apply keeps_members_bind; [|intros _].
  - destruct (m_avatar member); [|done]. destruct (removes _ data); [|done]. apply keeps_members_call.
    intros d. simpl. unfold Ref.mark_attachment_as_deleted, with_mut. by destruct (db_files d !! _).
  - destruct (de_avatar data); [|done]. apply keeps_members_bind; [|done]. apply keeps_members_call.
    intros d. simpl. unfold Ref.find_and_use_attachment. by repeat case_match.
Qed.

Lemma m_id_removed fields m : m_id (foldl member_remove_field m fields) = m_id m.
Proof. revert m. induction fields as [|f fields IH]; intros m; [done|]. simpl. rewrite IH. by destruct f. Qed.

(** The update of a stored member. *)
Lemma member_update_run m partial remove s :
  pm_id partial = None -> db_server_members (stored_db s) !! m_id m = Some m ->
  let m' := apply_options (foldl member_remove_field m remove) partial in
  exists s', on_world (member_update m partial remove) s = (Ok m', s')
    /\ m_id m' = m_id m /\ sv_redis s' = sv_redis s
    /\ stored_db s' = set_server_members (<[m_id m := m']> (db_server_members (stored_db s))) (stored_db s).
Proof using ML.
  intros Hp Hm m'.
  assert (m_id m' = m_id m) as Hid by (unfold m'; by rewrite m_id_applied, Hp, m_id_removed).
  rewrite on_world_run. unfold member_update. fold m'.
  assert (call (Database.update_member (m_id m') partial remove) (sv_world s)
    = (Ok tt, w_set_db (set_server_members (<[m_id m := m']> (db_server_members (stored_db s))) (stored_db s)) (sv_world s))) as E.
  { rewrite call_run. simpl. unfold Ref.update_member, with_mut. rewrite Hid. fold (stored_db s). by rewrite Hm. }
  cbv zeta. erewrite M_bind_ok by exact E. by eexists.
Qed.

(** C5: Nobody edits a member above them.  If the edit of a member succeeds, the
    caller has the permission for every field that is set; a member other than
    themselves ranks strictly below them; every role that is added is a role of
    the server that ranks strictly below them; and exactly the entry of that
    member changes among the members and servers. *)
Theorem member_edit_authorised user sid mid data s member' s' :
  (forall k m, db_server_members (stored_db s) !! k = Some m -> m_id m = k) ->
  member_edit timestamp_ok nodes now user_limits user sid mid data s = (Ok member', s') ->
  exists server member,
    Ref.fetch_server (stored_db s) sid = Ok server
    /\ Ref.fetch_member (stored_db s) (s_id server) mid = Ok member
    /\ fields_allowed (caller_permissions (stored_db s) server user) user member data
    /\ (mk_user (m_id member) <> u_id user ->
        caller_rank (stored_db s) server user < get_ranking member server)
    /\ (forall roles id, de_roles data = Some roles -> id ∈ roles -> id ∉ m_roles member ->
         exists r, s_roles server !! id = Some r /\ caller_rank (stored_db s) server user < r_rank r)
    /\ db_servers (stored_db s') = db_servers (stored_db s)
    /\ db_server_members (stored_db s') = <[m_id member := member']> (db_server_members (stored_db s)).
Proof.
  unfold member_edit. intros Hkeys E. apply M_bind_Ok_inv in E as (c & s1 & Ec & E).
  destruct (member_edit_checks_Ok _ _ _ _ _ _ _ Ec) as (server & Hs & Hm & Hdb & Hf & Hr & Hroles).
  assert (db_server_members (stored_db s) !! m_id (ec_member c) = Some (ec_member c)) as Hstored.
  { unfold Ref.fetch_member, get_or, ok_or in Hm.
    destruct (db_server_members (stored_db s) !! member_key _ _) as [m|] eqn:Em; [|done].
    injection Hm as ->. by rewrite (Hkeys _ _ Em). }
  apply M_bind_Ok_inv in E as (avatar & s2 & Ea & E).
  pose proof (keeps_edit_avatar user (ec_member c) data s1) as [Hm2 Hs2]. rewrite Ea in Hm2, Hs2.
  simpl in Hm2, Hs2. rewrite Hdb in Hm2, Hs2. rewrite <- Hm2 in Hstored.
  destruct (member_update_run (ec_member c) (edit_partial data avatar) (de_remove data) s2 eq_refl Hstored)
    as (s3 & Eu & _ & _ & Hdb3).
  erewrite M_bind_ok in E by exact Eu. apply M_bind_Ok_inv in E as ([] & s4 & Ev & [= <- <-]).
  pose proof (keeps_run _ _ _ _ (keeps_edit_voice user c data) Ev) as Hdb4.
  exists server, (ec_member c). rewrite Hdb4, Hdb3. simpl. rewrite <- Hm2, <- Hs2. split_and!; done.
Qed.

(** ** Kicks and bans *)

Lemma member_removed self server intention silent s s' :
  on_world (member_remove now self server intention silent) s = (Ok tt, s') ->
  db_server_members (stored_db s') = delete (m_id self) (db_server_members (stored_db s))
  /\ db_server_bans (stored_db s') = db_server_bans (stored_db s).
Proof.
  rewrite on_world_run. intros [= E <-]. unfold stored_db. simpl.
  assert (exists m, db_server_members (w_db (sv_world s)) !! m_id self = Some m /\ in_timeout now m = false)
    as (m & Hm & Ht).
  { unfold member_remove in E.
    destruct (call (Database.soft_delete_member now (m_id self)) (sv_world s)) as [[[]|e|] w1] eqn:Ec.
    - rewrite call_run in Ec. simpl in Ec. unfold Ref.soft_delete_member in Ec.
      destruct (db_server_members (w_db (sv_world s)) !! m_id self) as [m|]; [|done].
      destruct (in_timeout now m) eqn:Et; [done|]. by exists m.
    - by erewrite M_bind_err in E by exact Ec.
    - unfold mbind, M_bind in E. by rewrite Ec in E. }
  destruct (member_remove_run now self server intention silent (sv_world s) m Hm Ht) as (w' & Ew & H1' & H2').
  by rewrite Ew.
Qed.

(** What a kick does, on every branch.  For a member of a server: the caller
    cannot kick themselves or the owner, needs [KickMembers] and has to rank
    strictly above the member; then the member is gone, and nothing else changed
    among the members.  A refused kick changes nothing.  In no case is a voice
    channel touched: the route looks up the server where it means the member. *)
Theorem kick_outcome user target mid server member s :
  Ref.fetch_server (stored_db s) target = Ok server ->
  Ref.fetch_member (stored_db s) (s_id server) mid = Ok member ->
  m_id member = member_key (s_id server) mid -> in_timeout now member = false ->
  get_user_voice_channel_in_server target (s_id server) (sv_redis s) = (Ok None, sv_redis s) ->
  let '(result, s') := kick nodes now user target mid s in
  result =
    (if bool_decide (mid = u_id user) then Err ErrorType.CannotRemoveYourself
     else if bool_decide (mid = s_owner server) then Err ErrorType.InvalidOperation
     else if negb (has_channel_permission (caller_permissions (stored_db s) server user) ChannelPermission.KickMembers)
     then Err (ErrorType.MissingPermission (channel_permission_name ChannelPermission.KickMembers))
     else if get_ranking member server <=? caller_rank (stored_db s) server user then Err ErrorType.NotElevated
     else Ok tt)
  /\ db_server_members (stored_db s')
     = (if is_ok result then delete (member_key (s_id server) mid) else id) (db_server_members (stored_db s))
  /\ sv_redis s' = sv_redis s /\ sv_livekit s' = sv_livekit s.
Proof.
  intros Hs Hm Hid Ht Hv. unfold kick.
  erewrite M_bind_ok by (by rewrite as_server_run, Hs).
  destruct (bool_decide (mid = u_id user)); [done|]. destruct (bool_decide (mid = s_owner server)); [done|].
  destruct (caller_run user server s) as (q & Eq & Hrank & Href). erewrite M_bind_ok by exact Eq. cbv beta iota.
  unfold throw_if_lacking_channel_permission.
  destruct (has_channel_permission (caller_permissions _ _ _) _); [|done]. simpl negb.
  erewrite M_bind_ok by reflexivity.
  erewrite M_bind_ok by (by rewrite as_member_run, Hm). rewrite Href, Hrank.
  do 2 (erewrite M_bind_ok by reflexivity). destruct (_ <=? _); [done|].
  assert (db_server_members (stored_db s) !! m_id member = Some member) as Hst.
  { unfold Ref.fetch_member, get_or, ok_or in Hm. rewrite Hid.
    by destruct (db_server_members (stored_db s) !! _); [injection Hm as ->|]. }
  destruct (member_remove_run now member server RemovalIntention.Kick false (sv_world s) member Hst Ht)
    as (w' & Ew & Hw & _).
  erewrite M_bind_ok by (by rewrite on_world_run, Ew).
  erewrite M_bind_ok by (rewrite on_redis_run; simpl; by rewrite Hv). simpl.
  split_and!; [done| |done|done]. unfold stored_db. simpl. by rewrite Hw, Hid.
Qed.

Lemma member_if_present_run target server s :
  member_if_present target server s = (Ok (db_server_members (stored_db s) !! member_key server target), s).
Proof.
  unfold member_if_present. rewrite as_member_run. unfold Ref.fetch_member, get_or.
  by destruct (db_server_members (stored_db s) !! _).
Qed.

(** The part of a ban that removes a member. *)
Lemma ban_removes_Ok q target server member s s' rank :
  server_ref q = Ok server -> member_rank q = Ok rank ->
  ban_removes nodes now q target server member s = (Ok tt, s') ->
  rank < get_ranking member server
  /\ db_server_members (stored_db s') = delete (m_id member) (db_server_members (stored_db s)).
Proof.
  intros Href Hrank. unfold ban_removes. rewrite Href, Hrank.
  do 2 (erewrite M_bind_ok by reflexivity).
  destruct (Z.leb_spec (get_ranking member server) rank); [done|]. intros E.
  apply M_bind_Ok_inv in E as ([] & s1 & Er & E). apply member_removed in Er as [Hm _].
  split; [lia|]. rewrite <- Hm. f_equal. eapply keeps_run; [|exact E]. keeps.
Qed.

(** A ban takes effect and is authorised.  If it succeeds the caller has
    [BanMembers], the target is neither the caller nor the owner, a target who was
    a member ranked strictly below the caller; afterwards the target is no member,
    and every attempt of theirs to join the server is refused. *)
Theorem ban_takes_effect user sid tid reason b s s' :
  (forall k m, db_server_members (stored_db s) !! k = Some m -> m_id m = k) ->
  ban nodes now user sid tid reason s = (Ok b, s') ->
  exists server, Ref.fetch_server (stored_db s) sid = Ok server
    /\ tid <> u_id user /\ tid <> s_owner server
    /\ has_channel_permission (caller_permissions (stored_db s) server user) ChannelPermission.BanMembers = true
    /\ (forall m, Ref.fetch_member (stored_db s) (s_id server) tid = Ok m ->
          caller_rank (stored_db s) server user < get_ranking m server)
    /\ Ref.fetch_member (stored_db s') (s_id server) tid = Err ErrorType.NotFound
    /\ forall target channels, u_id target = tid ->
         member_create now server target channels (sv_world s') = (Err ErrorType.Banned, sv_world s').
Proof.
  intros Hkeys E. unfold ban in E. apply M_bind_Ok_inv in E as ([] & ? & [_ ->]%lift_Ok_inv & E).
  apply M_bind_Ok_inv in E as (server & ? & Es & E). rewrite as_server_run in Es. injection Es as Es <-.
  exists server. split; [done|].
  destruct (bool_decide_reflect (tid = u_id user)); [done|]. destruct (bool_decide_reflect (tid = s_owner server)); [done|].
  destruct (caller_run user server s) as (q & Eq & Hrank & Href). erewrite M_bind_ok in E by exact Eq.
  cbv beta iota in E. apply M_bind_Ok_inv in E as ([] & ? & [Hp%lacking_Ok ->]%lift_Ok_inv & E).
  erewrite M_bind_ok in E by apply member_if_present_run.
  apply M_bind_Ok_inv in E as ([] & s1 & Er & E).
  set (key := member_key (s_id server) tid) in *.
  assert ((forall m, db_server_members (stored_db s) !! key = Some m ->
             caller_rank (stored_db s) server user < get_ranking m server)
          /\ db_server_members (stored_db s1) !! key = None) as [Hlt Hgone].
  { destruct (db_server_members (stored_db s) !! key) as [m|] eqn:Em.
    - destruct (ban_removes_Ok q tid server m s s1 _ Href Hrank Er) as [Hlt Hd].
      split; [by intros ? [= <-]|]. by rewrite Hd, (Hkeys _ _ Em), lookup_delete_eq.
    - injection Er as <-. by rewrite Em. }
  rewrite on_world_run in E. injection E as Eb <-.
  destruct (ban_create server tid reason (sv_world s1)) as [[b'|e|] w'] eqn:Ec; [|done|done]. simpl in Eb.
  apply ban_create_stored in Ec as [Hb Hm]. split_and!; [done|done|done| | |].
  - intros m. unfold Ref.fetch_member, get_or, ok_or. fold key.
    destruct (db_server_members (stored_db s) !! key) eqn:Em; [|done]. intros [= <-]. by apply Hlt.
  - unfold Ref.fetch_member, get_or. fold key. unfold stored_db in *. simpl. by rewrite Hm, Hgone.
  - intros target channels <-. apply banned_refused. by exists b'.
Qed.

(** ** Voice restrictions *)

Definition lift_restrictions : DataMemberEdit := {|
  de_nickname := None; de_avatar := None; de_roles := None; de_timeout := None; de_can_publish := None;
  de_can_receive := None; de_voice_channel := None;
  de_remove := [FieldsMember.CanPublish; FieldsMember.CanReceive] |}.

(** The permissions of a member, the query holding them. *)
Lemma target_permissions_run d user server member :
  exists p q, db_calculate_server_permissions now
    (query_member (query_server (DatabasePermissionQuery_new d user) server) member) = (Ok p, q).
Proof.
  set (q := query_member _ _). destruct (is_above_roles user server) eqn:Ha.
  - apply orb_true_iff in Ha. exists (PV ChannelPermission.GrantAllSafe), q.
    unfold db_calculate_server_permissions, calculate_server_permissions.
    erewrite M_bind_ok by reflexivity. simpl. destruct (u_privileged user); [done|].
    destruct Ha as [Ha|Ha]; [done|]. erewrite M_bind_ok by reflexivity. simpl. by rewrite Ha.
  - apply orb_false_iff in Ha as [Hp Ho]. do 2 eexists.
    by apply (calculate_server_permissions_member now q server member).
Qed.

(** A server mute is no restriction on the muted member: a request that only
    removes the fields [CanPublish] and [CanReceive] needs no permission at all.
    It succeeds for the member themselves and for every caller that ranks above
    the member, which includes callers outside of the server, and afterwards the
    member may speak and listen again.  (Stated for a member who is not in voice.) *)
Theorem mute_lifted_without_permission user sid mid server target member s :
  Ref.fetch_server (stored_db s) sid = Ok server ->
  Ref.fetch_user (stored_db s) mid = Ok target ->
  Ref.fetch_member (stored_db s) (s_id server) mid = Ok member -> m_id member = member_key (s_id server) mid ->
  u_id user = mid \/ caller_rank (stored_db s) server user < get_ranking member server ->
  get_user_voice_channel_in_server (u_id target) (s_id server) (sv_redis s) = (Ok None, sv_redis s) ->
  exists m' s', member_edit timestamp_ok nodes now user_limits user sid mid lift_restrictions s = (Ok m', s')
    /\ Ref.fetch_member (stored_db s') (s_id server) mid = Ok m'
    /\ m_can_publish m' = true /\ m_can_receive m' = true.
Proof using ML.
  intros Hs Et Hm Hid Hrank Hvoice.
  assert (db_server_members (stored_db s) !! m_id member = Some member) as Hst.
  { unfold Ref.fetch_member, get_or, ok_or in Hm. rewrite Hid.
    by destruct (db_server_members (stored_db s) !! _); [injection Hm as ->|]. }
  destruct (caller_run user server s) as (q & Eq & Hr & Href).
  destruct (target_permissions_run (stored_db s) target server member) as (tp & qt & Etp).
  assert (member_edit_checks nodes now user sid mid lift_restrictions s
    = (Ok {| ec_server := server; ec_target_user := target; ec_member := member; ec_new_voice_channel := None |}, s)) as Ec.
  { unfold member_edit_checks. erewrite M_bind_ok by reflexivity.
    erewrite M_bind_ok by (by rewrite as_server_run, Hs). erewrite M_bind_ok by (by rewrite as_user_run, Et).
    erewrite M_bind_ok by (by rewrite as_member_run, Hm). erewrite M_bind_ok by exact Eq. cbv beta iota.
    erewrite M_bind_ok by reflexivity.
    erewrite M_bind_ok by (unfold lift_outcome; fold (stored_db s); by rewrite Etp).
    erewrite M_bind_ok by reflexivity. erewrite M_bind_ok by reflexivity. rewrite Hr, Href.
    do 2 (erewrite M_bind_ok by reflexivity).
    assert (check_elevated (caller_rank (stored_db s) server user) user member server = Ok tt) as ->.
    { unfold check_elevated. rewrite Hid. simpl. destruct Hrank as [->|Hlt]; [by rewrite bool_decide_eq_false_2 by tauto|].
      rewrite (proj2 (Z.leb_gt _ _) Hlt). by rewrite andb_false_r. }
    erewrite M_bind_ok by reflexivity. by erewrite M_bind_ok by reflexivity. }
  destruct (member_update_run member (edit_partial lift_restrictions None) (de_remove lift_restrictions) s
    eq_refl Hst) as (s2 & Eu & _ & Hre & Hdb).
  assert (edit_avatar user member lift_restrictions s = (Ok None, s)) as Ea.
  { unfold edit_avatar. by destruct (m_avatar member). }
  eexists _, _. split.
  { unfold member_edit. erewrite M_bind_ok by exact Ec. erewrite M_bind_ok by exact Ea.
    erewrite M_bind_ok by exact Eu. erewrite M_bind_ok; [done|].
    unfold edit_voice. erewrite M_bind_ok; [done|]. simpl. unfold sync_member.
    erewrite M_bind_ok by (rewrite on_redis_run, Hre, Hvoice; reflexivity). done. }
  split; [|split; [by rewrite m_can_publish_applied|by rewrite m_can_receive_applied]].
  unfold stored_db in *. simpl. rewrite Hdb, Hid. unfold Ref.fetch_member, get_or. simpl. by rewrite lookup_insert_eq.
Qed.
End Authority.

(** ** Witnesses *)

Module ModerationWitness.
Import SomePriority RedisWitness.

#[export] Instance no_livekit : LiveKit := {| livekit_result _ := Ok tt; num_participants _ _ := 0; to_jwt _ _ _ := Ok "token" |}.
#[export] Instance plain_validator : Validator := {| error_text _ := "invalid"; is_colour _ := true |}.
Definition no_limits (u : User) : Result FeaturesLimits := Err ErrorType.NotFound.

Definition named (id : string) (roles : list string) (publish : bool) : Member := {|
  m_id := member_key "server" id; m_joined_at := 0; m_nickname := None; m_avatar := None;
  m_roles := roles; m_timeout := None; m_can_publish := publish; m_can_receive := publish |}.

(** A moderator with the permissions to kick and to assign roles, and a member
    who was muted. *)
Definition moderator_permissions : Z :=
  ChannelPermission.KickMembers +p ChannelPermission.BanMembers +p ChannelPermission.AssignRoles.
Definition roles : gmap string Role :=
  {[ "mod" := Example.role "mod" 0 moderator_permissions 0; "low" := Example.role "low" 5 0 0 ]}.
Definition server : Server := Example.server roles.
Definition members : gmap MemberCompositeKey Member :=
  {[ member_key "server" "mod" := named "mod" ["mod"] true;
     member_key "server" "muted" := named "muted" [] false ]}.
Definition d0 : ReferenceDb :=
  set_users {[ "mod" := Example.user "mod"; "muted" := Example.user "muted" ]}
    (set_servers {[ "server" := server ]} (set_server_members members ReferenceDb_default)).
Definition s0 : Services ReferenceDb Store :=
  {| sv_world := world d0; sv_redis := ∅; sv_livekit := [] |}.

Definition give_low : DataMemberEdit := {|
  de_nickname := None; de_avatar := None; de_roles := Some ["low"]; de_timeout := None; de_can_publish := None;
  de_can_receive := None; de_voice_channel := None; de_remove := [] |}.

Lemma members_keyed k m : members !! k = Some m -> m_id m = k.
Proof.
  unfold members. intros [[<- <-]|[_ Hm]]%lookup_insert_Some; [done|].
  by apply lookup_singleton_Some in Hm as [<- <-].
Qed.

Definition always (t : Z) : bool := true.

Definition edited : Result Member * Services ReferenceDb Store :=
  member_edit always ∅ 0 no_limits (Example.user "mod") "server" "muted" give_low s0.

Lemma edited_ok : edited = (Ok (named "muted" ["low"] false), edited.2).
Proof. vm_compute. reflexivity. Qed.

Lemma member_edit_authorised_witness :
  exists server member,
    Ref.fetch_server (stored_db s0) "server" = Ok server
    /\ Ref.fetch_member (stored_db s0) (s_id server) "muted" = Ok member
    /\ fields_allowed (caller_permissions 0 (stored_db s0) server (Example.user "mod")) (Example.user "mod")
         member give_low
    /\ (mk_user (m_id member) <> "mod" ->
        caller_rank (stored_db s0) server (Example.user "mod") < get_ranking member server)
    /\ (forall roles id, de_roles give_low = Some roles -> id ∈ roles -> id ∉ m_roles member ->
         exists r, s_roles server !! id = Some r
           /\ caller_rank (stored_db s0) server (Example.user "mod") < r_rank r)
    /\ db_servers (stored_db edited.2) = db_servers (stored_db s0)
    /\ db_server_members (stored_db edited.2)
       = <[m_id member := named "muted" ["low"] false]> (db_server_members (stored_db s0)).
Proof.
  exact (member_edit_authorised always ∅ 0 no_limits (Example.user "mod") "server" "muted" give_low s0
           (named "muted" ["low"] false) edited.2 members_keyed edited_ok).
Defined.

Lemma kick_outcome_witness :
  let '(result, s') := kick ∅ 0 (Example.user "mod") "server" "muted" s0 in
  result =
    (if bool_decide ("muted" = "mod") then Err ErrorType.CannotRemoveYourself
     else if bool_decide ("muted" = "owner") then Err ErrorType.InvalidOperation
     else if negb (has_channel_permission (caller_permissions 0 (stored_db s0) server (Example.user "mod"))
                     ChannelPermission.KickMembers)
     then Err (ErrorType.MissingPermission (channel_permission_name ChannelPermission.KickMembers))
     else if get_ranking (named "muted" [] false) server <=? caller_rank (stored_db s0) server (Example.user "mod")
     then Err ErrorType.NotElevated
     else Ok tt)
  /\ db_server_members (stored_db s')
     = (if is_ok result then delete (member_key "server" "muted") else id) (db_server_members (stored_db s0))
  /\ sv_redis s' = sv_redis s0 /\ sv_livekit s' = sv_livekit s0.
Proof.
  apply (kick_outcome ∅ 0 (Example.user "mod") "server" "muted" server (named "muted" [] false) s0);
    vm_compute; reflexivity.
Defined.

Definition banned : Result ServerBan * Services ReferenceDb Store :=
  ban ∅ 0 (Example.user "mod") "server" "muted" None s0.

Lemma banned_ok : banned = (Ok {| ban_id := member_key "server" "muted"; ban_reason := None |}, banned.2).
Proof. vm_compute. reflexivity. Qed.

Lemma ban_takes_effect_witness :
  exists server, Ref.fetch_server (stored_db s0) "server" = Ok server
    /\ "muted" <> u_id (Example.user "mod") /\ "muted" <> s_owner server
    /\ has_channel_permission (caller_permissions 0 (stored_db s0) server (Example.user "mod"))
         ChannelPermission.BanMembers = true
    /\ (forall m, Ref.fetch_member (stored_db s0) (s_id server) "muted" = Ok m ->
          caller_rank (stored_db s0) server (Example.user "mod") < get_ranking m server)
    /\ Ref.fetch_member (stored_db banned.2) (s_id server) "muted" = Err ErrorType.NotFound
    /\ forall target channels, u_id target = "muted" ->
         member_create 0 server target channels (sv_world banned.2) = (Err ErrorType.Banned, sv_world banned.2).
Proof.
  exact (ban_takes_effect ∅ 0 (Example.user "mod") "server" "muted" None
           {| ban_id := member_key "server" "muted"; ban_reason := None |} s0 banned.2 members_keyed banned_ok).
Defined.

(** The muted member, with no role and no permission to mute, lifts the mute. *)
Lemma mute_lifted_without_permission_witness :
  m_can_publish (named "muted" [] false) = false
  /\ has_channel_permission (caller_permissions 0 (stored_db s0) server (Example.user "muted"))
       ChannelPermission.MuteMembers = false
  /\ exists m' s', member_edit always ∅ 0 no_limits (Example.user "muted") "server" "muted" lift_restrictions s0
                   = (Ok m', s')
    /\ Ref.fetch_member (stored_db s') "server" "muted" = Ok m'
    /\ m_can_publish m' = true /\ m_can_receive m' = true.
Proof.
  split; [reflexivity|]. split; [vm_compute; reflexivity|].
  apply (mute_lifted_without_permission always ∅ 0 no_limits (Example.user "muted") "server" "muted" server
           (Example.user "muted") (named "muted" [] false) s0);
    [vm_compute; reflexivity..|left; reflexivity|vm_compute; reflexivity].
Defined.
End ModerationWitness.
