(* ===== verification/ServerRoutes.v ===== *)
(** * Servers, roles and invites ([crates/delta/src/routes/servers], [routes/invites])

    The routes that create and edit a server, its roles, their permissions and
    its channels, that read them, and that join through and delete invites.

    The theorems: editing the permissions of a role or of everybody never gives
    away a permission the caller lacks; roles at or above the caller's rank are
    out of reach for every route that edits them; a role edit tells the voice
    servers permissions without that role; everybody can make any server
    discoverable, and so join it; deleting somebody else's group invite panics. *)

From stdpp Require Import pretty.
From S2P Require Import Prelude Results Permissions PermissionCalc Models ModelOps DbPermissions PermissionSpec ReferenceDb World Servers Channels Members Users Redis Voice Routes Moderation.

#[export] Instance FieldsServer_eq_dec : EqDecision FieldsServer.
Proof. solve_decision. Defined.

(** [v0::DataEditRole], [v0::DataEditServer] *)
Record DataEditRole := {
  dr_name : option string;
  dr_colour : option string;
  dr_hoist : option bool;
  dr_rank : option Z;
  dr_remove : list FieldsRole }.

Record DataEditServer := {
  dse_name : option string;
  dse_description : option string;
  dse_icon : option string;
  dse_banner : option string;
  dse_categories : option (list Category);
  dse_system_messages : option SystemMessageChannels;
  dse_flags : option Z;
  dse_discoverable : option bool;
  dse_analytics : option bool;
  dse_remove : list FieldsServer }.

(** [FetchServerResponse], [MemberResponse], [InviteJoinResponse] *)
Inductive FetchServerResponse : Type :=
| JustServer (server : Server)
| ServerWithChannels (server : Server) (channels : list Channel).
Inductive MemberResponse : Type :=
| JustMember (member : Member)
| MemberWithRoles (member : Member) (roles : gmap string Role).
Inductive InviteJoinResponse : Type :=
| JoinedServer (server : Server) (channels : list Channel)
| JoinedGroup (channel : Channel) (users : list User).

Section Routes.
Context {D R : Type} `{Database D} `{PermissionDatabase D} `{Redis R} `{LiveKit} `{HashOrder} `{Validator}.
Context `{OptionalStruct Server PartialServer} `{OptionalStruct Role PartialRole}.
Context `{OptionalStruct Member PartialMember}.
Context (timestamp_ok : Z -> bool) (nodes : gset string) (now : Timestamp).
Context (user_limits : User -> Result FeaturesLimits) (global : GlobalLimits).
Local Abbreviation Vm := (M ErrorType (Services D R)).

Definition need (permissions : PermissionValue) (permission : ChannelPermission) : Vm unit :=
  lift_outcome (throw_if_lacking_channel_permission permissions permission).

(** [for channel_id in &server.channels { sync_voice_permissions(..) }] *)
Fixpoint sync_channels (channels : list string) (server : Server) (role_id : option string) : Vm unit :=
  match channels with
  | [] => mret tt
  | id :: rest =>
      channel ← as_channel id;
      sync_voice_permissions timestamp_ok nodes now user_limits channel (Some server) role_id;;
      sync_channels rest server role_id
  end.

(** ** Roles *)

Definition roles_create (ulid : string) (user : User) (target name : string) : Vm (string * Role) :=
  lift_outcome (validate [("name", length_within 1 32 name)]);;
  server ← as_server target;
  '(permissions, _) ← server_permissions now user server;
  need permissions ChannelPermission.ManageRole;;
  if gl_server_roles global <=? Z.of_nat (size (s_roles server))
  then throw (ErrorType.TooManyRoles (gl_server_roles global)) else
  role ← on_world (role_create ulid server name);
  mret (r_id role, role).

Definition role_edit_validate (data : DataEditRole) : Result unit :=
  validate [("name", when_some (length_within 1 32) (dr_name data));
            ("colour", when_some (fun c => length_within 1 128 c && is_colour c) (dr_colour data))].

(** The server whose permissions are synchronised is the one the role was taken
    out of. *)
Definition roles_edit (user : User) (target role_id : string) (data : DataEditRole) : Vm Role :=
  lift_outcome (role_edit_validate data);;
  server ← as_server target;
  '(permissions, query) ← server_permissions now user server;
  need permissions ChannelPermission.ManageRole;;
  rank ← lift_outcome (member_rank query);
  match s_roles server !! role_id with
  | Some role =>
      let server := s_set_roles (delete role_id (s_roles server)) server in
      if r_rank role <=? rank then throw ErrorType.NotElevated else
      let partial := {| pr_id := None; pr_name := dr_name data; pr_permissions := None;
                        pr_colour := dr_colour data; pr_hoist := dr_hoist data; pr_rank := None |} in
      role ← on_world (role_update role (s_id server) partial (dr_remove data));
      sync_channels (s_channels server) server (Some role_id);;
      mret role
  | None => throw ErrorType.NotFound
  end.

Definition roles_delete (user : User) (target role_id : string) : Vm unit :=
  server ← as_server target;
  '(permissions, query) ← server_permissions now user server;
  need permissions ChannelPermission.ManageRole;;
  rank ← lift_outcome (member_rank query);
  match s_roles server !! role_id with
  | Some role =>
      let server := s_set_roles (delete role_id (s_roles server)) server in
      if r_rank role <=? rank then throw ErrorType.NotElevated else
      on_world (role_delete role (s_id server));;
      sync_channels (s_channels server) server (Some role_id)
  | None => throw ErrorType.NotFound
  end.

(** [edit_role_ranks]; the checks on the order are [edit_role_ranks_check] *)
Definition edit_role_ranks (user : User) (target : string) (ranks : list string) : Vm Server :=
  server ← as_server target;
  '(permissions, query) ← server_permissions now user server;
  need permissions ChannelPermission.ManageRole;;
  top ← lift_outcome (get_member_rank query);
  lift_outcome (edit_role_ranks_check server (u_id user) top ranks);;
  server ← on_world (set_role_ordering server ranks);
  sync_channels (s_channels server) server None;;
  mret server.

Definition roles_fetch (user : User) (target role_id : string) : Vm Role :=
  server ← as_server target;
  d ← database;
  member ← lift_outcome (db_are_we_a_member (query_server (DatabasePermissionQuery_new d user) server)).1;
  if negb member then throw ErrorType.NotFound else
  lift_outcome (ok_or ErrorType.NotFound (s_roles server !! role_id)).

(** ** Permissions *)

Definition set_role_permission (user : User) (target role_id : string) (data : Override) : Vm Server :=
  server ← as_server target;
  match s_roles server !! role_id with
  | None => throw ErrorType.NotFound
  | Some role =>
      '(permissions, query) ← server_permissions now user server;
      need permissions ChannelPermission.ManagePermissions;;
      rank ← lift_outcome (member_rank query);
      if r_rank role <=? rank then throw ErrorType.NotElevated else
      lift_outcome (throw_permission_override permissions (Some (Override_from (r_permissions role))) data);;
      server ← on_world (server_set_role_permission server role_id (OverrideField_from data));
      sync_channels (s_channels server) server (Some role_id);;
      mret server
  end.

Definition PartialServer_default_permissions (permissions : Z) : PartialServer :=
  {| ps_id := None; ps_owner := None; ps_name := None; ps_description := None; ps_channels := None;
     ps_categories := None; ps_system_messages := None; ps_roles := None;
     ps_default_permissions := Some permissions; ps_icon := None; ps_banner := None; ps_flags := None;
     ps_nsfw := None; ps_analytics := None; ps_discoverable := None |}.

Definition set_default_server_permissions (user : User) (target : string) (data : Z) : Vm Server :=
  server ← as_server target;
  '(permissions, _) ← server_permissions now user server;
  need permissions ChannelPermission.ManagePermissions;;
  lift_outcome (throw_permission_override permissions None {| allow := data; deny := 0 |});;
  server ← on_world (server_update server (PartialServer_default_permissions (as_i64 data)) []);
  sync_channels (s_channels server) server None;;
  mret server.

(** ** The server *)

Definition server_edit_validate (data : DataEditServer) : Result unit :=
  validate [("name", when_some (length_within 1 32) (dse_name data));
            ("description", when_some (length_within 0 1024) (dse_description data));
            ("categories", when_some (forallb (fun c => length_within 1 32 (cat_id c)
                                                      && length_within 1 32 (cat_title c)))
                             (dse_categories data))].

Definition nothing_to_edit (data : DataEditServer) : bool :=
  negb (given (dse_name data)) && negb (given (dse_description data)) && negb (given (dse_icon data))
  && negb (given (dse_banner data)) && negb (given (dse_system_messages data))
  && negb (given (dse_categories data)) && negb (given (dse_flags data))
  && negb (given (dse_analytics data)) && negb (given (dse_discoverable data))
  && bool_decide (dse_remove data = []).

(** The fields that need [ManageServer]. *)
Definition manages_server (data : DataEditServer) : bool :=
  given (dse_name data) || given (dse_description data) || given (dse_icon data)
  || given (dse_banner data) || given (dse_system_messages data) || given (dse_analytics data)
  || negb (bool_decide (dse_remove data = [])).

Definition server_edit_check (permissions : PermissionValue) (user : User) (data : DataEditServer) : Result unit :=
  (if manages_server data
   then throw_if_lacking_channel_permission permissions ChannelPermission.ManageServer else Ok tt);;
  (if given (dse_flags data) && negb (u_privileged user) then Err ErrorType.NotPrivileged else Ok tt);;
  (if given (dse_categories data)
   then throw_if_lacking_channel_permission permissions ChannelPermission.ManageChannel else Ok tt).

Definition drop_file (file : option File) : Vm unit :=
  match file with
  | Some file => db (Database.mark_attachment_as_deleted (f_id file))
  | None => mret tt
  end.

(** A channel is in one category once; channels of other servers are dropped. *)
Fixpoint category_channels (seen : gset string) (channels : list string) : Result (gset string) :=
  match channels with
  | [] => Ok seen
  | c :: rest => if bool_decide (c ∈ seen) then Err ErrorType.InvalidOperation
                 else category_channels ({[ c ]} ∪ seen) rest
  end.
Fixpoint check_categories (server : Server) (seen : gset string) (categories : list Category)
    : Result (list Category) :=
  match categories with
  | [] => Ok []
  | c :: rest =>
      seen ← category_channels seen (cat_channels c);
      rest ← check_categories server seen rest;
      Ok ({| cat_id := cat_id c; cat_title := cat_title c;
             cat_channels := retain (fun item => contains item (s_channels server)) (cat_channels c) |} :: rest)
  end.
Definition check_server_data (server : Server) (data : DataEditServer) : Result (option (list Category)) :=
  (match dse_system_messages data with
   | Some m => if forallb (fun id => contains id (s_channels server)) (elements (into_channel_ids m))
               then Ok tt else Err ErrorType.NotFound
   | None => Ok tt
   end);;
  match dse_categories data with
  | Some categories => l ← check_categories server ∅ categories; Ok (Some l)
  | None => Ok None
  end.

Definition claim (use : string -> string -> string -> Vm File) (file : option string) (parent uploader : string)
    : Vm (option File) :=
  match file with
  | Some id => f ← use id parent uploader; mret (Some f)
  | None => mret None
  end.

Definition server_edit (user : User) (target : string) (data : DataEditServer) : Vm Server :=
  lift_outcome (server_edit_validate data);;
  server ← as_server target;
  '(permissions, _) ← server_permissions now user server;
  if nothing_to_edit data then mret server else
  lift_outcome (server_edit_check permissions user data);;
  (if bool_decide (FieldsServer.Banner ∈ dse_remove data) then drop_file (s_banner server) else mret tt);;
  (if bool_decide (FieldsServer.Icon ∈ dse_remove data) then drop_file (s_icon server) else mret tt);;
  categories ← lift_outcome (check_server_data server data);
  icon ← claim use_server_icon (dse_icon data) (s_id server) (u_id user);
  banner ← claim use_server_banner (dse_banner data) (s_id server) (u_id user);
  let partial :=
    {| ps_id := None; ps_owner := None; ps_name := dse_name data; ps_description := dse_description data;
       ps_channels := None; ps_categories := categories; ps_system_messages := dse_system_messages data;
       ps_roles := None; ps_default_permissions := None; ps_icon := icon; ps_banner := banner;
       ps_flags := dse_flags data; ps_nsfw := None; ps_analytics := dse_analytics data;
       ps_discoverable := dse_discoverable data |} in
  let server := match icon with Some i => s_set_icon (Some i) server | None => server end in
  let server := match banner with Some b => s_set_banner (Some b) server | None => server end in
  on_world (server_update server partial (dse_remove data)).

Definition create_server (server_ulid channel_ulid : string) (user : User) (data : DataCreateServer)
    : Vm (Server * list Channel) :=
  if bool_decide (is_Some (u_bot user)) then throw ErrorType.IsBot else
  lift_outcome (validate [("name", length_within 1 32 (ds_name data));
                          ("description", when_some (length_within 0 1024) (ds_description data))]);;
  on_world (can_acquire_server (user_limits user) user);;
  '(server, channels) ← on_world (server_create (gl_server_channels global) server_ulid channel_ulid data user true);
  '(_, channels) ← on_world (member_create now server user (Some channels));
  mret (server, channels).

Definition channel_create (ulid : string) (user : User) (server_id : string) (data : DataCreateServerChannel)
    : Vm Channel :=
  lift_outcome (validate [("name", length_within 1 32 (dc_name data));
                          ("description", when_some (length_within 0 1024) (dc_description data))]);;
  server ← as_server server_id;
  '(permissions, _) ← server_permissions now user server;
  need permissions ChannelPermission.ManageChannel;;
  '(channel, _) ← on_world (create_server_channel (gl_server_channels global) ulid server data true);
  mret channel.

Definition we_are_a_member (user : User) (server : Server) : Vm (DatabasePermissionQuery D) :=
  d ← database;
  let '(member, query) := db_are_we_a_member (query_server (DatabasePermissionQuery_new d user) server) in
  member ← lift_outcome member;
  if negb member then throw ErrorType.NotFound else mret query.

Definition server_fetch (user : User) (target : string) (include_channels : option bool) : Vm FetchServerResponse :=
  server ← as_server target;
  query ← we_are_a_member user server;
  if bool_decide (include_channels = Some true) then
    all_channels ← db (Database.fetch_channels (s_channels server));
    visible ← lift_outcome (visible_channels now query all_channels);
    mret (ServerWithChannels server visible)
  else mret (JustServer server).

Definition member_fetch (user : User) (target member : string) (roles : option bool) : Vm MemberResponse :=
  server ← as_server target;
  _ ← we_are_a_member user server;
  member ← as_member member (s_id server);
  if bool_decide (roles = Some true)
  then mret (MemberWithRoles member (filter (fun '(k, _) => k ∈ m_roles member) (s_roles server)))
  else mret (JustMember member).

Definition ban_list (user : User) (target : string) : Vm (list User * list ServerBan) :=
  server ← as_server target;
  '(permissions, _) ← server_permissions now user server;
  need permissions ChannelPermission.BanMembers;;
  bans ← db (Database.fetch_bans (s_id server));
  users ← db (Database.fetch_users ((fun b => mk_user (ban_id b)) <$> bans));
  mret (users, bans).

Definition invites_fetch (user : User) (target : string) : Vm (list Invite) :=
  server ← as_server target;
  '(permissions, _) ← server_permissions now user server;
  need permissions ChannelPermission.ManageServer;;
  db (Database.fetch_invites_for_server (s_id server)).

(** ** Invites *)

Context (is_ulid : string -> bool).

Definition member_limit_message (max : Z) : string :=
  "This server has reached its member limit of " +:+ pretty max
  +:+ ". The server owner needs to upgrade their subscription to allow more members.".

Definition join_server (user : User) (server_id : string) : Vm InviteJoinResponse :=
  server ← db (Database.fetch_server server_id);
  owner ← db (Database.fetch_user (s_owner server));
  l ← lift_outcome (user_limits owner);
  let max_members := fl_max_server_members l in
  current_members ← db (Database.fetch_member_count (s_id server));
  if max_members <=? current_members
  then throw (ErrorType.ServerMemberLimitReached max_members (member_limit_message max_members)) else
  '(_, channels) ← on_world (member_create now server user None);
  mret (JoinedServer server channels).

Definition join_group (user : User) (channel creator : string) : Vm InviteJoinResponse :=
  channel ← db (Database.fetch_channel channel);
  channel ← on_world (add_user_to_group (gl_group_size global) channel user creator);
  match channel with
  | Channel.Group g =>
      users ← db (Database.fetch_users (g_recipients g));
      mret (JoinedGroup channel users)
  | _ => panic
  end.

Definition invite_join (user : User) (target : string) : Vm InviteJoinResponse :=
  if bool_decide (is_Some (u_bot user)) then throw ErrorType.IsBot else
  on_world (can_acquire_server (user_limits user) user);;
  invite ← as_invite is_ulid target;
  match invite with
  | Invite.Server _ server _ _ => join_server user server
  | Invite.Group _ creator channel => join_group user channel creator
  end.

(** [unreachable!()] for a group invite of somebody else *)
Definition invite_delete (user : User) (target : string) : Vm unit :=
  invite ← as_invite is_ulid target;
  if bool_decide (u_id user = invite_creator invite) then db (Database.delete_invite (invite_code invite))
  else
    match invite with
    | Invite.Server code server _ _ =>
        server ← db (Database.fetch_server server);
        '(permissions, _) ← server_permissions now user server;
        need permissions ChannelPermission.ManageServer;;
        db (Database.delete_invite code)
    | Invite.Group _ _ _ => panic
    end.
End Routes.

(** ** Theorems *)

Section Properties.
Context {R : Type} `{Redis R} `{LiveKit} `{HO : HashOrder} `{Validator}.
Context `{OS : OptionalStruct Server PartialServer} {SL : ServerOptionalLaws} `{OR : OptionalStruct Role PartialRole}
  {RL : RoleOptionalLaws} `{OM : OptionalStruct Member PartialMember} `{OU : OptionalStruct User PartialUser}.
Context (timestamp_ok : Z -> bool) (nodes : gset string) (now : Timestamp).
Context (user_limits : User -> Result FeaturesLimits) (is_ulid : string -> bool).
Implicit Types s : Services ReferenceDb R.

Lemma keeps_sync_channels channels server role_id :
  keeps_db (sync_channels timestamp_ok nodes now user_limits channels server role_id
            : M ErrorType (Services ReferenceDb R) unit).
Proof. induction channels as [|c channels IH]; simpl; keeps. Qed.

Lemma need_Ok p perm s s' : need p perm s = (Ok tt, s') -> has_channel_permission p perm = true /\ s' = s.
Proof. intros [E ->]%lift_Ok_inv. split; [by apply lacking_Ok|done]. Qed.

Lemma s_id_updated server partial remove :
  ps_id partial = None -> s_id (apply_options (foldl server_remove_field server remove) partial) = s_id server.
Proof using SL.
  intros Hp. rewrite s_id_applied, Hp. revert server.
  induction remove as [|f fs IH]; intros server; [done|]. simpl. rewrite IH. by destruct f.
Qed.

Lemma server_update_stored server partial remove s server2 s2 :
  ps_id partial = None -> on_world (server_update server partial remove) s = (Ok server2, s2) ->
  stored_db s2 = (Ref.update_server (s_id server) partial remove (stored_db s)).2
  /\ server2 = apply_options (foldl server_remove_field server remove) partial.
Proof using SL.
  intros Hp. rewrite on_world_run. intros [= E <-]. unfold server_update in *. cbv zeta in *.
  pose proof (s_id_updated server partial remove Hp) as Hid. set (r := apply_options _ _) in *.
  unfold stored_db. unfold mbind, M_bind in *. rewrite call_run in *. simpl in *. rewrite Hid in *.
  destruct (Ref.update_server (s_id server) partial remove (w_db (sv_world s))) as [[[]|e|] d'] eqn:Eu;
    simpl in *; [|done|done]. by injection E as <-.
Qed.

(** The update of a stored server. *)
Lemma server_update_run server partial remove s :
  ps_id partial = None -> db_servers (stored_db s) !! s_id server = Some server ->
  let server' := apply_options (foldl server_remove_field server remove) partial in
  exists s', on_world (server_update server partial remove) s = (Ok server', s')
    /\ Ref.fetch_server (stored_db s') (s_id server) = Ok server'.
Proof using SL.
  intros Hp Hs server'. pose proof (s_id_updated server partial remove Hp) as Hid. fold server' in Hid.
  rewrite on_world_run. unfold server_update. fold server'. cbv zeta.
  assert (call (Database.update_server (s_id server') partial remove) (sv_world s)
    = (Ok tt, w_set_db (set_servers (<[s_id server := server']> (db_servers (stored_db s))) (stored_db s)) (sv_world s))) as E.
  { rewrite call_run. simpl. unfold Ref.update_server, with_mut. rewrite Hid. fold (stored_db s). by rewrite Hs. }
  erewrite M_bind_ok by exact E. eexists. split; [reflexivity|].
  unfold stored_db. simpl. unfold Ref.fetch_server, get_or. simpl. by rewrite lookup_insert_eq.
Qed.

Lemma role_set_run server role_id permissions s server2 s2 role :
  s_roles server !! role_id = Some role ->
  on_world (server_set_role_permission server role_id permissions) s = (Ok server2, s2) ->
  stored_db s2 = (Ref.update_role (s_id server) (r_id role) (PartialRole_permissions permissions) [] (stored_db s)).2
  /\ exists role', s_roles server2 !! role_id = Some role' /\ r_permissions role' = permissions.
Proof using RL.
  intros Er. rewrite on_world_run. intros [= E <-]. unfold server_set_role_permission in *. rewrite Er in *.
  unfold role_update in *. cbv zeta in *. set (r := apply_options _ _) in *.
  assert (r_id r = r_id role) as Hid by (unfold r; by rewrite r_id_applied).
  unfold stored_db. unfold mbind, M_bind in *. rewrite call_run in *. simpl in *. rewrite Hid in *.
  destruct (Ref.update_role (s_id server) (r_id role) (PartialRole_permissions permissions) [] (w_db (sv_world s)))
    as [[[]|e|] d'] eqn:Eu; simpl in *; [|done|done].
  split; [done|]. injection E as <-. exists r. simpl. rewrite lookup_insert_eq. split; [done|].
  unfold r. by rewrite r_permissions_applied.
Qed.

(** C12: Editing the permissions of a role gives nothing away.  If the route
    succeeds the caller may manage permissions and ranks strictly above the role,
    what was written is the requested override of exactly that role, and whatever
    the permissions it is applied to, each permission it adds over the previous
    override is one the caller has. *)
Theorem role_permissions_no_escalation user sid role_id data s server' s' :
  override_wf data ->
  set_role_permission timestamp_ok nodes now user_limits user sid role_id data s = (Ok server', s') ->
  exists server role, Ref.fetch_server (stored_db s) sid = Ok server /\ s_roles server !! role_id = Some role
    /\ has_channel_permission (caller_permissions now (stored_db s) server user)
         ChannelPermission.ManagePermissions = true
    /\ caller_rank (stored_db s) server user < r_rank role
    /\ stored_db s' = (Ref.update_role (s_id server) (r_id role)
         (PartialRole_permissions (OverrideField_from data)) [] (stored_db s)).2
    /\ (exists role', s_roles server' !! role_id = Some role' /\ Override_from (r_permissions role') = data)
    /\ forall base b, 0 <= b < 64 -> pbit (pv_apply base data) b = true ->
         pbit (pv_apply base (Override_from (r_permissions role))) b = false ->
         pbit (caller_permissions now (stored_db s) server user) b = true.
Proof using RL.
  intros Hwf E. unfold set_role_permission in E.
  apply M_bind_Ok_inv in E as (server & ? & Es & E). rewrite as_server_run in Es. injection Es as Es <-.
  destruct (s_roles server !! role_id) as [role|] eqn:Er; [|done].
  destruct (caller_run now user server s) as (q & Eq & Hrank & _). erewrite M_bind_ok in E by exact Eq.
  cbv beta iota in E. apply M_bind_Ok_inv in E as ([] & ? & [Hp ->]%need_Ok & E).
  apply M_bind_Ok_inv in E as (? & ? & [Hr ->]%lift_Ok_inv & E). rewrite Hrank in Hr. injection Hr as <-.
  destruct (Z.leb_spec (r_rank role) (caller_rank (stored_db s) server user)) as [|Hlt]; [done|].
  apply M_bind_Ok_inv in E as ([] & ? & [Hover ->]%lift_Ok_inv & E).
  apply M_bind_Ok_inv in E as (server2 & s2 & Eu & E).
  apply M_bind_Ok_inv in E as ([] & s3 & Ev & [= <- <-]).
  exists server, role. split_and!; [done|done|done|done| | |].
  - rewrite (keeps_run _ _ _ _ (keeps_sync_channels _ _ _) Ev). by apply (role_set_run _ _ _ _ _ _ _ Er Eu).
  - destruct (role_set_run _ _ _ _ _ _ _ Er Eu) as (_ & role' & Hr' & Hperm). exists role'. split; [done|].
    rewrite Hperm. by apply override_roundtrip.
  - intros base b Hb Hgain Hnot.
    eapply (override_gain_held _ base (Some (Override_from (r_permissions role))) data b); try done.
    apply Override_from_wf.
Qed.

(** Editing what everybody may do gives nothing away: if the route succeeds,
    each permission of the new default is one the caller has, and exactly the
    default permissions of that server are written. *)
Theorem default_permissions_no_escalation user sid data s server' s' :
  is_u64 data ->
  set_default_server_permissions timestamp_ok nodes now user_limits user sid data s = (Ok server', s') ->
  exists server, Ref.fetch_server (stored_db s) sid = Ok server
    /\ has_channel_permission (caller_permissions now (stored_db s) server user)
         ChannelPermission.ManagePermissions = true
    /\ (forall b, 0 <= b < 64 -> pbit (PV data) b = true ->
          pbit (caller_permissions now (stored_db s) server user) b = true)
    /\ stored_db s' = (Ref.update_server (s_id server)
         (PartialServer_default_permissions (as_i64 data)) [] (stored_db s)).2.
Proof using SL.
  intros Hd E. unfold set_default_server_permissions in E.
  apply M_bind_Ok_inv in E as (server & ? & Es & E). rewrite as_server_run in Es. injection Es as Es <-.
  destruct (caller_run now user server s) as (q & Eq & _ & _). erewrite M_bind_ok in E by exact Eq.
  cbv beta iota in E. apply M_bind_Ok_inv in E as ([] & ? & [Hp ->]%need_Ok & E).
  apply M_bind_Ok_inv in E as ([] & ? & [Hover ->]%lift_Ok_inv & E).
  apply M_bind_Ok_inv in E as (server2 & s2 & Eu & E). apply M_bind_Ok_inv in E as ([] & s3 & Ev & [= <- <-]).
  exists server. split_and!; [done|done| |].
  - intros b Hb Hbit. unfold throw_permission_override in Hover. simpl in Hover.
    destruct (pv_has _ data) eqn:Eh; [|done]. rewrite pv_has_spec in Eh by apply Hd. apply Eh; [lia|done].
  - rewrite (keeps_run _ _ _ _ (keeps_sync_channels _ _ _) Ev). by apply server_update_stored in Eu as [-> _].
Qed.

(** A role at or above the caller's rank is out of reach: each route that
    edits one role fails on it and changes nothing, whatever the caller may do. *)
Theorem higher_role_out_of_reach user sid server role_id role data override s :
  Ref.fetch_server (stored_db s) sid = Ok server -> s_roles server !! role_id = Some role ->
  r_rank role <= caller_rank (stored_db s) server user ->
  (exists e, roles_edit timestamp_ok nodes now user_limits user sid role_id data s = (Err e, s))
  /\ (exists e, roles_delete timestamp_ok nodes now user_limits user sid role_id s = (Err e, s))
  /\ (exists e, set_role_permission timestamp_ok nodes now user_limits user sid role_id override s = (Err e, s)).
Proof.
  intros Es Er Hrank. destruct (caller_run now user server s) as (q & Eq & Hr & _).
  apply Z.leb_le in Hrank.
  assert (forall permission (A : Type) (k : M ErrorType (Services ReferenceDb R) A),
    (exists e, k s = (Err e, s)) -> exists e, (need (caller_permissions now (stored_db s) server user) permission;; k) s = (Err e, s))
    as Hneed.
  { intros permission A k [e Hk]. unfold need, throw_if_lacking_channel_permission, mbind, M_bind, lift_outcome.
    destruct (has_channel_permission _ _); [by exists e|by eexists]. }
  split_and!.
  - unfold roles_edit.
    destruct (validate_total [("name", when_some (length_within 1 32) (dr_name data));
      ("colour", when_some (fun c => length_within 1 128 c && is_colour c) (dr_colour data))]) as [Ev|[t Ev]];
      unfold role_edit_validate; rewrite Ev; [|by eexists].
    erewrite M_bind_ok by reflexivity. erewrite M_bind_ok by (by rewrite as_server_run, Es).
    erewrite M_bind_ok by exact Eq. cbv beta iota. apply Hneed. rewrite Hr, Er. erewrite M_bind_ok by reflexivity.
    cbv zeta. rewrite Hrank. by eexists.
  - unfold roles_delete. erewrite M_bind_ok by (by rewrite as_server_run, Es).
    erewrite M_bind_ok by exact Eq. cbv beta iota. apply Hneed. rewrite Hr, Er. erewrite M_bind_ok by reflexivity.
    rewrite Hrank. by eexists.
  - unfold set_role_permission. erewrite M_bind_ok by (by rewrite as_server_run, Es). rewrite Er.
    erewrite M_bind_ok by exact Eq. cbv beta iota. apply Hneed. rewrite Hr. erewrite M_bind_ok by reflexivity.
    rewrite Hrank. by eexists.
Qed.

(** ** Gaps *)

Definition only_discoverable (b : bool) : DataEditServer := {|
  dse_name := None; dse_description := None; dse_icon := None; dse_banner := None; dse_categories := None;
  dse_system_messages := None; dse_flags := None; dse_discoverable := Some b; dse_analytics := None;
  dse_remove := [] |}.

Definition PartialServer_discoverable (b : bool) : PartialServer :=
  {| ps_id := None; ps_owner := None; ps_name := None; ps_description := None; ps_channels := None;
     ps_categories := None; ps_system_messages := None; ps_roles := None; ps_default_permissions := None;
     ps_icon := None; ps_banner := None; ps_flags := None; ps_nsfw := None; ps_analytics := None;
     ps_discoverable := Some b |}.

(** Every user can open every server: a request that only sets [discoverable]
    passes the checks of [server_edit] without any permission, and from then on the
    identifier of the server is an invite to it.  Before it was not. *)
Theorem anyone_opens_a_server user sid server channel rest s :
  Ref.fetch_server (stored_db s) sid = Ok server -> s_id server = sid ->
  s_channels server = channel :: rest -> s_discoverable server = false -> is_ulid sid = true ->
  as_invite is_ulid sid s = (Err ErrorType.NotFound, s)
  /\ exists server' s', server_edit now user sid (only_discoverable true) s = (Ok server', s')
       /\ as_invite is_ulid sid s' = (Ok (Invite.Server sid sid (s_owner server) channel), s').
Proof using SL.
  intros Es Hid Hch Hdis Hulid. unfold as_invite. rewrite Hulid. split.
  { erewrite M_bind_ok by (by rewrite as_server_run, Es). by rewrite Hdis. }
  destruct (caller_run now user server s) as (q & Eq & _ & _).
  assert (db_servers (stored_db s) !! s_id server = Some server) as Hst.
  { unfold Ref.fetch_server, get_or, ok_or in Es. rewrite Hid.
    by destruct (db_servers (stored_db s) !! sid); [injection Es as ->|]. }
  assert (server_edit now user sid (only_discoverable true) s
    = on_world (server_update server (PartialServer_discoverable true) []) s) as E.
  { unfold server_edit. erewrite M_bind_ok by reflexivity. erewrite M_bind_ok by (by rewrite as_server_run, Es).
    erewrite M_bind_ok by exact Eq. cbv beta iota. change (nothing_to_edit (only_discoverable true)) with false. cbv iota.
    do 6 (erewrite M_bind_ok by reflexivity). reflexivity. }
  destruct (server_update_run server (PartialServer_discoverable true) [] s eq_refl Hst) as (s' & Eu & Hf).
  eexists _, s'. split; [rewrite E; exact Eu|]. rewrite Hid in Hf. erewrite M_bind_ok by (by rewrite as_server_run, Hf).
  rewrite s_discoverable_applied. simpl. rewrite s_channels_applied, s_id_applied, s_owner_applied. simpl.
  by rewrite Hch, Hid.
Qed.

(** A group invite can only be deleted by its creator; the request of anybody
    else panics. *)
Theorem group_invite_delete_panics user code creator channel s :
  db_channel_invites (stored_db s) !! code = Some (Invite.Group code creator channel) ->
  is_ulid code = false -> u_id user <> creator ->
  invite_delete now is_ulid user code s = (Panicked, s).
Proof.
  intros Hi Hu Hne. unfold invite_delete, as_invite. rewrite Hu.
  erewrite M_bind_ok. 2: { rewrite (reads_run (fun d => Ref.fetch_invite d code)). unfold Ref.fetch_invite, get_or. by rewrite Hi. }
  simpl. by rewrite bool_decide_eq_false_2.
Qed.
End Properties.

(** ** Witnesses *)

Module ServerRouteWitness.
Import SomePriority RedisWitness ModerationWitness.

Definition manager_permissions : Z :=
  ChannelPermission.ManagePermissions +p ChannelPermission.ManageRole +p ChannelPermission.ViewChannel.
Definition roles : gmap string Role :=
  {[ "top" := Example.role "top" 0 0 0; "mod" := Example.role "mod" 1 manager_permissions 0;
     "low" := Example.role "low" 5 0 0 ]}.
Definition server : Server := s_set_channels ["C1"] (Example.server roles).
Definition text : Channel := Channel.TextChannel {|
  t_id := "C1"; t_server := "server"; t_name := "General"; t_description := None; t_icon := None;
  t_last_message_id := None; t_default_permissions := None; t_role_permissions := ∅; t_nsfw := false;
  t_voice := None; t_encrypted := false |}.
Definition d0 : ReferenceDb :=
  set_channels {[ "C1" := text ]}
    (set_channel_invites {[ "code" := Invite.Group "code" "creator" "G1" ]}
      (set_servers {[ "server" := server ]}
        (set_server_members {[ member_key "server" "mod" := named "mod" ["mod"] true ]} ReferenceDb_default))).
Definition s0 : Services ReferenceDb Store :=
  {| sv_world := world d0; sv_redis := ∅; sv_livekit := [] |}.

Definition allow_view : Override := {| allow := channel_permission_value ChannelPermission.ViewChannel; deny := 0 |}.
Definition always_ulid (id : string) : bool := true.
Definition never_ulid (id : string) : bool := false.
Definition edited : Result Server * Services ReferenceDb Store :=
  set_role_permission always ∅ 0 no_limits (Example.user "mod") "server" "low" allow_view s0.
Definition server_after : Server :=
  s_set_roles (<["low" := Example.role "low" 5 (channel_permission_value ChannelPermission.ViewChannel) 0]> roles) server.

Lemma role_edited_ok : edited = (Ok server_after, edited.2).
Proof. vm_compute. reflexivity. Qed.

Lemma role_permissions_no_escalation_witness :
  exists server role, Ref.fetch_server (stored_db s0) "server" = Ok server /\ s_roles server !! "low" = Some role
    /\ has_channel_permission (caller_permissions 0 (stored_db s0) server (Example.user "mod"))
         ChannelPermission.ManagePermissions = true
    /\ caller_rank (stored_db s0) server (Example.user "mod") < r_rank role
    /\ stored_db edited.2 = (Ref.update_role (s_id server) (r_id role)
         (PartialRole_permissions (OverrideField_from allow_view)) [] (stored_db s0)).2
    /\ (exists role', s_roles server_after !! "low" = Some role' /\ Override_from (r_permissions role') = allow_view)
    /\ forall base b, 0 <= b < 64 -> pbit (pv_apply base allow_view) b = true ->
         pbit (pv_apply base (Override_from (r_permissions role))) b = false ->
         pbit (caller_permissions 0 (stored_db s0) server (Example.user "mod")) b = true.
Proof.
  apply (role_permissions_no_escalation always ∅ 0 no_limits (Example.user "mod") "server" "low" allow_view s0
           server_after edited.2); [|exact role_edited_ok].
  unfold override_wf, is_u64. vm_compute. split; split; congruence.
Defined.

Definition defaulted : Result Server * Services ReferenceDb Store :=
  set_default_server_permissions always ∅ 0 no_limits (Example.user "mod") "server" (allow allow_view) s0.

Lemma defaulted_ok :
  defaulted = (Ok (apply_options server (PartialServer_default_permissions (allow allow_view))), defaulted.2).
Proof. vm_compute. reflexivity. Qed.

Lemma default_permissions_no_escalation_witness :
  exists server, Ref.fetch_server (stored_db s0) "server" = Ok server
    /\ has_channel_permission (caller_permissions 0 (stored_db s0) server (Example.user "mod"))
         ChannelPermission.ManagePermissions = true
    /\ (forall b, 0 <= b < 64 -> pbit (PV (allow allow_view)) b = true ->
          pbit (caller_permissions 0 (stored_db s0) server (Example.user "mod")) b = true)
    /\ stored_db defaulted.2 = (Ref.update_server (s_id server)
         (PartialServer_default_permissions (as_i64 (allow allow_view))) [] (stored_db s0)).2.
Proof.
  apply (default_permissions_no_escalation always ∅ 0 no_limits (Example.user "mod") "server" (allow allow_view) s0
           (apply_options server (PartialServer_default_permissions (allow allow_view))) defaulted.2);
    [|exact defaulted_ok].
  unfold is_u64. vm_compute. split; congruence.
Defined.

Definition rename : DataEditRole :=
  {| dr_name := Some "renamed"; dr_colour := None; dr_hoist := None; dr_rank := None; dr_remove := [] |}.

Lemma higher_role_out_of_reach_witness :
  (exists e, roles_edit always ∅ 0 no_limits (Example.user "mod") "server" "top" rename s0 = (Err e, s0))
  /\ (exists e, roles_delete always ∅ 0 no_limits (Example.user "mod") "server" "top" s0 = (Err e, s0))
  /\ (exists e, set_role_permission always ∅ 0 no_limits (Example.user "mod") "server" "top" allow_view s0 = (Err e, s0)).
Proof.
  apply (higher_role_out_of_reach always ∅ 0 no_limits (Example.user "mod") "server" server "top"
           (Example.role "top" 0 0 0) rename allow_view s0); vm_compute; [reflexivity|reflexivity|congruence].
Defined.

Lemma anyone_opens_a_server_witness :
  as_invite always_ulid "server" s0 = (Err ErrorType.NotFound, s0)
  /\ exists server' s', server_edit 0 (Example.user "stranger") "server" (only_discoverable true) s0 = (Ok server', s')
       /\ as_invite always_ulid "server" s' = (Ok (Invite.Server "server" "server" "owner" "C1"), s').
Proof.
  apply (anyone_opens_a_server 0 always_ulid (Example.user "stranger") "server" server "C1" [] s0);
    vm_compute; reflexivity.
Defined.

Lemma group_invite_delete_panics_witness :
  invite_delete 0 never_ulid (Example.user "owner of the group") "code" s0 = (Panicked, s0).
Proof.
  apply (group_invite_delete_panics 0 never_ulid (Example.user "owner of the group") "code" "creator" "G1" s0);
    [vm_compute; reflexivity|reflexivity|discriminate].
Defined.
End ServerRouteWitness.
