(* ===== verification/ChannelRoutes.v ===== *)
(** * Channels, groups and calls ([crates/delta/src/routes/channels])

    The routes on a channel object: fetch, edit, delete, its permissions, its
    invites; on a group: create, add and remove a member, list; and on a call:
    join, leave, stop ringing, the viewers.  The system messages of an edit are
    requests to send, as in [World].

    The theorems: who is removed from a group and by whom; a call joined without
    a voice server is seen by the other voice operations; the capacity of a voice
    channel; what goes wrong: a channel override is compared with the wrong
    value, a channel with a call that has no voice server cannot be deleted
    cleanly, an ownership transfer can be announced and not happen. *)

From stdpp Require Import pretty.
From S2P Require Import Prelude Results Permissions PermissionCalc Models ModelOps DbPermissions PermissionSpec Records ReferenceDb World Servers Channels Members Users Redis Voice Routes Moderation.

#[export] Instance FieldsChannel_eq_dec : EqDecision FieldsChannel.
Proof. solve_decision. Defined.

(** [v0::DataEditChannel]; [archived] is not read *)
Record DataEditChannel := {
  dec_name : option string;
  dec_description : option string;
  dec_owner : option string;
  dec_icon : option string;
  dec_nsfw : option bool;
  dec_archived : option bool;
  dec_voice : option VoiceInformation;
  dec_add_moderators : option (list string);
  dec_remove_moderators : option (list string);
  dec_remove : list FieldsChannel }.

(** [v0::DataDefaultChannelPermissions] *)
Inductive DataDefaultChannelPermissions : Type :=
| DefaultValue (permissions : Z)
| DefaultField (permissions : Override).

(** [v0::DataJoinCall], [v0::CreateVoiceUserResponse] *)
Record DataJoinCall := {
  dj_node : option string;
  dj_force_disconnect : option bool;
  dj_recipients : option (list string) }.
Record CreateVoiceUserResponse := {
  cv_token : string;
  cv_url : string;
  cv_connection_type : string }.

Definition PartialChannel_active (b : bool) : PartialChannel :=
  {| pc_name := None; pc_owner := None; pc_description := None; pc_icon := None; pc_nsfw := None;
     pc_active := Some b; pc_permissions := None; pc_moderators := None; pc_role_permissions := None;
     pc_default_permissions := None; pc_last_message_id := None; pc_voice := None; pc_encrypted := None |}.
Definition PartialChannel_permissions (v : Z) : PartialChannel :=
  {| pc_name := None; pc_owner := None; pc_description := None; pc_icon := None; pc_nsfw := None;
     pc_active := None; pc_permissions := Some v; pc_moderators := None; pc_role_permissions := None;
     pc_default_permissions := None; pc_last_message_id := None; pc_voice := None; pc_encrypted := None |}.
Definition PartialChannel_default_permissions (v : OverrideField) : PartialChannel :=
  {| pc_name := None; pc_owner := None; pc_description := None; pc_icon := None; pc_nsfw := None;
     pc_active := None; pc_permissions := None; pc_moderators := None; pc_role_permissions := None;
     pc_default_permissions := Some v; pc_last_message_id := None; pc_voice := None; pc_encrypted := None |}.

Section Routes.
Context {D R : Type} `{Database D} `{PermissionDatabase D} `{Redis R} `{LiveKit} `{HashOrder} `{Validator}.
Context `{OptionalStruct Server PartialServer}.
Context (timestamp_ok : Z -> bool) (nodes : gset string) (now : Timestamp) (now_secs : Z).
Context (user_limits : User -> Result FeaturesLimits) (global : GlobalLimits).
Local Abbreviation Vm := (M ErrorType (Services D R)).

(** [DatabasePermissionQuery::new(db, &user).channel(&channel)], calculated *)
Definition channel_permissions (user : User) (channel : Channel)
    : Vm (PermissionValue * DatabasePermissionQuery D) :=
  d ← database;
  let '(permissions, q) :=
    db_calculate_channel_permissions now (query_channel (DatabasePermissionQuery_new d user) channel) in
  permissions ← lift_outcome permissions;
  mret (permissions, q).

Definition require (permissions : PermissionValue) (permission : ChannelPermission) : Vm unit :=
  lift_outcome (throw_if_lacking_channel_permission permissions permission).

(** ** The channel *)

Definition channel_fetch (user : User) (target : string) : Vm Channel :=
  channel ← as_channel target;
  '(permissions, _) ← channel_permissions user channel;
  require permissions ChannelPermission.ViewChannel;;
  mret channel.

Definition leave_voice_of (user_id channel_id : string) : Vm unit :=
  connected ← on_redis (is_in_voice_channel user_id channel_id);
  if (connected : bool) then remove_user_from_voice_channel nodes channel_id user_id else mret tt.

Definition channel_delete_route (user : User) (target : string) (leave_silently : option bool) : Vm unit :=
  channel ← as_channel target;
  '(permissions, _) ← channel_permissions user channel;
  require permissions ChannelPermission.ViewChannel;;
  match channel with
  | Channel.SavedMessages _ => throw ErrorType.NoEffect
  | Channel.DirectMessage _ =>
      _ ← on_world (channel_update channel (PartialChannel_active false) []);
      mret tt
  | Channel.Group _ =>
      on_world (remove_user_from_group channel user None (unwrap_or leave_silently false));;
      leave_voice_of (u_id user) (channel_id channel)
  | Channel.TextChannel _ =>
      require permissions ChannelPermission.ManageChannel;;
      on_world (channel_delete channel);;
      delete_voice_channel nodes (channel_id channel) (channel_server channel)
  end.

Definition create_invite (code : string) (user : User) (target : string) : Vm Invite :=
  if bool_decide (is_Some (u_bot user)) then throw ErrorType.IsBot else
  channel ← as_channel target;
  '(permissions, _) ← channel_permissions user channel;
  require permissions ChannelPermission.InviteOthers;;
  on_world (create_channel_invite code user channel).

(** ** Permissions *)

Definition set_role_permissions (user : User) (target role_id : string) (data : Override) : Vm Channel :=
  channel ← as_channel target;
  '(permissions, query) ← channel_permissions user channel;
  require permissions ChannelPermission.ManagePermissions;;
  match q_server query with
  | Some server =>
      match s_roles server !! role_id with
      | Some role =>
          rank ← lift_outcome (member_rank query);
          if r_rank role <=? rank then throw ErrorType.NotElevated else
          lift_outcome (throw_permission_override permissions (Some (Override_from (r_permissions role))) data);;
          channel ← on_world (channel_set_role_permission channel role_id (OverrideField_from data));
          sync_voice_permissions timestamp_ok nodes now user_limits channel (Some server) (Some role_id);;
          mret channel
      | None => throw ErrorType.NotFound
      end
  | None => throw ErrorType.InvalidOperation
  end.

Definition update_default_permissions (permissions : PermissionValue) (channel : Channel)
    (data : DataDefaultChannelPermissions) : Vm Channel :=
  match channel, data with
  | Channel.Group _, DefaultValue value =>
      on_world (channel_update channel (PartialChannel_permissions (as_i64 value)) [])
  | Channel.TextChannel t, DefaultField field =>
      lift_outcome (throw_permission_override permissions (Override_from <$> t_default_permissions t) field);;
      on_world (channel_update channel (PartialChannel_default_permissions (OverrideField_from field)) [])
  | _, _ => throw ErrorType.InvalidOperation
  end.

Definition set_default_channel_permissions (user : User) (target : string)
    (data : DataDefaultChannelPermissions) : Vm Channel :=
  channel ← as_channel target;
  '(permissions, _) ← channel_permissions user channel;
  require permissions ChannelPermission.ManagePermissions;;
  channel ← update_default_permissions permissions channel data;
  server ← match channel_server channel with
           | Some server_id => server ← as_server server_id; mret (Some server)
           | None => mret None
           end;
  sync_voice_permissions timestamp_ok nodes now user_limits channel server None;;
  mret channel.

(** ** Groups *)

Definition group_create_validate (data : DataCreateGroup) : Result unit :=
  validate [("name", length_within 1 32 (dg_name data));
            ("description", when_some (length_within 0 1024) (dg_description data));
            ("icon", when_some (length_within 1 128) (dg_icon data));
            ("users", Z.of_nat (size (dg_users data)) <=? 49)].

Definition group_create (ulid : string) (user : User) (data : DataCreateGroup) : Vm Channel :=
  if bool_decide (is_Some (u_bot user)) then throw ErrorType.IsBot else
  lift_outcome (group_create_validate data);;
  if forallb (is_friends_with user) (elements (dg_users data))
  then on_world (create_group (gl_group_size global) ulid data (u_id user))
  else throw ErrorType.NotFriends.

Definition group_add_member (user : User) (group_id member_id : string) : Vm unit :=
  if bool_decide (is_Some (u_bot user)) then throw ErrorType.IsBot else
  channel ← as_channel group_id;
  '(permissions, _) ← channel_permissions user channel;
  require permissions ChannelPermission.InviteOthers;;
  match channel with
  | Channel.Group _ =>
      member ← as_user member_id;
      if negb (is_friends_with user (u_id member)) then throw ErrorType.NotFriends else
      _ ← on_world (add_user_to_group (gl_group_size global) channel member (u_id user));
      mret tt
  | _ => throw ErrorType.InvalidOperation
  end.

Definition missing_manage_channel {A} : Vm A :=
  throw (ErrorType.MissingPermission (channel_permission_name ChannelPermission.ManageChannel)).

Definition group_remove_member (user : User) (target member_id : string) : Vm unit :=
  if bool_decide (is_Some (u_bot user)) then throw ErrorType.IsBot else
  channel ← as_channel target;
  match channel with
  | Channel.Group g =>
      let is_owner := bool_decide (u_id user = g_owner g) in
      let is_moderator := contains (u_id user) (g_moderators g) in
      if negb is_owner && negb is_moderator then missing_manage_channel else
      member ← as_user member_id;
      if bool_decide (u_id user = u_id member) then throw ErrorType.CannotRemoveYourself else
      if negb (contains (u_id member) (g_recipients g)) then throw ErrorType.NotInGroup else
      if is_moderator && negb is_owner
         && (bool_decide (u_id member = g_owner g) || contains (u_id member) (g_moderators g))
      then missing_manage_channel else
      on_world (remove_user_from_group channel member (Some (u_id user)) false)
  | _ => throw ErrorType.InvalidOperation
  end;;
  leave_voice_of member_id (channel_id channel).

Definition members_fetch (user : User) (target : string) : Vm (list User) :=
  channel ← as_channel target;
  '(permissions, _) ← channel_permissions user channel;
  require permissions ChannelPermission.ViewChannel;;
  match channel with
  | Channel.Group g => db (Database.fetch_users (g_recipients g))
  | _ => throw ErrorType.InvalidOperation
  end.

(** ** Edit Channel *)

Definition channel_edit_validate (data : DataEditChannel) : Result unit :=
  validate [("name", when_some (length_within 1 32) (dec_name data));
            ("description", when_some (length_within 0 1024) (dec_description data));
            ("icon", when_some (length_within 1 128) (dec_icon data))].

Definition has_mod_changes (data : DataEditChannel) : bool :=
  given (dec_add_moderators data) || given (dec_remove_moderators data).
Definition nothing_to_change (data : DataEditChannel) : bool :=
  negb (given (dec_name data)) && negb (given (dec_description data)) && negb (given (dec_icon data))
  && negb (given (dec_nsfw data)) && negb (given (dec_owner data)) && negb (given (dec_voice data))
  && negb (has_mod_changes data) && bool_decide (dec_remove data = []).

(** The transfer of a group: the copy has the new owner from here on, and the
    announcement is sent. *)
Definition transfer_ownership (user : User) (channel : Channel) (data : DataEditChannel) : Vm Channel :=
  match dec_owner data with
  | None => mret channel
  | Some new_owner =>
      match channel with
      | Channel.Group g =>
          if bool_decide (g_owner g <> u_id user) then throw ErrorType.NotOwner else
          if negb (contains new_owner (g_recipients g)) then throw ErrorType.NotInGroup else
          let channel := Channel.Group (group_apply_options g (PartialChannel_owner new_owner)) in
          on_world (send_system (g_id g) (SystemMessage.ChannelOwnershipChanged (g_owner g) new_owner));;
          mret channel
      | _ => throw ErrorType.InvalidOperation
      end
  end.

Fixpoint add_moderators (owner : string) (recipients moderators : list string) (add : list string)
    : Result (list string) :=
  match add with
  | [] => Ok moderators
  | mod_id :: rest =>
      if negb (contains mod_id recipients) then Err ErrorType.NotInGroup else
      if bool_decide (mod_id = owner) then add_moderators owner recipients moderators rest else
      add_moderators owner recipients
        (if contains mod_id moderators then moderators else moderators ++ [mod_id]) rest
  end.

Definition change_moderators (user : User) (channel : Channel) (data : DataEditChannel)
    : Result (Channel * option (list string)) :=
  if has_mod_changes data then
    match channel with
    | Channel.Group g =>
        if bool_decide (g_owner g <> u_id user) then Err ErrorType.NotOwner else
        moderators ← match dec_add_moderators data with
                     | Some add => add_moderators (g_owner g) (g_recipients g) (g_moderators g) add
                     | None => Ok (g_moderators g)
                     end;
        let moderators := match dec_remove_moderators data with
                          | Some remove => retain (fun m => negb (contains m remove)) moderators
                          | None => moderators
                          end in
        Ok (Channel.Group (group_apply_options g (PartialChannel_moderators moderators)), Some moderators)
    | _ => Err ErrorType.InvalidOperation
    end
  else Ok (channel, None).

Definition channel_icon (channel : Channel) : option File :=
  match channel with
  | Channel.Group g => g_icon g
  | Channel.TextChannel t => t_icon t
  | _ => None
  end.

(** The icon: the old one is dropped, the new one is claimed. *)
Definition edit_icon (user : User) (channel : Channel) (data : DataEditChannel) : Vm (option File) :=
  (if bool_decide (FieldsChannel.Icon ∈ dec_remove data) then
     match channel_icon channel with
     | Some icon => db (Database.mark_attachment_as_deleted (f_id icon))
     | None => mret tt
     end
   else mret tt);;
  match dec_icon data with
  | Some icon_id => file ← on_world (use_channel_icon icon_id (channel_id channel) (u_id user)); mret (Some file)
  | None => mret None
  end.

(** The bitrate is bounded by the limits of the owner of the server. *)
Definition check_bitrate (t : TextChannel) (voice : option VoiceInformation) : Vm unit :=
  match (v ← voice; vi_bitrate v) with
  | None => mret tt
  | Some new_bitrate =>
      if new_bitrate <? 32000
      then throw (ErrorType.FailedValidation "Bitrate must be at least 32000 bps (32 kbps)") else
      server ← db (Database.fetch_server (t_server t));
      owner ← db (Database.fetch_user (s_owner server));
      l ← lift_outcome (user_limits owner);
      let max_allowed := fl_max_voice_bitrate l in
      if max_allowed <? new_bitrate
      then throw (ErrorType.BitrateExceedsTier max_allowed
             ("Bitrate " +:+ pretty new_bitrate +:+ " bps exceeds your tier's maximum of "
              +:+ pretty max_allowed +:+ " bps. Upgrade your subscription for higher quality audio."))
      else mret tt
  end.

Definition edit_messages (user : User) (id : string) (data : DataEditChannel) (icon : option File) : Vm unit :=
  match dec_name data with
  | Some name => on_world (send_system id (SystemMessage.ChannelRenamed name (u_id user)))
  | None => mret tt
  end;;
  (if given (dec_description data)
   then on_world (send_system id (SystemMessage.ChannelDescriptionChanged (u_id user))) else mret tt);;
  (if given icon then on_world (send_system id (SystemMessage.ChannelIconChanged (u_id user))) else mret tt).

Definition channel_edit (user : User) (target : string) (data : DataEditChannel) : Vm Channel :=
  lift_outcome (channel_edit_validate data);;
  channel ← as_channel target;
  (if match channel with
      | Channel.Group g => bool_decide (u_id user = g_owner g) || contains (u_id user) (g_moderators g)
      | _ => false
      end
   then mret tt
   else '(permissions, _) ← channel_permissions user channel;
        require permissions ChannelPermission.ManageChannel);;
  if nothing_to_change data then mret channel else
  channel ← transfer_ownership user channel data;
  '(channel, moderators) ← lift_outcome (change_moderators user channel data);
  let partial icon voice :=
    {| pc_name := dec_name data; pc_owner := dec_owner data; pc_description := dec_description data;
       pc_icon := icon; pc_nsfw := dec_nsfw data; pc_active := None; pc_permissions := None;
       pc_moderators := moderators; pc_role_permissions := None; pc_default_permissions := None;
       pc_last_message_id := None; pc_voice := voice; pc_encrypted := None |} in
  partial ← match channel with
            | Channel.Group g =>
                icon ← edit_icon user channel data;
                edit_messages user (g_id g) data icon;;
                mret (partial icon None)
            | Channel.TextChannel t =>
                icon ← edit_icon user channel data;
                check_bitrate t (dec_voice data);;
                mret (partial icon (dec_voice data))
            | _ => throw ErrorType.InvalidOperation
            end;
  channel ← on_world (channel_update channel partial (dec_remove data));
  (if bool_decide (is_Some (channel_voice channel)) then mret tt
   else delete_voice_channel nodes (channel_id channel) (channel_server channel));;
  mret channel.

(** ** Calls *)

(** [hosts] is [config.hosts.livekit], [to_json] the encoding of the recipients *)
Context (hosts : gmap string string) (to_json : list string -> Result string).

Definition tier_name (tier : SubscriptionTier) : string :=
  match tier with
  | SubscriptionTier.Free => "Free" | SubscriptionTier.Basic => "Basic"
  | SubscriptionTier.Pro => "Pro" | SubscriptionTier.Ultra => "Ultra"
  end.
Definition upgrade_hint (tier : SubscriptionTier) : string :=
  match tier with
  | SubscriptionTier.Free => "Upgrade to Basic ($5/mo) for 50 viewers with LiveKit SFU."
  | SubscriptionTier.Basic => "Upgrade to Pro ($10/mo) for 200 viewers + stream recording."
  | SubscriptionTier.Pro => "Upgrade to Ultra ($20/mo) for unlimited viewers + priority routing."
  | SubscriptionTier.Ultra => "Contact support for higher limits."
  end.

(** The tier of the owner of the channel's server. *)
Definition streamer_tier (server_id : string) : Vm SubscriptionTier :=
  server ← db (Database.fetch_server server_id);
  owner ← db (Database.fetch_user (s_owner server));
  mret (active_subscription_tier now_secs owner).

Definition check_capacity (permissions : PermissionValue) (channel : Channel) (voice_info : VoiceInformation)
    : Vm unit :=
  members ← on_redis (get_voice_channel_members (channel_id channel));
  let full := match members, vi_max_users voice_info with
              | Some ms, Some max_users => max_users <=? Z.of_nat (length ms)
              | _, _ => false
              end in
  if full && negb (pv_has permissions ChannelPermission.ManageChannel)
  then throw ErrorType.CannotJoinCall else mret tt.

Definition check_viewers (channel : Channel) : Vm unit :=
  match channel_server channel with
  | None => mret tt
  | Some server_id =>
      tier ← streamer_tier server_id;
      let max_viewers := Tier.stream_viewer_limit tier in
      if 0 <? max_viewers then
        current ← on_redis (get_viewer_count (channel_id channel));
        if max_viewers <=? current then
          throw (ErrorType.ViewerLimitReached max_viewers
            ("This stream has reached its " +:+ tier_name tier +:+ " tier limit of " +:+ pretty max_viewers
             +:+ " viewers. " +:+ upgrade_hint tier))
        else mret tt
      else mret tt
  end.

Definition connection_type (is_viewer : bool) : string := if is_viewer then "viewer" else "participant".

(** The call has no voice server: the route itself does what the daemon does on
    a webhook of the voice server. *)
Definition join_p2p (user : User) (channel : Channel) (is_viewer : bool) (recipients : option (list string))
    : Vm CreateVoiceUserResponse :=
  on_redis (set_voice_connection_type (channel_id channel) (u_id user) (connection_type is_viewer));;
  (if is_viewer then mret tt else
   on_redis (raise_if_in_voice user (channel_id channel));;
   voice_state ← on_redis (create_voice_state (channel_id channel) (channel_server channel) (u_id user) now);
   on_world (p (EventV1.VoiceChannelJoin (channel_id channel) voice_state) (channel_id channel));;
   match recipients with
   | Some recipients =>
       if bool_decide (recipients = []) then mret tt
       else on_redis (set_call_notification_recipients to_json (channel_id channel) (u_id user) recipients)
   | None => mret tt
   end);;
  mret {| cv_token := ""; cv_url := ""; cv_connection_type := "p2p" |}.

Fixpoint disconnect_all (user_id : string) (channels : list string) : Vm unit :=
  match channels with
  | [] => mret tt
  | id :: rest =>
      node ← on_redis (get_channel_node id);
      match node with
      | Some node => ignore_err (remove_user nodes node user_id id)
      | None => mret tt
      end;;
      channel ← as_channel id;
      on_redis (delete_voice_state id (channel_server channel) user_id);;
      disconnect_all user_id rest
  end.

Definition join_livekit (user : User) (channel : Channel) (permissions : PermissionValue) (is_viewer : bool)
    (data : DataJoinCall) : Vm CreateVoiceUserResponse :=
  existing_node ← on_redis (get_channel_node (channel_id channel));
  let node := match existing_node with Some node => Some node | None => dj_node data end in
  node ← lift_outcome (ok_or ErrorType.UnknownNode node);
  node_host ← lift_outcome (ok_or ErrorType.UnknownNode (hosts !! node));
  (if bool_decide (dj_force_disconnect data = Some true) then
     channels ← on_redis (get_user_voice_channels (u_id user));
     disconnect_all (u_id user) channels
   else on_redis (raise_if_in_voice user (channel_id channel)));;
  token ← (if is_viewer then create_viewer_token nodes node user channel
           else create_token nodes user_limits node user permissions channel);
  create_room nodes node channel;;
  on_redis (set_voice_connection_type (channel_id channel) (u_id user) (connection_type is_viewer));;
  (if is_viewer then mret tt else
   match dj_recipients data with
   | Some recipients =>
       if (num_participants node (channel_id channel) =? 0) && negb (bool_decide (recipients = []))
       then on_redis (set_call_notification_recipients to_json (channel_id channel) (u_id user) recipients)
       else mret tt
   | None => mret tt
   end);;
  mret {| cv_token := token; cv_url := node_host; cv_connection_type := connection_type is_viewer |}.

Definition uses_livekit (channel : Channel) (voice_info : VoiceInformation) : Vm bool :=
  if vi_is_stream_public voice_info then
    match channel_server channel with
    | Some server_id => tier ← streamer_tier server_id; mret (Tier.uses_livekit_for_public_streams tier)
    | None => mret false
    end
  else mret false.

Definition join_call (user : User) (target : string) (data : DataJoinCall) : Vm CreateVoiceUserResponse :=
  if negb (is_enabled nodes) then throw ErrorType.LiveKitUnavailable else
  if bool_decide (is_Some (u_bot user)) && bool_decide (dj_force_disconnect data = Some true)
  then throw ErrorType.IsBot else
  channel ← as_channel target;
  match channel_voice channel with
  | None => throw ErrorType.NotAVoiceChannel
  | Some voice_info =>
      '(permissions, _) ← channel_permissions user channel;
      let has_connect := has_channel_permission permissions ChannelPermission.Connect in
      if negb has_connect && negb (vi_is_stream_public voice_info)
      then throw (ErrorType.MissingPermission "Connect") else
      let is_viewer := negb has_connect in
      (if is_viewer then check_viewers channel else check_capacity permissions channel voice_info);;
      use_livekit ← uses_livekit channel voice_info;
      if (use_livekit : bool) then join_livekit user channel permissions is_viewer data
      else join_p2p user channel is_viewer (dj_recipients data)
  end.

Definition leave_call (user : User) (target : string) : Vm unit :=
  channel ← as_channel target;
  state ← on_redis (get_voice_state timestamp_ok (channel_id channel) (channel_server channel) (u_id user));
  match state with
  | None => throw ErrorType.NoEffect
  | Some _ =>
      connection ← on_redis (get_voice_connection_type (channel_id channel) (u_id user));
      let is_viewer := bool_decide (connection = Some "viewer") in
      node ← on_redis (get_channel_node (channel_id channel));
      match node with
      | Some node => ignore_err (remove_user nodes node (u_id user) (channel_id channel))
      | None => mret tt
      end;;
      if is_viewer then
        on_redis (delete_viewer_state (channel_id channel) (u_id user));;
        on_redis (delete_voice_connection_type (channel_id channel) (u_id user))
      else
        on_redis (delete_voice_state (channel_id channel) (channel_server channel) (u_id user));;
        on_redis (delete_voice_connection_type (channel_id channel) (u_id user));;
        on_world (p (EventV1.VoiceChannelLeave (channel_id channel) (u_id user)) (channel_id channel))
  end.

(** The publication to the push daemon does not fail here. *)
Definition stop_ring (user : User) (target target_user : string) : Vm unit :=
  if negb (is_enabled nodes) then throw ErrorType.LiveKitUnavailable else
  channel ← as_channel target;
  if bool_decide (is_Some (channel_server channel)) then throw ErrorType.NoEffect else
  state ← on_redis (get_voice_state timestamp_ok (channel_id channel) None (u_id user));
  if negb (bool_decide (is_Some state)) then throw ErrorType.NotConnected else
  members ← match channel with
            | Channel.DirectMessage c => mret (dm_recipients c)
            | Channel.Group g => mret (g_recipients g)
            | _ => throw ErrorType.NoEffect
            end;
  if contains target_user members
  then on_world (notify (Amqp.DmCallUpdated (u_id user) (channel_id channel) None true (Some [target_user])))
  else throw ErrorType.NotFound.

(** [if let Ok(u) = ..as_user(db)] *)
Fixpoint known_users (ids : list string) : Vm (list User) :=
  match ids with
  | [] => mret []
  | id :: rest => fun s =>
      match as_user id s with
      | (Ok u, s') => (users ← known_users rest; mret (u :: users)) s'
      | (Err _, s') => known_users rest s'
      | (Panicked, s') => (Panicked, s')
      end
  end.

Definition can_see_viewers (user : User) (channel : Channel) (visibility : ViewerListVisibility) : Vm bool :=
  match visibility with
  | ViewerListVisibility.Nobody => mret false
  | ViewerListVisibility.ParticipantsOnly =>
      connection ← on_redis (get_voice_connection_type (channel_id channel) (u_id user));
      mret (bool_decide (connection = Some "participant"))
  | ViewerListVisibility.ModeratorsOnly =>
      '(permissions, _) ← channel_permissions user channel;
      mret (pv_has permissions ChannelPermission.ManageChannel)
  | ViewerListVisibility.Everyone => mret true
  end.

Definition get_viewers (user : User) (target : string) : Vm (Z * option (list User)) :=
  channel ← as_channel target;
  match channel_voice channel with
  | None => throw ErrorType.NotAVoiceChannel
  | Some voice_info =>
      if negb (vi_is_stream_public voice_info) then mret (0, None) else
      count ← on_redis (get_viewer_count (channel_id channel));
      visible ← can_see_viewers user channel (vi_show_viewer_list_to voice_info);
      if (visible : bool) then
        viewer_ids ← on_redis (get_viewer_list (channel_id channel));
        users ← known_users viewer_ids;
        mret (count, Some users)
      else mret (count, None)
  end.
End Routes.

(** ** Groups: who removes whom *)

Section Properties.
Context {R : Type} `{RedisLaws R} `{LiveKit} `{HO : HashOrder} `{Validator}.
Context `{OS : OptionalStruct Server PartialServer} `{OR : OptionalStruct Role PartialRole}
  `{OM : OptionalStruct Member PartialMember} `{OU : OptionalStruct User PartialUser}.
Context (timestamp_ok : Z -> bool) (nodes : gset string) (now : Timestamp) (now_secs : Z).
Context (user_limits : User -> Result FeaturesLimits) (global : GlobalLimits).
Context (hosts : gmap string string) (to_json : list string -> Result string).
Implicit Types s : Services ReferenceDb R.

Lemma as_channel_run id s : as_channel id s = (Ref.fetch_channel (stored_db s) id, s).
Proof. exact (reads_run (fun d => Ref.fetch_channel d id) s). Qed.

(** Removal from a group is up to its owner and its moderators.  If it
    succeeds the caller is one of them and not a bot, the removed user is another
    recipient, and a moderator removes neither the owner nor a moderator. *)
Theorem group_removal_authorised user target mid s s' :
  group_remove_member nodes user target mid s = (Ok tt, s') ->
  exists g member, Ref.fetch_channel (stored_db s) target = Ok (Channel.Group g)
    /\ Ref.fetch_user (stored_db s) mid = Ok member
    /\ u_bot user = None
    /\ (u_id user = g_owner g \/ u_id user ∈ g_moderators g)
    /\ u_id member <> u_id user /\ u_id member ∈ g_recipients g
    /\ (u_id user <> g_owner g -> u_id member <> g_owner g /\ u_id member ∉ g_moderators g).
Proof.
  unfold group_remove_member. destruct (u_bot user) eqn:Hbot; [done|]. simpl. intros E.
  apply M_bind_Ok_inv in E as (channel & ? & Ec & E). rewrite as_channel_run in Ec. injection Ec as Ec <-.
  apply M_bind_Ok_inv in E as ([] & s1 & E & _).
  destruct channel as [| |g|]; [done|done| |done]. cbv zeta in E.
  destruct (bool_decide_reflect (u_id user = g_owner g)) as [Ho|Ho], (contains (u_id user) (g_moderators g)) eqn:Em;
    simpl in E; try done.
  all: apply M_bind_Ok_inv in E as (member & ? & Eu & E); rewrite as_user_run in Eu; injection Eu as Eu <-.
  all: destruct (bool_decide_reflect (u_id user = u_id member)); [done|].
  all: destruct (contains (u_id member) (g_recipients g)) eqn:Er; [|done]; apply contains_spec in Er.
  all: exists g, member; split_and!; try done; try (by left); try (by intros []); try congruence.
  - by right; apply contains_spec.
  - intros _. simpl in E. destruct (bool_decide_reflect (u_id member = g_owner g)); [done|].
    destruct (contains (u_id member) (g_moderators g)) eqn:Emm; [done|]. split; [done|].
    rewrite <- contains_spec. congruence.
Qed.

(** ** Calls *)

(** Who joins a call was let in: the caller may connect, or the channel streams
    to the public; and a participant who cannot manage the channel joined below its
    capacity. *)
Theorem join_call_admits user target data s resp s' :
  voice_ok (keys (sv_redis s)) ->
  join_call nodes now now_secs user_limits hosts to_json user target data s = (Ok resp, s') ->
  exists channel voice_info p q, Ref.fetch_channel (stored_db s) target = Ok channel
    /\ channel_voice channel = Some voice_info
    /\ channel_permissions now user channel s = (Ok (p, q), s)
    /\ (has_channel_permission p ChannelPermission.Connect = true \/ vi_is_stream_public voice_info = true)
    /\ forall max, has_channel_permission p ChannelPermission.Connect = true ->
         pv_has p ChannelPermission.ManageChannel = false -> vi_max_users voice_info = Some max ->
         set_at (keys (sv_redis s)) (vc_members (channel_id channel)) = ∅
         \/ Z.of_nat (size (set_at (keys (sv_redis s)) (vc_members (channel_id channel)))) < max.
Proof.
  intros Hok E. unfold join_call in E. destruct (is_enabled nodes); [|done]. simpl in E.
  destruct (_ && _); [done|].
  apply M_bind_Ok_inv in E as (channel & ? & Ec & E). rewrite as_channel_run in Ec. injection Ec as Ec <-.
  destruct (channel_voice channel) as [voice_info|] eqn:Ev; [|done].
  apply M_bind_Ok_inv in E as ([p q] & s1 & Ep & E).
  assert (s1 = s) as ->.
  { unfold channel_permissions in Ep. erewrite M_bind_ok in Ep by reflexivity.
    destruct (db_calculate_channel_permissions _ _) as [r q']. by apply M_bind_Ok_inv in Ep as (? & ? & [_ ->]%lift_Ok_inv & [= _ _ ->]). }
  exists channel, voice_info, p, q. split_and!; [done|done|done| |].
  - destruct (has_channel_permission p ChannelPermission.Connect); [by left|].
    destruct (vi_is_stream_public voice_info); [by right|done].
  - intros max Hc Hm Hmax. rewrite Hc in E. simpl in E.
    apply M_bind_Ok_inv in E as ([] & s2 & Ecap & _). unfold check_capacity in Ecap.
    destruct (members_run (channel_id channel) (sv_redis s) Hok) as (ms & Ems & Hms & Hsome).
    erewrite M_bind_ok in Ecap by (rewrite on_redis_run, Ems; reflexivity).
    rewrite Hm, Hmax, andb_true_r in Ecap. simpl in Ecap.
    destruct ms as [ms|]; [right|left].
    + destruct (Z.leb_spec max (Z.of_nat (length ms))); [done|]. simpl in Hms. rewrite Hms in *.
      unfold size, set_size. simpl. lia.
    + apply dec_stable. intros Hne. by apply Hsome in Hne as [].
Qed.

(** *** The life of a call without a voice server *)

Lemma connection_key_apart u c k :
  voice_key k \/ (exists key, k ∈ flag_keys key) \/ (exists v x, valid_id v /\ k = unique_key v x) ->
  connection_type_key u c <> k /\ node_key c <> k.
Proof.
  intros [Hk|[[key Hk]|(v & x & Hv & ->)]].
  - destruct Hk as [->|[[y ->]|[y ->]]]; done.
  - unfold flag_keys in Hk. repeat (apply elem_of_cons in Hk as [->|Hk]; [done|]). by apply not_elem_of_nil in Hk.
  - destruct v as [|ch v]; [done|]. unfold unique_key, connection_type_key, node_key. simpl in Hv |- *.
    split; intros E; injection E as <- _; vm_compute in Hv; lia.
Qed.

Lemma readd_difference (u : string) (X : gset string) : ({[ u ]} ∪ X) ∖ {[ u ]} = X ∖ {[ u ]}.
Proof. clear. set_solver. Qed.

(** The keys that joining does not touch. *)
Lemma voice_created_other c u x t m k :
  valid_id u -> k = connection_type_key u c \/ k = node_key c ->
  voice_created c (unique_key u x) u t m !! k = m !! k.
Proof using.
  intros Hu Hk.
  assert (forall k', (voice_key k' \/ (exists key, k' ∈ flag_keys key) \/ (exists v y, valid_id v /\ k' = unique_key v y))
    -> k' <> k) as Hne.
  { intros k' Hk'. destruct (connection_key_apart u c k' Hk'). destruct Hk; congruence. }
  assert (forall a b (n : gmap string RedisValue), a <> k -> add_to a b n !! k = n !! k) as Hadd.
  { intros a b n Ha. unfold add_to, put_set. case_decide; [by apply lookup_delete_ne|by apply lookup_insert_ne]. }
  unfold voice_created. rewrite Hadd by (apply Hne; left; eauto with redis).
  do 5 (rewrite lookup_insert_ne by (apply Hne; right; left; exists (unique_key u x); unfold flag_keys;
    repeat first [by apply list_elem_of_here|apply list_elem_of_further])).
  rewrite lookup_insert_ne by (apply Hne; right; right; by exists u, x).
  rewrite !Hadd; [done|apply Hne; left; eauto with redis..].
Qed.

Lemma on_redis_does {A} (c : M ErrorType R A) s a m :
  does c (sv_redis s) a m -> exists r', on_redis c s = (Ok a, sv_set_redis r' s) /\ keys r' = m.
Proof. intros (r' & E & Hk). exists r'. by rewrite on_redis_run, E. Qed.

Lemma on_redis_read {A} (c : M ErrorType R A) s a :
  c (sv_redis s) = (Ok a, sv_redis s) -> on_redis c s = (Ok a, s).
Proof. intros E. rewrite on_redis_run, E. by destruct s. Qed.

Lemma join_p2p_run user channel s :
  let c := channel_id channel in let u := u_id user in
  valid_id u -> voice_ok (keys (sv_redis s)) -> set_at (keys (sv_redis s)) (vc u) = ∅ ->
  exists r1, join_p2p now to_json user channel false None s
      = (Ok {| cv_token := ""; cv_url := ""; cv_connection_type := "p2p" |},
         sv_set_world (p (EventV1.VoiceChannelJoin c (fresh_state u now)) c (sv_world s)).2 (sv_set_redis r1 s))
    /\ keys r1 = voice_created c (unique_key u (default c (channel_server channel))) u now
                   (<[connection_type_key u c := RStr "participant"]> (keys (sv_redis s))).
Proof.
  intros c u Hu Hok Hnone. unfold join_p2p. fold c u.
  destruct (on_redis_does (set_voice_connection_type c u (connection_type false)) s tt
    (<[connection_type_key u c := RStr "participant"]> (keys (sv_redis s)))) as (r0 & E0 & H0').
  { apply does_redis, does_set. }
  erewrite M_bind_ok by exact E0.
  assert (~ voice_key (connection_type_key u c)) as Hck.
  { intros Hk. by destruct (connection_key_apart u c _ (or_introl Hk)). }
  assert (same_voice (keys r0) (keys (sv_redis s))) as Hsame by (rewrite H0'; by apply same_voice_insert).
  assert (voice_ok (keys r0)) as Hok0 by (by rewrite Hsame).
  destruct (on_redis_does (create_voice_state c (channel_server channel) u now) (sv_set_redis r0 s)
    _ _ (create_voice_state_run c (channel_server channel) u now r0 Hu Hok0)) as (r1 & E1 & H1').
  assert (on_redis (raise_if_in_voice user c) (sv_set_redis r0 s) = (Ok tt, sv_set_redis r0 s)) as Er.
  { rewrite on_redis_run. simpl. rewrite (raise_if_in_voice_run r0 user c Hok0). fold u.
    rewrite (same_voice_set_at _ _ (vc u) Hsame) by eauto with redis. rewrite Hnone. done. }
  exists r1. split; [|by rewrite H1', H0'].
  erewrite M_bind_ok; [done|]. erewrite M_bind_ok by exact Er. erewrite M_bind_ok by exact E1.
  by erewrite M_bind_ok by reflexivity.
Qed.

Lemma leave_call_run user target channel s st :
  let c := channel_id channel in let u := u_id user in
  let key := unique_key u (default c (channel_server channel)) in
  Ref.fetch_channel (stored_db s) target = Ok channel ->
  valid_id u -> voice_ok (keys (sv_redis s)) -> stored timestamp_ok (keys (sv_redis s)) key u st ->
  keys (sv_redis s) !! connection_type_key u c = Some (RStr "participant") ->
  keys (sv_redis s) !! node_key c = None ->
  exists r2, leave_call timestamp_ok nodes user target s
      = (Ok tt, sv_set_world (p (EventV1.VoiceChannelLeave c u) c (sv_world s)).2 (sv_set_redis r2 s))
    /\ keys r2 = delete (connection_type_key u c) (voice_deleted c key u (keys (sv_redis s))).
Proof.
  intros c u key Hc Hu Hok Hst Hty Hnode. unfold leave_call.
  erewrite M_bind_ok by (by rewrite as_channel_run, Hc). fold c u.
  erewrite M_bind_ok by (apply on_redis_read, get_stored; exact Hst). cbv beta iota.
  assert (get_voice_connection_type c u (sv_redis s) = (Ok (Some "participant"), sv_redis s)) as Ety.
  { apply redis_ok. rewrite get_run; [unfold str_at; by rewrite Hty|]. by rewrite Hty. }
  assert (get_channel_node c (sv_redis s) = (Ok None, sv_redis s)) as En.
  { apply redis_ok. rewrite get_run; [unfold str_at; by rewrite Hnode|]. by rewrite Hnode. }
  erewrite M_bind_ok by (apply on_redis_read; exact Ety).
  erewrite M_bind_ok by (apply on_redis_read; exact En).
  erewrite M_bind_ok by reflexivity. cbv zeta. rewrite bool_decide_eq_false_2 by done.
  destruct (on_redis_does (delete_voice_state c (channel_server channel) u) s _ _
    (delete_voice_state_run c (channel_server channel) u (sv_redis s) Hu Hok)) as (r1 & E1 & H1').
  erewrite M_bind_ok by exact E1.
  destruct (on_redis_does (delete_voice_connection_type c u) (sv_set_redis r1 s) tt
    (delete (connection_type_key u c) (keys r1))) as (r2 & E2 & H2').
  { apply does_redis. apply (does_del [connection_type_key u c]). }
  erewrite M_bind_ok by exact E2. exists r2. split; [done|]. by rewrite H2', H1'.
Qed.

(** A call without a voice server, from joining to leaving.  A participant who
    is in no call joins; the channel lists them, their state is read back and the
    others are told; they leave, the state is gone, the channel no longer lists
    them and the others are told. *)
Theorem p2p_call_roundtrip user target channel s :
  Ref.fetch_channel (stored_db s) target = Ok channel ->
  valid_id (u_id user) -> is_i64 now -> timestamp_ok now = true ->
  voice_ok (keys (sv_redis s)) -> set_at (keys (sv_redis s)) (vc (u_id user)) = ∅ ->
  keys (sv_redis s) !! node_key (channel_id channel) = None ->
  exists s1 s2 state,
    join_p2p now to_json user channel false None s
      = (Ok {| cv_token := ""; cv_url := ""; cv_connection_type := "p2p" |}, s1)
    /\ get_voice_state timestamp_ok (channel_id channel) (channel_server channel) (u_id user) (sv_redis s1)
       = (Ok (Some state), sv_redis s1)
    /\ u_id user ∈ set_at (keys (sv_redis s1)) (vc_members (channel_id channel))
    /\ w_events (sv_world s1) = w_events (sv_world s)
         ++ [(channel_id channel, EventV1.VoiceChannelJoin (channel_id channel) state)]
    /\ leave_call timestamp_ok nodes user target s1 = (Ok tt, s2)
    /\ get_voice_state timestamp_ok (channel_id channel) (channel_server channel) (u_id user) (sv_redis s2)
       = (Ok None, sv_redis s2)
    /\ set_at (keys (sv_redis s2)) (vc_members (channel_id channel))
       = set_at (keys (sv_redis s)) (vc_members (channel_id channel)) ∖ {[ u_id user ]}
    /\ w_events (sv_world s2) = w_events (sv_world s1)
         ++ [(channel_id channel, EventV1.VoiceChannelLeave (channel_id channel) (u_id user))].
Proof using H0 OS OR OM OU.
  intros Hc Hu Ht Hto Hok Hnone Hnode. set (c := channel_id channel) in *. set (u := u_id user) in *.
  set (key := unique_key u (default c (channel_server channel))).
  destruct (join_p2p_run user channel s Hu Hok Hnone) as (r1 & E1 & K1). fold c u key in E1, K1.
  set (s1 := sv_set_world _ (sv_set_redis r1 s)) in E1.
  set (m1 := <[connection_type_key u c := _]> (keys (sv_redis s))) in K1.
  assert (same_voice m1 (keys (sv_redis s))) as Hsame1.
  { apply same_voice_insert. intros Hk. by destruct (connection_key_apart u c _ (or_introl Hk)). }
  assert (same_voice (keys r1) (joined c u m1)) as Hj by (rewrite K1; by eapply voice_created_joined).
  assert (voice_ok (keys r1)) as Hok1 by (rewrite Hj; apply joined_ok; [done|by rewrite Hsame1]).
  destruct (stored_created timestamp_ok c (channel_server channel) u now m1 Hu Ht Hto) as [Hst _].
  fold key in Hst. rewrite <- K1 in Hst.
  assert (keys r1 !! connection_type_key u c = Some (RStr "participant")) as Hty.
  { rewrite K1. unfold key. rewrite voice_created_other by (done || by left). apply lookup_insert_eq. }
  assert (keys r1 !! node_key c = None) as Hn1.
  { rewrite K1. unfold key. rewrite voice_created_other by (done || by right).
    unfold m1. by rewrite lookup_insert_ne. }
  destruct (leave_call_run user target channel s1 (fresh_state u now) Hc Hu Hok1 Hst Hty Hn1) as (r2 & E2 & K2).
  fold c u key in E2, K2. change (sv_redis s1) with r1 in K2.
  assert (forall k, voice_key k -> connection_type_key u c <> k) as Hck.
  { intros k Hk. by destruct (connection_key_apart u c k (or_introl Hk)). }
  exists s1. eexists. exists (fresh_state u now). split_and!; [exact E1| | |done|exact E2| | |done].
  - by apply get_stored.
  - change (sv_redis s1) with r1. rewrite (same_voice_set_at _ _ (vc_members c) Hj) by eauto with redis.
    destruct (set_at_joined c u m1) as (Em & _ & _). rewrite Em, decide_True by done.
    by apply elem_of_union_l, elem_of_singleton.
  - apply get_gone. intros k Hk. simpl. fold key in Hk. rewrite K2. unfold str_at.
    rewrite lookup_delete_ne by (destruct (connection_key_apart u c k); [right; left; by exists key|done]).
    unfold key in *. by rewrite (voice_deleted_gone c _ u _ (keys r1) k Hu eq_refl) by (apply elem_of_app; by left).
  - simpl. rewrite K2, set_at_delete, decide_False by (intros E; by eapply Hck; [eauto with redis|]).
    pose proof (voice_deleted_left c key u (default c (channel_server channel)) (keys r1) Hu eq_refl) as Hl.
    rewrite (same_voice_set_at _ _ (vc_members c) Hl) by eauto with redis.
    destruct (set_at_left c u (keys r1)) as (El & _ & _). rewrite El, decide_True by done.
    rewrite (same_voice_set_at _ _ (vc_members c) Hj) by eauto with redis.
    destruct (set_at_joined c u m1) as (Em & _ & _). rewrite Em, decide_True by done.
    rewrite (same_voice_set_at _ _ (vc_members c) Hsame1) by eauto with redis. apply readd_difference.
Qed.

(** ** Gaps *)

Lemma no_node c s :
  keys (sv_redis s) !! node_key c = None -> on_redis (get_channel_node c) s = (Ok None, s).
Proof.
  intros Hn. apply on_redis_read, redis_ok. rewrite get_run; [unfold str_at; by rewrite Hn|]. by rewrite Hn.
Qed.

(** A text channel with a call that has no voice server is half deleted: the
    route panics on the missing node, after the channel is gone from the database
    and before the voice state is cleared. *)
Theorem p2p_call_blocks_deletion user t perms q silently s :
  Ref.fetch_channel (stored_db s) (t_id t) = Ok (Channel.TextChannel t) ->
  channel_permissions now user (Channel.TextChannel t) s = (Ok (perms, q), s) ->
  has_channel_permission perms ChannelPermission.ViewChannel = true ->
  has_channel_permission perms ChannelPermission.ManageChannel = true ->
  voice_ok (keys (sv_redis s)) -> set_at (keys (sv_redis s)) (vc_members (t_id t)) <> ∅ ->
  keys (sv_redis s) !! node_key (t_id t) = None ->
  exists s', channel_delete_route nodes now user (t_id t) silently s = (Panicked, s')
    /\ Ref.fetch_channel (stored_db s') (t_id t) = Err ErrorType.NotFound
    /\ sv_redis s' = sv_redis s.
Proof.
  intros Hc Hp Hv Hm Hok Hne Hn. unfold channel_delete_route.
  erewrite M_bind_ok by (by rewrite as_channel_run, Hc). erewrite M_bind_ok by exact Hp. cbv beta iota.
  unfold require, throw_if_lacking_channel_permission. rewrite Hv, Hm.
  do 2 (erewrite M_bind_ok by reflexivity).
  assert (is_Some (db_channels (stored_db s) !! t_id t)) as [c0 Hst].
  { unfold Ref.fetch_channel, get_or in Hc. destruct (db_channels (stored_db s) !! t_id t); [by eexists|done]. }
  set (d' := set_channels (delete (t_id t) (db_channels (stored_db s))) (stored_db s)).
  assert (exists w', channel_delete (Channel.TextChannel t) (sv_world s) = (Ok tt, w') /\ w_db w' = d') as (w' & Ew & Hw).
  { unfold channel_delete. erewrite M_bind_ok by reflexivity. rewrite call_run. simpl.
    unfold Ref.delete_channel, remove_or. simpl. unfold stored_db in Hst. rewrite Hst. by eexists. }
  erewrite M_bind_ok by (rewrite on_world_run, Ew; reflexivity). simpl snd.
  unfold delete_voice_channel. simpl channel_id.
  set (s' := sv_set_world w' s). destruct (members_run (t_id t) (sv_redis s) Hok) as (ms & Ems & _ & Hsome).
  destruct ms as [ms|]; [|by apply Hsome in Hne as []].
  erewrite M_bind_ok by (apply (on_redis_read _ s'); exact Ems).
  exists s'. split_and!; [|unfold stored_db; simpl; rewrite Hw; unfold Ref.fetch_channel, get_or; simpl; by rewrite lookup_delete_eq|done].
  unfold mbind at 1, M_bind at 1. by erewrite M_bind_ok by (apply no_node; exact Hn).
Qed.

(** A channel override is compared with the override of the role in the
    server, not with the one it replaces: whoever may manage permissions and ranks
    above a role can give the role, in the channel, everything it has in the
    server, whatever the channel denied before and whatever they have themselves. *)
Theorem channel_override_wrong_baseline user t perms q server role_id role s :
  Ref.fetch_channel (stored_db s) (t_id t) = Ok (Channel.TextChannel t) ->
  channel_permissions now user (Channel.TextChannel t) s = (Ok (perms, q), s) ->
  has_channel_permission perms ChannelPermission.ManagePermissions = true ->
  q_server q = Some server -> s_roles server !! role_id = Some role -> is_Some (t_role_permissions t !! role_id) ->
  (exists rank, member_rank q = Ok rank /\ rank < r_rank role) ->
  override_field_wf (r_permissions role) -> keys (sv_redis s) !! node_key (t_id t) = None ->
  exists t' s', set_role_permissions timestamp_ok nodes now user_limits user (t_id t) role_id
                  (Override_from (r_permissions role)) s = (Ok (Channel.TextChannel t'), s')
    /\ t_role_permissions t' !! role_id = Some (r_permissions role).
Proof.
  intros Hc Hp Hm Hq Hr [before Hb] (rank & Hrank & Hlt) Hwf Hn. unfold set_role_permissions.
  erewrite M_bind_ok by (by rewrite as_channel_run, Hc). erewrite M_bind_ok by exact Hp. cbv beta iota.
  unfold require, throw_if_lacking_channel_permission. rewrite Hm.
  erewrite M_bind_ok by reflexivity. rewrite Hq, Hr, Hrank. erewrite M_bind_ok by reflexivity.
  rewrite (proj2 (Z.leb_gt _ _) Hlt), override_unchanged_accepted by apply Override_from_wf.
  erewrite M_bind_ok by reflexivity.
  assert (OverrideField_from (Override_from (r_permissions role)) = r_permissions role) as ->.
  { destruct (r_permissions role) as [a d], Hwf as [Ha Hd]. unfold OverrideField_from, Override_from. simpl in *.
    by rewrite !as_i64_as_u64. }
  set (t' := t_set_role_permissions (<[role_id := r_permissions role]> (t_role_permissions t)) t).
  assert (exists w', channel_set_role_permission (Channel.TextChannel t) role_id (r_permissions role) (sv_world s)
    = (Ok (Channel.TextChannel t'), w')) as [w' Ew].
  { unfold channel_set_role_permission.
    assert (exists w1, call (Database.set_channel_role_permission (t_id t) role_id (r_permissions role)) (sv_world s)
      = (Ok tt, w1)) as [w1 E1].
    { rewrite call_run. simpl. unfold Ref.set_channel_role_permission, with_mut.
      unfold Ref.fetch_channel, get_or in Hc. unfold stored_db in Hc.
      destruct (db_channels (w_db (sv_world s)) !! t_id t); [|done]. injection Hc as ->. rewrite Hb. by eexists. }
    erewrite M_bind_ok by exact E1. by eexists. }
  erewrite M_bind_ok by (rewrite on_world_run, Ew; reflexivity). simpl snd.
  exists t'. eexists. split; [|unfold t'; simpl; apply lookup_insert_eq].
  erewrite M_bind_ok; [reflexivity|]. unfold sync_voice_permissions.
  by erewrite M_bind_ok by (apply no_node; exact Hn).
Qed.

(** A transfer of ownership can be announced and not happen: in a request that
    also changes the moderators the new owner is compared with the caller, so it
    fails after the system message and before the update. *)
Theorem transfer_announced_not_made user g new_owner mods data s :
  Ref.fetch_channel (stored_db s) (g_id g) = Ok (Channel.Group g) ->
  channel_edit_validate data = Ok tt -> g_owner g = u_id user -> new_owner <> u_id user ->
  new_owner ∈ g_recipients g -> dec_owner data = Some new_owner -> dec_add_moderators data = Some mods ->
  exists s', channel_edit nodes now user_limits user (g_id g) data s = (Err ErrorType.NotOwner, s')
    /\ w_sent (sv_world s') = w_sent (sv_world s)
         ++ [(g_id g, SystemMessage.ChannelOwnershipChanged (u_id user) new_owner)]
    /\ stored_db s' = stored_db s.
Proof using OS OR OM OU.
  intros Hc Hv Ho Hne Hin Hd Hmods. unfold channel_edit. rewrite Hv. erewrite M_bind_ok by reflexivity.
  erewrite M_bind_ok by (by rewrite as_channel_run, Hc). cbv iota beta.
  rewrite bool_decide_eq_true_2 by done. simpl orb. cbv iota.
  erewrite M_bind_ok by reflexivity.
  assert (nothing_to_change data = false /\ has_mod_changes data = true) as [-> Hmod].
  { unfold nothing_to_change, has_mod_changes, given. rewrite Hd, Hmods. split; [|done].
    by rewrite !andb_false_r. }
  assert (transfer_ownership user (Channel.Group g) data s
    = (Ok (Channel.Group (group_apply_options g (PartialChannel_owner new_owner))),
       sv_set_world (send_system (g_id g) (SystemMessage.ChannelOwnershipChanged (g_owner g) new_owner) (sv_world s)).2 s)) as Et.
  { unfold transfer_ownership. rewrite Hd, bool_decide_eq_false_2 by (intros Hn; by apply Hn).
    rewrite (proj2 (contains_spec _ _) Hin). done. }
  assert (change_moderators user (Channel.Group (group_apply_options g (PartialChannel_owner new_owner))) data
    = Err ErrorType.NotOwner) as Ec.
  { unfold change_moderators. rewrite Hmod. by rewrite bool_decide_eq_true_2. }
  erewrite M_bind_ok by exact Et. rewrite Ho. eexists.
  split; [by erewrite M_bind_err by (unfold lift_outcome; by rewrite Ec)|done].
Qed.
End Properties.

(** ** Witnesses *)

Module ChannelRouteWitness.
Import SomePriority RedisWitness ModerationWitness VoiceWitness.

Definition voice_channel : TextChannel := {|
  t_id := "C1"; t_server := "server"; t_name := "Voice"; t_description := None; t_icon := None;
  t_last_message_id := None; t_default_permissions := None;
  t_role_permissions := {[ "low" := {| of_a := 0; of_d := channel_permission_value ChannelPermission.SendMessage |} ]};
  t_nsfw := false;
  t_voice := Some {| vi_max_users := Some 2; vi_bitrate := None; vi_is_stream_public := false;
                     vi_show_viewer_list_to := ViewerListVisibility.Nobody |};
  t_encrypted := false |}.
Definition manager_permissions : Z :=
  ChannelPermission.ManagePermissions +p ChannelPermission.ManageChannel +p ChannelPermission.ViewChannel
  +p ChannelPermission.Connect.
Definition roles : gmap string Role :=
  {[ "mod" := Example.role "mod" 1 manager_permissions 0;
     "low" := Example.role "low" 5 (ChannelPermission.BanMembers +p ChannelPermission.SendMessage) 0 ]}.
Definition server : Server := s_set_channels ["C1"] (Example.server roles).
Definition grp : GroupChannel := {|
  g_id := "G1"; g_name := "Group"; g_owner := "UO"; g_description := None; g_recipients := ["UO"; "UM"; "U1"];
  g_icon := None; g_last_message_id := None; g_permissions := None; g_nsfw := false; g_moderators := ["UM"];
  g_encrypted := false |}.
Definition d0 : ReferenceDb :=
  set_channels {[ "C1" := Channel.TextChannel voice_channel; "G1" := Channel.Group grp ]}
    (set_users {[ "U1" := Example.user "U1"; "UM" := Example.user "UM" ]}
      (set_servers {[ "server" := server ]}
        (set_server_members {[ member_key "server" "UM" := named "UM" ["mod"] true ]} ReferenceDb_default))).
Definition s0 : Services ReferenceDb Store := {| sv_world := world d0; sv_redis := ∅; sv_livekit := [] |}.
(** The same with a participant in the channel. *)
Definition s1 : Services ReferenceDb Store := {| sv_world := world d0; sv_redis := r1; sv_livekit := [] |}.
Definition all_nodes : gset string := {[ "node" ]}.
Definition plain_json (l : list string) : Result string := Ok "[]".

Lemma pair_result {A B} (x : A * B) a : x.1 = a -> x = (a, x.2).
Proof. destruct x. by intros <-. Qed.

Definition removed : Result unit * Services ReferenceDb Store :=
  group_remove_member ∅ (Example.user "UM") "G1" "U1" s0.

Lemma removed_ok : removed = (Ok tt, removed.2).
Proof. apply pair_result. vm_compute. reflexivity. Qed.

Lemma group_removal_authorised_witness :
  exists g member, Ref.fetch_channel (stored_db s0) "G1" = Ok (Channel.Group g)
    /\ Ref.fetch_user (stored_db s0) "U1" = Ok member
    /\ u_bot (Example.user "UM") = None
    /\ ("UM" = g_owner g \/ "UM" ∈ g_moderators g)
    /\ u_id member <> "UM" /\ u_id member ∈ g_recipients g
    /\ ("UM" <> g_owner g -> u_id member <> g_owner g /\ u_id member ∉ g_moderators g).
Proof. exact (group_removal_authorised ∅ (Example.user "UM") "G1" "U1" s0 removed.2 removed_ok). Defined.

Definition join_data : DataJoinCall :=
  {| dj_node := None; dj_force_disconnect := None; dj_recipients := None |}.
Definition joined_call : Result CreateVoiceUserResponse * Services ReferenceDb Store :=
  join_call all_nodes 1000 0 no_limits ∅ plain_json (Example.user "UM") "C1" join_data s1.

Lemma joined_call_ok :
  joined_call = (Ok {| cv_token := ""; cv_url := ""; cv_connection_type := "p2p" |}, joined_call.2).
Proof. apply pair_result. vm_compute. reflexivity. Qed.

Lemma join_call_admits_witness :
  exists channel voice_info p q, Ref.fetch_channel (stored_db s1) "C1" = Ok channel
    /\ channel_voice channel = Some voice_info
    /\ channel_permissions 1000 (Example.user "UM") channel s1 = (Ok (p, q), s1)
    /\ (has_channel_permission p ChannelPermission.Connect = true \/ vi_is_stream_public voice_info = true)
    /\ forall max, has_channel_permission p ChannelPermission.Connect = true ->
         pv_has p ChannelPermission.ManageChannel = false -> vi_max_users voice_info = Some max ->
         set_at (keys (sv_redis s1)) (vc_members (channel_id channel)) = ∅
         \/ Z.of_nat (size (set_at (keys (sv_redis s1)) (vc_members (channel_id channel)))) < max.
Proof.
  exact (join_call_admits all_nodes 1000 0 no_limits ∅ plain_json (Example.user "UM") "C1" join_data s1
           {| cv_token := ""; cv_url := ""; cv_connection_type := "p2p" |} joined_call.2 voice_r1_ok joined_call_ok).
Defined.

Lemma p2p_call_roundtrip_witness :
  exists s2 s3 state,
    join_p2p 1000 plain_json (Example.user "UM") (Channel.Group grp) false None s1
      = (Ok {| cv_token := ""; cv_url := ""; cv_connection_type := "p2p" |}, s2)
    /\ get_voice_state after_1970 "G1" None "UM" (sv_redis s2) = (Ok (Some state), sv_redis s2)
    /\ "UM" ∈ set_at (keys (sv_redis s2)) (vc_members "G1")
    /\ w_events (sv_world s2) = w_events (sv_world s1) ++ [("G1", EventV1.VoiceChannelJoin "G1" state)]
    /\ leave_call after_1970 ∅ (Example.user "UM") "G1" s2 = (Ok tt, s3)
    /\ get_voice_state after_1970 "G1" None "UM" (sv_redis s3) = (Ok None, sv_redis s3)
    /\ set_at (keys (sv_redis s3)) (vc_members "G1") = set_at (keys (sv_redis s1)) (vc_members "G1") ∖ {[ "UM" ]}
    /\ w_events (sv_world s3) = w_events (sv_world s2) ++ [("G1", EventV1.VoiceChannelLeave "G1" "UM")].
Proof.
  apply (p2p_call_roundtrip after_1970 ∅ 1000 plain_json (Example.user "UM") "G1" (Channel.Group grp) s1).
  - vm_compute. reflexivity.
  - apply user_valid.
  - unfold is_i64, i64_min, i64_max. lia.
  - reflexivity.
  - exact voice_r1_ok.
  - vm_compute. reflexivity.
  - vm_compute. reflexivity.
Defined.

Definition manager_run : Result PermissionValue * DatabasePermissionQuery ReferenceDb :=
  db_calculate_channel_permissions 1000
    (query_channel (DatabasePermissionQuery_new d0 (Example.user "UM")) (Channel.TextChannel voice_channel)).
Definition manager_value : PermissionValue :=
  match manager_run.1 with Ok p => p | _ => PV 0 end.
Definition manager_q : DatabasePermissionQuery ReferenceDb := manager_run.2.

Lemma manager_granted : manager_run.1 = Ok manager_value.
Proof. vm_compute. reflexivity. Qed.

Lemma manager_ok :
  channel_permissions 1000 (Example.user "UM") (Channel.TextChannel voice_channel) s1
  = (Ok (manager_value, manager_q), s1).
Proof.
  unfold channel_permissions. erewrite M_bind_ok by reflexivity.
  change (db_calculate_channel_permissions _ _) with manager_run.
  rewrite (surjective_pairing manager_run), manager_granted. reflexivity.
Qed.

Lemma p2p_call_blocks_deletion_witness :
  exists s', channel_delete_route ∅ 1000 (Example.user "UM") "C1" None s1 = (Panicked, s')
    /\ Ref.fetch_channel (stored_db s') "C1" = Err ErrorType.NotFound
    /\ sv_redis s' = sv_redis s1.
Proof.
  apply (p2p_call_blocks_deletion ∅ 1000 (Example.user "UM") voice_channel manager_value manager_q None s1).
  - vm_compute. reflexivity.
  - exact manager_ok.
  - vm_compute. reflexivity.
  - vm_compute. reflexivity.
  - exact voice_r1_ok.
  - vm_compute. discriminate.
  - vm_compute. reflexivity.
Defined.

(** The manager may not ban, and gives the role in the channel what it has in the
    server: banning, and the messages the channel denied. *)
Lemma channel_override_wrong_baseline_witness :
  has_channel_permission manager_value ChannelPermission.BanMembers = false
  /\ exists t' s', set_role_permissions after_1970 ∅ 1000 no_limits (Example.user "UM") "C1" "low"
                  (Override_from (r_permissions (Example.role "low" 5 (ChannelPermission.BanMembers +p ChannelPermission.SendMessage) 0))) s1
                  = (Ok (Channel.TextChannel t'), s')
    /\ t_role_permissions t' !! "low"
       = Some (r_permissions (Example.role "low" 5 (ChannelPermission.BanMembers +p ChannelPermission.SendMessage) 0)).
Proof.
  split; [vm_compute; reflexivity|].
  apply (channel_override_wrong_baseline after_1970 ∅ 1000 no_limits (Example.user "UM") voice_channel manager_value
           manager_q server "low" (Example.role "low" 5 (ChannelPermission.BanMembers +p ChannelPermission.SendMessage) 0) s1).
  - vm_compute. reflexivity.
  - exact manager_ok.
  - vm_compute. reflexivity.
  - vm_compute. reflexivity.
  - vm_compute. reflexivity.
  - eexists. vm_compute. reflexivity.
  - exists 1. split; vm_compute; reflexivity.
  - unfold override_field_wf, is_i64. vm_compute. split; split; discriminate.
  - vm_compute. reflexivity.
Defined.

Definition transfer_and_promote : DataEditChannel := {|
  dec_name := None; dec_description := None; dec_owner := Some "UM"; dec_icon := None; dec_nsfw := None;
  dec_archived := None; dec_voice := None; dec_add_moderators := Some ["U1"]; dec_remove_moderators := None;
  dec_remove := [] |}.

Lemma transfer_announced_not_made_witness :
  exists s', channel_edit ∅ 1000 no_limits (Example.user "UO") "G1" transfer_and_promote s0
             = (Err ErrorType.NotOwner, s')
    /\ w_sent (sv_world s') = w_sent (sv_world s0)
         ++ [("G1", SystemMessage.ChannelOwnershipChanged "UO" "UM")]
    /\ stored_db s' = stored_db s0.
Proof.
  apply (transfer_announced_not_made ∅ 1000 no_limits (Example.user "UO") grp "UM" ["U1"] transfer_and_promote s0).
  - vm_compute. reflexivity.
  - vm_compute. reflexivity.
  - reflexivity.
  - discriminate.
  - right. left.
  - reflexivity.
  - reflexivity.
Defined.
End ChannelRouteWitness.
