(* ===== verification/Devices.v ===== *)
(** * Devices, synchronisation and purges

    The clients of the broker: the routes on the devices of a user
    ([crates/delta/src/routes/devices]), what the event server does when a device
    connects ([crates/bonfire/src/websocket.rs]), and the route that purges a
    channel ([channels/message_purge_before.rs], [util/epoch_bump.rs]).

    The sessions of Authifier are an argument ([find_session]); MongoDB, which
    the purge queries itself, is the class [PurgeDatabase]; reading the key file
    and signing are arguments of the token.

    The theorems: an envelope reaches the device it was sent to, a device of the
    same user ([sync_roundtrip], [sync_stays_with_user]); after a purge whose
    epoch Redis acknowledged no device gets what was sent in the channel before
    ([purge_erases]), otherwise one may ([stale_epoch_delivers]), and only who may
    manage the messages purges ([purge_authorised]); what goes wrong: an error of
    the database turns the epoch of a channel back to one
    ([failed_bump_resets_epoch]). *)

From S2P Require Import Prelude Results Permissions PermissionCalc Models ApiTypes Records ModelOps DbPermissions PermissionSpec ReferenceDb World Users Redis Json Broker Voice Routes.

(** ** Devices *)

(** [authifier::models::Session], the fields the routes read *)
Record AuthSession := {
  as_id : string;
  as_user_id : string }.

Record SyncPushBody := {
  sp_dest_session_id : string;
  sp_envelope : string }.

Record SyncDrainResponse := {
  sd_envelopes : list string }.

Record DeviceListItem := {
  dl_session_id : string;
  dl_node_id : string;
  dl_connected_at : string;
  dl_last_seen_unix : Z;
  dl_is_online : bool }.

(** [impl From<broker::DeviceInfo> for DeviceListItem] *)
Definition DeviceListItem_from (d : DeviceInfo) : DeviceListItem := {|
  dl_session_id := di_session_id d;
  dl_node_id := di_node_id d;
  dl_connected_at := di_connected_at d;
  dl_last_seen_unix := di_last_seen_unix d;
  dl_is_online := di_is_online d |}.

Module DeviceRoute.
Section Routes.
Context {R : Type} `{BrokerRedis R} `{HashOrder} `{BrokerJson}.
Context (now : Z) (find_session : string -> option AuthSession).
Local Abbreviation Rm := (M ErrorType R).

(** The session, if it is one of the caller's user. *)
Definition own_session (caller : AuthSession) (id : string) : Result AuthSession :=
  match find_session id with
  | Some target => if String.eqb (as_user_id target) (as_user_id caller) then Ok target else Err ErrorType.NotFound
  | None => Err ErrorType.NotFound
  end.

Definition sync_push (caller : AuthSession) (body : SyncPushBody) : Rm unit :=
  if String.eqb (sp_dest_session_id body) (as_id caller) then
    throw (ErrorType.FailedValidation "Cannot sync from a device to itself.")
  else
    _ ← lift_outcome (own_session caller (sp_dest_session_id body));
    push_sync_envelope (as_user_id caller) (as_id caller) (sp_dest_session_id body) (sp_envelope body).

Definition sync_drain (caller : AuthSession) : Rm SyncDrainResponse :=
  envelopes ← map_err ErrorType.InternalError (drain_sync_envelopes (as_user_id caller) (as_id caller));
  mret {| sd_envelopes := envelopes |}.

Definition list_devices (session : AuthSession) : Rm (list DeviceListItem) :=
  devices ← map_err ErrorType.InternalError (list_user_devices now (as_user_id session));
  mret (map DeviceListItem_from devices).

Definition forget (caller : AuthSession) (target_session_id : string) : Rm unit :=
  _ ← lift_outcome (own_session caller target_session_id);
  map_err ErrorType.InternalError (forget_device (as_user_id caller) target_session_id).

(** What a socket is sent of the messages in the queue; it stops when it fails. *)
Fixpoint send_queued (send : EventV1 -> bool) (queued : list string) : list EventV1 :=
  match queued with
  | [] => []
  | msg_json :: queued =>
      match event_from_json msg_json with
      | Some event => if send event then event :: send_queued send queued else []
      | None => send_queued send queued
      end
  end.

(** A device that has authenticated is registered and gets its queue. *)
Definition connect_device (timestamp node_id : string) (send : EventV1 -> bool) (session : AuthSession)
    : Rm (list EventV1) :=
  ignore_err (register_user now timestamp (as_user_id session) node_id (as_id session));;
  queued ← unwrap_or [] (drain_offline_queue (as_user_id session) (as_id session));
  mret (send_queued send queued).
End Routes.
End DeviceRoute.

(** ** Purges *)

Module EpochBumpError.
Inductive EpochBumpError : Type :=
| KeyLoad (text : string)
| Sign (text : string).
End EpochBumpError.
Abbreviation EpochBumpError := EpochBumpError.EpochBumpError.

Record EpochBumpClaims := {
  eb_aud : string;
  eb_iat : Z;
  eb_exp : Z;
  eb_channel_id : string;
  eb_epoch : Z;
  eb_before_message_id : string;
  eb_purged_by : string;
  eb_deleted_count : Z }.

Definition EPOCH_BUMP_AUDIENCE : string := "company-epoch-bump".
Definition TOKEN_TTL_SECS : Z := 600.

(** [encoding_key] reads the key once; [encode] signs. *)
Definition mint_epoch_bump_token {Key} (encoding_key : EpochBumpError + Key)
    (encode : EpochBumpClaims -> Key -> string + string) (now : Z)
    (channel_id : string) (epoch : Z) (before_message_id purged_by : string) (deleted_count : Z)
    : EpochBumpError + string :=
  match encoding_key with
  | inl e => inl e
  | inr key =>
      match encode {| eb_aud := EPOCH_BUMP_AUDIENCE; eb_iat := now; eb_exp := now + TOKEN_TTL_SECS;
                      eb_channel_id := channel_id; eb_epoch := epoch;
                      eb_before_message_id := before_message_id; eb_purged_by := purged_by;
                      eb_deleted_count := deleted_count |} key with
      | inl e => inl (EpochBumpError.Sign e)
      | inr token => inr token
      end
  end.

Record PurgeResponse := {
  pr_count : Z;
  pr_new_epoch : Z;
  pr_epoch_bump_token : option string }.

(** The queries of the route: the messages of a channel up to one, deleting
    them, and the epoch after [$inc] (with [upsert]). *)
Class PurgeDatabase (D : Type) := {
  find_until : string -> string -> M ErrorType D (list string);
  delete_until : string -> string -> M ErrorType D unit;
  inc_epoch : string -> M ErrorType D (option Z) }.

Module Purge.
Section Routes.
Context {D R Key : Type} `{Database D} `{PermissionDatabase D} `{PurgeDatabase D} `{BrokerRedis R} `{HashOrder}.
Context (now : Timestamp) (now_secs : Z) (encoding_key : EpochBumpError + Key)
        (encode : EpochBumpClaims -> Key -> string + string).
Local Abbreviation Vm := (M ErrorType (Services D R)).

(** Who may purge a channel. *)
Definition purge_check (d : D) (user : User) (channel : Channel) : Result unit :=
  match channel with
  | Channel.SavedMessages c =>
      if String.eqb (sm_user c) (u_id user) then Ok tt else Err ErrorType.NotFound
  | Channel.DirectMessage c =>
      if contains (u_id user) (dm_recipients c) then Ok tt else Err ErrorType.NotFound
  | Channel.Group c =>
      if negb (String.eqb (u_id user) (g_owner c)) && negb (contains (u_id user) (g_moderators c))
      then Err (ErrorType.MissingPermission "ManageMessages") else Ok tt
  | Channel.TextChannel _ =>
      permissions ← (db_calculate_channel_permissions now
                       (query_channel (DatabasePermissionQuery_new d user) channel)).1;
      throw_if_lacking_channel_permission permissions ChannelPermission.ManageMessages
  end.

(** [Ok(Some(record)) => record.epoch.max(1) as u64, _ => 1] *)
Definition bump_epoch (channel_id : string) : Vm Z :=
  record ← unwrap_or None (on_world (call (inc_epoch channel_id)));
  mret match record with Some epoch => Z.max epoch 1 | None => 1 end.

Definition purge_before (user : User) (target before_id : string) : Vm PurgeResponse :=
  channel ← on_world (call (Database.fetch_channel target));
  s ← get;
  lift_outcome (purge_check (w_db (sv_world s)) user channel);;
  deleted_ids ← unwrap_or [] (on_world (call (find_until target before_id)));
  (if Nat.ltb 0 (length deleted_ids) then
     on_world (call (delete_until target before_id));;
     on_world (p (EventV1.BulkMessageDelete target deleted_ids) target)
   else mret tt);;
  new_epoch ← bump_epoch target;
  ignore_err (on_redis (set_channel_epoch_cached target (as_i64 new_epoch)));;
  mret {| pr_count := Z.of_nat (length deleted_ids); pr_new_epoch := new_epoch;
          pr_epoch_bump_token :=
            match mint_epoch_bump_token encoding_key encode now_secs target new_epoch before_id (u_id user)
                    (Z.of_nat (length deleted_ids)) with
            | inr t => Some t
            | inl _ => None
            end |}.
End Routes.
End Purge.

(** ** Between the devices of a user *)

Section Sync.
Context {R : Type} `{RL : BrokerRedisLaws R} `{HO : HashOrder} `{BJ : BrokerJson}.
Context (find_session : string -> option AuthSession).

(** What a push does, seen on the keys. *)
Lemma sync_push_inv caller body (r r' : R) res :
  DeviceRoute.sync_push find_session caller body r = (res, r') ->
  (r' = r /\ exists e, res = Err e)
  \/ exists target, find_session (sp_dest_session_id body) = Some target
       /\ as_user_id target = as_user_id caller /\ sp_dest_session_id body <> as_id caller
       /\ push_sync_envelope (as_user_id caller) (as_id caller) (sp_dest_session_id body) (sp_envelope body) (keys r)
          = (res, keys r').
Proof.
  unfold DeviceRoute.sync_push, DeviceRoute.own_session.
  destruct (String.eqb_spec (sp_dest_session_id body) (as_id caller)) as [_|Hne];
    [intros [= <- <-]; left; split; [done|by eexists]|].
  destruct (find_session (sp_dest_session_id body)) as [target|]; simpl;
    [|intros [= <- <-]; left; split; [done|by eexists]].
  destruct (String.eqb_spec (as_user_id target) (as_user_id caller)) as [Hu|_];
    [|intros [= <- <-]; left; split; [done|by eexists]].
  erewrite M_bind_ok by reflexivity. intros E. right. exists target. split_and!; [done..|].
  destruct (push_sync_sim (as_user_id caller) (as_id caller) (sp_dest_session_id body) (sp_envelope body) r)
    as [Hr Hk]. rewrite E in Hr, Hk. cbn [fst snd] in Hr, Hk.
  rewrite Hr, Hk. apply surjective_pairing.
Qed.

(** a push stays with the user.  What a device sends to another changes only
    its own counter and the queue of that device, which belongs to the same user
    and is another device. *)
Theorem sync_stays_with_user caller body (r r' : R) res k :
  DeviceRoute.sync_push find_session caller body r = (res, r') -> keys r' !! k <> keys r !! k ->
  (exists target, find_session (sp_dest_session_id body) = Some target /\ as_user_id target = as_user_id caller)
  /\ sp_dest_session_id body <> as_id caller
  /\ (k = sync_rate_key (as_user_id caller) (as_id caller)
      \/ k = sync_queue_key (as_user_id caller) (sp_dest_session_id body)).
Proof.
  intros [[-> _]|(target & Hf & Hu & Hne & E)]%sync_push_inv Hk; [done|].
  split; [by exists target|]. split; [done|].
  destruct (decide (k = sync_rate_key (as_user_id caller) (as_id caller))) as [|Hr]; [by left|].
  destruct (decide (k = sync_queue_key (as_user_id caller) (sp_dest_session_id body))) as [|Hq]; [by right|].
  destruct Hk.
  assert (preserves (fun m : Store => m !! k = keys r !! k) (push_sync_envelope (as_user_id caller) (as_id caller)
            (sp_dest_session_id body) (sp_envelope body))) as Hp.
  { unfold push_sync_envelope, sync_read, sync_write. preserve_all. }
  specialize (Hp (keys r) eq_refl). by rewrite E in Hp.
Qed.

(** C23: an envelope arrives.  When a push succeeds, the device it names drains
    what was queued for it before and the envelope, in this order, and its queue
    is empty then. *)
Theorem sync_roundtrip caller body (r r' : R) :
  let dest := {| as_id := sp_dest_session_id body; as_user_id := as_user_id caller |} in
  let queue := sync_queue_key (as_user_id caller) (sp_dest_session_id body) in
  DeviceRoute.sync_push find_session caller body r = (Ok tt, r') ->
  (DeviceRoute.sync_drain dest r').1 = Ok {| sd_envelopes := list_at (keys r) queue ++ [sp_envelope body] |}
  /\ list_at (keys (DeviceRoute.sync_drain dest r').2) queue = [].
Proof.
  intros dest queue [[_ [e [=]]]|(target & _ & _ & _ & E)]%sync_push_inv.
  assert (list_key (keys r') queue /\ list_at (keys r') queue = list_at (keys r) queue ++ [sp_envelope body])
    as [Hk Hl].
  { apply push_sync_inv in E as [[_ [e [=]]]|[[_ [e [=]]]|(rc & _ & _ & Hr & Hs)]].
    fold queue in Hr, Hs. set (m2 := if rc =? 1 then _ else _) in *.
    destruct (rpush_run queue (sp_envelope body) m2 (b_rpush queue (sp_envelope body) m2).2) as [Hk Hl].
    { rewrite Hr. apply surjective_pairing. }
    assert (list_at m2 queue = list_at (keys r) queue) as Hm.
    { subst m2. rewrite if_expire_list. unfold list_at. by rewrite (incr_at (sync_rate_key _ _)) by (intros [=]). }
    rewrite Hs. rewrite if_expire_list, Hl, Hm. split; [|done]. by apply if_expire_key. }
  unfold DeviceRoute.sync_drain, map_err, mbind, M_bind, mret, M_ret.
  destruct (drain_sync_sim (as_user_id dest) (as_id dest) r') as [H1 H2].
  rewrite drain_sync_run in H1, H2 by done. cbn [fst snd] in H1, H2.
  destruct (drain_sync_envelopes (as_user_id dest) (as_id dest) r') as [res r2]. cbn [fst snd] in H1, H2. subst res.
  cbn [fst snd]. rewrite H2. cbn [as_id as_user_id dest]. fold queue. rewrite Hl. split; [done|apply drained_empty].
Qed.
End Sync.

(** ** Purged channels *)

Section Purged.
Context {D R Key : Type} `{Database D} `{PermissionDatabase D} `{PurgeDatabase D} `{RL : BrokerRedisLaws R}.
Context `{HO : HashOrder} `{BJ : BrokerJson}.
Context (now : Timestamp) (now_secs : Z) (encoding_key : EpochBumpError + Key)
        (encode : EpochBumpClaims -> Key -> string + string).
Local Abbreviation Sv := (Services D R).
Local Abbreviation purge_before := (Purge.purge_before now now_secs encoding_key encode).

(** Who manages the messages of a channel. *)
Definition manages (d : D) (user : User) (channel : Channel) : Prop :=
  match channel with
  | Channel.SavedMessages c => sm_user c = u_id user
  | Channel.DirectMessage c => u_id user ∈ dm_recipients c
  | Channel.Group c => u_id user = g_owner c \/ u_id user ∈ g_moderators c
  | Channel.TextChannel _ =>
      exists permissions, (db_calculate_channel_permissions now
                             (query_channel (DatabasePermissionQuery_new d user) channel)).1 = Ok permissions
        /\ has_channel_permission permissions ChannelPermission.ManageMessages = true
  end.

Lemma purge_check_manages d user channel :
  Purge.purge_check now d user channel = Ok tt -> manages d user channel.
Proof.
  destruct channel as [c|c|c|c]; simpl.
  - destruct (String.eqb_spec (sm_user c) (u_id user)); done.
  - destruct (contains (u_id user) (dm_recipients c)) eqn:E; [|done]. intros _. by apply contains_spec.
  - destruct (String.eqb_spec (u_id user) (g_owner c)) as [|_]; [by left|].
    destruct (contains (u_id user) (g_moderators c)) eqn:E; [|done]. intros _. right. by apply contains_spec.
  - intros (permissions & E & Ht)%outcome_bind_Ok. exists permissions. split; [exact E|].
    unfold throw_if_lacking_channel_permission in Ht. by destruct (has_channel_permission _ _).
Qed.

(** who purges.  Unless the user manages the messages of the channel (the
    owner of saved messages, a recipient of a direct message channel, the owner
    or a moderator of a group, who has the permission in a channel of a server),
    a request to purge it does not succeed and does nothing but look it up. *)
Theorem purge_authorised user target before_id (s s' : Sv) res :
  purge_before user target before_id s = (res, s') ->
  let fetched := on_world (call (Database.fetch_channel target)) s in
  (exists channel, fetched.1 = Ok channel /\ manages (w_db (sv_world fetched.2)) user channel)
  \/ s' = fetched.2 /\ forall resp, res <> Ok resp.
Proof.
  unfold Purge.purge_before, mbind at 1, M_bind at 1. intros E. cbv zeta.
  destruct (on_world (call (Database.fetch_channel target)) s) as [[channel|e|] s1]; cbn [fst snd].
  2, 3: injection E as <- <-; by right.
  erewrite M_bind_ok in E by reflexivity. unfold lift_outcome in E.
  destruct (Purge.purge_check now (w_db (sv_world s1)) user channel) as [[]|e|] eqn:Ec.
  - left. exists channel. split; [done|]. by apply purge_check_manages.
  - right. by injection E as <- <-.
  - right. by injection E as <- <-.
Qed.

(** The last steps of a purge: the epoch is incremented, and mirrored. *)
Lemma purge_inv user target before_id (s s' : Sv) resp :
  purge_before user target before_id s = (Ok resp, s') ->
  epoch_at (keys (sv_redis s')) target = as_i64 (pr_new_epoch resp)
  /\ exists s1 s2 : Sv, Purge.bump_epoch target s1 = (Ok (pr_new_epoch resp), s2).
Proof.
  unfold Purge.purge_before.
  intros (channel & s1 & _ & (? & s2 & _ & (? & s3 & _ & (ids & s4 & _ & (? & s5 & _ & (epoch & s6 & Eb &
    (? & s7 & E & [= <- <-])%M_bind_Ok_inv)%M_bind_Ok_inv)%M_bind_Ok_inv)%M_bind_Ok_inv)%M_bind_Ok_inv)%M_bind_Ok_inv)%M_bind_Ok_inv.
  cbn [pr_new_epoch]. split; [|by exists s5, s6]. unfold ignore_err, on_redis in E.
  destruct (set_epoch_sim target (as_i64 epoch) (sv_redis s6)) as [Hr Hk].
  destruct (set_channel_epoch_cached target (as_i64 epoch) (sv_redis s6)) as [res r7]. cbn [fst snd] in Hr, Hk.
  subst res. simpl in E. injection E as E. subst. cbn [sv_redis sv_set_redis]. rewrite Hk.
  unfold epoch_at, int_at. simpl. by rewrite lookup_insert_eq.
Qed.
Lemma bump_positive target (s s' : Sv) n : Purge.bump_epoch target s = (Ok n, s') -> 1 <= n.
Proof. intros ([epoch|] & s1 & _ & [= <- _])%M_bind_Ok_inv; lia. Qed.

(** When the database does not answer, the epoch of the channel goes back to one. *)
Lemma failed_bump_resets_epoch user target before_id (s s' : Sv) resp :
  (forall d : D, exists e, (inc_epoch target d).1 = Err e) ->
  purge_before user target before_id s = (Ok resp, s') ->
  pr_new_epoch resp = 1 /\ epoch_at (keys (sv_redis s')) target = 1.
Proof.
  intros Hf [-> (s1 & s2 & Eb)]%purge_inv.
  assert (pr_new_epoch resp = 1) as ->; [|done].
  revert Eb. unfold Purge.bump_epoch, mbind, M_bind, unwrap_or, on_world.
  rewrite call_run. destruct (Hf (w_db (sv_world s1))) as [e ->]. by intros [= <- _].
Qed.
End Purged.

(** The same with a Redis that may be out of reach. *)
Section Erased.
Context {D R Key : Type} `{Database D} `{PermissionDatabase D} `{PurgeDatabase D} `{RF : BrokerRedisFallible R}.
Context `{HO : HashOrder} `{BJ : BrokerJson}.
Context (now : Timestamp) (now_secs : Z) (encoding_key : EpochBumpError + Key)
        (encode : EpochBumpClaims -> Key -> string + string).
Local Abbreviation Sv := (Services D R).
Local Abbreviation purge_before := (Purge.purge_before now now_secs encoding_key encode).

Lemma preserves_run {S A} (P : S -> Prop) (m : M ErrorType S A) s res s' :
  preserves P m -> m s = (res, s') -> P s -> P s'.
Proof. intros Hm E Hs. specialize (Hm s Hs). by rewrite E in Hm. Qed.

Lemma on_world_redis {A} r (m : M ErrorType (World D) A) : preserves (fun s : Sv => sv_redis s = r) (on_world m).
Proof. intros s Hs. unfold on_world. by destruct (m (sv_world s)). Qed.
Hint Resolve on_world_redis : preserves.

(** All that a purge does to Redis is the write of the epoch, answered or not. *)
Lemma purge_mirrors user target before_id (s s' : Sv) resp :
  purge_before user target before_id s = (Ok resp, s') ->
  1 <= pr_new_epoch resp
  /\ sv_redis s' = (set_channel_epoch_cached target (as_i64 (pr_new_epoch resp)) (sv_redis s)).2.
Proof.
  unfold Purge.purge_before.
  intros (channel & s1 & E1 & (? & s2 & E2 & (? & s3 & E3 & (ids & s4 & E4 & (? & s5 & E5 & (epoch & s6 & E6 &
    (? & s7 & E & [= <- <-])%M_bind_Ok_inv)%M_bind_Ok_inv)%M_bind_Ok_inv)%M_bind_Ok_inv)%M_bind_Ok_inv)%M_bind_Ok_inv)%M_bind_Ok_inv.
  cbn [pr_new_epoch]. split; [by eapply bump_positive|].
  assert (sv_redis s6 = sv_redis s) as Hr.
  { injection E2 as _ <-. injection E3 as _ <-.
    eapply (preserves_run (fun st : Sv => sv_redis st = sv_redis s)); [|exact E6|]; [unfold Purge.bump_epoch; preserve_all|].
    eapply (preserves_run (fun st : Sv => sv_redis st = sv_redis s)); [|exact E5|]; [preserve_all|].
    eapply (preserves_run (fun st : Sv => sv_redis st = sv_redis s)); [|exact E4|]; [preserve_all|].
    eapply (preserves_run (fun st : Sv => sv_redis st = sv_redis s)); [|exact E1|]; [preserve_all|done]. }
  unfold ignore_err, on_redis in E. rewrite Hr in E.
  destruct (set_channel_epoch_cached target (as_i64 epoch) (sv_redis s)) as [[[]|e|] r7];
    simpl in E |- *; by simplify_eq.
Qed.

Lemma set_epoch_may target n (r : R) :
  let write := set_channel_epoch_cached target n r in
  keys_held write.2 = keys_held r /\ (exists e, write.1 = Err e)
  \/ keys_held write.2 = <[channel_epoch_key target := {| ks_value := BrokerValue.Int n; ks_ttl := None |}]> (keys_held r).
Proof.
  unfold set_channel_epoch_cached, mbind, M_bind. pose proof (connect_may r) as Hc.
  destruct (b_connect r) as [[[]|e|] r1]; simpl in Hc; destruct Hc as [[? E1]|(e' & ? & [E1|E1])]; simplify_eq/=;
    try (left; split; [done|by eexists]).
  rewrite <- E1. pose proof (set_may (channel_epoch_key target) n r1) as Hs.
  destruct (b_set (channel_epoch_key target) n r1) as [[[]|e|] r2]; simpl in Hs;
    destruct Hs as [[? E2]|(e' & ? & [E2|E2])]; simplify_eq/=; try (by right); left; split; [done|by eexists].
Qed.

(** C21: a purge erases, as far as Redis is told of it.  After a purge of a channel has
    succeeded, all that happened to Redis is one attempt to write the new epoch of the
    channel, and the keys are as before or have that epoch.  If Redis acknowledged the
    write, no device that drains its queue then, or after any other calls of the broker
    that do not set the epoch of this channel again, gets a message of the channel that
    carries an epoch below the one the purge answered with, as long as Redis answers
    these calls.  If it did not, the purge succeeds all the same, and the old epoch may
    stay in force ([stale_epoch_delivers]). *)
Theorem purge_erases user target before_id (s s' : Sv) resp :
  purge_before user target before_id s = (Ok resp, s') ->
  let write := set_channel_epoch_cached target (as_i64 (pr_new_epoch resp)) (sv_redis s) in
  sv_redis s' = write.2
  /\ (keys_held (sv_redis s') = keys_held (sv_redis s) /\ (exists e, write.1 = Err e)
      \/ keys_held (sv_redis s')
         = <[channel_epoch_key target
             := {| ks_value := BrokerValue.Int (as_i64 (pr_new_epoch resp)); ks_ttl := None |}]>
             (keys_held (sv_redis s)))
  /\ (write.1 = Ok tt -> pr_new_epoch resp <= i64_max ->
      forall cs user' sid messages msg epoch,
      (forall e, BrokerCall.SetEpoch target e ∉ cs) ->
      list_key (performed cs (keys_held (sv_redis s'))) (queue_key user' sid) ->
      (drain_offline_queue user' sid (performed cs (keys_held (sv_redis s')))).1 = Ok messages ->
      msg ∈ messages -> extract_envelope_epoch msg = Some (target, epoch) -> pr_new_epoch resp <= epoch).
Proof.
  intros [Hpos Hr]%purge_mirrors write. fold write in Hr.
  pose proof (set_epoch_may target (as_i64 (pr_new_epoch resp)) (sv_redis s)) as Hw. cbv zeta in Hw. fold write in Hw.
  rewrite <- Hr in Hw. split_and!; [done..|].
  intros Ha Hi cs user' sid messages msg epoch Hcs Hk Hd Hm He.
  destruct Hw as [[_ [e Ee]]|Hkeys]; [congruence|].
  pose proof (performed_caches_epoch target (as_i64 (pr_new_epoch resp)) cs (keys_held (sv_redis s')) Hcs) as Hc.
  specialize (Hc ltac:(unfold caches_epoch; rewrite Hkeys; apply lookup_insert_eq)).
  rewrite drain_run in Hd by done. injection Hd as <-.
  apply list_elem_of_In, List.filter_In in Hm as [_ Hf]. unfold fresh, epoch_at, int_at in Hf.
  rewrite He, Hc, Z.leb_le in Hf. simpl in Hf. unfold as_i64 in Hf. unfold i64_max in Hi.
  rewrite Z.mod_small in Hf by lia. destruct (Z.ltb_spec (pr_new_epoch resp) (2 ^ 63)); lia.
Qed.
End Erased.

(** ** Witnesses *)

Module DeviceWitness.
Import SomePriority BrokerWitness.
#[local] Existing Instance json.

Definition phone : AuthSession := {| as_id := "phone"; as_user_id := "bob" |}.
Definition sessions (id : string) : option AuthSession :=
  if String.eqb id "phone" then Some phone
  else if String.eqb id "laptop" then Some {| as_id := "laptop"; as_user_id := "bob" |} else None.
Definition body : SyncPushBody := {| sp_dest_session_id := "laptop"; sp_envelope := "history" |}.
Definition pushed := DeviceRoute.sync_push sessions phone body (∅ : Store).

Lemma sync_stays_with_user_witness :
  list_at pushed.2 (sync_queue_key "bob" "laptop") = ["history"] /\ sp_dest_session_id body <> as_id phone.
Proof.
  split; [vm_compute; reflexivity|].
  destruct (sync_stays_with_user sessions phone body (∅ : Store) pushed.2 pushed.1 (sync_queue_key "bob" "laptop"))
    as (_ & Hne & _).
  - apply surjective_pairing.
  - vm_compute. discriminate.
  - exact Hne.
Defined.

Lemma sync_roundtrip_witness :
  (DeviceRoute.sync_drain {| as_id := "laptop"; as_user_id := "bob" |} pushed.2).1
  = Ok {| sd_envelopes := ["history"] |}.
Proof.
  destruct (sync_roundtrip sessions phone body (∅ : Store) pushed.2) as [E _].
  - vm_compute. reflexivity.
  - exact E.
Defined.

(** Bob purges his notes, whose queue has a message of the first epoch. *)
#[local] Instance purges : PurgeDatabase ReferenceDb := {|
  find_until _ _ := mret []; delete_until _ _ := mret tt; inc_epoch _ := mret (Some 2) |}.
Definition notes : Channel := Channel.SavedMessages {| sm_id := "c"; sm_user := "bob" |}.
Definition before : Services ReferenceDb Store :=
  {| sv_world := world (set_channels {[ "c" := notes ]} ReferenceDb_default);
     sv_redis := queue_of ["old"; "x"]; sv_livekit := [] |}.
Definition sign (claims : EpochBumpClaims) (key : unit) : string + string := inr "token".
Definition purged_by (user : string) := Purge.purge_before 0 0 (inr tt) sign (Example.user user) "c" "m" before.

Lemma purge_authorised_witness :
  (exists channel, (on_world (call (Database.fetch_channel "c")) before).1 = Ok channel
     /\ manages 0 (w_db (sv_world before)) (Example.user "bob") channel)
  /\ (purged_by "alice").2 = before.
Proof.
  split; [|vm_compute; reflexivity].
  destruct (purge_authorised 0 0 (inr tt) sign (Example.user "bob") "c" "m" before (purged_by "bob").2 (purged_by "bob").1)
    as [H|[H _]].
  - apply surjective_pairing.
  - exact H.
  - exfalso. apply (f_equal (fun s : Services ReferenceDb Store => epoch_at (sv_redis s) "c")) in H.
    vm_compute in H. discriminate.
Defined.

(** The same with a Redis that answers everything, or loses the write. *)
Definition before_with (outages : list bool) : Services ReferenceDb Flaky :=
  {| sv_world := sv_world before; sv_redis := {| fl_keys := sv_redis before; fl_outages := outages |};
     sv_livekit := [] |}.
Definition purged_with (outages : list bool) :=
  Purge.purge_before 0 0 (inr tt) sign (Example.user "bob") "c" "m" (before_with outages).
Definition answer : PurgeResponse := {| pr_count := 0; pr_new_epoch := 2; pr_epoch_bump_token := Some "token" |}.

Lemma purge_erases_witness :
  exists messages,
    (purged_with []).1 = Ok answer
    /\ (drain_offline_queue "bob" "phone" (fl_keys (sv_redis (purged_with []).2))).1 = Ok messages
    /\ messages = ["x"]
    /\ forall msg epoch, msg ∈ messages -> extract_envelope_epoch msg = Some ("c", epoch) -> pr_new_epoch answer <= epoch.
Proof.
  exists ["x"].
  split; [vm_compute; reflexivity|]. split; [vm_compute; reflexivity|]. split; [reflexivity|].
  intros msg epoch Hm He.
  destruct (purge_erases 0 0 (inr tt) sign (Example.user "bob") "c" "m" (before_with []) (purged_with []).2 answer)
    as (_ & _ & Hd).
  { vm_compute. reflexivity. }
  apply (Hd ltac:(vm_compute; reflexivity) ltac:(vm_compute; discriminate) [] "bob" "phone" ["x"] msg epoch).
  - intros e. apply not_elem_of_nil.
  - intros st. vm_compute. intros [= <-]. eexists. reflexivity.
  - vm_compute. reflexivity.
  - exact Hm.
  - exact He.
Defined.

(** When the write of the epoch is lost, the purge answers the same and the message
    from before is delivered. *)
Lemma stale_epoch_delivers :
  (purged_with [false; true]).1 = Ok answer
  /\ (drain_offline_queue "bob" "phone" (fl_keys (sv_redis (purged_with [false; true]).2))).1 = Ok ["old"; "x"].
Proof. split; vm_compute; reflexivity. Qed.
End DeviceWitness.
