(* ===== verification/Analytics.v ===== *)
(** * Stream analytics ([crates/core/database/src/analytics.rs])

    A session is kept for every public stream: who streams, how many watch and
    take part, the peaks, and at the end its length and the average.  The
    sessions are a MongoDB collection, the cached id of the session of a channel
    and the snapshots of the counts are in Redis.  Both servers are outside of
    the repository: [SessionCollection] and [RedisSorted] are the calls the code
    makes, [SessionLaws] and [SortedLaws] what their documentation says.  The
    clock ([now_ms]) and the division of two integers as [f64] are arguments.

    The theorems: the peaks bound the counts in every state the operations
    reach ([peaks_bound_counts]); a
    snapshot is read back as it was recorded ([snapshot_roundtrip]), but two
    snapshots with the same counts are one ([snapshots_collapse]). *)

From Stdlib Require Import Ascii.
From S2P Require Import Prelude Results World Users Redis Voice.

(** ** Data ([core/models/src/v0/analytics.rs]) *)

(** Sessions and Redis. *)
Record Streams (S R : Type) := {
  st_sessions : S;
  st_redis : R }.
Arguments st_sessions {S R}.
Arguments st_redis {S R}.

Section Analytics.
Context {F : Type}.

Record StreamSession := {
  ss_id : string;
  ss_channel_id : string;
  ss_streamer_id : string;
  ss_server_id : option string;
  ss_started_at : Z;
  ss_ended_at : option Z;
  ss_current_viewers : Z;
  ss_current_participants : Z;
  ss_peak_viewers : Z;
  ss_peak_participants : Z;
  ss_duration_seconds : Z;
  ss_average_viewers : F }.

Record ViewerSnapshot := {
  vsn_timestamp : Z;
  vsn_viewers : Z;
  vsn_participants : Z }.

Record CurrentStreamMetrics := {
  csm_is_live : bool;
  csm_session_id : option string;
  csm_current_viewers : Z;
  csm_peak_viewers : Z;
  csm_started_at : option Z;
  csm_duration_seconds : Z;
  csm_viewer_history : list ViewerSnapshot }.

Record StreamSessionSummary := {
  sum_id : string;
  sum_started_at : Z;
  sum_duration_seconds : Z;
  sum_peak_viewers : Z;
  sum_average_viewers : F }.

(** ** The servers *)

(** The collection [stream_sessions]: [insert_one], [find_one] and [update_one]
    by [_id], [find_one] of the session of a channel with no end, [find] of the
    ended sessions of a channel since some time, latest first.  An update is the
    function on the document that its [$set] describes. *)
Class SessionCollection (S : Type) := {
  sc_insert_one : StreamSession -> M ErrorType S unit;
  sc_find_one : string -> M ErrorType S (option StreamSession);
  sc_update_one : string -> (StreamSession -> StreamSession) -> M ErrorType S unit;
  sc_find_active : string -> M ErrorType S (option StreamSession);
  sc_find_ended : string -> Z -> M ErrorType S (list StreamSession) }.

(** The commands on sorted sets, and [EXPIRE]. *)
Class RedisSorted (R : Type) := {
  r_zadd : string -> string -> Z -> M ErrorType R unit;
  r_zrangebyscore_withscores : string -> Z -> Z -> M ErrorType R (list (string * Z));
  r_expire : string -> Z -> M ErrorType R unit }.

Definition STREAM_SESSIONS_COL : string := "stream_sessions".

Context {S R : Type} `{SessionCollection S} `{Redis R} `{RedisSorted R}.
Context (zero : F) (div : Z -> Z -> F).
Local Abbreviation Sm := (M ErrorType (Streams S R)).

(** A call to the collection; [map_err(|_| create_database_error!(operation, ..))] *)
Definition col {A} (operation : string) (m : M ErrorType S A) : Sm A := fun s =>
  let '(a, c) := m (st_sessions s) in
  (match a with
   | Err _ => Err (create_database_error operation STREAM_SESSIONS_COL)
   | a => a
   end, {| st_sessions := c; st_redis := st_redis s |}).
Definition red {A} (m : M ErrorType R A) : Sm A := fun s =>
  let '(a, r) := m (st_redis s) in (a, {| st_sessions := st_sessions s; st_redis := r |}).

(** [.ok()], [.unwrap_or_default()], [.unwrap_or(d)] on a call. *)
Definition or_default {T A} (d : A) (m : M ErrorType T A) : M ErrorType T A := fun t =>
  match m t with (Err _, t') => (Ok d, t') | res => res end.

(** ** Redis helpers *)

Definition session_key (channel_id : string) : string := "stream_session:" +:+ channel_id.
Definition snapshots_key (session_id : string) : string := "stream_snapshots:" +:+ session_id.

(** [get_connection().await] *)
Definition get_connection : M ErrorType R unit := to_internal_error r_connect.

Definition get_cached_session_id (channel_id : string) : M ErrorType R (option string) :=
  or_default None (get_connection;; r_get (session_key channel_id)).

Definition cache_session_id (channel_id session_id : string) : M ErrorType R unit :=
  ignore_err (get_connection;; r_set_ex (session_key channel_id) session_id 86400).

Definition clear_cached_session (channel_id : string) : M ErrorType R unit :=
  ignore_err (get_connection;; r_del [session_key channel_id]).

(** [format!("{viewers}:{participants}")] and back *)
Definition snapshot_value (viewers participants : Z) : string :=
  u32_to_string viewers +:+ String ":" (u32_to_string participants).
Definition snapshot_of (entry : string * Z) : option ViewerSnapshot :=
  let '(value, score) := entry in
  match split_on ":" value with
  | [viewers; participants] =>
      Some {| vsn_timestamp := score; vsn_viewers := default 0 (parse_u32 viewers);
              vsn_participants := default 0 (parse_u32 participants) |}
  | _ => None
  end.

Definition record_snapshot (now_ms : Z) (session_id : string) (viewers participants : Z) : M ErrorType R unit :=
  ignore_err (get_connection;;
    r_zadd (snapshots_key session_id) (snapshot_value viewers participants) (Z.quot now_ms 1000)).

Definition get_viewer_snapshots (now_ms : Z) (session_id : string) : M ErrorType R (list ViewerSnapshot) :=
  let now := Z.quot now_ms 1000 in
  results ← or_default [] (get_connection;; r_zrangebyscore_withscores (snapshots_key session_id) (now - 7200) now);
  mret (omap snapshot_of results).

(** Both commands run once there is a connection. *)
Definition cleanup_redis (channel_id session_id : string) : M ErrorType R unit :=
  ignore_err (get_connection;;
    ignore_err (r_del [session_key channel_id]);;
    ignore_err (r_expire (snapshots_key session_id) 604800)).

(** ** Sessions *)

(** [((now - started_at) / 1000).max(0) as u64] *)
Definition duration_of (now_ms started_at : Z) : Z := Z.max (Z.quot (now_ms - started_at) 1000) 0.

Definition create_stream_session (now_ms : Z) (session_id channel_id streamer_id : string)
    (server_id : option string) : Sm unit :=
  col "insert_one" (sc_insert_one {|
    ss_id := session_id; ss_channel_id := channel_id; ss_streamer_id := streamer_id;
    ss_server_id := server_id; ss_started_at := now_ms; ss_ended_at := None;
    ss_current_viewers := 0; ss_current_participants := 0; ss_peak_viewers := 0;
    ss_peak_participants := 0; ss_duration_seconds := 0; ss_average_viewers := zero |}).

(** The [$set] of the two updates. *)
Definition counts_set (viewers participants : Z) (s : StreamSession) : StreamSession := {|
  ss_id := ss_id s; ss_channel_id := ss_channel_id s; ss_streamer_id := ss_streamer_id s;
  ss_server_id := ss_server_id s; ss_started_at := ss_started_at s; ss_ended_at := ss_ended_at s;
  ss_current_viewers := viewers; ss_current_participants := participants;
  ss_peak_viewers := Z.max (ss_peak_viewers s) viewers;
  ss_peak_participants := Z.max (ss_peak_participants s) participants;
  ss_duration_seconds := ss_duration_seconds s; ss_average_viewers := ss_average_viewers s |}.
Definition ended (now_ms duration_seconds : Z) (average_viewers : F) (s : StreamSession) : StreamSession := {|
  ss_id := ss_id s; ss_channel_id := ss_channel_id s; ss_streamer_id := ss_streamer_id s;
  ss_server_id := ss_server_id s; ss_started_at := ss_started_at s; ss_ended_at := Some now_ms;
  ss_current_viewers := 0; ss_current_participants := 0;
  ss_peak_viewers := ss_peak_viewers s; ss_peak_participants := ss_peak_participants s;
  ss_duration_seconds := duration_seconds; ss_average_viewers := average_viewers |}.

Definition update_stream_counts (session_id : string) (viewers participants : Z) : Sm unit :=
  col "update_one" (sc_update_one session_id (counts_set viewers participants)).

Definition average_of (snapshots : list ViewerSnapshot) : F :=
  match snapshots with
  | [] => zero
  | _ => div (foldr Z.add 0 (map vsn_viewers snapshots)) (Z.of_nat (length snapshots))
  end.

Definition end_stream_session (now_ms : Z) (session_id : string) : Sm unit :=
  session ← col "find_one" (sc_find_one session_id);
  match session with
  | Some session =>
      snapshots ← red (get_viewer_snapshots now_ms session_id);
      col "update_one" (sc_update_one session_id
        (ended now_ms (duration_of now_ms (ss_started_at session)) (average_of snapshots)))
  | None => mret tt
  end.

Definition get_active_session (channel_id : string) : Sm (option StreamSession) :=
  col "find_one" (sc_find_active channel_id).

Definition get_current_metrics (now_ms : Z) (channel_id : string) : Sm CurrentStreamMetrics :=
  session ← get_active_session channel_id;
  match session with
  | Some session =>
      viewer_history ← red (get_viewer_snapshots now_ms (ss_id session));
      mret {| csm_is_live := true; csm_session_id := Some (ss_id session);
              csm_current_viewers := ss_current_viewers session;
              csm_peak_viewers := ss_peak_viewers session;
              csm_started_at := Some (ss_started_at session);
              csm_duration_seconds := duration_of now_ms (ss_started_at session);
              csm_viewer_history := viewer_history |}
  | None => mret {| csm_is_live := false; csm_session_id := None; csm_current_viewers := 0;
                    csm_peak_viewers := 0; csm_started_at := None; csm_duration_seconds := 0;
                    csm_viewer_history := [] |}
  end.

Definition get_stream_history (now_ms : Z) (channel_id : string) (days : Z) : Sm (list StreamSessionSummary) :=
  sessions ← col "find" (sc_find_ended channel_id (now_ms - days * 24 * 60 * 60 * 1000));
  mret (map (fun s => {| sum_id := ss_id s; sum_started_at := ss_started_at s;
                         sum_duration_seconds := ss_duration_seconds s;
                         sum_peak_viewers := ss_peak_viewers s;
                         sum_average_viewers := ss_average_viewers s |}) sessions).
End Analytics.

Arguments StreamSession F : clear implicits.
Arguments StreamSessionSummary F : clear implicits.
Arguments SessionCollection F S : clear implicits.

(** ** What the servers promise *)

Class SessionLaws (F S : Type) `{SessionCollection F S} := {
  sessions : S -> gmap string (StreamSession F);
  insert_one_run : forall d s, sessions s !! ss_id d = None ->
    exists s', sc_insert_one d s = (Ok tt, s') /\ sessions s' = <[ss_id d := d]> (sessions s);
  insert_one_taken : forall d s, is_Some (sessions s !! ss_id d) ->
    exists e, sc_insert_one d s = (Err e, s);
  find_one_run : forall id s, sc_find_one id s = (Ok (sessions s !! id), s);
  update_one_run : forall id f s,
    exists s', sc_update_one id f s = (Ok tt, s') /\ sessions s' = alter f id (sessions s);
  find_active_run : forall channel s, exists o, sc_find_active channel s = (Ok o, s)
    /\ match o with
       | Some d => sessions s !! ss_id d = Some d /\ ss_channel_id d = channel /\ ss_ended_at d = None
       | None => forall d, sessions s !! ss_id d = Some d -> ss_channel_id d = channel -> ss_ended_at d <> None
       end }.

(** A sorted set gives each of its members one score. *)
Class SortedLaws (R : Type) `{RedisLaws R} `{RedisSorted R} := {
  zsets : R -> gmap string (gmap string Z);
  zadd_run : forall k v score r, keys r !! k = None ->
    exists r', r_zadd k v score r = (Ok tt, r') /\ keys r' = keys r
      /\ zsets r' = <[k := <[v := score]> (default ∅ (zsets r !! k))]> (zsets r);
  zrange_run : forall k min max r, keys r !! k = None ->
    exists l, r_zrangebyscore_withscores k min max r = (Ok l, r)
      /\ forall v score, (v, score) ∈ l
           <-> default ∅ (zsets r !! k) !! v = Some score /\ min <= score <= max;
  expire_run : forall k ttl r,
    exists r', r_expire k ttl r = (Ok tt, r') /\ keys r' = keys r /\ zsets r' = zsets r }.

(** ** Sessions *)

Section Sessions.
Context {F S R : Type} `{SessionLaws F S} `{Redis R} `{RedisSorted R}.
Context (zero : F) (div : Z -> Z -> F).
Local Abbreviation Store := (Streams S R).

(** The operations that write sessions, in any order and with any result. *)
Inductive stream_step (s : Store) : Store -> Prop :=
| step_create now id channel streamer server :
    stream_step s (create_stream_session (R := R) zero now id channel streamer server s).2
| step_counts id viewers participants :
    stream_step s (update_stream_counts (R := R) id viewers participants s).2
| step_end now id : stream_step s (end_stream_session zero div now id s).2.

Definition session_ok (d : StreamSession F) : Prop :=
  ss_current_viewers d <= ss_peak_viewers d /\ ss_current_participants d <= ss_peak_participants d
  /\ 0 <= ss_peak_viewers d /\ 0 <= ss_peak_participants d /\ 0 <= ss_duration_seconds d.

(** The same stream, later. *)
Definition later (d d' : StreamSession F) : Prop :=
  ss_id d' = ss_id d /\ ss_channel_id d' = ss_channel_id d /\ ss_streamer_id d' = ss_streamer_id d
  /\ ss_started_at d' = ss_started_at d
  /\ ss_peak_viewers d <= ss_peak_viewers d' /\ ss_peak_participants d <= ss_peak_participants d'.

#[local] Instance later_preorder : PreOrder later.
Proof. split; [intros d; unfold later; split_and!; lia || done|]. unfold later. intros d1 d2 d3 L12 L23. intuition (congruence || lia). Qed.

Lemma counts_set_ok v p d : session_ok d -> session_ok (counts_set v p d) /\ later d (counts_set v p d).
Proof. unfold session_ok, later. simpl. intuition (done || lia). Qed.

Lemma ended_ok now started a d : session_ok d ->
  session_ok (ended now (duration_of now started) a d) /\ later d (ended now (duration_of now started) a d).
Proof. unfold session_ok, later, duration_of. simpl. intuition (done || lia). Qed.

(** An update of one session. *)
Lemma update_keeps id f (s : Store) :
  map_Forall (fun _ => session_ok) (sessions (st_sessions s)) ->
  (forall d, session_ok d -> session_ok (f d) /\ later d (f d)) ->
  let s' := (col (R := R) "update_one" (sc_update_one id f) s).2 in
  map_Forall (fun _ => session_ok) (sessions (st_sessions s'))
  /\ forall k d, sessions (st_sessions s) !! k = Some d ->
       exists d', sessions (st_sessions s') !! k = Some d' /\ later d d'.
Proof.
  intros Hok Hf. unfold col. destruct (update_one_run id f (st_sessions s)) as (c & -> & Hc). simpl. rewrite Hc.
  split.
  - intros k d. rewrite lookup_alter_Some. intros [(-> & d0 & Hd & ->)|[_ Hd]]; [|by eapply Hok].
    by apply Hf, (Hok k).
  - intros k d Hd. destruct (decide (id = k)) as [->|Hne].
    + exists (f d). rewrite lookup_alter_eq, Hd. split; [done|]. by apply Hf, (Hok k).
    + exists d. rewrite lookup_alter_ne by done. split; [done|reflexivity].
Qed.

Lemma stream_step_ok (s s' : Store) :
  map_Forall (fun _ => session_ok) (sessions (st_sessions s)) -> stream_step s s' ->
  map_Forall (fun _ => session_ok) (sessions (st_sessions s'))
  /\ forall k d, sessions (st_sessions s) !! k = Some d ->
       exists d', sessions (st_sessions s') !! k = Some d' /\ later d d'.
Proof.
  intros Hok [now id channel streamer server|id v p|now id].
  - unfold create_stream_session, col. set (d0 := Build_StreamSession _ _ _ _ _ _ _ _ _ _ _ _).
    destruct (sessions (st_sessions s) !! ss_id d0) as [d1|] eqn:E.
    + destruct (insert_one_taken d0 (st_sessions s)) as (e & ->); [by eexists|]. simpl. split; [done|]. intros k d ?. exists d. split; [done|reflexivity].
    + destruct (insert_one_run d0 (st_sessions s) E) as (c & -> & Hc). simpl. rewrite Hc. split.
      * apply map_Forall_insert_2; [|done]. unfold session_ok. simpl. lia.
      * intros k d Hd. exists d. rewrite lookup_insert_ne by congruence. split; [done|reflexivity].
  - apply update_keeps; [done|]. intros d. apply counts_set_ok.
  - unfold end_stream_session. rewrite (M_bind_ok _ _ s (sessions (st_sessions s) !! id) s)
      by (unfold col; rewrite find_one_run; by destruct s).
    destruct (sessions (st_sessions s) !! id) as [d0|]; [|split; [done|intros k d ?; exists d; split; [done|reflexivity]]].
    unfold mbind, M_bind, red.
    destruct (get_viewer_snapshots now id (st_redis s)) as [[l|e|] r];
      [|split; [done|intros k d ?; exists d; split; [done|reflexivity]]..].
    apply (update_keeps id _ {| st_sessions := st_sessions s; st_redis := r |}); [done|].
    intros d. apply ended_ok.
Qed.

(** However sessions are created, counted and ended, in any order and with
    any failure: the counts of a session never exceed its peaks, its length is
    not negative, and a session keeps its channel, its streamer and its start
    while its peaks only grow. *)
Theorem peaks_bound_counts (s s' : Store) :
  map_Forall (fun _ => session_ok) (sessions (st_sessions s)) -> rtc stream_step s s' ->
  map_Forall (fun _ => session_ok) (sessions (st_sessions s'))
  /\ forall k d, sessions (st_sessions s) !! k = Some d ->
       exists d', sessions (st_sessions s') !! k = Some d' /\ later d d'.
Proof.
  intros Hok Hs. revert Hok. induction Hs as [s|s1 s2 s3 Hstep _ IH]; intros Hok; [split; [done|intros k d ?; exists d; split; [done|reflexivity]]|].
  destruct (stream_step_ok s1 s2 Hok Hstep) as [Hok2 Hl]. destruct (IH Hok2) as [Hok3 Hl3]. split; [done|].
  intros k d Hd. destruct (Hl k d Hd) as (d2 & Hd2 & L2). destruct (Hl3 k d2 Hd2) as (d3 & Hd3 & L3).
  exists d3. split; [done|]. by etrans.
Qed.
End Sessions.

(** ** Snapshots *)

Section Snapshots.
Context {R : Type} `{SortedLaws R}.

Definition is_u32 (n : Z) : Prop := 0 <= n < 2 ^ 32.

Lemma snapshot_of_value v p score :
  is_u32 v -> is_u32 p ->
  snapshot_of (snapshot_value v p, score)
  = Some {| vsn_timestamp := score; vsn_viewers := v; vsn_participants := p |}.
Proof.
  intros Hv Hp. unfold snapshot_of, snapshot_value.
  rewrite split_on_sep by apply lacks_digits. rewrite split_on_lacks by apply lacks_digits.
  by rewrite !parse_u32_to_string.
Qed.

Lemma connection_run (r : R) : get_connection r = (Ok tt, r).
Proof. unfold get_connection, to_internal_error, map_err. by rewrite connect_run. Qed.

Lemma record_snapshot_run now id v p (r : R) :
  keys r !! snapshots_key id = None ->
  exists r', record_snapshot now id v p r = (Ok tt, r') /\ keys r' = keys r
    /\ zsets r' = <[snapshots_key id := <[snapshot_value v p := Z.quot now 1000]>
                    (default ∅ (zsets r !! snapshots_key id))]> (zsets r).
Proof.
  intros Hk. destruct (zadd_run _ (snapshot_value v p) (Z.quot now 1000) r Hk) as (r' & E & Hr & Hz).
  exists r'. split; [|done]. unfold record_snapshot, ignore_err.
  erewrite M_bind_ok by apply connection_run. by rewrite E.
Qed.

Lemma get_snapshots_run now id (r : R) :
  keys r !! snapshots_key id = None ->
  exists l, get_viewer_snapshots now id r = (Ok (omap snapshot_of l), r)
    /\ forall v score, (v, score) ∈ l
         <-> default ∅ (zsets r !! snapshots_key id) !! v = Some score
             /\ Z.quot now 1000 - 7200 <= score <= Z.quot now 1000.
Proof.
  intros Hk. destruct (zrange_run _ (Z.quot now 1000 - 7200) (Z.quot now 1000) r Hk) as (l & E & Hl).
  exists l. split; [|done]. unfold get_viewer_snapshots. cbv zeta.
  erewrite M_bind_ok; [reflexivity|]. unfold or_default. erewrite M_bind_ok by apply connection_run. by rewrite E.
Qed.

(** A snapshot that is recorded is in the history read within two hours, with
    its time and its counts. *)
Theorem snapshot_roundtrip now now' id v p (r r' : R) :
  keys r !! snapshots_key id = None -> is_u32 v -> is_u32 p ->
  record_snapshot now id v p r = (Ok tt, r') ->
  Z.quot now 1000 <= Z.quot now' 1000 <= Z.quot now 1000 + 7200 ->
  exists history, get_viewer_snapshots now' id r' = (Ok history, r')
    /\ {| vsn_timestamp := Z.quot now 1000; vsn_viewers := v; vsn_participants := p |} ∈ history.
Proof.
  intros Hk Hv Hp E Hn. destruct (record_snapshot_run now id v p r Hk) as (r1 & E1 & Hr & Hz).
  rewrite E1 in E. injection E as ->.
  destruct (get_snapshots_run now' id r') as (l & El & Hl); [by rewrite Hr|].
  eexists. split; [exact El|]. apply list_elem_of_omap.
  exists (snapshot_value v p, Z.quot now 1000). split; [|by apply snapshot_of_value].
  apply Hl. rewrite Hz, lookup_insert_eq. simpl. rewrite lookup_insert_eq. split; [done|lia].
Qed.

(** The same counts recorded twice leave the later snapshot alone. *)
Lemma snapshots_collapse now1 now2 id v p (r r1 r2 : R) :
  keys r !! snapshots_key id = None -> zsets r !! snapshots_key id = None ->
  record_snapshot now1 id v p r = (Ok tt, r1) -> record_snapshot now2 id v p r1 = (Ok tt, r2) ->
  zsets r2 !! snapshots_key id = Some {[ snapshot_value v p := Z.quot now2 1000 ]}.
Proof.
  intros Hk Hz E1 E2. destruct (record_snapshot_run now1 id v p r Hk) as (r1' & E1' & Hr1 & Hz1).
  rewrite E1' in E1. injection E1 as ->.
  destruct (record_snapshot_run now2 id v p r1) as (r2' & E2' & Hr2 & Hz2); [by rewrite Hr1|].
  rewrite E2' in E2. injection E2 as ->. rewrite Hz2, lookup_insert_eq, Hz1, lookup_insert_eq, Hz. simpl.
  by rewrite insert_insert_eq.
Qed.
End Snapshots.

(** ** The servers in memory *)

Module AnalyticsWitness.
Export RedisWitness.
Abbreviation Sessions := (gmap string (StreamSession Z)).
Abbreviation Store := (RedisWitness.Store * gmap string (gmap string Z))%type.

(** A command on strings and sets. *)
Definition plain {A} (m : M ErrorType RedisWitness.Store A) : M ErrorType Store A := fun r =>
  let '(a, k) := m r.1 in (a, (k, r.2)).

#[export] Instance sorted_redis : Redis Store := {|
  r_connect := mret tt;
  r_get k := plain (r_get k);
  r_mget ks := plain (r_mget ks);
  r_get_del k := plain (r_get_del k);
  r_set k v := plain (r_set k v);
  r_set_ex k v t := plain (r_set_ex k v t);
  r_del ks := plain (r_del ks);
  r_exists k := plain (r_exists k);
  r_sadd k v := plain (r_sadd k v);
  r_srem k v := plain (r_srem k v);
  r_smembers k := plain (r_smembers k);
  r_sismember k v := plain (r_sismember k v);
  r_scard k := plain (r_scard k);
  r_smove a b v := plain (r_smove a b v) |}.

Lemma plain_write {A} (m : M ErrorType RedisWitness.Store A) (a : A) (r : Store) (P : RedisWitness.Store -> Prop) :
  (exists k, m r.1 = (Ok a, k) /\ P k) -> exists r', plain m r = (Ok a, r') /\ P r'.1.
Proof. intros (k & E & Hk). exists (k, r.2). unfold plain. by rewrite E. Qed.

Lemma plain_read {A} (m : M ErrorType RedisWitness.Store A) (o : outcome ErrorType A) (r : Store) :
  m r.1 = (o, r.1) -> plain m r = (o, r).
Proof. intros E. unfold plain. rewrite E. by destruct r. Qed.

#[export] Program Instance sorted_redis_laws : RedisLaws Store := {| keys r := keys r.1 |}.
Next Obligation. done. Qed.
Next Obligation. intros k r Hk. by apply plain_read, get_run. Qed.
Next Obligation. intros ks r. by apply plain_read, mget_run. Qed.
Next Obligation. intros k v r. apply (plain_write _ _ r (fun m => keys m = <[k := RStr v]> (keys r.1))), set_run. Qed.
Next Obligation. intros ks r. apply (plain_write _ _ r (fun m => keys m = foldr delete (keys r.1) ks)), del_run. Qed.
Next Obligation. intros k r. by apply plain_read, exists_run. Qed.
Next Obligation. intros k v r Hk. apply (plain_write _ _ r (fun m => keys m = add_to k v (keys r.1))). by apply sadd_run. Qed.
Next Obligation. intros k v r Hk. apply (plain_write _ _ r (fun m => keys m = remove_from k v (keys r.1))). by apply srem_run. Qed.
Next Obligation. intros k r Hk. destruct (smembers_run k r.1 Hk) as (l & E & Hl). exists l. split; [by apply plain_read|done]. Qed.
Next Obligation. intros k v r Hk. by apply plain_read, sismember_run. Qed.
Next Obligation. intros k r Hk. by apply plain_read, scard_run. Qed.

#[export] Instance sorted_commands : RedisSorted Store := {|
  r_zadd k v score := fun r =>
    match r.1 !! k with
    | Some _ => (Err ErrorType.InternalError, r)
    | None => (Ok tt, (r.1, <[k := <[v := score]> (default ∅ (r.2 !! k))]> r.2))
    end;
  r_zrangebyscore_withscores k min max := fun r =>
    match r.1 !! k with
    | Some _ => (Err ErrorType.InternalError, r)
    | None => (Ok (filter (fun '(_, score) => min <= score <= max) (map_to_list (default ∅ (r.2 !! k)))), r)
    end;
  r_expire _ _ := mret tt |}.

#[export] Program Instance sorted_laws : SortedLaws Store := {| zsets := snd |}.
Next Obligation. intros k v score r Hk. simpl. rewrite (Hk : r.1 !! k = None). by eexists. Qed.
Next Obligation.
  intros k min max r Hk. simpl. rewrite (Hk : r.1 !! k = None). eexists. split; [done|].
  intros v score. rewrite list_elem_of_filter, elem_of_map_to_list. tauto.
Qed.
Next Obligation. intros k ttl r. by exists r. Qed.

#[export] Instance StreamSession_eq_dec : EqDecision (StreamSession Z).
Proof. solve_decision. Defined.

#[export] Instance sessions_collection : SessionCollection Z Sessions := {|
  sc_insert_one d := fun s =>
    match s !! ss_id d with
    | Some _ => (Err ErrorType.InternalError, s)
    | None => (Ok tt, <[ss_id d := d]> s)
    end;
  sc_find_one id := reads (fun s => s !! id);
  sc_update_one id f := modify (alter f id);
  sc_find_active channel := reads (fun s =>
    List.find (fun d => bool_decide (ss_channel_id d = channel /\ ss_ended_at d = None /\ s !! ss_id d = Some d))
      (map snd (map_to_list s)));
  sc_find_ended channel cutoff := reads (fun s =>
    filter (fun d => ss_channel_id d = channel /\ is_Some (ss_ended_at d) /\ cutoff <= ss_started_at d)
      (sort_by (cmp_desc ss_started_at) (map snd (map_to_list s)))) |}.

#[export] Program Instance sessions_laws : SessionLaws Z Sessions := {| sessions := id |}.
Next Obligation. intros d s Hd. simpl. rewrite (Hd : s !! ss_id d = None). by eexists. Qed.
Next Obligation. intros d s [d' Hd]. simpl. rewrite (Hd : s !! ss_id d = Some d'). by eexists. Qed.
Next Obligation. done. Qed.
Next Obligation. intros id f s. by eexists. Qed.
Next Obligation.
  intros channel s. eexists. split; [reflexivity|]. destruct (List.find _ _) as [d|] eqn:E.
  - apply List.find_some in E as [_ (Hc & He & Hs)%bool_decide_eq_true]. by split_and!.
  - intros d Hd Hc He. pose proof (List.find_none _ _ E d) as Hno. cbv beta in Hno.
    rewrite bool_decide_eq_true_2 in Hno by done. discriminate Hno.
    apply list_elem_of_In, list_elem_of_fmap. exists (ss_id d, d). split; [done|]. by apply elem_of_map_to_list.
Qed.

(** A stream with one viewer, then none, then ended. *)
Definition s0 : Streams Sessions Store := {| st_sessions := ∅; st_redis := (∅, ∅) |}.
Definition s1 : Streams Sessions Store := (create_stream_session (R := Store) 0 1000 "s" "C" "U" None s0).2.
Definition s2 : Streams Sessions Store := (update_stream_counts (R := Store) "s" 4 1 s1).2.
Definition s3 : Streams Sessions Store := (end_stream_session 0 Z.div 61000 "s" s2).2.

Lemma s3_reachable : rtc (stream_step 0 Z.div) s0 s3.
Proof.
  apply rtc_l with s1; [apply step_create|]. apply rtc_l with s2; [apply step_counts|].
  apply rtc_once, step_end.
Qed.

Lemma peaks_bound_counts_witness :
  map_Forall (fun _ => session_ok) (sessions (st_sessions s3))
  /\ ss_peak_viewers <$> st_sessions s3 !! "s" = Some 4 /\ ss_duration_seconds <$> st_sessions s3 !! "s" = Some 60.
Proof.
  split; [|vm_compute; by split].
  apply (peaks_bound_counts 0 Z.div s0 s3 (map_Forall_empty _) s3_reachable).
Defined.

Definition recorded : Store := (record_snapshot 5000 "s" 4 1 ((∅, ∅) : Store)).2.

Lemma snapshot_roundtrip_witness :
  exists history, get_viewer_snapshots 9000 "s" recorded = (Ok history, recorded)
    /\ {| vsn_timestamp := 5; vsn_viewers := 4; vsn_participants := 1 |} ∈ history.
Proof.
  apply (snapshot_roundtrip 5000 9000 "s" 4 1 ((∅, ∅) : Store) recorded).
  - reflexivity.
  - unfold is_u32. lia.
  - unfold is_u32. lia.
  - reflexivity.
  - vm_compute. split; discriminate.
Defined.
End AnalyticsWitness.
