(* ===== verification/VoiceIngress.v ===== *)
(** * Voice ingress ([crates/daemons/voice-ingress/src/api.rs])

    The voice servers tell this daemon by webhook who joined and left a room and
    which tracks are published; the daemon keeps the voice state in Redis, tells
    the clients, removes who publishes what is forbidden, and counts the viewers
    of public streams ([Analytics]).  The LiveKit library checks and decodes the
    request ([receive]); the configured nodes, the limits of a user, a fresh
    session id, the clock and the comparison of aspect ratios ([f32]) are
    arguments.

    The theorems: no webhook breaks the agreement of the members of channels, the
    channels of users and the active channels ([webhooks_keep_voice_views]); a user who is moved is announced once
    ([move_announced_once]); data, and a camera above the limits of its user, end
    the call ([forbidden_track_removed]), unless the product of the sides passes
    32 bits ([huge_camera_accepted]); a viewer who publishes is removed, and then
    announced as a participant who left ([removed_viewer_announced]). *)

From S2P Require Import Prelude Results Permissions PermissionCalc Models ModelOps DbPermissions PermissionSpec ReferenceDb World Users Redis Voice Routes Moderation Analytics.

(** ** What a webhook carries ([livekit_protocol]) *)

Record TrackInfo := {
  tr_type : Z;
  tr_source : Z;
  tr_width : Z;
  tr_height : Z }.

(** [room.name], [participant.identity] *)
Record WebhookEvent := {
  we_event : string;
  we_room : option string;
  we_participant : option string;
  we_track : option TrackInfo;
  we_created_at : Z }.

(** [TrackType::Video], [TrackType::Data] *)
Definition TrackType_Video : Z := 1.
Definition TrackType_Data : Z := 2.

(** The state of the daemon: the services and the collection of sessions. *)
Record Daemon (D R S : Type) := {
  da_services : Services D R;
  da_sessions : S }.
Arguments da_services {D R S}.
Arguments da_sessions {D R S}.

Section Ingress.
Context {D R F S : Type} `{Database D} `{Redis R} `{RedisSorted R} `{SessionCollection F S} `{LiveKit}.
Context (zero : F) (div : Z -> Z -> F).
Context (timestamp_ok : Z -> bool) (nodes : gset string) (user_limits : User -> Result FeaturesLimits).
(** [!(lo..=hi).contains(&(width as f32 / height as f32))] and [lo != hi] *)
Context (ratio_outside : string * string -> Z -> Z -> bool) (ratio_limited : string * string -> bool).
Context (session_ulid : string) (now_ms : Z).
Local Abbreviation Dm := (M ErrorType (Daemon D R S)).
Local Abbreviation Rm := (M ErrorType R).

Definition on_services {A} (m : M ErrorType (Services D R) A) : Dm A := fun s =>
  let '(a, v) := m (da_services s) in (a, {| da_services := v; da_sessions := da_sessions s |}).
Definition on_streams {A} (m : M ErrorType (Streams S R) A) : Dm A := fun s =>
  let '(a, st) := m {| st_sessions := da_sessions s; st_redis := sv_redis (da_services s) |} in
  (a, {| da_services := sv_set_redis (st_redis st) (da_services s); da_sessions := st_sessions st |}).
Definition in_redis {A} (m : Rm A) : Dm A := on_services (on_redis m).
Definition publish (event : EventV1) (channel : string) : Dm unit := on_services (on_world (p event channel)).

(** [.to_internal_error()] on an option *)
Definition present {A} (o : option A) : Dm A := lift_outcome (ok_or ErrorType.InternalError o).

(** [Reference::from_unchecked(id).as_channel(db)], [as_user] *)
Definition as_channel (id : string) : Dm Channel := on_services (Voice.db (Database.fetch_channel id)).
Definition as_user (id : string) : Dm User := on_services (Voice.db (Database.fetch_user id)).

(** *** Analytics *)

(** [if let Ok(ch) = &channel], with no public stream in it *)
Definition not_public (channel_id : string) : Dm bool := fun s =>
  match as_channel channel_id s with
  | (Ok ch, s') => (Ok (negb match channel_voice ch with Some v => vi_is_stream_public v | None => false end), s')
  | (Err _, s') => (Ok false, s')
  | (Panicked, s') => (Panicked, s')
  end.

(** The counts in Redis; what cannot be read counts as zero. *)
Definition counts (channel_id : string) : Dm (Z * Z) :=
  viewers ← in_redis (or_default 0 (get_viewer_count channel_id));
  members ← in_redis (or_default None (get_voice_channel_members channel_id));
  mret (viewers, match members with Some l => Z.of_nat (length l) | None => 0 end).

(** [if let Ok(Some(session)) = get_active_session(..)]: tell the channel. *)
Definition publish_metrics (channel_id : string) (viewers : Z) (peak : StreamSession F -> Z) : Dm unit :=
  active ← or_default None (on_streams (get_active_session channel_id));
  match active with
  | Some session =>
      publish (EventV1.StreamMetricsUpdate channel_id viewers (peak session)
                 (duration_of now_ms (ss_started_at session))) channel_id
  | None => mret tt
  end.

Definition track_analytics_join (channel_id user_id : string) (server_id : option string) : Dm unit :=
  skip ← not_public channel_id;
  if (skip : bool) then mret tt else
  cached ← in_redis (get_cached_session_id channel_id);
  session_id ← match cached with
               | Some id => mret id
               | None =>
                   on_streams (create_stream_session zero now_ms session_ulid channel_id user_id server_id);;
                   in_redis (cache_session_id channel_id session_ulid);;
                   mret session_ulid
               end;
  '(viewers, participants) ← counts channel_id;
  on_streams (update_stream_counts session_id viewers participants);;
  in_redis (record_snapshot now_ms session_id viewers participants);;
  publish_metrics channel_id viewers (fun session => Z.max (ss_peak_viewers session) viewers).

Definition track_analytics_leave (channel_id : string) : Dm unit :=
  skip ← not_public channel_id;
  if (skip : bool) then mret tt else
  cached ← in_redis (get_cached_session_id channel_id);
  match cached with
  | None => mret tt
  | Some session_id =>
      '(viewers, participants) ← counts channel_id;
      if (viewers =? 0) && (participants =? 0) then
        on_streams (end_stream_session zero div now_ms session_id);;
        in_redis (cleanup_redis channel_id session_id)
      else
        on_streams (update_stream_counts session_id viewers participants);;
        in_redis (record_snapshot now_ms session_id viewers participants);;
        publish_metrics channel_id viewers ss_peak_viewers
  end.

(** *** The events *)

Definition is_viewer (channel_id user_id : string) : Dm bool :=
  connection_type ← in_redis (get_voice_connection_type channel_id user_id);
  mret (bool_decide (connection_type = Some "viewer")).

Definition viewer_count_update (channel_id : string) : Dm unit :=
  count ← in_redis (get_viewer_count channel_id);
  publish (EventV1.ViewerCountUpdate channel_id count) channel_id.

(** [delete_viewer_state], [delete_voice_connection_type] and the new count *)
Definition viewer_gone (channel_id user_id : string) : Dm unit :=
  in_redis (delete_viewer_state channel_id user_id);;
  in_redis (delete_voice_connection_type channel_id user_id);;
  viewer_count_update channel_id.

Definition participant_joined (event : WebhookEvent) : Dm unit :=
  channel_id ← present (we_room event);
  user_id ← present (we_participant event);
  channel ← as_channel channel_id;
  viewer ← is_viewer channel_id user_id;
  (if (viewer : bool) then
     in_redis (create_viewer_state channel_id user_id);;
     viewer_count_update channel_id
   else
     let joined_at := we_created_at event * 1000 in
     if negb (timestamp_ok joined_at) then panic else
     voice_state ← in_redis (create_voice_state channel_id (channel_server channel) user_id joined_at);
     moved ← in_redis (get_user_moved_to_voice channel_id user_id);
     match moved with
     | Some moved_from => publish (EventV1.VoiceChannelMove user_id moved_from channel_id voice_state) channel_id
     | None => publish (EventV1.VoiceChannelJoin channel_id voice_state) channel_id
     end);;
  ignore_err (track_analytics_join channel_id user_id (channel_server channel)).

Definition participant_left (event : WebhookEvent) : Dm unit :=
  channel_id ← present (we_room event);
  user_id ← present (we_participant event);
  channel ← as_channel channel_id;
  viewer ← is_viewer channel_id user_id;
  (if (viewer : bool) then viewer_gone channel_id user_id
   else
     in_redis (delete_voice_state channel_id (channel_server channel) user_id);;
     in_redis (delete_voice_connection_type channel_id user_id);;
     moved ← in_redis (get_user_moved_from_voice channel_id user_id);
     match moved with
     | Some _ => mret tt
     | None => publish (EventV1.VoiceChannelLeave channel_id user_id) channel_id
     end);;
  ignore_err (track_analytics_leave channel_id).

(** A published track that ends the call; the products are [u32], which wrap in
    a release build. *)
Definition forbidden (limits : FeaturesLimits) (track : TrackInfo) : bool :=
  let '(w, h) := fl_video_resolution limits in
  (tr_type track =? TrackType_Data)
  || ((tr_type track =? TrackType_Video) && (tr_source track =? 1)
      && ((negb (w =? 0) && negb (h =? 0) && (w * h mod 2 ^ 32 <? tr_width track * tr_height track mod 2 ^ 32))
          || (ratio_limited (fl_video_aspect_ratio limits)
              && ratio_outside (fl_video_aspect_ratio limits) (tr_width track) (tr_height track)))).

Definition track_changed (node : string) (event : WebhookEvent) : Dm unit :=
  channel_id ← present (we_room event);
  user_id ← present (we_participant event);
  track ← present (we_track event);
  viewer ← is_viewer channel_id user_id;
  let published := bool_decide (we_event event = "track_published") in
  if viewer && published then
    on_services (ignore_err (remove_user nodes node user_id channel_id));;
    viewer_gone channel_id user_id
  else
    channel ← as_channel channel_id;
    user ← as_user user_id;
    limits ← lift_outcome (user_limits user);
    if published && forbidden limits track then
      on_services (ignore_err (remove_user nodes node user_id channel_id));;
      in_redis (delete_voice_state channel_id (channel_server channel) user_id)
    else
      partial ← in_redis (update_voice_state_tracks channel_id (channel_server channel) user_id
                  (published || bool_decide (we_event event = "track_unmuted")) (tr_source track));
      publish (EventV1.UserVoiceStateUpdate user_id channel_id partial) channel_id.

Definition handle_event (node : string) (event : WebhookEvent) : Dm unit :=
  if bool_decide (we_event event = "participant_joined") then participant_joined event
  else if bool_decide (we_event event = "participant_left") then participant_left event
  else if bool_decide (we_event event ∈ ["track_published"; "track_unpublished"; "track_unmuted"; "track_muted"])
  then track_changed node event
  else mret tt.

(** [configured]: the keys of [api.livekit.nodes]; [receive] checks the
    signature of the request with the key of the node. *)
Definition AuthHeader_from_request (authorization : option string) : Result string :=
  ok_or ErrorType.NotAuthenticated authorization.

Definition ingress (configured : gset string) (receive : string -> string -> string -> Result WebhookEvent)
    (node : string) (authorization : option string) (body : string) : Dm unit :=
  auth_header ← lift_outcome (AuthHeader_from_request authorization);
  if bool_decide (node ∈ configured) then
    event ← to_internal_error (lift_outcome (receive node body auth_header));
    handle_event node event
  else throw ErrorType.InternalError.
End Ingress.

(** ** Which keys a command touches *)

Create HintDb touches.

Section Frames.
Context {R : Type} `{RedisLaws R}.

(** Outside of [P] the keys stay, whatever the result. *)
Definition touches {A} (P : string -> Prop) (m : M ErrorType R A) : Prop :=
  forall r k, ~ P k -> keys (m r).2 !! k = keys r !! k.

Lemma touches_ret {A} P (a : A) : touches P (mret a).
Proof. done. Qed.
Lemma touches_throw {A} P e : touches P (throw e : M ErrorType R A).
Proof. done. Qed.
Lemma touches_panic {A} P : touches P (panic : M ErrorType R A).
Proof. done. Qed.
Lemma touches_lift {A} P (o : Result A) : touches P (lift_outcome o).
Proof. done. Qed.

Lemma touches_bind {A B} P (m : M ErrorType R A) (f : A -> M ErrorType R B) :
  touches P m -> (forall a, touches P (f a)) -> touches P (m ≫= f).
Proof.
  intros Hm Hf r k Hk. unfold mbind, M_bind. pose proof (Hm r k Hk) as E.
  destruct (m r) as [[a|e|] r1]; simpl in *; [|done|done]. by rewrite Hf.
Qed.

Lemma touches_map_err {A} P e (m : M ErrorType R A) : touches P m -> touches P (map_err e m).
Proof. intros Hm r k Hk. unfold map_err. pose proof (Hm r k Hk) as E. by destruct (m r) as [[]]. Qed.
Lemma touches_ignore {A} P (m : M ErrorType R A) : touches P m -> touches P (ignore_err m).
Proof. intros Hm r k Hk. unfold ignore_err. pose proof (Hm r k Hk) as E. by destruct (m r) as [[]]. Qed.
Lemma touches_default {A} P (d : A) (m : M ErrorType R A) : touches P m -> touches P (or_default d m).
Proof. intros Hm r k Hk. unfold or_default. pose proof (Hm r k Hk) as E. by destruct (m r) as [[]]. Qed.

Lemma touches_connect P : touches P r_connect.
Proof. intros r k _. by rewrite connect_run. Qed.
Lemma touches_set (P : string -> Prop) k v : P k -> touches P (r_set k v).
Proof.
  intros Hk r k' Hk'. destruct (set_run k v r) as (r' & -> & Hr). simpl. rewrite Hr.
  apply lookup_insert_ne. by intros ->.
Qed.
Lemma touches_del (P : string -> Prop) k : P k -> touches P (r_del [k]).
Proof.
  intros Hk r k' Hk'. destruct (del_run [k] r) as (r' & -> & Hr). simpl. rewrite Hr. simpl.
  apply lookup_delete_ne. by intros ->.
Qed.
Lemma touches_mget P ks : touches P (r_mget ks).
Proof. intros r k _. by rewrite mget_run. Qed.

Lemma touches_pipeline P cs : Forall (touches P) cs -> touches P (pipeline cs).
Proof.
  induction 1 as [|c cs Hc _ IH]; [apply touches_ret|]. intros r k Hk. simpl.
  pose proof (Hc r k Hk) as E. destruct (c r) as [[[]|e|] r1]; simpl in *; [by rewrite IH| |done].
  pose proof (IH r1 k Hk) as E1. by destruct (pipeline cs r1) as [[]]; simpl in *; rewrite E1.
Qed.
End Frames.

(** The commands touch the key they name; those that read touch none. *)
Class RedisFrame (R : Type) `{RedisLaws R} `{RedisSorted R} := {
  touches_get : forall P k, touches P (r_get k);
  touches_get_del : forall (P : string -> Prop) k, P k -> touches P (r_get_del k);
  get_del_run : forall k r, (forall s, keys r !! k <> Some (RSet s)) ->
    exists r', r_get_del k r = (Ok (str_at (keys r) k), r') /\ keys r' = delete k (keys r);
  touches_set_ex : forall (P : string -> Prop) k v t, P k -> touches P (r_set_ex k v t);
  touches_sadd : forall (P : string -> Prop) k v, P k -> touches P (r_sadd k v);
  touches_srem : forall (P : string -> Prop) k v, P k -> touches P (r_srem k v);
  touches_scard : forall P k, touches P (r_scard k);
  touches_smembers : forall P k, touches P (r_smembers k);
  touches_zadd : forall (P : string -> Prop) k v score, P k -> touches P (r_zadd k v score);
  touches_zrange : forall P k min max, touches P (r_zrangebyscore_withscores k min max);
  touches_expire : forall (P : string -> Prop) k ttl, P k -> touches P (r_expire k ttl) }.

#[export] Hint Resolve touches_ret touches_throw touches_panic touches_lift touches_bind touches_map_err
  touches_ignore touches_default touches_connect touches_set touches_del touches_mget touches_get touches_get_del
  touches_set_ex touches_sadd touches_srem touches_scard touches_smembers touches_zadd touches_zrange
  touches_expire : touches.

(** Opens the operation and resolves its commands. *)
Ltac touch := unfold redis, to_internal_error, get_connection;
  repeat first
    [ match goal with |- forall _, _ => intro end
    | apply touches_bind
    | apply touches_map_err
    | apply touches_ignore
    | apply touches_default
    | match goal with |- touches _ (match ?x with _ => _ end) => destruct x end
    | solve [eauto with touches] ].

(** ** The views of who is in voice *)

Create HintDb views.

(** Keys outside of the voice sets. *)
Definition aside (k : string) : Prop := ~ voice_key k.

Local Ltac other_prefix := by intros [?|[[x ?]|[x ?]]].
Lemma aside_connection_type u c : aside (connection_type_key u c).
Proof. other_prefix. Qed.
Lemma aside_viewers c : aside (vc_viewers c).
Proof. other_prefix. Qed.
Lemma aside_moved_to u c : aside (moved_to_key u c).
Proof. other_prefix. Qed.
Lemma aside_moved_from u c : aside (moved_from_key u c).
Proof. other_prefix. Qed.
Lemma aside_session c : aside (session_key c).
Proof. other_prefix. Qed.
Lemma aside_snapshots c : aside (snapshots_key c).
Proof. other_prefix. Qed.
#[export] Hint Resolve aside_connection_type aside_viewers aside_moved_to aside_moved_from aside_session
  aside_snapshots : touches.

Section Views.
Context {D R F S : Type} `{Database D} `{RedisFrame R} `{SessionCollection F S} `{LiveKit}.
Context (zero : F) (div : Z -> Z -> F).
Context (timestamp_ok : Z -> bool) (nodes : gset string) (user_limits : User -> Result FeaturesLimits).
Context (ratio_outside : string * string -> Z -> Z -> bool) (ratio_limited : string * string -> bool).
Context (session_ulid : string) (now_ms : Z).
Local Abbreviation Dn := (Daemon D R S).
Local Abbreviation Dm := (M ErrorType Dn).
Local Abbreviation redis_keys s := (keys (sv_redis (da_services s))).

Definition keeps_views {A} (m : Dm A) : Prop :=
  forall s, voice_ok (redis_keys s) -> voice_ok (redis_keys (m s).2).

Lemma views_ret {A} (a : A) : keeps_views (mret a).
Proof. by intros s Hs. Qed.
Lemma views_lift {A} (o : Result A) : keeps_views (lift_outcome o).
Proof. by intros s Hs. Qed.
Lemma views_throw {A} e : keeps_views (throw e : Dm A).
Proof. by intros s Hs. Qed.
Lemma views_panic {A} : keeps_views (panic : Dm A).
Proof. by intros s Hs. Qed.
Lemma views_bind {A B} (m : Dm A) (f : A -> Dm B) :
  keeps_views m -> (forall a, keeps_views (f a)) -> keeps_views (m ≫= f).
Proof.
  intros Hm Hf s Hs. unfold mbind, M_bind. pose proof (Hm s Hs) as Hk.
  destruct (m s) as [[a|e|] s1]; simpl in *; [by apply Hf|done|done].
Qed.
Lemma views_ignore {A} (m : Dm A) : keeps_views m -> keeps_views (ignore_err m).
Proof. intros Hm s Hs. unfold ignore_err. pose proof (Hm s Hs) as Hk. by destruct (m s) as [[]]. Qed.
Lemma views_default {A} (d : A) (m : Dm A) : keeps_views m -> keeps_views (or_default d m).
Proof. intros Hm s Hs. unfold or_default. pose proof (Hm s Hs) as Hk. by destruct (m s) as [[]]. Qed.
Lemma views_map_err {A} e (m : Dm A) : keeps_views m -> keeps_views (map_err e m).
Proof. intros Hm s Hs. unfold map_err. pose proof (Hm s Hs) as Hk. by destruct (m s) as [[]]. Qed.
Lemma views_present {A} (o : option A) : keeps_views (present o).
Proof. apply views_lift. Qed.

(** Events, the database and the voice servers leave Redis alone. *)
Lemma views_world {A} (m : M ErrorType (World D) A) : keeps_views (on_services (on_world m)).
Proof. intros s Hs. unfold on_services. rewrite on_world_run. done. Qed.
Lemma views_remove_user node user channel :
  keeps_views (on_services (ignore_err (remove_user nodes node user channel))).
Proof.
  intros s Hs. unfold on_services, ignore_err, remove_user, livekit, get_node, mbind, M_bind.
  destruct (bool_decide _); simpl; [|done]. by destruct (livekit_result _).
Qed.

(** What touches no key of the voice sets. *)
Lemma same_views {A} (m : M ErrorType R A) r :
  touches aside m -> voice_ok (keys r) -> voice_ok (keys (m r).2).
Proof.
  intros Hm Hr. assert (same_voice (keys (m r).2) (keys r)) as ->; [|done].
  intros k Hk. apply Hm. by intros Ha.
Qed.
Lemma views_aside {A} (m : M ErrorType R A) : touches aside m -> keeps_views (in_redis m).
Proof.
  intros Hm s Hs. unfold in_redis, on_services. rewrite on_redis_run. simpl. by apply same_views.
Qed.

Lemma views_col {A} op (m : M ErrorType S A) : keeps_views (on_streams (col op m)).
Proof. intros s Hs. unfold on_streams, col. simpl. by destruct (m (da_sessions s)). Qed.

Lemma views_end_session id : keeps_views (on_streams (end_stream_session zero div now_ms id)).
Proof.
  intros s Hs. unfold on_streams, end_stream_session, mbind, M_bind, col, red. simpl.
  destruct (sc_find_one id (da_sessions s)) as [[[d|]|e|] c]; simpl; try done.
  assert (touches aside (get_viewer_snapshots (R := R) now_ms id)) as Ht
    by (unfold get_viewer_snapshots; touch).
  pose proof (same_views _ _ Ht Hs) as Hr.
  destruct (get_viewer_snapshots now_ms id (sv_redis (da_services s))) as [[l|e|] r]; simpl in *; try done.
  by destruct (sc_update_one id _ c).
Qed.

Lemma views_create c srv u t :
  valid_id u -> keeps_views (in_redis (create_voice_state c srv u t)).
Proof.
  intros Hu s Hs. unfold in_redis, on_services. rewrite on_redis_run. simpl.
  apply (voice_step_ok (sv_redis (da_services s))); [done|by constructor].
Qed.
Lemma views_delete c srv u :
  valid_id u -> keeps_views (in_redis (delete_voice_state c srv u)).
Proof.
  intros Hu s Hs. unfold in_redis, on_services. rewrite on_redis_run. simpl.
  apply (voice_step_ok (sv_redis (da_services s))); [done|by constructor].
Qed.

Lemma aside_flag key f : f ∈ flag_keys key -> aside f.
Proof. intros Hf Hk. by eapply flag_key_apart. Qed.

(** The operations that do not change who is in voice. *)
Lemma touches_connection_type c u : touches aside (get_voice_connection_type (R := R) c u).
Proof. unfold get_voice_connection_type. touch. Qed.
Lemma touches_delete_connection_type c u : touches aside (delete_voice_connection_type (R := R) c u).
Proof. unfold delete_voice_connection_type. touch. Qed.
Lemma touches_viewer_count c : touches aside (get_viewer_count (R := R) c).
Proof. unfold get_viewer_count. touch. Qed.
Lemma touches_create_viewer c u : touches aside (create_viewer_state (R := R) c u).
Proof. unfold create_viewer_state. touch. Qed.
Lemma touches_delete_viewer c u : touches aside (delete_viewer_state (R := R) c u).
Proof. unfold delete_viewer_state. touch. Qed.
Lemma touches_members c : touches aside (get_voice_channel_members (R := R) c).
Proof. unfold get_voice_channel_members. touch. Qed.
Lemma touches_get_moved_to c u : touches aside (get_user_moved_to_voice (R := R) c u).
Proof. unfold get_user_moved_to_voice. touch. Qed.
Lemma touches_get_moved_from c u : touches aside (get_user_moved_from_voice (R := R) c u).
Proof. unfold get_user_moved_from_voice. touch. Qed.
Lemma touches_cached_session c : touches aside (get_cached_session_id (R := R) c).
Proof. unfold get_cached_session_id. touch. Qed.
Lemma touches_cache_session c id : touches aside (cache_session_id (R := R) c id).
Proof. unfold cache_session_id. touch. Qed.
Lemma touches_record_snapshot now id v n : touches aside (record_snapshot (R := R) now id v n).
Proof. unfold record_snapshot. touch. Qed.
Lemma touches_cleanup c id : touches aside (cleanup_redis (R := R) c id).
Proof. unfold cleanup_redis. touch. Qed.

Lemma touches_flag key f value :
  f ∈ flag_keys key -> Forall (touches (R := R) aside) (set_flag f value).
Proof.
  intros Hf. destruct value as [b|]; [|constructor]. apply Forall_singleton, touches_set. by eapply aside_flag.
Qed.

Lemma touches_update_tracks c srv u added track :
  touches aside (update_voice_state_tracks (R := R) c srv u added track).
Proof.
  unfold update_voice_state_tracks, update_voice_state. touch. apply touches_pipeline.
  repeat apply Forall_app_2; apply (touches_flag (unique_key u (default c srv))); unfold flag_keys; set_solver.
Qed.
End Views.

#[export] Hint Resolve views_ret views_lift views_throw views_panic views_present views_world views_remove_user
  views_col views_end_session views_create views_delete touches_default touches_update_tracks
  touches_connection_type touches_delete_connection_type touches_viewer_count touches_create_viewer touches_delete_viewer touches_members touches_get_moved_to touches_get_moved_from touches_cached_session touches_cache_session touches_record_snapshot touches_cleanup : views.

(** Opens a handler down to the operations of the lemmas above. *)
Ltac views :=
  repeat first
    [ match goal with |- forall _, _ => intro end
    | apply views_bind
    | apply views_ignore
    | apply views_default
    | apply views_map_err
    | match goal with |- keeps_views (match ?x with _ => _ end) => destruct x end
    | solve [eauto with views typeclass_instances]
    | apply views_aside; solve [eauto with views typeclass_instances] ].

Section Webhooks.
Context {D R F S : Type} `{Database D} `{RedisFrame R} `{SessionCollection F S} `{LiveKit}.
Context (zero : F) (div : Z -> Z -> F).
Context (timestamp_ok : Z -> bool) (nodes : gset string) (user_limits : User -> Result FeaturesLimits).
Context (ratio_outside : string * string -> Z -> Z -> bool) (ratio_limited : string * string -> bool).
Context (session_ulid : string) (now_ms : Z).
Local Abbreviation Dn := (Daemon D R S).
Local Abbreviation Dm := (M ErrorType Dn).
Local Abbreviation redis_keys s := (keys (sv_redis (da_services s))).

Lemma views_not_public c : keeps_views (not_public (D := D) (R := R) (S := S) c).
Proof.
  intros s Hs. pose proof (views_world (call (Database.fetch_channel c)) s Hs) as Hk.
  unfold not_public, as_channel, Voice.db. by destruct (on_services _ s) as [[]].
Qed.

Lemma views_counts c : keeps_views (counts (D := D) (R := R) (S := S) c).
Proof. unfold counts. views. Qed.

Lemma views_metrics c v peak : keeps_views (publish_metrics (D := D) (R := R) (S := S) now_ms c v peak).
Proof. unfold publish_metrics, get_active_session, publish. views. Qed.
#[local] Hint Resolve views_not_public views_counts views_metrics : views.

Lemma views_join_analytics c u srv :
  keeps_views (track_analytics_join (D := D) (R := R) zero session_ulid now_ms c u srv).
Proof. unfold track_analytics_join, create_stream_session, update_stream_counts. views. Qed.

Lemma views_leave_analytics c :
  keeps_views (track_analytics_leave (D := D) (R := R) zero div now_ms c).
Proof. unfold track_analytics_leave, update_stream_counts. views. Qed.
#[local] Hint Resolve views_join_analytics views_leave_analytics : views.

Lemma views_viewer_gone c u : keeps_views (viewer_gone (D := D) (R := R) (S := S) c u).
Proof. unfold viewer_gone, viewer_count_update, publish. views. Qed.
#[local] Hint Resolve views_viewer_gone : views.

Lemma views_present_bind {A B} (o : option A) (f : A -> Dm B) :
  (forall a, o = Some a -> keeps_views (f a)) -> keeps_views (present o ≫= f).
Proof. intros Hf. destruct o as [a|]; [|by intros s Hs]. intros s Hs. by apply (Hf a). Qed.

Local Abbreviation handle := (handle_event (D := D) (R := R) zero div timestamp_ok nodes user_limits ratio_outside
  ratio_limited session_ulid now_ms).

Lemma views_event node event :
  (forall u, we_participant event = Some u -> valid_id u) -> keeps_views (handle node event).
Proof.
  intros Hid. unfold handle_event, participant_joined, participant_left, track_changed.
  destruct (bool_decide (we_event event = "participant_joined")).
  { apply views_present_bind. intros c _. apply views_present_bind. intros u Hu%Hid.
    unfold as_channel, Voice.db, is_viewer, viewer_count_update, publish. views. }
  destruct (bool_decide (we_event event = "participant_left")).
  { apply views_present_bind. intros c _. apply views_present_bind. intros u Hu%Hid.
    unfold as_channel, Voice.db, is_viewer, publish. views. }
  destruct (bool_decide (_ ∈ _)); [|views].
  apply views_present_bind. intros c _. apply views_present_bind. intros u Hu%Hid.
  unfold as_channel, as_user, Voice.db, is_viewer, publish. views.
Qed.

(** The requests the daemon answers: whatever comes in, signed or not. *)
Inductive request (configured : gset string) (receive : string -> string -> string -> Result WebhookEvent)
    (s : Dn) : Dn -> Prop :=
| request_step node authorization body :
    request configured receive s (ingress zero div timestamp_ok nodes user_limits ratio_outside ratio_limited
      session_ulid now_ms configured receive node authorization body s).2.

(** C26: No webhook, however its handling ends, breaks the agreement of the three
    sets that say who is in voice: after any sequence of requests, handled one after
    the other, a user is a member of a channel exactly when the channel is among the
    user's channels, and the active channels are exactly those with members.  This is
    for requests whose decoded events name participants by user ids, signed or not
    and whatever else they say, and for a Redis that answers.  The flags of a
    participant (when they joined, whether they publish) are not part of it: there is
    one copy of them for all channels of a server ([leaving_drops_other_state]). *)
Theorem webhooks_keep_voice_views configured receive (s s' : Dn) :
  (forall node body auth event u, receive node body auth = Ok event -> we_participant event = Some u -> valid_id u) ->
  voice_ok (redis_keys s) -> rtc (request configured receive) s s' -> voice_ok (redis_keys s').
Proof.
  intros Hid Hs Hr. induction Hr as [|s1 s2 s3 [node auth body] _ IH]; [done|]. apply IH. clear IH.
  unfold ingress. refine (views_bind _ _ (views_lift _) _ _ Hs). intros header.
  destruct (bool_decide _); [|apply views_throw]. intros s Hk. unfold to_internal_error, map_err, lift_outcome, mbind, M_bind.
  destruct (receive node body header) as [event|e|] eqn:E; [|done|done].
  apply views_event; [|done]. intros u. by eapply Hid.
Qed.
End Webhooks.

(** ** Moves and cameras *)

Section Calls.
Context {R F S : Type} `{RF : RedisFrame R} `{SC : SessionCollection F S} `{LK : LiveKit} `{HO : HashOrder}.
Context `{OS : OptionalStruct Server PartialServer} `{OR : OptionalStruct Role PartialRole}.
Context `{OM : OptionalStruct Member PartialMember} `{OU : OptionalStruct User PartialUser}.
Context (zero : F) (div : Z -> Z -> F).
Context (timestamp_ok : Z -> bool) (nodes : gset string) (user_limits : User -> Result FeaturesLimits).
Context (ratio_outside : string * string -> Z -> Z -> bool) (ratio_limited : string * string -> bool).
Context (session_ulid : string) (now_ms : Z).
Local Abbreviation Dn := (Daemon ReferenceDb R S).
Local Abbreviation Dm := (M ErrorType Dn).
Local Abbreviation redis_of s := (sv_redis (da_services s)).
Local Abbreviation redis_keys s := (keys (sv_redis (da_services s))).
Local Abbreviation world_of s := (sv_world (da_services s)).
Local Abbreviation handle := (handle_event zero div timestamp_ok nodes user_limits ratio_outside
  ratio_limited session_ulid now_ms).

Definition with_redis (r : R) (s : Dn) : Dn :=
  {| da_services := sv_set_redis r (da_services s); da_sessions := da_sessions s |}.
Definition published (e : EventV1) (c : string) (s : Dn) : Dn :=
  {| da_services := sv_set_world (p e c (world_of s)).2 (da_services s); da_sessions := da_sessions s |}.

Lemma in_redis_eq {A} (m : M ErrorType R A) (s : Dn) a r :
  m (redis_of s) = (Ok a, r) -> in_redis m s = (Ok a, with_redis r s).
Proof. intros E. unfold in_redis, on_services. by rewrite on_redis_run, E. Qed.

Lemma in_redis_read {A} (m : M ErrorType R A) (s : Dn) a :
  m (redis_of s) = (Ok a, redis_of s) -> in_redis m s = (Ok a, s).
Proof. intros E. unfold in_redis, on_services. rewrite on_redis_run, E. by destruct s as [[]]. Qed.

Lemma publish_run e c (s : Dn) : publish e c s = (Ok tt, published e c s).
Proof. done. Qed.

Lemma as_channel_found c channel (s : Dn) :
  db_channels (w_db (world_of s)) !! c = Some channel -> as_channel c s = (Ok channel, s).
Proof.
  intros Hc. unfold as_channel, on_services, Voice.db. rewrite on_world_run. unfold call. simpl.
  unfold Ref.fetch_channel, get_or. rewrite Hc. by destruct s as [[[]]].
Qed.

(** No public stream in the channel: nothing is counted. *)
Definition private_call (channel : Channel) : Prop :=
  match channel_voice channel with Some v => vi_is_stream_public v = false | None => True end.

Lemma not_public_run c channel (s : Dn) :
  db_channels (w_db (world_of s)) !! c = Some channel -> private_call channel -> not_public c s = (Ok true, s).
Proof.
  intros Hc Hp. unfold not_public. rewrite (as_channel_found c channel s Hc). unfold private_call in Hp.
  destruct (channel_voice channel); [by rewrite Hp|done].
Qed.

Lemma get_run_str k o (r : R) :
  keys r !! k = RStr <$> o -> redis (r_get k) r = (Ok o, r).
Proof.
  intros Hk. apply redis_ok. rewrite get_run; [|intros x; rewrite Hk; by destruct o].
  unfold str_at. rewrite Hk. by destruct o.
Qed.

Lemma is_viewer_run c u o (s : Dn) :
  redis_keys s !! connection_type_key u c = RStr <$> o -> is_viewer c u s = (Ok (bool_decide (o = Some "viewer")), s).
Proof.
  intros Hk. unfold is_viewer. by erewrite M_bind_ok by (apply in_redis_read, get_run_str; exact Hk).
Qed.

Lemma get_del_str k o (r : R) :
  keys r !! k = RStr <$> o -> does (redis (r_get_del k)) r o (delete k (keys r)).
Proof.
  intros Hk. apply does_redis. destruct (get_del_run k r) as (r' & E & Hr).
  - intros x. rewrite Hk. by destruct o.
  - exists r'. split; [|done]. rewrite E. unfold str_at. rewrite Hk. by destruct o.
Qed.

(** What joining and leaving touch of the keys of a user. *)
Definition voice_entry (u k : string) : Prop :=
  voice_key k \/ (exists key, k ∈ flag_keys key) \/ (exists x, k = unique_key u x).

Lemma moved_not_entry u v c : valid_id u ->
  ~ voice_entry u (moved_to_key v c) /\ ~ voice_entry u (moved_from_key v c) /\ ~ voice_entry u (connection_type_key v c).
Proof.
  intros Hu. unfold voice_entry. destruct u as [|ch u]; [done|]. simpl in Hu.
  split_and!; intros [[?|[[y ?]|[y ?]]]|[[key Hk]|[x E]]]; try done.
  all: try (unfold flag_keys in Hk; repeat (apply elem_of_cons in Hk as [Hk|Hk]; [done|]); by apply not_elem_of_nil in Hk).
  all: injection E as <- _; vm_compute in Hu; lia.
Qed.

Lemma touches_del_all (P : string -> Prop) ks : Forall P ks -> touches (R := R) P (r_del ks).
Proof.
  intros Hks r k Hk. destruct (del_run ks r) as (r' & -> & Hr). simpl. rewrite Hr. clear Hr r'.
  induction Hks as [|k' ks Hk' _ IH]; [done|]. simpl. rewrite lookup_delete_ne; [done|]. by intros ->.
Qed.

Lemma entry_flag u key f : f ∈ flag_keys key -> voice_entry u f.
Proof. intros Hf. right. left. by exists key. Qed.
Lemma entry_own u x : voice_entry u (unique_key u x).
Proof. right. right. by exists x. Qed.
Lemma entry_voice u k : voice_key k -> voice_entry u k.
Proof. by left. Qed.
Local Hint Resolve entry_own entry_voice : touches.

Lemma touches_create c srv u t : touches (voice_entry u) (create_voice_state (R := R) c srv u t).
Proof.
  unfold create_voice_state. cbv zeta. touch; [|apply touches_sadd; eauto with touches redis].
  apply touches_pipeline. repeat apply Forall_cons_2; [..|constructor];
    (apply touches_sadd || apply touches_set);
    first [by eauto with touches redis|apply (entry_flag u (unique_key u (default c srv))); unfold flag_keys; set_solver].
Qed.

Lemma touches_delete c srv u : touches (voice_entry u) (delete_voice_state (R := R) c srv u).
Proof.
  unfold delete_voice_state. cbv zeta. touch; [|apply touches_srem; eauto with touches redis].
  apply touches_pipeline. repeat apply Forall_cons_2; [..|constructor];
    [apply touches_srem; eauto with touches redis..|].
  apply touches_del_all, Forall_forall. intros k [Hk|Hk%list_elem_of_singleton]%elem_of_app;
    [by eapply entry_flag|subst; apply entry_own].
Qed.

(** A participant joins a channel after a move. *)
Lemma joined_after_move event u c channel o from (s : Dn) :
  we_room event = Some c -> we_participant event = Some u -> valid_id u ->
  db_channels (w_db (world_of s)) !! c = Some channel -> private_call channel -> voice_ok (redis_keys s) ->
  redis_keys s !! connection_type_key u c = RStr <$> o -> o <> Some "viewer" ->
  redis_keys s !! moved_to_key u c = Some (RStr from) -> timestamp_ok (we_created_at event * 1000) = true ->
  exists r, participant_joined zero timestamp_ok session_ulid now_ms event s
      = (Ok tt, published (EventV1.VoiceChannelMove u from c (fresh_state u (we_created_at event * 1000))) c (with_redis r s))
    /\ same_voice (keys r) (joined c u (redis_keys s))
    /\ (forall k, ~ voice_entry u k -> k <> moved_to_key u c -> keys r !! k = redis_keys s !! k)
    /\ keys r !! moved_to_key u c = None.
Proof.
  intros Er Eu Hu Hc Hp Hok Ho Hv Hm Ht. unfold participant_joined. rewrite Er, Eu.
  do 2 (erewrite M_bind_ok by reflexivity). erewrite M_bind_ok by (apply as_channel_found; exact Hc).
  erewrite M_bind_ok by (apply (is_viewer_run c u o); exact Ho).
  rewrite bool_decide_eq_false_2 by done. rewrite Ht. cbv zeta. simpl negb. cbv iota.
  set (t := we_created_at event * 1000).
  pose proof (create_voice_state_run c (channel_server channel) u t (redis_of s) Hu Hok) as Hd.
  pose proof (touches_create c (channel_server channel) u t (redis_of s)) as Htc.
  destruct Hd as (r1 & E1 & K1). rewrite E1 in Htc. simpl in Htc.
  destruct (moved_not_entry u u c Hu) as (N1 & N2 & N3).
  destruct (get_del_str (moved_to_key u c) (Some from) r1) as (r2 & E2 & K2); [by rewrite Htc, Hm|].
  exists r2. split_and!.
  - erewrite M_bind_ok.
    2:{ erewrite M_bind_ok by (apply in_redis_eq; exact E1).
        erewrite M_bind_ok by (apply (in_redis_eq _ (with_redis r1 s)); exact E2). reflexivity. }
    unfold ignore_err, track_analytics_join. erewrite M_bind_ok by (apply (not_public_run c channel); [exact Hc|exact Hp]).
    reflexivity.
  - rewrite K2. etrans; [apply same_voice_delete; intros Hk; by apply N1; left|]. rewrite K1.
    by eapply voice_created_joined.
  - intros k Hk Hne. rewrite K2, lookup_delete_ne by done. by apply Htc.
  - by rewrite K2, lookup_delete_eq.
Qed.

(** A participant leaves a channel; [to] is where they were moved. *)
Lemma left_run event u c channel o to (s : Dn) :
  we_room event = Some c -> we_participant event = Some u -> valid_id u ->
  db_channels (w_db (world_of s)) !! c = Some channel -> private_call channel -> voice_ok (redis_keys s) ->
  redis_keys s !! connection_type_key u c = RStr <$> o -> o <> Some "viewer" ->
  redis_keys s !! moved_from_key u c = RStr <$> to ->
  exists r, participant_left zero div now_ms event s
      = (Ok tt, match to with
                | Some _ => with_redis r s
                | None => published (EventV1.VoiceChannelLeave c u) c (with_redis r s)
                end)
    /\ same_voice (keys r) (left_channel c u (redis_keys s))
    /\ keys r !! moved_from_key u c = None.
Proof.
  intros Er Eu Hu Hc Hp Hok Ho Hv Hm. unfold participant_left. rewrite Er, Eu.
  do 2 (erewrite M_bind_ok by reflexivity). erewrite M_bind_ok by (apply as_channel_found; exact Hc).
  erewrite M_bind_ok by (apply (is_viewer_run c u o); exact Ho).
  rewrite bool_decide_eq_false_2 by done. cbv iota.
  pose proof (delete_voice_state_run c (channel_server channel) u (redis_of s) Hu Hok) as Hd.
  pose proof (touches_delete c (channel_server channel) u (redis_of s)) as Htc.
  destruct Hd as (r1 & E1 & K1). rewrite E1 in Htc. simpl in Htc.
  destruct (moved_not_entry u u c Hu) as (N1 & N2 & N3).
  destruct (does_redis _ r1 tt _ (does_del [connection_type_key u c] r1)) as (r2 & E2 & K2). simpl in K2.
  destruct (get_del_str (moved_from_key u c) to r2) as (r3 & E3 & K3).
  { rewrite K2, lookup_delete_ne by done. by rewrite Htc, Hm. }
  exists r3. split_and!.
  - erewrite M_bind_ok.
    2:{ erewrite M_bind_ok by (apply in_redis_eq; exact E1).
        erewrite M_bind_ok by (apply (in_redis_eq _ (with_redis r1 s)); exact E2).
        erewrite M_bind_ok by (apply (in_redis_eq _ (with_redis r2 (with_redis r1 s))); exact E3).
        instantiate (1 := match to with
                          | Some _ => with_redis r3 s
                          | None => published (EventV1.VoiceChannelLeave c u) c (with_redis r3 s)
                          end). by destruct to. }
    unfold ignore_err, track_analytics_leave.
    erewrite M_bind_ok by (apply (not_public_run c channel); [by destruct to|exact Hp]). reflexivity.
  - rewrite K3, K2, K1. etrans; [apply same_voice_delete; intros Hk; by apply N2; left|].
    etrans; [apply same_voice_delete; intros Hk; by apply N3; left|]. by eapply voice_deleted_left.
  - by rewrite K3, lookup_delete_eq.
Qed.

(** A user who is moved is announced once: the server recorded the move under
    both channels; the voice server reports that the user joined the new channel
    and left the old one; the clients see one event, the move, the user is a
    member of the new channel and not of the old one, and nothing is left of the
    record. *)
Theorem move_announced_once node joined_event left_event u from to c_from c_to (s : Dn) :
  we_event joined_event = "participant_joined" -> we_event left_event = "participant_left" ->
  we_room joined_event = Some to -> we_room left_event = Some from ->
  we_participant joined_event = Some u -> we_participant left_event = Some u ->
  valid_id u -> from <> to -> timestamp_ok (we_created_at joined_event * 1000) = true ->
  db_channels (w_db (world_of s)) !! to = Some c_to -> private_call c_to ->
  db_channels (w_db (world_of s)) !! from = Some c_from -> private_call c_from ->
  voice_ok (redis_keys s) ->
  redis_keys s !! connection_type_key u from = None -> redis_keys s !! connection_type_key u to = None ->
  redis_keys s !! moved_to_key u to = Some (RStr from) -> redis_keys s !! moved_from_key u from = Some (RStr to) ->
  exists s1 s2, handle node joined_event s = (Ok tt, s1) /\ handle node left_event s1 = (Ok tt, s2)
    /\ w_events (world_of s2) = w_events (world_of s)
         ++ [(to, EventV1.VoiceChannelMove u from to (fresh_state u (we_created_at joined_event * 1000)))]
    /\ u ∈ set_at (redis_keys s2) (vc_members to) /\ (u ∉ set_at (redis_keys s2) (vc_members from))
    /\ redis_keys s2 !! moved_from_key u from = None.
Proof using RF HO OS OR OM OU.
  intros Ej El Rj Rl Pj Pl Hu Hne Ht Hto Pto Hfrom Pfrom Hok Cf Ct Mt Mf.
  destruct (joined_after_move joined_event u to c_to None from s Rj Pj Hu Hto Pto Hok Ct) as (r1 & E1 & V1 & F1 & _);
    [done|done|done|].
  set (s1 := published _ to (with_redis r1 s)) in E1.
  destruct (moved_not_entry u u from Hu) as (_ & N2 & N3).
  destruct (left_run left_event u from c_from None (Some to) s1 Rl Pl Hu Hfrom Pfrom) as (r2 & E2 & V2 & M2).
  - change (voice_ok (keys r1)). rewrite V1. by apply joined_ok.
  - change (keys r1 !! connection_type_key u from = None). by rewrite F1.
  - done.
  - change (keys r1 !! moved_from_key u from = Some (RStr to)). by rewrite F1.
  - exists s1. eexists. split_and!.
    + unfold handle_event. rewrite Ej. exact E1.
    + unfold handle_event. rewrite El. exact E2.
    + reflexivity.
    + simpl. change (redis_keys s1) with (keys r1) in V2.
      rewrite (same_voice_set_at _ _ (vc_members to) V2) by eauto with redis.
      destruct (set_at_left from u (keys r1)) as (-> & _ & _). rewrite decide_False by done.
      rewrite (same_voice_set_at _ _ (vc_members to) V1) by eauto with redis.
      destruct (set_at_joined to u (redis_keys s)) as (-> & _ & _). rewrite decide_True by done. set_solver.
    + simpl. change (redis_keys s1) with (keys r1) in V2.
      rewrite (same_voice_set_at _ _ (vc_members from) V2) by eauto with redis.
      destruct (set_at_left from u (keys r1)) as (-> & _ & _). rewrite decide_True by done. set_solver.
    + exact M2.
Qed.

Lemma as_user_found u user (s : Dn) :
  db_users (w_db (world_of s)) !! u = Some user -> as_user u s = (Ok user, s).
Proof.
  intros Hc. unfold as_user, on_services, Voice.db. rewrite on_world_run. unfold call. simpl.
  unfold Ref.fetch_user, get_or. rewrite Hc. by destruct s as [[[]]].
Qed.

(** The call to a node leaves everything but the log. *)
Lemma remove_user_logged node u c (s : Dn) :
  node ∈ nodes -> (forall call, livekit_result call <> Panicked) ->
  on_services (ignore_err (remove_user nodes node u c)) s
  = (Ok tt, {| da_services := {| sv_world := world_of s; sv_redis := redis_of s;
                                 sv_livekit := sv_livekit (da_services s) ++ [LiveKitCall.RemoveParticipant node c u] |};
               da_sessions := da_sessions s |}).
Proof.
  intros Hn Hl. unfold on_services, ignore_err, remove_user, livekit, get_node.
  rewrite bool_decide_eq_true_2 by done. unfold mbind, M_bind, livekit_call. simpl.
  specialize (Hl (LiveKitCall.RemoveParticipant node c u)).
  by destruct (livekit_result (LiveKitCall.RemoveParticipant node c u)).
Qed.

(** A participant who publishes what their limits forbid is out of the call:
    the voice server is told to remove them, they are no member of the channel
    any more, and nothing is announced.  Forbidden are data, and a camera with
    more pixels than the limit, as far as the products stay within 32 bits. *)
Theorem forbidden_track_removed node event track u user c channel limits o (s : Dn) :
  we_event event = "track_published" -> we_room event = Some c -> we_participant event = Some u ->
  we_track event = Some track -> valid_id u -> node ∈ nodes -> (forall call, livekit_result call <> Panicked) ->
  db_channels (w_db (world_of s)) !! c = Some channel -> db_users (w_db (world_of s)) !! u = Some user ->
  user_limits user = Ok limits -> voice_ok (redis_keys s) ->
  redis_keys s !! connection_type_key u c = RStr <$> o -> o <> Some "viewer" ->
  tr_type track = TrackType_Data
  \/ (tr_type track = TrackType_Video /\ tr_source track = 1
      /\ (fl_video_resolution limits).1 <> 0 /\ (fl_video_resolution limits).2 <> 0
      /\ 0 <= (fl_video_resolution limits).1 * (fl_video_resolution limits).2
      /\ (fl_video_resolution limits).1 * (fl_video_resolution limits).2
           < tr_width track * tr_height track < 2 ^ 32) ->
  exists s', handle node event s = (Ok tt, s')
    /\ sv_livekit (da_services s') = sv_livekit (da_services s) ++ [LiveKitCall.RemoveParticipant node c u]
    /\ (u ∉ set_at (redis_keys s') (vc_members c)) /\ world_of s' = world_of s.
Proof using RF HO OS OR OM OU.
  intros Ee Er Eu Et Hu Hn Hl Hc Huser Hlim Hok Ho Hv Hf.
  assert (forbidden ratio_outside ratio_limited limits track = true) as Hfb.
  { unfold forbidden. destruct (fl_video_resolution limits) as [w h]. simpl in Hf.
    destruct Hf as [->|(-> & -> & Hw & Hh & H0w & Hlt)]; [done|].
    rewrite (proj2 (Z.eqb_neq w 0) Hw), (proj2 (Z.eqb_neq h 0) Hh), !Z.mod_small by lia.
    by rewrite (proj2 (Z.ltb_lt _ _)) by lia. }
  unfold handle_event. rewrite Ee. cbv beta. rewrite !bool_decide_eq_false_2 by done.
  rewrite bool_decide_eq_true_2 by set_solver. unfold track_changed. rewrite Er, Eu, Et, Ee.
  do 3 (erewrite M_bind_ok by reflexivity).
  erewrite M_bind_ok by (apply (is_viewer_run c u o); exact Ho). rewrite bool_decide_eq_false_2 by done.
  cbv zeta. rewrite andb_false_l.
  erewrite M_bind_ok by (apply as_channel_found; exact Hc). erewrite M_bind_ok by (apply as_user_found; exact Huser).
  rewrite Hlim. erewrite M_bind_ok by reflexivity. rewrite Hfb, bool_decide_eq_true_2 by done.
  change (true && true) with true. cbv iota.
  erewrite M_bind_ok by (apply remove_user_logged; [exact Hn|exact Hl]).
  set (s1 := {| da_services := _; da_sessions := _ |}).
  destruct (delete_voice_state_run c (channel_server channel) u (redis_of s1) Hu Hok) as (r & E & K).
  eexists. split; [apply in_redis_eq; exact E|]. split; [done|]. split; [|by destruct s as [[]]].
  simpl. rewrite K.
  pose proof (voice_deleted_left c (unique_key u (default c (channel_server channel))) u _ (redis_keys s1) Hu eq_refl) as V.
  rewrite (same_voice_set_at _ _ (vc_members c) V) by eauto with redis.
  destruct (set_at_left c u (redis_keys s1)) as (-> & _ & _). rewrite decide_True by done. set_solver.
Qed.

(** A camera of 65536 times 65536 pixels passes every limit: the product is zero
    at 32 bits. *)
Lemma huge_camera_accepted limits :
  ratio_limited (fl_video_aspect_ratio limits) = false ->
  forbidden ratio_outside ratio_limited limits
    {| tr_type := TrackType_Video; tr_source := 1; tr_width := 65536; tr_height := 65536 |} = false.
Proof.
  intros Hr. unfold forbidden. destruct (fl_video_resolution limits) as [w h]. rewrite Hr. simpl.
  assert (((w * h) mod 2 ^ 32 <? 65536 * 65536 mod 2 ^ 32) = false) as ->; [|by rewrite andb_false_r].
  apply Z.ltb_ge. change (65536 * 65536 mod 2 ^ 32) with 0. by apply Z.mod_pos_bound.
Qed.

(** A viewer who publishes is removed with their connection type; when the voice
    server then reports that they left, they are announced as a participant. *)
Lemma removed_viewer_announced node published_event left_event track u c channel (s : Dn) :
  we_event published_event = "track_published" -> we_event left_event = "participant_left" ->
  we_room published_event = Some c -> we_room left_event = Some c ->
  we_participant published_event = Some u -> we_participant left_event = Some u ->
  we_track published_event = Some track -> valid_id u -> node ∈ nodes ->
  (forall call, livekit_result call <> Panicked) ->
  db_channels (w_db (world_of s)) !! c = Some channel -> private_call channel -> voice_ok (redis_keys s) ->
  set_key (redis_keys s) (vc_viewers c) ->
  redis_keys s !! connection_type_key u c = Some (RStr "viewer") ->
  redis_keys s !! moved_from_key u c = None ->
  exists s1 s2 count, handle node published_event s = (Ok tt, s1) /\ handle node left_event s1 = (Ok tt, s2)
    /\ w_events (world_of s2) = w_events (world_of s)
         ++ [(c, EventV1.ViewerCountUpdate c count); (c, EventV1.VoiceChannelLeave c u)].
Proof using RF HO OS OR OM OU.
  intros Ep El Rp Rl Pp Pl Et Hu Hn Hl Hc Hpr Hok Hset Hty Hmv.
  set (m1 := remove_from (vc_viewers c) u (redis_keys s)).
  assert (exists r1, handle node published_event s = (Ok tt, published (EventV1.ViewerCountUpdate c
      (Z.of_nat (size (set_at m1 (vc_viewers c))))) c
      {| da_services := {| sv_world := world_of s; sv_redis := r1;
           sv_livekit := sv_livekit (da_services s) ++ [LiveKitCall.RemoveParticipant node c u] |};
         da_sessions := da_sessions s |}) /\ keys r1 = delete (connection_type_key u c) m1) as (r1 & E1 & K1).
  { unfold handle_event. rewrite Ep. rewrite !bool_decide_eq_false_2 by done.
    rewrite bool_decide_eq_true_2 by set_solver. unfold track_changed. rewrite Rp, Pp, Et, Ep.
    do 3 (erewrite M_bind_ok by reflexivity).
    erewrite M_bind_ok by (apply (is_viewer_run c u (Some "viewer")); exact Hty).
    rewrite !bool_decide_eq_true_2 by done. cbv zeta. change (true && true) with true. cbv iota.
    erewrite M_bind_ok by (apply remove_user_logged; [exact Hn|exact Hl]).
    destruct (does_redis _ _ tt _ (does_srem (vc_viewers c) u (redis_of s) Hset)) as (r1 & E1 & K1).
    destruct (does_redis _ _ tt _ (does_del [connection_type_key u c] r1)) as (r2 & E2 & K2). simpl in K2.
    assert (keys r2 = delete (connection_type_key u c) m1) as K2' by (by rewrite K2, K1).
    exists r2. split; [|done]. unfold viewer_gone.
    erewrite M_bind_ok by (apply in_redis_eq; exact E1).
    erewrite M_bind_ok by (apply (in_redis_eq _ (with_redis r1 _)); exact E2).
    unfold viewer_count_update. erewrite M_bind_ok.
    2:{ apply (in_redis_read _ (with_redis r2 (with_redis r1 _))), redis_ok, scard_run. simpl. rewrite K2'.
        unfold m1. eauto with redis. }
    simpl. rewrite K2', set_at_delete, decide_False by done. reflexivity. }
  set (s1 := published _ c _) in E1.
  assert (same_voice (keys r1) (redis_keys s)) as V1.
  { rewrite K1. etrans; [apply same_voice_delete, aside_connection_type|]. intros k Hk. unfold m1, remove_from, put_set.
    assert (k <> vc_viewers c) by (intros ->; by apply (aside_viewers c)).
    case_decide; [by rewrite lookup_delete_ne|by rewrite lookup_insert_ne]. }
  destruct (left_run left_event u c channel None None s1 Rl Pl Hu Hc Hpr) as (r2 & E2 & _).
  - change (voice_ok (keys r1)). by rewrite V1.
  - change (keys r1 !! connection_type_key u c = None). by rewrite K1, lookup_delete_eq.
  - done.
  - change (keys r1 !! moved_from_key u c = None). rewrite K1, lookup_delete_ne by done.
    unfold m1, remove_from, put_set. case_decide; [by rewrite lookup_delete_ne|by rewrite lookup_insert_ne].
  - exists s1. eexists _, _. split_and!; [exact E1|unfold handle_event; rewrite El; exact E2|]. simpl.
    by rewrite <- app_assoc.
Qed.
End Calls.

Module IngressWitness.
Import SomePriority ModerationWitness VoiceWitness AnalyticsWitness.

Lemma on_set_frame {A} P k (f : gset string -> A * gset string) (m : RedisWitness.Store) k' :
  P k -> ~ P k' -> (RedisWitness.on_set k f m).2 !! k' = m !! k'.
Proof.
  intros Hk Hk'. assert (k' <> k) by congruence.
  unfold RedisWitness.on_set, put_set. destruct (f (set_at m k)) as [a x].
  destruct (m !! k) as [[]|]; simpl; [done|..]; case_decide;
    by rewrite ?lookup_delete_ne, ?lookup_insert_ne by done.
Qed.

Lemma plain_state {A} (m : M ErrorType RedisWitness.Store A) (r : Store) : (plain m r).2.1 = (m r.1).2.
Proof. unfold plain. by destruct (m r.1). Qed.

Lemma read_str_same k (m : RedisWitness.Store) : (RedisWitness.read_str k id m).2 = m.
Proof. unfold RedisWitness.read_str. by destruct (m !! k) as [[]|]. Qed.

Lemma read_set_same {A} k (f : gset string -> A) (m : RedisWitness.Store) : (RedisWitness.read_set k f m).2 = m.
Proof. unfold RedisWitness.read_set. by destruct (m !! k) as [[]|]. Qed.

Local Ltac frame c := intros; intros r k' Hk'; change ((plain c r).2.1 !! k' = r.1 !! k'); rewrite plain_state.

#[export] Program Instance sorted_frame : RedisFrame Store.
Next Obligation. intros P k. frame (r_get (R := RedisWitness.Store) k). exact (f_equal (lookup k') (read_str_same k r.1)). Qed.
Next Obligation.
  intros P k Hk. frame (r_get_del (R := RedisWitness.Store) k). simpl. unfold RedisWitness.read_str.
  destruct (r.1 !! k) as [[]|]; simpl; rewrite ?lookup_delete_ne; done || congruence.
Qed.
Next Obligation.
  intros k r Hk. exists (delete k r.1, r.2). split; [|done]. simpl. unfold plain, RedisWitness.read_str.
  destruct (r.1 !! k) as [[]|] eqn:E; [done| |done]. by destruct (Hk s).
Qed.
Next Obligation.
  intros P k v t Hk. frame (r_set_ex (R := RedisWitness.Store) k v t). simpl. rewrite lookup_insert_ne; [done|congruence].
Qed.
Next Obligation. intros P k v Hk. frame (r_sadd (R := RedisWitness.Store) k v). by eapply on_set_frame. Qed.
Next Obligation. intros P k v Hk. frame (r_srem (R := RedisWitness.Store) k v). by eapply on_set_frame. Qed.
Next Obligation. intros P k. frame (r_scard (R := RedisWitness.Store) k). exact (f_equal (lookup k') (read_set_same k _ r.1)). Qed.
Next Obligation. intros P k. frame (r_smembers (R := RedisWitness.Store) k). exact (f_equal (lookup k') (read_set_same k _ r.1)). Qed.
Next Obligation. intros P k v score Hk r k' Hk'. simpl. by destruct (r.1 !! k). Qed.
Next Obligation. intros P k min max r k' Hk'. simpl. by destruct (r.1 !! k). Qed.
Next Obligation. done. Qed.

Definition group (id : string) : Channel := Channel.Group {|
  g_id := id; g_name := "Group"; g_owner := "UO"; g_description := None; g_recipients := ["UO"; "U1"];
  g_icon := None; g_last_message_id := None; g_permissions := None; g_nsfw := false; g_moderators := [];
  g_encrypted := false |}.
Definition db0 : ReferenceDb :=
  set_channels {[ "C1" := group "C1"; "C2" := group "C2" ]}
    (set_users {[ "U1" := Example.user "U1" ]} ReferenceDb_default).
Definition camera_limits : FeaturesLimits := {|
  fl_outgoing_friend_requests := 10; fl_bots := 5; fl_message_length := 2000; fl_message_attachments := 5;
  fl_servers := 50; fl_voice_quality := 16000; fl_max_voice_bitrate := 128000; fl_video := true;
  fl_video_resolution := (1080, 720); fl_video_aspect_ratio := ("0.3", "2.5");
  fl_file_upload_size_limit := ∅; fl_max_stream_viewers := 10; fl_max_server_members := 100 |}.
Definition start (r : Store) : Daemon ReferenceDb Store Sessions :=
  {| da_services := {| sv_world := world db0; sv_redis := r; sv_livekit := [] |}; da_sessions := ∅ |}.
Definition report (what room : string) (track : option TrackInfo) : WebhookEvent := {|
  we_event := what; we_room := Some room; we_participant := Some "U1"; we_track := track; we_created_at := 1 |}.
Definition always_outside (limits : string * string) (w h : Z) : bool := true.
Definition limited (limits : string * string) : bool := bool_decide (limits.1 <> limits.2).
Definition everybody (u : User) : Result FeaturesLimits := Ok camera_limits.
Definition on_node : gset string := {[ "node" ]}.

(** Every request reports that the user joined. *)
Definition trusting (node body auth : string) : Result WebhookEvent := Ok (report "participant_joined" "C1" None).

Lemma webhooks_keep_voice_views_witness :
  exists s', rtc (request 0 Z.div after_1970 on_node everybody always_outside limited "session" 0 on_node trusting)
                 (start (∅, ∅)) s'
    /\ voice_ok (keys (sv_redis (da_services s')))
    /\ set_at (keys (sv_redis (da_services s'))) (vc_members "C1") = {[ "U1" ]}.
Proof.
  eexists. split; [apply rtc_once, (request_step _ _ _ _ _ _ _ _ _ _ _ _ "node" (Some "auth") "")|].
  split; [|vm_compute; reflexivity].
  apply (webhooks_keep_voice_views 0 Z.div after_1970 on_node everybody always_outside limited "session" 0
           on_node trusting (start (∅, ∅))).
  - intros node body auth event u [= <-] [= <-]. apply user_valid.
  - apply empty_voice_ok.
  - apply rtc_once, request_step.
Defined.

Definition moving : Store :=
  (<[moved_to_key "U1" "C2" := RStr "C1"]> (<[moved_from_key "U1" "C1" := RStr "C2"]> r1), ∅).

Lemma aside_inserted k v (m : RedisWitness.Store) : aside k -> voice_ok m -> voice_ok (<[k := v]> m).
Proof. intros Hk Hm. by rewrite same_voice_insert. Qed.

Lemma moving_ok : voice_ok (keys moving).
Proof. apply aside_inserted; [apply aside_moved_to|]. apply aside_inserted; [apply aside_moved_from|exact voice_r1_ok]. Qed.

Lemma move_announced_once_witness :
  exists s1 s2,
    handle_event 0 Z.div after_1970 on_node everybody always_outside limited "session" 0 "node"
      (report "participant_joined" "C2" None) (start moving) = (Ok tt, s1)
    /\ handle_event 0 Z.div after_1970 on_node everybody always_outside limited "session" 0 "node"
         (report "participant_left" "C1" None) s1 = (Ok tt, s2)
    /\ w_events (sv_world (da_services s2))
       = [("C2", EventV1.VoiceChannelMove "U1" "C1" "C2" (fresh_state "U1" 1000))].
Proof.
  destruct (move_announced_once 0 Z.div after_1970 on_node everybody always_outside limited "session" 0 "node"
    (report "participant_joined" "C2" None) (report "participant_left" "C1" None) "U1" "C1" "C2" (group "C1") (group "C2")
    (start moving)) as (s1 & s2 & E1 & E2 & Hev & _); try reflexivity.
  - apply user_valid.
  - done.
  - exact moving_ok.
  - exists s1, s2. split; [exact E1|]. split; [exact E2|exact Hev].
Defined.

Definition big_camera : TrackInfo := {| tr_type := 1; tr_source := 1; tr_width := 1920; tr_height := 1080 |}.
Definition in_call : Daemon ReferenceDb Store Sessions := start (r1, ∅).

Lemma forbidden_track_removed_witness :
  exists s', handle_event 0 Z.div after_1970 on_node everybody always_outside limited "session" 0 "node"
      (report "track_published" "C1" (Some big_camera)) in_call = (Ok tt, s')
    /\ sv_livekit (da_services s') = [LiveKitCall.RemoveParticipant "node" "C1" "U1"]
    /\ ("U1" ∉ set_at (keys (sv_redis (da_services s'))) (vc_members "C1")).
Proof.
  destruct (forbidden_track_removed 0 Z.div after_1970 on_node everybody always_outside limited "session" 0 "node"
    (report "track_published" "C1" (Some big_camera)) big_camera "U1" (Example.user "U1") "C1" (group "C1") camera_limits
    None in_call) as (s' & E & Hl & Hm & _); try reflexivity.
  - apply user_valid.
  - done.
  - exact voice_r1_ok.
  - done.
  - right. vm_compute. repeat split; discriminate.
  - exists s'. split; [exact E|]. split; [exact Hl|exact Hm].
Defined.
End IngressWitness.
