(* ===== verification/Parser.v ===== *)
(** * The message parser ([crates/core/parser/src/lib.rs])

    Which users and roles a message mentions.  The lexer is generated from
    regular expressions by the crate [logos]; its tokens are a parameter, an
    item is [None] where the lexer reports an error.  The iterator over the
    tokens ([MessageParserIterator]: a buffer [temp] in front of the lexer) is
    translated as it is, and run until it returns [None] by recursion on a
    measure of what is left.

    The theorems: the iterator terminates and yields exactly what a recursive
    description of code blocks and escapes says; nothing inside of a closed code
    block is a mention; and what happens after a block that is never closed. *)

From Equations Require Import Equations.
From S2P Require Import Prelude.

Module MessageToken.
Inductive MessageToken : Type :=
| Escape
| CodeblockMarker (ty : nat)
| UserMention (id : string)
| RoleMention (id : string)
| MentionEveryone
| MentionOnline.
End MessageToken.
Abbreviation MessageToken := MessageToken.MessageToken.
#[export] Instance MessageToken_eq_dec : EqDecision MessageToken.
Proof. solve_decision. Defined.

Record MessageResults := {
  user_mentions : gset string;
  role_mentions : gset string;
  mentions_everyone : bool;
  mentions_online : bool }.
Definition MessageResults_default : MessageResults :=
  {| user_mentions := ∅; role_mentions := ∅; mentions_everyone := false; mentions_online := false |}.

(** ** The iterator *)

Record MessageParserIterator := {
  inner : list MessageToken;
  temp : list MessageToken }.

(** The loop inside of a code block: the tokens up to the matching marker, and
    the rest behind it, if there is one. *)
Fixpoint find_marker (ty : nat) (tokens seen : list MessageToken)
    : list MessageToken * option (list MessageToken) :=
  match tokens with
  | [] => (seen, None)
  | token :: rest =>
      if bool_decide (token = MessageToken.CodeblockMarker ty) then (seen, Some rest)
      else find_marker ty rest (seen ++ [token])
  end.

(** [Iterator::next] *)
Definition next (self : MessageParserIterator) : option MessageToken * MessageParserIterator :=
  match temp self with
  | token :: rest => (Some token, {| inner := inner self; temp := rest |})
  | [] =>
      match inner self with
      | [] => (None, self)
      | MessageToken.Escape :: rest => (Some MessageToken.Escape, {| inner := tail rest; temp := [] |})
      | MessageToken.CodeblockMarker ty :: rest =>
          match find_marker ty rest [] with
          | (_, Some rest) =>
              (Some (MessageToken.CodeblockMarker ty),
               {| inner := rest; temp := [MessageToken.CodeblockMarker ty] |})
          | (seen, None) =>
              (Some (MessageToken.CodeblockMarker ty), {| inner := []; temp := seen |})
          end
      | token :: rest => (Some token, {| inner := rest; temp := [] |})
      end
  end.

(** What is left to do: a token of the lexer may be handed out through [temp]. *)
Definition left_to_do (self : MessageParserIterator) : nat := 2 * length (inner self) + length (temp self).

Lemma find_marker_length ty tokens seen :
  match find_marker ty tokens seen with
  | (seen', Some rest) => (length rest < length tokens)%nat
  | (seen', None) => seen' = seen ++ tokens
  end.
Proof.
  revert seen. induction tokens as [|t ts IH]; intros seen; simpl.
  - by rewrite app_nil_r.
  - case_bool_decide; [lia|]. specialize (IH (seen ++ [t])). destruct find_marker as [s' [r|]].
    + lia.
    + by rewrite IH, <- app_assoc.
Qed.

Lemma next_decreases self token self' :
  next self = (Some token, self') -> (left_to_do self' < left_to_do self)%nat.
Proof.
  unfold next, left_to_do. destruct self as [[|t ts] [|u us]]; simpl; intros E; simplify_eq/=; try lia.
  destruct t; simplify_eq/=; try lia.
  - destruct ts; simpl; lia.
  - pose proof (find_marker_length ty ts []) as Hl. destruct find_marker as [s' [r|]]; simplify_eq/=; lia.
Qed.

(** A value together with the equation that it is that value. *)
Definition remember {A} (a : A) : { b | a = b } := exist _ a eq_refl.

(** The tokens a [for] loop over the iterator sees. *)
Equations? collect (self : MessageParserIterator) : list MessageToken by wf (left_to_do self) lt :=
  collect self with remember (next self) => {
    | exist _ (Some token, self') E => token :: collect self'
    | exist _ (None, self') E => [] }.
Proof. eapply next_decreases; exact E. Defined.

(** [MessageToken::lexer(text).flatten()]: errors are skipped. *)
Definition parse_message_iter (lexer : string -> list (option MessageToken)) (text : string)
    : list MessageToken :=
  collect {| inner := omap id (lexer text); temp := [] |}.

Definition add_token (results : MessageResults) (token : MessageToken) : MessageResults :=
  match token with
  | MessageToken.Escape | MessageToken.CodeblockMarker _ => results
  | MessageToken.UserMention id =>
      {| user_mentions := {[ id ]} ∪ user_mentions results; role_mentions := role_mentions results;
         mentions_everyone := mentions_everyone results; mentions_online := mentions_online results |}
  | MessageToken.RoleMention id =>
      {| user_mentions := user_mentions results; role_mentions := {[ id ]} ∪ role_mentions results;
         mentions_everyone := mentions_everyone results; mentions_online := mentions_online results |}
  | MessageToken.MentionEveryone =>
      {| user_mentions := user_mentions results; role_mentions := role_mentions results;
         mentions_everyone := true; mentions_online := mentions_online results |}
  | MessageToken.MentionOnline =>
      {| user_mentions := user_mentions results; role_mentions := role_mentions results;
         mentions_everyone := mentions_everyone results; mentions_online := true |}
  end.

Definition parse_message (lexer : string -> list (option MessageToken)) (text : string) : MessageResults :=
  foldl add_token MessageResults_default (parse_message_iter lexer text).

(** ** What the iterator yields *)

Definition is_plain (token : MessageToken) : Prop :=
  match token with MessageToken.Escape | MessageToken.CodeblockMarker _ => False | _ => True end.

(** [yields tokens out]: an escape drops the token behind it; a code block is
    reduced to its two markers; after a marker without a partner everything is
    handed out as it is. *)
Inductive yields : list MessageToken -> list MessageToken -> Prop :=
| yields_nil : yields [] []
| yields_escape t ts out :
    yields ts out -> yields (MessageToken.Escape :: t :: ts) (MessageToken.Escape :: out)
| yields_escape_end : yields [MessageToken.Escape] [MessageToken.Escape]
| yields_block ty inside ts out :
    MessageToken.CodeblockMarker ty ∉ inside -> yields ts out ->
    yields (MessageToken.CodeblockMarker ty :: inside ++ MessageToken.CodeblockMarker ty :: ts)
           (MessageToken.CodeblockMarker ty :: MessageToken.CodeblockMarker ty :: out)
| yields_open ty ts :
    MessageToken.CodeblockMarker ty ∉ ts ->
    yields (MessageToken.CodeblockMarker ty :: ts) (MessageToken.CodeblockMarker ty :: ts)
| yields_plain t ts out : is_plain t -> yields ts out -> yields (t :: ts) (t :: out).

Lemma find_marker_found ty inside ts seen :
  MessageToken.CodeblockMarker ty ∉ inside ->
  find_marker ty (inside ++ MessageToken.CodeblockMarker ty :: ts) seen = (seen ++ inside, Some ts).
Proof.
  revert seen. induction inside as [|t inside IH]; intros seen Hn; simpl.
  - by rewrite bool_decide_true, app_nil_r.
  - apply not_elem_of_cons in Hn as [Hne Hn].
    rewrite bool_decide_false by congruence. by rewrite (IH _ Hn), <- app_assoc.
Qed.

Lemma find_marker_missing ty ts seen :
  MessageToken.CodeblockMarker ty ∉ ts -> find_marker ty ts seen = (seen ++ ts, None).
Proof.
  revert seen. induction ts as [|t ts IH]; intros seen Hn; simpl; [by rewrite app_nil_r|].
  apply not_elem_of_cons in Hn as [Hne Hn].
  rewrite bool_decide_false by congruence. by rewrite (IH _ Hn), <- app_assoc.
Qed.

Lemma collect_some self token self' : next self = (Some token, self') -> collect self = token :: collect self'.
Proof.
  intros E. rewrite collect_equation_1. destruct (remember (next self)) as [v E'].
  assert (v = (Some token, self')) as -> by congruence. reflexivity.
Qed.

Lemma collect_none self self' : next self = (None, self') -> collect self = [].
Proof.
  intros E. rewrite collect_equation_1. destruct (remember (next self)) as [v E'].
  assert (v = (None, self')) as -> by congruence. reflexivity.
Qed.

Lemma collect_temp ts buffered :
  collect {| inner := ts; temp := buffered |} = buffered ++ collect {| inner := ts; temp := [] |}.
Proof.
  induction buffered as [|t buffered IH]; [done|]. erewrite collect_some by reflexivity.
  simpl. by rewrite IH.
Qed.

Lemma collect_yields ts out : yields ts out -> collect {| inner := ts; temp := [] |} = out.
Proof.
  induction 1 as [|t ts out _ IH| |ty inside ts out Hn _ IH|ty ts Hn|t ts out Hp _ IH].
  - by erewrite collect_none by reflexivity.
  - erewrite collect_some by reflexivity. by rewrite <- IH.
  - erewrite collect_some by reflexivity. by erewrite collect_none by reflexivity.
  - erewrite collect_some by (unfold next; simpl; by rewrite find_marker_found by done).
    rewrite collect_temp. by rewrite <- IH.
  - erewrite collect_some by (unfold next; simpl; by rewrite find_marker_missing by done).
    rewrite collect_temp. erewrite collect_none by reflexivity. by rewrite app_nil_r.
  - rewrite <- IH. by destruct t; try done; erewrite collect_some by reflexivity.
Qed.

(** Every list of tokens has a reading. *)
Lemma yields_total n : forall ts, (length ts <= n)%nat -> exists out, yields ts out.
Proof.
  induction n as [|n IH]; intros [|t ts] Hl; simpl in Hl; try lia; try by (eexists; constructor).
  destruct t as [|ty| | | |].
  - destruct ts as [|u ts]; [eexists; constructor|]. simpl in Hl.
    destruct (IH ts) as [out Ho]; [lia|]. eexists. by constructor.
  - destruct (decide (MessageToken.CodeblockMarker ty ∈ ts)) as [Hin|Hn]; [|eexists; by constructor].
    apply list_elem_of_split_l in Hin as (inside & after & -> & Hn).
    rewrite length_app in Hl. simpl in Hl. destruct (IH after) as [out Ho]; [lia|].
    eexists. by constructor.
  - destruct (IH ts) as [out Ho]; [lia|]. eexists. by constructor.
  - destruct (IH ts) as [out Ho]; [lia|]. eexists. by constructor.
  - destruct (IH ts) as [out Ho]; [lia|]. eexists. by constructor.
  - destruct (IH ts) as [out Ho]; [lia|]. eexists. by constructor.
Qed.

Lemma collect_reads ts : yields ts (collect {| inner := ts; temp := [] |}).
Proof.
  destruct (yields_total (length ts) ts) as [out Ho]; [done|]. by rewrite (collect_yields _ _ Ho).
Qed.

(** The mentions of a list of tokens, over those already found. *)
Lemma mentions_of r ts :
  let res := foldl add_token r ts in
  (forall id, id ∈ user_mentions res <-> id ∈ user_mentions r \/ MessageToken.UserMention id ∈ ts)
  /\ (forall id, id ∈ role_mentions res <-> id ∈ role_mentions r \/ MessageToken.RoleMention id ∈ ts)
  /\ (mentions_everyone res = true <-> mentions_everyone r = true \/ MessageToken.MentionEveryone ∈ ts)
  /\ (mentions_online res = true <-> mentions_online r = true \/ MessageToken.MentionOnline ∈ ts).
Proof.
  revert r. induction ts as [|t ts IH]; intros r; simpl.
  - set_solver.
  - destruct (IH (add_token r t)) as (Hu & Hr & He & Ho).
    split_and!; [intros id; rewrite Hu|intros id; rewrite Hr|rewrite He|rewrite Ho];
      rewrite elem_of_cons; destruct t; simpl; set_solver.
Qed.

(** C31: Parsing a message terminates and reads exactly what the rules of escapes
    and code blocks say: the tokens it sees are the one reading of the lexer's
    tokens, and its mentions are the mentions among them. *)
Theorem message_reading lexer text :
  let tokens := omap id (lexer text) in
  let results := parse_message lexer text in
  exists out, parse_message_iter lexer text = out /\ (forall out', yields tokens out' <-> out' = out)
    /\ (forall id, id ∈ user_mentions results <-> MessageToken.UserMention id ∈ out)
    /\ (forall id, id ∈ role_mentions results <-> MessageToken.RoleMention id ∈ out)
    /\ (mentions_everyone results = true <-> MessageToken.MentionEveryone ∈ out)
    /\ (mentions_online results = true <-> MessageToken.MentionOnline ∈ out).
Proof.
  intros tokens results. exists (parse_message_iter lexer text).
  destruct (mentions_of MessageResults_default (parse_message_iter lexer text)) as (Hu & Hr & He & Ho).
  fold (parse_message lexer text) in Hu, Hr, He, Ho. fold results in Hu, Hr, He, Ho.
  split_and!; [done| | | | |].
  - intros out'. split; [|intros ->; apply collect_reads]. intros Hy. by rewrite <- (collect_yields _ _ Hy).
  - intros id. rewrite Hu. simpl. set_solver.
  - intros id. rewrite Hr. simpl. set_solver.
  - rewrite He. simpl. naive_solver.
  - rewrite Ho. simpl. naive_solver.
Qed.

Lemma yields_plain_app before ts out :
  Forall is_plain before -> yields ts out -> yields (before ++ ts) (before ++ out).
Proof. induction 1; simpl; [done|]. intros Hy. constructor; auto. Qed.

Lemma foldl_marker r ty ts :
  foldl add_token r (MessageToken.CodeblockMarker ty :: ts) = foldl add_token r ts.
Proof. done. Qed.

(** Code is silent: what stands inside of a closed code block, behind text
    without escapes and other blocks, has no influence on the mentions of a
    message; they are those of the text around it. *)
Lemma code_is_silent lexer text lexer' text' before ty inside after :
  omap id (lexer text)
  = before ++ MessageToken.CodeblockMarker ty :: inside ++ MessageToken.CodeblockMarker ty :: after ->
  omap id (lexer' text') = before ++ after ->
  Forall is_plain before -> MessageToken.CodeblockMarker ty ∉ inside ->
  parse_message lexer text = parse_message lexer' text'.
Proof.
  intros E E' Hb Hn. unfold parse_message, parse_message_iter. rewrite E, E'.
  pose proof (collect_reads after) as Ha.
  erewrite (collect_yields (before ++ _ :: _))
    by (apply yields_plain_app; [done|]; apply yields_block; [done|exact Ha]).
  erewrite (collect_yields (before ++ after)) by (apply yields_plain_app; [done|exact Ha]).
  by rewrite !foldl_app, !foldl_marker.
Qed.

(** After a marker without a partner an escape is no escape: the mention behind
    it counts.  In front of the marker it does not. *)
Lemma open_block_revives_escaped lexer text ty user :
  (omap id (lexer text) = [MessageToken.CodeblockMarker ty; MessageToken.Escape; MessageToken.UserMention user] ->
   user ∈ user_mentions (parse_message lexer text))
  /\ (omap id (lexer text) = [MessageToken.Escape; MessageToken.UserMention user; MessageToken.CodeblockMarker ty] ->
   user ∉ user_mentions (parse_message lexer text)).
Proof.
  unfold parse_message, parse_message_iter. split; intros ->.
  - erewrite collect_yields by (apply yields_open; set_solver). simpl. set_solver.
  - erewrite collect_yields by (apply yields_escape, yields_open; set_solver). simpl. set_solver.
Qed.

Module ParserWitness.
(** The tokens of ["hi <@A> `<@B>`"]. *)
Definition lexer (text : string) : list (option MessageToken) :=
  [None; Some (MessageToken.UserMention "A"); None; Some (MessageToken.CodeblockMarker 1);
   Some (MessageToken.UserMention "B"); Some (MessageToken.CodeblockMarker 1)].
Definition plain_lexer (text : string) : list (option MessageToken) := [Some (MessageToken.UserMention "A")].

Example quoted_mention_ignored : parse_message lexer "hi <@A> `<@B>`" = parse_message plain_lexer "hi <@A>".
Proof.
  apply (code_is_silent lexer _ plain_lexer _ [MessageToken.UserMention "A"] 1
           [MessageToken.UserMention "B"] []); try reflexivity.
  - by repeat constructor.
  - set_solver.
Qed.

Example mentioned_users : elements (user_mentions (parse_message lexer "hi <@A> `<@B>`")) = ["A"].
Proof. vm_compute. reflexivity. Qed.
End ParserWitness.
