(* ===== verification/Lru.v ===== *)
(** * A bounded cache of keys (the crate [lru])

    [lru::LruCache<String, ()>] is used in two places as a set that forgets: for
    idempotency keys and for the events a client has seen.  The crate is not in
    the repository; the class states what its documentation says of [get],
    [contains] and [put] over the keys in order of their last use, the most
    recent first.  [list_lru] shows that the laws can hold. *)

From S2P Require Import Prelude.

Class LruCache (C : Type) := {
  lru_get : string -> C -> option unit * C;
  lru_contains : string -> C -> bool;
  lru_put : string -> C -> C }.

(** A key that is used moves to the front. *)
Definition touch (k : string) (l : list string) : list string := k :: filter (fun x => x <> k) l.

Class LruLaws (C : Type) (capacity : nat) `{LruCache C} := {
  lru_keys : C -> list string;
  lru_get_law k c :
    (k ∈ lru_keys c -> (lru_get k c).1 = Some tt /\ lru_keys (lru_get k c).2 = touch k (lru_keys c))
    /\ (k ∉ lru_keys c -> (lru_get k c).1 = None /\ lru_keys (lru_get k c).2 = lru_keys c);
  lru_contains_law k c : lru_contains k c = bool_decide (k ∈ lru_keys c);
  lru_put_law k c : lru_keys (lru_put k c) = take capacity (touch k (lru_keys c)) }.

(** ** What a used key costs the others *)

(** [k] is in the list behind at most the keys of [used]. *)
Definition kept (k : string) (used : gset string) (l : list string) : Prop :=
  exists pre post, l = pre ++ k :: post /\ NoDup pre /\ (k ∉ pre) /\ (list_to_set pre : gset string) ⊆ used.

Lemma kept_elem k used l : kept k used l -> k ∈ l.
Proof. intros (pre & post & -> & _). set_solver. Qed.

Lemma kept_touch_self k l used : kept k used (touch k l).
Proof. exists [], (filter (fun x => x <> k) l). split_and!; [done|constructor|set_solver|set_solver]. Qed.

Lemma kept_touch k x used l : x <> k -> kept k used l -> kept k ({[ x ]} ∪ used) (touch x l).
Proof.
  intros Hne (pre & post & -> & Hn & Hk & Hu).
  exists (x :: filter (fun y => y <> x) pre), (filter (fun y => y <> x) post). split_and!.
  - unfold touch. rewrite filter_app, filter_cons_True by done. done.
  - constructor; [rewrite list_elem_of_filter; naive_solver|by apply NoDup_filter].
  - rewrite elem_of_cons, list_elem_of_filter. naive_solver.
  - intros y. rewrite elem_of_list_to_set, elem_of_cons, list_elem_of_filter. set_solver.
Qed.

(** A cache that has room for more than the used keys does not drop [k]. *)
Lemma kept_take k used l n : (size used < n)%nat -> kept k used l -> kept k used (take n l).
Proof.
  intros Hs (pre & post & -> & Hn & Hk & Hu).
  assert (length pre < n)%nat as Hl.
  { rewrite <- (size_list_to_set (C := gset string) pre) by done. apply subseteq_size in Hu. lia. }
  exists pre, (take (n - S (length pre)) post). split_and!; [|done..].
  rewrite take_app_ge by lia. f_equal.
  destruct (n - length pre)%nat as [|j] eqn:E; [lia|]. simpl. do 2 f_equal. lia.
Qed.

(** ** A list of keys is such a cache *)
Module ListLru.
Definition list_get (k : string) (l : list string) : option unit * list string :=
  if bool_decide (k ∈ l) then (Some tt, touch k l) else (None, l).

Section Instances.
Variable capacity : nat.
#[local] Instance list_lru : LruCache (list string) := {|
  lru_get := list_get;
  lru_contains k l := bool_decide (k ∈ l);
  lru_put k l := take capacity (touch k l) |}.
#[local] Program Instance list_lru_laws : LruLaws (list string) capacity := {| lru_keys := id |}.
Next Obligation.
  intros k c. unfold lru_get; simpl; unfold list_get, id.
  split; intros Hk; [rewrite bool_decide_true by done|rewrite bool_decide_false by done]; done.
Qed.
Next Obligation. done. Qed.
Next Obligation. done. Qed.
End Instances.
End ListLru.
