(* ===== verification/Idempotency.v ===== *)
(** * Idempotency keys ([crates/core/database/src/util/idempotency.rs])

    A request that creates something may carry a key; a key that was seen is
    refused.  The keys are in one cache of 1000 entries that drops the key whose
    last use is longest ago.  The header of the request and the drawn ULID are
    arguments.

    The theorem: a key that was accepted is refused for as long as fewer than
    1000 other keys were used since. *)

From S2P Require Import Prelude Results Lru.

Definition TOKEN_CACHE_SIZE : nat := 1000.

Record IdempotencyKey := { ik_key : string }.

Section Keys.
Context {C : Type} `{LruCache C}.
Local Abbreviation K := (M ErrorType C).

(** The check both entry points share. *)
Definition use_key (key : string) : K unit := fun cache =>
  match lru_get key cache with
  | (Some _, cache) => (Err ErrorType.DuplicateNonce, cache)
  | (None, cache) => (Ok tt, lru_put key cache)
  end.

(** [IdempotencyKey::consume_nonce] *)
Definition consume_nonce (self : IdempotencyKey) (v : option string) : K IdempotencyKey :=
  match v with
  | Some v => use_key v;; mret {| ik_key := v |}
  | None => mret self
  end.

Definition unchecked_from_string (key : string) : IdempotencyKey := {| ik_key := key |}.
Definition into_key (self : IdempotencyKey) : string := ik_key self.

(** [FromRequest::from_request]: [header] is the first [Idempotency-Key]. *)
Definition from_request (header : option string) (ulid : string) : K IdempotencyKey :=
  match header with
  | Some key =>
      if (64 <? Z.of_nat (String.length key)) then
        throw (ErrorType.FailedValidation "idempotency key too long")
      else use_key key;; mret {| ik_key := key |}
  | None => mret {| ik_key := ulid |}
  end.

(** ** Replays *)

(** One request against the cache, with the key it uses. *)
Inductive Use : Type :=
| Header (header : option string) (ulid : string)
| Nonce (self : IdempotencyKey) (v : option string).

Definition use_request (u : Use) : K IdempotencyKey :=
  match u with
  | Header header ulid => from_request header ulid
  | Nonce self v => consume_nonce self v
  end.

Definition used_key (u : Use) : option string :=
  match u with Header header _ => header | Nonce _ v => v end.

Definition used_keys (us : list Use) : gset string := list_to_set (omap used_key us).

(** The cache after a sequence of requests, refused or not. *)
Definition after (us : list Use) (cache : C) : C := foldl (fun c u => (use_request u c).2) cache us.
End Keys.

Section Replay.
Context {C : Type} `{LruLaws C TOKEN_CACHE_SIZE}.

Lemma use_key_self k (c : C) : kept k ∅ (lru_keys (use_key k c).2).
Proof.
  unfold use_key. destruct (lru_get_law k c) as [Hin Hout].
  destruct (decide (k ∈ lru_keys c)) as [Hk|Hk].
  - destruct (Hin Hk) as [E1 E2]. destruct (lru_get k c) as [[[]|] c'] eqn:E; simplify_eq/=.
    rewrite E2. apply kept_touch_self.
  - destruct (Hout Hk) as [E1 E2]. destruct (lru_get k c) as [[[]|] c'] eqn:E; simplify_eq/=.
    rewrite lru_put_law. apply kept_take; [vm_compute; lia|]. apply kept_touch_self.
Qed.

Lemma use_key_kept k x used (c : C) :
  x <> k -> (size ({[ x ]} ∪ used) < TOKEN_CACHE_SIZE)%nat -> kept k used (lru_keys c) ->
  kept k ({[ x ]} ∪ used) (lru_keys (use_key x c).2).
Proof.
  intros Hne Hs Hk. unfold use_key. destruct (lru_get_law x c) as [Hin Hout].
  destruct (decide (x ∈ lru_keys c)) as [Hx|Hx].
  - destruct (Hin Hx) as [E1 E2]. destruct (lru_get x c) as [[[]|] c'] eqn:E; simplify_eq/=.
    rewrite E2. by apply kept_touch.
  - destruct (Hout Hx) as [E1 E2]. destruct (lru_get x c) as [[[]|] c'] eqn:E; simplify_eq/=.
    rewrite lru_put_law, E2. apply kept_take; [done|]. by apply kept_touch.
Qed.

Lemma request_state (u : Use) (c : C) :
  (use_request u c).2 = c
  \/ exists x, used_key u = Some x /\ (use_request u c).2 = (use_key x c).2.
Proof.
  destruct u as [[x|] ulid|self [x|]]; simpl; auto; [|right; exists x; split; [done|]].
  - unfold from_request. destruct (_ <? _); [by left|]. right. exists x. split; [done|].
    unfold mbind, M_bind. by destruct (use_key x c) as [[]].
  - unfold mbind, M_bind. by destruct (use_key x c) as [[]].
Qed.

Lemma kept_mono k used used' l : used ⊆ used' -> kept k used l -> kept k used' l.
Proof. intros Hs (pre & post & -> & Hn & Hk & Hu). exists pre, post. split_and!; set_solver. Qed.

Lemma after_kept k us used (c : C) :
  (size ((used ∪ used_keys us) ∖ {[ k ]}) < TOKEN_CACHE_SIZE)%nat ->
  kept k (used ∖ {[ k ]}) (lru_keys c) ->
  kept k ((used ∪ used_keys us) ∖ {[ k ]}) (lru_keys (after us c)).
Proof.
  revert used c. induction us as [|u us IH]; intros used c Hs Hk.
  - eapply kept_mono; [|exact Hk]. set_solver.
  - assert (used_keys (u :: us)
            = match used_key u with Some x => {[ x ]} ∪ used_keys us | None => used_keys us end) as Eu.
    { unfold used_keys. simpl. by destruct (used_key u). }
    simpl. destruct (request_state u c) as [->|(x & Ex & ->)].
    + assert (used_keys us ⊆ used_keys (u :: us)) as Hsub by (rewrite Eu; destruct (used_key u); set_solver).
      eapply kept_mono; [|apply (IH used); [|done]]; [clear -Hsub; set_solver|].
      eapply Nat.le_lt_trans; [|exact Hs]. apply subseteq_size. clear -Hsub. set_solver.
    + rewrite Eu, Ex in *.
      assert ((used ∪ ({[ x ]} ∪ used_keys us)) = ({[ x ]} ∪ used) ∪ used_keys us) as -> by set_solver.
      assert (used ∪ ({[x]} ∪ used_keys us) = ({[ x ]} ∪ used) ∪ used_keys us) as E1 by set_solver.
      rewrite E1 in Hs. apply IH; [done|]. destruct (decide (x = k)) as [->|Hne].
      * eapply kept_mono; [|apply use_key_self]. set_solver.
      * eapply kept_mono; [|apply (use_key_kept k x (used ∖ {[ k ]})); [done| |done]]; [set_solver|].
        eapply Nat.le_lt_trans; [|exact Hs]. apply subseteq_size. set_solver.
Qed.

(** A key works once: after a request that used the key, accepted or not, and
    any further requests that use fewer than 1000 other keys, a request with the
    key is refused with [DuplicateNonce], through the header as through the
    nonce. *)
Theorem key_replay_refused (c : C) key us self ulid :
  (Z.of_nat (String.length key) <= 64)%Z ->
  (size (used_keys us ∖ {[ key ]}) < TOKEN_CACHE_SIZE)%nat ->
  let c' := after us (use_key key c).2 in
  (from_request (Some key) ulid c').1 = Err ErrorType.DuplicateNonce
  /\ (consume_nonce self (Some key) c').1 = Err ErrorType.DuplicateNonce.
Proof.
  intros Hl Hs c'.
  assert (key ∈ lru_keys c') as Hin.
  { eapply kept_elem. apply (after_kept key us ∅).
    - by rewrite union_empty_l_L.
    - eapply kept_mono; [|apply use_key_self]. set_solver. }
  assert ((use_key key c').1 = Err ErrorType.DuplicateNonce) as Hk.
  { unfold use_key. destruct (lru_get_law key c') as [Hg _]. destruct (Hg Hin) as [E1 _].
    by destruct (lru_get key c') as [[[]|] c''] eqn:E; simplify_eq/=. }
  unfold from_request, consume_nonce. destruct (Z.ltb_spec 64 (Z.of_nat (String.length key))); [lia|].
  unfold mbind, M_bind. by destruct (use_key key c') as [[] c'']; simplify_eq/=.
Qed.
End Replay.

Module IdempotencyWitness.
Import ListLru.
#[local] Instance token_cache : LruCache (list string) := list_lru TOKEN_CACHE_SIZE.
#[local] Instance token_cache_laws : LruLaws (list string) TOKEN_CACHE_SIZE := list_lru_laws TOKEN_CACHE_SIZE.
Definition requests : list Use := [Header (Some "b") "0"; Nonce {| ik_key := "1" |} (Some "a"); Header None "2"].

Lemma key_replay_refused_witness :
  (from_request (Some "a") "3" (after requests (use_key "a" []).2)).1 = Err ErrorType.DuplicateNonce.
Proof.
  exact (proj1 (key_replay_refused [] "a" requests {| ik_key := "" |} "3"
    ltac:(vm_compute; discriminate) ltac:(apply Nat.ltb_lt; vm_compute; reflexivity))).
Defined.
End IdempotencyWitness.
