(* ===== verification/Coalesced.v ===== *)
(** * Coalesced requests ([crates/core/coalesced/src/service.rs], [config.rs], [error.rs])

    A service that runs an action once for all callers that ask for it at the
    same time: the first caller of an id runs it and the others wait for its
    result on a watch channel.  It limits how many actions run and can queue the
    rest.  Modelled with the feature [queue] and without [cache], as the GIF
    service builds it.

    Every lock is held for one access, so a call of [execute] is a sequence of
    atomic accesses, and calls interleave between any two of them: [Pc] is where
    a call stands, [task_step] is its next access.  The value an action computes
    is an argument of the step that ends it.  A call may be dropped at any time
    (its client goes away); the senders it holds are dropped with it, its
    entries stay.

    The theorems: a result is of the caller's type and was computed by an
    action of the caller's id; nobody waits for a channel that nobody serves;
    and where the code departs from its documentation. *)

From S2P Require Import Prelude.

Module Error.
Inductive Error : Type := RecvError | MaxConcurrent | MaxQueue | DowncastError.
End Error.
Abbreviation Error := Error.Error.

Record CoalescionServiceConfig := {
  max_concurrent : option Z;
  queue_requests : bool;
  max_queue : option Z }.
Definition CoalescionServiceConfig_default : CoalescionServiceConfig :=
  {| max_concurrent := Some 100; queue_requests := true; max_queue := Some 100 |}.

(** [Arc<dyn Any>]: a value with its type. *)
Record Any := { any_type : string; any_value : Z }.

(** A watch channel: the id it was made for, the value sent, whether the sender
    still exists. *)
Record Watch := { w_id : string; w_value : option Any; w_sender : bool }.

(** Where a call of [execute] stands: before the next access. *)
Module Pc.
Inductive Pc : Type :=
| ReadWatchers
| ReadQueue
| Enqueue
| QueueLength (send : nat)                          (* the head of the loop *)
| QueueFirst (send : nat)
| Dequeue (send : nat)
| Insert (response : option nat)
| Running (send : nat) (response : option nat)      (* func().await *)
| Remove (send : nat) (response : option nat) (value : Any)
| Waiting (receiver : nat)
| Done (result : Any + Error)
| Dropped.
End Pc.
Abbreviation Pc := Pc.Pc.

Record Task := { t_id : string; t_type : string; t_pc : Pc }.

Record CoalescionService := {
  watchers : gmap string nat;
  queue : list (string * nat);
  channels : gmap nat Watch;
  tasks : gmap nat Task;
  (** every action that ended, with its id *)
  computed : list (string * Any) }.

Definition from_config : CoalescionService :=
  {| watchers := ∅; queue := []; channels := ∅; tasks := ∅; computed := [] |}.

(** [current_task_count], [current_queue_len] *)
Definition current_task_count (s : CoalescionService) : Z := Z.of_nat (size (watchers s)).
Definition current_queue_len (s : CoalescionService) : Z := Z.of_nat (length (queue s)).

Definition queue_get (id : string) (q : list (string * nat)) : option nat :=
  snd <$> (snd <$> list_find (fun e => e.1 = id) q).
(** [IndexMap::insert]: an existing key keeps its position. *)
Fixpoint queue_insert (id : string) (c : nat) (q : list (string * nat)) : list (string * nat) :=
  match q with
  | [] => [(id, c)]
  | (k, v) :: q => if bool_decide (k = id) then (k, c) :: q else (k, v) :: queue_insert id c q
  end.
Definition shift_remove (id : string) (q : list (string * nat)) : list (string * nat) :=
  filter (fun e => e.1 <> id) q.

Definition set_tasks (ts : gmap nat Task) (s : CoalescionService) : CoalescionService :=
  {| watchers := watchers s; queue := queue s; channels := channels s; tasks := ts; computed := computed s |}.
Definition set_watchers (ws : gmap string nat) (s : CoalescionService) : CoalescionService :=
  {| watchers := ws; queue := queue s; channels := channels s; tasks := tasks s; computed := computed s |}.
Definition set_queue (q : list (string * nat)) (s : CoalescionService) : CoalescionService :=
  {| watchers := watchers s; queue := q; channels := channels s; tasks := tasks s; computed := computed s |}.
Definition set_channels (cs : gmap nat Watch) (s : CoalescionService) : CoalescionService :=
  {| watchers := watchers s; queue := queue s; channels := cs; tasks := tasks s; computed := computed s |}.
Definition log_computed (id : string) (v : Any) (s : CoalescionService) : CoalescionService :=
  {| watchers := watchers s; queue := queue s; channels := channels s; tasks := tasks s;
     computed := computed s ++ [(id, v)] |}.

(** [watch_channel(None)] *)
Definition new_channel (s : CoalescionService) : nat := fresh (dom (channels s) : gset nat).
Definition open_channel (id : string) (c : nat) : CoalescionService -> CoalescionService := fun s =>
  set_channels (<[c := {| w_id := id; w_value := None; w_sender := true |}]> (channels s)) s.
(** [send_modify(|opt| opt.replace(value))] *)
Definition send (c : nat) (v : Any) (s : CoalescionService) : CoalescionService :=
  set_channels (alter (fun w => {| w_id := w_id w; w_value := Some v; w_sender := w_sender w |}) c (channels s)) s.
Definition send_response (response : option nat) (v : Any) (s : CoalescionService) : CoalescionService :=
  match response with Some c => send c v s | None => s end.
Definition drop_sender (c : nat) (s : CoalescionService) : CoalescionService :=
  set_channels (alter (fun w => {| w_id := w_id w; w_value := w_value w; w_sender := false |}) c (channels s)) s.

Definition goto (tid : nat) (t : Task) (pc : Pc) (s : CoalescionService) : CoalescionService :=
  set_tasks (<[tid := {| t_id := t_id t; t_type := t_type t; t_pc := pc |}]> (tasks s)) s.

(** [Arc::downcast] *)
Definition downcast (ty : string) (v : Any) : Any + Error :=
  if bool_decide (any_type v = ty) then inl v else inr Error.DowncastError.

(** [wait_for]: blocks until there is a value, fails when the sender is gone. *)
Definition wait_for (ty : string) (w : Watch) : option (Any + Error) :=
  match w_value w with
  | Some v => Some (downcast ty v)
  | None => if w_sender w then None else Some (inr Error.RecvError)
  end.

(** The senders a call holds, dropped when it returns or is dropped. *)
Definition senders (pc : Pc) : list nat :=
  match pc with
  | Pc.QueueLength c | Pc.QueueFirst c | Pc.Dequeue c => [c]
  | Pc.Insert response => option_list response
  | Pc.Running c response | Pc.Remove c response _ => c :: option_list response
  | _ => []
  end.

Definition finish (tid : nat) (t : Task) (r : Any + Error) (s : CoalescionService) : CoalescionService :=
  goto tid t (Pc.Done r) (foldr drop_sender s (senders (t_pc t))).

(** ** The accesses of [execute] *)

Section Execute.
Variable config : CoalescionServiceConfig.

(** The first read: a running action, a free slot, or the limit. *)
Definition read_watchers (tid : nat) (t : Task) (s : CoalescionService) : CoalescionService :=
  match watchers s !! t_id t with
  | Some receiver => goto tid t (Pc.Waiting receiver) s
  | None =>
      match max_concurrent config with
      | Some max =>
          if max <=? current_task_count s then
            if queue_requests config then goto tid t Pc.ReadQueue s
            else finish tid t (inr Error.MaxConcurrent) s
          else goto tid t (Pc.Insert None) s
      | None => goto tid t (Pc.Insert None) s
      end
  end.

Definition read_queue (tid : nat) (t : Task) (s : CoalescionService) : CoalescionService :=
  match queue_get (t_id t) (queue s) with
  | Some receiver => goto tid t (Pc.Waiting receiver) s
  | None =>
      if match max_queue config with Some max => current_queue_len s <=? max | None => false end
      then finish tid t (inr Error.MaxQueue) s
      else goto tid t Pc.Enqueue s
  end.

(** One access of the task [tid]; [value] is what its action computes, if it is
    the action that ends.  [None]: the task is blocked or has returned. *)
Definition task_step (tid : nat) (value : Z) (s : CoalescionService) : option CoalescionService :=
  match tasks s !! tid with
  | None => None
  | Some t =>
      match t_pc t with
      | Pc.ReadWatchers => Some (read_watchers tid t s)
      | Pc.ReadQueue => Some (read_queue tid t s)
      | Pc.Enqueue =>
          let c := new_channel s in
          let s := open_channel (t_id t) c s in
          Some (goto tid t (Pc.QueueLength c) (set_queue (queue_insert (t_id t) c (queue s)) s))
      | Pc.QueueLength c =>
          (* the loop is entered under Some max_concurrent only *)
          match max_concurrent config with
          | Some max =>
              Some (if current_task_count s <? max then goto tid t (Pc.QueueFirst c) s
                    else goto tid t (Pc.QueueLength c) s)
          | None => None
          end
      | Pc.QueueFirst c =>
          Some (if bool_decide (fst <$> head (queue s) = Some (t_id t))
                then goto tid t (Pc.Dequeue c) s else goto tid t (Pc.QueueLength c) s)
      | Pc.Dequeue c => Some (goto tid t (Pc.Insert (Some c)) (set_queue (shift_remove (t_id t) (queue s)) s))
      | Pc.Insert response =>
          let c := new_channel s in
          let s := open_channel (t_id t) c s in
          Some (goto tid t (Pc.Running c response) (set_watchers (<[t_id t := c]> (watchers s)) s))
      | Pc.Running c response =>
          let v := {| any_type := t_type t; any_value := value |} in
          Some (goto tid t (Pc.Remove c response v) (send c v (log_computed (t_id t) v s)))
      | Pc.Remove c response v =>
          Some (finish tid t (inl v)
                  (send_response response v (set_watchers (delete (t_id t) (watchers s)) s)))
      | Pc.Waiting c =>
          w ← channels s !! c;
          r ← wait_for (t_type t) w;
          Some (finish tid t r s)
      | Pc.Done _ | Pc.Dropped => None
      end
  end.

(** A call starts. *)
Definition spawn (tid : nat) (id ty : string) (s : CoalescionService) : CoalescionService :=
  set_tasks (<[tid := {| t_id := id; t_type := ty; t_pc := Pc.ReadWatchers |}]> (tasks s)) s.

Definition is_final (pc : Pc) : bool := match pc with Pc.Done _ | Pc.Dropped => true | _ => false end.

(** A call is dropped at one of its await points. *)
Definition drop_task (tid : nat) (s : CoalescionService) : option CoalescionService :=
  match tasks s !! tid with
  | Some t => if is_final (t_pc t) then None
              else Some (goto tid t Pc.Dropped (foldr drop_sender s (senders (t_pc t))))
  | None => None
  end.

Inductive step (s : CoalescionService) : CoalescionService -> Prop :=
| step_spawn tid id ty : tasks s !! tid = None -> step s (spawn tid id ty s)
| step_task tid value s' : task_step tid value s = Some s' -> step s s'
| step_drop tid s' : drop_task tid s = Some s' -> step s s'.

Definition reachable : CoalescionService -> Prop := rtc step from_config.
End Execute.

(** ** What every reachable state satisfies *)

Section Invariant.
Variable config : CoalescionServiceConfig.

(** [c] is a channel made for the id [id]. *)
Definition chan_of (s : CoalescionService) (id : string) (c : nat) : Prop :=
  exists w, channels s !! c = Some w /\ w_id w = id.

(** Somebody may still wait on [c] in vain. *)
Definition open_at (s : CoalescionService) (c : nat) : Prop :=
  exists w, channels s !! c = Some w /\ w_value w = None /\ w_sender w = true.

Definition result_of (s : CoalescionService) (t : Task) (v : Any) : Prop :=
  any_type v = t_type t /\ (t_id t, v) ∈ computed s.

Record task_ok (s : CoalescionService) (t : Task) : Prop := {
  ok_senders c : c ∈ senders (t_pc t) -> chan_of s (t_id t) c;
  ok_waiting c : t_pc t = Pc.Waiting c -> chan_of s (t_id t) c;
  ok_queued : match t_pc t with
              | Pc.ReadQueue | Pc.Enqueue | Pc.QueueLength _ | Pc.QueueFirst _ =>
                  is_Some (max_concurrent config)
              | _ => True end;
  ok_remove c r v : t_pc t = Pc.Remove c r v -> result_of s t v;
  ok_done v : t_pc t = Pc.Done (inl v) -> result_of s t v }.

Record service_ok (s : CoalescionService) : Prop := {
  ok_watchers id c : watchers s !! id = Some c -> chan_of s id c;
  ok_queue id c : (id, c) ∈ queue s -> chan_of s id c;
  ok_values c w v : channels s !! c = Some w -> w_value w = Some v -> (w_id w, v) ∈ computed s;
  ok_tasks tid t : tasks s !! tid = Some t -> task_ok s t;
  ok_served c : open_at s c -> exists tid t, tasks s !! tid = Some t /\ c ∈ senders (t_pc t) }.

(** Channels stay, with their id; what was computed stays. *)
Definition grows (s s' : CoalescionService) : Prop :=
  (forall id c, chan_of s id c -> chan_of s' id c) /\ computed s ⊆ computed s'.

#[local] Instance grows_preorder : PreOrder grows.
Proof.
  split.
  - intros s. by split.
  - intros s1 s2 s3 [H1 H2] [H3 H4]. split; [auto|]. by etrans.
Qed.

Lemma task_ok_grows s s' t : grows s s' -> task_ok s t -> task_ok s' t.
Proof.
  intros [Hc Hl] [H1 H2 H3 H4 H5].
  split; auto.
  - intros c r v E. destruct (H4 _ _ _ E). split; auto.
  - intros v E. destruct (H5 _ E). split; auto.
Qed.

(** A task moves on while the rest of the state goes from [s] to [s0]. *)
Lemma goto_ok s s0 tid t pc :
  service_ok s -> tasks s !! tid = Some t -> tasks s0 = tasks s -> grows s s0 ->
  (forall id c, watchers s0 !! id = Some c -> chan_of s0 id c) ->
  (forall id c, (id, c) ∈ queue s0 -> chan_of s0 id c) ->
  (forall c w v, channels s0 !! c = Some w -> w_value w = Some v -> (w_id w, v) ∈ computed s0) ->
  task_ok s0 {| t_id := t_id t; t_type := t_type t; t_pc := pc |} ->
  (forall c, open_at s0 c -> c ∈ senders pc \/ open_at s c /\ c ∉ senders (t_pc t)) ->
  service_ok (goto tid t pc s0).
Proof.
  intros Hok Ht Ets Hg Hw Hq Hv Htask Hopen.
  assert (grows s0 (goto tid t pc s0)) as Hg0 by done. split; try done.
  - simpl. rewrite Ets. intros tid' t'. rewrite lookup_insert_Some.
    intros [[<- <-]|[_ Ht']]; [by apply (task_ok_grows s0)|].
    apply (task_ok_grows s); [by etrans|]. by eapply ok_tasks.
  - intros c Hc. simpl. rewrite Ets. destruct (Hopen c Hc) as [Hin|[Ho Hn]].
    + exists tid. eexists. by rewrite lookup_insert_eq.
    + destruct (ok_served s Hok c Ho) as (tid' & t' & Ht' & Hin). exists tid', t'. split; [|done].
      rewrite lookup_insert_ne; [done|]. intros <-. congruence.
Qed.

(** The same when only the program counter changes. *)
Lemma goto_ok_pc s tid t pc :
  service_ok s -> tasks s !! tid = Some t ->
  task_ok s {| t_id := t_id t; t_type := t_type t; t_pc := pc |} ->
  (forall c, c ∈ senders (t_pc t) -> c ∈ senders pc) ->
  service_ok (goto tid t pc s).
Proof.
  intros Hok Ht Htask Hs. eapply goto_ok; try done; try (by apply Hok).
  intros c Ho. destruct (decide (c ∈ senders (t_pc t))); auto.
Qed.

Lemma chan_of_alter s f c0 id c :
  (forall w, w_id (f w) = w_id w) ->
  chan_of s id c <-> chan_of (set_channels (alter f c0 (channels s)) s) id c.
Proof.
  intros Hf. unfold chan_of. simpl. destruct (decide (c0 = c)) as [->|Hne].
  - rewrite lookup_alter_eq. destruct (channels s !! c) as [w|]; simpl; [|naive_solver].
    split; intros (w' & E & <-); simplify_eq; eexists; split; eauto; by rewrite Hf.
  - by rewrite lookup_alter_ne by done.
Qed.

Lemma drop_senders_fields cs s :
  tasks (foldr drop_sender s cs) = tasks s /\ watchers (foldr drop_sender s cs) = watchers s
  /\ queue (foldr drop_sender s cs) = queue s /\ computed (foldr drop_sender s cs) = computed s
  /\ (forall id c, chan_of (foldr drop_sender s cs) id c <-> chan_of s id c)
  /\ (forall c w', channels (foldr drop_sender s cs) !! c = Some w' ->
        exists w, channels s !! c = Some w /\ w_id w' = w_id w /\ w_value w' = w_value w)
  /\ (forall c, open_at (foldr drop_sender s cs) c -> open_at s c /\ c ∉ cs).
Proof.
  induction cs as [|c0 cs IH]; simpl.
  - split_and!; try done; [by intros; eauto|]. intros c Ho. split; [done|]. apply not_elem_of_nil.
  - destruct IH as (E1 & E2 & E3 & E4 & Hc & Hw & Ho). split_and!; try done.
    + intros id c. rewrite <- Hc. symmetry. by apply chan_of_alter.
    + intros c w'. simpl. destruct (decide (c0 = c)) as [->|Hne].
      * rewrite lookup_alter_eq, fmap_Some. intros (w1 & E & ->). destruct (Hw _ _ E) as (w & ? & ? & ?).
        by exists w.
      * rewrite lookup_alter_ne by done. apply Hw.
    + intros c (w' & E & Hv & Hs). simpl in E. destruct (decide (c0 = c)) as [->|Hne].
      * rewrite lookup_alter_eq, fmap_Some in E. destruct E as (w1 & E & ->). done.
      * rewrite lookup_alter_ne in E by done. destruct (Ho c) as [H1 H2]; [by exists w'|].
        split; [done|]. set_solver.
Qed.

(** Returning and being dropped close the senders. *)
Lemma close_ok s s0 tid t pc :
  service_ok s -> tasks s !! tid = Some t -> tasks s0 = tasks s -> grows s s0 ->
  (forall id c, watchers s0 !! id = Some c -> chan_of s0 id c) ->
  (forall id c, (id, c) ∈ queue s0 -> chan_of s0 id c) ->
  (forall c w v, channels s0 !! c = Some w -> w_value w = Some v -> (w_id w, v) ∈ computed s0) ->
  is_final pc = true -> (forall v, pc = Pc.Done (inl v) -> result_of s0 t v) ->
  (forall c, open_at s0 c -> open_at s c) ->
  service_ok (goto tid t pc (foldr drop_sender s0 (senders (t_pc t)))).
Proof.
  intros Hok Ht Ets Hg Hw Hq Hv Hf Hd Hopen.
  destruct (drop_senders_fields (senders (t_pc t)) s0) as (E1 & E2 & E3 & E4 & Hc & Hcw & Ho).
  apply (goto_ok s); try done.
  - congruence.
  - destruct Hg as [Hg1 Hg2]. split; [|by rewrite E4]. intros id c H. apply Hc. auto.
  - rewrite E2. intros id c Hl. by apply Hc, Hw.
  - rewrite E3. intros id c Hl. by apply Hc, Hq.
  - intros c w v Ew Ev. destruct (Hcw _ _ Ew) as (w0 & Ew0 & -> & Ev0). rewrite E4. eapply Hv; eauto. congruence.
  - destruct pc; try done; split; simpl; try done; try (intros c Hin; by apply not_elem_of_nil in Hin).
    intros v E. destruct (Hd v E). split; [done|]. by rewrite E4.
  - intros c H. right. destruct (Ho c H). auto.
Qed.

Lemma new_channel_fresh s : channels s !! new_channel s = None.
Proof. apply (not_elem_of_dom (D := gset nat)). unfold new_channel. apply is_fresh. Qed.

(** A new channel is the only one that is opened. *)
Lemma open_channel_facts s id :
  let c0 := new_channel s in let s' := open_channel id c0 s in
  chan_of s' id c0 /\ grows s s'
  /\ (forall c w v, channels s' !! c = Some w -> w_value w = Some v -> channels s !! c = Some w)
  /\ (forall c, open_at s' c -> c = c0 \/ open_at s c).
Proof.
  intros c0 s'. pose proof (new_channel_fresh s) as Hf. fold c0 in Hf. split_and!.
  - eexists. simpl. by rewrite lookup_insert_eq.
  - split; [|done]. intros id' c (w & E & Hw). exists w. split; [|done]. simpl.
    rewrite lookup_insert_ne; [done|]. congruence.
  - intros c w v. simpl. rewrite lookup_insert_Some. intros [[_ <-]|[_ E]] Hv; [done|by eauto].
  - intros c (w & E & Hv & Hs). simpl in E. rewrite lookup_insert_Some in E.
    destruct E as [[<- _]|[_ E]]; [by left|right; by exists w].
Qed.

(** Sending makes a channel that is not open, and a value that was computed. *)
Lemma send_facts s c0 v :
  let s' := send c0 v s in
  grows s s'
  /\ (forall c w v', channels s' !! c = Some w -> w_value w = Some v' ->
        (c = c0 /\ v' = v /\ chan_of s (w_id w) c) \/ channels s !! c = Some w)
  /\ (forall c, open_at s' c -> open_at s c /\ c <> c0).
Proof.
  intros s'. split_and!.
  - split; [|done]. intros id c. by rewrite chan_of_alter.
  - intros c w v'. simpl. destruct (decide (c0 = c)) as [->|Hne].
    + rewrite lookup_alter_eq, fmap_Some. intros (w0 & E & ->) Hv. left. simplify_eq/=.
      split_and!; try done. by exists w0.
    + rewrite lookup_alter_ne by done. auto.
  - intros c (w & E & Hv & Hs). simpl in E. destruct (decide (c0 = c)) as [->|Hne].
    + rewrite lookup_alter_eq, fmap_Some in E. destruct E as (w0 & E & ->). done.
    + rewrite lookup_alter_ne in E by done. split; [by exists w|done].
Qed.

Lemma spawn_ok s tid id ty : service_ok s -> tasks s !! tid = None -> service_ok (spawn tid id ty s).
Proof.
  intros [Hw Hq Hv Ht Hs] Hn. assert (grows s (spawn tid id ty s)) as Hg by done. split; try done.
  - simpl. intros tid' t'. rewrite lookup_insert_Some. intros [[<- <-]|[_ Ht']].
    + split; simpl; try done. intros c Hc. by apply not_elem_of_nil in Hc.
    + eapply task_ok_grows; [done|]. eauto.
  - intros c Ho. destruct (Hs c Ho) as (tid' & t' & Ht' & Hin). exists tid', t'. split; [|done].
    simpl. rewrite lookup_insert_ne; [done|]. congruence.
Qed.

Lemma queue_get_elem id q c : queue_get id q = Some c -> (id, c) ∈ q.
Proof.
  unfold queue_get. destruct (list_find _ q) as [[i [k v]]|] eqn:E; [|done]. simpl. intros [= <-].
  apply list_find_Some in E as (E & Hk & _). simpl in Hk. subst. by eapply list_elem_of_lookup_2.
Qed.

Lemma elem_of_queue_insert id c q k v :
  (k, v) ∈ queue_insert id c q -> (k, v) = (id, c) \/ (k, v) ∈ q.
Proof.
  induction q as [|[k' v'] q IH]; simpl; [set_solver|]. case_bool_decide; set_solver.
Qed.

Lemma read_ok s tid t pc c :
  service_ok s -> tasks s !! tid = Some t -> chan_of s (t_id t) c -> senders (t_pc t) = [] ->
  pc = Pc.Waiting c -> service_ok (goto tid t pc s).
Proof.
  intros Hok Ht Hc Hn ->. apply goto_ok_pc; try done.
  - split; simpl; try done; [intros ? Hin; by apply not_elem_of_nil in Hin|]. by intros ? [= <-].
  - rewrite Hn. intros ? Hin. by apply not_elem_of_nil in Hin.
Qed.

Lemma finish_err_ok s tid t r :
  service_ok s -> tasks s !! tid = Some t -> (forall v, r = inl v -> result_of s t v) ->
  service_ok (finish tid t r s).
Proof.
  intros Hok Ht Hr. apply (close_ok s s); try done; try (by apply Hok). intros v [= ->]. auto.
Qed.

Lemma step_pc_ok s tid t pc :
  service_ok s -> tasks s !! tid = Some t -> senders (t_pc t) = [] -> senders pc = [] ->
  match pc with
  | Pc.ReadQueue | Pc.Enqueue => is_Some (max_concurrent config) | Pc.Insert _ => True | _ => False end ->
  service_ok (goto tid t pc s).
Proof.
  intros Hok Ht Hn Hn' Hpc. apply goto_ok_pc; try done.
  - split; simpl; try (by destruct pc). rewrite Hn'. intros ? Hin; by apply not_elem_of_nil in Hin.
  - rewrite Hn. intros ? Hin. by apply not_elem_of_nil in Hin.
Qed.

Lemma read_watchers_ok s tid t :
  service_ok s -> tasks s !! tid = Some t -> t_pc t = Pc.ReadWatchers ->
  service_ok (read_watchers config tid t s).
Proof.
  intros Hok Ht Hpc. unfold read_watchers.
  destruct (watchers s !! t_id t) as [c|] eqn:E.
  - eapply read_ok; eauto; [by eapply ok_watchers|by rewrite Hpc].
  - destruct (max_concurrent config) as [m|] eqn:Em; [|apply step_pc_ok; rewrite ?Hpc; done].
    destruct (m <=? _); [|apply step_pc_ok; rewrite ?Hpc; done].
    destruct (queue_requests config); [apply step_pc_ok; rewrite ?Hpc, ?Em; done|]. by apply finish_err_ok.
Qed.

Lemma read_queue_ok s tid t :
  service_ok s -> tasks s !! tid = Some t -> t_pc t = Pc.ReadQueue ->
  service_ok (read_queue config tid t s).
Proof.
  intros Hok Ht Hpc. unfold read_queue.
  destruct (queue_get _ _) as [c|] eqn:E.
  - eapply read_ok; eauto; [|by rewrite Hpc]. eapply ok_queue; [done|]. by apply queue_get_elem.
  - pose proof (ok_queued s t (ok_tasks s Hok tid t Ht)) as Hm. rewrite Hpc in Hm.
    case_match; [by apply finish_err_ok|apply step_pc_ok; rewrite ?Hpc; done].
Qed.

(** Opening a channel and entering it under the id of the task. *)
Lemma enter_ok s s0 tid t pc :
  let c := new_channel s in let s1 := open_channel (t_id t) c s in
  service_ok s -> tasks s !! tid = Some t ->
  tasks s0 = tasks s -> channels s0 = channels s1 -> computed s0 = computed s ->
  (forall id c', watchers s0 !! id = Some c' -> (id, c') = (t_id t, c) \/ watchers s !! id = Some c') ->
  (forall id c', (id, c') ∈ queue s0 -> (id, c') = (t_id t, c) \/ (id, c') ∈ queue s) ->
  (forall c', c' ∈ senders pc <-> c' = c \/ c' ∈ senders (t_pc t)) ->
  match pc with
  | Pc.QueueLength _ => is_Some (max_concurrent config) | Pc.Running _ _ => True | _ => False end ->
  service_ok (goto tid t pc s0).
Proof.
  intros c s1 Hok Ht Ets Ech Elog Hw Hq Hs Hpc.
  destruct (open_channel_facts s (t_id t)) as (Hc & [Hg _] & Hval & Hopen). fold c s1 in Hc, Hg, Hval, Hopen.
  assert (forall id c', chan_of s0 id c' <-> chan_of s1 id c') as Hch by (intros; unfold chan_of; by rewrite Ech).
  assert (grows s s0) as Hgr.
  { split; [|by rewrite Elog]. intros. apply Hch. auto. }
  apply (goto_ok s); try done.
  - intros id c' H. apply Hch. destruct (Hw _ _ H) as [[= -> ->]|H']; [done|]. apply Hg. by eapply ok_watchers.
  - intros id c' H. apply Hch. destruct (Hq _ _ H) as [[= -> ->]|H']; [done|]. apply Hg. by eapply ok_queue.
  - rewrite Ech, Elog. intros c' w v E Hv'. eapply ok_values; eauto.
  - assert (task_ok s t) as Hto by by eapply ok_tasks. split; simpl.
    + intros c' Hin. apply Hch. apply Hs in Hin as [->|Hin]; [done|]. apply Hg. by apply Hto.
    + by destruct pc.
    + by destruct pc.
    + by destruct pc.
    + by destruct pc.
  - intros c' H. destruct (Hopen c') as [->|Ho].
    + destruct H as (w & E & ?). exists w. by rewrite <- Ech.
    + left. by apply Hs; left.
    + destruct (decide (c' ∈ senders (t_pc t))) as [Hin|]; [|by right]. left. apply Hs. by right.
Qed.

(** The action ends: its value is logged and sent to the waiting calls. *)
Lemma run_ok s tid t c response value :
  service_ok s -> tasks s !! tid = Some t -> t_pc t = Pc.Running c response ->
  let v := {| any_type := t_type t; any_value := value |} in
  service_ok (goto tid t (Pc.Remove c response v) (send c v (log_computed (t_id t) v s))).
Proof.
  intros Hok Ht Hpc v. pose proof (ok_tasks s Hok tid t Ht) as Hto.
  set (s1 := log_computed (t_id t) v s). set (s2 := send c v s1).
  destruct (send_facts s1 c v) as (Hg & Hval & Hopen). fold s2 in Hg, Hval, Hopen.
  assert (grows s s2) as Hgr.
  { etrans; [|exact Hg]. split; [done|]. simpl. set_solver. }
  assert ((t_id t, v) ∈ computed s2) as Hv by (simpl; set_solver).
  apply (goto_ok s); try done.
  - intros id c' H. apply Hgr. by eapply ok_watchers.
  - intros id c' H. apply Hgr. by eapply ok_queue.
  - intros c' w v' E Ev. destruct (Hval _ _ _ E Ev) as [(-> & -> & Hc)|E'].
    + assert (w_id w = t_id t) as ->; [|done].
      destruct (ok_senders s t Hto c) as (w0 & E0 & Hw0); [rewrite Hpc; set_solver|].
      destruct Hc as (w1 & E1 & Hw1). simpl in E1. congruence.
    + apply Hgr. by eapply ok_values.
  - split; simpl; try done.
    + intros c' Hin. apply Hgr. apply (ok_senders s t Hto). by rewrite Hpc.
    + by intros ? ? ? [= <- <- <-].
  - intros c' Ho. simpl. rewrite Hpc. simpl. destruct (Hopen c' Ho) as [Ho' Hne].
    destruct (decide (c' ∈ option_list response)) as [Hin|Hn]; [left; by right|right]. split; [exact Ho'|set_solver].
Qed.

Lemma remove_ok s tid t c response v :
  service_ok s -> tasks s !! tid = Some t -> t_pc t = Pc.Remove c response v ->
  service_ok (finish tid t (inl v) (send_response response v (set_watchers (delete (t_id t) (watchers s)) s))).
Proof.
  intros Hok Ht Hpc. pose proof (ok_tasks s Hok tid t Ht) as Hto.
  destruct (ok_remove s t Hto _ _ _ Hpc) as [Hty Hlog].
  set (s1 := set_watchers (delete (t_id t) (watchers s)) s).
  assert (forall id c', watchers s1 !! id = Some c' -> chan_of s id c') as Hw.
  { intros id c'. simpl. rewrite lookup_delete_Some. intros [_ H]. by eapply ok_watchers. }
  unfold finish, send_response. destruct response as [r|].
  - destruct (send_facts s1 r v) as (Hg & Hval & Hopen).
    assert (grows s (send r v s1)) as Hgr by (etrans; [|exact Hg]; done).
    apply (close_ok s); try done.
    + intros id c' H. apply Hgr, Hw, H.
    + intros id c' H. apply Hgr. by eapply ok_queue.
    + intros c' w v' E Ev. destruct (Hval _ _ _ E Ev) as [(-> & -> & Hc)|E']; [|by eapply (ok_values s)].
      destruct (ok_senders s t Hto r) as (w0 & E0 & Hw0); [rewrite Hpc; set_solver|].
      destruct Hc as (w1 & E1 & Hw1). simpl in E1. assert (w_id w = t_id t) as -> by congruence. done.
    + by intros v' [= <-].
    + intros c' Ho. by apply Hopen.
  - apply (close_ok s); try done; [by apply Hok|by apply Hok|]. by intros v' [= <-].
Qed.

Lemma task_step_ok s tid value s' :
  service_ok s -> task_step config tid value s = Some s' -> service_ok s'.
Proof.
  intros Hok. unfold task_step. destruct (tasks s !! tid) as [t|] eqn:Ht; [|done].
  pose proof (ok_tasks s Hok tid t Ht) as Hto. pose proof (ok_queued s t Hto) as Hm.
  destruct (t_pc t) eqn:Hpc; intros E.
  - simplify_eq. by apply read_watchers_ok.
  - simplify_eq. by apply read_queue_ok.
  - simplify_eq. eapply enter_ok; eauto; try done; simpl; rewrite ?Hpc; simpl.
    + apply elem_of_queue_insert.
    + set_solver.
  - destruct (max_concurrent config) eqn:Em; simplify_eq.
    case_match; apply goto_ok_pc; try done; rewrite ?Hpc; try done; split; simpl; try done;
      intros c Hc; apply (ok_senders s t Hto); by rewrite Hpc.
  - simplify_eq. case_bool_decide; apply goto_ok_pc; try done; rewrite ?Hpc; try done; split; simpl; try done;
      intros c Hc; apply (ok_senders s t Hto); by rewrite Hpc.
  - simplify_eq. apply (goto_ok s); try done; try (by apply Hok).
    + intros id c. simpl. unfold shift_remove. rewrite list_elem_of_filter. intros [_ H]. exact (ok_queue s Hok _ _ H).
    + split; simpl; try done. intros c Hc. apply (ok_senders s t Hto). by rewrite Hpc.
    + rewrite Hpc. intros c Ho. destruct (decide (c ∈ [send0])); auto.
  - simplify_eq. eapply enter_ok; eauto; try done; simpl; rewrite ?Hpc; simpl.
    + intros id c'. rewrite lookup_insert_Some. intros [[<- <-]|[_ H]]; auto.
    + set_solver.
  - simplify_eq. by eapply run_ok.
  - simplify_eq. by eapply remove_ok.
  - destruct (channels s !! receiver) as [w|] eqn:Ew; [|done]. simpl in E.
    destruct (wait_for (t_type t) w) as [r|] eqn:Er; simplify_eq/=. apply finish_err_ok; [done..|].
    intros v ->. unfold wait_for, downcast in Er. destruct (w_value w) as [v'|] eqn:Ev; [|by destruct (w_sender w)].
    case_bool_decide; simplify_eq. split; [done|].
    destruct (ok_waiting s t Hto receiver Hpc) as (w' & E' & <-). simplify_eq. by eapply ok_values.
  - done.
  - done.
Qed.

Lemma drop_ok s tid s' : service_ok s -> drop_task tid s = Some s' -> service_ok s'.
Proof.
  intros Hok. unfold drop_task. destruct (tasks s !! tid) as [t|] eqn:Ht; [|done].
  destruct (is_final (t_pc t)); [done|]. intros [= <-].
  apply (close_ok s s); try done; by apply Hok.
Qed.

Lemma reachable_ok s : reachable config s -> service_ok s.
Proof.
  apply (rtc_ind_r service_ok).
  - split; try done; [intros ? ? Hin; by apply not_elem_of_nil in Hin|]. by intros c (w & E & _).
  - intros s1 s2 _ Hs Hok. destruct Hs; [by apply spawn_ok|by eapply task_step_ok|by eapply drop_ok].
Qed.
End Invariant.

Section Results.
Variable config : CoalescionServiceConfig.

(** A call that holds a sender is never blocked. *)
Lemma holder_steps s tid t value :
  service_ok config s -> tasks s !! tid = Some t -> senders (t_pc t) <> [] ->
  is_Some (task_step config tid value s).
Proof.
  intros Hok Ht Hs. pose proof (ok_queued config s t (ok_tasks config s Hok tid t Ht)) as Hm.
  unfold task_step. rewrite Ht. destruct (t_pc t); simpl in Hs; try done; try by eexists.
  destruct (max_concurrent config); [by eexists|]. by destruct Hm.
Qed.

(** C10: Callers get what was computed for them: in every reachable state, whatever
    the interleaving and whichever calls were dropped, a value that a call
    returned has the type the caller asked for and was computed by an action that
    ran under the caller's id. *)
Theorem coalesced_results_typed s tid t v :
  reachable config s -> tasks s !! tid = Some t -> t_pc t = Pc.Done (inl v) ->
  any_type v = t_type t /\ (t_id t, v) ∈ computed s.
Proof.
  intros Hr Ht Hpc. pose proof (reachable_ok config s Hr) as Hok.
  exact (ok_done config s t (ok_tasks config s Hok tid t Ht) v Hpc).
Qed.

(** C11: No caller waits for a result that nobody will send: in every reachable
    state a call that has not returned can take its next step, or it waits on a
    channel whose sender is held by a call for the same id, and that call can
    take its next step. *)
Theorem waiting_is_served s tid t :
  reachable config s -> tasks s !! tid = Some t -> is_final (t_pc t) = false ->
  (forall value, is_Some (task_step config tid value s))
  \/ exists c tid' t', t_pc t = Pc.Waiting c /\ tasks s !! tid' = Some t' /\ c ∈ senders (t_pc t')
       /\ t_id t' = t_id t /\ forall value, is_Some (task_step config tid' value s).
Proof.
  intros Hr Ht Hf. pose proof (reachable_ok config s Hr) as Hok.
  pose proof (ok_tasks config s Hok tid t Ht) as Hto.
  destruct (decide (senders (t_pc t) = [])) as [Hn|Hn]; [|left; intros value; by eapply holder_steps].
  destruct (t_pc t) eqn:Hpc; simpl in Hn, Hf; try done;
    try (left; intros value; unfold task_step; rewrite Ht, Hpc; by eexists).
  destruct (ok_waiting config s t Hto receiver Hpc) as (w & Ew & Hid).
  destruct (w_value w) as [v|] eqn:Ev; [|destruct (w_sender w) eqn:Es].
  - left. intros value. unfold task_step. rewrite Ht, Hpc, Ew. simpl. unfold wait_for. rewrite Ev. by eexists.
  - right. destruct (ok_served config s Hok receiver) as (tid' & t' & Ht' & Hin); [by exists w|].
    exists receiver, tid', t'. split_and!; try done.
    + destruct (ok_senders config s t' (ok_tasks config s Hok _ _ Ht') receiver Hin) as (w' & Ew' & <-). congruence.
    + intros value. eapply holder_steps; [done..|]. intros E. rewrite E in Hin. by apply not_elem_of_nil in Hin.
  - left. intros value. unfold task_step. rewrite Ht, Hpc, Ew. simpl. unfold wait_for. rewrite Ev, Es. by eexists.
Qed.

(** ** Where the code departs from its documentation *)

Definition never_queued (pc : Pc) : Prop :=
  match pc with
  | Pc.Enqueue | Pc.QueueLength _ | Pc.QueueFirst _ | Pc.Dequeue _ => False
  | _ => True
  end.

Lemma set_tasks_never tid t pc s0 :
  (forall tid' t', tasks s0 !! tid' = Some t' -> never_queued (t_pc t')) -> never_queued pc ->
  forall tid' t', tasks (goto tid t pc s0) !! tid' = Some t' -> never_queued (t_pc t').
Proof.
  intros Hs Hpc tid' t'. simpl. rewrite lookup_insert_Some. intros [[_ <-]|[_ H]]; [done|eauto].
Qed.

Lemma finish_never tid t r s0 :
  queue s0 = [] -> (forall tid' t', tasks s0 !! tid' = Some t' -> never_queued (t_pc t')) ->
  queue (finish tid t r s0) = []
  /\ forall tid' t', tasks (finish tid t r s0) !! tid' = Some t' -> never_queued (t_pc t').
Proof.
  intros Hq Hs. unfold finish.
  destruct (drop_senders_fields (senders (t_pc t)) s0) as (E1 & _ & E3 & _).
  split; [simpl; congruence|]. apply set_tasks_never; [by rewrite E1|done].
Qed.

(** A bound on the queue turns it off: the comparison with [max_queue] is the
    wrong way round, so with any bound nothing is ever queued, and a call at the
    limit of running actions is refused with [MaxQueue]. *)
Lemma bounded_queue_never_used s max :
  max_queue config = Some max -> 0 <= max -> reachable config s ->
  queue s = [] /\ (forall tid t, tasks s !! tid = Some t -> never_queued (t_pc t))
  /\ forall tid t, tasks s !! tid = Some t -> t_pc t = Pc.ReadQueue ->
       task_step config tid 0 s = Some (finish tid t (inr Error.MaxQueue) s).
Proof.
  intros Hm Hmax Hr.
  assert (queue s = [] /\ forall tid t, tasks s !! tid = Some t -> never_queued (t_pc t)) as [Hq Hs].
  { revert s Hr. apply (rtc_ind_r (fun s => queue s = []
      /\ forall tid t, tasks s !! tid = Some t -> never_queued (t_pc t))); [done|].
    intros s1 s2 _ Hst [Hq Hs]. destruct Hst as [tid id ty Hn|tid value s' E|tid s' E].
    - split; [done|]. simpl. intros tid' t'. rewrite lookup_insert_Some. intros [[_ <-]|[_ H]]; [done|eauto].
    - unfold task_step in E. destruct (tasks s1 !! tid) as [t|] eqn:Ht; [|done].
      pose proof (Hs tid t Ht) as Hp.
      destruct (t_pc t) eqn:Hpc; try done; simplify_eq.
      + unfold read_watchers. repeat case_match;
          first [by apply finish_never | split; [done|by apply set_tasks_never]].
      + unfold read_queue. rewrite Hq, Hm. unfold current_queue_len. rewrite Hq. simpl.
        destruct (Z.leb_spec (Z.of_nat 0) max); [|lia]. by apply finish_never.
      + split; [done|by apply set_tasks_never].
      + split; [done|by apply set_tasks_never].
      + apply finish_never; by destruct response.
      + destruct (channels s1 !! receiver) as [w|]; [|done]. simpl in E.
        destruct (wait_for _ w); simplify_eq/=. by apply finish_never.
    - unfold drop_task in E. destruct (tasks s1 !! tid) as [t|] eqn:Ht; [|done].
      destruct (is_final _); simplify_eq.
      destruct (drop_senders_fields (senders (t_pc t)) s1) as (E1 & _ & E3 & _).
      split; [simpl; congruence|]. apply set_tasks_never; [by rewrite E1|done]. }
  split_and!; try done. intros tid t Ht Hpc. unfold task_step. rewrite Ht, Hpc. unfold read_queue.
  rewrite Hq, Hm. unfold current_queue_len. rewrite Hq. simpl. by destruct (Z.leb_spec (Z.of_nat 0) max); [|lia].
Qed.
End Results.

Section Dropped.
Variable config : CoalescionServiceConfig.

(** A caller that goes away while it runs the action poisons the id: its entry
    stays, its sender is gone, and every later call for the id fails with
    [RecvError] and leaves the entry where it is. *)
Lemma dropped_leader_poisons s tid t c response s' tid' ty :
  tasks s !! tid = Some t -> t_pc t = Pc.Running c response ->
  watchers s !! t_id t = Some c -> open_at s c -> drop_task tid s = Some s' -> tid' <> tid ->
  exists s1 s2 t2, task_step config tid' 0 (spawn tid' (t_id t) ty s') = Some s1
    /\ task_step config tid' 0 s1 = Some s2
    /\ tasks s2 !! tid' = Some t2 /\ t_pc t2 = Pc.Done (inr Error.RecvError)
    /\ watchers s2 !! t_id t = Some c.
Proof.
  intros Ht Hpc Hw (w & Ew & Hv & Hs) Hd Hne.
  unfold drop_task in Hd. rewrite Ht, Hpc in Hd. simpl in Hd. injection Hd as <-.
  destruct (drop_senders_fields (option_list response) s) as (E1 & E2 & _ & _ & _ & Hcw & _).
  set (s0 := foldr drop_sender s (option_list response)) in *.
  assert (exists w', channels s0 !! c = Some w' /\ w_value w' = None) as (w' & Ew' & Hv').
  { destruct (drop_senders_fields (option_list response) s) as (_ & _ & _ & _ & Hc & _ & _).
    destruct (proj2 (Hc (w_id w) c)) as (w' & E & _); [by exists w|]. exists w'. split; [done|].
    destruct (Hcw _ _ E) as (w0 & Ew0 & _ & ->). congruence. }
  eexists _, _, _. split_and!.
  - unfold task_step, spawn. simpl. rewrite lookup_insert_eq. simpl. unfold read_watchers. simpl.
    rewrite E2, Hw. reflexivity.
  - unfold task_step. simpl. rewrite lookup_insert_eq. simpl. rewrite lookup_alter_eq, Ew'. simpl.
    unfold wait_for. simpl. rewrite Hv'. reflexivity.
  - simpl. by rewrite lookup_insert_eq.
  - done.
  - simpl. by rewrite E2.
Qed.
End Dropped.

Module CoalescedWitness.
Definition config : CoalescionServiceConfig := CoalescionServiceConfig_default.

(** A run: the tasks that step, in order; the values are all 7. *)
Definition run (tids : list nat) (s : option CoalescionService) : option CoalescionService :=
  foldl (fun s tid => s ← s; task_step config tid 7 s) s tids.

Lemma run_reachable tids s s' : reachable config s -> run tids (Some s) = Some s' -> reachable config s'.
Proof.
  revert s. induction tids as [|tid tids IH]; simpl; intros s Hs E; [by simplify_eq|].
  destruct (task_step config tid 7 s) as [s1|] eqn:E1.
  - apply (IH s1); [|done]. eapply rtc_r; [exact Hs|]. by eapply step_task.
  - exfalso. clear -E. by induction tids; simpl in E.
Qed.

(** Two calls for one id, one after the other. *)
Definition two : CoalescionService := spawn 1 "gif" "Media" (spawn 0 "gif" "Media" from_config).
Lemma two_reachable : reachable config two.
Proof.
  eapply rtc_r; [eapply rtc_r; [apply rtc_refl|]|]; by apply step_spawn.
Qed.

(** The first runs the action, the second waits and gets its value. *)
Definition shared : CoalescionService := default from_config (run [0; 0; 1; 0; 0; 1]%nat (Some two)).
Lemma shared_reachable : reachable config shared.
Proof. apply (run_reachable [0; 0; 1; 0; 0; 1]%nat two); [apply two_reachable|vm_compute; reflexivity]. Qed.

Definition value : Any := {| any_type := "Media"; any_value := 7 |}.
Lemma coalesced_results_typed_witness : any_type value = "Media" /\ ("gif", value) ∈ computed shared.
Proof.
  exact (coalesced_results_typed config shared 1%nat
    {| t_id := "gif"; t_type := "Media"; t_pc := Pc.Done (inl value) |} value
    shared_reachable ltac:(vm_compute; reflexivity) eq_refl).
Defined.

(** The second waits while the first runs. *)
Definition waiting : CoalescionService := default from_config (run [0; 0; 1]%nat (Some two)).
Lemma waiting_reachable : reachable config waiting.
Proof. apply (run_reachable [0; 0; 1]%nat two); [apply two_reachable|vm_compute; reflexivity]. Qed.

Definition waiter : Task := {| t_id := "gif"; t_type := "Media"; t_pc := Pc.Waiting 0 |}.
Lemma waiting_is_served_witness :
  exists tid' t', tasks waiting !! tid' = Some t' /\ is_Some (task_step config tid' 7 waiting).
Proof.
  destruct (waiting_is_served config waiting 1%nat waiter waiting_reachable
    ltac:(vm_compute; reflexivity) eq_refl) as [H|(c & tid' & t' & _ & Ht & _ & _ & Hs)].
  - exists 1%nat, waiter. split; [vm_compute; reflexivity|apply H].
  - exists tid', t'. split; [exact Ht|apply Hs].
Defined.

(** Both callers read the table before either writes: the action runs twice. *)
Example action_runs_twice :
  computed <$> run [0; 1; 0; 1; 0; 1]%nat (Some two) = Some [("gif", value); ("gif", value)].
Proof. vm_compute. reflexivity. Qed.

Example poisoned_id :
  exists s1 s2 t2, task_step config 2 0 (spawn 2 "gif" "Media" (default waiting (drop_task 0 waiting))) = Some s1
    /\ task_step config 2 0 s1 = Some s2 /\ tasks s2 !! 2%nat = Some t2
    /\ t_pc t2 = Pc.Done (inr Error.RecvError) /\ watchers s2 !! "gif" = Some 0%nat.
Proof.
  apply (dropped_leader_poisons config waiting 0%nat
    {| t_id := "gif"; t_type := "Media"; t_pc := Pc.Running 0 None |} 0%nat None
    (default waiting (drop_task 0 waiting)) 2%nat "Media"); try (vm_compute; reflexivity); [|done].
  exists {| w_id := "gif"; w_value := None; w_sender := true |}. by vm_compute.
Qed.
End CoalescedWitness.
