(* ===== verification/Bridge.v ===== *)
(** * Conversions between stored and API structures
    ([crates/core/database/src/util/bridge/v0.rs])

    One definition per [From] implementation, [X_to_v0] from the database to the
    API and [X_from_v0] back, field by field; then the four ways a user is shown
    ([User::into], [into_known], [into_known_static], [into_self]).  Casts
    between integers of different sign keep their width.  What is read from
    outside is an argument: the cut-off of the early adopter badge, the answer of
    the presence service for the user.

    The theorems: what a round trip through the API keeps and loses, that the
    event server calculates the same permissions from the objects it receives as
    the API from the stored ones, and what a user shows to whom. *)

From S2P Require Import Prelude Results Permissions PermissionCalc Models ModelOps DbPermissions PermissionSpec World Users PrivateChannels ApiTypes.

(** [as u32], [as i32] *)
Definition as_u32 (v : Z) : Z := v mod 2 ^ 32.
Definition as_i32 (v : Z) : Z :=
  let w := v mod 2 ^ 32 in if w <? 2 ^ 31 then w else w - 2 ^ 32.
Definition is_i32 (v : Z) : Prop := - 2 ^ 31 <= v < 2 ^ 31.

Definition RelationshipStatus_to_v0 (value : RelationshipStatus) : v0.RelationshipStatus :=
  match value with
  | RelationshipStatus.None => v0.RelationshipStatus.None
  | RelationshipStatus.User => v0.RelationshipStatus.User
  | RelationshipStatus.Friend => v0.RelationshipStatus.Friend
  | RelationshipStatus.Outgoing => v0.RelationshipStatus.Outgoing
  | RelationshipStatus.Incoming => v0.RelationshipStatus.Incoming
  | RelationshipStatus.Blocked => v0.RelationshipStatus.Blocked
  | RelationshipStatus.BlockedOther => v0.RelationshipStatus.BlockedOther
  end.

Definition Presence_to_v0 (value : Presence) : v0.Presence :=
  match value with
  | Presence.Online => v0.Presence.Online
  | Presence.Idle => v0.Presence.Idle
  | Presence.Focus => v0.Presence.Focus
  | Presence.Busy => v0.Presence.Busy
  | Presence.Invisible => v0.Presence.Invisible
  end.
Definition Presence_from_v0 (value : v0.Presence) : Presence :=
  match value with
  | v0.Presence.Online => Presence.Online
  | v0.Presence.Idle => Presence.Idle
  | v0.Presence.Focus => Presence.Focus
  | v0.Presence.Busy => Presence.Busy
  | v0.Presence.Invisible => Presence.Invisible
  end.

Definition ViewerListVisibility_to_v0 (value : ViewerListVisibility) : v0.ViewerListVisibility :=
  match value with
  | ViewerListVisibility.Nobody => v0.ViewerListVisibility.Nobody
  | ViewerListVisibility.ParticipantsOnly => v0.ViewerListVisibility.ParticipantsOnly
  | ViewerListVisibility.ModeratorsOnly => v0.ViewerListVisibility.ModeratorsOnly
  | ViewerListVisibility.Everyone => v0.ViewerListVisibility.Everyone
  end.
Definition ViewerListVisibility_from_v0 (value : v0.ViewerListVisibility) : ViewerListVisibility :=
  match value with
  | v0.ViewerListVisibility.Nobody => ViewerListVisibility.Nobody
  | v0.ViewerListVisibility.ParticipantsOnly => ViewerListVisibility.ParticipantsOnly
  | v0.ViewerListVisibility.ModeratorsOnly => ViewerListVisibility.ModeratorsOnly
  | v0.ViewerListVisibility.Everyone => ViewerListVisibility.Everyone
  end.

Definition SubscriptionTier_to_v0 (value : SubscriptionTier) : v0.SubscriptionTier :=
  match value with
  | SubscriptionTier.Free => v0.SubscriptionTier.Free
  | SubscriptionTier.Basic => v0.SubscriptionTier.Basic
  | SubscriptionTier.Pro => v0.SubscriptionTier.Pro
  | SubscriptionTier.Ultra => v0.SubscriptionTier.Ultra
  end.
Definition SubscriptionTier_from_v0 (value : v0.SubscriptionTier) : SubscriptionTier :=
  match value with
  | v0.SubscriptionTier.Free => SubscriptionTier.Free
  | v0.SubscriptionTier.Basic => SubscriptionTier.Basic
  | v0.SubscriptionTier.Pro => SubscriptionTier.Pro
  | v0.SubscriptionTier.Ultra => SubscriptionTier.Ultra
  end.

Definition DecorationCategory_to_v0 (value : DecorationCategory) : v0.DecorationCategory :=
  match value with
  | DecorationCategory.AvatarFrame => v0.DecorationCategory.AvatarFrame
  | DecorationCategory.Banner => v0.DecorationCategory.Banner
  | DecorationCategory.Badge => v0.DecorationCategory.Badge
  | DecorationCategory.Nameplate => v0.DecorationCategory.Nameplate
  | DecorationCategory.ChatBubble => v0.DecorationCategory.ChatBubble
  | DecorationCategory.CardSmall => v0.DecorationCategory.CardSmall
  | DecorationCategory.CardLarge => v0.DecorationCategory.CardLarge
  | DecorationCategory.UserPopout => v0.DecorationCategory.UserPopout
  | DecorationCategory.UserPopoutMobile => v0.DecorationCategory.UserPopoutMobile
  | DecorationCategory.ChatBackground => v0.DecorationCategory.ChatBackground
  | DecorationCategory.ChatBackgroundMobile => v0.DecorationCategory.ChatBackgroundMobile
  | DecorationCategory.ProfileModal => v0.DecorationCategory.ProfileModal
  end.
Definition DecorationCategory_from_v0 (value : v0.DecorationCategory) : DecorationCategory :=
  match value with
  | v0.DecorationCategory.AvatarFrame => DecorationCategory.AvatarFrame
  | v0.DecorationCategory.Banner => DecorationCategory.Banner
  | v0.DecorationCategory.Badge => DecorationCategory.Badge
  | v0.DecorationCategory.Nameplate => DecorationCategory.Nameplate
  | v0.DecorationCategory.ChatBubble => DecorationCategory.ChatBubble
  | v0.DecorationCategory.CardSmall => DecorationCategory.CardSmall
  | v0.DecorationCategory.CardLarge => DecorationCategory.CardLarge
  | v0.DecorationCategory.UserPopout => DecorationCategory.UserPopout
  | v0.DecorationCategory.UserPopoutMobile => DecorationCategory.UserPopoutMobile
  | v0.DecorationCategory.ChatBackground => DecorationCategory.ChatBackground
  | v0.DecorationCategory.ChatBackgroundMobile => DecorationCategory.ChatBackgroundMobile
  | v0.DecorationCategory.ProfileModal => DecorationCategory.ProfileModal
  end.

Definition FieldsServer_to_v0 (value : FieldsServer) : v0.FieldsServer :=
  match value with
  | FieldsServer.Description => v0.FieldsServer.Description
  | FieldsServer.Categories => v0.FieldsServer.Categories
  | FieldsServer.SystemMessages => v0.FieldsServer.SystemMessages
  | FieldsServer.Icon => v0.FieldsServer.Icon
  | FieldsServer.Banner => v0.FieldsServer.Banner
  end.
Definition FieldsServer_from_v0 (value : v0.FieldsServer) : FieldsServer :=
  match value with
  | v0.FieldsServer.Description => FieldsServer.Description
  | v0.FieldsServer.Categories => FieldsServer.Categories
  | v0.FieldsServer.SystemMessages => FieldsServer.SystemMessages
  | v0.FieldsServer.Icon => FieldsServer.Icon
  | v0.FieldsServer.Banner => FieldsServer.Banner
  end.

Definition FieldsRole_to_v0 (value : FieldsRole) : v0.FieldsRole :=
  match value with
  | FieldsRole.Colour => v0.FieldsRole.Colour
  end.
Definition FieldsRole_from_v0 (value : v0.FieldsRole) : FieldsRole :=
  match value with
  | v0.FieldsRole.Colour => FieldsRole.Colour
  end.

Definition FieldsMember_to_v0 (value : FieldsMember) : v0.FieldsMember :=
  match value with
  | FieldsMember.Nickname => v0.FieldsMember.Nickname
  | FieldsMember.Avatar => v0.FieldsMember.Avatar
  | FieldsMember.Roles => v0.FieldsMember.Roles
  | FieldsMember.Timeout => v0.FieldsMember.Timeout
  | FieldsMember.CanReceive => v0.FieldsMember.CanReceive
  | FieldsMember.CanPublish => v0.FieldsMember.CanPublish
  | FieldsMember.JoinedAt => v0.FieldsMember.JoinedAt
  | FieldsMember.VoiceChannel => v0.FieldsMember.VoiceChannel
  end.
Definition FieldsMember_from_v0 (value : v0.FieldsMember) : FieldsMember :=
  match value with
  | v0.FieldsMember.Nickname => FieldsMember.Nickname
  | v0.FieldsMember.Avatar => FieldsMember.Avatar
  | v0.FieldsMember.Roles => FieldsMember.Roles
  | v0.FieldsMember.Timeout => FieldsMember.Timeout
  | v0.FieldsMember.CanReceive => FieldsMember.CanReceive
  | v0.FieldsMember.CanPublish => FieldsMember.CanPublish
  | v0.FieldsMember.JoinedAt => FieldsMember.JoinedAt
  | v0.FieldsMember.VoiceChannel => FieldsMember.VoiceChannel
  end.

Definition RemovalIntention_to_v0 (value : RemovalIntention) : v0.RemovalIntention :=
  match value with
  | RemovalIntention.Leave => v0.RemovalIntention.Leave
  | RemovalIntention.Kick => v0.RemovalIntention.Kick
  | RemovalIntention.Ban => v0.RemovalIntention.Ban
  end.

Definition FieldsChannel_to_v0 (value : FieldsChannel) : v0.FieldsChannel :=
  match value with
  | FieldsChannel.Description => v0.FieldsChannel.Description
  | FieldsChannel.Icon => v0.FieldsChannel.Icon
  | FieldsChannel.DefaultPermissions => v0.FieldsChannel.DefaultPermissions
  | FieldsChannel.Voice => v0.FieldsChannel.Voice
  end.
Definition FieldsChannel_from_v0 (value : v0.FieldsChannel) : FieldsChannel :=
  match value with
  | v0.FieldsChannel.Description => FieldsChannel.Description
  | v0.FieldsChannel.Icon => FieldsChannel.Icon
  | v0.FieldsChannel.DefaultPermissions => FieldsChannel.DefaultPermissions
  | v0.FieldsChannel.Voice => FieldsChannel.Voice
  end.

Definition BotType_to_v0 (value : BotType) : v0.BotType :=
  match value with
  | BotType.Regular => v0.BotType.Regular
  | BotType.AiCompanion => v0.BotType.AiCompanion
  end.
Definition BotType_from_v0 (value : v0.BotType) : BotType :=
  match value with
  | v0.BotType.Regular => BotType.Regular
  | v0.BotType.AiCompanion => BotType.AiCompanion
  end.

Definition FieldsBot_to_v0 (value : FieldsBot) : v0.FieldsBot :=
  match value with
  | FieldsBot.Token => v0.FieldsBot.Token
  | FieldsBot.InteractionsURL => v0.FieldsBot.InteractionsURL
  end.
Definition FieldsBot_from_v0 (value : v0.FieldsBot) : FieldsBot :=
  match value with
  | v0.FieldsBot.Token => FieldsBot.Token
  | v0.FieldsBot.InteractionsURL => FieldsBot.InteractionsURL
  end.

(** [FieldsUser]: the two internal fields become one. *)
Definition FieldsUser_to_v0 (value : FieldsUser) : v0.FieldsUser :=
  match value with
  | FieldsUser.Avatar => v0.FieldsUser.Avatar
  | FieldsUser.ProfileBackground => v0.FieldsUser.ProfileBackground
  | FieldsUser.ProfileContent => v0.FieldsUser.ProfileContent
  | FieldsUser.StatusPresence => v0.FieldsUser.StatusPresence
  | FieldsUser.StatusText => v0.FieldsUser.StatusText
  | FieldsUser.DisplayName => v0.FieldsUser.DisplayName
  | FieldsUser.Suspension => v0.FieldsUser.Internal
  | FieldsUser.None => v0.FieldsUser.Internal
  end.
Definition FieldsUser_from_v0 (value : v0.FieldsUser) : FieldsUser :=
  match value with
  | v0.FieldsUser.Avatar => FieldsUser.Avatar
  | v0.FieldsUser.ProfileBackground => FieldsUser.ProfileBackground
  | v0.FieldsUser.ProfileContent => FieldsUser.ProfileContent
  | v0.FieldsUser.StatusPresence => FieldsUser.StatusPresence
  | v0.FieldsUser.StatusText => FieldsUser.StatusText
  | v0.FieldsUser.DisplayName => FieldsUser.DisplayName
  | v0.FieldsUser.Internal => FieldsUser.None
  end.

(** [Metadata]: sizes are [isize] in the database and [usize] in the API. *)
Definition Metadata_to_v0 (value : Metadata) : v0.Metadata :=
  match value with
  | Metadata.File => v0.Metadata.File
  | Metadata.Text => v0.Metadata.Text
  | Metadata.Image width height => v0.Metadata.Image (as_u64 width) (as_u64 height)
  | Metadata.Video width height => v0.Metadata.Video (as_u64 width) (as_u64 height)
  | Metadata.Audio => v0.Metadata.Audio
  end.
Definition Metadata_from_v0 (value : v0.Metadata) : Metadata :=
  match value with
  | v0.Metadata.File => Metadata.File
  | v0.Metadata.Text => Metadata.Text
  | v0.Metadata.Image width height => Metadata.Image (as_i64 width) (as_i64 height)
  | v0.Metadata.Video width height => Metadata.Video (as_i64 width) (as_i64 height)
  | v0.Metadata.Audio => Metadata.Audio
  end.

Definition EmojiParent_to_v0 (value : EmojiParent) : v0.EmojiParent :=
  match value with
  | EmojiParent.Detached => v0.EmojiParent.Detached
  | EmojiParent.Server id => v0.EmojiParent.Server id
  end.
Definition EmojiParent_from_v0 (value : v0.EmojiParent) : EmojiParent :=
  match value with
  | v0.EmojiParent.Detached => EmojiParent.Detached
  | v0.EmojiParent.Server id => EmojiParent.Server id
  end.

Definition Invite_to_v0 (value : Invite) : v0.Invite :=
  match value with
  | Invite.Group code creator channel => v0.Invite.Group code creator channel
  | Invite.Server code server creator channel => v0.Invite.Server code server creator channel
  end.

(** [File]: who uploaded a file and what for stays inside. *)
Definition File_to_v0 (value : File) : v0.File := {|
  v0.f_id := f_id value;
  v0.f_tag := f_tag value;
  v0.f_filename := f_filename value;
  v0.f_metadata := Metadata_to_v0 (f_metadata value);
  v0.f_content_type := f_content_type value;
  v0.f_size := f_size value;
  v0.f_deleted := f_deleted value;
  v0.f_reported := f_reported value;
  v0.f_message_id := f_message_id value;
  v0.f_user_id := f_user_id value;
  v0.f_server_id := f_server_id value;
  v0.f_object_id := f_object_id value |}.
Definition File_from_v0 (value : v0.File) : File := {|
  f_id := v0.f_id value;
  f_tag := v0.f_tag value;
  f_filename := v0.f_filename value;
  f_metadata := Metadata_from_v0 (v0.f_metadata value);
  f_content_type := v0.f_content_type value;
  f_size := v0.f_size value;
  f_deleted := v0.f_deleted value;
  f_reported := v0.f_reported value;
  f_message_id := v0.f_message_id value;
  f_user_id := v0.f_user_id value;
  f_server_id := v0.f_server_id value;
  f_object_id := v0.f_object_id value;
  f_hash := None;
  f_uploaded_at := None;
  f_uploader_id := None;
  f_used_for := None |}.

Definition VoiceInformation_to_v0 (value : VoiceInformation) : v0.VoiceInformation := {|
  v0.vi_max_users := vi_max_users value;
  v0.vi_bitrate := vi_bitrate value;
  v0.vi_is_stream_public := vi_is_stream_public value;
  v0.vi_show_viewer_list_to := ViewerListVisibility_to_v0 (vi_show_viewer_list_to value) |}.
Definition VoiceInformation_from_v0 (value : v0.VoiceInformation) : VoiceInformation := {|
  vi_max_users := v0.vi_max_users value;
  vi_bitrate := v0.vi_bitrate value;
  vi_is_stream_public := v0.vi_is_stream_public value;
  vi_show_viewer_list_to := ViewerListVisibility_from_v0 (v0.vi_show_viewer_list_to value) |}.

Definition SavedMessagesChannel_to_v0 (value : SavedMessagesChannel) : v0.SavedMessagesChannel := {|
  v0.sm_id := sm_id value;
  v0.sm_user := sm_user value |}.
Definition SavedMessagesChannel_from_v0 (value : v0.SavedMessagesChannel) : SavedMessagesChannel := {|
  sm_id := v0.sm_id value;
  sm_user := v0.sm_user value |}.

Definition DirectMessageChannel_to_v0 (value : DirectMessageChannel) : v0.DirectMessageChannel := {|
  v0.dm_id := dm_id value;
  v0.dm_active := dm_active value;
  v0.dm_recipients := dm_recipients value;
  v0.dm_last_message_id := dm_last_message_id value |}.
Definition DirectMessageChannel_from_v0 (value : v0.DirectMessageChannel) : DirectMessageChannel := {|
  dm_id := v0.dm_id value;
  dm_active := v0.dm_active value;
  dm_recipients := v0.dm_recipients value;
  dm_last_message_id := v0.dm_last_message_id value |}.

Definition GroupChannel_to_v0 (value : GroupChannel) : v0.GroupChannel := {|
  v0.g_id := g_id value;
  v0.g_name := g_name value;
  v0.g_owner := g_owner value;
  v0.g_description := g_description value;
  v0.g_recipients := g_recipients value;
  v0.g_icon := File_to_v0 <$> g_icon value;
  v0.g_last_message_id := g_last_message_id value;
  v0.g_permissions := g_permissions value;
  v0.g_moderators := g_moderators value;
  v0.g_nsfw := g_nsfw value;
  v0.g_encrypted := g_encrypted value |}.
Definition GroupChannel_from_v0 (value : v0.GroupChannel) : GroupChannel := {|
  g_id := v0.g_id value;
  g_name := v0.g_name value;
  g_owner := v0.g_owner value;
  g_description := v0.g_description value;
  g_recipients := v0.g_recipients value;
  g_icon := File_from_v0 <$> v0.g_icon value;
  g_last_message_id := v0.g_last_message_id value;
  g_permissions := v0.g_permissions value;
  g_moderators := v0.g_moderators value;
  g_nsfw := v0.g_nsfw value;
  g_encrypted := v0.g_encrypted value |}.

Definition TextChannel_to_v0 (value : TextChannel) : v0.TextChannel := {|
  v0.t_id := t_id value;
  v0.t_server := t_server value;
  v0.t_name := t_name value;
  v0.t_description := t_description value;
  v0.t_icon := File_to_v0 <$> t_icon value;
  v0.t_last_message_id := t_last_message_id value;
  v0.t_default_permissions := t_default_permissions value;
  v0.t_role_permissions := t_role_permissions value;
  v0.t_nsfw := t_nsfw value;
  v0.t_voice := VoiceInformation_to_v0 <$> t_voice value;
  v0.t_encrypted := t_encrypted value |}.
Definition TextChannel_from_v0 (value : v0.TextChannel) : TextChannel := {|
  t_id := v0.t_id value;
  t_server := v0.t_server value;
  t_name := v0.t_name value;
  t_description := v0.t_description value;
  t_icon := File_from_v0 <$> v0.t_icon value;
  t_last_message_id := v0.t_last_message_id value;
  t_default_permissions := v0.t_default_permissions value;
  t_role_permissions := v0.t_role_permissions value;
  t_nsfw := v0.t_nsfw value;
  t_voice := VoiceInformation_from_v0 <$> v0.t_voice value;
  t_encrypted := v0.t_encrypted value |}.

Definition Channel_to_v0 (value : Channel) : v0.Channel :=
  match value with
  | Channel.SavedMessages c => v0.Channel.SavedMessages (SavedMessagesChannel_to_v0 c)
  | Channel.DirectMessage c => v0.Channel.DirectMessage (DirectMessageChannel_to_v0 c)
  | Channel.Group g => v0.Channel.Group (GroupChannel_to_v0 g)
  | Channel.TextChannel t => v0.Channel.TextChannel (TextChannel_to_v0 t)
  end.
Definition Channel_from_v0 (value : v0.Channel) : Channel :=
  match value with
  | v0.Channel.SavedMessages c => Channel.SavedMessages (SavedMessagesChannel_from_v0 c)
  | v0.Channel.DirectMessage c => Channel.DirectMessage (DirectMessageChannel_from_v0 c)
  | v0.Channel.Group g => Channel.Group (GroupChannel_from_v0 g)
  | v0.Channel.TextChannel t => Channel.TextChannel (TextChannel_from_v0 t)
  end.

Definition PartialChannel_to_v0 (value : PartialChannel) : v0.PartialChannel := {|
  v0.pc_name := pc_name value;
  v0.pc_owner := pc_owner value;
  v0.pc_description := pc_description value;
  v0.pc_icon := File_to_v0 <$> pc_icon value;
  v0.pc_nsfw := pc_nsfw value;
  v0.pc_active := pc_active value;
  v0.pc_permissions := pc_permissions value;
  v0.pc_moderators := pc_moderators value;
  v0.pc_role_permissions := pc_role_permissions value;
  v0.pc_default_permissions := pc_default_permissions value;
  v0.pc_last_message_id := pc_last_message_id value;
  v0.pc_voice := VoiceInformation_to_v0 <$> pc_voice value;
  v0.pc_encrypted := pc_encrypted value |}.
Definition PartialChannel_from_v0 (value : v0.PartialChannel) : PartialChannel := {|
  pc_name := v0.pc_name value;
  pc_owner := v0.pc_owner value;
  pc_description := v0.pc_description value;
  pc_icon := File_from_v0 <$> v0.pc_icon value;
  pc_nsfw := v0.pc_nsfw value;
  pc_active := v0.pc_active value;
  pc_permissions := v0.pc_permissions value;
  pc_moderators := v0.pc_moderators value;
  pc_role_permissions := v0.pc_role_permissions value;
  pc_default_permissions := v0.pc_default_permissions value;
  pc_last_message_id := v0.pc_last_message_id value;
  pc_voice := VoiceInformation_from_v0 <$> v0.pc_voice value;
  pc_encrypted := v0.pc_encrypted value |}.

Definition Category_to_v0 (value : Category) : v0.Category := {|
  v0.cat_id := cat_id value;
  v0.cat_title := cat_title value;
  v0.cat_channels := cat_channels value |}.
Definition Category_from_v0 (value : v0.Category) : Category := {|
  cat_id := v0.cat_id value;
  cat_title := v0.cat_title value;
  cat_channels := v0.cat_channels value |}.

Definition SystemMessageChannels_to_v0 (value : SystemMessageChannels) : v0.SystemMessageChannels := {|
  v0.smc_user_joined := smc_user_joined value;
  v0.smc_user_left := smc_user_left value;
  v0.smc_user_kicked := smc_user_kicked value;
  v0.smc_user_banned := smc_user_banned value |}.
Definition SystemMessageChannels_from_v0 (value : v0.SystemMessageChannels) : SystemMessageChannels := {|
  smc_user_joined := v0.smc_user_joined value;
  smc_user_left := v0.smc_user_left value;
  smc_user_kicked := v0.smc_user_kicked value;
  smc_user_banned := v0.smc_user_banned value |}.

Definition Role_to_v0 (value : Role) : v0.Role := {|
  v0.r_id := r_id value;
  v0.r_name := r_name value;
  v0.r_permissions := r_permissions value;
  v0.r_colour := r_colour value;
  v0.r_hoist := r_hoist value;
  v0.r_rank := r_rank value |}.
Definition Role_from_v0 (value : v0.Role) : Role := {|
  r_id := v0.r_id value;
  r_name := v0.r_name value;
  r_permissions := v0.r_permissions value;
  r_colour := v0.r_colour value;
  r_hoist := v0.r_hoist value;
  r_rank := v0.r_rank value |}.

Definition PartialRole_to_v0 (value : PartialRole) : v0.PartialRole := {|
  v0.pr_id := pr_id value;
  v0.pr_name := pr_name value;
  v0.pr_permissions := pr_permissions value;
  v0.pr_colour := pr_colour value;
  v0.pr_hoist := pr_hoist value;
  v0.pr_rank := pr_rank value |}.
Definition PartialRole_from_v0 (value : v0.PartialRole) : PartialRole := {|
  pr_id := v0.pr_id value;
  pr_name := v0.pr_name value;
  pr_permissions := v0.pr_permissions value;
  pr_colour := v0.pr_colour value;
  pr_hoist := v0.pr_hoist value;
  pr_rank := v0.pr_rank value |}.

(** [Server]: the flags are an optional [i32] in the database and a [u32] in the API. *)
Definition Server_to_v0 (value : Server) : v0.Server := {|
  v0.s_id := s_id value;
  v0.s_owner := s_owner value;
  v0.s_name := s_name value;
  v0.s_description := s_description value;
  v0.s_channels := s_channels value;
  v0.s_categories := (map Category_to_v0) <$> s_categories value;
  v0.s_system_messages := SystemMessageChannels_to_v0 <$> s_system_messages value;
  v0.s_roles := Role_to_v0 <$> s_roles value;
  v0.s_default_permissions := s_default_permissions value;
  v0.s_icon := File_to_v0 <$> s_icon value;
  v0.s_banner := File_to_v0 <$> s_banner value;
  v0.s_flags := as_u32 (default 0 (s_flags value));
  v0.s_nsfw := s_nsfw value;
  v0.s_analytics := s_analytics value;
  v0.s_discoverable := s_discoverable value |}.
Definition Server_from_v0 (value : v0.Server) : Server := {|
  s_id := v0.s_id value;
  s_owner := v0.s_owner value;
  s_name := v0.s_name value;
  s_description := v0.s_description value;
  s_channels := v0.s_channels value;
  s_categories := (map Category_from_v0) <$> v0.s_categories value;
  s_system_messages := SystemMessageChannels_from_v0 <$> v0.s_system_messages value;
  s_roles := Role_from_v0 <$> v0.s_roles value;
  s_default_permissions := v0.s_default_permissions value;
  s_icon := File_from_v0 <$> v0.s_icon value;
  s_banner := File_from_v0 <$> v0.s_banner value;
  s_flags := Some (as_i32 (v0.s_flags value));
  s_nsfw := v0.s_nsfw value;
  s_analytics := v0.s_analytics value;
  s_discoverable := v0.s_discoverable value |}.

Definition PartialServer_to_v0 (value : PartialServer) : v0.PartialServer := {|
  v0.ps_id := ps_id value;
  v0.ps_owner := ps_owner value;
  v0.ps_name := ps_name value;
  v0.ps_description := ps_description value;
  v0.ps_channels := ps_channels value;
  v0.ps_categories := (map Category_to_v0) <$> ps_categories value;
  v0.ps_system_messages := SystemMessageChannels_to_v0 <$> ps_system_messages value;
  v0.ps_roles := (fmap (M := gmap string) Role_to_v0) <$> ps_roles value;
  v0.ps_default_permissions := ps_default_permissions value;
  v0.ps_icon := File_to_v0 <$> ps_icon value;
  v0.ps_banner := File_to_v0 <$> ps_banner value;
  v0.ps_flags := as_u32 <$> ps_flags value;
  v0.ps_nsfw := ps_nsfw value;
  v0.ps_analytics := ps_analytics value;
  v0.ps_discoverable := ps_discoverable value |}.
Definition PartialServer_from_v0 (value : v0.PartialServer) : PartialServer := {|
  ps_id := v0.ps_id value;
  ps_owner := v0.ps_owner value;
  ps_name := v0.ps_name value;
  ps_description := v0.ps_description value;
  ps_channels := v0.ps_channels value;
  ps_categories := (map Category_from_v0) <$> v0.ps_categories value;
  ps_system_messages := SystemMessageChannels_from_v0 <$> v0.ps_system_messages value;
  ps_roles := (fmap (M := gmap string) Role_from_v0) <$> v0.ps_roles value;
  ps_default_permissions := v0.ps_default_permissions value;
  ps_icon := File_from_v0 <$> v0.ps_icon value;
  ps_banner := File_from_v0 <$> v0.ps_banner value;
  ps_flags := as_i32 <$> v0.ps_flags value;
  ps_nsfw := v0.ps_nsfw value;
  ps_analytics := v0.ps_analytics value;
  ps_discoverable := v0.ps_discoverable value |}.

Definition MemberCompositeKey_to_v0 (value : MemberCompositeKey) : v0.MemberCompositeKey := {|
  v0.mk_server := mk_server value;
  v0.mk_user := mk_user value |}.
Definition MemberCompositeKey_from_v0 (value : v0.MemberCompositeKey) : MemberCompositeKey := {|
  mk_server := v0.mk_server value;
  mk_user := v0.mk_user value |}.

Definition Member_to_v0 (value : Member) : v0.Member := {|
  v0.m_id := MemberCompositeKey_to_v0 (m_id value);
  v0.m_joined_at := m_joined_at value;
  v0.m_nickname := m_nickname value;
  v0.m_avatar := File_to_v0 <$> m_avatar value;
  v0.m_roles := m_roles value;
  v0.m_timeout := m_timeout value;
  v0.m_can_publish := m_can_publish value;
  v0.m_can_receive := m_can_receive value |}.
Definition Member_from_v0 (value : v0.Member) : Member := {|
  m_id := MemberCompositeKey_from_v0 (v0.m_id value);
  m_joined_at := v0.m_joined_at value;
  m_nickname := v0.m_nickname value;
  m_avatar := File_from_v0 <$> v0.m_avatar value;
  m_roles := v0.m_roles value;
  m_timeout := v0.m_timeout value;
  m_can_publish := v0.m_can_publish value;
  m_can_receive := v0.m_can_receive value |}.

Definition PartialMember_to_v0 (value : PartialMember) : v0.PartialMember := {|
  v0.pm_id := MemberCompositeKey_to_v0 <$> pm_id value;
  v0.pm_joined_at := pm_joined_at value;
  v0.pm_nickname := pm_nickname value;
  v0.pm_avatar := File_to_v0 <$> pm_avatar value;
  v0.pm_roles := pm_roles value;
  v0.pm_timeout := pm_timeout value;
  v0.pm_can_publish := pm_can_publish value;
  v0.pm_can_receive := pm_can_receive value |}.
Definition PartialMember_from_v0 (value : v0.PartialMember) : PartialMember := {|
  pm_id := MemberCompositeKey_from_v0 <$> v0.pm_id value;
  pm_joined_at := v0.pm_joined_at value;
  pm_nickname := v0.pm_nickname value;
  pm_avatar := File_from_v0 <$> v0.pm_avatar value;
  pm_roles := v0.pm_roles value;
  pm_timeout := v0.pm_timeout value;
  pm_can_publish := v0.pm_can_publish value;
  pm_can_receive := v0.pm_can_receive value |}.

Definition ServerBan_to_v0 (value : ServerBan) : v0.ServerBan := {|
  v0.ban_id := MemberCompositeKey_to_v0 (ban_id value);
  v0.ban_reason := ban_reason value |}.

Definition Relationship_to_v0 (value : Relationship) : v0.Relationship :=
  {| v0.rel_user_id := rel_id value; v0.rel_status := RelationshipStatus_to_v0 (rel_status value) |}.

(** [UserStatus::into]: nothing is left of an empty status; with
    [discard_invisible] the presence [Invisible] is dropped. *)
Definition UserStatus_into (value : UserStatus) (discard_invisible : bool) : option v0.UserStatus :=
  let status := {|
    v0.us_text := us_text value;
    v0.us_presence :=
      match us_presence value with
      | Some presence =>
          if discard_invisible && bool_decide (presence = Presence.Invisible) then None
          else Some (Presence_to_v0 presence)
      | None => None
      end |} in
  match v0.us_text status, v0.us_presence status with
  | None, None => None
  | _, _ => Some status
  end.
Definition UserStatus_from_v0 (value : v0.UserStatus) : UserStatus := {|
  us_text := v0.us_text value;
  us_presence := Presence_from_v0 <$> v0.us_presence value |}.

Definition UserProfile_to_v0 (value : UserProfile) : v0.UserProfile := {|
  v0.up_content := up_content value;
  v0.up_background := File_to_v0 <$> up_background value |}.
Definition UserProfile_from_v0 (value : v0.UserProfile) : UserProfile := {|
  up_content := v0.up_content value;
  up_background := File_from_v0 <$> v0.up_background value |}.

Definition BotInformation_to_v0 (value : BotInformation) : v0.BotInformation :=
  {| v0.bi_owner_id := bi_owner value |}.
Definition BotInformation_from_v0 (value : v0.BotInformation) : BotInformation :=
  {| bi_owner := v0.bi_owner_id value |}.

Definition UserSubscription_to_v0 (value : UserSubscription) : v0.UserSubscription := {|
  v0.sub_tier := SubscriptionTier_to_v0 (sub_tier value);
  v0.sub_expires_at := sub_expires_at value;
  v0.sub_stripe_customer_id := sub_stripe_customer_id value;
  v0.sub_stripe_subscription_id := sub_stripe_subscription_id value |}.
Definition UserSubscription_from_v0 (value : v0.UserSubscription) : UserSubscription := {|
  sub_tier := SubscriptionTier_from_v0 (v0.sub_tier value);
  sub_expires_at := v0.sub_expires_at value;
  sub_stripe_customer_id := v0.sub_stripe_customer_id value;
  sub_stripe_subscription_id := v0.sub_stripe_subscription_id value |}.

Definition DecorationEquip_to_v0 (value : DecorationEquip) : v0.DecorationEquip := {|
  v0.de_decoration_id := de_decoration_id value;
  v0.de_slot := DecorationCategory_to_v0 (de_slot value) |}.
Definition DecorationEquip_from_v0 (value : v0.DecorationEquip) : DecorationEquip := {|
  de_decoration_id := v0.de_decoration_id value;
  de_slot := DecorationCategory_from_v0 (v0.de_slot value) |}.

Definition Emoji_to_v0 (value : Emoji) : v0.Emoji := {|
  v0.e_id := e_id value;
  v0.e_parent := EmojiParent_to_v0 (e_parent value);
  v0.e_creator_id := e_creator_id value;
  v0.e_name := e_name value;
  v0.e_animated := e_animated value;
  v0.e_nsfw := e_nsfw value |}.

Definition Bot_to_v0 (value : Bot) : v0.Bot := {|
  v0.b_id := b_id value;
  v0.b_owner_id := b_owner value;
  v0.b_token := b_token value;
  v0.b_public := b_public value;
  v0.b_analytics := b_analytics value;
  v0.b_discoverable := b_discoverable value;
  v0.b_interactions_url := b_interactions_url value;
  v0.b_terms_of_service_url := b_terms_of_service_url value;
  v0.b_privacy_policy_url := b_privacy_policy_url value;
  v0.b_flags := as_u32 (default 0 (b_flags value));
  v0.b_bot_type := BotType_to_v0 (b_bot_type value);
  v0.b_license_type := b_license_type value;
  v0.b_joined_server_id := b_joined_server_id value;
  v0.b_public_key_registered := bool_decide (is_Some (b_public_key_pem value)) |}.

(** [Bot::into_public_bot] *)
Definition into_public_bot (self : Bot) (user : User) : v0.PublicBot := {|
  v0.pb_id := b_id self;
  v0.pb_username := u_username user;
  v0.pb_avatar := match u_avatar user with Some file => f_id file | None => "" end;
  v0.pb_description :=
    match u_profile user with Some profile => default "" (up_content profile) | None => "" end |}.

(** [PartialUser]: the status is converted without dropping [Invisible]. *)
Definition PartialUser_to_v0 (value : PartialUser) : v0.PartialUser := {|
  v0.pu_id := pu_id value;
  v0.pu_username := pu_username value;
  v0.pu_discriminator := pu_discriminator value;
  v0.pu_display_name := pu_display_name value;
  v0.pu_avatar := File_to_v0 <$> pu_avatar value;
  v0.pu_relations := (map Relationship_to_v0) <$> pu_relations value;
  v0.pu_badges := as_u32 <$> pu_badges value;
  v0.pu_status := match pu_status value with Some status => UserStatus_into status false | None => None end;
  v0.pu_flags := as_u32 <$> pu_flags value;
  v0.pu_privileged := pu_privileged value;
  v0.pu_bot := BotInformation_to_v0 <$> pu_bot value;
  v0.pu_relationship := None;
  v0.pu_online := None;
  v0.pu_subscription := UserSubscription_to_v0 <$> pu_subscription value;
  v0.pu_active_decorations := (map DecorationEquip_to_v0) <$> pu_active_decorations value;
  v0.pu_presence_style := pu_presence_style value |}.

(** [From<v0::User> for User]: relations, profile and suspension are not restored. *)
Definition User_from_v0 (value : v0.User) : User := {|
  u_id := v0.u_id value;
  u_username := v0.u_username value;
  u_discriminator := v0.u_discriminator value;
  u_display_name := v0.u_display_name value;
  u_avatar := File_from_v0 <$> v0.u_avatar value;
  u_relations := None;
  u_badges := Some (as_i32 (v0.u_badges value));
  u_status := UserStatus_from_v0 <$> v0.u_status value;
  u_profile := None;
  u_flags := Some (as_i32 (v0.u_flags value));
  u_privileged := v0.u_privileged value;
  u_bot := BotInformation_from_v0 <$> v0.u_bot value;
  u_suspended_until := None;
  u_last_acknowledged_policy_change := 0;
  u_subscription := UserSubscription_from_v0 <$> v0.u_subscription value;
  u_active_decorations := (map DecorationEquip_from_v0) <$> v0.u_active_decorations value;
  u_presence_style := v0.u_presence_style value |}.

(** ** How a user is shown *)

(** [matches!(self.status, Some(UserStatus { presence: Some(Invisible), .. }))] *)
Definition is_invisible (self : User) : bool :=
  match u_status self with
  | Some status => bool_decide (us_presence status = Some Presence.Invisible)
  | None => false
  end.

(** The structure the four conversions build. *)
Definition show_user (self : User) (badges : Z) (relations : list v0.Relationship) (online : bool)
    (status : option v0.UserStatus) (relationship : v0.RelationshipStatus) : v0.User := {|
  v0.u_id := u_id self;
  v0.u_username := u_username self;
  v0.u_discriminator := u_discriminator self;
  v0.u_display_name := u_display_name self;
  v0.u_avatar := File_to_v0 <$> u_avatar self;
  v0.u_relations := relations;
  v0.u_badges := badges;
  v0.u_status := status;
  v0.u_flags := as_u32 (default 0 (u_flags self));
  v0.u_privileged := u_privileged self;
  v0.u_bot := BotInformation_to_v0 <$> u_bot self;
  v0.u_relationship := relationship;
  v0.u_online := online;
  v0.u_subscription := UserSubscription_to_v0 <$> u_subscription self;
  v0.u_active_decorations := (map DecorationEquip_to_v0) <$> u_active_decorations self;
  v0.u_presence_style := u_presence_style self |}.

Definition shown_status (self : User) : option v0.UserStatus :=
  match u_status self with Some status => UserStatus_into status true | None => None end.

Definition relations_to_v0 (self : User) : list v0.Relationship :=
  Relationship_to_v0 <$> default [] (u_relations self).

(** [perspective.relations.. .find(..)..unwrap_or_default()] *)
Definition relation_status (perspective self : User) : v0.RelationshipStatus :=
  match u_relations perspective with
  | Some relations =>
      match list_find (fun relationship => rel_id relationship = u_id self) relations with
      | Some (_, relationship) => RelationshipStatus_to_v0 (rel_status relationship)
      | None => v0.RelationshipStatus.None
      end
  | None => v0.RelationshipStatus.None
  end.

Section Show.
Context {D : Type} `{PermissionDatabase D} `{HashOrder} `{TextServices}.
Variables (cutoff : option Z) (now : Timestamp).

(** [User::into]: [online] is the answer of [company_presence::is_online]. *)
Definition user_into (db : D) (perspective : option User) (online : bool) (self : User) : Result v0.User :=
  '(relationship, can_see_profile) ←
    (if bool_decide (is_Some (u_bot self)) then Ok (v0.RelationshipStatus.None, true)
     else match perspective with
          | Some perspective =>
              if bool_decide (u_id perspective = u_id self) then Ok (v0.RelationshipStatus.User, true)
              else
                permissions ← (db_calculate_user_permissions now
                   (query_user (DatabasePermissionQuery_new db perspective) self)).1;
                Ok (relation_status perspective self,
                    has_user_permission permissions UserPermission.ViewProfile)
          | None => Ok (v0.RelationshipStatus.None, false)
          end : Result (v0.RelationshipStatus * bool));
  badges ← get_badges cutoff self;
  Ok (show_user self badges
        (match perspective with
         | Some p => if bool_decide (u_id p = u_id self) then relations_to_v0 self else []
         | None => []
         end)
        (can_see_profile && online && negb (is_invisible self))
        (if (can_see_profile : bool) then shown_status self else None) relationship).

(** [User::into_known]: for users that are known to be connected. *)
Definition into_known (perspective : option User) (is_online : bool) (self : User) : Result v0.User :=
  let '(relationship, can_see_profile) :=
    if bool_decide (is_Some (u_bot self)) then (v0.RelationshipStatus.None, true)
    else match perspective with
         | Some perspective =>
             if bool_decide (u_id perspective = u_id self) then (v0.RelationshipStatus.User, true)
             else let relationship := relation_status perspective self in
                  (relationship, negb (bool_decide (relationship = v0.RelationshipStatus.BlockedOther)))
         | None => (v0.RelationshipStatus.None, false)
         end in
  badges ← get_badges cutoff self;
  Ok (show_user self badges [] (can_see_profile && is_online && negb (is_invisible self))
        (if can_see_profile then shown_status self else None) relationship).

(** [User::into_known_static] *)
Definition into_known_static (is_online : bool) (self : User) : Result v0.User :=
  badges ← get_badges cutoff self;
  Ok (show_user self badges [] (is_online && negb (is_invisible self)) (shown_status self)
        v0.RelationshipStatus.None).

(** [User::into_self] *)
Definition into_self (force_online online : bool) (self : User) : Result v0.User :=
  badges ← get_badges cutoff self;
  Ok (show_user self badges (relations_to_v0 self)
        ((force_online || online) && negb (is_invisible self)) (shown_status self)
        v0.RelationshipStatus.User).
End Show.

(** ** Round trips *)

(** Values that fit the widths of the API. *)
Definition is_usize (v : Z) : Prop := 0 <= v < 2 ^ 64.
Definition is_u32 (v : Z) : Prop := 0 <= v < 2 ^ 32.
Definition api_metadata (m : v0.Metadata) : Prop :=
  match m with
  | v0.Metadata.Image w h | v0.Metadata.Video w h => is_usize w /\ is_usize h
  | _ => True
  end.
Definition api_file (f : v0.File) : Prop := api_metadata (v0.f_metadata f).
Definition api_icon (o : option v0.File) : Prop := forall f, o = Some f -> api_file f.
Definition api_channel (c : v0.Channel) : Prop :=
  match c with
  | v0.Channel.Group g => api_icon (v0.g_icon g)
  | v0.Channel.TextChannel t => api_icon (v0.t_icon t)
  | _ => True
  end.
Definition api_server (s : v0.Server) : Prop :=
  api_icon (v0.s_icon s) /\ api_icon (v0.s_banner s) /\ is_u32 (v0.s_flags s).
Definition api_member (m : v0.Member) : Prop := api_icon (v0.m_avatar m).

Lemma as_u32_as_i32 v : is_u32 v -> as_u32 (as_i32 v) = v.
Proof.
  unfold is_u32, as_u32, as_i32. intros Hv. rewrite (Z.mod_small v) by lia.
  destruct (Z.ltb_spec v (2 ^ 31)); [by apply Z.mod_small; lia|].
  replace (v - 2 ^ 32) with (v + (-1) * 2 ^ 32) by lia. rewrite Z.mod_add by lia. apply Z.mod_small. lia.
Qed.

Lemma metadata_survives m : api_metadata m -> Metadata_to_v0 (Metadata_from_v0 m) = m.
Proof.
  destruct m; simpl; try done; intros [Hw Hh]; by rewrite !as_u64_as_i64 by done.
Qed.

Lemma file_survives f : api_file f -> File_to_v0 (File_from_v0 f) = f.
Proof. intros Hf. destruct f. unfold File_to_v0, File_from_v0. simpl in *. by rewrite metadata_survives. Qed.

Lemma icon_survives o : api_icon o -> File_to_v0 <$> (File_from_v0 <$> o) = o.
Proof. destruct o as [f|]; [|done]. intros Hf. simpl. by rewrite file_survives by by apply Hf. Qed.

Lemma fmap_cancel {A B} (f : A -> B) (g : B -> A) (o : option A) :
  (forall x, g (f x) = x) -> g <$> (f <$> o) = o.
Proof. intros E. destruct o; simpl; [by rewrite E|done]. Qed.

Lemma map_cancel {A B} (f : A -> B) (g : B -> A) (l : list A) : (forall x, g (f x) = x) -> map g (map f l) = l.
Proof. intros E. induction l; simpl; [done|]. by rewrite E, IHl. Qed.

Lemma gmap_cancel {A B} (f : A -> B) (g : B -> A) (m : gmap string A) :
  (forall x, g (f x) = x) -> g <$> (f <$> m) = m.
Proof. intros E. rewrite <- map_fmap_compose. rewrite <- (map_fmap_id m) at 2. apply map_fmap_ext. intros. apply E. Qed.

Lemma voice_survives (v : v0.VoiceInformation) : VoiceInformation_to_v0 (VoiceInformation_from_v0 v) = v.
Proof. by destruct v as [? ? ? []]. Qed.

Lemma category_survives (c : v0.Category) : Category_to_v0 (Category_from_v0 c) = c.
Proof. by destruct c. Qed.

Lemma role_survives (r : v0.Role) : Role_to_v0 (Role_from_v0 r) = r.
Proof. by destruct r. Qed.

Lemma system_channels_survive (c : v0.SystemMessageChannels) :
  SystemMessageChannels_to_v0 (SystemMessageChannels_from_v0 c) = c.
Proof. by destruct c. Qed.

Create HintDb bridge.
#[export] Hint Resolve file_survives voice_survives category_survives role_survives system_channels_survive : bridge.

(** What a client is sent survives the cache of the event server: a channel,
    server or member that is read back from the API form and shown again is the
    same, for every value that fits the widths of the API. *)
Theorem api_roundtrip (c : v0.Channel) (s : v0.Server) (m : v0.Member) :
  api_channel c -> api_server s -> api_member m ->
  Channel_to_v0 (Channel_from_v0 c) = c
  /\ Server_to_v0 (Server_from_v0 s) = s
  /\ Member_to_v0 (Member_from_v0 m) = m.
Proof.
  intros Hc (Hi & Hb & Hf) Hm. split_and!.
  - destruct c as [[]|[]|[]|[]]; simpl in *; try done; f_equal.
    + unfold GroupChannel_to_v0, GroupChannel_from_v0. simpl. by rewrite icon_survives.
    + unfold TextChannel_to_v0, TextChannel_from_v0. simpl.
      by rewrite icon_survives, fmap_cancel by auto with bridge.
  - destruct s. unfold Server_to_v0, Server_from_v0. simpl in *.
    rewrite !icon_survives, gmap_cancel, as_u32_as_i32 by auto with bridge.
    rewrite !fmap_cancel; auto with bridge. intros l. apply map_cancel. auto with bridge.
  - destruct m as [[]]. unfold Member_to_v0, Member_from_v0. simpl in *. by rewrite icon_survives.
Qed.

(** ** Permissions of the event server *)

(** The objects as the event server caches them. *)
Definition cached_server (s : Server) : Server := Server_from_v0 (Server_to_v0 s).
Definition cached_member (m : Member) : Member := Member_from_v0 (Member_to_v0 m).
Definition cached_text (t : TextChannel) : TextChannel := TextChannel_from_v0 (TextChannel_to_v0 t).

Lemma cached_roles s : s_roles (cached_server s) = s_roles s.
Proof. simpl. apply gmap_cancel. by intros []. Qed.

Section CachedPermissions.
Context `{HashOrder}.
Variable now : Timestamp.

Lemma cached_permissions u s m t :
  text_channel_permissions now u (cached_server s) (cached_member <$> m) (cached_text t)
  = text_channel_permissions now u s m t.
Proof.
  unfold text_channel_permissions. destruct (u_privileged u); [done|]. simpl.
  destruct (bool_decide _); [done|]. destruct m as [m|]; [|done]. simpl.
  unfold member_channel_permissions, member_server_permissions, server_role_overrides,
    channel_role_overrides, in_timeout.
  fold (cached_server s). fold (cached_member m). fold (cached_text t).
  change (s_roles (Server_from_v0 (Server_to_v0 s))) with (s_roles (cached_server s)).
  rewrite !cached_roles. done.
Qed.

(** The event server sees what the API sees: the channel permissions it
    calculates from the server, the member and the channel as they arrived
    through the API are those calculated from the stored objects. *)
Theorem event_server_same_permissions {D} `{PermissionDatabase D} (d : D) (u : User) (s : Server)
    (m : Member) (t : TextChannel) :
  t_server t = s_id s ->
  let q s m t := query_server (query_member (query_channel (DatabasePermissionQuery_new d u)
                   (Channel.TextChannel t)) m) s in
  (db_calculate_channel_permissions now (q (cached_server s) (cached_member m) (cached_text t))).1
  = (db_calculate_channel_permissions now (q s m t)).1.
Proof.
  intros Hs q.
  assert (forall s m t, t_server t = s_id s ->
    (db_calculate_channel_permissions now (q s m t)).1 = Ok (text_channel_permissions now u s (Some m) t)) as E.
  { intros s' m' t' E. rewrite (calculate_channel_permissions_spec now _ t' s' (Some m')); [done|].
    split_and!; try done; left; done. }
  rewrite !E by done. f_equal. exact (cached_permissions u s (Some m) t).
Qed.
End CachedPermissions.

(** ** What a user shows *)

Section Privacy.
Context {D : Type} `{PermissionDatabase D} `{HashOrder} `{TextServices}.
Variables (cutoff : option Z) (now : Timestamp).

Lemma shown_status_not_invisible self st :
  shown_status self = Some st -> v0.us_presence st <> Some v0.Presence.Invisible.
Proof.
  unfold shown_status, UserStatus_into. destruct (u_status self) as [[text [p|]]|]; simpl; [|destruct text; by intros; simplify_eq|done].
  case_bool_decide as Hp; simpl; destruct text; intros; simplify_eq/=; try done; destruct p; try done; by destruct Hp.
Qed.

(** [v] shows of [self], of whom [online] says whether they are connected, presence
    and status when [visible], never that they are invisible, and the relations
    [relations]. *)
Record shows (self : User) (visible online : bool) (relations : list v0.Relationship) (v : v0.User) : Prop := {
  sh_online : v0.u_online v = visible && online && negb (is_invisible self);
  sh_status : v0.u_status v = if visible then shown_status self else None;
  sh_invisible : forall st, v0.u_status v = Some st -> v0.us_presence st <> Some v0.Presence.Invisible;
  sh_relations : v0.u_relations v = relations }.

(** Who sees the profile of [self]: everyone that of a bot, a user their own, and
    otherwise the two conversions have a rule each. *)
Definition sees_profile (rule : User -> bool) (perspective : option User) (self : User) : bool :=
  is_bot self || match perspective with
                 | Some p => bool_decide (u_id p = u_id self) || rule p
                 | None => false
                 end.
Definition may_view (self : User) (mutual : bool) (p : User) : bool :=
  has_user_permission (user_permissions p self mutual) UserPermission.ViewProfile.
Definition not_blocked_by (self p : User) : bool :=
  negb (bool_decide (relation_status p self = v0.RelationshipStatus.BlockedOther)).

Lemma shows_user self badges relations visible online relationship :
  shows self visible online relations
    (show_user self badges relations (visible && online && negb (is_invisible self))
       (if visible then shown_status self else None) relationship).
Proof.
  split; try done. simpl. intros st Hst. destruct visible; [by eapply shown_status_not_invisible|done].
Qed.

Lemma user_into_shows (d : D) (perspective : option User) (self : User) (mutual online : bool) v :
  (forall p, perspective = Some p -> u_id p <> u_id self -> mutual_known p d self mutual) ->
  user_into cutoff now d perspective online self = Ok v ->
  shows self (sees_profile (may_view self mutual) perspective self) online
    (if bool_decide (u_id <$> perspective = Some (u_id self)) then relations_to_v0 self else []) v.
Proof.
  intros Hm. unfold user_into, sees_profile, is_bot.
  destruct (bool_decide (is_Some (u_bot self))).
  { simpl. destruct (get_badges cutoff self) as [b| |]; [|done..]. simpl. intros [= <-].
    replace (if bool_decide (u_id <$> perspective = Some (u_id self)) then relations_to_v0 self else [])
      with (match perspective with
            | Some p => if bool_decide (u_id p = u_id self) then relations_to_v0 self else []
            | None => [] end); [apply (shows_user self b _ true)|].
    destruct perspective as [p|]; [|done]. simpl. repeat case_bool_decide; congruence. }
  destruct perspective as [p|]; simpl.
  - destruct (decide (u_id p = u_id self)) as [Hid|Hne].
    + rewrite !(bool_decide_eq_true_2 (u_id p = u_id self)), bool_decide_eq_true_2 by congruence. simpl.
      destruct (get_badges cutoff self) as [b| |]; [|done..]. simpl. intros [= <-]. apply (shows_user self b _ true).
    + rewrite !(bool_decide_eq_false_2 (u_id p = u_id self)), bool_decide_eq_false_2 by congruence.
      rewrite (calculate_user_permissions_spec now _ self mutual) by (try done; by apply Hm).
      simpl. destruct (get_badges cutoff self) as [b| |]; [|done..]. simpl. intros [= <-]. apply shows_user.
  - destruct (get_badges cutoff self) as [b| |]; [|done..]. simpl. intros [= <-]. apply (shows_user self b _ false).
Qed.

Lemma into_known_shows (perspective : option User) (self : User) (online : bool) v :
  into_known cutoff perspective online self = Ok v ->
  shows self (sees_profile (not_blocked_by self) perspective self) online [] v.
Proof.
  unfold into_known, sees_profile, is_bot. destruct (bool_decide (is_Some (u_bot self)));
    [|destruct perspective as [p|]; [destruct (bool_decide (u_id p = u_id self))|]];
    (destruct (get_badges cutoff self) as [b| |]; [|done..]); simpl; intros [= <-];
    [apply (shows_user self b _ true)|apply (shows_user self b _ true)|apply shows_user
    |apply (shows_user self b _ false)].
Qed.

Lemma blocked_may_not_view (p self : User) mutual :
  u_bot self = None -> u_id p <> u_id self -> u_privileged p = false ->
  relationship_with p (u_id self) = RelationshipStatus.Blocked
  \/ relationship_with p (u_id self) = RelationshipStatus.BlockedOther -> may_view self mutual p = false.
Proof.
  intros Hb Hne Hp Hr. unfold may_view, user_permissions. rewrite Hp. simpl.
  rewrite bool_decide_eq_false_2 by done. unfold relation_to, owns_bot. rewrite Hb.
  destruct Hr as [-> | ->]; vm_compute; reflexivity.
Qed.


(** The update event of a user who becomes invisible says so to everybody who
    receives it: the conversion of a partial user keeps the presence. *)
Lemma invisible_update_leaks (p : PartialUser) text :
  pu_status p = Some {| us_text := text; us_presence := Some Presence.Invisible |} ->
  exists st, v0.pu_status (PartialUser_to_v0 p) = Some st /\ v0.us_presence st = Some v0.Presence.Invisible.
Proof.
  intros E. unfold PartialUser_to_v0. simpl. rewrite E. unfold UserStatus_into. simpl.
  destruct text; by eexists.
Qed.

(** The customer number of a subscription is part of what everybody sees. *)
Lemma stripe_customer_shown (d : D) (p self : User) online v sub customer :
  user_into cutoff now d (Some p) online self = Ok v ->
  u_subscription self = Some sub -> sub_stripe_customer_id sub = Some customer ->
  exists sub', v0.u_subscription v = Some sub' /\ v0.sub_stripe_customer_id sub' = Some customer.
Proof.
  intros E Hs Hc. unfold user_into in E.
  match type of E with context [mbind _ ?m] => destruct m as [[r c]| |] end; simplify_eq/=.
  destruct (get_badges cutoff self) as [b| |]; simplify_eq/=. rewrite Hs. simpl. by eexists.
Qed.
End Privacy.

Module BridgeWitness.
Import PermissionSpec.Example Users.UserWitness.

Definition shown_channel : v0.Channel := Channel_to_v0 (Channel.TextChannel channel).
Definition shown_server : v0.Server := Server_to_v0 (server two_roles).
Definition shown_member : v0.Member := Member_to_v0 (member ["mod"; "member"] None).

Lemma api_roundtrip_witness :
  Channel_to_v0 (Channel_from_v0 shown_channel) = shown_channel
  /\ Server_to_v0 (Server_from_v0 shown_server) = shown_server
  /\ Member_to_v0 (Member_from_v0 shown_member) = shown_member.
Proof. apply (api_roundtrip shown_channel shown_server shown_member); repeat split; done. Defined.

Lemma event_server_same_permissions_witness :
  let q s m t := query_server (query_member (query_channel (DatabasePermissionQuery_new tt (user "member"))
                   (Channel.TextChannel t)) m) s in
  let s := server two_roles in let m := member ["mod"; "member"] None in
  (db_calculate_channel_permissions (H := empty_db) (H0 := hash_order_canonical) 0
     (q (cached_server s) (cached_member m) (cached_text channel))).1
  = (db_calculate_channel_permissions (H := empty_db) (H0 := hash_order_canonical) 0 (q s m channel)).1.
Proof.
  apply (event_server_same_permissions (H := hash_order_canonical) 0 (H0 := empty_db) tt (user "member")
           (server two_roles) (member ["mod"; "member"] None) channel). reflexivity.
Defined.

(** A stranger looks at a user who is connected. *)
Definition stranger_sees (online : bool) : Result v0.User :=
  user_into (H := empty_db) (H0 := hash_order_canonical) (H1 := ascii_services) None 0 tt
    (Some (user "member")) online (user "other").

End BridgeWitness.
