(* ===== verification/BridgeMessages.v ===== *)
(** * Conversions of messages and the smaller collections
    ([crates/core/database/src/util/bridge/v0.rs])

    The [From] implementations for messages, webhooks, unreads, policy changes,
    reports and bot commands, as in [Bridge]. *)

From S2P Require Import Prelude Permissions Models ApiTypes Records Bridge.

Definition SystemMessage_to_v0 (value : SystemMessage) : v0.SystemMessage :=
  match value with
  | SystemMessage.Text content => v0.SystemMessage.Text content
  | SystemMessage.UserAdded id b => v0.SystemMessage.UserAdded id b
  | SystemMessage.UserRemove id b => v0.SystemMessage.UserRemove id b
  | SystemMessage.UserJoined id => v0.SystemMessage.UserJoined id
  | SystemMessage.UserLeft id => v0.SystemMessage.UserLeft id
  | SystemMessage.UserKicked id => v0.SystemMessage.UserKicked id
  | SystemMessage.UserBanned id => v0.SystemMessage.UserBanned id
  | SystemMessage.ChannelRenamed name b => v0.SystemMessage.ChannelRenamed name b
  | SystemMessage.ChannelDescriptionChanged b => v0.SystemMessage.ChannelDescriptionChanged b
  | SystemMessage.ChannelIconChanged b => v0.SystemMessage.ChannelIconChanged b
  | SystemMessage.ChannelOwnershipChanged from to => v0.SystemMessage.ChannelOwnershipChanged from to
  | SystemMessage.MessagePinned id b => v0.SystemMessage.MessagePinned id b
  | SystemMessage.MessageUnpinned id b => v0.SystemMessage.MessageUnpinned id b
  | SystemMessage.CallStarted b finished_at => v0.SystemMessage.CallStarted b finished_at
  end.

Definition Interactions_to_v0 (value : Interactions) : v0.Interactions := {|
  v0.ia_reactions := ia_reactions value;
  v0.ia_restrict_reactions := ia_restrict_reactions value |}.
Definition Interactions_from_v0 (value : v0.Interactions) : Interactions := {|
  ia_reactions := v0.ia_reactions value;
  ia_restrict_reactions := v0.ia_restrict_reactions value |}.

Definition Masquerade_to_v0 (value : Masquerade) : v0.Masquerade := {|
  v0.mq_name := mq_name value;
  v0.mq_avatar := mq_avatar value;
  v0.mq_colour := mq_colour value |}.
Definition Masquerade_from_v0 (value : v0.Masquerade) : Masquerade := {|
  mq_name := v0.mq_name value;
  mq_avatar := v0.mq_avatar value;
  mq_colour := v0.mq_colour value |}.

Definition AppendMessage_to_v0 (value : AppendMessage) : v0.AppendMessage := {|
  v0.am_embeds := am_embeds value |}.

(** [Message::into_model] *)
Definition into_model (self : Message) (user : option v0.User) (member : option v0.Member) : v0.Message := {|
  v0.msg_id := msg_id self;
  v0.msg_nonce := msg_nonce self;
  v0.msg_channel := msg_channel self;
  v0.msg_author := msg_author self;
  v0.msg_user := user;
  v0.msg_member := member;
  v0.msg_webhook := msg_webhook self;
  v0.msg_content := msg_content self;
  v0.msg_system := SystemMessage_to_v0 <$> msg_system self;
  v0.msg_attachments := map File_to_v0 <$> msg_attachments self;
  v0.msg_edited := msg_edited self;
  v0.msg_embeds := msg_embeds self;
  v0.msg_mentions := msg_mentions self;
  v0.msg_role_mentions := msg_role_mentions self;
  v0.msg_replies := msg_replies self;
  v0.msg_reactions := msg_reactions self;
  v0.msg_interactions := Interactions_to_v0 (msg_interactions self);
  v0.msg_masquerade := Masquerade_to_v0 <$> msg_masquerade self;
  v0.msg_flags := default 0 (msg_flags self);
  v0.msg_pinned := msg_pinned self |}.

Definition PartialMessage_to_v0 (value : PartialMessage) : v0.PartialMessage := {|
  v0.pmsg_id := pmsg_id value;
  v0.pmsg_nonce := pmsg_nonce value;
  v0.pmsg_channel := pmsg_channel value;
  v0.pmsg_author := pmsg_author value;
  v0.pmsg_user := None;
  v0.pmsg_member := None;
  v0.pmsg_webhook := pmsg_webhook value;
  v0.pmsg_content := pmsg_content value;
  v0.pmsg_system := SystemMessage_to_v0 <$> pmsg_system value;
  v0.pmsg_attachments := map File_to_v0 <$> pmsg_attachments value;
  v0.pmsg_edited := pmsg_edited value;
  v0.pmsg_embeds := pmsg_embeds value;
  v0.pmsg_mentions := pmsg_mentions value;
  v0.pmsg_role_mentions := pmsg_role_mentions value;
  v0.pmsg_replies := pmsg_replies value;
  v0.pmsg_reactions := pmsg_reactions value;
  v0.pmsg_interactions := Interactions_to_v0 <$> pmsg_interactions value;
  v0.pmsg_masquerade := Masquerade_to_v0 <$> pmsg_masquerade value;
  v0.pmsg_flags := pmsg_flags value;
  v0.pmsg_pinned := pmsg_pinned value |}.

Definition FieldsMessage_to_v0 (value : FieldsMessage) : v0.FieldsMessage :=
  match value with FieldsMessage.Pinned => v0.FieldsMessage.Pinned end.
Definition FieldsMessage_from_v0 (value : v0.FieldsMessage) : FieldsMessage :=
  match value with v0.FieldsMessage.Pinned => FieldsMessage.Pinned end.

Definition Webhook_to_v0 (value : Webhook) : v0.Webhook := {|
  v0.wh_id := wh_id value;
  v0.wh_name := wh_name value;
  v0.wh_avatar := File_to_v0 <$> wh_avatar value;
  v0.wh_creator_id := wh_creator_id value;
  v0.wh_channel_id := wh_channel_id value;
  v0.wh_token := wh_token value;
  v0.wh_permissions := wh_permissions value |}.
Definition PartialWebhook_to_v0 (value : PartialWebhook) : v0.PartialWebhook := {|
  v0.pwh_id := pwh_id value;
  v0.pwh_name := pwh_name value;
  v0.pwh_avatar := File_to_v0 <$> pwh_avatar value;
  v0.pwh_creator_id := pwh_creator_id value;
  v0.pwh_channel_id := pwh_channel_id value;
  v0.pwh_token := pwh_token value;
  v0.pwh_permissions := pwh_permissions value |}.
Definition FieldsWebhook_to_v0 (_value : FieldsWebhook) : v0.FieldsWebhook := v0.FieldsWebhook.Avatar.
Definition FieldsWebhook_from_v0 (_value : v0.FieldsWebhook) : FieldsWebhook := FieldsWebhook.Avatar.

Definition ChannelCompositeKey_to_v0 (value : ChannelCompositeKey) : v0.ChannelCompositeKey := {|
  v0.ck_channel := ck_channel value;
  v0.ck_user := ck_user value |}.
Definition ChannelUnread_to_v0 (value : ChannelUnread) : v0.ChannelUnread := {|
  v0.cu_id := ChannelCompositeKey_to_v0 (cu_id value);
  v0.cu_last_id := cu_last_id value;
  v0.cu_mentions := default [] (cu_mentions value) |}.
Definition PolicyChange_to_v0 (value : PolicyChange) : v0.PolicyChange := {|
  v0.pol_created_time := pol_created_time value;
  v0.pol_effective_time := pol_effective_time value;
  v0.pol_description := pol_description value;
  v0.pol_url := pol_url value |}.
Definition Report_to_v0 (value : Report) : v0.Report := {|
  v0.rp_id := rp_id value;
  v0.rp_author_id := rp_author_id value;
  v0.rp_content := rp_content value;
  v0.rp_additional_context := rp_additional_context value;
  v0.rp_status := rp_status value;
  v0.rp_notes := rp_notes value |}.

Definition CommandOptionType_to_v0 (value : CommandOptionType) : v0.CommandOptionType :=
  match value with
  | CommandOptionType.String => v0.CommandOptionType.String
  | CommandOptionType.Integer => v0.CommandOptionType.Integer
  | CommandOptionType.Boolean => v0.CommandOptionType.Boolean
  | CommandOptionType.User => v0.CommandOptionType.User
  | CommandOptionType.Channel => v0.CommandOptionType.Channel
  | CommandOptionType.Role => v0.CommandOptionType.Role
  | CommandOptionType.Number => v0.CommandOptionType.Number
  end.
Definition CommandChoice_to_v0 (value : CommandChoice) : v0.CommandChoice := {|
  v0.cc_name := cc_name value;
  v0.cc_value := cc_value value |}.
Definition CommandOption_to_v0 (value : CommandOption) : v0.CommandOption := {|
  v0.co_name := co_name value;
  v0.co_description := co_description value;
  v0.co_option_type := CommandOptionType_to_v0 (co_option_type value);
  v0.co_required := co_required value;
  v0.co_choices := map CommandChoice_to_v0 <$> co_choices value;
  v0.co_autocomplete := co_autocomplete value |}.
Definition BotCommand_to_v0 (value : BotCommand) : v0.BotCommand := {|
  v0.bc_id := bc_id value;
  v0.bc_bot_id := bc_bot_id value;
  v0.bc_name := bc_name value;
  v0.bc_description := bc_description value;
  v0.bc_options := map CommandOption_to_v0 (bc_options value) |}.

Definition CommandOptionType_from_v0 (value : v0.CommandOptionType) : CommandOptionType :=
  match value with
  | v0.CommandOptionType.String => CommandOptionType.String
  | v0.CommandOptionType.Integer => CommandOptionType.Integer
  | v0.CommandOptionType.Boolean => CommandOptionType.Boolean
  | v0.CommandOptionType.User => CommandOptionType.User
  | v0.CommandOptionType.Channel => CommandOptionType.Channel
  | v0.CommandOptionType.Role => CommandOptionType.Role
  | v0.CommandOptionType.Number => CommandOptionType.Number
  end.
Definition CommandChoice_from_v0 (value : v0.CommandChoice) : CommandChoice := {|
  cc_name := v0.cc_name value;
  cc_value := v0.cc_value value |}.
Definition CommandOption_from_v0 (value : v0.CommandOption) : CommandOption := {|
  co_name := v0.co_name value;
  co_description := v0.co_description value;
  co_option_type := CommandOptionType_from_v0 (v0.co_option_type value);
  co_required := v0.co_required value;
  co_choices := map CommandChoice_from_v0 <$> v0.co_choices value;
  co_autocomplete := v0.co_autocomplete value |}.
Definition BotCommand_from_v0 (value : v0.BotCommand) : BotCommand := {|
  bc_id := v0.bc_id value;
  bc_bot_id := v0.bc_bot_id value;
  bc_name := v0.bc_name value;
  bc_description := v0.bc_description value;
  bc_options := map CommandOption_from_v0 (v0.bc_options value) |}.
