(* ===== verification/Messages.v ===== *)
(** * Messages ([crates/core/database/src/models/messages/model.rs],
    [channel_webhooks/model.rs], the push notification of
    [crates/core/models/src/v0/messages.rs])

    Creating, sending, editing and deleting messages, and reacting to them.  A
    message that is created draws on most of the other components: the parser
    finds its mentions, the idempotency key protects it from being sent twice,
    permission queries decide about mass mentions and about who may be mentioned
    in a server channel.  The state is a [Node]: the [World], the cache of
    idempotency keys and the background tasks that were queued.  Arguments stand
    for the configuration, fresh identifiers and the clock; validation of embeds
    (the crate [validator]) is the parameter [embed_error], the lexer that of
    [Parser].

    The theorems: whom a message may mention; a message that is sent is stored,
    except in a direct message channel; a key is good for one message; reactions
    can be taken back; notifications are never suppressed. *)

From S2P Require Import Prelude Results Permissions PermissionCalc Models ApiTypes Records ModelOps DbPermissions PermissionSpec BulkPermissions ReferenceDb Collections World Users Servers Channels Parser Lru Idempotency Bridge BridgeMessages.

(** ** Flags *)

(** [MessageFlagsValue], a [u32] *)
Definition has_value (self bit : Z) : bool :=
  let mask := Z.shiftl 1 bit in Z.land self mask =? mask.
Definition has (self : Z) (flag : v0.MessageFlags) : bool := has_value self (v0.MessageFlags.as_u32 flag).
Definition set_value (self bit : Z) (toggle : bool) : Z :=
  if toggle then Z.lor self (Z.shiftl 1 bit) else Z.ldiff self (Z.shiftl 1 bit).
Definition set_flag (self : Z) (flag : v0.MessageFlags) (toggle : bool) : Z :=
  set_value self (v0.MessageFlags.as_u32 flag) toggle.

(** [Message::has_suppressed_notifications] masks with the number of the flag. *)
Definition has_suppressed_notifications (self : Message) : bool :=
  match msg_flags self with
  | Some flags =>
      Z.land flags (v0.MessageFlags.as_u32 v0.MessageFlags.SuppressNotifications)
      =? v0.MessageFlags.as_u32 v0.MessageFlags.SuppressNotifications
  | None => false
  end.

Definition contains_mass_push_mention (self : Message) : bool :=
  let ping := match msg_flags self with
              | Some flags => has flags v0.MessageFlags.MentionsEveryone
              | None => false
              end in
  ping || bool_decide (is_Some (msg_role_mentions self)).

(** ** The messages of the database *)

Module MessageDb.
Class MessageDatabase (D : Type) := {
  insert_message : Message -> M ErrorType D unit;
  fetch_message : string -> M ErrorType D Message;
  fetch_messages : MessageQuery -> M ErrorType D (list Message);
  fetch_messages_by_id : list string -> M ErrorType D (list Message);
  update_message : string -> PartialMessage -> list FieldsMessage -> M ErrorType D unit;
  append_message : string -> AppendMessage -> M ErrorType D unit;
  add_reaction : string -> string -> string -> M ErrorType D unit;
  remove_reaction : string -> string -> string -> M ErrorType D unit;
  clear_reaction : string -> string -> M ErrorType D unit;
  delete_message : string -> M ErrorType D unit;
  delete_messages : string -> list string -> M ErrorType D unit;
  insert_webhook : Webhook -> M ErrorType D unit;
  fetch_webhook : string -> M ErrorType D Webhook;
  fetch_webhooks_for_channel : string -> M ErrorType D (list Webhook);
  update_webhook : string -> PartialWebhook -> list FieldsWebhook -> M ErrorType D unit;
  delete_webhook : string -> M ErrorType D unit;
  fetch_emoji : string -> M ErrorType D Emoji;
  insert_emoji : Emoji -> M ErrorType D unit;
  detach_emoji : Emoji -> M ErrorType D unit;
  mark_attachments_as_deleted : list string -> M ErrorType D unit }.
End MessageDb.
Abbreviation MessageDatabase := MessageDb.MessageDatabase.

#[export] Instance reference_messages `{HashOrder} `{TextServices}
    `{OptionalStruct Message PartialMessage} `{OptionalStruct Webhook PartialWebhook}
    : MessageDatabase ReferenceDb := {|
  MessageDb.insert_message := Col.insert_message;
  MessageDb.fetch_message id := query (fun d => Col.fetch_message d id);
  MessageDb.fetch_messages q := query (fun d => Col.fetch_messages to_lowercase d q);
  MessageDb.fetch_messages_by_id ids := query (fun d => Col.fetch_messages_by_id d ids);
  MessageDb.update_message := Col.update_message;
  MessageDb.append_message := Col.append_message;
  MessageDb.add_reaction := Col.add_reaction;
  MessageDb.remove_reaction := Col.remove_reaction;
  MessageDb.clear_reaction := Col.clear_reaction;
  MessageDb.delete_message := Col.delete_message;
  MessageDb.delete_messages := Col.delete_messages;
  MessageDb.insert_webhook := Col.insert_webhook;
  MessageDb.fetch_webhook id := query (fun d => Col.fetch_webhook d id);
  MessageDb.fetch_webhooks_for_channel id := query (fun d => Col.fetch_webhooks_for_channel d id);
  MessageDb.update_webhook := Col.update_webhook;
  MessageDb.delete_webhook := Col.delete_webhook;
  MessageDb.fetch_emoji id := query (fun d => Ref.fetch_emoji d id);
  MessageDb.insert_emoji := Ref.insert_emoji;
  MessageDb.detach_emoji := Ref.detach_emoji;
  MessageDb.mark_attachments_as_deleted := Ref.mark_attachments_as_deleted |}.

(** ** State *)

(** [PushNotification]; the times are seconds *)
Record PushNotification := {
  pn_author : string;
  pn_icon : string;
  pn_image : option string;
  pn_body : string;
  pn_tag : string;
  pn_timestamp : Z;
  pn_url : string;
  pn_message : v0.Message;
  pn_channel : v0.Channel }.

(** The tasks that are queued ([tasks::last_message_id::queue],
    [tasks::ack::queue_message] with [AckEvent::ProcessMessage] and
    [tasks::ack::queue_ack] with [AckEvent::AckMessage]) *)
Module Task.
Inductive Task : Type :=
| LastMessageId (channel id : string) (is_dm : bool)
| ProcessMessage (channel : string) (push : option PushNotification) (message : Message)
    (recipients : list string) (silenced : bool)
| AckMessage (channel user id : string).
End Task.
Abbreviation Task := Task.Task.

Record Node (D C : Type) := {
  nd_world : World D;
  nd_keys : C;
  nd_tasks : list Task }.
Arguments nd_world {D C}.
Arguments nd_keys {D C}.
Arguments nd_tasks {D C}.

(** The hosts of the configuration and its limits. *)
Record MessageConfig := {
  mc_hosts_api : string;
  mc_hosts_app : string;
  mc_mass_mentions_enabled : bool;
  mc_global : GlobalLimits }.

(** [impl From<SystemMessage> for String] *)
Definition system_text (s : v0.SystemMessage) : string :=
  match s with
  | v0.SystemMessage.Text content => content
  | v0.SystemMessage.UserAdded _ _ => "User added to the channel."
  | v0.SystemMessage.UserRemove _ _ => "User removed from the channel."
  | v0.SystemMessage.UserJoined _ => "User joined the channel."
  | v0.SystemMessage.UserLeft _ => "User left the channel."
  | v0.SystemMessage.UserKicked _ => "User kicked from the channel."
  | v0.SystemMessage.UserBanned _ => "User banned from the channel."
  | v0.SystemMessage.ChannelRenamed _ _ => "Channel renamed."
  | v0.SystemMessage.ChannelDescriptionChanged _ => "Channel description changed."
  | v0.SystemMessage.ChannelIconChanged _ => "Channel icon changed."
  | v0.SystemMessage.ChannelOwnershipChanged _ _ => "Channel ownership changed."
  | v0.SystemMessage.MessagePinned _ _ => "Message pinned."
  | v0.SystemMessage.MessageUnpinned _ _ => "Message unpinned."
  | v0.SystemMessage.CallStarted _ _ => "Call started."
  end.

Definition or {A} (a b : option A) : option A := match a with Some _ => a | None => b end.

(** The text of the first embed. *)
Definition embed_text (embeds : list v0.Embed) : string :=
  match embeds with
  | v0.Embed.Image _ :: _ => "Sent an image"
  | v0.Embed.Video _ :: _ => "Sent a video"
  | v0.Embed.Text e :: _ => default "Empty Embed" (or (v0.te_description e) (v0.te_title e))
  | v0.Embed.Website e :: _ =>
      default "Empty Embed" (or (v0.wm_title e) (or (v0.wm_description e) (v0.wm_site_name e)))
  | v0.Embed.None :: _ => "Empty Message"
  | [] => "Empty Message"
  end.

Definition v0_channel_id (c : v0.Channel) : string := channel_id (Channel_from_v0 c).

(** [PushNotification::from] *)
Definition PushNotification_from (config : MessageConfig) (now_secs : Z) (msg : v0.Message)
    (author : option v0.MessageAuthor) (channel : v0.Channel) : PushNotification := {|
  pn_author := match author with Some x => v0.MessageAuthor.username x | None => "Company" end;
  pn_icon := match author with
             | Some author =>
                 match v0.MessageAuthor.avatar author with
                 | Some avatar => mc_hosts_api config +:+ "/assets/" +:+ avatar
                 | None => mc_hosts_api config +:+ "/users/" +:+ v0.MessageAuthor.id author +:+ "/default_avatar"
                 end
             | None => mc_hosts_app config +:+ "/assets/logo.png"
             end;
  pn_image := attachments ← v0.msg_attachments msg;
              v ← head attachments;
              Some (mc_hosts_api config +:+ "/assets/" +:+ v0.f_id v);
  pn_body := match v0.msg_system msg with
             | Some sys => system_text sys
             | None => match v0.msg_content msg with
                       | Some text => text
                       | None => match v0.msg_embeds msg with
                                 | Some embeds => embed_text embeds
                                 | None => "Empty Message"
                                 end
                       end
             end;
  pn_tag := v0_channel_id channel;
  pn_timestamp := now_secs;
  pn_url := mc_hosts_app config +:+ "/channel/" +:+ v0_channel_id channel +:+ "/" +:+ v0.msg_id msg;
  pn_message := msg;
  pn_channel := channel |}.

(** ** Operations *)

Section Operations.
Context {D C : Type} `{Database D} `{PermissionDatabase D} `{MessageDatabase D} `{LruCache C}.
Context `{HashOrder} `{TextServices}.
Context `{OptionalStruct Message PartialMessage} `{OptionalStruct Webhook PartialWebhook}.
Context (now : Timestamp) (config : MessageConfig).
Context (lexer : string -> list (option MessageToken)).
Context (embed_error : v0.SendableEmbed -> option string).
Context (permissible_emojis : gset string).
Local Abbreviation W := (M ErrorType (World D)).
Local Abbreviation Nm := (M ErrorType (Node D C)).

Definition on_world {A} (m : W A) : Nm A := fun n =>
  let '(r, w) := m (nd_world n) in
  (r, {| nd_world := w; nd_keys := nd_keys n; nd_tasks := nd_tasks n |}).

Definition on_keys {A} (m : M ErrorType C A) : Nm A := fun n =>
  let '(r, k) := m (nd_keys n) in
  (r, {| nd_world := nd_world n; nd_keys := k; nd_tasks := nd_tasks n |}).

Definition queue_task (t : Task) : Nm unit :=
  modify (fun n => {| nd_world := nd_world n; nd_keys := nd_keys n; nd_tasks := nd_tasks n ++ [t] |}).

(** The database as permission queries read it. *)
Definition on_db {A} (f : D -> Result A) : Nm A := fun n => (f (w_db (nd_world n)), n).

(** [File::use_attachment] *)
Definition use_attachment (id parent uploader_id : string) : W File :=
  call (Database.find_and_use_attachment id "attachments"
          {| fuf_object_type := FileUsedForType.Message; fuf_id := parent |} uploader_id).

(** [Message::validate_sum], lengths in bytes *)
Definition validate_sum (content : option string) (embeds : list v0.SendableEmbed) (max_length : Z)
    : Result unit :=
  let len s := Z.of_nat (String.length s) in
  let total := foldl (fun total embed =>
                 match v0.se_description embed with Some desc => total + len desc | None => total end)
                 (match content with Some content => len content | None => 0 end) embeds in
  if total <=? max_length then Ok tt else Err ErrorType.PayloadTooLarge.

Definition is_none_or {A} (P : A -> bool) (o : option A) : bool :=
  match o with Some a => P a | None => true end.

(** The first step of mass mention resolution: whether notifications are
    suppressed, everyone and everyone online mentioned. *)
Definition resolve_flags (flags : option Z) (user : option v0.User) (allow_mentions : bool)
    : Result (bool * bool * bool) :=
  match flags with
  | None => Ok (false, false, false)
  | Some raw_flags =>
      if 7 <? raw_flags then Err ErrorType.InvalidProperty else
      let suppress := has raw_flags v0.MessageFlags.SuppressNotifications in
      let everyone := allow_mentions && has raw_flags v0.MessageFlags.MentionsEveryone in
      let online := allow_mentions && has raw_flags v0.MessageFlags.MentionsOnline in
      if match user with Some u => bool_decide (v0.u_bot u = None) | None => false end && (everyone || online)
      then Err ErrorType.IsNotBot
      else if everyone && online then Err ErrorType.InvalidFlagValue
      else Ok (suppress, everyone, online)
  end.

(** Reactions are not restricted without a list of reactions. *)
Definition check_interactions (interactions : option v0.Interactions) : Result unit :=
  match interactions with
  | Some i =>
      if v0.ia_restrict_reactions i && is_none_or (fun l => bool_decide (l = [])) (v0.ia_reactions i)
      then Err ErrorType.InvalidProperty else Ok tt
  | None => Ok tt
  end.

(** The permission check of mass mentions; webhooks are exempt. *)
Definition check_mass_mention (author : v0.MessageAuthor) (channel : Channel) (anyone roles : bool)
    : Nm unit :=
  match author with
  | v0.MessageAuthor.System _ _ => throw ErrorType.InvalidProperty
  | v0.MessageAuthor.Webhook _ => mret tt
  | v0.MessageAuthor.User user =>
      perms ← on_db (fun d => (db_calculate_channel_permissions now
                 (query_channel (DatabasePermissionQuery_new d (User_from_v0 user)) channel)).1);
      if anyone && negb (has_channel_permission perms ChannelPermission.MentionEveryone)
      then throw (ErrorType.MissingPermission "MentionEveryone")
      else if roles && negb (has_channel_permission perms ChannelPermission.MentionRoles)
      then throw (ErrorType.MissingPermission "MentionRoles")
      else mret tt
  end.

(** The messages that are replied to, and the mentions they add. *)
Fixpoint resolve_replies (allow_mentions : bool) (entries : list v0.ReplyIntent) (replies : list string)
    (user_mentions : gset string) : Nm (list string * gset string) :=
  match entries with
  | [] => mret (replies, user_mentions)
  | entry :: entries => fun n =>
      match on_world (call (MessageDb.fetch_message (v0.ri_id entry))) n with
      | (Ok message, n) =>
          resolve_replies allow_mentions entries
            (if contains (msg_id message) replies then replies else replies ++ [msg_id message])
            (if v0.ri_mention entry && allow_mentions
             then {[ msg_author message ]} ∪ user_mentions else user_mentions) n
      | (Err e, n) =>
          if negb (bool_decide (e = ErrorType.NotFound)) || default true (v0.ri_fail_if_not_exists entry)
          then (Err e, n) else resolve_replies allow_mentions entries replies user_mentions n
      | (Panicked, n) => (Panicked, n)
      end
  end.

(** The mentions of users who are in the channel, and the role mentions. *)
Definition validate_mentions (channel : Channel) (user_mentions role_mentions : gset string)
    : Nm (gset string * gset string) :=
  if bool_decide (user_mentions = ∅) then mret (user_mentions, role_mentions) else
  match channel with
  | Channel.DirectMessage c => mret (user_mentions ∩ list_to_set (dm_recipients c), ∅)
  | Channel.Group c => mret (user_mentions ∩ list_to_set (g_recipients c), ∅)
  | Channel.TextChannel c => fun n =>
      let d := w_db (nd_world n) in
      match fetch_members d (t_server c) (set_iter user_mentions) with
      | Ok valid_members =>
          let user_mentions := user_mentions ∩ list_to_set (mk_user ∘ m_id <$> valid_members) in
          if bool_decide (user_mentions = ∅) then (Ok (user_mentions, role_mentions), n) else
          (query ← from_server_id d (t_server c);
           view ← (members_can_see_channel now (bulk_members (bulk_channel query channel) valid_members)).1;
           Ok (filter (fun m => default false (view !! m) = true) user_mentions, role_mentions), n)
      | Err _ => (Err ErrorType.InternalError, n)
      | Panicked => (Panicked, n)
      end
  | Channel.SavedMessages _ => mret (∅, role_mentions)
  end.

Fixpoint use_attachments (ids : list string) (message_id uploader : string) : W (list File) :=
  match ids with
  | [] => mret []
  | id :: ids => file ← use_attachment id message_id uploader; rest ← use_attachments ids message_id uploader;
                 mret (file :: rest)
  end.

(** [Message::attach_sendable_embed], for a message with the given id and author *)
Definition sendable_embed (id author : string) (embed : v0.SendableEmbed) : W v0.Embed :=
  media ← match v0.se_media embed with
          | Some m => file ← use_attachment m id author; mret (Some (File_to_v0 file))
          | None => mret None
          end;
  mret (v0.Embed.Text {| v0.te_icon_url := v0.se_icon_url embed; v0.te_url := v0.se_url embed;
    v0.te_title := v0.se_title embed; v0.te_description := v0.se_description embed;
    v0.te_media := media; v0.te_colour := v0.se_colour embed |}).
Definition attach_sendable_embed (self : Message) (embed : v0.SendableEmbed) : W Message :=
  embed ← sendable_embed (msg_id self) (msg_author self) embed;
  mret (msg_set_embeds (Some match msg_embeds self with Some embeds => embeds ++ [embed] | None => [embed] end) self).
Fixpoint attach_embeds (self : Message) (embeds : list v0.SendableEmbed) : W Message :=
  match embeds with
  | [] => mret self
  | e :: embeds => self ← attach_sendable_embed self e; attach_embeds self embeds
  end.

(** [Message::create_embed] *)
Definition create_embed (self : Message) (embed : v0.SendableEmbed) : W v0.Embed :=
  match embed_error embed with
  | Some error => throw (ErrorType.FailedValidation error)
  | None => sendable_embed (msg_id self) (msg_author self) embed
  end.

(** [Message::send_without_notifications] *)
Definition send_without_notifications (self : Message) (user : option v0.User) (member : option v0.Member)
    (is_dm mentions_elsewhere : bool) : Nm unit :=
  (if is_dm then on_world (p (EventV1.Message (into_model self user member)) (msg_channel self))
   else on_world (call (MessageDb.insert_message self));;
        on_world (p (EventV1.Message (into_model self user member)) (msg_channel self)));;
  queue_task (Task.LastMessageId (msg_channel self) (msg_id self) is_dm);;
  if negb mentions_elsewhere then
    match msg_mentions self with
    | Some mentions =>
        queue_task (Task.ProcessMessage (msg_channel self) None self mentions (has_suppressed_notifications self))
    | None => mret tt
    end
  else mret tt.

(** [Message::send] *)
Definition send (self : Message) (author : v0.MessageAuthor) (user : option v0.User)
    (member : option v0.Member) (channel : Channel) : Nm unit :=
  send_without_notifications self user member
    (match channel with Channel.DirectMessage _ => true | _ => false end) true;;
  if negb (has_suppressed_notifications self)
     && (bool_decide (is_Some (msg_mentions self)) || contains_mass_push_mention self)
  then
    queue_task (Task.ProcessMessage (msg_channel self)
      (Some (PushNotification_from config now (into_model self user member) (Some author) (Channel_to_v0 channel)))
      self
      match channel with
      | Channel.DirectMessage c => dm_recipients c
      | Channel.Group c => g_recipients c
      | Channel.TextChannel _ => default [] (msg_mentions self)
      | Channel.SavedMessages _ => []
      end false)
  else mret tt.

(** The vector of a set, absent when it is empty. *)
Definition some_list (s : gset string) : option (list string) :=
  if bool_decide (s = ∅) then None else Some (set_iter s).
Definition some_vec {A} (l : list A) : option (list A) := match l with [] => None | _ => Some l end.

(** The mentions of the content and of the flags; roles that the server does not
    have are dropped when mass mentions are allowed. *)
Definition collect_mentions (channel : Channel) (content : option string) (allow_mass_mentions : bool)
    (everyone online : bool) : Nm MessageResults :=
  let found := match content with Some c => parse_message lexer c | None => MessageResults_default end in
  let roles := role_mentions found in
  roles ← match channel with
          | Channel.TextChannel c =>
              if allow_mass_mentions && negb (bool_decide (roles = ∅)) then
                on_db (fun d => match fetch_server d (t_server c) with
                                | Ok server => Ok (filter (fun r => is_Some (s_roles server !! r)) roles)
                                | _ => Panicked
                                end)
              else mret roles
          | _ => mret roles
          end;
  mret {| user_mentions := user_mentions found; role_mentions := roles;
          mentions_everyone := mentions_everyone found || everyone;
          mentions_online := mentions_online found || online |}.

(** Mass mentions are dropped when they are disabled, checked otherwise. *)
Definition resolve_mass_mentions (author : v0.MessageAuthor) (channel : Channel) (r : MessageResults)
    : Nm MessageResults :=
  let roles := negb (bool_decide (role_mentions r = ∅)) in
  let anyone := mentions_everyone r || mentions_online r in
  if negb (mc_mass_mentions_enabled config) && (anyone || roles) then
    mret {| user_mentions := user_mentions r; role_mentions := ∅;
            mentions_everyone := false; mentions_online := false |}
  else if anyone || roles then check_mass_mention author channel anyone roles;; mret r
  else mret r.

(** The message as it is first put together. *)
Definition new_message (id : string) (channel : Channel) (data : v0.DataMessageSend)
    (author : v0.MessageAuthor) : Message := {|
  msg_id := id; msg_nonce := None; msg_channel := channel_id channel;
  msg_author := v0.MessageAuthor.id author;
  msg_webhook := match author with
                 | v0.MessageAuthor.Webhook webhook => Some (v0.MessageWebhook_from webhook)
                 | _ => None
                 end;
  msg_content := None; msg_system := None; msg_attachments := None; msg_edited := None;
  msg_embeds := None; msg_mentions := None; msg_role_mentions := None; msg_replies := None;
  msg_reactions := [];
  msg_interactions := match v0.ms_interactions data with
                      | Some i => Interactions_from_v0 i
                      | None => Interactions_default
                      end;
  msg_masquerade := Masquerade_from_v0 <$> v0.ms_masquerade data;
  msg_pinned := None; msg_flags := v0.ms_flags data |}.

(** The message with what the checks found. *)
Definition msg_set_results (mentions role_mentions replies : option (list string)) (flags : Z)
    (attachments : option (list File)) (m : Message) : Message := {|
  msg_id := msg_id m; msg_nonce := msg_nonce m; msg_channel := msg_channel m;
  msg_author := msg_author m; msg_webhook := msg_webhook m; msg_content := msg_content m;
  msg_system := msg_system m; msg_attachments := attachments; msg_edited := msg_edited m;
  msg_embeds := msg_embeds m; msg_mentions := mentions; msg_role_mentions := role_mentions;
  msg_replies := replies; msg_reactions := msg_reactions m; msg_interactions := msg_interactions m;
  msg_masquerade := msg_masquerade m; msg_pinned := msg_pinned m; msg_flags := Some flags |}.
Definition msg_set_content (content nonce : option string) (m : Message) : Message := {|
  msg_id := msg_id m; msg_nonce := nonce; msg_channel := msg_channel m;
  msg_author := msg_author m; msg_webhook := msg_webhook m; msg_content := content;
  msg_system := msg_system m; msg_attachments := msg_attachments m; msg_edited := msg_edited m;
  msg_embeds := msg_embeds m; msg_mentions := msg_mentions m; msg_role_mentions := msg_role_mentions m;
  msg_replies := msg_replies m; msg_reactions := msg_reactions m; msg_interactions := msg_interactions m;
  msg_masquerade := msg_masquerade m; msg_pinned := msg_pinned m; msg_flags := msg_flags m |}.

Definition final_flags (suppress everyone online : bool) : Z :=
  set_flag (set_flag (set_flag 0 v0.MessageFlags.SuppressNotifications suppress)
              v0.MessageFlags.MentionsEveryone everyone) v0.MessageFlags.MentionsOnline online.

Definition longer_than {A} (o : option (list A)) (max : Z) : bool :=
  match o with Some l => max <? Z.of_nat (length l) | None => false end.

(** [Message::create_from_api]; [ulid] is the identifier of the message *)
Definition create_from_api (ulid : string) (channel : Channel) (data : v0.DataMessageSend)
    (author : v0.MessageAuthor) (user : option v0.User) (member : option v0.Member)
    (limits : FeaturesLimits) (idempotency : IdempotencyKey) (allow_mentions : bool) : Nm Message :=
  lift_outcome (validate_sum (v0.ms_content data) (default [] (v0.ms_embeds data)) (fl_message_length limits));;
  idempotency ← (fun n => match on_keys (consume_nonce idempotency (v0.ms_nonce data)) n with
                          | (Err _, n) => (Err ErrorType.InvalidOperation, n)
                          | r => r
                          end);
  if is_none_or (fun v => String.eqb v "") (v0.ms_content data)
     && is_none_or (fun v => bool_decide (v = [])) (v0.ms_attachments data)
     && match v0.ms_embeds data with Some (_ :: _) => false | _ => true end
  then throw ErrorType.EmptyMessage else
  '(suppress, everyone, online) ← lift_outcome (resolve_flags (v0.ms_flags data) user allow_mentions);
  lift_outcome (check_interactions (v0.ms_interactions data));;
  let message := new_message ulid channel data author in
  found ← collect_mentions channel (v0.ms_content data) (allow_mentions && mc_mass_mentions_enabled config)
            everyone online;
  found ← resolve_mass_mentions author channel found;
  (if longer_than (v0.ms_replies data) (gl_message_replies (mc_global config))
   then throw (ErrorType.TooManyReplies (gl_message_replies (mc_global config))) else mret tt);;
  '(replies, users) ← resolve_replies allow_mentions (default [] (v0.ms_replies data)) [] (user_mentions found);
  '(users, roles) ← validate_mentions channel users (role_mentions found);
  (if longer_than (v0.ms_attachments data) (fl_message_attachments limits)
   then throw (ErrorType.TooManyAttachments (fl_message_attachments limits)) else mret tt);;
  (if longer_than (v0.ms_embeds data) (gl_message_embeds (mc_global config))
   then throw (ErrorType.TooManyEmbeds (gl_message_embeds (mc_global config))) else mret tt);;
  attachments ← on_world (use_attachments (default [] (v0.ms_attachments data)) ulid (v0.MessageAuthor.id author));
  let message := msg_set_results (some_list users) (some_list roles) (some_vec replies)
                   (final_flags suppress (mentions_everyone found) (mentions_online found))
                   (some_vec attachments) message in
  message ← on_world (attach_embeds message (default [] (v0.ms_embeds data)));
  let message := msg_set_content (v0.ms_content data) (Some (into_key idempotency)) message in
  send message author user member channel;;
  mret message.

(** [Message::update]; returns the message as it was left *)
Definition message_update (self : Message) (partial : PartialMessage) (remove : list FieldsMessage)
    : W Message :=
  let self := foldl message_remove_field (apply_options self partial) remove in
  call (MessageDb.update_message (msg_id self) partial remove);;
  p (EventV1.MessageUpdate (msg_id self) (msg_channel self) partial remove) (msg_channel self);;
  mret self.

(** [Message::append] *)
Definition message_append (id channel : string) (append : AppendMessage) : W unit :=
  call (MessageDb.append_message id append);;
  p (EventV1.MessageAppend id channel append) channel.

(** [Interactions::can_use], [Interactions::is_default] and [Emoji::can_use] *)
Definition can_use (self : Interactions) (emoji : string) : bool :=
  if ia_restrict_reactions self then
    match ia_reactions self with Some reactions => contains emoji reactions | None => false end
  else true.
Definition is_default (self : Interactions) : bool :=
  negb (ia_restrict_reactions self) && bool_decide (ia_reactions self = None).
Definition emoji_can_use (emoji : string) : W bool :=
  match ulid_timestamp_ms emoji with
  | Some _ => call (MessageDb.fetch_emoji emoji);; mret true
  | None => mret (bool_decide (emoji ∈ permissible_emojis))
  end.

(** [Interactions::validate] *)
Fixpoint all_can_use (reactions : list string) : W unit :=
  match reactions with
  | [] => mret tt
  | r :: reactions =>
      ok ← emoji_can_use r;
      if negb ok then throw ErrorType.InvalidOperation else all_can_use reactions
  end.
Definition interactions_validate (self : Interactions) (permissions : PermissionValue) : W unit :=
  match ia_reactions self with
  | Some reactions =>
      lift_outcome (throw_if_lacking_channel_permission permissions ChannelPermission.React);;
      if gl_message_reactions (mc_global config) <? Z.of_nat (length reactions)
      then throw ErrorType.InvalidOperation
      else all_can_use reactions
  | None => mret tt
  end.

(** [Message::add_reaction] *)
Definition message_add_reaction (self : Message) (user : User) (emoji : string) : W unit :=
  if (gl_message_reactions (mc_global config) <=? Z.of_nat (length (msg_reactions self)))
     && negb (bool_decide (is_Some (im_get emoji (msg_reactions self))))
  then throw ErrorType.InvalidOperation
  else if negb (can_use (msg_interactions self) emoji) then throw ErrorType.InvalidOperation
  else
    ok ← emoji_can_use emoji;
    if negb ok then throw ErrorType.InvalidOperation else
    p (EventV1.MessageReact (msg_id self) (msg_channel self) (u_id user) emoji) (msg_channel self);;
    call (MessageDb.add_reaction (msg_id self) emoji (u_id user)).

(** [Message::remove_reaction] *)
Definition message_remove_reaction (self : Message) (user emoji : string) : W unit :=
  match im_get emoji (msg_reactions self) with
  | Some users =>
      if negb (contains user users) then throw ErrorType.NotFound else
      p (EventV1.MessageUnreact (msg_id self) (msg_channel self) user emoji) (msg_channel self);;
      if Z.of_nat (length users) =? 1
      then call (MessageDb.clear_reaction (msg_id self) emoji)
      else call (MessageDb.remove_reaction (msg_id self) emoji user)
  | None => throw ErrorType.NotFound
  end.

(** [Message::clear_reaction] *)
Definition message_clear_reaction (self : Message) (emoji : string) : W unit :=
  p (EventV1.MessageRemoveReaction (msg_id self) (msg_channel self) emoji) (msg_channel self);;
  call (MessageDb.clear_reaction (msg_id self) emoji).

(** [Message::delete] and [Message::bulk_delete] *)
Definition message_delete (self : Message) : W unit :=
  let file_ids := match msg_attachments self with Some files => f_id <$> files | None => [] end in
  (if bool_decide (file_ids = []) then mret tt else call (MessageDb.mark_attachments_as_deleted file_ids));;
  call (MessageDb.delete_message (msg_id self));;
  p (EventV1.MessageDelete (msg_id self) (msg_channel self)) (msg_channel self).
Definition bulk_delete (channel : string) (ids : list string) : W unit :=
  messages ← call (MessageDb.fetch_messages_by_id ids);
  let valid_ids := msg_id <$> filter (fun msg => msg_channel msg = channel) messages in
  call (MessageDb.delete_messages channel valid_ids);;
  p (EventV1.BulkMessageDelete channel valid_ids) channel.

(** [SystemMessage::into_message] *)
Definition into_message (ulid : string) (self : SystemMessage) (channel : string) : Message := {|
  msg_id := ulid; msg_nonce := None; msg_channel := channel;
  msg_author := "00000000000000000000000000"; msg_webhook := None; msg_content := None;
  msg_system := Some self; msg_attachments := None; msg_edited := None; msg_embeds := None;
  msg_mentions := None; msg_role_mentions := None; msg_replies := None; msg_reactions := [];
  msg_interactions := Interactions_default; msg_masquerade := None; msg_pinned := None;
  msg_flags := None |}.

(** ** Webhooks and emoji *)

(** [Webhook::create], [assert_token], [update] and [delete] *)
Definition webhook_create (self : Webhook) : W unit :=
  call (MessageDb.insert_webhook self);;
  p (EventV1.WebhookCreate (wh_set (wh_avatar self) None self)) (wh_channel_id self).
Definition assert_token (self : Webhook) (token : string) : Result unit :=
  if bool_decide (wh_token self = Some token) then Ok tt else Err ErrorType.NotAuthenticated.
Definition webhook_update (self : Webhook) (partial : PartialWebhook) (remove : list FieldsWebhook)
    : W Webhook :=
  let self := apply_options (foldl webhook_remove_field self remove) partial in
  call (MessageDb.update_webhook (wh_id self) partial remove);;
  p (EventV1.WebhookUpdate (wh_id self) (pwh_set_token None partial) remove) (wh_channel_id self);;
  mret self.
Definition webhook_delete (self : Webhook) : W unit :=
  call (MessageDb.delete_webhook (wh_id self));;
  p (EventV1.WebhookDelete (wh_id self)) (wh_channel_id self).

(** [Emoji::parent], [create] and [delete] *)
Definition emoji_parent (self : Emoji) : string :=
  match e_parent self with EmojiParent.Server id => id | EmojiParent.Detached => "" end.
Definition emoji_create (self : Emoji) : W unit :=
  call (MessageDb.insert_emoji self);;
  p (EventV1.EmojiCreate self) (emoji_parent self).
Definition emoji_delete (self : Emoji) : W unit :=
  p (EventV1.EmojiDelete (e_id self)) (emoji_parent self);;
  call (MessageDb.detach_emoji self).

(** [Channel::ack] *)
Definition channel_ack (self : Channel) (user message : string) : Nm unit :=
  on_world (private (EventV1.ChannelAck (channel_id self) user message) user);;
  queue_task (Task.AckMessage (channel_id self) user message).

(** ** Fetching many messages *)

Section Fetch.
(** [online] is what the presence service answers; [cutoff] decides about badges *)
Variables (cutoff : option Z) (online : gset string).

(** [User::fetch_many_ids_as_mutuals] *)
Fixpoint as_mutuals (perspective : User) (users : list User) : Result (list v0.User) :=
  match users with
  | [] => Ok []
  | user :: users =>
      shown ← into_known cutoff (Some perspective) (bool_decide (u_id user ∈ online)) user;
      rest ← as_mutuals perspective users;
      Ok (shown :: rest)
  end.
Definition fetch_many_ids_as_mutuals (perspective : User) (ids : list string) : W (list v0.User) :=
  users ← call (Database.fetch_users ids);
  lift_outcome (as_mutuals perspective users).

(** The users a system message is about. *)
Definition system_users (s : v0.SystemMessage) : list string :=
  match s with
  | v0.SystemMessage.Text _ => []
  | v0.SystemMessage.UserAdded id by_ | v0.SystemMessage.UserRemove id by_ => [by_; id]
  | v0.SystemMessage.UserJoined id | v0.SystemMessage.UserLeft id
  | v0.SystemMessage.UserKicked id | v0.SystemMessage.UserBanned id => [id]
  | v0.SystemMessage.ChannelRenamed _ by_ => [by_]
  | v0.SystemMessage.ChannelDescriptionChanged by_ | v0.SystemMessage.ChannelIconChanged by_ => [by_]
  | v0.SystemMessage.ChannelOwnershipChanged from to => [from; to]
  | v0.SystemMessage.MessagePinned _ by_ | v0.SystemMessage.MessageUnpinned _ by_ => [by_]
  | v0.SystemMessage.CallStarted by_ _ => [by_]
  end.
Definition users_of (m : v0.Message) : list string :=
  v0.msg_author m :: match v0.msg_system m with Some s => system_users s | None => [] end.

(** [Message::fetch_with_users] *)
Definition fetch_with_users (query : MessageQuery) (perspective : User) (include_users : option bool)
    (server_id : option string) : W v0.BulkMessageResponse :=
  messages ← call (MessageDb.fetch_messages query);
  let messages := map (fun m => into_model m None None) messages in
  if bool_decide (include_users = Some true) then
    let user_ids := set_iter (list_to_set (concat (map users_of messages))) in
    users ← fetch_many_ids_as_mutuals perspective user_ids;
    members ← (match server_id with
               | Some server_id =>
                   members ← (fun w => (fetch_members (w_db w) server_id user_ids, w));
                   mret (Some (map Member_to_v0 members))
               | None => mret None
               end : W (option (list v0.Member)));
    mret (v0.BulkMessageResponse.MessagesAndUsers messages users members)
  else mret (v0.BulkMessageResponse.JustMessages messages).
End Fetch.
End Operations.

(** ** What is created *)

Lemma elem_of_set_iter `{HashOrder} (s : gset string) x : x ∈ set_iter s <-> x ∈ s.
Proof.
  unfold set_iter. rewrite list_elem_of_fmap. split.
  - intros ([k []] & -> & Hk). apply elem_of_hm_iter, lookup_gset_to_gmap_Some in Hk. by destruct Hk.
  - intros Hx. exists (x, tt). split; [done|]. apply elem_of_hm_iter. by apply lookup_gset_to_gmap_Some.
Qed.

Lemma foldl_insert_elem {V} (f : User -> V) (l : list User) (acc : gmap string V) x v :
  foldl (fun resp y => <[u_id y := f y]> resp) acc l !! x = Some v ->
  acc !! x = Some v \/ exists y, y ∈ l /\ u_id y = x /\ f y = v.
Proof.
  revert acc. induction l as [|y l IH]; intros acc; simpl; [by left|].
  intros [Hx|(y' & Hy & Hx & Hv)]%IH; [|right; exists y'; set_solver].
  apply lookup_insert_Some in Hx as [[<- <-]|[_ Hx]]; [right; exists y; set_solver|by left].
Qed.

Section Created.
Context {C : Type} `{LruCache C} `{HO : HashOrder} `{TS : TextServices}.
Context `{OS : OptionalStruct Server PartialServer} `{OR : OptionalStruct Role PartialRole}.
Context `{OM : OptionalStruct Member PartialMember} `{OU : OptionalStruct User PartialUser}.
Context `{OG : OptionalStruct Message PartialMessage} `{OW : OptionalStruct Webhook PartialWebhook}.
Context (now : Timestamp) (config : MessageConfig).
Context (lexer : string -> list (option MessageToken)).
Local Abbreviation Nd := (Node ReferenceDb C).
Local Abbreviation db n := (w_db (nd_world n)).

(** Who may be mentioned in a channel: its recipients, or the members of its
    server who see it. *)
Definition may_be_mentioned (d : ReferenceDb) (channel : Channel) (u : string) : Prop :=
  match channel with
  | Channel.SavedMessages _ => False
  | Channel.DirectMessage c => u ∈ dm_recipients c
  | Channel.Group c => u ∈ g_recipients c
  | Channel.TextChannel t =>
      exists server ids members users user,
        Ref.fetch_server d (t_server t) = Ok server
        /\ Ref.fetch_members d (t_server t) ids = Ok members
        /\ Ref.fetch_users d (mk_user ∘ m_id <$> members) = Ok users
        /\ user ∈ users /\ u_id user = u /\ u ∈ mk_user ∘ m_id <$> members
        /\ has_channel_permission (bulk_user_permissions now server (t_role_permissions t)
             (t_default_permissions t) (members_by_user members) user) ChannelPermission.ViewChannel = true
  end.

(** Steps that only read the database. *)
Definition same_db (n n' : Nd) : Prop := db n' = db n.

(** The users of the members are found when the bulk query returns. *)
Lemma bulk_query_users {D} `{PermissionDatabase D} (q : BulkDatabasePermissionQuery D) t members view :
  bq_channel q = Some (Channel.TextChannel t) -> bq_users q = None -> bq_members q = Some members ->
  bq_cached_member_perms q = None -> (members_can_see_channel now q).1 = Ok view ->
  exists users, fetch_users (bq_database q) (mk_user ∘ m_id <$> members) = Ok users
    /\ view = (fun p => has_channel_permission p ChannelPermission.ViewChannel) <$>
         foldl (fun resp user => <[u_id user := bulk_user_permissions now (bq_server q) (t_role_permissions t)
                  (t_default_permissions t) (members_by_user members) user]> resp) ∅ users.
Proof using HO.
  intros Hc Hu Hm Hn E.
  destruct (fetch_users (bq_database q) (mk_user ∘ m_id <$> members)) as [users| |] eqn:Ef.
  - exists users. split; [done|].
    pose proof (calculate_members_permissions_spec now q t users members Hc) as Hs.
    destruct (calculate_members_permissions now q) as [o q'] eqn:Eo. simpl in Hs.
    rewrite Hs in Eo by (split; [by right|by left]).
    unfold members_can_see_channel in E. rewrite (M_bind_ok _ _ q q q) in E by done. rewrite Hn in E.
    rewrite (M_bind_ok _ _ _ _ _ Eo) in E. by injection E as <-.
  - exfalso. revert E. unfold members_can_see_channel, calculate_members_permissions, expect_some, expect_ok.
    run_M. rewrite Hn, Hc. simpl. rewrite Hu. simpl. rewrite Hm. simpl. unfold compose in Ef. by rewrite Ef.
  - exfalso. revert E. unfold members_can_see_channel, calculate_members_permissions, expect_some, expect_ok.
    run_M. rewrite Hn, Hc. simpl. rewrite Hu. simpl. rewrite Hm. simpl. unfold compose in Ef. by rewrite Ef.
Qed.

Lemma validate_mentions_sound channel us rs (n n' : Nd) us' rs' :
  validate_mentions now channel us rs n = (Ok (us', rs'), n') ->
  same_db n n' /\ forall u, u ∈ us' -> may_be_mentioned (db n) channel u.
Proof using HO.
  clear lexer config. unfold validate_mentions. case_bool_decide as Hemp; [intros [= <- <- <-]; split; [done|]; set_solver|].
  destruct channel as [c|c|c|t].
  1-3: intros [= <- <- <-]; split; [done|simpl; set_solver].
  cbn [fetch_members reference_permission_database].
  destruct (Ref.fetch_members (db n) (t_server t) (set_iter us)) as [members| |] eqn:Em; [|done..].
  case_bool_decide as He; [intros [= <- <- <-]; split; [done|]; set_solver|].
  intros E. injection E as E En. subst n'. split; [done|]. revert E.
  unfold from_server_id. simpl. destruct (Ref.fetch_server (db n) (t_server t)) as [server| |] eqn:Es; [|done..].
  simpl. set (bq := bulk_members _ _). destruct (members_can_see_channel now bq).1 as [view| |] eqn:Eb; [|done..].
  apply (bulk_query_users bq t members view) in Eb as (users & Eu & ->); [|reflexivity..].
  simpl. intros [= <- <-] u.
  rewrite elem_of_filter, elem_of_intersection, elem_of_list_to_set. intros (Hv & Hu & Hm).
  rewrite lookup_fmap in Hv.
  destruct (foldl _ ∅ users !! u) as [v|] eqn:Ev; [|done]. simpl in Hv.
  apply foldl_insert_elem in Ev as [Ev|(user & Hin & Hid & <-)]; [by rewrite lookup_empty in Ev|].
  exists server, (set_iter us), members, users, user. by split_and!.
Qed.

Lemma on_query {A} (f : ReferenceDb -> Result A) (n : Nd) :
  on_world (call (query f)) n = (f (db n), n).
Proof. destruct n as [[]]. reflexivity. Qed.

Lemma resolve_replies_same allow entries replies us (n : Nd) r n' :
  resolve_replies allow entries replies us n = (Ok r, n') -> n' = n.
Proof.
  revert replies us. induction entries as [|e entries IH]; intros replies us; cbn [resolve_replies];
    [by intros [= _ <-]|].
  replace (on_world (call (MessageDb.fetch_message (v0.ri_id e))) n)
    with (Col.fetch_message (db n) (v0.ri_id e), n) by (symmetry; apply on_query). destruct (Col.fetch_message _ _) as [m|err|]; [apply IH| |done].
  destruct (_ || _); [done|apply IH].
Qed.

Lemma collect_mentions_same channel content allow everyone online (n : Nd) r n' :
  collect_mentions lexer channel content allow everyone online n = (Ok r, n') -> n' = n.
Proof.
  unfold collect_mentions. intros (roles & n1 & E & E1)%M_bind_Ok_inv. injection E1 as _ <-.
  destruct channel as [c|c|c|c]; [by injection E as _ <-..|].
  destruct (_ && _); [|by injection E as _ <-]. by injection E as _ <-.
Qed.

Lemma resolve_mass_mentions_same author channel r (n : Nd) r' n' :
  resolve_mass_mentions now config author channel r n = (Ok r', n') -> n' = n.
Proof.
  unfold resolve_mass_mentions. destruct (_ && _); [by intros [= _ <-]|].
  destruct (_ || _); [|by intros [= _ <-]]. intros ([] & n1 & E & [= _ <-])%M_bind_Ok_inv.
  destruct author as [user|w|]; simpl in E; [|by injection E as <-|done].
  apply M_bind_Ok_inv in E as (perms & n2 & E2 & E). injection E2 as _ <-.
  destruct (_ && _); [done|]. destruct (_ && _); [done|]. by injection E as <-.
Qed.

(** Attachments change files only. *)
Definition same_messages (w w' : World ReferenceDb) : Prop :=
  db_messages (w_db w') = db_messages (w_db w) /\ w_events w' = w_events w.

Lemma use_attachment_messages id parent uploader (w : World ReferenceDb) f w' :
  use_attachment id parent uploader w = (Ok f, w') -> same_messages w w'.
Proof.
  unfold use_attachment, call. simpl. unfold Ref.find_and_use_attachment.
  destruct (db_files (w_db w) !! id) as [file|]; [|done].
  case_bool_decide; [|done]. by intros [= _ <-].
Qed.

Lemma use_attachments_messages ids parent uploader (w : World ReferenceDb) fs w' :
  use_attachments ids parent uploader w = (Ok fs, w') ->
  same_messages w w' /\ length fs = length ids.
Proof.
  revert w fs. induction ids as [|id ids IH]; intros w fs; simpl; [by intros [= <- <-]|].
  intros (f & w1 & E1 & E)%M_bind_Ok_inv. apply M_bind_Ok_inv in E as (rest & w2 & E2 & E).
  injection E as <- <-. apply use_attachment_messages in E1 as [H1 H2]. apply IH in E2 as [[H3 H4] H5].
  split; [split; congruence|]. simpl. by rewrite H5.
Qed.

Lemma attach_embeds_same m embeds (w : World ReferenceDb) m' w' :
  attach_embeds m embeds w = (Ok m', w') ->
  same_messages w w' /\ m' = msg_set_embeds (msg_embeds m') m.
Proof.
  revert m w. induction embeds as [|e embeds IH]; intros m w; simpl.
  - intros [= <- <-]. split; [done|by destruct m].
  - intros (m1 & w1 & E1 & E)%M_bind_Ok_inv. apply IH in E as [[H1 H2] ->].
    unfold attach_sendable_embed in E1. apply M_bind_Ok_inv in E1 as (em & w2 & E2 & E1).
    injection E1 as <- <-. unfold sendable_embed in E2.
    apply M_bind_Ok_inv in E2 as (media & w3 & E3 & E2). injection E2 as _ <-.
    assert (same_messages w w3) as [H3 H4].
    { destruct (v0.se_media e); [|by injection E3 as _ <-].
      apply M_bind_Ok_inv in E3 as (f & w4 & E4 & E3). injection E3 as _ <-.
      by eapply use_attachment_messages. }
    split; [split; congruence|done].
Qed.

(** What is known of a message that was created, and of the moment before it was
    sent. *)
Lemma create_from_api_inv ulid channel data author user member limits key allow (n : Nd) m n' :
  create_from_api now config lexer ulid channel data author user member limits key allow n = (Ok m, n') ->
  exists us rs us' rs' replies (n1 n2 : Nd) suppress everyone online files embeds key',
    validate_sum (v0.ms_content data) (default [] (v0.ms_embeds data)) (fl_message_length limits) = Ok tt
    /\ on_keys (consume_nonce key (v0.ms_nonce data)) n = (Ok key', n1)
    /\ longer_than (v0.ms_replies data) (gl_message_replies (mc_global config)) = false
    /\ longer_than (v0.ms_attachments data) (fl_message_attachments limits) = false
    /\ longer_than (v0.ms_embeds data) (gl_message_embeds (mc_global config)) = false
    /\ validate_mentions now channel us rs n1 = (Ok (us', rs'), n1)
    /\ length files = length (default [] (v0.ms_attachments data))
    /\ same_messages (nd_world n1) (nd_world n2)
    /\ m = msg_set_content (v0.ms_content data) (Some (into_key key'))
             (msg_set_embeds embeds (msg_set_results (some_list us') (some_list rs') (some_vec replies)
               (final_flags suppress everyone online) (some_vec files) (new_message ulid channel data author)))
    /\ send now config m author user member channel n2 = (Ok tt, n')
    /\ nd_keys n2 = nd_keys n1.
Proof using HO TS OS OR OM OU OG OW.
  unfold create_from_api. intros ([] & n0 & E0 & E)%M_bind_Ok_inv. injection E0 as E0 <-.
  apply M_bind_Ok_inv in E as (key' & n1 & E1 & E).
  destruct (_ && _ && _); [done|].
  apply M_bind_Ok_inv in E as ([[suppress everyone] online] & n2 & E2 & E). injection E2 as E2 <-.
  apply M_bind_Ok_inv in E as ([] & n2 & E3 & E). injection E3 as E3 <-.
  apply M_bind_Ok_inv in E as (found & n2 & E4 & E). apply collect_mentions_same in E4 as ->.
  apply M_bind_Ok_inv in E as (found' & n2 & E5 & E). apply resolve_mass_mentions_same in E5 as ->.
  apply M_bind_Ok_inv in E as ([] & n2 & E6 & E).
  destruct (longer_than (v0.ms_replies data) _) eqn:L1; [done|]. injection E6 as <-.
  apply M_bind_Ok_inv in E as ([replies us] & n2 & E7 & E). apply resolve_replies_same in E7 as ->.
  apply M_bind_Ok_inv in E as ([us' rs'] & n2 & E8 & E).
  assert (n2 = n1) as ->.
  { clear -E8. unfold validate_mentions in E8. case_bool_decide; [by injection E8|].
    destruct channel; [by injection E8..|]. destruct (fetch_members _ _ _); [|done..].
    case_bool_decide; by injection E8. }
  apply M_bind_Ok_inv in E as ([] & n2 & E9 & E).
  destruct (longer_than (v0.ms_attachments data) _) eqn:L2; [done|]. injection E9 as <-.
  apply M_bind_Ok_inv in E as ([] & n2 & E10 & E).
  destruct (longer_than (v0.ms_embeds data) _) eqn:L3; [done|]. injection E10 as <-.
  apply M_bind_Ok_inv in E as (files & n2 & E11 & E).
  apply M_bind_Ok_inv in E as (message & n3 & E12 & E).
  apply M_bind_Ok_inv in E as ([] & n4 & E13 & E). injection E as <- <-.
  unfold on_world in E11, E12.
  destruct (use_attachments _ _ _ (nd_world n1)) as [[fs| |] w1] eqn:Ea; [|done..].
  injection E11 as <- <-. apply use_attachments_messages in Ea as [Hs1 Hl].
  destruct (attach_embeds _ _ _) as [[msg| |] w2] eqn:Eb; [|done..].
  injection E12 as <- <-. apply attach_embeds_same in Eb as [Hs2 Hm]. simpl in Hs2.
  exists us, (role_mentions found'), us', rs', replies, n1,
    {| nd_world := w2; nd_keys := nd_keys n1; nd_tasks := nd_tasks n1 |},
    suppress, (mentions_everyone found'), (mentions_online found'), fs, (msg_embeds msg), key'.
  split_and!; try done.
  - clear -E1. destruct (on_keys _ n) as [[k|e|] n1'] eqn:Ek; simplify_eq/=; done.
  - destruct Hs1, Hs2. split; simpl; congruence.
  - by rewrite <- Hm.
Qed.

Lemma key_same_db key nonce (n : Nd) k n1 :
  on_keys (consume_nonce key nonce) n = (Ok k, n1) -> nd_world n1 = nd_world n.
Proof. unfold on_keys. destruct (consume_nonce _ _ _) as [r c]. by intros [= _ <-]. Qed.

(** C7: Whom a message mentions: everybody in the mentions of a message that was
    created is a recipient of the group or direct message channel it was sent to,
    or a member of the server whose permissions in the channel contain
    [ViewChannel]; notes to oneself mention nobody.  Neither the content, nor the
    flags, nor replies get around this. *)
Theorem created_mentions_reach_the_channel ulid channel data author user member limits key allow (n : Nd) m n' u :
  create_from_api now config lexer ulid channel data author user member limits key allow n = (Ok m, n') ->
  u ∈ default [] (msg_mentions m) -> may_be_mentioned (db n) channel u.
Proof using HO TS OS OR OM OU OG OW.
  intros (us & rs & us' & rs' & replies & n1 & n2 & sup & ev & onl & files & embeds & key' &
    _ & Ek & _ & _ & _ & Ev & _ & _ & -> & _)%create_from_api_inv.
  apply validate_mentions_sound in Ev as [_ Hm]. apply key_same_db in Ek. rewrite Ek in Hm.
  simpl. unfold some_list. case_bool_decide; simpl; [by intros ?%elem_of_nil|].
  rewrite elem_of_set_iter. apply Hm.
Qed.

(** A message that was created is within the limits of its author: the bytes
    of its content, the number of replies, of attachments and of embeds that were
    asked for, and every attachment that was asked for is part of it. *)
Theorem created_message_within_limits ulid channel data author user member limits key allow (n : Nd) m n' :
  create_from_api now config lexer ulid channel data author user member limits key allow n = (Ok m, n') ->
  msg_content m = v0.ms_content data
  /\ Z.of_nat (String.length (default "" (msg_content m))) <= Z.max 0 (fl_message_length limits)
  /\ Z.of_nat (length (default [] (msg_attachments m))) <= Z.max 0 (fl_message_attachments limits)
  /\ length (default [] (msg_attachments m)) = length (default [] (v0.ms_attachments data))
  /\ Z.of_nat (length (default [] (v0.ms_replies data))) <= Z.max 0 (gl_message_replies (mc_global config))
  /\ Z.of_nat (length (default [] (v0.ms_embeds data))) <= Z.max 0 (gl_message_embeds (mc_global config)).
Proof using HO TS OS OR OM OU OG OW.
  intros (us & rs & us' & rs' & replies & n1 & n2 & sup & ev & onl & files & embeds & key' &
    Es & _ & L1 & L2 & L3 & _ & Hl & _ & -> & _)%create_from_api_inv.
  assert (forall {A} (o : option (list A)) max, longer_than o max = false ->
    Z.of_nat (length (default [] o)) <= Z.max 0 max) as Hlen.
  { intros A [l|] max; simpl; [intros ?%Z.ltb_ge; lia|lia]. }
  assert (default [] (some_vec files) = files) as Hf by by destruct files.
  split_and!; simpl; [done| |rewrite Hf, Hl; by apply Hlen|by rewrite Hf|by apply Hlen..].
  revert Es. unfold validate_sum.
  assert (forall embeds start, start <= foldl (fun total embed => match v0.se_description embed with
    | Some desc => total + Z.of_nat (String.length desc) | None => total end) start embeds) as Hge.
  { clear. induction embeds as [|e embeds IH]; intros start; simpl; [lia|].
    etrans; [|apply IH]. destruct (v0.se_description e); lia. }
  destruct (Z.leb_spec (foldl (fun total embed => match v0.se_description embed with
    | Some desc => total + Z.of_nat (String.length desc) | None => total end)
    match v0.ms_content data with Some content => Z.of_nat (String.length content) | None => 0 end
    (default [] (v0.ms_embeds data))) (fl_message_length limits)) as [Hle|]; [|done].
  intros _. specialize (Hge (default [] (v0.ms_embeds data))
    match v0.ms_content data with Some content => Z.of_nat (String.length content) | None => 0 end).
  destruct (v0.ms_content data); simpl in *; lia.
Qed.

(** A message that was created is stored and published to its channel; in a
    direct message channel it is published and nothing is stored, so that it can
    not be fetched, edited, or reacted to afterwards. *)
Theorem created_message_is_delivered ulid channel data author user member limits key allow (n : Nd) m n' :
  create_from_api now config lexer ulid channel data author user member limits key allow n = (Ok m, n') ->
  w_events (nd_world n') =
    w_events (nd_world n) ++ [(channel_id channel, EventV1.Message (into_model m user member))]
  /\ match channel with
     | Channel.DirectMessage _ => db_messages (db n') = db_messages (db n)
     | _ => db_messages (db n) !! ulid = None /\ db_messages (db n') = <[ulid := m]> (db_messages (db n))
     end.
Proof using HO TS OS OR OM OU OG OW.
  intros (us & rs & us' & rs' & replies & n1 & n2 & sup & ev & onl & files & embeds & key' &
    _ & Ek & _ & _ & _ & _ & _ & [Hm He] & Em & E & _)%create_from_api_inv.
  apply key_same_db in Ek. rewrite Ek in Hm, He.
  assert (msg_id m = ulid /\ msg_channel m = channel_id channel) as [Hi Hc] by by subst m.
  clear Em. unfold send in E. apply M_bind_Ok_inv in E as ([] & n3 & E1 & E2).
  assert (nd_world n' = nd_world n3) as ->.
  { destruct (_ && _); by injection E2 as <-. }
  clear E2. unfold send_without_notifications in E1.
  apply M_bind_Ok_inv in E1 as ([] & n4 & E1 & E2). assert (nd_world n3 = nd_world n4) as ->.
  { apply M_bind_Ok_inv in E2 as ([] & n5 & E2 & E3). injection E2 as <-. by injection E3 as <-. }
  clear E2 n3. rewrite Hc in E1.
  destruct channel as [c|c|c|c]; simpl in E1.
  2: { injection E1 as <-. simpl. by rewrite He, Hm. }
  all: apply M_bind_Ok_inv in E1 as ([] & n5 & E1 & E2); injection E2 as <-;
    unfold on_world, call in E1; simpl in E1; unfold Col.insert_message, insert_new in E1;
    rewrite Hi, Hm in E1; destruct (db_messages (db n) !! ulid) eqn:El; [done|];
    injection E1 as <-; simpl; by rewrite He.
Qed.

Lemma send_keys m author user member channel (n n' : Nd) :
  send now config m author user member channel n = (Ok tt, n') -> nd_keys n' = nd_keys n.
Proof using HO TS OS OR OM OU OG OW.
  unfold send. intros ([] & n1 & E1 & E2)%M_bind_Ok_inv. assert (nd_keys n' = nd_keys n1) as ->.
  { destruct (_ && _); by injection E2 as <-. }
  clear E2. unfold send_without_notifications in E1. apply M_bind_Ok_inv in E1 as ([] & n2 & E1 & E2).
  assert (nd_keys n1 = nd_keys n2) as ->.
  { apply M_bind_Ok_inv in E2 as ([] & n3 & E2 & E3). injection E2 as <-. by injection E3 as <-. }
  assert (forall {A} (w : M ErrorType (World ReferenceDb) A) (n : Nd), nd_keys (on_world w n).2 = nd_keys n) as Hw.
  { intros A w n0. unfold on_world. by destruct (w (nd_world n0)). }
  clear E2. destruct channel; [| by injection E1 as <- |..].
  all: apply M_bind_Ok_inv in E1 as ([] & n3 & E1 & E2); injection E2 as <-;
    pose proof (Hw _ (call (MessageDb.insert_message m)) n) as H3; rewrite E1 in H3; exact H3.
Qed.

(** C17: A nonce is good for one message: a request that repeats the nonce of the
    message created just before is refused, whatever else it asks for, and nothing
    is stored, published or queued. *)
Theorem nonce_admits_one_message `{LL : !LruLaws C TOKEN_CACHE_SIZE} ulid channel data author user member limits key
    allow (n : Nd) m n' v ulid2 channel2 data2 author2 user2 member2 limits2 key2 allow2 :
  create_from_api now config lexer ulid channel data author user member limits key allow n = (Ok m, n') ->
  v0.ms_nonce data = Some v -> v0.ms_nonce data2 = Some v ->
  exists e n2, create_from_api now config lexer ulid2 channel2 data2 author2 user2 member2 limits2 key2 allow2 n'
    = (Err e, n2) /\ nd_world n2 = nd_world n' /\ nd_tasks n2 = nd_tasks n'.
Proof using HO TS OS OR OM OU OG OW.
  intros (us & rs & us' & rs' & replies & n1 & n2 & sup & ev & onl & files & embeds & key' &
    _ & Ek & _ & _ & _ & _ & _ & _ & _ & Es & Hk)%create_from_api_inv Hv Hv2.
  apply send_keys in Es. rewrite Hk in Es. clear Hk.
  assert (nd_keys n1 = (use_key v (nd_keys n)).2) as Hn1.
  { unfold on_keys in Ek. rewrite Hv in Ek. simpl in Ek. unfold mbind, M_bind in Ek.
    destruct (use_key v (nd_keys n)) as [[[]|e|] c] eqn:Eu; [|done..]. by injection Ek as _ <-. }
  assert (v ∈ lru_keys (nd_keys n')) as Hin.
  { rewrite Es, Hn1. eapply kept_elem, use_key_self. }
  unfold create_from_api. unfold mbind at 1, M_bind at 1, lift_outcome at 1.
  destruct (validate_sum (v0.ms_content data2) _ _) as [[]|e|] eqn:Ev2; [|by eexists _, _|].
  2: { unfold validate_sum in Ev2. by destruct (_ <=? _). }
  unfold mbind at 1, M_bind at 1. unfold on_keys, consume_nonce. rewrite Hv2.
  unfold mbind at 1, M_bind at 1, use_key.
  destruct (proj1 (lru_get_law v (nd_keys n')) Hin) as [Eg _].
  destruct (lru_get v (nd_keys n')) as [g c]. simpl in Eg. subst g. simpl. by eexists _, _.
Qed.

(** The bit that [has_suppressed_notifications] looks at is never set in a message
    that was created, whatever its flags were: notifications are sent for messages
    that ask for none. *)
Lemma notifications_never_suppressed ulid channel data author user member limits key allow (n : Nd) m n' :
  create_from_api now config lexer ulid channel data author user member limits key allow n = (Ok m, n') ->
  has_suppressed_notifications m = false.
Proof using HO TS OS OR OM OU OG OW.
  intros (us & rs & us' & rs' & replies & n1 & n2 & sup & ev & onl & files & embeds & key' &
    _ & _ & _ & _ & _ & _ & _ & _ & -> & _)%create_from_api_inv.
  by destruct sup, ev, onl.
Qed.

(** Deleting some messages of a channel in bulk leaves none of its messages in the
    reference database. *)
Lemma bulk_delete_empties_channel channel ids (w w' : World ReferenceDb) id m :
  bulk_delete channel ids w = (Ok tt, w') -> db_messages (w_db w') !! id = Some m -> msg_channel m <> channel.
Proof.
  unfold bulk_delete. intros (ms & w1 & E1 & E)%M_bind_Ok_inv.
  apply M_bind_Ok_inv in E as ([] & w2 & E2 & E). injection E as <-.
  unfold call in E2. simpl in E2. injection E2 as <-. simpl.
  intros [_ Hf]%map_lookup_filter_Some. apply andb_true_iff in Hf as [Hc%negb_true_iff _].
  by apply bool_decide_eq_false in Hc.
Qed.

(** The flag that mentions everybody online has a value above the largest that is
    accepted. *)
Lemma mentions_online_refused flags user allow :
  0 <= flags -> has flags v0.MessageFlags.MentionsOnline = true ->
  resolve_flags (Some flags) user allow = Err ErrorType.InvalidProperty.
Proof.
  intros H0 Hh. unfold resolve_flags. destruct (Z.ltb_spec 7 flags) as [|Hle]; [done|].
  exfalso. assert (flags = 0 \/ flags = 1 \/ flags = 2 \/ flags = 3 \/ flags = 4 \/ flags = 5 \/ flags = 6
    \/ flags = 7) as [->|[->|[->|[->|[->|[->|[->| ->]]]]]]] by lia; done.
Qed.
End Created.

(** ** Reactions of messages *)

(** Every emoji that is listed was used by somebody. *)
Definition no_empty_reaction (m : Message) : Prop :=
  forall emoji users, im_get emoji (msg_reactions m) = Some users -> users <> [].

Section MessageReactions.
Context `{HO : HashOrder} `{TS : TextServices}.
Context `{OG : OptionalStruct Message PartialMessage} `{OW : OptionalStruct Webhook PartialWebhook}.
Context (config : MessageConfig) (permissible_emojis : gset string).
Local Abbreviation Wd := (World ReferenceDb).

(** A successful reaction is the database method on a message that is there. *)
Lemma message_add_reaction_run m (user : User) emoji (w w' : Wd) :
  message_add_reaction config permissible_emojis m user emoji w = (Ok tt, w') ->
  Col.add_reaction (msg_id m) emoji (u_id user) (w_db w) = (Ok tt, w_db w').
Proof.
  unfold message_add_reaction. destruct (_ && _); [done|]. destruct (negb _); [done|].
  intros (ok & w1 & E1 & E)%M_bind_Ok_inv. assert (w_db w1 = w_db w) as Hw.
  { clear E. unfold emoji_can_use in E1. destruct (ulid_timestamp_ms emoji); [|by injection E1 as _ <-].
    apply M_bind_Ok_inv in E1 as (e & w2 & E2 & E1). injection E1 as _ <-.
    unfold call in E2. simpl in E2. by injection E2 as _ <-. }
  destruct (negb ok); [done|]. apply M_bind_Ok_inv in E as ([] & w2 & E2 & E). injection E2 as <-.
  unfold call in E. simpl in E. rewrite Hw in E.
  destruct (Col.add_reaction _ _ _ _) as [r d]. by injection E as <- <-.
Qed.

Lemma message_remove_reaction_run m user emoji users (w : Wd) :
  db_messages (w_db w) !! msg_id m = Some m -> message_ok m ->
  im_get emoji (msg_reactions m) = Some users -> user ∈ users ->
  exists w' m', message_remove_reaction m user emoji w = (Ok tt, w')
    /\ db_messages (w_db w') !! msg_id m = Some m'
    /\ forall e, im_get e (msg_reactions m') =
         if bool_decide (emoji = e)
         then if Z.of_nat (length users) =? 1 then None else Some (is_remove user users)
         else im_get e (msg_reactions m).
Proof.
  intros Hm Hok Hg Hu. unfold message_remove_reaction. rewrite Hg. unfold contains.
  rewrite bool_decide_true by done. simpl. unfold mbind, M_bind, p, modify, call. simpl.
  destruct (Z.of_nat (length users) =? 1); simpl;
    unfold Col.clear_reaction, Col.remove_reaction, with_mut; simpl; rewrite Hm; simpl; try rewrite Hg;
    eexists _, _; (split; [reflexivity|]); simpl; rewrite lookup_insert_eq; (split; [reflexivity|]); intros e; simpl.
  - by rewrite im_get_remove by apply Hok.
  - by rewrite im_get_insert.
Qed.

(** The users of an emoji, before and after a reaction was put in and taken out. *)
Lemma insert_remove_users user us :
  NoDup us -> user ∉ us ->
  if Z.of_nat (length (is_insert user us)) =? 1 then us = []
  else us <> [] /\ is_remove user (is_insert user us) ≡ₚ us.
Proof.
  intros Hn Hu. assert (is_insert user us = us ++ [user]) as Ei.
  { unfold is_insert. by rewrite bool_decide_false. }
  destruct (Z.eqb_spec (Z.of_nat (length (is_insert user us))) 1) as [El|El]; rewrite Ei, length_app in El; simpl in El.
  - destruct us; [done|simpl in El; lia].
  - split; [by intros ->|]. assert (user :: is_remove user (is_insert user us) ≡ₚ user :: us) as Hp.
    { rewrite is_remove_perm; [|by apply NoDup_is_insert|apply elem_of_is_insert; by left].
      rewrite Ei. by rewrite Permutation_app_comm. }
    by apply Permutation_cons_inv in Hp.
Qed.

(** A reaction can be taken back: when a user who had not reacted with an emoji
    reacts to a stored message and then removes the reaction, everybody's
    reactions to the message are what they were, and no emoji without users is
    left behind. *)
Theorem reaction_roundtrip m (user : User) emoji (w w1 : Wd) :
  db_messages (w_db w) !! msg_id m = Some m -> message_ok m -> no_empty_reaction m ->
  ~ reacted m emoji (u_id user) ->
  message_add_reaction config permissible_emojis m user emoji w = (Ok tt, w1) ->
  exists m1 w2 m2,
    Col.fetch_message (w_db w1) (msg_id m) = Ok m1
    /\ message_remove_reaction m1 (u_id user) emoji w1 = (Ok tt, w2)
    /\ Col.fetch_message (w_db w2) (msg_id m) = Ok m2
    /\ (forall e u, reacted m2 e u <-> reacted m e u)
    /\ no_empty_reaction m2.
Proof using HO TS OG OW.
  intros Hm Hok Hne Hnr E%message_add_reaction_run.
  set (users := is_insert (u_id user) (default [] (im_get emoji (msg_reactions m)))).
  set (m1 := msg_set_reactions (im_insert emoji users (msg_reactions m)) m).
  assert (db_messages (w_db w1) !! msg_id m1 = Some m1) as Hm1.
  { revert E. unfold Col.add_reaction, with_mut. rewrite Hm. intros [= <-]. simpl.
    rewrite lookup_insert_eq. do 3 f_equal. subst users. by destruct (im_get _ _). }
  assert (message_ok m1) as Hok1.
  { apply reactions_insert_ok; [|done]. apply NoDup_is_insert.
    destruct (im_get emoji (msg_reactions m)) as [us|] eqn:Eg; [by apply (proj2 Hok emoji)|constructor]. }
  assert (im_get emoji (msg_reactions m1) = Some users) as Hg.
  { simpl. rewrite im_get_insert. by rewrite bool_decide_true. }
  assert (u_id user ∈ users) as Hu by (apply elem_of_is_insert; by left).
  destruct (message_remove_reaction_run m1 (u_id user) emoji users w1 Hm1 Hok1 Hg Hu) as (w2 & m2 & E2 & Hm2 & Hr2).
  assert (NoDup (default [] (im_get emoji (msg_reactions m)))) as Hn.
  { destruct (im_get emoji (msg_reactions m)) as [us|] eqn:Eg; [by apply (proj2 Hok emoji)|constructor]. }
  assert (u_id user ∉ default [] (im_get emoji (msg_reactions m))) as Hnu.
  { intros Hin. apply Hnr. unfold reacted. destruct (im_get emoji (msg_reactions m)) as [us|]; [by exists us|set_solver]. }
  pose proof (insert_remove_users (u_id user) _ Hn Hnu) as Hrem. fold users in Hrem.
  assert (forall e, e <> emoji -> im_get e (msg_reactions m2) = im_get e (msg_reactions m)) as Hother.
  { intros e Hee. rewrite Hr2, bool_decide_false by done. simpl. rewrite im_get_insert. by rewrite bool_decide_false. }
  specialize (Hr2 emoji). rewrite bool_decide_true in Hr2 by done.
  exists m1, w2, m2. unfold Col.fetch_message, get_or. change (msg_id m) with (msg_id m1).
  rewrite Hm1, Hm2. split_and!; try done.
  - intros e u. unfold reacted. destruct (decide (e = emoji)) as [->|Hee]; [|by rewrite Hother].
    rewrite Hr2. destruct (_ =? 1).
    + split; [by intros (? & ? & ?)|]. intros (us & Eg & Hin). rewrite Eg in Hrem. simpl in Hrem. subst us. set_solver.
    + destruct Hrem as [Hnil Hp]. destruct (im_get emoji (msg_reactions m)) as [us|]; [|done]. simpl in Hp.
      split; intros (us' & [= <-] & Hin); eexists; (split; [reflexivity|]); [by rewrite <- Hp|by rewrite Hp].
  - intros e us Hus. destruct (decide (e = emoji)) as [->|Hee]; [|rewrite Hother in Hus by done; by apply (Hne e)].
    rewrite Hr2 in Hus. destruct (_ =? 1); [done|]. injection Hus as <-.
    destruct Hrem as [Hnil Hp]. intros E0. rewrite E0 in Hp. by apply Permutation_nil in Hp.
Qed.
End MessageReactions.

Module MessageWitness.
Import ModelOps.SomePriority CollectionsWitness.
#[local] Instance services : TextServices :=
  {| to_lowercase s := s; cure s := s; ulid_timestamp_ms _ := None |}.

Definition limits : FeaturesLimits := {|
  fl_outgoing_friend_requests := 10; fl_bots := 5; fl_message_length := 2000; fl_message_attachments := 5;
  fl_servers := 50; fl_voice_quality := 16000; fl_max_voice_bitrate := 128000; fl_video := true;
  fl_video_resolution := (1080, 720); fl_video_aspect_ratio := ("0.3", "2.5");
  fl_file_upload_size_limit := ∅; fl_max_stream_viewers := 10; fl_max_server_members := 100 |}.
Definition config : MessageConfig := {|
  mc_hosts_api := "api"; mc_hosts_app := "app"; mc_mass_mentions_enabled := true;
  mc_global := {| gl_group_size := 100; gl_message_embeds := 5; gl_message_replies := 5;
    gl_message_reactions := 20; gl_server_emoji := 100; gl_server_roles := 200; gl_server_channels := 200;
    gl_new_user_hours := 72; gl_body_limit_size := 20000000 |} |}.

Definition friends : Channel := Channel.Group {|
  g_id := "c"; g_name := "Friends"; g_owner := "alice"; g_description := None;
  g_recipients := ["alice"; "bob"]; g_icon := None; g_last_message_id := None; g_permissions := None;
  g_moderators := []; g_nsfw := false; g_encrypted := false |}.

(** Bob replies to the message of Alice and mentions her. *)
Definition reply : v0.DataMessageSend := {|
  v0.ms_nonce := Some "n"; v0.ms_content := Some "hi"; v0.ms_attachments := None;
  v0.ms_replies := Some [{| v0.ri_id := "m"; v0.ri_mention := true; v0.ri_fail_if_not_exists := None |}];
  v0.ms_embeds := None; v0.ms_masquerade := None; v0.ms_interactions := None; v0.ms_flags := Some 2 |}.
Definition bob : v0.MessageAuthor := v0.MessageAuthor.Webhook {|
  v0.wh_id := "bob"; v0.wh_name := "Bob"; v0.wh_avatar := None; v0.wh_creator_id := "bob";
  v0.wh_channel_id := "c"; v0.wh_permissions := 0; v0.wh_token := None |}.

Definition node : Node ReferenceDb (list string) :=
  {| nd_world := world one_message; nd_keys := []; nd_tasks := [] |}.
Definition lexer (s : string) : list (option MessageToken) := [].
#[local] Instance keys : LruCache (list string) := ListLru.list_lru TOKEN_CACHE_SIZE.

Definition created := create_from_api 0 config lexer "m2" friends reply bob None None limits
                        {| ik_key := "k" |} true node.

Lemma created_mentions_reach_the_channel_witness :
  exists m n', created = (Ok m, n') /\ msg_mentions m = Some ["alice"] /\ may_be_mentioned 0 one_message friends "alice".
Proof.
  destruct created as [[m| |] n'] eqn:E; [|vm_compute in E; discriminate..].
  assert (msg_mentions m = Some ["alice"]) as Hm by (vm_compute in E; injection E as <- _; reflexivity).
  exists m, n'. split; [reflexivity|]. split; [exact Hm|].
  apply (created_mentions_reach_the_channel 0 config lexer "m2" friends reply bob None None limits
           {| ik_key := "k" |} true node m n'); [exact E|]. rewrite Hm. by left.
Defined.

Lemma nonce_admits_one_message_witness :
  exists e n2, create_from_api 0 config lexer "m3" friends reply bob None None limits {| ik_key := "k2" |} true
    created.2 = (Err e, n2) /\ nd_world n2 = nd_world created.2 /\ nd_tasks n2 = nd_tasks created.2.
Proof.
  destruct created as [[m| |] n'] eqn:E; [|vm_compute in E; discriminate..].
  apply (nonce_admits_one_message 0 config lexer (LL := ListLru.list_lru_laws TOKEN_CACHE_SIZE) "m2" friends reply bob
           None None limits {| ik_key := "k" |} true node m n' "n"); [exact E|reflexivity..].
Defined.

Lemma created_message_within_limits_witness :
  exists m n', created = (Ok m, n') /\ msg_content m = Some "hi"
    /\ Z.of_nat (String.length (default "" (msg_content m))) <= 2000.
Proof.
  destruct created as [[m| |] n'] eqn:E; [|vm_compute in E; discriminate..].
  exists m, n'. split; [reflexivity|].
  destruct (created_message_within_limits 0 config lexer "m2" friends reply bob None None limits
           {| ik_key := "k" |} true node m n' E) as (H1 & H2 & _). split; [exact H1|exact H2].
Defined.

Lemma created_message_is_delivered_witness :
  exists m n', created = (Ok m, n') /\ db_messages (w_db (nd_world n')) = <["m2" := m]> (db_messages one_message).
Proof.
  destruct created as [[m| |] n'] eqn:E; [|vm_compute in E; discriminate..].
  exists m, n'. split; [reflexivity|].
  apply (created_message_is_delivered 0 config lexer "m2" friends reply bob None None limits
           {| ik_key := "k" |} true node m n' E).
Defined.

Definition reacting := message_add_reaction config {[ "dog" ]} hello (Example.user "bob") "dog" (world one_message).

Lemma reaction_roundtrip_witness :
  exists m1 w2 m2,
    Col.fetch_message (w_db reacting.2) "m" = Ok m1
    /\ message_remove_reaction m1 "bob" "dog" reacting.2 = (Ok tt, w2)
    /\ Col.fetch_message (w_db w2) "m" = Ok m2
    /\ (forall e u, reacted m2 e u <-> reacted hello e u)
    /\ no_empty_reaction m2.
Proof.
  apply (reaction_roundtrip config {[ "dog" ]} hello (Example.user "bob") "dog" (world one_message) reacting.2).
  - reflexivity.
  - apply hello_ok.
  - intros e us. unfold hello. simpl. case_bool_decide; [|done]. by intros [= <-].
  - intros (us & E & _). vm_compute in E. discriminate.
  - vm_compute. reflexivity.
Defined.
End MessageWitness.
