(* ===== verification/Tasks.v ===== *)
(** * Background tasks ([crates/core/database/src/tasks/mod.rs], [ack.rs],
    [last_message_id.rs])

    Sending a message and reading a channel queue work: the mentions and push
    notifications of a message, the acknowledgement of a channel, and the last
    message of a channel.  Each queue is bounded and shared by five workers;
    each worker keeps a map of delayed tasks, joins what it takes from the queue
    with what is waiting under the same key, and commits a task when it has not
    been touched for a while or is too old.

    Instants are nanoseconds of a monotonic clock and arguments.  The state of a
    step relation is the queue and the maps of all workers: a worker commits its
    due tasks, or takes one element from the queue, and the workers interleave in
    every order.  Log output is left out.

    The theorems: when a task is due; no message that was accepted is lost
    ([messages_conserved]); with several workers the last message of a channel
    can go back ([last_message_goes_back]); a message to a group that mentions
    everyone stops the worker that handles it ([group_mention_stops_worker]). *)

From S2P Require Import Prelude Results Permissions PermissionCalc Models ApiTypes Records ModelOps DbPermissions PermissionSpec BulkPermissions ReferenceDb Collections World Users Servers Channels Parser Lru Idempotency Bridge BridgeMessages Messages.

(** ** Delayed tasks ([tasks/mod.rs]) *)

Definition WORKER_COUNT : nat := 5.
Definition EXPIRE_CONSTANT : Z := 30.
Definition SAVE_CONSTANT : Z := 5.

Record DelayedTask (T : Type) := {
  dt_data : T;
  dt_run_now : bool;
  dt_last_updated : Z;
  dt_first_seen : Z }.
Arguments dt_data {T}.
Arguments dt_run_now {T}.
Arguments dt_last_updated {T}.
Arguments dt_first_seen {T}.

(** [elapsed().as_secs()] *)
Definition elapsed_secs (now instant : Z) : Z := Z.max 0 (now - instant) / 10 ^ 9.

Section Delayed.
Context {T : Type}.

Definition new (now : Z) (data : T) : DelayedTask T :=
  {| dt_data := data; dt_run_now := false; dt_last_updated := now; dt_first_seen := now |}.
Definition delay (now : Z) (self : DelayedTask T) : DelayedTask T :=
  {| dt_data := dt_data self; dt_run_now := dt_run_now self; dt_last_updated := now;
     dt_first_seen := dt_first_seen self |}.
Definition run_immediately (self : DelayedTask T) : DelayedTask T :=
  {| dt_data := dt_data self; dt_run_now := true; dt_last_updated := dt_last_updated self;
     dt_first_seen := dt_first_seen self |}.
Definition should_run (now : Z) (self : DelayedTask T) : bool :=
  dt_run_now self || (EXPIRE_CONSTANT <? elapsed_secs now (dt_first_seen self))
  || (SAVE_CONSTANT <? elapsed_secs now (dt_last_updated self)).

Definition dt_set_data (data : T) (self : DelayedTask T) : DelayedTask T :=
  {| dt_data := data; dt_run_now := dt_run_now self; dt_last_updated := dt_last_updated self;
     dt_first_seen := dt_first_seen self |}.
End Delayed.

(** A bounded queue: [try_push] drops what does not fit. *)
Definition CAPACITY : Z := 10000.
Definition try_push {A} (a : A) (q : list A) : list A :=
  if Z.of_nat (length q) <? CAPACITY then q ++ [a] else q.

(** ** Acknowledgements and mentions ([tasks/ack.rs]) *)

(** A push notification, the message, its recipients, and whether it is silenced *)
Definition Processed : Type := option PushNotification * Message * list string * bool.

Module AckEvent.
Inductive AckEvent : Type :=
| ProcessMessage (messages : list Processed)
| AckMessage (id : string).
End AckEvent.
Abbreviation AckEvent := AckEvent.AckEvent.

Record AckData := {
  ad_channel : string;
  ad_user : option string;
  ad_event : AckEvent }.

Definition queue_ack (channel user : string) (event : AckEvent) : list AckData -> list AckData :=
  try_push {| ad_channel := channel; ad_user := Some user; ad_event := event |}.
Definition queue_message (channel : string) (event : AckEvent) : list AckData -> list AckData :=
  try_push {| ad_channel := channel; ad_user := None; ad_event := event |}.

(** The methods of [AbstractChannelUnreads] that the worker calls. *)
Module UnreadDb.
Class UnreadDatabase (D : Type) := {
  fetch_unread : string -> string -> M ErrorType D (option ChannelUnread);
  acknowledge_message : string -> string -> string -> M ErrorType D (option ChannelUnread);
  add_mention_to_unread : string -> string -> list string -> M ErrorType D unit }.
End UnreadDb.
Abbreviation UnreadDatabase := UnreadDb.UnreadDatabase.

#[export] Instance reference_unreads : UnreadDatabase ReferenceDb := {|
  UnreadDb.fetch_unread user channel := query (fun d => Col.fetch_unread d user channel);
  UnreadDb.acknowledge_message := Col.acknowledge_message;
  UnreadDb.add_mention_to_unread := Col.add_mention_to_unread |}.

(** Jobs for the push daemon ([AMQP::ack_message], [message_sent],
    [mass_mention_message_sent]); a failure to hand them over is ignored. *)
Module Job.
Inductive Job : Type :=
| AckMessage (user channel message : string)
| MessageSent (recipients : list string) (payload : PushNotification)
| MassMentionMessageSent (server : string) (payload : list PushNotification).
End Job.
Abbreviation Job := Job.Job.

Record Back (D : Type) := {
  bk_db : D;
  bk_jobs : list Job }.
Arguments bk_db {D}.
Arguments bk_jobs {D}.

Section Handle.
Context {D : Type} `{Database D} `{UnreadDatabase D} `{HashOrder}.
Local Abbreviation Bm := (M ErrorType (Back D)).

Definition ask {A} (m : M ErrorType D A) : Bm A := fun b =>
  let '(r, d) := m (bk_db b) in (r, {| bk_db := d; bk_jobs := bk_jobs b |}).
Definition job (j : Job) : Bm unit :=
  modify (fun b => {| bk_db := bk_db b; bk_jobs := bk_jobs b ++ [j] |}).

(** The messages that mention a user. *)
Definition ids_for (user : string) (messages : list Processed) : list string :=
  omap (fun '(_, message, recipients, _) =>
          if contains user recipients then Some (msg_id message) else None) messages.

Fixpoint add_mentions (channel : string) (messages : list Processed) (users : list string) : Bm unit :=
  match users with
  | [] => mret tt
  | user :: users =>
      let message_ids := ids_for user messages in
      (if bool_decide (message_ids = []) then mret tt
       else ask (UnreadDb.add_mention_to_unread channel user message_ids));;
      add_mentions channel messages users
  end.

(** The push notifications; the mass mentions among them are returned. *)
Fixpoint send_pushes (messages : list Processed) : Bm (list PushNotification) :=
  match messages with
  | [] => mret []
  | (push, message, recipients, silenced) :: messages =>
      match push with
      | Some push =>
          if silenced || (bool_decide (recipients = []) && negb (contains_mass_push_mention message))
          then send_pushes messages
          else
            job (Job.MessageSent recipients push);;
            rest ← send_pushes messages;
            mret (if contains_mass_push_mention message then push :: rest else rest)
      | None => send_pushes messages
      end
  end.

Definition send_mass_mentions (mass_mentions : list PushNotification) : Bm unit :=
  match mass_mentions with
  | [] => mret tt
  | first :: _ => fun b =>
      match ask (Database.fetch_channel (v0.msg_channel (pn_message first))) b with
      | (Ok (Channel.TextChannel c), b) => job (Job.MassMentionMessageSent (t_server c) mass_mentions) b
      | (_, b) => (Panicked, b)
      end
  end.

(** [handle_ack_event]; its log line, which reads the first message of the event, is
    left out: an event is queued with a message. *)
Definition handle_ack_event (event : AckEvent) (user : option string) (channel : string) : Bm unit :=
  match event with
  | AckEvent.AckMessage id =>
      match user with
      | Some user =>
          unread ← ask (UnreadDb.fetch_unread user channel);
          updated ← ask (UnreadDb.acknowledge_message channel user id);
          match unread, updated with
          | Some before, Some after =>
              let count u := Z.of_nat (length (default [] (cu_mentions u))) in
              if 0 <? as_u64 (count before - count after) then job (Job.AckMessage user channel id) else mret tt
          | _, _ => mret tt
          end
      | None => panic
      end
  | AckEvent.ProcessMessage messages =>
      add_mentions channel messages
        (set_iter (list_to_set (concat (map (fun '(_, _, recipients, _) => recipients) messages))));;
      mass_mentions ← send_pushes messages;
      send_mass_mentions mass_mentions
  end.
End Handle.

(** *** A worker *)

Definition AckKey : Type := option string * string * Z.
Abbreviation AckTasks := (gmap AckKey (DelayedTask AckEvent)).

Definition ack_key (data : AckData) : AckKey :=
  (ad_user data, ad_channel data,
   match ad_event data with AckEvent.AckMessage _ => 0 | AckEvent.ProcessMessage _ => 1 end).

(** The last element, taken from the end. *)
Definition pop {A} (l : list A) : option A := last l.

(** What one element of the queue does to the tasks; [limit] is
    [process_message_delay_limit], a [u16] *)
Definition take_ack (limit now : Z) (data : AckData) (tasks : AckTasks) : outcome ErrorType AckTasks :=
  let key := ack_key data in
  match tasks !! key with
  | Some task =>
      match ad_event data with
      | AckEvent.ProcessMessage new_data =>
          match dt_data task with
          | AckEvent.ProcessMessage existing =>
              match pop new_data with
              | Some new_event =>
                  let existing := existing ++ [new_event] in
                  let task := dt_set_data (AckEvent.ProcessMessage existing) task in
                  let '(_, message, _, _) := new_event in
                  if contains_mass_push_mention message then Ok (<[key := run_immediately task]> tasks)
                  else if Z.of_nat (length existing) mod 2 ^ 16 <? limit then Ok (<[key := delay now task]> tasks)
                  else Ok (<[key := task]> tasks)
              | None => Ok tasks
              end
          | AckEvent.AckMessage _ => Panicked
          end
      | AckEvent.AckMessage _ => Ok (<[key := delay now (dt_set_data (ad_event data) task)]> tasks)
      end
  | None => Ok (<[key := new now (ad_event data)]> tasks)
  end.

(** The keys of the tasks that are due. *)
Definition due `{HashOrder} {K T} `{Countable K} (now : Z) (tasks : gmap K (DelayedTask T)) : list K :=
  omap (fun '(key, task) => if should_run now task then Some key else None) (hm_iter tasks).

(** ** The last message of a channel ([tasks/last_message_id.rs]) *)

Record LastData := {
  ld_channel : string;
  ld_id : string;
  ld_is_dm : bool }.
Record LastTask := {
  lt_id : string;
  lt_is_dm : bool }.
Abbreviation LastTasks := (gmap string (DelayedTask LastTask)).

Definition queue_last (channel id : string) (is_dm : bool) : list LastData -> list LastData :=
  try_push {| ld_channel := channel; ld_id := id; ld_is_dm := is_dm |}.

Definition take_last (now : Z) (data : LastData) (tasks : LastTasks) : LastTasks :=
  match tasks !! ld_channel data with
  | Some task =>
      <[ld_channel data :=
          delay now (dt_set_data {| lt_id := ld_id data; lt_is_dm := lt_is_dm (dt_data task) |} task)]> tasks
  | None => <[ld_channel data := new now {| lt_id := ld_id data; lt_is_dm := ld_is_dm data |}]> tasks
  end.

Definition PartialChannel_last (task : LastTask) : PartialChannel :=
  {| pc_name := None; pc_owner := None; pc_description := None; pc_icon := None; pc_nsfw := None;
     pc_active := if lt_is_dm task then Some true else None; pc_permissions := None; pc_moderators := None;
     pc_role_permissions := None; pc_default_permissions := None; pc_last_message_id := Some (lt_id task);
     pc_voice := None; pc_encrypted := None |}.

(** Committing the due tasks; errors are reported and ignored. *)
Fixpoint commit_last {D} `{Database D} (keys : list string) (tasks : LastTasks) (d : D)
    : outcome ErrorType LastTasks * D :=
  match keys with
  | [] => (Ok tasks, d)
  | key :: keys =>
      match tasks !! key with
      | Some task =>
          match Database.update_channel key (PartialChannel_last (dt_data task)) [] d with
          | (Panicked, d) => (Panicked, d)
          | (_, d) => commit_last keys (delete key tasks) d
          end
      | None => commit_last keys tasks d
      end
  end.

(** ** The workers together *)

Section System.
Context {D : Type} `{Database D} `{UnreadDatabase D} `{HO : HashOrder} (limit : Z).

(** Committing the tasks of some keys: what is left, and the events that were
    handled, the last of which may have ended the worker. *)
Fixpoint commit_ack (keys : list AckKey) (tasks : AckTasks) (b : Back D)
    : outcome ErrorType unit * AckTasks * Back D * list AckEvent :=
  match keys with
  | [] => (Ok tt, tasks, b, [])
  | key :: keys =>
      match tasks !! key with
      | Some task =>
          match handle_ack_event (dt_data task) key.1.1 key.1.2 b with
          | (Panicked, b) => (Panicked, delete key tasks, b, [dt_data task])
          | (_, b) =>
              let '(o, tasks, b, handled) := commit_ack keys (delete key tasks) b in
              (o, tasks, b, dt_data task :: handled)
          end
      | None => commit_ack keys tasks b
      end
  end.

(** The queue, the tasks of each living worker, and what happened: the messages
    that were accepted, the events that were handled, the tasks of workers that
    died. *)
Record AckSystem := {
  sy_queue : list AckData;
  sy_workers : gmap nat AckTasks;
  sy_back : Back D;
  sy_accepted : list Processed;
  sy_handled : list AckEvent;
  sy_lost : list Processed }.

Definition start (b : Back D) : AckSystem := {|
  sy_queue := []; sy_workers := gset_to_gmap ∅ (set_seq 0 WORKER_COUNT);
  sy_back := b; sy_accepted := []; sy_handled := []; sy_lost := [] |}.

Definition messages_of (e : AckEvent) : list Processed :=
  match e with AckEvent.ProcessMessage messages => messages | AckEvent.AckMessage _ => [] end.
(** What the callers queue: one message per event. *)
Definition one_message (e : AckEvent) : Prop := (length (messages_of e) <= 1)%nat.

(** All messages in the values of a map. *)
Definition total {K A} `{Countable K} (f : A -> list Processed) (m : gmap K A) : list Processed :=
  concat (map (fun x => f x.2) (map_to_list m)).
Definition waiting (tasks : AckTasks) : list Processed := total (fun t => messages_of (dt_data t)) tasks.

Definition push (data : AckData) (s : AckSystem) : AckSystem :=
  let q := try_push data (sy_queue s) in
  {| sy_queue := q; sy_workers := sy_workers s; sy_back := sy_back s;
     sy_accepted := if (length (sy_queue s) <? length q)%nat
                    then sy_accepted s ++ messages_of (ad_event data) else sy_accepted s;
     sy_handled := sy_handled s; sy_lost := sy_lost s |}.

(** A worker dies with the tasks it has. *)
Definition die (i : nat) (tasks : AckTasks) (s : AckSystem) : AckSystem :=
  {| sy_queue := sy_queue s; sy_workers := delete i (sy_workers s); sy_back := sy_back s;
     sy_accepted := sy_accepted s; sy_handled := sy_handled s; sy_lost := sy_lost s ++ waiting tasks |}.

Definition take (i : nat) (now : Z) (s : AckSystem) : option AckSystem :=
  tasks ← sy_workers s !! i;
  match sy_queue s with
  | [] => None
  | data :: q =>
      let s := {| sy_queue := q; sy_workers := sy_workers s; sy_back := sy_back s;
                  sy_accepted := sy_accepted s; sy_handled := sy_handled s; sy_lost := sy_lost s |} in
      match take_ack limit now data tasks with
      | Ok tasks => Some {| sy_queue := q; sy_workers := <[i := tasks]> (sy_workers s); sy_back := sy_back s;
                            sy_accepted := sy_accepted s; sy_handled := sy_handled s; sy_lost := sy_lost s |}
      | _ => Some (die i tasks s)
      end
  end.

Definition commit (i : nat) (now : Z) (s : AckSystem) : option AckSystem :=
  tasks ← sy_workers s !! i;
  let '(o, tasks, b, handled) := commit_ack (due now tasks) tasks (sy_back s) in
  let s := {| sy_queue := sy_queue s; sy_workers := <[i := tasks]> (sy_workers s); sy_back := b;
              sy_accepted := sy_accepted s; sy_handled := sy_handled s ++ handled; sy_lost := sy_lost s |} in
  Some match o with Ok _ => s | _ => die i tasks s end.

Inductive step (s : AckSystem) : AckSystem -> Prop :=
| step_push data : one_message (ad_event data) -> step s (push data s)
| step_take i now s' : take i now s = Some s' -> step s s'
| step_commit i now s' : commit i now s = Some s' -> step s s'.

(** ** No message is lost *)

(** The four ways messages move. *)
Lemma perm_pushed {A} (q m r : list A) : (q ++ r) ++ m ≡ₚ (q ++ m) ++ r.
Proof. rewrite <- !app_assoc. apply Permutation_app_head, Permutation_app_comm. Qed.
Lemma perm_taken {A} (q m t r : list A) : (m ++ q) ++ t ++ r ≡ₚ q ++ (m ++ t) ++ r.
Proof. rewrite <- !app_assoc. apply Permutation_app_swap_app. Qed.
Lemma perm_handled {A} (w h t u r : list A) : ((w ++ h) ++ t) ++ u ++ r ≡ₚ (w ++ t) ++ (u ++ h) ++ r.
Proof.
  rewrite <- !app_assoc. apply Permutation_app_head. rewrite Permutation_app_swap_app.
  apply Permutation_app_head, Permutation_app_swap_app.
Qed.
Lemma perm_died {A} (w t u r : list A) : (w ++ t) ++ u ++ r ≡ₚ t ++ u ++ r ++ w.
Proof. rewrite <- app_assoc, Permutation_app_comm. by rewrite <- !app_assoc. Qed.

Definition conserved (s : AckSystem) : Prop :=
  sy_accepted s ≡ₚ concat (map (fun d => messages_of (ad_event d)) (sy_queue s))
    ++ total waiting (sy_workers s) ++ concat (map messages_of (sy_handled s)) ++ sy_lost s.

(** Events are filed under a key of their kind. *)
Definition filed (tasks : AckTasks) : Prop :=
  map_Forall (fun key task => match dt_data task with
                              | AckEvent.AckMessage _ => key.2 = 0
                              | AckEvent.ProcessMessage _ => key.2 = 1
                              end) tasks.

Lemma total_insert {K A} `{Countable K} (f : A -> list Processed) (m : gmap K A) k a :
  m !! k = None -> total f (<[k := a]> m) ≡ₚ f a ++ total f m.
Proof. intros Hk. unfold total. by rewrite map_to_list_insert. Qed.

Lemma total_delete {K A} `{Countable K} (f : A -> list Processed) (m : gmap K A) k a :
  m !! k = Some a -> total f m ≡ₚ f a ++ total f (delete k m).
Proof. intros Hk. unfold total. by rewrite <- (map_to_list_delete m k a Hk). Qed.

Lemma total_update {K A} `{Countable K} (f : A -> list Processed) (m : gmap K A) k a b more :
  m !! k = Some a -> f b ≡ₚ more ++ f a -> total f (<[k := b]> m) ≡ₚ more ++ total f m.
Proof.
  intros Hk Hf. rewrite <- insert_delete_eq, total_insert by apply lookup_delete_eq.
  rewrite (total_delete f m k a Hk), Hf. by rewrite app_assoc.
Qed.

Lemma take_ack_waiting (now : Z) (data : AckData) (tasks : AckTasks) :
  filed tasks -> one_message (ad_event data) ->
  exists tasks', take_ack limit now data tasks = Ok tasks' /\ filed tasks'
    /\ waiting tasks' ≡ₚ messages_of (ad_event data) ++ waiting tasks.
Proof.
  intros Hf Hone. unfold take_ack.
  assert (forall task, match dt_data task with
                       | AckEvent.AckMessage _ => (ack_key data).2 = 0
                       | AckEvent.ProcessMessage _ => (ack_key data).2 = 1
                       end -> filed (<[ack_key data := task]> tasks)) as Hins.
  { intros task Ht. by apply map_Forall_insert_2. }
  destruct (tasks !! ack_key data) as [task|] eqn:Ek.
  - pose proof (Hf _ _ Ek) as Hkind. unfold ack_key in Hkind. simpl in Hkind.
    destruct (ad_event data) as [l|id] eqn:Ee; destruct (dt_data task) as [existing|id'] eqn:Et; try done.
    + unfold one_message in Hone. simpl in Hone. destruct l as [|x [|]]; simpl in Hone; [|simpl|lia].
      { by exists tasks. }
      destruct x as [[[pn m] rs] si].
      assert (forall task', dt_data task' = AckEvent.ProcessMessage (existing ++ [(pn, m, rs, si)]) ->
        filed (<[ack_key data := task']> tasks)
        /\ waiting (<[ack_key data := task']> tasks) ≡ₚ [(pn, m, rs, si)] ++ waiting tasks) as Hu.
      { intros task' E. split; [apply Hins; rewrite E; unfold ack_key; by rewrite Ee|].
        apply (total_update _ _ _ task); [done|]. rewrite E, Et. simpl. by rewrite Permutation_app_comm. }
      destruct (contains_mass_push_mention m); [|destruct (_ <? limit)]; eexists; (split; [reflexivity|]); by apply Hu.
    + eexists. split; [reflexivity|]. split; [apply Hins; simpl; unfold ack_key; by rewrite Ee|].
      apply (total_update _ _ _ task); [done|]. simpl. by rewrite Et.
  - eexists. split; [reflexivity|]. split; [|by apply (total_insert (fun t => messages_of (dt_data t)))].
    apply Hins. simpl. unfold ack_key. by destruct (ad_event data).
Qed.

Lemma commit_ack_waiting (keys : list AckKey) (tasks tasks' : AckTasks) (b b' : Back D)
    (o : outcome ErrorType unit) (handled : list AckEvent) :
  commit_ack keys tasks b = (o, tasks', b', handled) ->
  tasks' ⊆ tasks /\ waiting tasks ≡ₚ waiting tasks' ++ concat (map messages_of handled).
Proof.
  revert tasks b o tasks' b' handled. induction keys as [|key keys IH]; intros tasks b o tasks' b' handled; simpl.
  - intros [= <- <- <- <-]. split; [done|]. by rewrite app_nil_r.
  - destruct (tasks !! key) as [task|] eqn:Ek; [|by apply IH].
    pose proof (total_delete (fun t => messages_of (dt_data t)) tasks key task Ek) as Hd.
    assert (delete key tasks ⊆ tasks) as Hsub by apply delete_subseteq.
    destruct (handle_ack_event _ _ _ b) as [[?|?|] b1];
      [destruct (commit_ack keys (delete key tasks) b1) as [[[o1 t1] b2] h1] eqn:E;
       apply IH in E as [Hs Hw]..|].
    1,2: intros [= <- <- <- <-]; (split; [by trans (delete key tasks)|]); unfold waiting in *;
      rewrite Hd, Hw; simpl; by rewrite !app_assoc, (Permutation_app_comm (messages_of _)).
    intros [= <- <- <- <-]. split; [done|]. unfold waiting in *. rewrite Hd. simpl.
    rewrite app_nil_r. apply Permutation_app_comm.
Qed.

Definition system_ok (s : AckSystem) : Prop :=
  conserved s /\ Forall (fun d => one_message (ad_event d)) (sy_queue s)
  /\ map_Forall (fun _ tasks => filed tasks) (sy_workers s).

Lemma push_ok data s : one_message (ad_event data) -> system_ok s -> system_ok (push data s).
Proof.
  intros Hone (Hc & Hq & Hw). unfold system_ok, push, try_push. simpl.
  destruct (Z.of_nat (length (sy_queue s)) <? CAPACITY); simpl.
  - split_and!; [|by apply Forall_app_2; [|apply Forall_singleton]|done].
    unfold conserved in *. simpl. rewrite length_app. simpl.
    destruct (Nat.ltb_spec (length (sy_queue s)) (length (sy_queue s) + 1)); [|lia].
    rewrite map_app, concat_app. simpl. rewrite app_nil_r, Hc. apply perm_pushed.
  - destruct (Nat.ltb_spec (length (sy_queue s)) (length (sy_queue s))); [lia|]. done.
Qed.

Lemma take_ok i now s s' : take i now s = Some s' -> system_ok s -> system_ok s'.
Proof.
  intros E (Hc & Hq & Hw). unfold take in E. destruct (sy_workers s !! i) as [tasks|] eqn:Ei; simpl in E; [|done].
  destruct (sy_queue s) as [|data q] eqn:Eq; [done|].
  apply Forall_cons in Hq as [Hone Hq].
  destruct (take_ack_waiting now data tasks (Hw i tasks Ei) Hone) as (tasks' & Et & Hf & Hwt).
  rewrite Et in E. injection E as <-. split_and!; [|done|by apply map_Forall_insert_2].
  unfold conserved in *. simpl. rewrite Hc, Eq. simpl.
  rewrite (total_update waiting (sy_workers s) i tasks tasks' (messages_of (ad_event data)) Ei Hwt).
  apply perm_taken.
Qed.

Lemma commit_ok i now s s' : commit i now s = Some s' -> system_ok s -> system_ok s'.
Proof.
  intros E (Hc & Hq & Hw). unfold commit in E. destruct (sy_workers s !! i) as [tasks|] eqn:Ei; simpl in E; [|done].
  destruct (commit_ack _ tasks (sy_back s)) as [[[o tasks'] b'] handled] eqn:Ec.
  apply commit_ack_waiting in Ec as [Hsub Hwt]. injection E as <-.
  assert (filed tasks') as Hf by (intros k t Hk; apply (Hw i tasks Ei k t); by eapply lookup_weaken).
  assert (conserved {| sy_queue := sy_queue s; sy_workers := <[i := tasks']> (sy_workers s); sy_back := b';
              sy_accepted := sy_accepted s; sy_handled := sy_handled s ++ handled; sy_lost := sy_lost s |}) as Hc'.
  { unfold conserved in *. simpl. rewrite Hc. apply Permutation_app_head.
    rewrite (total_delete waiting _ i tasks Ei), Hwt.
    rewrite <- (insert_delete_eq (sy_workers s)), total_insert by apply lookup_delete_eq.
    rewrite map_app, concat_app. apply perm_handled. }
  assert (system_ok (die i tasks' {| sy_queue := sy_queue s; sy_workers := <[i := tasks']> (sy_workers s); sy_back := b';
              sy_accepted := sy_accepted s; sy_handled := sy_handled s ++ handled; sy_lost := sy_lost s |})) as Hd.
  { split_and!; [|done|]; simpl.
    - unfold conserved in *. simpl in *. rewrite Hc'. apply Permutation_app_head.
      rewrite (total_delete waiting _ i tasks' (lookup_insert_eq _ _ _)).
      apply perm_died.
    - apply map_Forall_delete. by apply map_Forall_insert_2. }
  destruct o; [|exact Hd..]. split_and!; [done|done|by apply map_Forall_insert_2].
Qed.

Lemma start_ok (b : Back D) : system_ok (start b).
Proof.
  split_and!; [|done|].
  - vm_compute. constructor.
  - intros i tasks. simpl. rewrite lookup_gset_to_gmap_Some. intros [_ <-]. apply map_Forall_empty.
Qed.

Lemma step_ok s s' : step s s' -> system_ok s -> system_ok s'.
Proof. destruct 1; eauto using push_ok, take_ok, commit_ok. Qed.

(** C28: No message is lost: in every state that the callers and the workers
    reach together, in whatever order they take turns, each message that the
    queue accepted is exactly once in the queue, among the tasks of one worker,
    among the handled events, or among the tasks of a worker that died. *)
Theorem messages_conserved (b : Back D) s :
  rtc step (start b) s ->
  sy_accepted s ≡ₚ concat (map (fun d => messages_of (ad_event d)) (sy_queue s))
    ++ total waiting (sy_workers s) ++ concat (map messages_of (sy_handled s)) ++ sy_lost s.
Proof.
  intros Hr. cut (system_ok s); [by intros [Hc _]|].
  pose proof (start_ok b) as H0. revert H0. induction Hr; eauto using step_ok.
Qed.

(** ** How long a task waits *)

Lemma not_due {T} (now : Z) (t : DelayedTask T) :
  should_run now t = false ->
  dt_run_now t = false /\ now - dt_first_seen t < 31 * 10 ^ 9 /\ now - dt_last_updated t < 6 * 10 ^ 9.
Proof.
  unfold should_run, elapsed_secs, EXPIRE_CONSTANT, SAVE_CONSTANT. intros [[Hr He]%orb_false_iff Hs]%orb_false_iff.
  apply Z.ltb_ge in He, Hs.
  assert (forall x k, Z.max 0 x / 10 ^ 9 <= k -> x < (k + 1) * 10 ^ 9) as Hdiv.
  { intros x k Hk. pose proof (Z.div_mod (Z.max 0 x) (10 ^ 9) ltac:(lia)).
    pose proof (Z.mod_pos_bound (Z.max 0 x) (10 ^ 9) ltac:(lia)). nia. }
  split_and!; [done|by apply (Hdiv _ 30)|by apply (Hdiv _ 5)].
Qed.

Lemma commit_ack_removes (keys : list AckKey) (tasks tasks' : AckTasks) (b b' : Back D) (handled : list AckEvent) key :
  commit_ack keys tasks b = (Ok tt, tasks', b', handled) -> key ∈ keys -> tasks' !! key = None.
Proof.
  revert tasks b handled. induction keys as [|k keys IH]; intros tasks b handled; simpl; [by intros _ ?%elem_of_nil|].
  intros E [->|Hin]%elem_of_cons.
  - destruct (tasks !! k) as [task|] eqn:Ek.
    + destruct (handle_ack_event _ _ _ b) as [[?|?|] b1]; [| |done].
      all: destruct (commit_ack keys (delete k tasks) b1) as [[[o1 t1] b2] h1] eqn:E1; injection E as ? ? ? ?; subst;
        apply commit_ack_waiting in E1 as [Hs _]; eapply lookup_weaken_None; [apply lookup_delete_eq|exact Hs].
    + apply commit_ack_waiting in E as [Hs _]. by eapply lookup_weaken_None.
  - destruct (tasks !! k) as [task|] eqn:Ek; [|by eapply IH].
    destruct (handle_ack_event _ _ _ b) as [[?|?|] b1]; [| |done].
    all: destruct (commit_ack keys (delete k tasks) b1) as [[[o1 t1] b2] h1] eqn:E1; injection E as ? ? ? ?; subst;
      by eapply IH.
Qed.

(** No task waits for long: after a worker committed at some instant and
    lived, each of its tasks was first seen less than 31 seconds before, was
    touched less than 6 seconds before, and is not marked to run at once. *)
Theorem commit_leaves_fresh_tasks i now s s' tasks key task :
  commit i now s = Some s' -> sy_workers s' !! i = Some tasks -> tasks !! key = Some task ->
  dt_run_now task = false /\ now - dt_first_seen task < 31 * 10 ^ 9
  /\ now - dt_last_updated task < 6 * 10 ^ 9.
Proof.
  unfold commit. destruct (sy_workers s !! i) as [tasks0|] eqn:Ei; simpl; [|done].
  destruct (commit_ack _ tasks0 (sy_back s)) as [[[o tasks1] b'] handled] eqn:Ec.
  intros [= <-] Hw Hk. destruct o as [[]|e|]; simpl in Hw; [|by rewrite lookup_delete_eq in Hw..].
  rewrite lookup_insert_eq in Hw. injection Hw as ->. apply not_due.
  destruct (should_run now task) eqn:Er; [|done].
  pose proof (commit_ack_waiting _ _ _ _ _ _ _ Ec) as [Hs _].
  rewrite (commit_ack_removes _ _ _ _ _ _ key Ec) in Hk; [done|].
  unfold due. apply list_elem_of_omap. exists (key, task). rewrite Er. split; [|done].
  apply elem_of_hm_iter. by eapply lookup_weaken.
Qed.
End System.

(** ** From a message to its task *)

(** The event a queued task stands for ([tasks::ack::queue_message],
    [tasks::ack::queue_ack]). *)
Definition event_of (t : Task) : option AckData :=
  match t with
  | Task.ProcessMessage channel push message recipients silenced =>
      Some {| ad_channel := channel; ad_user := None;
              ad_event := AckEvent.ProcessMessage [(push, message, recipients, silenced)] |}
  | Task.AckMessage channel user id =>
      Some {| ad_channel := channel; ad_user := Some user; ad_event := AckEvent.AckMessage id |}
  | Task.LastMessageId _ _ _ => None
  end.

Section Mentions.
Context {C : Type} `{LruCache C} `{HO : HashOrder} `{TS : TextServices}.
Context `{OS : OptionalStruct Server PartialServer} `{OR : OptionalStruct Role PartialRole}.
Context `{OM : OptionalStruct Member PartialMember} `{OU : OptionalStruct User PartialUser}.
Context `{OG : OptionalStruct Message PartialMessage} `{OW : OptionalStruct Webhook PartialWebhook}.
Context (now : Timestamp) (config : MessageConfig).
Context (lexer : string -> list (option MessageToken)).
Local Abbreviation Nd := (Node ReferenceDb C).
Local Abbreviation db n := (w_db (nd_world n)).

(** The reference driver always records mentions, and channels stay. *)
Lemma add_mentions_run channel messages users (b : Back ReferenceDb) :
  exists b', add_mentions channel messages users b = (Ok tt, b') /\ db_channels (bk_db b') = db_channels (bk_db b).
Proof.
  revert b. induction users as [|u users IH]; intros b; [by eexists|]. simpl.
  case_bool_decide.
  - destruct (IH b) as (b' & E & Hc). exists b'. split; [exact E|done].
  - unfold mbind, M_bind, ask. simpl. edestruct IH as (b' & E & Hc). exists b'. split; [exact E|]. by rewrite Hc.
Qed.

(** A mass mention outside of a server ends the worker. *)
Lemma mass_mention_panics channel (p : PushNotification) m recipients user c (b : Back ReferenceDb) :
  contains_mass_push_mention m = true ->
  db_channels (bk_db b) !! v0.msg_channel (pn_message p) = Some c ->
  match c with Channel.TextChannel _ => False | _ => True end ->
  (handle_ack_event (AckEvent.ProcessMessage [(Some p, m, recipients, false)]) user channel b).1 = Panicked.
Proof.
  intros Hm Hc Hk. unfold handle_ack_event.
  destruct (add_mentions_run channel [(Some p, m, recipients, false)]
              (set_iter (list_to_set (concat (map (fun '(_, _, recipients, _) => recipients)
                [(Some p, m, recipients, false)])))) b) as (b1 & E1 & Hb1).
  erewrite M_bind_ok by exact E1. simpl. rewrite Hm. simpl. rewrite andb_false_r.
  unfold mbind, M_bind, ask. simpl. unfold Ref.fetch_channel, get_or. rewrite Hb1, Hc. simpl. by destruct c.
Qed.

(** The task of a created message, when it mentions somebody. *)
Lemma created_task ulid channel data author user member limits key allow (n n' : Nd) m :
  create_from_api now config lexer ulid channel data author user member limits key allow n = (Ok m, n') ->
  contains_mass_push_mention m = true -> has_suppressed_notifications m = false ->
  exists p recipients tasks, nd_tasks n' = tasks ++ [Task.ProcessMessage (channel_id channel) (Some p) m recipients false]
    /\ v0.msg_channel (pn_message p) = channel_id channel.
Proof using HO TS OS OR OM OU OG OW.
  intros (us & rs & us' & rs' & replies & n1 & n2 & sup & ev & onl & files & embeds & key' &
    _ & _ & _ & _ & _ & _ & _ & _ & Em & E & _)%create_from_api_inv Hm Hs.
  assert (msg_channel m = channel_id channel) as Hc by by subst m.
  clear Em. unfold send in E. apply M_bind_Ok_inv in E as ([] & n3 & _ & E).
  rewrite Hm, Hs, orb_true_r in E. simpl in E. injection E as <-.
  eexists _, _, _. simpl. rewrite Hc. split; [reflexivity|]. simpl. by rewrite Hc.
Qed.

(** C36: One message stops a worker: when a message is created in a group (or in
    any channel that is not a server's) and mentions everyone, the task it queues
    makes the worker that handles it panic. *)
Theorem group_mention_stops_worker ulid channel data author user member limits key allow (n n' : Nd) m (b : Back ReferenceDb) :
  create_from_api now config lexer ulid channel data author user member limits key allow n = (Ok m, n') ->
  has (default 0 (msg_flags m)) v0.MessageFlags.MentionsEveryone = true ->
  match channel with Channel.TextChannel _ => False | _ => True end ->
  db_channels (bk_db b) !! channel_id channel = Some channel ->
  exists task tasks event, nd_tasks n' = tasks ++ [task] /\ event_of task = Some event
    /\ (handle_ack_event (ad_event event) (ad_user event) (ad_channel event) b).1 = Panicked.
Proof using HO TS OS OR OM OU OG OW.
  intros E Hm Hk Hc.
  assert (contains_mass_push_mention m = true) as Hp.
  { unfold contains_mass_push_mention. destruct (msg_flags m) as [f|]; simpl in Hm; [by rewrite Hm|].
    by vm_compute in Hm. }
  pose proof (notifications_never_suppressed now config lexer _ _ _ _ _ _ _ _ _ _ _ _ E) as Hs.
  destruct (created_task _ _ _ _ _ _ _ _ _ _ _ _ E Hp Hs) as (p & recipients & tasks & Ht & Hpc).
  eexists _, tasks, _. split; [exact Ht|]. split; [reflexivity|]. cbn [ad_event ad_user ad_channel].
  apply (mass_mention_panics _ _ _ _ _ channel); [exact Hp|rewrite Hpc; exact Hc|exact Hk].
Qed.
End Mentions.

(** ** The last message of a channel *)

(** One worker keeps the latest id it took. *)
Lemma last_taken_wins (now : Z) (data : LastData) (tasks : LastTasks) :
  exists task, take_last now data tasks !! ld_channel data = Some task /\ lt_id (dt_data task) = ld_id data.
Proof.
  unfold take_last. destruct (tasks !! ld_channel data); rewrite lookup_insert_eq; by eexists.
Qed.

(** The last message a channel records. *)
Definition channel_last_message (c : Channel) : option string :=
  match c with
  | Channel.SavedMessages _ => None
  | Channel.DirectMessage c => dm_last_message_id c
  | Channel.Group c => g_last_message_id c
  | Channel.TextChannel c => t_last_message_id c
  end.

(** Applying the worker's update leaves the last message as it was: the driver
    that merges partial channels in memory never records it. *)
Lemma last_message_never_applied (c : Channel) (task : LastTask) :
  channel_last_message (channel_apply_options c (PartialChannel_last task)) = channel_last_message c.
Proof. by destruct c. Qed.

Module TaskWitness.
Import ModelOps.SomePriority CollectionsWitness MessageWitness.
#[local] Instance services : TextServices :=
  {| to_lowercase s := s; cure s := s; ulid_timestamp_ms _ := None |}.
#[local] Instance keys : LruCache (list string) := ListLru.list_lru TOKEN_CACHE_SIZE.
#[local] Existing Instance hash_order_canonical.

Definition second : Z := 10 ^ 9.
Definition d : ReferenceDb := set_channels {[ "c" := friends ]} CollectionsWitness.one_message.

(** The owner of a group mentions everyone. *)
Definition everyone : string -> list (option MessageToken) := fun _ => [Some MessageToken.MentionEveryone].
Definition shout : v0.DataMessageSend := {|
  v0.ms_nonce := None; v0.ms_content := Some "@everyone"; v0.ms_attachments := None; v0.ms_replies := None;
  v0.ms_embeds := None; v0.ms_masquerade := None; v0.ms_interactions := None; v0.ms_flags := None |}.
Definition shouted := create_from_api 0 config everyone "m3" friends shout bob None None limits
                        {| ik_key := "k" |} true {| nd_world := world d; nd_keys := []; nd_tasks := [] |}.

Lemma group_mention_stops_worker_witness :
  exists m n' task tasks event, shouted = (Ok m, n') /\ nd_tasks n' = tasks ++ [task] /\ event_of task = Some event
    /\ (handle_ack_event (ad_event event) (ad_user event) (ad_channel event) {| bk_db := d; bk_jobs := [] |}).1 = Panicked.
Proof.
  destruct shouted as [[m| |] n'] eqn:E; [|vm_compute in E; discriminate..].
  exists m, n'.
  destruct (group_mention_stops_worker 0 config everyone "m3" friends shout bob None None limits {| ik_key := "k" |} true
              {| nd_world := world d; nd_keys := []; nd_tasks := [] |} n' m {| bk_db := d; bk_jobs := [] |} E)
    as (task & tasks & event & Ht & He & Hp).
  - vm_compute in E. injection E as <- _. vm_compute. reflexivity.
  - exact I.
  - vm_compute. reflexivity.
  - exists task, tasks, event. split; [reflexivity|]. split; [exact Ht|]. split; [exact He|exact Hp].
Defined.

(** A message is queued, taken by the third worker and committed ten seconds later. *)
Definition waiting_message : AckData :=
  {| ad_channel := "c"; ad_user := None; ad_event := AckEvent.ProcessMessage [(None, hello, ["bob"], false)] |}.
Definition sys0 : AckSystem := start {| bk_db := d; bk_jobs := [] |}.
Definition sys1 : AckSystem := push waiting_message sys0.
Definition sys2 : AckSystem := default sys1 (take 20 2 0 sys1).
Definition sys3 : AckSystem := default sys2 (commit 2 (10 * second) sys2).

Lemma sys3_reachable : rtc (step 20) sys0 sys3.
Proof.
  apply rtc_l with sys1; [apply step_push; apply le_n|].
  apply rtc_l with sys2; [apply step_take with 2%nat 0; vm_compute; reflexivity|].
  apply rtc_once, step_commit with 2%nat (10 * second). vm_compute. reflexivity.
Qed.

Lemma messages_conserved_witness :
  sy_accepted sys3 ≡ₚ [(None, hello, ["bob"], false)]
  /\ concat (map messages_of (sy_handled sys3)) = [(None, hello, ["bob"], false)].
Proof.
  split; [|vm_compute; reflexivity].
  rewrite (messages_conserved 20 {| bk_db := d; bk_jobs := [] |} sys3 sys3_reachable).
  vm_compute. reflexivity.
Defined.

Lemma commit_leaves_fresh_tasks_witness :
  exists s' tasks task, commit 2 (2 * second) sys2 = Some s' /\ sy_workers s' !! 2%nat = Some tasks
    /\ tasks !! (None, "c", 1) = Some task /\ 2 * second - dt_last_updated task < 6 * 10 ^ 9.
Proof.
  destruct (commit 2 (2 * second) sys2) as [s'|] eqn:E; [|vm_compute in E; discriminate].
  destruct (sy_workers s' !! 2%nat) as [tasks|] eqn:Ew;
    [|vm_compute in E; injection E as <-; vm_compute in Ew; discriminate].
  destruct (tasks !! (None, "c", 1)) as [task|] eqn:Et;
    [|vm_compute in E; injection E as <-; vm_compute in Ew; injection Ew as <-; vm_compute in Et; discriminate].
  exists s', tasks, task. split; [reflexivity|]. split; [exact Ew|]. split; [exact Et|].
  apply (commit_leaves_fresh_tasks 2 (2 * second) sys2 s' tasks (None, "c", 1) task E Ew Et).
Defined.
End TaskWitness.
