(* ===== verification/MessageRoutes.v ===== *)
(** * The routes on messages and webhooks
    ([crates/delta/src/routes/channels/message_*.rs], [channel_ack.rs],
    [webhook_create.rs], [webhook_fetch_all.rs],
    [crates/delta/src/routes/webhooks])

    A route validates the body of the request, fetches the channel and the
    message it names, calculates the permissions of the caller and calls the
    methods of [Messages].  The state is the [Node] of that file.  Arguments
    stand for the caller, fresh identifiers, the clock ([now], and [now_ms] in
    milliseconds), and for what the presence service answers ([online]).

    The theorems: whoever changes a stored message of somebody else manages
    messages in its channel ([messages_protected]); a sent message was allowed
    in every part ([message_send_authorised]); a reader of the history gets
    messages of the channel only ([history_confined]); the token of a webhook is
    neither published nor shown to who may only view the channel; what goes
    wrong: pinning in a direct message channel checks nothing. *)

From S2P Require Import Prelude Results Permissions PermissionCalc Models ApiTypes Records ModelOps DbPermissions PermissionSpec BulkPermissions ReferenceDb Collections World Users Servers Channels Redis Voice Routes Parser Lru Idempotency Bridge BridgeMessages Messages.

(** ** Validation rules *)

Definition within {A} (min max : Z) (l : list A) : bool :=
  (min <=? Z.of_nat (length l)) && (Z.of_nat (length l) <=? max).
Definition in_range (min max v : Z) : bool := (min <=? v) && (v <=? max).

Section Rules.
Context `{Validator}.

(** [v0::SendableEmbed] *)
Definition embed_rules (e : v0.SendableEmbed) : list (string * bool) := [
  ("icon_url", when_some (length_within 1 256) (v0.se_icon_url e));
  ("url", when_some (length_within 1 256) (v0.se_url e));
  ("title", when_some (length_within 1 100) (v0.se_title e));
  ("description", when_some (length_within 1 2000) (v0.se_description e));
  ("colour", when_some (fun c => length_within 1 128 c && is_colour c) (v0.se_colour e))].

(** What [embed.validate()] reports. *)
Definition embed_error (e : v0.SendableEmbed) : option string :=
  match validate (embed_rules e) with
  | Err (ErrorType.FailedValidation text) => Some text
  | _ => None
  end.

(** [v0::Masquerade] *)
Definition masquerade_ok (q : v0.Masquerade) : bool :=
  when_some (length_within 1 32) (v0.mq_name q)
  && when_some (length_within 1 256) (v0.mq_avatar q)
  && when_some (fun c => length_within 1 128 c && is_colour c) (v0.mq_colour q).

(** [v0::DataMessageSend], with what it contains *)
Definition send_rules (data : v0.DataMessageSend) : list (string * bool) := [
  ("nonce", when_some (length_within 1 64) (v0.ms_nonce data));
  ("content", when_some (length_within 0 2000) (v0.ms_content data));
  ("embeds", when_some (forallb (fun e => bool_decide (embed_error e = None))) (v0.ms_embeds data));
  ("masquerade", when_some masquerade_ok (v0.ms_masquerade data))].

(** [v0::DataEditMessage] *)
Definition edit_rules (data : v0.DataEditMessage) : list (string * bool) := [
  ("content", when_some (length_within 1 2000) (v0.em_content data));
  ("embeds", when_some (within 0 10) (v0.em_embeds data))].

(** [v0::OptionsQueryMessages], [v0::DataMessageSearch] *)
Definition query_rules (options : v0.OptionsQueryMessages) : list (string * bool) := [
  ("limit", when_some (in_range 1 100) (v0.oq_limit options));
  ("before", when_some (length_within 26 26) (v0.oq_before options));
  ("after", when_some (length_within 26 26) (v0.oq_after options));
  ("nearby", when_some (length_within 26 26) (v0.oq_nearby options))].
Definition search_rules (options : v0.DataMessageSearch) : list (string * bool) := [
  ("query", when_some (length_within 1 64) (v0.ds_query options));
  ("limit", when_some (in_range 1 100) (v0.ds_limit options));
  ("before", when_some (length_within 26 26) (v0.ds_before options));
  ("after", when_some (length_within 26 26) (v0.ds_after options))].

(** [v0::CreateWebhookBody], [v0::DataEditWebhook] *)
Definition create_webhook_rules (data : v0.CreateWebhookBody) : list (string * bool) := [
  ("name", length_within 1 32 (v0.cwb_name data));
  ("avatar", when_some (length_within 1 128) (v0.cwb_avatar data))].
Definition edit_webhook_rules (data : v0.DataEditWebhook) : list (string * bool) := [
  ("name", when_some (length_within 1 32) (v0.dew_name data));
  ("avatar", when_some (length_within 1 128) (v0.dew_avatar data))].
End Rules.

(** Partial messages with one field, partial webhooks. *)
Definition PartialMessage_edited (now : Timestamp) (content : option string) (embeds : list v0.Embed)
    : PartialMessage := {|
  pmsg_id := None; pmsg_nonce := None; pmsg_channel := None; pmsg_author := None; pmsg_webhook := None;
  pmsg_content := content; pmsg_system := None; pmsg_attachments := None; pmsg_edited := Some now;
  pmsg_embeds := Some embeds; pmsg_mentions := None; pmsg_role_mentions := None; pmsg_replies := None;
  pmsg_reactions := None; pmsg_interactions := None; pmsg_masquerade := None; pmsg_pinned := None;
  pmsg_flags := None |}.
Definition PartialMessage_pinned : PartialMessage := {|
  pmsg_id := None; pmsg_nonce := None; pmsg_channel := None; pmsg_author := None; pmsg_webhook := None;
  pmsg_content := None; pmsg_system := None; pmsg_attachments := None; pmsg_edited := None;
  pmsg_embeds := None; pmsg_mentions := None; pmsg_role_mentions := None; pmsg_replies := None;
  pmsg_reactions := None; pmsg_interactions := None; pmsg_masquerade := None; pmsg_pinned := Some true;
  pmsg_flags := None |}.
Definition PartialMessage_no_reactions : PartialMessage := {|
  pmsg_id := None; pmsg_nonce := None; pmsg_channel := None; pmsg_author := None; pmsg_webhook := None;
  pmsg_content := None; pmsg_system := None; pmsg_attachments := None; pmsg_edited := None;
  pmsg_embeds := None; pmsg_mentions := None; pmsg_role_mentions := None; pmsg_replies := None;
  pmsg_reactions := Some []; pmsg_interactions := None; pmsg_masquerade := None; pmsg_pinned := None;
  pmsg_flags := None |}.
Definition PartialWebhook_edited (name : option string) (avatar : option File) (permissions : option Z)
    : PartialWebhook := {|
  pwh_id := None; pwh_name := name; pwh_avatar := avatar; pwh_creator_id := None;
  pwh_channel_id := None; pwh_permissions := permissions; pwh_token := None |}.

(** ** The routes *)

Module Route.
Section Routes.
Context {D C : Type} `{Database D} `{PermissionDatabase D} `{MessageDatabase D} `{LruCache C}.
Context `{HashOrder} `{TextServices} `{Validator}.
Context `{OptionalStruct Message PartialMessage} `{OptionalStruct Webhook PartialWebhook}.
Context (now : Timestamp) (now_ms : Z) (config : MessageConfig).
Context (lexer : string -> list (option MessageToken)) (permissible_emojis : gset string).
Context (cutoff : option Z) (online : gset string).
Context (user_limits : User -> Result FeaturesLimits) (default_limits : FeaturesLimits).
Local Abbreviation W := (M ErrorType (World D)).
Local Abbreviation Nm := (M ErrorType (Node D C)).

(** [Reference::as_channel], [as_message], [as_message_in_channel], [as_webhook] *)
Definition as_channel (id : string) : Nm Channel := on_world (call (Database.fetch_channel id)).
Definition as_message (id : string) : Nm Message := on_world (call (MessageDb.fetch_message id)).
Definition as_message_in_channel (id channel : string) : Nm Message :=
  msg ← as_message id;
  if bool_decide (msg_channel msg <> channel) then throw ErrorType.NotFound else mret msg.
Definition as_webhook (id : string) : Nm Webhook := on_world (call (MessageDb.fetch_webhook id)).

(** [DatabasePermissionQuery::new(db, &user).channel(&channel)], calculated *)
Definition channel_query (user : User) (channel : Channel) : Nm (PermissionValue * DatabasePermissionQuery D) :=
  fun n =>
    let '(permissions, q) := db_calculate_channel_permissions now
      (query_channel (DatabasePermissionQuery_new (w_db (nd_world n)) user) channel) in
    (permissions ← permissions; Ok (permissions, q), n).
Definition require (permissions : PermissionValue) (permission : ChannelPermission) : Nm unit :=
  lift_outcome (throw_if_lacking_channel_permission permissions permission).
Definition require_if (b : bool) (permissions : PermissionValue) (permission : ChannelPermission) : Nm unit :=
  if b then require permissions permission else mret tt.
Definition non_empty {A} (o : option (list A)) : bool :=
  match o with Some (_ :: _) => true | _ => false end.

(** *** Sending *)

(** The checks of [message_send] that need permissions. *)
Definition send_checks (permissions : PermissionValue) (data : v0.DataMessageSend) : Nm unit :=
  require permissions ChannelPermission.SendMessage;;
  match v0.ms_masquerade data with
  | Some masq =>
      require permissions ChannelPermission.Masquerade;;
      require_if (bool_decide (is_Some (v0.mq_colour masq))) permissions ChannelPermission.ManageRole
  | None => mret tt
  end;;
  require_if (non_empty (v0.ms_embeds data)) permissions ChannelPermission.SendEmbeds;;
  require_if (non_empty (v0.ms_attachments data)) permissions ChannelPermission.UploadFiles;;
  match v0.ms_interactions data with
  | Some i => on_world (interactions_validate config permissible_emojis (Interactions_from_v0 i) permissions)
  | None => mret tt
  end.

(** New accounts do not mention in public servers. *)
Definition may_mention (server : option Server) (user : User) : Result bool :=
  match server with
  | Some server =>
      if s_discoverable server then
        match ulid_timestamp_ms (u_id user) with
        | Some created => Ok (12 * 3600 * 1000 <=? now_ms - created)
        | None => Panicked
        end
      else Ok true
  | None => Ok true
  end.

Definition message_send (ulid : string) (user : User) (target : string) (data : v0.DataMessageSend)
    (idempotency : IdempotencyKey) : Nm v0.Message :=
  lift_outcome (validate (send_rules data));;
  channel ← as_channel target;
  '(permissions, q) ← channel_query user channel;
  send_checks permissions data;;
  allow_mentions ← lift_outcome (may_mention (q_server q) user);
  author ← on_db (fun d => user_into cutoff now d (Some user) (bool_decide (u_id user ∈ online)) user);
  let '(member, q) := db_are_we_a_member q in
  _ ← lift_outcome member;
  model_user ← lift_outcome (into_known_static cutoff (bool_decide (u_id user ∈ online)) user);
  let model_member := Member_to_v0 <$> q_member q in
  limits ← lift_outcome (user_limits user);
  message ← create_from_api now config lexer ulid channel data (v0.MessageAuthor.User author)
              (Some model_user) model_member limits idempotency allow_mentions;
  mret (into_model message (Some model_user) model_member).

(** *** Editing and deleting *)

(** [Embed::Text] embeds stay, generated ones go. *)
Definition text_embeds (embeds : list v0.Embed) : list v0.Embed :=
  retain (fun e => match e with v0.Embed.Text _ => true | _ => false end) embeds.
Fixpoint create_embeds (message : Message) (embeds : list v0.SendableEmbed) : W (list v0.Embed) :=
  match embeds with
  | [] => mret []
  | e :: embeds => new ← create_embed embed_error message e; rest ← create_embeds message embeds;
                   mret (new :: rest)
  end.
Definition msg_set_edited (now : Timestamp) (m : Message) : Message := {|
  msg_id := msg_id m; msg_nonce := msg_nonce m; msg_channel := msg_channel m;
  msg_author := msg_author m; msg_webhook := msg_webhook m; msg_content := msg_content m;
  msg_system := msg_system m; msg_attachments := msg_attachments m; msg_edited := Some now;
  msg_embeds := msg_embeds m; msg_mentions := msg_mentions m; msg_role_mentions := msg_role_mentions m;
  msg_replies := msg_replies m; msg_reactions := msg_reactions m; msg_interactions := msg_interactions m;
  msg_masquerade := msg_masquerade m; msg_pinned := msg_pinned m; msg_flags := msg_flags m |}.

Definition edit (user : User) (target msg : string) (edit : v0.DataEditMessage) : Nm v0.Message :=
  lift_outcome (validate (edit_rules edit));;
  limits ← lift_outcome (user_limits user);
  lift_outcome (validate_sum (v0.em_content edit) (default [] (v0.em_embeds edit)) (fl_message_length limits));;
  channel ← as_channel target;
  '(permissions, _) ← channel_query user channel;
  require permissions ChannelPermission.SendMessage;;
  message ← as_message_in_channel msg (channel_id channel);
  if bool_decide (msg_author message <> u_id user) then throw ErrorType.CannotEditMessage else
  let message := msg_set_edited now message in
  new_embeds ← match v0.em_embeds edit with
               | Some embeds =>
                   require permissions ChannelPermission.SendEmbeds;;
                   on_world (create_embeds message embeds)
               | None => mret (text_embeds (default [] (msg_embeds message)))
               end;
  message ← on_world (message_update message (PartialMessage_edited now (v0.em_content edit) new_embeds) []);
  mret (into_model message None None).

Definition delete (user : User) (target msg : string) : Nm unit :=
  message ← as_message_in_channel msg target;
  (if bool_decide (msg_author message <> u_id user) then
     channel ← as_channel target;
     '(permissions, _) ← channel_query user channel;
     require permissions ChannelPermission.ManageMessages
   else mret tt);;
  on_world (message_delete message).

(** The identifiers are of the past week: the difference in days, truncated. *)
Fixpoint all_recent (ids : list string) : Result unit :=
  match ids with
  | [] => Ok tt
  | id :: ids =>
      match ulid_timestamp_ms id with
      | Some created =>
          if 7 <? Z.abs (Z.quot (created - now_ms) 86400000) then Err ErrorType.InvalidOperation
          else all_recent ids
      | None => Err ErrorType.InvalidOperation
      end
  end.
Definition bulk_delete_messages (user : User) (target : string) (options : v0.OptionsBulkDelete) : Nm unit :=
  lift_outcome (validate [("ids", within 1 100 (v0.ob_ids options))]);;
  lift_outcome (all_recent (v0.ob_ids options));;
  channel ← as_channel target;
  '(permissions, _) ← channel_query user channel;
  require permissions ChannelPermission.ManageMessages;;
  on_world (bulk_delete target (v0.ob_ids options)).

(** *** Reactions *)

Definition react_message (user : User) (target msg emoji : string) : Nm unit :=
  channel ← as_channel target;
  '(permissions, _) ← channel_query user channel;
  require permissions ChannelPermission.React;;
  message ← as_message_in_channel msg (channel_id channel);
  on_world (message_add_reaction config permissible_emojis message user emoji).

Definition unreact_message (user : User) (target msg emoji : string) (options : v0.OptionsUnreact) : Nm unit :=
  channel ← as_channel target;
  '(permissions, _) ← channel_query user channel;
  require permissions ChannelPermission.React;;
  let remove_all := default false (v0.ou_remove_all options) in
  require_if (bool_decide (is_Some (v0.ou_user_id options)) || remove_all) permissions
    ChannelPermission.ManageMessages;;
  message ← as_message_in_channel msg (channel_id channel);
  if remove_all then on_world (message_clear_reaction message emoji)
  else on_world (message_remove_reaction message (default (u_id user) (v0.ou_user_id options)) emoji).

Definition clear_reactions (user : User) (target msg : string) : Nm unit :=
  channel ← as_channel target;
  '(permissions, _) ← channel_query user channel;
  require permissions ChannelPermission.ManageMessages;;
  message ← as_message_in_channel msg (channel_id channel);
  _ ← on_world (message_update message PartialMessage_no_reactions []);
  mret tt.

(** *** Pins *)

Definition pin_check (user : User) (channel : Channel) : Nm unit :=
  match channel with
  | Channel.DirectMessage _ => mret tt
  | _ => '(permissions, _) ← channel_query user channel;
         require permissions ChannelPermission.ManageMessages
  end.

(** The system message that tells the channel. *)
Definition announce (ulid : string) (user : User) (channel : Channel) (what : SystemMessage) : Nm unit :=
  send now config (into_message ulid what (channel_id channel))
    (v0.MessageAuthor.System (u_username user) (f_id <$> u_avatar user)) None None channel.

Definition message_pin (ulid : string) (user : User) (target msg : string) : Nm unit :=
  channel ← as_channel target;
  pin_check user channel;;
  message ← as_message_in_channel msg (channel_id channel);
  if default false (msg_pinned message) then throw ErrorType.AlreadyPinned else
  message ← on_world (message_update message PartialMessage_pinned []);
  announce ulid user channel (SystemMessage.MessagePinned (msg_id message) (u_id user)).

Definition message_unpin (ulid : string) (user : User) (target msg : string) : Nm unit :=
  channel ← as_channel target;
  pin_check user channel;;
  message ← as_message_in_channel msg (channel_id channel);
  if negb (default false (msg_pinned message)) then throw ErrorType.NotPinned else
  message ← on_world (message_update message PartialMessage_default [FieldsMessage.Pinned]);
  announce ulid user channel (SystemMessage.MessageUnpinned (msg_id message) (u_id user)).

(** *** Reading *)

Definition fetch (user : User) (target msg : string) : Nm v0.Message :=
  channel ← as_channel target;
  '(permissions, _) ← channel_query user channel;
  require permissions ChannelPermission.ViewChannel;;
  message ← as_message msg;
  if bool_decide (msg_channel message <> channel_id channel) then throw ErrorType.NotFound
  else mret (into_model message None None).

Definition query (user : User) (target : string) (options : v0.OptionsQueryMessages)
    : Nm v0.BulkMessageResponse :=
  lift_outcome (validate (query_rules options));;
  if bool_decide (v0.oq_sort options = Some v0.MessageSort.Relevance) then throw ErrorType.InvalidOperation else
  channel ← as_channel target;
  '(permissions, _) ← channel_query user channel;
  require permissions ChannelPermission.ReadMessageHistory;;
  match channel with
  | Channel.DirectMessage _ | Channel.Group _ => mret (v0.BulkMessageResponse.JustMessages [])
  | _ =>
      on_world (fetch_with_users cutoff online
        {| qm_filter := {| mf_channel := Some (channel_id channel); mf_author := None; mf_query := None;
                           mf_pinned := None |};
           qm_time_period := match v0.oq_nearby options with
                             | Some nearby => MessageTimePeriod.Relative nearby
                             | None => MessageTimePeriod.Absolute (v0.oq_before options)
                                         (v0.oq_after options) (v0.oq_sort options)
                             end;
           qm_limit := v0.oq_limit options |}
        user (v0.oq_include_users options) (channel_server channel))
  end.

Definition search (user : User) (target : string) (options : v0.DataMessageSearch)
    : Nm v0.BulkMessageResponse :=
  if bool_decide (is_Some (u_bot user)) then throw ErrorType.IsBot else
  lift_outcome (validate (search_rules options));;
  if bool_decide (is_Some (v0.ds_query options)) && bool_decide (is_Some (v0.ds_pinned options))
  then throw ErrorType.InvalidOperation else
  channel ← as_channel target;
  '(permissions, _) ← channel_query user channel;
  require permissions ChannelPermission.ReadMessageHistory;;
  on_world (fetch_with_users cutoff online
    {| qm_filter := {| mf_channel := Some (channel_id channel); mf_author := None;
                       mf_query := v0.ds_query options; mf_pinned := v0.ds_pinned options |};
       qm_time_period := MessageTimePeriod.Absolute (v0.ds_before options) (v0.ds_after options)
                           (Some (v0.ds_sort options));
       qm_limit := v0.ds_limit options |}
    user (v0.ds_include_users options) (channel_server channel)).

Definition ack (user : User) (target message : string) : Nm unit :=
  if bool_decide (is_Some (u_bot user)) then throw ErrorType.IsBot else
  channel ← as_channel target;
  '(permissions, _) ← channel_query user channel;
  require permissions ChannelPermission.ViewChannel;;
  channel_ack channel (u_id user) message.

(** *** Webhooks *)

(** [File::use_webhook_avatar] *)
Definition use_webhook_avatar (id parent uploader_id : string) : Nm File :=
  on_world (call (Database.find_and_use_attachment id "avatars"
    {| fuf_object_type := FileUsedForType.WebhookAvatar; fuf_id := parent |} uploader_id)).

Definition create_webhook (ulid nanoid : string) (user : User) (target : string) (data : v0.CreateWebhookBody)
    : Nm v0.Webhook :=
  lift_outcome (validate (create_webhook_rules data));;
  channel ← as_channel target;
  if negb match channel with Channel.TextChannel _ | Channel.Group _ => true | _ => false end
  then throw ErrorType.InvalidOperation else
  '(permissions, _) ← channel_query user channel;
  require permissions ChannelPermission.ManageWebhooks;;
  avatar ← match v0.cwb_avatar data with
           | Some id => file ← use_webhook_avatar id ulid (u_id user); mret (Some file)
           | None => mret None
           end;
  let webhook := {| wh_id := ulid; wh_name := v0.cwb_name data; wh_avatar := avatar;
                    wh_creator_id := u_id user; wh_channel_id := channel_id channel;
                    wh_permissions := DEFAULT_WEBHOOK_PERMISSIONS; wh_token := Some nanoid |} in
  on_world (webhook_create webhook);;
  mret (Webhook_to_v0 webhook).

Definition fetch_webhooks (user : User) (target : string) : Nm (list v0.Webhook) :=
  channel ← as_channel target;
  '(permissions, _) ← channel_query user channel;
  require permissions ChannelPermission.ManageWebhooks;;
  webhooks ← on_world (call (MessageDb.fetch_webhooks_for_channel (channel_id channel)));
  mret (map Webhook_to_v0 webhooks).

(** A webhook for a caller who has a permission in its channel. *)
Definition webhook_in_channel (user : User) (webhook_id : string) (permission : ChannelPermission) : Nm Webhook :=
  webhook ← as_webhook webhook_id;
  channel ← as_channel (wh_channel_id webhook);
  '(permissions, _) ← channel_query user channel;
  require permissions permission;;
  mret webhook.

(** A webhook for a caller who knows its token. *)
Definition webhook_with_token (webhook_id token : string) : Nm Webhook :=
  webhook ← as_webhook webhook_id;
  lift_outcome (assert_token webhook token);;
  mret webhook.

(** What both edit routes do once the webhook is found. *)
Definition edit_found (webhook : Webhook) (data : v0.DataEditWebhook) : Nm v0.Webhook :=
  if bool_decide (v0.dew_name data = None) && bool_decide (v0.dew_avatar data = None)
     && bool_decide (v0.dew_remove data = []) then mret (Webhook_to_v0 webhook) else
  avatar ← match v0.dew_avatar data with
           | Some avatar =>
               file ← use_webhook_avatar avatar (wh_id webhook) (wh_creator_id webhook); mret (Some file)
           | None => mret None
           end;
  webhook ← on_world (webhook_update webhook
              (PartialWebhook_edited (v0.dew_name data) avatar (v0.dew_permissions data))
              (map FieldsWebhook_from_v0 (v0.dew_remove data)));
  mret (Webhook_to_v0 webhook).

Definition webhook_fetch (user : User) (webhook_id : string) : Nm v0.ResponseWebhook :=
  webhook ← webhook_in_channel user webhook_id ChannelPermission.ViewChannel;
  mret (v0.ResponseWebhook_from (Webhook_to_v0 webhook)).
Definition webhook_fetch_token (webhook_id token : string) : Nm v0.Webhook :=
  webhook ← webhook_with_token webhook_id token;
  mret (Webhook_to_v0 webhook).
Definition webhook_delete (user : User) (webhook_id : string) : Nm unit :=
  webhook ← webhook_in_channel user webhook_id ChannelPermission.ManageWebhooks;
  on_world (Messages.webhook_delete webhook).
Definition webhook_delete_token (webhook_id token : string) : Nm unit :=
  webhook ← webhook_with_token webhook_id token;
  on_world (Messages.webhook_delete webhook).
Definition webhook_edit (user : User) (webhook_id : string) (data : v0.DataEditWebhook) : Nm v0.Webhook :=
  lift_outcome (validate (edit_webhook_rules data));;
  webhook ← webhook_in_channel user webhook_id ChannelPermission.ManageWebhooks;
  edit_found webhook data.
Definition webhook_edit_token (webhook_id token : string) (data : v0.DataEditWebhook) : Nm v0.Webhook :=
  lift_outcome (validate (edit_webhook_rules data));;
  webhook ← webhook_with_token webhook_id token;
  edit_found webhook data.

Definition webhook_execute (ulid : string) (webhook_id token : string) (data : v0.DataMessageSend)
    (idempotency : IdempotencyKey) : Nm v0.Message :=
  lift_outcome (validate (send_rules data));;
  webhook ← webhook_with_token webhook_id token;
  let permissions := from_raw (wh_permissions webhook) in
  require permissions ChannelPermission.SendMessage;;
  require_if (non_empty (v0.ms_attachments data)) permissions ChannelPermission.UploadFiles;;
  require_if (non_empty (v0.ms_embeds data)) permissions ChannelPermission.SendEmbeds;;
  require_if (bool_decide (is_Some (v0.ms_masquerade data))) permissions ChannelPermission.Masquerade;;
  require_if (bool_decide (is_Some (v0.ms_interactions data))) permissions ChannelPermission.React;;
  channel ← as_channel (wh_channel_id webhook);
  message ← create_from_api now config lexer ulid channel data
              (v0.MessageAuthor.Webhook (Webhook_to_v0 webhook)) None None default_limits idempotency true;
  mret (into_model message None None).
End Routes.
End Route.

(** ** Who changes messages *)

(** One request that changes stored messages, with its arguments. *)
Module Request.
Inductive Request : Type :=
| Edit (data : v0.DataEditMessage)
| Delete
| BulkDelete (options : v0.OptionsBulkDelete)
| React (emoji : string)
| Unreact (emoji : string) (options : v0.OptionsUnreact)
| ClearReactions
| Pin (ulid : string)
| Unpin (ulid : string).
End Request.
Abbreviation Request := Request.Request.

Section Protected.
Context {C : Type} `{LruCache C} `{HO : HashOrder} `{TS : TextServices} `{VA : Validator}.
Context `{OS : OptionalStruct Server PartialServer} `{OR : OptionalStruct Role PartialRole}.
Context `{OM : OptionalStruct Member PartialMember} `{OU : OptionalStruct User PartialUser}.
Context `{OG : OptionalStruct Message PartialMessage} `{OW : OptionalStruct Webhook PartialWebhook}.
Context `{ML : !MessageOptionalLaws}.
Context (now : Timestamp) (now_ms : Z) (config : MessageConfig).
Context (permissible_emojis : gset string) (user_limits : User -> Result FeaturesLimits).
Local Abbreviation Nd := (Node ReferenceDb C).
Local Abbreviation Nm := (M ErrorType Nd).
Local Abbreviation db n := (w_db (nd_world n)).

Definition handle (r : Request) (user : User) (target msg : string) : Nm unit :=
  match r with
  | Request.Edit data => _ ← Route.edit now user_limits user target msg data; mret tt
  | Request.Delete => Route.delete now user target msg
  | Request.BulkDelete options => Route.bulk_delete_messages now now_ms user target options
  | Request.React emoji => Route.react_message now config permissible_emojis user target msg emoji
  | Request.Unreact emoji options => Route.unreact_message now user target msg emoji options
  | Request.ClearReactions => Route.clear_reactions now user target msg
  | Request.Pin ulid => Route.message_pin now config ulid user target msg
  | Request.Unpin ulid => Route.message_unpin now config ulid user target msg
  end.

(** The caller has a permission in a channel. *)
Definition allowed (d : ReferenceDb) (user : User) (channel : Channel) (permission : ChannelPermission) : Prop :=
  exists permissions q,
    db_calculate_channel_permissions now (query_channel (DatabasePermissionQuery_new d user) channel)
    = (Ok permissions, q) /\ has_channel_permission permissions permission = true.

(** Channels and messages are stored under their identifiers. *)
Definition keyed (d : ReferenceDb) : Prop :=
  map_Forall (fun k c => channel_id c = k) (db_channels d) /\ messages_ok d.

Lemma lift_inv {A} (o : Result A) (n n' : Nd) a : (lift_outcome o : Nm A) n = (Ok a, n') -> o = Ok a /\ n' = n.
Proof. by intros [= -> <-]. Qed.

Lemma as_channel_inv id (n n' : Nd) c :
  Route.as_channel id n = (Ok c, n') -> db_channels (db n) !! id = Some c /\ n' = n.
Proof.
  unfold Route.as_channel, on_world, call, Ref.fetch_channel. simpl. unfold Ref.fetch_channel, get_or.
  destruct (db_channels (db n) !! id); simpl; intros [= -> <-]. split; [done|by destruct n as [[]]].
Qed.

Lemma as_message_inv id (n n' : Nd) m :
  Route.as_message id n = (Ok m, n') -> db_messages (db n) !! id = Some m /\ n' = n.
Proof.
  unfold Route.as_message, on_world, call. simpl. unfold Col.fetch_message, get_or.
  destruct (db_messages (db n) !! id); simpl; intros [= -> <-]. split; [done|by destruct n as [[]]].
Qed.

Lemma in_channel_inv id channel (n n' : Nd) m :
  Route.as_message_in_channel id channel n = (Ok m, n') ->
  db_messages (db n) !! id = Some m /\ msg_channel m = channel /\ n' = n.
Proof.
  unfold Route.as_message_in_channel. intros (m0 & n1 & [Hm ->]%as_message_inv & E)%M_bind_Ok_inv.
  case_bool_decide as Hc; [done|]. injection E as -> <-. split_and!; [done| |done].
  by destruct (decide (msg_channel m = channel)).
Qed.

Lemma query_inv user channel (n n' : Nd) p q :
  Route.channel_query now user channel n = (Ok (p, q), n') ->
  db_calculate_channel_permissions now (query_channel (DatabasePermissionQuery_new (db n) user) channel)
  = (Ok p, q) /\ n' = n.
Proof.
  unfold Route.channel_query. destruct (db_calculate_channel_permissions now _) as [[p'|e|] q']; simpl; [|done|done].
  by intros [= -> -> <-].
Qed.

Lemma require_inv p perm (n n' : Nd) :
  Route.require p perm n = (Ok tt, n') -> has_channel_permission p perm = true /\ n' = n.
Proof.
  unfold Route.require. intros [E ->]%lift_inv. split; [|done].
  unfold throw_if_lacking_channel_permission in E. by destruct (has_channel_permission p perm).
Qed.

Lemma require_if_inv b p perm (n n' : Nd) :
  Route.require_if b p perm n = (Ok tt, n') -> (b = true -> has_channel_permission p perm = true) /\ n' = n.
Proof. destruct b; simpl; [intros [E ->]%require_inv; by split|intros [= <-]; by split]. Qed.

(** The opening of most routes. *)
Lemma open_inv {A} user target perm (k : Channel -> PermissionValue -> Nm A) (n n' : Nd) a :
  (channel ← Route.as_channel target;
   '(permissions, _) ← Route.channel_query now user channel;
   Route.require permissions perm;; k channel permissions) n = (Ok a, n') ->
  exists channel p, db_channels (db n) !! target = Some channel /\ allowed (db n) user channel perm
    /\ (exists q, db_calculate_channel_permissions now
          (query_channel (DatabasePermissionQuery_new (db n) user) channel) = (Ok p, q))
    /\ k channel p n = (Ok a, n').
Proof.
  intros (channel & n1 & [Hc ->]%as_channel_inv & E)%M_bind_Ok_inv.
  apply M_bind_Ok_inv in E as ([p q] & n1 & [Hq ->]%query_inv & E).
  apply M_bind_Ok_inv in E as ([] & n1 & [Hp ->]%require_inv & E).
  exists channel, p. split_and!; [done|by exists p, q|by exists q|done].
Qed.

(** *** What the methods leave in the table of messages *)

Local Abbreviation stored n := (db_messages (db n)).

Lemma on_world_inv {A} (m : M ErrorType (World ReferenceDb) A) (n n' : Nd) a :
  on_world m n = (Ok a, n') -> m (nd_world n) = (Ok a, nd_world n').
Proof. unfold on_world. destruct (m (nd_world n)) as [r w]. by intros [= -> <-]. Qed.

Lemma call_inv {A} (m : M ErrorType ReferenceDb A) (w w' : World ReferenceDb) a :
  call m w = (Ok a, w') -> m (w_db w) = (Ok a, w_db w').
Proof. unfold call. destruct (m (w_db w)) as [r d]. by intros [= -> <-]. Qed.

Lemma update_inv (m : Message) p remove (w w' : World ReferenceDb) m' :
  pmsg_id p = None -> message_update m p remove w = (Ok m', w') ->
  exists old, db_messages (w_db w) !! msg_id m = Some old
    /\ db_messages (w_db w') = <[msg_id m := foldl message_remove_field (apply_options old p) remove]> (db_messages (w_db w)).
Proof using ML.
  intros Hp (? & w1 & E1%call_inv & E)%M_bind_Ok_inv.
  apply M_bind_Ok_inv in E as (? & w2 & E2 & E). injection E2 as _ <-. injection E as _ <-.
  assert (msg_id (foldl message_remove_field (apply_options m p) remove) = msg_id m) as Hi.
  { rewrite (proj1 (removed_fields_same _ _)), msg_id_applied, Hp. done. }
  rewrite Hi in E1. destruct x. by apply with_mut_messages in E1.
Qed.

Lemma create_embeds_same (m : Message) embeds (w w' : World ReferenceDb) l :
  Route.create_embeds m embeds w = (Ok l, w') -> same_messages w w'.
Proof.
  revert w l. induction embeds as [|e embeds IH]; intros w l; simpl; [by intros [= _ <-]|].
  intros (new & w1 & E1 & E)%M_bind_Ok_inv. apply M_bind_Ok_inv in E as (rest & w2 & E2 & E).
  injection E as _ <-. apply IH in E2 as [H1 H2]. unfold create_embed in E1.
  destruct (embed_error e); [done|]. unfold sendable_embed in E1.
  apply M_bind_Ok_inv in E1 as (media & w3 & E3 & E1). injection E1 as _ <-.
  assert (same_messages w w3) as [H3 H4]; [|split; congruence].
  destruct (v0.se_media e); [|by injection E3 as _ <-].
  apply M_bind_Ok_inv in E3 as (f & w4 & E4 & E3). injection E3 as _ <-. by eapply use_attachment_messages.
Qed.

(** Sending adds a message. *)
Lemma send_keeps (m : Message) author user member channel (n n' : Nd) k old :
  send now config m author user member channel n = (Ok tt, n') ->
  stored n !! k = Some old -> stored n' !! k = Some old.
Proof using HO TS OS OR OM OU OG OW.
  unfold send. intros ([] & n1 & E1 & E2)%M_bind_Ok_inv Hk.
  assert (nd_world n' = nd_world n1) as -> by (destruct (_ && _); by injection E2 as <-). clear E2.
  unfold send_without_notifications in E1. apply M_bind_Ok_inv in E1 as ([] & n2 & E1 & E2).
  assert (nd_world n1 = nd_world n2) as ->.
  { apply M_bind_Ok_inv in E2 as ([] & n3 & E2 & E3). injection E2 as <-. by injection E3 as <-. }
  clear E2. destruct channel; [| by injection E1 as <- |..].
  all: apply M_bind_Ok_inv in E1 as ([] & n3 & E1 & E2); injection E2 as <-;
    apply on_world_inv, call_inv in E1; simpl in E1 |- *; unfold Col.insert_message, insert_new in E1;
    destruct (stored n !! msg_id m) eqn:El; [done|]; injection E1 as E1; rewrite <- E1; simpl;
    rewrite lookup_insert_ne; [done|]; intros <-; congruence.
Qed.

(** A message that a request finds, changed to another value, and nothing else. *)
Definition only_changed (n n' : Nd) (id : string) (after : option Message) : Prop :=
  (forall k old, stored n !! k = Some old -> k <> id -> stored n' !! k = Some old)
  /\ stored n' !! id = after.

Lemma only_changed_at (n n' : Nd) id after k m :
  only_changed n n' id after -> stored n !! k = Some m -> stored n' !! k <> Some m ->
  k = id /\ stored n' !! k = after.
Proof.
  intros [Hne Hid] Hk Hk'. destruct (decide (k = id)) as [->|Hd]; [done|]. by destruct (Hk' (Hne k m Hk Hd)).
Qed.

Lemma updated (m old : Message) p remove (n n' : Nd) m' :
  pmsg_id p = None -> stored n !! msg_id m = Some old ->
  on_world (message_update m p remove) n = (Ok m', n') ->
  only_changed n n' (msg_id m) (Some (foldl message_remove_field (apply_options old p) remove)).
Proof using ML HO TS OS OR OM OU OG OW.
  intros Hp Hm (old' & Ho & E)%on_world_inv%update_inv; [|done].
  replace old' with old in E by congruence.
  split; [|by rewrite E, lookup_insert_eq]. intros k o Hk Hne. by rewrite E, lookup_insert_ne.
Qed.

Lemma updated_announced (m old : Message) p remove (what : Message -> SystemMessage) ulid user channel (n n' : Nd) :
  pmsg_id p = None -> stored n !! msg_id m = Some old ->
  (m' ← on_world (message_update m p remove); Route.announce now config ulid user channel (what m')) n = (Ok tt, n') ->
  only_changed n n' (msg_id m) (Some (foldl message_remove_field (apply_options old p) remove)).
Proof using ML HO TS OS OR OM OU OG OW.
  intros Hp Hm (m' & n1 & E1 & E)%M_bind_Ok_inv.
  destruct (updated _ _ _ _ _ _ _ Hp Hm E1) as [Hk Hid]. unfold Route.announce in E. split.
  - intros k o Ho Hne. exact (send_keeps _ _ _ _ _ _ _ _ _ E (Hk k o Ho Hne)).
  - exact (send_keeps _ _ _ _ _ _ _ _ _ E Hid).
Qed.

(** Pinning changes the pinned state. *)
Lemma pinned_only (m : Message) remove :
  msg_set_pinned None (foldl message_remove_field (apply_options m PartialMessage_pinned) remove)
  = msg_set_pinned None m
  /\ msg_set_pinned None (foldl message_remove_field (apply_options m PartialMessage_default) remove)
  = msg_set_pinned None m.
Proof using ML.
  assert (forall m1, msg_set_pinned None (foldl message_remove_field m1 remove) = msg_set_pinned None m1) as Hr.
  { induction remove as [|[] remove IH]; intros m1; [done|]. simpl. by rewrite IH. }
  split; rewrite Hr; unfold msg_set_pinned, msg_with;
    rewrite ?msg_id_applied, ?msg_nonce_applied, ?msg_channel_applied, ?msg_author_applied,
      ?msg_webhook_applied, ?msg_content_applied, ?msg_system_applied, ?msg_attachments_applied,
      ?msg_edited_applied, ?msg_embeds_applied, ?msg_mentions_applied, ?msg_role_mentions_applied,
      ?msg_replies_applied, ?msg_reactions_applied, ?msg_interactions_applied, ?msg_masquerade_applied,
      ?msg_flags_applied; done.
Qed.

(** *** Each request *)

(** The other users' reactions are what they were, and so is the rest. *)
Definition own_reactions_only (user : string) (m m' : Message) : Prop :=
  msg_set_reactions [] m' = msg_set_reactions [] m
  /\ forall e u, u <> user -> (reacted m' e u <-> reacted m e u).

(** Why a request may change a message. *)
Inductive justified (d : ReferenceDb) (user : User) (m : Message) (after : option Message) : Prop :=
| is_author : msg_author m = u_id user -> justified d user m after
| is_manager channel :
    db_channels d !! msg_channel m = Some channel ->
    allowed d user channel ChannelPermission.ManageMessages -> justified d user m after
| is_reaction channel m' :
    db_channels d !! msg_channel m = Some channel -> allowed d user channel ChannelPermission.React ->
    after = Some m' -> own_reactions_only (u_id user) m m' -> justified d user m after
| is_direct_pin c m' :
    db_channels d !! msg_channel m = Some (Channel.DirectMessage c) ->
    after = Some m' -> msg_set_pinned None m' = msg_set_pinned None m -> justified d user m after.

Definition protects (user : User) (n n' : Nd) : Prop :=
  forall k m, stored n !! k = Some m -> stored n' !! k <> Some m ->
    justified (db n) user m (stored n' !! k).

Lemma protects_one user (n n' : Nd) id after m :
  stored n !! id = Some m -> only_changed n n' id after -> justified (db n) user m after -> protects user n n'.
Proof.
  intros Hm Ho Hj k m' Hk Hne. destruct (only_changed_at _ _ _ _ _ _ Ho Hk Hne) as [-> ->].
  by replace m' with m by congruence.
Qed.

Lemma channel_of (n : Nd) target channel (m : Message) :
  keyed (db n) -> db_channels (db n) !! target = Some channel -> msg_channel m = channel_id channel ->
  db_channels (db n) !! msg_channel m = Some channel.
Proof. intros [Hc _] Ht Hm. rewrite Hm. by rewrite (Hc target channel Ht). Qed.

Lemma edit_protects user target msg data (n n' : Nd) v :
  keyed (db n) -> Route.edit now user_limits user target msg data n = (Ok v, n') -> protects user n n'.
Proof using ML HO TS OS OR OM OU OG OW.
  intros Hk (? & n0 & [_ ->]%lift_inv & E)%M_bind_Ok_inv.
  apply M_bind_Ok_inv in E as (limits & n0 & [_ ->]%lift_inv & E).
  apply M_bind_Ok_inv in E as ([] & n0 & [_ ->]%lift_inv & E).
  apply open_inv in E as (channel & p & Hc & Ha & _ & E).
  apply M_bind_Ok_inv in E as (m & n0 & (Hm & Hmc & ->)%in_channel_inv & E).
  case_bool_decide as Hau; [done|].
  apply M_bind_Ok_inv in E as (embeds & n1 & E1 & E). apply M_bind_Ok_inv in E as (m' & n2 & E2 & E).
  injection E as _ <-.
  assert (stored n1 = stored n) as Hs.
  { destruct (v0.em_embeds data); [|by injection E1 as _ <-].
    apply M_bind_Ok_inv in E1 as ([] & n3 & [_ ->]%require_inv & E1).
    by apply on_world_inv, create_embeds_same in E1 as [-> _]. }
  destruct Hk as [_ Hk]. destruct (Hk msg m Hm) as [Hi _].
  eapply (updated (Route.msg_set_edited now m) m) in E2; [|done|by rewrite Hs; simpl; rewrite Hi].
  unfold only_changed in E2. rewrite Hs in E2. simpl in E2. rewrite Hi in E2.
  eapply (protects_one user n n2 msg _ m Hm); [exact E2|].
  apply is_author; by destruct (decide (msg_author m = u_id user)).
Qed.

Lemma delete_protects user target msg (n n' : Nd) :
  keyed (db n) -> Route.delete now user target msg n = (Ok tt, n') -> protects user n n'.
Proof.
  intros [Hkc Hk] (m & n0 & (Hm & Hmc & ->)%in_channel_inv & E)%M_bind_Ok_inv.
  apply M_bind_Ok_inv in E as ([] & n1 & E1 & E). destruct (Hk msg m Hm) as [Hi _].
  assert (justified (db n) user m None /\ n1 = n) as [Hj ->].
  { case_bool_decide as Ha; [|injection E1 as <-; split; [|done];
      apply is_author; by destruct (decide (msg_author m = u_id user))].
    apply M_bind_Ok_inv in E1 as (channel & n2 & [Hc ->]%as_channel_inv & E1).
    apply M_bind_Ok_inv in E1 as ([p q] & n2 & [Hq ->]%query_inv & E1).
    apply require_inv in E1 as [Hp ->]. split; [|done].
    apply is_manager with channel; [by rewrite Hmc|by exists p, q]. }
  apply (protects_one user n n' msg None m Hm); [|done].
  apply on_world_inv in E. unfold message_delete in E. apply M_bind_Ok_inv in E as (? & w1 & E1' & E).
  assert (db_messages (w_db w1) = stored n) as Hw.
  { destruct (bool_decide (_ = [])); [by injection E1' as _ <-|]. apply call_inv in E1'. simpl in E1'.
    unfold Ref.mark_attachments_as_deleted in E1'. destruct (forallb _ _); by injection E1' as _ <-. }
  apply M_bind_Ok_inv in E as (? & w2 & E2%call_inv & E). apply (f_equal (w_db ∘ snd)) in E. simpl in E, E2.
  unfold Col.delete_message, remove_or in E2. rewrite Hw, Hi, Hm in E2. injection E2 as _ E2.
  unfold only_changed. rewrite <- E, <- E2. simpl.
  split; [|by rewrite lookup_delete_eq]. intros k o Ho Hne. by rewrite lookup_delete_ne.
Qed.

Lemma by_id_found ids (d : ReferenceDb) ms :
  messages_ok d -> Col.fetch_messages_by_id d ids = Ok ms ->
  forall m, m ∈ ms -> db_messages d !! msg_id m = Some m.
Proof.
  intros Hd. unfold Col.fetch_messages_by_id. revert ms.
  induction ids as [|id ids IH]; intros ms; simpl; [intros [= <-] m []%elem_of_nil|].
  destruct (get_or db_messages ErrorType.NotFound id d) as [m0|e|] eqn:Eg; simpl; [|done|done].
  destruct (get_all db_messages ErrorType.NotFound ids d) as [rest|e|]; simpl; [|done|done].
  intros [= <-] m [->|Hin]%elem_of_cons; [|by apply (IH rest)].
  unfold get_or in Eg. destruct (db_messages d !! id) as [m1|] eqn:El; simpl in Eg; [|done].
  injection Eg as ->. by destruct (Hd id m0 El) as [-> _].
Qed.

Lemma bulk_delete_protects user target options (n n' : Nd) :
  keyed (db n) -> Route.bulk_delete_messages now now_ms user target options n = (Ok tt, n') -> protects user n n'.
Proof.
  intros [Hkc Hk] (? & n0 & [_ ->]%lift_inv & E)%M_bind_Ok_inv.
  apply M_bind_Ok_inv in E as (? & n0 & [_ ->]%lift_inv & E).
  apply open_inv in E as (channel & p & Hc & Ha & _ & E). apply on_world_inv in E.
  apply M_bind_Ok_inv in E as (ms & w1 & E1%call_inv & E).
  apply M_bind_Ok_inv in E as (? & w2 & E2%call_inv & E). apply (f_equal (w_db ∘ snd)) in E.
  simpl in E, E1, E2. injection E1 as E1 Ew. rewrite <- Ew in E2. injection E2 as _ E2.
  intros k m Hm Hne. rewrite <- E, <- E2 in Hne. simpl in Hne.
  rewrite map_lookup_filter, Hm in Hne. simpl in Hne.
  apply is_manager with channel; [|done]. destruct (decide (msg_channel m = target)) as [->|Ht]; [done|].
  destruct Hne. rewrite (bool_decide_false (msg_channel m = target)) by done. simpl.
  rewrite option_guard_True; [done|]. apply negb_true_iff, bool_decide_eq_false.
  intros (m0 & -> & [Hf Hin]%list_elem_of_filter)%list_elem_of_fmap.
  rewrite (by_id_found _ _ _ Hk E1 m0 Hin) in Hm. congruence.
Qed.

Lemma react_protects user target msg emoji (n n' : Nd) :
  keyed (db n) -> Route.react_message now config permissible_emojis user target msg emoji n = (Ok tt, n') ->
  protects user n n'.
Proof.
  intros Hk E. apply open_inv in E as (channel & p & Hc & Ha & _ & E).
  apply M_bind_Ok_inv in E as (m & n0 & (Hm & Hmc & ->)%in_channel_inv & E).
  pose proof (channel_of _ _ _ _ Hk Hc Hmc) as Hch. destruct Hk as [_ Hk]. destruct (Hk msg m Hm) as [Hi Hok].
  apply on_world_inv, message_add_reaction_run in E. rewrite Hi in E.
  destruct (reaction_methods (db n) msg m emoji (u_id user) Hm Hok) as ((d1 & m1 & E1 & Hl & Hr) & _).
  rewrite E in E1. injection E1 as <-. apply with_mut_messages in E as (m0 & Hm0 & Et).
  replace m0 with m in Et by congruence. rewrite Et, lookup_insert_eq in Hl. injection Hl as <-.
  eapply (protects_one user n n' msg _ m Hm).
  - split; [|by rewrite Et, lookup_insert_eq]. intros k o Ho Hne. by rewrite Et, lookup_insert_ne.
  - eapply is_reaction; [done|done|done|]. split; [done|]. intros e u Hu. rewrite Hr. naive_solver.
Qed.

(** A write to the reactions of one message. *)
Lemma reactions_written (m m1 : Message) body (n : Nd) (w' : World ReferenceDb) (n' : Nd) :
  with_mut db_messages set_messages ErrorType.NotFound (msg_id m) (fun m => Ok (body m)) (db n) = (Ok tt, w_db w') ->
  nd_world n' = w' -> stored n !! msg_id m = Some m -> db_messages (w_db w') !! msg_id m = Some m1 ->
  m1 = body m /\ only_changed n n' (msg_id m) (Some m1).
Proof.
  intros (m0 & Hm0 & Et)%with_mut_messages <- Hm Hl. replace m0 with m in Et by congruence.
  rewrite Et, lookup_insert_eq in Hl. injection Hl as <-. split; [done|].
  split; [|by rewrite Et, lookup_insert_eq]. intros k o Ho Hne. by rewrite Et, lookup_insert_ne.
Qed.

Lemma clear_reaction_inv (m : Message) emoji (n n' : Nd) :
  stored n !! msg_id m = Some m -> message_ok m ->
  on_world (message_clear_reaction m emoji) n = (Ok tt, n') ->
  exists m1, only_changed n n' (msg_id m) (Some m1).
Proof.
  intros Hm Hok (? & w1 & E1 & E)%on_world_inv%M_bind_Ok_inv. apply call_inv in E.
  apply (f_equal (w_db ∘ snd)) in E1. simpl in E1. rewrite <- E1 in E. simpl in E.
  destruct (reaction_methods (db n) (msg_id m) m emoji "" Hm Hok) as (_ & _ & (d1 & m1 & E2 & Hl & _)).
  rewrite E in E2. injection E2 as <-. exists m1.
  by destruct (reactions_written _ _ _ _ _ _ E eq_refl Hm Hl).
Qed.

Lemma remove_reaction_inv (m : Message) user emoji (n n' : Nd) :
  stored n !! msg_id m = Some m -> message_ok m ->
  on_world (message_remove_reaction m user emoji) n = (Ok tt, n') ->
  exists m1, only_changed n n' (msg_id m) (Some m1) /\ own_reactions_only user m m1.
Proof.
  intros Hm Hok E%on_world_inv. unfold message_remove_reaction in E.
  destruct (im_get emoji (msg_reactions m)) as [users|] eqn:Eg; [|done].
  destruct (contains user users) eqn:Eu; simpl in E; [|done].
  apply M_bind_Ok_inv in E as (? & w1 & E1 & E). apply (f_equal (w_db ∘ snd)) in E1. simpl in E1.
  destruct (reaction_methods (db n) (msg_id m) m emoji user Hm Hok)
    as (_ & (d1 & m1 & E2 & Hl1 & Hr1) & (d2 & m2 & E3 & Hl2 & Hr2)).
  destruct (Z.eqb_spec (Z.of_nat (length users)) 1) as [H1|H1]; apply call_inv in E; rewrite <- E1 in E; simpl in E.
  - rewrite E in E3. injection E3 as <-. exists m2.
    destruct (reactions_written _ _ _ _ _ _ E eq_refl Hm Hl2) as [-> Ho]. split; [done|]. split; [done|].
    intros e u Hu. rewrite Hr2. destruct (decide (e = emoji)) as [->|]; [|naive_solver].
    rewrite (reacted_some _ _ _ _ Eg). destruct users as [|u0 [|]]; simpl in H1; try lia.
    apply contains_spec, list_elem_of_singleton in Eu as ->. set_solver.
  - rewrite E in E2. injection E2 as <-. exists m1.
    destruct (reactions_written _ _ _ _ _ _ E eq_refl Hm Hl1) as [-> Ho]. split; [done|].
    split; [by simpl; rewrite Eg|]. intros e u Hu. rewrite Hr1. naive_solver.
Qed.

Lemma unreact_protects user target msg emoji options (n n' : Nd) :
  keyed (db n) -> Route.unreact_message now user target msg emoji options n = (Ok tt, n') -> protects user n n'.
Proof.
  intros Hk E. apply open_inv in E as (channel & p & Hc & Ha & [q Hq] & E). cbv zeta in E.
  apply M_bind_Ok_inv in E as ([] & n0 & [Hman ->]%require_if_inv & E).
  apply M_bind_Ok_inv in E as (m & n0 & (Hm & Hmc & ->)%in_channel_inv & E).
  pose proof (channel_of _ _ _ _ Hk Hc Hmc) as Hch. destruct Hk as [_ Hk]. destruct (Hk msg m Hm) as [Hi Hok].
  rewrite <- Hi in Hm.
  assert (bool_decide (is_Some (v0.ou_user_id options)) || default false (v0.ou_remove_all options) = true ->
    forall after, justified (db n) user m after) as Hj.
  { intros Hb after. apply is_manager with channel; [done|]. exists p, q. split; [done|by apply Hman]. }
  destruct (default false (v0.ou_remove_all options)).
  - apply clear_reaction_inv in E as (m1 & Ho); [|done..]. rewrite Hi in Ho, Hm.
    eapply protects_one; [exact Hm|exact Ho|]. apply Hj. by rewrite orb_true_r.
  - apply remove_reaction_inv in E as (m1 & Ho & Hr); [|done..]. rewrite Hi in Ho, Hm.
    eapply protects_one; [exact Hm|exact Ho|]. destruct (v0.ou_user_id options) as [u|]; [by apply Hj|].
    by eapply is_reaction.
Qed.

Lemma clear_reactions_protects user target msg (n n' : Nd) :
  keyed (db n) -> Route.clear_reactions now user target msg n = (Ok tt, n') -> protects user n n'.
Proof using ML HO TS OS OR OM OU OG OW.
  intros Hk E. apply open_inv in E as (channel & p & Hc & Ha & _ & E).
  apply M_bind_Ok_inv in E as (m & n0 & (Hm & Hmc & ->)%in_channel_inv & E).
  pose proof (channel_of _ _ _ _ Hk Hc Hmc) as Hch. destruct Hk as [_ Hk]. destruct (Hk msg m Hm) as [Hi _].
  apply M_bind_Ok_inv in E as (m' & n1 & E1 & E). injection E as <-.
  eapply (updated m m) in E1; [|done|by rewrite Hi]. rewrite Hi in E1.
  eapply protects_one; [exact Hm|exact E1|]. by apply is_manager with channel.
Qed.

Lemma pin_check_inv user channel (n n' : Nd) :
  Route.pin_check now user channel n = (Ok tt, n') ->
  n' = n /\ match channel with
            | Channel.DirectMessage _ => True
            | _ => allowed (db n) user channel ChannelPermission.ManageMessages
            end.
Proof.
  unfold Route.pin_check. destruct channel; [|by intros [= <-]|..];
    intros ([p q] & n1 & [Hq ->]%query_inv & [Hp ->]%require_inv)%M_bind_Ok_inv; (split; [done|by exists p, q]).
Qed.

Lemma pin_justified user channel (n : Nd) (m m' : Message) :
  db_channels (db n) !! msg_channel m = Some channel ->
  match channel with
  | Channel.DirectMessage _ => True
  | _ => allowed (db n) user channel ChannelPermission.ManageMessages
  end ->
  msg_set_pinned None m' = msg_set_pinned None m -> justified (db n) user m (Some m').
Proof.
  intros Hc Ha Hp. destruct channel; [|by eapply is_direct_pin|..]; by eapply is_manager.
Qed.

Lemma pin_protects ulid user target msg (n n' : Nd) :
  keyed (db n) -> Route.message_pin now config ulid user target msg n = (Ok tt, n') -> protects user n n'.
Proof using ML HO TS OS OR OM OU OG OW.
  intros Hk (channel & n1 & [Hc ->]%as_channel_inv & E)%M_bind_Ok_inv.
  apply M_bind_Ok_inv in E as ([] & n1 & [-> Ha]%pin_check_inv & E).
  apply M_bind_Ok_inv in E as (m & n0 & (Hm & Hmc & ->)%in_channel_inv & E).
  pose proof (channel_of _ _ _ _ Hk Hc Hmc) as Hch. destruct Hk as [_ Hk]. destruct (Hk msg m Hm) as [Hi _].
  destruct (default false (msg_pinned m)); [done|].
  eapply (updated_announced m m) in E; [|done|by rewrite Hi]. rewrite Hi in E.
  eapply protects_one; [exact Hm|exact E|]. eapply pin_justified; [done|done|]. apply pinned_only.
Qed.

Lemma unpin_protects ulid user target msg (n n' : Nd) :
  keyed (db n) -> Route.message_unpin now config ulid user target msg n = (Ok tt, n') -> protects user n n'.
Proof using ML HO TS OS OR OM OU OG OW.
  intros Hk (channel & n1 & [Hc ->]%as_channel_inv & E)%M_bind_Ok_inv.
  apply M_bind_Ok_inv in E as ([] & n1 & [-> Ha]%pin_check_inv & E).
  apply M_bind_Ok_inv in E as (m & n0 & (Hm & Hmc & ->)%in_channel_inv & E).
  pose proof (channel_of _ _ _ _ Hk Hc Hmc) as Hch. destruct Hk as [_ Hk]. destruct (Hk msg m Hm) as [Hi _].
  destruct (default false (msg_pinned m)); simpl in E; [|done].
  eapply (updated_announced m m) in E; [|done|by rewrite Hi]. rewrite Hi in E.
  eapply protects_one; [exact Hm|exact E|]. eapply pin_justified; [done|done|]. apply pinned_only.
Qed.

(** C6: Whoever changes or deletes a stored message of somebody else manages
    messages in its channel.  Of every request that succeeds, and every message
    that is not afterwards what it was before: the caller is its author, or has
    [ManageMessages] in its channel, or has [React] and changed their own
    reactions only, or pinned or unpinned it in a direct message channel. *)
Theorem messages_protected r user target msg (n n' : Nd) id m :
  keyed (db n) -> handle r user target msg n = (Ok tt, n') ->
  stored n !! id = Some m -> stored n' !! id <> Some m ->
  justified (db n) user m (stored n' !! id).
Proof using ML HO TS OS OR OM OU OG OW.
  intros Hk E. revert id m. change (protects user n n'). destruct r; simpl in E.
  - apply M_bind_Ok_inv in E as (v & n1 & E & E1). injection E1 as <-. by eapply edit_protects.
  - by eapply delete_protects.
  - by eapply bulk_delete_protects.
  - by eapply react_protects.
  - by eapply unreact_protects.
  - by eapply clear_reactions_protects.
  - by eapply pin_protects.
  - by eapply unpin_protects.
Qed.
End Protected.

(** ** Sending and reading *)

Section Sent.
Context {C : Type} `{LruCache C} `{HO : HashOrder} `{TS : TextServices} `{VA : Validator}.
Context `{OS : OptionalStruct Server PartialServer} `{OR : OptionalStruct Role PartialRole}.
Context `{OM : OptionalStruct Member PartialMember} `{OU : OptionalStruct User PartialUser}.
Context `{OG : OptionalStruct Message PartialMessage} `{OW : OptionalStruct Webhook PartialWebhook}.
Context (now : Timestamp) (now_ms : Z) (config : MessageConfig).
Context (lexer : string -> list (option MessageToken)) (permissible_emojis : gset string).
Context (cutoff : option Z) (online : gset string).
Context (user_limits : User -> Result FeaturesLimits) (default_limits : FeaturesLimits).
Local Abbreviation Nd := (Node ReferenceDb C).
Local Abbreviation db n := (w_db (nd_world n)).

(** What the parts of a message need. *)
Definition parts_allowed (has : ChannelPermission -> Prop) (data : v0.DataMessageSend) : Prop :=
  has ChannelPermission.SendMessage
  /\ (is_Some (v0.ms_masquerade data) -> has ChannelPermission.Masquerade)
  /\ (forall masq, v0.ms_masquerade data = Some masq -> is_Some (v0.mq_colour masq) ->
        has ChannelPermission.ManageRole)
  /\ (default [] (v0.ms_embeds data) <> [] -> has ChannelPermission.SendEmbeds)
  /\ (default [] (v0.ms_attachments data) <> [] -> has ChannelPermission.UploadFiles)
  /\ (forall i, v0.ms_interactions data = Some i -> is_Some (v0.ia_reactions i) ->
        has ChannelPermission.React).

Lemma non_empty_spec {A} (o : option (list A)) : default [] o <> [] -> Route.non_empty o = true.
Proof. by destruct o as [[]|]. Qed.

Lemma can_use_keeps rs (w w' : World ReferenceDb) :
  all_can_use permissible_emojis rs w = (Ok tt, w') -> w' = w.
Proof.
  revert w. induction rs as [|r rs IH]; intros w; simpl; [by intros [= <-]|].
  intros (ok & w1 & E1 & E)%M_bind_Ok_inv. assert (w1 = w) as ->.
  { unfold emoji_can_use in E1. destruct (ulid_timestamp_ms r); [|by injection E1 as _ <-].
    apply M_bind_Ok_inv in E1 as (e & w2 & E2 & E1). injection E1 as _ <-. unfold call in E2. simpl in E2.
    injection E2 as _ <-. by destruct w. }
  destruct (negb ok); [done|]. by apply IH.
Qed.

Lemma send_checks_inv p data (n n' : Nd) :
  Route.send_checks config permissible_emojis p data n = (Ok tt, n') ->
  n' = n /\ parts_allowed (fun perm => has_channel_permission p perm = true) data.
Proof using HO OG OW TS.
  unfold Route.send_checks, parts_allowed. intros ([] & n1 & [Hs ->]%require_inv & E)%M_bind_Ok_inv.
  apply M_bind_Ok_inv in E as ([] & n1 & Em & E).
  assert (n1 = n /\ (is_Some (v0.ms_masquerade data) -> has_channel_permission p ChannelPermission.Masquerade = true)
    /\ (forall masq, v0.ms_masquerade data = Some masq -> is_Some (v0.mq_colour masq) ->
          has_channel_permission p ChannelPermission.ManageRole = true)) as (-> & Hm & Hmr).
  { destruct (v0.ms_masquerade data) as [masq|]; [|injection Em as <-; split_and!; [done|by intros []|done]].
    apply M_bind_Ok_inv in Em as ([] & n2 & [Hq ->]%require_inv & [Hr ->]%require_if_inv).
    split_and!; [done|done|]. intros masq' [= <-] Hc. apply Hr. by apply bool_decide_eq_true. }
  apply M_bind_Ok_inv in E as ([] & n1 & [He ->]%require_if_inv & E).
  apply M_bind_Ok_inv in E as ([] & n1 & [Ha ->]%require_if_inv & E).
  assert (n' = n /\ forall i, v0.ms_interactions data = Some i -> is_Some (v0.ia_reactions i) ->
        has_channel_permission p ChannelPermission.React = true) as [-> Hi].
  { destruct (v0.ms_interactions data) as [i|]; [|by injection E as <-].
    unfold on_world in E. destruct (interactions_validate _ _ _ _ _) as [r w] eqn:Ei. injection E as -> <-.
    unfold interactions_validate in Ei. simpl in Ei. destruct (v0.ia_reactions i) as [rs|] eqn:Er.
    - apply M_bind_Ok_inv in Ei as ([] & w1 & E1 & Ei). injection E1 as E1 <-.
      destruct (_ <? _); [done|]. apply can_use_keeps in Ei as ->. split; [by destruct n|].
      intros i' [= <-] _. unfold throw_if_lacking_channel_permission in E1.
      by destruct (has_channel_permission p ChannelPermission.React).
    - injection Ei as <-. split; [by destruct n|]. intros i' [= <-] Hs'. rewrite Er in Hs'. by destruct Hs'. }
  split_and!; try done; intros; [by apply He, non_empty_spec|by apply Ha, non_empty_spec].
Qed.

(** C18: A message that was sent was allowed: its author is the caller, the caller
    may send messages in the channel, and holds the permission for each part the
    message has: a masquerade and its colour, embeds, attachments, prepared
    reactions; and nobody is mentioned who cannot see the channel. *)
Theorem message_send_authorised ulid user target data key (n n' : Nd) v :
  Route.message_send now now_ms config lexer permissible_emojis cutoff online user_limits ulid user target data key n
    = (Ok v, n') ->
  exists channel permissions q,
    db_channels (db n) !! target = Some channel
    /\ db_calculate_channel_permissions now (query_channel (DatabasePermissionQuery_new (db n) user) channel)
       = (Ok permissions, q)
    /\ parts_allowed (fun perm => has_channel_permission permissions perm = true) data
    /\ v0.msg_author v = u_id user /\ v0.msg_channel v = channel_id channel
    /\ v0.msg_content v = v0.ms_content data
    /\ forall u, u ∈ default [] (v0.msg_mentions v) -> may_be_mentioned now (db n) channel u.
Proof using HO TS OS OR OM OU OG OW.
  intros (? & n0 & [_ ->]%lift_inv & E)%M_bind_Ok_inv.
  apply M_bind_Ok_inv in E as (channel & n0 & [Hc ->]%as_channel_inv & E).
  apply M_bind_Ok_inv in E as ([p q] & n0 & [Hq ->]%query_inv & E).
  apply M_bind_Ok_inv in E as ([] & n0 & [-> Hp]%send_checks_inv & E).
  apply M_bind_Ok_inv in E as (allow & n0 & [_ ->]%lift_inv & E).
  apply M_bind_Ok_inv in E as (author & n0 & Ea & E). injection Ea as Ea <-.
  destruct (db_are_we_a_member q) as [mem q'].
  apply M_bind_Ok_inv in E as (mem' & n0 & [_ ->]%lift_inv & E).
  apply M_bind_Ok_inv in E as (model & n0 & [_ ->]%lift_inv & E). cbv zeta in E.
  apply M_bind_Ok_inv in E as (limits & n0 & [_ ->]%lift_inv & E).
  apply M_bind_Ok_inv in E as (m & n1 & E & Ev). injection Ev as <- <-.
  assert (v0.u_id author = u_id user) as Hau.
  { unfold user_into in Ea. apply outcome_bind_Ok in Ea as ([rel see] & _ & Ea).
    apply outcome_bind_Ok in Ea as (badges & _ & Ea). by injection Ea as <-. }
  apply create_from_api_inv in E as (us & rs & us' & rs' & replies & n2 & n3 & sup & ev & onl & files & embeds & key' &
    _ & Ek & _ & _ & _ & Ev & _ & _ & -> & _).
  apply validate_mentions_sound in Ev as [_ Hm]. apply key_same_db in Ek. rewrite Ek in Hm.
  exists channel, p, q. split_and!; [done..|by simpl|done|done|].
  intros u. simpl. unfold some_list. destruct (bool_decide (us' = ∅)); simpl; [by intros ?%elem_of_nil|].
  intros Hu%elem_of_set_iter. by apply Hm.
Qed.

Definition messages_of (r : v0.BulkMessageResponse) : list v0.Message :=
  match r with
  | v0.BulkMessageResponse.JustMessages messages => messages
  | v0.BulkMessageResponse.MessagesAndUsers messages _ _ => messages
  end.

Lemma fetch_with_users_inv q user include server (w w' : World ReferenceDb) r channel v :
  fetch_with_users cutoff online q user include server w = (Ok r, w') ->
  mf_channel (qm_filter q) = Some channel -> v ∈ messages_of r ->
  v0.msg_channel v = channel /\ exists id m, db_messages (w_db w) !! id = Some m /\ v = into_model m None None.
Proof using HO TS OS OR OM OU OG OW.
  unfold fetch_with_users. intros (ms & w1 & E1%call_inv & E)%M_bind_Ok_inv Hf Hv. simpl in E1. injection E1 as E1 _.
  assert (messages_of r = map (fun m => into_model m None None) ms) as Hr.
  { cbv zeta in E. destruct (bool_decide (include = Some true)); [|by injection E as <- _].
    apply M_bind_Ok_inv in E as (us & w2 & _ & E). apply M_bind_Ok_inv in E as (mem & w3 & _ & E).
    by injection E as <- _. }
  rewrite Hr in Hv. apply list_elem_of_fmap in Hv as (m & -> & Hm). rewrite <- E1 in Hm.
  apply list_elem_of_filter in Hm as [Hmatch Hin]. apply elem_of_hm_values in Hin as [id Hid].
  unfold Col.message_matches in Hmatch. rewrite Hf in Hmatch.
  split; [|by exists id, m]. simpl. destruct (bool_decide_reflect (msg_channel m = channel)); [done|].
  by rewrite !andb_false_l in Hmatch.
Qed.

(** Who reads the history of a channel, by listing or searching, may read it
    and gets stored messages of that channel only. *)
Theorem history_confined user target options options' (n n' : Nd) r :
  Route.query now cutoff online user target options n = (Ok r, n')
  \/ Route.search now cutoff online user target options' n = (Ok r, n') ->
  exists channel, db_channels (db n) !! target = Some channel
    /\ allowed now (db n) user channel ChannelPermission.ReadMessageHistory
    /\ forall v, v ∈ messages_of r -> v0.msg_channel v = channel_id channel
         /\ exists id m, db_messages (db n) !! id = Some m /\ v = into_model m None None.
Proof using HO TS OS OR OM OU OG OW.
  intros [E|E].
  - apply M_bind_Ok_inv in E as (? & n1 & [_ ->]%lift_inv & E).
    destruct (bool_decide (_ = Some v0.MessageSort.Relevance)); [done|].
    apply open_inv in E as (channel & p & Hc & Ha & _ & E). exists channel. split_and!; [done..|].
    intros v Hv. destruct channel; try (injection E as <- _; by apply elem_of_nil in Hv);
      apply on_world_inv in E; by eapply fetch_with_users_inv.
  - unfold Route.search in E. destruct (bool_decide (is_Some (u_bot user))); [done|].
    apply M_bind_Ok_inv in E as (? & n1 & [_ ->]%lift_inv & E). destruct (_ && _); [done|].
    apply open_inv in E as (channel & p & Hc & Ha & _ & E). exists channel. split_and!; [done..|].
    intros v Hv. apply on_world_inv in E. by eapply fetch_with_users_inv.
Qed.
End Sent.

(** ** What the checks do not cover *)

Section Unchecked.
Context {C : Type} `{LruCache C} `{HO : HashOrder} `{TS : TextServices} `{VA : Validator}.
Context `{OS : OptionalStruct Server PartialServer} `{OR : OptionalStruct Role PartialRole}.
Context `{OM : OptionalStruct Member PartialMember} `{OU : OptionalStruct User PartialUser}.
Context `{OG : OptionalStruct Message PartialMessage} `{OW : OptionalStruct Webhook PartialWebhook}.
Context `{ML : !MessageOptionalLaws} `{WL : !WebhookOptionalLaws}.
Context (now : Timestamp) (config : MessageConfig).
Local Abbreviation Nd := (Node ReferenceDb C).
Local Abbreviation db n := (w_db (nd_world n)).

(** Anybody pins a stored message in a direct message channel, recipient or not,
    and the channel is told so. *)
Lemma stranger_pins ulid user target msg (n : Nd) c m :
  db_channels (db n) !! target = Some (Channel.DirectMessage c) ->
  db_messages (db n) !! msg = Some m -> msg_id m = msg -> msg_channel m = dm_id c -> msg_pinned m = None ->
  exists n' m', Route.message_pin now config ulid user target msg n = (Ok tt, n')
    /\ db_messages (db n') !! msg = Some m' /\ msg_pinned m' = Some true
    /\ exists v, (dm_id c, EventV1.Message v) ∈ w_events (nd_world n').
Proof using ML HO TS OS OR OM OU OG OW.
  intros Hc Hm Hi Hch Hp. unfold Route.message_pin.
  erewrite M_bind_ok by (unfold Route.as_channel, on_world, call; simpl; unfold Ref.fetch_channel, get_or;
    rewrite Hc; reflexivity).
  erewrite M_bind_ok by reflexivity. simpl.
  erewrite M_bind_ok.
  2: { unfold Route.as_message_in_channel. erewrite M_bind_ok.
       2: { unfold Route.as_message, on_world, call. simpl. unfold Col.fetch_message, get_or. rewrite Hm. reflexivity. }
       simpl. rewrite bool_decide_false by (intros Hx; by apply Hx). reflexivity. }
  rewrite Hp. simpl.
  assert (msg_id (apply_options m PartialMessage_pinned) = msg) as Hi' by by rewrite msg_id_applied.
  erewrite M_bind_ok.
  2: { unfold on_world, message_update, mbind, M_bind, call. simpl. unfold Col.update_message, with_mut. simpl.
       rewrite Hi', Hm. simpl. reflexivity. }
  eexists _, (apply_options m PartialMessage_pinned). split; [reflexivity|]. simpl.
  rewrite lookup_insert_eq, msg_pinned_applied. split_and!; [done|done|].
  eexists. rewrite elem_of_app. right. by left.
Qed.

(** An edit that asks for new permissions of a webhook and nothing else does
    nothing and reports success. *)
Lemma permission_edit_ignored (webhook : Webhook) permissions (n : Nd) :
  Route.edit_found webhook {| v0.dew_name := None; v0.dew_avatar := None;
                              v0.dew_permissions := Some permissions; v0.dew_remove := [] |} n
  = (Ok (Webhook_to_v0 webhook), n).
Proof. reflexivity. Qed.

(** Together with a name, every permission can be asked for, whatever the caller
    has. *)
Lemma webhook_gets_any_permission (webhook : Webhook) name permissions (n : Nd) :
  db_channel_webhooks (db n) !! wh_id webhook = Some webhook ->
  exists v n' webhook',
    Route.edit_found webhook {| v0.dew_name := Some name; v0.dew_avatar := None;
                                v0.dew_permissions := Some permissions; v0.dew_remove := [] |} n = (Ok v, n')
    /\ db_channel_webhooks (db n') !! wh_id webhook = Some webhook' /\ wh_permissions webhook' = permissions.
Proof using HO TS OS OR OM OU OG OW WL.
  intros Hw. unfold Route.edit_found. simpl. erewrite M_bind_ok by reflexivity.
  set (p := PartialWebhook_edited _ _ _).
  assert (wh_id (apply_options webhook p) = wh_id webhook) as Hi by by rewrite wh_id_applied.
  erewrite M_bind_ok.
  2: { unfold on_world, webhook_update, mbind, M_bind, call. simpl. unfold Col.update_webhook, with_mut. simpl.
       rewrite Hi, Hw. simpl. reflexivity. }
  eexists _, _, (apply_options webhook p). split; [reflexivity|]. simpl.
  rewrite lookup_insert_eq, wh_permissions_applied. done.
Qed.
End Unchecked.

Module MessageRouteWitness.
Import ModelOps.SomePriority CollectionsWitness MessageWitness.
#[local] Instance services : TextServices :=
  {| to_lowercase s := s; cure s := s; ulid_timestamp_ms _ := None |}.
#[local] Instance validator : Validator := {| error_text _ := "invalid"; is_colour _ := true |}.
#[local] Instance keys : LruCache (list string) := ListLru.list_lru TOKEN_CACHE_SIZE.

(** A group of Bob's in which Alice wrote [hello]. *)
Definition group : Channel := Channel.Group {|
  g_id := "c"; g_name := "Friends"; g_owner := "bob"; g_description := None;
  g_recipients := ["alice"; "bob"]; g_icon := None; g_last_message_id := None; g_permissions := None;
  g_moderators := []; g_nsfw := false; g_encrypted := false |}.
Definition d : ReferenceDb := set_channels {[ "c" := group ]} one_message.
Definition node : Node ReferenceDb (list string) :=
  {| nd_world := world d; nd_keys := []; nd_tasks := [] |}.
Definition some_limits (u : User) : Result FeaturesLimits := Ok limits.

Lemma d_keyed : keyed d.
Proof.
  split.
  - intros k c. simpl. intros [<- <-]%lookup_singleton_Some. reflexivity.
  - intros k m. change (db_messages d) with ({[ "m" := hello ]} : gmap string Message).
    intros [<- <-]%lookup_singleton_Some. split; [reflexivity|exact hello_ok].
Qed.

Definition deleted := handle 0 0 config ∅ some_limits Request.Delete (Example.user "bob") "c" "m" node.

Lemma messages_protected_witness :
  deleted.1 = Ok tt /\ db_messages (w_db (nd_world deleted.2)) !! "m" = None
  /\ justified 0 d (Example.user "bob") hello (db_messages (w_db (nd_world deleted.2)) !! "m").
Proof.
  assert (deleted.1 = Ok tt) as Hd by (vm_compute; reflexivity).
  assert (db_messages (w_db (nd_world deleted.2)) !! "m" = None) as Hn by (vm_compute; reflexivity).
  split; [exact Hd|]. split; [exact Hn|].
  apply (messages_protected 0 0 config ∅ some_limits Request.Delete (Example.user "bob") "c" "m" node deleted.2 "m" hello).
  - exact d_keyed.
  - unfold deleted in Hd |- *. destruct (handle _ _ _ _ _ _ _ _ _ _) as [o n']. simpl in *. by subst o.
  - vm_compute. reflexivity.
  - rewrite Hn. discriminate.
Defined.

Definition sent :=
  Route.message_send 0 0 config lexer ∅ None ∅ some_limits "m2" (Example.user "bob") "c" reply {| ik_key := "k" |} node.

Lemma message_send_authorised_witness :
  exists v permissions q, sent.1 = Ok v /\ v0.msg_author v = "bob"
    /\ db_calculate_channel_permissions 0 (query_channel (DatabasePermissionQuery_new d (Example.user "bob")) group)
       = (Ok permissions, q)
    /\ has_channel_permission permissions ChannelPermission.SendMessage = true.
Proof.
  destruct sent as [[v| |] n'] eqn:E; [|vm_compute in E; discriminate..].
  destruct (message_send_authorised 0 0 config lexer ∅ None ∅ some_limits "m2" (Example.user "bob") "c" reply
              {| ik_key := "k" |} node n' v E) as (channel & p & q & Hc & Hq & [Hs _] & Ha & _).
  exists v, p, q. assert (channel = group) as -> by (vm_compute in Hc; by injection Hc as <-).
  by split_and!.
Defined.

Definition listed := Route.search 0 None ∅ (Example.user "bob") "c"
  {| v0.ds_query := None; v0.ds_pinned := None; v0.ds_limit := None; v0.ds_before := None; v0.ds_after := None;
     v0.ds_sort := v0.MessageSort.Latest; v0.ds_include_users := None |} node.

Lemma history_confined_witness :
  exists r, listed.1 = Ok r /\ messages_of r = [into_model hello None None]
    /\ forall v, v ∈ messages_of r -> v0.msg_channel v = "c".
Proof.
  destruct listed as [[r| |] n'] eqn:E; [|vm_compute in E; discriminate..].
  exists r. split; [reflexivity|]. split; [vm_compute in E; by injection E as <- _|].
  destruct (history_confined 0 None ∅ (Example.user "bob") "c"
    {| v0.oq_limit := None; v0.oq_before := None; v0.oq_after := None; v0.oq_sort := None; v0.oq_nearby := None;
       v0.oq_include_users := None |}
    {| v0.ds_query := None; v0.ds_pinned := None; v0.ds_limit := None; v0.ds_before := None; v0.ds_after := None;
       v0.ds_sort := v0.MessageSort.Latest; v0.ds_include_users := None |} node n' r (or_intror E))
    as (channel & Hc & _ & Hv).
  assert (channel = group) as -> by (vm_compute in Hc; by injection Hc as <-).
  intros v Hin. by destruct (Hv v Hin).
Defined.
End MessageRouteWitness.
