(* ===== verification/Github.v ===== *)
(** * The GitHub webhook ([crates/delta/src/routes/webhooks/webhook_execute_github.rs])

    GitHub posts an event to [/webhooks/<id>/<token>/github]; the name of the
    event is in a header.  The route reads the body as the record of that event,
    makes an embed of it and sends a message with the embed to the channel of the
    webhook.  The records have the fields of the structs of the file, with a
    prefix each; [_Event] is [RawEvent].

    [serde_json] is the class [GithubJson]: for every type the file reads, the
    function from the text of the body to the value or to nothing.  Reports to
    the error tracker ([capture_internal_error!]) are left out.  Strings are the
    bytes of Rust's UTF-8 strings; a slice panics outside of the text and inside
    of a character.

    The theorems: a request changes nothing unless the token is that of the
    webhook, and then sends one message with one embed that passed validation
    ([github_sends_one_embed]); what shortening a text gives, and when it panics
    ([shorten_text_spec]); what goes wrong: a text with characters of several
    bytes makes the route panic ([accented_comment_panics]), the permissions of
    the webhook are ignored ([github_ignores_permissions]), the link of a
    reopened issue is the other way around ([reopened_link_swapped]). *)

From Stdlib Require Import Ascii.
From stdpp Require Import pretty.
From S2P Require Import Prelude Results Permissions PermissionCalc Models ApiTypes Records ModelOps DbPermissions PermissionSpec BulkPermissions ReferenceDb Collections World Users Servers Channels Redis Json Voice Routes Parser Lru Idempotency Bridge BridgeMessages Messages MessageRoutes.

(** ** What GitHub sends *)

Record GithubUser := {
  gu_name : option string;
  gu_email : option string;
  gu_login : string;
  gu_id : Z;
  gu_node_id : string;
  gu_avatar_url : string;
  gu_gravatar_id : string;
  gu_url : string;
  gu_html_url : string;
  gu_followers_url : string;
  gu_following_url : string;
  gu_gists_url : string;
  gu_starred_url : string;
  gu_subscriptions_url : string;
  gu_organizations_url : string;
  gu_repos_url : string;
  gu_events_url : string;
  gu_received_events_url : string }.

Record GithubRepositorySecurityAndAnalysisStatus := {
  gss_status : string }.

Record GithubRepositorySecurityAndAnalysis := {
  gsa_advanced_security : GithubRepositorySecurityAndAnalysisStatus;
  gsa_secret_scanning : GithubRepositorySecurityAndAnalysisStatus;
  gsa_secret_scanning_push_protection : GithubRepositorySecurityAndAnalysisStatus }.

Record GithubRepositoryLicense := {
  gl_key : option string;
  gl_name : option string;
  gl_spdx_id : option string;
  gl_url : option string;
  gl_node_id : option string }.

Record GithubRepositoryCodeOfConduct := {
  gcc_key : string;
  gcc_name : string;
  gcc_url : string;
  gcc_body : option string;
  gcc_html_url : option string }.

Record GithubRepositoryPermissions := {
  gp_admin : option bool;
  gp_maintain : option bool;
  gp_push : option bool;
  gp_triage : option bool;
  gp_pull : option bool }.

Record GithubRepository := {
  gr_id : Z;
  gr_node_id : string;
  gr_name : string;
  gr_full_name : string;
  gr_owner : GithubUser;
  gr_private : bool;
  gr_html_url : string;
  gr_description : option string;
  gr_fork : bool;
  gr_url : string;
  gr_archive_url : string;
  gr_assignees_url : string;
  gr_blobs_url : string;
  gr_branches_url : string;
  gr_collaborators_url : string;
  gr_comments_url : string;
  gr_commits_url : string;
  gr_compare_url : string;
  gr_contents_url : string;
  gr_contributors_url : string;
  gr_deployments_url : string;
  gr_downloads_url : string;
  gr_events_url : string;
  gr_forks_url : string;
  gr_git_commits_url : string;
  gr_git_refs_url : string;
  gr_git_tags_url : string;
  gr_git_url : option string;
  gr_issue_comment_url : string;
  gr_issue_events_url : string;
  gr_issues_url : string;
  gr_keys_url : string;
  gr_labels_url : string;
  gr_languages_url : string;
  gr_merges_url : string;
  gr_milestones_url : string;
  gr_notifications_url : string;
  gr_pulls_url : string;
  gr_releases_url : string;
  gr_ssh_url : string;
  gr_stargazers_url : string;
  gr_statuses_url : string;
  gr_subscribers_url : string;
  gr_subscription_url : string;
  gr_tags_url : string;
  gr_teams_url : string;
  gr_trees_url : string;
  gr_clone_url : option string;
  gr_mirror_url : option string;
  gr_hooks_url : string;
  gr_svn_url : option string;
  gr_homepage : option string;
  gr_language : option string;
  gr_forks_count : option Z;
  gr_stargazers_count : option Z;
  gr_watchers_count : option Z;
  gr_size : option Z;
  gr_default_branch : option string;
  gr_open_issues_count : option Z;
  gr_is_template : option bool;
  gr_topics : option (list string);
  gr_has_issues : option bool;
  gr_has_projects : option bool;
  gr_has_wiki : option bool;
  gr_has_pages : option bool;
  gr_has_downloads : option bool;
  gr_has_discussions : option bool;
  gr_archived : option bool;
  gr_disabled : option bool;
  gr_visibility : option string;
  gr_pushed_at : option Value;
  gr_created_at : Value;
  gr_updated_at : option Value;
  gr_permissions : option GithubRepositoryPermissions;
  gr_role_name : option string;
  gr_temp_clone_token : option string;
  gr_delete_branch_on_merge : option bool;
  gr_subscribers_count : option Z;
  gr_network_count : option Z;
  gr_code_of_conduct : option GithubRepositoryCodeOfConduct;
  gr_license : option GithubRepositoryLicense;
  gr_forks : option Z;
  gr_open_issues : option Z;
  gr_watchers : option Z;
  gr_allow_forking : option bool;
  gr_web_commit_signoff_required : option bool;
  gr_security_and_analysis : option GithubRepositorySecurityAndAnalysis }.

Record CommitAuthor := {
  ca_date : option string;
  ca_email : option string;
  ca_name : string;
  ca_username : option string }.

Record GithubCommit := {
  gc_added : option (list string);
  gc_author : CommitAuthor;
  gc_committer : CommitAuthor;
  gc_distinct : bool;
  gc_id : string;
  gc_message : string;
  gc_modified : option (list string);
  gc_removed : option (list string);
  gc_timestamp : string;
  gc_tree_id : string;
  gc_url : string }.

Record GithubReactions := {
  gre_plus_one : Z;
  gre_minus_one : Z;
  gre_confused : Z;
  gre_eyes : Z;
  gre_heart : Z;
  gre_hooray : Z;
  gre_laugh : Z;
  gre_rocket : Z;
  gre_total_count : Z;
  gre_url : string }.

Record GithubComment := {
  gco_author_association : string;
  gco_body : string;
  gco_commit_id : option string;
  gco_created_at : Value;
  gco_html_url : string;
  gco_id : Z;
  gco_line : option Z;
  gco_node_id : string;
  gco_path : option string;
  gco_position : option Z;
  gco_reactions : option GithubReactions;
  gco_updated_at : Value;
  gco_user : GithubUser }.

Record GithubDiscussionComment := {
  gdc_comment : GithubComment;
  gdc_child_comment_count : Z;
  gdc_parent_id : option Z;
  gdc_repository_url : string }.

Record GithubDiscussionCategory := {
  gdy_id : Z;
  gdy_node_id : string;
  gdy_repository_id : Z;
  gdy_emoji : string;
  gdy_name : string;
  gdy_description : string;
  gdy_created_at : Value;
  gdy_updated_at : Value;
  gdy_slug : string;
  gdy_is_answerable : bool }.

Record GithubDiscussion := {
  gd_repository_url : string;
  gd_category : GithubDiscussionCategory;
  gd_answer_html_url : option string;
  gd_answer_chosen_at : Value;
  gd_answer_chosen_by : Value;
  gd_html_url : string;
  gd_id : Z;
  gd_node_id : string;
  gd_number : Z;
  gd_title : string;
  gd_user : GithubUser;
  gd_state : string;
  gd_locked : bool;
  gd_comments : Z;
  gd_created_at : Value;
  gd_updated_at : Value;
  gd_author_association : string;
  gd_active_lock_reason : option string;
  gd_body : string;
  gd_reactions : GithubReactions;
  gd_timeline_url : string }.

Module GithubDiscussionEvent.
Inductive GithubDiscussionEvent : Type :=
| Created (discussion : GithubDiscussion)
| Answered (discussion : GithubDiscussion) (answer : GithubDiscussionComment).
End GithubDiscussionEvent.
Abbreviation GithubDiscussionEvent := GithubDiscussionEvent.GithubDiscussionEvent.

Module DiscussionCommentEvent.
Inductive DiscussionCommentEvent : Type :=
| Created (comment : GithubDiscussionComment) (discussion : GithubDiscussion)
| Deleted
| Edited.
End DiscussionCommentEvent.
Abbreviation DiscussionCommentEvent := DiscussionCommentEvent.DiscussionCommentEvent.

Record GithubMilestone := {
  gm_url : string;
  gm_html_url : string;
  gm_labels_url : string;
  gm_id : Z;
  gm_node_id : string;
  gm_number : Z;
  gm_state : string;
  gm_title : string;
  gm_description : string;
  gm_creator : option GithubUser;
  gm_open_issues : Z;
  gm_closed_issues : Z;
  gm_created_at : Value;
  gm_updated_at : Value;
  gm_closed_at : option Value;
  gm_due_on : option string }.

Record GithubLinkedPullRequest := {
  glp_merged_at : option Value;
  glp_diff_url : option string;
  glp_html_url : option string;
  glp_patch_url : option string;
  glp_url : option string }.

Record GithubAppPermissions := {
  gap_issues : option string;
  gap_checks : option string;
  gap_metadata : option string;
  gap_contents : option string;
  gap_deployments : option string }.

Record GithubApp := {
  ga_id : Z;
  ga_slug : string;
  ga_node_is : string;
  ga_owner : option GithubUser;
  ga_name : string;
  ga_description : option string;
  ga_external_url : string;
  ga_html_url : string;
  ga_created_at : Value;
  ga_updated_at : Value;
  ga_permissions : GithubAppPermissions;
  ga_events : list string;
  ga_installations_count : option Z;
  ga_client_id : option string;
  ga_client_secret : option string;
  ga_webhook_secret : option string;
  ga_pem : option string }.

Record GithubIssue := {
  gi_id : Z;
  gi_node_id : string;
  gi_url : string;
  gi_repository_url : string;
  gi_labels_url : string;
  gi_comments_url : string;
  gi_events_url : string;
  gi_html_url : string;
  gi_number : Z;
  gi_state : string;
  gi_state_reason : option string;
  gi_user : option GithubUser;
  gi_labels : list string;
  gi_assignee : option GithubUser;
  gi_assignees : list GithubUser;
  gi_milestone : option GithubMilestone;
  gi_locked : bool;
  gi_active_lock_reason : option string;
  gi_comments : Z;
  gi_pull_request : option GithubLinkedPullRequest;
  gi_closed_at : option Value;
  gi_created_at : Value;
  gi_updated_at : Value;
  gi_draft : option bool;
  gi_closed_by : option GithubUser;
  gi_body : option string;
  gi_timeline_url : option string;
  gi_repository : option GithubRepository;
  gi_performed_via_github_app : option GithubApp;
  gi_author_association : string;
  gi_reactions : option GithubReactions;
  gi_title : string }.

Module IssueCommentEvent.
Inductive IssueCommentEvent : Type :=
| Created (comment : GithubComment) (issue : GithubIssue)
| Deleted
| Edited.
End IssueCommentEvent.
Abbreviation IssueCommentEvent := IssueCommentEvent.IssueCommentEvent.

Module IssuesEvent.
Inductive IssuesEvent : Type :=
| Assigned
| Closed (issue : GithubIssue)
| Deleted
| Demilestoned
| Edited
| Labeled
| Locked
| Milestoned
| Opened (issue : GithubIssue)
| Pinned
| Reopened (issue : GithubIssue)
| Transferred
| Unassigned
| Unlabeled
| Unlocked
| Unpinned.
End IssuesEvent.
Abbreviation IssuesEvent := IssuesEvent.IssuesEvent.

Record StarEvent := {
  st_starred_at : option Value }.

Record PushEvent := {
  pe_after : string;
  pe_base_ref : option string;
  pe_before : string;
  pe_commits : list GithubCommit;
  pe_compare : string;
  pe_created : bool;
  pe_deleted : bool;
  pe_forced : bool;
  pe_head_commit : option GithubCommit;
  pe_pusher : CommitAuthor;
  pe_ref : string }.

Record CommitCommentEvent := {
  cce_comment : GithubComment }.

Record CreateEvent := {
  ce_master_branch : string;
  ce_pusher_type : string;
  ce_ref : string;
  ce_ref_type : string }.

Record DeleteEvent := {
  de_pusher_type : string;
  de_ref : string;
  de_ref_type : string }.

Record ForkEvent := {
  fe_forkee : GithubRepository }.

Inductive GithubTeam : Type := Build_GithubTeam
  (gt_id : Z)
  (gt_node_id : string)
  (gt_url : string)
  (gt_hmtl_url : string)
  (gt_name : string)
  (gt_slug : string)
  (gt_description : option string)
  (gt_privacy : string)
  (gt_permission : string)
  (gt_members_url : string)
  (gt_repositories_url : string)
  (gt_parent : option GithubTeam).

Record GithubHead := {
  gh_label : string;
  gh_ref : string;
  gh_repo : GithubRepository;
  gh_sha : string;
  gh_user : option GithubUser }.

Record GithubHref := {
  ghr_href : string }.

Record GithubLinks := {
  glk_self : GithubHref;
  glk_html : GithubHref;
  glk_comments : GithubHref;
  glk_commits : GithubHref;
  glk_statuses : GithubHref;
  glk_issue : GithubHref;
  glk_review_comments : GithubHref;
  glk_review_comment : GithubHref }.

Record GithubAutoMerge := {
  gam_enabled_by : GithubUser;
  gam_merge_method : string;
  gam_commit_title : string;
  gam_commit_message : string }.

Record GithubPullRequest := {
  gpr_url : string;
  gpr_id : Z;
  gpr_node_id : string;
  gpr_html_url : string;
  gpr_diff_url : string;
  gpr_patch_url : string;
  gpr_issue_url : string;
  gpr_number : Z;
  gpr_state : string;
  gpr_locked : bool;
  gpr_title : string;
  gpr_user : GithubUser;
  gpr_body : option string;
  gpr_created_at : Value;
  gpr_updated_at : Value;
  gpr_closed_at : option Value;
  gpr_merged_at : option Value;
  gpr_merge_commit_sha : option string;
  gpr_assignee : option GithubUser;
  gpr_assignees : list GithubUser;
  gpr_requested_reviewers : list GithubUser;
  gpr_requested_teams : list GithubTeam;
  gpr_head : GithubHead;
  gpr_base : GithubHead;
  gpr_links : GithubLinks;
  gpr_author_association : string;
  gpr_auto_merge : option GithubAutoMerge;
  gpr_draft : bool }.

Module PullRequestEvent.
Inductive PullRequestEvent : Type :=
| Assigned
| AutoMergeDisabled
| AutoMergeEnabled
| Closed (number : Z) (pull_request : GithubPullRequest)
| ConvertedToDraft
| Demilestoned
| Dequeued
| Edited
| Enqueued
| Labeled
| Locked
| Milestoned
| Opened (number : Z) (pull_request : GithubPullRequest)
| ReadyForReview
| Reopened (number : Z) (pull_request : GithubPullRequest)
| ReviewRequestRemoved
| ReviewRequest
| Synchronized
| Unassigned
| Unlabeled
| Unlocked.
End PullRequestEvent.
Abbreviation PullRequestEvent := PullRequestEvent.PullRequestEvent.

Module BaseEvent.
Inductive BaseEvent : Type :=
| Star (event : StarEvent)
| Ping
| Push (event : PushEvent)
| CommitComment (event : CommitCommentEvent)
| Create (event : CreateEvent)
| Delete (event : DeleteEvent)
| Discussion (event : GithubDiscussionEvent)
| DiscussionComment (event : DiscussionCommentEvent)
| Fork (event : ForkEvent)
| IssueComment (event : IssueCommentEvent)
| Issues (event : IssuesEvent)
| PullRequest (event : PullRequestEvent).
End BaseEvent.
Abbreviation BaseEvent := BaseEvent.BaseEvent.

Record RawEvent := {
  re_action : option string;
  re_sender : GithubUser;
  re_repository : GithubRepository }.

Record Event := {
  ev_event : BaseEvent;
  ev_action : option string;
  ev_sender : GithubUser;
  ev_repository : GithubRepository }.

(** ** Reading an event *)

(** [serde_json::from_str] at the types of the file *)
Class GithubJson := {
  json_event : string -> option RawEvent;
  json_star : string -> option StarEvent;
  json_push : string -> option PushEvent;
  json_commit_comment : string -> option CommitCommentEvent;
  json_create : string -> option CreateEvent;
  json_delete : string -> option DeleteEvent;
  json_discussion : string -> option GithubDiscussionEvent;
  json_discussion_comment : string -> option DiscussionCommentEvent;
  json_fork : string -> option ForkEvent;
  json_issue_comment : string -> option IssueCommentEvent;
  json_issues : string -> option IssuesEvent;
  json_pull_request : string -> option PullRequestEvent }.

Definition safe_from_str {T} (from_str : string -> option T) (data : string) : Result T :=
  match from_str data with
  | Some output => Ok output
  | None => Err ErrorType.InvalidOperation
  end.

(** [EventHeader::from_request]: the header, which Rocket looks up,
    or status 400 with the error *)
Definition EventHeader_from_request (get_one : string -> option string) : Result string :=
  match get_one "X-GitHub-Event" with
  | Some event => Ok event
  | None => Err ErrorType.InvalidOperation
  end.

Definition convert_event `{GithubJson} (data event_name : string) : Result Event :=
  event ← safe_from_str json_event data;
  base_event ←
    (if String.eqb event_name "star" then e ← safe_from_str json_star data; Ok (BaseEvent.Star e)
     else if String.eqb event_name "ping" then Ok BaseEvent.Ping
     else if String.eqb event_name "push" then e ← safe_from_str json_push data; Ok (BaseEvent.Push e)
     else if String.eqb event_name "commit_comment" then
       e ← safe_from_str json_commit_comment data; Ok (BaseEvent.CommitComment e)
     else if String.eqb event_name "create" then e ← safe_from_str json_create data; Ok (BaseEvent.Create e)
     else if String.eqb event_name "delete" then e ← safe_from_str json_delete data; Ok (BaseEvent.Delete e)
     else if String.eqb event_name "discussion" then
       e ← safe_from_str json_discussion data; Ok (BaseEvent.Discussion e)
     else if String.eqb event_name "discussion_comment" then
       e ← safe_from_str json_discussion_comment data; Ok (BaseEvent.DiscussionComment e)
     else if String.eqb event_name "fork" then e ← safe_from_str json_fork data; Ok (BaseEvent.Fork e)
     else if String.eqb event_name "issue_comment" then
       e ← safe_from_str json_issue_comment data; Ok (BaseEvent.IssueComment e)
     else if String.eqb event_name "issues" then e ← safe_from_str json_issues data; Ok (BaseEvent.Issues e)
     else if String.eqb event_name "pull_request" then
       e ← safe_from_str json_pull_request data; Ok (BaseEvent.PullRequest e)
     else Err ErrorType.InvalidOperation : Result BaseEvent);
  Ok {| ev_event := base_event; ev_action := re_action event; ev_sender := re_sender event;
        ev_repository := re_repository event |}.

(** ** Texts *)

Definition GREEN : string := "#0f890f".
Definition RED : string := "#e73e3e".
Definition GREY : string := "#202224".
Definition BLUE : string := "#279adc".
Definition ORANGE : string := "#d76a34".
Definition LIGHT_ORANGE : string := "#d9916d".

(** The bytes that continue a character, and [str::is_char_boundary]. *)
Definition continues (c : ascii) : bool := Z.of_nat (nat_of_ascii c) / 64 =? 2.
Definition is_char_boundary (n : nat) (s : string) : bool :=
  match String.get n s with
  | Some c => negb (continues c) || Nat.eqb n 0
  | None => Nat.eqb n (String.length s)
  end.

(** [&text[0..length]] *)
Definition slice_to (text : string) (length : nat) : Result string :=
  if is_char_boundary length text then Ok (String.substring 0 length text) else Panicked.

Definition shorten_text (text : string) (length : nat) : Result string :=
  if Nat.ltb (String.length text) length then Ok text
  else short ← slice_to text length; Ok (short +:+ "...").

(** [&id[0..=7]] *)
Definition short_id (id : string) : Result string := slice_to id 8.

(** [format!], a line break, [[..](..)] *)
Definition format (parts : list string) : string := String.concat "" parts.
Definition newline : string := String "010" "".

(** ** The embed of an event *)

(** The fields every embed sets; the others are those of the default. *)
Definition embed_of (user : GithubUser) (description colour : string) : v0.SendableEmbed := {|
  v0.se_icon_url := Some (gu_avatar_url user);
  v0.se_url := Some (gu_html_url user);
  v0.se_title := Some (gu_login user);
  v0.se_description := Some description;
  v0.se_media := None;
  v0.se_colour := Some colour |}.

(** [return Ok(())] is [None]. *)
Definition Embedding : Type := Result (option v0.SendableEmbed).

Definition star_embed (event : Event) : Embedding :=
  if negb (bool_decide (ev_action event = Some "created")) then Ok None else
  Ok (Some (embed_of (ev_sender event)
    (format ["#### [["; gr_full_name (ev_repository event); "] New star added](";
             gr_html_url (ev_repository event); ")"]) GREY)).

Definition commit_line (commit : GithubCommit) : Result string :=
  id ← short_id (gc_id commit);
  message ← shorten_text (gc_message commit) 50;
  Ok (format ["[`"; id; "`]("; gc_url commit; ") "; message; " - "; ca_name (gc_author commit)]).
Fixpoint commit_lines (commits : list GithubCommit) : Result (list string) :=
  match commits with
  | [] => Ok []
  | commit :: commits => line ← commit_line commit; lines ← commit_lines commits; Ok (line :: lines)
  end.
Definition push_embed (event : Event) (push : PushEvent) : Embedding :=
  let branch := String.concat "/" (drop 2 (split_on "/" (pe_ref push))) in
  if pe_forced push then
    id ← short_id (pe_after push);
    Ok (Some (embed_of (ev_sender event)
      (format ["#### ["; gr_full_name (ev_repository event); "] Branch "; branch; " was force-pushed to ";
               id; newline; "[compare changes]("; pe_compare push; ")"]) RED))
  else
    let title := format ["[["; gr_full_name (ev_repository event); ":"; branch; "] ";
                         pretty (Z.of_nat (length (pe_commits push))); " new commit]("; pe_compare push; ")"] in
    lines ← commit_lines (pe_commits push);
    commit_description ← shorten_text (String.concat newline lines) 1000;
    Ok (Some (embed_of (ev_sender event) (format ["#### "; title; newline; commit_description]) BLUE)).

Definition commit_comment_embed (event : Event) (comment : GithubComment) : Embedding :=
  commit_id ← match gco_commit_id comment with Some id => short_id id | None => Ok "" end;
  body ← shorten_text (gco_body comment) 450;
  Ok (Some (embed_of (ev_sender event)
    (format ["#### [["; gr_full_name (ev_repository event); "] New comment on commit `"; commit_id; "`](";
             gco_html_url comment; ")"; newline; body]) GREY)).

Definition create_embed (event : Event) (e : CreateEvent) : Embedding :=
  Ok (Some (embed_of (ev_sender event)
    (format ["#### ["; gr_full_name (ev_repository event); "] New "; ce_ref_type e; " created: "; ce_ref e]) GREY)).
Definition delete_embed (event : Event) (e : DeleteEvent) : Embedding :=
  Ok (Some (embed_of (ev_sender event)
    (format ["#### ["; gr_full_name (ev_repository event); "] "; de_ref_type e; " deleted: "; de_ref e]) GREY)).
Definition fork_embed (event : Event) (forkee : GithubRepository) : Embedding :=
  Ok (Some (embed_of (ev_sender event)
    (format ["#### [["; gr_full_name (ev_repository event); "] Fork created: "; gr_full_name forkee; "](";
             gr_html_url forkee; ")"]) GREY)).

(** [#### [[repository] what #number: title](url)], and the text below. *)
Definition headed (event : Event) (what : string) (number : Z) (title url : string) : string :=
  format ["#### [["; gr_full_name (ev_repository event); "] "; what; " #"; pretty number; ": "; title; "]("; url; ")"].
Definition with_body (head : string) (body : string) : Result string :=
  body ← shorten_text body 450; Ok (format [head; newline; body]).

Definition discussion_embed (event : Event) (e : GithubDiscussionEvent) : Embedding :=
  match e with
  | GithubDiscussionEvent.Created discussion =>
      text ← with_body (headed event "New discussion" (gd_number discussion) (gd_title discussion)
                          (gd_html_url discussion)) (gd_body discussion);
      Ok (Some (embed_of (ev_sender event) text LIGHT_ORANGE))
  | GithubDiscussionEvent.Answered discussion answer =>
      let comment := gdc_comment answer in
      text ← with_body (format ["#### [["; gr_full_name (ev_repository event); "] Discussion #";
                                pretty (gd_number discussion); " marked answered: "; gd_title discussion; "](";
                                gco_html_url comment; ")"]) (gco_body comment);
      Ok (Some (embed_of (gco_user comment) text LIGHT_ORANGE))
  end.
Definition discussion_comment_embed (event : Event) (e : DiscussionCommentEvent) : Embedding :=
  match e with
  | DiscussionCommentEvent.Created answer discussion =>
      let comment := gdc_comment answer in
      text ← with_body (headed event "New comment on discussion" (gd_number discussion) (gd_title discussion)
                          (gco_html_url comment)) (gco_body comment);
      Ok (Some (embed_of (gco_user comment) text LIGHT_ORANGE))
  | _ => Ok None
  end.

Definition issues_embed (event : Event) (e : IssuesEvent) : Embedding :=
  match e with
  | IssuesEvent.Closed issue =>
      Ok (Some (embed_of (ev_sender event)
        (headed event "Issue Closed" (gi_number issue) (gi_title issue) (gi_html_url issue)) GREY))
  | IssuesEvent.Opened issue =>
      text ← with_body (headed event "Issue Opened" (gi_number issue) (gi_title issue) (gi_html_url issue))
               (default "" (gi_body issue));
      Ok (Some (embed_of (ev_sender event) text ORANGE))
  | IssuesEvent.Reopened issue =>
      Ok (Some (embed_of (ev_sender event)
        (headed event "Issue Reopened" (gi_number issue) (gi_html_url issue) (gi_title issue)) GREEN))
  | _ => Ok None
  end.
Definition issue_comment_embed (event : Event) (e : IssueCommentEvent) : Embedding :=
  match e with
  | IssueCommentEvent.Created comment issue =>
      text ← with_body (headed event "New comment on issue" (gi_number issue) (gi_title issue)
                          (gco_html_url comment)) (gco_body comment);
      Ok (Some (embed_of (ev_sender event) text LIGHT_ORANGE))
  | _ => Ok None
  end.

Definition pull_request_embed (event : Event) (e : PullRequestEvent) : Embedding :=
  match e with
  | PullRequestEvent.Closed number pull_request =>
      Ok (Some (embed_of (ev_sender event)
        (headed event "Pull Request Closed" number (gpr_title pull_request) (gpr_html_url pull_request)) GREY))
  | PullRequestEvent.Opened number pull_request =>
      text ← with_body (headed event "Pull Request Opened" number (gpr_title pull_request)
                          (gpr_html_url pull_request)) (default "" (gpr_body pull_request));
      Ok (Some (embed_of (ev_sender event) text ORANGE))
  | PullRequestEvent.Reopened number pull_request =>
      Ok (Some (embed_of (ev_sender event)
        (headed event "Pull Request Reopened" number (gpr_html_url pull_request) (gpr_title pull_request)) GREEN))
  | _ => Ok None
  end.

Definition github_embed (event : Event) : Embedding :=
  match ev_event event with
  | BaseEvent.Star _ => star_embed event
  | BaseEvent.Push push => push_embed event push
  | BaseEvent.CommitComment e => commit_comment_embed event (cce_comment e)
  | BaseEvent.Ping => Ok None
  | BaseEvent.Create e => create_embed event e
  | BaseEvent.Delete e => delete_embed event e
  | BaseEvent.Discussion e => discussion_embed event e
  | BaseEvent.DiscussionComment e => discussion_comment_embed event e
  | BaseEvent.Fork e => fork_embed event (fe_forkee e)
  | BaseEvent.Issues e => issues_embed event e
  | BaseEvent.IssueComment e => issue_comment_embed event e
  | BaseEvent.PullRequest e => pull_request_embed event e
  end.

(** ** The route *)

(** The message the route makes: fresh id, the webhook as author, the rest default. *)
Definition github_message (ulid : string) (webhook : Webhook) : Message :=
  let m := Message_default in {|
  msg_id := ulid; msg_nonce := msg_nonce m; msg_channel := wh_channel_id webhook;
  msg_author := wh_id webhook; msg_webhook := Some (v0.MessageWebhook_from (Webhook_to_v0 webhook));
  msg_content := msg_content m; msg_system := msg_system m; msg_attachments := msg_attachments m;
  msg_edited := msg_edited m; msg_embeds := msg_embeds m; msg_mentions := msg_mentions m;
  msg_role_mentions := msg_role_mentions m; msg_replies := msg_replies m; msg_reactions := msg_reactions m;
  msg_interactions := msg_interactions m; msg_masquerade := msg_masquerade m; msg_pinned := msg_pinned m;
  msg_flags := msg_flags m |}.

Module GithubRoute.
Section Routes.
Context {D C : Type} `{Database D} `{PermissionDatabase D} `{MessageDatabase D} `{LruCache C}.
Context `{HashOrder} `{TextServices} `{Validator} `{GithubJson}.
Context (now : Timestamp) (config : MessageConfig).
Local Abbreviation Nm := (M ErrorType (Node D C)).

(** [sendable_embed.validate()], then the message with the embed, sent *)
Definition post (ulid : string) (webhook : Webhook) (channel : Channel) (embed : v0.SendableEmbed) : Nm unit :=
  lift_outcome (validate (embed_rules embed));;
  message ← on_world (attach_sendable_embed (github_message ulid webhook) embed);
  send now config message (v0.MessageAuthor.Webhook (Webhook_to_v0 webhook)) None None channel.

Definition webhook_execute_github (ulid webhook_id token event data : string) : Nm unit :=
  webhook ← Route.webhook_with_token webhook_id token;
  channel ← Route.as_channel (wh_channel_id webhook);
  event ← lift_outcome (convert_event data event);
  embed ← lift_outcome (github_embed event);
  match embed with
  | Some embed => post ulid webhook channel embed
  | None => mret tt
  end.
End Routes.
End GithubRoute.

(** ** Shortened texts *)

Lemma prefix_split (n : nat) (s : string) :
  (n <= String.length s)%nat ->
  exists rest, s = String.substring 0 n s +:+ rest /\ String.length (String.substring 0 n s) = n
               /\ forall c, String.get n s = Some c <-> exists rest', rest = String c rest'.
Proof.
  revert n. induction s as [|x s IH]; intros [|n] Hn; simpl in Hn |- *; try lia.
  - exists "". split_and!; [done..|]. intros c. split; [done|by intros [? ?]].
  - exists (String x s). split_and!; [done..|]. intros c. split; [intros [= ->]; eauto|by intros [? [= -> ->]]].
  - destruct (IH n) as (rest & E & L & G); [lia|]. exists rest. split_and!; [|lia|exact G].
    by rewrite E at 1.
Qed.

Lemma get_none (n : nat) (s : string) : String.get n s = None <-> (String.length s <= n)%nat.
Proof.
  revert n. induction s as [|x s IH]; intros [|n]; simpl; [split; [lia|done]..|split; [done|lia]|].
  rewrite IH. lia.
Qed.

(** A slice from the start panics inside of a character and behind the end. *)
Lemma slice_to_panics text n :
  slice_to text n = Panicked <->
  (String.length text < n)%nat \/ exists c, String.get n text = Some c /\ continues c = true /\ n <> 0%nat.
Proof.
  unfold slice_to, is_char_boundary. destruct (String.get n text) as [c|] eqn:E.
  - assert (~ (String.length text <= n)%nat) as Hn by (rewrite <- get_none; congruence).
    destruct (continues c) eqn:Ec, n as [|n]; simpl; (split; [intros H|intros [H|(? & [= <-] & ? & ?)]]);
      try done; try lia; try congruence. right. by exists c.
  - apply get_none in E. destruct (Nat.eqb_spec n (String.length text)) as [->|Hne];
      (split; [intros H|intros [H|(? & ? & _)]]); try done; try lia.
Qed.

Lemma slice_to_ok text n s :
  slice_to text n = Ok s -> exists rest, text = s +:+ rest /\ String.length s = n.
Proof.
  unfold slice_to. destruct (is_char_boundary n text) eqn:E; [|done]. intros [= <-].
  assert (n <= String.length text)%nat as Hn.
  { unfold is_char_boundary in E. destruct (String.get n text) eqn:G; [|apply Nat.eqb_eq in E; lia].
    destruct (decide (String.length text <= n)%nat) as [Hl|]; [|lia]. apply get_none in Hl. congruence. }
  destruct (prefix_split n text Hn) as (rest & ? & ? & _). by exists rest.
Qed.

Lemma string_length_app (s t : string) : String.length (s +:+ t) = (String.length s + String.length t)%nat.
Proof. induction s; simpl; [done|]. by rewrite IHs. Qed.

(** Shortening panics inside of a character only. *)
Lemma shorten_text_panics text limit :
  shorten_text text limit = Panicked <->
  exists c, String.get limit text = Some c /\ continues c = true /\ limit <> 0%nat.
Proof.
  unfold shorten_text. destruct (Nat.ltb_spec (String.length text) limit) as [Hl|Hl].
  - split; [done|]. intros (c & G & _). assert (String.length text <= limit)%nat as Hn%get_none by lia. congruence.
  - pose proof (slice_to_panics text limit) as Hp. destruct (slice_to text limit) eqn:E; simpl.
    + split; [done|]. intros Hc. assert (@Ok ErrorType string a = Panicked) by (apply Hp; by right). done.
    + unfold slice_to in E. by destruct (is_char_boundary _ _).
    + split; [|done]. intros _. destruct (proj1 Hp eq_refl) as [?|?]; [lia|done].
Qed.

(** what [shorten_text] gives.  It panics exactly when the text has a byte at
    the limit that continues a character; otherwise a text below the limit is
    kept and a longer one, or one of exactly the limit, is cut there and gets
    three dots, so that the limit is passed by three bytes at most. *)
Theorem shorten_text_spec (text : string) (limit : nat) :
  (shorten_text text limit = Panicked <->
     exists c, String.get limit text = Some c /\ continues c = true /\ limit <> 0%nat)
  /\ forall s, shorten_text text limit = Ok s ->
       (String.length s <= limit + 3)%nat
       /\ (((String.length text < limit)%nat /\ s = text)
           \/ exists short rest, text = short +:+ rest /\ String.length short = limit /\ s = short +:+ "...").
Proof.
  split; [apply shorten_text_panics|]. intros s. unfold shorten_text.
  destruct (Nat.ltb_spec (String.length text) limit) as [Hl|Hl]; [intros [= <-]; split; [lia|by left]|].
  intros (short & Hs & [= <-])%outcome_bind_Ok. apply slice_to_ok in Hs as (rest & -> & L).
  rewrite string_length_app. simpl. split; [lia|]. right. by exists short, rest.
Qed.

(** ** What a request does *)

Section Github.
Context {C : Type} `{LruCache C} `{HO : HashOrder} `{TS : TextServices} `{VA : Validator} `{GJ : GithubJson}.
Context `{OS : OptionalStruct Server PartialServer} `{OR : OptionalStruct Role PartialRole}.
Context `{OM : OptionalStruct Member PartialMember} `{OU : OptionalStruct User PartialUser}.
Context `{OG : OptionalStruct Message PartialMessage} `{OW : OptionalStruct Webhook PartialWebhook}.
Context (now : Timestamp) (config : MessageConfig).
Local Abbreviation Nd := (Node ReferenceDb C).
Local Abbreviation db n := (w_db (nd_world n)).

(** The message with its embed. *)
Definition embedded (ulid : string) (webhook : Webhook) (embed : v0.SendableEmbed) : Message :=
  msg_set_embeds (Some [v0.Embed.Text {|
    v0.te_icon_url := v0.se_icon_url embed; v0.te_url := v0.se_url embed; v0.te_title := v0.se_title embed;
    v0.te_description := v0.se_description embed; v0.te_media := None; v0.te_colour := v0.se_colour embed |}])
    (github_message ulid webhook).

(** One message is stored (but for direct messages), announced to its channel
    and becomes the last one of the channel; nobody is notified. *)
Definition delivered (m : Message) (is_dm : bool) (n n' : Nd) : Prop :=
  db n' = (if is_dm then db n else set_messages (<[msg_id m := m]> (db_messages (db n))) (db n))
  /\ w_events (nd_world n') = w_events (nd_world n) ++ [(msg_channel m, EventV1.Message (into_model m None None))]
  /\ w_amqp (nd_world n') = w_amqp (nd_world n) /\ w_sent (nd_world n') = w_sent (nd_world n)
  /\ nd_keys n' = nd_keys n
  /\ nd_tasks n' = nd_tasks n ++ [Task.LastMessageId (msg_channel m) (msg_id m) is_dm].

Definition is_direct (c : Channel) : bool := match c with Channel.DirectMessage _ => true | _ => false end.

(** The embeds of this file have no media. *)
Lemma github_embed_media event embed : github_embed event = Ok (Some embed) -> v0.se_media embed = None.
Proof.
  unfold github_embed, star_embed, push_embed, commit_comment_embed, create_embed, delete_embed, fork_embed,
    discussion_embed, discussion_comment_embed, issues_embed, issue_comment_embed, pull_request_embed.
  intros E. destruct (ev_event event); repeat case_match; try discriminate;
    repeat (apply outcome_bind_Ok in E as (? & _ & E)); by injection E as <-.
Qed.

(** A message without mentions and flags: one event, one task. *)
Lemma send_plain (m : Message) author channel (n : Nd) :
  msg_mentions m = None -> msg_flags m = None -> msg_role_mentions m = None ->
  exists r n', send now config m author None None channel n = (r, n')
    /\ if negb (is_direct channel) && bool_decide (is_Some (db_messages (db n) !! msg_id m))
       then r = Err (create_database_error "insert" "message") /\ n' = n
       else r = Ok tt /\ delivered m (is_direct channel) n n'.
Proof.
  intros Hm Hf Hr. eexists _, _. split; [apply surjective_pairing|].
  unfold send, send_without_notifications, contains_mass_push_mention, has_suppressed_notifications.
  rewrite Hm, Hf, Hr.
  destruct n as [[d evs am se] ks ts]. unfold delivered, mbind, M_bind. destruct channel; simpl.
  2: split_and!; reflexivity.
  all: unfold on_world, call, Col.insert_message, insert_new; simpl;
    destruct (db_messages d !! msg_id m) eqn:E; simpl; split_and!; reflexivity.
Qed.

(** Posting an embed delivers the message with it, or changes nothing. *)
Lemma post_run ulid webhook channel embed (n n' : Nd) r :
  v0.se_media embed = None -> GithubRoute.post now config ulid webhook channel embed n = (r, n') ->
  n' = n \/ r = Ok tt /\ validate (embed_rules embed) = Ok tt
            /\ delivered (embedded ulid webhook embed) (is_direct channel) n n'.
Proof.
  intros Hm. unfold GithubRoute.post. destruct (validate (embed_rules embed)) as [[]|e|] eqn:E.
  2, 3: intros [= <- <-]; by left.
  erewrite M_bind_ok by reflexivity.
  erewrite (M_bind_ok _ _ n (embedded ulid webhook embed) n).
  2: { unfold on_world, attach_sendable_embed, sendable_embed. rewrite Hm. by destruct n as [[]]. }
  destruct (send_plain (embedded ulid webhook embed) (v0.MessageAuthor.Webhook (Webhook_to_v0 webhook)) channel n)
    as (r1 & n1 & -> & Hc); [done..|].
  destruct (_ && _); destruct Hc as [-> Hc]; intros [= <- <-]; [by left|by right].
Qed.

Lemma webhook_with_token_inv id token (n : Nd) :
  (exists webhook, db_channel_webhooks (db n) !! id = Some webhook /\ wh_token webhook = Some token
     /\ Route.webhook_with_token id token n = (Ok webhook, n))
  \/ (exists e, Route.webhook_with_token id token n = (Err e, n)).
Proof.
  unfold Route.webhook_with_token, Route.as_webhook, mbind, M_bind, on_world, call. simpl.
  unfold Col.fetch_webhook, get_or. destruct n as [[d evs am se] ks ts]. simpl.
  destruct (db_channel_webhooks d !! id) as [wh|]; simpl; [|by right; eexists].
  unfold assert_token. case_bool_decide; simpl; [left; by eexists|right; by eexists].
Qed.

Lemma channel_run id (n : Nd) :
  Route.as_channel id n = (Ref.fetch_channel (db n) id, n).
Proof. unfold Route.as_channel, on_world, call. simpl. by destruct n as [[]]. Qed.

(** What a request does once the webhook is found. *)
Lemma with_webhook ulid webhook_id token name data (n : Nd) webhook channel :
  db_channel_webhooks (db n) !! webhook_id = Some webhook -> wh_token webhook = Some token ->
  db_channels (db n) !! wh_channel_id webhook = Some channel ->
  GithubRoute.webhook_execute_github now config ulid webhook_id token name data n
  = (event ← lift_outcome (convert_event data name);
     embed ← lift_outcome (github_embed event);
     match embed with
     | Some embed => GithubRoute.post now config ulid webhook channel embed
     | None => mret tt
     end) n.
Proof.
  intros Hw Ht Hc. unfold GithubRoute.webhook_execute_github.
  destruct (webhook_with_token_inv webhook_id token n) as [(webhook' & Hw' & _ & E)|[e E]].
  - erewrite M_bind_ok by exact E. simplify_eq. erewrite M_bind_ok; [reflexivity|].
    rewrite channel_run. unfold Ref.fetch_channel, get_or. by rewrite Hc.
  - exfalso. revert E. unfold Route.webhook_with_token, Route.as_webhook, mbind, M_bind, on_world, call. simpl.
    unfold Col.fetch_webhook, get_or. rewrite Hw. simpl. unfold assert_token.
    by rewrite bool_decide_true.
Qed.


(** A comment whose byte 450 continues a character makes the route panic. *)
Lemma accented_comment_panics ulid webhook_id token name data (n : Nd) webhook channel event comment issue c :
  db_channel_webhooks (db n) !! webhook_id = Some webhook -> wh_token webhook = Some token ->
  db_channels (db n) !! wh_channel_id webhook = Some channel ->
  convert_event data name = Ok event ->
  ev_event event = BaseEvent.IssueComment (IssueCommentEvent.Created comment issue) ->
  String.get 450 (gco_body comment) = Some c -> continues c = true ->
  GithubRoute.webhook_execute_github now config ulid webhook_id token name data n = (Panicked, n).
Proof.
  intros Hw Ht Hc Ev He Hg Hb. erewrite with_webhook by done. rewrite Ev.
  erewrite M_bind_ok by reflexivity.
  assert (github_embed event = Panicked) as ->; [|done].
  unfold github_embed. rewrite He. unfold issue_comment_embed, with_body.
  assert (shorten_text (gco_body comment) 450 = Panicked) as ->; [|done].
  apply shorten_text_panics. by exists c.
Qed.

(** An event is delivered, whatever the webhook is permitted. *)
Lemma github_delivers ulid webhook_id token name data (n : Nd) webhook channel event embed :
  db_channel_webhooks (db n) !! webhook_id = Some webhook -> wh_token webhook = Some token ->
  db_channels (db n) !! wh_channel_id webhook = Some channel ->
  convert_event data name = Ok event -> github_embed event = Ok (Some embed) ->
  validate (embed_rules embed) = Ok tt -> db_messages (db n) !! ulid = None ->
  exists n', GithubRoute.webhook_execute_github now config ulid webhook_id token name data n = (Ok tt, n')
    /\ delivered (embedded ulid webhook embed) (is_direct channel) n n'.
Proof.
  intros Hw Ht Hc Ev Ee Hv Hu. erewrite with_webhook by done. rewrite Ev.
  erewrite M_bind_ok by reflexivity. rewrite Ee. erewrite M_bind_ok by reflexivity.
  unfold GithubRoute.post. rewrite Hv. erewrite M_bind_ok by reflexivity.
  erewrite (M_bind_ok _ _ n (embedded ulid webhook embed) n).
  2: { unfold on_world, attach_sendable_embed, sendable_embed.
       rewrite (github_embed_media _ _ Ee). by destruct n as [[]]. }
  destruct (send_plain (embedded ulid webhook embed) (v0.MessageAuthor.Webhook (Webhook_to_v0 webhook)) channel n)
    as (r1 & n1 & -> & Hd); [done..|].
  rewrite bool_decide_false, andb_false_r in Hd. 2: { simpl. rewrite Hu. by intros [? ?]. }
  destruct Hd as [-> Hd]. by exists n1.
Qed.

(** the permissions of a webhook are not those of its GitHub address.  A
    webhook without permissions may not send anything through [webhook_execute];
    through [webhook_execute_github] every event that the route shows is
    delivered, with the same token. *)
Theorem github_ignores_permissions lexer limits ulid webhook_id token name data message key (n : Nd)
    webhook channel event embed :
  db_channel_webhooks (db n) !! webhook_id = Some webhook -> wh_token webhook = Some token ->
  wh_permissions webhook = 0 ->
  db_channels (db n) !! wh_channel_id webhook = Some channel ->
  convert_event data name = Ok event -> github_embed event = Ok (Some embed) ->
  validate (embed_rules embed) = Ok tt -> db_messages (db n) !! ulid = None ->
  (exists e, Route.webhook_execute now config lexer limits ulid webhook_id token message key n = (Err e, n))
  /\ exists n', GithubRoute.webhook_execute_github now config ulid webhook_id token name data n = (Ok tt, n')
       /\ delivered (embedded ulid webhook embed) (is_direct channel) n n'.
Proof.
  intros Hw Ht Hp Hc Ev Ee Hv Hu. split; [|by eapply github_delivers].
  unfold Route.webhook_execute. unfold lift_outcome at 1.
  destruct (validate (send_rules message)) as [[]|e|] eqn:Es.
  - erewrite M_bind_ok by reflexivity.
    destruct (webhook_with_token_inv webhook_id token n) as [(webhook' & Hw' & _ & E)|[e E]].
    2: eexists; by erewrite M_bind_err by exact E.
    erewrite M_bind_ok by exact E. simplify_eq. rewrite Hp. eexists. by erewrite M_bind_err by reflexivity.
  - eexists. by erewrite M_bind_err by reflexivity.
  - exfalso. unfold validate in Es. by destruct (filter _ _).
Qed.
End Github.

(** The link of a reopened issue shows the address and leads to the title. *)
Lemma reopened_link_swapped event issue :
  github_embed {| ev_event := BaseEvent.Issues (IssuesEvent.Reopened issue); ev_action := ev_action event;
                  ev_sender := ev_sender event; ev_repository := ev_repository event |}
  = Ok (Some (embed_of (ev_sender event)
      (format ["#### [["; gr_full_name (ev_repository event); "] "; "Issue Reopened"; " #"; pretty (gi_number issue);
               ": "; gi_html_url issue; "]("; gi_title issue; ")"]) GREEN)).
Proof. reflexivity. Qed.

(** ** Witnesses *)

Module GithubWitness.
Import ModelOps.SomePriority CollectionsWitness MessageWitness MessageRouteWitness.
#[local] Instance services : TextServices :=
  {| to_lowercase s := s; cure s := s; ulid_timestamp_ms _ := None |}.
#[local] Instance validator : Validator := {| error_text _ := "invalid"; is_colour _ := true |}.
#[local] Instance keys : LruCache (list string) := ListLru.list_lru TOKEN_CACHE_SIZE.

(** Octo stars a repository. *)
Definition octo : GithubUser := {|
  gu_name := None; gu_email := None; gu_login := "octo"; gu_id := 1; gu_node_id := "";
  gu_avatar_url := "https://github.com/octo.png"; gu_gravatar_id := ""; gu_url := "";
  gu_html_url := "https://github.com/octo"; gu_followers_url := ""; gu_following_url := ""; gu_gists_url := "";
  gu_starred_url := ""; gu_subscriptions_url := ""; gu_organizations_url := ""; gu_repos_url := "";
  gu_events_url := ""; gu_received_events_url := "" |}.
Definition app : GithubRepository := {|
  gr_id := 1; gr_node_id := ""; gr_name := ""; gr_full_name := "acme/app"; gr_owner := octo; gr_private := false;
  gr_html_url := "https://github.com/acme/app"; gr_description := None; gr_fork := false; gr_url := "";
  gr_archive_url := ""; gr_assignees_url := ""; gr_blobs_url := ""; gr_branches_url := "";
  gr_collaborators_url := ""; gr_comments_url := ""; gr_commits_url := ""; gr_compare_url := "";
  gr_contents_url := ""; gr_contributors_url := ""; gr_deployments_url := ""; gr_downloads_url := "";
  gr_events_url := ""; gr_forks_url := ""; gr_git_commits_url := ""; gr_git_refs_url := "";
  gr_git_tags_url := ""; gr_git_url := None; gr_issue_comment_url := ""; gr_issue_events_url := "";
  gr_issues_url := ""; gr_keys_url := ""; gr_labels_url := ""; gr_languages_url := ""; gr_merges_url := "";
  gr_milestones_url := ""; gr_notifications_url := ""; gr_pulls_url := ""; gr_releases_url := "";
  gr_ssh_url := ""; gr_stargazers_url := ""; gr_statuses_url := ""; gr_subscribers_url := "";
  gr_subscription_url := ""; gr_tags_url := ""; gr_teams_url := ""; gr_trees_url := ""; gr_clone_url := None;
  gr_mirror_url := None; gr_hooks_url := ""; gr_svn_url := None; gr_homepage := None; gr_language := None;
  gr_forks_count := None; gr_stargazers_count := None; gr_watchers_count := None; gr_size := None;
  gr_default_branch := None; gr_open_issues_count := None; gr_is_template := None; gr_topics := None;
  gr_has_issues := None; gr_has_projects := None; gr_has_wiki := None; gr_has_pages := None;
  gr_has_downloads := None; gr_has_discussions := None; gr_archived := None; gr_disabled := None;
  gr_visibility := None; gr_pushed_at := None; gr_created_at := Value.Null; gr_updated_at := None;
  gr_permissions := None; gr_role_name := None; gr_temp_clone_token := None; gr_delete_branch_on_merge := None;
  gr_subscribers_count := None; gr_network_count := None; gr_code_of_conduct := None; gr_license := None;
  gr_forks := None; gr_open_issues := None; gr_watchers := None; gr_allow_forking := None;
  gr_web_commit_signoff_required := None; gr_security_and_analysis := None |}.
#[local] Instance json : GithubJson := {|
  json_event _ := Some {| re_action := Some "created"; re_sender := octo; re_repository := app |};
  json_star _ := Some {| st_starred_at := None |};
  json_push _ := None; json_commit_comment _ := None; json_create _ := None; json_delete _ := None;
  json_discussion _ := None; json_discussion_comment _ := None; json_fork _ := None;
  json_issue_comment _ := None; json_issues _ := None; json_pull_request _ := None |}.

(** A webhook of the group that may do nothing. *)
Definition hook : Webhook := {|
  wh_id := "w"; wh_name := "GitHub"; wh_avatar := None; wh_creator_id := "bob"; wh_channel_id := "c";
  wh_permissions := 0; wh_token := Some "secret" |}.
Definition hooked : Node ReferenceDb (list string) :=
  {| nd_world := world (set_channel_webhooks {[ "w" := hook ]} d); nd_keys := []; nd_tasks := [] |}.
Definition starred := GithubRoute.webhook_execute_github 0 config "m9" "w" "secret" "star" "{}" hooked.
Definition star : v0.SendableEmbed :=
  embed_of octo "#### [[acme/app] New star added](https://github.com/acme/app)" GREY.


Lemma github_ignores_permissions_witness :
  (exists e, Route.webhook_execute 0 config lexer limits "m9" "w" "secret" reply {| ik_key := "k" |} hooked
             = (Err e, hooked))
  /\ exists n', starred = (Ok tt, n').
Proof.
  destruct (github_ignores_permissions 0 config lexer limits "m9" "w" "secret" "star" "{}" reply {| ik_key := "k" |}
              hooked hook group {| ev_event := BaseEvent.Star {| st_starred_at := None |};
                ev_action := Some "created"; ev_sender := octo; ev_repository := app |} star)
    as [He (n' & E & _)]; [vm_compute; reflexivity..|].
  split; [exact He|]. by exists n'.
Defined.

(** Two letters of two bytes each, cut at three bytes and at two. *)
Lemma shorten_text_spec_witness :
  let text := String "195" (String "169" (String "195" (String "169" ""))) in
  shorten_text text 3 = Panicked
  /\ exists s, shorten_text text 2 = Ok s /\ (String.length s <= 5)%nat.
Proof.
  intros text. split.
  - apply (proj1 (shorten_text_spec text 3)). eexists. by split_and!; [vm_compute; reflexivity..|].
  - eexists. split; [vm_compute; reflexivity|]. eapply (proj2 (shorten_text_spec text 2)). vm_compute. reflexivity.
Defined.
End GithubWitness.
