(* ===== verification/Bots.v ===== *)
(** * Bots
    ([crates/core/database/src/models/bots/model.rs], [bot_commands/model.rs],
    [crates/delta/src/routes/bots])

    A bot is an account with an owner, a token and, for AI companions, a licence
    and a limit to one server.  [BotDb] is the part of the database traits the
    bot code calls.  A route validates the body, fetches the bot, compares its
    owner with the caller and calls the methods of the model; inviting a bot also
    hands it the keys of the encrypted channels it can now see.  The licence
    server, the cryptography, the regular expressions, fresh identifiers and the
    clock are arguments.

    The theorems: who does not own a bot leaves it as it is ([bots_protected]); an
    owner never has more bots than allowed nor two AI companions
    ([bot_limits_hold]); an invitation leaves an AI companion in one server
    ([companion_in_one_server]).  [fixes] is the frame property the proofs share: a
    part of the state that a computation leaves alone. *)

From S2P Require Import Prelude Results Permissions PermissionCalc Models ApiTypes Records ModelOps DbPermissions PermissionSpec ReferenceDb Collections World Users Servers Channels Members Redis Voice Routes Moderation ChannelRoutes Bridge BridgeMessages.

(** ** The database methods of bots *)

Module BotDb.
Class BotDatabase (D : Type) := {
  insert_bot : Bot -> M ErrorType D unit;
  fetch_bots_by_user : string -> M ErrorType D (list Bot);
  get_number_of_bots_by_user : string -> M ErrorType D Z;
  (** the token drawn for a reset *)
  update_bot : string -> string -> PartialBot -> list FieldsBot -> M ErrorType D unit;
  delete_bot : string -> M ErrorType D unit;
  find_ai_companion_bot_by_owner : string -> M ErrorType D (option Bot);
  update_bot_public_key : string -> string -> Timestamp -> M ErrorType D unit;
  fetch_encrypted_invitation : string -> string -> M ErrorType D (option EncryptedChannelInvitation);
  delete_encrypted_invitation : string -> M ErrorType D unit;
  get_channel_encryption_key : string -> M ErrorType D string;
  insert_encrypted_invitation : EncryptedChannelInvitation -> M ErrorType D unit;
  insert_bot_command : BotCommand -> M ErrorType D unit;
  fetch_bot_command : string -> M ErrorType D BotCommand;
  fetch_bot_commands_by_bot : string -> M ErrorType D (list BotCommand);
  delete_bot_command : string -> M ErrorType D unit }.
End BotDb.
Abbreviation BotDatabase := BotDb.BotDatabase.

#[export] Instance reference_bots `{HashOrder} `{OptionalStruct Bot PartialBot} : BotDatabase ReferenceDb := {|
  BotDb.insert_bot := Ref.insert_bot;
  BotDb.fetch_bots_by_user id := query (fun d => Ref.fetch_bots_by_user d id);
  BotDb.get_number_of_bots_by_user id := query (fun d => Ref.get_number_of_bots_by_user d id);
  BotDb.update_bot := Ref.update_bot;
  BotDb.delete_bot := Ref.delete_bot;
  BotDb.find_ai_companion_bot_by_owner id := query (fun d => Ref.find_ai_companion_bot_by_owner d id);
  BotDb.update_bot_public_key := Ref.update_bot_public_key;
  BotDb.fetch_encrypted_invitation channel bot := query (fun d => Col.fetch_encrypted_invitation d channel bot);
  BotDb.delete_encrypted_invitation := Col.delete_encrypted_invitation;
  BotDb.get_channel_encryption_key id := query (fun d => Ref.get_channel_encryption_key d id);
  BotDb.insert_encrypted_invitation := Col.insert_encrypted_invitation;
  BotDb.insert_bot_command := Col.insert_bot_command;
  BotDb.fetch_bot_command id := query (fun d => Col.fetch_bot_command d id);
  BotDb.fetch_bot_commands_by_bot id := query (fun d => Col.fetch_bot_commands_by_bot d id);
  BotDb.delete_bot_command := Col.delete_bot_command |}.

(** ** The model *)

(** A bot as [Bot::create] starts it, over [Bot::default], and the part of its account. *)
Definition new_bot (id owner token : string) : Bot := {|
  b_id := id; b_owner := owner; b_token := token; b_public := false; b_analytics := false; b_discoverable := false;
  b_interactions_url := ""; b_terms_of_service_url := ""; b_privacy_policy_url := ""; b_flags := None;
  b_bot_type := BotType.Regular; b_license_type := None; b_license_verified_at := None;
  b_joined_server_id := None; b_public_key_pem := None; b_public_key_registered_at := None |}.
Definition PartialUser_bot (owner : string) : PartialUser := {|
  pu_id := None; pu_username := None; pu_discriminator := None; pu_display_name := None; pu_avatar := None;
  pu_relations := None; pu_badges := None; pu_status := None; pu_profile := None; pu_flags := None;
  pu_privileged := None; pu_bot := Some {| bi_owner := owner |}; pu_suspended_until := None;
  pu_last_acknowledged_policy_change := None; pu_subscription := None; pu_active_decorations := None;
  pu_presence_style := None |}.
Definition PartialBot_with (token : option string) (partial : PartialBot) : PartialBot := {|
  pb_id := pb_id partial; pb_owner := pb_owner partial; pb_token := token; pb_public := pb_public partial;
  pb_analytics := pb_analytics partial; pb_discoverable := pb_discoverable partial;
  pb_interactions_url := pb_interactions_url partial; pb_terms_of_service_url := pb_terms_of_service_url partial;
  pb_privacy_policy_url := pb_privacy_policy_url partial; pb_flags := pb_flags partial;
  pb_bot_type := pb_bot_type partial; pb_license_type := pb_license_type partial;
  pb_license_verified_at := pb_license_verified_at partial; pb_joined_server_id := pb_joined_server_id partial;
  pb_public_key_pem := pb_public_key_pem partial;
  pb_public_key_registered_at := pb_public_key_registered_at partial |}.

Section Model.
Context {D : Type} `{Database D} `{UserDirectory D} `{BotDatabase D} `{TextServices}.
Context `{OptionalStruct User PartialUser} `{OptionalStruct Bot PartialBot}.
Context (user_limits : User -> Result FeaturesLimits).
Local Abbreviation W := (M ErrorType (World D)).

(** The companion among the fields of a new bot. *)
Definition wants_companion (data : option PartialBot) : bool :=
  match data with
  | Some data => bool_decide (pb_bot_type data = Some BotType.AiCompanion)
  | None => false
  end.

(** [Bot::create]; [since], [event_id] and [r] are the draws of [User::create]. *)
Definition bot_create (ulid nanoid since event_id : string) (r : nat) (now : Timestamp) (username : string)
    (owner : User) (data : option PartialBot) : W (Bot * User) :=
  if bool_decide (is_Some (u_bot owner)) then throw ErrorType.IsBot else
  count ← call (BotDb.get_number_of_bots_by_user (u_id owner));
  limits ← lift_outcome (user_limits owner);
  if fl_bots limits <=? count then throw ErrorType.ReachedMaximumBots else
  (if wants_companion data then
     existing ← call (BotDb.find_ai_companion_bot_by_owner (u_id owner));
     if bool_decide (is_Some existing) then throw ErrorType.AICompanionBotExists else mret tt
   else mret tt);;
  user ← user_create since event_id r now username ulid (Some (PartialUser_bot (u_id owner)));
  let bot := new_bot ulid (u_id owner) nanoid in
  let bot := match data with Some data => apply_options bot data | None => bot end in
  call (BotDb.insert_bot bot);;
  mret (bot, user).

(** [Bot::update]: the token is drawn for the update, for the copy in the
    handler and by the driver. *)
Definition bot_update (token own_token db_token : string) (self : Bot) (partial : PartialBot)
    (remove : list FieldsBot) : W Bot :=
  let partial := if bool_decide (FieldsBot.Token ∈ remove) then PartialBot_with (Some token) partial else partial in
  let self := foldl (bot_remove_field own_token) self remove in
  call (BotDb.update_bot db_token (b_id self) partial remove);;
  (if bool_decide (is_Some (pb_token partial)) then private EventV1.Logout (b_id self) else mret tt);;
  mret (apply_options self partial).

(** [Bot::delete] *)
Definition bot_delete (event_id : string) (self : Bot) : W unit :=
  user ← call (Database.fetch_user (b_id self));
  _ ← mark_deleted event_id user;
  call (BotDb.delete_bot (b_id self)).

(** [BotCommand::create], [delete] *)
Definition command_create (ulid bot_id name description : string) (options : list CommandOption) : W BotCommand :=
  let command := {| bc_id := ulid; bc_bot_id := bot_id; bc_name := name; bc_description := description;
                    bc_options := options |} in
  call (BotDb.insert_bot_command command);;
  mret command.
Definition command_delete (self : BotCommand) : W unit := call (BotDb.delete_bot_command (bc_id self)).
End Model.

(** ** The bodies of requests and responses *)

Record DataCreateBot := { dcb_name : string; dcb_bot_type : option v0.BotType }.
Record DataEditBot := {
  deb_name : option string;
  deb_public : option bool;
  deb_analytics : option bool;
  deb_interactions_url : option string;
  deb_remove : list v0.FieldsBot }.
Module InviteBotDestination.
Inductive InviteBotDestination : Type := Server (server : string) | Group (group : string).
End InviteBotDestination.
Abbreviation InviteBotDestination := InviteBotDestination.InviteBotDestination.
Record BotWithUserResponse := { bwu_bot : v0.Bot; bwu_user : v0.User }.
Record FetchBotResponse := { fbr_bot : v0.Bot; fbr_user : v0.User }.
Record OwnedBotsResponse := { obr_bots : list v0.Bot; obr_users : list v0.User }.
Record EncryptedChannelKeyResponse := { eck_channel_id : string; eck_encrypted_channel_key : string }.
Record DataCreateBotCommand := {
  dcc_name : string;
  dcc_description : string;
  dcc_options : list v0.CommandOption }.

(** What the licence server answers ([license_verification.rs]), and the answer
    of [verify_license] once the response is read. *)
Record LicenseStatus := {
  ls_valid : bool;
  ls_license_type : string;
  ls_user_id : string;
  ls_expires_at : option string }.
Definition VALID_LICENSE_TYPES : list string := ["cloud_basic"; "cloud_pro"; "cloud_elite"; "download"].
Definition is_valid_license_type (license_type : string) : bool := bool_decide (license_type ∈ VALID_LICENSE_TYPES).
(** [response] is the body of a successful response, or the message of what went
    wrong before it was read. *)
Definition verify_license (response : outcome string LicenseStatus) : outcome string LicenseStatus :=
  license ← response;
  if negb (ls_valid license) then Err "License is not active" else
  if negb (is_valid_license_type (ls_license_type license))
  then Err ("License type '" +:+ ls_license_type license +:+ "' is not valid for AI Companion")
  else Ok license.

(** The cryptography of [util/encryption.rs], on keys of the [rsa] crate, with
    base64 and hexadecimal. *)
Class BotCrypto := {
  PublicKey : Type;
  from_public_key_pem : string -> outcome string PublicKey;
  key_bits : PublicKey -> Z;
  encrypt : string -> PublicKey -> outcome string string;
  base64_decode : string -> option string;
  hex_encode : string -> string }.

Definition validate_public_key `{BotCrypto} (pem : string) : Result PublicKey :=
  match from_public_key_pem pem with
  | Err e => Err (ErrorType.InvalidPublicKey ("Invalid PEM public key: " +:+ e))
  | Panicked => Panicked
  | Ok key =>
      if key_bits key <? 2048 then Err (ErrorType.InvalidPublicKey "RSA key must be at least 2048 bits") else Ok key
  end.
Definition encrypt_for_public_key `{BotCrypto} (data : string) (public_key : PublicKey) : Result string :=
  match encrypt data public_key with
  | Err e => Err (ErrorType.EncryptionError ("RSA encryption failed: " +:+ e))
  | Panicked => Panicked
  | Ok encrypted => Ok encrypted
  end.

(** [RE_USERNAME], [RE_COMMAND_NAME]: the regular expressions of the rules. *)
Class BotPatterns := { re_username : string -> bool; re_command_name : string -> bool }.

Definition create_bot_rules `{BotPatterns} (data : DataCreateBot) : list (string * bool) := [
  ("name", length_within 2 32 (dcb_name data) && re_username (dcb_name data))].
Definition edit_bot_rules `{BotPatterns} (data : DataEditBot) : list (string * bool) := [
  ("name", when_some (fun name => length_within 2 32 name && re_username name) (deb_name data));
  ("interactions_url", when_some (length_within 1 2048) (deb_interactions_url data))].
Definition create_command_rules `{BotPatterns} (data : DataCreateBotCommand) : list (string * bool) := [
  ("name", length_within 1 32 (dcc_name data) && re_command_name (dcc_name data));
  ("description", length_within 1 100 (dcc_description data))].

(** The fields a route sets. *)
Definition PartialBot_edit (public analytics : option bool) (interactions_url : option string) : PartialBot := {|
  pb_id := None; pb_owner := None; pb_token := None; pb_public := public; pb_analytics := analytics;
  pb_discoverable := None; pb_interactions_url := interactions_url; pb_terms_of_service_url := None;
  pb_privacy_policy_url := None; pb_flags := None; pb_bot_type := None; pb_license_type := None;
  pb_license_verified_at := None; pb_joined_server_id := None; pb_public_key_pem := None;
  pb_public_key_registered_at := None |}.
Definition PartialBot_companion (license_type : string) (verified_at : Timestamp) : PartialBot := {|
  pb_id := None; pb_owner := None; pb_token := None; pb_public := None; pb_analytics := None;
  pb_discoverable := None; pb_interactions_url := None; pb_terms_of_service_url := None;
  pb_privacy_policy_url := None; pb_flags := None; pb_bot_type := Some BotType.AiCompanion;
  pb_license_type := Some license_type; pb_license_verified_at := Some verified_at;
  pb_joined_server_id := None; pb_public_key_pem := None; pb_public_key_registered_at := None |}.

(** ** The routes *)

(** A result that is looked at before it is returned. *)
Definition captured {S A} (m : M ErrorType S A) : M ErrorType S (Result A) := fun s =>
  match m s with
  | (Panicked, s') => (Panicked, s')
  | (r, s') => (Ok r, s')
  end.

(** What the code draws while it renames an account ([User::update_username]). *)
Record NameDraws := { nd_since : string; nd_rl_id : string; nd_event_id : string; nd_random : nat }.

Section BotRoutes.
Context {D R : Type} `{Database D} `{PermissionDatabase D} `{UserDirectory D} `{BotDatabase D}.
Context `{Redis R} `{LiveKit} `{HashOrder} `{Validator} `{TextServices} `{BotPatterns} `{BotCrypto}.
Context `{OptionalStruct User PartialUser} `{OptionalStruct Bot PartialBot}.
Context (cutoff : option Z) (nodes : gset string) (online : gset string) (now : Timestamp).
Context (user_limits : User -> Result FeaturesLimits) (global : GlobalLimits).
Local Abbreviation Vm := (M ErrorType (Services D R)).

(** [target.as_bot(db)] with the comparison of the owner. *)
Definition owned_bot (user : User) (target : string) : Vm Bot :=
  bot ← as_bot target;
  if negb (bool_decide (b_owner bot = u_id user)) then throw ErrorType.NotFound else mret bot.

Definition show_self (user : User) : Result v0.User :=
  into_self cutoff false (bool_decide (u_id user ∈ online)) user.
Definition with_user (bot : Bot) (user : User) : Vm BotWithUserResponse :=
  user ← lift_outcome (show_self user);
  mret {| bwu_bot := Bot_to_v0 bot; bwu_user := user |}.

(** [create_bot]; [response] is what the licence server answers for the user. *)
Definition create_bot (response : outcome string LicenseStatus) (ulid nanoid since event_id : string) (r : nat)
    (user : User) (info : DataCreateBot) : Vm BotWithUserResponse :=
  lift_outcome (validate (create_bot_rules info));;
  let is_ai_companion := bool_decide (dcb_bot_type info = Some v0.BotType.AiCompanion) in
  partial ←
    (if is_ai_companion then
       match verify_license response with
       | Ok license => mret (Some (PartialBot_companion (ls_license_type license) now))
       | Err msg => throw (ErrorType.LicenseVerificationFailed
                             (msg +:+ ". Visit https://companion.earthservers.net to get a license."))
       | Panicked => panic
       end
     else mret None);
  '(bot, user) ← on_world (bot_create user_limits ulid nanoid since event_id r now (dcb_name info) user partial);
  with_user bot user.

(** [edit_bot] *)
Definition edit_bot (draws : NameDraws) (token own_token db_token : string) (user : User) (target : string)
    (data : DataEditBot) : Vm BotWithUserResponse :=
  lift_outcome (validate (edit_bot_rules data));;
  bot ← owned_bot user target;
  user ← db (Database.fetch_user (b_id bot));
  user ←
    match deb_name data with
    | Some name =>
        on_world (update_username (nd_since draws) (nd_rl_id draws) (nd_event_id draws) (nd_random draws) user name)
    | None => mret user
    end;
  if bool_decide (deb_public data = None) && bool_decide (deb_analytics data = None)
     && bool_decide (deb_interactions_url data = None) && bool_decide (deb_remove data = [])
  then with_user bot user
  else
    bot ← on_world (bot_update token own_token db_token bot
            (PartialBot_edit (deb_public data) (deb_analytics data) (deb_interactions_url data))
            (map FieldsBot_from_v0 (deb_remove data)));
    with_user bot user.

(** [delete_bot] *)
Definition delete_bot (event_id : string) (user : User) (target : string) : Vm unit :=
  bot ← owned_bot user target;
  on_world (bot_delete event_id bot);;
  remove_user_from_voice_channels nodes (b_id bot).

(** [fetch_bot] *)
Definition fetch_bot (user : User) (target : string) : Vm FetchBotResponse :=
  if bool_decide (is_Some (u_bot user)) then throw ErrorType.IsBot else
  bot ← owned_bot user target;
  user ← db (Database.fetch_user (b_id bot));
  d ← database;
  user ← lift_outcome (user_into cutoff now d None (bool_decide (u_id user ∈ online)) user);
  mret {| fbr_user := user; fbr_bot := Bot_to_v0 bot |}.

(** [fetch_public_bot] *)
Definition fetch_public_bot (user : option User) (target : string) : Vm v0.PublicBot :=
  bot ← db (Database.fetch_bot target);
  if negb (b_public bot)
     && match user with Some x => negb (bool_decide (u_id x = b_owner bot)) | None => true end
  then throw ErrorType.NotFound
  else
    user ← db (Database.fetch_user (b_id bot));
    mret (into_public_bot bot user).

(** [fetch_owned_bots] *)
Definition fetch_owned_bots (user : User) : Vm OwnedBotsResponse :=
  bots ← db (BotDb.fetch_bots_by_user (u_id user));
  users ← db (Database.fetch_users (map b_id bots));
  let bots := sort_by (fun a b => String.compare (b_id a) (b_id b)) bots in
  let users := sort_by (fun a b => String.compare (u_id a) (u_id b)) users in
  users ← lift_outcome (mapM show_self users);
  mret {| obr_users := users; obr_bots := map Bot_to_v0 bots |}.

(** *** Inviting a bot *)

(** The invitation for one channel; [ulid] is the id drawn. *)
Definition share_channel_key (ulid : string) (bot : Bot) (user : User) (public_key : PublicKey) (channel : Channel)
    : Vm unit :=
  if negb (is_encrypted channel) then mret tt else
  key_b64 ← captured (db (BotDb.get_channel_encryption_key (channel_id channel)));
  match (key_b64 ← key_b64;
         key_bytes ← ok_or ErrorType.InvalidOperation (base64_decode key_b64);
         encrypt_for_public_key key_bytes public_key) with
  | Ok encrypted_key =>
      ignore_err (db (BotDb.insert_encrypted_invitation
        {| ei_id := ulid; ei_channel_id := channel_id channel; ei_bot_id := b_id bot; ei_inviter_id := u_id user;
           ei_encrypted_channel_key := hex_encode encrypted_key; ei_created_at := now;
           ei_expires_at := now + 24 * 60 * 60 * 1000 |}))
  | Err _ => mret tt
  | Panicked => panic
  end.
Fixpoint share_channel_keys (ulid : string -> string) (bot : Bot) (user : User) (public_key : PublicKey)
    (channels : list Channel) : Vm unit :=
  match channels with
  | [] => mret tt
  | channel :: rest =>
      share_channel_key (ulid (channel_id channel)) bot user public_key channel;;
      share_channel_keys ulid bot user public_key rest
  end.

(** The registered key of the bot, when there is a valid one. *)
Definition bot_public_key (bot : Bot) : Result PublicKey :=
  pem ← ok_or ErrorType.NotFound (b_public_key_pem bot);
  validate_public_key pem.
Definition share_server_keys (ulid : string -> string) (bot : Bot) (user : User) (server : Server) : Vm unit :=
  match bot_public_key bot with
  | Ok public_key =>
      channels ← captured (db (Database.fetch_channels (s_channels server)));
      match channels with
      | Ok channels => share_channel_keys ulid bot user public_key channels
      | _ => mret tt
      end
  | Err _ => mret tt
  | Panicked => panic
  end.

(** The limit of an AI companion to one server: [true] when it is already there. *)
Definition companion_check (bot : Bot) (server : Server) : Vm bool :=
  if negb (bool_decide (b_bot_type bot = BotType.AiCompanion)) then mret false else
  match b_joined_server_id bot with
  | None => mret false
  | Some current_server_id =>
      if bool_decide (current_server_id = s_id server) then mret true else
      present ← succeeds (db (Database.fetch_member current_server_id (b_id bot)));
      if (present : bool) then
        throw (ErrorType.AICompanionServerLimit
          ("AI Companion bot '" +:+ b_id bot +:+ "' is already in a server. It can only be in 1 server at a time. "
           +:+ "Remove it from the current server first."))
      else
        ignore_err (db (Database.update_bot_joined_server (b_id bot) None));;
        mret false
  end.

(** The branch of a server. *)
Definition invite_to_server (ulid : string -> string) (user : User) (bot : Bot) (bot_user : User) (server : string)
    : Vm unit :=
  server ← db (Database.fetch_server server);
  already ← companion_check bot server;
  if (already : bool) then mret tt else
  '(permissions, _) ← server_permissions now user server;
  require permissions ChannelPermission.ManageServer;;
  result ← captured (on_world (member_create now server bot_user None));
  match result with
  | Ok _ =>
      (if bool_decide (b_bot_type bot = BotType.AiCompanion)
       then ignore_err (db (Database.update_bot_joined_server (b_id bot) (Some (s_id server))))
       else mret tt);;
      share_server_keys ulid bot user server
  | _ => mret tt
  end;;
  _ ← lift_outcome result;
  mret tt.

(** The branch of a group. *)
Definition invite_to_group (ulid : string -> string) (user : User) (bot : Bot) (bot_user : User) (group : string)
    : Vm unit :=
  if bool_decide (b_bot_type bot = BotType.AiCompanion)
  then throw (ErrorType.AICompanionServerLimit "AI Companion bots can only join servers, not groups.")
  else
    channel ← db (Database.fetch_channel group);
    '(permissions, _) ← channel_permissions now user channel;
    require permissions ChannelPermission.InviteOthers;;
    result ← captured (on_world (add_user_to_group (gl_group_size global) channel bot_user (u_id user)));
    match result with
    | Ok channel =>
        if is_encrypted channel then
          match bot_public_key bot with
          | Ok public_key => share_channel_key (ulid (channel_id channel)) bot user public_key channel
          | Err _ => mret tt
          | Panicked => panic
          end
        else mret tt
    | _ => mret tt
    end;;
    _ ← lift_outcome result;
    mret tt.

Definition invite_bot (ulid : string -> string) (user : User) (target : string) (dest : InviteBotDestination)
    : Vm unit :=
  if bool_decide (is_Some (u_bot user)) then throw ErrorType.IsBot else
  bot ← as_bot target;
  if negb (b_public bot) && negb (bool_decide (b_owner bot = u_id user)) then throw ErrorType.BotIsPrivate else
  bot_user ← db (Database.fetch_user (b_id bot));
  match dest with
  | InviteBotDestination.Server server => invite_to_server ulid user bot bot_user server
  | InviteBotDestination.Group group => invite_to_group ulid user bot bot_user group
  end.

(** *** Encryption *)

(** [register_public_key], [accept_encrypted_invite]: called by the bot itself. *)
Definition register_public_key (user : User) (public_key : string) : Vm unit :=
  if bool_decide (u_bot user = None) then throw ErrorType.IsNotBot else
  _ ← lift_outcome (validate_public_key public_key);
  db (BotDb.update_bot_public_key (u_id user) public_key now).
Definition accept_encrypted_invite (user : User) (bot_id channel_id : string) : Vm EncryptedChannelKeyResponse :=
  if bool_decide (u_bot user = None) then throw ErrorType.IsNotBot else
  if negb (bool_decide (u_id user = bot_id)) then throw ErrorType.NotFound else
  invitation ← db (BotDb.fetch_encrypted_invitation channel_id bot_id);
  invitation ← lift_outcome (ok_or ErrorType.NotFound invitation);
  if ei_expires_at invitation <? now then
    ignore_err (db (BotDb.delete_encrypted_invitation (ei_id invitation)));;
    throw ErrorType.InvitationExpired
  else
    db (BotDb.delete_encrypted_invitation (ei_id invitation));;
    mret {| eck_channel_id := ei_channel_id invitation;
            eck_encrypted_channel_key := ei_encrypted_channel_key invitation |}.

(** *** Commands *)

Definition create_bot_command (ulid : string) (user : User) (target : string) (info : DataCreateBotCommand)
    : Vm v0.BotCommand :=
  lift_outcome (validate (create_command_rules info));;
  bot ← owned_bot user target;
  existing ← db (BotDb.fetch_bot_commands_by_bot (b_id bot));
  if 50 <=? Z.of_nat (length existing) then throw ErrorType.TooManyBotCommands else
  if existsb (fun cmd => bool_decide (bc_name cmd = dcc_name info)) existing then throw ErrorType.DuplicateCommandName else
  command ← on_world (command_create ulid (b_id bot) (dcc_name info) (dcc_description info)
                        (map CommandOption_from_v0 (dcc_options info)));
  mret (BotCommand_to_v0 command).
Definition delete_bot_command (user : User) (target command_id : string) : Vm unit :=
  bot ← owned_bot user target;
  command ← db (BotDb.fetch_bot_command command_id);
  if negb (bool_decide (bc_bot_id command = b_id bot)) then throw ErrorType.NotFound else
  on_world (command_delete command).
Definition fetch_bot_commands (user : User) (target : string) : Vm (list v0.BotCommand) :=
  bot ← owned_bot user target;
  commands ← db (BotDb.fetch_bot_commands_by_bot (b_id bot));
  mret (map BotCommand_to_v0 commands).
End BotRoutes.

(** ** What a computation leaves alone *)

Section Fixes.
Context {S X : Type} (f : S -> X).

(** The part [f] of the state is the same afterwards. *)
Definition fixes {A} (m : M ErrorType S A) : Prop := forall s, f (m s).2 = f s.

Lemma fixes_bind {A B} (m : M ErrorType S A) (k : A -> M ErrorType S B) :
  fixes m -> (forall a, fixes (k a)) -> fixes (m ≫= k).
Proof.
  intros Hm Hk s. unfold mbind, M_bind. specialize (Hm s).
  destruct (m s) as [[a|e|] s1]; simpl in *; [|done|done]. by rewrite Hk.
Qed.
Lemma fixes_ret {A} (a : A) : fixes (mret a).
Proof. done. Qed.
Lemma fixes_throw {A} e : fixes (throw e : M ErrorType S A).
Proof. done. Qed.
Lemma fixes_panic {A} : fixes (panic : M ErrorType S A).
Proof. done. Qed.
Lemma fixes_lift {A} (o : Result A) : fixes (lift_outcome o).
Proof. done. Qed.
Lemma fixes_get : fixes get.
Proof. done. Qed.
Lemma fixes_query {A} (g : S -> Result A) : fixes (query g).
Proof. done. Qed.
Lemma fixes_reads {A} (g : S -> A) : fixes (reads g).
Proof. done. Qed.
Lemma fixes_ignore {A} (m : M ErrorType S A) : fixes m -> fixes (ignore_err m).
Proof. intros Hm s. unfold ignore_err. specialize (Hm s). by destruct (m s) as [[]]. Qed.
Lemma fixes_succeeds {A} (m : M ErrorType S A) : fixes m -> fixes (succeeds m).
Proof. intros Hm s. unfold succeeds. specialize (Hm s). by destruct (m s) as [[]]. Qed.
Lemma fixes_captured {A} (m : M ErrorType S A) : fixes m -> fixes (captured m).
Proof. intros Hm s. unfold captured. specialize (Hm s). by destruct (m s) as [[]]. Qed.

(** The state after a step that leaves [f] alone. *)
Lemma after_fixes {A B} (P : X -> Prop) (m : M ErrorType S A) (k : A -> M ErrorType S B) s :
  fixes m -> P (f s) ->
  (forall a s1, m s = (Ok a, s1) -> f s1 = f s -> P (f (k a s1).2)) -> P (f ((m ≫= k) s).2).
Proof.
  intros Hm H0 Hk. unfold mbind, M_bind. specialize (Hm s).
  destruct (m s) as [[a|e|] s1]; simpl in *; [by apply Hk|by rewrite Hm|by rewrite Hm].
Qed.
(** The state before a step that leaves [f] alone. *)
Lemma before_fixes {A B} (m : M ErrorType S A) (k : A -> M ErrorType S B) s :
  (forall a, fixes (k a)) -> f ((m ≫= k) s).2 = f (m s).2.
Proof. intros Hk. unfold mbind, M_bind. destruct (m s) as [[a|e|] s1]; simpl; [apply Hk|done|done]. Qed.
End Fixes.

Create HintDb fixes.
#[export] Hint Resolve fixes_ret fixes_throw fixes_panic fixes_lift fixes_get fixes_query fixes_reads : fixes.
#[export] Hint Extern 1 (fixes _ _) => apply fixes_query : fixes.

(** A part of the database, seen from the world and from the services. *)
Definition of_world {D X} (g : D -> X) (w : World D) : X := g (w_db w).
Definition of_services {D R X} (g : D -> X) (s : Services D R) : X := g (w_db (sv_world s)).

Section Lifts.
Context {D R X : Type} (g : D -> X).

Lemma fixes_call {A} (m : M ErrorType D A) : fixes g m -> fixes (of_world g) (call m).
Proof. intros Hm w. rewrite call_run. apply Hm. Qed.
Lemma fixes_world_set (h : World D -> World D) :
  (forall w, w_db (h w) = w_db w) -> fixes (of_world g) (modify h).
Proof. intros Hh w. unfold of_world. simpl. by rewrite Hh. Qed.
Lemma fixes_p e c : fixes (of_world g) (p e c).
Proof. done. Qed.
Lemma fixes_publish_to e ts : fixes (of_world g) (publish_to e ts).
Proof. induction ts; [done|]. apply fixes_bind; [done|]. intros _. exact IHts. Qed.
Lemma fixes_private e c : fixes (of_world g) (private e c).
Proof. done. Qed.
Lemma fixes_send_system c m : fixes (of_world g) (send_system c m).
Proof. done. Qed.
Lemma fixes_on_world {A} (m : M ErrorType (World D) A) :
  fixes (of_world g) m -> fixes (of_services (R := R) g) (on_world m).
Proof. intros Hm s. rewrite on_world_run. apply Hm. Qed.
Lemma fixes_db {A} (m : M ErrorType D A) : fixes g m -> fixes (of_services (R := R) g) (db m).
Proof. intros Hm. apply fixes_on_world, fixes_call, Hm. Qed.
Lemma fixes_keeps {A} (m : M ErrorType (Services D R) A) : keeps_db m -> fixes (of_services g) m.
Proof. intros Hm s. unfold of_services. by rewrite Hm. Qed.
End Lifts.
#[export] Hint Resolve fixes_p fixes_publish_to fixes_private fixes_send_system : fixes.

(** Tables of the reference database. *)
Section Tables.
Context {K V X : Type} `{Countable K} (tab : ReferenceDb -> gmap K V)
  (set_tab : gmap K V -> ReferenceDb -> ReferenceDb) (g : ReferenceDb -> X).
Context (Hg : forall x d, g (set_tab x d) = g d).

Lemma fixes_insert_new e k v : fixes g (insert_new tab set_tab e k v).
Proof using Hg. intros d. unfold insert_new. destruct (tab d !! k); simpl; auto. Qed.
Lemma fixes_with_mut e k body : fixes g (with_mut tab set_tab e k body).
Proof using Hg. intros d. unfold with_mut. destruct (tab d !! k) as [v|]; [|done]. destruct (body v); simpl; auto. Qed.
Lemma fixes_remove_or e k : fixes g (remove_or tab set_tab e k).
Proof using Hg. intros d. unfold remove_or. destruct (tab d !! k); simpl; auto. Qed.
End Tables.

Ltac fixes :=
  repeat first
    [ match goal with |- forall _, _ => intro end
    | progress cbv zeta
    | solve [auto with fixes]
    | apply fixes_bind
    | apply fixes_ignore
    | apply fixes_succeeds
    | apply fixes_captured
    | apply fixes_on_world
    | apply fixes_db
    | apply fixes_call
    | apply fixes_insert_new; done
    | apply fixes_with_mut; done
    | apply fixes_remove_or; done
    | match goal with |- fixes _ (match ?x with _ => _ end) => destruct x end ].

(** ** The table of bots *)

Section Table.
Context {R : Type} `{Redis R} `{LiveKit} `{HO : HashOrder} `{Validator} `{TextServices} `{BotPatterns} `{BotCrypto}.
Context `{OptionalStruct Server PartialServer} `{OptionalStruct Role PartialRole}
  `{OptionalStruct Member PartialMember} `{OptionalStruct User PartialUser}.
Context `{OB : OptionalStruct Bot PartialBot} `{BL : !BotOptionalLaws}.
Context (cutoff : option Z) (nodes : gset string).
Context (user_limits : User -> Result FeaturesLimits) (global : GlobalLimits).
Local Abbreviation S := (Services ReferenceDb R).

Definition bots (s : S) : gmap string Bot := of_services db_bots s.

(** What the naming operations and the voice service do leaves the bots alone. *)
Lemma fixes_p_user {X} (g : ReferenceDb -> X) e id : fixes (of_world g) (p_user e id).
Proof.
  intros w. unfold p_user.
  assert (fixes (of_world g) (p e id;; call (Database.fetch_all_memberships id))) as Hf by fixes.
  specialize (Hf w). destruct ((p e id;; _) w) as [r w']. simpl in Hf.
  destruct r as [ms|err|]; [|done|done]. by rewrite fixes_publish_to.
Qed.
#[local] Hint Resolve fixes_p_user : fixes.
Lemma fixes_user_update event_id self partial remove :
  fixes (of_world db_bots) (user_update event_id self partial remove).
Proof. unfold user_update. fixes. Qed.
Lemma fixes_find_discriminator since event_id r name preferred :
  fixes (of_world db_bots) (find_discriminator since event_id r name preferred).
Proof. unfold find_discriminator, create_ratelimit_event. fixes. Qed.
#[local] Hint Resolve fixes_user_update fixes_find_discriminator : fixes.
Lemma fixes_user_create since event_id r now name id data :
  fixes (of_world db_bots) (user_create since event_id r now name id data).
Proof. unfold user_create. fixes. Qed.
Lemma fixes_update_username since rl_id event_id r self name :
  fixes (of_world db_bots) (update_username since rl_id event_id r self name).
Proof. unfold update_username. fixes. Qed.
Lemma fixes_member_create now server user channels :
  fixes (of_world db_bots) (member_create now server user channels).
Proof. unfold member_create. fixes. Qed.
Lemma fixes_add_user_to_group size channel user by_id :
  fixes (of_world db_bots) (add_user_to_group size channel user by_id).
Proof. unfold add_user_to_group. fixes. Qed.
Lemma fixes_remove_from_voice user_id :
  fixes (of_services db_bots) (remove_user_from_voice_channels (R := R) nodes user_id).
Proof.
  unfold remove_user_from_voice_channels. apply fixes_bind; [by apply fixes_keeps, keeps_redis|]. intros channels.
  induction channels as [|c channels IH]; [done|]. apply fixes_bind; [|done].
  apply fixes_keeps, keeps_remove_from_voice.
Qed.
#[local] Hint Resolve fixes_user_create fixes_update_username fixes_member_create fixes_add_user_to_group
  fixes_remove_from_voice : fixes.

(** A bot keeps its identity, its owner, its kind and the server it is in. *)
Definition same_nature (b b' : Bot) : Prop :=
  b_id b' = b_id b /\ b_owner b' = b_owner b /\ b_bot_type b' = b_bot_type b
  /\ b_joined_server_id b' = b_joined_server_id b.

Definition is_companion (b : Bot) : Prop := b_bot_type b = BotType.AiCompanion.
Definition bots_of (owner : string) (m : gmap string Bot) : list Bot :=
  filter (fun bot => b_owner bot = owner) (hm_values m).

(** What a request of [user] may do to the table of bots. *)
Inductive bot_change (user : User) (m : gmap string Bot) : gmap string Bot -> Prop :=
  | bots_same : bot_change user m m
  | bot_edited b b' : m !! b_id b = Some b -> b_owner b = u_id user -> same_nature b b' ->
      bot_change user m (<[b_id b := b']> m)
  | bot_removed b : m !! b_id b = Some b -> b_owner b = u_id user -> bot_change user m (delete (b_id b) m)
  | bot_keyed b pem at_ : is_Some (u_bot user) -> m !! u_id user = Some b ->
      bot_change user m (<[u_id user := b_set_public_key_registered_at (Some at_) (b_set_public_key_pem (Some pem) b)]> m)
  | bot_placed b joined : m !! b_id b = Some b -> is_companion b ->
      b_public b = true \/ b_owner b = u_id user ->
      bot_change user m (<[b_id b := b_set_joined_server_id joined b]> m)
  | bot_created b l : m !! b_id b = None -> b_owner b = u_id user -> u_bot user = None ->
      user_limits user = Ok l -> Z.of_nat (length (bots_of (u_id user) m)) < fl_bots l ->
      (is_companion b -> forall k b', m !! k = Some b' -> b_owner b' = u_id user -> ~ is_companion b') ->
      bot_change user m (<[b_id b := b]> m).

(** A request of a user, whatever it answers. *)
Inductive bot_request (now : Timestamp) (online : gset string) (user : User) (s : S) : S -> Prop :=
  | request_create response ulid nanoid since event_id r info :
      bot_request now online user s
        (create_bot cutoff online now user_limits response ulid nanoid since event_id r user info s).2
  | request_edit draws token own_token db_token target data :
      bot_request now online user s (edit_bot cutoff online draws token own_token db_token user target data s).2
  | request_delete event_id target : bot_request now online user s (delete_bot nodes event_id user target s).2
  | request_invite ulid target dest : bot_request now online user s (invite_bot now global ulid user target dest s).2
  | request_register key : bot_request now online user s (register_public_key now user key s).2
  | request_accept bot channel : bot_request now online user s (accept_encrypted_invite now user bot channel s).2
  | request_command ulid target info : bot_request now online user s (create_bot_command ulid user target info s).2
  | request_uncommand target command : bot_request now online user s (delete_bot_command user target command s).2.

Definition bots_keyed (s : S) : Prop := map_Forall (fun k b => b_id b = k) (bots s).

Lemma as_bot_run target (s : S) b s1 :
  as_bot target s = (Ok b, s1) -> s1 = s /\ bots s !! target = Some b.
Proof.
  unfold as_bot, db. rewrite on_world_run, call_run. simpl. unfold Ref.fetch_bot, get_or, ok_or.
  destruct (db_bots _ !! target) eqn:E; [|done]. intros [= -> <-]. split; [|exact E].
  destruct s as [[]]. done.
Qed.

Lemma fixes_as_bot target : fixes (of_services (R := R) db_bots) (as_bot target).
Proof. apply fixes_db. fixes. Qed.
#[local] Hint Resolve fixes_as_bot : fixes.
Lemma fixes_owned user target : fixes (of_services (R := R) db_bots) (owned_bot user target).
Proof. unfold owned_bot. fixes. Qed.
Lemma fixes_with_user online bot user :
  fixes (of_services (R := R) db_bots) (with_user (D := ReferenceDb) cutoff online bot user).
Proof. unfold with_user. fixes. Qed.
#[local] Hint Resolve fixes_owned fixes_with_user : fixes.

Lemma owned_bot_run user target (s s1 : S) b :
  bots_keyed s -> owned_bot user target s = (Ok b, s1) ->
  s1 = s /\ bots s !! b_id b = Some b /\ b_owner b = u_id user.
Proof.
  intros Hk. unfold owned_bot. intros (b' & s2 & [-> Hb]%as_bot_run & E)%M_bind_Ok_inv.
  case_bool_decide; simpl in E; [|done]. injection E as <- <-. split; [done|].
  by rewrite (Hk _ _ Hb).
Qed.

(** *** Each request *)

Lemma bots_on_world {A} (m : M ErrorType (World ReferenceDb) A) (s : S) :
  bots (on_world m s).2 = of_world db_bots (m (sv_world s)).2.
Proof. by rewrite on_world_run. Qed.

Lemma removed_fields_nature token remove b : same_nature b (foldl (bot_remove_field token) b remove).
Proof.
  revert b. induction remove as [|f remove IH]; intros b; [by repeat split|]. simpl.
  destruct (IH (bot_remove_field token b f)) as (E1 & E2 & E3 & E4). unfold same_nature.
  rewrite E1, E2, E3, E4. by destruct f.
Qed.

Lemma edit_nature own_token b public analytics url remove token :
  same_nature b
    (apply_options (foldl (bot_remove_field own_token) b remove)
       (PartialBot_with token (PartialBot_edit public analytics url))).
Proof using BL.
  destruct (removed_fields_nature own_token remove b) as (H1' & H2' & H3' & H4').
  unfold same_nature. by rewrite b_id_applied, b_owner_applied, b_bot_type_applied, b_joined_server_id_applied.
Qed.

Lemma edit_partial token public analytics url (c : bool) : exists t,
  (if c then PartialBot_with (Some token) (PartialBot_edit public analytics url)
   else PartialBot_edit public analytics url) = PartialBot_with t (PartialBot_edit public analytics url).
Proof. destruct c; [by exists (Some token)|by exists None]. Qed.

Lemma bot_update_change user token own_token db_token b public analytics url remove (s : S) :
  bots s !! b_id b = Some b -> b_owner b = u_id user ->
  bot_change user (bots s)
    (bots (on_world (bot_update token own_token db_token b (PartialBot_edit public analytics url) remove) s).2).
Proof using BL.
  intros Hb Ho. unfold bot_update.
  destruct (edit_partial token public analytics url (bool_decide (FieldsBot.Token ∈ remove))) as [t ->].
  destruct (removed_fields_nature own_token remove b) as (Hid & _).
  rewrite bots_on_world.
  rewrite before_fixes by fixes. rewrite call_run. unfold of_world. simpl.
  unfold Ref.update_bot, with_mut. rewrite Hid. unfold bots, of_services in Hb. rewrite Hb. simpl.
  apply bot_edited; [done|done|]. apply edit_nature.
Qed.

Lemma edit_bot_change online draws token own_token db_token user target data (s : S) :
  bots_keyed s ->
  bot_change user (bots s) (bots (edit_bot cutoff online draws token own_token db_token user target data s).2).
Proof using BL.
  intros Hk. unfold edit_bot.
  apply (after_fixes _ (bot_change user (bots s))); [fixes|constructor|]. intros [] s0 E0 Hs0.
  injection E0 as Ev <-.
  apply (after_fixes _ (bot_change user (bots s))); [fixes|constructor|]. intros b s1 E1 Hs1.
  apply owned_bot_run in E1 as (-> & Hb & Ho); [|done].
  apply (after_fixes _ (bot_change user (bots s))); [fixes|constructor|]. intros u s2 E2 Hs2.
  apply (after_fixes _ (bot_change user (bots s))); [fixes|rewrite Hs2; constructor|]. intros u' s3 E3 Hs3.
  assert (bots s3 = bots s) as Hs by (etrans; [exact Hs3|exact Hs2]). rewrite <- Hs in Hb |- *.
  destruct (_ && _).
  - unfold bots. rewrite fixes_with_user. constructor.
  - unfold bots at 2. rewrite before_fixes by fixes. by apply bot_update_change.
Qed.

Lemma delete_bot_change event_id user target (s : S) :
  bots_keyed s -> bot_change user (bots s) (bots (delete_bot nodes event_id user target s).2).
Proof.
  intros Hk. unfold delete_bot.
  apply (after_fixes _ (bot_change user (bots s))); [fixes|constructor|]. intros b s1 E1 Hs1.
  apply owned_bot_run in E1 as (-> & Hb & Ho); [|done].
  unfold bots at 2. rewrite before_fixes by fixes. fold (bots (on_world (bot_delete event_id b) s).2).
  rewrite bots_on_world. unfold bot_delete.
  change (bots s) with (of_world db_bots (sv_world s)) in *.
  apply (after_fixes _ (bot_change user (of_world db_bots (sv_world s)))); [fixes|constructor|]. intros u w1 _ Hw1.
  apply (after_fixes _ (bot_change user (of_world db_bots (sv_world s))));
    [apply fixes_user_update|rewrite Hw1; constructor|]. intros u' w2 _ Hw2.
  rewrite call_run. simpl. unfold Ref.delete_bot, remove_or, of_world at 2. rewrite Hw1 in Hw2.
  unfold of_world in Hw2 at 1. rewrite Hw2, Hb. simpl. by apply bot_removed.
Qed.

(** A step that leaves the bots alone, in front of the rest of a request. *)
Lemma change_bind {A B} user m0 (m : M ErrorType S A) (k : A -> M ErrorType S B) s :
  bots s = m0 -> fixes bots m ->
  (forall a s1, m s = (Ok a, s1) -> bots s1 = m0 -> bot_change user m0 (bots (k a s1).2)) ->
  bot_change user m0 (bots ((m ≫= k) s).2).
Proof.
  intros <- Hm Hk. apply (after_fixes _ (bot_change user (bots s))); [done|constructor|].
  intros a s1 E1 Hs1. by apply Hk.
Qed.
Lemma change_world {A B} user m0 (m : M ErrorType (World ReferenceDb) A) (k : A -> M ErrorType (World ReferenceDb) B) w :
  of_world db_bots w = m0 -> fixes (of_world db_bots) m ->
  (forall a w1, m w = (Ok a, w1) -> of_world db_bots w1 = m0 -> bot_change user m0 (of_world db_bots (k a w1).2)) ->
  bot_change user m0 (of_world db_bots ((m ≫= k) w).2).
Proof.
  intros <- Hm Hk. apply (after_fixes _ (bot_change user (of_world db_bots w))); [done|constructor|].
  intros a w1 E1 Hw1. by apply Hk.
Qed.
Lemma change_none {A} user (m : M ErrorType S A) s : fixes bots m -> bot_change user (bots s) (bots (m s).2).
Proof. intros Hm. rewrite Hm. constructor. Qed.

Lemma find_companion owner (d : ReferenceDb) k b :
  Ref.find_ai_companion_bot_by_owner d owner = Ok None ->
  db_bots d !! k = Some b -> b_owner b = owner -> ~ is_companion b.
Proof.
  unfold Ref.find_ai_companion_bot_by_owner. intros [= Hf] Hb <- Hc.
  assert (In b (hm_values (db_bots d))) as Hin by (apply list_elem_of_In, elem_of_hm_values; by exists k).
  apply (find_none _ _ Hf) in Hin. by rewrite !bool_decide_true in Hin.
Qed.

(** The data of a bot that is created: at most its kind and licence. *)
Definition plain_data (data : option PartialBot) : Prop :=
  match data with
  | Some data => pb_id data = None /\ pb_owner data = None
                 /\ (pb_bot_type data = None \/ pb_bot_type data = Some BotType.AiCompanion)
  | None => True
  end.

Lemma created_bot ulid owner nanoid data :
  plain_data data ->
  let bot := match data with Some data => apply_options (new_bot ulid owner nanoid) data
             | None => new_bot ulid owner nanoid end in
  b_id bot = ulid /\ b_owner bot = owner /\ (is_companion bot -> wants_companion data = true).
Proof using BL.
  destruct data as [data|]; [|done]. intros (Hi & Ho & Ht). cbv zeta. unfold is_companion, wants_companion.
  rewrite b_id_applied, b_owner_applied, b_bot_type_applied, Hi, Ho.
  destruct Ht as [->| ->]; repeat split; try done.
Qed.

Lemma bot_create_change ulid nanoid since event_id r now name user data (s : S) :
  plain_data data ->
  bot_change user (bots s)
    (bots (on_world (bot_create user_limits ulid nanoid since event_id r now name user data) s).2).
Proof using BL.
  intros Hp. rewrite bots_on_world. change (bots s) with (of_world db_bots (sv_world s)).
  generalize (sv_world s). intros w. set (m := of_world db_bots w). unfold bot_create.
  case_bool_decide as Hbot; [constructor|]. apply eq_None_not_Some in Hbot.
  apply change_world; [done|fixes|]. intros count w1 E1 Hw1. rewrite call_run in E1. injection E1 as Hc <-.
  apply change_world; [done|fixes|]. intros limits w2 E2 Hw2. injection E2 as Hl <-.
  destruct (fl_bots limits <=? count) eqn:Hlt; [rewrite <- Hw2; constructor|]. apply Z.leb_gt in Hlt.
  apply change_world; [done|fixes|]. intros [] w3 E3 Hw3.
  assert (wants_companion data = true ->
    forall k b', m !! k = Some b' -> b_owner b' = u_id user -> ~ is_companion b') as Hnone.
  { intros Hw k b' Hb' Ho. rewrite Hw in E3. apply M_bind_Ok_inv in E3 as (o & w4 & E4 & E5).
    rewrite call_run in E4. injection E4 as E4 <-. case_bool_decide as Ho'; [done|].
    apply eq_None_not_Some in Ho'. subst o. exact (find_companion _ _ _ _ (f_equal Ok Ho') Hb' Ho). }
  apply change_world; [done|fixes|]. intros u w4 _ Hw4. cbv zeta.
  destruct (created_bot ulid (u_id user) nanoid data Hp) as (Hi & Ho & Hk).
  set (bot := match data with Some _ => _ | None => _ end) in *.
  rewrite before_fixes by fixes. rewrite call_run. unfold of_world. simpl.
  unfold Ref.insert_bot, insert_new. change (db_bots (w_db w4)) with (of_world db_bots w4). rewrite Hw4.
  destruct (m !! b_id bot) eqn:E; simpl; [rewrite <- Hw4; constructor|].
  apply (bot_created user m bot limits); [done|done|done|done| |].
  - rewrite <- Hc in Hlt. exact Hlt.
  - intros Hcomp. exact (Hnone (Hk Hcomp)).
Qed.

Lemma create_bot_change online now response ulid nanoid since event_id r user info (s : S) :
  bot_change user (bots s)
    (bots (create_bot cutoff online now user_limits response ulid nanoid since event_id r user info s).2).
Proof using BL.
  unfold create_bot. apply change_bind; [done|fixes|]. intros [] s1 _ Hs1. cbv zeta.
  apply change_bind; [done|fixes|]. intros partial s2 E2 Hs2. rewrite <- Hs2.
  unfold bots at 2. rewrite before_fixes by fixes. apply bot_create_change.
  case_bool_decide; [|by injection E2 as <- _]. destruct (verify_license response); [|done|done].
  injection E2 as <- _. split; [done|]. split; [done|by right].
Qed.

Lemma update_joined_run id b joined (s : S) :
  bots s !! id = Some b ->
  bots (ignore_err (db (Database.update_bot_joined_server id joined)) s).2
  = <[id := b_set_joined_server_id joined b]> (bots s).
Proof.
  intros Hb. unfold ignore_err, db. rewrite on_world_run, call_run. simpl.
  unfold Ref.update_bot_joined_server, with_mut. change (db_bots (w_db (sv_world s))) with (bots s). by rewrite Hb.
Qed.

Lemma fixes_share ulid bot user now channels key :
  fixes bots (share_channel_keys now ulid bot user key channels).
Proof. induction channels as [|c channels IH]; simpl; [done|]. unfold share_channel_key. fixes. Qed.
#[local] Hint Resolve fixes_share : fixes.
Lemma fixes_share_server ulid bot user now server : fixes bots (share_server_keys now ulid bot user server).
Proof. unfold share_server_keys. fixes. Qed.
Lemma fixes_permissions user server now : fixes bots (server_permissions (R := R) now user server).
Proof. unfold server_permissions, database. fixes. Qed.
Lemma fixes_channel_permissions user channel now : fixes bots (channel_permissions (R := R) now user channel).
Proof. unfold channel_permissions, database. fixes. Qed.
Lemma fixes_require permissions permission : fixes bots (require (D := ReferenceDb) (R := R) permissions permission).
Proof. unfold require. fixes. Qed.
#[local] Hint Resolve fixes_share_server fixes_permissions fixes_channel_permissions fixes_require : fixes.

Lemma M_bind_panicked {S A B} (m : M ErrorType S A) (f : A -> M ErrorType S B) s s' :
  m s = (Panicked, s') -> mbind f m s = (Panicked, s').
Proof. intros E. unfold mbind, M_bind. by rewrite E. Qed.

(** The server of the bot is recorded anew, or nothing changes. *)
Definition replaced (id : string) (b : Bot) (m m' : gmap string Bot) : Prop :=
  m' = m \/ is_companion b /\ exists joined, m' = <[id := b_set_joined_server_id joined b]> m.

(** What the limit to one server leaves in the table. *)
Lemma companion_check_run bot server (s s1 : S) r :
  bots s !! b_id bot = Some bot -> companion_check bot server s = (r, s1) ->
  replaced (b_id bot) bot (bots s) (bots s1).
Proof.
  intros Hb. unfold companion_check. case_bool_decide as Hc; simpl; [|intros [= <- <-]; by left].
  destruct (b_joined_server_id bot) as [current|]; [|intros [= <- <-]; by left].
  case_bool_decide; [intros [= <- <-]; by left|].
  assert (fixes bots (succeeds (db (Database.fetch_member current (b_id bot))))) as Hf by fixes.
  specialize (Hf s).
  destruct (succeeds (db (Database.fetch_member current (b_id bot))) s) as [[[]|e|] s2] eqn:E2; simpl in Hf.
  - erewrite M_bind_ok by exact E2. intros [= <- <-]. by left.
  - erewrite M_bind_ok by exact E2. intros E. right. split; [done|].
    change s1 with ((r, s1).2). rewrite <- E. unfold bots at 1. rewrite before_fixes by fixes.
    rewrite <- Hf. rewrite <- Hf in Hb. exists None. by apply update_joined_run.
  - erewrite M_bind_err by exact E2. intros [= <- <-]. by left.
  - erewrite M_bind_panicked by exact E2. intros [= <- <-]. by left.
Qed.

Lemma replaced_trans id b m m1 m2 :
  m !! id = Some b -> replaced id b m m1 ->
  (forall b1, m1 !! id = Some b1 -> b_bot_type b1 = b_bot_type b -> replaced id b1 m1 m2) -> replaced id b m m2.
Proof.
  intros Hb [->|(Hc & j & ->)] H12; [by apply H12|].
  destruct (H12 (b_set_joined_server_id j b)) as [->|(_ & j' & ->)]; [by simplify_map_eq|done| |].
  - right. split; [done|]. by exists j.
  - right. split; [done|]. exists j'. by rewrite insert_insert_eq.
Qed.

Lemma replaced_change user b m m' :
  m !! b_id b = Some b -> b_public b = true \/ b_owner b = u_id user ->
  replaced (b_id b) b m m' -> bot_change user m m'.
Proof. intros Hb Hp [->|(Hc & j & ->)]; [constructor|]. by apply bot_placed. Qed.

Lemma replaced_bind {A B} id b (m : M ErrorType S A) (k : A -> M ErrorType S B) s :
  fixes bots m ->
  (forall a s1, m s = (Ok a, s1) -> bots s1 = bots s -> replaced id b (bots s) (bots (k a s1).2)) ->
  replaced id b (bots s) (bots ((m ≫= k) s).2).
Proof. intros Hm Hk. apply (after_fixes _ (replaced id b (bots s))); [done|by left|exact Hk]. Qed.

(** The branch of a server once the limit is checked. *)
Lemma join_server_replaced now ulid user bot bot_user server b1 (s : S) :
  bots s !! b_id bot = Some b1 -> b_bot_type b1 = b_bot_type bot ->
  replaced (b_id bot) b1 (bots s) (bots ((
    '(permissions, _) ← server_permissions now user server;
    require permissions ChannelPermission.ManageServer;;
    result ← captured (on_world (member_create now server bot_user None));
    match result with
    | Ok _ =>
        (if bool_decide (b_bot_type bot = BotType.AiCompanion)
         then ignore_err (db (Database.update_bot_joined_server (b_id bot) (Some (s_id server))))
         else mret tt);;
        share_server_keys now ulid bot user server
    | _ => mret tt
    end;;
    _ ← lift_outcome result;
    mret tt) s).2).
Proof.
  intros Hb Ht.
  apply replaced_bind; [fixes|]. intros [permissions q] s1 _ Hs1. rewrite <- Hs1 in *.
  apply replaced_bind; [fixes|]. intros [] s2 _ Hs2. rewrite <- Hs2 in *.
  apply replaced_bind; [fixes|]. intros result s3 _ Hs3. rewrite <- Hs3 in *.
  unfold bots at 2. rewrite before_fixes by fixes.
  destruct result as [x|e|]; [|by left|by left]. rewrite before_fixes by fixes.
  case_bool_decide as Hc; [|by left]. right. split; [by unfold is_companion; rewrite Ht|].
  eexists. by apply update_joined_run.
Qed.

Lemma invite_bot_change now ulid user target dest (s : S) :
  bots_keyed s -> bot_change user (bots s) (bots (invite_bot now global ulid user target dest s).2).
Proof.
  intros Hk. unfold invite_bot. case_bool_decide as Hbot; [constructor|].
  apply change_bind; [done|fixes|]. intros bot s1 [-> Hb]%as_bot_run _.
  rewrite <- (Hk _ _ Hb) in Hb.
  destruct (negb _ && negb _) eqn:Hp; [constructor|].
  assert (b_public bot = true \/ b_owner bot = u_id user) as Hp'.
  { destruct (b_public bot); [by left|right]. by case_bool_decide. }
  apply change_bind; [done|fixes|]. intros bot_user s2 _ Hs2. rewrite <- Hs2 in *.
  destruct dest as [server|group]; [|apply change_none; unfold invite_to_group, share_channel_key; fixes].
  unfold invite_to_server. apply change_bind; [done|fixes|]. intros srv s3 _ Hs3. rewrite <- Hs3 in *.
  apply (replaced_change user bot); [done|done|].
  destruct (companion_check bot srv s3) as [r s4] eqn:E4.
  pose proof (companion_check_run _ _ _ _ _ Hb E4) as H34.
  destruct r as [[]|e|]; [| |by erewrite M_bind_err by exact E4|by erewrite M_bind_panicked by exact E4].
  - by erewrite M_bind_ok by exact E4.
  - erewrite M_bind_ok by exact E4. eapply replaced_trans; [done|exact H34|]. intros b1 Hb1 Ht.
    by apply join_server_replaced.
Qed.

Lemma bot_request_change now online user (s s' : S) :
  bots_keyed s -> bot_request now online user s s' -> bot_change user (bots s) (bots s').
Proof using BL.
  intros Hk [response ulid nanoid since event_id r info|draws token own_token db_token target data|event_id target
    |ulid target dest|key|bot channel|ulid target info|target command].
  - apply create_bot_change.
  - by apply edit_bot_change.
  - by apply delete_bot_change.
  - by apply invite_bot_change.
  - unfold register_public_key. case_bool_decide as Hbot; [constructor|].
    apply change_bind; [done|fixes|]. intros key' s1 _ Hs1. unfold db. rewrite bots_on_world, call_run.
    unfold of_world. simpl. unfold Ref.update_bot_public_key, with_mut.
    change (db_bots (w_db (sv_world s1))) with (bots s1). rewrite Hs1.
    destruct (bots s !! u_id user) as [b|] eqn:Hb; simpl; [|rewrite <- Hs1; constructor].
    apply bot_keyed; [|done]. destruct (u_bot user); [by eexists|done].
  - apply change_none. unfold accept_encrypted_invite. fixes.
  - apply change_none. unfold create_bot_command, command_create. fixes.
  - apply change_none. unfold delete_bot_command, command_delete. fixes.
Qed.

(** C25: Who is not the owner of a bot leaves it as it is, unless it is the bot itself,
    which may register a key for its encrypted channels, or the bot is a public
    companion, whose server is recorded when it is invited. *)
Theorem bots_protected now online user (s s' : S) id b :
  bots_keyed s -> bot_request now online user s s' ->
  bots s !! id = Some b -> b_owner b <> u_id user ->
  bots s' !! id = Some b
  \/ (id = u_id user /\ is_Some (u_bot user)
      /\ exists pem at_, bots s' !! id
           = Some (b_set_public_key_registered_at (Some at_) (b_set_public_key_pem (Some pem) b)))
  \/ (is_companion b /\ b_public b = true
      /\ exists joined, bots s' !! id = Some (b_set_joined_server_id joined b)).
Proof using BL.
  intros Hk Hr Hb Ho. apply bot_request_change in Hr; [|done]. revert Hr. generalize (bots s').
  intros m' [|b0 b' Hb0 Ho0 _|b0 Hb0 Ho0|b0 pem at_ Hbot Hb0|b0 joined Hb0 Hc Hp|b0 l Hb0 _ _ _ _ _].
  - by left.
  - left. rewrite lookup_insert_ne; [done|]. intros <-. by simplify_eq.
  - left. rewrite lookup_delete_ne; [done|]. intros <-. by simplify_eq.
  - destruct (decide (u_id user = id)) as [<-|Hne]; [|left; by rewrite lookup_insert_ne].
    right. left. simplify_eq. split; [done|]. split; [done|]. exists pem, at_. by simplify_map_eq.
  - destruct (decide (b_id b0 = id)) as [<-|Hne]; [|left; by rewrite lookup_insert_ne].
    simplify_eq. destruct Hp as [Hp|]; [|done]. right. right. split; [done|]. split; [done|].
    exists joined. by simplify_map_eq.
  - left. rewrite lookup_insert_ne; [done|]. intros <-. congruence.
Qed.

(** *** Limits *)

Lemma bots_of_insert owner id b (m : gmap string Bot) :
  m !! id = None ->
  length (bots_of owner (<[id := b]> m))
  = ((if decide (b_owner b = owner) then 1 else 0) + length (bots_of owner m))%nat.
Proof.
  intros Hn. unfold bots_of, hm_values.
  rewrite !hm_iter_perm, map_to_list_insert by done. rewrite fmap_cons, filter_cons. by destruct (decide _).
Qed.

(** An owner has at most [bound] bots and one companion. *)
Definition limits_ok (bound : Z) (m : gmap string Bot) : Prop :=
  (forall owner, Z.of_nat (length (bots_of owner m)) <= bound)
  /\ (forall i j a b, m !! i = Some a -> m !! j = Some b -> b_owner a = b_owner b ->
       is_companion a -> is_companion b -> i = j).
Definition keyed (m : gmap string Bot) : Prop := map_Forall (fun k b => b_id b = k) m.

Lemma limits_delete bound id m : limits_ok bound m -> limits_ok bound (delete id m).
Proof.
  intros [Hl Hc]. split.
  - intros owner. specialize (Hl owner). destruct (m !! id) as [b|] eqn:E; [|by rewrite delete_id].
    rewrite <- (insert_delete_id m id b E) in Hl. rewrite bots_of_insert in Hl by apply lookup_delete_eq. lia.
  - intros i j a b [_ Ha]%lookup_delete_Some [_ Hb]%lookup_delete_Some. by apply Hc.
Qed.

Lemma limits_insert bound id b m :
  m !! id = None -> Z.of_nat (length (bots_of (b_owner b) m)) < bound ->
  (is_companion b -> forall k b', m !! k = Some b' -> b_owner b' = b_owner b -> ~ is_companion b') ->
  limits_ok bound m -> limits_ok bound (<[id := b]> m).
Proof.
  intros Hn Hlt Hone [Hl Hc]. split.
  - intros owner. rewrite bots_of_insert by done. specialize (Hl owner).
    destruct (decide (b_owner b = owner)) as [<-|]; lia.
  - intros i j x y [[<- <-]|[Hi Hx]]%lookup_insert_Some [[<- <-]|[Hj Hy]]%lookup_insert_Some Ho Hcx Hcy.
    + done.
    + exfalso. by eapply Hone.
    + exfalso. by eapply Hone.
    + by eapply Hc.
Qed.

Lemma limits_update bound id b b' m :
  m !! id = Some b -> b_owner b' = b_owner b -> b_bot_type b' = b_bot_type b ->
  limits_ok bound m -> limits_ok bound (<[id := b']> m).
Proof.
  intros Hb Ho Ht [Hl Hc]. split.
  - intros owner. specialize (Hl owner). rewrite <- (insert_delete_id m id b Hb) in Hl.
    rewrite <- insert_delete_eq. rewrite bots_of_insert in Hl |- * by apply lookup_delete_eq. by rewrite Ho.
  - assert (forall i x, <[id := b']> m !! i = Some x -> exists y, m !! i = Some y
      /\ b_owner y = b_owner x /\ b_bot_type y = b_bot_type x) as Hold.
    { intros i x [[<- <-]|[Hi Hx]]%lookup_insert_Some; [by exists b|by exists x]. }
    intros i j x y (x' & Hx & Hox & Htx)%Hold (y' & Hy & Hoy & Hty)%Hold Hxy Hcx Hcy.
    unfold is_companion in *. eapply (Hc i j x' y'); [done|done|congruence..].
Qed.

Lemma bot_change_limits bound user m m' :
  (forall u l, user_limits u = Ok l -> fl_bots l <= bound) ->
  keyed m -> limits_ok bound m -> bot_change user m m' -> keyed m' /\ limits_ok bound m'.
Proof.
  intros Hu Hk Hok
    [|b0 b' Hb0 Ho0 (Hi & Ho & Ht & _)|b0 Hb0 Ho0|b0 pem at_ Hbot Hb0|b0 joined Hb0 Hc Hp|b0 l Hb0 Ho _ Hl Hlt Hone].
  - done.
  - split; [by apply map_Forall_insert_2|]. by eapply limits_update.
  - split; [by apply map_Forall_delete|]. by apply limits_delete.
  - split; [apply map_Forall_insert_2; [exact (Hk _ _ Hb0)|done]|]. by eapply limits_update.
  - split; [by apply map_Forall_insert_2|]. by eapply limits_update.
  - split; [by apply map_Forall_insert_2|]. apply Hu in Hl. rewrite <- Ho in *.
    apply limits_insert; [done|lia|done|done].
Qed.

(** Requests of any users, one after the other. *)
Definition bot_step (s s' : S) : Prop := exists now online user, bot_request now online user s s'.

(** Whatever the users request, an owner never has more bots than the highest
    configured limit nor two AI companions. *)
Theorem bot_limits_hold bound (s s' : S) :
  (forall u l, user_limits u = Ok l -> fl_bots l <= bound) ->
  keyed (bots s) -> limits_ok bound (bots s) -> rtc bot_step s s' ->
  keyed (bots s') /\ limits_ok bound (bots s').
Proof using BL.
  intros Hu Hk Hok Hr. induction Hr as [|s s1 s' (now & online & user & Hr) _ IH]; [done|].
  apply bot_request_change in Hr; [|done].
  destruct (bot_change_limits bound user _ _ Hu Hk Hok Hr) as [Hk1 Hok1]. by apply IH.
Qed.

(** *** One server for a companion *)

Definition member_table (s : S) : gmap MemberCompositeKey Member := of_services db_server_members s.
(** A companion is a member of the server that is recorded for it only. *)
Definition one_server (s : S) : Prop :=
  forall key m b, member_table s !! key = Some m -> bots s !! mk_user key = Some b -> is_companion b ->
    b_joined_server_id b = Some (mk_server key).

(** Both tables at once. *)
Definition roster (d : ReferenceDb) := (db_bots d, db_server_members d).
Lemma roster_eq (s s' : S) :
  of_services roster s' = of_services roster s -> bots s' = bots s /\ member_table s' = member_table s.
Proof. by intros [= ? ?]. Qed.
Lemma one_server_ext (s s' : S) : of_services roster s' = of_services roster s -> one_server s -> one_server s'.
Proof. intros [Hb Hm]%roster_eq H' key m b. rewrite Hb, Hm. apply H'. Qed.

Lemma roster_invite_group now ulid user bot bot_user group :
  fixes (of_services roster) (invite_to_group (R := R) now global ulid user bot bot_user group).
Proof.
  unfold invite_to_group, share_channel_key, channel_permissions, require, add_user_to_group, database. fixes.
Qed.
Lemma roster_share ulid bot user now server :
  fixes (of_services roster) (share_server_keys (R := R) now ulid bot user server).
Proof.
  unfold share_server_keys. fixes. rename a0 into channels.
  induction channels as [|c channels IH]; simpl; [done|]. unfold share_channel_key. fixes.
Qed.
Lemma roster_permissions user server now :
  fixes (of_services roster) (server_permissions (R := R) now user server).
Proof. unfold server_permissions, database. fixes. Qed.
Lemma members_update_joined id joined :
  fixes member_table (ignore_err (db (R := R) (Database.update_bot_joined_server id joined))).
Proof. fixes. Qed.

Lemma member_create_members now server user (w w' : World ReferenceDb) x :
  member_create now server user None w = (Ok x, w') ->
  db_server_members (w_db w') = <[member_key (s_id server) (u_id user) := m_new now (s_id server) (u_id user)]>
    (db_server_members (w_db w)).
Proof.
  unfold member_create. intros (banned & w1 & E1 & E)%M_bind_Ok_inv.
  rewrite succeeds_fetch_ban in E1. injection E1 as <- <-. case_bool_decide; [done|].
  apply M_bind_Ok_inv in E as (present & w1 & E1 & E).
  rewrite succeeds_fetch_member in E1. injection E1 as <- <-. case_bool_decide as Hm; [done|].
  apply M_bind_Ok_inv in E as (updated & w1 & E1 & E).
  assert (db_server_members (w_db w') = db_server_members (w_db w1)) as ->.
  { change (of_world db_server_members w' = of_world db_server_members w1).
    match type of E with ?m w1 = _ => assert (fixes (of_world db_server_members) m) as Hf by fixes end.
    by rewrite <- (Hf w1), E. }
  apply eq_None_not_Some in Hm. set (key := member_key (s_id server) (u_id user)) in *.
  rewrite call_run in E1. unfold Database.insert_or_merge_member in E1. simpl in E1.
  unfold Ref.insert_or_merge_member, insert_new, mbind, M_bind in E1. simpl in E1. fold key in E1.
  rewrite Hm in E1. by injection E1 as _ <-.
Qed.

Lemma succeeds_db_member sid uid (s : S) :
  succeeds (db (Database.fetch_member sid uid)) s = (Ok (bool_decide (is_Some (member_table s !! member_key sid uid))), s).
Proof.
  unfold succeeds, db. rewrite on_world_run, call_run. simpl. unfold Ref.fetch_member, get_or, member_table, of_services.
  destruct s as [[] ? ?]. simpl. by destruct (_ !! member_key sid uid).
Qed.

(** A companion that passes the check is in no server. *)
Lemma companion_check_free bot server (s s1 : S) :
  bots s !! b_id bot = Some bot -> one_server s -> is_companion bot ->
  companion_check bot server s = (Ok false, s1) ->
  member_table s1 = member_table s /\ forall sid, member_table s !! member_key sid (b_id bot) = None.
Proof.
  intros Hb Hone Hc. unfold companion_check. rewrite bool_decide_true by done. simpl.
  assert (forall sid, is_Some (member_table s !! member_key sid (b_id bot)) -> b_joined_server_id bot = Some sid) as Hj.
  { intros sid [m Hm]. exact (Hone _ _ _ Hm Hb Hc). }
  destruct (b_joined_server_id bot) as [current|].
  - case_bool_decide; [done|]. erewrite M_bind_ok by apply succeeds_db_member.
    case_bool_decide as Hm; [done|]. intros E. split.
    + change s1 with ((Ok false : Result bool, s1).2). rewrite <- E. unfold member_table. rewrite before_fixes by fixes.
      apply members_update_joined.
    + intros sid. apply eq_None_not_Some. intros Hs. apply Hj in Hs as Hsid. injection Hsid as ->. done.
  - intros [= <-]. split; [done|]. intros sid. apply eq_None_not_Some. intros Hs. by apply Hj in Hs.
Qed.

(** The last steps of a successful invitation to a server. *)
Lemma join_server_run now ulid user bot bot_user server (s s' : S) :
  ('(permissions, _) ← server_permissions now user server;
   require permissions ChannelPermission.ManageServer;;
   result ← captured (on_world (member_create now server bot_user None));
   match result with
   | Ok _ =>
       (if bool_decide (b_bot_type bot = BotType.AiCompanion)
        then ignore_err (db (Database.update_bot_joined_server (b_id bot) (Some (s_id server))))
        else mret tt);;
       share_server_keys now ulid bot user server
   | _ => mret tt
   end;;
   _ ← lift_outcome result;
   mret tt) s = (Ok tt, s') ->
  member_table s' = <[member_key (s_id server) (u_id bot_user) := m_new now (s_id server) (u_id bot_user)]> (member_table s)
  /\ (is_companion bot -> forall b1, bots s !! b_id bot = Some b1 ->
        bots s' = <[b_id bot := b_set_joined_server_id (Some (s_id server)) b1]> (bots s))
  /\ (~ is_companion bot -> bots s' = bots s).
Proof.
  intros E. apply M_bind_Ok_inv in E as ([permissions q] & s1 & E1 & E).
  assert (of_services roster s1 = of_services roster s) as [Hb1 Hm1]%roster_eq.
  { rewrite <- (roster_permissions user server now s). by rewrite E1. }
  apply M_bind_Ok_inv in E as ([] & s2 & E2 & E).
  assert (s2 = s1) as -> by (unfold require in E2; by injection E2). clear E2.
  apply M_bind_Ok_inv in E as (result & s2 & E2 & E).
  apply M_bind_Ok_inv in E as ([] & s3 & E3 & E). apply M_bind_Ok_inv in E as (x & s4 & E4 & E).
  injection E as <-. injection E4 as -> <-.
  assert (on_world (member_create now server bot_user None) s1 = (Ok x, s2)) as E2'.
  { unfold captured in E2. by destruct (on_world _ s1) as [[]]; simplify_eq. }
  clear E2. pose proof (fixes_on_world _ _ (fixes_member_create now server bot_user None) s1) as Hb2.
  rewrite E2' in Hb2. simpl in Hb2. change (bots s2 = bots s1) in Hb2.
  rewrite on_world_run in E2'. injection E2' as E2' <-.
  destruct (member_create now server bot_user None (sv_world s1)) as [o w2] eqn:Ew. simpl in E2'. subst o.
  apply member_create_members in Ew.
  change (member_table (sv_set_world w2 s1) = <[member_key (s_id server) (u_id bot_user) :=
    m_new now (s_id server) (u_id bot_user)]> (member_table s1)) in Ew.
  simpl in E3, Hb2. set (s2 := sv_set_world w2 s1) in *. rewrite Hm1 in Ew. rewrite Hb1 in Hb2.
  apply M_bind_Ok_inv in E3 as ([] & s4 & E4 & E5).
  assert (of_services roster s3 = of_services roster s4) as [Hb3 Hm3]%roster_eq.
  { rewrite <- (roster_share ulid bot user now server s4). by rewrite E5. }
  rewrite Hb3, Hm3. unfold is_companion. case_bool_decide as Hc.
  - split; [|split; [|done]].
    + etrans; [|exact Ew]. change s4 with ((Ok tt : Result unit, s4).2). rewrite <- E4. apply members_update_joined.
    + intros _ b1 Hb. change s4 with ((Ok tt : Result unit, s4).2). rewrite <- E4.
      rewrite <- Hb2 in Hb |- *. by apply update_joined_run.
  - injection E4 as <-. done.
Qed.

Lemma fetch_user_run id (s : S) u s1 :
  db (Database.fetch_user id) s = (Ok u, s1) -> s1 = s /\ of_services db_users s !! id = Some u.
Proof.
  unfold db. rewrite on_world_run, call_run. simpl. unfold Ref.fetch_user, get_or, ok_or, of_services.
  destruct (db_users _ !! id) eqn:E; [|done]. intros [= -> <-]. split; [|done]. by destruct s as [[]].
Qed.

Lemma one_server_joined bot server now (s s1 s' : S) :
  bots s !! b_id bot = Some bot -> one_server s -> companion_check bot server s = (Ok false, s1) ->
  member_table s' = <[member_key (s_id server) (b_id bot) := m_new now (s_id server) (b_id bot)]> (member_table s1) ->
  (is_companion bot -> forall b1, bots s1 !! b_id bot = Some b1 ->
     bots s' = <[b_id bot := b_set_joined_server_id (Some (s_id server)) b1]> (bots s1)) ->
  (~ is_companion bot -> bots s' = bots s1) -> one_server s'.
Proof.
  intros Hb Hone Hcheck Hm Hcomp Hplain.
  pose proof (companion_check_run _ _ _ _ _ Hb Hcheck) as Hrep.
  destruct (decide (b_bot_type bot = BotType.AiCompanion)) as [Hc|Hc].
  - destruct (companion_check_free _ _ _ _ Hb Hone Hc Hcheck) as [Hm1 Hfree].
    assert (exists b1, bots s1 !! b_id bot = Some b1
      /\ forall k, k <> b_id bot -> bots s1 !! k = bots s !! k) as (b1 & Hb1 & Hother).
    { destruct Hrep as [->|(_ & j & ->)]; [by exists bot|]. eexists. split; [apply lookup_insert_eq|].
      intros k Hk. by rewrite lookup_insert_ne. }
    intros key m b. rewrite Hm, (Hcomp Hc b1 Hb1), Hm1. intros [[<- <-]|[Hkey Hm']]%lookup_insert_Some.
    + simpl. rewrite lookup_insert_eq. by intros [= <-].
    + destruct (decide (b_id bot = mk_user key)) as [Heq|Hne].
      * destruct key as [sid uid]. simpl in *. subst uid. specialize (Hfree sid). unfold member_key in Hfree. congruence.
      * rewrite lookup_insert_ne, Hother by done. exact (Hone key m b Hm').
  - assert (s1 = s) as ->.
    { unfold companion_check in Hcheck. rewrite bool_decide_false in Hcheck by done. by injection Hcheck. }
    intros key m b. rewrite Hm, (Hplain Hc). intros [[<- <-]|[_ Hm']]%lookup_insert_Some; [|exact (Hone key m b Hm')].
    simpl. rewrite Hb. by intros [= <-] ?.
Qed.

(** An invitation that is accepted leaves an AI companion in one server at most,
    the one that is recorded for it. *)
Theorem companion_in_one_server now ulid user target dest (s s' : S) :
  map_Forall (fun k u => u_id u = k) (of_services db_users s) -> bots_keyed s -> one_server s ->
  invite_bot now global ulid user target dest s = (Ok tt, s') -> one_server s'.
Proof.
  intros Huk Hbk Hone. unfold invite_bot. case_bool_decide; [done|].
  intros (bot & s1 & [-> Hb]%as_bot_run & E)%M_bind_Ok_inv.
  assert (b_id bot = target) as <- by exact (Hbk _ _ Hb).
  destruct (negb _ && negb _); [done|].
  apply M_bind_Ok_inv in E as (bot_user & s1 & [-> Hu]%fetch_user_run & E).
  assert (u_id bot_user = b_id bot) as Hid by exact (Huk _ _ Hu).
  destruct dest as [server|group].
  - apply M_bind_Ok_inv in E as (srv & s1 & E1 & E).
    assert (of_services roster s1 = of_services roster s) as Hs1.
    { assert (fixes (of_services (R := R) roster) (db (Database.fetch_server server))) as Hf by fixes.
      specialize (Hf s). by rewrite E1 in Hf. }
    apply one_server_ext in Hs1 as Hone1; [|done]. apply roster_eq in Hs1 as [Hb1 _]. rewrite <- Hb1 in Hb.
    apply M_bind_Ok_inv in E as (already & s2 & E2 & E). destruct already.
    + injection E as <-. unfold companion_check in E2. case_bool_decide; [|by injection E2].
      simpl in E2. destruct (b_joined_server_id bot); [|by injection E2].
      case_bool_decide; [by injection E2 as <-|]. erewrite M_bind_ok in E2 by apply succeeds_db_member.
      case_bool_decide; [done|]. by apply M_bind_Ok_inv in E2 as (? & ? & _ & ?).
    + apply join_server_run in E as (Hm & Hc & Hp). rewrite Hid in Hm. by eapply (one_server_joined bot srv now s1 s2 s').
  - eapply one_server_ext; [|exact Hone]. rewrite <- (roster_invite_group now ulid user bot bot_user group s).
    by rewrite E.
Qed.
End Table.

(** ** Witnesses *)

Module BotWitness.
Import SomePriority RedisWitness ModerationWitness.
#[local] Existing Instance UserWitness.ascii_services.
#[local] Instance patterns : BotPatterns := {| re_username _ := true; re_command_name _ := true |}.
#[local] Instance crypto : BotCrypto := {|
  PublicKey := string; from_public_key_pem pem := Ok pem; key_bits _ := 2048; encrypt data _ := Ok data;
  base64_decode := Some; hex_encode s := s |}.

Definition limits : FeaturesLimits := {|
  fl_outgoing_friend_requests := 10; fl_bots := 1; fl_message_length := 2000; fl_message_attachments := 5;
  fl_servers := 50; fl_voice_quality := 16000; fl_max_voice_bitrate := 128000; fl_video := true;
  fl_video_resolution := (1080, 720); fl_video_aspect_ratio := ("0.3", "2.5");
  fl_file_upload_size_limit := ∅; fl_max_stream_viewers := 10; fl_max_server_members := 100 |}.
Definition user_limits (_ : User) : Result FeaturesLimits := Ok limits.
Definition global_limits : GlobalLimits := {|
  gl_group_size := 100; gl_message_embeds := 5; gl_message_replies := 5; gl_message_reactions := 20;
  gl_server_emoji := 100; gl_server_roles := 200; gl_server_channels := 200; gl_new_user_hours := 72;
  gl_body_limit_size := 20000000 |}.

Definition companion : Bot := apply_options (new_bot "b" "owner" "token") (PartialBot_companion "cloud_pro" 0).
Definition d0 : ReferenceDb :=
  set_users {[ "b" := Example.user "b" ]}
    (set_bots {[ "b" := companion ]} (set_servers {[ "server" := s_set_channels [] (Example.server ∅) ]} ReferenceDb_default)).
Definition s0 : Services ReferenceDb Store := {| sv_world := world d0; sv_redis := ∅; sv_livekit := [] |}.

Lemma s0_bots : bots s0 = {[ "b" := companion ]}.
Proof. reflexivity. Qed.
Lemma s0_keyed : bots_keyed s0.
Proof. unfold bots_keyed. rewrite s0_bots. by intros k b [<- <-]%lookup_singleton_Some. Qed.

(** Somebody else tries to delete the bot. *)
Lemma bots_protected_witness :
  bots (delete_bot ∅ "e" (Example.user "other") "b" s0).2 !! "b" = Some companion
  \/ ("b" = "other" /\ is_Some (u_bot (Example.user "other"))
      /\ exists pem at_, bots (delete_bot ∅ "e" (Example.user "other") "b" s0).2 !! "b"
           = Some (b_set_public_key_registered_at (Some at_) (b_set_public_key_pem (Some pem) companion)))
  \/ (is_companion companion /\ b_public companion = true
      /\ exists joined, bots (delete_bot ∅ "e" (Example.user "other") "b" s0).2 !! "b"
           = Some (b_set_joined_server_id joined companion)).
Proof.
  apply (bots_protected None ∅ user_limits global_limits 0 ∅ (Example.user "other") s0).
  - exact s0_keyed.
  - apply request_delete.
  - reflexivity.
  - vm_compute. discriminate.
Defined.

(** The owner asks for a second bot, and is refused. *)
Lemma bot_limits_hold_witness :
  let s' := (create_bot None ∅ 0 user_limits (Err "down") "b2" "t2" "0" "e" 0 (Example.user "owner")
               {| dcb_name := "Second"; dcb_bot_type := None |} s0).2 in
  keyed (bots s') /\ limits_ok 1 (bots s').
Proof.
  cbv zeta. apply (bot_limits_hold None ∅ user_limits global_limits 1 s0).
  - by intros u l [= <-].
  - exact s0_keyed.
  - split.
    + intros owner. change (bots s0) with (<["b" := companion]> (∅ : gmap string Bot)).
      rewrite bots_of_insert by done. change (length (bots_of owner ∅)) with 0%nat. destruct (decide _); lia.
    + rewrite s0_bots. by intros i j a b [<- <-]%lookup_singleton_Some [<- <-]%lookup_singleton_Some.
  - apply rtc_once. exists 0, ∅, (Example.user "owner"). apply request_create.
Defined.

Definition invited : Result unit * Services ReferenceDb Store :=
  invite_bot 0 global_limits (fun c => c) (Example.user "owner") "b" (InviteBotDestination.Server "server") s0.

Lemma invited_ok : invited = (Ok tt, invited.2).
Proof. apply ChannelRouteWitness.pair_result. vm_compute. reflexivity. Qed.

(** The owner of a server invites the companion, which is then recorded there. *)
Lemma companion_in_one_server_witness : one_server invited.2.
Proof.
  apply (companion_in_one_server global_limits 0 (fun c => c) (Example.user "owner") "b"
           (InviteBotDestination.Server "server") s0 invited.2).
  - change (of_services db_users s0) with ({[ "b" := Example.user "b" ]} : gmap string User).
    by intros k u [<- <-]%lookup_singleton_Some.
  - exact s0_keyed.
  - intros key m b Hm. exfalso. exact (lookup_empty_Some key m Hm).
  - exact invited_ok.
Defined.

Example invited_joined :
  b_joined_server_id <$> bots invited.2 !! "b" = Some (Some "server")
  /\ is_Some (member_table invited.2 !! member_key "server" "b").
Proof. vm_compute. split; [reflexivity|]. by eexists. Qed.
End BotWitness.
