(* ===== verification/UserRoutes.v ===== *)
(** * The routes on users, emoji, settings and reports
    ([crates/delta/src/routes/users], [customisation], [sync], [safety],
    [onboard], [policy], [servers/server_ack.rs], [emoji_list.rs],
    [member_fetch_all.rs], [member_experimental_query.rs], [server_fetch.rs],
    [crates/delta/src/util/official_server.rs],
    [safety_snapshots/model.rs], [user_settings/model.rs])

    The state is the [World] of the model methods and the stream of user updates
    that the API serves ([util/user_events.rs]).  [UserRouteDb] is the part of
    the database traits these routes call beside [Database].  Arguments stand for
    the caller, identifiers and times that are drawn, the password check of the
    account library, the answers of the presence service and the configuration.

    The theorems: who edits a profile owns it, owns the bot it belongs to, or is
    privileged, and only privileged users give badges ([user_edit_authorised]);
    a file of somebody else can be deleted by two edits ([any_file_deleted]);
    a server keeps at most the configured number of emoji
    ([emoji_limit_holds]); a report is stored with its author and not about them
    ([report_stored]); members and users of a server are listed side by side
    ([retain_online_aligned]), or the request panics ([member_list_panics]). *)

From Stdlib Require Import Ascii.
From S2P Require Import Prelude Results Permissions PermissionCalc Models ApiTypes Records ModelOps DbPermissions PermissionSpec ReferenceDb Collections World Users Relationships Servers Channels Members Routes Bridge BridgeMessages Messages Bots.

(** ** The database methods of these routes *)

Module RouteDb.
Class UserRouteDb (D : Type) := {
  fetch_user_by_username : string -> string -> M ErrorType D User;
  fetch_mutual_user_ids : string -> string -> M ErrorType D (list string);
  fetch_mutual_server_ids : string -> string -> M ErrorType D (list string);
  fetch_mutual_channel_ids : string -> string -> M ErrorType D (list string);
  find_direct_messages : string -> M ErrorType D (list Channel);
  fetch_all_members : string -> M ErrorType D (list Member);
  mark_attachment_as_reported : string -> M ErrorType D unit;
  insert_snapshot : Snapshot -> M ErrorType D unit;
  insert_report : Report -> M ErrorType D unit;
  fetch_user_settings : string -> list string -> M ErrorType D UserSettings;
  set_user_settings : string -> UserSettings -> M ErrorType D unit;
  fetch_unreads : string -> M ErrorType D (list ChannelUnread);
  (** the time, as an identifier, the user and the channels *)
  acknowledge_channels : string -> string -> list string -> M ErrorType D unit;
  acknowledge_policy_changes : string -> M ErrorType D unit }.
End RouteDb.
Abbreviation UserRouteDb := RouteDb.UserRouteDb.

#[export] Instance reference_user_routes `{HashOrder} `{TextServices} : UserRouteDb ReferenceDb := {|
  RouteDb.fetch_user_by_username name tag := query (fun d => Ref.fetch_user_by_username to_lowercase d name tag);
  RouteDb.fetch_mutual_user_ids a b := query (fun d => Ref.fetch_mutual_user_ids d a b);
  RouteDb.fetch_mutual_server_ids a b := query (fun d => Ref.fetch_mutual_server_ids d a b);
  RouteDb.fetch_mutual_channel_ids a b := query (fun d => Ref.fetch_mutual_channel_ids d a b);
  RouteDb.find_direct_messages id := query (fun d => Ref.find_direct_messages d id);
  RouteDb.fetch_all_members id := query (fun d => Ref.fetch_all_members d id);
  RouteDb.mark_attachment_as_reported := Ref.mark_attachment_as_reported;
  RouteDb.insert_snapshot := Col.insert_snapshot;
  RouteDb.insert_report := Col.insert_report;
  RouteDb.fetch_user_settings id keys := query (fun d => Col.fetch_user_settings d id keys);
  RouteDb.set_user_settings := Col.set_user_settings;
  RouteDb.fetch_unreads id := query (fun d => Col.fetch_unreads d id);
  RouteDb.acknowledge_channels := Col.acknowledge_channels;
  RouteDb.acknowledge_policy_changes := Col.acknowledge_policy_changes |}.

#[global] Instance FieldsUser_v0_eq_dec : EqDecision v0.FieldsUser.
Proof. solve_decision. Defined.

(** ** The bodies of requests and responses *)

Record DataUserProfile := { dup_content : option string; dup_background : option string }.
Record DataEditUser := {
  deu_display_name : option string;
  deu_avatar : option string;
  deu_status : option v0.UserStatus;
  deu_profile : option DataUserProfile;
  deu_badges : option Z;
  deu_flags : option Z;
  deu_presence_style : option string;
  deu_remove : list v0.FieldsUser }.
Record DataChangeUsername := { dcu_username : string; dcu_password : string }.
Record MutualResponse := {
  mr_users : list string;
  mr_servers : list string;
  mr_channels : list string }.
Record DataCreateEmoji := { dce_name : string; dce_parent : v0.EmojiParent; dce_nsfw : bool }.
Record DataReportContent := { drc_content : v0.ReportedContent; drc_additional_context : string }.
Record OptionsQueryMembers := { oqm_query : string; oqm_experimental_api : bool }.
Record MemberQueryResponse := { mqr_members : list v0.Member; mqr_users : list v0.User }.
Record AllMemberResponse := { amr_members : list v0.Member; amr_users : list v0.User }.
Module FetchServerResponse.
Inductive FetchServerResponse : Type :=
| JustServer (server : v0.Server)
| ServerWithChannels (server : v0.Server) (channels : list v0.Channel).
End FetchServerResponse.
Abbreviation FetchServerResponse := FetchServerResponse.FetchServerResponse.
(** [UserOrService]: a service with its scopes *)
Module UserOrService.
Inductive UserOrService : Type := User (user : User) | Service (scopes : list string).
End UserOrService.
Abbreviation UserOrService := UserOrService.UserOrService.
(** [official_server::Outcome] *)
Module JoinOutcome.
Inductive JoinOutcome : Type := Joined | AlreadyMember | Skipped | Failed.
End JoinOutcome.
Abbreviation JoinOutcome := JoinOutcome.JoinOutcome.

(** [RE_USERNAME], [RE_DISPLAY_NAME], [RE_EMOJI] *)
Class UserPatterns := {
  re_user_name : string -> bool;
  re_display_name : string -> bool;
  re_emoji : string -> bool }.

Section Rules.
Context `{UserPatterns}.
Definition username_ok (name : string) : bool := length_within 2 32 name && re_user_name name.
Definition edit_user_rules (data : DataEditUser) : list (string * bool) := [
  ("display_name", when_some (fun name => length_within 2 32 name && re_display_name name) (deu_display_name data));
  ("avatar", when_some (length_within 1 128) (deu_avatar data));
  ("status", when_some (fun status => when_some (length_within 0 128) (v0.us_text status)) (deu_status data));
  ("profile", when_some (fun profile => when_some (length_within 0 2000) (dup_content profile)
                                        && when_some (length_within 1 128) (dup_background profile)) (deu_profile data))].
Definition change_username_rules (data : DataChangeUsername) : list (string * bool) := [
  ("username", username_ok (dcu_username data)); ("password", length_within 8 1024 (dcu_password data))].
Definition create_emoji_rules (data : DataCreateEmoji) : list (string * bool) := [
  ("name", length_within 1 32 (dce_name data) && re_emoji (dce_name data))].
Definition report_rules (data : DataReportContent) : list (string * bool) := [
  ("additional_context", length_within 0 1000 (drc_additional_context data))].
End Rules.

(** [str::split_once] at a character *)
Fixpoint split_once (c : Ascii.ascii) (s : string) : option (string * string) :=
  match s with
  | EmptyString => None
  | String d s =>
      if Ascii.eqb c d then Some (EmptyString, s)
      else '(before, after) ← split_once c s; Some (String d before, after)
  end.

Definition UserStatus_default : UserStatus := {| us_text := None; us_presence := None |}.
Definition UserProfile_default : UserProfile := {| up_content := None; up_background := None |}.

(** The record the route makes up for a file it does not find. *)
Definition asset_file (id tag user_id : string) : File := {|
  f_id := id; f_tag := tag; f_filename := id; f_hash := None; f_uploaded_at := None;
  f_uploader_id := Some user_id; f_used_for := None; f_deleted := None; f_reported := None;
  f_metadata := Metadata.File; f_content_type := "image/png"; f_size := 0; f_message_id := None;
  f_user_id := Some user_id; f_server_id := None; f_object_id := None |}.

Definition PartialUser_edit (display_name : option string) (badges flags : option Z) (presence_style : option string)
    (avatar : option File) (status : option UserStatus) (profile : option UserProfile) : PartialUser := {|
  pu_id := None; pu_username := None; pu_discriminator := None; pu_display_name := display_name;
  pu_avatar := avatar; pu_relations := None; pu_badges := badges; pu_status := status; pu_profile := profile;
  pu_flags := flags; pu_privileged := None; pu_bot := None; pu_suspended_until := None;
  pu_last_acknowledged_policy_change := None; pu_subscription := None; pu_active_decorations := None;
  pu_presence_style := presence_style |}.

(** ** The state *)

Record Desk (D : Type) := {
  dk_world : World D;
  dk_updates : list string (* the users on the stream of updates *) }.
Arguments dk_world {D}.
Arguments dk_updates {D}.
Arguments Build_Desk {D}.

Module UserRoute.
Section Routes.
Context {D : Type} `{Database D} `{PermissionDatabase D} `{UserDirectory D} `{MessageDatabase D} `{UserRouteDb D}.
Context `{HashOrder} `{Validator} `{TextServices} `{UserPatterns}.
Context `{OptionalStruct User PartialUser}.
Context (cutoff : option Z) (online : gset string) (now : Timestamp).
Context (user_limits : User -> Result FeaturesLimits) (global : GlobalLimits).
Local Abbreviation W := (M ErrorType (World D)).
Local Abbreviation Dk := (M ErrorType (Desk D)).

Definition at_world {A} (m : W A) : Dk A := fun s =>
  let '(r, w) := m (dk_world s) in (r, Build_Desk w (dk_updates s)).
(** [publish_user_update] *)
Definition publish_user_update (user_id : string) : Dk unit :=
  modify (fun s => Build_Desk (dk_world s) (dk_updates s ++ [user_id])).

Definition as_user (id : string) : W User := call (Database.fetch_user id).
Definition as_server (id : string) : W Server := call (Database.fetch_server id).
Definition as_emoji (id : string) : W Emoji := call (MessageDb.fetch_emoji id).

Definition is_online (user : User) : bool := bool_decide (u_id user ∈ online).
Definition shown_self (user : User) : Result v0.User := into_self cutoff false (is_online user) user.
(** [target.into(db, perspective)] *)
Definition shown (perspective : option User) (user : User) : W v0.User :=
  w ← get;
  lift_outcome (user_into cutoff now (w_db w) perspective (is_online user) user).

(** [DatabasePermissionQuery::new(db, &user).user(&target)], calculated *)
Definition user_query (user target : User) : W PermissionValue :=
  w ← get;
  lift_outcome (db_calculate_user_permissions now (query_user (DatabasePermissionQuery_new (w_db w) user) target)).1.
Definition require_user (user target : User) (permission : UserPermission) : W unit :=
  permissions ← user_query user target;
  lift_outcome (throw_if_lacking_user_permission permissions permission).
(** The same for a server, and the guard of its members. *)
Definition require_server (user : User) (server : Server) (permission : ChannelPermission) : W unit :=
  w ← get;
  permissions ← lift_outcome
    (db_calculate_server_permissions now (query_server (DatabasePermissionQuery_new (w_db w) user) server)).1;
  lift_outcome (throw_if_lacking_channel_permission permissions permission).
Definition require_member (user : User) (server : Server) : W (DatabasePermissionQuery D) :=
  w ← get;
  let '(member, q) := db_are_we_a_member (query_server (DatabasePermissionQuery_new (w_db w) user) server) in
  member ← lift_outcome member;
  if negb member then throw ErrorType.NotFound else mret q.

(** *** Relationships *)

Definition no_bots (user target : User) : W unit :=
  if bool_decide (is_Some (u_bot user)) || bool_decide (is_Some (u_bot target)) then throw ErrorType.IsBot else mret tt.
Definition request_friend (user target : User) : W v0.User :=
  no_bots user target;;
  '(user, target) ← add_friend (limits ← user_limits user; Ok (fl_outgoing_friend_requests limits)) user target;
  shown (Some user) target.
Definition add (user : User) (target : string) : W v0.User :=
  target ← as_user target;
  request_friend user target.
Definition send_friend_request (user : User) (username : string) : W v0.User :=
  match split_once "#"%char username with
  | Some (username, discriminator) =>
      target ← call (RouteDb.fetch_user_by_username username discriminator);
      request_friend user target
  | None => throw ErrorType.InvalidProperty
  end.
Definition remove (user : User) (target : string) : W v0.User :=
  target ← as_user target;
  no_bots user target;;
  '(user, target) ← remove_friend user target;
  shown (Some user) target.
Definition block (user : User) (target : string) : W v0.User :=
  target ← as_user target;
  '(user, target) ← block_user user target;
  shown (Some user) target.
Definition unblock (user : User) (target : string) : W v0.User :=
  target ← as_user target;
  '(user, target) ← unblock_user user target;
  shown (Some user) target.

(** *** Reading users *)

(** [users/fetch_self.rs], [users/fetch_user.rs] *)
Definition fetch_self (user : User) : W v0.User := lift_outcome (shown_self user).
Definition fetch (auth : UserOrService) (target : string) : W v0.User :=
  match auth with
  | UserOrService.User user =>
      if bool_decide (u_id user = target) then lift_outcome (shown_self user) else
      target ← as_user target;
      require_user user target UserPermission.Access;;
      shown (Some user) target
  | UserOrService.Service scopes =>
      if negb (contains "users:read" scopes) then throw (ErrorType.MissingPermission "users:read") else
      target ← as_user target;
      shown (Some target) target
  end.
Definition profile (user : User) (target : string) : W v0.UserProfile :=
  let show user := UserProfile_to_v0 (default UserProfile_default (u_profile user)) in
  if bool_decide (u_id user = target) then mret (show user) else
  target ← as_user target;
  require_user user target UserPermission.ViewProfile;;
  mret (show target).
Definition fetch_user_flags (target : string) : W Z := fun w =>
  match as_user target w with
  | (Ok target, w) => (Ok (default 0 (u_flags target)), w)
  | (Err _, w) => (Ok 0, w)
  | (Panicked, w) => (Panicked, w)
  end.
Definition mutual (user : User) (target : string) : W MutualResponse :=
  if bool_decide (target = u_id user) then throw ErrorType.InvalidOperation else
  target ← as_user target;
  require_user user target UserPermission.ViewProfile;;
  users ← call (RouteDb.fetch_mutual_user_ids (u_id user) (u_id target));
  servers ← call (RouteDb.fetch_mutual_server_ids (u_id user) (u_id target));
  channels ← call (RouteDb.fetch_mutual_channel_ids (u_id user) (u_id target));
  mret {| mr_users := users; mr_servers := servers; mr_channels := channels |}.

(** *** Direct messages *)

Definition direct_messages (user : User) : W (list v0.Channel) :=
  channels ← call (RouteDb.find_direct_messages (u_id user));
  mret (map Channel_to_v0 channels).
Definition open_dm (ulid : string) (user : User) (target : string) : W v0.Channel :=
  target ← as_user target;
  require_user user target UserPermission.SendMessage;;
  channel ← create_dm ulid user target;
  mret (Channel_to_v0 channel).

(** *** Accounts *)

(** [verify_password] is the check of the account library. *)
Definition change_username (verify_password : string -> bool) (draws : NameDraws) (user : User)
    (data : DataChangeUsername) : Dk v0.User :=
  lift_outcome (validate (change_username_rules data));;
  if negb (verify_password (dcu_password data)) then throw ErrorType.InvalidCredentials else
  user ← at_world (update_username (nd_since draws) (nd_rl_id draws) (nd_event_id draws) (nd_random draws)
                     user (dcu_username data));
  publish_user_update (u_id user);;
  at_world (shown None user).

(** [join_official_server], [ensure_official_membership] *)
Definition join_official_server (server_id : string) (user : User) : W JoinOutcome :=
  if bool_decide (is_Some (u_bot user)) then mret JoinOutcome.Skipped else
  member ← succeeds (call (Database.fetch_member server_id (u_id user)));
  if (member : bool) then mret JoinOutcome.AlreadyMember else
  banned ← succeeds (call (Database.fetch_ban server_id (u_id user)));
  if (banned : bool) then mret JoinOutcome.Skipped else
  server ← captured (call (Database.fetch_server server_id));
  match server with
  | Ok server =>
      joined ← succeeds (member_create now server user None);
      mret (if (joined : bool) then JoinOutcome.Joined else JoinOutcome.Failed)
  | _ => mret JoinOutcome.Failed
  end.
Definition ensure_official_membership (official_server : option string) (user : User) : W JoinOutcome :=
  match official_server with
  | Some server_id => join_official_server server_id user
  | None => mret JoinOutcome.Skipped
  end.

(** [onboard/complete.rs], [hello.rs]; the account of the session is an argument. *)
Definition complete (since event_id : string) (r : nat) (official_server : option string) (session_user : string)
    (user : option User) (username : string) : W v0.User :=
  if bool_decide (is_Some user) then throw ErrorType.AlreadyOnboarded else
  lift_outcome (validate [("username", username_ok username)]);;
  user ← user_create since event_id r now username session_user None;
  _ ← ensure_official_membership official_server user;
  lift_outcome (shown_self user).
Definition hello (user : option User) : bool := bool_decide (user = None).
Definition acknowledge_policy_changes (user : User) : W unit :=
  call (RouteDb.acknowledge_policy_changes (u_id user)).

(** *** Editing *)

(** [users/edit_user.rs]: who may be edited *)
Definition edit_target (user : User) (target : string) : W User :=
  if negb (bool_decide (target = "@me")) && negb (bool_decide (target = u_id user)) then
    target_user ← as_user target;
    let is_bot_owner := match u_bot target_user with Some bot => bool_decide (bi_owner bot = u_id user) | None => false end in
    if negb is_bot_owner && negb (u_privileged user) then throw ErrorType.NotPrivileged else mret target_user
  else mret user.
(** The early exit: the presence style is not looked at. *)
Definition edits_nothing (data : DataEditUser) : bool :=
  bool_decide (deu_display_name data = None) && negb (bool_decide (is_Some (deu_status data)))
  && negb (bool_decide (is_Some (deu_profile data))) && bool_decide (deu_avatar data = None)
  && bool_decide (deu_badges data = None) && bool_decide (deu_flags data = None)
  && bool_decide (deu_remove data = []).
(** 1. The files of removed fields *)
Definition drop_files (user : User) (remove : list v0.FieldsUser) : W unit :=
  (if bool_decide (v0.FieldsUser.Avatar ∈ remove) then
     match u_avatar user with
     | Some avatar => call (Database.mark_attachment_as_deleted (f_id avatar))
     | None => mret tt
     end
   else mret tt);;
  (if bool_decide (v0.FieldsUser.ProfileBackground ∈ remove) then
     match (profile ← u_profile user; up_background profile) with
     | Some background => call (Database.mark_attachment_as_deleted (f_id background))
     | None => mret tt
     end
   else mret tt).
(** [File::use_user_avatar], [use_background], or a made-up record *)
Definition use_or_make (tag : string) (object_type : FileUsedForType) (user : User) (id : string) : W File := fun w =>
  match call (Database.find_and_use_attachment id tag
                {| fuf_object_type := object_type; fuf_id := u_id user |} (u_id user)) w with
  | (Ok file, w) => (Ok file, w)
  | (Err _, w) => (Ok (asset_file id tag (u_id user)), w)
  | (Panicked, w) => (Panicked, w)
  end.
(** 2. to 4. What is set *)
Definition new_avatar (user : User) (avatar : option string) : W (option File) :=
  match avatar with
  | Some avatar => file ← use_or_make "avatars" FileUsedForType.UserAvatar user avatar; mret (Some file)
  | None => mret None
  end.
Definition new_status (user : User) (status : option v0.UserStatus) : option UserStatus :=
  match status with
  | Some status =>
      let old := default UserStatus_default (u_status user) in
      Some {| us_text := match v0.us_text status with Some text => Some text | None => us_text old end;
              us_presence := match v0.us_presence status with
                             | Some presence => Some (Presence_from_v0 presence)
                             | None => us_presence old
                             end |}
  | None => None
  end.
Definition new_profile (user : User) (profile : option DataUserProfile) : W (option UserProfile) :=
  match profile with
  | Some profile =>
      let old := default UserProfile_default (u_profile user) in
      background ←
        match dup_background profile with
        | Some background =>
            file ← use_or_make "backgrounds" FileUsedForType.UserProfileBackground user background; mret (Some file)
        | None => mret (up_background old)
        end;
      mret (Some {| up_content := match dup_content profile with Some content => Some content | None => up_content old end;
                    up_background := background |})
  | None => mret None
  end.
(** The fields the local copy gives away ([take]) *)
Definition taken (data : DataEditUser) (user : User) : User :=
  let user := match deu_status data with Some _ => u_set_status None user | None => user end in
  match deu_profile data with Some _ => u_set_profile None user | None => user end.
Definition edit_fields (event_id : string) (user : User) (data : DataEditUser) : W User :=
  drop_files user (deu_remove data);;
  let fields := map FieldsUser_from_v0 (deu_remove data) in
  let user := foldl user_remove_field user fields in
  avatar ← new_avatar user (deu_avatar data);
  let status := new_status user (deu_status data) in
  profile ← new_profile user (deu_profile data);
  user_update event_id (taken data user)
    (PartialUser_edit (deu_display_name data) (deu_badges data) (deu_flags data) (deu_presence_style data)
       avatar status profile) fields.
Definition edit (event_id : string) (user : User) (target : string) (data : DataEditUser) : Dk v0.User :=
  lift_outcome (validate (edit_user_rules data));;
  if negb (u_privileged user) && (bool_decide (is_Some (deu_badges data)) || bool_decide (is_Some (deu_flags data)))
  then throw ErrorType.NotPrivileged else
  user ← at_world (edit_target user target);
  if edits_nothing data then lift_outcome (shown_self user) else
  user ← at_world (edit_fields event_id user data);
  publish_user_update (u_id user);;
  lift_outcome (shown_self user).

(** *** Emoji *)

Definition use_emoji (id : string) (uploader_id : string) : W File :=
  call (Database.find_and_use_attachment id "emojis"
          {| fuf_object_type := FileUsedForType.Emoji; fuf_id := id |} uploader_id).
Definition create_emoji (user : User) (id : string) (data : DataCreateEmoji) : W v0.Emoji :=
  lift_outcome (validate (create_emoji_rules data));;
  match dce_parent data with
  | v0.EmojiParent.Server server =>
      server ← call (Database.fetch_server server);
      require_server user server ChannelPermission.ManageCustomisation;;
      emojis ← call (Database.fetch_emoji_by_parent_id (s_id server));
      if gl_server_emoji global <=? Z.of_nat (length emojis)
      then throw (ErrorType.TooManyEmoji (gl_server_emoji global)) else mret tt
  | v0.EmojiParent.Detached => throw ErrorType.InvalidOperation
  end;;
  attachment ← use_emoji id (u_id user);
  let emoji := {| e_id := id; e_parent := EmojiParent_from_v0 (dce_parent data); e_creator_id := u_id user;
                  e_name := dce_name data; e_animated := bool_decide (f_content_type attachment = "image/gif");
                  e_nsfw := dce_nsfw data |} in
  emoji_create emoji;;
  mret (Emoji_to_v0 emoji).
Definition delete_emoji (user : User) (emoji_id : string) : W unit :=
  emoji ← as_emoji emoji_id;
  if bool_decide (e_creator_id emoji = u_id user) then emoji_delete emoji else
  match e_parent emoji with
  | EmojiParent.Server id =>
      server ← call (Database.fetch_server id);
      require_server user server ChannelPermission.ManageCustomisation;;
      emoji_delete emoji
  | EmojiParent.Detached => mret tt
  end.
Definition fetch_emoji (emoji_id : string) : W v0.Emoji :=
  emoji ← as_emoji emoji_id;
  mret (Emoji_to_v0 emoji).
Definition list_emoji (user : User) (target : string) : W (list v0.Emoji) :=
  server ← as_server target;
  _ ← require_member user server;
  emojis ← call (Database.fetch_emoji_by_parent_id (s_id server));
  mret (map Emoji_to_v0 emojis).

(** *** Settings and unreads *)

Definition fetch_settings (user : User) (keys : list string) : W UserSettings :=
  call (RouteDb.fetch_user_settings (u_id user) keys).
(** [UserSettings::set] *)
Definition settings_set (settings : UserSettings) (user : string) : W unit :=
  call (RouteDb.set_user_settings user settings);;
  private (EventV1.UserSettingsUpdate user settings) user.
(** [current_time] in milliseconds *)
Definition revision (current_time : Z) (timestamp : option Z) : Z :=
  match timestamp with
  | Some timestamp => if current_time <? timestamp then current_time else timestamp
  | None => current_time
  end.
Definition set (current_time : Z) (user : User) (data : gmap string string) (timestamp : option Z) : W unit :=
  settings_set ((fun value => (revision current_time timestamp, value)) <$> data) (u_id user).
Definition unreads (user : User) : W (list v0.ChannelUnread) :=
  unreads ← call (RouteDb.fetch_unreads (u_id user));
  mret (map ChannelUnread_to_v0 unreads).
(** [servers/server_ack.rs]; [current_time] is the identifier of the time *)
Definition server_ack (current_time : string) (user : User) (target : string) : W unit :=
  if bool_decide (is_Some (u_bot user)) then throw ErrorType.IsBot else
  server ← as_server target;
  _ ← require_member user server;
  call (RouteDb.acknowledge_channels current_time (u_id user) (s_channels server)).

(** *** Members of a server *)

(** [users.iter()] and [members.retain(|_| iter.next().unwrap().online)] *)
Fixpoint retain_online (members : list Member) (users : list v0.User) : Result (list Member) :=
  match members with
  | [] => Ok []
  | m :: members =>
      match users with
      | [] => Panicked
      | u :: users => rest ← retain_online members users; Ok (if v0.u_online u then m :: rest else rest)
      end
  end.
(** [servers/member_fetch_all.rs] *)
Definition member_fetch_all (user : User) (target : string) (exclude_offline : option bool) : W AllMemberResponse :=
  server ← as_server target;
  _ ← require_member user server;
  members ← call (RouteDb.fetch_all_members (s_id server));
  users ← fetch_many_ids_as_mutuals cutoff online user (map (fun m => mk_user (m_id m)) members);
  let members := sort_by (fun a b => String.compare (mk_user (m_id a)) (mk_user (m_id b))) members in
  let users := sort_by (fun a b => String.compare (v0.u_id a) (v0.u_id b)) users in
  if bool_decide (exclude_offline = Some true) then
    members ← lift_outcome (retain_online members users);
    mret {| amr_members := map Member_to_v0 members; amr_users := retain v0.u_online users |}
  else mret {| amr_members := map Member_to_v0 members; amr_users := users |}.

(** [servers/member_experimental_query.rs]: the name a member is searched by *)
Definition member_name (p : Member * User) : string := default (u_username p.2) (m_nickname p.1).
Fixpoint shown_all (perspective : User) (users : list User) : W (list v0.User) :=
  match users with
  | [] => mret []
  | u :: users => v ← shown (Some perspective) u; rest ← shown_all perspective users; mret (v :: rest)
  end.
Definition member_experimental_query (user : User) (target : string) (options : OptionsQueryMembers)
    : W MemberQueryResponse :=
  if negb (oqm_experimental_api options) then throw ErrorType.InternalError else
  server ← as_server target;
  _ ← require_member user server;
  members ← call (RouteDb.fetch_all_members (s_id server));
  users ← call (Database.fetch_users (map (fun m => mk_user (m_id m)) members));
  let members := sort_by (fun a b => String.compare (mk_user (m_id a)) (mk_user (m_id b))) members in
  let users := sort_by (fun a b => String.compare (u_id a) (u_id b)) users in
  let matches := retain (fun p => str_contains (member_name p) (oqm_query options)) (zip members users) in
  let first := take 10 (sort_by (fun a b => Nat.compare (String.length (member_name a)) (String.length (member_name b)))
                          matches) in
  users ← shown_all user (map snd first);
  mret {| mqr_members := map (fun p => Member_to_v0 (fst p)) first; mqr_users := users |}.

(** [servers/server_fetch.rs] *)
Definition server_fetch (user : User) (target : string) (include_channels : option bool) : W FetchServerResponse :=
  server ← as_server target;
  query ← require_member user server;
  if bool_decide (include_channels = Some true) then
    all_channels ← call (Database.fetch_channels (s_channels server));
    channels ← lift_outcome (visible_channels now query all_channels);
    mret (FetchServerResponse.ServerWithChannels (Server_to_v0 server) (map Channel_to_v0 channels))
  else mret (FetchServerResponse.JustServer (Server_to_v0 server)).

(** *** Reports *)

Definition context_query (message : Message) (before after : option string) (sort : v0.MessageSort) : MessageQuery := {|
  qm_limit := Some 15;
  qm_filter := {| mf_channel := Some (msg_channel message); mf_author := None; mf_query := None; mf_pinned := None |};
  qm_time_period := MessageTimePeriod.Absolute before after (Some sort) |}.
(** [SnapshotContent::generate_from_message], [generate_from_server], [generate_from_user] *)
Definition generate_from_message (message : Message) : W (SnapshotContent * list string) :=
  let files := match msg_attachments message with Some attachments => map f_id attachments | None => [] end in
  prior_context ← call (MessageDb.fetch_messages (context_query message (Some (msg_id message)) None v0.MessageSort.Latest));
  leading_context ← call (MessageDb.fetch_messages (context_query message None (Some (msg_id message)) v0.MessageSort.Oldest));
  mret (SnapshotContent.Message prior_context leading_context message, files).
Definition generate_from_server (server : Server) : SnapshotContent * list string :=
  (SnapshotContent.Server server, map f_id (omap id [s_icon server; s_banner server])).
Definition generate_from_user (user : User) : SnapshotContent * list string :=
  (SnapshotContent.User user, map f_id (omap id [u_avatar user; profile ← u_profile user; up_background profile])).

(** What is reported, with its files. *)
Definition reported (user : User) (content : v0.ReportedContent) : W (list SnapshotContent * list string) :=
  match content with
  | v0.ReportedContent.Message id _ =>
      message ← call (MessageDb.fetch_message id);
      if bool_decide (msg_author message = u_id user) then throw ErrorType.CannotReportYourself else
      '(snapshot, files) ← generate_from_message message;
      mret ([snapshot], files)
  | v0.ReportedContent.Server id _ =>
      server ← call (Database.fetch_server id);
      if bool_decide (s_owner server = u_id user) then throw ErrorType.CannotReportYourself else
      let '(snapshot, files) := generate_from_server server in
      mret ([snapshot], files)
  | v0.ReportedContent.User id _ message_id =>
      reported_user ← call (Database.fetch_user id);
      if bool_decide (u_id reported_user = u_id user) then throw ErrorType.CannotReportYourself else
      message ←
        match message_id with
        | Some id => message ← captured (call (MessageDb.fetch_message id));
                     mret match message with Ok message => Some message | _ => None end
        | None => mret None
        end;
      let '(snapshot, files) := generate_from_user reported_user in
      match message with
      | Some message =>
          '(message_snapshot, message_files) ← generate_from_message message;
          mret ([snapshot; message_snapshot], files ++ message_files)
      | None => mret ([snapshot], files)
      end
  end.
Fixpoint mark_reported (files : list string) : W unit :=
  match files with
  | [] => mret tt
  | file :: files => call (RouteDb.mark_attachment_as_reported file);; mark_reported files
  end.
(** [ids] are the identifiers drawn for the snapshots. *)
Fixpoint insert_snapshots (report_id : string) (ids : list string) (snapshots : list SnapshotContent) : W unit :=
  match snapshots, ids with
  | content :: snapshots, id :: ids =>
      call (RouteDb.insert_snapshot {| sn_id := id; sn_report_id := report_id; sn_content := content |});;
      insert_snapshots report_id ids snapshots
  | _, _ => mret tt
  end.
Definition report_content (id first second : string) (user : User) (data : DataReportContent) : W unit :=
  lift_outcome (validate (report_rules data));;
  if bool_decide (is_Some (u_bot user)) then throw ErrorType.IsBot else
  '(snapshots, files) ← reported user (drc_content data);
  mark_reported files;;
  insert_snapshots id [first; second] snapshots;;
  let report := {| rp_id := id; rp_author_id := u_id user; rp_content := drc_content data;
                   rp_additional_context := drc_additional_context data; rp_status := v0.ReportStatus.Created;
                   rp_notes := "" |} in
  call (RouteDb.insert_report report);;
  World.global (EventV1.ReportCreate (Report_to_v0 report)).
End Routes.
End UserRoute.

(** ** Editing a profile *)

Section Editing.
Context `{HO : HashOrder} `{Validator} `{TS : TextServices} `{UserPatterns}.
Context `{OS : OptionalStruct Server PartialServer} `{OR : OptionalStruct Role PartialRole}
  `{OM : OptionalStruct Member PartialMember} `{OU : OptionalStruct User PartialUser} {UL : UserOptionalLaws}.
Context (cutoff : option Z) (online : gset string).
Local Abbreviation Dk := (Desk ReferenceDb).
Import UserRoute.

Definition of_desk {X} (g : ReferenceDb -> X) (s : Dk) : X := g (w_db (dk_world s)).
Definition user_table (s : Dk) : gmap string User := of_desk db_users s.
Definition file_table (s : Dk) : gmap string File := of_desk db_files s.

Lemma at_world_run {A} (m : M ErrorType (World ReferenceDb) A) (s : Dk) :
  at_world m s = ((m (dk_world s)).1, Build_Desk (m (dk_world s)).2 (dk_updates s)).
Proof. unfold at_world. by destruct (m (dk_world s)). Qed.
Lemma fixes_at_world {X A} (g : ReferenceDb -> X) (m : M ErrorType (World ReferenceDb) A) :
  fixes (of_world g) m -> fixes (of_desk g) (at_world m).
Proof. intros Hm s. rewrite at_world_run. apply Hm. Qed.
Lemma of_at_world {X A} (g : ReferenceDb -> X) (m : M ErrorType (World ReferenceDb) A) (s : Dk) :
  of_desk g (at_world m s).2 = of_world g (m (dk_world s)).2.
Proof. by rewrite at_world_run. Qed.
Lemma fixes_publish {X} (g : ReferenceDb -> X) id : fixes (of_desk g) (publish_user_update id).
Proof. done. Qed.
#[local] Hint Resolve fixes_at_world fixes_publish : fixes.

(** Users are changed by the final update only. *)
Lemma fixes_use_or_make tag kind user id : fixes (of_world db_users) (use_or_make tag kind user id).
Proof.
  intros w. unfold use_or_make. rewrite call_run. simpl. unfold Ref.find_and_use_attachment.
  destruct (db_files (w_db w) !! id) as [file|]; [|done]. by case_bool_decide.
Qed.
#[local] Hint Resolve fixes_use_or_make : fixes.
Lemma fixes_drop_files user remove : fixes (of_world db_users) (drop_files user remove).
Proof. unfold drop_files. fixes. Qed.
Lemma fixes_new_avatar user avatar : fixes (of_world db_users) (new_avatar user avatar).
Proof. unfold new_avatar. fixes. Qed.
Lemma fixes_new_profile user profile : fixes (of_world db_users) (new_profile user profile).
Proof. unfold new_profile. fixes. Qed.
Lemma fixes_edit_target user target : fixes (of_world db_users) (edit_target user target).
Proof. unfold edit_target, as_user. fixes. Qed.
#[local] Hint Resolve fixes_drop_files fixes_new_avatar fixes_new_profile fixes_edit_target : fixes.

(** A field that is neither removed nor set stays. *)
Lemma removed_fields_kept u remove :
  let u' := foldl user_remove_field u (map FieldsUser_from_v0 remove) in
  u_id u' = u_id u /\ u_username u' = u_username u /\ u_relations u' = u_relations u /\ u_badges u' = u_badges u
  /\ u_flags u' = u_flags u /\ u_privileged u' = u_privileged u /\ u_bot u' = u_bot u
  /\ u_suspended_until u' = u_suspended_until u.
Proof.
  revert u. induction remove as [|f l IH]; intros u; [done|]. simpl.
  destruct (IH (user_remove_field u (FieldsUser_from_v0 f))) as (-> & -> & -> & -> & -> & -> & -> & ->).
  destruct f; simpl; try done; by destruct (u_status u), (u_profile u).
Qed.

(** What an edit may leave of a user. *)
Definition edited (data : DataEditUser) (u u' : User) : Prop :=
  u_id u' = u_id u /\ u_username u' = u_username u /\ u_relations u' = u_relations u
  /\ u_badges u' = match deu_badges data with Some b => Some b | None => u_badges u end
  /\ u_flags u' = match deu_flags data with Some f => Some f | None => u_flags u end
  /\ u_privileged u' = u_privileged u /\ u_bot u' = u_bot u /\ u_suspended_until u' = u_suspended_until u.

Lemma edit_applied data u avatar status profile :
  edited data u (apply_options (foldl user_remove_field u (map FieldsUser_from_v0 (deu_remove data)))
    (PartialUser_edit (deu_display_name data) (deu_badges data) (deu_flags data) (deu_presence_style data)
       avatar status profile)).
Proof using UL.
  destruct (removed_fields_kept u (deu_remove data)) as (E1 & E2 & E3 & E4 & E5 & E6 & E7 & E8). unfold edited.
  rewrite u_id_applied, u_username_applied, u_relations_applied, u_badges_applied, u_flags_applied,
    u_privileged_applied, u_bot_applied, u_suspended_until_applied. simpl.
  by rewrite E1, E2, E3, E4, E5, E6, E7, E8.
Qed.

Lemma taken_id data u : u_id (taken data u) = u_id u.
Proof. unfold taken. by destruct (deu_status data), (deu_profile data). Qed.

(** The table after the fields are edited. *)
Lemma edit_fields_users event_id user data (w : World ReferenceDb) :
  let w' := (edit_fields event_id user data w).2 in
  of_world db_users w' = of_world db_users w
  \/ exists u u', of_world db_users w !! u_id user = Some u /\ edited data u u'
     /\ of_world db_users w' = <[u_id user := u']> (of_world db_users w).
Proof using UL TS.
  cbv zeta. unfold edit_fields. set (P := fun m => m = of_world db_users w \/ exists u u',
    of_world db_users w !! u_id user = Some u /\ edited data u u' /\ m = <[u_id user := u']> (of_world db_users w)).
  apply (after_fixes (of_world db_users) P); [fixes|by left|]. intros [] w1 _ Hw1. cbv zeta.
  apply (after_fixes (of_world db_users) P); [fixes|by left|]. intros avatar w2 _ Hw2.
  apply (after_fixes (of_world db_users) P); [fixes|left; by rewrite Hw2|]. intros profile w3 _ Hw3.
  set (partial := PartialUser_edit _ _ _ _ _ _ _).
  set (fields := map FieldsUser_from_v0 (deu_remove data)).
  set (self := taken data (foldl user_remove_field user fields)).
  assert (of_world db_users w3 = of_world db_users w) as Hw by congruence.
  assert (u_id (apply_options (foldl user_remove_field self fields) partial) = u_id user) as Hid.
  { rewrite u_id_applied. simpl. destruct (removed_fields_kept self (deu_remove data)) as (E & _).
    etrans; [exact E|]. unfold self. rewrite taken_id. by destruct (removed_fields_kept user (deu_remove data)). }
  pose proof (user_update_users (D := ReferenceDb) event_id self partial fields w3) as Hu. cbv zeta in Hu.
  change (@users ReferenceDb _ _ _ _ reference_name_store) with db_users in Hu.
  rewrite Hid in Hu. destruct Hu as [Hu|(u & Hu & Hu')]; [left; by etrans|right].
  exists u, (apply_options (foldl user_remove_field u fields) partial). split; [by rewrite <- Hw|].
  split; [apply edit_applied|]. rewrite <- Hw. exact Hu'.
Qed.

(** The user a request edits. *)
Lemma edit_target_run user target (w w1 : World ReferenceDb) t :
  map_Forall (fun k u => u_id u = k) (of_world db_users w) ->
  edit_target user target w = (Ok t, w1) ->
  t = user \/ (exists bot, u_bot t = Some bot /\ bi_owner bot = u_id user /\ of_world db_users w !! u_id t = Some t)
  \/ u_privileged user = true.
Proof.
  intros Hk. unfold edit_target, as_user. destruct (negb _ && negb _); [|intros [= <- _]; by left].
  intros (t' & w2 & E1 & E2)%M_bind_Ok_inv. rewrite call_run in E1. simpl in E1.
  unfold Ref.fetch_user, get_or, ok_or in E1. destruct (db_users (w_db w) !! target) eqn:Ht; [|done].
  injection E1 as -> <-. destruct (negb _ && negb _) eqn:Hb; [done|]. injection E2 as -> _.
  destruct (u_privileged user); [by right; right|]. right; left.
  destruct (u_bot t) as [bot|]; [|done]. exists bot. split; [done|]. case_bool_decide; [|done].
  split; [done|]. pose proof (Hk _ _ Ht) as Hid. simpl in Hid. by rewrite Hid.
Qed.

(** C19: Whatever a request to edit a profile answers, a user it changed is the
    caller, a bot of the caller, or the caller is privileged; only privileged
    callers change badges and flags; name, relations, privileges and
    suspension of nobody change. *)
Theorem user_edit_authorised event_id user target data (s : Dk) id u :
  map_Forall (fun k u => u_id u = k) (user_table s) ->
  user_table s !! id = Some u ->
  let s' := (edit cutoff online event_id user target data s).2 in
  user_table s' !! id = Some u
  \/ exists u', user_table s' !! id = Some u' /\ edited data u u'
     /\ (id = u_id user \/ (exists bot, u_bot u = Some bot /\ bi_owner bot = u_id user) \/ u_privileged user = true)
     /\ (u_privileged user = false -> u_badges u' = u_badges u /\ u_flags u' = u_flags u).
Proof using UL TS.
  intros Hk Hid. cbv zeta. unfold edit.
  set (P := fun m : gmap string User => m !! id = Some u \/ exists u', m !! id = Some u' /\ edited data u u'
     /\ (id = u_id user \/ (exists bot, u_bot u = Some bot /\ bi_owner bot = u_id user) \/ u_privileged user = true)
     /\ (u_privileged user = false -> u_badges u' = u_badges u /\ u_flags u' = u_flags u)).
  assert (P (user_table s)) as H0' by (by left).
  apply (after_fixes user_table P); [fixes|done|]. intros [] s1 E1 _. injection E1 as _ <-.
  destruct (negb (u_privileged user) && _) eqn:Hpriv; [done|].
  apply (after_fixes user_table P); [apply fixes_at_world, fixes_edit_target|done|]. intros t s1 E1 Hs1.
  rewrite at_world_run in E1. injection E1 as E1 <-.
  destruct (edit_target user target (dk_world s)) as [r w1] eqn:Et. simpl in E1. subst r.
  pose proof (edit_target_run _ _ _ _ _ Hk Et) as Ht.
  destruct (edits_nothing data); [change (P (of_world db_users w1)); change (of_world db_users w1 = user_table s) in Hs1;
    by rewrite Hs1|].
  change (P (user_table ((at_world (edit_fields event_id t data) ≫= (fun user => publish_user_update (u_id user);;
    lift_outcome (shown_self cutoff online user))) (Build_Desk w1 (dk_updates s))).2)).
  unfold user_table at 1. rewrite before_fixes by fixes. rewrite of_at_world. simpl.
  change (of_world db_users w1 = user_table s) in Hs1.
  destruct (edit_fields_users event_id t data w1) as [->|(v & v' & Hv & Hed & ->)]; [by rewrite Hs1|].
  rewrite Hs1 in *. unfold P. destruct (decide (u_id t = id)) as [Heq|Hne]; [|left; by rewrite lookup_insert_ne].
  rewrite Heq in *. simplify_eq. right. exists v'. split; [apply lookup_insert_eq|]. split; [done|]. split.
  - destruct Ht as [->|[(bot & Hbot & Ho & Hst)|Hp]]; [by left| |by right; right].
    right; left. exists bot. split; [|done]. change (of_world db_users (dk_world s)) with (user_table s) in Hst.
    by simplify_eq.
  - intros Hp. rewrite Hp in Hpriv. destruct Hed as (_ & _ & _ & -> & -> & _).
    destruct (deu_badges data), (deu_flags data); try done; by rewrite ?bool_decide_true in Hpriv by done.
Qed.

(** *** Files of others *)

Definition avatar_set (id : string) : DataEditUser := {|
  deu_display_name := None; deu_avatar := Some id; deu_status := None; deu_profile := None; deu_badges := None;
  deu_flags := None; deu_presence_style := None; deu_remove := [] |}.
Definition avatar_removed : DataEditUser := {|
  deu_display_name := None; deu_avatar := None; deu_status := None; deu_profile := None; deu_badges := None;
  deu_flags := None; deu_presence_style := None; deu_remove := [v0.FieldsUser.Avatar] |}.

(** An edit of oneself that passes the checks does what its fields say. *)
Lemma edit_me {X} (g : ReferenceDb -> X) event_id user data (s : Dk) :
  validate (edit_user_rules data) = Ok tt -> deu_badges data = None -> deu_flags data = None ->
  edits_nothing data = false ->
  of_desk g (edit cutoff online event_id user "@me" data s).2 = of_world g (edit_fields event_id user data (dk_world s)).2.
Proof.
  intros Hv Hb Hf Hn. unfold edit. erewrite M_bind_ok by (unfold lift_outcome; rewrite Hv; reflexivity).
  rewrite Hb, Hf, andb_false_r. erewrite M_bind_ok by (rewrite at_world_run; reflexivity). rewrite Hn.
  rewrite before_fixes by fixes. by rewrite of_at_world.
Qed.

Lemma fixes_user_update_files event_id self partial remove :
  fixes (of_world db_files) (user_update event_id self partial remove).
Proof. unfold user_update. fixes. apply fixes_p_user. Qed.

#[local] Hint Resolve fixes_user_update_files : fixes.

Lemma user_update_stored event_id self partial remove u (w : World ReferenceDb) :
  of_world db_users w !! u_id (apply_options (foldl user_remove_field self remove) partial) = Some u ->
  of_world db_users (user_update event_id self partial remove w).2
  = <[u_id (apply_options (foldl user_remove_field self remove) partial)
      := apply_options (foldl user_remove_field u remove) partial]> (of_world db_users w).
Proof.
  intros Hu. unfold user_update. cbv zeta.
  rewrite before_fixes by (intros []; apply fixes_bind; [apply fixes_p_user|done]).
  rewrite call_run. unfold of_world. simpl. unfold Ref.update_user, with_mut.
  change (db_users (w_db w)) with (of_world db_users w). by rewrite Hu.
Qed.

(** The avatar is set to the identifier of any file. *)
Lemma avatar_set_run event_id user fid file (w : World ReferenceDb) :
  of_world db_users w !! u_id user = Some user -> of_world db_files w !! fid = Some file -> f_tag file <> "avatars" ->
  let w' := (edit_fields event_id user (avatar_set fid) w).2 in
  (exists user1, of_world db_users w' !! u_id user = Some user1 /\ u_avatar user1 = Some (asset_file fid "avatars" (u_id user)))
  /\ of_world db_files w' = of_world db_files w.
Proof using UL.
  intros Hu Hf Htag. cbv zeta. unfold edit_fields. simpl.
  erewrite M_bind_ok by reflexivity.
  assert (use_or_make "avatars" FileUsedForType.UserAvatar user fid w = (Ok (asset_file fid "avatars" (u_id user)), w)) as Huse.
  { unfold use_or_make. rewrite call_run. simpl. unfold Ref.find_and_use_attachment.
    change (db_files (w_db w)) with (of_world db_files w). rewrite Hf, bool_decide_false by done. by destruct w. }
  erewrite M_bind_ok by (erewrite M_bind_ok by exact Huse; reflexivity).
  erewrite M_bind_ok by reflexivity. unfold taken. simpl.
  set (partial := PartialUser_edit _ _ _ _ _ _ _).
  assert (u_id (apply_options user partial) = u_id user) as Hid by (by rewrite u_id_applied).
  split; [|apply fixes_user_update_files].
  exists (apply_options user partial). split; [|by rewrite u_avatar_applied].
  rewrite (user_update_stored event_id user partial [] user) by (simpl; by rewrite Hid).
  simpl. rewrite Hid. apply lookup_insert_eq.
Qed.

(** Removing an avatar deletes the file it names. *)
Lemma avatar_removed_run event_id user avatar file (w : World ReferenceDb) :
  u_avatar user = Some avatar -> of_world db_files w !! f_id avatar = Some file ->
  of_world db_files (edit_fields event_id user avatar_removed w).2
  = <[f_id avatar := f_set_deleted (Some true) file]> (of_world db_files w).
Proof.
  intros Ha Hf. unfold edit_fields. simpl.
  rewrite before_fixes by (intros []; fixes).
  unfold drop_files. simpl. rewrite before_fixes by fixes.
  rewrite Ha, call_run. unfold of_world. simpl.
  unfold Ref.mark_attachment_as_deleted, with_mut. change (db_files (w_db w)) with (of_world db_files w). by rewrite Hf.
Qed.

(** C40: Two edits of their own profile let every user delete every file that is
    not an avatar, whoever uploaded it and whatever uses it: an identifier that
    is no avatar is taken for an avatar, and a removed avatar is deleted. *)
Theorem any_file_deleted first second user fid file (s : Dk) :
  user_table s !! u_id user = Some user -> file_table s !! fid = Some file ->
  f_tag file <> "avatars" -> length_within 1 128 fid = true ->
  let s1 := (edit cutoff online first user "@me" (avatar_set fid) s).2 in
  exists user1, user_table s1 !! u_id user = Some user1
    /\ file_table (edit cutoff online second user1 "@me" avatar_removed s1).2 !! fid
       = Some (f_set_deleted (Some true) file).
Proof using UL.
  intros Hu Hf Htag Hlen. cbv zeta.
  destruct (avatar_set_run first user fid file (dk_world s) Hu Hf Htag) as [(user1 & Hu1 & Ha) Hfiles].
  set (s1 := (edit cutoff online first user "@me" (avatar_set fid) s).2).
  assert (validate (edit_user_rules (avatar_set fid)) = Ok tt) as Hv.
  { unfold validate, edit_user_rules. simpl. by rewrite Hlen. }
  assert (user_table s1 = of_world db_users (edit_fields first user (avatar_set fid) (dk_world s)).2) as E1
    by (by apply edit_me).
  assert (file_table s1 = of_world db_files (edit_fields first user (avatar_set fid) (dk_world s)).2) as E2
    by (by apply edit_me).
  exists user1. split; [by rewrite E1|]. unfold file_table. rewrite edit_me by done.
  rewrite (avatar_removed_run second user1 _ file (dk_world s1) Ha); [apply lookup_insert_eq|].
  change (file_table s1 !! fid = Some file). by rewrite E2, Hfiles.
Qed.

(** A request that only sets the presence style has no effect. *)
Lemma presence_style_ignored event_id user style (s : Dk) :
  edits_nothing {| deu_display_name := None; deu_avatar := None; deu_status := None; deu_profile := None;
    deu_badges := None; deu_flags := None; deu_presence_style := Some style; deu_remove := [] |} = true
  /\ (edit cutoff online event_id user "@me" {| deu_display_name := None; deu_avatar := None; deu_status := None;
       deu_profile := None; deu_badges := None; deu_flags := None; deu_presence_style := Some style;
       deu_remove := [] |} s).2 = s.
Proof.
  split; [done|]. unfold edit. simpl. rewrite andb_false_r. by destruct s.
Qed.
End Editing.

(** ** Emoji *)

Section EmojiLimit.
Context `{HO : HashOrder} `{Validator} `{TS : TextServices} `{UserPatterns}.
Context `{OS : OptionalStruct Server PartialServer} `{OR : OptionalStruct Role PartialRole}
  `{OM : OptionalStruct Member PartialMember} `{OU : OptionalStruct User PartialUser}
  `{OG : OptionalStruct Message PartialMessage} `{OW : OptionalStruct Webhook PartialWebhook}.
Context (global : GlobalLimits).
Local Abbreviation Wd := (World ReferenceDb).
Import UserRoute.

Definition emojis (w : Wd) : gmap string Emoji := of_world db_emojis w.
Definition belongs (server : string) (e : Emoji) : bool :=
  match e_parent e with EmojiParent.Server id => bool_decide (id = server) | EmojiParent.Detached => false end.
Definition emojis_of (server : string) (m : gmap string Emoji) : list Emoji := retain (belongs server) (hm_values m).

(** Requests on emoji of any users, one after the other, whatever they answer. *)
Inductive emoji_step (w : Wd) : Wd -> Prop :=
| emoji_added now user id data : emoji_step w (create_emoji now global user id data w).2
| emoji_deleted now user id : emoji_step w (delete_emoji now user id w).2.

Lemma emojis_insert server id e (m : gmap string Emoji) :
  m !! id = None ->
  length (emojis_of server (<[id := e]> m))
  = ((if belongs server e then 1 else 0) + length (emojis_of server m))%nat.
Proof.
  intros Hn. unfold emojis_of, retain, hm_values.
  rewrite !hm_iter_perm, map_to_list_insert by done. rewrite fmap_cons, filter_cons. simpl.
  by destruct (belongs server e).
Qed.

Definition within_limit (m : gmap string Emoji) : Prop :=
  forall server, Z.of_nat (length (emojis_of server m)) <= gl_server_emoji global.

(** An emoji of no server takes the place of another. *)
Lemma limit_detach id e e' m :
  m !! id = Some e -> e_parent e' = EmojiParent.Detached -> within_limit m -> within_limit (<[id := e']> m).
Proof.
  intros He Hd Hw server. specialize (Hw server). rewrite <- (insert_delete_id m id e He) in Hw.
  rewrite <- insert_delete_eq. rewrite emojis_insert in Hw |- * by apply lookup_delete_eq.
  unfold belongs at 1. rewrite Hd. destruct (belongs server e); lia.
Qed.

Lemma fixes_require_server user server now permission :
  fixes (of_world db_emojis) (require_server (D := ReferenceDb) now user server permission).
Proof. unfold require_server. fixes. Qed.
Lemma fixes_use_emoji id uploader : fixes (of_world db_emojis) (use_emoji id uploader).
Proof.
  intros w. unfold use_emoji. rewrite call_run. simpl. unfold Ref.find_and_use_attachment.
  destruct (db_files (w_db w) !! id) as [file|]; [|done]. by case_bool_decide.
Qed.
#[local] Hint Resolve fixes_require_server fixes_use_emoji : fixes.

(** What is checked before an emoji is made. *)
Lemma emoji_check_run now user data (w w1 : Wd) :
  map_Forall (fun k s => s_id s = k) (of_world db_servers w) ->
  (match dce_parent data with
   | v0.EmojiParent.Server server =>
       server ← call (Database.fetch_server server);
       require_server now user server ChannelPermission.ManageCustomisation;;
       emojis ← call (Database.fetch_emoji_by_parent_id (s_id server));
       if gl_server_emoji global <=? Z.of_nat (length emojis)
       then throw (ErrorType.TooManyEmoji (gl_server_emoji global)) else mret tt
   | v0.EmojiParent.Detached => throw ErrorType.InvalidOperation
   end) w = (Ok tt, w1) ->
  forall server, EmojiParent_from_v0 (dce_parent data) = EmojiParent.Server server ->
  Z.of_nat (length (emojis_of server (emojis w))) < gl_server_emoji global.
Proof.
  intros Hk. destruct (dce_parent data) as [id|]; [|done].
  intros (srv & w2 & E1 & E)%M_bind_Ok_inv server [= <-].
  rewrite call_run in E1. simpl in E1. unfold Ref.fetch_server, get_or, ok_or in E1.
  destruct (db_servers (w_db w) !! id) eqn:Hs; [|done]. injection E1 as -> <-.
  pose proof (Hk _ _ Hs) as Hid. simpl in Hid.
  apply M_bind_Ok_inv in E as ([] & w3 & E3 & E). apply M_bind_Ok_inv in E as (es & w4 & E4 & E).
  pose proof (fixes_require_server user srv now ChannelPermission.ManageCustomisation (w_set_db (w_db w) w)) as Hf.
  rewrite E3 in Hf. simpl in Hf. rewrite call_run in E4. injection E4 as E4 <-.
  destruct (_ <=? _) eqn:Hle; [done|]. apply Z.leb_gt in Hle. unfold emojis. rewrite <- E4, Hid in Hle.
  unfold of_world in Hf. simpl in Hf. rewrite Hf in Hle. exact Hle.
Qed.

Lemma create_emoji_limit now user id data (w : Wd) :
  map_Forall (fun k s => s_id s = k) (of_world db_servers w) ->
  within_limit (emojis w) -> within_limit (emojis (create_emoji now global user id data w).2).
Proof.
  intros Hk Hw. unfold create_emoji.
  apply (after_fixes emojis within_limit); [fixes|done|]. intros [] w1 E1 _. injection E1 as _ <-.
  apply (after_fixes emojis within_limit); [fixes|done|]. intros [] w1 E1 Hw1.
  pose proof (emoji_check_run now user data w w1 Hk E1) as Hlt.
  apply (after_fixes emojis within_limit); [fixes|by rewrite Hw1|]. intros file w2 _ Hw2. cbv zeta.
  rewrite Hw1 in Hw2. unfold emojis at 1. rewrite before_fixes by fixes. unfold emoji_create.
  rewrite before_fixes by fixes. rewrite call_run. unfold of_world. simpl. unfold Ref.insert_emoji, insert_new. simpl.
  change (db_emojis (w_db w2)) with (emojis w2). rewrite Hw2.
  destruct (emojis w !! id) eqn:E; [simpl; change (db_emojis (w_db w2)) with (emojis w2); by rewrite Hw2|].
  simpl. intros server. rewrite emojis_insert by done. unfold belongs at 1. simpl.
  specialize (Hw server). destruct (EmojiParent_from_v0 (dce_parent data)) as [parent|] eqn:Hp; [|lia].
  case_bool_decide as Heq; [|lia]. subst parent. specialize (Hlt server eq_refl). lia.
Qed.

Lemma delete_emoji_limit now user id (w : Wd) :
  within_limit (emojis w) -> within_limit (emojis (delete_emoji now user id w).2).
Proof.
  intros Hw.
  assert (forall e (w1 : Wd), emojis w1 = emojis w -> within_limit (emojis (emoji_delete e w1).2)) as Hd.
  { intros e w1 Hw1. unfold emoji_delete.
    apply (after_fixes emojis within_limit); [apply fixes_p|by rewrite Hw1|]. intros [] w2 _ Hw2.
    rewrite call_run. unfold emojis, of_world. simpl. unfold Ref.detach_emoji, with_mut.
    change (db_emojis (w_db w2)) with (emojis w2). rewrite Hw2, Hw1.
    destruct (emojis w !! e_id e) as [e0|] eqn:E; simpl.
    - by apply (limit_detach (e_id e) e0).
    - change (db_emojis (w_db w2)) with (emojis w2). by rewrite Hw2, Hw1. }
  unfold delete_emoji, as_emoji. apply (after_fixes emojis within_limit); [fixes|done|]. intros e w1 _ Hw1.
  case_bool_decide; [by apply Hd|]. destruct (e_parent e); [|simpl; by rewrite Hw1].
  apply (after_fixes emojis within_limit); [fixes|by rewrite Hw1|]. intros srv w2 _ Hw2.
  apply (after_fixes emojis within_limit); [fixes|by rewrite Hw2, Hw1|]. intros [] w3 _ Hw3.
  apply Hd. congruence.
Qed.

Lemma fixes_emoji_servers (w w' : Wd) : emoji_step w w' -> of_world db_servers w' = of_world db_servers w.
Proof.
  assert (forall id uploader, fixes (of_world db_servers) (use_emoji id uploader)) as Huse.
  { intros id uploader v. unfold use_emoji. rewrite call_run. simpl. unfold Ref.find_and_use_attachment.
    destruct (db_files (w_db v) !! id) as [file|]; [|done]. by case_bool_decide. }
  intros [now user id data|now user id].
  - assert (fixes (of_world db_servers) (create_emoji now global user id data)) as Hf; [|apply Hf].
    unfold create_emoji, require_server, emoji_create. fixes.
  - assert (fixes (of_world db_servers) (delete_emoji now user id)) as Hf; [|apply Hf].
    unfold delete_emoji, as_emoji, require_server, emoji_delete. fixes.
Qed.

(** However emoji are created and deleted, a server has at most the
    configured number of them. *)
Theorem emoji_limit_holds (w w' : Wd) :
  map_Forall (fun k s => s_id s = k) (of_world db_servers w) ->
  within_limit (emojis w) -> rtc emoji_step w w' -> within_limit (emojis w').
Proof.
  intros Hk Hw Hr. induction Hr as [|w w1 w' Hstep _ IH]; [done|].
  apply IH; [by rewrite (fixes_emoji_servers _ _ Hstep)|].
  destruct Hstep; [by apply create_emoji_limit|by apply delete_emoji_limit].
Qed.
End EmojiLimit.

(** ** Reports *)

Section Reports.
Context `{HO : HashOrder} `{Validator} `{TS : TextServices}.
Context `{OS : OptionalStruct Server PartialServer} `{OR : OptionalStruct Role PartialRole}
  `{OM : OptionalStruct Member PartialMember} `{OU : OptionalStruct User PartialUser}
  `{OG : OptionalStruct Message PartialMessage} `{OW : OptionalStruct Webhook PartialWebhook}.
Import UserRoute.

(** Nobody reports what is their own. *)
Lemma reported_not_own user content (w w' : World ReferenceDb) r :
  reported user content w = (Ok r, w') ->
  match content with
  | v0.ReportedContent.Message id _ =>
      exists m, of_world db_messages w !! id = Some m /\ msg_author m <> u_id user
  | v0.ReportedContent.Server id _ => exists s, of_world db_servers w !! id = Some s /\ s_owner s <> u_id user
  | v0.ReportedContent.User id _ _ => exists u, of_world db_users w !! id = Some u /\ u_id u <> u_id user
  end.
Proof.
  destruct content as [id reason|id reason|id reason message_id]; intros (x & w1 & E1 & E)%M_bind_Ok_inv;
    rewrite call_run in E1; simpl in E1;
    unfold Col.fetch_message, Ref.fetch_server, Ref.fetch_user, get_or, ok_or in E1;
    match type of E1 with (match ?l with _ => _ end, _) = _ => destruct l eqn:Hl end; try done;
    injection E1 as -> <-; case_bool_decide; try done; by exists x.
Qed.

(** A report that is accepted is stored and announced; it is of the caller, who is
    no bot, and not about the caller. *)
Theorem report_stored id first second user data (w w' : World ReferenceDb) :
  report_content id first second user data w = (Ok tt, w') ->
  u_bot user = None
  /\ (exists report, of_world db_safety_reports w' !! id = Some report /\ rp_author_id report = u_id user
      /\ rp_content report = drc_content data /\ rp_status report = v0.ReportStatus.Created
      /\ last (w_events w') = Some ("global", EventV1.ReportCreate (Report_to_v0 report)))
  /\ exists r w1, reported user (drc_content data) w = (Ok r, w1).
Proof.
  unfold report_content. intros ([] & w0 & E0 & E)%M_bind_Ok_inv. injection E0 as _ <-.
  case_bool_decide as Hbot; [done|]. apply eq_None_not_Some in Hbot.
  apply M_bind_Ok_inv in E as ([snapshots files] & w1 & E1 & E). split; [done|]. split; [|by eexists _, _].
  apply M_bind_Ok_inv in E as ([] & w2 & _ & E). apply M_bind_Ok_inv in E as ([] & w3 & _ & E).
  apply M_bind_Ok_inv in E as ([] & w4 & E4 & E). set (report := Build_Report _ _ _ _ _ _) in *.
  exists report. rewrite call_run in E4. simpl in E4. unfold Col.insert_report, insert_new in E4. simpl in E4.
  destruct (db_safety_reports (w_db w3) !! id); [done|]. injection E4 as <-. injection E as <-.
  split; [apply lookup_insert_eq|]. do 3 (split; [done|]). simpl. apply last_snoc.
Qed.
End Reports.

(** ** Members *)

(** As many users as members, in the same order: the members of online users
    are left, in that order. *)
Lemma retain_online_aligned (members : list Member) (users : list v0.User) :
  length members = length users ->
  UserRoute.retain_online members users
  = Ok (fst <$> filter (fun p : Member * v0.User => v0.u_online p.2 = true) (zip members users)).
Proof.
  revert users. induction members as [|m members IH]; intros [|u users]; try done. intros [= Hl]. simpl.
  rewrite IH by done. rewrite filter_cons. simpl. by destruct (v0.u_online u).
Qed.
(** With fewer users than members the request panics. *)
Lemma member_list_panics (members : list Member) (users : list v0.User) :
  (length users < length members)%nat -> UserRoute.retain_online members users = Panicked.
Proof.
  revert users. induction members as [|m members IH]; intros [|u users]; simpl; try lia; [done|].
  intros Hl. by rewrite IH by lia.
Qed.

(** ** Witnesses *)

Module UserRouteWitness.
Import ModelOps.SomePriority CollectionsWitness UserRoute.
#[local] Existing Instance UserWitness.ascii_services.
#[local] Instance validator : Validator := {| error_text _ := "invalid"; is_colour _ := true |}.
#[local] Instance patterns : UserPatterns := {|
  re_user_name _ := true; re_display_name _ := true; re_emoji _ := true |}.

Definition file (id tag uploader : string) : File := {|
  f_id := id; f_tag := tag; f_filename := id; f_hash := None; f_uploaded_at := None;
  f_uploader_id := Some uploader; f_used_for := None; f_deleted := None; f_reported := None;
  f_metadata := Metadata.File; f_content_type := "image/gif"; f_size := 1; f_message_id := None;
  f_user_id := None; f_server_id := None; f_object_id := None |}.
Definition upload : File := file "f" "attachments" "other".
Definition d0 : ReferenceDb :=
  set_users {[ "owner" := Example.user "owner" ]}
    (set_files {[ "f" := upload; "g" := file "g" "emojis" "owner" ]}
       (set_servers {[ "server" := Example.server ∅ ]} ReferenceDb_default)).
Definition s0 : Desk ReferenceDb := {| dk_world := world d0; dk_updates := [] |}.

Lemma any_file_deleted_witness :
  let s1 := (edit None ∅ "e" (Example.user "owner") "@me" (avatar_set "f") s0).2 in
  exists user1, user_table s1 !! "owner" = Some user1
    /\ file_table (edit None ∅ "e" user1 "@me" avatar_removed s1).2 !! "f" = Some (f_set_deleted (Some true) upload).
Proof.
  apply (any_file_deleted None ∅ "e" "e" (Example.user "owner") "f" upload s0).
  - reflexivity.
  - reflexivity.
  - discriminate.
  - reflexivity.
Defined.

Lemma s0_users : user_table s0 = {[ "owner" := Example.user "owner" ]}.
Proof. reflexivity. Qed.

(** Somebody else tries to edit the owner. *)
Lemma user_edit_authorised_witness :
  let s' := (edit None ∅ "e" (Example.user "other") "owner" (avatar_set "f") s0).2 in
  user_table s' !! "owner" = Some (Example.user "owner")
  \/ exists u', user_table s' !! "owner" = Some u' /\ edited (avatar_set "f") (Example.user "owner") u'
     /\ ("owner" = "other" \/ (exists bot, u_bot (Example.user "owner") = Some bot /\ bi_owner bot = "other")
         \/ u_privileged (Example.user "other") = true)
     /\ (u_privileged (Example.user "other") = false ->
          u_badges u' = u_badges (Example.user "owner") /\ u_flags u' = u_flags (Example.user "owner")).
Proof.
  apply (user_edit_authorised None ∅ "e" (Example.user "other") "owner" (avatar_set "f") s0).
  - rewrite s0_users. by intros k u [<- <-]%lookup_singleton_Some.
  - reflexivity.
Defined.

Definition global_limits : GlobalLimits := BotWitness.global_limits.
Definition w1 : World ReferenceDb :=
  (create_emoji 0 global_limits (Example.user "owner") "g"
     {| dce_name := "blob"; dce_parent := v0.EmojiParent.Server "server"; dce_nsfw := false |} (world d0)).2.

Lemma emoji_limit_holds_witness : within_limit global_limits (emojis w1).
Proof.
  apply (emoji_limit_holds global_limits (world d0)).
  - change (of_world db_servers (world d0)) with ({[ "server" := Example.server ∅ ]} : gmap string Server).
    by intros k s [<- <-]%lookup_singleton_Some.
  - intros server. vm_compute. discriminate.
  - apply rtc_once. apply emoji_added.
Defined.
Example emoji_created : length (emojis_of "server" (emojis w1)) = 1%nat.
Proof. vm_compute. reflexivity. Qed.
End UserRouteWitness.
