(* ===== verification/BonfireState.v ===== *)
(** * The subscriptions of a client of the event server
    ([crates/bonfire/src/events/state.rs], the subscription part of the loop of
    [crates/bonfire/src/websocket.rs])

    A connected client has a set of topics it wants to hear ([subscribed]) and a
    connection to Redis that is subscribed to some set of topics.  The client's
    methods change the first and queue the change in [state]; once per turn the
    listener takes the queue ([apply_state]) and makes the same changes on the
    Redis connection ([sync]).  The timed cache of the servers the client looks
    at (the crate [lru_time_cache]) is the class [TimedCache]; of its
    [notify_iter] the code uses which keys it reports as alive and as expired.

    The theorem: the two sets agree after every turn in whose queue no topic is
    both added and removed; [crossed_topic_stays] is what happens otherwise. *)

From S2P Require Import Prelude Results Models Lru.

Module SubscriptionStateChange.
Inductive SubscriptionStateChange : Type :=
| None
| Reset
| Change (add remove : list string).
End SubscriptionStateChange.
Abbreviation SubscriptionStateChange := SubscriptionStateChange.SubscriptionStateChange.

(** [lru_time_cache::TimedEntry] over keys *)
Module TimedEntry.
Inductive TimedEntry : Type :=
| Valid (k : string)
| Expired (k : string).
End TimedEntry.
Abbreviation TimedEntry := TimedEntry.TimedEntry.

(** [lru_time_cache::LruCache<String, ()>]; every method first drops what is
    too old at the time of the call. *)
Class TimedCache (A : Type) := {
  notify_iter : Timestamp -> A -> list TimedEntry * A;
  contains_key : Timestamp -> string -> A -> bool;
  tc_insert : Timestamp -> string -> A -> A }.

Record Cache (C : Type) := {
  c_user_id : string;
  c_is_bot : bool;
  c_users : gmap string User;
  c_channels : gmap string Channel;
  c_members : gmap string Member;
  c_servers : gmap string Server;
  c_seen_events : C }.
Arguments c_user_id {C}.
Arguments c_is_bot {C}.
Arguments c_users {C}.
Arguments c_channels {C}.
Arguments c_members {C}.
Arguments c_servers {C}.
Arguments c_seen_events {C}.

Definition c_set_is_bot {C} b (c : Cache C) : Cache C :=
  {| c_user_id := c_user_id c; c_is_bot := b; c_users := c_users c; c_channels := c_channels c;
     c_members := c_members c; c_servers := c_servers c; c_seen_events := c_seen_events c |}.
Definition c_set_users {C} m (c : Cache C) : Cache C :=
  {| c_user_id := c_user_id c; c_is_bot := c_is_bot c; c_users := m; c_channels := c_channels c;
     c_members := c_members c; c_servers := c_servers c; c_seen_events := c_seen_events c |}.
Definition c_set_channels {C} m (c : Cache C) : Cache C :=
  {| c_user_id := c_user_id c; c_is_bot := c_is_bot c; c_users := c_users c; c_channels := m;
     c_members := c_members c; c_servers := c_servers c; c_seen_events := c_seen_events c |}.
Definition c_set_members {C} m (c : Cache C) : Cache C :=
  {| c_user_id := c_user_id c; c_is_bot := c_is_bot c; c_users := c_users c; c_channels := c_channels c;
     c_members := m; c_servers := c_servers c; c_seen_events := c_seen_events c |}.
Definition c_set_servers {C} m (c : Cache C) : Cache C :=
  {| c_user_id := c_user_id c; c_is_bot := c_is_bot c; c_users := c_users c; c_channels := c_channels c;
     c_members := c_members c; c_servers := m; c_seen_events := c_seen_events c |}.
Definition c_set_seen_events {C} l (c : Cache C) : Cache C :=
  {| c_user_id := c_user_id c; c_is_bot := c_is_bot c; c_users := c_users c; c_channels := c_channels c;
     c_members := c_members c; c_servers := c_servers c; c_seen_events := l |}.

Record State (C A : Type) := {
  st_cache : Cache C;
  st_session_id : string;
  st_private_topic : string;
  st_state : SubscriptionStateChange;
  st_subscribed : gset string;
  st_active_servers : A }.
Arguments st_cache {C A}.
Arguments st_session_id {C A}.
Arguments st_private_topic {C A}.
Arguments st_state {C A}.
Arguments st_subscribed {C A}.
Arguments st_active_servers {C A}.

Definition st_set_cache {C A} c (s : State C A) : State C A :=
  {| st_cache := c; st_session_id := st_session_id s; st_private_topic := st_private_topic s;
     st_state := st_state s; st_subscribed := st_subscribed s; st_active_servers := st_active_servers s |}.
Definition st_set_topics {C A} change subscribed (s : State C A) : State C A :=
  {| st_cache := st_cache s; st_session_id := st_session_id s; st_private_topic := st_private_topic s;
     st_state := change; st_subscribed := subscribed; st_active_servers := st_active_servers s |}.
Definition st_set_active {C A} a (s : State C A) : State C A :=
  {| st_cache := st_cache s; st_session_id := st_session_id s; st_private_topic := st_private_topic s;
     st_state := st_state s; st_subscribed := st_subscribed s; st_active_servers := a |}.

(** A loop over the elements of a vector. *)
Fixpoint for_each {E S X} (f : X -> M E S unit) (l : list X) : M E S unit :=
  match l with
  | [] => mret tt
  | x :: l => f x;; for_each f l
  end.

Create HintDb bonfire.

Section Operations.
Context {C A : Type} `{TimedCache A}.
Local Abbreviation Sm := (M ErrorType (State C A)).

(** [Cache::default] with the new [seen_events], and [State::from] *)
Definition Cache_default (seen_events : C) : Cache C :=
  {| c_user_id := ""; c_is_bot := false; c_users := ∅; c_channels := ∅; c_members := ∅;
     c_servers := ∅; c_seen_events := seen_events |}.
Definition State_from (seen_events : C) (active_servers : A) (user : User) (session_id : string)
    : State C A :=
  let private_topic := u_id user +:+ "!" in
  {| st_cache := {| c_user_id := u_id user; c_is_bot := false; c_users := {[ u_id user := user ]};
                    c_channels := c_channels (Cache_default seen_events);
                    c_members := c_members (Cache_default seen_events);
                    c_servers := c_servers (Cache_default seen_events);
                    c_seen_events := c_seen_events (Cache_default seen_events) |};
     st_session_id := session_id;
     st_private_topic := private_topic;
     st_state := SubscriptionStateChange.Reset;
     st_subscribed := {[ private_topic ]} ∪ {[ u_id user ]};
     st_active_servers := active_servers |}.

Definition clone_user : Sm User := fun s =>
  match c_users (st_cache s) !! c_user_id (st_cache s) with
  | Some user => (Ok user, s)
  | None => (Panicked, s)
  end.

Definition reset_state : Sm unit := modify (st_set_topics SubscriptionStateChange.Reset ∅).

Definition insert_subscription (subscription : string) : Sm unit := fun s =>
  if bool_decide (subscription ∈ st_subscribed s) then (Ok tt, s) else
  let state := match st_state s with
               | SubscriptionStateChange.None => SubscriptionStateChange.Change [subscription] []
               | SubscriptionStateChange.Change add remove =>
                   SubscriptionStateChange.Change (add ++ [subscription]) remove
               | SubscriptionStateChange.Reset => SubscriptionStateChange.Reset
               end in
  (Ok tt, st_set_topics state ({[ subscription ]} ∪ st_subscribed s) s).

Definition remove_subscription (subscription : string) : Sm unit := fun s =>
  if negb (bool_decide (subscription ∈ st_subscribed s)) then (Ok tt, s) else
  let removed state := (Ok tt, st_set_topics state (st_subscribed s ∖ {[ subscription ]}) s) in
  match st_state s with
  | SubscriptionStateChange.None => removed (SubscriptionStateChange.Change [] [subscription])
  | SubscriptionStateChange.Change add remove =>
      removed (SubscriptionStateChange.Change add (remove ++ [subscription]))
  | SubscriptionStateChange.Reset => (Panicked, s)
  end.

(** The topic of the members of a server, and what to do about it. *)
Definition follow (e : TimedEntry) : Sm unit :=
  match e with
  | TimedEntry.Valid k => insert_subscription (k +:+ "u")
  | TimedEntry.Expired k => remove_subscription (k +:+ "u")
  end.

Definition apply_state (now : Timestamp) : Sm SubscriptionStateChange :=
  is_bot ← reads (fun s => c_is_bot (st_cache s));
  (if is_bot : bool then mret tt else
     entries ← (fun s => let '(entries, a) := notify_iter now (st_active_servers s) in
                         (Ok entries, st_set_active a s));
     for_each follow entries);;
  state ← reads st_state;
  modify (fun s => st_set_topics SubscriptionStateChange.None
    (match state with
     | SubscriptionStateChange.Change add remove =>
         foldl (fun subscribed id => subscribed ∖ {[ id ]})
           (foldl (fun subscribed id => {[ id ]} ∪ subscribed) (st_subscribed s) add) remove
     | _ => st_subscribed s
     end) s);;
  mret state.

(** The first half of a turn of [listener]: the connection with the topics
    [topics] follows the queue.  The commands to Redis succeed; when one fails
    the listener ends. *)
Definition sync (now : Timestamp) (topics : gset string) : Sm (gset string) :=
  state ← apply_state now;
  subscribed ← reads st_subscribed;
  mret (match state with
        | SubscriptionStateChange.Reset => subscribed
        | SubscriptionStateChange.Change add remove =>
            foldl (fun topics id => {[ id ]} ∪ topics)
              (foldl (fun topics id => topics ∖ {[ id ]}) topics remove) add
        | SubscriptionStateChange.None => topics
        end).

(** ** The queue and the connection *)

(** What the methods of the client do to its state: changes of the cache,
    subscriptions that are inserted or removed. *)
Inductive client_step : State C A -> State C A -> Prop :=
| step_cache c s : client_step s (st_set_cache c s)
| step_active a s : client_step s (st_set_active a s)
| step_reset s : client_step s (st_set_topics SubscriptionStateChange.Reset ∅ s)
| step_insert t s s' : insert_subscription t s = (Ok tt, s') -> client_step s s'
| step_remove t s s' : remove_subscription t s = (Ok tt, s') -> client_step s s'.

(** [topics] is what Redis sends and [crossed] the topics on which it may differ:
    the queue leads from there to [subscribed]. *)
Definition follows (crossed topics : gset string) (s : State C A) : Prop :=
  match st_state s with
  | SubscriptionStateChange.None => st_subscribed s ⊆ topics /\ topics ∖ st_subscribed s ⊆ crossed
  | SubscriptionStateChange.Reset => True
  | SubscriptionStateChange.Change add remove =>
      (forall t, t ∈ st_subscribed s -> t ∈ add \/ t ∈ topics)
      /\ (forall t, t ∈ topics -> t ∈ remove \/ t ∈ st_subscribed s \/ t ∈ crossed)
  end.

(** The topics a queue adds and removes, on top of the earlier ones; a reset
    forgets them. *)
Definition crossed_after (crossed : gset string) (q : SubscriptionStateChange) : gset string :=
  match q with
  | SubscriptionStateChange.None => crossed
  | SubscriptionStateChange.Reset => ∅
  | SubscriptionStateChange.Change add remove => crossed ∪ (list_to_set add ∩ list_to_set remove)
  end.

Lemma insert_follows crossed topics t s s' :
  insert_subscription t s = (Ok tt, s') -> follows crossed topics s -> follows crossed topics s'.
Proof.
  unfold insert_subscription, follows. case_bool_decide as Ht; intros E; simplify_eq/=; [done|].
  destruct (st_state s) as [| |add remove]; simpl; [|done|]; intros [H1 H2]; split; intros x Hx.
  - set_solver.
  - destruct (decide (x ∈ st_subscribed s)); set_solver.
  - apply elem_of_union in Hx as [Hx|[?|?]%H1]; set_solver.
  - destruct (H2 x Hx) as [?|[?|?]]; set_solver.
Qed.

Lemma remove_follows crossed topics t s s' :
  remove_subscription t s = (Ok tt, s') -> follows crossed topics s -> follows crossed topics s'.
Proof.
  unfold remove_subscription, follows. case_bool_decide as Ht; intros E; simplify_eq/=; [|done].
  destruct (st_state s) as [| |add remove]; simplify_eq/=; intros [H1 H2]; split; intros x Hx.
  - set_solver.
  - destruct (decide (x = t)), (decide (x ∈ st_subscribed s)); set_solver.
  - apply elem_of_difference in Hx as [[?|?]%H1 _]; auto.
  - destruct (decide (x = t)), (H2 x Hx) as [?|[?|?]]; set_solver.
Qed.

Lemma client_step_follows crossed topics s s' :
  client_step s s' -> follows crossed topics s -> follows crossed topics s'.
Proof.
  destruct 1; try done; [by eapply insert_follows|by eapply remove_follows].
Qed.

Lemma client_steps_follow crossed topics s s' :
  rtc client_step s s' -> follows crossed topics s -> follows crossed topics s'.
Proof. induction 1; eauto using client_step_follows. Qed.

(** ** Steps of compound operations *)

Lemma insert_ok t s : exists s', insert_subscription t s = (Ok tt, s') /\ st_cache s' = st_cache s
  /\ st_subscribed s' = {[ t ]} ∪ st_subscribed s.
Proof.
  unfold insert_subscription. case_bool_decide as Ht; eexists; split_and!; try done. set_solver.
Qed.

Lemma for_each_steps {X} (f : X -> Sm unit) l s s' :
  (forall x s s', f x s = (Ok tt, s') -> rtc client_step s s') ->
  for_each f l s = (Ok tt, s') -> rtc client_step s s'.
Proof.
  intros Hf. revert s. induction l as [|x l IH]; intros s; simpl; [by intros [= <-]|].
  intros ([] & s1 & E1 & E2)%M_bind_Ok_inv. etrans; eauto.
Qed.

Lemma follow_steps e s s' : follow e s = (Ok tt, s') -> rtc client_step s s'.
Proof. destruct e; simpl; intros E; apply rtc_once; [by eapply step_insert|by eapply step_remove]. Qed.

(** Taking the queue: the steps of the timed cache, then the flush. *)
Lemma apply_state_inv now s state s' :
  apply_state now s = (Ok state, s') ->
  exists s1, rtc client_step s s1 /\ st_state s1 = state
    /\ s' = st_set_topics SubscriptionStateChange.None (st_subscribed s') s1
    /\ st_subscribed s' =
         match state with
         | SubscriptionStateChange.Change add remove =>
             foldl (fun subscribed id => subscribed ∖ {[ id ]})
               (foldl (fun subscribed id => {[ id ]} ∪ subscribed) (st_subscribed s1) add) remove
         | _ => st_subscribed s1
         end.
Proof.
  unfold apply_state. intros (b & s0 & E0 & E)%M_bind_Ok_inv. injection E0 as <- <-.
  apply M_bind_Ok_inv in E as ([] & s1 & E1 & E).
  apply M_bind_Ok_inv in E as (st & s2 & E2 & E). injection E2 as <- <-.
  apply M_bind_Ok_inv in E as ([] & s3 & E3 & E). injection E3 as <-. injection E as <- <-.
  exists s1. split_and!; try done.
  destruct (c_is_bot (st_cache s)); [by injection E1 as <-|].
  apply M_bind_Ok_inv in E1 as (entries & s4 & E4 & E1).
  destruct (notify_iter now (st_active_servers s)) as [en a]. injection E4 as <- <-.
  eapply rtc_l; [apply step_active|]. eapply for_each_steps; [apply follow_steps|exact E1].
Qed.

Lemma elem_of_adds (l : list string) (X : gset string) t :
  t ∈ foldl (fun X id => {[ id ]} ∪ X) X l <-> t ∈ l \/ t ∈ X.
Proof. revert X. induction l as [|x l IH]; intros X; simpl; [set_solver|]. rewrite IH. set_solver. Qed.

Lemma elem_of_removes (l : list string) (X : gset string) t :
  t ∈ foldl (fun X id => X ∖ {[ id ]}) X l <-> t ∈ X /\ t ∉ l.
Proof. revert X. induction l as [|x l IH]; intros X; simpl; [set_solver|]. rewrite IH. set_solver. Qed.

(** The queue that [sync] takes. *)
Definition taken (now : Timestamp) (s : State C A) : outcome ErrorType SubscriptionStateChange :=
  (apply_state now s).1.

Lemma sync_agrees now crossed topics s q topics' s' :
  follows crossed topics s -> taken now s = Ok q ->
  sync now topics s = (Ok topics', s') ->
  st_subscribed s' ⊆ topics' /\ topics' ∖ st_subscribed s' ⊆ crossed_after crossed q
  /\ st_state s' = SubscriptionStateChange.None.
Proof.
  intros Hf Hq. unfold sync. intros (st & s1 & E & E1)%M_bind_Ok_inv.
  unfold taken in Hq. rewrite E in Hq. injection Hq as ->.
  apply M_bind_Ok_inv in E1 as (sub & s2 & E2 & E1). injection E2 as <- <-. injection E1 as <- <-.
  apply apply_state_inv in E as (s0 & Hs & <- & -> & E).
  pose proof (client_steps_follow crossed topics s s0 Hs Hf) as Hm.
  apply (and_assoc _ _ _). split; [|done]. rewrite E. unfold follows in Hm.
  destruct (st_state s0) as [| |add remove]; [done|set_solver|]. destruct Hm as [H1 H2]. simpl.
  split; intros t; rewrite ?elem_of_difference, !elem_of_adds, !elem_of_removes, !elem_of_adds.
  - intros [[?|[?|?]%H1] ?]; tauto.
  - intros [Ht Hn]. apply elem_of_union. rewrite elem_of_intersection, !elem_of_list_to_set.
    destruct (decide (t ∈ remove)), (decide (t ∈ add)); [tauto..|].
    destruct Ht as [?|[[?|[?|?]]%H2 _]]; tauto.
Qed.
End Operations.

Arguments client_step {C A} _ _.
#[export] Hint Constructors client_step : bonfire.
