(* ===== verification/BonfireEvents.v ===== *)
(** * What the event server does with events
    ([crates/bonfire/src/events/impl.rs], the [EventV1] and [ReadyPayloadFields]
    of [crates/core/database/src/events/client.rs])

    The cache of a client and its reaction to the events it hears: which channels
    it sees, which topics it subscribes to, and the events it forwards to the
    client, possibly replaced.  Events carry API objects; what the cache keeps is
    converted back ([Bridge]).  The database is read only, through
    [BonfireDatabase]; the clock is read once per event.

    The theorems: recalculating a server leaves exactly the channels that the
    client sees; the topics of the Redis connection are those of the client after
    every turn, as long as no topic is both added and removed in it; and the
    cases in which the cache goes wrong. *)

From S2P Require Import Prelude Results Permissions PermissionCalc Models ApiTypes Records ModelOps DbPermissions PermissionSpec ReferenceDb Collections World Users Channels Redis Presence Voice Lru Bridge BridgeMessages BonfireState.

(** [AuthifierEvent], of which the event server reads two (the crate [authifier]) *)
Module AuthifierEvent.
Inductive AuthifierEvent : Type :=
| CreateAccount
| CreateSession
| DeleteSession (user_id session_id : string)
| DeleteAllSessions (user_id : string) (exclude_session_id : option string).
End AuthifierEvent.
Abbreviation AuthifierEvent := AuthifierEvent.AuthifierEvent.

Module Ping.
Inductive Ping : Type := Binary (data : list Z) | Number (n : Z).
End Ping.
Abbreviation Ping := Ping.Ping.

Definition ChannelVoiceState : Type := string * list UserVoiceState.

(** [EventV1]; [Json] and [Interaction] are payloads that are passed on. *)
Module client.
#[warnings="-register-all"]
Inductive EventV1 (Json Interaction : Type) : Type :=
| Bulk (v : list (EventV1 Json Interaction))
| Error (data : ErrorType)
| Authenticated
| Logout
| Ready (users : option (list v0.User)) (servers : option (list v0.Server))
    (channels : option (list v0.Channel)) (members : option (list v0.Member))
    (emojis : option (list v0.Emoji)) (voice_states : option (list ChannelVoiceState))
    (user_settings : option v0.UserSettings) (channel_unreads : option (list v0.ChannelUnread))
    (policy_changes : option (list v0.PolicyChange))
| Pong (data : Ping)
| Message (message : v0.Message)
| MessageUpdate (id channel : string) (data : v0.PartialMessage) (clear : list v0.FieldsMessage)
| MessageAppend (id channel : string) (append : v0.AppendMessage)
| MessageDelete (id channel : string)
| MessageReact (id channel_id user_id emoji_id : string)
| MessageUnreact (id channel_id user_id emoji_id : string)
| MessageRemoveReaction (id channel_id emoji_id : string)
| BulkMessageDelete (channel : string) (ids : list string)
| ServerCreate (id : string) (server : v0.Server) (channels : list v0.Channel) (emojis : list v0.Emoji)
    (voice_states : list ChannelVoiceState)
| ServerUpdate (id : string) (data : v0.PartialServer) (clear : list v0.FieldsServer)
| ServerDelete (id : string)
| ServerMemberUpdate (id : v0.MemberCompositeKey) (data : v0.PartialMember) (clear : list v0.FieldsMember)
| ServerMemberJoin (id user : string) (member : v0.Member)
| ServerMemberLeave (id user : string) (reason : v0.RemovalIntention)
| ServerRoleUpdate (id role_id : string) (data : v0.PartialRole) (clear : list v0.FieldsRole)
| ServerRoleDelete (id role_id : string)
| ServerRoleRanksUpdate (id : string) (ranks : list string)
| UserUpdate (id : string) (data : v0.PartialUser) (clear : list v0.FieldsUser) (event_id : option string)
| UserRelationship (id : string) (user : v0.User)
| UserSettingsUpdate (id : string) (update : v0.UserSettings)
| UserPlatformWipe (user_id : string) (flags : Z)
| EmojiCreate (emoji : v0.Emoji)
| EmojiDelete (id : string)
| ReportCreate (report : v0.Report)
| ChannelCreate (channel : v0.Channel)
| ChannelUpdate (id : string) (data : v0.PartialChannel) (clear : list v0.FieldsChannel)
| ChannelDelete (id : string)
| ChannelGroupJoin (id user : string)
| ChannelGroupLeave (id user : string)
| ChannelStartTyping (id user : string)
| ChannelStopTyping (id user : string)
| ChannelAck (id user message_id : string)
| WebhookCreate (webhook : v0.Webhook)
| WebhookUpdate (id : string) (data : v0.PartialWebhook) (remove : list v0.FieldsWebhook)
| WebhookDelete (id : string)
| Auth (event : AuthifierEvent)
| VoiceChannelJoin (id : string) (state : UserVoiceState)
| VoiceChannelLeave (id user : string)
| VoiceChannelMove (user from to : string) (state : UserVoiceState)
| UserVoiceStateUpdate (id channel_id : string) (data : PartialUserVoiceState)
| UserMoveVoiceChannel (node from to token : string)
| ViewerCountUpdate (id : string) (count : Z)
| VoiceSignalRelay (channel_id from_user : string) (payload : Json)
| BeaconRequested (file_hash requester_user_id : string)
| StreamMetricsUpdate (channel : string) (current_viewers peak_viewers duration_seconds : Z)
| InteractionCreate (interaction : Interaction).
End client.

Record ReadyPayloadFields := {
  rf_users : bool;
  rf_servers : bool;
  rf_channels : bool;
  rf_members : bool;
  rf_emojis : bool;
  rf_voice_states : bool;
  rf_user_settings : list string;
  rf_channel_unreads : bool;
  rf_policy_changes : bool }.
Definition ReadyPayloadFields_default : ReadyPayloadFields := {|
  rf_users := true; rf_servers := true; rf_channels := true; rf_members := true; rf_emojis := true;
  rf_voice_states := true; rf_user_settings := []; rf_channel_unreads := false; rf_policy_changes := true |}.

(** What the event server reads of the database. *)
Module BonfireDb.
Class BonfireDatabase (D : Type) := {
  fetch_policy_changes : D -> Result (list PolicyChange);
  fetch_all_memberships : D -> string -> Result (list Member);
  fetch_servers : D -> list string -> Result (list Server);
  find_direct_messages : D -> string -> Result (list Channel);
  fetch_channels : D -> list string -> Result (list Channel);
  fetch_emoji_by_parent_ids : D -> list string -> Result (list Emoji);
  fetch_user_settings : D -> string -> list string -> Result UserSettings;
  fetch_unreads : D -> string -> Result (list ChannelUnread) }.
End BonfireDb.
Abbreviation BonfireDatabase := BonfireDb.BonfireDatabase.

#[export] Instance reference_bonfire `{HashOrder} : BonfireDatabase ReferenceDb := {|
  BonfireDb.fetch_policy_changes := Col.fetch_policy_changes;
  BonfireDb.fetch_all_memberships := Ref.fetch_all_memberships;
  BonfireDb.fetch_servers := Ref.fetch_servers;
  BonfireDb.find_direct_messages := Ref.find_direct_messages;
  BonfireDb.fetch_channels := Ref.fetch_channels;
  BonfireDb.fetch_emoji_by_parent_ids := Ref.fetch_emoji_by_parent_ids;
  BonfireDb.fetch_user_settings := Col.fetch_user_settings;
  BonfireDb.fetch_unreads := Col.fetch_unreads |}.

(** The author of a message as the client sees them. *)
Definition v0_u_set_relationship (r : v0.RelationshipStatus) (u : v0.User) : v0.User := {|
  v0.u_id := v0.u_id u;
  v0.u_username := v0.u_username u;
  v0.u_discriminator := v0.u_discriminator u;
  v0.u_display_name := v0.u_display_name u;
  v0.u_avatar := v0.u_avatar u;
  v0.u_relations := v0.u_relations u;
  v0.u_badges := v0.u_badges u;
  v0.u_status := v0.u_status u;
  v0.u_flags := v0.u_flags u;
  v0.u_privileged := v0.u_privileged u;
  v0.u_bot := v0.u_bot u;
  v0.u_relationship := r;
  v0.u_online := v0.u_online u;
  v0.u_subscription := v0.u_subscription u;
  v0.u_active_decorations := v0.u_active_decorations u;
  v0.u_presence_style := v0.u_presence_style u |}.
Definition v0_msg_set_user (user : option v0.User) (m : v0.Message) : v0.Message := {|
  v0.msg_id := v0.msg_id m;
  v0.msg_nonce := v0.msg_nonce m;
  v0.msg_channel := v0.msg_channel m;
  v0.msg_author := v0.msg_author m;
  v0.msg_user := user;
  v0.msg_member := v0.msg_member m;
  v0.msg_webhook := v0.msg_webhook m;
  v0.msg_content := v0.msg_content m;
  v0.msg_system := v0.msg_system m;
  v0.msg_attachments := v0.msg_attachments m;
  v0.msg_edited := v0.msg_edited m;
  v0.msg_embeds := v0.msg_embeds m;
  v0.msg_mentions := v0.msg_mentions m;
  v0.msg_role_mentions := v0.msg_role_mentions m;
  v0.msg_replies := v0.msg_replies m;
  v0.msg_reactions := v0.msg_reactions m;
  v0.msg_interactions := v0.msg_interactions m;
  v0.msg_masquerade := v0.msg_masquerade m;
  v0.msg_pinned := v0.msg_pinned m;
  v0.msg_flags := v0.msg_flags m |}.

(** [iter().map(|x| (key(x), x)).collect()] into a map *)
Definition by_key {V} (key : V -> string) (l : list V) : gmap string V :=
  foldl (fun m x => <[key x := x]> m) ∅ l.

Section Events.
Context {D C A : Type} `{PermissionDatabase D} `{BonfireDatabase D} `{HashOrder} `{LruCache C} `{TimedCache A}.
Context `{OptionalStruct Server PartialServer} `{OptionalStruct Role PartialRole}.
Context `{OptionalStruct Member PartialMember}.
Context {Json Interaction : Type}.
Context (db : D) (now : Timestamp).
Local Abbreviation Event := (client.EventV1 Json Interaction).
Local Abbreviation Sm := (M ErrorType (State C A)).

Definition with_cache (f : Cache C -> Cache C) : Sm unit :=
  modify (fun s => st_set_cache (f (st_cache s)) s).
Definition set_channel (id : string) (c : Channel) : Cache C -> Cache C :=
  fun cache => c_set_channels (<[id := c]> (c_channels cache)) cache.
Definition remove_channel (id : string) : Cache C -> Cache C :=
  fun cache => c_set_channels (delete id (c_channels cache)) cache.

(** ** The cache *)

Definition can_view_channel (self : Cache C) (channel : Channel) : Result bool :=
  match channel with
  | Channel.TextChannel c =>
      match c_users self !! c_user_id self with
      | Some user =>
          let query := query_channel (DatabasePermissionQuery_new db user) channel in
          let query := match c_members self !! t_server c with Some m => query_member query m | None => query end in
          let query := match c_servers self !! t_server c with Some s => query_server query s | None => query end in
          perms ← (db_calculate_channel_permissions now query).1;
          Ok (has_channel_permission perms ChannelPermission.ViewChannel)
      | None => Panicked
      end
  | _ => Ok true
  end.

Fixpoint filter_accessible_channels (self : Cache C) (channels : list Channel) : Result (list Channel) :=
  match channels with
  | [] => Ok []
  | channel :: channels =>
      view ← can_view_channel self channel;
      rest ← filter_accessible_channels self channels;
      Ok (if view : bool then channel :: rest else rest)
  end.

(** The recipients of a direct message channel or a group. *)
Definition recipients_of (c : Channel) : list string :=
  match c with
  | Channel.DirectMessage c => dm_recipients c
  | Channel.Group c => g_recipients c
  | _ => []
  end.

Definition can_subscribe_to_user (self : Cache C) (user_id : string) : bool :=
  match c_users self !! c_user_id self with
  | Some user =>
      match relationship_with user user_id with
      | RelationshipStatus.Friend | RelationshipStatus.Incoming | RelationshipStatus.Outgoing
      | RelationshipStatus.User => true
      | _ => existsb (fun channel => contains user_id (recipients_of channel)) (hm_values (c_channels self))
      end
  | None => false
  end.

(** ** Recalculation of a server *)

(** The cached channels of a server: which the client sees and which not. *)
Fixpoint scan_channels (self : Cache C) (id : string) (channels : list (string * Channel))
    : Result (list string * list string) :=
  match channels with
  | [] => Ok ([], [])
  | (channel_id, channel) :: channels =>
      if bool_decide (channel_server channel = Some id) then
        view ← can_view_channel self channel;
        '(added, removed) ← scan_channels self id channels;
        Ok (if view : bool then (channel_id :: added, removed) else (added, channel_id :: removed))
      else scan_channels self id channels
  end.

Definition drop_channel (id : string) : Sm unit := remove_subscription id;; with_cache (remove_channel id).
Definition take_channel (channel : Channel) : Sm unit :=
  with_cache (set_channel (channel_id channel) channel);; insert_subscription (channel_id channel).

Definition recalculate_server (id : string) (event : Event) : Sm Event :=
  cache ← reads st_cache;
  match c_servers cache !! id with
  | None => mret event
  | Some server =>
      '(added, removed) ← lift_outcome (scan_channels cache id (hm_iter (c_channels cache)));
      let channel_ids : gset string := list_to_set (added ++ removed) in
      for_each insert_subscription added;;
      for_each drop_channel removed;;
      let unknowns := set_iter (list_to_set (s_channels server) ∖ channel_ids) in
      cache ← reads st_cache;
      viewable ← lift_outcome
        (if bool_decide (unknowns = []) then Ok [] else
         match BonfireDb.fetch_channels db unknowns with
         | Ok channels => filter_accessible_channels cache channels
         | Err _ => Ok []
         | Panicked => Panicked
         end);
      for_each take_channel viewable;;
      let bulk_events := (client.ChannelDelete Json Interaction <$> removed)
                         ++ (client.ChannelCreate Json Interaction ∘ Channel_to_v0 <$> viewable) in
      mret (if bool_decide (length bulk_events = 0%nat) then event
            else client.Bulk Json Interaction (bulk_events ++ [event]))
  end.

(** ** Incoming events *)

(** What is left to do after an event was looked at: whether it is forwarded, the
    server to recalculate, a topic to add, a topic to remove. *)
Record Outcome := {
  oc_event : Event;
  oc_forward : bool;
  oc_server : option string;
  oc_add : option string;
  oc_remove : option string }.
Definition forward (event : Event) : Outcome :=
  {| oc_event := event; oc_forward := true; oc_server := None; oc_add := None; oc_remove := None |}.
Definition forward_recalculating (event : Event) (server : option string) : Outcome :=
  {| oc_event := event; oc_forward := true; oc_server := server; oc_add := None; oc_remove := None |}.

(** [EventV1::ChannelUpdate] *)
Definition handle_channel_update (id : string) (data : v0.PartialChannel) (clear : list v0.FieldsChannel)
    (event : Event) : Sm Outcome :=
  cache ← reads st_cache;
  could_view ← lift_outcome (match c_channels cache !! id with
                             | Some channel => can_view_channel cache channel
                             | None => Ok false
                             end);
  match c_channels cache !! id with
  | Some channel =>
      with_cache (set_channel id (channel_apply_options
        (channel_remove_fields channel (FieldsChannel_from_v0 <$> clear)) (PartialChannel_from_v0 data)))
  | None => match fetch_channel db id with
            | Ok channel => with_cache (set_channel id channel)
            | Err _ => mret tt
            | Panicked => panic
            end
  end;;
  cache ← reads st_cache;
  match c_channels cache !! id with
  | Some channel =>
      can_view ← lift_outcome (can_view_channel cache channel);
      mret (if Bool.eqb could_view can_view then forward event
            else if can_view : bool
            then {| oc_event := client.ChannelCreate _ _ (Channel_to_v0 channel); oc_forward := true;
                    oc_server := None; oc_add := Some id; oc_remove := None |}
            else {| oc_event := client.ChannelDelete _ _ id; oc_forward := true;
                    oc_server := None; oc_add := None; oc_remove := Some id |})
  | None => mret (forward event)
  end.

(** The client is no longer in a server. *)
Definition leave_server (id : string) : Sm unit :=
  remove_subscription id;;
  cache ← reads st_cache;
  match c_servers cache !! id with
  | Some server =>
      with_cache (fun c => c_set_servers (delete id (c_servers c)) c);;
      for_each drop_channel (s_channels server)
  | None => mret tt
  end;;
  with_cache (fun c => c_set_members (delete id (c_members c)) c).

(** [EventV1::ServerCreate] *)
Definition handle_server_create (id : string) (server : v0.Server) (channels : list v0.Channel) : Sm unit :=
  insert_subscription id;;
  is_bot ← reads (fun s => c_is_bot (st_cache s));
  (if is_bot : bool then insert_subscription (id +:+ "u") else mret tt);;
  with_cache (fun c => c_set_servers (<[id := Server_from_v0 server]> (c_servers c)) c);;
  with_cache (fun c => c_set_members (<[id := {|
    m_id := {| mk_server := v0.s_id server; mk_user := c_user_id c |}; m_joined_at := now;
    m_nickname := None; m_avatar := None; m_roles := []; m_timeout := None;
    m_can_publish := true; m_can_receive := true |}]> (c_members c)) c);;
  for_each (fun channel => let channel := Channel_from_v0 channel in
                           with_cache (set_channel (channel_id channel) channel)) channels.

(** The server with its role changed, if both are there. *)
Definition update_role_in (role_id : string) (f : Role -> Role) (server : Server) : Server :=
  match s_roles server !! role_id with
  | Some role => s_set_roles (<[role_id := f role]> (s_roles server)) server
  | None => server
  end.
Definition alter_server (id : string) (f : Server -> Server) : Cache C -> Cache C :=
  fun c => c_set_servers (alter f id (c_servers c)) c.
Definition has_role (c : Cache C) (id role_id : string) : bool :=
  match c_members c !! id with Some member => contains role_id (m_roles member) | None => false end.

(** The match of [handle_incoming_event_v1]. *)
Definition look_at_event (event : Event) : Sm Outcome :=
  match event with
  | client.ChannelCreate _ _ channel =>
      let channel := Channel_from_v0 channel in
      insert_subscription (channel_id channel);;
      with_cache (set_channel (channel_id channel) channel);;
      mret (forward event)
  | client.ChannelUpdate _ _ id data clear => handle_channel_update id data clear event
  | client.ChannelDelete _ _ id =>
      remove_subscription id;; with_cache (remove_channel id);; mret (forward event)
  | client.ChannelGroupJoin _ _ _ user => insert_subscription user;; mret (forward event)
  | client.ChannelGroupLeave _ _ id user =>
      cache ← reads st_cache;
      (if bool_decide (user = c_user_id cache) then remove_subscription id
       else if negb (can_subscribe_to_user cache user) then remove_subscription user
       else mret tt);;
      mret (forward event)
  | client.ServerCreate _ _ id server channels _ _ =>
      handle_server_create id server channels;;
      mret (forward_recalculating event (Some id))
  | client.ServerUpdate _ _ id data clear =>
      with_cache (alter_server id (fun server => apply_options
        (foldl server_remove_field server (FieldsServer_from_v0 <$> clear)) (PartialServer_from_v0 data)));;
      mret (forward_recalculating event
              (if bool_decide (is_Some (v0.ps_default_permissions data)) then Some id else None))
  | client.ServerMemberLeave _ _ id user _ =>
      cache ← reads st_cache;
      (if bool_decide (user = c_user_id cache) then leave_server id else mret tt);;
      mret (forward event)
  | client.ServerDelete _ _ id => leave_server id;; mret (forward event)
  | client.ServerMemberUpdate _ _ id data clear =>
      cache ← reads st_cache;
      if bool_decide (v0.mk_user id = c_user_id cache) then
        with_cache (fun c => c_set_members (alter (fun member => apply_options
          (foldl member_remove_field member (FieldsMember_from_v0 <$> clear)) (PartialMember_from_v0 data))
          (v0.mk_server id) (c_members c)) c);;
        mret (forward_recalculating event
                (if bool_decide (is_Some (v0.pm_roles data)) || bool_decide (v0.FieldsMember.Roles ∈ clear)
                 then Some (v0.mk_server id) else None))
      else mret (forward event)
  | client.ServerRoleUpdate _ _ id role_id data clear =>
      with_cache (alter_server id (update_role_in role_id (fun role => apply_options
        (foldl role_remove_field role (FieldsRole_from_v0 <$> clear)) (PartialRole_from_v0 data))));;
      cache ← reads st_cache;
      mret (forward_recalculating event
              (if (bool_decide (is_Some (v0.pr_rank data)) || bool_decide (is_Some (v0.pr_permissions data)))
                  && has_role cache id role_id then Some id else None))
  | client.ServerRoleDelete _ _ id role_id =>
      with_cache (alter_server id (fun server => s_set_roles (delete role_id (s_roles server)) server));;
      cache ← reads st_cache;
      mret (forward_recalculating event (if has_role cache id role_id then Some id else None))
  | client.UserUpdate _ _ uid data clear event_id =>
      let sent := client.UserUpdate _ _ uid data clear None in
      match event_id with
      | Some id =>
          cache ← reads st_cache;
          if lru_contains id (c_seen_events cache) then
            mret {| oc_event := event; oc_forward := false; oc_server := None; oc_add := None; oc_remove := None |}
          else with_cache (fun c => c_set_seen_events (lru_put id (c_seen_events c)) c);; mret (forward sent)
      | None => mret (forward sent)
      end
  | client.UserRelationship _ _ id user =>
      with_cache (fun c => c_set_users (<[id := User_from_v0 user]> (c_users c)) c);;
      cache ← reads st_cache;
      (if can_subscribe_to_user cache id then insert_subscription id else remove_subscription id);;
      mret (forward event)
  | client.Message _ _ message =>
      match v0.msg_user message with
      | Some user =>
          self ← clone_user;
          mret (forward (client.Message _ _ (v0_msg_set_user
            (Some (v0_u_set_relationship (RelationshipStatus_to_v0 (relationship_with self (v0.msg_author message))) user))
            message)))
      | None => mret (forward event)
      end
  | _ => mret (forward event)
  end.

(** [State::handle_incoming_event_v1]: whether the event is forwarded, and the
    event that is. *)
Definition handle_incoming_event_v1 (event : Event) : Sm (bool * Event) :=
  o ← look_at_event event;
  if negb (oc_forward o) then mret (false, oc_event o) else
  event ← match oc_server o with
          | Some server_id => recalculate_server server_id (oc_event o)
          | None => mret (oc_event o)
          end;
  match oc_add o with Some id => insert_subscription id | None => mret tt end;;
  match oc_remove o with Some id => remove_subscription id | None => mret tt end;;
  mret (true, event).
End Events.

(** ** The Ready packet *)

Section Ready.
Context {D C A R : Type} `{PermissionDatabase D} `{BonfireDatabase D} `{HashOrder} `{LruCache C} `{TimedCache A}.
Context `{Redis R} `{TextServices}.
Context {Json Interaction : Type}.
Context (db : D) (now : Timestamp) (timestamp_ok : Z -> bool) (cutoff : option Z).
Local Abbreviation Event := (client.EventV1 Json Interaction).
Local Abbreviation Rd := (M ErrorType (State C A * R)).

Definition on_state {T} (m : M ErrorType (State C A) T) : Rd T := fun '(s, r) =>
  let '(o, s) := m s in (o, (s, r)).
Definition on_store {T} (m : M ErrorType R T) : Rd T := fun '(s, r) =>
  let '(o, r) := m r in (o, (s, r)).

(** The channels that may have a voice state. *)
Definition voice_capable (c : Channel) : bool :=
  match c with
  | Channel.DirectMessage _ | Channel.Group _ => true
  | Channel.TextChannel c => bool_decide (is_Some (t_voice c))
  | Channel.SavedMessages _ => false
  end.

(** The voice states of the channels, the users in them and, per server, the
    users in its channels.  An error of the store skips the channel. *)
Fixpoint collect_voice_states (channels : list Channel) (user_ids : gset string)
    (per_server : gmap string (gset string)) (states : list ChannelVoiceState)
    : Rd (gset string * gmap string (gset string) * list ChannelVoiceState) :=
  match channels with
  | [] => mret (user_ids, per_server, states)
  | channel :: channels => fun sr =>
      match on_store (get_channel_voice_state timestamp_ok channel) sr with
      | (Ok (Some voice_state), sr) =>
          let ids : gset string := list_to_set (vs_id <$> voice_state.2) in
          collect_voice_states channels (ids ∪ user_ids)
            (match channel_server channel with
             | Some server => <[server := ids ∪ default ∅ (per_server !! server)]> per_server
             | None => per_server
             end) (states ++ [voice_state]) sr
      | (Ok None, sr) | (Err _, sr) => collect_voice_states channels user_ids per_server states sr
      | (Panicked, sr) => (Panicked, sr)
      end
  end.

Fixpoint fetch_voice_members (per_server : list (string * gset string)) : Result (list Member) :=
  match per_server with
  | [] => Ok []
  | (server, user_ids) :: rest =>
      voice_members ← fetch_members db server (set_iter user_ids);
      others ← fetch_voice_members rest;
      Ok (voice_members ++ others)
  end.

(** [other_user.into_known(&user, is_online)] for each of the users *)
Fixpoint known_users (user : User) (online : gset string) (users : list User) : Result (list v0.User) :=
  match users with
  | [] => Ok []
  | other :: users =>
      shown ← into_known cutoff (Some user) (bool_decide (u_id other ∈ online)) other;
      rest ← known_users user online users;
      Ok (shown :: rest)
  end.

Definition when {T} (b : bool) (m : Result T) : Result (option T) :=
  if b then x ← m; Ok (Some x) else Ok None.

Definition map_ok {X Y} (f : X -> Y) (m : Result (list X)) : Result (list Y) :=
  match m with Ok l => Ok (map f l) | Err e => Err e | Panicked => Panicked end.
Definition map_ok_list {X} (f : list X -> list X) (m : Result (list X)) : Result (list X) :=
  match m with Ok l => Ok (f l) | Err e => Err e | Panicked => Panicked end.

(** [State::generate_ready_payload] *)
Definition generate_ready_payload (fields : ReadyPayloadFields) : Rd Event :=
  user ← on_state clone_user;
  on_state (with_cache (c_set_is_bot (bool_decide (is_Some (u_bot user)))));;
  policy_changes ← lift_outcome (when (negb (bool_decide (is_Some (u_bot user))) && rf_policy_changes fields)
    (map_ok PolicyChange_to_v0 (map_ok_list
       (retain (fun p => u_last_acknowledged_policy_change user <? pol_created_time p))
       (BonfireDb.fetch_policy_changes db))));
  let user_ids : gset string := list_to_set (map rel_id (default [] (u_relations user))) in
  members ← lift_outcome (BonfireDb.fetch_all_memberships db (u_id user));
  servers ← lift_outcome (BonfireDb.fetch_servers db (map (mk_server ∘ m_id) members));
  on_state (with_cache (c_set_servers (by_key s_id servers)));;
  direct ← lift_outcome (BonfireDb.find_direct_messages db (u_id user));
  in_servers ← lift_outcome (BonfireDb.fetch_channels db (concat (map s_channels servers)));
  cache ← on_state (reads st_cache);
  channels ← lift_outcome (filter_accessible_channels db now cache (direct ++ in_servers));
  let user_ids := user_ids ∪ list_to_set (concat (map recipients_of channels)) in
  '(user_ids, members, voice_states) ←
    (if rf_voice_states fields then
       '(user_ids, per_server, states) ←
         collect_voice_states (retain voice_capable channels) user_ids ∅ [];
       voice_members ← lift_outcome (fetch_voice_members (hm_iter per_server));
       mret (user_ids, members ++ voice_members, Some states)
     else mret (user_ids, members, None));
  online_ids ← on_store (filter_online (set_iter user_ids));
  users ← lift_outcome (fetch_users db (retain (fun x => negb (bool_decide (x = u_id user))) (set_iter user_ids)));
  on_state (with_cache (c_set_members (by_key (mk_server ∘ m_id) members)));;
  emojis ← lift_outcome (when (rf_emojis fields)
    (map_ok Emoji_to_v0 (BonfireDb.fetch_emoji_by_parent_ids db (map s_id servers))));
  user_settings ← lift_outcome (when (negb (bool_decide (rf_user_settings fields = [])))
    (BonfireDb.fetch_user_settings db (u_id user) (rf_user_settings fields)));
  channel_unreads ← lift_outcome (when (rf_channel_unreads fields)
    (map_ok ChannelUnread_to_v0 (BonfireDb.fetch_unreads db (u_id user))));
  on_state (with_cache (fun c => c_set_users (<[c_user_id c := user]> (by_key u_id users)) c));;
  on_state (with_cache (c_set_channels (by_key channel_id channels)));;
  shown ← lift_outcome (known_users user online_ids users);
  self ← lift_outcome (into_self cutoff true false user);
  let shown := shown ++ [self] in
  on_state reset_state;;
  topic ← on_state (reads st_private_topic);
  on_state (insert_subscription topic);;
  on_state (for_each insert_subscription (map v0.u_id shown));;
  is_bot ← on_state (reads (fun s => c_is_bot (st_cache s)));
  on_state (for_each (fun server => insert_subscription (s_id server);;
                                    if is_bot : bool then insert_subscription (s_id server +:+ "u") else mret tt)
              servers);;
  on_state (for_each insert_subscription (map channel_id channels));;
  mret (client.Ready Json Interaction
    (if rf_users fields then Some shown else None)
    (if rf_servers fields then Some (map Server_to_v0 servers) else None)
    (if rf_channels fields then Some (map Channel_to_v0 channels) else None)
    (if rf_members fields then Some (map Member_to_v0 members) else None)
    emojis voice_states user_settings channel_unreads policy_changes).

(** [State::broadcast_presence_change]: the topics the event is published to; the
    order of the servers is that of the cache. *)
Definition broadcast_presence_change (ulid : string) (target : bool) (s : State C A)
    : Result (list (string * Event)) :=
  match c_users (st_cache s) !! c_user_id (st_cache s) with
  | None => Panicked
  | Some user =>
      if is_invisible user then Ok [] else
      let event := client.UserUpdate Json Interaction (c_user_id (st_cache s))
        {| v0.pu_id := None; v0.pu_username := None; v0.pu_discriminator := None; v0.pu_display_name := None;
           v0.pu_avatar := None; v0.pu_relations := None; v0.pu_badges := None; v0.pu_status := None;
           v0.pu_flags := None; v0.pu_privileged := None; v0.pu_bot := None; v0.pu_relationship := None;
           v0.pu_online := Some target; v0.pu_subscription := None; v0.pu_active_decorations := None;
           v0.pu_presence_style := None |} [] (Some ulid) in
      Ok (((fun server => (server, event)) <$> (hm_iter (c_servers (st_cache s))).*1)
          ++ [(c_user_id (st_cache s), event)])
  end.
End Ready.
