(* ===== verification/Bonfire.v ===== *)
(** * The event server: connections ([crates/bonfire/src/websocket.rs])

    A connection runs two tasks that share the client's state: [listener] takes
    the queued changes of the subscriptions to Redis ([sync] of [BonfireState]) and
    then handles one event, [worker] handles one message of the client.  Both are
    functions of the state here; what they publish and what they write to the
    socket is their result.  Decoding, encoding, the kill signals and the refresh
    of the broker's device entry are left out.

    The theorems are about the topics and channels of a connected client. *)

From S2P Require Import Prelude Results Permissions PermissionCalc Models ApiTypes Records ModelOps DbPermissions PermissionSpec ReferenceDb Collections World Users Channels Redis Presence Voice Lru Bridge BridgeMessages BonfireState BonfireEvents.

Module ClientMessage.
Inductive ClientMessage (Json : Type) : Type :=
| Authenticate (token : string)
| BeginTyping (channel : string)
| EndTyping (channel : string)
| Subscribe (server_id : string)
| Ping (data : Ping) (responded : bool)
| VoiceSignal (channel_id : string) (target_user : option string) (payload : Json).
End ClientMessage.
Abbreviation ClientMessage := ClientMessage.ClientMessage.

Section Connection.
Context {D C A : Type} `{PermissionDatabase D} `{BonfireDatabase D} `{HashOrder} `{LruCache C} `{TimedCache A}.
Context `{OptionalStruct Server PartialServer} `{OptionalStruct Role PartialRole}.
Context `{OptionalStruct Member PartialMember}.
Context {Json Interaction : Type}.
Local Abbreviation Event := (client.EventV1 Json Interaction).
Local Abbreviation Sm := (M ErrorType (State C A)).

(** The second half of a turn of [listener]: what is written to the socket, and
    whether the connection ends. *)
Definition is_logout (event : Event) : bool :=
  match event with client.Logout _ _ => true | _ => false end.
Definition log_out (session_id : string) (auth : AuthifierEvent) : bool :=
  match auth with
  | AuthifierEvent.DeleteSession _ deleted => bool_decide (session_id = deleted)
  | AuthifierEvent.DeleteAllSessions _ (Some excluded) => negb (bool_decide (session_id = excluded))
  | AuthifierEvent.DeleteAllSessions _ None => true
  | _ => false
  end.
Definition listen (db : D) (now : Timestamp) (event : Event) : Sm (option Event * bool) :=
  match event with
  | client.Auth _ _ auth =>
      session_id ← reads st_session_id;
      let event := if log_out session_id auth then client.Logout _ _ else event in
      mret (Some event, is_logout event)
  | _ =>
      '(should_send, event) ← handle_incoming_event_v1 db now event;
      mret (if (should_send : bool) then (Some event, is_logout event) else (None, false))
  end.

(** What [worker] does with a message: what is published, the answer to the
    client, and whether the listener is poked. *)
Record Worked := {
  wk_published : list (string * Event);
  wk_answer : option Event;
  wk_signal : bool }.
Definition nothing : Worked := {| wk_published := []; wk_answer := None; wk_signal := false |}.
Definition publishes (l : list (string * Event)) : Worked :=
  {| wk_published := l; wk_answer := None; wk_signal := false |}.

(** [members]: the answer of [get_voice_channel_members]. *)
Definition relay_signal (members : Result (option (list string))) (user_id channel_id : string)
    (target_user : option string) (payload : Json) : list (string * Event) :=
  match members with
  | Ok (Some members) =>
      if negb (contains user_id members) then [] else
      let event := client.VoiceSignalRelay Json Interaction channel_id user_id payload in
      match target_user with
      | Some target => if contains target members then [(target, event)] else []
      | None => map (fun member => (member, event)) (retain (fun m => negb (bool_decide (m = user_id))) members)
      end
  | _ => []
  end.

Definition work (now : Timestamp) (voice_members : string -> Result (option (list string))) (user_id : string)
    (message : ClientMessage Json) : Sm Worked := fun s =>
  match message with
  | ClientMessage.BeginTyping _ channel =>
      if negb (bool_decide (channel ∈ st_subscribed s)) then (Ok nothing, s)
      else (Ok (publishes [(channel, client.ChannelStartTyping _ _ channel user_id)]), s)
  | ClientMessage.EndTyping _ channel =>
      if negb (bool_decide (channel ∈ st_subscribed s)) then (Ok nothing, s)
      else (Ok (publishes [(channel, client.ChannelStopTyping _ _ channel user_id)]), s)
  | ClientMessage.Subscribe _ server_id =>
      let has_item := contains_key now server_id (st_active_servers s) in
      (Ok {| wk_published := []; wk_answer := None; wk_signal := negb has_item |},
       st_set_active (tc_insert now server_id (st_active_servers s)) s)
  | ClientMessage.VoiceSignal _ channel_id target_user payload =>
      (Ok (publishes (relay_signal (voice_members channel_id) user_id channel_id target_user payload)), s)
  | ClientMessage.Ping _ data responded =>
      (Ok {| wk_published := []; wk_answer := if responded then None else Some (client.Pong _ _ data);
             wk_signal := false |}, s)
  | ClientMessage.Authenticate _ _ => (Ok nothing, s)
  end.

End Connection.

(** ** Handling an event is a sequence of client steps *)

(** A computation whose successful runs are client steps. *)
Definition stepwise {C A X} (m : M ErrorType (State C A) X) : Prop :=
  forall s x s', m s = (Ok x, s') -> rtc client_step s s'.

Section Stepwise.
Context {C A : Type}.
Local Abbreviation Sm := (M ErrorType (State C A)).

Lemma stepwise_bind {X Y} (m : Sm X) (f : X -> Sm Y) :
  stepwise m -> (forall x, stepwise (f x)) -> stepwise (mbind f m).
Proof. intros Hm Hf s y s' (x & s1 & E1 & E2)%M_bind_Ok_inv. etrans; [by eapply Hm|by eapply Hf]. Qed.

Lemma stepwise_ret {X} (x : X) : stepwise (mret x : Sm X).
Proof. by intros s y s' [= _ <-]. Qed.
Lemma stepwise_reads {X} (f : State C A -> X) : stepwise (reads f : Sm X).
Proof. by intros s y s' [= _ <-]. Qed.
Lemma stepwise_lift {X} (o : Result X) : stepwise (lift_outcome o : Sm X).
Proof. by intros s y s' [= _ <-]. Qed.
Lemma stepwise_panic {X} : stepwise (panic : Sm X).
Proof. by intros s y s' E. Qed.
Lemma stepwise_clone : stepwise (clone_user : Sm User).
Proof. intros s y s'. unfold clone_user. destruct (c_users _ !! _); [by intros [= _ <-]|done]. Qed.
Lemma stepwise_cache f : stepwise (with_cache f : Sm unit).
Proof. intros s y s' [= _ <-]. apply rtc_once, step_cache. Qed.
Lemma stepwise_insert t : stepwise (insert_subscription t : Sm unit).
Proof. intros s [] s' E. by eapply rtc_once, step_insert. Qed.
Lemma stepwise_remove t : stepwise (remove_subscription t : Sm unit).
Proof. intros s [] s' E. by eapply rtc_once, step_remove. Qed.
Lemma stepwise_for_each {X} (f : X -> Sm unit) l : (forall x, stepwise (f x)) -> stepwise (for_each f l).
Proof.
  intros Hf. induction l; simpl; [apply stepwise_ret|]. apply stepwise_bind; auto.
Qed.
End Stepwise.

#[export] Hint Resolve stepwise_bind stepwise_ret stepwise_reads stepwise_lift stepwise_panic stepwise_clone
  stepwise_cache stepwise_insert stepwise_remove stepwise_for_each : bonfire.

(** Decompose a computation into its steps. *)
Ltac stepwise :=
  repeat first
    [ progress intros
    | apply stepwise_bind
    | apply stepwise_ret | apply stepwise_reads | apply stepwise_lift | apply stepwise_panic
    | apply stepwise_clone | apply stepwise_cache | apply stepwise_insert | apply stepwise_remove
    | apply stepwise_for_each
    | case_match ].

Section Steps.
Context {D C A : Type} `{PermissionDatabase D} `{BonfireDatabase D} `{HashOrder} `{LruCache C} `{TimedCache A}.
Context `{OptionalStruct Server PartialServer} `{OptionalStruct Role PartialRole}.
Context `{OptionalStruct Member PartialMember}.
Context {Json Interaction : Type}.
Local Abbreviation Event := (client.EventV1 Json Interaction).
Local Abbreviation Sm := (M ErrorType (State C A)).

Lemma recalculate_server_steps (db : D) now id (event : Event) :
  stepwise (recalculate_server db now id event : Sm Event).
Proof. unfold recalculate_server, drop_channel, take_channel. stepwise. Qed.

Lemma look_at_event_steps (db : D) now (event : Event) : stepwise (look_at_event db now event : Sm (Outcome)).
Proof.
  unfold look_at_event, handle_channel_update, handle_server_create, leave_server, drop_channel. stepwise.
Qed.

Lemma handle_steps (db : D) now (event : Event) : stepwise (handle_incoming_event_v1 db now event : Sm _).
Proof.
  unfold handle_incoming_event_v1. apply stepwise_bind; [apply look_at_event_steps|]. intros o.
  stepwise; apply recalculate_server_steps.
Qed.

Lemma listen_steps (db : D) now (event : Event) : stepwise (listen db now event : Sm _).
Proof.
  unfold listen. destruct event; try (apply stepwise_bind; [apply handle_steps|stepwise]). stepwise.
Qed.

(** ** The topics of the connection *)

(** A connection in its turns: it starts with a reset; in a turn the subscriptions
    are synchronised and an event is handled; in between the client sends messages.
    [crossed] collects the topics that were both added and removed in one of the
    queues since the last reset. *)
Inductive connected : gset string -> gset string -> State C A -> Prop :=
| connected_start topics s : st_state s = SubscriptionStateChange.Reset -> connected ∅ topics s
| connected_turn crossed topics s q topics' s1 (db : D) now (event : Event) answer s2 :
    connected crossed topics s ->
    taken now s = Ok q ->
    sync now topics s = (Ok topics', s1) ->
    listen db now event s1 = (Ok answer, s2) ->
    connected (crossed_after crossed q) topics' s2
| connected_work crossed topics s now voice user_id message (w : Worked) s' :
    connected crossed topics s ->
    work (Json := Json) (Interaction := Interaction) now voice user_id message s = (Ok w, s') ->
    connected crossed topics s'.

Lemma work_steps now voice user_id message : stepwise (work (Json := Json) (Interaction := Interaction) now voice user_id message : Sm _).
Proof.
  intros s w s'. destruct message; simpl; repeat case_bool_decide; simpl; intros [= _ <-]; try done.
  apply rtc_once, step_active.
Qed.

Lemma connected_follows crossed topics s : connected crossed topics s -> follows crossed topics s.
Proof.
  induction 1 as [topics s Hs|crossed topics s q topics' s1 db now event answer s2 _ IH Hq Hsync Hl
                 |crossed topics s now v u m w s' _ IH Hw].
  - unfold follows. by rewrite Hs.
  - eapply client_steps_follow; [by eapply listen_steps|].
    destruct (sync_agrees now crossed topics s q topics' s1 IH Hq Hsync) as (Hin & Hout & Hn).
    unfold follows. by rewrite Hn.
  - eapply client_steps_follow; [by eapply work_steps|done].
Qed.

(** C16: What Redis sends to a client is what the client is subscribed to: in every
    connection, at every turn, whatever events were handled and whatever the client
    sent in between, after the queued changes were applied the Redis connection has
    every topic in the client's state, and a topic it has beyond those was both added
    and removed within one queue since the last reset.  In a connection without such
    a topic the two are equal.  ([crossed_topic_stays] shows that a topic that was
    added and removed within one queue does stay.) *)
Theorem event_server_topics_agree crossed topics s now q topics' s' :
  connected crossed topics s -> taken now s = Ok q ->
  sync now topics s = (Ok topics', s') ->
  st_subscribed s' ⊆ topics' /\ topics' ∖ st_subscribed s' ⊆ crossed_after crossed q
  /\ (crossed_after crossed q = ∅ -> topics' = st_subscribed s').
Proof.
  intros Hc%connected_follows Hq Hs.
  destruct (sync_agrees now crossed topics s q topics' s' Hc Hq Hs) as (Hin & Hout & _).
  split_and!; [done..|]. intros He. rewrite He in Hout. apply set_eq. intros t.
  destruct (decide (t ∈ st_subscribed s')); set_solver.
Qed.
End Steps.

(** ** Recalculation of a server *)

(** The cache up to its channels. *)
Definition same_but_channels {C} (c c' : Cache C) : Prop := c' = c_set_channels (c_channels c') c.

(** Channels that are fetched are among those that were asked for. *)
Definition fetches_what_was_asked {D} `{BonfireDatabase D} (db : D) : Prop :=
  forall ids channels ch, BonfireDb.fetch_channels db ids = Ok channels -> ch ∈ channels -> channel_id ch ∈ ids.

Section Recalculation.
Context {D C A : Type} `{PermissionDatabase D} `{BonfireDatabase D} `{HO : HashOrder}.
Context {Json Interaction : Type}.
Context (db : D) (now : Timestamp).
Local Abbreviation Event := (client.EventV1 Json Interaction).
Local Abbreviation Sm := (M ErrorType (State C A)).

Lemma can_view_same (c c' : Cache C) ch :
  same_but_channels c c' -> can_view_channel db now c' ch = can_view_channel db now c ch.
Proof. by intros ->. Qed.

Lemma insert_all_run l (s s' : State C A) :
  for_each insert_subscription l s = (Ok tt, s') ->
  st_cache s' = st_cache s /\ st_subscribed s' = st_subscribed s ∪ list_to_set l.
Proof.
  revert s. induction l as [|t l IH]; intros s; simpl; [intros [= <-]; set_solver|].
  intros ([] & s1 & E1 & E2)%M_bind_Ok_inv. destruct (insert_ok t s) as (s2 & E & Hc & Hs).
  rewrite E in E1. injection E1 as <-. apply IH in E2 as [-> ->]. rewrite Hc, Hs. split; [done|set_solver].
Qed.

Lemma drop_all_run l (s s' : State C A) :
  for_each drop_channel l s = (Ok tt, s') ->
  same_but_channels (st_cache s) (st_cache s') /\ st_subscribed s' = st_subscribed s ∖ list_to_set l
  /\ forall k, c_channels (st_cache s') !! k =
       if bool_decide (k ∈ l) then None else c_channels (st_cache s) !! k.
Proof.
  revert s. induction l as [|t l IH]; intros s; simpl.
  - intros [= <-]. split_and!; [by destruct s as [[]]|set_solver|done].
  - intros ([] & s1 & E1 & E2)%M_bind_Ok_inv. apply IH in E2 as (Hc & Hs & Hk). clear IH.
    unfold drop_channel in E1. apply M_bind_Ok_inv in E1 as ([] & s2 & E1 & E2). injection E2 as <-.
    assert (st_cache s2 = st_cache s /\ st_subscribed s2 = st_subscribed s ∖ {[ t ]}) as [Hc2 Hs2].
    { clear -E1. unfold remove_subscription in E1. case_bool_decide as Ht; simpl in E1.
      - destruct (st_state s); by simplify_eq/=.
      - injection E1 as <-. split; [done|]. set_solver. }
    simpl in Hs, Hk. rewrite Hs2 in Hs. rewrite Hc2 in Hc, Hk. split_and!.
    + rewrite Hc. done.
    + rewrite Hs. set_solver.
    + intros k. rewrite Hk. simpl. destruct (decide (k ∈ l)) as [Hl|Hl].
      * rewrite !bool_decide_true by set_solver. done.
      * rewrite (bool_decide_false (k ∈ l)) by done. destruct (decide (k = t)) as [->|Hne].
        -- rewrite bool_decide_true by set_solver. apply lookup_delete_eq.
        -- rewrite bool_decide_false by set_solver. by apply lookup_delete_ne.
Qed.

Lemma take_all_run l (s s' : State C A) :
  for_each take_channel l s = (Ok tt, s') ->
  same_but_channels (st_cache s) (st_cache s')
  /\ st_subscribed s' = st_subscribed s ∪ list_to_set (channel_id <$> l)
  /\ (forall k, k ∈ (channel_id <$> l) ->
       exists ch, c_channels (st_cache s') !! k = Some ch /\ ch ∈ l /\ channel_id ch = k)
  /\ (forall k, k ∉ (channel_id <$> l) -> c_channels (st_cache s') !! k = c_channels (st_cache s) !! k).
Proof.
  revert s. induction l as [|t l IH]; intros s; simpl.
  - intros [= <-]. split_and!; [by destruct s as [[]]|set_solver| |done]. intros k Hk. by apply elem_of_nil in Hk.
  - intros ([] & s1 & E1 & E2)%M_bind_Ok_inv. apply IH in E2 as (Hc & Hs & Hk & Hk'). clear IH.
    unfold take_channel in E1. apply M_bind_Ok_inv in E1 as ([] & s2 & E1 & E2). injection E1 as <-.
    destruct (insert_ok (channel_id t) (st_set_cache (set_channel (channel_id t) t (st_cache s)) s))
      as (s3 & E & Hc3 & Hs3). rewrite E in E2. injection E2 as <-. simpl in Hc3, Hs3.
    rewrite Hc3 in Hc, Hk'. rewrite Hs3 in Hs. simpl in *. split_and!.
    + rewrite Hc. done.
    + rewrite Hs. set_solver.
    + intros k Hin. destruct (decide (k ∈ channel_id <$> l)) as [Hl|Hl].
      * destruct (Hk k Hl) as (ch & ? & ? & ?). exists ch. set_solver.
      * apply elem_of_cons in Hin as [->|?]; [|done]. exists t. rewrite Hk' by done.
        split; [apply lookup_insert_eq|set_solver].
    + intros k Hn. rewrite Hk' by set_solver. apply lookup_insert_ne. set_solver.
Qed.

Lemma scan_channels_spec (c : Cache C) id l added removed :
  NoDup l.*1 -> scan_channels db now c id l = Ok (added, removed) ->
  (forall k, k ∈ added -> exists ch, (k, ch) ∈ l /\ channel_server ch = Some id /\ can_view_channel db now c ch = Ok true)
  /\ (forall k, k ∈ removed -> exists ch, (k, ch) ∈ l /\ channel_server ch = Some id /\ can_view_channel db now c ch = Ok false)
  /\ (forall k ch, (k, ch) ∈ l -> channel_server ch = Some id ->
        exists b, can_view_channel db now c ch = Ok b /\ (if b : bool then k ∈ added /\ k ∉ removed else k ∈ removed /\ k ∉ added)).
Proof.
  revert added removed. induction l as [|[k0 ch0] l IH]; intros added removed Hn; cbn [scan_channels].
  { intros [= <- <-]. set_solver. }
  simpl in Hn. apply NoDup_cons in Hn as [Hk0 Hn].
  assert (forall k ch, (k, ch) ∈ l -> k <> k0) as Hne.
  { intros k ch Hin ->. apply Hk0. apply list_elem_of_fmap. by exists (k0, ch). }
  case_bool_decide as Hs.
  - destruct (can_view_channel db now c ch0) as [b| |] eqn:Ev; [|done..]. simpl.
    destruct (scan_channels db now c id l) as [[add rem]| |] eqn:E; [|done..]. simpl.
    destruct (IH add rem Hn eq_refl) as (I1 & I2 & I3).
    assert ((k0 ∉ add) /\ (k0 ∉ rem)) as [N1 N2].
    { split; [intros (ch & Hin & _)%I1|intros (ch & Hin & _)%I2]; by apply Hne in Hin. }
    intros E'. assert ((forall k, k ∈ added -> k ∈ add \/ (k = k0 /\ b = true))
      /\ (forall k, k ∈ removed -> k ∈ rem \/ (k = k0 /\ b = false))) as [S1 S2] by (destruct b; injection E' as <- <-; set_solver).
    split_and!.
    + intros k [(ch & ? & ? & ?)%I1|[-> ->]]%S1; [exists ch|exists ch0]; (split_and!; [apply elem_of_cons; auto|done..]).
    + intros k [(ch & ? & ? & ?)%I2|[-> ->]]%S2; [exists ch|exists ch0]; (split_and!; [apply elem_of_cons; auto|done..]).
    + intros k ch [[= -> ->]|Hin]%elem_of_cons Hs'.
      * exists b. split; [done|]. destruct b; injection E' as <- <-; set_solver.
      * pose proof (Hne _ _ Hin). destruct (I3 k ch Hin Hs') as (b' & Hb & Hi). exists b'. split; [done|].
        destruct b, b'; injection E' as <- <-; set_solver.
  - intros E. destruct (IH added removed Hn E) as (I1 & I2 & I3). split_and!.
    + intros k (ch & ? & ? & ?)%I1. exists ch. split_and!; [apply elem_of_cons; auto|done..].
    + intros k (ch & ? & ? & ?)%I2. exists ch. split_and!; [apply elem_of_cons; auto|done..].
    + intros k ch [[= -> ->]|Hin]%elem_of_cons Hs'; [done|by apply I3].
Qed.

Lemma filter_accessible_spec (c : Cache C) chans l :
  filter_accessible_channels db now c chans = Ok l ->
  forall ch, ch ∈ l <-> ch ∈ chans /\ can_view_channel db now c ch = Ok true.
Proof.
  revert l. induction chans as [|ch0 chans IH]; intros l; simpl; [intros [= <-]; set_solver|].
  destruct (can_view_channel db now c ch0) as [b| |] eqn:Ev; [|done..]. simpl.
  destruct (filter_accessible_channels db now c chans) as [rest| |]; [|done..]. simpl.
  intros [= <-] ch. specialize (IH rest eq_refl ch). destruct b.
  - rewrite !elem_of_cons, IH. split; [intros [->|[? ?]]; auto|intros [[->|?] ?]; auto].
  - rewrite elem_of_cons, IH. split; [intros [? ?]; auto|intros [[->|?] ?]; [congruence|auto]].
Qed.

(** What a recalculation did: it found the cached channels of the server the
    client sees ([added]) and does not see ([removed]), fetched the channels of
    the server that were not cached, and kept those the client sees
    ([viewable]). *)
Record recalculated (id : string) (server : Server) (event event' : Event) (s s' : State C A)
    (added removed : list string) (viewable : list Channel) : Prop := {
  rc_added k ch : c_channels (st_cache s) !! k = Some ch -> channel_server ch = Some id ->
    can_view_channel db now (st_cache s) ch = Ok true /\ k ∈ added /\ k ∉ removed \/
    can_view_channel db now (st_cache s) ch = Ok false /\ k ∈ removed /\ k ∉ added;
  rc_known k : k ∈ added ++ removed ->
    exists ch, c_channels (st_cache s) !! k = Some ch /\ channel_server ch = Some id;
  rc_new ch : ch ∈ viewable ->
    channel_id ch ∈ s_channels server /\ (channel_id ch ∉ added) /\ (channel_id ch ∉ removed);
  rc_viewable ch : ch ∈ viewable <->
    exists chans, BonfireDb.fetch_channels db
        (set_iter (list_to_set (s_channels server) ∖ list_to_set (added ++ removed))) = Ok chans
      /\ ch ∈ chans /\ can_view_channel db now (st_cache s) ch = Ok true;
  rc_cache : same_but_channels (st_cache s) (st_cache s');
  rc_subscribed : st_subscribed s' =
    (st_subscribed s ∪ list_to_set added) ∖ list_to_set removed ∪ list_to_set (channel_id <$> viewable);
  rc_taken k : k ∈ (channel_id <$> viewable) ->
    exists ch, c_channels (st_cache s') !! k = Some ch /\ ch ∈ viewable /\ channel_id ch = k;
  rc_left k : k ∉ (channel_id <$> viewable) ->
    c_channels (st_cache s') !! k = if bool_decide (k ∈ removed) then None else c_channels (st_cache s) !! k;
  rc_event : event' =
    (if bool_decide (length ((client.ChannelDelete Json Interaction <$> removed)
            ++ (client.ChannelCreate Json Interaction ∘ Channel_to_v0 <$> viewable)) = 0%nat)
     then event
     else client.Bulk Json Interaction ((client.ChannelDelete Json Interaction <$> removed)
            ++ (client.ChannelCreate Json Interaction ∘ Channel_to_v0 <$> viewable) ++ [event])) }.

Lemma elem_of_set_iter' (X : gset string) x : x ∈ set_iter X <-> x ∈ X.
Proof.
  unfold set_iter. rewrite list_elem_of_fmap. split.
  - intros ([k []] & -> & Hk). apply elem_of_hm_iter, lookup_gset_to_gmap_Some in Hk. by destruct Hk.
  - intros Hx. exists (x, ()). split; [done|]. by apply elem_of_hm_iter, lookup_gset_to_gmap_Some.
Qed.

Lemma fetched_viewable (c : Cache C) ids viewable :
  fetches_what_was_asked db ->
  (if bool_decide (ids = []) then Ok [] else
   match BonfireDb.fetch_channels db ids with
   | Ok channels => filter_accessible_channels db now c channels
   | Err _ => Ok []
   | Panicked => Panicked
   end) = Ok viewable ->
  forall ch, ch ∈ viewable <-> exists chans, BonfireDb.fetch_channels db ids = Ok chans
    /\ ch ∈ chans /\ can_view_channel db now c ch = Ok true.
Proof.
  intros Hfetch E ch. case_bool_decide as Hu.
  - injection E as <-. split; [intros Hn; by apply elem_of_nil in Hn|].
    intros (chans & Ef & Hin & _). specialize (Hfetch _ _ _ Ef Hin). rewrite Hu in Hfetch. by apply elem_of_nil in Hfetch.
  - destruct (BonfireDb.fetch_channels db ids) as [chans|e|]; [|injection E as <-|done].
    + rewrite (filter_accessible_spec c chans viewable E). split; [by exists chans|].
      by intros (? & [= <-] & ?).
    + split; [intros Hn; by apply elem_of_nil in Hn|by intros (? & ? & _)].
Qed.

Lemma recalculate_server_inv id (event : Event) (s s' : State C A) server event' :
  fetches_what_was_asked db -> c_servers (st_cache s) !! id = Some server ->
  recalculate_server db now id event s = (Ok event', s') ->
  exists added removed viewable, recalculated id server event event' s s' added removed viewable.
Proof.
  intros Hfetch Hs E. unfold recalculate_server in E.
  apply M_bind_Ok_inv in E as (c & s0 & E0 & E). injection E0 as <- <-. rewrite Hs in E.
  apply M_bind_Ok_inv in E as ([added removed] & s0 & E0 & E). injection E0 as E0 <-.
  apply M_bind_Ok_inv in E as ([] & s1 & E1 & E). apply M_bind_Ok_inv in E as ([] & s2 & E2 & E).
  apply M_bind_Ok_inv in E as (c & s3 & E3 & E). injection E3 as <- <-.
  apply M_bind_Ok_inv in E as (viewable & s3 & E3 & E). injection E3 as E3 <-.
  apply M_bind_Ok_inv in E as ([] & s4 & E4 & E). injection E as <- <-.
  exists added, removed, viewable.
  apply scan_channels_spec in E0 as (Ha & Hr & Hall); [|apply NoDup_fst_hm_iter].
  apply insert_all_run in E1 as [Hc1 Hs1]. apply drop_all_run in E2 as (Hc2 & Hs2 & Hk2).
  apply take_all_run in E4 as (Hc3 & Hs3 & Hk3 & Hk3'). rewrite Hc1 in Hc2, Hk2. rewrite Hs1 in Hs2. rewrite Hs2 in Hs3.
  assert (forall ch, can_view_channel db now (st_cache s2) ch = can_view_channel db now (st_cache s) ch) as Hcv
    by (intros ch; by apply can_view_same).
  pose proof (fetched_viewable _ _ _ Hfetch E3) as Hview.
  split.
  - intros k ch Hk Hsv. destruct (Hall k ch ltac:(by apply elem_of_hm_iter) Hsv) as ([] & ? & ?); auto.
  - intros k [(ch & Hin%elem_of_hm_iter & ? & _)%Ha|(ch & Hin%elem_of_hm_iter & ? & _)%Hr]%elem_of_app; eauto.
  - intros ch (chans & Ef & Hin & _)%Hview. pose proof (Hfetch _ _ _ Ef Hin) as Hid%elem_of_set_iter'.
    rewrite elem_of_difference, !elem_of_list_to_set, elem_of_app in Hid. tauto.
  - intros ch. by rewrite (Hview ch), Hcv.
  - unfold same_but_channels in *. rewrite Hc3, Hc2. done.
  - done.
  - done.
  - intros k Hk. rewrite Hk3' by done. apply Hk2.
  - by rewrite <- app_assoc.
Qed.

Lemma recalculated_announces id server (event event' : Event) s s' added removed viewable e :
  recalculated id server event event' s s' added removed viewable ->
  e ∈ (client.ChannelDelete Json Interaction <$> removed)
        ++ (client.ChannelCreate Json Interaction ∘ Channel_to_v0 <$> viewable) ->
  exists l, event' = client.Bulk Json Interaction l /\ e ∈ l.
Proof.
  intros R He. rewrite (rc_event _ _ _ _ _ _ _ _ _ R), bool_decide_false.
  - eexists. split; [reflexivity|]. rewrite app_assoc. apply elem_of_app. by left.
  - intros Hl%length_zero_iff_nil. rewrite Hl in He. by apply elem_of_nil in He.
Qed.

(** The channels that were not cached: they are fetched, and those the client
    sees are cached, subscribed and announced. *)
Lemma recalculated_fetched id server (event event' : Event) s s' added removed viewable :
  recalculated id server event event' s s' added removed viewable ->
  exists asked,
    (forall k, k ∈ asked <-> k ∈ s_channels server /\
       forall ch, c_channels (st_cache s) !! k = Some ch -> channel_server ch <> Some id)
    /\ match BonfireDb.fetch_channels db asked with
       | Ok chans => forall ch, ch ∈ chans -> can_view_channel db now (st_cache s) ch = Ok true ->
           (exists ch', c_channels (st_cache s') !! channel_id ch = Some ch' /\ ch' ∈ chans
              /\ channel_id ch' = channel_id ch)
           /\ channel_id ch ∈ st_subscribed s'
           /\ exists l, event' = client.Bulk _ _ l /\ client.ChannelCreate _ _ (Channel_to_v0 ch) ∈ l
       | _ => forall k, c_channels (st_cache s) !! k = None -> c_channels (st_cache s') !! k = None
       end.
Proof.
  intros R. exists (set_iter (list_to_set (s_channels server) ∖ list_to_set (added ++ removed))).
  split; cycle 1.
  - pose proof (rc_viewable _ _ _ _ _ _ _ _ _ R) as Hv.
    destruct (BonfireDb.fetch_channels db _) as [chans|e|].
    2,3: intros k Hk; rewrite (rc_left _ _ _ _ _ _ _ _ _ R);
      [by case_bool_decide|intros (ch & _ & (? & ? & _)%Hv)%list_elem_of_fmap; done].
    intros ch Hin Hcv. assert (ch ∈ viewable) as Hch by (apply Hv; eauto).
    assert (channel_id ch ∈ channel_id <$> viewable) as Hid by (by apply list_elem_of_fmap_2).
    split_and!.
    + destruct (rc_taken _ _ _ _ _ _ _ _ _ R _ Hid) as (ch' & ? & (? & [= <-] & ? & _)%Hv & ?). eauto.
    + rewrite (rc_subscribed _ _ _ _ _ _ _ _ _ R). apply elem_of_union. right. by apply elem_of_list_to_set.
    + apply (recalculated_announces _ _ _ _ _ _ _ _ _ _ R), elem_of_app. right.
      apply list_elem_of_fmap. by exists ch.
  - intros k. rewrite elem_of_set_iter', elem_of_difference, !elem_of_list_to_set.
    split; intros [Hk Hn]; (split; [done|]).
    + intros ch Hl Hsv. destruct (rc_added _ _ _ _ _ _ _ _ _ R k ch Hl Hsv) as [(_ & ? & _)|(_ & ? & _)];
        apply Hn, elem_of_app; auto.
    + intros (ch & Hl & Hsv)%(rc_known _ _ _ _ _ _ _ _ _ R). by apply (Hn ch).
Qed.

(** C9: Recalculating a server leaves the channels of it that the client sees.
    Afterwards every cached channel of the server is visible to the client and the
    client is subscribed to it; a channel that was cached and is still visible is
    kept; one that was cached and is not visible any more is neither cached nor
    subscribed, and the client is told so.  Of the channels of the server that were
    not cached and that the database returns, all those the client sees are cached,
    subscribed and announced; if the database answers with an error none of them is
    cached, however visible.  The channels of other servers and the client's
    permissions are as before. *)
Theorem recalculated_server_visible id (event : Event) (s s' : State C A) server event' :
  fetches_what_was_asked db ->
  c_servers (st_cache s) !! id = Some server ->
  recalculate_server db now id event s = (Ok event', s') ->
  (forall k ch, c_channels (st_cache s') !! k = Some ch -> channel_server ch = Some id ->
     can_view_channel db now (st_cache s') ch = Ok true /\ k ∈ st_subscribed s')
  /\ (forall k ch, c_channels (st_cache s) !! k = Some ch -> channel_server ch = Some id ->
     can_view_channel db now (st_cache s) ch = Ok true /\ c_channels (st_cache s') !! k = Some ch
       /\ k ∈ st_subscribed s' \/
     can_view_channel db now (st_cache s) ch = Ok false /\ c_channels (st_cache s') !! k = None
       /\ (k ∉ st_subscribed s') /\ exists l, event' = client.Bulk _ _ l /\ client.ChannelDelete _ _ k ∈ l)
  /\ (exists asked,
        (forall k, k ∈ asked <-> k ∈ s_channels server /\
           forall ch, c_channels (st_cache s) !! k = Some ch -> channel_server ch <> Some id)
        /\ match BonfireDb.fetch_channels db asked with
           | Ok chans => forall ch, ch ∈ chans -> can_view_channel db now (st_cache s) ch = Ok true ->
               (exists ch', c_channels (st_cache s') !! channel_id ch = Some ch' /\ ch' ∈ chans
                  /\ channel_id ch' = channel_id ch)
               /\ channel_id ch ∈ st_subscribed s'
               /\ exists l, event' = client.Bulk _ _ l /\ client.ChannelCreate _ _ (Channel_to_v0 ch) ∈ l
           | _ => forall k, c_channels (st_cache s) !! k = None -> c_channels (st_cache s') !! k = None
           end)
  /\ (forall k ch, c_channels (st_cache s) !! k = Some ch -> channel_server ch <> Some id ->
     (k ∉ s_channels server) ->
     c_channels (st_cache s') !! k = Some ch /\ (k ∈ st_subscribed s' <-> k ∈ st_subscribed s))
  /\ (forall ch, can_view_channel db now (st_cache s') ch = can_view_channel db now (st_cache s) ch).
Proof.
  intros Hfetch Hserver
    (added & removed & viewable & R)%(recalculate_server_inv _ _ _ _ server); [|done..].
  pose proof R as [Hall Hknown Hnew Hview Hcache Hsub Htaken Hleft _].
  assert (forall ch, can_view_channel db now (st_cache s') ch = can_view_channel db now (st_cache s) ch) as Hcv
    by (intros ch; by apply can_view_same).
  assert (forall k, k ∈ added ++ removed -> k ∉ (channel_id <$> viewable)) as Hold.
  { intros k Hk (ch & -> & [_ []%not_elem_of_app]%Hnew)%list_elem_of_fmap. set_solver. }
  split_and!; [..|done].
  - intros k ch Hl Hsv. rewrite Hcv, Hsub. destruct (decide (k ∈ channel_id <$> viewable)) as [Hk|Hk].
    + destruct (Htaken k Hk) as (ch' & Hl' & (? & _ & _ & Hv)%Hview & _). simplify_eq. set_solver.
    + rewrite Hleft in Hl by done. case_bool_decide; [done|].
      destruct (Hall k ch Hl Hsv) as [(? & ? & ?)|(_ & ? & _)]; [set_solver|done].
  - intros k ch Hl Hsv. rewrite Hsub.
    destruct (Hall k ch Hl Hsv) as [(Hv & Ha & Hr)|(Hv & Hr & Ha)]; [left|right];
      (rewrite Hleft by (apply Hold; set_solver)).
    + rewrite bool_decide_false by done. set_solver.
    + rewrite bool_decide_true by done. specialize (Hold k ltac:(set_solver)).
      split_and!; [done..|set_solver|]. apply (recalculated_announces _ _ _ _ _ _ _ _ _ _ R).
      apply elem_of_app. left. by apply list_elem_of_fmap_2.
  - by apply (recalculated_fetched _ _ _ _ _ _ _ _ _ R).
  - intros k ch Hl Hsv Hn.
    assert (k ∉ added ++ removed) as Hn1 by (intros (ch' & ? & ?)%Hknown; congruence).
    assert (k ∉ (channel_id <$> viewable)) as Hn3 by (by intros (ch' & -> & [? _]%Hnew)%list_elem_of_fmap).
    rewrite Hleft, bool_decide_false, Hsub by set_solver. set_solver.
Qed.
End Recalculation.

(** ** What the cache gets wrong *)

Section Mistakes.
Context {D C A : Type} `{PermissionDatabase D} `{BonfireDatabase D} `{HO : HashOrder} `{LruCache C} `{TimedCache A}.
Context `{OS : OptionalStruct Server PartialServer} `{OR : OptionalStruct Role PartialRole}.
Context `{OM : OptionalStruct Member PartialMember}.
Context {Json Interaction : Type}.
Context (db : D) (now : Timestamp).
Local Abbreviation Event := (client.EventV1 Json Interaction).
Local Abbreviation handle := (handle_incoming_event_v1 (Json := Json) (Interaction := Interaction) db now).

(** What the client sees, from the objects in its cache. *)
Lemma can_view_spec (c : Cache C) u m s t :
  c_users c !! c_user_id c = Some u -> c_members c !! t_server t = Some m ->
  c_servers c !! t_server t = Some s -> s_id s = t_server t ->
  can_view_channel db now c (Channel.TextChannel t)
  = Ok (has_channel_permission (text_channel_permissions now u s (Some m) t) ChannelPermission.ViewChannel).
Proof.
  intros Hu Hm Hs Hid. unfold can_view_channel. rewrite Hu, Hm, Hs.
  rewrite (calculate_channel_permissions_spec now _ t s (Some m)); [done|].
  split_and!; [done|done|by left|by left].
Qed.

(** The event about a relationship carries the client's own identifier and the
    other user ([Relationships.apply_relationship]): the other user takes the place
    of the client's own in its cache. *)
Lemma relationship_replaces_self (user : v0.User) (s s' : State C A) r :
  handle (client.UserRelationship _ _ (c_user_id (st_cache s)) user) s = (Ok r, s') ->
  c_user_id (st_cache s') = c_user_id (st_cache s)
  /\ c_users (st_cache s') !! c_user_id (st_cache s') = Some (User_from_v0 user)
  /\ c_members (st_cache s') = c_members (st_cache s) /\ c_servers (st_cache s') = c_servers (st_cache s).
Proof.
  unfold handle_incoming_event_v1. intros (o & s1 & E1 & E)%M_bind_Ok_inv. cbn [look_at_event] in E1.
  apply M_bind_Ok_inv in E1 as ([] & s2 & E2 & E1). injection E2 as <-.
  apply M_bind_Ok_inv in E1 as (c & s2 & E2 & E1). injection E2 as <- <-.
  apply M_bind_Ok_inv in E1 as ([] & s2 & E2 & E1). injection E1 as <- <-.
  apply M_bind_Ok_inv in E as (ev & s3 & E3 & E). injection E3 as <- <-.
  apply M_bind_Ok_inv in E as ([] & s3 & E3 & E). injection E3 as <-.
  apply M_bind_Ok_inv in E as ([] & s3 & E3 & E). injection E3 as <-. injection E as <- <-.
  assert (st_cache s2 = c_set_users (<[c_user_id (st_cache s) := User_from_v0 user]> (c_users (st_cache s))) (st_cache s)) as ->.
  { destruct (can_subscribe_to_user _ _).
    - match type of E2 with insert_subscription ?t ?s = _ => destruct (insert_ok t s) as (s3 & E & Hc & _) end.
      rewrite E in E2. by injection E2 as <-.
    - unfold remove_subscription in E2. destruct (negb _); [by injection E2 as <-|].
      destruct (st_state _); simplify_eq/=; done. }
  simpl. split_and!; [done|apply lookup_insert_eq|done..].
Qed.

(** After an event about the relationship with the owner of a server the client
    sees every channel of that server, whatever its roles and the channel's
    overrides say: the permissions are calculated for the owner. *)
Theorem relationship_event_reveals_channels (user : v0.User) (s s' : State C A) r server m t :
  c_servers (st_cache s) !! t_server t = Some server -> s_id server = t_server t ->
  c_members (st_cache s) !! t_server t = Some m ->
  s_owner server = v0.u_id user ->
  handle (client.UserRelationship _ _ (c_user_id (st_cache s)) user) s = (Ok r, s') ->
  can_view_channel db now (st_cache s') (Channel.TextChannel t) = Ok true.
Proof.
  intros Hs Hid Hm Ho (Hi & Hu & Hm' & Hs')%relationship_replaces_self.
  rewrite (can_view_spec _ (User_from_v0 user) m server); [|by rewrite ?Hm', ?Hs'..].
  f_equal. unfold text_channel_permissions. rewrite (bool_decide_true (s_owner server = _)) by done.
  by destruct (u_privileged _).
Qed.

(** A channel that is created is cached and subscribed to without a look at its
    permissions. *)
Lemma created_channel_unchecked (channel : v0.Channel) (s : State C A) :
  exists s', handle (client.ChannelCreate _ _ channel) s = (Ok (true, client.ChannelCreate _ _ channel), s')
    /\ channel_id (Channel_from_v0 channel) ∈ st_subscribed s'
    /\ c_channels (st_cache s') !! channel_id (Channel_from_v0 channel) = Some (Channel_from_v0 channel).
Proof.
  destruct (insert_ok (channel_id (Channel_from_v0 channel)) s) as (s1 & E & Hc & Hs).
  eexists. split.
  - unfold handle_incoming_event_v1, look_at_event. unfold mbind, M_bind. rewrite E. reflexivity.
  - simpl. rewrite Hs. split; [set_solver|apply lookup_insert_eq].
Qed.

(** New ranks of roles are not taken over. *)
Lemma new_ranks_ignored id ranks (s : State C A) :
  handle (client.ServerRoleRanksUpdate _ _ id ranks) s = (Ok (true, client.ServerRoleRanksUpdate _ _ id ranks), s).
Proof. reflexivity. Qed.

(** A topic that is both added and removed in a queue stays subscribed on the Redis
    connection while the client thinks it is not; removing it again does nothing. *)
Lemma crossed_topic_stays topics (s s' : State C A) topics' add remove t :
  taken now s = Ok (SubscriptionStateChange.Change add remove) -> t ∈ add -> t ∈ remove ->
  sync now topics s = (Ok topics', s') ->
  t ∈ topics' /\ (t ∉ st_subscribed s') /\ remove_subscription t s' = (Ok tt, s').
Proof.
  intros Hq Ha Hr. unfold sync. intros (st & s1 & E & E1)%M_bind_Ok_inv.
  unfold taken in Hq. rewrite E in Hq. injection Hq as ->.
  apply M_bind_Ok_inv in E1 as (sub & s2 & E2 & E1). injection E2 as <- <-. injection E1 as <- <-.
  apply apply_state_inv in E as (s0 & Hs & Hst & -> & Es). simpl in Es.
  assert (t ∉ st_subscribed s1) as Hn by (rewrite Es, elem_of_removes; tauto).
  split_and!; [by rewrite elem_of_adds; left|done|].
  unfold remove_subscription. simpl. by rewrite bool_decide_false.
Qed.

(** Removing a topic between a reset and the next turn panics. *)
Lemma remove_during_reset_panics t (s : State C A) :
  st_state s = SubscriptionStateChange.Reset -> t ∈ st_subscribed s -> remove_subscription t s = (Panicked, s).
Proof. intros Hs Ht. unfold remove_subscription. by rewrite bool_decide_true, Hs by done. Qed.

(** A signal for one user is published to the topic that everybody hears who
    follows that user: a client that shares a group with the user gets it. *)
Lemma relayed_signal_is_public members user target channel (payload : Json) group (s : State C A) :
  user ∈ members -> target ∈ members ->
  exists s', handle (client.ChannelGroupJoin _ _ group target) s
             = (Ok (true, client.ChannelGroupJoin _ _ group target), s')
    /\ forall topic event, (topic, event) ∈ relay_signal (Interaction := Interaction) (Ok (Some members)) user channel (Some target) payload
       -> topic ∈ st_subscribed s'.
Proof.
  intros Hu Ht. destruct (insert_ok target s) as (s1 & E & Hc & Hs). exists s1. split.
  - unfold handle_incoming_event_v1, look_at_event. unfold mbind, M_bind. rewrite E. reflexivity.
  - intros topic event. unfold relay_signal, contains. rewrite !bool_decide_true by done. simpl.
    intros [= -> ->]%list_elem_of_singleton. rewrite Hs. set_solver.
Qed.

(** An update of a user that reaches a client over several topics is forwarded
    once: while the cache of seen events remembers its identifier it is dropped,
    and the identifier is not shown to the client. *)
Theorem user_update_forwarded_once `{LL : !LruLaws C 20} id data clear event_id (s s1 s2 : State C A) r1 r2 :
  handle (client.UserUpdate _ _ id data clear (Some event_id)) s = (Ok r1, s1) ->
  handle (client.UserUpdate _ _ id data clear (Some event_id)) s1 = (Ok r2, s2) ->
  (r1.1 = true -> r1.2 = client.UserUpdate _ _ id data clear None)
  /\ (r1.1 = false -> event_id ∈ lru_keys (c_seen_events (st_cache s)))
  /\ r2.1 = false /\ s2 = s1 /\ st_subscribed s1 = st_subscribed s.
Proof.
  unfold handle_incoming_event_v1, look_at_event, with_cache, mbind, M_bind, reads, modify, mret, M_ret. simpl.
  rewrite lru_contains_law. case_bool_decide as Hin; simpl.
  - intros [= <- <-]. rewrite lru_contains_law, bool_decide_true by done. simpl. intros [= <- <-]. done.
  - intros [= <- <-]. simpl. rewrite lru_contains_law, lru_put_law.
    rewrite bool_decide_true by (unfold touch; simpl; set_solver). simpl. intros [= <- <-]. done.
Qed.
End Mistakes.

Module BonfireWitness.
Import ModelOps.SomePriority PermissionSpec.Example RedisWitness.

(** Seen events as a list, servers that never expire. *)
#[local] Instance seen : LruCache (list string) := ListLru.list_lru 20.
#[local] Instance seen_laws : LruLaws (list string) 20 := ListLru.list_lru_laws 20.
#[local] Instance never_expires : TimedCache (list string) := {|
  notify_iter _ l := (map TimedEntry.Valid l, l);
  contains_key _ k l := bool_decide (k ∈ l);
  tc_insert _ k l := k :: l |}.
Local Abbreviation St := (State (list string) (list string)).

Definition s0 : St := State_from [] [] (user "member") "session".
Definition created : client.EventV1 unit unit := client.ChannelCreate _ _ (Channel_to_v0 (Channel.TextChannel channel)).
Definition s1 : St := (sync 0 ∅ s0).2.
Definition s2 : St := (listen ReferenceDb_default 0 created s1).2.

Lemma event_server_topics_agree_witness :
  exists topics' s', sync 0 (st_subscribed s1) s2 = (Ok topics', s') /\ topics' = st_subscribed s'.
Proof.
  destruct (sync 0 (st_subscribed s1) s2) as [[topics'| |] s'] eqn:E; [|vm_compute in E; discriminate..].
  exists topics', s'. split; [reflexivity|].
  apply (event_server_topics_agree (D := ReferenceDb) (Json := unit) (Interaction := unit)
    ∅ (st_subscribed s1) s2 0 (SubscriptionStateChange.Change ["channel"] [])); [|vm_compute; reflexivity|exact E|].
  - apply (connected_turn ∅ ∅ s0 SubscriptionStateChange.Reset (st_subscribed s1) s1 ReferenceDb_default 0
      created (Some created, false)).
    + by apply connected_start.
    + vm_compute. reflexivity.
    + vm_compute. reflexivity.
    + vm_compute. reflexivity.
  - vm_compute. reflexivity.
Defined.

(** A client in a server, with a channel that it may not see any more. *)
Definition hidden : TextChannel := {|
  t_id := "channel"; t_server := "server"; t_name := "General"; t_description := None;
  t_icon := None; t_last_message_id := None;
  t_default_permissions := Some {| of_a := 0; of_d := ChannelPermission.ViewChannel |};
  t_role_permissions := ∅; t_nsfw := false; t_voice := None; t_encrypted := false |}.
Definition in_server : St := {|
  st_cache := {| c_user_id := "member"; c_is_bot := false; c_users := {[ "member" := user "member" ]};
    c_channels := {[ "channel" := Channel.TextChannel hidden ]};
    c_members := {[ "server" := member [] None ]}; c_servers := {[ "server" := server ∅ ]}; c_seen_events := [] |};
  st_session_id := "session"; st_private_topic := "member!"; st_state := SubscriptionStateChange.None;
  st_subscribed := {[ "channel"; "server" ]}; st_active_servers := [] |}.
Definition updated : client.EventV1 unit unit := client.ServerRoleDelete _ _ "server" "role".

Lemma fetches_nothing_else : fetches_what_was_asked ReferenceDb_default.
Proof.
  intros ids chans ch. simpl. unfold Ref.fetch_channels. revert chans.
  destruct ids as [|i ids]; simpl; [intros chans [= <-] Hc; by apply elem_of_nil in Hc|].
  unfold get_or. simpl. by rewrite lookup_empty.
Qed.

Lemma recalculated_server_visible_witness :
  exists event' s', recalculate_server ReferenceDb_default 0 "server" updated in_server = (Ok event', s')
    /\ c_channels (st_cache s') !! "channel" = None /\ ("channel" ∉ st_subscribed s').
Proof.
  destruct (recalculate_server ReferenceDb_default 0 "server" updated in_server) as [[event'| |] s'] eqn:E;
    [|vm_compute in E; discriminate..].
  exists event', s'. split; [reflexivity|].
  destruct (recalculated_server_visible ReferenceDb_default 0 "server" updated in_server s' (server ∅) event'
    fetches_nothing_else eq_refl E) as (_ & Hgone & _).
  destruct (Hgone "channel" (Channel.TextChannel hidden)) as [(Hv & _)|(_ & H1 & H2 & _)];
    [reflexivity|reflexivity|vm_compute in Hv; discriminate|]. by split.
Defined.

(** Bob is in a call of the server when the client connects. *)
#[local] Instance services : TextServices := {| to_lowercase s := s; cure s := s; ulid_timestamp_ms _ := Some 0 |}.
Definition lounge : TextChannel := {|
  t_id := "channel"; t_server := "server"; t_name := "Lounge"; t_description := None; t_icon := None;
  t_last_message_id := None; t_default_permissions := None; t_role_permissions := ∅; t_nsfw := false;
  t_voice := Some VoiceInformation_default; t_encrypted := false |}.
Definition bob : Member := {|
  m_id := {| mk_server := "server"; mk_user := "bob" |}; m_joined_at := 0; m_nickname := None;
  m_avatar := None; m_roles := ["admin"]; m_timeout := None; m_can_publish := true; m_can_receive := true |}.
Definition with_bob : ReferenceDb :=
  set_users {[ "member" := user "member"; "bob" := user "bob" ]}
    (set_servers {[ "server" := server ∅ ]}
      (set_channels {[ "channel" := Channel.TextChannel lounge ]}
        (set_server_members {[ m_id (member [] None) := member [] None; m_id bob := bob ]} ReferenceDb_default))).
Definition in_call : Store := (create_voice_state "channel" (Some "server") "bob" 1000 ∅).2.

(** The client's own membership is replaced by that of somebody in a call. *)
Lemma ready_caches_other_member :
  match generate_ready_payload (Json := unit) (Interaction := unit) with_bob 0 (fun t => 0 <=? t) None
          ReadyPayloadFields_default (s0, in_call) with
  | (Ok _, (s, _)) => c_members (st_cache s) !! "server" = Some bob /\ c_user_id (st_cache s) = "member"
  | _ => False
  end.
Proof. vm_compute. split; reflexivity. Qed.

(** The owner of the server becomes a friend. *)
Definition owner_shown : v0.User :=
  match into_known_static None false (user "owner") with
  | Ok u => u
  | _ => show_user (user "owner") 0 [] false None v0.RelationshipStatus.Friend
  end.

Lemma relationship_event_reveals_channels_witness :
  can_view_channel ReferenceDb_default 0 (st_cache in_server) (Channel.TextChannel hidden) = Ok false
  /\ can_view_channel ReferenceDb_default 0 (st_cache (handle_incoming_event_v1 (Json := unit) (Interaction := unit)
       ReferenceDb_default 0 (client.UserRelationship _ _ "member" owner_shown) in_server).2)
       (Channel.TextChannel hidden) = Ok true.
Proof.
  split; [vm_compute; reflexivity|].
  destruct (handle_incoming_event_v1 (Json := unit) (Interaction := unit) ReferenceDb_default 0
    (client.UserRelationship _ _ "member" owner_shown) in_server) as [[r| |] s'] eqn:E;
    [|vm_compute in E; discriminate..].
  apply (relationship_event_reveals_channels (Json := unit) (Interaction := unit) ReferenceDb_default 0 owner_shown
           in_server s' r (server ∅) (member [] None) hidden); [reflexivity..|vm_compute; reflexivity|exact E].
Defined.

Definition online : v0.PartialUser := {|
  v0.pu_id := None; v0.pu_username := None; v0.pu_discriminator := None; v0.pu_display_name := None;
  v0.pu_avatar := None; v0.pu_relations := None; v0.pu_badges := None; v0.pu_status := None;
  v0.pu_flags := None; v0.pu_privileged := None; v0.pu_bot := None; v0.pu_relationship := None;
  v0.pu_online := Some true; v0.pu_subscription := None; v0.pu_active_decorations := None;
  v0.pu_presence_style := None |}.
Definition came_online : client.EventV1 unit unit := client.UserUpdate _ _ "bob" online [] (Some "e1").
Definition heard (s : St) := handle_incoming_event_v1 ReferenceDb_default 0 came_online s.

Lemma user_update_forwarded_once_witness :
  exists r2 s', heard (heard in_server).2 = (Ok r2, s') /\ r2.1 = false /\ s' = (heard in_server).2.
Proof.
  destruct (heard in_server) as [[r1| |] s'] eqn:E1; [|vm_compute in E1; discriminate..].
  destruct (heard s') as [[r2| |] s''] eqn:E2;
    [|vm_compute in E1; injection E1 as <- <-; vm_compute in E2; discriminate..].
  exists r2, s''. split; [exact E2|].
  destruct (user_update_forwarded_once ReferenceDb_default 0 "bob" online [] "e1" in_server s' s'' r1 r2 E1 E2)
    as (_ & _ & H3 & H4 & _). by split.
Defined.
End BonfireWitness.
